(* ===== verification/_CoqProject ===== *)
-Q . S2P
Prelude.v
Python.v
JsonText.v
Choices.v
Orm.v
Models.v
NotificationModels.v
World.v
Apps.v
Sample.v
Counters.v
Invariant.v
Campaigns.v
Providers.v
Notifications.v
Ledger.v
Risk.v
Receipts.v
Payments.v
Refunds.v
Disbursements.v
Reconciliation.v
AuditTrail.v
Otp.v
Regex.v
Normalizers.v
PasswordPolicy.v
Decimal.v
LmsModels.v
LmsSample.v
Learning.v
Quiz.v
Text.v
ClientIp.v
AccountModels.v
Sessions.v
Accounts.v
AccountSample.v
SessionSafety.v
AccountSafety.v
AccountIdentifiers.v
R4JModels.v
R4JFields.v
R4JApplicators.v
R4JCriminals.v
R4JReports.v
R4JBounties.v
R4JSystem.v
R4JSample.v
R4JCounters.v
R4JEvidence.v
R4JPublic.v
R4JReview.v
R4JWorkflow.v
Places.v
KindnessModels.v
KindnessContacts.v
KindnessWall.v
KindnessImages.v
KindnessViews.v
KindnessBeacons.v
KindnessSystem.v
KindnessSample.v
SupportModels.v
SupportSample.v
ServiceLevel.v
SupportTaxonomy.v
SupportTriage.v
SupportTickets.v
SupportCounters.v
SupportBreaches.v
SupportWorkflow.v
SupportRouting.v
Control.v
Records.v
System.v
