(* ===== verification/Prelude.v ===== *)
(** * Verification of setad-jang

    The repository is a Django backend: a charity platform where donors buy
    shares of campaigns ("madadkar"), with a payment ledger, refunds, receipts,
    an audit trail, notifications, accounts with one-time codes, a learning
    platform with quizzes and certificates, a support desk with service levels,
    rewards for information about wanted persons ("r4j"), a wall where needs are
    posted ("kindness wall"), and several further applications.  This library models the services that carry its rules and
    proves that they keep them.

    ** How the program is modelled

    A Django model class is a record, its table a finite map from primary keys
    to rows with the next key ([Orm.v]: [Table], the classes [Model] and
    [ModelLaws]); a query set is a filtered map, [save] an update of the listed
    columns, and the constraints of the table a boolean test that every stored
    row has to pass.  A service is a computation [comp R S E A] of this file: it
    reads an environment [R] (time, settings, and as functions the code outside
    the repository), threads the database [S], and returns or raises; [atomic]
    is [transaction.atomic], which undoes the block when an exception leaves
    it, and a raise outside keeps what was written before.  A row locked by
    [select_for_update] is held to the end of the atomic block, so an atomic
    block is one step; a service that is not atomic is cut where the code
    leaves the database, and the system of its component interleaves the parts.
    An instance handed to a service is the row as it was when it was read, which
    may be older than the stored row.

    ** Files

    - [Prelude.v]: computations, their inversion ([comp_inv], [comp_run]) and
      the frames [moves] and [throws]; record update; sums over tables.
    - [Python.v], [JsonText.v], [Regex.v]: strings, JSON values and their text,
      numerals, dates, regular expressions of the standard library.
    - [Orm.v]: tables, managers and query sets ([src/apps/core/managers.py],
      [src/apps/core/models.py]).
    - [Choices.v], [Models.v], [NotificationModels.v]: the enumerations, the
      data and the constraints of [src/apps/madadkar/], [notifications/] and
      [activity/].
    - [World.v], [Sample.v]: the environment, the exceptions and the database
      of the madadkar services; a concrete one for witnesses.
    - [Counters.v]: [_sync_campaign_counters] and completion of a campaign.
    - [Invariant.v]: what the tables of money and shares satisfy ([core_ok]) and
      how rows may change ([core_le]).
    - [Campaigns.v], [Payments.v], [Refunds.v], [Disbursements.v], [Ledger.v],
      [Receipts.v], [Risk.v], [Reconciliation.v], [Control.v]: the services of
      [src/apps/madadkar/services.py] with [reconciliation.py] and [tasks.py].
    - [Providers.v]: the gateways of [src/apps/madadkar/payment_providers/],
      with the contract of the abstract class as the class [LawfulProvider].
    - [Notifications.v]: the notification engine and the activity timeline.
    - [AuditTrail.v]: the hash chain of [src/apps/audit_logs/].
    - [Otp.v]: one-time codes and guards of [src/apps/authentication/].
    - [Normalizers.v], [PasswordPolicy.v]: [normalizers.py] and
      [password_policy.py] of [src/apps/authentication/].
    - [ClientIp.v]: [src/apps/core/client_ip.py].
    - [AccountModels.v], [AccountSample.v]: the data of the accounts
      ([models.py], [choices.py] of [src/apps/authentication/]), the database
      [AuthDB], the exceptions; a concrete site.
    - [Sessions.v], [Accounts.v]: [src/apps/authentication/services.py] with
      [managers.py], [selectors.py], [backends.py], [tasks.py] and the refresh of
      [serializers.py]: tokens, sessions and their cache, risk signals; users and
      their identifiers, signing up and in, passwords, profiles.
    - [SessionSafety.v], [AccountSafety.v], [AccountIdentifiers.v]: the theorems
      about them.
    - [Apps.v]: an application beside the site, with tables of its own around
      the site's ([App]); look-ups that create, ordered query sets, free slugs.
    - [Decimal.v]: Python's decimal arithmetic, as the marks and percentages use it.
    - [LmsModels.v], [LmsSample.v]: the data of the learning platform
      ([src/apps/lms/models.py], [choices.py]), a database [LmsDB] that holds that
      of the site, and a concrete class for witnesses.
    - [Learning.v], [Quiz.v]: [src/apps/lms/services.py]: courses, lessons,
      enrollments and progress; quizzes, attempts, marks and certificates.
    - [R4JModels.v]: the data of [src/apps/r4j/] ([models.py], [choices.py]), its
      database [R4JDB], environment and exceptions.
    - [R4JFields.v]: [field_applicators.py], [validators.py] and the dates of
      Python; [R4JCriminals.v], [R4JReports.v], [R4JBounties.v]: [services.py]
      with what the public and a reviewer read ([selectors.py], [managers.py],
      the public serializers): profiles, evidence and its custody, visibility;
      reports and their review; bounties.
    - [R4JSystem.v], [R4JSample.v]: these services as a transition system, with
      the calculus [runs] for what a service does to the tables; a story of
      requests.
    - [R4JApplicators.v], [R4JCounters.v], [R4JEvidence.v], [R4JPublic.v],
      [R4JReview.v], [R4JWorkflow.v]: the theorems about them.
    - [Text.v]: strings as UTF-8 with operations on code points, and binary64
      numbers, for the support desk and the kindness wall.
    - [Places.v]: the official provinces and cities of [src/apps/core/geo/].
    - [KindnessModels.v]: the data of [src/apps/kindness_wall/] ([models.py],
      [choices.py]), its database [KindDB], environment and exceptions;
      [KindnessContacts.v]: [validators.py] and the channels of a listing;
      [KindnessWall.v]: [services.py], the [save] methods, the input
      [serializers.py] with the views of [views_admin.py] that create and edit,
      offers and the task of [tasks.py]; [KindnessImages.v]: pictures and covers;
      [KindnessViews.v]: the count of views, with the clean-up of its marks.
    - [KindnessBeacons.v]: [register_listing_view] cut into its statements, in
      several processes that share the database; [KindnessSystem.v]: all requests
      to the wall as a transition system; [KindnessSample.v]: a concrete wall.
    - [SupportModels.v], [SupportSample.v]: its data ([models.py], [choices.py]
      of [src/apps/support_desk/]), the database [SupportDB], a concrete desk.
    - [ServiceLevel.v], [SupportTaxonomy.v], [SupportTriage.v],
      [SupportTickets.v]: [src/apps/support_desk/services.py] and [tasks.py]:
      calendars, policies and deadlines; the departments, the tree of categories
      and what else is configured; words, duplicates, tags and recommendations;
      the tickets, their conversation, workflow, assignment and escalation.
    - [SupportCounters.v], [SupportBreaches.v], [SupportWorkflow.v],
      [SupportRouting.v]: the theorems about tickets: the counters, the periodic
      task, the workflow against an abstract machine, the recommendation.
    - [Records.v], [System.v]: all madadkar services as one transition system.

    ** What is proved

    - The madadkar system ([System.v]): [call] is any service with any
      arguments, [step] a call of a service that is handed what it trusts
      without reading the row again ([service P m]: publishing, closing, expiry,
      the storing of a payment and the like get the instance as it is stored).
      Over every sequence of steps, so of service calls and transactions of
      several users, the online shares of a campaign stay within its total, and
      together with the offline ones within the largest total it has had; its
      denormalised counters are what its rows say, a payment and its
      participation agree, refunds stay within their payment, and rows only
      move forward in their life cycles.  Examples show the calls that are no
      steps and what each of them breaks.  The ledger, the evidence of receipts
      and the check constraints of the campaigns are kept along every call
      ([Records.v]).  The invariant [core_ok] bounds what is taken of a campaign
      by a [Bound], the total itself being open to edits.
    - Single services: what [verify_payment], [initiate_participation], refunds,
      adjustments, disbursements and receipts do on each branch, errors
      included, and the round trip of a receipt through its public check.
    - The audit trail: any interleaving of writers yields one chain that
      verifies; a verified head commits to the history; and where it fails.
    - One-time codes: a code is spent once and guesses are bounded under any
      interleaving; a code that was sent verifies; a failed delivery leaves no
      trace; the cooldown refuses a second code.
    - Identifiers have one canonical form; the password policy accepts exactly
      the passwords of its specification.
    - Accounts: an email or a phone number belongs to one account in every state
      the services reach; a session that was revoked is locked out within a
      minute, whatever the requests in flight do to the cache; a new password
      ends every session of the owner of the identifier; wrong codes of the atomic
      services are not counted, which is a finding;
      behind trusted proxies a client cannot forge its address.
    - The learning platform: progress never goes back, percentages stay within
      bounds, a finished course completes, lessons are taken in order, enrolling
      is idempotent; starts of a quiz that run at once never exceed the attempts
      allowed, marks are the share of the weights earned, passing brings the
      certificate, and the state shown to the client mirrors what a start does.
    - The support desk: a deadline is the instant before which exactly the
      promised minutes of business time pass, but for what each day is cut to whole
      minutes; a category never comes to lie
      below itself; the counters of a ticket are what its timeline holds along
      every run of its services, on whatever old copies of the ticket they work,
      but for the edit of a draft, which saves the whole object and gets the row
      as it is stored ([careful_step] beside [desk_step]); the services of the
      workflow move a ticket as an abstract machine does, which agrees with the
      rules of [docs/SUPPORT_DESK_BLUEPRINT.md] but for the cases that [departs]
      lists; the time the desk waits for its client is not charged; the periodic
      task leaves no overdue ticket without its flags; the least loaded
      administrator is recommended.
    - Rewards for justice: every stored file of evidence has an entry with its
      hash in the chain of custody, which only grows but for the removal of an
      official document; a review settles a report, its verdict, the profile and
      every suggestion; what the public sees of a profile is a function of the
      public part of the database (noninterference); the figures of a profile
      are those of its bounties, on whatever old objects the services work;
      with objects that are up to date reports and bounties keep to their
      workflows; an applied value reads back as itself, for dates over the whole
      calendar.

    - The kindness wall: a viewer counts once in a window however the statements
      of several processes interleave and whatever their caches hold, as long as
      the table of marks can be reached and no request outlives the windows whose
      marks are kept; a listing never has two covers, and one with pictures has one as
      long as no cover is switched off by hand and pictures are saved and deleted
      as they are stored ([careful_request] beside [any_request]); enough runs of the
      task leave nothing published whose time is over; a number is stored in one
      form and dialled in one, whatever its notation.

    ** Bounds and fuel

    Integers are unbounded as in Python; the range of a column is part of its
    table's constraint, so an overflow is a refused row.  Recursion is
    structural; the loops that retry are bounded by the code itself (eight
    attempts of an audit insert, 9,999 candidates for the slug of a campaign),
    but for the slugs of the learning platform, whose loop gets as fuel one more
    than the number of rows: [unique_slug_found] proves that enough.  The task on
    expired tokens runs the batches it is given.  The slugs of a profile and of the wall
    have the same fuel ([criminal_slug_is_found], [wall_slug_is_found]).  A run of
    the wall's task takes a thousand listings, as the code does.  The walk
    over the days of a calendar ends with the last day a date can be
    ([ServiceLevel.max_day]), where Python raises as well; a policy without any
    opening is that case.  The paths below a category
    are refreshed through as many levels as the depth column counts, which the
    recursion never exhausts ([SupportTaxonomy.moving_ends]).  Times are microseconds.  Strings are
    sequences of characters up to code point 255, but for passwords, which are
    lists of code points, and for the support desk and the wall, whose strings are
    UTF-8, with places and contacts as lists of code points.

    ** Parameters

    SHA-256, HMAC, UUIDs, shuffling and other random generators, the PDF of a
    certificate, the storage of files, HTTP, mail and SMS, Django's slugs and address normalisation,
    the Unicode database, the zones of the time-zone database, the collation of
    the database, [repr] of floats, the hash of passwords, the operations of the
    JWT library on its tokens and tables ([TokenOps]): functions of the environment or of a
    section.  A theorem that relies on one of them says
    so in a hypothesis or names the collision it would take.

    ** Not modelled

    Views, serializers (but for the refresh of a token), permissions, throttles,
    admin pages, spreadsheets and files, the Celery machinery, caches of HTTP
    responses, signed links to media and the processing of videos: they pass
    what they receive to the modelled services or are input and output.  The
    discussions under a lesson, the statistics and suggested answers of the
    support desk, the lists and filters of the r4j administration and the cache
    of its public pages, the pages, figures, exports and the administration of the
    kindness wall, the cache-invalidation outbox, the dashboards and the synchronisation of tabyin are left out: they write no
    table of the modelled parts but the users and the audit trail.
    The cache of sessions is not undone with a transaction; its time stamps are
    microseconds where the code has floats of seconds.  [create_superuser] is
    modelled and stands outside the theorem about identifiers, as it is run from
    a console and normalises an email differently. *)

From stdpp Require Export base gmap strings list fin_maps pretty.
From Stdlib Require Export ZArith Lia.

#[global] Open Scope Z_scope.

(** * Results and effectful computations *)

Inductive outcome (E A : Type) : Type :=
| Ok (a : A)
| Raise (e : E).
Arguments Ok {E A} a.
Arguments Raise {E A} e.

(** A computation reads an environment, threads a state and either returns
    or raises; the state reached at a raise is kept, only [atomic] undoes it. *)
Definition comp (R S E A : Type) : Type := R -> S -> outcome E A * S.

Section Comp.
Context {R S E : Type}.

#[global] Instance comp_ret : MRet (comp R S E) := fun A a _ s => (Ok a, s).

#[global] Instance comp_bind : MBind (comp R S E) := fun A B k m r s =>
  match m r s with
  | (Ok a, s') => k a r s'
  | (Raise e, s') => (Raise e, s')
  end.

#[global] Instance comp_fmap : FMap (comp R S E) := fun A B f m r s =>
  match m r s with
  | (Ok a, s') => (Ok (f a), s')
  | (Raise e, s') => (Raise e, s')
  end.

Definition raise {A} (e : E) : comp R S E A := fun _ s => (Raise e, s).

Definition ask : comp R S E R := fun r s => (Ok r, s).

Definition get_state : comp R S E S := fun _ s => (Ok s, s).

Definition modify (f : S -> S) : comp R S E unit := fun _ s => (Ok tt, f s).

(** A value read off the state. *)
Definition query {A} (f : S -> A) : comp R S E A := fun _ s => (Ok (f s), s).

(** [if c: raise e] *)
Definition raise_if (c : bool) (e : E) : comp R S E unit :=
  if c then raise e else mret tt.

(** [with transaction.atomic()]: an exception leaving the block undoes it. *)
Definition atomic {A} (m : comp R S E A) : comp R S E A := fun r s =>
  match m r s with
  | (Ok a, s') => (Ok a, s')
  | (Raise e, _) => (Raise e, s)
  end.

(** [try: m except: h], with the exceptions [h] declines passed on. *)
Definition try_catch {A} (m : comp R S E A) (h : E -> option (comp R S E A)) :
    comp R S E A := fun r s =>
  match m r s with
  | (Ok a, s') => (Ok a, s')
  | (Raise e, s') => match h e with
                     | Some m' => m' r s'
                     | None => (Raise e, s')
                     end
  end.

Lemma bind_unfold {A B} (m : comp R S E A) (k : A -> comp R S E B) r s :
  (m ≫= k) r s = match m r s with
                 | (Ok a, s') => k a r s'
                 | (Raise e, s') => (Raise e, s')
                 end.
Proof. reflexivity. Qed.

Lemma bind_ok {A B} (m : comp R S E A) (k : A -> comp R S E B) r s a s1 :
  m r s = (Ok a, s1) -> (m ≫= k) r s = k a r s1.
Proof. intros H. by rewrite bind_unfold, H. Qed.

Lemma bind_raise {A B} (m : comp R S E A) (k : A -> comp R S E B) r s e s1 :
  m r s = (Raise e, s1) -> (m ≫= k) r s = (Raise e, s1).
Proof. intros H. by rewrite bind_unfold, H. Qed.

(** Inversion of a run that returned. *)
Lemma bind_ok_inv {A B} (m : comp R S E A) (k : A -> comp R S E B) r s b s2 :
  (m ≫= k) r s = (Ok b, s2) ->
  exists a s1, m r s = (Ok a, s1) /\ k a r s1 = (Ok b, s2).
Proof. rewrite bind_unfold. destruct (m r s) as [[a|e] s1]; [eauto|done]. Qed.

Lemma ret_ok_inv {A} (a b : A) (r : R) (s s' : S) :
  (mret a : comp R S E A) r s = (Ok b, s') -> a = b /\ s' = s.
Proof. intros [= -> ->]. done. Qed.

Lemma raise_ok_inv {A} (e : E) (b : A) (r : R) (s s' : S) :
  raise e r s = (Ok b, s') -> False.
Proof. done. Qed.

Lemma ask_ok_inv (r a : R) (s s' : S) :
  ask r s = (Ok a, s') -> a = r /\ s' = s.
Proof. by intros [= -> ->]. Qed.

Lemma get_state_ok_inv (r : R) (s a s' : S) :
  get_state r s = (Ok a, s') -> a = s /\ s' = s.
Proof. by intros [= -> ->]. Qed.

Lemma modify_ok_inv f (r : R) (s s' : S) u :
  modify f r s = (Ok u, s') -> s' = f s.
Proof. by intros [= _ ->]. Qed.

Lemma query_ok_inv {A} (f : S -> A) (r : R) (s s' : S) a :
  query f r s = (Ok a, s') -> a = f s /\ s' = s.
Proof. by intros [= -> ->]. Qed.

Lemma raise_if_ok_inv c e u (r : R) (s s' : S) :
  raise_if c e r s = (Ok u, s') -> c = false /\ s' = s.
Proof. destruct c; [done|by intros [= _ ->]]. Qed.

Lemma atomic_ok_inv {A} (m : comp R S E A) r s a s' :
  atomic m r s = (Ok a, s') -> m r s = (Ok a, s').
Proof. unfold atomic. by destruct (m r s) as [[?|?] ?]. Qed.

Lemma atomic_ok {A} (m : comp R S E A) r s a s' :
  m r s = (Ok a, s') -> atomic m r s = (Ok a, s').
Proof. unfold atomic. by intros ->. Qed.

Lemma atomic_raise {A} (m : comp R S E A) r s e s' :
  m r s = (Raise e, s') -> atomic m r s = (Raise e, s).
Proof. unfold atomic. by intros ->. Qed.

(** An atomic block that raises leaves the state as it found it. *)
Lemma atomic_raise_inv {A} (m : comp R S E A) r s e s' :
  atomic m r s = (Raise e, s') -> s' = s.
Proof. unfold atomic. destruct (m r s) as [[?|?] ?]; naive_solver. Qed.

(** So a property of states survives an atomic block as soon as it survives
    the runs that return. *)
Lemma atomic_preserves {A} (I : S -> Prop) (m : comp R S E A) r s :
  I s ->
  (forall a s', m r s = (Ok a, s') -> I s') ->
  I (atomic m r s).2.
Proof.
  intros Hs Hok. unfold atomic.
  destruct (m r s) as [[a|e] s'] eqn:Hm; simpl; eauto.
Qed.

Lemma raise_if_true c e (r : R) (s : S) :
  c = true -> raise_if c e r s = (Raise e, s).
Proof. by intros ->. Qed.

Lemma raise_if_false c e (r : R) (s : S) :
  c = false -> raise_if c e r s = (Ok tt, s).
Proof. by intros ->. Qed.

End Comp.

(** ** Inverting a run that returned *)

(** [comp_inv H] splits [H : (m ≫= k) r s = (Ok b, s')] into the runs of its
    parts and inverts the primitive ones; a file that adds primitives extends
    [comp_prim]. *)
Ltac comp_prim H := idtac.
Ltac comp_inv1 H :=
  lazymatch type of H with
  | mbind _ _ _ _ = (Ok _, _) =>
      let a := fresh "a" in let s := fresh "s" in
      let H1 := fresh "H" in let H2 := fresh "H" in
      apply bind_ok_inv in H as (a & s & H1 & H2);
      comp_inv1 H1; cbv beta iota in H2; comp_inv1 H2
  | mret _ _ _ = (Ok _, _) =>
      apply ret_ok_inv in H as [? ?]; try subst
  | raise _ _ _ = (Ok _, _) => exfalso; exact (raise_ok_inv _ _ _ _ _ H)
  | ask _ _ = (Ok _, _) => apply ask_ok_inv in H as [? ?]; try subst
  | get_state _ _ = (Ok _, _) =>
      apply get_state_ok_inv in H as [? ?]; try subst
  | modify _ _ _ = (Ok _, _) => apply modify_ok_inv in H; try subst
  | raise_if _ _ _ _ = (Ok _, _) =>
      let Hc := fresh "Hc" in apply raise_if_ok_inv in H as [Hc ?]; try subst
  | atomic _ _ _ = (Ok _, _) => apply atomic_ok_inv in H; comp_inv1 H
  | query _ _ _ = (Ok _, _) => apply query_ok_inv in H as [? ?]; try subst
  | _ => comp_prim H
  end.
Ltac comp_inv H := cbv beta in H; comp_inv1 H.

(** [comp_run] inverts every run in the context and splits on the conditions
    it meets. *)
Ltac comp_run :=
  repeat (cbv beta zeta in *;
    match goal with
    | H : (match ?x with _ => _ end) _ _ = (Ok _, _) |- _ => destruct x eqn:?
    | H : _ _ _ = (Ok _, _) |- _ => progress (comp_inv1 H)
    | H : mbind _ _ _ _ = (Ok _, _) |- _ => comp_inv1 H
    end).

(** ** Loops *)

(** [for x in l: body] with an accumulator. *)
Fixpoint for_fold {R S E A B} (body : A -> B -> comp R S E A) (acc : A)
    (l : list B) : comp R S E A :=
  match l with
  | [] => mret acc
  | x :: l' => body acc x ≫= fun acc' => for_fold body acc' l'
  end.

Lemma for_fold_ok_inv {R S E A B} (I : A -> S -> Prop)
    (body : A -> B -> comp R S E A) l :
  forall acc r s acc' s',
    for_fold body acc l r s = (Ok acc', s') ->
    (forall a b s1 a' s2, I a s1 -> body a b r s1 = (Ok a', s2) -> I a' s2) ->
    I acc s -> I acc' s'.
Proof.
  induction l as [|x l IH]; intros acc r s acc' s' Hrun Hbody HI.
  - simpl in Hrun. comp_inv Hrun. done.
  - simpl in Hrun. apply bind_ok_inv in Hrun as (a & s1 & H1 & H2).
    eapply IH; eauto.
Qed.

(** ** What a run does to the state, whatever its outcome *)

(** [moves T m]: every run of [m], also one that raises, takes the state along
    the preorder [T]. *)
Definition moves {R S E A} (T : S -> S -> Prop) (m : comp R S E A) : Prop :=
  forall r s, T s (m r s).2.

Create HintDb moves discriminated.

Section Moves.
Context {R S E : Type} (T : S -> S -> Prop) `{!PreOrder T}.

Lemma moves_pure {A} (m : comp R S E A) : (forall r s, (m r s).2 = s) -> moves T m.
Proof. intros Hm r s. by rewrite Hm. Qed.

Lemma moves_bind {A B} (m : comp R S E A) (k : A -> comp R S E B) :
  moves T m -> (forall a, moves T (k a)) -> moves T (m ≫= k).
Proof.
  intros Hm Hk r s. specialize (Hm r s). rewrite bind_unfold.
  destruct (m r s) as [[a|e] s1]; simpl in *; [|done].
  etrans; [exact Hm|apply Hk].
Qed.

Lemma moves_raise_if c e : moves T (raise_if c e : comp R S E unit).
Proof. apply moves_pure. intros r s. by destruct c. Qed.

Lemma moves_atomic {A} (m : comp R S E A) : moves T m -> moves T (atomic m).
Proof.
  intros Hm r s. specialize (Hm r s). unfold atomic.
  by destruct (m r s) as [[a|e] s1].
Qed.

Lemma moves_try_catch {A} (m : comp R S E A) h :
  moves T m -> (forall e m', h e = Some m' -> moves T m') -> moves T (try_catch m h).
Proof.
  intros Hm Hh r s. specialize (Hm r s). unfold try_catch.
  destruct (m r s) as [[a|e] s1]; simpl in *; [done|].
  destruct (h e) as [m'|] eqn:He; [|done].
  etrans; [exact Hm|by apply (Hh e)].
Qed.

Lemma moves_for_fold {A B} (body : A -> B -> comp R S E A) l : forall acc,
  (forall acc x, moves T (body acc x)) -> moves T (for_fold body acc l).
Proof.
  induction l as [|x l IH]; intros acc Hbody; simpl.
  - by apply moves_pure.
  - apply moves_bind; eauto.
Qed.

Lemma moves_ok {A} (m : comp R S E A) r s a s' :
  moves T m -> m r s = (Ok a, s') -> T s s'.
Proof. intros Hm Hr. specialize (Hm r s). by rewrite Hr in Hm. Qed.

End Moves.

(** [solve_moves] decomposes a computation; the calls of named services are
    left to the hints of the database [moves]. *)
Ltac solve_moves :=
  repeat first
    [ progress intros
    | solve [auto with moves]
    | apply moves_raise_if; typeclasses eauto
    | apply moves_bind; [typeclasses eauto| |]
    | apply moves_atomic; [typeclasses eauto|]
    | apply moves_for_fold; [typeclasses eauto|]
    | apply moves_pure; [typeclasses eauto|done]
    | case_match ].

(** ** The exceptions a computation can end with *)

(** [throws P m]: an exception that leaves [m] satisfies [P]. *)
Definition throws {R S E A} (P : E -> Prop) (m : comp R S E A) : Prop :=
  forall r s e s', m r s = (Raise e, s') -> P e.

Create HintDb throws discriminated.

Section Throws.
Context {R S E : Type} (P : E -> Prop).

Lemma throws_pure {A} (m : comp R S E A) :
  (forall r s, exists a s', m r s = (Ok a, s')) -> throws P m.
Proof. intros Hm r s e s' H. destruct (Hm r s) as (a & s1 & Ha). congruence. Qed.

Lemma throws_ret {A} (a : A) : throws P (mret a : comp R S E A).
Proof. by intros r s e s'. Qed.

Lemma throws_raise {A} e : P e -> throws P (raise e : comp R S E A).
Proof. intros He r s e' s' [= <- _]. done. Qed.

Lemma throws_raise_if c e : P e -> throws P (raise_if c e : comp R S E unit).
Proof. intros He. destruct c; [by apply throws_raise|apply throws_ret]. Qed.

Lemma throws_bind {A B} (m : comp R S E A) (k : A -> comp R S E B) :
  throws P m -> (forall a, throws P (k a)) -> throws P (m ≫= k).
Proof.
  intros Hm Hk r s e s'. rewrite bind_unfold.
  destruct (m r s) as [[a|e1] s1] eqn:Hr.
  - apply Hk.
  - intros [= <- _]. by eapply Hm.
Qed.

Lemma throws_atomic {A} (m : comp R S E A) : throws P m -> throws P (atomic m).
Proof.
  intros Hm r s e s'. unfold atomic. destruct (m r s) as [[a|e1] s1] eqn:Hr; [done|].
  intros [= <- _]. by eapply Hm.
Qed.

Lemma throws_for_fold {A B} (body : A -> B -> comp R S E A) l : forall acc,
  (forall acc x, throws P (body acc x)) -> throws P (for_fold body acc l).
Proof.
  induction l as [|x l IH]; intros acc Hbody; simpl.
  - apply throws_ret.
  - apply throws_bind; eauto.
Qed.

(** What a handler declines passes; what it takes ends as the handler does. *)
Lemma throws_try_catch {A} (m : comp R S E A) h :
  (forall e m', h e = Some m' -> throws P m') ->
  throws (fun e => h e = None -> P e) m -> throws P (try_catch m h).
Proof.
  intros Hh Hm r s e s'. unfold try_catch.
  destruct (m r s) as [[a|e1] s1] eqn:Hr; [done|].
  destruct (h e1) as [m'|] eqn:He.
  - by apply (Hh e1 m').
  - intros [= <- _]. by apply (Hm _ _ _ _ Hr).
Qed.

Lemma throws_weaken {A} (Q : E -> Prop) (m : comp R S E A) :
  throws Q m -> (forall e, Q e -> P e) -> throws P m.
Proof. intros Hm HQ r s e s' H. eauto. Qed.

End Throws.

Ltac solve_throws :=
  repeat first
    [ progress intros
    | solve [auto with throws]
    | apply throws_raise_if; solve [auto with throws]
    | apply throws_raise; solve [auto with throws]
    | apply throws_ret
    | apply throws_bind
    | apply throws_atomic
    | apply throws_for_fold
    | apply throws_pure; intros; solve [eauto]
    | case_match ].

(** * Record update *)

Class Eta (T : Type) : Type := eta_expand : T -> T.
Class Setter {T V : Type} (field : T -> V) : Type := set_field : V -> T -> T.
Arguments set_field {T V} field {_} v r : assert.

Ltac build_setter :=
  lazymatch goal with
  | |- @Setter ?T ?V ?field =>
      let inst := constr:(_ : Eta T) in
      let body := eval hnf in inst in
      let gen := eval pattern field in body in
      lazymatch gen with
      | ?g field =>
          let s := eval cbv beta in (fun (v : V) => g (fun _ : T => v)) in
          exact s
      end
  end.
#[export] Hint Extern 0 (Setter _) => build_setter : typeclass_instances.

Declare Scope record_scope.
Notation "r <| f := v |>" := (set_field f v r)
  (at level 1, left associativity, f at level 10, v at level 200)
  : record_scope.
#[global] Open Scope record_scope.

(** * Aggregates over finite maps *)

(** [Sum(e)] over the rows of a table: [f] maps a row to its contribution. *)
Definition msum {A} (f : A -> Z) (m : gmap Z A) : Z :=
  map_fold (fun _ x acc => f x + acc) 0 m.

(** The set of the values a column takes, for [Count(..., distinct=True)]. *)
Definition mset {A} (f : A -> option Z) (m : gmap Z A) : gset Z :=
  map_fold (fun _ x acc =>
    match f x with Some k => {[ k ]} ∪ acc | None => acc end) ∅ m.

(** A row's contribution to a conditional aggregate. *)
Definition when (b : bool) (z : Z) : Z := if b then z else 0.

Section Aggregates.
Context {A : Type}.
Implicit Types (m : gmap Z A).

Lemma msum_empty (f : A -> Z) : msum f ∅ = 0.
Proof. apply map_fold_empty. Qed.

Lemma msum_insert_new (f : A -> Z) m i x :
  m !! i = None -> msum f (<[i:=x]> m) = f x + msum f m.
Proof.
  intros Hi. unfold msum. rewrite map_fold_insert_L; [done| |done].
  intros. lia.
Qed.

Lemma msum_insert_upd (f : A -> Z) m i x y :
  m !! i = Some y -> msum f (<[i:=x]> m) = msum f m - f y + f x.
Proof.
  intros Hi. rewrite <- (insert_delete_eq m i x).
  rewrite (msum_insert_new f (delete i m) i x) by apply lookup_delete_eq.
  rewrite <- (insert_id m i y Hi) at 2. rewrite <- (insert_delete_eq m i y).
  rewrite (msum_insert_new f (delete i m) i y) by apply lookup_delete_eq. lia.
Qed.

Lemma msum_ext (f g : A -> Z) m :
  (forall i x, m !! i = Some x -> f x = g x) -> msum f m = msum g m.
Proof.
  induction m as [|i x m Hi IH] using map_ind; intros Hfg.
  - by rewrite !msum_empty.
  - rewrite !msum_insert_new by done.
    rewrite (Hfg i x) by apply lookup_insert_eq. f_equal. apply IH.
    intros j y Hj. apply (Hfg j). rewrite lookup_insert_ne; [done|congruence].
Qed.

Lemma msum_add (f g : A -> Z) m : msum (fun x => f x + g x) m = msum f m + msum g m.
Proof.
  induction m as [|i x m Hi IH] using map_ind.
  - by rewrite !msum_empty.
  - rewrite !msum_insert_new by done. lia.
Qed.

Lemma msum_nonneg (f : A -> Z) m :
  (forall i x, m !! i = Some x -> 0 <= f x) -> 0 <= msum f m.
Proof.
  induction m as [|i x m Hi IH] using map_ind; intros Hf.
  - by rewrite msum_empty.
  - rewrite msum_insert_new by done.
    pose proof (Hf i x (lookup_insert_eq _ _ _)).
    enough (0 <= msum f m) by lia.
    apply IH. intros j y Hj. apply (Hf j). rewrite lookup_insert_ne; congruence.
Qed.

Lemma msum_le (f g : A -> Z) m :
  (forall i x, m !! i = Some x -> f x <= g x) -> msum f m <= msum g m.
Proof.
  induction m as [|i x m Hi IH] using map_ind; intros Hf.
  - by rewrite !msum_empty.
  - rewrite !msum_insert_new by done.
    pose proof (Hf i x (lookup_insert_eq _ _ _)).
    enough (msum f m <= msum g m) by lia.
    apply IH. intros j y Hj. apply (Hf j). rewrite lookup_insert_ne; congruence.
Qed.

Lemma msum_elem_le (f : A -> Z) m i x :
  m !! i = Some x -> (forall j y, m !! j = Some y -> 0 <= f y) ->
  f x <= msum f m.
Proof.
  intros Hi Hf.
  rewrite <- (insert_id m i x Hi), <- (insert_delete_eq m i x).
  rewrite msum_insert_new by apply lookup_delete_eq.
  enough (0 <= msum f (delete i m)) by lia.
  apply msum_nonneg. intros j y [_ Hj]%lookup_delete_Some. eauto.
Qed.

Lemma elem_of_mset (f : A -> option Z) m k :
  k ∈ mset f m <-> exists i x, m !! i = Some x /\ f x = Some k.
Proof.
  induction m as [|i x m Hi IH] using map_ind.
  - unfold mset. rewrite map_fold_empty. set_solver.
  - unfold mset. rewrite map_fold_insert_L; [| |done].
    2:{ intros. destruct (f z1), (f z2); set_solver. }
    fold (mset f m).
    transitivity (f x = Some k \/ k ∈ mset f m).
    { destruct (f x); set_solver. }
    rewrite IH. split.
    + intros [Hx|(j & y & Hj & Hy)].
      * exists i, x. by rewrite lookup_insert_eq.
      * exists j, y. rewrite lookup_insert_ne; [done|congruence].
    + intros (j & y & [[<- <-]|[Hne Hj]]%lookup_insert_Some & Hy); eauto.
Qed.

Lemma mset_insert_new_none (f : A -> option Z) m i x :
  m !! i = None -> f x = None -> mset f (<[i:=x]> m) = mset f m.
Proof.
  intros Hi Hx. apply leibniz_equiv. intros k. rewrite !elem_of_mset.
  split; intros (j & y & Hj & Hy).
  - apply lookup_insert_Some in Hj as [[<- <-]|[Hne Hj]]; [congruence|eauto].
  - exists j, y. rewrite lookup_insert_ne; [done|congruence].
Qed.

Lemma mset_insert_upd_same (f : A -> option Z) m i x y :
  m !! i = Some y -> f x = f y -> mset f (<[i:=x]> m) = mset f m.
Proof.
  intros Hi Hx. apply leibniz_equiv. intros k. rewrite !elem_of_mset.
  split; intros (j & z & Hj & Hz).
  - apply lookup_insert_Some in Hj as [[<- <-]|[Hne Hj]]; [|eauto].
    exists i, y. by rewrite <- Hx.
  - destruct (decide (i = j)) as [<-|Hne].
    + exists i, x. rewrite lookup_insert_eq. split; [done|congruence].
    + exists j, z. by rewrite lookup_insert_ne.
Qed.

Lemma mset_ext (f g : A -> option Z) m :
  (forall i x, m !! i = Some x -> f x = g x) -> mset f m = mset g m.
Proof.
  intros Hfg. apply leibniz_equiv. intros k. rewrite !elem_of_mset.
  split; intros (j & y & Hj & Hy); exists j, y; rewrite (Hfg j y Hj) in *; eauto.
Qed.

End Aggregates.
