(* ===== verification/Python.v ===== *)
(** Python values the modelled code computes with: [str] operations, JSON
    values, time stamps.

    A [string] is the sequence of a Python string's characters; the operations
    below agree with Python's on characters up to code point 255.  A time
    stamp is the number of microseconds since the Unix epoch, in UTC. *)

From S2P Require Import Prelude.
From Stdlib Require Import Ascii.
From Stdlib Require Import QArith_base.
#[local] Open Scope Z_scope.
#[local] Set Warnings "-register-all".

(** * Strings *)

Definition is_space (a : ascii) : bool :=
  let n := N_of_ascii a in
  bool_decide (n ∈ [9; 10; 11; 12; 13; 28; 29; 30; 31; 32; 133; 160]%N).

Fixpoint py_lstrip (s : string) : string :=
  match s with
  | EmptyString => EmptyString
  | String a s' => if is_space a then py_lstrip s' else s
  end.

(** [s.rstrip(chars)] for a set of characters given by its test. *)
Fixpoint py_rstrip_by (p : ascii -> bool) (s : string) : string :=
  match s with
  | EmptyString => EmptyString
  | String a s' =>
      match py_rstrip_by p s' with
      | EmptyString => if p a then EmptyString else String a EmptyString
      | t => String a t
      end
  end.

Definition py_strip (s : string) : string := py_rstrip_by is_space (py_lstrip s).

Definition lower_ascii (a : ascii) : ascii :=
  let n := N_of_ascii a in
  if ((65 <=? n) && (n <=? 90) || (192 <=? n) && (n <=? 222) && negb (n =? 215))%N
  then ascii_of_N (n + 32) else a.

Fixpoint py_lower (s : string) : string :=
  match s with
  | EmptyString => EmptyString
  | String a s' => String (lower_ascii a) (py_lower s')
  end.

(** [s.replace(c, "")] *)
Fixpoint py_remove (c : ascii) (s : string) : string :=
  match s with
  | EmptyString => EmptyString
  | String a s' => if Ascii.eqb a c then py_remove c s' else String a (py_remove c s')
  end.

(** [s[:n]] for a non-negative [n] *)
Definition py_prefix (n : nat) (s : string) : string := String.substring 0 n s.

(** [bool(s)] *)
Definition str_true (s : string) : bool := negb (bool_decide (s = EmptyString)).

(** [a or b] on strings *)
Definition str_or (a b : string) : string := if str_true a then a else b.

Fixpoint repeat_char (n : nat) (a : ascii) : string :=
  match n with
  | O => EmptyString
  | S n' => String a (repeat_char n' a)
  end.

(** [f"{z:0{w}d}"] for a non-negative [z] *)
Definition zero_pad (w : nat) (z : Z) : string :=
  let digits := pretty z in
  String.append (repeat_char (w - String.length digits) "0"%char) digits.

(** * JSON values *)

Inductive json : Type :=
| JNull
| JBool (b : bool)
| JInt (z : Z)
| JFloat (q : Q)
| JStr (s : string)
| JArr (l : list json)
| JObj (l : list (string * json)).

(** [d.get(key)] on an object, in insertion order without repeated keys. *)
Fixpoint assoc_get {A} (key : string) (l : list (string * A)) : option A :=
  match l with
  | [] => None
  | (k, v) :: l' => if bool_decide (k = key) then Some v else assoc_get key l'
  end.

(** [d.update({key: v})]: a present key keeps its place. *)
Fixpoint assoc_set {A} (key : string) (v : A) (l : list (string * A)) :
    list (string * A) :=
  match l with
  | [] => [(key, v)]
  | (k, w) :: l' =>
      if bool_decide (k = key) then (k, v) :: l' else (k, w) :: assoc_set key v l'
  end.

(** [bool(v)] *)
Definition json_true (v : json) : bool :=
  match v with
  | JNull => false
  | JBool b => b
  | JInt z => negb (z =? 0)
  | JFloat q => negb (Qeq_bool q 0)
  | JStr s => str_true s
  | JArr l => match l with [] => false | _ => true end
  | JObj l => match l with [] => false | _ => true end
  end.

Definition opt_json (v : option json) : json := default JNull v.

Definition json_opt_int (v : option Z) : json :=
  match v with Some z => JInt z | None => JNull end.

Definition json_opt_str (v : option string) : json :=
  match v with Some s => JStr s | None => JNull end.

(** [str(v)]; the text of floats and containers is [repr_other]. *)
Definition py_str (repr_other : json -> string) (v : json) : string :=
  match v with
  | JNull => "None"
  | JBool true => "True"
  | JBool false => "False"
  | JInt z => pretty z
  | JStr s => s
  | _ => repr_other v
  end%string.

(** ** [json.dumps(v, ensure_ascii=False, sort_keys=True, separators=(",", ":"))] *)

Definition hex_digit (n : N) : ascii :=
  ascii_of_N (if (n <? 10)%N then 48 + n else 87 + n).

Definition escape_char (a : ascii) : string :=
  let n := N_of_ascii a in
  if (n =? 34)%N then String "\" (String a EmptyString)
  else if (n =? 92)%N then String "\" (String a EmptyString)
  else if (n =? 8)%N then "\b"
  else if (n =? 9)%N then "\t"
  else if (n =? 10)%N then "\n"
  else if (n =? 12)%N then "\f"
  else if (n =? 13)%N then "\r"
  else if (n <? 32)%N
  then ("\u00" +:+ String (hex_digit (n / 16)) (String (hex_digit (n mod 16)) EmptyString))%string
  else String a EmptyString.

Fixpoint escape_string (s : string) : string :=
  match s with
  | EmptyString => EmptyString
  | String a s' => (escape_char a +:+ escape_string s')%string
  end.

Definition double_quote : string := String (ascii_of_N 34) EmptyString.

Definition json_quote (s : string) : string :=
  (double_quote +:+ escape_string s +:+ double_quote)%string.

(** Insertion sort of the members by key *)
Fixpoint insert_key {A} (kv : string * A) (l : list (string * A)) : list (string * A) :=
  match l with
  | [] => [kv]
  | kv' :: l' => if String.leb kv.1 kv'.1 then kv :: l else kv' :: insert_key kv l'
  end.
Definition sort_keys {A} (l : list (string * A)) : list (string * A) :=
  foldr insert_key [] l.

Fixpoint json_dumps (repr_float : json -> string) (v : json) : string :=
  match v with
  | JNull => "null"
  | JBool true => "true"
  | JBool false => "false"
  | JInt z => pretty z
  | JFloat _ => repr_float v
  | JStr s => json_quote s
  | JArr l => "[" +:+ String.concat "," (map (json_dumps repr_float) l) +:+ "]"
  | JObj l =>
      "{" +:+ String.concat ","
        (map (fun kt => json_quote kt.1 +:+ ":" +:+ kt.2)
           (sort_keys (map (fun kv => match kv with
                                      | (k, x) => (k, json_dumps repr_float x)
                                      end) l))) +:+ "}"
  end%string.

(** ** [int(v)] *)

Definition digit_value (a : ascii) : option Z :=
  let n := N_of_ascii a in
  if ((48 <=? n) && (n <=? 57))%N then Some (Z.of_N n - 48) else None.

(** Digits, single underscores allowed between them. *)
Fixpoint parse_digits (acc : Z) (after_digit : bool) (s : string) : option Z :=
  match s with
  | EmptyString => if after_digit then Some acc else None
  | String a s' =>
      match digit_value a with
      | Some d => parse_digits (acc * 10 + d) true s'
      | None => if Ascii.eqb a "_"%char && after_digit then parse_digits acc false s'
                else None
      end
  end.

Definition py_int_str (s : string) : option Z :=
  match py_strip s with
  | String "-"%char s' => Z.opp <$> parse_digits 0 false s'
  | String "+"%char s' => parse_digits 0 false s'
  | s' => parse_digits 0 false s'
  end.

(** [None] is a [ValueError] or a [TypeError]. *)
Definition py_int (v : json) : option Z :=
  match v with
  | JInt z => Some z
  | JBool b => Some (if b then 1 else 0)
  | JFloat q => Some (Z.quot (Qnum q) (Zpos (Qden q)))
  | JStr s => py_int_str s
  | JNull | JArr _ | JObj _ => None
  end.

Example py_int_examples :
  (py_int_str " 1_000 ", py_int_str "-7", py_int_str "1__0", py_int_str "")
  = (Some 1000, Some (-7), None, None).
Proof. vm_compute. reflexivity. Qed.

(** [round(q, 4)] on an exact rational, ties to even. *)
Definition round4 (q : Q) : Q :=
  let n := Qnum q * 10000 in
  let d := Zpos (Qden q) in
  let f := n / d in
  let r := n mod d in
  let z := if 2 * r <? d then f
           else if d <? 2 * r then f + 1
           else if Z.even f then f else f + 1 in
  Qmake z 10000.

(** * Time *)

Definition usec_per_min : Z := 60 * 1000000.
Definition usec_per_hour : Z := 60 * usec_per_min.
Definition usec_per_day : Z := 24 * usec_per_hour.

(** Proleptic Gregorian date of a day number counted from 1970-01-01. *)
Definition civil_from_days (days : Z) : Z * Z * Z :=
  let z := days + 719468 in
  let era := z / 146097 in
  let doe := z mod 146097 in
  let yoe := (doe - doe / 1460 + doe / 36524 - doe / 146096) / 365 in
  let doy := doe - (365 * yoe + yoe / 4 - yoe / 100) in
  let mp := (5 * doy + 2) / 153 in
  let d := doy - (153 * mp + 2) / 5 + 1 in
  let m := if mp <? 10 then mp + 3 else mp - 9 in
  let y := yoe + era * 400 in
  (if m <=? 2 then y + 1 else y, m, d).

(** [t.date()], as a day number *)
Definition day_of (t : Z) : Z := t / usec_per_day.

(** [t.strftime("%Y%m%d")] *)
Definition strftime_Ymd (t : Z) : string :=
  let '(y, m, d) := civil_from_days (day_of t) in
  (zero_pad 4 y +:+ zero_pad 2 m +:+ zero_pad 2 d)%string.

(** [t.isoformat()] of an aware UTC time *)
Definition isoformat (t : Z) : string :=
  let '(y, m, d) := civil_from_days (day_of t) in
  let us := t mod usec_per_day in
  let frac := us mod 1000000 in
  (zero_pad 4 y +:+ "-" +:+ zero_pad 2 m +:+ "-" +:+ zero_pad 2 d +:+ "T" +:+
   zero_pad 2 (us / usec_per_hour) +:+ ":" +:+
   zero_pad 2 (us / usec_per_min mod 60) +:+ ":" +:+
   zero_pad 2 (us / 1000000 mod 60) +:+
   (if (frac =? 0)%Z then "" else "." +:+ zero_pad 6 frac) +:+ "+00:00")%string.

Example isoformat_epoch : isoformat 0 = "1970-01-01T00:00:00+00:00"%string.
Proof. vm_compute. reflexivity. Qed.

Example isoformat_leap_day :
  isoformat (19782 * usec_per_day + 3723 * 1000000 + 45)
  = "2024-02-29T01:02:03.000045+00:00"%string.
Proof. vm_compute. reflexivity. Qed.

Example strip_lower_example : py_lower (py_strip "  ZarinPal ") = "zarinpal"%string.
Proof. vm_compute. reflexivity. Qed.

Example json_dumps_sorts_keys :
  json_dumps (fun _ => EmptyString)
    (JObj [("b"%string, JArr [JInt 1; JBool true]); ("a"%string, JNull)])
  = ("{" +:+ json_quote "a" +:+ ":null," +:+ json_quote "b" +:+ ":[1,true]}")%string.
Proof. vm_compute. reflexivity. Qed.

(** * Decimal numerals read back *)

Lemma digit_value_pretty (x : N) :
  (x < 10)%N -> digit_value (pretty_N_char x) = Some (Z.of_N x).
Proof.
  intros Hx.
  assert (x ∈ [0; 1; 2; 3; 4; 5; 6; 7; 8; 9]%N) as Hin by (rewrite !elem_of_cons; lia).
  repeat (apply elem_of_cons in Hin as [->|Hin]; [reflexivity|]). by apply elem_of_nil in Hin.
Qed.

Lemma parse_digits_pretty_go (x : N) : forall b s, (0 < x)%N ->
  parse_digits 0 b (pretty_N_go x s) = parse_digits (Z.of_N x) true s.
Proof.
  induction (N.lt_wf_0 x) as [x _ IH]. intros b s Hx. rewrite pretty_N_go_step by done.
  assert (digit_value (pretty_N_char (x mod 10)) = Some (Z.of_N (x mod 10))) as Hd
    by (apply digit_value_pretty, N.mod_lt; done).
  pose proof (N.div_mod' x 10) as Heq.
  destruct (decide (x / 10 = 0)%N) as [H0|H0].
  - rewrite H0, pretty_N_go_0. simpl. rewrite Hd. f_equal. lia.
  - rewrite IH by first [by apply N.div_lt|by apply N.neq_0_lt_0]. simpl. rewrite Hd. f_equal. lia.
Qed.

Lemma parse_digits_zeros n b s :
  parse_digits 0 b s = parse_digits 0 true s ->
  parse_digits 0 b (repeat_char n "0"%char +:+ s)%string = parse_digits 0 true s.
Proof.
  revert b. induction n as [|n IH]; intros b Hs; simpl; [done|]. by apply IH.
Qed.

Lemma parse_digits_pretty b z : 0 <= z -> parse_digits 0 b (pretty z) = Some z.
Proof.
  intros Hz. destruct z as [|p|p]; [reflexivity| |lia].
  change (pretty (Z.pos p)) with (pretty (N.pos p)). unfold pretty, pretty_N.
  rewrite decide_False by done. by rewrite parse_digits_pretty_go.
Qed.

(** A zero-padded numeral is read back as the number it was made of. *)
Lemma parse_digits_zero_pad w b z : 0 <= z -> parse_digits 0 b (zero_pad w z) = Some z.
Proof.
  intros Hz. unfold zero_pad. cbv zeta.
  rewrite parse_digits_zeros; by rewrite !parse_digits_pretty.
Qed.

Lemma parse_digits_dash a c : forall acc b,
  parse_digits acc b (a +:+ String "-" c)%string = None.
Proof.
  induction a as [|x a IH]; intros acc b; simpl; [done|].
  destruct (digit_value x); [apply IH|]. destruct (_ && _); [apply IH|done].
Qed.

(** What follows the last dash, where that is a numeral. *)
Lemma after_last_dash_inj a a' c c' z z' :
  (a +:+ String "-" c = a' +:+ String "-" c')%string ->
  parse_digits 0 false c = Some z -> parse_digits 0 false c' = Some z' -> c = c'.
Proof.
  revert a'. induction a as [|x a IH]; intros [|x' a'] Heq Hc Hc'; simpl in Heq.
  - by injection Heq.
  - injection Heq as <- ->. by rewrite parse_digits_dash in Hc.
  - injection Heq as -> <-. by rewrite parse_digits_dash in Hc'.
  - injection Heq as <- Heq. eauto.
Qed.

(** A numeral is not blank. *)
Lemma strip_numeral s z : parse_digits 0 false s = Some z -> str_true (py_strip s) = true.
Proof.
  destruct s as [|a s]; simpl; [done|]. unfold py_strip. simpl.
  assert (digit_value a <> None -> is_space a = false) as Hsp.
  { unfold digit_value, is_space. destruct (_ && _)%N eqn:Hd; [|done]. intros _.
    apply bool_decide_eq_false. apply andb_true_iff in Hd as [?%N.leb_le ?%N.leb_le].
    rewrite !elem_of_cons, elem_of_nil. lia. }
  destruct (digit_value a) as [d|]; [|by rewrite andb_false_r].
  intros _. rewrite Hsp by done. simpl. rewrite Hsp by done.
  by destruct (py_rstrip_by is_space s).
Qed.

(** [s.upper()] on hexadecimal digits *)
Fixpoint hex_upper (s : string) : string :=
  match s with
  | EmptyString => EmptyString
  | String a s' =>
      let n := N_of_ascii a in
      String (if ((97 <=? n) && (n <=? 122))%N then ascii_of_N (n - 32) else a) (hex_upper s')
  end.
