(* ===== verification/JsonText.v ===== *)
(** The text of a JSON value is self-delimiting.

    [scan] is a reader that follows quotes, escapes and brackets and stops
    before the comma or bracket that ends the value it started on.  It reads
    exactly the text [json_dumps] writes, so that the members of two objects
    with the same keys and the same text have the same texts: what a hash of
    the text says of the values in it. *)

From S2P Require Import Prelude Python.
From Stdlib Require Import Ascii.

(** * Strings *)

#[local] Arguments String.append !s1 s2 : simpl nomatch.

Lemma string_app_assoc (a b c : string) : ((a +:+ b) +:+ c)%string = (a +:+ (b +:+ c))%string.
Proof. induction a as [|x a IH]; simpl; [done|]. f_equal. exact IH. Qed.

Lemma string_app_nil_r (a : string) : (a +:+ "")%string = a.
Proof. induction a as [|x a IH]; simpl; [done|]. f_equal. exact IH. Qed.

Lemma string_app_inj_l (a b c : string) : (a +:+ b)%string = (a +:+ c)%string -> b = c.
Proof. induction a as [|x a IH]; simpl; [done|]. intros [= H]. auto. Qed.

Lemma string_app_length (a b : string) :
  String.length (a +:+ b) = (String.length a + String.length b)%nat.
Proof. induction a as [|x a IH]; simpl; [done|]. f_equal. exact IH. Qed.

Lemma string_app_inj_r (a b c : string) : (a +:+ c)%string = (b +:+ c)%string -> a = b.
Proof.
  revert b. induction a as [|x a IH]; intros [|y b] H; simpl in H; [done| | |].
  - apply (f_equal String.length) in H. simpl in H. rewrite string_app_length in H. lia.
  - apply (f_equal String.length) in H. simpl in H. rewrite string_app_length in H. lia.
  - injection H as -> H. f_equal. auto.
Qed.

(** * Induction on JSON values *)

Section JsonInd.
Context (P : json -> Prop).
Hypothesis (Hnull : P JNull) (Hbool : forall b, P (JBool b)) (Hint : forall z, P (JInt z))
  (Hfloat : forall q, P (JFloat q)) (Hstr : forall s, P (JStr s))
  (Harr : forall l, Forall P l -> P (JArr l))
  (Hobj : forall l, Forall (fun kv => P kv.2) l -> P (JObj l)).

Fixpoint json_ind_nested (v : json) : P v :=
  match v with
  | JNull => Hnull
  | JBool b => Hbool b
  | JInt z => Hint z
  | JFloat q => Hfloat q
  | JStr s => Hstr s
  | JArr l => Harr l ((fix go (l : list json) : Forall P l :=
      match l with
      | [] => Forall_nil_2 _
      | x :: l' => Forall_cons_2 _ _ _ (json_ind_nested x) (go l')
      end) l)
  | JObj l => Hobj l ((fix go (l : list (string * json)) : Forall (fun kv => P kv.2) l :=
      match l with
      | [] => Forall_nil_2 _
      | kv :: l' => Forall_cons_2 _ _ _ (json_ind_nested kv.2) (go l')
      end) l)
  end.
End JsonInd.

(** * The reader *)

Inductive scan_mode : Type := outside | in_string | escaped.

(** The depth and the mode after a character; [None] when the value has ended
    before it. *)
Definition scan_step (d : nat) (m : scan_mode) (a : ascii) : option (nat * scan_mode) :=
  let n := N_of_ascii a in
  match m with
  | escaped => Some (d, in_string)
  | in_string =>
      if (n =? 92)%N then Some (d, escaped)
      else if (n =? 34)%N then Some (d, outside) else Some (d, in_string)
  | outside =>
      if (n =? 34)%N then Some (d, in_string)
      else if (n =? 91)%N || (n =? 123)%N then Some (S d, outside)
      else if (n =? 93)%N || (n =? 125)%N
      then match d with O => None | S d' => Some (d', outside) end
      else if (n =? 44)%N then match d with O => None | S _ => Some (d, outside) end
      else Some (d, outside)
  end.

Fixpoint scan (d : nat) (m : scan_mode) (s : string) : string * string :=
  match s with
  | EmptyString => (EmptyString, EmptyString)
  | String a s' =>
      match scan_step d m a with
      | None => (EmptyString, s)
      | Some (d', m') => let '(t, u) := scan d' m' s' in (String a t, u)
      end
  end.

(** From depth [d] and mode [m] the reader takes all of [s]. *)
Definition passes (d : nat) (m : scan_mode) (s : string) (d' : nat) (m' : scan_mode) : Prop :=
  forall rest, scan d m (s +:+ rest)
    = ((s +:+ (scan d' m' rest).1)%string, (scan d' m' rest).2).

Lemma passes_nil d m : passes d m "" d m.
Proof. intros rest. simpl. by destruct (scan d m rest). Qed.

Lemma passes_cons d m a s d1 m1 d' m' :
  scan_step d m a = Some (d1, m1) -> passes d1 m1 s d' m' -> passes d m (String a s) d' m'.
Proof. intros Ha Hs rest. simpl. rewrite Ha, Hs. done. Qed.

Lemma passes_app d m s d1 m1 t d' m' :
  passes d m s d1 m1 -> passes d1 m1 t d' m' -> passes d m (s +:+ t) d' m'.
Proof.
  intros Hs Ht rest. rewrite string_app_assoc, Hs, Ht. simpl. by rewrite string_app_assoc.
Qed.

(** A character outside strings that has no meaning for the reader. *)
Definition plain (a : ascii) : bool :=
  let n := N_of_ascii a in
  negb ((n =? 34) || (n =? 91) || (n =? 123) || (n =? 93) || (n =? 125) || (n =? 44))%N.

Fixpoint all_plain (s : string) : bool :=
  match s with EmptyString => true | String a s' => plain a && all_plain s' end.

Lemma passes_plain d s : all_plain s = true -> passes d outside s d outside.
Proof.
  induction s as [|a s IH]; simpl; intros Hs; [apply passes_nil|].
  apply andb_true_iff in Hs as [Ha Hs]. eapply passes_cons; [|by apply IH].
  unfold plain, scan_step in *. by destruct (N_of_ascii a =? 34)%N, (N_of_ascii a =? 91)%N,
    (N_of_ascii a =? 123)%N, (N_of_ascii a =? 93)%N, (N_of_ascii a =? 125)%N,
    (N_of_ascii a =? 44)%N.
Qed.

Lemma passes_escape_char d a : passes d in_string (escape_char a) d in_string.
Proof.
  destruct a as [[] [] [] [] [] [] [] []];
    (repeat (eapply passes_cons; [reflexivity|])); apply passes_nil.
Qed.

Lemma passes_quote d s : passes d outside (json_quote s) d outside.
Proof.
  unfold json_quote, double_quote.
  apply (passes_app _ _ _ d in_string); [eapply passes_cons; [reflexivity|apply passes_nil]|].
  apply (passes_app _ _ _ d in_string); [|eapply passes_cons; [reflexivity|apply passes_nil]].
  induction s as [|a s IH]; simpl; [apply passes_nil|].
  eapply passes_app; [apply passes_escape_char|done].
Qed.

Lemma all_plain_app s t : all_plain (s +:+ t) = all_plain s && all_plain t.
Proof. induction s as [|a s IH]; simpl; [done|]. by rewrite IH, andb_assoc. Qed.

Lemma all_plain_pretty_go (x : N) : forall s,
  all_plain s = true -> all_plain (pretty_N_go x s) = true.
Proof.
  induction (N.lt_wf_0 x) as [x _ IH]. intros s Hs.
  destruct (decide (x = 0)%N) as [->|Hx]; [by rewrite pretty_N_go_0|].
  rewrite pretty_N_go_step by lia. apply IH; [apply N.div_lt; lia|]. simpl. rewrite Hs.
  unfold pretty_N_char. by repeat case_match.
Qed.

Lemma all_plain_pretty (z : Z) : all_plain (pretty z) = true.
Proof.
  assert (forall n : N, all_plain (pretty n) = true) as Hn.
  { intros n. unfold pretty, pretty_N. case_decide; [done|]. by apply all_plain_pretty_go. }
  destruct z as [|p|p]; [done|apply (Hn (N.pos p))|].
  change (pretty (Z.neg p)) with ("-" +:+ pretty (N.pos p))%string.
  rewrite all_plain_app. by rewrite (Hn (N.pos p)).
Qed.

(** The text of floats is left to the environment: digits, sign, point and
    exponent, [NaN] or [Infinity]. *)
Definition plain_repr (repr_float : json -> string) : Prop :=
  forall q, all_plain (repr_float (JFloat q)) = true.

(** * The text of a value *)

(** The texts of the members, sorted by key. *)
Definition member_texts (repr_float : json -> string) (l : list (string * json)) :
    list (string * string) :=
  sort_keys (map (fun kv => match kv with (k, x) => (k, json_dumps repr_float x) end) l).

Definition member_text (kt : string * string) : string :=
  (json_quote kt.1 +:+ ":" +:+ kt.2)%string.

Section Text.
Context (repr_float : json -> string) (Hrepr : plain_repr repr_float).
Abbreviation dumps := (json_dumps repr_float).
Local Open Scope string_scope.

Lemma passes_concat d l :
  Forall (fun s => passes (S d) outside s (S d) outside) l ->
  passes (S d) outside (String.concat "," l) (S d) outside.
Proof.
  induction 1 as [|s l Hs Hl IH]; [apply passes_nil|]. simpl.
  destruct l as [|s' l]; [done|]. eapply passes_app; [done|].
  apply (passes_app _ _ "," (S d) outside); [|done].
  eapply passes_cons; [reflexivity|apply passes_nil].
Qed.

Lemma Forall_insert_key {A} (P : string * A -> Prop) kv l :
  P kv -> Forall P l -> Forall P (insert_key kv l).
Proof.
  intros Hkv. induction 1 as [|kv' l Hkv' Hl IH]; simpl; [by repeat constructor|].
  destruct (String.leb _ _); by repeat constructor.
Qed.

Lemma Forall_sort_keys {A} (P : string * A -> Prop) l :
  Forall P l -> Forall P (sort_keys l).
Proof.
  induction 1 as [|kv l Hkv Hl IH]; simpl; [constructor|]. by apply Forall_insert_key.
Qed.

Lemma passes_brackets d o c s :
  scan_step d outside o = Some (S d, outside) ->
  scan_step (S d) outside c = Some (d, outside) ->
  passes (S d) outside s (S d) outside ->
  passes d outside (String o s +:+ String c "") d outside.
Proof.
  intros Ho Hc Hs. apply (passes_app _ _ _ (S d) outside); [by eapply passes_cons|].
  eapply passes_cons; [exact Hc|apply passes_nil].
Qed.

(** The reader takes the text of a value, from whatever depth. *)
Lemma passes_dumps v : forall d, passes d outside (dumps v) d outside.
Proof.
  induction v as [|b|z|q|s|l IH|l IH] using json_ind_nested; intros d.
  - by apply passes_plain.
  - destruct b; by apply passes_plain.
  - apply passes_plain, all_plain_pretty.
  - apply passes_plain, Hrepr.
  - apply passes_quote.
  - simpl. apply (passes_brackets d "["%char "]"%char); [done|done|].
    apply passes_concat, Forall_map. eapply Forall_impl; [exact IH|]. intros x Hx. apply Hx.
  - simpl. apply (passes_brackets d "{"%char "}"%char); [done|done|].
    apply passes_concat, Forall_map, Forall_sort_keys, Forall_map.
    eapply Forall_impl; [exact IH|]. intros [k x] Hx.
    change (passes (S d) outside (json_quote k +:+ ":" +:+ dumps x) (S d) outside).
    eapply passes_app; [apply passes_quote|].
    apply (passes_app _ _ ":" (S d) outside); [by apply passes_plain|apply Hx].
Qed.

(** So a value and the comma or bracket after it can be told apart. *)
Lemma dumps_delimited v v' c c' s s' :
  scan_step 0 outside c = None -> scan_step 0 outside c' = None ->
  dumps v +:+ String c s = dumps v' +:+ String c' s' ->
  dumps v = dumps v' /\ String c s = String c' s'.
Proof.
  intros Hc Hc' Heq. apply (f_equal (scan 0 outside)) in Heq.
  assert (forall a u, scan_step 0 outside a = None ->
    scan 0 outside (String a u) = ("", String a u)) as Hstop
    by (intros a u Ha; cbn [scan]; by rewrite Ha).
  rewrite !passes_dumps, !Hstop in Heq by done.
  cbn [fst snd] in Heq. rewrite !string_app_nil_r in Heq. by apply pair_eq in Heq.
Qed.

(** ** The members of an object *)

Lemma insert_key_keys {A B} (kv : string * A) (kw : string * B) l l' :
  kv.1 = kw.1 -> l.*1 = l'.*1 -> (insert_key kv l).*1 = (insert_key kw l').*1.
Proof.
  intros Hk. revert l'. induction l as [|a l IH]; intros [|b l'] Hl; simpl in *; try done.
  - by rewrite Hk.
  - injection Hl as Hab Hl. rewrite Hk, Hab. destruct (String.leb _ _); simpl.
    + by rewrite Hk, Hab, Hl.
    + rewrite Hab. f_equal. by apply IH.
Qed.

Lemma sort_keys_keys {A B} (l : list (string * A)) (l' : list (string * B)) :
  l.*1 = l'.*1 -> (sort_keys l).*1 = (sort_keys l').*1.
Proof.
  revert l'. induction l as [|a l IH]; intros [|b l'] Hl; simpl in *; try done.
  injection Hl as Hab Hl. by apply insert_key_keys; [|apply IH].
Qed.

Lemma elem_of_insert_key {A} (kv x : string * A) l :
  x ∈ insert_key kv l <-> x = kv \/ x ∈ l.
Proof.
  induction l as [|a l IH]; simpl; [set_solver|].
  destruct (String.leb _ _); set_solver.
Qed.

Lemma elem_of_sort_keys {A} (x : string * A) l : x ∈ sort_keys l <-> x ∈ l.
Proof.
  induction l as [|a l IH]; simpl; [done|]. rewrite elem_of_insert_key, IH. set_solver.
Qed.

(** Two runs of members with the same keys and the same text. *)
Lemma members_cut (l l' : list (string * string)) s s' :
  Forall (fun kt => exists v, kt.2 = dumps v) l ->
  Forall (fun kt => exists v, kt.2 = dumps v) l' ->
  l.*1 = l'.*1 ->
  String.concat "," (map member_text l) +:+ String "}" s
    = String.concat "," (map member_text l') +:+ String "}" s' -> l = l'.
Proof.
  intros Hl. revert l'. induction Hl as [|[k t] l [v Hv] Hl IH]; intros [|[k' t'] l'] Hl' Hk Heq;
    try done. simpl in Hv, Hk. injection Hk as <- Hk. subst t.
  apply Forall_cons in Hl' as [[v' Hv'] Hl']. simpl in Hv'. subst t'.
  destruct l as [|b l], l' as [|b' l']; try done; cbn [map String.concat] in Heq;
    change (member_text (k, dumps v)) with (json_quote k +:+ ":" +:+ dumps v) in Heq;
    change (member_text (k, dumps v')) with (json_quote k +:+ ":" +:+ dumps v') in Heq;
    rewrite !string_app_assoc in Heq; apply string_app_inj_l in Heq; simpl in Heq;
    injection Heq as Heq.
  - by apply dumps_delimited in Heq as [-> _].
  - apply dumps_delimited in Heq as [-> Heq]; [|done|done]. injection Heq as Heq.
    f_equal. by apply IH.
Qed.

Lemma object_texts_inj l l' :
  l.*1 = l'.*1 -> dumps (JObj l) = dumps (JObj l') ->
  member_texts repr_float l = member_texts repr_float l'.
Proof.
  intros Hk Heq. unfold member_texts. simpl in Heq. injection Heq as Heq.
  assert (forall l, Forall (fun kt => exists v, kt.2 = dumps v)
    (sort_keys (map (fun kv => match kv with (k, x) => (k, dumps x) end) l))) as Hall.
  { intros l0. apply Forall_sort_keys, Forall_map, Forall_true. intros [k x]. by exists x. }
  eapply members_cut; [apply Hall|apply Hall| |exact Heq].
  apply sort_keys_keys. rewrite <- !list_fmap_compose.
  rewrite (list_fmap_ext _ fst l) by (by intros ? [? ?]).
  by rewrite (list_fmap_ext _ fst l') by (by intros ? [? ?]).
Qed.

(** Equal texts of two objects with the same keys, none repeated, are equal
    texts member by member. *)
Lemma object_member_inj l l' k v v' :
  l.*1 = l'.*1 -> NoDup l.*1 -> dumps (JObj l) = dumps (JObj l') ->
  (k, v) ∈ l -> (k, v') ∈ l' -> dumps v = dumps v'.
Proof.
  intros Hk Hnd Heq Hv Hv'. apply object_texts_inj in Heq; [|done].
  assert ((k, dumps v) ∈ member_texts repr_float l') as Hin.
  { rewrite <- Heq. apply elem_of_sort_keys. apply list_elem_of_fmap. by exists (k, v). }
  apply elem_of_sort_keys, list_elem_of_fmap in Hin as ([k2 v2] & Hv2 & Hin2).
  injection Hv2 as <- Hv2. rewrite Hv2. rewrite Hk in Hnd. f_equal.
  apply (elem_of_list_to_map_1 (M := gmap string)) in Hin2, Hv'; [congruence|done|done].
Qed.

End Text.

(** ** Quoted strings *)

Definition all_ascii : list ascii := map ascii_of_nat (seq 0 256).

Lemma elem_of_all_ascii a : a ∈ all_ascii.
Proof.
  apply list_elem_of_In. unfold all_ascii. rewrite in_map_iff. exists (nat_of_ascii a).
  split; [apply ascii_nat_embedding|]. apply in_seq. pose proof (nat_ascii_bounded a). lia.
Qed.

(** No escape is the beginning of another. *)
Lemma escape_prefix_free a b :
  String.prefix (escape_char a) (escape_char b) = true -> a = b.
Proof.
  assert (forallb (fun a => forallb (fun b =>
    negb (String.prefix (escape_char a) (escape_char b)) || Ascii.eqb a b) all_ascii)
    all_ascii = true) as Hall by (vm_compute; reflexivity).
  rewrite forallb_forall in Hall.
  specialize (Hall a (proj1 (list_elem_of_In _ _) (elem_of_all_ascii a))).
  rewrite forallb_forall in Hall.
  specialize (Hall b (proj1 (list_elem_of_In _ _) (elem_of_all_ascii b))).
  intros Hp. rewrite Hp in Hall. by apply Ascii.eqb_eq.
Qed.

Lemma app_eq_prefix s t u v :
  (s +:+ u = t +:+ v)%string -> String.prefix s t = true \/ String.prefix t s = true.
Proof.
  revert t. induction s as [|a s IH]; intros [|b t] H; simpl in *; [by left|by left|by right|].
  injection H as -> H. destruct (ascii_dec b b); [|done]. eauto.
Qed.

Lemma escape_char_ne a : escape_char a <> EmptyString.
Proof. by destruct a as [[] [] [] [] [] [] [] []]. Qed.

Lemma escape_string_inj s t : escape_string s = escape_string t -> s = t.
Proof.
  revert t. induction s as [|a s IH]; intros [|b t] H; simpl in H; [done| | |].
  - pose proof (escape_char_ne b). by destruct (escape_char b).
  - pose proof (escape_char_ne a). by destruct (escape_char a).
  - assert (a = b) as ->.
    { destruct (app_eq_prefix _ _ _ _ H) as [Hp|Hp]; apply escape_prefix_free in Hp; done. }
    f_equal. by apply IH, (string_app_inj_l (escape_char b)).
Qed.

Lemma json_quote_inj s t : json_quote s = json_quote t -> s = t.
Proof.
  unfold json_quote. intros H%string_app_inj_l%string_app_inj_r. by apply escape_string_inj.
Qed.

Lemma pretty_not_null (z : Z) : pretty z <> "null"%string.
Proof.
  intros H. destruct (decide (0 <= z)) as [Hz|Hz].
  - pose proof (parse_digits_pretty false z Hz) as Hp. by rewrite H in Hp.
  - destruct z as [|p|p]; [lia|lia|]. change (pretty (Z.neg p)) with
      ("-" +:+ pretty (N.pos p))%string in H. by simpl in H.
Qed.

Lemma dumps_opt_str_inj repr o o' :
  json_dumps repr (json_opt_str o) = json_dumps repr (json_opt_str o') -> o = o'.
Proof. destruct o, o'; simpl; intros H; try done. by apply json_quote_inj in H as ->. Qed.

Lemma dumps_opt_int_inj repr o o' :
  json_dumps repr (json_opt_int o) = json_dumps repr (json_opt_int o') -> o = o'.
Proof.
  destruct o as [z|], o' as [z'|]; simpl; intros H; try done.
  - by apply (inj pretty) in H as ->.
  - by apply pretty_not_null in H.
  - symmetry in H. by apply pretty_not_null in H.
Qed.

Lemma dumps_str_inj repr s t : json_dumps repr (JStr s) = json_dumps repr (JStr t) -> s = t.
Proof. apply json_quote_inj. Qed.
