(* ===== verification/Choices.v ===== *)
(** Enumerations of the madadkar app ([src/apps/madadkar/choices.py]).

    Each Django [TextChoices] class is a module with the class's name: an
    inductive type [t] with the members in source order and [values], the
    member/database-value pairs.  The class [TextChoices] gives the column
    value of a member and reads a member back from a column value. *)

From S2P Require Import Prelude.

Class TextChoices (A : Type) `{EqDecision A} : Type := {
  choices : list (A * string);
  choices_total : forall a : A, exists v, (a, v) ∈ choices;
  choices_values_nodup : NoDup choices.*2;
  choices_members_nodup : NoDup choices.*1;
}.

(** [Member.value] *)
Definition value {A} `{TextChoices A} (a : A) : string :=
  match list_find (fun p => p.1 = a) choices with
  | Some (_, (_, v)) => v
  | None => EmptyString
  end.

(** [Class(v)], the member with a column value. *)
Definition of_value {A} `{TextChoices A} (v : string) : option A :=
  match list_find (fun p => p.2 = v) choices with
  | Some (_, (a, _)) => Some a
  | None => None
  end.

(** [v in Class.values] *)
Definition is_value {A} `{TextChoices A} (v : string) : bool :=
  bool_decide (v ∈ (choices (A := A)).*2).

Section Roundtrip.
Context {A : Type} `{TextChoices A}.

Lemma choices_fst_inj (a : A) v w :
  (a, v) ∈ choices -> (a, w) ∈ choices -> v = w.
Proof.
  pose proof choices_members_nodup as Hnd. induction choices as [|[b u] l IH].
  - set_solver.
  - simpl in Hnd. apply NoDup_cons in Hnd as [Hb Hnd].
    assert (forall x, (b, x) ∈ l -> False) as Hno.
    { intros x Hx. apply Hb. change b with ((b, x).1). by apply list_elem_of_fmap_2. }
    rewrite !elem_of_cons. naive_solver.
Qed.

Lemma choices_snd_inj (a b : A) v :
  (a, v) ∈ choices -> (b, v) ∈ choices -> a = b.
Proof.
  pose proof choices_values_nodup as Hnd. induction choices as [|[c u] l IH].
  - set_solver.
  - simpl in Hnd. apply NoDup_cons in Hnd as [Hb Hnd].
    assert (forall x, (x, u) ∈ l -> False) as Hno.
    { intros x Hx. apply Hb. change u with ((x, u).2). by apply list_elem_of_fmap_2. }
    rewrite !elem_of_cons. naive_solver.
Qed.

Lemma value_elem (a : A) : (a, value a) ∈ choices.
Proof.
  unfold value. destruct (choices_total a) as [v Hv].
  destruct (list_find _ _) as [[i [b w]]|] eqn:Hf.
  - apply list_find_Some in Hf as (Hi & Heq & _). simpl in Heq. subst b.
    by eapply list_elem_of_lookup_2.
  - exfalso. apply list_find_None in Hf. rewrite Forall_forall in Hf.
    exact (Hf _ Hv eq_refl).
Qed.

Lemma of_value_Some (v : string) (a : A) : of_value v = Some a <-> value a = v.
Proof.
  unfold of_value. destruct (list_find _ _) as [[i [b w]]|] eqn:Hf.
  - apply list_find_Some in Hf as (Hi & Heq & _). simpl in Heq. subst w.
    apply list_elem_of_lookup_2 in Hi. split.
    + intros [= <-]. eapply choices_fst_inj; [apply value_elem|done].
    + intros Ha. f_equal. eapply choices_snd_inj; [done|].
      rewrite <- Ha. apply value_elem.
  - split; [done|]. intros Ha. exfalso.
    apply list_find_None in Hf. rewrite Forall_forall in Hf.
    exact (Hf _ (value_elem a) Ha).
Qed.

Lemma value_inj (a b : A) : value a = value b -> a = b.
Proof.
  intros Heq. apply (choices_snd_inj _ _ (value a)); [apply value_elem|].
  rewrite Heq. apply value_elem.
Qed.

Lemma is_value_spec (v : string) :
  is_value (A := A) v = true <-> exists a : A, value a = v.
Proof.
  unfold is_value. rewrite bool_decide_eq_true, list_elem_of_fmap. split.
  - intros ([a w] & -> & Hin). exists a.
    eapply choices_fst_inj; [apply value_elem|done].
  - intros (a & <-). exists (a, value a). split; [done|apply value_elem].
Qed.

End Roundtrip.

Ltac solve_choices :=
  lazymatch goal with
  | |- forall a, exists v, _ => intros []; eexists; repeat constructor
  | |- NoDup _ => apply (bool_decide_unpack _); vm_compute; exact I
  end.

Module CampaignStatus.

Inductive t : Set :=
| DRAFT
| PUBLISHED
| COMPLETED
| CLOSED.

#[export] Instance t_eq : EqDecision t.
Proof. solve_decision. Defined.

Definition values : list (t * string) :=
  [ (DRAFT, "draft"%string);
    (PUBLISHED, "published"%string);
    (COMPLETED, "completed"%string);
    (CLOSED, "closed"%string) ].

#[export, refine] Instance t_choices : TextChoices t := { choices := values }.
Proof. all: solve_choices. Defined.

End CampaignStatus.
Export (hints) CampaignStatus.

Module ParticipationStatus.

Inductive t : Set :=
| PENDING_PAYMENT
| PAID
| FAILED
| EXPIRED
| REFUNDED.

#[export] Instance t_eq : EqDecision t.
Proof. solve_decision. Defined.

Definition values : list (t * string) :=
  [ (PENDING_PAYMENT, "pending_payment"%string);
    (PAID, "paid"%string);
    (FAILED, "failed"%string);
    (EXPIRED, "expired"%string);
    (REFUNDED, "refunded"%string) ].

#[export, refine] Instance t_choices : TextChoices t := { choices := values }.
Proof. all: solve_choices. Defined.

End ParticipationStatus.
Export (hints) ParticipationStatus.

Module PaymentStatus.

Inductive t : Set :=
| PENDING
| SUCCESS
| FAILED.

#[export] Instance t_eq : EqDecision t.
Proof. solve_decision. Defined.

Definition values : list (t * string) :=
  [ (PENDING, "pending"%string);
    (SUCCESS, "success"%string);
    (FAILED, "failed"%string) ].

#[export, refine] Instance t_choices : TextChoices t := { choices := values }.
Proof. all: solve_choices. Defined.

End PaymentStatus.
Export (hints) PaymentStatus.

Module ReconciliationStatus.

Inductive t : Set :=
| DRAFT
| COMPLETED
| FAILED.

#[export] Instance t_eq : EqDecision t.
Proof. solve_decision. Defined.

Definition values : list (t * string) :=
  [ (DRAFT, "draft"%string);
    (COMPLETED, "completed"%string);
    (FAILED, "failed"%string) ].

#[export, refine] Instance t_choices : TextChoices t := { choices := values }.
Proof. all: solve_choices. Defined.

End ReconciliationStatus.
Export (hints) ReconciliationStatus.

Module ReconciliationItemStatus.

Inductive t : Set :=
| MATCHED
| MISSING_INTERNAL
| AMOUNT_MISMATCH
| STATUS_MISMATCH
| DUPLICATE_PROVIDER_REF.

#[export] Instance t_eq : EqDecision t.
Proof. solve_decision. Defined.

Definition values : list (t * string) :=
  [ (MATCHED, "matched"%string);
    (MISSING_INTERNAL, "missing_internal"%string);
    (AMOUNT_MISMATCH, "amount_mismatch"%string);
    (STATUS_MISMATCH, "status_mismatch"%string);
    (DUPLICATE_PROVIDER_REF, "duplicate_provider_ref"%string) ].

#[export, refine] Instance t_choices : TextChoices t := { choices := values }.
Proof. all: solve_choices. Defined.

End ReconciliationItemStatus.
Export (hints) ReconciliationItemStatus.

Module ExternalFundingStatus.

Inductive t : Set :=
| RECORDED
| VOIDED.

#[export] Instance t_eq : EqDecision t.
Proof. solve_decision. Defined.

Definition values : list (t * string) :=
  [ (RECORDED, "recorded"%string);
    (VOIDED, "voided"%string) ].

#[export, refine] Instance t_choices : TextChoices t := { choices := values }.
Proof. all: solve_choices. Defined.

End ExternalFundingStatus.
Export (hints) ExternalFundingStatus.

Module ExternalFundingMethod.

Inductive t : Set :=
| CASH
| CARD_TRANSFER
| CHEQUE
| INTERNAL
| OTHER.

#[export] Instance t_eq : EqDecision t.
Proof. solve_decision. Defined.

Definition values : list (t * string) :=
  [ (CASH, "cash"%string);
    (CARD_TRANSFER, "card_transfer"%string);
    (CHEQUE, "cheque"%string);
    (INTERNAL, "internal"%string);
    (OTHER, "other"%string) ].

#[export, refine] Instance t_choices : TextChoices t := { choices := values }.
Proof. all: solve_choices. Defined.

End ExternalFundingMethod.
Export (hints) ExternalFundingMethod.

Module PaymentEventKind.

Inductive t : Set :=
| CREATED
| VERIFY_SUCCESS
| VERIFY_FAILED
| AMOUNT_MISMATCH
| EXPIRED
| REFUND_REQUESTED
| REFUND_APPROVED
| REFUND_REJECTED
| REFUND_COMPLETED
| REFUND_FAILED
| ADJUSTMENT_APPLIED.

#[export] Instance t_eq : EqDecision t.
Proof. solve_decision. Defined.

Definition values : list (t * string) :=
  [ (CREATED, "created"%string);
    (VERIFY_SUCCESS, "verify_success"%string);
    (VERIFY_FAILED, "verify_failed"%string);
    (AMOUNT_MISMATCH, "amount_mismatch"%string);
    (EXPIRED, "expired"%string);
    (REFUND_REQUESTED, "refund_requested"%string);
    (REFUND_APPROVED, "refund_approved"%string);
    (REFUND_REJECTED, "refund_rejected"%string);
    (REFUND_COMPLETED, "refund_completed"%string);
    (REFUND_FAILED, "refund_failed"%string);
    (ADJUSTMENT_APPLIED, "adjustment_applied"%string) ].

#[export, refine] Instance t_choices : TextChoices t := { choices := values }.
Proof. all: solve_choices. Defined.

End PaymentEventKind.
Export (hints) PaymentEventKind.

Module RefundStatus.

Inductive t : Set :=
| PENDING_REVIEW
| APPROVED
| REJECTED
| COMPLETED
| FAILED.

#[export] Instance t_eq : EqDecision t.
Proof. solve_decision. Defined.

Definition values : list (t * string) :=
  [ (PENDING_REVIEW, "pending_review"%string);
    (APPROVED, "approved"%string);
    (REJECTED, "rejected"%string);
    (COMPLETED, "completed"%string);
    (FAILED, "failed"%string) ].

#[export, refine] Instance t_choices : TextChoices t := { choices := values }.
Proof. all: solve_choices. Defined.

End RefundStatus.
Export (hints) RefundStatus.

Module RefundReason.

Inductive t : Set :=
| DUPLICATE_PAYMENT
| USER_REQUEST
| CAMPAIGN_CANCELED
| PROVIDER_REVERSAL
| ADMIN_CORRECTION
| OTHER.

#[export] Instance t_eq : EqDecision t.
Proof. solve_decision. Defined.

Definition values : list (t * string) :=
  [ (DUPLICATE_PAYMENT, "duplicate_payment"%string);
    (USER_REQUEST, "user_request"%string);
    (CAMPAIGN_CANCELED, "campaign_canceled"%string);
    (PROVIDER_REVERSAL, "provider_reversal"%string);
    (ADMIN_CORRECTION, "admin_correction"%string);
    (OTHER, "other"%string) ].

#[export, refine] Instance t_choices : TextChoices t := { choices := values }.
Proof. all: solve_choices. Defined.

End RefundReason.
Export (hints) RefundReason.

Module FinancialAdjustmentType.

Inductive t : Set :=
| CREDIT
| DEBIT.

#[export] Instance t_eq : EqDecision t.
Proof. solve_decision. Defined.

Definition values : list (t * string) :=
  [ (CREDIT, "credit"%string);
    (DEBIT, "debit"%string) ].

#[export, refine] Instance t_choices : TextChoices t := { choices := values }.
Proof. all: solve_choices. Defined.

End FinancialAdjustmentType.
Export (hints) FinancialAdjustmentType.

Module FinancialAdjustmentStatus.

Inductive t : Set :=
| PENDING_REVIEW
| APPROVED
| REJECTED
| APPLIED.

#[export] Instance t_eq : EqDecision t.
Proof. solve_decision. Defined.

Definition values : list (t * string) :=
  [ (PENDING_REVIEW, "pending_review"%string);
    (APPROVED, "approved"%string);
    (REJECTED, "rejected"%string);
    (APPLIED, "applied"%string) ].

#[export, refine] Instance t_choices : TextChoices t := { choices := values }.
Proof. all: solve_choices. Defined.

End FinancialAdjustmentStatus.
Export (hints) FinancialAdjustmentStatus.

Module MadadkarRiskSignalType.

Inductive t : Set :=
| HIGH_AMOUNT_NEW_USER
| PAYMENT_FAILURE_SPIKE
| SUSPICIOUS_IP_VELOCITY
| REFUND_VELOCITY
| CAMPAIGN_REFUND_SPIKE
| ADJUSTMENT_ANOMALY.

#[export] Instance t_eq : EqDecision t.
Proof. solve_decision. Defined.

Definition values : list (t * string) :=
  [ (HIGH_AMOUNT_NEW_USER, "high_amount_new_user"%string);
    (PAYMENT_FAILURE_SPIKE, "payment_failure_spike"%string);
    (SUSPICIOUS_IP_VELOCITY, "suspicious_ip_velocity"%string);
    (REFUND_VELOCITY, "refund_velocity"%string);
    (CAMPAIGN_REFUND_SPIKE, "campaign_refund_spike"%string);
    (ADJUSTMENT_ANOMALY, "adjustment_anomaly"%string) ].

#[export, refine] Instance t_choices : TextChoices t := { choices := values }.
Proof. all: solve_choices. Defined.

End MadadkarRiskSignalType.
Export (hints) MadadkarRiskSignalType.

Module MadadkarRiskSeverity.

Inductive t : Set :=
| LOW
| MEDIUM
| HIGH
| CRITICAL.

#[export] Instance t_eq : EqDecision t.
Proof. solve_decision. Defined.

Definition values : list (t * string) :=
  [ (LOW, "low"%string);
    (MEDIUM, "medium"%string);
    (HIGH, "high"%string);
    (CRITICAL, "critical"%string) ].

#[export, refine] Instance t_choices : TextChoices t := { choices := values }.
Proof. all: solve_choices. Defined.

End MadadkarRiskSeverity.
Export (hints) MadadkarRiskSeverity.

Module MadadkarRiskStatus.

Inductive t : Set :=
| OPEN
| REVIEWED
| DISMISSED
| ESCALATED.

#[export] Instance t_eq : EqDecision t.
Proof. solve_decision. Defined.

Definition values : list (t * string) :=
  [ (OPEN, "open"%string);
    (REVIEWED, "reviewed"%string);
    (DISMISSED, "dismissed"%string);
    (ESCALATED, "escalated"%string) ].

#[export, refine] Instance t_choices : TextChoices t := { choices := values }.
Proof. all: solve_choices. Defined.

End MadadkarRiskStatus.
Export (hints) MadadkarRiskStatus.

Module DisbursementStatus.

Inductive t : Set :=
| REQUESTED
| APPROVED
| REJECTED
| PAID
| CANCELED.

#[export] Instance t_eq : EqDecision t.
Proof. solve_decision. Defined.

Definition values : list (t * string) :=
  [ (REQUESTED, "requested"%string);
    (APPROVED, "approved"%string);
    (REJECTED, "rejected"%string);
    (PAID, "paid"%string);
    (CANCELED, "canceled"%string) ].

#[export, refine] Instance t_choices : TextChoices t := { choices := values }.
Proof. all: solve_choices. Defined.

End DisbursementStatus.
Export (hints) DisbursementStatus.

Module FinancialControlSeverity.

Inductive t : Set :=
| HEALTHY
| WATCH
| WARNING
| CRITICAL.

#[export] Instance t_eq : EqDecision t.
Proof. solve_decision. Defined.

Definition values : list (t * string) :=
  [ (HEALTHY, "healthy"%string);
    (WATCH, "watch"%string);
    (WARNING, "warning"%string);
    (CRITICAL, "critical"%string) ].

#[export, refine] Instance t_choices : TextChoices t := { choices := values }.
Proof. all: solve_choices. Defined.

End FinancialControlSeverity.
Export (hints) FinancialControlSeverity.

