(* ===== verification/Orm.v ===== *)
(** The database as the services see it: tables of rows with primary keys,
    the queries of the default manager and the row updates of [save].

    [Model DB A] is the interface between a database [DB] and the model class
    whose rows are [A]; [ModelLaws] states that the table is a component of
    the database.  The operations are those of the models' managers
    ([src/apps/core/managers.py]: [objects] filters on [is_active], forward
    foreign keys do not) and of [BaseModel] ([src/apps/core/models.py]). *)

From S2P Require Import Prelude.

Record Table (A : Type) : Type := mkTable {
  rows : gmap Z A;
  next_id : Z;
}.
Arguments mkTable {A} rows next_id.
Arguments rows {A} t : rename.
Arguments next_id {A} t : rename.

Class OrmError (E : Type) : Type := {
  does_not_exist : E;
  integrity_error : E;
  database_error : E;
}.

(** [timezone.now()] *)
Class Clock (R : Type) : Type := clock : R -> Z.

Class Model (DB A : Type) : Type := {
  table_of : DB -> Table A;
  with_table : Table A -> DB -> DB;
  pk : A -> Z;
  is_active : A -> bool;
  created_at : A -> Z;
  (** CHECK and UNIQUE constraints and column domains of a row to be stored
      among the rows with other keys *)
  row_ok : gmap Z A -> A -> bool;
}.

Class ModelLaws (DB A : Type) `{Model DB A} : Prop := {
  table_of_with : forall t (db : DB), table_of (with_table t db) = t;
  with_table_with : forall t t' (db : DB),
    with_table t (with_table t' db) = with_table t db;
}.

Definition table_wf {DB A} `{Model DB A} (t : Table A) : Prop :=
  forall i x, rows t !! i = Some x -> pk x = i /\ 0 < i < next_id t.

Definition table_good {DB A} `{Model DB A} (t : Table A) : Prop :=
  0 < next_id t /\ table_wf t.

(** From one database to a later one, every row of a table is kept and goes
    along [K]. *)
Definition evolves {DB A} `{Model DB A} (K : A -> A -> Prop) (db db' : DB) : Prop :=
  forall i x, rows (table_of db) !! i = Some x ->
    exists x', rows (table_of db') !! i = Some x' /\ K x x'.

Section Orm.
Context {Env DB E A : Type} `{!OrmError E, !Clock Env, !Model DB A}.
Implicit Types (db : DB) (x : A) (P : A -> bool).

Definition timezone_now {R S X} `{!Clock R} : comp R S X Z :=
  fun env s => (Ok (clock env), s).

Definition rows_of db : gmap Z A := rows (table_of db).

Definition set_row (i : Z) (x : A) db : DB :=
  with_table (mkTable (<[i:=x]> (rows_of db)) (next_id (table_of db))) db.

Definition add_row (x : A) db : DB :=
  let i := next_id (table_of db) in
  with_table (mkTable (<[i:=x]> (rows_of db)) (i + 1)) db.

(** [Model.objects.get(pk=i)], also with [select_for_update()]: the row's lock
    is held until the end of the atomic block the computation models. *)
Definition objects_get (i : Z) : comp Env DB E A := fun _ db =>
  match rows_of db !! i with
  | Some x => if is_active x then (Ok x, db) else (Raise does_not_exist, db)
  | None => (Raise does_not_exist, db)
  end.

(** Following a forward foreign key: the base manager does not filter. *)
Definition base_get (i : Z) : comp Env DB E A := fun _ db =>
  match rows_of db !! i with
  | Some x => (Ok x, db)
  | None => (Raise does_not_exist, db)
  end.

(** [Model.objects.create(...)]: [mk] receives the new key and the time. *)
Definition create (mk : Z -> Z -> A) : comp Env DB E A := fun env db =>
  let x := mk (next_id (table_of db)) (clock env) in
  if row_ok (rows_of db) x then (Ok x, add_row x db)
  else (Raise integrity_error, db).

(** [instance.save(update_fields=...)]: an UPDATE of the row with key [i],
    where [upd] sets the listed columns. *)
Definition update_row (i : Z) (upd : A -> A) : comp Env DB E unit :=
  fun env db =>
    match rows_of db !! i with
    | Some x =>
        let x' := upd x in
        if row_ok (delete i (rows_of db)) x' then (Ok tt, set_row i x' db)
        else (Raise integrity_error, db)
    | None => (Raise database_error, db)
    end.

(** [ActiveManager.get_queryset]: the rows with [is_active=True]. *)
Definition objects_filter P : DB -> gmap Z A := fun db =>
  filter (fun kx => is_active kx.2 && P kx.2 = true) (rows_of db).

Definition qs_sum (f : A -> Z) (qs : gmap Z A) : Z := msum f qs.
Definition qs_count (qs : gmap Z A) : Z := Z.of_nat (size qs).
Definition qs_exists (qs : gmap Z A) : bool := bool_decide (qs <> ∅).
Definition qs_list (qs : gmap Z A) : list A := (map_to_list qs).*2.

(** [.first()] under the ordering ["-created_at"]. *)
Definition later (x : A) (acc : option A) : option A :=
  match acc with
  | Some y => if created_at y <? created_at x then Some x else acc
  | None => Some x
  end.

Definition qs_first (qs : gmap Z A) : option A :=
  map_fold (fun _ x acc => later x acc) None qs.

End Orm.

(** * Inverting database operations *)

Section OrmLemmas.
Context {Env DB E A : Type} `{!OrmError E, !Clock Env, !Model DB A}.
Implicit Types (db : DB) (x : A) (P : A -> bool).

Lemma objects_get_ok_inv i x (env : Env) db db' :
  objects_get (E := E) i env db = (Ok x, db') ->
  db' = db /\ rows_of db !! i = Some x /\ is_active x = true.
Proof.
  unfold objects_get. destruct (rows_of db !! i) as [y|]; [|done].
  destruct (is_active y) eqn:Hy; [|done]. by intros [= <- <-].
Qed.

Lemma objects_get_ok i x (env : Env) db :
  rows_of db !! i = Some x -> is_active x = true ->
  objects_get (E := E) i env db = (Ok x, db).
Proof. unfold objects_get. by intros -> ->. Qed.

Lemma base_get_ok_inv i x (env : Env) db db' :
  base_get (E := E) i env db = (Ok x, db') -> db' = db /\ rows_of db !! i = Some x.
Proof.
  unfold base_get. destruct (rows_of db !! i) as [y|]; [|done].
  by intros [= <- <-].
Qed.

Lemma base_get_ok i x (env : Env) db :
  rows_of db !! i = Some x -> base_get (E := E) i env db = (Ok x, db).
Proof. unfold base_get. by intros ->. Qed.

Lemma create_ok_inv mk x (env : Env) db db' :
  create (E := E) mk env db = (Ok x, db') ->
  x = mk (next_id (table_of db)) (clock env) /\
  row_ok (rows_of db) x = true /\ db' = add_row x db.
Proof.
  unfold create. destruct (row_ok _ _) eqn:Hok; [|done].
  intros [= <- <-]. auto.
Qed.

Lemma update_row_ok_inv i upd u (env : Env) db db' :
  update_row (E := E) i upd env db = (Ok u, db') ->
  exists x, rows_of db !! i = Some x /\
    row_ok (delete i (rows_of db)) (upd x) = true /\
    db' = set_row i (upd x) db.
Proof.
  unfold update_row. destruct (rows_of db !! i) as [x|]; [|done].
  destruct (row_ok _ _) eqn:Hok; [|done]. intros [= _ <-]. eauto.
Qed.

Lemma update_row_ok i upd x (env : Env) db :
  rows_of db !! i = Some x ->
  row_ok (delete i (rows_of db)) (upd x) = true ->
  update_row (E := E) i upd env db = (Ok tt, set_row i (upd x) db).
Proof. unfold update_row. by intros -> ->. Qed.

Lemma now_ok_inv {X} t (env : Env) db db' :
  timezone_now (X := X) env db = (Ok t, db') -> t = clock env /\ db' = db.
Proof. by intros [= <- <-]. Qed.

Section Laws.
Context `{!ModelLaws DB A}.

Lemma rows_of_set_row i x db : rows_of (set_row i x db) = <[i:=x]> (rows_of db).
Proof. unfold rows_of, set_row. by rewrite table_of_with. Qed.

Lemma rows_of_add_row x db :
  rows_of (add_row x db) = <[next_id (table_of db):=x]> (rows_of db).
Proof. unfold rows_of, add_row. by rewrite table_of_with. Qed.

Lemma next_id_set_row i x db :
  next_id (table_of (set_row i x db)) = next_id (table_of db).
Proof. unfold set_row. by rewrite table_of_with. Qed.

Lemma set_row_wf i x y db :
  table_wf (table_of db) -> rows_of db !! i = Some y -> pk x = i ->
  table_wf (table_of (set_row i x db)).
Proof.
  intros Hwf Hi Hx j z. unfold set_row. rewrite table_of_with. simpl.
  intros [[<- <-]|[Hne Hj]]%lookup_insert_Some.
  - split; [done|]. by apply (Hwf i y).
  - by apply Hwf.
Qed.

Lemma add_row_wf x db :
  table_wf (table_of db) -> 0 < next_id (table_of db) ->
  pk x = next_id (table_of db) -> table_wf (table_of (add_row x db)).
Proof.
  intros Hwf Hpos Hx j z. unfold add_row. rewrite table_of_with. simpl.
  intros [[<- <-]|[Hne Hj]]%lookup_insert_Some.
  - split; [done|]. lia.
  - apply Hwf in Hj. lia.
Qed.

Lemma set_row_good i x y db :
  table_good (table_of db) -> rows_of db !! i = Some y -> pk x = i ->
  table_good (table_of (set_row i x db)).
Proof.
  intros [Hpos Hwf] Hi Hx. split; [by rewrite next_id_set_row|].
  by eapply set_row_wf.
Qed.

Lemma add_row_good x db :
  table_good (table_of db) -> pk x = next_id (table_of db) ->
  table_good (table_of (add_row x db)).
Proof.
  intros [Hpos Hwf] Hx. split; [|by apply add_row_wf].
  unfold add_row. rewrite table_of_with. simpl. lia.
Qed.

Lemma fresh_key db : table_wf (table_of db) ->
  rows_of db !! next_id (table_of db) = None.
Proof.
  intros Hwf. apply eq_None_not_Some. intros [x Hx]. apply Hwf in Hx. lia.
Qed.
End Laws.

(** ** Query sets *)

Lemma msum_filter (Q : Z * A -> Prop) `{!forall kx, Decision (Q kx)}
    (b : A -> bool) (f : A -> Z) (m : gmap Z A) :
  (forall k x, Q (k, x) <-> b x = true) ->
  msum f (filter Q m) = msum (fun x => when (b x) (f x)) m.
Proof.
  intros HQ. induction m as [|i x m Hi IH] using map_ind.
  - by rewrite map_filter_empty, !msum_empty.
  - rewrite (msum_insert_new _ m) by done. destruct (b x) eqn:Hb; simpl.
    + rewrite map_filter_insert_True by (by apply HQ).
      rewrite msum_insert_new by (apply map_lookup_filter_None_2; auto). lia.
    + rewrite map_filter_insert_not'; [by rewrite IH| |].
      * intros Hx%HQ. congruence.
      * intros y Hy. congruence.
Qed.

Lemma objects_filter_sum P f db :
  qs_sum f (objects_filter P db)
  = msum (fun x => when (is_active x && P x) (f x)) (rows_of db).
Proof. apply msum_filter. intros k x. done. Qed.

Lemma objects_filter_lookup P db i x :
  objects_filter P db !! i = Some x <->
  rows_of db !! i = Some x /\ is_active x = true /\ P x = true.
Proof.
  unfold objects_filter. rewrite map_lookup_filter_Some. simpl.
  by rewrite andb_true_iff.
Qed.

Lemma objects_filter_none P db :
  (forall i x, rows_of db !! i = Some x -> P x = false) -> objects_filter P db = ∅.
Proof.
  intros Hno. apply map_empty. intros i. apply eq_None_not_Some. intros [x Hx].
  apply objects_filter_lookup in Hx as (Hi & _ & Hp). by rewrite (Hno i x Hi) in Hp.
Qed.

Lemma qs_exists_spec (qs : gmap Z A) :
  qs_exists qs = true <-> exists i x, qs !! i = Some x.
Proof.
  unfold qs_exists. rewrite bool_decide_eq_true. split.
  - by apply map_choose.
  - intros (i & x & Hx) ->. by rewrite lookup_empty in Hx.
Qed.

Lemma qs_exists_false (qs : gmap Z A) :
  qs_exists qs = false <-> forall i x, qs !! i = Some x -> False.
Proof.
  rewrite <- not_true_iff_false, qs_exists_spec. naive_solver.
Qed.

Lemma qs_first_Some (qs : gmap Z A) x :
  qs_first qs = Some x -> exists i, qs !! i = Some x.
Proof.
  unfold qs_first. revert x.
  apply (map_fold_weak_ind (fun r m => forall x, r = Some x -> exists i, m !! i = Some x)).
  - done.
  - intros i y m r Hi IH x Hx.
    assert (x = y \/ r = Some x) as [->|Hr].
    { unfold later in Hx. destruct r; [|naive_solver].
      destruct (_ <? _); naive_solver. }
    + exists i. apply lookup_insert_eq.
    + destruct (IH x Hr) as [j Hj]. exists j.
      rewrite lookup_insert_ne; [done|congruence].
Qed.

Lemma qs_first_None (qs : gmap Z A) : qs_first qs = None -> qs = ∅.
Proof.
  unfold qs_first.
  apply (map_fold_weak_ind (fun r m => r = None -> m = ∅)); [done|].
  intros i y m r Hi IH. unfold later. destruct r; [|done].
  destruct (_ <? _); done.
Qed.

(** Where at most one row matches, [first] returns it. *)
Lemma qs_first_unique (qs : gmap Z A) i x :
  qs !! i = Some x -> (forall j y, qs !! j = Some y -> y = x) ->
  qs_first qs = Some x.
Proof.
  intros Hi Huniq. destruct (qs_first qs) as [y|] eqn:Hf.
  - apply qs_first_Some in Hf as [j Hj]. f_equal. eauto.
  - apply qs_first_None in Hf. subst. by rewrite lookup_empty in Hi.
Qed.

(** ** Rows along an update of a query set *)

Lemma objects_filter_ext P P' db db' :
  rows_of db' = rows_of db ->
  (forall i x, rows_of db !! i = Some x -> is_active x = true -> P' x = P x) ->
  objects_filter P' db' = objects_filter P db.
Proof.
  intros Hrows HP. unfold objects_filter. rewrite Hrows. apply map_filter_ext.
  intros i x Hx. simpl. destruct (is_active x) eqn:Ha; [|done].
  by rewrite (HP i x Hx Ha).
Qed.

Lemma objects_filter_set_row_out `{!ModelLaws DB A} P db i x y :
  rows_of db !! i = Some y -> is_active y && P y = false ->
  is_active x && P x = false ->
  objects_filter P (set_row i x db) = objects_filter P db.
Proof.
  intros Hi Hy Hx. unfold objects_filter. rewrite rows_of_set_row.
  apply map_filter_insert_not'; simpl; [by rewrite Hx|].
  intros z Hz. simplify_eq. by rewrite Hy.
Qed.

Lemma objects_filter_add_row_out `{!ModelLaws DB A} P db x :
  table_wf (table_of db) -> is_active x && P x = false ->
  objects_filter P (add_row x db) = objects_filter P db.
Proof.
  intros Hwf Hx. unfold objects_filter. rewrite rows_of_add_row.
  apply map_filter_insert_not'; simpl; [by rewrite Hx|].
  intros z Hz. by rewrite fresh_key in Hz.
Qed.

(** The sum over a query set when one row changes. *)
Lemma objects_filter_sum_set_row `{!ModelLaws DB A} P f db i x y :
  rows_of db !! i = Some y ->
  qs_sum f (objects_filter P (set_row i x db))
  = qs_sum f (objects_filter P db) - when (is_active y && P y) (f y)
    + when (is_active x && P x) (f x).
Proof.
  intros Hi. rewrite !objects_filter_sum, rows_of_set_row.
  by rewrite (msum_insert_upd _ _ _ _ y).
Qed.

Lemma objects_filter_sum_add_row `{!ModelLaws DB A} P f db x :
  table_wf (table_of db) ->
  qs_sum f (objects_filter P (add_row x db))
  = qs_sum f (objects_filter P db) + when (is_active x && P x) (f x).
Proof.
  intros Hwf. rewrite !objects_filter_sum, rows_of_add_row.
  rewrite msum_insert_new by (by apply fresh_key). lia.
Qed.

(** ** Computations that leave a table or the whole database alone *)

Section MovesOrm.
Context (T : DB -> DB -> Prop) `{!PreOrder T}.

Lemma moves_objects_get i : moves T (objects_get i : comp Env DB E A).
Proof.
  apply moves_pure; [done|]. intros env db. unfold objects_get.
  destruct (rows_of db !! i) as [x|]; [|done]. by destruct (is_active x).
Qed.

Lemma moves_base_get i : moves T (base_get i : comp Env DB E A).
Proof.
  apply moves_pure; [done|]. intros env db. unfold base_get.
  by destruct (rows_of db !! i).
Qed.

Lemma moves_create (mk : Z -> Z -> A) :
  (forall now db, T db (add_row (mk (next_id (table_of db)) now) db)) ->
  moves T (create mk : comp Env DB E A).
Proof.
  intros HT env db. unfold create. destruct (row_ok _ _); [apply HT|reflexivity].
Qed.

Lemma moves_update_row i (upd : A -> A) :
  (forall x db, rows_of db !! i = Some x -> T db (set_row i (upd x) db)) ->
  moves T (update_row i upd : comp Env DB E unit).
Proof.
  intros HT env db. unfold update_row.
  destruct (rows_of db !! i) eqn:Hi; [|reflexivity].
  destruct (row_ok _ _); [by apply HT|reflexivity].
Qed.

(** The same, knowing that the database accepts the row. *)
Lemma moves_create_ok (mk : Z -> Z -> A) :
  (forall now db, row_ok (rows_of db) (mk (next_id (table_of db)) now) = true ->
     T db (add_row (mk (next_id (table_of db)) now) db)) ->
  moves T (create mk : comp Env DB E A).
Proof.
  intros HT env db. unfold create. destruct (row_ok _ _) eqn:Hok; [by apply HT|reflexivity].
Qed.

Lemma moves_update_row_ok i (upd : A -> A) :
  (forall x db, row_ok (delete i (rows_of db)) (upd x) = true -> T db (set_row i (upd x) db)) ->
  moves T (update_row i upd : comp Env DB E unit).
Proof.
  intros HT env db. unfold update_row.
  destruct (rows_of db !! i) eqn:Hi; [|reflexivity].
  destruct (row_ok _ _) eqn:Hok; [by apply HT|reflexivity].
Qed.
End MovesOrm.

(** What the operations on the database can raise. *)
Section ThrowsOrm.
Context (P : E -> Prop).

Lemma throws_objects_get i :
  P does_not_exist -> throws P (objects_get i : comp Env DB E A).
Proof.
  intros HP env db e db'. unfold objects_get.
  destruct (rows_of db !! i) as [x|]; [destruct (is_active x)|]; intros [= <- _]; done.
Qed.

Lemma throws_base_get i : P does_not_exist -> throws P (base_get i : comp Env DB E A).
Proof.
  intros HP env db e db'. unfold base_get.
  destruct (rows_of db !! i); intros [= <- _]; done.
Qed.

Lemma throws_create (mk : Z -> Z -> A) :
  P integrity_error -> throws P (create mk : comp Env DB E A).
Proof.
  intros HP env db e db'. unfold create. destruct (row_ok _ _); intros [= <- _]; done.
Qed.

Lemma throws_update_row i (upd : A -> A) :
  P integrity_error -> P database_error ->
  throws P (update_row i upd : comp Env DB E unit).
Proof.
  intros HP HP' env db e db'. unfold update_row.
  destruct (rows_of db !! i); [destruct (row_ok _ _)|]; intros [= <- _]; done.
Qed.
End ThrowsOrm.

End OrmLemmas.

(** * Rows that are kept *)

Section Kept.
Context {DB A : Type} `{!Model DB A}.
Implicit Types (db : DB) (x : A) (K : A -> A -> Prop).

#[export] Instance evolves_preorder K `{!PreOrder K} : PreOrder (evolves (DB := DB) K).
Proof.
  split.
  - intros db i x Hx. exists x. split; [done|reflexivity].
  - intros db1 db2 db3 H12 H23 i x Hx.
    apply H12 in Hx as (y & Hy & Hxy). apply H23 in Hy as (z & Hz & Hyz).
    exists z. split; [done|]. by etrans.
Qed.

Lemma evolves_set_row `{!ModelLaws DB A} K `{!PreOrder K} i x y db :
  rows_of db !! i = Some y -> K y x -> evolves K db (set_row i x db).
Proof.
  intros Hi HK j z Hz. change (rows (table_of ?d)) with (rows_of d) in *.
  rewrite rows_of_set_row. destruct (decide (j = i)) as [->|Hne].
  - exists x. rewrite lookup_insert_eq. by simplify_eq.
  - exists z. rewrite lookup_insert_ne; [|done]. split; [done|reflexivity].
Qed.

Lemma evolves_add_row `{!ModelLaws DB A} K `{!PreOrder K} x db :
  table_good (table_of db) -> evolves K db (add_row x db).
Proof.
  intros [_ Hwf] j z Hz. change (rows (table_of ?d)) with (rows_of d) in *.
  rewrite rows_of_add_row. exists z. split; [|reflexivity].
  rewrite lookup_insert_ne; [done|]. intros <-. by rewrite fresh_key in Hz.
Qed.

Lemma evolves_same_table K `{!PreOrder K} db db' :
  table_of (A := A) db' = table_of db -> evolves K db db'.
Proof. intros Heq j z Hz. rewrite Heq. exists z. split; [done|reflexivity]. Qed.

(** The table of the [A]s stays good and its rows go along [K]. *)
Definition kept K db db' : Prop :=
  table_good (A := A) (table_of db) ->
  table_good (A := A) (table_of db') /\ evolves K db db'.

#[export] Instance kept_preorder K `{!PreOrder K} : PreOrder (kept K).
Proof.
  split.
  - intros db Hg. split; [done|reflexivity].
  - intros db1 db2 db3 H12 H23 Hg. destruct (H12 Hg) as [Hg2 He2].
    destruct (H23 Hg2) as [Hg3 He3]. split; [done|by etrans].
Qed.

Lemma kept_add_row `{!ModelLaws DB A} K `{!PreOrder K} x db :
  pk x = next_id (table_of db) -> kept K db (add_row x db).
Proof. intros Hx Hg. split; [by apply add_row_good|by apply evolves_add_row]. Qed.

Lemma kept_set_row `{!ModelLaws DB A} K `{!PreOrder K} i x y db :
  rows_of db !! i = Some y -> pk x = pk y -> K y x -> kept K db (set_row i x db).
Proof.
  intros Hi Hx HK Hg. split; [|by eapply evolves_set_row].
  eapply set_row_good; [done|done|]. rewrite Hx. by apply Hg.
Qed.

Lemma kept_same_table K `{!PreOrder K} db db' :
  table_of (A := A) db' = table_of db -> kept K db db'.
Proof. intros Heq Hg. split; [by rewrite Heq|by apply evolves_same_table]. Qed.
End Kept.
