(* ===== verification/Models.v ===== *)
(** The data of the madadkar app: one record per model class of
    [src/apps/madadkar/models.py], with the fields of [BaseModel]
    ([src/apps/core/models.py]); a foreign key is the key of the row it points
    to, money is an integer number of tomans, a time is in microseconds.

    [*_row_ok] are the constraints the tables put on a row: the CHECK and
    UNIQUE constraints of the class and the domains of its columns.  The
    computed properties of the classes and the validators of
    [src/apps/madadkar/validators.py] follow. *)

From S2P Require Import Prelude Python Choices.

(** * Records *)

(** Sponsor: the body hosting campaigns. *)
Record Sponsor : Type := mkSponsor {
  sp_id : Z;
  sp_name : string;
  sp_slug : string;
  sp_logo : option string;
  sp_is_active : bool;
  sp_created_at : Z;
  sp_updated_at : Z;
}.

#[export] Instance eta_Sponsor : Eta Sponsor := fun x => mkSponsor
  (sp_id x) (sp_name x) (sp_slug x) (sp_logo x) (sp_is_active x)
  (sp_created_at x) (sp_updated_at x).

(** Campaign: a share-based charitable campaign with its denormalised counters. *)
Record Campaign : Type := mkCampaign {
  camp_id : Z;
  camp_sponsor : Z;
  camp_title : string;
  camp_slug : string;
  camp_description : string;
  camp_cover_image : string;
  camp_total_amount : Z;
  camp_total_shares : Z;
  camp_share_price : Z;
  camp_purchased_shares : Z;
  camp_purchased_amount : Z;
  camp_participant_count : Z;
  camp_external_funded_shares : Z;
  camp_external_funded_amount : Z;
  camp_status : CampaignStatus.t;
  camp_is_visible : bool;
  camp_has_deadline : bool;
  camp_deadline : option Z;
  camp_published_at : option Z;
  camp_completed_at : option Z;
  camp_closed_at : option Z;
  camp_is_active : bool;
  camp_created_at : Z;
  camp_updated_at : Z;
}.

#[export] Instance eta_Campaign : Eta Campaign := fun x => mkCampaign
  (camp_id x) (camp_sponsor x) (camp_title x) (camp_slug x)
  (camp_description x) (camp_cover_image x) (camp_total_amount x)
  (camp_total_shares x) (camp_share_price x) (camp_purchased_shares x)
  (camp_purchased_amount x) (camp_participant_count x)
  (camp_external_funded_shares x) (camp_external_funded_amount x)
  (camp_status x) (camp_is_visible x) (camp_has_deadline x)
  (camp_deadline x) (camp_published_at x) (camp_completed_at x)
  (camp_closed_at x) (camp_is_active x) (camp_created_at x)
  (camp_updated_at x).

(** ExternalFunding: shares of a campaign financed outside the platform. *)
Record ExternalFunding : Type := mkExternalFunding {
  xf_id : Z;
  xf_campaign : Z;
  xf_status : ExternalFundingStatus.t;
  xf_shares : Z;
  xf_amount : option Z;
  xf_share_price_snapshot : option Z;
  xf_method : ExternalFundingMethod.t;
  xf_reference : string;
  xf_note : string;
  xf_funded_at : Z;
  xf_recorded_by : option Z;
  xf_void_reason : string;
  xf_voided_at : option Z;
  xf_is_active : bool;
  xf_created_at : Z;
  xf_updated_at : Z;
}.

#[export] Instance eta_ExternalFunding : Eta ExternalFunding := fun x => mkExternalFunding
  (xf_id x) (xf_campaign x) (xf_status x) (xf_shares x) (xf_amount x)
  (xf_share_price_snapshot x) (xf_method x) (xf_reference x) (xf_note x)
  (xf_funded_at x) (xf_recorded_by x) (xf_void_reason x) (xf_voided_at x)
  (xf_is_active x) (xf_created_at x) (xf_updated_at x).

(** CampaignImage: a gallery picture of a campaign. *)
Record CampaignImage : Type := mkCampaignImage {
  img_id : Z;
  img_campaign : Z;
  img_image : string;
  img_alt_text : string;
  img_display_order : Z;
  img_is_active : bool;
  img_created_at : Z;
  img_updated_at : Z;
}.

#[export] Instance eta_CampaignImage : Eta CampaignImage := fun x => mkCampaignImage
  (img_id x) (img_campaign x) (img_image x) (img_alt_text x)
  (img_display_order x) (img_is_active x) (img_created_at x)
  (img_updated_at x).

(** Participation: the purchase of shares by a user. *)
Record Participation : Type := mkParticipation {
  part_id : Z;
  part_campaign : Z;
  part_user : Z;
  part_share_count : Z;
  part_share_price_snapshot : Z;
  part_total_amount : Z;
  part_status : ParticipationStatus.t;
  part_paid_at : option Z;
  part_is_active : bool;
  part_created_at : Z;
  part_updated_at : Z;
}.

#[export] Instance eta_Participation : Eta Participation := fun x => mkParticipation
  (part_id x) (part_campaign x) (part_user x) (part_share_count x)
  (part_share_price_snapshot x) (part_total_amount x) (part_status x)
  (part_paid_at x) (part_is_active x) (part_created_at x)
  (part_updated_at x).

(** Payment: the gateway transaction of a participation. *)
Record Payment : Type := mkPayment {
  pay_id : Z;
  pay_participation : Z;
  pay_user : Z;
  pay_amount : Z;
  pay_gateway_name : string;
  pay_authority : string;
  pay_ref_id : string;
  pay_gateway_status : string;
  pay_status : PaymentStatus.t;
  pay_paid_at : option Z;
  pay_verified_at : option Z;
  pay_ip_address : option string;
  pay_user_agent : string;
  pay_is_active : bool;
  pay_created_at : Z;
  pay_updated_at : Z;
}.

#[export] Instance eta_Payment : Eta Payment := fun x => mkPayment
  (pay_id x) (pay_participation x) (pay_user x) (pay_amount x)
  (pay_gateway_name x) (pay_authority x) (pay_ref_id x)
  (pay_gateway_status x) (pay_status x) (pay_paid_at x)
  (pay_verified_at x) (pay_ip_address x) (pay_user_agent x)
  (pay_is_active x) (pay_created_at x) (pay_updated_at x).

(** PaymentEvent: one entry of the append-only payment ledger; a blank status is [None]. *)
Record PaymentEvent : Type := mkPaymentEvent {
  ev_id : Z;
  ev_payment : Z;
  ev_event_kind : PaymentEventKind.t;
  ev_previous_status : option PaymentStatus.t;
  ev_new_status : option PaymentStatus.t;
  ev_amount : Z;
  ev_gateway_status : string;
  ev_ref_id : string;
  ev_metadata : json;
  ev_is_active : bool;
  ev_created_at : Z;
  ev_updated_at : Z;
}.

#[export] Instance eta_PaymentEvent : Eta PaymentEvent := fun x => mkPaymentEvent
  (ev_id x) (ev_payment x) (ev_event_kind x) (ev_previous_status x)
  (ev_new_status x) (ev_amount x) (ev_gateway_status x) (ev_ref_id x)
  (ev_metadata x) (ev_is_active x) (ev_created_at x) (ev_updated_at x).

(** PaymentRefund: the refund workflow of a successful payment. *)
Record PaymentRefund : Type := mkPaymentRefund {
  ref_id : Z;
  ref_payment : Z;
  ref_requested_by : option Z;
  ref_reviewed_by : option Z;
  ref_amount : Z;
  ref_reason : RefundReason.t;
  ref_status : RefundStatus.t;
  ref_idempotency_key : option string;
  ref_provider_ref_id : string;
  ref_note : string;
  ref_rejection_reason : string;
  ref_reviewed_at : option Z;
  ref_completed_at : option Z;
  ref_is_active : bool;
  ref_created_at : Z;
  ref_updated_at : Z;
}.

#[export] Instance eta_PaymentRefund : Eta PaymentRefund := fun x => mkPaymentRefund
  (ref_id x) (ref_payment x) (ref_requested_by x) (ref_reviewed_by x)
  (ref_amount x) (ref_reason x) (ref_status x) (ref_idempotency_key x)
  (ref_provider_ref_id x) (ref_note x) (ref_rejection_reason x)
  (ref_reviewed_at x) (ref_completed_at x) (ref_is_active x)
  (ref_created_at x) (ref_updated_at x).

(** CampaignFinancialAdjustment: a reviewed manual correction of a campaign's amount. *)
Record CampaignFinancialAdjustment : Type := mkAdjustment {
  adj_id : Z;
  adj_campaign : Z;
  adj_payment : option Z;
  adj_requested_by : option Z;
  adj_reviewed_by : option Z;
  adj_adjustment_type : FinancialAdjustmentType.t;
  adj_status : FinancialAdjustmentStatus.t;
  adj_amount : Z;
  adj_reason : string;
  adj_note : string;
  adj_rejection_reason : string;
  adj_reviewed_at : option Z;
  adj_applied_at : option Z;
  adj_is_active : bool;
  adj_created_at : Z;
  adj_updated_at : Z;
}.

#[export] Instance eta_CampaignFinancialAdjustment : Eta CampaignFinancialAdjustment := fun x => mkAdjustment
  (adj_id x) (adj_campaign x) (adj_payment x) (adj_requested_by x)
  (adj_reviewed_by x) (adj_adjustment_type x) (adj_status x)
  (adj_amount x) (adj_reason x) (adj_note x) (adj_rejection_reason x)
  (adj_reviewed_at x) (adj_applied_at x) (adj_is_active x)
  (adj_created_at x) (adj_updated_at x).

(** MadadkarFinancialControlSnapshot: a stored finance-ops control report. *)
Record MadadkarFinancialControlSnapshot : Type := mkSnapshot {
  snap_id : Z;
  snap_generated_for_date : Z;
  snap_severity : FinancialControlSeverity.t;
  snap_summary : json;
  snap_controls : json;
  snap_flags : json;
  snap_generated_by_task_id : string;
  snap_is_active : bool;
  snap_created_at : Z;
  snap_updated_at : Z;
}.

#[export] Instance eta_MadadkarFinancialControlSnapshot : Eta MadadkarFinancialControlSnapshot := fun x => mkSnapshot
  (snap_id x) (snap_generated_for_date x) (snap_severity x)
  (snap_summary x) (snap_controls x) (snap_flags x)
  (snap_generated_by_task_id x) (snap_is_active x) (snap_created_at x)
  (snap_updated_at x).

(** CampaignDisbursement: the allocation of collected funds to a recipient. *)
Record CampaignDisbursement : Type := mkDisbursement {
  disb_id : Z;
  disb_campaign : Z;
  disb_requested_by : option Z;
  disb_reviewed_by : option Z;
  disb_paid_by : option Z;
  disb_status : DisbursementStatus.t;
  disb_amount : Z;
  disb_recipient_name : string;
  disb_recipient_identifier : string;
  disb_recipient_bank_account : string;
  disb_recipient_snapshot : json;
  disb_purpose : string;
  disb_note : string;
  disb_rejection_reason : string;
  disb_bank_tracking_reference : string;
  disb_supporting_document : json;
  disb_approved_at : option Z;
  disb_rejected_at : option Z;
  disb_paid_at : option Z;
  disb_is_active : bool;
  disb_created_at : Z;
  disb_updated_at : Z;
}.

#[export] Instance eta_CampaignDisbursement : Eta CampaignDisbursement := fun x => mkDisbursement
  (disb_id x) (disb_campaign x) (disb_requested_by x) (disb_reviewed_by x)
  (disb_paid_by x) (disb_status x) (disb_amount x) (disb_recipient_name x)
  (disb_recipient_identifier x) (disb_recipient_bank_account x)
  (disb_recipient_snapshot x) (disb_purpose x) (disb_note x)
  (disb_rejection_reason x) (disb_bank_tracking_reference x)
  (disb_supporting_document x) (disb_approved_at x) (disb_rejected_at x)
  (disb_paid_at x) (disb_is_active x) (disb_created_at x)
  (disb_updated_at x).

(** DonationReceipt: the verifiable receipt of a successful payment. *)
Record DonationReceipt : Type := mkReceipt {
  rcpt_id : Z;
  rcpt_payment : Z;
  rcpt_user : Z;
  rcpt_campaign : Z;
  rcpt_receipt_number : string;
  rcpt_receipt_hash : string;
  rcpt_hash_version : Z;
  rcpt_amount : Z;
  rcpt_issued_at : Z;
  rcpt_payment_snapshot : json;
  rcpt_campaign_snapshot : json;
  rcpt_donor_snapshot : json;
  rcpt_resend_count : Z;
  rcpt_last_resent_at : option Z;
  rcpt_is_active : bool;
  rcpt_created_at : Z;
  rcpt_updated_at : Z;
}.

#[export] Instance eta_DonationReceipt : Eta DonationReceipt := fun x => mkReceipt
  (rcpt_id x) (rcpt_payment x) (rcpt_user x) (rcpt_campaign x)
  (rcpt_receipt_number x) (rcpt_receipt_hash x) (rcpt_hash_version x)
  (rcpt_amount x) (rcpt_issued_at x) (rcpt_payment_snapshot x)
  (rcpt_campaign_snapshot x) (rcpt_donor_snapshot x) (rcpt_resend_count x)
  (rcpt_last_resent_at x) (rcpt_is_active x) (rcpt_created_at x)
  (rcpt_updated_at x).

(** MadadkarRiskSignal: a fraud or abuse signal and its review. *)
Record MadadkarRiskSignal : Type := mkRiskSignal {
  risk_id : Z;
  risk_signal_type : MadadkarRiskSignalType.t;
  risk_severity : MadadkarRiskSeverity.t;
  risk_status : MadadkarRiskStatus.t;
  risk_user : option Z;
  risk_campaign : option Z;
  risk_payment : option Z;
  risk_refund : option Z;
  risk_adjustment : option Z;
  risk_ip_address : option string;
  risk_description : string;
  risk_metadata : json;
  risk_reviewed_by : option Z;
  risk_reviewed_at : option Z;
  risk_review_note : string;
  risk_is_active : bool;
  risk_created_at : Z;
  risk_updated_at : Z;
}.

#[export] Instance eta_MadadkarRiskSignal : Eta MadadkarRiskSignal := fun x => mkRiskSignal
  (risk_id x) (risk_signal_type x) (risk_severity x) (risk_status x)
  (risk_user x) (risk_campaign x) (risk_payment x) (risk_refund x)
  (risk_adjustment x) (risk_ip_address x) (risk_description x)
  (risk_metadata x) (risk_reviewed_by x) (risk_reviewed_at x)
  (risk_review_note x) (risk_is_active x) (risk_created_at x)
  (risk_updated_at x).

(** PaymentReconciliationBatch: a comparison of a provider report with the internal payments. *)
Record PaymentReconciliationBatch : Type := mkReconciliationBatch {
  rb_id : Z;
  rb_provider_name : string;
  rb_source_name : string;
  rb_status : ReconciliationStatus.t;
  rb_total_rows : Z;
  rb_matched_count : Z;
  rb_mismatch_count : Z;
  rb_missing_internal_count : Z;
  rb_duplicate_provider_ref_count : Z;
  rb_summary : json;
  rb_completed_at : option Z;
  rb_is_active : bool;
  rb_created_at : Z;
  rb_updated_at : Z;
}.

#[export] Instance eta_PaymentReconciliationBatch : Eta PaymentReconciliationBatch := fun x => mkReconciliationBatch
  (rb_id x) (rb_provider_name x) (rb_source_name x) (rb_status x)
  (rb_total_rows x) (rb_matched_count x) (rb_mismatch_count x)
  (rb_missing_internal_count x) (rb_duplicate_provider_ref_count x)
  (rb_summary x) (rb_completed_at x) (rb_is_active x) (rb_created_at x)
  (rb_updated_at x).

(** PaymentReconciliationItem: the outcome for one provider row. *)
Record PaymentReconciliationItem : Type := mkReconciliationItem {
  ri_id : Z;
  ri_batch : Z;
  ri_payment : option Z;
  ri_authority : string;
  ri_provider_ref_id : string;
  ri_provider_amount : Z;
  ri_provider_status : string;
  ri_internal_amount : option Z;
  ri_internal_status : option PaymentStatus.t;
  ri_status : ReconciliationItemStatus.t;
  ri_reason : string;
  ri_raw_payload : json;
  ri_is_active : bool;
  ri_created_at : Z;
  ri_updated_at : Z;
}.

#[export] Instance eta_PaymentReconciliationItem : Eta PaymentReconciliationItem := fun x => mkReconciliationItem
  (ri_id x) (ri_batch x) (ri_payment x) (ri_authority x)
  (ri_provider_ref_id x) (ri_provider_amount x) (ri_provider_status x)
  (ri_internal_amount x) (ri_internal_status x) (ri_status x)
  (ri_reason x) (ri_raw_payload x) (ri_is_active x) (ri_created_at x)
  (ri_updated_at x).


(** * Column domains and constraints *)

Definition positive_integer (z : Z) : bool := (0 <=? z) && (z <=? 2147483647).
Definition positive_big_integer (z : Z) : bool :=
  (0 <=? z) && (z <=? 9223372036854775807).
Definition positive_small_integer (z : Z) : bool := (0 <=? z) && (z <=? 32767).
Definition opt_ok {A} (p : A -> bool) (o : option A) : bool :=
  match o with Some a => p a | None => true end.
Definition max_length (n : Z) (s : string) : bool :=
  Z.of_nat (String.length s) <=? n.

(** A UNIQUE column: no row of [others] satisfies [p]. *)
Definition unique_among {A} (p : A -> bool) (others : gmap Z A) : bool :=
  bool_decide (map_Forall (fun _ x => p x = false) others).

Lemma unique_among_spec {A} (p : A -> bool) (others : gmap Z A) :
  unique_among p others = true <-> forall i x, others !! i = Some x -> p x = false.
Proof. apply bool_decide_eq_true. Qed.

Definition str_eqb (a b : string) : bool := bool_decide (a = b).

Definition sponsor_row_ok (others : gmap Z Sponsor) (x : Sponsor) : bool :=
  max_length 200 (sp_name x) && max_length 220 (sp_slug x) &&
  unique_among (fun y => str_eqb (sp_name y) (sp_name x)) others &&
  unique_among (fun y => str_eqb (sp_slug y) (sp_slug x)) others.

Definition campaign_columns_ok (x : Campaign) : bool :=
  max_length 300 (camp_title x) && max_length 320 (camp_slug x) &&
  positive_big_integer (camp_total_amount x) &&
  positive_integer (camp_total_shares x) &&
  positive_big_integer (camp_share_price x) &&
  positive_integer (camp_purchased_shares x) &&
  positive_big_integer (camp_purchased_amount x) &&
  positive_integer (camp_participant_count x) &&
  positive_integer (camp_external_funded_shares x) &&
  positive_big_integer (camp_external_funded_amount x).

Definition campaign_checks (x : Campaign) : bool :=
  (1000 <=? camp_total_amount x) &&
  (1 <=? camp_total_shares x) &&
  (1 <=? camp_share_price x) &&
  (camp_purchased_shares x <=? camp_total_shares x) &&
  (negb (camp_has_deadline x) && bool_decide (camp_deadline x = None)
   || camp_has_deadline x && bool_decide (camp_deadline x <> None)).

Definition campaign_row_ok (others : gmap Z Campaign) (x : Campaign) : bool :=
  campaign_columns_ok x && campaign_checks x &&
  unique_among (fun y => str_eqb (camp_slug y) (camp_slug x)) others.

Definition external_funding_row_ok (others : gmap Z ExternalFunding)
    (x : ExternalFunding) : bool :=
  positive_integer (xf_shares x) && opt_ok positive_big_integer (xf_amount x) &&
  opt_ok positive_big_integer (xf_share_price_snapshot x) &&
  max_length 120 (xf_reference x).

Definition campaign_image_row_ok (others : gmap Z CampaignImage)
    (x : CampaignImage) : bool :=
  max_length 200 (img_alt_text x) && positive_small_integer (img_display_order x).

Definition participation_row_ok (others : gmap Z Participation)
    (x : Participation) : bool :=
  positive_integer (part_share_count x) &&
  positive_big_integer (part_share_price_snapshot x) &&
  positive_big_integer (part_total_amount x) &&
  (1 <=? part_share_count x) && (1 <=? part_share_price_snapshot x) &&
  (1 <=? part_total_amount x).

Definition payment_row_ok (others : gmap Z Payment) (x : Payment) : bool :=
  positive_big_integer (pay_amount x) && (1 <=? pay_amount x) &&
  max_length 50 (pay_gateway_name x) && max_length 100 (pay_authority x) &&
  max_length 100 (pay_ref_id x) && max_length 50 (pay_gateway_status x) &&
  max_length 500 (pay_user_agent x) &&
  unique_among (fun y => pay_participation y =? pay_participation x) others &&
  unique_among (fun y => str_eqb (pay_authority y) (pay_authority x)) others.

Definition payment_event_row_ok (others : gmap Z PaymentEvent)
    (x : PaymentEvent) : bool :=
  positive_big_integer (ev_amount x) && max_length 50 (ev_gateway_status x) &&
  max_length 100 (ev_ref_id x).

Definition refund_row_ok (others : gmap Z PaymentRefund) (x : PaymentRefund) : bool :=
  positive_big_integer (ref_amount x) && (1 <=? ref_amount x) &&
  max_length 120 (ref_provider_ref_id x) &&
  opt_ok (max_length 120) (ref_idempotency_key x) &&
  opt_ok (fun k => unique_among
            (fun y => bool_decide (ref_idempotency_key y = Some k)) others)
    (ref_idempotency_key x).

Definition adjustment_row_ok (others : gmap Z CampaignFinancialAdjustment)
    (x : CampaignFinancialAdjustment) : bool :=
  positive_big_integer (adj_amount x) && (1 <=? adj_amount x) &&
  max_length 240 (adj_reason x).

Definition snapshot_row_ok (others : gmap Z MadadkarFinancialControlSnapshot)
    (x : MadadkarFinancialControlSnapshot) : bool :=
  max_length 120 (snap_generated_by_task_id x).

Definition disbursement_row_ok (others : gmap Z CampaignDisbursement)
    (x : CampaignDisbursement) : bool :=
  positive_big_integer (disb_amount x) && (1 <=? disb_amount x) &&
  max_length 220 (disb_recipient_name x) &&
  max_length 120 (disb_recipient_identifier x) &&
  max_length 120 (disb_recipient_bank_account x) &&
  max_length 260 (disb_purpose x) && max_length 120 (disb_bank_tracking_reference x).

Definition receipt_row_ok (others : gmap Z DonationReceipt)
    (x : DonationReceipt) : bool :=
  positive_big_integer (rcpt_amount x) && (1 <=? rcpt_amount x) &&
  positive_small_integer (rcpt_hash_version x) &&
  positive_integer (rcpt_resend_count x) &&
  max_length 40 (rcpt_receipt_number x) && max_length 64 (rcpt_receipt_hash x) &&
  unique_among (fun y => rcpt_payment y =? rcpt_payment x) others &&
  unique_among (fun y => str_eqb (rcpt_receipt_number y) (rcpt_receipt_number x)) others &&
  unique_among (fun y => str_eqb (rcpt_receipt_hash y) (rcpt_receipt_hash x)) others.

Definition risk_signal_row_ok (others : gmap Z MadadkarRiskSignal)
    (x : MadadkarRiskSignal) : bool := true.

Definition reconciliation_batch_row_ok (others : gmap Z PaymentReconciliationBatch)
    (x : PaymentReconciliationBatch) : bool :=
  max_length 50 (rb_provider_name x) && max_length 180 (rb_source_name x) &&
  positive_integer (rb_total_rows x) && positive_integer (rb_matched_count x) &&
  positive_integer (rb_mismatch_count x) &&
  positive_integer (rb_missing_internal_count x) &&
  positive_integer (rb_duplicate_provider_ref_count x).

Definition reconciliation_item_row_ok (others : gmap Z PaymentReconciliationItem)
    (x : PaymentReconciliationItem) : bool :=
  max_length 100 (ri_authority x) && max_length 100 (ri_provider_ref_id x) &&
  positive_big_integer (ri_provider_amount x) && max_length 50 (ri_provider_status x) &&
  opt_ok positive_big_integer (ri_internal_amount x).

(** * Computed properties *)

Definition funded_shares (c : Campaign) : Z :=
  camp_purchased_shares c + camp_external_funded_shares c.

Definition remaining_shares (c : Campaign) : Z :=
  Z.max (camp_total_shares c - funded_shares c) 0.

Definition is_fully_funded (c : Campaign) : bool :=
  camp_total_shares c <=? funded_shares c.

(** [PaymentRefund.is_full_refund], [p] being [self.payment] *)
Definition is_full_refund (r : PaymentRefund) (p : Payment) : bool :=
  pay_amount p <=? ref_amount r.

Definition signed_amount (a : CampaignFinancialAdjustment) : Z :=
  if bool_decide (adj_adjustment_type a = FinancialAdjustmentType.CREDIT)
  then adj_amount a else - adj_amount a.

(** ** The slug of a campaign *)

Section Slug.
(** [django.utils.text.slugify(_, allow_unicode=True)] *)
Variable slugify : string -> string.

Definition slug_max_length : nat := 320.

(** [_build_unique_slug] on the campaign with key [self_pk] ([None] before the
    first save); [all] are the rows of [Campaign.all_objects], [None] the
    final [ValidationError]. *)
Definition slug_free (all : gmap Z Campaign) (self_pk : option Z) (slug : string) :
    bool :=
  bool_decide (map_Forall
    (fun i y => camp_slug y = slug -> self_pk = Some i) all).

Definition slug_with_suffix (base : string) (counter : Z) : string :=
  let suffix := ("-" +:+ pretty counter)%string in
  (py_prefix (slug_max_length - String.length suffix) base +:+ suffix)%string.

Definition build_unique_slug (all : gmap Z Campaign) (self_pk : option Z)
    (source slug title : string) : option string :=
  let base := str_or (slugify (str_or source (str_or slug title))) "campaign" in
  let candidate := py_prefix slug_max_length base in
  if slug_free all self_pk candidate then Some candidate
  else
    match list_find (fun s => slug_free all self_pk s = true)
            (slug_with_suffix base <$> seqZ 2 9998) with
    | Some (_, s) => Some s
    | None => None
    end.

(** What [Campaign.save] computes before the row is written. *)
Definition campaign_pre_save (all : gmap Z Campaign) (self_pk : option Z)
    (c : Campaign) : option Campaign :=
  let slug :=
    if negb (str_true (camp_slug c))
    then build_unique_slug all self_pk (camp_title c) (camp_slug c) (camp_title c)
    else if negb (slug_free all self_pk (camp_slug c))
    then build_unique_slug all self_pk (camp_slug c) (camp_slug c) (camp_title c)
    else Some (camp_slug c) in
  match slug with
  | None => None
  | Some s =>
      let c := c <| camp_slug := s |> in
      Some (if negb (camp_total_shares c =? 0) && negb (camp_total_amount c =? 0)
            then c <| camp_share_price := camp_total_amount c / camp_total_shares c |>
            else c)
  end.
End Slug.

(** * Validators *)

Inductive validation_message : Type :=
| total_amount_below_minimum (minimum : Z)
| total_shares_below_minimum (minimum : Z)
| total_shares_above_maximum (maximum : Z)
| share_divisor_not_positive
| total_amount_not_divisible (total_amount total_shares : Z)
| share_count_below_minimum (minimum : Z)
| image_extension_not_allowed
| image_too_large (megabytes : Z)
| slug_space_exhausted
| external_funding_campaign_closed
| external_funding_shares_not_positive
| external_funding_amount_not_positive
| external_funding_exceeds_remaining (remaining : Z)
| external_funding_already_voided
| new_external_funding_voided
| field_message (text : string).

Definition MINIMUM_TOTAL_AMOUNT : Z := 1000.
Definition MINIMUM_TOTAL_SHARES : Z := 1.
Definition MAXIMUM_TOTAL_SHARES : Z := 1000000.
Definition MINIMUM_SHARE_COUNT : Z := 1.
Definition ALLOWED_IMAGE_EXTENSIONS : list string := [".jpg"; ".jpeg"; ".png"; ".webp"]%string.
Definition MAX_IMAGE_SIZE_MB : Z := 5.
Definition MAX_IMAGE_SIZE_BYTES : Z := MAX_IMAGE_SIZE_MB * 1024 * 1024.

(** A validator returns the message it raises, [None] when it accepts. *)
Definition validate_total_amount (value : Z) : option validation_message :=
  if value <? MINIMUM_TOTAL_AMOUNT
  then Some (total_amount_below_minimum MINIMUM_TOTAL_AMOUNT) else None.

Definition validate_total_shares (value : Z) : option validation_message :=
  if value <? MINIMUM_TOTAL_SHARES
  then Some (total_shares_below_minimum MINIMUM_TOTAL_SHARES)
  else if MAXIMUM_TOTAL_SHARES <? value
  then Some (total_shares_above_maximum MAXIMUM_TOTAL_SHARES)
  else None.

Definition validate_share_price_divisibility (total_amount total_shares : Z) :
    option validation_message :=
  if total_shares <=? 0 then Some share_divisor_not_positive
  else if negb (total_amount mod total_shares =? 0)
  then Some (total_amount_not_divisible total_amount total_shares)
  else None.

Definition validate_share_count (value : Z) : option validation_message :=
  if value <? MINIMUM_SHARE_COUNT
  then Some (share_count_below_minimum MINIMUM_SHARE_COUNT) else None.

(** [os.path.splitext(name)[1]] is the argument [ext]. *)
Definition validate_image_extension (ext : string) : option validation_message :=
  if bool_decide (py_lower ext ∈ ALLOWED_IMAGE_EXTENSIONS)
  then None else Some image_extension_not_allowed.

Definition validate_image_size (size : Z) : option validation_message :=
  if MAX_IMAGE_SIZE_BYTES <? size
  then Some (image_too_large MAX_IMAGE_SIZE_MB) else None.

(** * Lemmas *)

Lemma build_unique_slug_free slugify all self_pk source slug title s :
  build_unique_slug slugify all self_pk source slug title = Some s ->
  slug_free all self_pk s = true.
Proof.
  unfold build_unique_slug. set (cand := py_prefix _ _).
  destruct (slug_free all self_pk cand) eqn:Hc; [congruence|].
  case_match eqn:Hf; [|done]. case_match. intros [= ->].
  by apply list_find_Some in Hf as (_ & Hf & _).
Qed.

(** [Campaign.save] computes a free slug and the share price, nothing else. *)
Lemma campaign_pre_save_Some slugify all self_pk c c' :
  campaign_pre_save slugify all self_pk c = Some c' ->
  exists slug price, c' = c <| camp_slug := slug |> <| camp_share_price := price |> /\
    slug_free all self_pk slug = true /\
    (camp_total_shares c <> 0 -> camp_total_amount c <> 0 ->
     price = camp_total_amount c / camp_total_shares c).
Proof.
  unfold campaign_pre_save.
  destruct (if negb (str_true _) then _ else _) as [s|] eqn:Hs; [|done].
  assert (slug_free all self_pk s = true) as Hfree.
  { repeat case_match; simplify_eq; eauto using build_unique_slug_free.
    by apply negb_false_iff. }
  intros [= <-]. exists s. destruct (negb _ && negb _) eqn:Hc.
  - eexists. split; [reflexivity|]. split; [done|]. intros; reflexivity.
  - exists (camp_share_price c). split; [by destruct c|]. split; [done|].
    intros H1 H2. exfalso. simpl in Hc.
    rewrite (proj2 (Z.eqb_neq _ _) H1), (proj2 (Z.eqb_neq _ _) H2) in Hc. done.
Qed.
