(* ===== verification/NotificationModels.v ===== *)
(** The data of the notification and activity apps
    ([src/apps/notifications/choices.py], [src/apps/notifications/models.py],
    [src/apps/activity/choices.py], [src/apps/activity/models.py]) and the
    user columns the services read ([src/apps/authentication/models.py]). *)

From S2P Require Import Prelude Python Choices Models.

(** * Enumerations *)

Module NotificationChannel.

Inductive t : Set :=
| IN_APP
| EMAIL
| SMS
| WEBHOOK.

#[export] Instance t_eq : EqDecision t.
Proof. solve_decision. Defined.

Definition values : list (t * string) :=
  [ (IN_APP, "in_app"%string);
    (EMAIL, "email"%string);
    (SMS, "sms"%string);
    (WEBHOOK, "webhook"%string) ].

#[export, refine] Instance t_choices : TextChoices t := { choices := values }.
Proof. all: solve_choices. Defined.

End NotificationChannel.
Export (hints) NotificationChannel.

Module NotificationEventStatus.

Inductive t : Set :=
| PENDING
| PROCESSING
| SENT
| PARTIAL
| FAILED
| CANCELLED.

#[export] Instance t_eq : EqDecision t.
Proof. solve_decision. Defined.

Definition values : list (t * string) :=
  [ (PENDING, "pending"%string);
    (PROCESSING, "processing"%string);
    (SENT, "sent"%string);
    (PARTIAL, "partial"%string);
    (FAILED, "failed"%string);
    (CANCELLED, "cancelled"%string) ].

#[export, refine] Instance t_choices : TextChoices t := { choices := values }.
Proof. all: solve_choices. Defined.

End NotificationEventStatus.
Export (hints) NotificationEventStatus.

Module NotificationDeliveryStatus.

Inductive t : Set :=
| PENDING
| SENT
| FAILED
| SKIPPED
| READ.

#[export] Instance t_eq : EqDecision t.
Proof. solve_decision. Defined.

Definition values : list (t * string) :=
  [ (PENDING, "pending"%string);
    (SENT, "sent"%string);
    (FAILED, "failed"%string);
    (SKIPPED, "skipped"%string);
    (READ, "read"%string) ].

#[export, refine] Instance t_choices : TextChoices t := { choices := values }.
Proof. all: solve_choices. Defined.

End NotificationDeliveryStatus.
Export (hints) NotificationDeliveryStatus.

Module NotificationPriority.

Inductive t : Set :=
| LOW
| NORMAL
| HIGH
| URGENT.

#[export] Instance t_eq : EqDecision t.
Proof. solve_decision. Defined.

Definition values : list (t * string) :=
  [ (LOW, "low"%string);
    (NORMAL, "normal"%string);
    (HIGH, "high"%string);
    (URGENT, "urgent"%string) ].

#[export, refine] Instance t_choices : TextChoices t := { choices := values }.
Proof. all: solve_choices. Defined.

End NotificationPriority.
Export (hints) NotificationPriority.

Module ActivityVerb.

Inductive t : Set :=
| CREATED
| SUBMITTED
| UPDATED
| APPROVED
| REJECTED
| REPLIED
| RESOLVED
| PAID
| ISSUED
| REVEALED
| MATCHED
| NOTIFIED.

#[export] Instance t_eq : EqDecision t.
Proof. solve_decision. Defined.

Definition values : list (t * string) :=
  [ (CREATED, "created"%string);
    (SUBMITTED, "submitted"%string);
    (UPDATED, "updated"%string);
    (APPROVED, "approved"%string);
    (REJECTED, "rejected"%string);
    (REPLIED, "replied"%string);
    (RESOLVED, "resolved"%string);
    (PAID, "paid"%string);
    (ISSUED, "issued"%string);
    (REVEALED, "revealed"%string);
    (MATCHED, "matched"%string);
    (NOTIFIED, "notified"%string) ].

#[export, refine] Instance t_choices : TextChoices t := { choices := values }.
Proof. all: solve_choices. Defined.

End ActivityVerb.
Export (hints) ActivityVerb.

Module ActivityVisibility.

Inductive t : Set :=
| PRIVATE
| ADMIN.

#[export] Instance t_eq : EqDecision t.
Proof. solve_decision. Defined.

Definition values : list (t * string) :=
  [ (PRIVATE, "private"%string);
    (ADMIN, "admin"%string) ].

#[export, refine] Instance t_choices : TextChoices t := { choices := values }.
Proof. all: solve_choices. Defined.

End ActivityVisibility.
Export (hints) ActivityVisibility.

(** * Records *)

(** User ([src/apps/authentication/models.py]): the columns the modelled services read. *)
Record User : Type := mkUser {
  usr_id : Z;
  usr_email : option string;
  usr_phone_number : option string;
  usr_first_name : string;
  usr_last_name : string;
}.

#[export] Instance eta_User : Eta User := fun x => mkUser
  (usr_id x) (usr_email x) (usr_phone_number x) (usr_first_name x)
  (usr_last_name x).

(** NotificationTemplate *)
Record NotificationTemplate : Type := mkNotificationTemplate {
  ntp_id : Z;
  ntp_code : string;
  ntp_title : string;
  ntp_channel : NotificationChannel.t;
  ntp_subject_template : string;
  ntp_body_template : string;
  ntp_description : string;
  ntp_is_active : bool;
  ntp_created_at : Z;
  ntp_updated_at : Z;
}.

#[export] Instance eta_NotificationTemplate : Eta NotificationTemplate := fun x => mkNotificationTemplate
  (ntp_id x) (ntp_code x) (ntp_title x) (ntp_channel x)
  (ntp_subject_template x) (ntp_body_template x) (ntp_description x)
  (ntp_is_active x) (ntp_created_at x) (ntp_updated_at x).

(** NotificationEvent *)
Record NotificationEvent : Type := mkNotificationEvent {
  nev_id : Z;
  nev_uuid : string;
  nev_event_type : string;
  nev_aggregate_type : string;
  nev_aggregate_id : string;
  nev_actor : option Z;
  nev_payload : list (string * json);
  nev_priority : NotificationPriority.t;
  nev_status : NotificationEventStatus.t;
  nev_processed_at : option Z;
  nev_attempt_count : Z;
  nev_next_retry_at : option Z;
  nev_last_error : string;
  nev_is_active : bool;
  nev_created_at : Z;
  nev_updated_at : Z;
}.

#[export] Instance eta_NotificationEvent : Eta NotificationEvent := fun x => mkNotificationEvent
  (nev_id x) (nev_uuid x) (nev_event_type x) (nev_aggregate_type x)
  (nev_aggregate_id x) (nev_actor x) (nev_payload x) (nev_priority x)
  (nev_status x) (nev_processed_at x) (nev_attempt_count x)
  (nev_next_retry_at x) (nev_last_error x) (nev_is_active x)
  (nev_created_at x) (nev_updated_at x).

(** NotificationDelivery *)
Record NotificationDelivery : Type := mkNotificationDelivery {
  ndl_id : Z;
  ndl_event : Z;
  ndl_recipient : Z;
  ndl_channel : NotificationChannel.t;
  ndl_status : NotificationDeliveryStatus.t;
  ndl_subject : string;
  ndl_body : string;
  ndl_provider : string;
  ndl_external_id : string;
  ndl_error_message : string;
  ndl_sent_at : option Z;
  ndl_read_at : option Z;
  ndl_is_active : bool;
  ndl_created_at : Z;
  ndl_updated_at : Z;
}.

#[export] Instance eta_NotificationDelivery : Eta NotificationDelivery := fun x => mkNotificationDelivery
  (ndl_id x) (ndl_event x) (ndl_recipient x) (ndl_channel x)
  (ndl_status x) (ndl_subject x) (ndl_body x) (ndl_provider x)
  (ndl_external_id x) (ndl_error_message x) (ndl_sent_at x)
  (ndl_read_at x) (ndl_is_active x) (ndl_created_at x) (ndl_updated_at x).

(** NotificationPreference *)
Record NotificationPreference : Type := mkNotificationPreference {
  npr_id : Z;
  npr_user : Z;
  npr_event_type : string;
  npr_channel : NotificationChannel.t;
  npr_enabled : bool;
  npr_is_active : bool;
  npr_created_at : Z;
  npr_updated_at : Z;
}.

#[export] Instance eta_NotificationPreference : Eta NotificationPreference := fun x => mkNotificationPreference
  (npr_id x) (npr_user x) (npr_event_type x) (npr_channel x)
  (npr_enabled x) (npr_is_active x) (npr_created_at x) (npr_updated_at x).

(** UserActivity ([src/apps/activity/models.py]) *)
Record UserActivity : Type := mkUserActivity {
  act_id : Z;
  act_user : Z;
  act_actor : option Z;
  act_event_type : string;
  act_app_label : string;
  act_verb : ActivityVerb.t;
  act_title : string;
  act_summary : string;
  act_aggregate_type : string;
  act_aggregate_id : string;
  act_visibility : ActivityVisibility.t;
  act_metadata : json;
  act_is_active : bool;
  act_created_at : Z;
  act_updated_at : Z;
}.

#[export] Instance eta_UserActivity : Eta UserActivity := fun x => mkUserActivity
  (act_id x) (act_user x) (act_actor x) (act_event_type x)
  (act_app_label x) (act_verb x) (act_title x) (act_summary x)
  (act_aggregate_type x) (act_aggregate_id x) (act_visibility x)
  (act_metadata x) (act_is_active x) (act_created_at x) (act_updated_at x).

(** * Constraints *)

Definition notification_template_row_ok (others : gmap Z NotificationTemplate)
    (x : NotificationTemplate) : bool :=
  max_length 120 (ntp_code x) && max_length 180 (ntp_title x) &&
  max_length 260 (ntp_subject_template x) &&
  unique_among (fun y => str_eqb (ntp_code y) (ntp_code x) &&
                         bool_decide (ntp_channel y = ntp_channel x)) others.

Definition notification_event_row_ok (others : gmap Z NotificationEvent)
    (x : NotificationEvent) : bool :=
  max_length 160 (nev_event_type x) && max_length 120 (nev_aggregate_type x) &&
  max_length 120 (nev_aggregate_id x) &&
  positive_small_integer (nev_attempt_count x) &&
  unique_among (fun y => str_eqb (nev_uuid y) (nev_uuid x)) others.

Definition notification_delivery_row_ok (others : gmap Z NotificationDelivery)
    (x : NotificationDelivery) : bool :=
  max_length 260 (ndl_subject x) && max_length 80 (ndl_provider x) &&
  max_length 160 (ndl_external_id x) &&
  unique_among (fun y => (ndl_event y =? ndl_event x) &&
                         (ndl_recipient y =? ndl_recipient x) &&
                         bool_decide (ndl_channel y = ndl_channel x)) others.

Definition notification_preference_row_ok (others : gmap Z NotificationPreference)
    (x : NotificationPreference) : bool :=
  max_length 160 (npr_event_type x) &&
  unique_among (fun y => (npr_user y =? npr_user x) &&
                         str_eqb (npr_event_type y) (npr_event_type x) &&
                         bool_decide (npr_channel y = npr_channel x)) others.

Definition user_activity_row_ok (others : gmap Z UserActivity)
    (x : UserActivity) : bool :=
  max_length 160 (act_event_type x) && max_length 80 (act_app_label x) &&
  max_length 260 (act_title x) && max_length 120 (act_aggregate_type x) &&
  max_length 120 (act_aggregate_id x).

(** [User.full_name] *)
Definition user_full_name (u : User) : string :=
  py_strip (usr_first_name u +:+ " " +:+ usr_last_name u)%string.
