(* ===== verification/World.v ===== *)
(** The world the services run in: the database, the environment of one call
    and the exceptions, with the monad of the services.

    The environment holds the time of the call, the settings
    ([src/config/settings/base.py]) and, as functions, the code the services
    call outside the repository: Django's [slugify] and field validation, the
    local date (a day number) of a time,
    [hashlib.sha256], [secrets.token_urlsafe], [uuid.uuid4], the HTTP client,
    the mail and SMS back ends (the class name of the exception they raise,
    if any), [str.format_map] and the [repr] of floats and containers.  They
    are parameters of every definition that uses them. *)

From S2P Require Import Prelude Python Choices Models NotificationModels Orm.
From Stdlib Require Import QArith_base.
#[local] Open Scope Z_scope.

(** * The database *)

(** The tables of the madadkar app. *)
Record MadadkarTables : Type := mkMadadkarTables {
  sponsors : Table Sponsor;
  campaigns : Table Campaign;
  external_fundings : Table ExternalFunding;
  campaign_images : Table CampaignImage;
  participations : Table Participation;
  payments : Table Payment;
  payment_events : Table PaymentEvent;
  refunds : Table PaymentRefund;
  adjustments : Table CampaignFinancialAdjustment;
  snapshots : Table MadadkarFinancialControlSnapshot;
  disbursements : Table CampaignDisbursement;
  receipts : Table DonationReceipt;
  risk_signals : Table MadadkarRiskSignal;
  reconciliation_batches : Table PaymentReconciliationBatch;
  reconciliation_items : Table PaymentReconciliationItem;
}.

#[export] Instance eta_MadadkarTables : Eta MadadkarTables := fun x => mkMadadkarTables
  (sponsors x) (campaigns x) (external_fundings x) (campaign_images x)
  (participations x) (payments x) (payment_events x) (refunds x)
  (adjustments x) (snapshots x) (disbursements x) (receipts x)
  (risk_signals x) (reconciliation_batches x) (reconciliation_items x).

(** The tables of the notification and activity apps. *)
Record NotificationTables : Type := mkNotificationTables {
  notification_events : Table NotificationEvent;
  notification_deliveries : Table NotificationDelivery;
  notification_preferences : Table NotificationPreference;
  notification_templates : Table NotificationTemplate;
  user_activities : Table UserActivity;
}.

#[export] Instance eta_NotificationTables : Eta NotificationTables := fun x => mkNotificationTables
  (notification_events x) (notification_deliveries x)
  (notification_preferences x) (notification_templates x)
  (user_activities x).

(** The database. *)
Record DB : Type := mkDB {
  mdk : MadadkarTables;
  ntf : NotificationTables;
  users : gmap Z User;
}.

#[export] Instance eta_DB : Eta DB := fun x => mkDB
  (mdk x) (ntf x) (users x).

#[export] Instance Sponsor_model : Model DB Sponsor := {
  table_of db := sponsors (mdk db);
  with_table t db := db <| mdk := (mdk db) <| sponsors := t |> |>;
  pk := sp_id;
  is_active := sp_is_active;
  created_at := sp_created_at;
  row_ok := sponsor_row_ok;
}.

#[export] Instance Sponsor_laws : ModelLaws DB Sponsor.
Proof. split; reflexivity. Qed.

#[export] Instance Campaign_model : Model DB Campaign := {
  table_of db := campaigns (mdk db);
  with_table t db := db <| mdk := (mdk db) <| campaigns := t |> |>;
  pk := camp_id;
  is_active := camp_is_active;
  created_at := camp_created_at;
  row_ok := campaign_row_ok;
}.

#[export] Instance Campaign_laws : ModelLaws DB Campaign.
Proof. split; reflexivity. Qed.

#[export] Instance ExternalFunding_model : Model DB ExternalFunding := {
  table_of db := external_fundings (mdk db);
  with_table t db := db <| mdk := (mdk db) <| external_fundings := t |> |>;
  pk := xf_id;
  is_active := xf_is_active;
  created_at := xf_created_at;
  row_ok := external_funding_row_ok;
}.

#[export] Instance ExternalFunding_laws : ModelLaws DB ExternalFunding.
Proof. split; reflexivity. Qed.

#[export] Instance CampaignImage_model : Model DB CampaignImage := {
  table_of db := campaign_images (mdk db);
  with_table t db := db <| mdk := (mdk db) <| campaign_images := t |> |>;
  pk := img_id;
  is_active := img_is_active;
  created_at := img_created_at;
  row_ok := campaign_image_row_ok;
}.

#[export] Instance CampaignImage_laws : ModelLaws DB CampaignImage.
Proof. split; reflexivity. Qed.

#[export] Instance Participation_model : Model DB Participation := {
  table_of db := participations (mdk db);
  with_table t db := db <| mdk := (mdk db) <| participations := t |> |>;
  pk := part_id;
  is_active := part_is_active;
  created_at := part_created_at;
  row_ok := participation_row_ok;
}.

#[export] Instance Participation_laws : ModelLaws DB Participation.
Proof. split; reflexivity. Qed.

#[export] Instance Payment_model : Model DB Payment := {
  table_of db := payments (mdk db);
  with_table t db := db <| mdk := (mdk db) <| payments := t |> |>;
  pk := pay_id;
  is_active := pay_is_active;
  created_at := pay_created_at;
  row_ok := payment_row_ok;
}.

#[export] Instance Payment_laws : ModelLaws DB Payment.
Proof. split; reflexivity. Qed.

#[export] Instance PaymentEvent_model : Model DB PaymentEvent := {
  table_of db := payment_events (mdk db);
  with_table t db := db <| mdk := (mdk db) <| payment_events := t |> |>;
  pk := ev_id;
  is_active := ev_is_active;
  created_at := ev_created_at;
  row_ok := payment_event_row_ok;
}.

#[export] Instance PaymentEvent_laws : ModelLaws DB PaymentEvent.
Proof. split; reflexivity. Qed.

#[export] Instance PaymentRefund_model : Model DB PaymentRefund := {
  table_of db := refunds (mdk db);
  with_table t db := db <| mdk := (mdk db) <| refunds := t |> |>;
  pk := ref_id;
  is_active := ref_is_active;
  created_at := ref_created_at;
  row_ok := refund_row_ok;
}.

#[export] Instance PaymentRefund_laws : ModelLaws DB PaymentRefund.
Proof. split; reflexivity. Qed.

#[export] Instance CampaignFinancialAdjustment_model : Model DB CampaignFinancialAdjustment := {
  table_of db := adjustments (mdk db);
  with_table t db := db <| mdk := (mdk db) <| adjustments := t |> |>;
  pk := adj_id;
  is_active := adj_is_active;
  created_at := adj_created_at;
  row_ok := adjustment_row_ok;
}.

#[export] Instance CampaignFinancialAdjustment_laws : ModelLaws DB CampaignFinancialAdjustment.
Proof. split; reflexivity. Qed.

#[export] Instance MadadkarFinancialControlSnapshot_model : Model DB MadadkarFinancialControlSnapshot := {
  table_of db := snapshots (mdk db);
  with_table t db := db <| mdk := (mdk db) <| snapshots := t |> |>;
  pk := snap_id;
  is_active := snap_is_active;
  created_at := snap_created_at;
  row_ok := snapshot_row_ok;
}.

#[export] Instance MadadkarFinancialControlSnapshot_laws : ModelLaws DB MadadkarFinancialControlSnapshot.
Proof. split; reflexivity. Qed.

#[export] Instance CampaignDisbursement_model : Model DB CampaignDisbursement := {
  table_of db := disbursements (mdk db);
  with_table t db := db <| mdk := (mdk db) <| disbursements := t |> |>;
  pk := disb_id;
  is_active := disb_is_active;
  created_at := disb_created_at;
  row_ok := disbursement_row_ok;
}.

#[export] Instance CampaignDisbursement_laws : ModelLaws DB CampaignDisbursement.
Proof. split; reflexivity. Qed.

#[export] Instance DonationReceipt_model : Model DB DonationReceipt := {
  table_of db := receipts (mdk db);
  with_table t db := db <| mdk := (mdk db) <| receipts := t |> |>;
  pk := rcpt_id;
  is_active := rcpt_is_active;
  created_at := rcpt_created_at;
  row_ok := receipt_row_ok;
}.

#[export] Instance DonationReceipt_laws : ModelLaws DB DonationReceipt.
Proof. split; reflexivity. Qed.

#[export] Instance MadadkarRiskSignal_model : Model DB MadadkarRiskSignal := {
  table_of db := risk_signals (mdk db);
  with_table t db := db <| mdk := (mdk db) <| risk_signals := t |> |>;
  pk := risk_id;
  is_active := risk_is_active;
  created_at := risk_created_at;
  row_ok := risk_signal_row_ok;
}.

#[export] Instance MadadkarRiskSignal_laws : ModelLaws DB MadadkarRiskSignal.
Proof. split; reflexivity. Qed.

#[export] Instance PaymentReconciliationBatch_model : Model DB PaymentReconciliationBatch := {
  table_of db := reconciliation_batches (mdk db);
  with_table t db := db <| mdk := (mdk db) <| reconciliation_batches := t |> |>;
  pk := rb_id;
  is_active := rb_is_active;
  created_at := rb_created_at;
  row_ok := reconciliation_batch_row_ok;
}.

#[export] Instance PaymentReconciliationBatch_laws : ModelLaws DB PaymentReconciliationBatch.
Proof. split; reflexivity. Qed.

#[export] Instance PaymentReconciliationItem_model : Model DB PaymentReconciliationItem := {
  table_of db := reconciliation_items (mdk db);
  with_table t db := db <| mdk := (mdk db) <| reconciliation_items := t |> |>;
  pk := ri_id;
  is_active := ri_is_active;
  created_at := ri_created_at;
  row_ok := reconciliation_item_row_ok;
}.

#[export] Instance PaymentReconciliationItem_laws : ModelLaws DB PaymentReconciliationItem.
Proof. split; reflexivity. Qed.

#[export] Instance NotificationEvent_model : Model DB NotificationEvent := {
  table_of db := notification_events (ntf db);
  with_table t db := db <| ntf := (ntf db) <| notification_events := t |> |>;
  pk := nev_id;
  is_active := nev_is_active;
  created_at := nev_created_at;
  row_ok := notification_event_row_ok;
}.

#[export] Instance NotificationEvent_laws : ModelLaws DB NotificationEvent.
Proof. split; reflexivity. Qed.

#[export] Instance NotificationDelivery_model : Model DB NotificationDelivery := {
  table_of db := notification_deliveries (ntf db);
  with_table t db := db <| ntf := (ntf db) <| notification_deliveries := t |> |>;
  pk := ndl_id;
  is_active := ndl_is_active;
  created_at := ndl_created_at;
  row_ok := notification_delivery_row_ok;
}.

#[export] Instance NotificationDelivery_laws : ModelLaws DB NotificationDelivery.
Proof. split; reflexivity. Qed.

#[export] Instance NotificationPreference_model : Model DB NotificationPreference := {
  table_of db := notification_preferences (ntf db);
  with_table t db := db <| ntf := (ntf db) <| notification_preferences := t |> |>;
  pk := npr_id;
  is_active := npr_is_active;
  created_at := npr_created_at;
  row_ok := notification_preference_row_ok;
}.

#[export] Instance NotificationPreference_laws : ModelLaws DB NotificationPreference.
Proof. split; reflexivity. Qed.

#[export] Instance NotificationTemplate_model : Model DB NotificationTemplate := {
  table_of db := notification_templates (ntf db);
  with_table t db := db <| ntf := (ntf db) <| notification_templates := t |> |>;
  pk := ntp_id;
  is_active := ntp_is_active;
  created_at := ntp_created_at;
  row_ok := notification_template_row_ok;
}.

#[export] Instance NotificationTemplate_laws : ModelLaws DB NotificationTemplate.
Proof. split; reflexivity. Qed.

#[export] Instance UserActivity_model : Model DB UserActivity := {
  table_of db := user_activities (ntf db);
  with_table t db := db <| ntf := (ntf db) <| user_activities := t |> |>;
  pk := act_id;
  is_active := act_is_active;
  created_at := act_created_at;
  row_ok := user_activity_row_ok;
}.

#[export] Instance UserActivity_laws : ModelLaws DB UserActivity.
Proof. split; reflexivity. Qed.

(** A table is left alone by the operations on the others. *)
Class OtherTable {D : Type} (A B : Type) `{Model D A, Model D B} : Prop :=
  other_table : forall (t : Table A) (db : D), table_of (A := B) (with_table t db) = table_of db.
#[export] Hint Extern 0 (OtherTable _ _) =>
  (unfold OtherTable; intros ? ?; reflexivity) : typeclass_instances.

Section Frame.
Context {D A B : Type} `{HA : Model D A, HB : Model D B} `{!OtherTable A B}.

Lemma rows_of_set_row_other i (x : A) (db : D) :
  rows_of (A := B) (set_row i x db) = rows_of db.
Proof. unfold rows_of, set_row. by rewrite other_table. Qed.

Lemma rows_of_add_row_other (x : A) (db : D) :
  rows_of (A := B) (add_row x db) = rows_of db.
Proof. unfold rows_of, add_row. by rewrite other_table. Qed.

Lemma table_of_set_row_other i (x : A) (db : D) :
  table_of (A := B) (set_row i x db) = table_of db.
Proof. unfold set_row. by rewrite other_table. Qed.

Lemma table_of_add_row_other (x : A) (db : D) :
  table_of (A := B) (add_row x db) = table_of db.
Proof. unfold add_row. by rewrite other_table. Qed.
End Frame.

(** [db_simpl] computes the tables of an updated database. *)
Ltac db_simpl :=
  repeat first
    [ rewrite rows_of_set_row_other by typeclasses eauto
    | rewrite rows_of_add_row_other by typeclasses eauto
    | rewrite table_of_set_row_other by typeclasses eauto
    | rewrite table_of_add_row_other by typeclasses eauto
    | rewrite rows_of_set_row
    | rewrite rows_of_add_row
    | rewrite next_id_set_row ].
Ltac db_simpl_in H :=
  repeat first
    [ rewrite rows_of_set_row_other in H by typeclasses eauto
    | rewrite rows_of_add_row_other in H by typeclasses eauto
    | rewrite table_of_set_row_other in H by typeclasses eauto
    | rewrite table_of_add_row_other in H by typeclasses eauto
    | rewrite rows_of_set_row in H
    | rewrite rows_of_add_row in H
    | rewrite next_id_set_row in H ].

(** ** The core tables *)

(** The tables that carry money and shares; the services on the other tables
    leave them alone. *)
Definition core (db : DB) :=
  (table_of (A := Campaign) db, table_of (A := ExternalFunding) db,
   table_of (A := Participation) db, table_of (A := Payment) db,
   table_of (A := PaymentRefund) db, table_of (A := CampaignFinancialAdjustment) db).

Definition same_core (db db' : DB) : Prop := core db' = core db.

#[export] Instance same_core_equiv : Equivalence same_core.
Proof. unfold same_core. split; repeat intro; congruence. Qed.

Lemma same_core_tables db db' :
  same_core db db' ->
  table_of (A := Campaign) db' = table_of db /\
  table_of (A := ExternalFunding) db' = table_of db /\
  table_of (A := Participation) db' = table_of db /\
  table_of (A := Payment) db' = table_of db /\
  table_of (A := PaymentRefund) db' = table_of db /\
  table_of (A := CampaignFinancialAdjustment) db' = table_of db.
Proof. unfold same_core, core. intros H. by simplify_eq. Qed.

Lemma same_core_rows db db' :
  same_core db db' ->
  rows_of (A := Campaign) db' = rows_of db /\
  rows_of (A := ExternalFunding) db' = rows_of db /\
  rows_of (A := Participation) db' = rows_of db /\
  rows_of (A := Payment) db' = rows_of db /\
  rows_of (A := PaymentRefund) db' = rows_of db /\
  rows_of (A := CampaignFinancialAdjustment) db' = rows_of db.
Proof.
  intros (Hc & Hx & Hq & Hp & Hr & Ha)%same_core_tables. unfold rows_of.
  rewrite Hc, Hx, Hq, Hp, Hr, Ha. done.
Qed.

Section SameRows.
Context (db db' : DB) (H : same_core db db').
Lemma campaign_rows_same : rows_of (A := Campaign) db' = rows_of db.
Proof. apply (same_core_rows _ _ H). Qed.
Lemma funding_rows_same : rows_of (A := ExternalFunding) db' = rows_of db.
Proof. apply (same_core_rows _ _ H). Qed.
Lemma participation_rows_same : rows_of (A := Participation) db' = rows_of db.
Proof. apply (same_core_rows _ _ H). Qed.
Lemma payment_rows_same : rows_of (A := Payment) db' = rows_of db.
Proof. apply (same_core_rows _ _ H). Qed.
Lemma refund_rows_same : rows_of (A := PaymentRefund) db' = rows_of db.
Proof. apply (same_core_rows _ _ H). Qed.
Lemma adjustment_rows_same :
  rows_of (A := CampaignFinancialAdjustment) db' = rows_of db.
Proof. apply (same_core_rows _ _ H). Qed.
End SameRows.

#[export] Hint Extern 1 (moves _ (objects_get _)) =>
  apply moves_objects_get; typeclasses eauto : moves.
#[export] Hint Extern 1 (moves _ (base_get _)) =>
  apply moves_base_get; typeclasses eauto : moves.
#[export] Hint Extern 1 (moves same_core (create _)) =>
  apply moves_create; [typeclasses eauto|intros ? ?; reflexivity] : moves.
#[export] Hint Extern 1 (moves same_core (update_row _ _)) =>
  apply moves_update_row; [typeclasses eauto|intros ? ? ?; reflexivity] : moves.

#[export] Hint Extern 1 (moves (kept _) (create _)) =>
  apply moves_create; [typeclasses eauto|intros ? ?];
  first [apply kept_same_table; [typeclasses eauto|reflexivity]
        |apply kept_add_row; [typeclasses eauto|reflexivity]] : moves.
#[export] Hint Extern 1 (moves (kept _) (update_row _ _)) =>
  apply moves_update_row; [typeclasses eauto|intros ? ? ?];
  apply kept_same_table; [typeclasses eauto|reflexivity] : moves.

(** Unfolding the services a computation calls. *)
Create HintDb services.

(** * Exceptions *)

(** What a [django.core.exceptions.ValidationError] carries. *)
Inductive validation_error : Type :=
| error_list (messages : list validation_message)
| error_dict (fields : list (string * list validation_message)).

Inductive closed_reason : Type :=
| campaign_inactive
| campaign_not_visible
| campaign_not_published
| campaign_completed
| campaign_closed
| campaign_deadline_passed
| campaign_fully_reserved.

Inductive locked_reason : Type :=
| locked_terminal_state (status : CampaignStatus.t)
| locked_by_payments
| deadline_moved_back
| deadline_disabled.

Inductive invalid_reason : Type :=
| invalid_fields (message : validation_message)
| deadline_required
| deadline_unexpected
| deadline_in_past.

Inductive refund_reason : Type :=
| refund_payment_not_success
| refund_amount_not_positive
| refund_amount_exceeds_available
| refund_not_pending_for_approval
| refund_not_pending_for_rejection
| refund_not_approved.

Inductive adjustment_reason : Type :=
| adjustment_amount_not_positive
| adjustment_type_invalid
| adjustment_payment_of_other_campaign
| adjustment_not_pending_for_approval
| adjustment_not_pending_for_rejection
| adjustment_not_approved.

Inductive disbursement_reason : Type :=
| disbursement_amount_not_positive
| disbursement_exceeds_available
| disbursement_not_requested_for_approval
| disbursement_funds_insufficient
| disbursement_not_requested_for_rejection
| disbursement_not_approved
| disbursement_tracking_required.

(** One constructor per exception class the services raise or let through;
    the argument tells which message, with the values it interpolates. *)
Inductive exc : Type :=
| DoesNotExist
| IntegrityError
| DatabaseError
| PermissionError
| ValueError
| ValidationError (e : validation_error)
| SponsorInUseError
| SponsorInvalidDataError (m : validation_message)
| CampaignPublishStateError (status : CampaignStatus.t)
| CampaignCloseStateError (status : CampaignStatus.t)
| CampaignDeleteStateError
| CampaignFieldLockedError (r : locked_reason)
| CampaignInvalidDataError (r : invalid_reason)
| CampaignNotAcceptingSharesError (r : closed_reason)
| InsufficientSharesError (requested remaining : Z)
| InvalidShareCountError (m : validation_message)
| PaymentGatewayError (detail : string)
| PaymentNotFoundError (authority : string)
| PaymentAmountMismatchError
| ReceiptForUnsuccessfulPayment
| RiskReviewStatusInvalid
| RefundWorkflowError (r : refund_reason)
| FinancialAdjustmentWorkflowError (r : adjustment_reason)
| DisbursementWorkflowError (r : disbursement_reason)
| UnknownPaymentProviderError (name : string)
| ZarinpalNotConfiguredError
| ProviderException (class_name : string)
| NotificationServiceError
| ReconciliationImportError (message : string).

#[export] Instance exc_orm : OrmError exc := {
  does_not_exist := DoesNotExist;
  integrity_error := IntegrityError;
  database_error := DatabaseError;
}.

(** [raise DjangoValidationError(msg)] *)
Definition validation_error_of (m : validation_message) : exc :=
  ValidationError (error_list [m]).

(** * The environment *)

Record Settings : Type := mkSettings {
  MADADKAR_PAYMENT_PROVIDER : string;
  MADADKAR_PAYMENT_CALLBACK_BASE_URL : string;
  MADADKAR_PAYMENT_TIMEOUT_MINUTES : Z;
  MADADKAR_ZARINPAL_MERCHANT_ID : string;
  MADADKAR_ZARINPAL_SANDBOX : bool;
  MADADKAR_RISK_HIGH_AMOUNT_NEW_USER_THRESHOLD : Z;
  MADADKAR_RISK_PAYMENT_FAILURE_SPIKE_THRESHOLD : Z;
  MADADKAR_RISK_IP_DISTINCT_USERS_THRESHOLD : Z;
  MADADKAR_RISK_REFUND_VELOCITY_THRESHOLD : Z;
  MADADKAR_RISK_CAMPAIGN_REFUND_SPIKE_THRESHOLD : Z;
  MADADKAR_RISK_ADJUSTMENT_RATIO_THRESHOLD : Q;
  NOTIFICATIONS_EMAIL_ENABLED : bool;
  NOTIFICATIONS_SMS_ENABLED : bool;
}.

(** The defaults of [src/config/settings/base.py]. *)
Definition default_settings : Settings := mkSettings
  "sandbox" "http://127.0.0.1:8000" 15 "" true
  50000000 3 3 3 5 (1 # 4) false false.

(** The outcome of an HTTP request: a time-out, another request exception,
    or a response with its status code and its body decoded as JSON
    ([None] when decoding fails). *)
Inductive http_result : Type :=
| HttpTimeout
| HttpRequestException
| HttpResponse (status_code : Z) (body : option json).

Record Env : Type := mkEnv {
  env_now : Z;
  env_localdate : Z -> Z;
  env_settings : Settings;
  env_slugify : string -> string;
  env_sha256_hexdigest : string -> string;
  env_token_urlsafe : Z -> string;
  env_uuid4 : string;
  env_http_post : string -> json -> Z -> http_result;
  env_repr : json -> string;
  env_format_map : string -> list (string * json) -> option string;
  env_send_text_email : string -> string -> string -> option string;
  env_send_sms : string -> string -> option string;
  env_sponsor_full_clean : DB -> Sponsor -> option validation_error;
  env_external_funding_clean_fields : DB -> ExternalFunding -> option validation_error;
}.

#[export] Instance env_clock : Clock Env := env_now.

Abbreviation M := (comp Env DB exc).

Definition settings : M Settings := fun env db => (Ok (env_settings env), db).

Lemma settings_ok_inv cfg env db db' :
  settings env db = (Ok cfg, db') -> cfg = env_settings env /\ db' = db.
Proof. by intros [= <- <-]. Qed.

(** [comp_inv] through the operations on the database. *)
Ltac comp_prim H ::=
  lazymatch type of H with
  | settings _ _ = (Ok _, _) => apply settings_ok_inv in H as [? ?]; try subst
  | timezone_now _ _ = (Ok _, _) => apply now_ok_inv in H as [? ?]; try subst
  | objects_get _ _ _ = (Ok _, _) =>
      let Hr := fresh "Hrow" in let Ha := fresh "Hact" in
      apply objects_get_ok_inv in H as (? & Hr & Ha); try subst
  | base_get _ _ _ = (Ok _, _) =>
      let Hr := fresh "Hrow" in
      apply base_get_ok_inv in H as (? & Hr); try subst
  | create _ _ _ = (Ok _, _) =>
      let Ho := fresh "Hok" in
      apply create_ok_inv in H as (? & Ho & ?); try subst
  | update_row _ _ _ _ = (Ok _, _) =>
      let x := fresh "row" in let Hr := fresh "Hrow" in let Ho := fresh "Hok" in
      apply update_row_ok_inv in H as (x & Hr & Ho & ?); try subst
  | _ => idtac
  end.

(** [frames] turns the runs of services that leave the core tables alone into
    [same_core] facts; [read_rows] takes the look-ups made after them back to
    the states before. *)
Ltac frames :=
  repeat match goal with
  | H : ?m ?env ?db = (Ok _, _) |- _ =>
      apply (moves_ok same_core) in H; [|solve [auto with moves]]
  end.

Ltac read_rows :=
  repeat match goal with
  | Hs : same_core _ ?s, H : rows_of (A := Campaign) ?s !! _ = _ |- _ =>
      rewrite (campaign_rows_same _ _ Hs) in H
  | Hs : same_core _ ?s, H : rows_of (A := Participation) ?s !! _ = _ |- _ =>
      rewrite (participation_rows_same _ _ Hs) in H
  | Hs : same_core _ ?s, H : rows_of (A := Payment) ?s !! _ = _ |- _ =>
      rewrite (payment_rows_same _ _ Hs) in H
  | Hs : same_core _ ?s, H : rows_of (A := PaymentRefund) ?s !! _ = _ |- _ =>
      rewrite (refund_rows_same _ _ Hs) in H
  | H : rows_of (set_row _ _ _) !! _ = _ |- _ => progress (db_simpl_in H)
  | H : rows_of (add_row _ _) !! _ = _ |- _ => progress (db_simpl_in H)
  end; simplify_eq.

(** Exceptions that say something about the gateway, and one that should not
    happen at all. *)
Definition not_gateway_error (e : exc) : Prop :=
  match e with PaymentGatewayError _ => False | _ => True end.
Definition not_amount_mismatch (e : exc) : Prop :=
  match e with PaymentAmountMismatchError => False | _ => True end.
#[export] Hint Extern 2 (not_gateway_error _) => exact I : throws.
#[export] Hint Extern 2 (not_amount_mismatch _) => exact I : throws.

#[export] Hint Extern 1 (throws _ (objects_get _)) =>
  apply throws_objects_get; solve [auto with throws] : throws.
#[export] Hint Extern 1 (throws _ (base_get _)) =>
  apply throws_base_get; solve [auto with throws] : throws.
#[export] Hint Extern 1 (throws _ (create _)) =>
  apply throws_create; solve [auto with throws] : throws.
#[export] Hint Extern 1 (throws _ (update_row _ _)) =>
  apply throws_update_row; solve [auto with throws] : throws.
#[export] Hint Extern 1 (throws _ ask) => apply throws_pure; intros; by do 2 eexists : throws.
#[export] Hint Extern 1 (throws _ get_state) =>
  apply throws_pure; intros; by do 2 eexists : throws.
#[export] Hint Extern 1 (throws _ (query _)) =>
  apply throws_pure; intros; by do 2 eexists : throws.
#[export] Hint Extern 1 (throws _ timezone_now) =>
  apply throws_pure; intros; by do 2 eexists : throws.
#[export] Hint Extern 1 (throws _ settings) =>
  apply throws_pure; intros; by do 2 eexists : throws.
