(* ===== verification/Apps.v ===== *)
(** An application beside the site: the applications of the learning platform
    and of the support desk keep tables of their own next to the database of
    the site ([World.v]), which holds the users and the notifications.

    [App] is the interface an application gives to the site's services; the
    rest is what the applications share: look-ups that create, query sets in an
    order, and runs that leave a table alone. *)

From S2P Require Import Prelude Python Choices Orm Models NotificationModels World.
From stdpp Require Import sorting.
#[local] Open Scope Z_scope.

(** The site's part of an application's environment and database, and a
    site's exception among the application's. *)
Class App (AEnv ADB AE : Type) : Type := {
  app_env : AEnv -> Env;
  app_site : ADB -> DB;
  with_site : DB -> ADB -> ADB;
  app_exc : exc -> AE;
}.

(** A service of the site, on its part of the database. *)
Definition on_site {AEnv ADB AE A} `{!App AEnv ADB AE} (m : M A) : comp AEnv ADB AE A :=
  fun env db =>
    match m (app_env env) (app_site db) with
    | (Ok a, s) => (Ok a, with_site s db)
    | (Raise e, s) => (Raise (app_exc e), with_site s db)
    end.

(** The rows of a query set in the order of a boolean relation. *)
Definition ordered_by {A} (le : A -> A -> bool) (l : list A) : list A :=
  merge_sort (fun x y => Is_true (le x y)) l.

Lemma elem_of_ordered {A} (le : A -> A -> bool) l x : x ∈ ordered_by le l <-> x ∈ l.
Proof. unfold ordered_by. by rewrite merge_sort_Permutation. Qed.

(** * Sorting and functions *)

Section Sorted.
Context {A B : Type} (f : A -> B) (le : B -> B -> bool) (le' : A -> A -> bool).
Hypothesis Hle : forall x y, le (f x) (f y) = le' x y.

Let R := fun x y => Is_true (le x y).
Let R' := fun x y => Is_true (le' x y).

Lemma list_merge_fmap l1 : forall l2, list_merge R (f <$> l1) (f <$> l2) = f <$> list_merge R' l1 l2.
Proof.
  induction l1 as [|x l1 IH1]; intros l2; [by destruct l2|].
  induction l2 as [|y l2 IH2]; [done|]. cbn. unfold R, R'. rewrite <-Hle.
  destruct (decide (Is_true (le (f x) (f y)))); cbn; f_equal; [exact (IH1 (y :: l2))|exact IH2].
Qed.

Let lift (st : list (option (list A))) : list (option (list B)) := map (option_map (map f)) st.

Lemma merge_stack_fmap st : forall l,
  merge_list_to_stack R (lift st) (f <$> l) = lift (merge_list_to_stack R' st l).
Proof.
  induction st as [|[l'|] st IH]; intros l; [done| |done].
  cbn. rewrite list_merge_fmap, IH. done.
Qed.

Lemma flatten_stack_fmap st : merge_stack R (lift st) = f <$> merge_stack R' st.
Proof.
  induction st as [|[l|] st IH]; [done| |exact IH].
  cbn. fold (lift st). rewrite IH. apply list_merge_fmap.
Qed.

Lemma ordered_by_fmap l : ordered_by le (f <$> l) = f <$> ordered_by le' l.
Proof.
  unfold ordered_by, merge_sort. change (@nil (option (list B))) with (lift []).
  generalize (@nil (option (list A))) as st. induction l as [|x l IH]; intros st; cbn.
  - apply flatten_stack_fmap.
  - rewrite <-IH. f_equal. exact (merge_stack_fmap st [x]).
Qed.
End Sorted.

Lemma qs_list_fmap {A B} (f : A -> B) (m : gmap Z A) :
  qs_list (f <$> m) = f <$> qs_list m.
Proof. unfold qs_list. rewrite map_to_list_fmap. induction (map_to_list m) as [|[i x] l IH]; f_equal/=; auto. Qed.

(** The first row of a table whose rows keep their time. *)
Lemma qs_first_fmap {DB A} `{Model DB A} (f : A -> A) (m : gmap Z A) :
  (forall x, created_at (f x) = created_at x) -> qs_first (f <$> m) = f <$> qs_first m.
Proof.
  intros Hf. unfold qs_first. rewrite map_fold_fmap.
  rewrite !map_fold_foldr. induction (map_to_list m) as [|[i x] l IH]; [done|]. cbn.
  rewrite IH. clear IH. destruct (foldr (uncurry (fun (_ : Z) x acc => later x acc)) None l) as [y|]; cbn; [|done].
  rewrite !Hf. by case_match.
Qed.

(** * Runs that raise *)

Lemma bind_raise_inv {R S E A B} (m : comp R S E A) (k : A -> comp R S E B) r s e s2 :
  (m ≫= k) r s = (Raise e, s2) ->
  m r s = (Raise e, s2) \/ exists a s1, m r s = (Ok a, s1) /\ k a r s1 = (Raise e, s2).
Proof. rewrite bind_unfold. destruct (m r s) as [[a|e'] s1]; [eauto|]. intros [= <- <-]. by left. Qed.

Lemma atomic_raise_run {R S E A} (m : comp R S E A) r s e s' :
  atomic m r s = (Raise e, s') -> s' = s /\ exists s1, m r s = (Raise e, s1).
Proof. unfold atomic. destruct (m r s) as [[a|e'] s1]; [done|]. intros [= <- <-]. eauto. Qed.

(** * Loops that end *)

(** A loop whose rounds return does; what a round establishes for its element
    holds for every element in the end, where later rounds keep it. *)
Lemma for_fold_each {R S E A B} (I : S -> Prop) (J : B -> S -> Prop)
    (body : A -> B -> comp R S E A) (r : R) l : forall acc s,
  (forall acc x s, x ∈ l -> I s -> exists acc' s', body acc x r s = (Ok acc', s') /\ I s' /\ J x s' /\
     forall y, J y s -> J y s') ->
  I s -> exists acc' s', for_fold body acc l r s = (Ok acc', s') /\ I s' /\
    (forall x, x ∈ l -> J x s') /\ (forall y, J y s -> J y s').
Proof.
  induction l as [|x l IH]; intros acc s Hbody HI.
  { exists acc, s. split_and!; [done|done|by intros x ?%not_elem_of_nil|done]. }
  destruct (Hbody acc x s) as (acc1 & s1 & Hrun & HI1 & HJ & Hkeep); [by left|done|].
  destruct (IH acc1 s1) as (acc2 & s2 & Hrest & HI2 & Hall & Hkeep2); [|done|].
  { intros a y s3 Hy. apply Hbody. by right. }
  exists acc2, s2. split_and!; [|done| |auto].
  - simpl. rewrite bind_unfold, Hrun. exact Hrest.
  - intros y [->|Hy]%elem_of_cons; auto.
Qed.

(** * Names that are still free *)

(** The [while] loop that looks for a slug: [taken] is the existence of a row
    with the slug, [nth] the candidate with a number. *)
Fixpoint first_free (taken : string -> bool) (nth : Z -> string) (fuel : nat)
    (candidate : string) (suffix : Z) : option string :=
  if taken candidate then
    match fuel with
    | O => None
    | S fuel' => first_free taken nth fuel' (nth suffix) (suffix + 1)
    end
  else Some candidate.

Lemma first_free_free taken nth fuel : forall c z s,
  first_free taken nth fuel c z = Some s -> taken s = false.
Proof.
  induction fuel as [|fuel IH]; intros c z s; simpl; destruct (taken c) eqn:Hc;
    try done; try (by intros [= <-]). apply IH.
Qed.

(** A loop that stays without a slug has found every candidate taken. *)
Lemma first_free_none taken nth fuel : forall c z k,
  first_free taken nth fuel c z = None -> z <= k < z + Z.of_nat fuel -> taken (nth k) = true.
Proof.
  induction fuel as [|fuel IH]; intros c z k; [lia|].
  simpl. destruct (taken c); [|done]. intros Hnone Hk.
  destruct (Z.eq_dec k z) as [->|Hne]; [|apply (IH _ _ k Hnone); lia].
  destruct fuel; simpl in Hnone; destruct (taken (nth z)); done.
Qed.

(** Where the names taken are among [used] and no candidate comes twice, one
    more attempt than there are names is enough. *)
Lemma first_free_found taken nth (used : list string) c z :
  (forall s, taken s = true -> s ∈ used) ->
  (forall i j, z <= i -> z <= j -> nth i = nth j -> i = j) ->
  exists s, first_free taken nth (S (length used)) c z = Some s /\ taken s = false.
Proof.
  intros Hused Hinj. destruct (first_free _ _ _ _ _) as [s|] eqn:Hrun.
  { exists s. split; [done|]. by eapply first_free_free. }
  exfalso. set (l := nth <$> seqZ z (Z.of_nat (S (length used)))).
  assert (NoDup l) as Hnd.
  { apply NoDup_fmap_2_strong; [|apply NoDup_seqZ].
    intros i j Hi Hj. apply elem_of_seqZ in Hi, Hj. apply Hinj; lia. }
  assert (l ⊆+ used) as Hsub.
  { apply NoDup_submseteq; [done|]. intros s Hs.
    apply list_elem_of_fmap in Hs as (k & -> & Hk%elem_of_seqZ).
    apply Hused. exact (first_free_none _ _ _ _ _ k Hrun ltac:(lia)). }
  apply submseteq_length in Hsub. unfold l in Hsub.
  rewrite length_fmap, length_seqZ in Hsub. lia.
Qed.

Section GetOrCreate.
Context {AEnv ADB AE A : Type} `{!OrmError AE, !Clock AEnv, !Model ADB A}.
Implicit Types (P : A -> bool) (mk : Z -> Z -> A) (db : ADB).

(** [Model.objects.get_or_create(...)] where a constraint leaves at most one
    row for the look-up. *)
Definition get_or_create P mk : comp AEnv ADB AE (A * bool) :=
  found ← query (fun db => qs_first (objects_filter P db));
  match found with
  | Some x => mret (x, false)
  | None => x ← atomic (create mk); mret (x, true)
  end.

Lemma get_or_create_ok_inv P mk (env : AEnv) db x b db' :
  get_or_create P mk env db = (Ok (x, b), db') ->
  (b = false /\ db' = db /\ qs_first (objects_filter P db) = Some x) \/
  (b = true /\ qs_first (objects_filter P db) = None /\
   x = mk (next_id (table_of db)) (clock env) /\ row_ok (rows_of db) x = true /\
   db' = add_row x db).
Proof.
  unfold get_or_create. rewrite bind_unfold. simpl.
  destruct (qs_first (objects_filter P db)) as [y|].
  - intros [= -> <- <-]. by left.
  - rewrite bind_unfold. unfold atomic, create. destruct (row_ok _ _) eqn:Hok; [|done].
    intros [= <- <- <-]. by right.
Qed.

(** What it returns is what was asked for. *)
Lemma get_or_create_matches P mk (env : AEnv) db x b db' :
  (forall i now, is_active (mk i now) = true /\ P (mk i now) = true) ->
  get_or_create P mk env db = (Ok (x, b), db') -> is_active x = true /\ P x = true.
Proof.
  intros Hmk [(_ & _ & [i Hi]%qs_first_Some)|(_ & _ & -> & _)]%get_or_create_ok_inv; [|apply Hmk].
  by apply objects_filter_lookup in Hi as (_ & ? & ?).
Qed.

(** The row that [get_or_create] returns is stored under its key. *)
Lemma get_or_create_stored `{!ModelLaws ADB A} P mk (env : AEnv) db x b db' :
  (forall i now, pk (mk i now) = i) -> table_good (A := A) (table_of db) ->
  get_or_create P mk env db = (Ok (x, b), db') ->
  table_good (A := A) (table_of db') /\ rows_of db' !! pk x = Some x.
Proof.
  intros Hpk Hg. intros [(-> & -> & [i Hf]%qs_first_Some)|(-> & _ & -> & _ & ->)]%get_or_create_ok_inv.
  - split; [done|]. apply objects_filter_lookup in Hf as (Hf & _).
    by destruct (proj2 Hg _ _ Hf) as [-> _].
  - split; [by apply add_row_good|]. rewrite rows_of_add_row, Hpk. apply lookup_insert_eq.
Qed.

Lemma moves_get_or_create T `{!PreOrder T} P mk :
  moves T (create mk : comp AEnv ADB AE A) -> moves T (get_or_create P mk).
Proof.
  intros Hc. unfold get_or_create. apply moves_bind; [done|by apply moves_pure|].
  intros [x|]; [by apply moves_pure|]. apply moves_bind; [done|by apply moves_atomic|].
  intros y. by apply moves_pure.
Qed.

Lemma get_or_create_other {B} `{!Model ADB B} `{!OtherTable A B} P mk (env : AEnv) db x b db' :
  get_or_create P mk env db = (Ok (x, b), db') -> table_of (A := B) db' = table_of db.
Proof.
  intros [(_ & -> & _)|(_ & _ & _ & _ & ->)]%get_or_create_ok_inv; [done|].
  apply table_of_add_row_other.
Qed.
End GetOrCreate.

#[export] Hint Extern 1 (moves _ (get_or_create _ _)) =>
  apply moves_get_or_create; [typeclasses eauto|solve [auto with moves]] : moves.

Section OnSite.
Context {AEnv ADB AE : Type} `{!App AEnv ADB AE}.

Lemma on_site_ok_inv {A} (m : M A) (env : AEnv) (db : ADB) a db' :
  on_site (AE := AE) m env db = (Ok a, db') ->
  exists s, m (app_env env) (app_site db) = (Ok a, s) /\ db' = with_site s db.
Proof. unfold on_site. destruct (m _ _) as [[b|e] s]; [|done]. intros [= <- <-]. eauto. Qed.

Lemma moves_on_site {A B} `{!Model ADB B} (K : B -> B -> Prop) `{!PreOrder K} (m : M A) :
  (forall s (db : ADB), table_of (A := B) (with_site s db) = table_of db) ->
  moves (kept K) (on_site (AE := AE) m).
Proof.
  intros Hs env db. apply kept_same_table; [typeclasses eauto|].
  unfold on_site. by destruct (m (app_env env) (app_site db)) as [[a|e] s]; simpl; rewrite Hs.
Qed.
End OnSite.

#[export] Hint Extern 1 (moves (kept _) (on_site _)) =>
  apply moves_on_site; [typeclasses eauto|reflexivity] : moves.

(** A run that leaves one table alone, whatever its outcome. *)
Definition same_table {ADB : Type} (A : Type) `{!Model ADB A} (db db' : ADB) : Prop :=
  table_of (A := A) db' = table_of db.

#[export] Instance same_table_preorder {ADB} A `{!Model ADB A} : PreOrder (same_table (ADB := ADB) A).
Proof. unfold same_table. split; [done|]. intros x y z -> ->. done. Qed.

Lemma same_table_rows {ADB A} `{!Model ADB A} (db db' : ADB) :
  same_table A db db' -> rows_of (A := A) db' = rows_of db.
Proof. unfold same_table, rows_of. by intros ->. Qed.

Lemma moves_on_site_table {AEnv ADB AE A B} `{!App AEnv ADB AE} `{!Model ADB B} (m : M A) :
  (forall s (db : ADB), table_of (A := B) (with_site s db) = table_of db) ->
  moves (same_table B) (on_site (AE := AE) m).
Proof.
  intros Hs env db. unfold same_table, on_site.
  by destruct (m (app_env env) (app_site db)) as [[a|e] s]; simpl; rewrite Hs.
Qed.

#[export] Hint Extern 1 (moves (same_table _) (create _)) =>
  apply moves_create; [typeclasses eauto|intros; red; first [reflexivity|apply other_table]] : moves.
#[export] Hint Extern 1 (moves (same_table _) (update_row _ _)) =>
  apply moves_update_row; [typeclasses eauto|intros; red; first [reflexivity|apply other_table]] : moves.
#[export] Hint Extern 1 (moves (same_table _) (on_site _)) =>
  apply moves_on_site_table; intros ? ?; first [reflexivity|simpl; auto] : moves.
