(* ===== verification/Sample.v ===== *)
(** A concrete world for the examples and witnesses: a clock, settings, stand-ins
    for the code outside the repository, and a database with a donor, a sponsor
    and a published campaign of 100 shares of 1,000 tomans. *)

From S2P Require Import Prelude Python Choices Models NotificationModels Orm World.

Definition sample_now : Z := 1700000000 * 1000000.

Definition env_at (now : Z) (cfg : Settings) (http : string -> json -> Z -> http_result) : Env :=
  mkEnv now (fun t => t / usec_per_day) cfg (fun s => s) (py_prefix 64)
    (fun n => ("token-" +:+ pretty n)%string) "uuid" http (fun _ => "repr"%string)
    (fun t _ => Some t) (fun _ _ _ => None) (fun _ _ => None)
    (fun _ _ => None) (fun _ _ => None).

Definition sample_env : Env := env_at sample_now default_settings (fun _ _ _ => HttpTimeout).

Definition tick (n : Z) (env : Env) : Env :=
  env_at (env_now env + n) (env_settings env) (env_http_post env).

Definition no_rows {A} : Table A := mkTable ∅ 1.
Definition one_row {A} (x : A) : Table A := mkTable {[ 1 := x ]} 2.

Definition sample_user : User :=
  mkUser 1 (Some "donor@example.org"%string) None "Ali" "Karimi".

Definition empty_db : DB :=
  mkDB
    (mkMadadkarTables no_rows no_rows no_rows no_rows no_rows no_rows no_rows no_rows
       no_rows no_rows no_rows no_rows no_rows no_rows no_rows)
    (mkNotificationTables no_rows no_rows no_rows no_rows no_rows)
    {[ 1 := sample_user; 2 := sample_user <| usr_id := 2 |> ]}.

Definition sample_sponsor : Sponsor :=
  mkSponsor 1 "Sponsor" "sponsor" None true 0 0.

Definition sample_campaign : Campaign :=
  mkCampaign 1 1 "Wells" "wells" "Water wells" "wells.jpg" 100000 100 1000 0 0 0 0 0
    CampaignStatus.PUBLISHED true false None (Some 0) None None true 0 0.

Definition sample_db : DB :=
  empty_db <| mdk := (mdk empty_db) <| sponsors := one_row sample_sponsor |>
                                    <| campaigns := one_row sample_campaign |> |>.

(** The value a run returned. *)
Definition result {R S E A} (m : comp R S E A) (env : R) (db : S) : option A :=
  match m env db with (Ok a, _) => Some a | (Raise _, _) => None end.

(** The state a run leaves. *)
Definition after {R S E A} (m : comp R S E A) (env : R) (db : S) : S := (m env db).2.

(** A table is checked by computation. *)
Lemma good_check {D A} `{Model D A} (db : D) :
  0 < next_id (table_of (A := A) db) ->
  forallb (fun kx => (pk kx.2 =? kx.1) && (0 <? kx.1) && (kx.1 <? next_id (table_of (A := A) db)))
    (map_to_list (rows_of (A := A) db)) = true ->
  table_good (table_of (A := A) db).
Proof.
  intros Hpos Hall. split; [done|]. intros i x Hi.
  apply elem_of_map_to_list, list_elem_of_In in Hi.
  rewrite forallb_forall in Hall. apply Hall in Hi. simpl in Hi.
  rewrite !andb_true_iff, Z.eqb_eq, !Z.ltb_lt in Hi. lia.
Qed.
