(* ===== verification/Counters.v ===== *)
(** The denormalised counters of a campaign: [_sync_campaign_counters] and
    [auto_complete_campaign_if_fully_funded] of
    [src/apps/madadkar/services.py], with [Campaign.save] restricted to a list
    of fields.

    A service receives model instances, not keys: an instance is the row as it
    was when it was read, so a record passed to an operation may be older than
    the row stored under its key. *)

From S2P Require Import Prelude Python Choices Models NotificationModels Orm World.

(** [instance.save(update_fields=...)] of a campaign: [Campaign.save] computes
    the slug and the share price of the instance [c], then [copy] writes the
    listed columns of the instance to the row.  Returns the instance. *)
Definition campaign_save (c : Campaign) (copy : Campaign -> Campaign -> Campaign) :
    M Campaign :=
  env ← ask;
  all ← query (rows_of (A := Campaign));
  match campaign_pre_save (env_slugify env) all (Some (camp_id c)) c with
  | None => raise (validation_error_of slug_space_exhausted)
  | Some c' =>
      now ← timezone_now;
      _ ← update_row (camp_id c)
            (fun row => (copy c' row) <| camp_updated_at := now |>);
      mret (c' <| camp_updated_at := now |>)
  end.

(** * The sources of truth *)

Definition participations_of (cid : Z) (db : DB) : gmap Z Participation :=
  objects_filter (fun p => part_campaign p =? cid) db.

(** PAID or PENDING_PAYMENT: the statuses that hold their shares *)
Definition holds_shares (p : Participation) : bool :=
  bool_decide (part_status p ∈
    [ParticipationStatus.PAID; ParticipationStatus.PENDING_PAYMENT]).

Definition is_paid (p : Participation) : bool :=
  bool_decide (part_status p = ParticipationStatus.PAID).

Definition reserved_shares (cid : Z) (db : DB) : Z :=
  qs_sum (fun p => when (holds_shares p) (part_share_count p))
    (participations_of cid db).

Definition paid_amount (cid : Z) (db : DB) : Z :=
  qs_sum (fun p => when (is_paid p) (part_total_amount p))
    (participations_of cid db).

Definition unique_users (cid : Z) (db : DB) : Z :=
  Z.of_nat (size (mset (fun p => if is_paid p then Some (part_user p) else None)
    (participations_of cid db))).

(** The join [payment__participation] of a refund. *)
Definition refund_participation (r : PaymentRefund) (db : DB) : option Participation :=
  match rows_of (A := Payment) db !! ref_payment r with
  | Some p => rows_of (A := Participation) db !! pay_participation p
  | None => None
  end.

Definition completed_refund_of (cid : Z) (db : DB) (r : PaymentRefund) : bool :=
  match refund_participation r db with
  | Some p => (part_campaign p =? cid) && is_paid p
  | None => false
  end && bool_decide (ref_status r = RefundStatus.COMPLETED).

Definition completed_refunds (cid : Z) (db : DB) : Z :=
  qs_sum ref_amount (objects_filter (completed_refund_of cid db) db).

(** [Case(When(adjustment_type=CREDIT, then=F("amount")), default=-F("amount"))] *)
Definition adjustment_case (a : CampaignFinancialAdjustment) : Z :=
  match adj_adjustment_type a with
  | FinancialAdjustmentType.CREDIT => adj_amount a
  | _ => - adj_amount a
  end.

Definition applied_adjustment_of (cid : Z) (a : CampaignFinancialAdjustment) : bool :=
  (adj_campaign a =? cid) &&
  bool_decide (adj_status a = FinancialAdjustmentStatus.APPLIED).

Definition adjustment_delta (cid : Z) (db : DB) : Z :=
  qs_sum adjustment_case (objects_filter (applied_adjustment_of cid) db).

Definition recorded_funding_of (cid : Z) (x : ExternalFunding) : bool :=
  (xf_campaign x =? cid) && bool_decide (xf_status x = ExternalFundingStatus.RECORDED).

Definition recorded_fundings (cid : Z) (db : DB) : gmap Z ExternalFunding :=
  objects_filter (recorded_funding_of cid) db.

Definition external_shares (cid : Z) (db : DB) : Z :=
  qs_sum xf_shares (recorded_fundings cid db).

Definition external_amount (cid : Z) (db : DB) : Z :=
  qs_sum (fun x => default 0 (xf_amount x)) (recorded_fundings cid db).

(** The instance with the counters recomputed from the rows of [db]. *)
Definition with_counters (c : Campaign) (db : DB) : Campaign :=
  let cid := camp_id c in
  c <| camp_purchased_shares := reserved_shares cid db |>
    <| camp_purchased_amount :=
         Z.max (paid_amount cid db - completed_refunds cid db
                + adjustment_delta cid db) 0 |>
    <| camp_participant_count := unique_users cid db |>
    <| camp_external_funded_shares := external_shares cid db |>
    <| camp_external_funded_amount := external_amount cid db |>.

(** [update_fields] of the synchronisation *)
Definition copy_counters (c row : Campaign) : Campaign :=
  row <| camp_purchased_shares := camp_purchased_shares c |>
      <| camp_purchased_amount := camp_purchased_amount c |>
      <| camp_participant_count := camp_participant_count c |>
      <| camp_external_funded_shares := camp_external_funded_shares c |>
      <| camp_external_funded_amount := camp_external_funded_amount c |>.

(** The counters of a row, and what they count. *)
Definition counters (c : Campaign) : Z * Z * Z * Z * Z :=
  (camp_purchased_shares c, camp_purchased_amount c, camp_participant_count c,
   camp_external_funded_shares c, camp_external_funded_amount c).

Definition true_counters (cid : Z) (db : DB) : Z * Z * Z * Z * Z :=
  (reserved_shares cid db,
   Z.max (paid_amount cid db - completed_refunds cid db + adjustment_delta cid db) 0,
   unique_users cid db, external_shares cid db, external_amount cid db).

Definition sync_campaign_counters (campaign : Campaign) : M Campaign :=
  db ← get_state;
  campaign_save (with_counters campaign db) copy_counters.

Definition auto_complete_campaign_if_fully_funded (campaign : Campaign) : M Campaign :=
  atomic
    (if bool_decide (camp_status campaign = CampaignStatus.PUBLISHED)
        && is_fully_funded campaign
     then
       now ← timezone_now;
       let campaign := campaign <| camp_status := CampaignStatus.COMPLETED |>
                                <| camp_completed_at := Some now |> in
       campaign_save campaign
         (fun c row => row <| camp_status := camp_status c |>
                           <| camp_completed_at := camp_completed_at c |>)
     else mret campaign).

(** * Lemmas *)

(** ** The save of a campaign *)

Lemma campaign_save_ok_inv c copy env db c' db' :
  campaign_save c copy env db = (Ok c', db') ->
  exists slug price row,
    c' = c <| camp_slug := slug |> <| camp_share_price := price |>
           <| camp_updated_at := env_now env |> /\
    rows_of db !! camp_id c = Some row /\
    row_ok (delete (camp_id c) (rows_of db))
      ((copy (c <| camp_slug := slug |> <| camp_share_price := price |>) row)
         <| camp_updated_at := env_now env |>) = true /\
    db' = set_row (camp_id c)
      ((copy (c <| camp_slug := slug |> <| camp_share_price := price |>) row)
         <| camp_updated_at := env_now env |>) db.
Proof.
  unfold campaign_save. intros H. comp_run.
  match goal with H : campaign_pre_save _ _ _ _ = Some _ |- _ =>
    apply campaign_pre_save_Some in H as (slug & price & -> & _) end.
  exists slug, price, row. done.
Qed.

(** A synchronisation writes the recomputed counters to the campaign's row and
    nothing else but its time stamp. *)
Lemma sync_campaign_counters_ok_inv c env db c' db' :
  sync_campaign_counters c env db = (Ok c', db') ->
  exists slug price row,
    c' = (with_counters c db) <| camp_slug := slug |> <| camp_share_price := price |>
           <| camp_updated_at := env_now env |> /\
    rows_of db !! camp_id c = Some row /\
    row_ok (delete (camp_id c) (rows_of db))
      ((copy_counters (with_counters c db) row) <| camp_updated_at := env_now env |>) = true /\
    db' = set_row (camp_id c)
      ((copy_counters (with_counters c db) row) <| camp_updated_at := env_now env |>) db.
Proof.
  unfold sync_campaign_counters. intros H. comp_inv H.
  apply campaign_save_ok_inv in H1 as (slug & price & row & -> & Hrow & Hok & ->).
  by exists slug, price, row.
Qed.

Lemma auto_complete_ok_inv c env db c' db' :
  auto_complete_campaign_if_fully_funded c env db = (Ok c', db') ->
  (c' = c /\ db' = db) \/
  (camp_status c = CampaignStatus.PUBLISHED /\ is_fully_funded c = true /\
   exists row, rows_of db !! camp_id c = Some row /\
     db' = set_row (camp_id c)
       (row <| camp_status := CampaignStatus.COMPLETED |>
            <| camp_completed_at := Some (env_now env) |>
            <| camp_updated_at := env_now env |>) db).
Proof.
  unfold auto_complete_campaign_if_fully_funded. intros H. comp_run; [right|by left].
  apply andb_true_iff in Heqb as [Hs%bool_decide_eq_true Hf].
  match goal with H : campaign_save _ _ _ _ = _ |- _ =>
    apply campaign_save_ok_inv in H as (slug & price & row & _ & Hrow & _ & ->) end.
  split; [done|]. split; [done|]. by exists row.
Qed.

(** ** What the sources of truth depend on *)

Lemma true_counters_ext cid db db' :
  participations_of cid db' = participations_of cid db ->
  completed_refunds cid db' = completed_refunds cid db ->
  objects_filter (applied_adjustment_of cid) db'
    = objects_filter (applied_adjustment_of cid) db ->
  recorded_fundings cid db' = recorded_fundings cid db ->
  true_counters cid db' = true_counters cid db.
Proof.
  intros Hp Hr Ha Hx.
  unfold true_counters, reserved_shares, paid_amount, unique_users, adjustment_delta,
    external_shares, external_amount.
  by rewrite Hp, Hr, Ha, Hx.
Qed.

Lemma completed_refunds_ext cid db db' :
  rows_of (A := PaymentRefund) db' = rows_of db ->
  (forall i r, rows_of db !! i = Some r -> ref_is_active r = true ->
     completed_refund_of cid db' r = completed_refund_of cid db r) ->
  completed_refunds cid db' = completed_refunds cid db.
Proof. intros Hrows HP. unfold completed_refunds. f_equal. by apply objects_filter_ext. Qed.

(** A query set of a table the update does not touch, or whose rows it adds or
    changes fail the condition on both sides. *)
Ltac untouched :=
  first
    [ apply objects_filter_ext; [by db_simpl|done]
    | eapply objects_filter_set_row_out; [eassumption|..]
    | apply objects_filter_add_row_out; [assumption|] ].

(** The lookup of the participation behind a refund. *)
Ltac join_refund :=
  unfold completed_refund_of, refund_participation; db_simpl.

Section Locality.
Variable cid : Z.
Implicit Types db : DB.

Lemma true_counters_same_core db db' :
  same_core db db' -> true_counters cid db' = true_counters cid db.
Proof.
  intros (_ & Hx & Hq & Hp & Hr & Ha)%same_core_rows.
  apply true_counters_ext; try by apply objects_filter_ext.
  apply completed_refunds_ext; [done|]. intros i r _ _.
  unfold completed_refund_of, refund_participation. by rewrite Hp, Hq.
Qed.

Lemma true_counters_set_campaign db i (c : Campaign) :
  true_counters cid (set_row i c db) = true_counters cid db.
Proof.
  apply true_counters_ext; try untouched.
  apply completed_refunds_ext; [by db_simpl|]. intros. by join_refund.
Qed.

Lemma true_counters_add_campaign db (c : Campaign) :
  true_counters cid (add_row c db) = true_counters cid db.
Proof.
  apply true_counters_ext; try untouched.
  apply completed_refunds_ext; [by db_simpl|]. intros. by join_refund.
Qed.

Lemma true_counters_set_participation db i (q q' : Participation) :
  rows_of db !! i = Some q -> part_campaign q' = part_campaign q ->
  part_campaign q <> cid ->
  true_counters cid (set_row i q' db) = true_counters cid db.
Proof.
  intros Hi Hc Hne. apply Z.eqb_neq in Hne as Hb.
  apply true_counters_ext; try (untouched; by rewrite ?Hc, Hb, andb_false_r).
  apply completed_refunds_ext; [by db_simpl|]. intros j r _ _. join_refund.
  destruct (rows_of db !! ref_payment r) as [p|]; [|done].
  destruct (decide (pay_participation p = i)) as [->|Hpi].
  - rewrite lookup_insert_eq, Hi. by rewrite Hc, Hb.
  - by rewrite lookup_insert_ne.
Qed.

Lemma true_counters_add_participation db (q : Participation) :
  table_wf (table_of (A := Participation) db) ->
  (forall j p, rows_of (A := Payment) db !! j = Some p ->
     is_Some (rows_of (A := Participation) db !! pay_participation p)) ->
  part_campaign q <> cid ->
  true_counters cid (add_row q db) = true_counters cid db.
Proof.
  intros Hwf Hfk Hne. apply Z.eqb_neq in Hne as Hb.
  apply true_counters_ext; try (untouched; by rewrite Hb, andb_false_r).
  apply completed_refunds_ext; [by db_simpl|]. intros j r _ _. join_refund.
  destruct (rows_of db !! ref_payment r) as [p|] eqn:Hp; [|done].
  rewrite lookup_insert_ne; [done|]. intros Heq. apply Hfk in Hp as [q' Hq'].
  rewrite <- Heq, fresh_key in Hq'; done.
Qed.

(** A participation that neither holds shares nor is paid counts for nothing. *)
Lemma true_counters_add_idle db (q : Participation) :
  table_wf (table_of (A := Participation) db) ->
  (forall j p, rows_of (A := Payment) db !! j = Some p ->
     is_Some (rows_of (A := Participation) db !! pay_participation p)) ->
  holds_shares q = false ->
  true_counters cid (add_row q db) = true_counters cid db.
Proof.
  intros Hwf Hfk Hh.
  assert (is_paid q = false) as Hp by (unfold is_paid, holds_shares in *; by destruct (part_status q)).
  destruct (decide (part_campaign q = cid)) as [Hc|Hc];
    [|by apply true_counters_add_participation].
  assert (forall f : Participation -> Z, f q = 0 ->
    qs_sum f (participations_of cid (add_row q db)) = qs_sum f (participations_of cid db)) as Hsum.
  { intros f Hf. unfold participations_of. rewrite objects_filter_sum_add_row by done.
    rewrite Hf. destruct (_ && _); simpl; lia. }
  assert (completed_refunds cid (add_row q db) = completed_refunds cid db) as Hr.
  { apply completed_refunds_ext; [by db_simpl|]. intros j r _ _. join_refund.
    destruct (rows_of db !! ref_payment r) as [p|] eqn:Hpr; [|done].
    rewrite lookup_insert_ne; [done|]. intros Heq. apply Hfk in Hpr as [q' Hq'].
    rewrite <- Heq, fresh_key in Hq'; done. }
  assert (mset (fun p => if is_paid p then Some (part_user p) else None)
            (participations_of cid (add_row q db))
          = mset (fun p => if is_paid p then Some (part_user p) else None)
              (participations_of cid db)) as Hu.
  { unfold participations_of, objects_filter. rewrite rows_of_add_row.
    destruct (part_is_active q) eqn:Ha.
    - rewrite map_filter_insert_True by (simpl; rewrite Ha; by apply Z.eqb_eq).
      apply mset_insert_new_none; [|by rewrite Hp].
      apply map_lookup_filter_None_2. left. by apply fresh_key.
    - rewrite map_filter_insert_not'; [done|simpl; by rewrite Ha|].
      intros y Hy. by rewrite fresh_key in Hy. }
  unfold true_counters, reserved_shares, paid_amount, unique_users.
  rewrite !Hsum by (rewrite ?Hh, ?Hp; done). by rewrite Hr, Hu.
Qed.

Lemma true_counters_same_rows db db' :
  rows_of (A := Participation) db' = rows_of db ->
  rows_of (A := Payment) db' = rows_of db ->
  rows_of (A := PaymentRefund) db' = rows_of db ->
  rows_of (A := CampaignFinancialAdjustment) db' = rows_of db ->
  rows_of (A := ExternalFunding) db' = rows_of db ->
  true_counters cid db' = true_counters cid db.
Proof.
  intros Hq Hp Hr Ha Hx. apply true_counters_ext; try by apply objects_filter_ext.
  apply completed_refunds_ext; [done|]. intros i r _ _.
  unfold completed_refund_of, refund_participation. by rewrite Hp, Hq.
Qed.

Lemma true_counters_set_payment db i (p p' : Payment) :
  rows_of db !! i = Some p -> pay_participation p' = pay_participation p ->
  true_counters cid (set_row i p' db) = true_counters cid db.
Proof.
  intros Hi Hp. apply true_counters_ext; try untouched.
  apply completed_refunds_ext; [by db_simpl|]. intros j r _ _. join_refund.
  destruct (decide (ref_payment r = i)) as [->|Hne].
  - by rewrite lookup_insert_eq, Hi, Hp.
  - by rewrite lookup_insert_ne.
Qed.

Lemma true_counters_add_payment db (p : Payment) :
  table_wf (table_of (A := Payment) db) ->
  (forall j r, rows_of (A := PaymentRefund) db !! j = Some r ->
     is_Some (rows_of (A := Payment) db !! ref_payment r)) ->
  true_counters cid (add_row p db) = true_counters cid db.
Proof.
  intros Hwf Hfk. apply true_counters_ext; try untouched.
  apply completed_refunds_ext; [by db_simpl|]. intros j r Hj _. join_refund.
  rewrite lookup_insert_ne; [done|]. intros Heq. apply Hfk in Hj as [p' Hp'].
  rewrite <- Heq, fresh_key in Hp'; done.
Qed.

Lemma true_counters_set_refund db i (r r' : PaymentRefund) :
  rows_of db !! i = Some r ->
  completed_refund_of cid db r = false -> completed_refund_of cid db r' = false ->
  true_counters cid (set_row i r' db) = true_counters cid db.
Proof.
  intros Hi Hr Hr'. apply true_counters_ext; try untouched.
  unfold completed_refunds. f_equal.
  transitivity (objects_filter (completed_refund_of cid db) (set_row i r' db)).
  - apply objects_filter_ext; [done|]. intros. by join_refund.
  - untouched; by rewrite ?Hr, ?Hr', andb_false_r.
Qed.

Lemma true_counters_add_refund db (r : PaymentRefund) :
  table_wf (table_of (A := PaymentRefund) db) ->
  completed_refund_of cid db r = false ->
  true_counters cid (add_row r db) = true_counters cid db.
Proof.
  intros Hwf Hr. apply true_counters_ext; try untouched.
  unfold completed_refunds. f_equal.
  transitivity (objects_filter (completed_refund_of cid db) (add_row r db)).
  - apply objects_filter_ext; [done|]. intros. by join_refund.
  - untouched. by rewrite Hr, andb_false_r.
Qed.

Lemma true_counters_set_adjustment db i (a a' : CampaignFinancialAdjustment) :
  rows_of db !! i = Some a ->
  applied_adjustment_of cid a = false -> applied_adjustment_of cid a' = false ->
  true_counters cid (set_row i a' db) = true_counters cid db.
Proof.
  intros Hi Ha Ha'. apply true_counters_ext; try (untouched; by rewrite ?Ha, ?Ha', andb_false_r).
  apply completed_refunds_ext; [by db_simpl|]. intros. by join_refund.
Qed.

Lemma true_counters_add_adjustment db (a : CampaignFinancialAdjustment) :
  table_wf (table_of (A := CampaignFinancialAdjustment) db) ->
  applied_adjustment_of cid a = false ->
  true_counters cid (add_row a db) = true_counters cid db.
Proof.
  intros Hwf Ha. apply true_counters_ext; try (untouched; by rewrite Ha, andb_false_r).
  apply completed_refunds_ext; [by db_simpl|]. intros. by join_refund.
Qed.

Lemma true_counters_set_funding db i (x x' : ExternalFunding) :
  rows_of db !! i = Some x ->
  recorded_funding_of cid x = false -> recorded_funding_of cid x' = false ->
  true_counters cid (set_row i x' db) = true_counters cid db.
Proof.
  intros Hi Hx Hx'. apply true_counters_ext; try (untouched; by rewrite ?Hx, ?Hx', andb_false_r).
  apply completed_refunds_ext; [by db_simpl|]. intros. by join_refund.
Qed.

Lemma true_counters_add_funding db (x : ExternalFunding) :
  table_wf (table_of (A := ExternalFunding) db) ->
  recorded_funding_of cid x = false ->
  true_counters cid (add_row x db) = true_counters cid db.
Proof.
  intros Hwf Hx. apply true_counters_ext; try (untouched; by rewrite Hx, andb_false_r).
  apply completed_refunds_ext; [by db_simpl|]. intros. by join_refund.
Qed.

End Locality.
