(* ===== verification/Invariant.v ===== *)
(** The consistency of the money and share tables, as the services rely on it:
    what relates payments, participations, refunds and campaign counters, and
    how a row may change over its life.

    [core_ok] is kept by every operation of [Campaigns], [Payments] and
    [Refunds]; [core_le] is the life cycle of the rows.  Both depend on the
    core tables only.  The lemmas below reduce an operation to the rows it
    changes: [base_*] for the tables, [counters_ok_resync] for an operation that
    ends with [_sync_campaign_counters], [counters_ok_quiet] for one that has no
    need to. *)

From S2P Require Import Prelude Python Choices Models NotificationModels Orm World Counters.

(** * Life cycles *)

Definition campaign_le (c c' : Campaign) : Prop :=
  camp_id c' = camp_id c /\
  (camp_status c' = camp_status c \/ camp_status c = CampaignStatus.DRAFT \/
   (camp_status c = CampaignStatus.PUBLISHED /\
    camp_status c' ∈ [CampaignStatus.COMPLETED; CampaignStatus.CLOSED])).

Definition funding_le (x x' : ExternalFunding) : Prop :=
  xf_id x' = xf_id x /\ xf_campaign x' = xf_campaign x /\ xf_shares x' = xf_shares x /\
  xf_amount x' = xf_amount x /\
  (xf_status x' = xf_status x \/ xf_status x = ExternalFundingStatus.RECORDED).

Definition participation_le (q q' : Participation) : Prop :=
  part_id q' = part_id q /\ part_campaign q' = part_campaign q /\
  part_user q' = part_user q /\ part_share_count q' = part_share_count q /\
  part_share_price_snapshot q' = part_share_price_snapshot q /\
  part_total_amount q' = part_total_amount q /\
  part_is_active q' = part_is_active q /\
  (part_status q' = part_status q \/
   part_status q = ParticipationStatus.PENDING_PAYMENT \/
   (part_status q = ParticipationStatus.PAID /\
    part_status q' = ParticipationStatus.REFUNDED)).

Definition payment_le (p p' : Payment) : Prop :=
  pay_id p' = pay_id p /\ pay_participation p' = pay_participation p /\
  pay_user p' = pay_user p /\ pay_amount p' = pay_amount p /\
  pay_gateway_name p' = pay_gateway_name p /\ pay_authority p' = pay_authority p /\
  pay_is_active p' = pay_is_active p /\
  (pay_status p' = pay_status p \/ pay_status p = PaymentStatus.PENDING).

Definition refund_le (r r' : PaymentRefund) : Prop :=
  ref_id r' = ref_id r /\ ref_payment r' = ref_payment r /\
  ref_amount r' = ref_amount r /\ ref_is_active r' = ref_is_active r /\
  (ref_status r' = ref_status r \/ ref_status r = RefundStatus.PENDING_REVIEW \/
   (ref_status r = RefundStatus.APPROVED /\ ref_status r' = RefundStatus.COMPLETED)).

Definition adjustment_le (a a' : CampaignFinancialAdjustment) : Prop :=
  adj_id a' = adj_id a /\ adj_campaign a' = adj_campaign a /\
  adj_payment a' = adj_payment a /\ adj_amount a' = adj_amount a /\
  adj_adjustment_type a' = adj_adjustment_type a /\ adj_is_active a' = adj_is_active a /\
  (adj_status a' = adj_status a \/
   adj_status a = FinancialAdjustmentStatus.PENDING_REVIEW \/
   (adj_status a = FinancialAdjustmentStatus.APPROVED /\
    adj_status a' = FinancialAdjustmentStatus.APPLIED)).

#[export] Instance campaign_le_preorder : PreOrder campaign_le.
Proof.
  split; [repeat split; auto|]. intros x y z (H1 & H2) (H3 & H4).
  split; [congruence|]. rewrite !elem_of_cons in *.
  destruct H2 as [?|[?|[? H2]]], H4 as [?|[?|[? H4]]];
    destruct (camp_status x), (camp_status y), (camp_status z);
    naive_solver congruence.
Qed.
#[export] Instance funding_le_preorder : PreOrder funding_le.
Proof.
  split; [repeat split; auto|]. unfold funding_le. intros x y z.
  intros (? & ? & ? & ? & Hs) (? & ? & ? & ? & Ht). repeat split; try congruence.
  destruct Hs as [?|?], Ht as [?|?]; try (left; congruence); right; congruence.
Qed.
#[export] Instance participation_le_preorder : PreOrder participation_le.
Proof.
  split; [repeat split; auto|]. unfold participation_le. intros x y z.
  intros (? & ? & ? & ? & ? & ? & ? & Hs) (? & ? & ? & ? & ? & ? & ? & Ht).
  repeat split; try congruence.
  destruct Hs as [?|[?|[??]]], Ht as [?|[?|[??]]]; try (left; congruence);
    right; try (left; congruence); right; split; congruence.
Qed.
#[export] Instance payment_le_preorder : PreOrder payment_le.
Proof.
  split; [repeat split; auto|]. unfold payment_le. intros x y z.
  intros (? & ? & ? & ? & ? & ? & ? & Hs) (? & ? & ? & ? & ? & ? & ? & Ht).
  repeat split; try congruence.
  destruct Hs as [?|?], Ht as [?|?]; try (left; congruence); right; congruence.
Qed.
#[export] Instance refund_le_preorder : PreOrder refund_le.
Proof.
  split; [repeat split; auto|]. unfold refund_le. intros x y z.
  intros (? & ? & ? & ? & Hs) (? & ? & ? & ? & Ht). repeat split; try congruence.
  destruct Hs as [?|[?|[??]]], Ht as [?|[?|[??]]]; try (left; congruence);
    right; try (left; congruence); right; split; congruence.
Qed.
#[export] Instance adjustment_le_preorder : PreOrder adjustment_le.
Proof.
  split; [repeat split; auto|]. unfold adjustment_le. intros x y z.
  intros (? & ? & ? & ? & ? & ? & Hs) (? & ? & ? & ? & ? & ? & Ht).
  repeat split; try congruence.
  destruct Hs as [?|[?|[??]]], Ht as [?|[?|[??]]]; try (left; congruence);
    right; try (left; congruence); right; split; congruence.
Qed.

Record core_le (db db' : DB) : Prop := mkCoreLe {
  le_campaigns : evolves campaign_le db db';
  le_fundings : evolves funding_le db db';
  le_participations : evolves participation_le db db';
  le_payments : evolves payment_le db db';
  le_refunds : evolves refund_le db db';
  le_adjustments : evolves adjustment_le db db';
}.

#[export] Instance core_le_preorder : PreOrder core_le.
Proof.
  split; [intros db; split; reflexivity|].
  intros db1 db2 db3 [????? ?] [?????]. split; etrans; eassumption.
Qed.

(** * Consistency *)

(** The statuses of a payment and of its participation go together. *)
Definition status_coupled (s : PaymentStatus.t) (t : ParticipationStatus.t) : Prop :=
  match s with
  | PaymentStatus.PENDING => t = ParticipationStatus.PENDING_PAYMENT
  | PaymentStatus.SUCCESS =>
      t ∈ [ParticipationStatus.PAID; ParticipationStatus.REFUNDED]
  | PaymentStatus.FAILED =>
      t ∈ [ParticipationStatus.FAILED; ParticipationStatus.EXPIRED]
  end.

Definition coupled (p : Payment) (q : Participation) : Prop :=
  status_coupled (pay_status p) (part_status q) /\
  pay_amount p = part_total_amount q /\ pay_user p = part_user q /\
  1 <= pay_amount p /\ pay_is_active p = true /\ part_is_active q = true.

(** What the open and the completed refunds of a payment claim of its amount. *)
Definition claimed_of (pid : Z) (r : PaymentRefund) : bool :=
  (ref_payment r =? pid) && bool_decide (ref_status r ∈
    [RefundStatus.PENDING_REVIEW; RefundStatus.APPROVED; RefundStatus.COMPLETED]).

Definition claimed_refunds (pid : Z) (db : DB) : Z :=
  qs_sum ref_amount (objects_filter (claimed_of pid) db).

Record base_ok (db : DB) : Prop := mkBaseOk {
  good_campaigns : table_good (table_of (A := Campaign) db);
  good_fundings : table_good (table_of (A := ExternalFunding) db);
  good_participations : table_good (table_of (A := Participation) db);
  good_payments : table_good (table_of (A := Payment) db);
  good_refunds : table_good (table_of (A := PaymentRefund) db);
  good_adjustments : table_good (table_of (A := CampaignFinancialAdjustment) db);
  participations_ok : forall i q, rows_of (A := Participation) db !! i = Some q ->
    is_Some (rows_of (A := Campaign) db !! part_campaign q) /\
    1 <= part_share_count q /\
    part_total_amount q = part_share_count q * part_share_price_snapshot q;
  fundings_ok : forall i x, rows_of (A := ExternalFunding) db !! i = Some x ->
    is_Some (rows_of (A := Campaign) db !! xf_campaign x) /\ 0 <= xf_shares x;
  adjustments_ok : forall i a, rows_of (A := CampaignFinancialAdjustment) db !! i = Some a ->
    is_Some (rows_of (A := Campaign) db !! adj_campaign a);
  payments_ok : forall i p, rows_of (A := Payment) db !! i = Some p ->
    exists q, rows_of db !! pay_participation p = Some q /\ coupled p q;
  payments_unique : forall i j p p', rows_of (A := Payment) db !! i = Some p ->
    rows_of db !! j = Some p' -> pay_participation p' = pay_participation p -> j = i;
  refunds_ok : forall i r, rows_of (A := PaymentRefund) db !! i = Some r ->
    1 <= ref_amount r /\
    exists p, rows_of db !! ref_payment r = Some p /\
      pay_status p = PaymentStatus.SUCCESS;
  claims_ok : forall i p, rows_of (A := Payment) db !! i = Some p ->
    claimed_refunds i db <= pay_amount p;
}.

(** A number of shares for every campaign that neither its total nor what is
    taken of it exceeds.  An edit may lower the total of a campaign below what is
    taken already, so the total itself is no such number. *)
Class Bound := bound : Z -> Z.

(** Counters that are exact, and within the bound. *)
Definition counters_ok {Hbound : Bound} (db : DB) : Prop :=
  forall i c, rows_of (A := Campaign) db !! i = Some c ->
    counters c = true_counters i db /\ camp_total_shares c <= bound i /\ funded_shares c <= bound i.

Definition core_ok {Hbound : Bound} (db : DB) : Prop := base_ok db /\ counters_ok db.

(** ** They depend on the core tables only *)

Lemma core_le_same_core db db' : same_core db db' -> core_le db db'.
Proof.
  intros (Hc & Hx & Hq & Hp & Hr & Ha)%same_core_tables.
  split; apply evolves_same_table; done || typeclasses eauto.
Qed.

Lemma claimed_refunds_same_rows pid db db' :
  rows_of (A := PaymentRefund) db' = rows_of db ->
  claimed_refunds pid db' = claimed_refunds pid db.
Proof. intros Hr. unfold claimed_refunds. f_equal. by apply objects_filter_ext. Qed.

Lemma base_ok_same_core db db' : same_core db db' -> base_ok db -> base_ok db'.
Proof.
  intros Hs [].
  pose proof (same_core_tables _ _ Hs) as (Hc & Hx & Hq & Hp & Hr & Ha).
  pose proof (same_core_rows _ _ Hs) as (Hc' & Hx' & Hq' & Hp' & Hr' & Ha').
  split; rewrite ?Hc, ?Hx, ?Hq, ?Hp, ?Hr, ?Ha, ?Hc', ?Hx', ?Hq', ?Hp', ?Hr', ?Ha'; try done.
  intros i p. rewrite (claimed_refunds_same_rows _ db) by done. auto.
Qed.

Lemma counters_ok_same_core {Hbound : Bound} db db' : same_core db db' -> counters_ok db -> counters_ok db'.
Proof.
  intros Hs Hok i c. pose proof (same_core_rows _ _ Hs) as (-> & _).
  rewrite (true_counters_same_core _ _ _ Hs). apply Hok.
Qed.

Lemma core_ok_same_core {Hbound : Bound} db db' : same_core db db' -> core_ok db -> core_ok db'.
Proof. intros Hs []. split; eauto using base_ok_same_core, counters_ok_same_core. Qed.

#[export] Instance core_ok_proper {Hbound : Bound} : Proper (same_core ==> iff) core_ok.
Proof. intros db db' Hs. split; apply core_ok_same_core; done || by symmetry. Qed.
#[export] Instance base_ok_proper : Proper (same_core ==> iff) base_ok.
Proof. intros db db' Hs. split; apply base_ok_same_core; done || by symmetry. Qed.

#[export] Instance core_le_proper : Proper (same_core ==> same_core ==> iff) core_le.
Proof.
  intros d1 d1' H1 d2 d2' H2. split; intros Hle.
  - etrans; [by apply core_le_same_core; symmetry|].
    etrans; [exact Hle|by apply core_le_same_core].
  - etrans; [by apply core_le_same_core|].
    etrans; [exact Hle|by apply core_le_same_core; symmetry].
Qed.

(** ** One row at a time *)

(** The tables an update does not touch keep their facts. *)
Ltac other_tables :=
  repeat first
    [ rewrite table_of_set_row_other by typeclasses eauto
    | rewrite table_of_add_row_other by typeclasses eauto
    | rewrite rows_of_set_row_other by typeclasses eauto
    | rewrite rows_of_add_row_other by typeclasses eauto ];
  try assumption.

Lemma campaign_known_set db i (c c' : Campaign) k :
  rows_of db !! i = Some c -> is_Some (rows_of (A := Campaign) db !! k) ->
  is_Some (rows_of (A := Campaign) (set_row i c' db) !! k).
Proof. intros Hi Hk. rewrite rows_of_set_row, lookup_insert_is_Some. destruct (decide (i = k)); auto. Qed.

Lemma campaign_known_add db (c : Campaign) k :
  is_Some (rows_of (A := Campaign) db !! k) ->
  is_Some (rows_of (A := Campaign) (add_row c db) !! k).
Proof.
  intros Hk. rewrite rows_of_add_row, lookup_insert_is_Some.
  destruct (decide (next_id (table_of (A := Campaign) db) = k)); auto.
Qed.

Lemma base_set_campaign db i (c c' : Campaign) :
  base_ok db -> rows_of db !! i = Some c -> camp_id c' = camp_id c ->
  base_ok (set_row i c' db).
Proof.
  intros [] Hi Hid. split; other_tables.
  - eapply set_row_good; [done..|]. simpl. rewrite Hid. by apply good_campaigns0.
  - intros j q Hj. destruct (participations_ok0 j q Hj) as [Hk ?]. split; [|done].
    by eapply campaign_known_set.
  - intros j x Hj. destruct (fundings_ok0 j x Hj). split; [|done].
    by eapply campaign_known_set.
  - intros j a Hj. eapply campaign_known_set; eauto.
Qed.

Lemma base_add_campaign db (c : Campaign) :
  base_ok db -> camp_id c = next_id (table_of (A := Campaign) db) ->
  base_ok (add_row c db).
Proof.
  intros [] Hid. split; other_tables.
  - by apply add_row_good.
  - intros j q Hj. destruct (participations_ok0 j q Hj) as [Hk ?]. split; [|done].
    by eapply campaign_known_add.
  - intros j x Hj. destruct (fundings_ok0 j x Hj). split; [|done].
    by eapply campaign_known_add.
  - intros j a Hj. eapply campaign_known_add; eauto.
Qed.

Lemma base_set_funding db i (x x' : ExternalFunding) :
  base_ok db -> rows_of db !! i = Some x -> funding_le x x' -> base_ok (set_row i x' db).
Proof.
  intros [] Hi (Hid & Hc & Hs & _). split; other_tables.
  - eapply set_row_good; [done..|]. simpl. rewrite Hid. by apply good_fundings0.
  - intros j y. rewrite rows_of_set_row.
    intros [[<- <-]|[_ Hj]]%lookup_insert_Some; rewrite ?Hc, ?Hs; eauto.
Qed.

Lemma base_add_funding db (x : ExternalFunding) :
  base_ok db -> xf_id x = next_id (table_of (A := ExternalFunding) db) ->
  is_Some (rows_of (A := Campaign) db !! xf_campaign x) -> 0 <= xf_shares x ->
  base_ok (add_row x db).
Proof.
  intros [] Hid Hc Hs. split; other_tables; [by apply add_row_good|].
  intros j y. rewrite rows_of_add_row.
  intros [[<- <-]|[_ Hj]]%lookup_insert_Some; eauto.
Qed.

Lemma base_set_adjustment db i (a a' : CampaignFinancialAdjustment) :
  base_ok db -> rows_of db !! i = Some a -> adjustment_le a a' -> base_ok (set_row i a' db).
Proof.
  intros [] Hi (Hid & Hc & _). split; other_tables.
  - eapply set_row_good; [done..|]. simpl. rewrite Hid. by apply good_adjustments0.
  - intros j y. rewrite rows_of_set_row.
    intros [[<- <-]|[_ Hj]]%lookup_insert_Some; rewrite ?Hc; eauto.
Qed.

Lemma base_add_adjustment db (a : CampaignFinancialAdjustment) :
  base_ok db -> adj_id a = next_id (table_of (A := CampaignFinancialAdjustment) db) ->
  is_Some (rows_of (A := Campaign) db !! adj_campaign a) -> base_ok (add_row a db).
Proof.
  intros [] Hid Hc. split; other_tables; [by apply add_row_good|].
  intros j y. rewrite rows_of_add_row.
  intros [[<- <-]|[_ Hj]]%lookup_insert_Some; eauto.
Qed.

(** A participation changes; the payment that points to it must go on fitting. *)
Lemma base_set_participation db i (q q' : Participation) :
  base_ok db -> rows_of db !! i = Some q -> participation_le q q' ->
  (forall j p, rows_of (A := Payment) db !! j = Some p -> pay_participation p = i ->
     coupled p q -> coupled p q') ->
  base_ok (set_row i q' db).
Proof.
  intros [] Hi (Hid & Hc & Hu & Hn & Hs & Ht & Ha & _) Hfit. split; other_tables.
  - eapply set_row_good; [done..|]. simpl. rewrite Hid. by apply good_participations0.
  - intros j z. rewrite rows_of_set_row.
    intros [[<- <-]|[_ Hj]]%lookup_insert_Some; [|eauto].
    rewrite Hc, Ht, Hn, Hs. eauto.
  - intros j p Hj. rewrite rows_of_set_row.
    destruct (payments_ok0 j p Hj) as (z & Hz & Hpz).
    destruct (decide (pay_participation p = i)) as [Heq|Hne].
    + exists q'. rewrite Heq, lookup_insert_eq. split; [done|].
      rewrite Heq in Hz. simplify_eq. eauto.
    + exists z. by rewrite lookup_insert_ne.
Qed.

Lemma base_add_participation db (q : Participation) :
  base_ok db -> part_id q = next_id (table_of (A := Participation) db) ->
  is_Some (rows_of (A := Campaign) db !! part_campaign q) -> 1 <= part_share_count q ->
  part_total_amount q = part_share_count q * part_share_price_snapshot q ->
  base_ok (add_row q db).
Proof.
  intros [] Hid Hcq Hone Htot. split; other_tables.
  - by apply add_row_good.
  - intros j z. rewrite rows_of_add_row.
    intros [[<- <-]|[_ Hj]]%lookup_insert_Some; eauto.
  - intros j p Hj. rewrite rows_of_add_row.
    destruct (payments_ok0 j p Hj) as (z & Hz & Hpz). exists z.
    rewrite lookup_insert_ne; [done|]. intros Heq. rewrite <- Heq, fresh_key in Hz; [done|].
    apply good_participations0.
Qed.

(** A payment changes without leaving its participation: it keeps its status,
    or it was pending and the participation is changed with it. *)
Lemma base_set_payment db i (p p' : Payment) :
  base_ok db -> rows_of db !! i = Some p -> payment_le p p' ->
  pay_status p' = pay_status p -> base_ok (set_row i p' db).
Proof.
  intros [] Hi (Hid & Hq & Hu & Ham & Hg & Hau & Hac & _) Hst. split; other_tables.
  - eapply set_row_good; [done..|]. simpl. rewrite Hid. by apply good_payments0.
  - intros j z. rewrite rows_of_set_row.
    intros [[<- <-]|[_ Hj]]%lookup_insert_Some; [|eauto].
    destruct (payments_ok0 i p Hi) as (q & Hqr & Hcp). exists q.
    unfold coupled. by rewrite Hq, Hst, Ham, Hu, Hac.
  - intros j k z z'. rewrite rows_of_set_row.
    intros [[<- <-]|[_ Hj]]%lookup_insert_Some [[<- <-]|[_ Hk]]%lookup_insert_Some;
      rewrite ?Hq; eauto.
  - intros j r Hj. destruct (refunds_ok0 j r Hj) as (Hone & z & Hz & Hzs).
    split; [done|]. rewrite rows_of_set_row.
    destruct (decide (ref_payment r = i)) as [Heq|Hne].
    + exists p'. rewrite Heq, lookup_insert_eq. split; [done|].
      rewrite Heq, Hi in Hz. injection Hz as <-. by rewrite Hst.
    + exists z. by rewrite lookup_insert_ne.
  - intros j z. rewrite rows_of_set_row, (claimed_refunds_same_rows _ db) by (by db_simpl).
    intros [[<- <-]|[_ Hj]]%lookup_insert_Some; [|eauto]. rewrite Ham. eauto.
Qed.

(** A pending payment has no refund. *)
Lemma no_refund_of_pending db i (p : Payment) j r :
  base_ok db -> rows_of db !! i = Some p -> pay_status p <> PaymentStatus.SUCCESS ->
  rows_of (A := PaymentRefund) db !! j = Some r -> ref_payment r = i -> False.
Proof.
  intros [] Hi Hst Hj Heq. destruct (refunds_ok0 j r Hj) as (_ & z & Hz & Hzs).
  rewrite Heq, Hi in Hz. congruence.
Qed.

(** A pending payment is closed together with its participation. *)
Lemma base_close_payment db i (p p' : Payment) (q q' : Participation) :
  base_ok db -> rows_of db !! i = Some p -> rows_of db !! pay_participation p = Some q ->
  pay_status p = PaymentStatus.PENDING -> payment_le p p' -> participation_le q q' ->
  coupled p' q' -> base_ok (set_row (pay_participation p) q' (set_row i p' db)).
Proof.
  intros Hb Hi Hq Hst (Hid & Hpq & Hu & Ham & Hg & Hau & Hac & _)
    (Hid' & Hc & Hu' & Hn & Hs & Ht & Ha & _) Hcp.
  assert (forall j r, rows_of (A := PaymentRefund) db !! j = Some r ->
            ref_payment r <> i) as Hnor.
  { intros j r Hj Heq. eapply no_refund_of_pending; eauto. congruence. }
  destruct Hb. split; other_tables.
  - eapply set_row_good; other_tables; [done|]. simpl. rewrite Hid'.
    by apply good_participations0.
  - eapply set_row_good; [done..|]. simpl. rewrite Hid. by apply good_payments0.
  - intros j z. db_simpl. intros [[<- <-]|[_ Hj]]%lookup_insert_Some; [|eauto].
    rewrite Hc, Ht, Hn, Hs. eauto.
  - intros j z. db_simpl. intros [[<- <-]|[Hne Hj]]%lookup_insert_Some.
    + exists q'. by rewrite Hpq, lookup_insert_eq.
    + destruct (payments_ok0 j z Hj) as (y & Hy & Hzy). exists y.
      rewrite lookup_insert_ne; [done|]. intros Heq. apply Hne.
      symmetry. by eapply payments_unique0.
  - intros j k z z'. db_simpl.
    intros [[<- <-]|[_ Hj]]%lookup_insert_Some [[<- <-]|[_ Hk]]%lookup_insert_Some;
      rewrite ?Hpq; eauto.
  - intros j r Hj. destruct (refunds_ok0 j r Hj) as (Hone & z & Hz & Hzs).
    split; [done|]. exists z. db_simpl. by rewrite lookup_insert_ne by (symmetry; eauto).
  - intros j z. db_simpl. rewrite (claimed_refunds_same_rows _ db) by (by db_simpl).
    intros [[<- <-]|[_ Hj]]%lookup_insert_Some; [|eauto]. rewrite Ham. eauto.
Qed.

Lemma claimed_refunds_fresh db pid :
  (forall j r, rows_of (A := PaymentRefund) db !! j = Some r -> ref_payment r <> pid) ->
  claimed_refunds pid db = 0.
Proof.
  intros Hno. unfold claimed_refunds. rewrite objects_filter_sum.
  rewrite (msum_ext _ (fun _ => 0)).
  - generalize (rows_of (A := PaymentRefund) db).
    intros m. induction m as [|i x m Hi IH] using map_ind.
    + apply msum_empty.
    + rewrite msum_insert_new by done. lia.
  - intros j r Hj. apply Hno, Z.eqb_neq in Hj. unfold claimed_of.
    by rewrite Hj, andb_false_r.
Qed.

Lemma base_add_payment db (p : Payment) (q : Participation) :
  base_ok db -> pay_id p = next_id (table_of (A := Payment) db) ->
  rows_of db !! pay_participation p = Some q -> coupled p q ->
  (forall j z, rows_of (A := Payment) db !! j = Some z ->
     pay_participation z <> pay_participation p) ->
  base_ok (add_row p db).
Proof.
  intros Hb Hid Hq Hcp Huniq.
  assert (rows_of (A := Payment) db !! pay_id p = None) as Hfresh.
  { rewrite Hid. apply fresh_key. apply Hb. }
  destruct Hb. split; other_tables.
  - by apply add_row_good.
  - intros j z. rewrite rows_of_add_row.
    intros [[<- <-]|[_ Hj]]%lookup_insert_Some; eauto.
  - intros j k z z'. rewrite rows_of_add_row.
    intros [[<- <-]|[_ Hj]]%lookup_insert_Some [[<- <-]|[_ Hk]]%lookup_insert_Some; eauto.
    + intros Heq. by apply Huniq in Hk.
    + intros Heq. by apply Huniq in Hj.
  - intros j r Hj. destruct (refunds_ok0 j r Hj) as (Hone & z & Hz & Hzs).
    split; [done|]. exists z. rewrite rows_of_add_row, lookup_insert_ne; [done|]. congruence.
  - intros j z. rewrite rows_of_add_row, (claimed_refunds_same_rows _ db) by (by db_simpl).
    intros [[<- <-]|[_ Hj]]%lookup_insert_Some; [|eauto].
    rewrite claimed_refunds_fresh; [unfold coupled in Hcp; lia|].
    intros j r Hj Heq. destruct (refunds_ok0 j r Hj) as (_ & z & Hz & _). congruence.
Qed.

Lemma external_shares_set db cid i (x x' : ExternalFunding) :
  rows_of db !! i = Some x ->
  external_shares cid (set_row i x' db)
  = external_shares cid db - when (xf_is_active x && recorded_funding_of cid x) (xf_shares x)
    + when (xf_is_active x' && recorded_funding_of cid x') (xf_shares x').
Proof.
  exact (objects_filter_sum_set_row (recorded_funding_of cid) xf_shares db i x' x).
Qed.

Lemma external_shares_add db cid (x : ExternalFunding) :
  table_wf (table_of (A := ExternalFunding) db) ->
  external_shares cid (add_row x db)
  = external_shares cid db + when (xf_is_active x && recorded_funding_of cid x) (xf_shares x).
Proof. exact (objects_filter_sum_add_row (recorded_funding_of cid) xf_shares db x). Qed.

Lemma claimed_refunds_set db i (r r' : PaymentRefund) pid :
  rows_of db !! i = Some r ->
  claimed_refunds pid (set_row i r' db)
  = claimed_refunds pid db - when (ref_is_active r && claimed_of pid r) (ref_amount r)
    + when (ref_is_active r' && claimed_of pid r') (ref_amount r').
Proof. exact (objects_filter_sum_set_row (claimed_of pid) ref_amount db i r' r). Qed.

Lemma claimed_refunds_add db (r : PaymentRefund) pid :
  table_wf (table_of (A := PaymentRefund) db) ->
  claimed_refunds pid (add_row r db)
  = claimed_refunds pid db + when (ref_is_active r && claimed_of pid r) (ref_amount r).
Proof. exact (objects_filter_sum_add_row (claimed_of pid) ref_amount db r). Qed.

Lemma base_set_refund db i (r r' : PaymentRefund) :
  base_ok db -> rows_of db !! i = Some r -> refund_le r r' -> base_ok (set_row i r' db).
Proof.
  intros [] Hi (Hid & Hp & Ham & Ha & Hst).
  destruct (refunds_ok0 i r Hi) as (Hone & z & Hz & Hzs). split; other_tables.
  - eapply set_row_good; [done..|]. simpl. rewrite Hid. by apply good_refunds0.
  - intros j y. rewrite rows_of_set_row.
    intros [[<- <-]|[_ Hj]]%lookup_insert_Some; [|eauto]. rewrite Hp, Ham. eauto.
  - intros j y Hj. rewrite (claimed_refunds_set _ _ r) by done.
    specialize (claims_ok0 j y Hj).
    assert (when (ref_is_active r' && claimed_of j r') (ref_amount r')
            <= when (ref_is_active r && claimed_of j r) (ref_amount r)); [|lia].
    rewrite Ha, Ham. unfold claimed_of. rewrite Hp.
    destruct (ref_is_active r), (ref_payment r =? j); simpl; try lia.
    destruct (ref_status r), (ref_status r'); simpl; try lia; naive_solver congruence.
Qed.

Lemma base_add_refund db (r : PaymentRefund) (p : Payment) :
  base_ok db -> ref_id r = next_id (table_of (A := PaymentRefund) db) ->
  rows_of db !! ref_payment r = Some p -> pay_status p = PaymentStatus.SUCCESS ->
  1 <= ref_amount r -> claimed_refunds (ref_payment r) db + ref_amount r <= pay_amount p ->
  base_ok (add_row r db).
Proof.
  intros [] Hid Hp Hst Hone Hle. split; other_tables.
  - by apply add_row_good.
  - intros j y. rewrite rows_of_add_row.
    intros [[<- <-]|[_ Hj]]%lookup_insert_Some; eauto.
  - intros j y Hj. rewrite claimed_refunds_add by apply good_refunds0.
    specialize (claims_ok0 j y Hj). unfold claimed_of.
    destruct (ref_is_active r); simpl; [|lia].
    destruct (Z.eqb_spec (ref_payment r) j) as [<-|Hne]; simpl; [|lia].
    simplify_eq. unfold when. destruct (bool_decide _); lia.
Qed.

(** ** Campaigns and their counters *)

Section Bounded.
Context {Hbound : Bound}.

(** An operation that changes no campaign and no source of their counters. *)
Lemma counters_ok_quiet db db' :
  counters_ok db -> rows_of (A := Campaign) db' = rows_of db ->
  (forall k, true_counters k db' = true_counters k db) -> counters_ok db'.
Proof. intros Hok Hrows Htc i c. rewrite Hrows, Htc. apply Hok. Qed.

Lemma counters_ok_set_campaign db i (c c' : Campaign) :
  counters_ok db -> rows_of db !! i = Some c -> counters c' = counters c ->
  camp_total_shares c' <= bound i -> counters_ok (set_row i c' db).
Proof.
  intros Hok Hi Hc Ht j z. rewrite rows_of_set_row, true_counters_set_campaign.
  intros [[<- <-]|[_ Hj]]%lookup_insert_Some; [|by apply Hok].
  destruct (Hok _ _ Hi) as (He & _ & Hf). rewrite Hc. split; [done|]. split; [done|].
  unfold counters in Hc. unfold funded_shares in *. simplify_eq. lia.
Qed.

(** An operation whose effect on the counters is confined to the campaign
    [cid], followed by the synchronisation of that campaign. *)
Lemma counters_ok_resync cid db db1 c env c' db2 :
  counters_ok db -> table_wf (table_of (A := Campaign) db) ->
  rows_of (A := Campaign) db1 = rows_of db ->
  (forall k, k <> cid -> true_counters k db1 = true_counters k db) ->
  (forall row : Campaign, rows_of db !! cid = Some row ->
     reserved_shares cid db1 + external_shares cid db1 <= bound cid) ->
  camp_id c = cid ->
  sync_campaign_counters c env db1 = (Ok c', db2) -> counters_ok db2.
Proof.
  intros Hok Hwf Hrows Hloc Hcap Hid Hrun.
  apply sync_campaign_counters_ok_inv in Hrun as (slug & price & row & _ & Hrow & _ & ->).
  rewrite Hid in *. intros i z. rewrite rows_of_set_row, true_counters_set_campaign, Hrows.
  intros [[<- <-]|[Hne Hi]]%lookup_insert_Some.
  - rewrite Hrows in Hrow. split; [unfold counters, true_counters; simpl; by rewrite Hid|].
    split; [simpl; by apply (Hok _ _ Hrow)|].
    unfold funded_shares. simpl. rewrite Hid. by apply (Hcap row).
  - rewrite Hloc by done. by apply Hok.
Qed.

Lemma counters_ok_capacity db cid (row : Campaign) :
  counters_ok db -> rows_of db !! cid = Some row ->
  reserved_shares cid db + external_shares cid db <= bound cid.
Proof.
  intros Hok Hi. destruct (Hok cid row Hi) as (Hc & _ & Hf).
  unfold counters, true_counters in Hc. unfold funded_shares in Hf. simplify_eq. lia.
Qed.

Lemma reserved_shares_set db cid i (q q' : Participation) :
  rows_of db !! i = Some q ->
  reserved_shares cid (set_row i q' db)
  = reserved_shares cid db
    - when (part_is_active q && (part_campaign q =? cid))
        (when (holds_shares q) (part_share_count q))
    + when (part_is_active q' && (part_campaign q' =? cid))
        (when (holds_shares q') (part_share_count q')).
Proof.
  exact (objects_filter_sum_set_row (fun p => part_campaign p =? cid)
           (fun p => when (holds_shares p) (part_share_count p)) db i q' q).
Qed.

Lemma reserved_shares_add db cid (q : Participation) :
  table_wf (table_of (A := Participation) db) ->
  reserved_shares cid (add_row q db)
  = reserved_shares cid db + when (part_is_active q && (part_campaign q =? cid))
                               (when (holds_shares q) (part_share_count q)).
Proof.
  exact (objects_filter_sum_add_row (fun p => part_campaign p =? cid)
           (fun p => when (holds_shares p) (part_share_count p)) db q).
Qed.

(** A participation that stops holding its shares, or goes on, frees capacity. *)
Lemma reserved_shares_release db cid i (q q' : Participation) :
  base_ok db -> rows_of db !! i = Some q -> participation_le q q' ->
  (holds_shares q' = true -> holds_shares q = true) ->
  reserved_shares cid (set_row i q' db) <= reserved_shares cid db.
Proof.
  intros Hb Hi (_ & Hc & _ & Hn & _ & _ & Ha & _) Hh.
  destruct (participations_ok _ Hb i q Hi) as (_ & Hone & _).
  rewrite (reserved_shares_set _ _ _ q) by done. rewrite Hc, Hn, Ha.
  destruct (part_is_active q), (part_campaign q =? cid), (holds_shares q'),
    (holds_shares q); simpl; try lia; by specialize (Hh eq_refl).
Qed.

Lemma reserved_shares_same_rows db db' cid :
  rows_of (A := Participation) db' = rows_of db ->
  reserved_shares cid db' = reserved_shares cid db.
Proof.
  intros Hr. unfold reserved_shares, participations_of. f_equal.
  by apply objects_filter_ext.
Qed.

Lemma external_shares_same_rows db db' cid :
  rows_of (A := ExternalFunding) db' = rows_of db ->
  external_shares cid db' = external_shares cid db.
Proof.
  intros Hr. unfold external_shares, recorded_fundings. f_equal.
  by apply objects_filter_ext.
Qed.

(** * Sound operations *)

Definition sound (db db' : DB) : Prop := core_ok db' /\ core_le db db'.

Lemma sound_refl db : core_ok db -> sound db db.
Proof. intros H. split; [done|reflexivity]. Qed.

Lemma sound_trans db1 db2 db3 : sound db1 db2 -> sound db2 db3 -> sound db1 db3.
Proof. intros [_ H12] [H3 H23]. split; [done|by etrans]. Qed.

Lemma sound_same_core db db' : core_ok db -> same_core db db' -> sound db db'.
Proof.
  intros Hok Hs. split; [by eapply core_ok_same_core|by apply core_le_same_core].
Qed.

Lemma sound_then db db1 db2 : sound db db1 -> same_core db1 db2 -> sound db db2.
Proof.
  intros [Hok Hle] Hs. eapply sound_trans; [by split|by apply sound_same_core].
Qed.

#[export] Instance sound_proper : Proper (same_core ==> same_core ==> iff) sound.
Proof. intros d1 d1' H1 d2 d2' H2. unfold sound. by rewrite H1, H2. Qed.

(** The synchronisation keeps the status of the campaign it saves. *)
Lemma sync_keeps_status c env db c' db' :
  table_wf (table_of (A := Campaign) db) ->
  sync_campaign_counters c env db = (Ok c', db') ->
  evolves campaign_le db db' /\ camp_id c' = camp_id c /\ camp_status c' = camp_status c /\
  rows_of (A := Campaign) db' !! camp_id c
    = (fun row => copy_counters (with_counters c db) row
                    <| camp_updated_at := env_now env |>) <$> rows_of db !! camp_id c.
Proof.
  intros Hwf H.
  apply sync_campaign_counters_ok_inv in H as (slug & price & row & -> & Hrow & _ & ->).
  split; [|split; [done|split; [done|]]].
  - eapply evolves_set_row; [typeclasses eauto|done|]. split; [done|by left].
  - by rewrite rows_of_set_row, lookup_insert_eq, Hrow.
Qed.

Lemma core_le_sync c env db c' db' :
  table_wf (table_of (A := Campaign) db) ->
  sync_campaign_counters c env db = (Ok c', db') -> core_le db db'.
Proof.
  intros Hwf H. pose proof (sync_keeps_status _ _ _ _ _ Hwf H) as (Hle & _).
  apply sync_campaign_counters_ok_inv in H as (slug & price & row & _ & _ & _ & ->).
  split; [done|..]; apply evolves_same_table; try typeclasses eauto; by db_simpl.
Qed.

Lemma sound_resync cid db db1 c env c' db2 :
  core_ok db -> base_ok db1 -> core_le db db1 ->
  rows_of (A := Campaign) db1 = rows_of db ->
  (forall k, k <> cid -> true_counters k db1 = true_counters k db) ->
  (forall row : Campaign, rows_of db !! cid = Some row ->
     reserved_shares cid db1 + external_shares cid db1 <= bound cid) ->
  camp_id c = cid ->
  sync_campaign_counters c env db1 = (Ok c', db2) -> sound db db2.
Proof.
  intros [Hb Hok] Hb1 Hle Hrows Hloc Hcap Hid Hrun.
  assert (table_wf (table_of (A := Campaign) db1)) as Hwf1 by apply Hb1.
  split.
  - split; [|eapply counters_ok_resync; eauto; apply Hb].
    apply sync_campaign_counters_ok_inv in Hrun as (slug & price & row & _ & Hrow & _ & ->).
    by eapply base_set_campaign.
  - etrans; [exact Hle|by eapply core_le_sync].
Qed.

Lemma sound_auto_complete db c env c' db' :
  core_ok db ->
  (forall row, rows_of db !! camp_id c = Some row -> camp_status row = camp_status c) ->
  auto_complete_campaign_if_fully_funded c env db = (Ok c', db') -> sound db db'.
Proof.
  intros [Hb Hok] Hst H.
  apply auto_complete_ok_inv in H as [[-> ->]|(Hp & _ & row & Hrow & ->)].
  { by apply sound_refl. }
  split; [split|].
  - by eapply base_set_campaign.
  - eapply counters_ok_set_campaign; [done|done|done|].
    by apply (Hok _ row) in Hrow as (_ & ? & _).
  - split; [|apply evolves_same_table; try typeclasses eauto; by db_simpl..].
    eapply evolves_set_row; [typeclasses eauto|exact Hrow|].
    split; [done|]. right; right. split; [by rewrite (Hst row)|]. set_solver.
Qed.

(** ** Updates on states with the same core *)

Lemma same_core_set_participation i (q : Participation) db db' :
  same_core db db' -> same_core (set_row i q db) (set_row i q db').
Proof.
  unfold same_core, core, set_row, rows_of. cbn. intros H. injection H as -> -> -> -> -> ->.
  done.
Qed.

(** The four ways a pending payment is closed: the payment and its
    participation change together, the ledger is written, the campaign is
    synchronised. *)
Lemma sound_close db i (p p' : Payment) (q q' : Participation) db1 c env c' db2 :
  core_ok db -> rows_of db !! i = Some p -> rows_of db !! pay_participation p = Some q ->
  pay_status p = PaymentStatus.PENDING -> payment_le p p' -> participation_le q q' ->
  coupled p' q' -> (holds_shares q' = true -> holds_shares q = true) ->
  same_core (set_row (pay_participation p) q' (set_row i p' db)) db1 ->
  camp_id c = part_campaign q ->
  sync_campaign_counters c env db1 = (Ok c', db2) -> sound db db2.
Proof.
  intros [Hb Hok] Hi Hq Hst Hpl Hql Hcp Hh Hs Hid Hrun.
  assert (rows_of (set_row i p' db) !! pay_participation p = Some q) as Hq1 by (by db_simpl).
  pose proof (same_core_rows _ _ Hs) as (Hrc & Hrx & Hrq & _).
  eapply (sound_resync (part_campaign q)); [by split|..|exact Hid|exact Hrun].
  - rewrite <- Hs. by eapply base_close_payment.
  - rewrite <- Hs. split; try (apply evolves_same_table; try typeclasses eauto; by db_simpl).
    + transitivity (set_row i p' db).
      * apply evolves_same_table; [typeclasses eauto|by db_simpl].
      * eapply evolves_set_row; [typeclasses eauto|exact Hq1|done].
    + transitivity (set_row i p' db).
      * eapply evolves_set_row; [typeclasses eauto|exact Hi|exact Hpl].
      * apply evolves_same_table; [typeclasses eauto|by db_simpl].
  - rewrite Hrc. by db_simpl.
  - intros k Hk. rewrite (true_counters_same_core _ _ _ Hs).
    rewrite (true_counters_set_participation _ _ _ q); [|done|by apply Hql|done].
    eapply true_counters_set_payment; [done|apply Hpl].
  - intros row Hrow.
    rewrite (external_shares_same_rows db) by (rewrite Hrx; by db_simpl).
    rewrite (reserved_shares_same_rows _ db1 _ Hrq).
    pose proof (counters_ok_capacity _ _ _ Hok Hrow).
    rewrite (reserved_shares_set _ _ _ q) by done.
    pose proof (reserved_shares_release db (part_campaign q) _ q q' Hb Hq Hql Hh) as Hrel.
    rewrite (reserved_shares_set _ _ _ q) in Hrel by done.
    rewrite (reserved_shares_same_rows db (set_row i p' db)) by (by db_simpl). lia.
Qed.

Lemma payment_key db i (p : Payment) :
  base_ok db -> rows_of db !! i = Some p -> pay_id p = i.
Proof. intros Hb Hi. by apply Hb in Hi as [? _]. Qed.

Lemma participation_key db i (q : Participation) :
  base_ok db -> rows_of db !! i = Some q -> part_id q = i.
Proof. intros Hb Hi. by apply Hb in Hi as [? _]. Qed.

Lemma campaign_key db i (c : Campaign) :
  base_ok db -> rows_of db !! i = Some c -> camp_id c = i.
Proof. intros Hb Hi. by apply Hb in Hi as [? _]. Qed.

Lemma refund_key db i (r : PaymentRefund) :
  base_ok db -> rows_of db !! i = Some r -> ref_id r = i.
Proof. intros Hb Hi. by apply Hb in Hi as [? _]. Qed.

Lemma coupled_close p q p' q' :
  coupled p q -> payment_le p p' -> participation_le q q' ->
  status_coupled (pay_status p') (part_status q') -> coupled p' q'.
Proof.
  intros (_ & Ham & Hu & Hone & Ha & Haq) (_ & _ & Hu' & Ham' & _ & _ & Ha' & _)
    (_ & _ & Huq' & _ & _ & Ht' & Haq' & _) Hs.
  repeat split; congruence || lia.
Qed.

(** After a synchronisation the campaign it returns may be completed. *)
Lemma sound_auto_complete_synced db db1 c env c1 db2 c2 db3 :
  sync_campaign_counters c env db1 = (Ok c1, db2) -> sound db db2 ->
  base_ok db1 -> (forall row, rows_of db1 !! camp_id c = Some row -> camp_status row = camp_status c) ->
  auto_complete_campaign_if_fully_funded c1 env db2 = (Ok c2, db3) -> sound db db3.
Proof.
  intros Hsync [Hok Hle] Hb1 Hst Hauto.
  eapply sound_trans; [by split|]. eapply sound_auto_complete; [done| |exact Hauto].
  assert (table_wf (table_of (A := Campaign) db1)) as Hwf by apply Hb1.
  pose proof (sync_keeps_status _ _ _ _ _ Hwf Hsync) as (_ & Hid & Hs1 & Hrow).
  intros row Hr. rewrite Hid, Hrow in Hr. apply fmap_Some in Hr as (row0 & Hr0 & ->).
  rewrite Hs1. by apply (Hst row0).
Qed.

(** A participation no payment was stored for is given up. *)
Lemma sound_close_orphan db i (q q' : Participation) c env c' db2 :
  core_ok db -> rows_of db !! i = Some q -> participation_le q q' ->
  (forall j p, rows_of (A := Payment) db !! j = Some p -> pay_participation p <> i) ->
  (holds_shares q' = true -> holds_shares q = true) -> camp_id c = part_campaign q ->
  sync_campaign_counters c env (set_row i q' db) = (Ok c', db2) -> sound db db2.
Proof.
  intros [Hb Hok] Hi Hle Hno Hh Hid Hrun.
  eapply (sound_resync (part_campaign q)); [by split|..|exact Hid|exact Hrun].
  - eapply base_set_participation; [done..|]. intros j p Hj Hp. by apply Hno in Hj.
  - split; try (apply evolves_same_table; try typeclasses eauto; by db_simpl).
    by eapply evolves_set_row; [typeclasses eauto|..].
  - by db_simpl.
  - intros k Hk. eapply true_counters_set_participation; [done|apply Hle|done].
  - intros row Hrow. rewrite (external_shares_same_rows db) by (by db_simpl).
    pose proof (counters_ok_capacity _ _ _ Hok Hrow).
    pose proof (reserved_shares_release db (part_campaign q) _ q q' Hb Hi Hle Hh). lia.
Qed.

(** A new participation takes shares the campaign still has. *)
Lemma sound_reserve db (q : Participation) c env c' db2 :
  core_ok db -> rows_of db !! camp_id c = Some c ->
  part_id q = next_id (table_of (A := Participation) db) ->
  part_campaign q = camp_id c -> 1 <= part_share_count q <= remaining_shares c ->
  part_total_amount q = part_share_count q * part_share_price_snapshot q ->
  sync_campaign_counters c env (add_row q db) = (Ok c', db2) -> sound db db2.
Proof.
  intros [Hb Hok] Hc Hid Hcq Hn Htot Hrun.
  assert (table_wf (table_of (A := Participation) db)) as Hwf by apply Hb.
  eapply (sound_resync (camp_id c)); [by split|..|done|exact Hrun].
  - apply base_add_participation; try (done || lia). rewrite Hcq. by eexists.
  - split; try (apply evolves_same_table; try typeclasses eauto; by db_simpl).
    apply evolves_add_row; [typeclasses eauto|apply Hb].
  - by db_simpl.
  - intros k Hk. apply true_counters_add_participation; [done| |congruence].
    intros j p Hj. apply (payments_ok _ Hb) in Hj as (z & -> & _). by eexists.
  - intros row Hrow. simplify_eq. rewrite (external_shares_same_rows db) by (by db_simpl).
    pose proof (counters_ok_capacity _ _ _ Hok Hc).
    destruct (Hok _ _ Hc) as (Heq & Htot' & _). unfold counters, true_counters in Heq.
    injection Heq as Hps _ _ Hxs _.
    rewrite reserved_shares_add by done. unfold remaining_shares, funded_shares in Hn.
    destruct (part_is_active q && _), (holds_shares q); simpl; lia.
Qed.

(** A campaign nothing refers to has nothing to count. *)
Lemma true_counters_unused db cid :
  base_ok db -> rows_of (A := Campaign) db !! cid = None ->
  true_counters cid db = (0, 0, 0, 0, 0).
Proof.
  intros Hb Hnone.
  assert (participations_of cid db = ∅) as Hq.
  { apply objects_filter_none. intros i q Hi. apply Z.eqb_neq. intros Heq.
    destruct (participations_ok _ Hb i q Hi) as [[? ?] _]. congruence. }
  assert (objects_filter (completed_refund_of cid db) db = ∅) as Hr.
  { apply objects_filter_none. intros i r Hi. unfold completed_refund_of, refund_participation.
    destruct (rows_of db !! ref_payment r) as [p|]; [|done].
    destruct (rows_of db !! pay_participation p) as [q|] eqn:Hj; [|done].
    destruct (participations_ok _ Hb _ q Hj) as [[? ?] _].
    rewrite (proj2 (Z.eqb_neq _ _)); [done|congruence]. }
  assert (objects_filter (applied_adjustment_of cid) db = ∅) as Ha.
  { apply objects_filter_none. intros i a Hi. unfold applied_adjustment_of.
    destruct (adjustments_ok _ Hb i a Hi) as [? ?].
    rewrite (proj2 (Z.eqb_neq _ _)); [done|congruence]. }
  assert (recorded_fundings cid db = ∅) as Hx.
  { apply objects_filter_none. intros i x Hi. unfold recorded_funding_of.
    destruct (fundings_ok _ Hb i x Hi) as [[? ?] _].
    rewrite (proj2 (Z.eqb_neq _ _)); [done|congruence]. }
  unfold true_counters, reserved_shares, paid_amount, unique_users, completed_refunds,
    adjustment_delta, external_shares, external_amount.
  by rewrite Hq, Hr, Ha, Hx.
Qed.

Lemma sound_add_campaign db (c : Campaign) :
  core_ok db -> camp_id c = next_id (table_of (A := Campaign) db) ->
  counters c = (0, 0, 0, 0, 0) -> 0 <= camp_total_shares c <= bound (camp_id c) ->
  sound db (add_row c db).
Proof.
  intros [Hb Hok] Hid Hc Ht.
  assert (table_wf (table_of (A := Campaign) db)) as Hwf by apply Hb.
  split; [split; [by apply base_add_campaign|]|].
  - intros i z. rewrite rows_of_add_row, true_counters_add_campaign.
    intros [[<- <-]|[_ Hi]]%lookup_insert_Some; [|by apply Hok].
    rewrite true_counters_unused by (done || by apply fresh_key).
    split; [done|]. rewrite Hid in Ht. split; [apply Ht|].
    unfold counters in Hc. unfold funded_shares. simplify_eq. lia.
  - split; try (apply evolves_same_table; try typeclasses eauto; by db_simpl).
    apply evolves_add_row; [typeclasses eauto|apply Hb].
Qed.

(** A save that leaves the counters of a campaign alone. *)
Lemma sound_set_campaign db i (c c' : Campaign) :
  core_ok db -> rows_of db !! i = Some c -> campaign_le c c' -> counters c' = counters c ->
  camp_total_shares c' <= bound i -> sound db (set_row i c' db).
Proof.
  intros [Hb Hok] Hi Hle Hc Hf. split; [split|].
  - eapply base_set_campaign; [done|done|apply Hle].
  - by eapply counters_ok_set_campaign.
  - split; try (apply evolves_same_table; try typeclasses eauto; by db_simpl).
    by eapply evolves_set_row; [typeclasses eauto|..].
Qed.

End Bounded.
