(* ===== verification/Campaigns.v ===== *)
(** Sponsors, campaigns, offline funding and galleries: the CRUD and
    life-cycle services of [src/apps/madadkar/services.py]. *)

From S2P Require Import Prelude Python Choices Models NotificationModels Orm World Counters.
From S2P Require Import Invariant.

(** * Helpers *)

(** [_extract_django_validation_message]: the first message of a validation
    error, [None] standing for the default text. *)
Definition extract_django_validation_message (e : validation_error) :
    option validation_message :=
  match e with
  | error_dict ((_, m :: _) :: _) => Some m
  | error_dict fields =>
      match concat fields.*2 with m :: _ => Some m | [] => None end
  | error_list (m :: _) => Some m
  | error_list [] => None
  end.

Definition default_validation_message : validation_message := field_message "".

Definition validation_message_of (e : validation_error) : validation_message :=
  default default_validation_message (extract_django_validation_message e).

(** [_has_paid_participations] *)
Definition has_paid_participations (campaign : Campaign) (db : DB) : bool :=
  qs_exists (objects_filter (fun p =>
    (part_campaign p =? camp_id campaign) && is_paid p) db).

(** [BaseModel.soft_delete] *)
Definition soft_delete_campaign_row (c : Campaign) : M Campaign :=
  campaign_save (c <| camp_is_active := false |>)
    (fun c row => row <| camp_is_active := camp_is_active c |>).

(** * Sponsors *)

Section Sponsors.

(** [Sponsor.save]: the slug is built from the name when it is empty. *)
Definition sponsor_slug (slugify : string -> string) (x : Sponsor) : string :=
  if str_true (sp_slug x) then sp_slug x
  else py_prefix 220 (str_or (slugify (sp_name x)) "sponsor").

Definition sponsor_full_clean (x : Sponsor) : M unit :=
  env ← ask;
  db ← get_state;
  match env_sponsor_full_clean env db x with
  | Some e => raise (SponsorInvalidDataError (validation_message_of e))
  | None => mret tt
  end.

Definition create_sponsor (name : string) (logo : option string) : M Sponsor :=
  atomic
    (env ← ask;
     let sponsor := mkSponsor 0 name "" logo true 0 0 in
     _ ← sponsor_full_clean sponsor;
     create (fun i now =>
       sponsor <| sp_id := i |> <| sp_slug := sponsor_slug (env_slugify env) sponsor |>
               <| sp_created_at := now |> <| sp_updated_at := now |>)).

(** One item of [**fields]; a field that is not [allowed] is skipped. *)
Inductive sponsor_field : Type :=
| sponsor_name (v : string)
| sponsor_logo (v : option string)
| sponsor_other (field_name : string).

Definition set_sponsor_field (x : Sponsor) (f : sponsor_field) : Sponsor :=
  match f with
  | sponsor_name v => x <| sp_name := v |>
  | sponsor_logo v => x <| sp_logo := v |>
  | sponsor_other _ => x
  end.

Definition sponsor_field_allowed (f : sponsor_field) : bool :=
  match f with sponsor_other _ => false | _ => true end.

Definition update_sponsor (sponsor : Sponsor) (fields : list sponsor_field) : M Sponsor :=
  atomic
    (let update_fields := filter (fun f => sponsor_field_allowed f = true) fields in
     let sponsor := foldl set_sponsor_field sponsor update_fields in
     match update_fields with
     | [] => mret sponsor
     | _ =>
         _ ← sponsor_full_clean sponsor;
         now ← timezone_now;
         _ ← update_row (sp_id sponsor)
               (fun row => (foldl set_sponsor_field row update_fields)
                             <| sp_updated_at := now |>);
         mret (sponsor <| sp_updated_at := now |>)
     end).

Definition delete_sponsor (sponsor : Sponsor) : M unit :=
  atomic
    (active_campaigns_exist ← query (fun db =>
       qs_exists (objects_filter (fun c =>
         (camp_sponsor c =? sp_id sponsor) &&
         negb (bool_decide (camp_status c = CampaignStatus.DRAFT))) db));
     _ ← raise_if active_campaigns_exist SponsorInUseError;
     now ← timezone_now;
     update_row (sp_id sponsor)
       (fun row => row <| sp_is_active := false |> <| sp_updated_at := now |>)).

End Sponsors.

(** * Campaigns *)

(** [_validate_campaign_financial_fields] *)
Definition campaign_financial_fields_error (total_amount total_shares : Z) :
    option validation_message :=
  match validate_total_amount total_amount with
  | Some m => Some m
  | None =>
      match validate_total_shares total_shares with
      | Some m => Some m
      | None => validate_share_price_divisibility total_amount total_shares
      end
  end.

Definition validate_campaign_financial_fields (total_amount total_shares : Z) : M unit :=
  match campaign_financial_fields_error total_amount total_shares with
  | Some m => raise (CampaignInvalidDataError (invalid_fields m))
  | None => mret tt
  end.

(** The three checks on [has_deadline] and [deadline]. *)
Definition deadline_error (has_deadline : bool) (deadline : option Z) (now : Z) :
    option invalid_reason :=
  match has_deadline, deadline with
  | true, None => Some deadline_required
  | false, Some _ => Some deadline_unexpected
  | true, Some d => if d <=? now then Some deadline_in_past else None
  | false, None => None
  end.

Definition create_campaign (sponsor : Sponsor) (title description cover_image : string)
    (total_amount total_shares : Z) (has_deadline : bool) (deadline : option Z)
    (is_visible : bool) : M Campaign :=
  atomic
    (_ ← validate_campaign_financial_fields total_amount total_shares;
     now ← timezone_now;
     _ ← match deadline_error has_deadline deadline now with
         | Some r => raise (CampaignInvalidDataError r)
         | None => mret tt
         end;
     env ← ask;
     all ← query (rows_of (A := Campaign));
     let campaign := mkCampaign 0 (sp_id sponsor) title "" description cover_image
       total_amount total_shares 0 0 0 0 0 0 CampaignStatus.DRAFT is_visible
       has_deadline deadline None None None true 0 0 in
     match campaign_pre_save (env_slugify env) all None campaign with
     | None => raise (validation_error_of slug_space_exhausted)
     | Some campaign =>
         create (fun i now => campaign <| camp_id := i |>
                   <| camp_created_at := now |> <| camp_updated_at := now |>)
     end).

(** One item of [**fields] of [update_campaign], for the fields the admin
    serializer lets through. *)
Inductive campaign_field : Type :=
| field_title (v : string)
| field_description (v : string)
| field_cover_image (v : string)
| field_is_visible (v : bool)
| field_sponsor (v : Z)
| field_total_amount (v : Z)
| field_total_shares (v : Z)
| field_has_deadline (v : bool)
| field_deadline (v : option Z).

Definition always_editable (f : campaign_field) : bool :=
  match f with
  | field_title _ | field_description _ | field_cover_image _
  | field_is_visible _ => true
  | _ => false
  end.

Definition locked_after_first_payment (f : campaign_field) : bool :=
  match f with
  | field_sponsor _ | field_total_amount _ | field_total_shares _ => true
  | _ => false
  end.

Definition set_campaign_field (c : Campaign) (f : campaign_field) : Campaign :=
  match f with
  | field_title v => c <| camp_title := v |>
  | field_description v => c <| camp_description := v |>
  | field_cover_image v => c <| camp_cover_image := v |>
  | field_is_visible v => c <| camp_is_visible := v |>
  | field_sponsor v => c <| camp_sponsor := v |>
  | field_total_amount v => c <| camp_total_amount := v |>
  | field_total_shares v => c <| camp_total_shares := v |>
  | field_has_deadline v => c <| camp_has_deadline := v |>
  | field_deadline v => c <| camp_deadline := v |>
  end.

(** [fields.get(name, default)], a keyword occurring at most once *)
Fixpoint field_get {A} (sel : campaign_field -> option A) (fields : list campaign_field)
    (dflt : A) : A :=
  match fields with
  | [] => dflt
  | f :: fs => match sel f with Some v => v | None => field_get sel fs dflt end
  end.

Definition sel_total_amount (f : campaign_field) : option Z :=
  match f with field_total_amount v => Some v | _ => None end.
Definition sel_total_shares (f : campaign_field) : option Z :=
  match f with field_total_shares v => Some v | _ => None end.
Definition sel_has_deadline (f : campaign_field) : option bool :=
  match f with field_has_deadline v => Some v | _ => None end.
Definition sel_deadline (f : campaign_field) : option (option Z) :=
  match f with field_deadline v => Some v | _ => None end.

Definition is_terminal_status (s : CampaignStatus.t) : bool :=
  bool_decide (s ∈ [CampaignStatus.COMPLETED; CampaignStatus.CLOSED]).

(** The loop over the field names: the first field that may not be edited. *)
Fixpoint locked_field_error (is_terminal locked : bool) (status : CampaignStatus.t)
    (fields : list campaign_field) : option locked_reason :=
  match fields with
  | [] => None
  | f :: fs =>
      if always_editable f then locked_field_error is_terminal locked status fs
      else if is_terminal then Some (locked_terminal_state status)
      else if locked && locked_after_first_payment f then Some locked_by_payments
      else locked_field_error is_terminal locked status fs
  end.

(** The checks made when [has_deadline] or [deadline] is edited. *)
Definition deadline_edit_error (campaign : Campaign) (locked new_has_deadline : bool)
    (new_deadline : option Z) (now : Z) : option exc :=
  match deadline_error new_has_deadline new_deadline now with
  | Some r => Some (CampaignInvalidDataError r)
  | None =>
      if locked && camp_has_deadline campaign &&
         match new_deadline, camp_deadline campaign with
         | Some d', Some d => d' <? d
         | _, _ => false
         end
      then Some (CampaignFieldLockedError deadline_moved_back)
      else if locked && camp_has_deadline campaign && negb new_has_deadline
      then Some (CampaignFieldLockedError deadline_disabled)
      else None
  end.

Definition update_campaign (campaign : Campaign) (fields : list campaign_field) :
    M Campaign :=
  atomic
    (locked ← query (has_paid_participations campaign);
     let is_terminal := is_terminal_status (camp_status campaign) in
     _ ← match locked_field_error is_terminal locked (camp_status campaign) fields with
         | Some r => raise (CampaignFieldLockedError r)
         | None => mret tt
         end;
     let new_total_amount := field_get sel_total_amount fields (camp_total_amount campaign) in
     let new_total_shares := field_get sel_total_shares fields (camp_total_shares campaign) in
     _ ← (if existsb (fun f => match f with
                               | field_total_amount _ | field_total_shares _ => true
                               | _ => false end) fields
          then validate_campaign_financial_fields new_total_amount new_total_shares
          else mret tt);
     now ← timezone_now;
     _ ← (if existsb (fun f => match f with
                               | field_has_deadline _ | field_deadline _ => true
                               | _ => false end) fields
          then
            match deadline_edit_error campaign locked
                    (field_get sel_has_deadline fields (camp_has_deadline campaign))
                    (field_get sel_deadline fields (camp_deadline campaign)) now with
            | Some e => raise e
            | None => mret tt
            end
          else mret tt);
     let campaign := foldl set_campaign_field campaign fields in
     match fields with
     | [] => mret campaign
     | _ => campaign_save campaign
              (fun c row => (foldl set_campaign_field row fields)
                              <| camp_share_price := camp_share_price c |>)
     end).

Definition publish_campaign (campaign : Campaign) : M Campaign :=
  atomic
    (_ ← raise_if (negb (bool_decide (camp_status campaign = CampaignStatus.DRAFT)))
           (CampaignPublishStateError (camp_status campaign));
     now ← timezone_now;
     campaign_save (campaign <| camp_status := CampaignStatus.PUBLISHED |>
                             <| camp_published_at := Some now |>)
       (fun c row => row <| camp_status := camp_status c |>
                         <| camp_published_at := camp_published_at c |>)).

Definition copy_closed (c row : Campaign) : Campaign :=
  row <| camp_status := camp_status c |> <| camp_closed_at := camp_closed_at c |>.

Definition close_campaign (campaign : Campaign) : M Campaign :=
  atomic
    (_ ← raise_if (negb (bool_decide (camp_status campaign = CampaignStatus.PUBLISHED)))
           (CampaignCloseStateError (camp_status campaign));
     now ← timezone_now;
     campaign_save (campaign <| camp_status := CampaignStatus.CLOSED |>
                             <| camp_closed_at := Some now |>) copy_closed).

Definition delete_campaign (campaign : Campaign) : M unit :=
  atomic
    (_ ← raise_if (negb (bool_decide (camp_status campaign = CampaignStatus.DRAFT)))
           CampaignDeleteStateError;
     _ ← soft_delete_campaign_row campaign;
     mret tt).

Definition close_campaign_due_to_deadline (campaign : Campaign) : M Campaign :=
  atomic
    (now ← timezone_now;
     if negb (bool_decide (camp_status campaign = CampaignStatus.PUBLISHED))
     then mret campaign
     else match camp_has_deadline campaign, camp_deadline campaign with
          | true, Some d =>
              if now <? d then mret campaign
              else campaign_save (campaign <| camp_status := CampaignStatus.CLOSED |>
                                           <| camp_closed_at := Some now |>) copy_closed
          | _, _ => mret campaign
          end).

(** [get_campaigns_due_for_closing] of [selectors.py] *)
Definition get_campaigns_due_for_closing (now : Z) (db : DB) : gmap Z Campaign :=
  objects_filter (fun c => bool_decide (camp_status c = CampaignStatus.PUBLISHED) &&
    camp_has_deadline c &&
    match camp_deadline c with Some d => d <=? now | None => false end) db.

(** * Offline funding *)

Definition or_default (s dflt : string) : string := str_or s dflt.

(** [ExternalFunding.clean], the instance having no key yet *)
Definition external_funding_clean (x : ExternalFunding) : option validation_error :=
  if bool_decide (xf_status x = ExternalFundingStatus.VOIDED)
  then Some (error_list [new_external_funding_voided]) else None.

Definition record_external_funding (campaign : Campaign) (shares : Z)
    (amount : option Z) (method : ExternalFundingMethod.t) (reference note : string)
    (funded_at recorded_by : option Z) : M ExternalFunding :=
  atomic
    (_ ← raise_if (negb (bool_decide (camp_status campaign ∈
             [CampaignStatus.DRAFT; CampaignStatus.PUBLISHED])))
           (validation_error_of external_funding_campaign_closed);
     _ ← raise_if (shares <? 1)
           (validation_error_of external_funding_shares_not_positive);
     _ ← raise_if (match amount with Some a => a <? 1 | None => false end)
           (validation_error_of external_funding_amount_not_positive);
     locked_campaign ← objects_get (A := Campaign) (camp_id campaign);
     _ ← raise_if (remaining_shares locked_campaign <? shares)
           (validation_error_of
              (external_funding_exceeds_remaining (remaining_shares locked_campaign)));
     now ← timezone_now;
     env ← ask;
     db ← get_state;
     let snapshot_price := camp_share_price locked_campaign in
     let funding := mkExternalFunding 0 (camp_id locked_campaign)
       ExternalFundingStatus.RECORDED shares
       (Some (default (shares * snapshot_price) amount)) (Some snapshot_price) method
       (py_prefix 120 reference) note (default now funded_at) recorded_by "" None
       true 0 0 in
     _ ← match env_external_funding_clean_fields env db funding with
         | Some e => raise (ValidationError e)
         | None => mret tt
         end;
     _ ← match external_funding_clean funding with
         | Some e => raise (ValidationError e)
         | None => mret tt
         end;
     funding ← create (fun i now => funding <| xf_id := i |>
                 <| xf_created_at := now |> <| xf_updated_at := now |>);
     locked_campaign ← sync_campaign_counters locked_campaign;
     _ ← auto_complete_campaign_if_fully_funded locked_campaign;
     mret funding).

Definition void_external_funding (funding : ExternalFunding) (reason : string) :
    M ExternalFunding :=
  atomic
    (locked ← objects_get (A := ExternalFunding) (xf_id funding);
     _ ← raise_if (bool_decide (xf_status locked = ExternalFundingStatus.VOIDED))
           (validation_error_of external_funding_already_voided);
     campaign ← objects_get (A := Campaign) (xf_campaign locked);
     now ← timezone_now;
     let void x := x <| xf_status := ExternalFundingStatus.VOIDED |>
                     <| xf_void_reason := py_prefix 2000 reason |>
                     <| xf_voided_at := Some now |> <| xf_updated_at := now |> in
     _ ← update_row (xf_id locked) void;
     _ ← sync_campaign_counters campaign;
     mret (void locked)).

(** * Gallery *)

Definition next_display_order (cid : Z) (db : DB) : Z :=
  map_fold (fun _ x acc => Z.max (img_display_order x + 1) acc) 0
    (objects_filter (fun x => img_campaign x =? cid) db).

Definition add_campaign_image (campaign : Campaign) (image alt_text : string)
    (display_order : option Z) : M CampaignImage :=
  atomic
    (order ← match display_order with
             | Some o => mret o
             | None => query (next_display_order (camp_id campaign))
             end;
     create (fun i now =>
       mkCampaignImage i (camp_id campaign) image alt_text order true now now)).

Definition delete_campaign_image (image : CampaignImage) : M unit :=
  atomic
    (now ← timezone_now;
     update_row (img_id image)
       (fun row => row <| img_is_active := false |> <| img_updated_at := now |>)).

(** * Consistency *)

Section Sound.
Context {Hbound : Bound}.

Lemma campaign_save_sound c copy env db c' db' :
  core_ok db ->
  (forall row slug price, rows_of db !! camp_id c = Some row ->
     let x := copy (c <| camp_slug := slug |> <| camp_share_price := price |>) row in
     campaign_le row x /\ counters x = counters row /\ camp_total_shares x <= bound (camp_id c)) ->
  campaign_save c copy env db = (Ok c', db') -> sound db db'.
Proof.
  intros Hok Hcopy H.
  apply campaign_save_ok_inv in H as (slug & price & row & _ & Hrow & _ & ->).
  destruct (Hcopy row slug price Hrow) as (Hle & Hc & Hf). by eapply sound_set_campaign.
Qed.

Lemma total_bounded db i (c : Campaign) :
  core_ok db -> rows_of db !! i = Some c -> camp_total_shares c <= bound i.
Proof. intros [_ Hok] Hi. by apply Hok in Hi as (_ & ? & _). Qed.

Lemma create_campaign_sound s t d im n k hd dl v env db c db' :
  core_ok db -> create_campaign s t d im n k hd dl v env db = (Ok c, db') ->
  (forall i (x : Campaign), rows_of db' !! i = Some x -> camp_total_shares x <= bound i) ->
  sound db db'.
Proof.
  intros Hok H Hbnd. unfold create_campaign, validate_campaign_financial_fields in H. comp_run.
  all: match goal with H : campaign_pre_save _ _ _ _ = Some _ |- _ =>
         apply campaign_pre_save_Some in H as (slug & price & -> & _) end.
  all: match goal with H : row_ok _ _ = true |- _ => rename H into Hrok end.
  all: apply sound_add_campaign; [done|done|done|].
  all: split; [|apply Hbnd; rewrite rows_of_add_row; apply lookup_insert_eq].
  all: simpl in Hrok; unfold campaign_row_ok, campaign_checks in Hrok; simpl in Hrok.
  all: rewrite !andb_true_iff, !Z.leb_le in Hrok; simpl; lia.
Qed.

(** The row has the status that the instance shows. *)
Definition status_current (c : Campaign) (db : DB) : Prop :=
  forall row, rows_of db !! camp_id c = Some row -> camp_status row = camp_status c.

(** What a change of the status has to do with the row. *)
Lemma status_save_sound c copy env db c' db' :
  core_ok db ->
  (forall row slug price, rows_of db !! camp_id c = Some row ->
     let x := copy (c <| camp_slug := slug |> <| camp_share_price := price |>) row in
     campaign_le row x /\ counters x = counters row /\ camp_total_shares x = camp_total_shares row) ->
  campaign_save c copy env db = (Ok c', db') -> sound db db'.
Proof.
  intros Hok Hcopy. apply campaign_save_sound; [done|]. intros row slug price Hrow x.
  destruct (Hcopy row slug price Hrow) as (? & ? & Ht). do 2 (split; [done|]).
  unfold x. rewrite Ht. by eapply total_bounded.
Qed.

(** A service that looks at the status of its instance does what it should where
    the row has that status. *)
Lemma publish_campaign_sound c env db c' db' :
  core_ok db -> status_current c db ->
  publish_campaign c env db = (Ok c', db') -> sound db db'.
Proof.
  intros Hok Hc H. unfold publish_campaign in H. comp_run.
  apply negb_false_iff, bool_decide_eq_true in Hc0.
  eapply status_save_sound; [done| |eassumption].
  intros row slug price Hrow. split; [|done]. split; [done|]. right; left. by rewrite (Hc row).
Qed.

Lemma close_campaign_sound c env db c' db' :
  core_ok db -> status_current c db ->
  close_campaign c env db = (Ok c', db') -> sound db db'.
Proof.
  intros Hok Hc H. unfold close_campaign in H. comp_run.
  apply negb_false_iff, bool_decide_eq_true in Hc0.
  eapply status_save_sound; [done| |eassumption].
  intros row slug price Hrow. split; [|done]. split; [done|]. right; right.
  split; [by rewrite (Hc row)|]. set_solver.
Qed.

Lemma close_campaign_due_to_deadline_sound c env db c' db' :
  core_ok db -> status_current c db ->
  close_campaign_due_to_deadline c env db = (Ok c', db') -> sound db db'.
Proof.
  intros Hok Hc H. unfold close_campaign_due_to_deadline in H.
  comp_run; try by apply sound_refl.
  match goal with H : negb (bool_decide _) = false |- _ =>
    apply negb_false_iff, bool_decide_eq_true in H as Hst end.
  eapply status_save_sound; [done| |eassumption].
  intros row slug price Hrow. split; [|done]. split; [done|]. right; right.
  split; [by rewrite (Hc row)|]. set_solver.
Qed.

Lemma delete_campaign_sound c env db u db' :
  core_ok db -> delete_campaign c env db = (Ok u, db') -> sound db db'.
Proof.
  intros Hok H. unfold delete_campaign, soft_delete_campaign_row in H. comp_run.
  eapply status_save_sound; [done| |eassumption].
  intros row slug price Hrow. split; [|done]. split; [done|]. by left.
Qed.

(** ** Edits *)

(** The edited fields are none of the key, the status and the counters. *)
Lemma set_campaign_fields_keep fields : forall c,
  let c' := foldl set_campaign_field c fields in
  camp_id c' = camp_id c /\ camp_status c' = camp_status c /\ counters c' = counters c.
Proof.
  induction fields as [|f fields IH]; intros c; simpl; [done|].
  destruct (IH (set_campaign_field c f)) as (-> & -> & ->). by destruct f.
Qed.

(** An edit writes what it is given, the total of a campaign included, whatever
    is taken of it. *)
Lemma update_campaign_sound c fields env db c' db' :
  core_ok db -> update_campaign c fields env db = (Ok c', db') ->
  (forall i (x : Campaign), rows_of db' !! i = Some x -> camp_total_shares x <= bound i) ->
  sound db db'.
Proof.
  intros Hok H Hbnd. unfold update_campaign in H.
  assert (forall x, campaign_save (foldl set_campaign_field c fields)
    (fun c row => (foldl set_campaign_field row fields)
                    <| camp_share_price := camp_share_price c |>) env db = (Ok x, db') ->
    sound db db') as Hsave.
  { intros x Hrun. apply campaign_save_ok_inv in Hrun as (slug & price & row & _ & Hrow & _ & ->).
    destruct (set_campaign_fields_keep fields row) as (Hid & Hst & Hcs).
    eapply sound_set_campaign; [done|exact Hrow| | |].
    - split; [exact Hid|]. left. exact Hst.
    - exact Hcs.
    - apply Hbnd. rewrite rows_of_set_row. apply lookup_insert_eq. }
  unfold validate_campaign_financial_fields in H.
  comp_run; try (by apply sound_refl); by eapply Hsave.
Qed.

(** ** Offline funding *)

Lemma record_external_funding_ok_inv c n amt m r nt f by_ env db x db' :
  base_ok db -> record_external_funding c n amt m r nt f by_ env db = (Ok x, db') ->
  exists lc c1 db1 c2,
    rows_of db !! camp_id c = Some lc /\ camp_id lc = camp_id c /\
    1 <= n <= remaining_shares lc /\
    xf_id x = next_id (table_of (A := ExternalFunding) db) /\
    xf_campaign x = camp_id c /\ xf_status x = ExternalFundingStatus.RECORDED /\
    xf_shares x = n /\ xf_is_active x = true /\
    xf_amount x = Some (default (n * camp_share_price lc) amt) /\
    sync_campaign_counters lc env (add_row x db) = (Ok c1, db1) /\
    auto_complete_campaign_if_fully_funded c1 env db1 = (Ok c2, db').
Proof.
  intros Hb H. unfold record_external_funding in H. comp_run.
  all: pose proof (campaign_key _ _ _ Hb Hrow) as Hid.
  all: repeat match goal with H : (_ <? _) = false |- _ => apply Z.ltb_ge in H end.
  all: do 4 eexists; split; [exact Hrow|]; split; [exact Hid|]; split; [lia|].
  all: simpl; do 6 (split; [done|]).
  all: split; eassumption.
Qed.

(** [record_external_funding] takes shares the campaign still has. *)
Lemma record_external_funding_sound c n amt m r nt f by_ env db x db' :
  core_ok db -> record_external_funding c n amt m r nt f by_ env db = (Ok x, db') ->
  sound db db'.
Proof.
  intros Hok H. pose proof Hok as [Hb Hc]. apply record_external_funding_ok_inv in H
    as (lc & c1 & db1 & c2 & Hlc & Hid & Hn & Hxid & Hxc & Hst & Hxs & Hxa & _ & Hsync & Hauto);
    [|done].
  assert (table_wf (table_of (A := ExternalFunding) db)) as Hwf by apply Hb.
  assert (base_ok (add_row x db)) as Hb1.
  { apply base_add_funding; [done|done|rewrite Hxc; by eexists|lia]. }
  eapply sound_auto_complete_synced; [exact Hsync| |exact Hb1| |exact Hauto].
  2:{ intros row. db_simpl. rewrite Hid. congruence. }
  eapply (sound_resync (camp_id c)); [by split|done|..|exact Hid|exact Hsync].
  - split; try (apply evolves_same_table; try typeclasses eauto; by db_simpl).
    apply evolves_add_row; [typeclasses eauto|apply Hb].
  - by db_simpl.
  - intros k Hk. apply true_counters_add_funding; [done|]. unfold recorded_funding_of.
    by rewrite Hxc, (proj2 (Z.eqb_neq _ _)).
  - intros row Hrow. rewrite Hlc in Hrow. injection Hrow as <-.
    rewrite (reserved_shares_same_rows db) by (by db_simpl).
    destruct (Hc _ _ Hlc) as (Heq & Htot & _). unfold counters, true_counters in Heq.
    injection Heq as Hps _ _ Hxsh _.
    rewrite external_shares_add by done. unfold recorded_funding_of.
    rewrite Hxa, Hxc, Hst, Hxs, Z.eqb_refl. simpl.
    unfold remaining_shares, funded_shares in Hn. lia.
Qed.

Lemma void_external_funding_sound x why env db x' db' :
  core_ok db -> void_external_funding x why env db = (Ok x', db') -> sound db db'.
Proof.
  intros [Hb Hok] H. unfold void_external_funding in H. comp_run. rename a into lx.
  pose proof (campaign_key _ _ _ Hb Hrow0) as Hcid.
  assert (xf_id lx = xf_id x) as Hid by (by apply Hb in Hrow as [? _]).
  rewrite Hid in *. simplify_eq. apply bool_decide_eq_false in Hc.
  match goal with H : sync_campaign_counters _ _ (set_row _ ?y _) = _ |- _ =>
    set (vx := y) in * end.
  assert (funding_le lx vx) as Hle.
  { repeat split; try done. right. by destruct (xf_status lx). }
  eapply (sound_resync (xf_campaign lx)); [by split|..|exact Hcid|eassumption].
  - by eapply base_set_funding.
  - split; try (apply evolves_same_table; try typeclasses eauto; by db_simpl).
    by eapply evolves_set_row; [typeclasses eauto|..].
  - by db_simpl.
  - intros k Hk. eapply true_counters_set_funding; [exact Hrow|..];
      unfold recorded_funding_of; simpl; by rewrite (proj2 (Z.eqb_neq _ _)).
  - intros row Hr. pose proof (counters_ok_capacity _ _ _ Hok Hr).
    rewrite (reserved_shares_same_rows db) by (by db_simpl).
    rewrite (external_shares_set _ _ _ lx) by done.
    destruct (fundings_ok _ Hb _ _ Hrow) as [_ Hpos].
    unfold recorded_funding_of at 2. simpl. rewrite !andb_false_r.
    destruct (xf_is_active lx && _); simpl; lia.
Qed.

End Sound.
