(* ===== verification/Providers.v ===== *)
(** Payment gateways: [src/apps/madadkar/payment_providers/].

    [PaymentProvider] is the abstract base class of [base.py] as a record of
    operations, [LawfulProvider] the contract its documentation states: a
    provider writes nothing to the database, lets no exception out, and
    reports on success the amount it was asked to verify.  The sandbox and the
    Zarinpal provider satisfy it. *)

From S2P Require Import Prelude Python Choices Models NotificationModels Orm World.

From Stdlib Require Import Ascii.

(** * [base.py] *)

Record PaymentRequestResult : Type := mkRequestResult {
  prr_success : bool;
  prr_authority : string;
  prr_gateway_url : string;
  prr_gateway_status : string;
  prr_error_message : string;
  prr_extra : list (string * json);
}.

Record PaymentVerifyResult : Type := mkVerifyResult {
  pvr_success : bool;
  pvr_already_verified : bool;
  pvr_ref_id : string;
  pvr_verified_amount : Z;
  pvr_gateway_status : string;
  pvr_error_message : string;
  pvr_extra : list (string * json);
}.

Record PaymentProvider : Type := mkProvider {
  provider_name : string;
  provider_request_payment : Z -> string -> string -> string -> string ->
    list (string * json) -> M PaymentRequestResult;
  provider_verify_payment : string -> Z -> M PaymentVerifyResult;
}.

Class LawfulProvider (p : PaymentProvider) : Prop := {
  provider_request_ok : forall amount description callback mobile email metadata env db,
    exists r, provider_request_payment p amount description callback mobile email metadata
                env db = (Ok r, db) /\
              (prr_success r = true -> prr_authority r <> EmptyString);
  provider_verify_ok : forall authority amount env db,
    exists r, provider_verify_payment p authority amount env db = (Ok r, db) /\
              (pvr_success r = true -> pvr_verified_amount r = amount);
}.

(** * [sandbox.py] *)

Section Sandbox.
Local Open Scope string_scope.

Definition SANDBOX_NAME : string := "sandbox".
Definition SANDBOX_AUTHORITY_PREFIX : string := "SBX-".
Definition SANDBOX_REF_PREFIX : string := "SBXREF-".
Definition SANDBOX_CONFIRM_MARKER : string := "SANDBOX-CONFIRMED".

Definition is_slash (a : Ascii.ascii) : bool := Ascii.eqb a "/"%char.

Definition build_sandbox_gateway_url (cfg : Settings) (authority : string) : string :=
  py_rstrip_by is_slash (MADADKAR_PAYMENT_CALLBACK_BASE_URL cfg)
    +:+ "/api/v1/madadkar/payment/sandbox/" +:+ authority +:+ "/".

Definition sandbox_request_payment (amount : Z)
    (description callback_url mobile email : string) (metadata : list (string * json)) :
    M PaymentRequestResult :=
  env ← ask;
  let authority := SANDBOX_AUTHORITY_PREFIX +:+ env_token_urlsafe env 24 in
  mret (mkRequestResult true authority
    (build_sandbox_gateway_url (env_settings env) authority) "100" ""
    [("description", JStr description); ("mobile", JStr mobile);
     ("email", JStr email); ("metadata", JObj metadata)]).

Definition sandbox_unconfirmed_message : string :=
  "پرداخت sandbox هنوز توسط کاربر در صفحهٔ درگاهِ آزمایشی تأیید نشده است. برای شبیه‌سازی پرداخت موفق، ابتدا باید gateway_url باز شده و دکمهٔ «تأیید پرداخت» زده شود.".

Definition sandbox_verify_payment (authority : string) (amount : Z) :
    M PaymentVerifyResult :=
  marker ← query (fun db => pay_gateway_status <$> qs_first (objects_filter
    (fun p => str_eqb (pay_authority p) authority &&
              str_eqb (pay_gateway_name p) SANDBOX_NAME) db));
  if negb (bool_decide (marker = Some SANDBOX_CONFIRM_MARKER))
  then mret (mkVerifyResult false false "" 0 "" sandbox_unconfirmed_message [])
  else
    env ← ask;
    let ref_id := SANDBOX_REF_PREFIX +:+ env_token_urlsafe env 20 in
    mret (mkVerifyResult true false ref_id amount "100" "" []).

Definition SandboxProvider : PaymentProvider :=
  mkProvider SANDBOX_NAME sandbox_request_payment sandbox_verify_payment.

End Sandbox.

(** * [zarinpal.py] *)

Section Zarinpal.
Local Open Scope string_scope.

Definition ZARINPAL_NAME : string := "zarinpal".
Definition REQUEST_URL : string := "https://api.zarinpal.com/pg/v4/payment/request.json".
Definition VERIFY_URL : string := "https://api.zarinpal.com/pg/v4/payment/verify.json".
Definition STARTPAY_URL : string := "https://www.zarinpal.com/pg/StartPay/".
Definition SANDBOX_REQUEST_URL : string :=
  "https://sandbox.zarinpal.com/pg/v4/payment/request.json".
Definition SANDBOX_VERIFY_URL : string :=
  "https://sandbox.zarinpal.com/pg/v4/payment/verify.json".
Definition SANDBOX_STARTPAY_URL : string := "https://sandbox.zarinpal.com/pg/StartPay/".
Definition REQUEST_TIMEOUT_SECONDS : Z := 10.
Definition VERIFY_TIMEOUT_SECONDS : Z := 15.
Definition SUCCESS_CODE : string := "100".
Definition ALREADY_VERIFIED_CODE : string := "101".
Definition RIAL_PER_TOMAN : Z := 10.

(** The provider object: the settings read by [__init__]. *)
Record Zarinpal : Type := mkZarinpal {
  zp_merchant_id : string;
  zp_is_sandbox : bool;
}.

Definition zarinpal_init : M Zarinpal :=
  cfg ← settings;
  _ ← raise_if (negb (str_true (MADADKAR_ZARINPAL_MERCHANT_ID cfg)))
        ZarinpalNotConfiguredError;
  mret (mkZarinpal (MADADKAR_ZARINPAL_MERCHANT_ID cfg) (MADADKAR_ZARINPAL_SANDBOX cfg)).

Definition to_rial (amount_toman : Z) : Z := amount_toman * RIAL_PER_TOMAN.

Definition request_url (zp : Zarinpal) : string :=
  if zp_is_sandbox zp then SANDBOX_REQUEST_URL else REQUEST_URL.
Definition verify_url (zp : Zarinpal) : string :=
  if zp_is_sandbox zp then SANDBOX_VERIFY_URL else VERIFY_URL.
Definition startpay_url (zp : Zarinpal) (authority : string) : string :=
  (if zp_is_sandbox zp then SANDBOX_STARTPAY_URL else STARTPAY_URL) +:+ authority.

Definition build_request_metadata (mobile email : string) (metadata : list (string * json)) :
    list (string * json) :=
  let result := if str_true mobile then [("mobile", JStr mobile)] else [] in
  let result := if str_true email then assoc_set "email" (JStr email) result else result in
  foldl (fun acc kv => assoc_set kv.1 kv.2 acc) result metadata.

(** [_post_json]: the decoded object and an error text, empty when valid. *)
Definition post_json (url : string) (payload : json) (timeout : Z) :
    M (list (string * json) * string) :=
  env ← ask;
  mret match env_http_post env url payload timeout with
       | HttpTimeout => ([], "درگاه پرداخت در زمان مقرر پاسخ نداد.")
       | HttpRequestException => ([], "ارتباط با درگاه پرداخت برقرار نشد.")
       | HttpResponse status body =>
           if negb (status =? 200)%Z
           then ([], "درگاه پرداخت پاسخ نامعتبر HTTP " +:+ pretty status +:+ " برگرداند.")
           else match body with
                | None => ([], "درگاه پرداخت پاسخ JSON نامعتبر برگرداند.")
                | Some (JObj o) => (o, "")
                | Some _ => ([], "درگاه پرداخت پاسخ غیرمنتظره برگرداند.")
                end
       end.

Definition extract_data (payload : list (string * json)) : list (string * json) :=
  match assoc_get "data" payload with Some (JObj d) => d | _ => [] end.

Definition extract_code (repr : json -> string) (data : list (string * json)) : string :=
  match assoc_get "code" data with
  | None => ""
  | Some JNull => ""
  | Some v => py_str repr v
  end.

(** [a or b] on JSON values *)
Definition json_or (a b : json) : json := if json_true a then a else b.

Definition get_or_none (key : string) (o : list (string * json)) : json :=
  opt_json (assoc_get key o).

Definition extract_error_message (repr : json -> string)
    (payload : list (string * json)) : string :=
  let from_errors :=
    match assoc_get "errors" payload with
    | Some (JObj errors) =>
        let message := json_or (get_or_none "message" errors) (get_or_none "code" errors) in
        if json_true message then Some (py_str repr message)
        else match assoc_get "validations" errors with
             | Some (JArr (v :: _)) => Some (py_str repr v)
             | _ => None
             end
    | Some (JArr (first :: _)) =>
        match first with
        | JObj o => Some (py_str repr
            (json_or (json_or (get_or_none "message" o) (get_or_none "code" o)) first))
        | _ => Some (py_str repr first)
        end
    | _ => None
    end in
  match from_errors with
  | Some m => m
  | None =>
      match assoc_get "data" payload with
      | Some (JObj d) =>
          if json_true (get_or_none "message" d)
          then py_str repr (get_or_none "message" d)
          else "درگاه پرداخت درخواست را رد کرد."
      | _ => "درگاه پرداخت درخواست را رد کرد."
      end
  end.

(** [str(data.get(key) or "")] *)
Definition data_str (repr : json -> string) (key : string) (data : list (string * json)) :
    string :=
  py_str repr (json_or (get_or_none key data) (JStr "")).

Definition zarinpal_request_payment (zp : Zarinpal) (amount : Z)
    (description callback_url mobile email : string) (metadata : list (string * json)) :
    M PaymentRequestResult :=
  env ← ask;
  let request_metadata := build_request_metadata mobile email metadata in
  let payload := app
    [("merchant_id", JStr (zp_merchant_id zp)); ("amount", JInt (to_rial amount));
     ("description", JStr description); ("callback_url", JStr callback_url)]
    match request_metadata with
    | [] => []
    | _ => [("metadata", JObj request_metadata)]
    end in
  r ← post_json (request_url zp) (JObj payload) REQUEST_TIMEOUT_SECONDS;
  let '(response_payload, transport_error) := r in
  if str_true transport_error
  then mret (mkRequestResult false "" "" "transport_error" transport_error [])
  else
    let data := extract_data response_payload in
    let code := extract_code (env_repr env) data in
    let authority := data_str (env_repr env) "authority" data in
    if str_eqb code SUCCESS_CODE && str_true authority
    then mret (mkRequestResult true authority (startpay_url zp authority) code ""
                 [("raw_data", JObj data)])
    else mret (mkRequestResult false "" "" code
                 (extract_error_message (env_repr env) response_payload)
                 [("raw_data", JObj data)]).

Definition zarinpal_verify_payment (zp : Zarinpal) (authority : string) (amount : Z) :
    M PaymentVerifyResult :=
  env ← ask;
  let payload :=
    [("merchant_id", JStr (zp_merchant_id zp)); ("authority", JStr authority);
     ("amount", JInt (to_rial amount))] in
  r ← post_json (verify_url zp) (JObj payload) VERIFY_TIMEOUT_SECONDS;
  let '(response_payload, transport_error) := r in
  if str_true transport_error
  then mret (mkVerifyResult false false "" 0 "transport_error" transport_error [])
  else
    let data := extract_data response_payload in
    let code := extract_code (env_repr env) data in
    if bool_decide (code ∈ [SUCCESS_CODE; ALREADY_VERIFIED_CODE])
    then mret (mkVerifyResult true (str_eqb code ALREADY_VERIFIED_CODE)
                 (data_str (env_repr env) "ref_id" data) amount code ""
                 [("raw_data", JObj data)])
    else mret (mkVerifyResult false false "" 0 code
                 (extract_error_message (env_repr env) response_payload)
                 [("raw_data", JObj data)]).

Definition ZarinpalProvider (zp : Zarinpal) : PaymentProvider :=
  mkProvider ZARINPAL_NAME (zarinpal_request_payment zp) (zarinpal_verify_payment zp).

End Zarinpal.

(** * [__init__.py] *)

Definition get_payment_provider (name : option string) : M PaymentProvider :=
  cfg ← settings;
  let configured := MADADKAR_PAYMENT_PROVIDER cfg in
  let provider_name := py_lower (py_strip
    (match name with Some n => str_or n configured | None => configured end)) in
  if str_eqb provider_name SANDBOX_NAME then mret SandboxProvider
  else if str_eqb provider_name ZARINPAL_NAME
  then zp ← zarinpal_init; mret (ZarinpalProvider zp)
  else raise (UnknownPaymentProviderError provider_name).

(** * The contract *)

#[export] Instance sandbox_lawful : LawfulProvider SandboxProvider.
Proof.
  split.
  - intros amount description callback mobile email metadata env db.
    simpl. unfold sandbox_request_payment. rewrite bind_unfold. simpl.
    eexists. split; [reflexivity|]. done.
  - intros authority amount env db. simpl. unfold sandbox_verify_payment.
    rewrite bind_unfold. simpl. case_bool_decide as Hm; simpl.
    + eexists. split; [reflexivity|]. done.
    + eexists. split; [reflexivity|]. done.
Qed.

Lemma post_json_ok url payload timeout env db :
  exists o err, post_json url payload timeout env db = (Ok (o, err), db).
Proof.
  unfold post_json. rewrite bind_unfold. simpl. repeat case_match; by do 2 eexists.
Qed.

#[export] Instance zarinpal_lawful zp : LawfulProvider (ZarinpalProvider zp).
Proof.
  split.
  - intros amount description callback mobile email metadata env db. simpl.
    unfold zarinpal_request_payment. rewrite bind_unfold. simpl.
    edestruct post_json_ok as (o & err & Hp). erewrite bind_ok by exact Hp.
    cbv beta iota zeta. destruct (str_true err); [eexists; split; [reflexivity|done]|].
    destruct (str_eqb _ _ && _) eqn:Hc; eexists; (split; [reflexivity|]); [|done].
    simpl. intros _ Hempty. apply andb_true_iff in Hc as [_ Hc].
    unfold str_true in Hc. rewrite negb_true_iff, bool_decide_eq_false in Hc. done.
  - intros authority amount env db. simpl.
    unfold zarinpal_verify_payment. rewrite bind_unfold. simpl.
    edestruct post_json_ok as (o & err & Hp). erewrite bind_ok by exact Hp.
    cbv beta iota zeta. destruct (str_true err); [eexists; split; [reflexivity|done]|].
    case_bool_decide; eexists; (split; [reflexivity|done]).
Qed.

(** Whatever name a payment carries, the provider it resolves to keeps the
    contract. *)
Lemma get_payment_provider_ok_inv name p env db db' :
  get_payment_provider name env db = (Ok p, db') -> db' = db /\ LawfulProvider p.
Proof.
  unfold get_payment_provider. intros H. comp_inv H.
  repeat (case_match; comp_inv H1); unfold zarinpal_init in *.
  all: repeat match goal with H : _ = (Ok _, _) |- _ => comp_inv H end.
  all: split; [done|typeclasses eauto].
Qed.
