(* ===== verification/Notifications.v ===== *)
(** The notification engine and the activity timeline it feeds:
    [src/apps/notifications/services.py], [domain.py], [providers.py],
    [models.render_template_string] and [src/apps/activity/services.py]. *)

From S2P Require Import Prelude Python Choices Models NotificationModels Orm World.
From Stdlib Require Import Ascii.

Section Activity.
Local Open Scope string_scope.

(** [_EVENT_VERB_MAP.get(event_type, ActivityVerb.NOTIFIED)] *)
Definition event_verb (event_type : string) : ActivityVerb.t :=
  default ActivityVerb.NOTIFIED (assoc_get event_type
    [("support.reply", ActivityVerb.REPLIED);
     ("support.resolved", ActivityVerb.RESOLVED);
     ("public_report.status_changed", ActivityVerb.UPDATED);
     ("tabyin.submission_approved", ActivityVerb.APPROVED);
     ("tabyin.submission_rejected", ActivityVerb.REJECTED);
     ("madadkar.payment_success", ActivityVerb.PAID);
     ("lms.certificate_issued", ActivityVerb.ISSUED)]).

(** [s.split("_", 1)[0]] *)
Fixpoint before_underscore (s : string) : string :=
  match s with
  | EmptyString => EmptyString
  | String a s' => if Ascii.eqb a "_"%char then EmptyString else String a (before_underscore s')
  end.

Definition infer_app_label (event_type aggregate_type : string) : string :=
  let starts p := String.prefix p event_type in
  if starts "support." then "support_desk"
  else if starts "tabyin." then "tabyin"
  else if starts "madadkar." then "madadkar"
  else if starts "lms." then "lms"
  else if starts "kindness." then "kindness_wall"
  else if starts "public_report." then "public_reports"
  else if starts "r4j." then "r4j"
  else if str_true aggregate_type then before_underscore aggregate_type
  else "platform".

(** [str(payload.get(k1) or payload.get(k2) or ... or dflt)] *)
Definition payload_text (repr : json -> string) (payload : list (string * json))
    (keys : list string) (dflt : string) : string :=
  match list_find (fun k => json_true (opt_json (assoc_get k payload)) = true) keys with
  | Some (_, k) => py_str repr (opt_json (assoc_get k payload))
  | None => dflt
  end.

(** [build_activity_from_notification_event], the key and times to be set *)
Definition build_activity_from_notification_event (repr : json -> string)
    (event : NotificationEvent) (recipient : Z) (i now : Z) : UserActivity :=
  let payload := nev_payload event in
  let title := payload_text repr payload ["title"] (nev_event_type event) in
  let summary := payload_text repr payload ["message"; "subject"] "" in
  mkUserActivity i recipient (nev_actor event) (nev_event_type event)
    (infer_app_label (nev_event_type event) (nev_aggregate_type event))
    (event_verb (nev_event_type event)) (py_prefix 260 title) summary
    (nev_aggregate_type event) (nev_aggregate_id event) ActivityVisibility.PRIVATE
    (JObj (foldl (fun acc kv => assoc_set kv.1 kv.2 acc)
             [("notification_event_id", JInt (nev_id event))] payload))
    true now now.

Definition record_activities_from_notification_event (event : NotificationEvent)
    (recipients : list Z) : M unit :=
  env ← ask;
  for_fold (fun _ recipient =>
    _ ← create (build_activity_from_notification_event (env_repr env) event recipient);
    mret tt) tt recipients.

End Activity.

Section Events.
Local Open Scope string_scope.

(** [_dedupe_recipients]: users are identified by their key. *)
Fixpoint dedupe_from (seen : list Z) (recipients : list Z) : list Z :=
  match recipients with
  | [] => []
  | r :: rs => if bool_decide (r ∈ seen) then dedupe_from seen rs
               else r :: dedupe_from (r :: seen) rs
  end.
Definition dedupe_recipients (recipients : list Z) : list Z := dedupe_from [] recipients.

(** [list(dict.fromkeys(channels))] *)
Fixpoint dedupe_channels_from (seen channels : list NotificationChannel.t) :
    list NotificationChannel.t :=
  match channels with
  | [] => []
  | c :: cs => if bool_decide (c ∈ seen) then dedupe_channels_from seen cs
               else c :: dedupe_channels_from (c :: seen) cs
  end.
Definition dedupe_channels (channels : list NotificationChannel.t) :
    list NotificationChannel.t := dedupe_channels_from [] channels.

(** [render_template_string]; a template [format_map] rejects raises. *)
Definition render_template_string (template : string) (context : list (string * json)) :
    M string :=
  env ← ask;
  match env_format_map env template context with
  | Some s => mret s
  | None => raise ValueError
  end.

(** [(code, channel)] is unique, so at most one active template matches. *)
Definition active_template (event_type : string) (channel : NotificationChannel.t)
    (db : DB) : option NotificationTemplate :=
  qs_first (objects_filter (fun t => str_eqb (ntp_code t) event_type &&
    bool_decide (ntp_channel t = channel)) db).

Definition render_notification (event_type : string) (channel : NotificationChannel.t)
    (payload : list (string * json)) (template : option NotificationTemplate) :
    M (string * string) :=
  found ← query (active_template event_type channel);
  match match template with Some t => Some t | None => found end with
  | Some t =>
      subject ← render_template_string (ntp_subject_template t) payload;
      body ← render_template_string (ntp_body_template t) payload;
      mret (subject, body)
  | None =>
      env ← ask;
      let title := payload_text (env_repr env) payload ["title"] event_type in
      mret (title, payload_text (env_repr env) payload ["message"] title)
  end.

(** The pairs [(user, channel)] the users switched off for the event type. *)
Definition muted (event_type : string) (user : Z) (channel : NotificationChannel.t)
    (db : DB) : bool :=
  qs_exists (objects_filter (fun p => (npr_user p =? user)%Z &&
    str_eqb (npr_event_type p) event_type && bool_decide (npr_channel p = channel) &&
    negb (npr_enabled p)) db).

(** [rendered]: every channel with its subject and body *)
Definition render_channels (event_type : string) (payload : list (string * json))
    (channels : list NotificationChannel.t) :
    M (list (NotificationChannel.t * (string * string))) :=
  for_fold (fun acc channel =>
    template ← query (active_template event_type channel);
    text ← render_notification event_type channel payload template;
    mret (acc ++ [(channel, text)])%list) [] channels.

(** The deliveries to create, recipient by recipient and channel by channel. *)
Definition planned_deliveries (event_type : string) (recipients : list Z)
    (rendered : list (NotificationChannel.t * (string * string))) (db : DB) :
    list (Z * NotificationChannel.t * (string * string)) :=
  filter (fun d => muted event_type d.1.1 d.1.2 db = false)
    (r ← recipients; (fun ct => (r, ct.1, ct.2)) <$> rendered).

Definition create_delivery (event : NotificationEvent)
    (d : Z * NotificationChannel.t * (string * string)) : M NotificationDelivery :=
  create (fun i now => mkNotificationDelivery i (nev_id event) d.1.1 d.1.2
    NotificationDeliveryStatus.PENDING d.2.1 d.2.2 "" "" "" None None true now now).

Definition create_notification_event (event_type : string) (recipients : list Z)
    (channels : list NotificationChannel.t) (payload : list (string * json))
    (actor : option Z) (aggregate_type aggregate_id : string)
    (priority : NotificationPriority.t) : M NotificationEvent :=
  atomic
    (env ← ask;
     let channel_list := dedupe_channels channels in
     let recipient_list := dedupe_recipients recipients in
     event ← create (fun i now => mkNotificationEvent i (env_uuid4 env) event_type
       aggregate_type aggregate_id actor payload priority
       NotificationEventStatus.PENDING None 0 None "" true now now);
     if bool_decide (recipient_list = []) || bool_decide (channel_list = [])
     then mret event
     else
       before ← get_state;
       rendered ← render_channels event_type payload channel_list;
       let deliveries := planned_deliveries event_type recipient_list rendered before in
       if bool_decide (deliveries = []) then mret event
       else
         _ ← for_fold (fun _ d => _ ← create_delivery event d; mret tt) tt deliveries;
         _ ← record_activities_from_notification_event event deliveries.*1.*1;
         mret event).

(** [_default_channels] of [domain.py] *)
Definition default_channels (cfg : Settings) (priority : NotificationPriority.t) :
    list NotificationChannel.t :=
  app [NotificationChannel.IN_APP]
    (app (if NOTIFICATIONS_EMAIL_ENABLED cfg then [NotificationChannel.EMAIL] else [])
         (if bool_decide (priority = NotificationPriority.URGENT)
             && NOTIFICATIONS_SMS_ENABLED cfg
          then [NotificationChannel.SMS] else [])).

(** [emit_domain_notification]: the event is created in the caller's
    transaction; its dispatch is registered for after the commit and lets no
    exception out, so it is not a step of the caller. *)
Definition emit_domain_notification (event_type : string) (recipient : Z)
    (payload : list (string * json)) (actor : option Z)
    (aggregate_type aggregate_id : string) (channels : list NotificationChannel.t)
    (priority : NotificationPriority.t) : M NotificationEvent :=
  cfg ← settings;
  let selected_channels :=
    match channels with [] => default_channels cfg priority | _ => channels end in
  create_notification_event event_type [recipient] selected_channels payload actor
    aggregate_type aggregate_id priority.

End Events.

(** * Dispatch *)

Record NotificationDeliveryResult : Type := mkDeliveryResult {
  ndr_success : bool;
  ndr_provider : string;
  ndr_external_id : string;
  ndr_error_message : string;
}.

(** [_recipient_address] *)
Definition recipient_address (env : Env) (users : gmap Z User)
    (event : NotificationEvent) (d : NotificationDelivery) : string :=
  let user := users !! ndl_recipient d in
  match ndl_channel d with
  | NotificationChannel.EMAIL => default EmptyString (u ← user; usr_email u)
  | NotificationChannel.SMS => default EmptyString (u ← user; usr_phone_number u)
  | NotificationChannel.WEBHOOK =>
      match assoc_get "webhook_url" (nev_payload event) with
      | Some v => py_str (env_repr env) v
      | None => EmptyString
      end
  | NotificationChannel.IN_APP => pretty (ndl_recipient d)
  end.

(** [_send_delivery] with the providers of [providers.py] *)
Definition send_delivery (env : Env) (users : gmap Z User)
    (event : NotificationEvent) (d : NotificationDelivery) : NotificationDeliveryResult :=
  let to := recipient_address env users event d in
  match ndl_channel d with
  | NotificationChannel.IN_APP => mkDeliveryResult true "in_app" "" ""
  | NotificationChannel.EMAIL =>
      match env_send_text_email env (ndl_subject d) (ndl_body d) to with
      | Some e => mkDeliveryResult false "django_email" "" e
      | None => mkDeliveryResult true "django_email" "" ""
      end
  | NotificationChannel.SMS =>
      match env_send_sms env to (py_prefix 120 (ndl_body d)) with
      | Some e => mkDeliveryResult false "sms" "" e
      | None => mkDeliveryResult true "sms" "" ""
      end
  | NotificationChannel.WEBHOOK =>
      mkDeliveryResult false "webhook_noop" "" "webhook_provider_not_configured"
  end.

(** The fields [bulk_update] writes for one delivery. *)
Definition delivery_result_row (r : NotificationDeliveryResult) (now : Z)
    (d : NotificationDelivery) : NotificationDelivery :=
  let d := d <| ndl_provider := ndr_provider r |>
             <| ndl_external_id := ndr_external_id r |> in
  if ndr_success r
  then d <| ndl_status := NotificationDeliveryStatus.SENT |> <| ndl_sent_at := Some now |>
  else d <| ndl_status := NotificationDeliveryStatus.FAILED |>
         <| ndl_error_message := ndr_error_message r |>.

Definition dispatch_status (sent failed : Z) : NotificationEventStatus.t :=
  if failed =? 0 then NotificationEventStatus.SENT
  else if negb (sent =? 0) then NotificationEventStatus.PARTIAL
  else NotificationEventStatus.FAILED.

Definition pending_deliveries (event : NotificationEvent) (db : DB) :
    list NotificationDelivery :=
  qs_list (filter (fun kd => ndl_event kd.2 = nev_id event /\
    ndl_status kd.2 = NotificationDeliveryStatus.PENDING)
    (rows_of (A := NotificationDelivery) db)).

Definition dispatch_event (event : NotificationEvent) : M NotificationEvent :=
  env ← ask;
  let now := env_now env in
  let event := event <| nev_status := NotificationEventStatus.PROCESSING |>
                     <| nev_attempt_count := nev_attempt_count event + 1 |> in
  _ ← atomic (update_row (nev_id event) (fun row =>
        row <| nev_status := nev_status event |>
            <| nev_attempt_count := nev_attempt_count event |>
            <| nev_updated_at := now |>));
  pending ← query (pending_deliveries event);
  db ← get_state;
  let results := (fun d => (d, send_delivery env (users db) event d)) <$> pending in
  let sent := Z.of_nat (length (filter (fun dr => ndr_success dr.2 = true) results)) in
  let failed := Z.of_nat (length (filter (fun dr => ndr_success dr.2 = false) results)) in
  atomic
    (_ ← for_fold (fun _ dr =>
           update_row (ndl_id dr.1) (fun row =>
             let d := delivery_result_row dr.2 now dr.1 in
             row <| ndl_provider := ndl_provider d |>
                 <| ndl_external_id := ndl_external_id d |>
                 <| ndl_status := ndl_status d |>
                 <| ndl_sent_at := ndl_sent_at d |>
                 <| ndl_error_message := ndl_error_message d |>
                 <| ndl_updated_at := ndl_updated_at d |>)) tt results;
     let event := event <| nev_status := dispatch_status sent failed |>
                        <| nev_processed_at := Some now |> in
     _ ← update_row (nev_id event) (fun row =>
           row <| nev_status := nev_status event |>
               <| nev_processed_at := nev_processed_at event |>
               <| nev_updated_at := now |>);
     mret event).

(** * Reading and preferences *)

Definition mark_delivery_read (delivery : NotificationDelivery) (user : Z) :
    M NotificationDelivery :=
  atomic
    (_ ← raise_if (negb (ndl_recipient delivery =? user)) NotificationServiceError;
     now ← timezone_now;
     let read d := d <| ndl_status := NotificationDeliveryStatus.READ |>
                     <| ndl_read_at := Some now |> <| ndl_updated_at := now |> in
     _ ← update_row (ndl_id delivery) read;
     mret (read delivery)).

Definition set_preference (user : Z) (event_type : string)
    (channel : NotificationChannel.t) (enabled : bool) : M NotificationPreference :=
  atomic
    (found ← query (fun db => qs_first (objects_filter (fun p =>
       (npr_user p =? user) && str_eqb (npr_event_type p) event_type &&
       bool_decide (npr_channel p = channel)) db));
     now ← timezone_now;
     match found with
     | Some p =>
         let set q := q <| npr_enabled := enabled |> <| npr_updated_at := now |> in
         _ ← update_row (npr_id p) set;
         mret (set p)
     | None =>
         create (fun i now =>
           mkNotificationPreference i user event_type channel enabled true now now)
     end).

(** [_preference_enabled] *)
Definition preference_enabled (user : Z) (event_type : string)
    (channel : NotificationChannel.t) (db : DB) : bool :=
  match qs_first (objects_filter (fun p =>
    (npr_user p =? user) && str_eqb (npr_event_type p) event_type &&
    bool_decide (npr_channel p = channel)) db) with
  | None => true
  | Some p => npr_enabled p
  end.

(** * Lemmas *)

Lemma render_template_string_frame t c : moves same_core (render_template_string t c).
Proof. unfold render_template_string. solve_moves. Qed.
#[export] Hint Resolve render_template_string_frame : moves.

Lemma render_notification_frame et ch pl t :
  moves same_core (render_notification et ch pl t).
Proof. unfold render_notification. solve_moves. Qed.
#[export] Hint Resolve render_notification_frame : moves.

Lemma create_notification_event_frame et rs cs pl ac at_ ai pr :
  moves same_core (create_notification_event et rs cs pl ac at_ ai pr).
Proof.
  unfold create_notification_event, render_channels, create_delivery,
    record_activities_from_notification_event. solve_moves.
Qed.
#[export] Hint Resolve create_notification_event_frame : moves.

Lemma emit_domain_notification_frame et r pl ac at_ ai cs pr :
  moves same_core (emit_domain_notification et r pl ac at_ ai cs pr).
Proof. unfold emit_domain_notification. solve_moves. Qed.

Lemma dispatch_event_frame e : moves same_core (dispatch_event e).
Proof. unfold dispatch_event. solve_moves. Qed.

Lemma mark_delivery_read_frame d u : moves same_core (mark_delivery_read d u).
Proof. unfold mark_delivery_read. solve_moves. Qed.

Lemma set_preference_frame u et c e : moves same_core (set_preference u et c e).
Proof. unfold set_preference. solve_moves. Qed.
#[export] Hint Resolve emit_domain_notification_frame dispatch_event_frame
  mark_delivery_read_frame set_preference_frame : moves.
