(* ===== verification/Ledger.v ===== *)
(** The payment ledger: [_record_payment_event] of
    [src/apps/madadkar/services.py] and the operations [PaymentEvent] and its
    query set refuse ([src/apps/madadkar/models.py]). *)

From S2P Require Import Prelude Python Choices Models NotificationModels Orm World.

(** [_record_payment_event]: [payment] is the instance at hand. *)
Definition record_payment_event (payment : Payment) (event_kind : PaymentEventKind.t)
    (previous_status new_status : option PaymentStatus.t)
    (metadata : list (string * json)) : M PaymentEvent :=
  create (fun i now => mkPaymentEvent i (pay_id payment) event_kind previous_status
    new_status (pay_amount payment) (pay_gateway_status payment) (pay_ref_id payment)
    (JObj metadata) true now now).

(** [PaymentEvent.save]: [adding] tells an instance not yet stored. *)
Definition payment_event_save (event : PaymentEvent) (adding : bool) : M PaymentEvent :=
  if negb (ev_id event =? 0) && negb adding then raise PermissionError
  else create (fun i now => event <| ev_id := i |> <| ev_created_at := now |>
                                  <| ev_updated_at := now |>).

Definition payment_event_delete (event : PaymentEvent) : M unit := raise PermissionError.
Definition payment_event_soft_delete (event : PaymentEvent) : M unit := raise PermissionError.
Definition payment_event_restore (event : PaymentEvent) : M unit := raise PermissionError.
Definition payment_event_queryset_update (upd : PaymentEvent -> PaymentEvent) : M unit :=
  raise PermissionError.
Definition payment_event_queryset_delete : M unit := raise PermissionError.

(** * Lemmas *)

Lemma record_payment_event_frame p k s s' md :
  moves same_core (record_payment_event p k s s' md).
Proof. unfold record_payment_event. solve_moves. Qed.
#[export] Hint Resolve record_payment_event_frame : moves.
