(* ===== verification/Risk.v ===== *)
(** Risk signals: the scoring services of [src/apps/madadkar/services.py].

    A Python float is the exact rational here; the adjustment ratio is compared
    with its thresholds as a fraction. *)

From S2P Require Import Prelude Python Choices Models NotificationModels Orm World Ledger.
From Stdlib Require Import QArith_base.
#[local] Open Scope Z_scope.

(** The keyword arguments that identify a signal; [status] is OPEN. *)
Record RiskLookup : Type := mkRiskLookup {
  rl_signal_type : MadadkarRiskSignalType.t;
  rl_user : option Z;
  rl_campaign : option Z;
  rl_payment : option Z;
  rl_refund : option Z;
  rl_adjustment : option Z;
}.

Definition risk_lookup_matches (l : RiskLookup) (s : MadadkarRiskSignal) : bool :=
  bool_decide (risk_signal_type s = rl_signal_type l) &&
  bool_decide (risk_status s = MadadkarRiskStatus.OPEN) &&
  bool_decide (risk_user s = rl_user l) && bool_decide (risk_campaign s = rl_campaign l) &&
  bool_decide (risk_payment s = rl_payment l) && bool_decide (risk_refund s = rl_refund l) &&
  bool_decide (risk_adjustment s = rl_adjustment l).

Definition create_madadkar_risk_signal (l : RiskLookup)
    (severity : MadadkarRiskSeverity.t) (ip_address : option string)
    (description : string) (metadata : list (string * json)) : M MadadkarRiskSignal :=
  existing ← query (fun db => qs_first (objects_filter (risk_lookup_matches l) db));
  match existing with
  | Some s => mret s
  | None =>
      create (fun i now => mkRiskSignal i (rl_signal_type l) severity
        MadadkarRiskStatus.OPEN (rl_user l) (rl_campaign l) (rl_payment l) (rl_refund l)
        (rl_adjustment l) ip_address description (JObj metadata) None None "" true now now)
  end.

(** * Payments *)

(** Successful payments of the user created before this one. *)
Definition previous_success_count (payment : Payment) (db : DB) : Z :=
  qs_count (objects_filter (fun p => (pay_user p =? pay_user payment) &&
    bool_decide (pay_status p = PaymentStatus.SUCCESS) &&
    (pay_created_at p <? pay_created_at payment)) db).

Definition failure_count (user since : Z) (db : DB) : Z :=
  qs_count (objects_filter (fun p => (pay_user p =? user) &&
    bool_decide (pay_status p = PaymentStatus.FAILED) &&
    (since <=? pay_created_at p)) db).

Definition distinct_ip_users (ip : string) (since : Z) (db : DB) : Z :=
  Z.of_nat (size (mset (fun p => Some (pay_user p))
    (objects_filter (fun p => bool_decide (pay_ip_address p = Some ip) &&
      (since <=? pay_created_at p)) db))).

Definition evaluate_payment_risk (payment : Payment) (window_minutes : Z) :
    M (list MadadkarRiskSignal) :=
  participation ← base_get (A := Participation) (pay_participation payment);
  campaign ← base_get (A := Campaign) (part_campaign participation);
  cfg ← settings;
  let lookup kind := mkRiskLookup kind (Some (pay_user payment)) (Some (camp_id campaign))
                       (Some (pay_id payment)) None None in
  successes ← query (previous_success_count payment);
  let high_amount_threshold := MADADKAR_RISK_HIGH_AMOUNT_NEW_USER_THRESHOLD cfg in
  high ← (if (high_amount_threshold <=? pay_amount payment) && (successes =? 0)
          then
            s ← create_madadkar_risk_signal
                  (lookup MadadkarRiskSignalType.HIGH_AMOUNT_NEW_USER)
                  MadadkarRiskSeverity.HIGH (pay_ip_address payment)
                  "کاربر بدون سابقه پرداخت موفق، مشارکت مبلغ بالا ثبت کرده است."
                  [("threshold"%string, JInt high_amount_threshold);
                   ("amount"%string, JInt (pay_amount payment))];
            mret [s]
          else mret []);
  now ← timezone_now;
  let since := now - window_minutes * usec_per_min in
  failures ← query (failure_count (pay_user payment) since);
  let failure_threshold := MADADKAR_RISK_PAYMENT_FAILURE_SPIKE_THRESHOLD cfg in
  spike ← (if failure_threshold <=? failures
           then
             s ← create_madadkar_risk_signal
                   (lookup MadadkarRiskSignalType.PAYMENT_FAILURE_SPIKE)
                   (if failures <? failure_threshold * 2
                    then MadadkarRiskSeverity.MEDIUM else MadadkarRiskSeverity.HIGH)
                   (pay_ip_address payment)
                   "تعداد شکست پرداخت کاربر در بازه کوتاه غیرعادی است."
                   [("window_minutes"%string, JInt window_minutes);
                    ("failure_count"%string, JInt failures)];
             mret [s]
           else mret []);
  let ip_user_threshold := MADADKAR_RISK_IP_DISTINCT_USERS_THRESHOLD cfg in
  velocity ← match pay_ip_address payment with
             | Some ip =>
                 if str_true ip then
                   users ← query (distinct_ip_users ip since);
                   if ip_user_threshold <=? users
                   then
                     s ← create_madadkar_risk_signal
                           (lookup MadadkarRiskSignalType.SUSPICIOUS_IP_VELOCITY)
                           MadadkarRiskSeverity.HIGH (pay_ip_address payment)
                           "از یک IP در بازه کوتاه برای چند کاربر پرداخت ثبت شده است."
                           [("window_minutes"%string, JInt window_minutes);
                            ("distinct_users"%string, JInt users)];
                     mret [s]
                   else mret []
                 else mret []
             | None => mret []
             end;
  mret (high ++ spike ++ velocity).

(** * Refunds *)

Definition user_refund_count (user since : Z) (db : DB) : Z :=
  qs_count (objects_filter (fun r =>
    match rows_of (A := Payment) db !! ref_payment r with
    | Some p => pay_user p =? user
    | None => false
    end && (since <=? ref_created_at r)) db).

Definition campaign_refund_count (cid since : Z) (db : DB) : Z :=
  qs_count (objects_filter (fun r =>
    match rows_of (A := Payment) db !! ref_payment r with
    | Some p =>
        match rows_of (A := Participation) db !! pay_participation p with
        | Some q => part_campaign q =? cid
        | None => false
        end
    | None => false
    end && (since <=? ref_created_at r)) db).

Definition evaluate_refund_risk (refund : PaymentRefund) (window_hours : Z) :
    M (list MadadkarRiskSignal) :=
  payment ← base_get (A := Payment) (ref_payment refund);
  participation ← base_get (A := Participation) (pay_participation payment);
  campaign ← base_get (A := Campaign) (part_campaign participation);
  cfg ← settings;
  now ← timezone_now;
  let since := now - window_hours * usec_per_hour in
  let lookup kind := mkRiskLookup kind (Some (pay_user payment)) (Some (camp_id campaign))
                       (Some (pay_id payment)) (Some (ref_id refund)) None in
  user_refunds ← query (user_refund_count (pay_user payment) since);
  velocity ← (if MADADKAR_RISK_REFUND_VELOCITY_THRESHOLD cfg <=? user_refunds
              then
                s ← create_madadkar_risk_signal
                      (lookup MadadkarRiskSignalType.REFUND_VELOCITY)
                      MadadkarRiskSeverity.HIGH (pay_ip_address payment)
                      "تعداد درخواست‌های بازپرداخت کاربر در بازه کوتاه غیرعادی است."
                      [("window_hours"%string, JInt window_hours);
                       ("user_refund_count"%string, JInt user_refunds)];
                mret [s]
              else mret []);
  campaign_refunds ← query (campaign_refund_count (camp_id campaign) since);
  let campaign_threshold := MADADKAR_RISK_CAMPAIGN_REFUND_SPIKE_THRESHOLD cfg in
  spike ← (if campaign_threshold <=? campaign_refunds
           then
             s ← create_madadkar_risk_signal
                   (lookup MadadkarRiskSignalType.CAMPAIGN_REFUND_SPIKE)
                   (if campaign_threshold * 2 <=? campaign_refunds
                    then MadadkarRiskSeverity.CRITICAL else MadadkarRiskSeverity.HIGH)
                   (pay_ip_address payment)
                   "در یک حرکت تعداد درخواست بازپرداخت غیرعادی ثبت شده است."
                   [("window_hours"%string, JInt window_hours);
                    ("campaign_refund_count"%string, JInt campaign_refunds)];
             mret [s]
           else mret []);
  mret (velocity ++ spike).

(** * Adjustments *)

(** [adjustment.amount / base_amount], [base_amount] being positive *)
Definition adjustment_ratio (amount base_amount : Z) : Q :=
  Qmake amount (Z.to_pos base_amount).

Definition evaluate_adjustment_risk (adjustment : CampaignFinancialAdjustment) :
    M (list MadadkarRiskSignal) :=
  campaign ← base_get (A := Campaign) (adj_campaign adjustment);
  cfg ← settings;
  let base_amount := Z.max (camp_purchased_amount campaign) 1 in
  let ratio := adjustment_ratio (adj_amount adjustment) base_amount in
  if negb (Qle_bool (MADADKAR_RISK_ADJUSTMENT_RATIO_THRESHOLD cfg) ratio) then mret []
  else
    s ← create_madadkar_risk_signal
          (mkRiskLookup MadadkarRiskSignalType.ADJUSTMENT_ANOMALY
             (adj_requested_by adjustment) (Some (camp_id campaign))
             (adj_payment adjustment) None (Some (adj_id adjustment)))
          (if negb (Qle_bool (1 # 2) ratio)
           then MadadkarRiskSeverity.HIGH else MadadkarRiskSeverity.CRITICAL)
          None "مبلغ اصلاح مالی نسبت به مبلغ مؤثر حرکت غیرعادی است."
          [("ratio"%string, JFloat (round4 ratio));
           ("amount"%string, JInt (adj_amount adjustment));
           ("base_amount"%string, JInt base_amount)];
    mret [s].

(** * Review *)

Definition review_madadkar_risk_signal (signal : MadadkarRiskSignal) (reviewed_by : Z)
    (status review_note : string) : M MadadkarRiskSignal :=
  atomic
    (new_status ← match of_value (A := MadadkarRiskStatus.t) status with
                  | Some MadadkarRiskStatus.REVIEWED => mret MadadkarRiskStatus.REVIEWED
                  | Some MadadkarRiskStatus.DISMISSED => mret MadadkarRiskStatus.DISMISSED
                  | Some MadadkarRiskStatus.ESCALATED => mret MadadkarRiskStatus.ESCALATED
                  | _ => raise RiskReviewStatusInvalid
                  end;
     locked_signal ← objects_get (A := MadadkarRiskSignal) (risk_id signal);
     now ← timezone_now;
     let review s := s <| risk_status := new_status |>
                       <| risk_reviewed_by := Some reviewed_by |>
                       <| risk_reviewed_at := Some now |>
                       <| risk_review_note := review_note |>
                       <| risk_updated_at := now |> in
     _ ← update_row (risk_id locked_signal) review;
     mret (review locked_signal)).

(** * Lemmas *)

Lemma create_madadkar_risk_signal_frame l sev ip d md :
  moves same_core (create_madadkar_risk_signal l sev ip d md).
Proof. unfold create_madadkar_risk_signal. solve_moves. Qed.
#[export] Hint Resolve create_madadkar_risk_signal_frame : moves.

Lemma evaluate_payment_risk_frame p w : moves same_core (evaluate_payment_risk p w).
Proof. unfold evaluate_payment_risk. solve_moves. Qed.

Lemma evaluate_refund_risk_frame r w : moves same_core (evaluate_refund_risk r w).
Proof. unfold evaluate_refund_risk. solve_moves. Qed.

Lemma evaluate_adjustment_risk_frame a : moves same_core (evaluate_adjustment_risk a).
Proof. unfold evaluate_adjustment_risk. solve_moves. Qed.

Lemma review_madadkar_risk_signal_frame s u st n :
  moves same_core (review_madadkar_risk_signal s u st n).
Proof. unfold review_madadkar_risk_signal. solve_moves. Qed.
#[export] Hint Resolve evaluate_payment_risk_frame evaluate_refund_risk_frame
  evaluate_adjustment_risk_frame review_madadkar_risk_signal_frame : moves.
