(* ===== verification/Receipts.v ===== *)
(** Donation receipts: the receipt services of
    [src/apps/madadkar/services.py] and [DonationReceipt] of [models.py]. *)

From S2P Require Import Prelude Python Choices Models NotificationModels Orm World Sample.

(** [_build_receipt_number] *)
Definition build_receipt_number (payment_pk issued_at : Z) : string :=
  ("MDK-" +:+ strftime_Ymd issued_at +:+ "-" +:+ zero_pad 10 payment_pk)%string.

Section Receipt.
Local Open Scope string_scope.

Definition build_hash_payload (r : DonationReceipt) : json :=
  JObj [("hash_version", JInt (rcpt_hash_version r));
        ("receipt_number", JStr (rcpt_receipt_number r));
        ("payment_id", JInt (rcpt_payment r));
        ("user_id", JInt (rcpt_user r));
        ("campaign_id", JInt (rcpt_campaign r));
        ("amount", JInt (rcpt_amount r));
        ("issued_at", JStr (isoformat (rcpt_issued_at r)));
        ("payment_snapshot", rcpt_payment_snapshot r);
        ("campaign_snapshot", rcpt_campaign_snapshot r);
        ("donor_snapshot", rcpt_donor_snapshot r)].

Definition compute_receipt_hash (env : Env) (r : DonationReceipt) : string :=
  env_sha256_hexdigest env (json_dumps (env_repr env) (build_hash_payload r)).

(** The instance [issue_donation_receipt_for_payment] builds, without its key
    and hash.  [User] has no [get_full_name], so the donor's full name is the
    empty string. *)
Definition new_receipt (payment : Payment) (participation : Participation)
    (campaign : Campaign) (sponsor : Sponsor) (user : User) (issued_at : Z) :
    DonationReceipt :=
  mkReceipt 0 (pay_id payment) (usr_id user) (camp_id campaign)
    (build_receipt_number (pay_id payment) issued_at) "" 1 (pay_amount payment) issued_at
    (JObj [("payment_id", JInt (pay_id payment));
           ("authority", JStr (pay_authority payment));
           ("ref_id", JStr (pay_ref_id payment));
           ("gateway_name", JStr (pay_gateway_name payment));
           ("paid_at", json_opt_str (isoformat <$> pay_paid_at payment));
           ("share_count", JInt (part_share_count participation))])
    (JObj [("campaign_id", JInt (camp_id campaign));
           ("title", JStr (camp_title campaign));
           ("slug", JStr (camp_slug campaign));
           ("sponsor_id", JInt (camp_sponsor campaign));
           ("sponsor_name", JStr (sp_name sponsor))])
    (JObj [("user_id", JInt (usr_id user));
           ("email", JStr (default "" (usr_email user)));
           ("full_name", JStr "")])
    0 None true 0 0.

(** Following [payment.user]. *)
Definition get_user (i : Z) : M User := fun _ db =>
  match users db !! i with
  | Some u => (Ok u, db)
  | None => (Raise DoesNotExist, db)
  end.

Definition receipt_of_payment (pid : Z) (db : DB) : option DonationReceipt :=
  qs_first (objects_filter (fun r => (rcpt_payment r =? pid)%Z) db).

Definition issue_donation_receipt_for_payment (payment : Payment) : M DonationReceipt :=
  _ ← raise_if (negb (bool_decide (pay_status payment = PaymentStatus.SUCCESS)))
        ReceiptForUnsuccessfulPayment;
  existing ← query (receipt_of_payment (pay_id payment));
  match existing with
  | Some r => mret r
  | None =>
      participation ← base_get (A := Participation) (pay_participation payment);
      campaign ← base_get (A := Campaign) (part_campaign participation);
      user ← get_user (pay_user payment);
      now ← timezone_now;
      let issued_at := match pay_paid_at payment with
                       | Some t => t
                       | None => default now (pay_verified_at payment)
                       end in
      sponsor ← base_get (A := Sponsor) (camp_sponsor campaign);
      let receipt := new_receipt payment participation campaign sponsor user issued_at in
      env ← ask;
      let receipt := receipt <| rcpt_receipt_hash := compute_receipt_hash env receipt |> in
      create (fun i now => receipt <| rcpt_id := i |> <| rcpt_created_at := now |>
                                   <| rcpt_updated_at := now |>)
  end.

Definition verify_donation_receipt (receipt_number receipt_hash : string) :
    M (bool * option DonationReceipt) :=
  receipt ← query (fun db => qs_first (objects_filter (fun r =>
    str_eqb (rcpt_receipt_number r) receipt_number) db));
  match receipt with
  | None => mret (false, None)
  | Some r =>
      env ← ask;
      let expected := compute_receipt_hash env r in
      mret (str_eqb expected receipt_hash && str_eqb (rcpt_receipt_hash r) receipt_hash,
            Some r)
  end.

(** [DonationReceipt.save] of a stored instance: the columns that may be
    listed in [update_fields]. *)
Inductive receipt_field : Type :=
| rf_resend_count
| rf_last_resent_at
| rf_updated_at
| rf_evidence (field_name : string).

Definition receipt_field_mutable (f : receipt_field) : bool :=
  match f with rf_evidence _ => false | _ => true end.

Definition copy_receipt_field (x row : DonationReceipt) (f : receipt_field) :
    DonationReceipt :=
  match f with
  | rf_resend_count => row <| rcpt_resend_count := rcpt_resend_count x |>
  | rf_last_resent_at => row <| rcpt_last_resent_at := rcpt_last_resent_at x |>
  | rf_updated_at => row <| rcpt_updated_at := rcpt_updated_at x |>
  | rf_evidence _ => row
  end.

Definition receipt_save (receipt : DonationReceipt) (update_fields : list receipt_field) :
    M DonationReceipt :=
  now ← timezone_now;
  _ ← raise_if (bool_decide (update_fields = []) ||
                negb (forallb receipt_field_mutable update_fields)) PermissionError;
  let receipt := receipt <| rcpt_updated_at := now |> in
  _ ← update_row (rcpt_id receipt)
        (fun row => foldl (copy_receipt_field receipt) row update_fields);
  mret receipt.

Definition record_receipt_resend (receipt : DonationReceipt) : M DonationReceipt :=
  atomic
    (locked ← objects_get (A := DonationReceipt) (rcpt_id receipt);
     now ← timezone_now;
     receipt_save (locked <| rcpt_resend_count := (rcpt_resend_count locked + 1)%Z |>
                          <| rcpt_last_resent_at := Some now |>)
       [rf_resend_count; rf_last_resent_at; rf_updated_at]).

End Receipt.

(** * Lemmas *)

Lemma issue_donation_receipt_frame p :
  moves same_core (issue_donation_receipt_for_payment p).
Proof.
  unfold issue_donation_receipt_for_payment, get_user. solve_moves.
  apply moves_pure; [typeclasses eauto|]. intros env db.
  by destruct (users db !! _).
Qed.

Lemma record_receipt_resend_frame r : moves same_core (record_receipt_resend r).
Proof. unfold record_receipt_resend, receipt_save. solve_moves. Qed.
#[export] Hint Resolve issue_donation_receipt_frame record_receipt_resend_frame : moves.

(** The fresh receipt is the one both look-ups find. *)
Lemma added_receipt_unique (P : DonationReceipt -> bool) (r : DonationReceipt) (db : DB) :
  is_active r = true -> P r = true ->
  (forall i x, objects_filter P db !! i = Some x -> False) ->
  qs_first (objects_filter P (add_row r db)) = Some r.
Proof.
  intros Ha HP Hno. apply (qs_first_unique _ (next_id (table_of (A := DonationReceipt) db))).
  - apply objects_filter_lookup. rewrite rows_of_add_row, lookup_insert_eq. done.
  - intros j y (Hy & Hya & HyP)%objects_filter_lookup.
    rewrite rows_of_add_row in Hy. apply lookup_insert_Some in Hy as [[_ <-]|[_ Hy]]; [done|].
    destruct (Hno j y). by apply objects_filter_lookup.
Qed.

(** What an issuing run that stores a receipt leaves. *)
Lemma issue_fresh_ok_inv p r env db db' :
  issue_donation_receipt_for_payment p env db = (Ok r, db') ->
  receipt_of_payment (pay_id p) db = None ->
  pay_status p = PaymentStatus.SUCCESS /\ rcpt_payment r = pay_id p /\
  rcpt_amount r = pay_amount p /\ rcpt_is_active r = true /\
  rcpt_receipt_hash r = compute_receipt_hash env r /\
  row_ok (rows_of db) r = true /\ db' = add_row r db.
Proof.
  intros H Hnone. unfold issue_donation_receipt_for_payment, get_user in H. comp_run; try done.
  match goal with Hu : match users db !! ?i with _ => _ end = _ |- _ => destruct (users db !! i) end;
    simplify_eq.
  apply negb_false_iff, bool_decide_eq_true in Hc. do 4 (split; [done|]).
  split; [reflexivity|]. split; [exact Hok|reflexivity].
Qed.

(** Issuing a receipt is idempotent: once a run has returned a receipt, any
    further run for the same payment returns that same receipt and stores
    nothing, whatever the clock, the settings and the other arguments are. *)
Theorem receipt_is_issued_once p r env env' db db' :
  issue_donation_receipt_for_payment p env db = (Ok r, db') ->
  issue_donation_receipt_for_payment p env' db' = (Ok r, db').
Proof.
  intros H. destruct (receipt_of_payment (pay_id p) db) as [r0|] eqn:Hex.
  - unfold issue_donation_receipt_for_payment in H. comp_run; [|congruence]. simplify_eq.
    unfold issue_donation_receipt_for_payment.
    rewrite (bind_ok _ _ _ _ tt db) by by apply raise_if_false.
    erewrite bind_ok by reflexivity. by rewrite Heqo.
  - destruct (issue_fresh_ok_inv _ _ _ _ _ H Hex) as (Hst & Hpay & _ & Ha & _ & _ & ->).
    unfold issue_donation_receipt_for_payment.
    rewrite (bind_ok _ _ _ _ tt (add_row r db)) by (apply raise_if_false; by rewrite Hst).
    erewrite bind_ok by reflexivity. unfold receipt_of_payment in *.
    rewrite added_receipt_unique; [done|done|by apply Z.eqb_eq|].
    intros i x Hx. apply qs_first_None in Hex. by rewrite Hex, lookup_empty in Hx.
Qed.

(** The receipt stored for a payment carries its amount and its own hash, and
    public verification of its number accepts that hash and no other. *)
Theorem issued_receipt_verifies p r env env' db db' h :
  issue_donation_receipt_for_payment p env db = (Ok r, db') ->
  receipt_of_payment (pay_id p) db = None ->
  env_sha256_hexdigest env' = env_sha256_hexdigest env -> env_repr env' = env_repr env ->
  rcpt_payment r = pay_id p /\ rcpt_amount r = pay_amount p /\
  verify_donation_receipt (rcpt_receipt_number r) h env' db'
    = (Ok (bool_decide (h = compute_receipt_hash env r), Some r), db').
Proof.
  intros H Hnone Hsha Hrepr.
  destruct (issue_fresh_ok_inv _ _ _ _ _ H Hnone) as (_ & Hp & Hamt & Ha & Hh & Hok & ->).
  do 2 (split; [done|]). unfold verify_donation_receipt. erewrite bind_ok by reflexivity.
  rewrite added_receipt_unique; [|done|by apply bool_decide_eq_true|].
  - erewrite bind_ok by reflexivity.
    assert (compute_receipt_hash env' r = compute_receipt_hash env r) as ->
      by (unfold compute_receipt_hash; by rewrite Hsha, Hrepr).
    rewrite Hh. unfold str_eqb. do 3 f_equal.
    case_bool_decide; case_bool_decide; simplify_eq; done.
  - intros i x (Hx & _ & HxP)%objects_filter_lookup.
    change (receipt_row_ok (rows_of db) r = true) in Hok. unfold receipt_row_ok in Hok. rewrite !andb_true_iff, !unique_among_spec in Hok.
    destruct Hok as [[_ Hnum] _]. specialize (Hnum i x Hx). simpl in HxP. congruence.
Qed.

(** A receipt that was altered in the database after its hash was published
    fails verification with that hash, unless the altered evidence is encoded
    alike or the two encodings are a collision of the hash function. *)
Theorem altered_receipt_is_rejected (r r' : DonationReceipt) env db n :
  verify_donation_receipt n (compute_receipt_hash env r) env db = (Ok (true, Some r'), db) ->
  rcpt_receipt_number r' = n /\ rcpt_receipt_hash r' = compute_receipt_hash env r /\
  let text x := json_dumps (env_repr env) (build_hash_payload x) in
  (text r' = text r \/
   (text r' <> text r /\
    env_sha256_hexdigest env (text r') = env_sha256_hexdigest env (text r))).
Proof.
  intros H. unfold verify_donation_receipt in H. comp_run; simplify_eq.
  apply andb_true_iff in H as [H1 H2].
  apply bool_decide_eq_true in H1, H2.
  apply qs_first_Some in Heqo as [i (_ & _ & Hn)%objects_filter_lookup].
  apply bool_decide_eq_true in Hn. do 2 (split; [done|]). cbv zeta.
  destruct (decide (json_dumps (env_repr env) (build_hash_payload r')
    = json_dumps (env_repr env) (build_hash_payload r))); [by left|right]. by split.
Qed.

(** The receipt number determines the payment. *)
Theorem receipt_number_identifies_the_payment p p' t t' :
  0 <= p -> 0 <= p' -> build_receipt_number p t = build_receipt_number p' t' -> p = p'.
Proof.
  intros Hp Hp' Heq. unfold build_receipt_number in Heq. simpl in Heq. injection Heq as Heq.
  pose proof (parse_digits_zero_pad 10 false p Hp) as Hz.
  pose proof (parse_digits_zero_pad 10 false p' Hp') as Hz'.
  pose proof (after_last_dash_inj _ _ _ _ _ _ Heq Hz Hz') as Hpad. congruence.
Qed.

Definition paid_participation : Participation :=
  mkParticipation 1 1 1 5 1000 5000 ParticipationStatus.PAID (Some sample_now) true 0 0.
Definition successful_payment : Payment :=
  mkPayment 1 1 1 5000 "sandbox" "A1" "R1" "OK" PaymentStatus.SUCCESS (Some sample_now)
    (Some sample_now) None "" true 0 0.
Definition paid_db : DB :=
  sample_db <| mdk := (mdk sample_db) <| participations := one_row paid_participation |>
                                      <| payments := one_row successful_payment |> |>.

Lemma receipt_is_issued_once_witness :
  exists r db', issue_donation_receipt_for_payment successful_payment sample_env paid_db
                  = (Ok r, db') /\
    issue_donation_receipt_for_payment successful_payment (tick 60 sample_env) db'
      = (Ok r, db').
Proof.
  destruct (issue_donation_receipt_for_payment successful_payment sample_env paid_db)
    as [[r|e] db'] eqn:Hrun; [|vm_compute in Hrun; discriminate].
  exists r, db'. split; [reflexivity|].
  exact (receipt_is_issued_once successful_payment r sample_env _ paid_db db' Hrun).
Defined.

Lemma issued_receipt_verifies_witness :
  exists r db', issue_donation_receipt_for_payment successful_payment sample_env paid_db
                  = (Ok r, db') /\ rcpt_amount r = 5000 /\
    verify_donation_receipt (rcpt_receipt_number r) "forged" (tick 60 sample_env) db'
      = (Ok (false, Some r), db').
Proof.
  destruct (issue_donation_receipt_for_payment successful_payment sample_env paid_db)
    as [[r|e] db'] eqn:Hrun; [|vm_compute in Hrun; discriminate].
  exists r, db'. split; [reflexivity|].
  destruct (issued_receipt_verifies successful_payment r sample_env (tick 60 sample_env)
    paid_db db' "forged" Hrun eq_refl eq_refl eq_refl) as (_ & Ha & Hv).
  split; [exact Ha|]. refine (eq_trans Hv _).
  assert (bool_decide ("forged"%string = compute_receipt_hash sample_env r) = false) as ->;
    [|reflexivity].
  vm_compute in Hrun. injection Hrun as <- _. vm_compute. reflexivity.
Defined.

Definition receipt_db : DB :=
  after (issue_donation_receipt_for_payment successful_payment) sample_env paid_db.
Definition altered_db : DB := after
  (update_row (A := DonationReceipt) 1 (fun r => r <| rcpt_user := 2 |>)) sample_env
  receipt_db.

(** The stand-in hash looks at the first 64 characters only, so here the
    alteration goes unnoticed by a collision. *)
Lemma altered_receipt_is_rejected_witness :
  exists r r' : DonationReceipt, rcpt_user r = 1 /\ rcpt_user r' = 2 /\
    rcpt_receipt_hash r' = compute_receipt_hash sample_env r.
Proof.
  destruct (result (issue_donation_receipt_for_payment successful_payment) sample_env paid_db)
    as [r|] eqn:Hr; [|vm_compute in Hr; discriminate].
  exists r, (r <| rcpt_user := 2 |>).
  assert (verify_donation_receipt (rcpt_receipt_number r) (compute_receipt_hash sample_env r)
            sample_env altered_db = (Ok (true, Some (r <| rcpt_user := 2 |>)), altered_db))
    as Hv by (vm_compute in Hr; injection Hr as <-; vm_compute; reflexivity).
  destruct (altered_receipt_is_rejected _ _ _ _ _ Hv) as (_ & Hh & _).
  split; [vm_compute in Hr; injection Hr as <-; reflexivity|]. split; [reflexivity|exact Hh].
Defined.

Lemma receipt_number_identifies_the_payment_witness :
  build_receipt_number 7 sample_now = "MDK-20231114-0000000007"%string /\ 7 = 7.
Proof.
  split; [vm_compute; reflexivity|].
  apply (receipt_number_identifies_the_payment 7 7 sample_now sample_now); [lia|lia|reflexivity].
Defined.
