(* ===== verification/Payments.v ===== *)
(** Participations and payments: reservation of shares, the gateway round trip
    and the closing of a payment ([src/apps/madadkar/services.py]).

    The functions that are not one transaction are cut where the code leaves
    the database: [verify_payment] is the look-up, the provider call and the
    commit of the result, and the commit takes the payment as it was looked
    up.  Between these parts other operations may run; the sequential
    functions compose them without interruption. *)

From S2P Require Import Prelude Python Choices Models NotificationModels Orm World Counters.
From S2P Require Import Invariant Campaigns Providers Notifications Ledger Risk Receipts.

(** * Reservation *)

(** [_is_campaign_open_for_participation]: [None] when open. *)
Definition campaign_closed_reason (campaign : Campaign) (now : Z) : option closed_reason :=
  if negb (camp_is_active campaign) then Some campaign_inactive
  else if negb (camp_is_visible campaign) then Some campaign_not_visible
  else match camp_status campaign with
  | CampaignStatus.DRAFT => Some campaign_not_published
  | CampaignStatus.COMPLETED => Some campaign_completed
  | CampaignStatus.CLOSED => Some campaign_closed
  | CampaignStatus.PUBLISHED =>
      if camp_has_deadline campaign &&
         match camp_deadline campaign with Some d => d <=? now | None => false end
      then Some campaign_deadline_passed
      else if is_fully_funded campaign then Some campaign_fully_reserved
      else None
  end.

Definition reserve_participation_shares (campaign : Campaign) (user share_count : Z) :
    M Participation :=
  atomic
    (locked_campaign ← objects_get (A := Campaign) (camp_id campaign);
     now ← timezone_now;
     _ ← match campaign_closed_reason locked_campaign now with
         | Some r => raise (CampaignNotAcceptingSharesError r)
         | None => mret tt
         end;
     _ ← raise_if (remaining_shares locked_campaign <? share_count)
           (InsufficientSharesError share_count (remaining_shares locked_campaign));
     let share_price_snapshot := camp_share_price locked_campaign in
     participation ← create (fun i now => mkParticipation i (camp_id locked_campaign) user
       share_count share_price_snapshot (share_count * share_price_snapshot)
       ParticipationStatus.PENDING_PAYMENT None true now now);
     _ ← sync_campaign_counters locked_campaign;
     mret participation).

Definition set_participation_status (s : ParticipationStatus.t) (now : Z)
    (x : Participation) : Participation :=
  x <| part_status := s |> <| part_updated_at := now |>.

Definition release_reserved_participation (participation : Participation) : M unit :=
  atomic
    (locked_participation ← objects_get (A := Participation) (part_id participation);
     if negb (bool_decide (part_status locked_participation
                           = ParticipationStatus.PENDING_PAYMENT))
     then mret tt
     else
       locked_campaign ← objects_get (A := Campaign) (part_campaign locked_participation);
       now ← timezone_now;
       _ ← update_row (part_id locked_participation)
             (set_participation_status ParticipationStatus.FAILED now);
       _ ← sync_campaign_counters locked_campaign;
       mret tt).

Definition persist_initiated_payment (participation : Participation) (user amount : Z)
    (provider_name : string) (request_result : PaymentRequestResult)
    (ip_address : option string) (user_agent : string) : M Payment :=
  atomic
    (payment ← create (fun i now => mkPayment i (part_id participation) user amount
       provider_name (prr_authority request_result) "" (prr_gateway_status request_result)
       PaymentStatus.PENDING None None ip_address (py_prefix 500 user_agent) true now now);
     _ ← record_payment_event payment PaymentEventKind.CREATED None
           (Some PaymentStatus.PENDING)
           [("campaign_id"%string, JInt (part_campaign participation));
            ("participation_id"%string, JInt (part_id participation))];
     mret payment).

(** The description and metadata [initiate_participation] sends. *)
Definition payment_description (campaign : Campaign) : string :=
  ("مشارکت در حرکت «" +:+ camp_title campaign +:+ "»")%string.

Definition request_metadata (participation : Participation) (campaign : Campaign)
    (user : Z) : list (string * json) :=
  [("participation_id"%string, JStr (pretty (part_id participation)));
   ("campaign_id"%string, JStr (pretty (camp_id campaign)));
   ("user_id"%string, JStr (pretty user))].

Definition retry_message : string := "لطفاً مجدداً تلاش کنید.".

Definition initiate_participation (campaign : Campaign) (user share_count : Z)
    (callback_url : string) (ip_address : option string)
    (user_agent mobile email : string) : M (Participation * Payment * string) :=
  _ ← match validate_share_count share_count with
      | Some m => raise (InvalidShareCountError m)
      | None => mret tt
      end;
  participation ← reserve_participation_shares campaign user share_count;
  let total_amount := part_total_amount participation in
  provider ← get_payment_provider None;
  request_result ←
    try_catch
      (provider_request_payment provider total_amount (payment_description campaign)
         callback_url mobile email (request_metadata participation campaign user))
      (fun _ => Some
         (_ ← release_reserved_participation participation;
          raise (PaymentGatewayError retry_message)));
  if negb (prr_success request_result) || negb (str_true (prr_authority request_result))
  then
    _ ← release_reserved_participation participation;
    raise (PaymentGatewayError
             (str_or (prr_error_message request_result) retry_message))
  else
    payment ← persist_initiated_payment participation user total_amount
                (provider_name provider) request_result ip_address user_agent;
    mret (participation, payment, prr_gateway_url request_result).

(** * Verification *)

Definition payment_by_authority (authority : string) (db : DB) : option Payment :=
  qs_first (objects_filter (fun p => str_eqb (pay_authority p) authority) db).

Definition payment_closed (p : Payment) : bool :=
  bool_decide (pay_status p ∈ [PaymentStatus.SUCCESS; PaymentStatus.FAILED]).

(** Step 1 of [verify_payment] and [cancel_pending_payment]: the payment. *)
Definition lookup_payment (authority : string) : M Payment :=
  found ← query (payment_by_authority authority);
  match found with
  | None => raise (PaymentNotFoundError authority)
  | Some p => mret p
  end.

Definition set_payment_failed (gateway_status : string) (now : Z) (x : Payment) : Payment :=
  x <| pay_status := PaymentStatus.FAILED |> <| pay_gateway_status := gateway_status |>
    <| pay_verified_at := Some now |> <| pay_updated_at := now |>.

Definition set_payment_success (ref_id gateway_status : string) (now : Z) (x : Payment) :
    Payment :=
  x <| pay_status := PaymentStatus.SUCCESS |> <| pay_ref_id := ref_id |>
    <| pay_gateway_status := gateway_status |> <| pay_paid_at := Some now |>
    <| pay_verified_at := Some now |> <| pay_updated_at := now |>.

Definition set_participation_paid (now : Z) (x : Participation) : Participation :=
  x <| part_status := ParticipationStatus.PAID |> <| part_paid_at := Some now |>
    <| part_updated_at := now |>.

(** The locked payment with its participation (one joined query) and then its
    campaign. *)
Definition lock_payment (pid : Z) : M (Payment * Participation) :=
  locked_payment ← objects_get (A := Payment) pid;
  locked_participation ← base_get (A := Participation) (pay_participation locked_payment);
  mret (locked_payment, locked_participation).

(** The failing branch shared by the rejected, mismatching and cancelled
    payment: payment and participation FAILED, a ledger entry, counters. *)
Definition fail_locked_payment (locked_payment : Payment)
    (locked_participation : Participation) (locked_campaign : Campaign)
    (gateway_status : string) (kind : PaymentEventKind.t)
    (metadata : list (string * json)) : M Payment :=
  now ← timezone_now;
  let previous_status := pay_status locked_payment in
  let locked_payment := set_payment_failed gateway_status now locked_payment in
  _ ← update_row (pay_id locked_payment) (set_payment_failed gateway_status now);
  _ ← record_payment_event locked_payment kind (Some previous_status)
        (Some PaymentStatus.FAILED) metadata;
  _ ← update_row (part_id locked_participation)
        (set_participation_status ParticipationStatus.FAILED now);
  _ ← sync_campaign_counters locked_campaign;
  mret locked_payment.

(** Step 3: a success report with another amount; committed, then raised. *)
Definition commit_amount_mismatch (payment : Payment) (result : PaymentVerifyResult) :
    M Payment :=
  atomic
    (locked ← lock_payment (pay_id payment);
     let '(locked_payment, locked_participation) := locked in
     locked_campaign ← objects_get (A := Campaign) (part_campaign locked_participation);
     fail_locked_payment locked_payment locked_participation locked_campaign
       (pvr_gateway_status result) PaymentEventKind.AMOUNT_MISMATCH
       [("stored_amount"%string, JInt (pay_amount payment));
        ("verified_amount"%string, JInt (pvr_verified_amount result))]).

Definition notify_madadkar_payment_success (payment : Payment) : M NotificationEvent :=
  participation ← base_get (A := Participation) (pay_participation payment);
  campaign ← base_get (A := Campaign) (part_campaign participation);
  emit_domain_notification "madadkar.payment_success" (part_user participation)
    [("title"%string, JStr "پرداخت شما با موفقیت ثبت شد");
     ("campaign_title"%string, JStr (camp_title campaign));
     ("amount"%string, JInt (pay_amount payment));
     ("ref_id"%string, JStr (pay_ref_id payment))]
    (Some (part_user participation)) "madadkar_payment" (pretty (pay_id payment))
    [] NotificationPriority.HIGH.

(** The success branch of step 4. *)
Definition settle_locked_payment (locked_payment : Payment)
    (locked_participation : Participation) (locked_campaign : Campaign)
    (result : PaymentVerifyResult) : M Payment :=
  now ← timezone_now;
  let previous_status := pay_status locked_payment in
  let settle := set_payment_success (pvr_ref_id result) (pvr_gateway_status result) now in
  let locked_payment := settle locked_payment in
  _ ← update_row (pay_id locked_payment) settle;
  _ ← record_payment_event locked_payment PaymentEventKind.VERIFY_SUCCESS
        (Some previous_status) (Some PaymentStatus.SUCCESS)
        [("already_verified"%string, JBool (pvr_already_verified result))];
  _ ← update_row (part_id locked_participation) (set_participation_paid now);
  locked_campaign ← sync_campaign_counters locked_campaign;
  _ ← auto_complete_campaign_if_fully_funded locked_campaign;
  _ ← issue_donation_receipt_for_payment locked_payment;
  _ ← evaluate_payment_risk locked_payment 60;
  _ ← notify_madadkar_payment_success locked_payment;
  mret locked_payment.

(** Step 4: the final state, under the lock. *)
Definition commit_verification (payment : Payment) (result : PaymentVerifyResult) :
    M Payment :=
  atomic
    (locked ← lock_payment (pay_id payment);
     let '(locked_payment, locked_participation) := locked in
     if payment_closed locked_payment then mret locked_payment
     else
       locked_campaign ← objects_get (A := Campaign) (part_campaign locked_participation);
       if negb (pvr_success result)
       then fail_locked_payment locked_payment locked_participation locked_campaign
              (pvr_gateway_status result) PaymentEventKind.VERIFY_FAILED
              [("error_message"%string, JStr (pvr_error_message result))]
       else settle_locked_payment locked_payment locked_participation locked_campaign
              result).

Definition commit_verify_result (payment : Payment) (result : PaymentVerifyResult) :
    M Payment :=
  if pvr_success result && negb (pvr_verified_amount result =? pay_amount payment)
  then
    _ ← commit_amount_mismatch payment result;
    raise PaymentAmountMismatchError
  else commit_verification payment result.

Definition verify_error_message : string :=
  "خطا در ارتباط با درگاه پرداخت. لطفاً بعداً مجدداً تلاش کنید.".

Definition verify_payment (authority : string) : M Payment :=
  payment ← lookup_payment authority;
  if bool_decide (pay_status payment = PaymentStatus.SUCCESS) then mret payment
  else if bool_decide (pay_status payment = PaymentStatus.FAILED) then mret payment
  else
    provider ← get_payment_provider (Some (pay_gateway_name payment));
    verify_result ←
      try_catch (provider_verify_payment provider authority (pay_amount payment))
        (fun _ => Some (raise (PaymentGatewayError verify_error_message)));
    commit_verify_result payment verify_result.

(** * Sandbox confirmation, cancellation *)

Definition confirm_sandbox_payment (payment : Payment) : M bool :=
  atomic
    (locked ← objects_get (A := Payment) (pay_id payment);
     if negb (bool_decide (pay_status locked = PaymentStatus.PENDING)) ||
        negb (str_eqb (pay_gateway_name locked) "sandbox")
     then mret false
     else
       now ← timezone_now;
       _ ← update_row (pay_id locked)
             (fun row => row <| pay_gateway_status := SANDBOX_CONFIRM_MARKER |>
                             <| pay_updated_at := now |>);
       mret true).

Definition cancelled_by_user_message : string := "کاربر پرداخت را در صفحه درگاه لغو کرد.".

Definition commit_cancellation (payment : Payment) : M Payment :=
  atomic
    (locked ← lock_payment (pay_id payment);
     let '(locked_payment, locked_participation) := locked in
     if payment_closed locked_payment then mret locked_payment
     else
       locked_campaign ← objects_get (A := Campaign) (part_campaign locked_participation);
       fail_locked_payment locked_payment locked_participation locked_campaign "NOK"
         PaymentEventKind.VERIFY_FAILED
         [("cancelled_by_user"%string, JBool true);
          ("error_message"%string, JStr cancelled_by_user_message)]).

Definition cancel_pending_payment (authority : string) : M Payment :=
  payment ← lookup_payment authority;
  if payment_closed payment then mret payment
  else commit_cancellation payment.

(** * Expiry *)

Definition pending_payment_of (participation : Participation) (db : DB) : option Payment :=
  qs_first (objects_filter (fun p => (pay_participation p =? part_id participation) &&
    bool_decide (pay_status p = PaymentStatus.PENDING)) db).

(** [participation] is the instance the caller holds, not a locked row. *)
Definition expire_stale_participation (participation : Participation) : M Participation :=
  atomic
    (if negb (bool_decide (part_status participation
                           = ParticipationStatus.PENDING_PAYMENT))
     then mret participation
     else
       campaign ← objects_get (A := Campaign) (part_campaign participation);
       now ← timezone_now;
       _ ← update_row (part_id participation)
             (set_participation_status ParticipationStatus.EXPIRED now);
       payment ← query (pending_payment_of participation);
       _ ← match payment with
           | None => mret tt
           | Some p =>
               _ ← update_row (pay_id p) (set_payment_failed "expired" now);
               _ ← record_payment_event (set_payment_failed "expired" now p)
                     PaymentEventKind.EXPIRED (Some (pay_status p))
                     (Some PaymentStatus.FAILED) [];
               mret tt
           end;
       _ ← sync_campaign_counters campaign;
       mret (set_participation_status ParticipationStatus.EXPIRED now participation)).

(** [get_stale_participations]: a missing or zero time-out is the setting's. *)
Definition get_stale_participations (timeout_minutes : option Z) :
    M (list Participation) :=
  cfg ← settings;
  now ← timezone_now;
  let timeout := match timeout_minutes with
                 | Some t => if t =? 0 then MADADKAR_PAYMENT_TIMEOUT_MINUTES cfg else t
                 | None => MADADKAR_PAYMENT_TIMEOUT_MINUTES cfg
                 end in
  let cutoff := now - timeout * usec_per_min in
  query (fun db => qs_list (objects_filter (fun p =>
    bool_decide (part_status p = ParticipationStatus.PENDING_PAYMENT) &&
    (part_created_at p <? cutoff)) db)).

(** * Consistency *)

Lemma notify_madadkar_payment_success_frame p :
  moves same_core (notify_madadkar_payment_success p).
Proof. unfold notify_madadkar_payment_success. solve_moves. Qed.
#[export] Hint Resolve notify_madadkar_payment_success_frame : moves.

Lemma lock_payment_ok_inv pid env db p q db' :
  lock_payment pid env db = (Ok (p, q), db') ->
  db' = db /\ rows_of db !! pid = Some p /\ rows_of db !! pay_participation p = Some q.
Proof. unfold lock_payment. intros H. comp_run. by simplify_eq. Qed.

Ltac locked :=
  match goal with H : lock_payment _ _ _ = _ |- _ =>
    apply lock_payment_ok_inv in H as (-> & Hp & Hq) end.

Section Sound.
Context {Hbound : Bound}.

Lemma fail_locked_payment_sound p q c gs k md env db p' db' :
  core_ok db -> rows_of db !! pay_id p = Some p ->
  rows_of db !! pay_participation p = Some q ->
  pay_status p = PaymentStatus.PENDING -> camp_id c = part_campaign q ->
  fail_locked_payment p q c gs k md env db = (Ok p', db') -> sound db db'.
Proof.
  intros Hok Hp Hq Hst Hc Hrun. unfold fail_locked_payment in Hrun. comp_run. frames.
  change (pay_id (set_payment_failed _ _ p)) with (pay_id p) in *.
  simplify_eq. pose proof (participation_key _ _ _ (proj1 Hok) Hq) as Hqid.
  destruct (payments_ok _ (proj1 Hok) _ _ Hp) as (q1 & Hq1 & Hcp). simplify_eq.
  pose proof (proj1 Hcp) as Hcs. rewrite Hst in Hcs. simpl in Hcs.
  assert (payment_le p (set_payment_failed gs (clock env) p)) as Hpl
    by (repeat split; by right).
  assert (participation_le q
    (set_participation_status ParticipationStatus.FAILED (clock env) q)) as Hql
    by (repeat split; right; by left).
  eapply (sound_close db (pay_id p) p _ q); [done..| | | |exact Hc|eassumption].
  - eapply coupled_close; [done..|]. repeat constructor.
  - intros _. unfold holds_shares. by rewrite Hcs.
  - read_rows. rewrite Hqid in *. simplify_eq. by apply same_core_set_participation.
Qed.

Lemma settle_locked_payment_sound p q c r env db p' db' :
  core_ok db -> rows_of db !! pay_id p = Some p ->
  rows_of db !! pay_participation p = Some q ->
  pay_status p = PaymentStatus.PENDING ->
  camp_id c = part_campaign q -> rows_of db !! camp_id c = Some c ->
  settle_locked_payment p q c r env db = (Ok p', db') -> sound db db'.
Proof.
  intros Hok Hp Hq Hst Hc Hcr Hrun. unfold settle_locked_payment in Hrun.
  comp_run. frames. change (pay_id (set_payment_success _ _ _ p)) with (pay_id p) in *.
  simplify_eq. pose proof (participation_key _ _ _ (proj1 Hok) Hq) as Hqid.
  destruct (payments_ok _ (proj1 Hok) _ _ Hp) as (q1 & Hq1 & Hcp). simplify_eq.
  pose proof (proj1 Hcp) as Hcs. rewrite Hst in Hcs. simpl in Hcs.
  set (p1 := set_payment_success (pvr_ref_id r) (pvr_gateway_status r) (clock env) p) in *.
  assert (payment_le p p1) as Hpl by (repeat split; by right).
  assert (participation_le q (set_participation_paid (clock env) q)) as Hql
    by (repeat split; right; by left).
  match goal with H : sync_campaign_counters _ _ ?d = (Ok _, ?s) |- _ =>
    assert (sound db s) as Hs; [|assert (same_core (set_row (pay_participation p)
      (set_participation_paid (clock env) q) (set_row (pay_id p) p1 db)) d) as Hd] end.
  { eapply (sound_close db (pay_id p) p p1 q); [done..| | | |exact Hc|eassumption].
    - eapply coupled_close; [done..|]. repeat constructor.
    - intros _. unfold holds_shares. by rewrite Hcs.
    - read_rows. rewrite Hqid in *. simplify_eq. by apply same_core_set_participation. }
  { read_rows. rewrite Hqid in *. simplify_eq. by apply same_core_set_participation. }
  assert (sound db s1) as Hs1.
  { eapply sound_auto_complete_synced; [exact H0|done| | |exact H2].
    - rewrite <- Hd. eapply base_close_payment; eauto; [apply Hok|].
      eapply coupled_close; [done..|]. repeat constructor.
    - intros crow. rewrite (campaign_rows_same _ _ Hd). db_simpl. congruence. }
  eapply sound_then; [exact Hs1|]. by etrans; [|etrans].
Qed.

Lemma payment_open_pending p :
  payment_closed p = false -> pay_status p = PaymentStatus.PENDING.
Proof. unfold payment_closed. by destruct (pay_status p). Qed.

(** Whoever closes a locked payment that is still pending keeps the tables
    consistent. *)
Lemma commit_verification_sound payment r env db p' db' :
  core_ok db -> commit_verification payment r env db = (Ok p', db') -> sound db db'.
Proof.
  intros Hok H. unfold commit_verification in H. comp_run; locked.
  1: by apply sound_refl.
  all: pose proof (payment_key _ _ _ (proj1 Hok) Hp) as Hid.
  all: pose proof (campaign_key _ _ _ (proj1 Hok) Hrow) as Hcid.
  all: match goal with H : payment_closed _ = false |- _ =>
         apply payment_open_pending in H end.
  - eapply fail_locked_payment_sound; eauto. by rewrite Hid.
  - eapply settle_locked_payment_sound; eauto; congruence.
Qed.

Lemma commit_cancellation_sound payment env db p' db' :
  core_ok db -> commit_cancellation payment env db = (Ok p', db') -> sound db db'.
Proof.
  intros Hok H. unfold commit_cancellation in H. comp_run; locked; [by apply sound_refl|].
  pose proof (payment_key _ _ _ (proj1 Hok) Hp) as Hid.
  pose proof (campaign_key _ _ _ (proj1 Hok) Hrow) as Hcid.
  eapply fail_locked_payment_sound; eauto using payment_open_pending. by rewrite Hid.
Qed.

(** The commit of an amount mismatch does not look at the locked status: it is
    sound only while the payment is pending. *)
Lemma commit_amount_mismatch_sound payment r env db p' db' :
  core_ok db ->
  (forall p, rows_of db !! pay_id payment = Some p -> pay_status p = PaymentStatus.PENDING) ->
  commit_amount_mismatch payment r env db = (Ok p', db') -> sound db db'.
Proof.
  intros Hok Hst H. unfold commit_amount_mismatch in H. comp_run; locked.
  pose proof (payment_key _ _ _ (proj1 Hok) Hp) as Hid.
  pose proof (campaign_key _ _ _ (proj1 Hok) Hrow) as Hcid.
  eapply fail_locked_payment_sound; eauto. by rewrite Hid.
Qed.

Lemma confirm_sandbox_payment_sound payment env db b db' :
  core_ok db -> confirm_sandbox_payment payment env db = (Ok b, db') -> sound db db'.
Proof.
  intros [Hb Hok] H. unfold confirm_sandbox_payment in H.
  comp_run; [by apply sound_refl|].
  pose proof (payment_key _ _ _ Hb Hrow) as Hid. rewrite Hid in *. simplify_eq.
  match goal with |- sound _ (set_row _ ?x _) => set (p' := x) end.
  assert (payment_le a p') as Hle by (repeat split; by left).
  split; [split|].
  - by eapply base_set_payment.
  - eapply counters_ok_quiet; [done|by db_simpl|]. intros k.
    by eapply true_counters_set_payment.
  - split; try (apply evolves_same_table; try typeclasses eauto; by db_simpl).
    by eapply evolves_set_row; [typeclasses eauto|..].
Qed.

Lemma pending_payment_of_Some q db p :
  pending_payment_of q db = Some p ->
  exists i, rows_of db !! i = Some p /\ pay_participation p = part_id q /\
    pay_status p = PaymentStatus.PENDING.
Proof.
  intros (i & (Hi & _ & Hp)%objects_filter_lookup)%qs_first_Some.
  apply andb_true_iff in Hp as [Hq%Z.eqb_eq Hs%bool_decide_eq_true]. by exists i.
Qed.

Lemma pending_payment_of_None q db i p :
  base_ok db -> pending_payment_of q db = None -> rows_of db !! i = Some p ->
  pay_participation p = part_id q -> pay_status p <> PaymentStatus.PENDING.
Proof.
  intros Hb Hn Hi Hq Hs. apply qs_first_None in Hn.
  destruct (payments_ok _ Hb i p Hi) as (z & _ & Hcp).
  assert (objects_filter (fun p => (pay_participation p =? part_id q) &&
    bool_decide (pay_status p = PaymentStatus.PENDING)) db !! i = Some p) as Hl.
  { apply objects_filter_lookup. split; [done|]. split; [apply Hcp|].
    by rewrite Hq, Hs, Z.eqb_refl. }
  unfold pending_payment_of in Hn. by rewrite Hn, lookup_empty in Hl.
Qed.

Lemma pending_payment_of_set_participation q i (x : Participation) db :
  pending_payment_of q (set_row i x db) = pending_payment_of q db.
Proof.
  unfold pending_payment_of. f_equal.
Qed.

(** [expire_stale_participation] trusts the handle it is given: it is sound
    when the handle still is the row. *)
Lemma expire_stale_participation_sound q env db q' db' :
  core_ok db -> rows_of db !! part_id q = Some q ->
  expire_stale_participation q env db = (Ok q', db') -> sound db db'.
Proof.
  intros Hok Hq H. pose proof Hok as [Hb _]. unfold expire_stale_participation in H.
  comp_run; [by apply sound_refl|..]; frames; simplify_eq.
  all: pose proof (campaign_key _ _ _ Hb Hrow) as Hcid.
  all: match goal with H : negb (bool_decide (part_status _ = _)) = false |- _ =>
         apply negb_false_iff, bool_decide_eq_true in H as Hqs end.
  all: assert (participation_le q
    (set_participation_status ParticipationStatus.EXPIRED (clock env) q)) as Hql
    by (repeat split; right; by left).
  all: rewrite pending_payment_of_set_participation in Heqo.
  - apply pending_payment_of_Some in Heqo as (i & Hi & Hpq & Hps).
    pose proof (payment_key _ _ _ Hb Hi) as Hid. subst i.
    destruct (payments_ok _ Hb _ _ Hi) as (z & Hz & Hcp).
    rewrite <- Hpq in *. simplify_eq. read_rows.
    assert (payment_le p (set_payment_failed "expired" (clock env) p)) as Hpl
      by (repeat split; by right).
    eapply (sound_close db _ _ _ q); [done|exact Hi|done..| | | |exact Hcid|eassumption].
    + eapply coupled_close; [done..|]. repeat constructor.
    + done.
    + done.
  - eapply sound_close_orphan; [done|exact Hq|done| | |done|eassumption]; [|done].
    intros j p Hj Hpq. destruct (payments_ok _ Hb _ _ Hj) as (z & Hz & Hcp).
    rewrite Hpq in Hz. simplify_eq. destruct Hcp as (Hcs & _). rewrite Hqs in Hcs.
    eapply pending_payment_of_None; eauto.
    destruct (pay_status p); [done|set_solver..].
Qed.

Lemma release_reserved_participation_sound q env db u db' :
  core_ok db ->
  (forall i p, rows_of (A := Payment) db !! i = Some p -> pay_participation p <> part_id q) ->
  release_reserved_participation q env db = (Ok u, db') -> sound db db'.
Proof.
  intros Hok Hno H. unfold release_reserved_participation in H.
  comp_run; [by apply sound_refl|]. rename a0 into lq.
  pose proof (participation_key _ _ _ (proj1 Hok) Hrow) as Hid. rewrite Hid in *.
  pose proof (campaign_key _ _ _ (proj1 Hok) Hrow0) as Hcid. simplify_eq.
  match goal with H : negb (bool_decide (part_status _ = _)) = false |- _ =>
    apply negb_false_iff, bool_decide_eq_true in H as Hqs end.
  eapply sound_close_orphan; [done|exact Hrow| |done| |exact Hcid|eassumption]; [|done].
  repeat split; right; by left.
Qed.

Lemma reserve_participation_shares_ok_inv c user n env db q db' :
  base_ok db -> reserve_participation_shares c user n env db = (Ok q, db') ->
  exists lc, rows_of db !! camp_id c = Some lc /\ camp_id lc = camp_id c /\
    campaign_closed_reason lc (env_now env) = None /\ 1 <= n <= remaining_shares lc /\
    q = mkParticipation (next_id (table_of (A := Participation) db)) (camp_id c) user n
          (camp_share_price lc) (n * camp_share_price lc)
          ParticipationStatus.PENDING_PAYMENT None true (env_now env) (env_now env) /\
    participation_row_ok (rows_of db) q = true /\
    exists c', sync_campaign_counters lc env (add_row q db) = (Ok c', db').
Proof.
  intros Hb H. unfold reserve_participation_shares in H. comp_run.
  pose proof (campaign_key _ _ _ Hb Hrow) as Hid. simplify_eq.
  match goal with H : row_ok _ _ = true |- _ => rename H into Hqok; simpl in Hqok end.
  eexists. split; [exact Hrow|]. split; [done|]. split; [done|].
  split; [|rewrite <- Hid; split; [done|]; eauto].
  unfold participation_row_ok in Hqok. simpl in Hqok.
  rewrite !andb_true_iff, !Z.leb_le in Hqok. apply Z.ltb_ge in Hc. lia.
Qed.

Lemma reserve_participation_shares_sound c user n env db q db' :
  core_ok db -> reserve_participation_shares c user n env db = (Ok q, db') -> sound db db'.
Proof.
  intros Hok H.
  apply reserve_participation_shares_ok_inv in H
    as (lc & Hlc & Hid & _ & Hn & -> & _ & c' & Hsync); [|apply Hok].
  eapply sound_reserve; [done| | | | | |exact Hsync]; rewrite ?Hid; done.
Qed.

Lemma persist_initiated_payment_sound q user amount name r ip ua env db p db' :
  core_ok db -> rows_of db !! part_id q = Some q ->
  part_status q = ParticipationStatus.PENDING_PAYMENT -> part_is_active q = true ->
  user = part_user q -> amount = part_total_amount q ->
  persist_initiated_payment q user amount name r ip ua env db = (Ok p, db') -> sound db db'.
Proof.
  intros [Hb Hok] Hq Hst Ha -> -> H. unfold persist_initiated_payment in H.
  comp_run. frames.
  match goal with H : row_ok _ ?x = true |- _ => set (p := x) in *; simpl in H end.
  unfold payment_row_ok in Hok0. rewrite !andb_true_iff, !unique_among_spec in Hok0.
  destruct Hok0 as [[[[[[[[_ Hone] _] _] _] _] _] Huniq] _].
  assert (forall j z, rows_of (A := Payment) db !! j = Some z ->
            pay_participation z <> pay_participation p) as Hno.
  { intros j z Hj. by apply Z.eqb_neq, (Huniq j). }
  eapply sound_then; [|eassumption]. split; [split|].
  - eapply base_add_payment; [done|done|exact Hq| |done]. repeat split; try done.
    by apply Z.leb_le in Hone.
  - eapply counters_ok_quiet; [done|by db_simpl|]. intros k.
    apply true_counters_add_payment; [apply Hb|].
    intros j z Hj. apply (refunds_ok _ Hb) in Hj as (_ & y & -> & _). by eexists.
  - split; try (apply evolves_same_table; try typeclasses eauto; by db_simpl).
    apply evolves_add_row; [typeclasses eauto|apply Hb].
Qed.

(** ** The whole round trips *)

(** Whatever the outcome of a transaction, the tables stay consistent if they
    do when it returns. *)
Lemma sound_outcome {A} (m : M A) env db :
  core_ok db -> (forall a db', m env db = (Ok a, db') -> sound db db') ->
  (forall e db', m env db = (Raise e, db') -> db' = db) -> sound db (m env db).2.
Proof.
  intros Hok Hret Hexc. destruct (m env db) as [[a|e] db'] eqn:Hm; simpl; [eauto|].
  rewrite (Hexc e db' eq_refl). by apply sound_refl.
Qed.

Lemma get_payment_provider_pure name : moves eq (get_payment_provider name).
Proof. unfold get_payment_provider, zarinpal_init. solve_moves. Qed.

Lemma lookup_payment_pure a : moves eq (lookup_payment a).
Proof. unfold lookup_payment. solve_moves. Qed.

(** The provider a name resolves to, and its answer to a verification. *)
Lemma verify_with_provider name authority amount env db :
  (exists e, get_payment_provider name env db = (Raise e, db)) \/
  (exists p r, get_payment_provider name env db = (Ok p, db) /\
     provider_verify_payment p authority amount env db = (Ok r, db) /\
     (pvr_success r = true -> pvr_verified_amount r = amount)).
Proof.
  destruct (get_payment_provider name env db) as [[p|e] db'] eqn:Hp.
  - right. pose proof (get_payment_provider_ok_inv _ _ _ _ _ Hp) as [-> Hlaw].
    destruct (provider_verify_ok (p := p) authority amount env db) as (r & Hr & Ha).
    by exists p, r.
  - left. pose proof (get_payment_provider_pure name env db) as Heq. rewrite Hp in Heq.
    simpl in Heq. subst db'. by exists e.
Qed.

Lemma commit_verification_raise payment r env db e db' :
  commit_verification payment r env db = (Raise e, db') -> db' = db.
Proof. apply atomic_raise_inv. Qed.

Lemma verify_payment_sound authority env db :
  core_ok db -> sound db (verify_payment authority env db).2.
Proof.
  intros Hok. unfold verify_payment. rewrite bind_unfold.
  pose proof (lookup_payment_pure authority env db) as Hl.
  destruct (lookup_payment authority env db) as [[p|e] db0]; simpl in Hl; subst db0;
    [|by apply sound_refl].
  case_bool_decide; [by apply sound_refl|]. case_bool_decide; [by apply sound_refl|].
  rewrite bind_unfold.
  destruct (verify_with_provider (Some (pay_gateway_name p)) authority (pay_amount p) env db)
    as [(e & ->)|(pr & r & -> & Hr & Ham)]; [by apply sound_refl|].
  rewrite bind_unfold. unfold try_catch. rewrite Hr. unfold commit_verify_result.
  assert (pvr_success r && negb (pvr_verified_amount r =? pay_amount p) = false) as ->.
  { destruct (pvr_success r); [|done]. by rewrite (Ham eq_refl), Z.eqb_refl. }
  apply sound_outcome; [done|..]; eauto using commit_verification_sound,
    commit_verification_raise.
Qed.

Lemma cancel_pending_payment_sound authority env db :
  core_ok db -> sound db (cancel_pending_payment authority env db).2.
Proof.
  intros Hok. unfold cancel_pending_payment. rewrite bind_unfold.
  pose proof (lookup_payment_pure authority env db) as Hl.
  destruct (lookup_payment authority env db) as [[p|e] db0]; simpl in Hl; subst db0;
    [|by apply sound_refl].
  destruct (payment_closed p); [by apply sound_refl|].
  apply sound_outcome; [done|eauto using commit_cancellation_sound|].
  intros e db'. apply atomic_raise_inv.
Qed.

(** The participation just reserved is in the table and no payment is for it. *)
Lemma reserved_row c user n env db q db' :
  base_ok db -> reserve_participation_shares c user n env db = (Ok q, db') ->
  rows_of db' !! part_id q = Some q /\
  part_status q = ParticipationStatus.PENDING_PAYMENT /\ part_is_active q = true /\
  part_user q = user /\
  (forall i p, rows_of (A := Payment) db' !! i = Some p -> pay_participation p <> part_id q).
Proof.
  intros Hb H. apply reserve_participation_shares_ok_inv in H
    as (lc & _ & _ & _ & _ & -> & _ & c' & Hsync); [|done].
  apply sync_campaign_counters_ok_inv in Hsync as (? & ? & ? & _ & _ & _ & ->).
  split; [db_simpl; apply lookup_insert_eq|]. do 3 (split; [done|]).
  intros i p Hi Heq. db_simpl_in Hi. apply (payments_ok _ Hb) in Hi as (z & Hz & _).
  rewrite Heq in Hz.
  assert (table_wf (table_of (A := Participation) db)) as Hwf by apply Hb.
  pose proof (eq_trans (eq_sym Hz) (fresh_key db Hwf)) as Habs. discriminate.
Qed.

Lemma initiate_participation_sound c user n url ip ua mob em env db :
  core_ok db ->
  sound db (initiate_participation c user n url ip ua mob em env db).2.
Proof.
  intros Hok. unfold initiate_participation.
  destruct (validate_share_count n); [by apply sound_refl|].
  rewrite bind_unfold. cbv beta iota delta [mret comp_ret]. rewrite bind_unfold.
  destruct (reserve_participation_shares c user n env db) as [[q|e] db1] eqn:Hres.
  2:{ apply atomic_raise_inv in Hres as ->. by apply sound_refl. }
  pose proof (reserved_row _ _ _ _ _ _ _ (proj1 Hok) Hres) as (Hq & Hst & Ha & Hu & Hno).
  apply reserve_participation_shares_sound in Hres as [Hok1 Hle1]; [|done].
  eapply sound_trans; [by split|]. rewrite bind_unfold.
  destruct (get_payment_provider None env db1) as [[pr|e] db2] eqn:Hp.
  2:{ pose proof (get_payment_provider_pure None env db1) as Heq. rewrite Hp in Heq.
      simpl in *. subst db2. by apply sound_refl. }
  apply get_payment_provider_ok_inv in Hp as [-> Hlaw]. rewrite bind_unfold. unfold try_catch.
  edestruct (provider_request_ok (p := pr)) as (r & -> & _).
  case_match; rewrite bind_unfold.
  - assert (sound db1 (release_reserved_participation q env db1).2) as Hrel.
    { apply sound_outcome; [done|eauto using release_reserved_participation_sound|].
      intros e db'. apply atomic_raise_inv. }
    by destruct (release_reserved_participation q env db1) as [[?|?] ?].
  - match goal with |- context [persist_initiated_payment ?a ?b ?c ?d ?e ?f ?g env db1] =>
      assert (sound db1 (persist_initiated_payment a b c d e f g env db1).2) as Hper end.
    { apply sound_outcome; [done| |intros e db'; apply atomic_raise_inv].
      intros p db'. by apply persist_initiated_payment_sound. }
    by destruct (persist_initiated_payment _ _ _ _ _ _ _ env db1) as [[?|?] ?].
Qed.

End Sound.

(** ** How [initiate_participation] ends *)

Lemma campaign_save_throws c copy : throws not_gateway_error (campaign_save c copy).
Proof. unfold campaign_save. solve_throws. Qed.

Lemma sync_throws c : throws not_gateway_error (sync_campaign_counters c).
Proof. unfold sync_campaign_counters. solve_throws. Qed.
#[export] Hint Resolve campaign_save_throws sync_throws : throws.

Lemma reserve_throws c user n :
  throws not_gateway_error (reserve_participation_shares c user n).
Proof. unfold reserve_participation_shares. solve_throws. Qed.

Lemma release_throws q : throws not_gateway_error (release_reserved_participation q).
Proof. unfold release_reserved_participation. solve_throws. Qed.

Lemma persist_throws q user amount name r ip ua :
  throws not_gateway_error (persist_initiated_payment q user amount name r ip ua).
Proof. unfold persist_initiated_payment, record_payment_event. solve_throws. Qed.

Lemma get_payment_provider_throws name :
  throws not_gateway_error (get_payment_provider name).
Proof. unfold get_payment_provider, zarinpal_init. solve_throws. Qed.

(** The gateway in force, asked for the payment of [q], accepts with [r]. *)
Definition gateway_accepts (c : Campaign) (q : Participation) (user : Z)
    (url mob em : string) (pr : PaymentProvider) (r : PaymentRequestResult)
    (env : Env) (db : DB) : Prop :=
  get_payment_provider None env db = (Ok pr, db) /\
  provider_request_payment pr (part_total_amount q) (payment_description c) url mob em
    (request_metadata q c user) env db = (Ok r, db) /\
  prr_success r = true /\ prr_authority r <> EmptyString.

(** The outcomes of [initiate_participation]: rejected before any share is
    reserved; refused by the gateway, the reservation released; accepted and
    stored; or failed after the reservation with an error of neither kind. *)
Inductive initiate_outcome (c : Campaign) (user n : Z) (url : string) (ip : option string)
    (ua mob em : string) (env : Env) (db : DB) :
    outcome exc (Participation * Payment * string) -> DB -> Prop :=
| initiate_rejected e : initiate_outcome c user n url ip ua mob em env db (Raise e) db
| initiate_refused q db1 d u db' :
    reserve_participation_shares c user n env db = (Ok q, db1) ->
    release_reserved_participation q env db1 = (Ok u, db') ->
    initiate_outcome c user n url ip ua mob em env db (Raise (PaymentGatewayError d)) db'
| initiate_stored q db1 pr r p db' :
    reserve_participation_shares c user n env db = (Ok q, db1) ->
    gateway_accepts c q user url mob em pr r env db1 ->
    persist_initiated_payment q user (part_total_amount q) (provider_name pr) r ip ua env db1
      = (Ok p, db') ->
    initiate_outcome c user n url ip ua mob em env db (Ok (q, p, prr_gateway_url r)) db'
| initiate_failed q db1 e db' :
    reserve_participation_shares c user n env db = (Ok q, db1) ->
    not_gateway_error e -> db' = db1 ->
    initiate_outcome c user n url ip ua mob em env db (Raise e) db'.

Lemma initiate_participation_outcome c user n url ip ua mob em env db :
  let '(out, db') := initiate_participation c user n url ip ua mob em env db in
  initiate_outcome c user n url ip ua mob em env db out db'.
Proof.
  unfold initiate_participation. destruct (validate_share_count n); [constructor|].
  rewrite bind_unfold. cbv beta iota delta [mret comp_ret]. rewrite bind_unfold.
  destruct (reserve_participation_shares c user n env db) as [[q|e] db1] eqn:Hres.
  2:{ apply atomic_raise_inv in Hres as ->. constructor. }
  rewrite bind_unfold.
  destruct (get_payment_provider None env db1) as [[pr|e] db2] eqn:Hp.
  2:{ pose proof (get_payment_provider_pure None env db1) as Heq. rewrite Hp in Heq.
      simpl in Heq. subst db2. eapply initiate_failed; eauto.
      by eapply get_payment_provider_throws. }
  pose proof (get_payment_provider_ok_inv _ _ _ _ _ Hp) as [-> Hlaw].
  rewrite bind_unfold. unfold try_catch.
  edestruct (provider_request_ok (p := pr)) as (r & Hr & Hauth). rewrite Hr.
  destruct (negb (prr_success r) || _) eqn:Hc; rewrite bind_unfold.
  - destruct (release_reserved_participation q env db1) as [[u|e] db2] eqn:Hrel.
    + by eapply initiate_refused.
    + eapply initiate_failed; [done|by eapply release_throws|].
      by apply atomic_raise_inv in Hrel.
  - apply orb_false_iff in Hc as [Hs%negb_false_iff _].
    destruct (persist_initiated_payment _ _ _ _ _ _ _ env db1) as [[p|e] db2] eqn:Hper.
    + eapply initiate_stored; [done| |exact Hper]. by repeat split; auto.
    + eapply initiate_failed; [done|by eapply persist_throws|].
      by apply atomic_raise_inv in Hper.
Qed.

(** *** What a released reservation leaves *)

Lemma release_reserved_participation_ok_inv q env db u db' :
  rows_of db !! part_id q = Some q ->
  part_status q = ParticipationStatus.PENDING_PAYMENT ->
  release_reserved_participation q env db = (Ok u, db') ->
  exists lc c', sync_campaign_counters lc env
    (set_row (part_id q)
       (set_participation_status ParticipationStatus.FAILED (env_now env) q) db)
    = (Ok c', db').
Proof.
  intros Hq Hst H. unfold release_reserved_participation in H.
  comp_run; simplify_eq; [by rewrite Hst in *|]. eauto.
Qed.

(** Reserving and releasing shares changes no counter of any campaign. *)
Lemma reserve_release_counters c user n env db q db1 u db' cid :
  base_ok db -> reserve_participation_shares c user n env db = (Ok q, db1) ->
  release_reserved_participation q env db1 = (Ok u, db') ->
  true_counters cid db' = true_counters cid db.
Proof.
  intros Hb Hres Hrel.
  pose proof (reserved_row _ _ _ _ _ _ _ Hb Hres) as (Hq & Hst & _).
  apply reserve_participation_shares_ok_inv in Hres
    as (lc & _ & _ & _ & _ & Hnew & _ & c1 & Hs1); [|done].
  apply sync_campaign_counters_ok_inv in Hs1 as (? & ? & ? & _ & _ & _ & ->).
  apply release_reserved_participation_ok_inv in Hrel as (lc2 & c2 & Hs2); [|done..].
  apply sync_campaign_counters_ok_inv in Hs2 as (? & ? & ? & _ & _ & _ & ->).
  rewrite true_counters_set_campaign.
  set (q' := set_participation_status _ _ q).
  transitivity (true_counters cid (add_row q' db)).
  - apply true_counters_same_rows; try by db_simpl.
    db_simpl. rewrite Hnew. by apply insert_insert_eq.
  - apply true_counters_add_idle; [apply Hb| |done].
    intros j p Hj. apply (payments_ok _ Hb) in Hj as (z & -> & _). by eexists.
Qed.

(** A synchronisation moves counters, never a status. *)
Lemma sync_keeps_every_status c env db c' db' i (k : Campaign) :
  sync_campaign_counters c env db = (Ok c', db') -> rows_of db !! i = Some k ->
  exists k', rows_of db' !! i = Some k' /\ camp_status k' = camp_status k.
Proof.
  intros H Hk. apply sync_campaign_counters_ok_inv in H as (? & ? & row & _ & Hrow & _ & ->).
  rewrite rows_of_set_row. destruct (decide (camp_id c = i)) as [<-|Hne].
  - rewrite lookup_insert_eq. simplify_eq. by eexists.
  - rewrite lookup_insert_ne by done. by eexists.
Qed.

(** Nor do reserving and releasing shares. *)
Lemma reserve_release_status c user n env db q db1 u db' i (k : Campaign) :
  base_ok db -> reserve_participation_shares c user n env db = (Ok q, db1) ->
  release_reserved_participation q env db1 = (Ok u, db') -> rows_of db !! i = Some k ->
  exists k', rows_of db' !! i = Some k' /\ camp_status k' = camp_status k.
Proof.
  intros Hb Hres Hrel Hk.
  pose proof (reserved_row _ _ _ _ _ _ _ Hb Hres) as (Hq & Hst & _).
  apply reserve_participation_shares_ok_inv in Hres
    as (lc & _ & _ & _ & _ & _ & _ & c1 & Hs1); [|done].
  apply (sync_keeps_every_status _ _ _ _ _ i k) in Hs1 as (k1 & Hk1 & <-); [|by db_simpl].
  apply release_reserved_participation_ok_inv in Hrel as (lc2 & c2 & Hs2); [|done..].
  apply (sync_keeps_every_status _ _ _ _ _ i k1) in Hs2; [done|by db_simpl].
Qed.

(** *** What a stored payment looks like *)

Lemma persist_initiated_payment_ok_inv q user amount name r ip ua env db p db' :
  persist_initiated_payment q user amount name r ip ua env db = (Ok p, db') ->
  p = mkPayment (next_id (table_of (A := Payment) db)) (part_id q) user amount name
        (prr_authority r) "" (prr_gateway_status r) PaymentStatus.PENDING None None ip
        (py_prefix 500 ua) true (env_now env) (env_now env) /\
  same_core (add_row p db) db'.
Proof.
  intros H. unfold persist_initiated_payment in H. comp_run. frames. done.
Qed.

(** The shares a reservation adds. *)
Lemma reserve_reserved_shares c user n env db q db' :
  base_ok db -> reserve_participation_shares c user n env db = (Ok q, db') ->
  reserved_shares (camp_id c) db' = reserved_shares (camp_id c) db + n.
Proof.
  intros Hb H. apply reserve_participation_shares_ok_inv in H
    as (lc & _ & _ & _ & _ & -> & _ & c1 & Hs); [|done].
  apply sync_campaign_counters_ok_inv in Hs as (? & ? & ? & _ & _ & _ & ->).
  match goal with |- context [add_row ?x db] =>
    rewrite (reserved_shares_same_rows (add_row x db)) by (by db_simpl) end.
  rewrite reserved_shares_add by apply Hb. simpl. by rewrite Z.eqb_refl.
Qed.

(** ** What closing a payment changes *)

(** The payment and its participation are rewritten, campaigns may be
    resynchronised, nothing else of the core moves. *)
Definition closes (p p' : Payment) (q' : Participation) (db db' : DB) : Prop :=
  rows_of db' = <[pay_id p := p']> (rows_of db) /\
  rows_of db' = <[pay_participation p := q']> (rows_of db) /\
  rows_of (A := PaymentRefund) db' = rows_of db /\
  rows_of (A := CampaignFinancialAdjustment) db' = rows_of db /\
  rows_of (A := ExternalFunding) db' = rows_of db.

Lemma sync_other_rows c env db c' db' :
  sync_campaign_counters c env db = (Ok c', db') ->
  rows_of (A := Payment) db' = rows_of db /\
  rows_of (A := Participation) db' = rows_of db /\
  rows_of (A := PaymentRefund) db' = rows_of db /\
  rows_of (A := CampaignFinancialAdjustment) db' = rows_of db /\
  rows_of (A := ExternalFunding) db' = rows_of db.
Proof.
  intros H. apply sync_campaign_counters_ok_inv in H as (? & ? & ? & _ & _ & _ & ->).
  by db_simpl.
Qed.

Lemma auto_complete_other_rows c env db c' db' :
  auto_complete_campaign_if_fully_funded c env db = (Ok c', db') ->
  rows_of (A := Payment) db' = rows_of db /\
  rows_of (A := Participation) db' = rows_of db /\
  rows_of (A := PaymentRefund) db' = rows_of db /\
  rows_of (A := CampaignFinancialAdjustment) db' = rows_of db /\
  rows_of (A := ExternalFunding) db' = rows_of db.
Proof.
  intros H. apply auto_complete_ok_inv in H as [[_ ->]|(_ & _ & ? & _ & ->)]; [done|].
  by db_simpl.
Qed.

(** [closes] read off the state before the synchronisation. *)
Lemma closes_intro p p' q' db db1 db' :
  same_core (set_row (pay_participation p) q' (set_row (pay_id p) p' db)) db1 ->
  (rows_of (A := Payment) db' = rows_of db1 /\
   rows_of (A := Participation) db' = rows_of db1 /\
   rows_of (A := PaymentRefund) db' = rows_of db1 /\
   rows_of (A := CampaignFinancialAdjustment) db' = rows_of db1 /\
   rows_of (A := ExternalFunding) db' = rows_of db1) -> closes p p' q' db db'.
Proof.
  intros Hs (Hp & Hq & Hr & Ha & Hx). unfold closes. rewrite Hp, Hq, Hr, Ha, Hx.
  rewrite (payment_rows_same _ _ Hs), (participation_rows_same _ _ Hs),
    (refund_rows_same _ _ Hs), (adjustment_rows_same _ _ Hs), (funding_rows_same _ _ Hs).
  by db_simpl.
Qed.

Lemma closes_other p p' q' db db1 db' :
  closes p p' q' db db1 ->
  (rows_of (A := Payment) db' = rows_of db1 /\
   rows_of (A := Participation) db' = rows_of db1 /\
   rows_of (A := PaymentRefund) db' = rows_of db1 /\
   rows_of (A := CampaignFinancialAdjustment) db' = rows_of db1 /\
   rows_of (A := ExternalFunding) db' = rows_of db1) -> closes p p' q' db db'.
Proof. unfold closes. by intros Hc (-> & -> & -> & -> & ->). Qed.

Lemma closes_same_core p p' q' db db1 db' :
  closes p p' q' db db1 -> same_core db1 db' -> closes p p' q' db db'.
Proof.
  intros Hc Hs. eapply closes_other; [exact Hc|].
  by destruct (same_core_rows _ _ Hs) as (_ & ? & ? & ? & ? & ?).
Qed.

Lemma fail_locked_payment_closes p q c gs k md env db p' db' :
  rows_of db !! pay_id p = Some p -> rows_of db !! pay_participation p = Some q ->
  part_id q = pay_participation p ->
  fail_locked_payment p q c gs k md env db = (Ok p', db') ->
  p' = set_payment_failed gs (env_now env) p /\
  closes p p' (set_participation_status ParticipationStatus.FAILED (env_now env) q) db db'.
Proof.
  intros Hp Hq Hid Hrun. unfold fail_locked_payment in Hrun. comp_run. frames.
  change (pay_id (set_payment_failed _ _ p)) with (pay_id p) in *. simplify_eq.
  read_rows. rewrite Hid in *. simplify_eq. split; [done|].
  eapply closes_intro; [by apply same_core_set_participation|].
  by eapply sync_other_rows.
Qed.

Lemma settle_locked_payment_closes p q c r env db p' db' :
  rows_of db !! pay_id p = Some p -> rows_of db !! pay_participation p = Some q ->
  part_id q = pay_participation p ->
  settle_locked_payment p q c r env db = (Ok p', db') ->
  p' = set_payment_success (pvr_ref_id r) (pvr_gateway_status r) (env_now env) p /\
  closes p p' (set_participation_paid (env_now env) q) db db'.
Proof.
  intros Hp Hq Hid Hrun. unfold settle_locked_payment in Hrun. comp_run. frames.
  change (pay_id (set_payment_success _ _ _ p)) with (pay_id p) in *. simplify_eq.
  read_rows. rewrite Hid in *. simplify_eq. split; [done|].
  do 3 (eapply closes_same_core; [|eassumption]).
  eapply closes_other; [|by eapply auto_complete_other_rows].
  eapply closes_intro; [by apply same_core_set_participation|].
  by eapply sync_other_rows.
Qed.

Lemma commit_verification_ok_inv payment r env db p' db' :
  base_ok db -> commit_verification payment r env db = (Ok p', db') ->
  exists p q, rows_of db !! pay_id payment = Some p /\
    rows_of db !! pay_participation p = Some q /\
    ((payment_closed p = true /\ p' = p /\ db' = db) \/
     (pay_status p = PaymentStatus.PENDING /\ pvr_success r = false /\
      p' = set_payment_failed (pvr_gateway_status r) (env_now env) p /\
      closes p p' (set_participation_status ParticipationStatus.FAILED (env_now env) q) db db') \/
     (pay_status p = PaymentStatus.PENDING /\ pvr_success r = true /\
      p' = set_payment_success (pvr_ref_id r) (pvr_gateway_status r) (env_now env) p /\
      closes p p' (set_participation_paid (env_now env) q) db db')).
Proof.
  intros Hb H. unfold commit_verification in H. comp_run; locked.
  all: pose proof (payment_key _ _ _ Hb Hp) as Hid.
  all: pose proof (participation_key _ _ _ Hb Hq) as Hqid.
  - do 2 eexists. split; [exact Hp|]. split; [exact Hq|]. by left.
  - do 2 eexists. split; [exact Hp|]. split; [exact Hq|]. right; left.
    rewrite negb_true_iff in *. split; [by apply payment_open_pending|]. split; [done|].
    eapply fail_locked_payment_closes; [by rewrite Hid|done|done|eassumption].
  - do 2 eexists. split; [exact Hp|]. split; [exact Hq|]. right; right.
    rewrite negb_false_iff in *. split; [by apply payment_open_pending|]. split; [done|].
    eapply settle_locked_payment_closes; [by rewrite Hid|done|done|eassumption].
Qed.

Lemma commit_amount_mismatch_ok_inv payment r env db p' db' :
  base_ok db -> commit_amount_mismatch payment r env db = (Ok p', db') ->
  exists p q, rows_of db !! pay_id payment = Some p /\
    rows_of db !! pay_participation p = Some q /\
    p' = set_payment_failed (pvr_gateway_status r) (env_now env) p /\
    closes p p' (set_participation_status ParticipationStatus.FAILED (env_now env) q) db db'.
Proof.
  intros Hb H. unfold commit_amount_mismatch in H. comp_run; locked.
  pose proof (payment_key _ _ _ Hb Hp) as Hid.
  pose proof (participation_key _ _ _ Hb Hq) as Hqid.
  do 2 eexists. split; [exact Hp|]. split; [exact Hq|].
  eapply fail_locked_payment_closes; [by rewrite Hid|done|done|eassumption].
Qed.

Lemma commit_cancellation_ok_inv payment env db p' db' :
  base_ok db -> commit_cancellation payment env db = (Ok p', db') ->
  exists p q, rows_of db !! pay_id payment = Some p /\
    rows_of db !! pay_participation p = Some q /\
    ((payment_closed p = true /\ p' = p /\ db' = db) \/
     (pay_status p = PaymentStatus.PENDING /\
      p' = set_payment_failed "NOK" (env_now env) p /\
      closes p p' (set_participation_status ParticipationStatus.FAILED (env_now env) q) db db')).
Proof.
  intros Hb H. unfold commit_cancellation in H. comp_run; locked.
  all: pose proof (payment_key _ _ _ Hb Hp) as Hid.
  all: pose proof (participation_key _ _ _ Hb Hq) as Hqid.
  - do 2 eexists. split; [exact Hp|]. split; [exact Hq|]. by left.
  - do 2 eexists. split; [exact Hp|]. split; [exact Hq|]. right.
    split; [by apply payment_open_pending|].
    eapply fail_locked_payment_closes; [by rewrite Hid|done|done|eassumption].
Qed.

(** The payment an authority denotes is the only one with it. *)
Lemma payment_by_authority_Some authority db p :
  payment_by_authority authority db = Some p ->
  exists i, rows_of db !! i = Some p /\ pay_is_active p = true /\ pay_authority p = authority.
Proof.
  intros (i & (Hi & Ha & Hp)%objects_filter_lookup)%qs_first_Some.
  exists i. split; [done|]. split; [done|]. by apply bool_decide_eq_true in Hp.
Qed.

Lemma lookup_payment_found authority env db p :
  payment_by_authority authority db = Some p ->
  lookup_payment authority env db = (Ok p, db).
Proof. intros H. unfold lookup_payment. rewrite bind_unfold. simpl. by rewrite H. Qed.

(** ** Exceptions of the verification *)

Lemma campaign_save_no_mismatch c copy : throws not_amount_mismatch (campaign_save c copy).
Proof. unfold campaign_save. solve_throws. Qed.
#[local] Hint Resolve campaign_save_no_mismatch : throws.

Lemma create_signal_no_mismatch l sev ip d md :
  throws not_amount_mismatch (create_madadkar_risk_signal l sev ip d md).
Proof. unfold create_madadkar_risk_signal. solve_throws. Qed.
#[local] Hint Resolve create_signal_no_mismatch : throws.

Lemma evaluate_payment_risk_no_mismatch p w :
  throws not_amount_mismatch (evaluate_payment_risk p w).
Proof. unfold evaluate_payment_risk. solve_throws. Qed.
#[local] Hint Resolve evaluate_payment_risk_no_mismatch : throws.

Lemma issue_receipt_no_mismatch p :
  throws not_amount_mismatch (issue_donation_receipt_for_payment p).
Proof.
  unfold issue_donation_receipt_for_payment, get_user. solve_throws.
  intros env db e db'. destruct (users db !! _); intros [= <- _]. exact I.
Qed.
#[local] Hint Resolve issue_receipt_no_mismatch : throws.

Lemma create_notification_event_no_mismatch et rs cs pl ac at_ ai pr :
  throws not_amount_mismatch (create_notification_event et rs cs pl ac at_ ai pr).
Proof.
  unfold create_notification_event, render_channels, render_notification,
    render_template_string, create_delivery, record_activities_from_notification_event.
  solve_throws.
Qed.
#[local] Hint Resolve create_notification_event_no_mismatch : throws.

Lemma commit_verification_no_mismatch p r :
  throws not_amount_mismatch (commit_verification p r).
Proof.
  unfold commit_verification, lock_payment, fail_locked_payment, settle_locked_payment,
    record_payment_event, sync_campaign_counters, auto_complete_campaign_if_fully_funded,
    notify_madadkar_payment_success, emit_domain_notification.
  solve_throws.
Qed.
