(* ===== verification/Refunds.v ===== *)
(** Refunds and manual financial adjustments
    ([src/apps/madadkar/services.py]). *)

From S2P Require Import Prelude Python Choices Models NotificationModels Orm World Sample.
From S2P Require Import Counters Invariant Ledger Risk.

(** * Refunds *)

(** [_completed_refund_total] *)
Definition completed_refund_total (pid : Z) (db : DB) : Z :=
  qs_sum ref_amount (objects_filter (fun r => (ref_payment r =? pid) &&
    bool_decide (ref_status r = RefundStatus.COMPLETED)) db).

(** [_open_refund_total] *)
Definition open_refund_total (pid : Z) (db : DB) : Z :=
  qs_sum ref_amount (objects_filter (fun r => (ref_payment r =? pid) &&
    bool_decide (ref_status r ∈ [RefundStatus.PENDING_REVIEW; RefundStatus.APPROVED])) db).

Definition refund_by_idempotency_key (key : string) (db : DB) : option PaymentRefund :=
  qs_first (objects_filter (fun r =>
    bool_decide (ref_idempotency_key r = Some key)) db).

Definition refund_metadata (refund_id : Z) (rest : list (string * json)) :
    list (string * json) := ("refund_id"%string, JInt refund_id) :: rest.

Definition request_payment_refund (payment : Payment) (amount : Z)
    (reason : RefundReason.t) (requested_by : option Z) (note : string)
    (idempotency_key : option string) : M PaymentRefund :=
  atomic
    (locked_payment ← objects_get (A := Payment) (pay_id payment);
     _ ← raise_if (negb (bool_decide (pay_status locked_payment = PaymentStatus.SUCCESS)))
           (RefundWorkflowError refund_payment_not_success);
     _ ← raise_if (amount <=? 0) (RefundWorkflowError refund_amount_not_positive);
     completed ← query (completed_refund_total (pay_id locked_payment));
     opened ← query (open_refund_total (pay_id locked_payment));
     let available := pay_amount locked_payment - completed - opened in
     _ ← raise_if (available <? amount)
           (RefundWorkflowError refund_amount_exceeds_available);
     existing ← match idempotency_key with
                | Some k => if str_true k then query (refund_by_idempotency_key k)
                            else mret None
                | None => mret None
                end;
     match existing with
     | Some r => mret r
     | None =>
         refund ← create (fun i now => mkPaymentRefund i (pay_id locked_payment)
           requested_by None amount reason RefundStatus.PENDING_REVIEW idempotency_key
           "" note "" None None true now now);
         _ ← record_payment_event locked_payment PaymentEventKind.REFUND_REQUESTED
               (Some (pay_status locked_payment)) (Some (pay_status locked_payment))
               (refund_metadata (ref_id refund)
                  [("amount"%string, JInt amount);
                   ("reason"%string, JStr (value reason))]);
         _ ← evaluate_refund_risk refund 24;
         mret refund
     end).

Definition approve_payment_refund (refund : PaymentRefund) (reviewed_by : option Z)
    (note : string) : M PaymentRefund :=
  atomic
    (locked_refund ← objects_get (A := PaymentRefund) (ref_id refund);
     payment ← base_get (A := Payment) (ref_payment locked_refund);
     _ ← raise_if (negb (bool_decide (ref_status locked_refund
                                      = RefundStatus.PENDING_REVIEW)))
           (RefundWorkflowError refund_not_pending_for_approval);
     now ← timezone_now;
     let approve r := r <| ref_status := RefundStatus.APPROVED |>
                        <| ref_reviewed_by := reviewed_by |>
                        <| ref_reviewed_at := Some now |>
                        <| ref_note := (if str_true note then note else ref_note r) |>
                        <| ref_updated_at := now |> in
     _ ← update_row (ref_id locked_refund) approve;
     _ ← record_payment_event payment PaymentEventKind.REFUND_APPROVED
           (Some (pay_status payment)) (Some (pay_status payment))
           (refund_metadata (ref_id locked_refund)
              [("amount"%string, JInt (ref_amount locked_refund))]);
     mret (approve locked_refund)).

Definition reject_payment_refund (refund : PaymentRefund) (reviewed_by : option Z)
    (rejection_reason : string) : M PaymentRefund :=
  atomic
    (locked_refund ← objects_get (A := PaymentRefund) (ref_id refund);
     payment ← base_get (A := Payment) (ref_payment locked_refund);
     _ ← raise_if (negb (bool_decide (ref_status locked_refund
                                      = RefundStatus.PENDING_REVIEW)))
           (RefundWorkflowError refund_not_pending_for_rejection);
     now ← timezone_now;
     let reject r := r <| ref_status := RefundStatus.REJECTED |>
                       <| ref_reviewed_by := reviewed_by |>
                       <| ref_reviewed_at := Some now |>
                       <| ref_rejection_reason := rejection_reason |>
                       <| ref_updated_at := now |> in
     _ ← update_row (ref_id locked_refund) reject;
     _ ← record_payment_event payment PaymentEventKind.REFUND_REJECTED
           (Some (pay_status payment)) (Some (pay_status payment))
           (refund_metadata (ref_id locked_refund)
              [("reason"%string, JStr rejection_reason)]);
     mret (reject locked_refund)).

Definition complete_payment_refund (refund : PaymentRefund) (provider_ref_id : string) :
    M PaymentRefund :=
  atomic
    (locked_refund ← objects_get (A := PaymentRefund) (ref_id refund);
     _ ← raise_if (negb (bool_decide (ref_status locked_refund = RefundStatus.APPROVED)))
           (RefundWorkflowError refund_not_approved);
     locked_payment ← objects_get (A := Payment) (ref_payment locked_refund);
     participation ← base_get (A := Participation) (pay_participation locked_payment);
     campaign ← objects_get (A := Campaign) (part_campaign participation);
     now ← timezone_now;
     let complete r := r <| ref_status := RefundStatus.COMPLETED |>
                         <| ref_provider_ref_id := provider_ref_id |>
                         <| ref_completed_at := Some now |>
                         <| ref_updated_at := now |> in
     _ ← update_row (ref_id locked_refund) complete;
     _ ← (if pay_amount locked_payment <=? ref_amount locked_refund
          then update_row (part_id participation)
                 (fun row => row <| part_status := ParticipationStatus.REFUNDED |>
                                 <| part_updated_at := now |>)
          else mret tt);
     _ ← record_payment_event locked_payment PaymentEventKind.REFUND_COMPLETED
           (Some (pay_status locked_payment)) (Some (pay_status locked_payment))
           (refund_metadata (ref_id locked_refund)
              [("amount"%string, JInt (ref_amount locked_refund));
               ("provider_ref_id"%string, JStr provider_ref_id);
               ("full_refund"%string,
                JBool (pay_amount locked_payment <=? ref_amount locked_refund))]);
     _ ← sync_campaign_counters campaign;
     mret (complete locked_refund)).

(** * Adjustments *)

Definition create_financial_adjustment (campaign : Campaign) (amount : Z)
    (adjustment_type reason : string) (requested_by : option Z)
    (payment : option Payment) (note : string) : M CampaignFinancialAdjustment :=
  atomic
    (_ ← raise_if (amount <=? 0)
           (FinancialAdjustmentWorkflowError adjustment_amount_not_positive);
     kind ← match of_value (A := FinancialAdjustmentType.t) adjustment_type with
            | Some k => mret k
            | None => raise (FinancialAdjustmentWorkflowError adjustment_type_invalid)
            end;
     _ ← match payment with
         | Some p =>
             participation ← base_get (A := Participation) (pay_participation p);
             raise_if (negb (part_campaign participation =? camp_id campaign))
               (FinancialAdjustmentWorkflowError adjustment_payment_of_other_campaign)
         | None => mret tt
         end;
     create (fun i now => mkAdjustment i (camp_id campaign) (pay_id <$> payment)
       requested_by None kind FinancialAdjustmentStatus.PENDING_REVIEW amount reason note
       "" None None true now now)).

Definition approve_financial_adjustment (adjustment : CampaignFinancialAdjustment)
    (reviewed_by : option Z) : M CampaignFinancialAdjustment :=
  atomic
    (locked_adjustment ← objects_get (A := CampaignFinancialAdjustment) (adj_id adjustment);
     _ ← raise_if (negb (bool_decide (adj_status locked_adjustment
                                      = FinancialAdjustmentStatus.PENDING_REVIEW)))
           (FinancialAdjustmentWorkflowError adjustment_not_pending_for_approval);
     now ← timezone_now;
     let approve a := a <| adj_status := FinancialAdjustmentStatus.APPROVED |>
                        <| adj_reviewed_by := reviewed_by |>
                        <| adj_reviewed_at := Some now |> <| adj_updated_at := now |> in
     _ ← update_row (adj_id locked_adjustment) approve;
     mret (approve locked_adjustment)).

Definition reject_financial_adjustment (adjustment : CampaignFinancialAdjustment)
    (reviewed_by : option Z) (rejection_reason : string) : M CampaignFinancialAdjustment :=
  atomic
    (locked_adjustment ← objects_get (A := CampaignFinancialAdjustment) (adj_id adjustment);
     _ ← raise_if (negb (bool_decide (adj_status locked_adjustment
                                      = FinancialAdjustmentStatus.PENDING_REVIEW)))
           (FinancialAdjustmentWorkflowError adjustment_not_pending_for_rejection);
     now ← timezone_now;
     let reject a := a <| adj_status := FinancialAdjustmentStatus.REJECTED |>
                       <| adj_reviewed_by := reviewed_by |>
                       <| adj_reviewed_at := Some now |>
                       <| adj_rejection_reason := rejection_reason |>
                       <| adj_updated_at := now |> in
     _ ← update_row (adj_id locked_adjustment) reject;
     mret (reject locked_adjustment)).

Definition apply_financial_adjustment (adjustment : CampaignFinancialAdjustment) :
    M CampaignFinancialAdjustment :=
  atomic
    (locked_adjustment ← objects_get (A := CampaignFinancialAdjustment) (adj_id adjustment);
     _ ← raise_if (negb (bool_decide (adj_status locked_adjustment
                                      = FinancialAdjustmentStatus.APPROVED)))
           (FinancialAdjustmentWorkflowError adjustment_not_approved);
     campaign ← objects_get (A := Campaign) (adj_campaign locked_adjustment);
     now ← timezone_now;
     let apply_ a := a <| adj_status := FinancialAdjustmentStatus.APPLIED |>
                       <| adj_applied_at := Some now |> <| adj_updated_at := now |> in
     _ ← update_row (adj_id locked_adjustment) apply_;
     let locked_adjustment := apply_ locked_adjustment in
     _ ← match adj_payment locked_adjustment with
         | Some pid =>
             payment ← base_get (A := Payment) pid;
             _ ← record_payment_event payment PaymentEventKind.ADJUSTMENT_APPLIED
                   (Some (pay_status payment)) (Some (pay_status payment))
                   [("adjustment_id"%string, JInt (adj_id locked_adjustment));
                    ("amount"%string, JInt (adj_amount locked_adjustment));
                    ("type"%string, JStr (value (adj_adjustment_type locked_adjustment)))];
             mret tt
         | None => mret tt
         end;
     _ ← sync_campaign_counters campaign;
     _ ← evaluate_adjustment_risk locked_adjustment;
     mret locked_adjustment).

(** * Consistency *)

(** Every refund of a payment is completed, open or rejected. *)
Lemma refund_totals pid db :
  completed_refund_total pid db + open_refund_total pid db = claimed_refunds pid db.
Proof.
  unfold completed_refund_total, open_refund_total, claimed_refunds.
  rewrite !objects_filter_sum, <- msum_add. apply msum_ext. intros i r _.
  unfold claimed_of. destruct (is_active r), (ref_payment r =? pid), (ref_status r);
    vm_compute bool_decide; simpl; lia.
Qed.

Definition new_refund (i now pid : Z) (amount : Z) (reason : RefundReason.t)
    (requested_by : option Z) (note : string) (key : option string) : PaymentRefund :=
  mkPaymentRefund i pid requested_by None amount reason RefundStatus.PENDING_REVIEW key
    "" note "" None None true now now.

Lemma request_payment_refund_ok_inv p n reason by_ note key env db r db' :
  base_ok db -> request_payment_refund p n reason by_ note key env db = (Ok r, db') ->
  exists lp, rows_of db !! pay_id p = Some lp /\ pay_status lp = PaymentStatus.SUCCESS /\
    0 < n /\ claimed_refunds (pay_id p) db + n <= pay_amount lp /\
    ((exists k, key = Some k /\ str_true k = true /\
        refund_by_idempotency_key k db = Some r /\ db' = db) \/
     (r = new_refund (next_id (table_of (A := PaymentRefund) db)) (env_now env) (pay_id p)
            n reason by_ note key /\
      (forall k, key = Some k -> str_true k = true ->
         refund_by_idempotency_key k db = None) /\
      refund_row_ok (rows_of db) r = true /\ same_core (add_row r db) db')).
Proof.
  intros Hb H. unfold request_payment_refund in H. comp_run; frames.
  all: pose proof (payment_key _ _ _ Hb Hrow) as Hid; rewrite Hid in *.
  all: pose proof (refund_totals (pay_id p) db) as Htot.
  all: apply negb_false_iff, bool_decide_eq_true in Hc.
  all: apply Z.leb_gt in Hc0; apply Z.ltb_ge in Hc1.
  all: eexists; split; [exact Hrow|]; split; [done|]; split; [done|]; split; [lia|].
  1: by left; eexists.
  all: right; split; [done|]; split; [intros k' Hk' Ht'; simplify_eq; congruence|];
    split; [done|]; by etrans.
Qed.

Section Sound.
Context {Hbound : Bound}.

Lemma request_payment_refund_sound p n reason by_ note key env db r db' :
  core_ok db -> request_payment_refund p n reason by_ note key env db = (Ok r, db') ->
  sound db db'.
Proof.
  intros [Hb Hc] H.
  apply request_payment_refund_ok_inv in H
    as (lp & Hp & Hst & Hpos & Hle & [(k & _ & _ & _ & ->)|(-> & _ & _ & Hs)]); [| |done].
  { by apply sound_refl. }
  eapply sound_then; [|exact Hs]. split; [split|].
  - eapply base_add_refund; simpl; eauto with lia.
  - eapply counters_ok_quiet; [done|by db_simpl|]. intros k.
    apply true_counters_add_refund; [apply Hb|]. unfold completed_refund_of. simpl.
    by rewrite andb_false_r.
  - split; try (apply evolves_same_table; try typeclasses eauto; by db_simpl).
    apply evolves_add_row; [typeclasses eauto|apply Hb].
Qed.

(** A refund that stays out of the completed ones. *)
Lemma sound_refund_move db i (r r' : PaymentRefund) db' :
  core_ok db -> rows_of db !! i = Some r -> refund_le r r' ->
  ref_status r <> RefundStatus.COMPLETED -> ref_status r' <> RefundStatus.COMPLETED ->
  same_core (set_row i r' db) db' -> sound db db'.
Proof.
  intros [Hb Hc] Hi Hle Hr Hr' Hs. eapply sound_then; [|exact Hs]. split; [split|].
  - by eapply base_set_refund.
  - eapply counters_ok_quiet; [done|by db_simpl|]. intros k.
    eapply true_counters_set_refund; [exact Hi|..]; unfold completed_refund_of;
      rewrite bool_decide_false by done; apply andb_false_r.
  - split; try (apply evolves_same_table; try typeclasses eauto; by db_simpl).
    by eapply evolves_set_row; [typeclasses eauto|..].
Qed.

Lemma approve_payment_refund_sound r by_ note env db r' db' :
  core_ok db -> approve_payment_refund r by_ note env db = (Ok r', db') -> sound db db'.
Proof.
  intros Hok H. unfold approve_payment_refund in H. comp_run; frames.
  all: pose proof (refund_key _ _ _ (proj1 Hok) Hrow) as Hid; rewrite Hid in *; simplify_eq.
  all: apply negb_false_iff, bool_decide_eq_true in Hc.
  all: eapply sound_refund_move; [done|exact Hrow| | | |eassumption]; try done.
  all: try congruence; repeat split; by right; left.
Qed.

Lemma reject_payment_refund_sound r by_ why env db r' db' :
  core_ok db -> reject_payment_refund r by_ why env db = (Ok r', db') -> sound db db'.
Proof.
  intros Hok H. unfold reject_payment_refund in H. comp_run; frames.
  all: pose proof (refund_key _ _ _ (proj1 Hok) Hrow) as Hid; rewrite Hid in *; simplify_eq.
  all: apply negb_false_iff, bool_decide_eq_true in Hc.
  all: eapply sound_refund_move; [done|exact Hrow| | | |eassumption]; try done.
  all: try congruence; repeat split; by right; left.
Qed.

Definition completed_refund (r : PaymentRefund) (provider_ref_id : string) (now : Z) :
    PaymentRefund :=
  r <| ref_status := RefundStatus.COMPLETED |> <| ref_provider_ref_id := provider_ref_id |>
    <| ref_completed_at := Some now |> <| ref_updated_at := now |>.

Definition refunded_participation (q : Participation) (now : Z) : Participation :=
  q <| part_status := ParticipationStatus.REFUNDED |> <| part_updated_at := now |>.

(** The rows a completed refund changes: its own, and on a full refund the
    participation's. *)
Definition after_refund (now i : Z) (r' : PaymentRefund) (p : Payment)
    (q : Participation) (db : DB) : DB :=
  let db1 := set_row i r' db in
  if is_full_refund r' p
  then set_row (pay_participation p) (refunded_participation q now) db1 else db1.

Lemma complete_payment_refund_ok_inv r pref env db r' db' :
  base_ok db -> complete_payment_refund r pref env db = (Ok r', db') ->
  exists lr lp q c db1 c',
    rows_of db !! ref_id r = Some lr /\
    (ref_status lr = RefundStatus.APPROVED /\ ref_is_active lr = true) /\
    rows_of db !! ref_payment lr = Some lp /\ rows_of db !! pay_participation lp = Some q /\
    rows_of db !! part_campaign q = Some c /\
    r' = completed_refund lr pref (env_now env) /\
    same_core (after_refund (env_now env) (ref_id r) r' lp q db) db1 /\
    sync_campaign_counters c env db1 = (Ok c', db').
Proof.
  intros Hb H. unfold complete_payment_refund in H. comp_run; frames.
  all: pose proof (refund_key _ _ _ Hb Hrow) as Hid; rewrite Hid in *; simplify_eq.
  all: pose proof (participation_key _ _ _ Hb Hrow1) as Hqid; try rewrite Hqid in *.
  all: apply negb_false_iff, bool_decide_eq_true in Hc.
  all: exists a, a1, a2, a3; do 2 eexists; do 5 (split; [by repeat split|]).
  all: split; [reflexivity|].
  all: split; [|eassumption]; unfold after_refund, is_full_refund; simpl.
  all: match goal with H : (_ <=? _) = _ |- _ => rewrite H end; read_rows; done.
Qed.

Section Complete.
Context (db : DB) (now i : Z) (r r' : PaymentRefund) (p : Payment) (q : Participation).
Hypotheses (Hb : base_ok db) (Hr : rows_of db !! i = Some r)
  (Hp : rows_of db !! ref_payment r = Some p)
  (Hq : rows_of db !! pay_participation p = Some q)
  (Hle : refund_le r r').

Lemma refunded_coupled :
  coupled p q /\ pay_status p = PaymentStatus.SUCCESS /\
  (part_status q = ParticipationStatus.PAID \/ part_status q = ParticipationStatus.REFUNDED).
Proof.
  destruct (payments_ok _ Hb _ _ Hp) as (z & Hz & Hc). rewrite Hq in Hz.
  injection Hz as <-. destruct (refunds_ok _ Hb _ _ Hr) as (_ & z & Hz & Hs).
  rewrite Hp in Hz. injection Hz as <-. split; [done|]. split; [done|].
  destruct Hc as (Hcs & _). rewrite Hs in Hcs. simpl in Hcs. set_solver.
Qed.

Lemma refunded_participation_le : participation_le q (refunded_participation q now).
Proof.
  destruct refunded_coupled as (_ & _ & [Hs|Hs]); repeat split; simpl; rewrite Hs; auto.
Qed.

Lemma after_refund_base : base_ok (after_refund now i r' p q db).
Proof.
  assert (base_ok (set_row i r' db)) as Hb1 by (by eapply base_set_refund).
  unfold after_refund. case_match; [|done].
  eapply base_set_participation; [done|by db_simpl|apply refunded_participation_le|].
  intros j z Hj Hz Hc. db_simpl_in Hj.
  assert (j = ref_payment r) as -> by (by eapply (payments_unique _ Hb)).
  rewrite Hp in Hj. injection Hj as <-. eapply coupled_close; [exact Hc|reflexivity|
    apply refunded_participation_le|].
  destruct refunded_coupled as (_ & -> & _). simpl. set_solver.
Qed.

Lemma after_refund_le : core_le db (after_refund now i r' p q db).
Proof.
  transitivity (set_row i r' db).
  { split; try (apply evolves_same_table; try typeclasses eauto; by db_simpl).
    by eapply evolves_set_row; [typeclasses eauto|..]. }
  unfold after_refund. case_match; [|reflexivity].
  split; try (apply evolves_same_table; try typeclasses eauto; by db_simpl).
  eapply evolves_set_row; [typeclasses eauto|by db_simpl|apply refunded_participation_le].
Qed.

Lemma after_refund_local k : k <> part_campaign q ->
  true_counters k (after_refund now i r' p q db) = true_counters k db.
Proof.
  intros Hk. destruct Hle as (_ & Hpr & _).
  assert (forall r0, ref_payment r0 = ref_payment r -> completed_refund_of k db r0 = false) as Hout.
  { intros r0 Hr0. unfold completed_refund_of, refund_participation. rewrite Hr0, Hp, Hq.
    by rewrite (proj2 (Z.eqb_neq _ _)). }
  transitivity (true_counters k (set_row i r' db)).
  - unfold after_refund. case_match; [|done].
    eapply true_counters_set_participation; [by db_simpl|done|done].
  - eapply true_counters_set_refund; [exact Hr|by apply Hout|by apply Hout].
Qed.

Lemma after_refund_capacity k :
  reserved_shares k (after_refund now i r' p q db) <= reserved_shares k db /\
  external_shares k (after_refund now i r' p q db) = external_shares k db.
Proof.
  assert (base_ok (set_row i r' db)) as Hb1 by (by eapply base_set_refund).
  unfold after_refund. case_match; split; try (apply external_shares_same_rows; by db_simpl).
  - transitivity (reserved_shares k (set_row i r' db)).
    + eapply reserved_shares_release; [done|by db_simpl|apply refunded_participation_le|done].
    + rewrite (reserved_shares_same_rows db); [lia|by db_simpl].
  - rewrite (reserved_shares_same_rows db); [lia|by db_simpl].
Qed.
End Complete.

Lemma complete_payment_refund_sound r pref env db r' db' :
  core_ok db -> complete_payment_refund r pref env db = (Ok r', db') -> sound db db'.
Proof.
  intros [Hb Hok] H. apply complete_payment_refund_ok_inv in H
    as (lr & lp & q & c & db1 & c' & Hr & [Hst _] & Hp & Hq & Hc & -> & Hs & Hsync); [|done].
  pose proof (campaign_key _ _ _ Hb Hc) as Hcid.
  assert (refund_le lr (completed_refund lr pref (env_now env))) as Hle
    by (repeat split; right; right; done).
  eapply (sound_resync (part_campaign q)); [by split|..|exact Hcid|exact Hsync].
  - rewrite <- Hs. by eapply after_refund_base.
  - rewrite <- Hs. by eapply after_refund_le.
  - rewrite (campaign_rows_same _ _ Hs). unfold after_refund. by case_match; db_simpl.
  - intros k Hk. rewrite (true_counters_same_core _ _ _ Hs). by eapply after_refund_local.
  - intros row Hrow. pose proof (counters_ok_capacity _ _ _ Hok Hrow).
    rewrite (reserved_shares_same_rows _ _ _ (participation_rows_same _ _ Hs)),
      (external_shares_same_rows _ _ _ (funding_rows_same _ _ Hs)).
    edestruct after_refund_capacity as [Hres ->]; eauto.
    lia.
Qed.

(** ** Adjustments *)

Lemma create_financial_adjustment_sound c n kind why by_ p note env db a db' :
  core_ok db -> is_Some (rows_of (A := Campaign) db !! camp_id c) ->
  create_financial_adjustment c n kind why by_ p note env db = (Ok a, db') ->
  sound db db'.
Proof.
  intros [Hb Hok] Hc H. unfold create_financial_adjustment in H. comp_run.
  all: match goal with |- sound _ (add_row ?x _) => set (x0 := x) in * end.
  all: split; [split|].
  all: try (by apply base_add_adjustment).
  all: try (eapply counters_ok_quiet; [done|by db_simpl|]; intros k;
            apply true_counters_add_adjustment; [apply Hb|];
            unfold applied_adjustment_of; simpl; by rewrite andb_false_r).
  all: split; try (apply evolves_same_table; try typeclasses eauto; by db_simpl).
  all: apply evolves_add_row; [typeclasses eauto|apply Hb].
Qed.

(** An adjustment that stays unapplied. *)
Lemma sound_adjustment_move db i (a a' : CampaignFinancialAdjustment) :
  core_ok db -> rows_of db !! i = Some a -> adjustment_le a a' ->
  adj_status a <> FinancialAdjustmentStatus.APPLIED ->
  adj_status a' <> FinancialAdjustmentStatus.APPLIED -> sound db (set_row i a' db).
Proof.
  intros [Hb Hc] Hi Hle Ha Ha'. split; [split|].
  - by eapply base_set_adjustment.
  - eapply counters_ok_quiet; [done|by db_simpl|]. intros k.
    eapply true_counters_set_adjustment; [exact Hi|..]; unfold applied_adjustment_of;
      rewrite bool_decide_false by done; apply andb_false_r.
  - split; try (apply evolves_same_table; try typeclasses eauto; by db_simpl).
    by eapply evolves_set_row; [typeclasses eauto|..].
Qed.

Lemma adjustment_key db i (a : CampaignFinancialAdjustment) :
  base_ok db -> rows_of db !! i = Some a -> adj_id a = i.
Proof. intros Hb Hi. by apply Hb in Hi as [? _]. Qed.

Lemma approve_financial_adjustment_sound a by_ env db a' db' :
  core_ok db -> approve_financial_adjustment a by_ env db = (Ok a', db') -> sound db db'.
Proof.
  intros Hok H. unfold approve_financial_adjustment in H. comp_run.
  pose proof (adjustment_key _ _ _ (proj1 Hok) Hrow) as Hid. rewrite Hid in *. simplify_eq.
  apply negb_false_iff, bool_decide_eq_true in Hc.
  eapply sound_adjustment_move; [done|exact Hrow|..]; try done; [|congruence].
  repeat split; by right; left.
Qed.

Lemma reject_financial_adjustment_sound a by_ why env db a' db' :
  core_ok db -> reject_financial_adjustment a by_ why env db = (Ok a', db') -> sound db db'.
Proof.
  intros Hok H. unfold reject_financial_adjustment in H. comp_run.
  pose proof (adjustment_key _ _ _ (proj1 Hok) Hrow) as Hid. rewrite Hid in *. simplify_eq.
  apply negb_false_iff, bool_decide_eq_true in Hc.
  eapply sound_adjustment_move; [done|exact Hrow|..]; try done; [|congruence].
  repeat split; by right; left.
Qed.

Definition applied_adjustment (a : CampaignFinancialAdjustment) (now : Z) :
    CampaignFinancialAdjustment :=
  a <| adj_status := FinancialAdjustmentStatus.APPLIED |> <| adj_applied_at := Some now |>
    <| adj_updated_at := now |>.

Lemma apply_financial_adjustment_ok_inv a env db a' db' :
  base_ok db -> apply_financial_adjustment a env db = (Ok a', db') ->
  exists la c db1 c' db2,
    rows_of db !! adj_id a = Some la /\ adj_status la = FinancialAdjustmentStatus.APPROVED /\
    rows_of db !! adj_campaign la = Some c /\ a' = applied_adjustment la (env_now env) /\
    same_core (set_row (adj_id a) a' db) db1 /\
    sync_campaign_counters c env db1 = (Ok c', db2) /\ same_core db2 db'.
Proof.
  intros Hb H. unfold apply_financial_adjustment in H. comp_run; frames.
  all: pose proof (adjustment_key _ _ _ Hb Hrow) as Hid; rewrite Hid in *; simplify_eq.
  all: apply negb_false_iff, bool_decide_eq_true in Hc.
  all: do 2 eexists; do 3 eexists; do 3 (split; [eassumption|]); split; [reflexivity|].
  all: split; [|split; [eassumption|done]]; done.
Qed.

Lemma apply_financial_adjustment_sound a env db a' db' :
  core_ok db -> apply_financial_adjustment a env db = (Ok a', db') -> sound db db'.
Proof.
  intros [Hb Hok] H. apply apply_financial_adjustment_ok_inv in H
    as (la & c & db1 & c' & db2 & Ha & Hst & Hc & -> & Hs & Hsync & Hs2); [|done].
  pose proof (campaign_key _ _ _ Hb Hc) as Hcid.
  assert (adjustment_le la (applied_adjustment la (env_now env))) as Hle
    by (repeat split; right; right; done).
  eapply sound_then; [|exact Hs2].
  eapply (sound_resync (adj_campaign la)); [by split|..|exact Hcid|exact Hsync].
  - rewrite <- Hs. by eapply base_set_adjustment.
  - rewrite <- Hs.
    split; try (apply evolves_same_table; try typeclasses eauto; by db_simpl).
    by eapply evolves_set_row; [typeclasses eauto|..].
  - rewrite (campaign_rows_same _ _ Hs). by db_simpl.
  - intros k Hk. rewrite (true_counters_same_core _ _ _ Hs).
    eapply true_counters_set_adjustment; [exact Ha|..]; unfold applied_adjustment_of;
      simpl; by rewrite (proj2 (Z.eqb_neq _ _)).
  - intros row Hrow. pose proof (counters_ok_capacity _ _ _ Hok Hrow).
    rewrite (reserved_shares_same_rows db), (external_shares_same_rows db); [done|..].
    + rewrite (funding_rows_same _ _ Hs). by db_simpl.
    + rewrite (participation_rows_same _ _ Hs). by db_simpl.
Qed.

End Sound.

(** ** Refusals *)

Lemma locked_payment_run p lp env db {B} (k : Payment -> M B) :
  rows_of db !! pay_id p = Some lp -> pay_is_active lp = true ->
  (objects_get (A := Payment) (pay_id p) ≫= k) env db = k lp env db.
Proof. intros Hp Ha. apply bind_ok. by apply objects_get_ok. Qed.

(** A refund that would claim more than what is left of a successful payment
    is refused and nothing changes.  The check precedes the look-up of the
    idempotency key, so the retry of an accepted request is refused too once the
    request has claimed the payment, whatever key it carries. *)
Theorem overclaiming_refund_is_refused p lp n reason by_ note key env db :
  rows_of db !! pay_id p = Some lp -> pay_is_active lp = true -> pay_id lp = pay_id p ->
  pay_status lp = PaymentStatus.SUCCESS -> 0 < n ->
  pay_amount lp < completed_refund_total (pay_id p) db + open_refund_total (pay_id p) db + n ->
  request_payment_refund p n reason by_ note key env db
    = (Raise (RefundWorkflowError refund_amount_exceeds_available), db).
Proof.
  intros Hp Ha Hid Hst Hn Hover. unfold request_payment_refund, atomic.
  rewrite (locked_payment_run p lp) by done. rewrite Hst, Hid.
  rewrite (bind_ok _ _ _ _ tt db) by done.
  rewrite (bind_ok _ _ _ _ tt db) by (by apply raise_if_false, Z.leb_gt).
  rewrite (bind_ok _ _ _ _ _ db) by reflexivity.
  rewrite (bind_ok _ _ _ _ _ db) by reflexivity.
  erewrite bind_raise; [reflexivity|]. apply raise_if_true, Z.ltb_lt. lia.
Qed.

(** The refund workflow is enforced at every step: only a refund under review
    can be approved or rejected, only an approved one completed; anything else is
    refused and changes nothing. *)
Theorem refund_workflow_is_enforced r lr (lp : Payment) by_ note why pref env db :
  rows_of db !! ref_id r = Some lr -> ref_is_active lr = true ->
  rows_of db !! ref_payment lr = Some lp ->
  (ref_status lr <> RefundStatus.PENDING_REVIEW ->
   approve_payment_refund r by_ note env db
     = (Raise (RefundWorkflowError refund_not_pending_for_approval), db) /\
   reject_payment_refund r by_ why env db
     = (Raise (RefundWorkflowError refund_not_pending_for_rejection), db)) /\
  (ref_status lr <> RefundStatus.APPROVED ->
   complete_payment_refund r pref env db
     = (Raise (RefundWorkflowError refund_not_approved), db)).
Proof.
  intros Hr Ha Hp.
  pose proof (objects_get_ok (E := exc) (ref_id r) lr env db Hr Ha) as Hget.
  pose proof (base_get_ok (E := exc) (ref_payment lr) lp env db Hp) as Hpay.
  split; [intros Hst; split|intros Hst];
    unfold approve_payment_refund, reject_payment_refund, complete_payment_refund, atomic;
    rewrite (bind_ok _ _ _ _ _ _ Hget); try rewrite (bind_ok _ _ _ _ _ _ Hpay);
    (erewrite bind_raise; [reflexivity|]);
    apply raise_if_true; by rewrite bool_decide_false.
Qed.

Lemma overclaiming_refund_is_refused_witness :
  let paid := mkPayment 1 1 1 5000 "sandbox" "A" "R" "100" PaymentStatus.SUCCESS
                (Some 0) (Some 0) None "" true 0 0 in
  let asked := new_refund 1 0 1 5000 RefundReason.USER_REQUEST None "" (Some "key"%string) in
  let db := sample_db <| mdk := (mdk sample_db) <| payments := one_row paid |>
                                                <| refunds := one_row asked |> |> in
  request_payment_refund paid 5000 RefundReason.USER_REQUEST None "" (Some "key"%string)
    sample_env db = (Raise (RefundWorkflowError refund_amount_exceeds_available), db).
Proof.
  intros paid asked db.
  exact (overclaiming_refund_is_refused paid paid 5000 RefundReason.USER_REQUEST None ""
    (Some "key"%string) sample_env db eq_refl eq_refl eq_refl eq_refl eq_refl
    ltac:(vm_compute; reflexivity)).
Defined.

Lemma refund_workflow_is_enforced_witness :
  let paid := mkPayment 1 1 1 5000 "sandbox" "A" "R" "100" PaymentStatus.SUCCESS
                (Some 0) (Some 0) None "" true 0 0 in
  let asked := new_refund 1 0 1 5000 RefundReason.USER_REQUEST None "" None in
  let db := sample_db <| mdk := (mdk sample_db) <| payments := one_row paid |>
                                                <| refunds := one_row asked |> |> in
  complete_payment_refund asked "bank-1" sample_env db
    = (Raise (RefundWorkflowError refund_not_approved), db).
Proof.
  intros paid asked db.
  destruct (refund_workflow_is_enforced asked asked paid None "" "" "bank-1" sample_env db
    eq_refl eq_refl eq_refl) as [_ H].
  apply H. discriminate.
Defined.

(** ** Effects on the amounts *)

Lemma paid_amount_set db cid i (q q' : Participation) :
  rows_of db !! i = Some q ->
  paid_amount cid (set_row i q' db)
  = paid_amount cid db
    - when (part_is_active q && (part_campaign q =? cid))
        (when (is_paid q) (part_total_amount q))
    + when (part_is_active q' && (part_campaign q' =? cid))
        (when (is_paid q') (part_total_amount q')).
Proof.
  exact (objects_filter_sum_set_row (fun p => part_campaign p =? cid)
           (fun p => when (is_paid p) (part_total_amount p)) db i q' q).
Qed.

Lemma completed_refunds_set db cid i (r r' : PaymentRefund) :
  rows_of db !! i = Some r ->
  completed_refunds cid (set_row i r' db)
  = completed_refunds cid db
    - when (ref_is_active r && completed_refund_of cid db r) (ref_amount r)
    + when (ref_is_active r' && completed_refund_of cid db r') (ref_amount r').
Proof.
  exact (objects_filter_sum_set_row (completed_refund_of cid db) ref_amount db i r' r).
Qed.

Lemma adjustment_delta_set db cid i (a a' : CampaignFinancialAdjustment) :
  rows_of db !! i = Some a ->
  adjustment_delta cid (set_row i a' db)
  = adjustment_delta cid db
    - when (adj_is_active a && applied_adjustment_of cid a) (adjustment_case a)
    + when (adj_is_active a' && applied_adjustment_of cid a') (adjustment_case a').
Proof.
  exact (objects_filter_sum_set_row (applied_adjustment_of cid) adjustment_case db i a' a).
Qed.

(** The sign of the query and the sign of the model's property agree. *)
Lemma adjustment_case_signed a : adjustment_case a = signed_amount a.
Proof. unfold adjustment_case, signed_amount. by destruct (adj_adjustment_type a). Qed.
