(* ===== verification/Disbursements.v ===== *)
(** Disbursements: the allocation of collected funds
    ([src/apps/madadkar/services.py]). *)

From S2P Require Import Prelude Python Choices Models NotificationModels Orm World Sample.

(** REQUESTED, APPROVED and PAID disbursements hold their amount. *)
Definition disbursement_committed (d : CampaignDisbursement) : bool :=
  bool_decide (disb_status d ∈ [DisbursementStatus.REQUESTED;
    DisbursementStatus.APPROVED; DisbursementStatus.PAID]).

Definition committed_amount (cid : Z) (db : DB) : Z :=
  qs_sum disb_amount (objects_filter (fun d => (disb_campaign d =? cid) &&
    disbursement_committed d) db).

Definition calculate_campaign_disbursable_amount (campaign : Campaign) (db : DB) : Z :=
  Z.max (camp_purchased_amount campaign - committed_amount (camp_id campaign) db) 0.

Definition recipient_snapshot (name identifier bank_account : string) : json :=
  JObj [("name"%string, JStr name); ("identifier"%string, JStr identifier);
        ("bank_account"%string, JStr bank_account)].

Definition request_campaign_disbursement (campaign : Campaign) (amount : Z)
    (recipient_name purpose : string) (requested_by : option Z)
    (recipient_identifier recipient_bank_account : string)
    (supporting_document : option (list (string * json))) (note : string) :
    M CampaignDisbursement :=
  atomic
    (locked_campaign ← objects_get (A := Campaign) (camp_id campaign);
     _ ← raise_if (amount <=? 0)
           (DisbursementWorkflowError disbursement_amount_not_positive);
     available ← query (calculate_campaign_disbursable_amount locked_campaign);
     _ ← raise_if (available <? amount)
           (DisbursementWorkflowError disbursement_exceeds_available);
     let name := py_strip recipient_name in
     let identifier := py_strip recipient_identifier in
     let bank_account := py_strip recipient_bank_account in
     create (fun i now => mkDisbursement i (camp_id locked_campaign) requested_by None None
       DisbursementStatus.REQUESTED amount name identifier bank_account
       (recipient_snapshot name identifier bank_account) (py_strip purpose)
       (py_strip note) "" "" (JObj (default [] supporting_document)) None None None
       true now now)).

Definition approve_campaign_disbursement (disbursement : CampaignDisbursement)
    (reviewed_by : option Z) : M CampaignDisbursement :=
  atomic
    (locked ← objects_get (A := CampaignDisbursement) (disb_id disbursement);
     campaign ← base_get (A := Campaign) (disb_campaign locked);
     _ ← raise_if (negb (bool_decide (disb_status locked = DisbursementStatus.REQUESTED)))
           (DisbursementWorkflowError disbursement_not_requested_for_approval);
     disbursable ← query (calculate_campaign_disbursable_amount campaign);
     let available := disbursable + disb_amount locked in
     _ ← raise_if (available <? disb_amount locked)
           (DisbursementWorkflowError disbursement_funds_insufficient);
     now ← timezone_now;
     let approve d := d <| disb_status := DisbursementStatus.APPROVED |>
                        <| disb_reviewed_by := reviewed_by |>
                        <| disb_approved_at := Some now |> <| disb_updated_at := now |> in
     _ ← update_row (disb_id locked) approve;
     mret (approve locked)).

Definition reject_campaign_disbursement (disbursement : CampaignDisbursement)
    (reviewed_by : option Z) (rejection_reason : string) : M CampaignDisbursement :=
  atomic
    (locked ← objects_get (A := CampaignDisbursement) (disb_id disbursement);
     _ ← raise_if (negb (bool_decide (disb_status locked = DisbursementStatus.REQUESTED)))
           (DisbursementWorkflowError disbursement_not_requested_for_rejection);
     now ← timezone_now;
     let reject d := d <| disb_status := DisbursementStatus.REJECTED |>
                       <| disb_reviewed_by := reviewed_by |>
                       <| disb_rejection_reason := py_strip rejection_reason |>
                       <| disb_rejected_at := Some now |> <| disb_updated_at := now |> in
     _ ← update_row (disb_id locked) reject;
     mret (reject locked)).

Definition mark_campaign_disbursement_paid (disbursement : CampaignDisbursement)
    (paid_by : option Z) (bank_tracking_reference : string) : M CampaignDisbursement :=
  atomic
    (locked ← objects_get (A := CampaignDisbursement) (disb_id disbursement);
     _ ← raise_if (negb (bool_decide (disb_status locked = DisbursementStatus.APPROVED)))
           (DisbursementWorkflowError disbursement_not_approved);
     _ ← raise_if (negb (str_true (py_strip bank_tracking_reference)))
           (DisbursementWorkflowError disbursement_tracking_required);
     now ← timezone_now;
     let pay d := d <| disb_status := DisbursementStatus.PAID |>
                    <| disb_paid_by := paid_by |>
                    <| disb_bank_tracking_reference := py_strip bank_tracking_reference |>
                    <| disb_paid_at := Some now |> <| disb_updated_at := now |> in
     _ ← update_row (disb_id locked) pay;
     mret (pay locked)).

(** * Lemmas *)

Lemma request_campaign_disbursement_frame c a n p r i b s o :
  moves same_core (request_campaign_disbursement c a n p r i b s o).
Proof. unfold request_campaign_disbursement. solve_moves. Qed.

Lemma approve_campaign_disbursement_frame d r :
  moves same_core (approve_campaign_disbursement d r).
Proof. unfold approve_campaign_disbursement. solve_moves. Qed.

Lemma reject_campaign_disbursement_frame d r w :
  moves same_core (reject_campaign_disbursement d r w).
Proof. unfold reject_campaign_disbursement. solve_moves. Qed.

Lemma mark_campaign_disbursement_paid_frame d r w :
  moves same_core (mark_campaign_disbursement_paid d r w).
Proof. unfold mark_campaign_disbursement_paid. solve_moves. Qed.
#[export] Hint Resolve request_campaign_disbursement_frame
  approve_campaign_disbursement_frame reject_campaign_disbursement_frame
  mark_campaign_disbursement_paid_frame : moves.

(** ** The committed amount *)

Lemma committed_amount_add db cid (d : CampaignDisbursement) :
  table_wf (table_of (A := CampaignDisbursement) db) ->
  committed_amount cid (add_row d db)
  = committed_amount cid db
    + when (disb_is_active d && ((disb_campaign d =? cid) && disbursement_committed d))
        (disb_amount d).
Proof.
  exact (objects_filter_sum_add_row
           (fun d => (disb_campaign d =? cid) && disbursement_committed d) disb_amount db d).
Qed.

Lemma committed_amount_set db cid i (d d' : CampaignDisbursement) :
  rows_of db !! i = Some d ->
  committed_amount cid (set_row i d' db)
  = committed_amount cid db
    - when (disb_is_active d && ((disb_campaign d =? cid) && disbursement_committed d))
        (disb_amount d)
    + when (disb_is_active d' && ((disb_campaign d' =? cid) && disbursement_committed d'))
        (disb_amount d').
Proof.
  exact (objects_filter_sum_set_row
           (fun d => (disb_campaign d =? cid) && disbursement_committed d) disb_amount db i d' d).
Qed.

(** A disbursement request that returns asks for a positive amount, and the
    requested, approved and paid disbursements of the campaign, this one included,
    stay within the campaign's net collected amount; the request is stored and
    commits exactly its amount. *)
Theorem disbursement_request_never_overallocates c n nm pu by_ idn ac doc note env db d db' :
  table_good (table_of (A := CampaignDisbursement) db) ->
  (forall i k, rows_of (A := Campaign) db !! i = Some k -> camp_id k = i) ->
  request_campaign_disbursement c n nm pu by_ idn ac doc note env db = (Ok d, db') ->
  exists lc, rows_of db !! camp_id c = Some lc /\
    0 < n /\ disb_status d = DisbursementStatus.REQUESTED /\ disb_amount d = n /\
    rows_of db' !! disb_id d = Some d /\
    committed_amount (camp_id c) db' = committed_amount (camp_id c) db + n /\
    committed_amount (camp_id c) db' <= camp_purchased_amount lc.
Proof.
  intros [Hpos Hwf] Hkey H. unfold request_campaign_disbursement in H. comp_run.
  pose proof (Hkey _ _ Hrow) as Hid. apply Z.leb_gt in Hc. apply Z.ltb_ge in Hc0.
  unfold calculate_campaign_disbursable_amount in Hc0. rewrite Hid in *.
  match goal with |- context [add_row ?x db] => set (d := x) in * end.
  assert (committed_amount (camp_id c) (add_row d db)
          = committed_amount (camp_id c) db + n) as Hadd.
  { rewrite committed_amount_add by done. unfold d. simpl. by rewrite Z.eqb_refl. }
  eexists. split; [exact Hrow|]. do 3 (split; [done|]). split.
  - rewrite rows_of_add_row. apply lookup_insert_eq.
  - rewrite Hadd. split; [done|lia].
Qed.

Definition not_insufficient (e : exc) : Prop :=
  match e with DisbursementWorkflowError disbursement_funds_insufficient => False | _ => True end.

(** The re-check of the funds in [approve_campaign_disbursement] never fails:
    the amount under approval is added back to a quantity that is already cut at
    zero, so the available funds are at least the amount whatever was refunded
    between the request and the approval. *)
Theorem approval_recheck_is_vacuous d by_ :
  throws not_insufficient (approve_campaign_disbursement d by_).
Proof.
  intros env db e db'. unfold approve_campaign_disbursement, atomic. rewrite bind_unfold.
  unfold objects_get at 1. destruct (rows_of db !! disb_id d) as [l|]; [|by intros [= <- _]].
  destruct (is_active l); [|by intros [= <- _]]. rewrite bind_unfold. unfold base_get.
  destruct (rows_of db !! disb_campaign l) as [c|]; [|by intros [= <- _]].
  rewrite bind_unfold. unfold raise_if at 1. destruct (negb _); [by intros [= <- _]|].
  cbv beta iota delta [mret comp_ret]. rewrite bind_unfold. cbv beta iota delta [query].
  rewrite bind_unfold, raise_if_false.
  - rewrite bind_unfold. cbv beta iota delta [timezone_now]. rewrite bind_unfold.
    unfold update_row. destruct (rows_of db !! disb_id l) as [l'|]; [|by intros [= <- _]].
    by destruct (row_ok _ _); intros [= <- _].
  - apply Z.ltb_ge. unfold calculate_campaign_disbursable_amount. lia.
Qed.

(** A disbursement is approved or rejected only when it is requested, and
    paid only when it is approved and a tracking reference is given; anything else
    is refused and changes nothing.  A rejection gives the whole amount back. *)
Theorem disbursement_workflow_is_enforced d ld (c : Campaign) by_ why tracking env db :
  rows_of db !! disb_id d = Some ld -> disb_is_active ld = true -> disb_id ld = disb_id d ->
  rows_of db !! disb_campaign ld = Some c ->
  (disb_status ld <> DisbursementStatus.REQUESTED ->
   approve_campaign_disbursement d by_ env db
     = (Raise (DisbursementWorkflowError disbursement_not_requested_for_approval), db) /\
   reject_campaign_disbursement d by_ why env db
     = (Raise (DisbursementWorkflowError disbursement_not_requested_for_rejection), db)) /\
  (disb_status ld <> DisbursementStatus.APPROVED ->
   mark_campaign_disbursement_paid d by_ tracking env db
     = (Raise (DisbursementWorkflowError disbursement_not_approved), db)) /\
  (disb_status ld = DisbursementStatus.APPROVED -> py_strip tracking = EmptyString ->
   mark_campaign_disbursement_paid d by_ tracking env db
     = (Raise (DisbursementWorkflowError disbursement_tracking_required), db)) /\
  (forall d' db', reject_campaign_disbursement d by_ why env db = (Ok d', db') ->
     committed_amount (disb_campaign ld) db'
     = committed_amount (disb_campaign ld) db - disb_amount ld).
Proof.
  intros Hd Ha Hid Hc.
  pose proof (objects_get_ok (E := exc) (disb_id d) ld env db Hd Ha) as Hget.
  pose proof (base_get_ok (E := exc) (disb_campaign ld) c env db Hc) as Hcamp.
  unfold approve_campaign_disbursement, reject_campaign_disbursement,
    mark_campaign_disbursement_paid.
  split; [intros Hst; split|split; [intros Hst|split; [intros Hst Htr|]]].
  1-3: unfold atomic; rewrite (bind_ok _ _ _ _ _ _ Hget);
    try rewrite (bind_ok _ _ _ _ _ _ Hcamp);
    (erewrite bind_raise; [reflexivity|]); apply raise_if_true; by rewrite bool_decide_false.
  - unfold atomic. rewrite (bind_ok _ _ _ _ _ _ Hget).
    rewrite (bind_ok _ _ _ _ tt db) by (apply raise_if_false; by rewrite Hst).
    erewrite bind_raise; [reflexivity|]. apply raise_if_true. by rewrite Htr.
  - intros d' db' H. comp_run. simplify_eq. rewrite Hid.
    rewrite (committed_amount_set _ _ _ ld) by done. simpl.
    apply negb_false_iff, bool_decide_eq_true in Hc0. rewrite Ha, Z.eqb_refl.
    unfold disbursement_committed. simpl. rewrite Hc0. simpl. rewrite !andb_false_r. simpl. lia.
Qed.

Definition funded_db : DB :=
  sample_db <| mdk := (mdk sample_db) <| campaigns :=
    one_row (sample_campaign <| camp_purchased_amount := 5000 |>) |> |>.
Definition sample_disbursement : CampaignDisbursement :=
  mkDisbursement 1 1 None None None DisbursementStatus.APPROVED 3000 "Contractor" "" ""
    (JObj []) "Drilling" "" "" "" (JObj []) None None None true 0 0.
Definition disbursing_db : DB :=
  funded_db <| mdk := (mdk funded_db) <| disbursements := one_row sample_disbursement |> |>.

Lemma disbursement_request_never_overallocates_witness :
  exists d db', request_campaign_disbursement sample_campaign 2000 "Contractor" "Pump" None "" ""
      None "" sample_env disbursing_db = (Ok d, db') /\ committed_amount 1 db' = 5000.
Proof.
  destruct (request_campaign_disbursement sample_campaign 2000 "Contractor" "Pump" None "" ""
    None "" sample_env disbursing_db) as [[d|e] db'] eqn:Hrun; [|vm_compute in Hrun; discriminate].
  assert (table_good (table_of (A := CampaignDisbursement) disbursing_db)) as Hgood
    by (apply good_check; vm_compute; reflexivity).
  assert (forall i k, rows_of (A := Campaign) disbursing_db !! i = Some k -> camp_id k = i)
    as Hkey.
  { assert (table_good (table_of (A := Campaign) disbursing_db)) as [_ Hwf]
      by (apply good_check; vm_compute; reflexivity).
    intros i k Hi. apply (Hwf i k Hi). }
  destruct (disbursement_request_never_overallocates _ _ _ _ _ _ _ _ _ _ _ _ _ Hgood Hkey Hrun)
    as (lc & _ & _ & _ & _ & _ & Hc & _).
  exists d, db'. split; [reflexivity|]. exact (eq_trans Hc ltac:(vm_compute; reflexivity)).
Defined.

Lemma disbursement_workflow_is_enforced_witness :
  approve_campaign_disbursement sample_disbursement None sample_env disbursing_db
    = (Raise (DisbursementWorkflowError disbursement_not_requested_for_approval), disbursing_db) /\
  mark_campaign_disbursement_paid sample_disbursement None "  " sample_env disbursing_db
    = (Raise (DisbursementWorkflowError disbursement_tracking_required), disbursing_db).
Proof.
  destruct (disbursement_workflow_is_enforced sample_disbursement sample_disbursement
    (sample_campaign <| camp_purchased_amount := 5000 |>) None "" "  " sample_env disbursing_db
    eq_refl eq_refl eq_refl eq_refl) as (Hreq & _ & Htr & _).
  split; [apply Hreq; discriminate|apply Htr; reflexivity].
Defined.
