(* ===== verification/Reconciliation.v ===== *)
(** Reconciliation of provider reports with the internal payments: the
    settlement-report helpers of [src/apps/madadkar/reconciliation.py] and the
    services of [src/apps/madadkar/services.py].

    A report row is a JSON object.  The CSV and XLSX readers are outside the
    repository: the parsing definitions start from the header row and the
    data rows they yield. *)

From S2P Require Import Prelude Python Choices Models NotificationModels Orm World.
From Stdlib Require Import Ascii.

(** * Settlement reports *)

Section Import_.
Local Open Scope string_scope.

Definition header_aliases : list (string * string) :=
  [("authority", "authority"); ("Authority", "authority");
   ("authority_code", "authority"); ("ref_id", "ref_id"); ("refid", "ref_id");
   ("reference", "ref_id"); ("reference_id", "ref_id"); ("amount", "amount");
   ("Amount", "amount"); ("مبلغ", "amount"); ("status", "status");
   ("Status", "status"); ("وضعیت", "status")].

Definition required_columns : list string := ["amount"; "status"].
Definition identity_columns : list string := ["authority"; "ref_id"].

(** [_HEADER_ALIASES.get(stripped, stripped.lower())] *)
Definition canonical_header (stripped : string) : string :=
  default (py_lower stripped) (assoc_get stripped header_aliases).

(** [_normalize_headers]: the mapping from stripped header to column. *)
Definition header_mapping (fieldnames : list string) : list (string * string) :=
  foldl (fun m h => let stripped := py_strip h in
                    assoc_set stripped (canonical_header stripped) m) [] fieldnames.

Definition normalize_headers (fieldnames : list string) : option (list (string * string)) :=
  let mapping := header_mapping fieldnames in
  let canonical_values := mapping.*2 in
  if forallb (fun c => bool_decide (c ∈ canonical_values)) required_columns
     && existsb (fun c => bool_decide (c ∈ canonical_values)) identity_columns
  then Some mapping else None.

Record SettlementRow : Type := mkSettlementRow {
  sr_authority : string;
  sr_ref_id : string;
  sr_amount : Z;
  sr_status : string;
  sr_raw_payload : list (string * json);
}.

#[export] Instance eta_SettlementRow : Eta SettlementRow := fun x => mkSettlementRow
  (sr_authority x) (sr_ref_id x) (sr_amount x) (sr_status x) (sr_raw_payload x).

(** [str(value or dflt)] *)
Definition cell_text (repr : json -> string) (v : json) (dflt : string) : string :=
  if json_true v then py_str repr v else dflt.

(** [_normalize_cell] of the amount: [None] is the import error. *)
Definition normalize_amount (repr : json -> string) (v : json) : option Z :=
  py_int_str (py_remove ","%char (cell_text repr v "0")).

Definition set_cell (repr : json -> string) (row : SettlementRow) (key : string)
    (v : json) : option SettlementRow :=
  if bool_decide (key = "amount")
  then a ← normalize_amount repr v; Some (row <| sr_amount := a |>)
  else
    let text := py_strip (cell_text repr v "") in
    Some (if bool_decide (key = "authority") then row <| sr_authority := text |>
          else if bool_decide (key = "ref_id") then row <| sr_ref_id := text |>
          else if bool_decide (key = "status") then row <| sr_status := text |>
          else row).

(** [_canonicalize_row]: the cells in order, unknown columns skipped. *)
Fixpoint canonicalize_cells (repr : json -> string) (headers : list (string * string))
    (cells : list (string * json)) (row : SettlementRow) : option SettlementRow :=
  match cells with
  | [] => Some row
  | (raw_key, v) :: cells' =>
      match assoc_get (py_strip raw_key) headers with
      | Some key =>
          row' ← set_cell repr row key v; canonicalize_cells repr headers cells' row'
      | None => canonicalize_cells repr headers cells' row
      end
  end.

Definition canonicalize_row (repr : json -> string) (headers : list (string * string))
    (raw_row : list (string * json)) : option SettlementRow :=
  canonicalize_cells repr headers raw_row (mkSettlementRow "" "" 0 "" raw_row).

(** A row with no canonical cell filled in is dropped. *)
Definition row_present (r : SettlementRow) : bool :=
  str_true (sr_authority r) || str_true (sr_ref_id r) || negb (sr_amount r =? 0)%Z
  || str_true (sr_status r).

Definition row_valid (r : SettlementRow) : bool :=
  (str_true (sr_authority r) || str_true (sr_ref_id r)) && (0 <? sr_amount r)%Z
  && str_true (sr_status r).

Definition validate_rows (rows : list SettlementRow) : option (list SettlementRow) :=
  let cleaned := filter (fun r => row_present r = true) rows in
  if forallb row_valid cleaned then Some cleaned else None.

(** [_parse_csv] and [_parse_xlsx] after the reader, then the check of
    [parse_settlement_report] that some row is left. *)
Definition parse_settlement_table (repr : json -> string) (fieldnames : list string)
    (raw_rows : list (list (string * json))) : option (list SettlementRow) :=
  headers ← normalize_headers fieldnames;
  canonical ← mapM (canonicalize_row repr headers) raw_rows;
  rows ← validate_rows canonical;
  match rows with [] => None | _ => Some rows end.

End Import_.

(** * Matching *)

(** [_find_payment_for_reconciliation] *)
Definition find_payment_for_reconciliation (provider_name authority ref_id : string)
    (db : DB) : option Payment :=
  let by_field p := qs_first (objects_filter (fun x =>
    str_eqb (pay_gateway_name x) provider_name && p x) db) in
  let by_ref :=
    if str_true ref_id then by_field (fun x => str_eqb (pay_ref_id x) ref_id) else None in
  if str_true authority
  then match by_field (fun x => str_eqb (pay_authority x) authority) with
       | Some p => Some p
       | None => by_ref
       end
  else by_ref.

Definition provider_success (provider_status : string) : bool :=
  bool_decide (provider_status ∈ ["success"; "paid"; "verified"; "100"; "101"]%string).

(** [_classify_reconciliation_row], with the reason text. *)
Definition classify_reconciliation_row (payment : option Payment) (provider_amount : Z)
    (provider_status : string) (duplicate_ref : bool) :
    ReconciliationItemStatus.t * string :=
  if duplicate_ref
  then (ReconciliationItemStatus.DUPLICATE_PROVIDER_REF,
        "شناسه مرجع در گزارش درگاه تکراری است."%string)
  else match payment with
  | None => (ReconciliationItemStatus.MISSING_INTERNAL,
             "پرداخت متناظر در سیستم داخلی پیدا نشد."%string)
  | Some p =>
      if negb (provider_amount =? 0) && negb (provider_amount =? pay_amount p)
      then (ReconciliationItemStatus.AMOUNT_MISMATCH,
            "مبلغ گزارش درگاه با مبلغ داخلی تطابق ندارد."%string)
      else
        let success := bool_decide (pay_status p = PaymentStatus.SUCCESS) in
        if provider_success provider_status && negb success
        then (ReconciliationItemStatus.STATUS_MISMATCH,
              "درگاه پرداخت را موفق می‌داند اما وضعیت داخلی موفق نیست."%string)
        else if negb (provider_success provider_status) && success
        then (ReconciliationItemStatus.STATUS_MISMATCH,
              "وضعیت داخلی موفق است اما گزارش درگاه موفق نیست."%string)
        else (ReconciliationItemStatus.MATCHED, "تطبیق موفق."%string)
  end.

(** [str(row.get(key) or "").strip()] *)
Definition row_text (repr : json -> string) (key : string) (row : list (string * json)) :
    string :=
  let v := opt_json (assoc_get key row) in
  py_strip (if json_true v then py_str repr v else EmptyString).

(** [int(row.get("amount") or 0)] *)
Definition row_amount (row : list (string * json)) : option Z :=
  let v := opt_json (assoc_get "amount" row) in
  if json_true v then py_int v else Some 0.

Definition reconcile_row (batch : PaymentReconciliationBatch) (seen_refs : list string)
    (row : list (string * json)) : M (list string) :=
  env ← ask;
  let authority := row_text (env_repr env) "authority" row in
  let ref_id := row_text (env_repr env) "ref_id" row in
  let provider_status := py_lower (row_text (env_repr env) "status" row) in
  provider_amount ← match row_amount row with
                    | Some a => mret a
                    | None => raise ValueError
                    end;
  let duplicate_ref := str_true ref_id && bool_decide (ref_id ∈ seen_refs) in
  let seen_refs := if str_true ref_id then ref_id :: seen_refs else seen_refs in
  payment ← query (find_payment_for_reconciliation (rb_provider_name batch)
                     authority ref_id);
  let '(item_status, reason) :=
    classify_reconciliation_row payment provider_amount provider_status duplicate_ref in
  _ ← create (fun i now => mkReconciliationItem i (rb_id batch) (pay_id <$> payment)
        authority ref_id provider_amount provider_status (pay_amount <$> payment)
        (pay_status <$> payment) item_status reason (JObj row) true now now);
  mret seen_refs.

Definition items_of (bid : Z) (p : ReconciliationItemStatus.t -> bool) (db : DB) : Z :=
  qs_count (objects_filter (fun x => (ri_batch x =? bid) && p (ri_status x)) db).

(** [_finalize_reconciliation_batch] *)
Definition finalize_reconciliation_batch (batch : PaymentReconciliationBatch) :
    M PaymentReconciliationBatch :=
  let count p := query (items_of (rb_id batch) p) in
  matched ← count (fun s => bool_decide (s = ReconciliationItemStatus.MATCHED));
  missing ← count (fun s => bool_decide (s = ReconciliationItemStatus.MISSING_INTERNAL));
  duplicate ← count (fun s =>
    bool_decide (s = ReconciliationItemStatus.DUPLICATE_PROVIDER_REF));
  mismatch ← count (fun s => negb (bool_decide (s = ReconciliationItemStatus.MATCHED)));
  now ← timezone_now;
  let finish b := b <| rb_matched_count := matched |>
      <| rb_missing_internal_count := missing |>
      <| rb_duplicate_provider_ref_count := duplicate |>
      <| rb_mismatch_count := mismatch |>
      <| rb_status := ReconciliationStatus.COMPLETED |>
      <| rb_completed_at := Some now |>
      <| rb_summary := JObj [("matched"%string, JInt matched);
           ("mismatches"%string, JInt mismatch);
           ("missing_internal"%string, JInt missing);
           ("duplicate_provider_ref"%string, JInt duplicate)] |>
      <| rb_updated_at := now |> in
  _ ← update_row (rb_id batch) finish;
  mret (finish batch).

Definition reconcile_provider_payments (provider_name : string)
    (report : list (list (string * json))) (source_name : string) :
    M PaymentReconciliationBatch :=
  atomic
    (batch ← create (fun i now => mkReconciliationBatch i
       (py_lower (py_strip provider_name)) (py_strip source_name)
       ReconciliationStatus.DRAFT (Z.of_nat (length report)) 0 0 0 0 (JObj []) None
       true now now);
     _ ← for_fold (reconcile_row batch) [] report;
     finalize_reconciliation_batch batch).

(** * Lemmas *)

Lemma reconcile_provider_payments_frame p r s :
  moves same_core (reconcile_provider_payments p r s).
Proof.
  unfold reconcile_provider_payments, reconcile_row, finalize_reconciliation_batch.
  solve_moves.
Qed.
#[export] Hint Resolve reconcile_provider_payments_frame : moves.
