(* ===== verification/AuditTrail.v ===== *)
(** The audit trail: [src/apps/audit_logs/models.py], [chain.py],
    [services.py] and [retention.py].

    Audit records form a hash chain.  A writer reads the head of the chain,
    links its record to it and inserts; the UNIQUE constraints on the position
    and on the hash decide a race, and the loser reads the head again, up to
    [CHAIN_INSERT_MAX_ATTEMPTS] times.  The [writers] system at the end
    interleaves the reads and the inserts of any number of writers. *)

From S2P Require Import Prelude Python JsonText Orm Models.
From stdpp Require Import sorting.
From Stdlib Require Import Ascii.
#[local] Open Scope Z_scope.

(** * Data *)

Record AuditLog : Type := mkAuditLog {
  aud_id : Z;
  aud_user : option Z;
  aud_action : string;
  aud_ip_address : option string;
  aud_request_id : option string;
  aud_user_agent : string;
  aud_path : string;
  aud_method : string;
  aud_resource_type : string;
  aud_resource_id : option string;
  aud_changes : option json;
  aud_extra_data : option json;
  aud_previous_hash : string;
  aud_event_hash : string;
  aud_hash_version : Z;
  aud_chain_index : option Z;
  aud_is_active : bool;
  aud_created_at : Z;
  aud_updated_at : Z;
}.

#[export] Instance eta_AuditLog : Eta AuditLog := fun x => mkAuditLog
  (aud_id x) (aud_user x) (aud_action x) (aud_ip_address x) (aud_request_id x)
  (aud_user_agent x) (aud_path x) (aud_method x) (aud_resource_type x)
  (aud_resource_id x) (aud_changes x) (aud_extra_data x) (aud_previous_hash x)
  (aud_event_hash x) (aud_hash_version x) (aud_chain_index x) (aud_is_active x)
  (aud_created_at x) (aud_updated_at x).

Definition GENESIS_HASH : string := repeat_char 64 "0"%char.
Definition GENESIS_CHAIN_INDEX : Z := 1.
Definition CHAIN_INSERT_MAX_ATTEMPTS : nat := 8.

Inductive chain_failure : Type := previous_hash_mismatch | event_hash_mismatch.

Inductive audit_exc : Type :=
| AuditLogImmutableError
| AuditLogChainContentionError
| AuditChainVerificationError (audit_log_id : Z) (reason : chain_failure) (checked : Z)
| AuditIntegrityError
| AuditDataError
| AuditDoesNotExist.

#[export] Instance audit_orm : OrmError audit_exc := {
  does_not_exist := AuditDoesNotExist;
  integrity_error := AuditIntegrityError;
  database_error := AuditDataError;
}.

(** The clock, SHA-256, the text of a float, and what the database's address
    column gives back for an address. *)
Record AuditEnv : Type := mkAuditEnv {
  aenv_now : Z;
  aenv_sha256_hexdigest : string -> string;
  aenv_repr : json -> string;
  aenv_stored_ip : string -> option string;
}.

#[export] Instance audit_clock : Clock AuditEnv := aenv_now.

Record AuditDB : Type := mkAuditDB { audit_logs : Table AuditLog }.

(** The column widths; PostgreSQL reports a violation as a data error. *)
Definition audit_columns_ok (x : AuditLog) : bool :=
  max_length 100 (aud_action x) && opt_ok (max_length 80) (aud_request_id x) &&
  max_length 512 (aud_user_agent x) && max_length 512 (aud_path x) &&
  max_length 10 (aud_method x) && max_length 100 (aud_resource_type x) &&
  opt_ok (max_length 100) (aud_resource_id x) && max_length 64 (aud_previous_hash x) &&
  max_length 64 (aud_event_hash x) && positive_small_integer (aud_hash_version x).

(** [unique=True] of the position and of the hash; NULLs do not clash. *)
Definition audit_unique_ok (others : gmap Z AuditLog) (x : AuditLog) : bool :=
  unique_among (fun y => str_eqb (aud_event_hash y) (aud_event_hash x)) others &&
  unique_among (fun y => match aud_chain_index x with
                         | Some k => bool_decide (aud_chain_index y = Some k)
                         | None => false
                         end) others.

#[export] Instance AuditLog_model : Model AuditDB AuditLog := {
  table_of := audit_logs;
  with_table t _ := mkAuditDB t;
  pk := aud_id;
  is_active := aud_is_active;
  created_at := aud_created_at;
  row_ok others x := audit_columns_ok x && audit_unique_ok others x;
}.

#[export] Instance AuditLog_laws : ModelLaws AuditDB AuditLog.
Proof. split; reflexivity. Qed.

Abbreviation AM := (comp AuditEnv AuditDB audit_exc).

(** * Hashing *)

Section Hash.
Local Open Scope string_scope.

Definition audit_payload (previous_hash : string) (x : AuditLog) : json :=
  JObj [("hash_version", JInt (aud_hash_version x));
        ("previous_hash", JStr previous_hash);
        ("user_id", json_opt_int (aud_user x));
        ("action", JStr (aud_action x));
        ("ip_address", json_opt_str (aud_ip_address x));
        ("request_id", json_opt_str (aud_request_id x));
        ("user_agent", JStr (aud_user_agent x));
        ("path", JStr (aud_path x));
        ("method", JStr (aud_method x));
        ("resource_type", JStr (aud_resource_type x));
        ("resource_id", json_opt_str (aud_resource_id x));
        ("changes", opt_json (aud_changes x));
        ("extra_data", opt_json (aud_extra_data x))].

Definition audit_text (env : AuditEnv) (previous_hash : string) (x : AuditLog) : string :=
  json_dumps (aenv_repr env) (audit_payload previous_hash x).

Definition compute_event_hash (env : AuditEnv) (previous_hash : string) (x : AuditLog) :
    string := aenv_sha256_hexdigest env (audit_text env previous_hash x).
End Hash.

(** * Writing *)

(** [_read_chain_head]: the row with the greatest position, as its position
    and hash. *)
Definition read_chain_head (db : AuditDB) : option (Z * string) :=
  map_fold (fun _ x acc =>
    match aud_chain_index x, acc with
    | None, _ => acc
    | Some k, Some (k', _) => if k' <? k then Some (k, aud_event_hash x) else acc
    | Some k, None => Some (k, aud_event_hash x)
    end) None (rows_of db).

Definition link_to_chain_head (x : AuditLog) : AM AuditLog :=
  env ← ask;
  head ← query read_chain_head;
  let '(index, previous) := match head with
                            | None => (GENESIS_CHAIN_INDEX, GENESIS_HASH)
                            | Some (k, h) => (k + 1, h)
                            end in
  mret (x <| aud_chain_index := Some index |> <| aud_previous_hash := previous |>
          <| aud_event_hash := compute_event_hash env previous x |>).

(** [super().save()] of a new instance: the INSERT.  The row holds the address
    as the column stores it. *)
Definition insert_audit (x : AuditLog) : AM AuditLog := fun env db =>
  let row := x <| aud_id := next_id (table_of (A := AuditLog) db) |>
               <| aud_ip_address := aud_ip_address x ≫= aenv_stored_ip env |>
               <| aud_created_at := aenv_now env |> <| aud_updated_at := aenv_now env |> in
  if negb (audit_columns_ok row) then (Raise AuditDataError, db)
  else if audit_unique_ok (rows_of db) row then (Ok row, add_row row db)
  else (Raise AuditIntegrityError, db).

(** The loop of [save], with the attempts left. *)
Fixpoint save_attempts (n : nat) (x : AuditLog) : AM AuditLog :=
  match n with
  | O => raise AuditLogChainContentionError
  | S n' =>
      linked ← link_to_chain_head x;
      try_catch (atomic (insert_audit linked))
        (fun e => match e with
                  | AuditIntegrityError => Some (save_attempts n' x)
                  | _ => None
                  end)
  end.

(** A record that carries its position and hashes already is inserted as is. *)
Definition sealed (x : AuditLog) : bool :=
  bool_decide (is_Some (aud_chain_index x)) && str_true (aud_previous_hash x) &&
  str_true (aud_event_hash x).

Definition audit_save (adding : bool) (x : AuditLog) : AM AuditLog :=
  if negb (aud_id x =? 0) && negb adding then raise AuditLogImmutableError
  else if sealed x then insert_audit x
  else save_attempts CHAIN_INSERT_MAX_ATTEMPTS x.

Definition audit_delete (x : AuditLog) : AM unit := raise AuditLogImmutableError.
Definition audit_soft_delete (x : AuditLog) : AM unit := raise AuditLogImmutableError.
Definition audit_restore (x : AuditLog) : AM unit := raise AuditLogImmutableError.
Definition audit_queryset_update (upd : AuditLog -> AuditLog) : AM Z :=
  raise AuditLogImmutableError.
Definition audit_queryset_delete : AM Z := raise AuditLogImmutableError.
Definition audit_queryset_soft_delete : AM unit := raise AuditLogImmutableError.
Definition audit_queryset_restore : AM unit := raise AuditLogImmutableError.

(** The arguments of [create_audit_log] as an unsaved instance. *)
Definition new_audit_log (user : option Z) (action resource_type : string)
    (resource_id ip_address request_id : option string)
    (user_agent path method : string) (changes extra_data : option json) : AuditLog :=
  mkAuditLog 0 user action ip_address request_id user_agent path method resource_type
    resource_id changes extra_data "" "" 1 None true 0 0.

Definition create_audit_log (user : option Z) (action resource_type : string)
    (resource_id ip_address request_id : option string)
    (user_agent path method : string) (changes extra_data : option json) : AM AuditLog :=
  audit_save true (new_audit_log user action resource_type resource_id ip_address
    request_id user_agent path method changes extra_data).

(** [log_action_async]: [broker] tells whether the task could be queued; the
    fallback writes in the request and lets no exception out. *)
Definition log_action_async (broker : bool) (x : AuditLog) : AM unit :=
  if broker then mret tt
  else try_catch (_ ← audit_save true x; mret tt) (fun _ => Some (mret tt)).

(** [on_delete=models.SET_NULL] of the [user] column, when a user is deleted. *)
Definition user_deleted (user : Z) (db : AuditDB) : AuditDB :=
  mkAuditDB (mkTable
    ((fun x => if bool_decide (aud_user x = Some user) then x <| aud_user := None |> else x)
       <$> rows_of db)
    (next_id (table_of (A := AuditLog) db))).

(** * Verification *)

(** [order_by("chain_index", "id")]: NULL positions last. *)
Definition chain_before (x y : AuditLog) : bool :=
  match aud_chain_index x, aud_chain_index y with
  | Some i, Some j => (i <? j) || (i =? j) && (aud_id x <=? aud_id y)
  | Some _, None => true
  | None, Some _ => false
  | None, None => aud_id x <=? aud_id y
  end.

Definition chain_le (x y : AuditLog) : Prop := chain_before x y = true.

#[export] Instance chain_le_dec x y : Decision (chain_le x y).
Proof. unfold chain_le. apply _. Defined.

Definition chain_order (db : AuditDB) : list AuditLog :=
  merge_sort chain_le (map_to_list (rows_of db)).*2.

Record AuditChainVerificationResult : Type := mkVerification {
  avr_verified : bool;
  avr_checked : Z;
  avr_head_hash : string;
  avr_verified_at : string;
  avr_hash_version : Z;
}.

(** The loop of [verify_audit_chain_integrity] from its three variables. *)
Fixpoint verify_links (env : AuditEnv) (previous_hash : string) (checked version : Z)
    (l : list AuditLog) : outcome audit_exc (string * Z * Z) :=
  match l with
  | [] => Ok (previous_hash, checked, version)
  | x :: l' =>
      if negb (str_eqb (aud_previous_hash x) previous_hash)
      then Raise (AuditChainVerificationError (aud_id x) previous_hash_mismatch checked)
      else if negb (str_eqb (aud_event_hash x) (compute_event_hash env previous_hash x))
      then Raise (AuditChainVerificationError (aud_id x) event_hash_mismatch checked)
      else verify_links env (aud_event_hash x) (checked + 1) (aud_hash_version x) l'
  end.

Definition verify_audit_chain_integrity : AM AuditChainVerificationResult := fun env db =>
  match verify_links env GENESIS_HASH 0 1 (chain_order db) with
  | Ok (head, checked, version) =>
      (Ok (mkVerification true checked head (isoformat (aenv_now env)) version), db)
  | Raise e => (Raise e, db)
  end.

(** [build_audit_retention_report]: the counts. *)
Definition retention_counts (retention_days : Z) : AM (Z * Z) :=
  now ← timezone_now;
  query (fun db =>
    let cutoff := now - retention_days * usec_per_day in
    (qs_count (filter (fun kx => (aud_created_at kx.2 <? cutoff) = true) (rows_of db)),
     qs_count (rows_of db))).

(** * The chain invariant *)

Section Chain.
Context (sha256 : string -> string) (repr : json -> string) (stored_ip : string -> option string).
Local Abbreviation at_time t := (mkAuditEnv t sha256 repr stored_ip).

(** [l] is a chain that goes on from the hash [previous] at position [k]. *)
Fixpoint chained (previous : string) (k : Z) (l : list AuditLog) : Prop :=
  match l with
  | [] => True
  | x :: l' =>
      aud_chain_index x = Some k /\ aud_previous_hash x = previous /\
      aud_event_hash x = compute_event_hash (at_time 0) previous x /\
      chained (aud_event_hash x) (k + 1) l'
  end.

(** The hash a chain ends with. *)
Definition head_of (previous : string) (l : list AuditLog) : string :=
  default previous (aud_event_hash <$> last l).

(** The records of the table are a chain, in the order of their positions. *)
Definition is_chain (db : AuditDB) (l : list AuditLog) : Prop :=
  (map_to_list (rows_of db)).*2 ≡ₚ l /\ chained GENESIS_HASH GENESIS_CHAIN_INDEX l.

Lemma head_of_cons previous x l : head_of previous (x :: l) = head_of (aud_event_hash x) l.
Proof.
  unfold head_of. destruct l as [|y l _] using rev_ind; [done|].
  by rewrite app_comm_cons, !last_snoc.
Qed.

Lemma chained_app previous k l1 l2 :
  chained previous k (l1 ++ l2) <->
  chained previous k l1 /\ chained (head_of previous l1) (k + Z.of_nat (length l1)) l2.
Proof.
  revert previous k. induction l1 as [|x l1 IH]; intros previous k.
  - simpl. rewrite Z.add_0_r. tauto.
  - rewrite head_of_cons. simpl. rewrite IH.
    replace (k + 1 + Z.of_nat (length l1)) with (k + Z.of_nat (S (length l1))) by lia. tauto.
Qed.

Lemma chained_lookup previous k l i x :
  chained previous k l -> l !! i = Some x -> aud_chain_index x = Some (k + Z.of_nat i).
Proof.
  revert previous k i. induction l as [|y l IH]; intros previous k [|i] Hc Hi; try done.
  - simpl in Hi. destruct Hc as [Hk _]. simplify_eq. rewrite Hk. f_equal. lia.
  - simpl in Hi. destruct Hc as (_ & _ & _ & Hc). rewrite (IH _ _ _ Hc Hi). f_equal. lia.
Qed.

Lemma chained_elem previous k l x :
  chained previous k l -> x ∈ l ->
  exists j, aud_chain_index x = Some j /\ k <= j < k + Z.of_nat (length l).
Proof.
  intros Hc [i Hi]%list_elem_of_lookup. exists (k + Z.of_nat i).
  split; [by eapply chained_lookup|]. apply lookup_lt_Some in Hi. lia.
Qed.

Lemma chained_sorted previous k l : chained previous k l -> StronglySorted chain_le l.
Proof.
  revert previous k. induction l as [|x l IH]; intros previous k Hc; constructor.
  - destruct Hc as (_ & _ & _ & Hc). by eapply IH.
  - destruct Hc as (Hk & _ & _ & Hc). apply Forall_forall. intros y Hy.
    apply (chained_elem _ _ _ _ Hc) in Hy as (j & Hj & Hlt).
    unfold chain_le, chain_before. rewrite Hk, Hj.
    replace (k <? j) with true by (symmetry; apply Z.ltb_lt; lia). done.
Qed.

#[export] Instance chain_le_total : Total chain_le.
Proof.
  intros x y. unfold chain_le, chain_before.
  destruct (aud_chain_index x) as [i|], (aud_chain_index y) as [j|]; try tauto;
    rewrite ?orb_true_iff, ?andb_true_iff, ?Z.ltb_lt, ?Z.eqb_eq, ?Z.leb_le; lia.
Qed.

#[export] Instance chain_le_trans : Transitive chain_le.
Proof.
  intros x y z. unfold chain_le, chain_before.
  destruct (aud_chain_index x) as [i|], (aud_chain_index y) as [j|],
    (aud_chain_index z) as [k|]; try done;
    rewrite ?orb_true_iff, ?andb_true_iff, ?Z.ltb_lt, ?Z.eqb_eq, ?Z.leb_le; lia.
Qed.

(** The order the verification reads the records in is the chain. *)
Lemma chain_order_of db l : is_chain db l -> chain_order db = l.
Proof.
  intros [Hp Hc]. unfold chain_order. apply (StronglySorted_unique_strong chain_le).
  - intros x y Hx Hy Hxy Hyx. rewrite merge_sort_Permutation, Hp in Hx.
    apply list_elem_of_lookup in Hx as [i Hi], Hy as [j Hj].
    pose proof (chained_lookup _ _ _ _ _ Hc Hi) as Hki.
    pose proof (chained_lookup _ _ _ _ _ Hc Hj) as Hkj.
    unfold chain_le, chain_before in Hxy, Hyx. rewrite Hki, Hkj in Hxy, Hyx.
    rewrite ?orb_true_iff, ?andb_true_iff, ?Z.ltb_lt, ?Z.eqb_eq, ?Z.leb_le in Hxy, Hyx.
    assert (i = j) as -> by lia. congruence.
  - apply StronglySorted_merge_sort; apply _.
  - by eapply chained_sorted.
  - by rewrite merge_sort_Permutation.
Qed.

Lemma compute_event_hash_time t previous x :
  compute_event_hash (at_time t) previous x = compute_event_hash (at_time 0) previous x.
Proof. done. Qed.

Lemma verify_links_chained t previous k l :
  chained previous k l -> forall checked version, exists version',
  verify_links (at_time t) previous checked version l
    = Ok (head_of previous l, checked + Z.of_nat (length l), version').
Proof.
  revert previous k. induction l as [|x l IH]; intros previous k Hc checked version.
  - exists version. simpl. by rewrite Z.add_0_r.
  - destruct Hc as (_ & Hp & Hh & Hc). cbn [verify_links length].
    rewrite compute_event_hash_time.
    unfold str_eqb. rewrite !bool_decide_true by done. cbn [negb].
    destruct (IH _ _ Hc (checked + 1) (aud_hash_version x)) as [v' Hv].
    exists v'. rewrite Hv, head_of_cons. do 2 f_equal. f_equal. lia.
Qed.

Lemma verify_of_chain t db l :
  is_chain db l -> exists version,
  verify_audit_chain_integrity (at_time t) db
    = (Ok (mkVerification true (Z.of_nat (length l)) (head_of GENESIS_HASH l)
             (isoformat t) version), db).
Proof.
  intros Hl. unfold verify_audit_chain_integrity. rewrite (chain_order_of _ _ Hl).
  destruct Hl as [_ Hc]. destruct (verify_links_chained t _ _ _ Hc 0 1) as [v ->].
  by exists v.
Qed.

Lemma is_chain_elem db l x : is_chain db l -> x ∈ l <-> exists i, rows_of db !! i = Some x.
Proof.
  intros [Hp _]. rewrite <- Hp, list_elem_of_fmap. split.
  - intros ([i y] & -> & Hy). exists i. by apply elem_of_map_to_list.
  - intros [i Hi]. exists (i, x). by rewrite elem_of_map_to_list.
Qed.

(** ** The head *)

Lemma read_chain_head_spec db :
  match read_chain_head db with
  | Some (k, h) =>
      (exists i x, rows_of db !! i = Some x /\ aud_chain_index x = Some k /\
                   aud_event_hash x = h) /\
      (forall i x j, rows_of db !! i = Some x -> aud_chain_index x = Some j -> j <= k)
  | None => forall i x, rows_of db !! i = Some x -> aud_chain_index x = None
  end.
Proof.
  unfold read_chain_head.
  apply (map_fold_weak_ind (fun r (m : gmap Z AuditLog) => match r with
    | Some (k, h) =>
        (exists i x, m !! i = Some x /\ aud_chain_index x = Some k /\ aud_event_hash x = h) /\
        (forall i x j, m !! i = Some x -> aud_chain_index x = Some j -> j <= k)
    | None => forall i x, m !! i = Some x -> aud_chain_index x = None
    end)); [done|].
  intros i x m r Hi IH.
  assert (forall h k, (exists j y, m !! j = Some y /\ aud_chain_index y = Some k /\
                         aud_event_hash y = h) ->
    exists j y, <[i:=x]> m !! j = Some y /\ aud_chain_index y = Some k /\ aud_event_hash y = h)
    as Hkeep.
  { intros h k (j & y & Hj & ?). exists j, y. rewrite lookup_insert_ne; [done|congruence]. }
  destruct (aud_chain_index x) as [k|] eqn:Hk, r as [[k' h']|].
  - destruct IH as [Hex Hmax]. destruct (Z.ltb_spec k' k); split.
    + exists i, x. by rewrite lookup_insert_eq.
    + intros j y z [[<- <-]|[_ Hy]]%lookup_insert_Some Hz; [simplify_eq; lia|].
      specialize (Hmax _ _ _ Hy Hz). lia.
    + by apply Hkeep.
    + intros j y z [[<- <-]|[_ Hy]]%lookup_insert_Some Hz; [simplify_eq; lia|eauto].
  - split; [exists i, x; by rewrite lookup_insert_eq|].
    intros j y z [[<- <-]|[_ Hy]]%lookup_insert_Some Hz; [simplify_eq; lia|].
    apply IH in Hy. congruence.
  - destruct IH as [Hex Hmax]. split; [by apply Hkeep|].
    intros j y z [[<- <-]|[_ Hy]]%lookup_insert_Some Hz; [congruence|eauto].
  - intros j y [[<- <-]|[_ Hy]]%lookup_insert_Some; eauto.
Qed.

Definition chain_head (l : list AuditLog) : option (Z * string) :=
  match l with [] => None | _ => Some (Z.of_nat (length l), head_of GENESIS_HASH l) end.

Lemma read_chain_head_of db l : is_chain db l -> read_chain_head db = chain_head l.
Proof.
  intros Hl. pose proof (read_chain_head_spec db) as Hs.
  destruct l as [|y l _] using rev_ind.
  - destruct (read_chain_head db) as [[k h]|]; [|done].
    destruct Hs as [(i & x & Hx & _) _]. exfalso. apply (not_elem_of_nil x).
    apply (is_chain_elem _ _ _ Hl). eauto.
  - pose proof Hl as [_ Hc].
    assert ((l ++ [y]) !! length l = Some y) as Hlast by by apply list_lookup_middle.
    pose proof (chained_lookup _ _ _ _ _ Hc Hlast) as Hky.
    assert (exists i, rows_of db !! i = Some y) as [iy Hiy].
    { apply (is_chain_elem _ _ _ Hl). by eapply list_elem_of_lookup_2. }
    destruct (read_chain_head db) as [[k h]|]; [|by rewrite (Hs _ _ Hiy) in Hky].
    destruct Hs as [(i & x & Hx & Hkx & <-) Hmax].
    pose proof (Hmax _ _ _ Hiy Hky) as Hle.
    assert (x ∈ l ++ [y]) as [j Hj]%list_elem_of_lookup by (apply (is_chain_elem _ _ _ Hl); eauto).
    pose proof (chained_lookup _ _ _ _ _ Hc Hj) as Hkj. pose proof (lookup_lt_Some _ _ _ Hj) as Hlt.
    rewrite length_app in Hlt. simpl in Hlt.
    unfold GENESIS_CHAIN_INDEX in *. assert (j = length l) as -> by (simplify_eq; lia).
    assert (x = y) as -> by congruence.
    unfold chain_head, head_of. rewrite last_snoc, length_app. simpl.
    destruct (l ++ [y]) eqn:Hnil; [by destruct l|]. do 2 f_equal. simplify_eq. lia.
Qed.

(** ** Linking and inserting *)

(** [y] was linked to the chain when [l1], a beginning of [l], was all of it. *)
Definition pending (l : list AuditLog) (y : AuditLog) : Prop :=
  exists l1 l2, l = l1 ++ l2 /\
    aud_chain_index y = Some (GENESIS_CHAIN_INDEX + Z.of_nat (length l1)) /\
    aud_previous_hash y = head_of GENESIS_HASH l1 /\
    aud_event_hash y = compute_event_hash (at_time 0) (head_of GENESIS_HASH l1) y.

Lemma pending_app l l' y : pending l y -> pending (l ++ l') y.
Proof.
  intros (l1 & l2 & -> & Hy). exists l1, (l2 ++ l'). by rewrite app_assoc.
Qed.

(** The address column gives the address back as it was. *)
Definition stable_ip (x : AuditLog) : Prop :=
  aud_ip_address x ≫= stored_ip = aud_ip_address x.

Definition same_content (x y : AuditLog) : Prop :=
  aud_ip_address y = aud_ip_address x /\ aud_user y = aud_user x /\
  aud_action y = aud_action x /\ aud_resource_type y = aud_resource_type x /\
  aud_resource_id y = aud_resource_id x /\ aud_changes y = aud_changes x /\
  aud_extra_data y = aud_extra_data x.

Lemma link_ok t x db l : is_chain db l ->
  exists y, link_to_chain_head x (at_time t) db = (Ok y, db) /\ pending l y /\ same_content x y.
Proof.
  intros Hl. unfold link_to_chain_head.
  erewrite bind_ok by reflexivity. erewrite bind_ok by reflexivity.
  rewrite (read_chain_head_of _ _ Hl). destruct l as [|z l]; simpl.
  - eexists. split; [reflexivity|]. split; [|done]. by exists [], [].
  - eexists. split; [reflexivity|]. split; [|done].
    exists (z :: l), []. rewrite app_nil_r. split; [done|].
    split; [|done]. simpl. f_equal. unfold GENESIS_CHAIN_INDEX. lia.
Qed.

Lemma link_returns t x db : exists y, link_to_chain_head x (at_time t) db = (Ok y, db).
Proof.
  unfold link_to_chain_head. erewrite bind_ok by reflexivity. erewrite bind_ok by reflexivity.
  destruct (read_chain_head db) as [[k h]|]; by eexists.
Qed.

Lemma link_ok_head t x db l y :
  is_chain db l -> link_to_chain_head x (at_time t) db = (Ok y, db) ->
  aud_chain_index y = Some (GENESIS_CHAIN_INDEX + Z.of_nat (length l)) /\
  aud_event_hash y = compute_event_hash (at_time 0) (head_of GENESIS_HASH l) x.
Proof.
  intros Hl. unfold link_to_chain_head.
  erewrite bind_ok by reflexivity. erewrite bind_ok by reflexivity.
  rewrite (read_chain_head_of _ _ Hl). destruct l as [|z l]; simpl; intros [= <-]; simpl.
  - done.
  - split; [|done]. unfold GENESIS_CHAIN_INDEX. f_equal. lia.
Qed.

Lemma insert_audit_ok_inv t y row db db' :
  insert_audit y (at_time t) db = (Ok row, db') ->
  row = y <| aud_id := next_id (table_of (A := AuditLog) db) |>
          <| aud_ip_address := aud_ip_address y ≫= stored_ip |>
          <| aud_created_at := t |> <| aud_updated_at := t |> /\
  audit_unique_ok (rows_of db) row = true /\ db' = add_row row db.
Proof.
  unfold insert_audit. destruct (negb _); [done|].
  destruct (audit_unique_ok _ _) eqn:Hu; [|done]. by intros [= <- <-].
Qed.

Lemma insert_audit_raise_inv t y e db db' :
  insert_audit y (at_time t) db = (Raise e, db') ->
  db' = db /\ (e = AuditDataError \/ e = AuditIntegrityError).
Proof.
  unfold insert_audit. destruct (negb _); [intros [= <- <-]; auto|].
  destruct (audit_unique_ok _ _); [done|]. intros [= <- <-]. auto.
Qed.

Lemma add_row_chain (x : AuditLog) db l :
  table_good (table_of (A := AuditLog) db) -> is_chain db l ->
  chained (head_of GENESIS_HASH l) (GENESIS_CHAIN_INDEX + Z.of_nat (length l)) [x] ->
  is_chain (add_row x db) (l ++ [x]).
Proof.
  intros [_ Hwf] [Hp Hc] Hx. split; [|by apply chained_app].
  rewrite rows_of_add_row, map_to_list_insert by by apply fresh_key.
  simpl. rewrite Hp. by rewrite Permutation_cons_append.
Qed.

(** The position is free only if nothing was appended since the head was read. *)
Lemma insert_audit_chain t y row db db' l :
  table_good (table_of (A := AuditLog) db) -> is_chain db l -> pending l y -> stable_ip y ->
  insert_audit y (at_time t) db = (Ok row, db') ->
  is_chain db' (l ++ [row]) /\ table_good (table_of (A := AuditLog) db') /\ same_content y row.
Proof.
  intros Hg Hl (l1 & l2 & -> & Hk & Hprev & Hh) Hip H.
  apply insert_audit_ok_inv in H as (-> & Hu & ->). unfold stable_ip in Hip. rewrite Hip in *.
  destruct l2 as [|z l2].
  - rewrite app_nil_r in *. split.
    + apply add_row_chain; [done|done|]. by repeat split.
    + split; [by apply add_row_good|done].
  - exfalso. unfold audit_unique_ok in Hu. rewrite andb_true_iff, !unique_among_spec in Hu.
    destruct Hu as [_ Hu]. cbn in Hu. rewrite Hk in Hu.
    assert (z ∈ l1 ++ z :: l2) as [i Hi]%(is_chain_elem _ _ _ Hl) by set_solver.
    specialize (Hu i z Hi). apply bool_decide_eq_false in Hu. apply Hu.
    destruct Hl as [_ Hc]. apply (chained_lookup _ _ _ (length l1) _ Hc).
    by apply list_lookup_middle.
Qed.

(** * Concurrent writers *)

(** A writer inside [save]: its record, the attempts left, the record linked
    to the head it has read, and its outcome. *)
Record Writer : Type := mkWriter {
  wr_log : AuditLog;
  wr_left : nat;
  wr_linked : option AuditLog;
  wr_result : option (outcome audit_exc AuditLog);
}.

Definition after_insert (x : AuditLog) (n : nat) (r : outcome audit_exc AuditLog) : Writer :=
  match r with
  | Raise AuditIntegrityError => mkWriter x n None None
  | _ => mkWriter x n None (Some r)
  end.

Definition writers : Type := AuditDB * gmap nat Writer.

(** Reads and inserts of the writers in any order, each at any time. *)
Inductive writer_step : writers -> writers -> Prop :=
| writer_starts db ws i x :
    ws !! i = None -> sealed x = false -> stable_ip x ->
    writer_step (db, ws)
      (db, <[i := mkWriter x CHAIN_INSERT_MAX_ATTEMPTS None None]> ws)
| writer_reads db ws i x n t y db' :
    ws !! i = Some (mkWriter x (S n) None None) ->
    link_to_chain_head x (at_time t) db = (Ok y, db') ->
    writer_step (db, ws) (db', <[i := mkWriter x (S n) (Some y) None]> ws)
| writer_inserts db ws i x n y t r db' :
    ws !! i = Some (mkWriter x (S n) (Some y) None) ->
    atomic (insert_audit y) (at_time t) db = (r, db') ->
    writer_step (db, ws) (db', <[i := after_insert x n r]> ws)
| writer_gives_up db ws i x :
    ws !! i = Some (mkWriter x 0 None None) ->
    writer_step (db, ws)
      (db, <[i := mkWriter x 0 None (Some (Raise AuditLogChainContentionError))]> ws).

Inductive writer_steps : writers -> writers -> Prop :=
| writers_stay s : writer_steps s s
| writers_go s s1 s2 : writer_step s s1 -> writer_steps s1 s2 -> writer_steps s s2.

Lemma writer_steps_trans s1 s2 s3 :
  writer_steps s1 s2 -> writer_steps s2 s3 -> writer_steps s1 s3.
Proof. induction 1; eauto using writer_steps. Qed.

Definition empty_trail : AuditDB := mkAuditDB (mkTable ∅ 1).
Definition trail_reachable (s : writers) : Prop := writer_steps (empty_trail, ∅) s.

Definition writer_ok (l : list AuditLog) (w : Writer) : Prop :=
  stable_ip (wr_log w) /\
  (forall y, wr_linked w = Some y -> pending l y /\ same_content (wr_log w) y) /\
  (forall y, wr_result w = Some (Ok y) -> y ∈ l /\ same_content (wr_log w) y).

Definition writers_ok (l : list AuditLog) (s : writers) : Prop :=
  is_chain s.1 l /\ table_good (table_of (A := AuditLog) s.1) /\
  forall i w, s.2 !! i = Some w -> writer_ok l w.

Lemma writer_ok_app l l' w : writer_ok l w -> writer_ok (l ++ l') w.
Proof.
  intros (Hip & Hlk & Hres). split; [done|]. split.
  - intros y Hy. destruct (Hlk y Hy). split; [by apply pending_app|done].
  - intros y Hy. destruct (Hres y Hy). split; [set_solver|done].
Qed.

Lemma writers_ok_update l l' db db' ws i w :
  writers_ok l (db, ws) -> is_chain db' (l ++ l') ->
  table_good (table_of (A := AuditLog) db') -> writer_ok (l ++ l') w ->
  writers_ok (l ++ l') (db', <[i := w]> ws).
Proof.
  intros (_ & _ & Hws) Hl Hg Hw. split; [done|]. split; [done|].
  intros j w' Hj. simpl in Hj. apply lookup_insert_Some in Hj as [[<- <-]|[_ Hj]]; [done|].
  by apply writer_ok_app, (Hws j).
Qed.

Lemma same_content_trans x y z : same_content x y -> same_content y z -> same_content x z.
Proof. unfold same_content. intuition congruence. Qed.

Lemma stable_ip_content x y : stable_ip x -> same_content x y -> stable_ip y.
Proof. unfold stable_ip. intros Hx (-> & _). done. Qed.

(** A step appends at most one record to the chain. *)
Lemma writer_step_ok l s s' :
  writers_ok l s -> writer_step s s' -> exists l', writers_ok (l ++ l') s'.
Proof.
  intros Hok Hstep. pose proof Hok as (Hl & Hg & Hws).
  destruct Hstep as [db ws i x Hi Hs Hip|db ws i x n t y db' Hi H|db ws i x n y t r db' Hi H
    |db ws i x Hi]; simpl in Hl, Hg, Hws.
  - exists []. apply (writers_ok_update _ _ db); rewrite ?app_nil_r; done.
  - destruct (Hws _ _ Hi) as (Hip & _ & _).
    destruct (link_ok t x db l Hl) as (y' & Hy' & Hp & Hc). rewrite Hy' in H. simplify_eq.
    exists []. apply (writers_ok_update _ _ db'); rewrite ?app_nil_r; try done.
    split; [done|]. split; [|done]. intros y' [= <-]. done.
  - destruct (Hws _ _ Hi) as (Hip & Hlk & _). destruct (Hlk y eq_refl) as [Hp Hc].
    destruct r as [row|e].
    + apply atomic_ok_inv in H.
      assert (stable_ip y) as Hy by by eapply stable_ip_content.
      destruct (insert_audit_chain _ _ _ _ _ _ Hg Hl Hp Hy H) as (Hl' & Hg' & Hcr).
      exists [row]. apply (writers_ok_update _ _ db); try done.
      split; [done|]. split; [done|]. intros y' [= <-]. simpl. split; [set_solver|].
      by eapply same_content_trans.
    + apply atomic_raise_inv in H as ->. exists [].
      apply (writers_ok_update _ _ db); rewrite ?app_nil_r; try done.
      destruct e; split; try done; by split.
  - destruct (Hws _ _ Hi) as (Hip & _ & _). exists [].
    by apply (writers_ok_update _ _ db); rewrite ?app_nil_r.
Qed.

Lemma writer_steps_ok s s' : writer_steps s s' -> forall l,
  writers_ok l s -> exists l', writers_ok (l ++ l') s'.
Proof.
  induction 1 as [s|s s1 s2 Hstep _ IH]; intros l Hok.
  - exists []. by rewrite app_nil_r.
  - destruct (writer_step_ok _ _ _ Hok Hstep) as [l1 Hok1].
    destruct (IH _ Hok1) as [l2 Hok2]. exists (l1 ++ l2). by rewrite app_assoc.
Qed.

Lemma empty_trail_ok : writers_ok [] (empty_trail, ∅).
Proof.
  split; [by split|]. split; [|by intros i w Hi; simpl in Hi; rewrite lookup_empty in Hi].
  split; [simpl; lia|]. intros i x Hi. done.
Qed.

Lemma trail_reachable_ok s : trail_reachable s -> exists l, writers_ok l s.
Proof. intros H. destruct (writer_steps_ok _ _ H [] empty_trail_ok) as [l Hl]. by exists l. Qed.

Lemma chain_length db l : is_chain db l -> Z.of_nat (length l) = qs_count (rows_of (A := AuditLog) db).
Proof.
  intros [Hp _]. unfold qs_count. rewrite <- Hp, length_fmap.
  by rewrite <- length_map_to_list.
Qed.

(** C9: whatever the order in which any number of writers read the head of the
    chain and insert their records, the chain neither forks nor gets a gap: the
    verification of the whole trail succeeds at every moment, over all records.  The
    records are new ones, not linked before ([sealed]), whose address, if there is
    one, is given in the form in which the column keeps it ([stable_ip]): a record with
    an address in another notation makes the verification fail
    ([unstable_address_breaks_the_chain]), and nothing else writes to the table. *)
Theorem audit_chain_never_forks s t :
  trail_reachable s ->
  exists r, verify_audit_chain_integrity (at_time t) s.1 = (Ok r, s.1) /\
    avr_verified r = true /\ avr_checked r = qs_count (rows_of (A := AuditLog) s.1).
Proof.
  intros [l (Hl & _)]%trail_reachable_ok.
  destruct (verify_of_chain t _ _ Hl) as [v ->].
  eexists. split; [reflexivity|]. split; [done|]. by apply chain_length.
Qed.

(** The trail is append-only: along any run of the writers the records
    that were there keep their place and their content, new ones come after
    them, and a writer that reports success has its own content in the trail. *)
Theorem audit_trail_grows_at_the_end s s' :
  trail_reachable s -> writer_steps s s' ->
  chain_order s.1 `prefix_of` chain_order s'.1 /\
  forall i w y, s'.2 !! i = Some w -> wr_result w = Some (Ok y) ->
    y ∈ chain_order s'.1 /\ same_content (wr_log w) y.
Proof.
  intros [l Hl]%trail_reachable_ok Hsteps.
  destruct (writer_steps_ok _ _ Hsteps _ Hl) as [l' (Hl' & _ & Hws)].
  rewrite (chain_order_of _ _ (proj1 Hl)), (chain_order_of _ _ Hl').
  split; [by exists l'|]. intros i w y Hi Hy. by apply (Hws i w Hi).
Qed.

(** * One writer *)

Lemma insert_audit_clash t y db db' l :
  is_chain db l -> pending l y ->
  aud_chain_index y = Some (GENESIS_CHAIN_INDEX + Z.of_nat (length l)) ->
  insert_audit y (at_time t) db = (Raise AuditIntegrityError, db') ->
  exists z, z ∈ l /\ aud_event_hash z = aud_event_hash y.
Proof.
  intros Hl _ Hk. unfold insert_audit. destruct (negb _); [done|].
  destruct (audit_unique_ok _ _) eqn:Hu; [done|]. intros _.
  unfold audit_unique_ok in Hu. apply andb_false_iff in Hu as [Hu|Hu];
    unfold unique_among in Hu; apply bool_decide_eq_false, map_not_Forall in Hu
      as (i & z & Hz & Hp); [|apply _| |apply _]; cbn in Hp; apply not_false_iff_true in Hp.
  - exists z. split; [apply (is_chain_elem _ _ _ Hl); eauto|]. by apply bool_decide_eq_true in Hp.
  - exfalso. rewrite Hk in Hp. apply bool_decide_eq_true in Hp.
    assert (z ∈ l) as Hzl by (apply (is_chain_elem _ _ _ Hl); eauto).
    destruct (chained_elem _ _ _ _ (proj2 Hl) Hzl) as (j & Hj & Hlt).
    rewrite Hp in Hj. simplify_eq. lia.
Qed.

(** A writer that no other writer disturbs appends its record at the first
    attempt, with its content unchanged; otherwise the trail is as it was, and
    either a column is too short for the record or its hash is that of a record
    already in the trail. *)
Theorem lone_save_appends s t x r db' :
  trail_reachable s -> sealed x = false -> stable_ip x ->
  audit_save true x (at_time t) s.1 = (r, db') ->
  match r with
  | Ok row => chain_order db' = chain_order s.1 ++ [row] /\ same_content x row
  | Raise e => db' = s.1 /\
      (e = AuditDataError \/
       e = AuditLogChainContentionError /\
       exists y, y ∈ chain_order s.1 /\ aud_event_hash y = compute_event_hash (at_time 0)
         (head_of GENESIS_HASH (chain_order s.1)) x)
  end.
Proof.
  intros [l (Hl & Hg & _)]%trail_reachable_ok Hs Hip. unfold audit_save.
  rewrite andb_false_r, Hs. rewrite (chain_order_of _ _ Hl).
  assert (forall n, save_attempts (S n) x (at_time t) s.1 = (r, db') ->
    match r with
    | Ok row => chain_order db' = l ++ [row] /\ same_content x row
    | Raise e => db' = s.1 /\ (e = AuditDataError \/
        e = AuditLogChainContentionError /\ exists y, y ∈ l /\
          aud_event_hash y = compute_event_hash (at_time 0) (head_of GENESIS_HASH l) x)
    end) as Hn; [|exact (Hn 7%nat)].
  induction n as [|n IH]; intros H; cbn [save_attempts] in H;
    destruct (link_ok t x s.1 l Hl) as (y & Hy & Hp & Hc);
    assert (aud_chain_index y = Some (GENESIS_CHAIN_INDEX + Z.of_nat (length l)) /\
      aud_event_hash y = compute_event_hash (at_time 0) (head_of GENESIS_HASH l) x) as [Hk Hh]
      by exact (link_ok_head t x s.1 l y Hl Hy);
    rewrite (bind_ok _ _ _ _ _ _ Hy) in H; unfold try_catch in H;
    destruct (atomic (insert_audit y) (at_time t) s.1) as [[row|e] db1] eqn:Hins; simplify_eq.
  1,3: apply atomic_ok_inv in Hins;
    destruct (insert_audit_chain _ _ _ _ _ _ Hg Hl Hp (stable_ip_content _ _ Hip Hc) Hins)
      as (Hl' & _ & Hcr);
    split; [exact (chain_order_of _ _ Hl')|by eapply same_content_trans].
  all: assert (db1 = s.1) as -> by exact (atomic_raise_inv _ _ _ _ _ Hins);
    unfold atomic in Hins; destruct (insert_audit y (at_time t) s.1) as [[?|e'] db2] eqn:Hi;
    simplify_eq; destruct (insert_audit_raise_inv _ _ _ _ _ Hi) as [Hdb He]; subst db2;
    destruct He as [He|He]; subst e; simplify_eq; [split; [done|by left]|].
  - injection H as <- <-. split; [done|]. right. split; [done|]. rewrite <- Hh. by eapply insert_audit_clash.
  - by apply IH.
Qed.

(** The loop of [save] refines the writers: a save that runs to its end on
    its own is a run of one writer, with the same outcome and the same trail. *)
Theorem save_is_a_run_of_a_writer n x t db r db' ws i :
  save_attempts n x (at_time t) db = (r, db') ->
  exists n', writer_steps (db, <[i := mkWriter x n None None]> ws)
                          (db', <[i := mkWriter x n' None (Some r)]> ws).
Proof.
  revert db. induction n as [|n IH]; intros db H; cbn [save_attempts] in H.
  - injection H as <- <-. exists 0%nat. eapply writers_go.
    { eapply writer_gives_up. by rewrite lookup_insert_eq. }
    rewrite insert_insert_eq. apply writers_stay.
  - destruct (link_returns t x db) as [y Hy].
    rewrite (bind_ok _ _ _ _ _ _ Hy) in H.
    destruct (atomic (insert_audit y) (at_time t) db) as [r1 db2] eqn:Hins.
    assert (writer_steps (db, <[i := mkWriter x (S n) None None]> ws)
              (db2, <[i := after_insert x n r1]> ws)) as Hsteps.
    { eapply writers_go.
      { eapply writer_reads; [by rewrite lookup_insert_eq|exact Hy]. }
      rewrite insert_insert_eq. eapply writers_go.
      { eapply writer_inserts; [by rewrite lookup_insert_eq|exact Hins]. }
      rewrite insert_insert_eq. apply writers_stay. }
    unfold try_catch in H. rewrite Hins in H. destruct r1 as [row|e].
    + simplify_eq. by exists n.
    + destruct e; simplify_eq; try (by exists n).
      destruct (IH _ H) as [n' Hn']. exists n'. by eapply writer_steps_trans.
Qed.

(** * What a verified trail says *)

(** [verify_links] looks at the hashes only. *)
Fixpoint linked (previous : string) (l : list AuditLog) : Prop :=
  match l with
  | [] => True
  | x :: l' =>
      aud_previous_hash x = previous /\
      aud_event_hash x = compute_event_hash (at_time 0) previous x /\
      linked (aud_event_hash x) l'
  end.

Lemma verify_links_inv t l : forall previous checked version h c v,
  verify_links (at_time t) previous checked version l = Ok (h, c, v) ->
  linked previous l /\ h = head_of previous l /\ c = checked + Z.of_nat (length l).
Proof.
  induction l as [|x l IH]; intros previous checked version h c v H; cbn [verify_links] in H.
  - simplify_eq. rewrite Z.add_0_r. done.
  - destruct (negb _) eqn:Hp in H; [done|].
    destruct (negb (str_eqb (aud_event_hash x) _)) eqn:Hh in H; [done|].
    apply negb_false_iff, bool_decide_eq_true in Hp, Hh.
    destruct (IH _ _ _ _ _ _ H) as (Hl & -> & ->). rewrite head_of_cons.
    split; [done|]. split; [done|]. cbn [length]. lia.
Qed.

Lemma verify_inv t db r db' :
  verify_audit_chain_integrity (at_time t) db = (Ok r, db') ->
  linked GENESIS_HASH (chain_order db) /\
  avr_head_hash r = head_of GENESIS_HASH (chain_order db) /\
  avr_checked r = Z.of_nat (length (chain_order db)).
Proof.
  unfold verify_audit_chain_integrity.
  destruct (verify_links _ _ _ _ _) as [[[h c] v]|e] eqn:Hv; [|done].
  intros [= <- <-]. by apply verify_links_inv in Hv.
Qed.

Lemma linked_app previous l1 l2 :
  linked previous (l1 ++ l2) <-> linked previous l1 /\ linked (head_of previous l1) l2.
Proof.
  revert previous. induction l1 as [|x l1 IH]; intros previous; [simpl; tauto|].
  rewrite head_of_cons. simpl. rewrite IH. tauto.
Qed.

Lemma linked_elem previous l x :
  linked previous l -> x ∈ l ->
  aud_event_hash x = compute_event_hash (at_time 0) (aud_previous_hash x) x.
Proof.
  revert previous. induction l as [|y l IH]; intros previous Hl Hx; [by apply elem_of_nil in Hx|].
  destruct Hl as (<- & Hh & Hl). apply elem_of_cons in Hx as [->|Hx]; [done|eauto].
Qed.

Definition record_text (x : AuditLog) : string :=
  audit_text (at_time 0) (aud_previous_hash x) x.

(** Two texts with one hash. *)
Definition collision : Prop := exists a b, a <> b /\ sha256 a = sha256 b.

Lemma same_hash_same_text a b : sha256 a = sha256 b -> a = b \/ collision.
Proof. intros H. destruct (decide (a = b)); [by left|right]. by exists a, b. Qed.

Context (Hrepr : plain_repr repr).

Definition audit_keys : list string :=
  ["hash_version"; "previous_hash"; "user_id"; "action"; "ip_address"; "request_id";
   "user_agent"; "path"; "method"; "resource_type"; "resource_id"; "changes";
   "extra_data"]%string.

Lemma audit_text_inj p p' x x' :
  audit_text (at_time 0) p x = audit_text (at_time 0) p' x' ->
  p = p' /\ aud_user x = aud_user x' /\ aud_action x = aud_action x' /\
  aud_resource_type x = aud_resource_type x' /\ aud_resource_id x = aud_resource_id x'.
Proof.
  intros H. unfold audit_text, audit_payload in H. cbn [aenv_repr] in H.
  match type of H with json_dumps _ (JObj ?l) = json_dumps _ (JObj ?l') =>
    assert (NoDup l.*1) as Hnd
      by (change (NoDup audit_keys); apply (bool_decide_unpack _); vm_compute; exact I);
    pose proof (fun k v v' => object_member_inj repr Hrepr l l' k v v' eq_refl Hnd H) as Hm
  end.
  split; [apply (dumps_str_inj repr); apply (Hm "previous_hash"%string); set_solver|].
  split; [apply (dumps_opt_int_inj repr); apply (Hm "user_id"%string); set_solver|].
  split; [apply (dumps_str_inj repr); apply (Hm "action"%string); set_solver|].
  split; [apply (dumps_str_inj repr); apply (Hm "resource_type"%string); set_solver|].
  apply (dumps_opt_str_inj repr); apply (Hm "resource_id"%string); set_solver.
Qed.

Lemma linked_commits l : forall l',
  linked GENESIS_HASH l -> linked GENESIS_HASH l' -> length l = length l' ->
  head_of GENESIS_HASH l = head_of GENESIS_HASH l' ->
  map record_text l = map record_text l' \/ collision.
Proof.
  induction l as [|x l IH] using rev_ind; intros l' Hl Hl' Hlen Hh.
  - destruct l'; [by left|done].
  - destruct l' as [|x' l' _] using rev_ind; rewrite ?length_app in Hlen; simpl in Hlen; [lia|].
    apply linked_app in Hl as [Hl (Hp & Hx & _)], Hl' as [Hl' (Hp' & Hx' & _)].
    unfold head_of in Hh. rewrite !last_snoc in Hh. simpl in Hh. rewrite Hx, Hx' in Hh.
    apply same_hash_same_text in Hh as [Heq|]; [|by right].
    pose proof (audit_text_inj _ _ _ _ Heq) as (Hprev & _).
    destruct (IH l' Hl Hl' ltac:(lia) Hprev) as [Htexts|]; [left|by right].
    rewrite !map_app, Htexts. simpl. unfold record_text at 2 4. by rewrite Hp, Hp', Heq.
Qed.

(** C32: the head of a verified trail commits to the whole history: two trails
    that both verify with the same number of records and the same head have the
    same records, text for text, unless two texts with one hash are at hand. *)
Theorem head_hash_commits_to_the_history t t' db db' r r' :
  verify_audit_chain_integrity (at_time t) db = (Ok r, db) ->
  verify_audit_chain_integrity (at_time t') db' = (Ok r', db') ->
  avr_checked r = avr_checked r' -> avr_head_hash r = avr_head_hash r' ->
  map record_text (chain_order db) = map record_text (chain_order db') \/ collision.
Proof.
  intros (Hl & Hh & Hc)%verify_inv (Hl' & Hh' & Hc')%verify_inv Hceq Hheq.
  apply linked_commits; [done|done|lia|congruence].
Qed.

Lemma user_deleted_rows u db i x :
  rows_of db !! i = Some x -> aud_user x = Some u ->
  rows_of (user_deleted u db) !! i = Some (x <| aud_user := None |>).
Proof.
  intros Hx Hu. unfold user_deleted, rows_of at 1. simpl. rewrite lookup_fmap, Hx. simpl.
  by rewrite bool_decide_true.
Qed.

(** Deleting a user who occurs in the trail breaks it: the database sets
    the user column of the records to NULL, the hashes cover that column, and
    from then on the verification fails, unless a collision is at hand. *)
Theorem deleting_a_user_breaks_the_chain s t u x r db' :
  trail_reachable s -> x ∈ chain_order s.1 -> aud_user x = Some u ->
  verify_audit_chain_integrity (at_time t) (user_deleted u s.1) = (Ok r, db') -> collision.
Proof.
  intros [l (Hl & _)]%trail_reachable_ok Hx Hu (Hv & _)%verify_inv.
  rewrite (chain_order_of _ _ Hl) in Hx.
  pose proof (proj1 (is_chain_elem _ _ x Hl) Hx) as [i Hi].
  assert (aud_event_hash x = compute_event_hash (at_time 0) (aud_previous_hash x) x) as Hh.
  { eapply linked_elem; [|exact Hx]. destruct (verify_of_chain t _ _ Hl) as [v Hok].
    apply verify_inv in Hok as (Hlk & _). by rewrite (chain_order_of _ _ Hl) in Hlk. }
  assert (x <| aud_user := None |> ∈ chain_order (user_deleted u s.1)) as Hx'.
  { unfold chain_order. rewrite merge_sort_Permutation. apply list_elem_of_fmap.
    exists (i, x <| aud_user := None |>). split; [done|]. apply elem_of_map_to_list.
    by apply user_deleted_rows. }
  apply (linked_elem _ _ _ Hv) in Hx'. simpl in Hx'. rewrite Hh in Hx'.
  apply same_hash_same_text in Hx' as [Heq|]; [|done].
  apply audit_text_inj in Heq as (_ & Hcon & _). simpl in Hcon. congruence.
Qed.

End Chain.

(** * Examples *)

(** A stand-in for SHA-256. *)
Fixpoint toy_digest (acc : Z) (s : string) : Z :=
  match s with
  | EmptyString => acc
  | String a s' => toy_digest ((acc * 257 + Z.of_N (N_of_ascii a) + 1) mod 2305843009213693951) s'
  end.
Definition toy_sha (s : string) : string := pretty (toy_digest 0 s).
Definition toy_repr (v : json) : string := "0.5".
Definition sample_audit_env : AuditEnv := mkAuditEnv 0 toy_sha toy_repr Some.

Definition sample_log (action : string) : AuditLog :=
  new_audit_log (Some 7) action "user" (Some "7"%string) (Some "10.0.0.1"%string) None ""
    "/api/" "POST" None (Some (JObj [("ok"%string, JBool true)])).

Lemma toy_repr_plain : plain_repr toy_repr.
Proof. intros q. reflexivity. Qed.

Local Tactic Notation "race_step" uconstr(rule) :=
  eapply writers_go; [eapply rule; vm_compute; reflexivity|].

(** Two writers read the same head; the second loses the race and tries again. *)
Lemma race_reachable :
  exists s w, trail_reachable toy_sha toy_repr Some s /\
    qs_count (rows_of (A := AuditLog) s.1) = 2 /\
    s.2 !! 1%nat = Some w /\ wr_left w = 6%nat /\
    exists y, wr_result w = Some (Ok y) /\ aud_chain_index y = Some 2.
Proof.
  eexists _, _. split.
  - race_step (writer_starts toy_sha toy_repr Some empty_trail ∅ 0%nat (sample_log "login")).
    race_step (writer_starts toy_sha toy_repr Some empty_trail
      _ 1%nat (sample_log "logout")).
    race_step (writer_reads toy_sha toy_repr Some _ _ 0%nat (sample_log "login") 7 5).
    race_step (writer_reads toy_sha toy_repr Some _ _ 1%nat (sample_log "logout") 7 5).
    race_step (writer_inserts toy_sha toy_repr Some _ _ 0%nat (sample_log "login") 7 _ 5).
    race_step (writer_inserts toy_sha toy_repr Some _ _ 1%nat (sample_log "logout") 7 _ 6).
    race_step (writer_reads toy_sha toy_repr Some _ _ 1%nat (sample_log "logout") 6 6).
    race_step (writer_inserts toy_sha toy_repr Some _ _ 1%nat (sample_log "logout") 6 _ 6).
    apply writers_stay.
  - vm_compute. split; [reflexivity|]. split; [reflexivity|]. split; [reflexivity|].
    eexists. split; reflexivity.
Qed.

(** One writer alone, up to its insert. *)
Lemma one_record_reachable :
  exists s x, trail_reachable toy_sha toy_repr Some s /\
    x ∈ chain_order s.1 /\ aud_user x = Some 7.
Proof.
  eexists _, _. split.
  - race_step (writer_starts toy_sha toy_repr Some empty_trail ∅ 0%nat (sample_log "login")).
    race_step (writer_reads toy_sha toy_repr Some _ _ 0%nat (sample_log "login") 7 5).
    race_step (writer_inserts toy_sha toy_repr Some _ _ 0%nat (sample_log "login") 7 _ 5).
    apply writers_stay.
  - vm_compute. split; [apply list_elem_of_here|reflexivity].
Qed.

Lemma audit_chain_never_forks_witness :
  exists s r, trail_reachable toy_sha toy_repr Some s /\
    verify_audit_chain_integrity sample_audit_env s.1 = (Ok r, s.1) /\ avr_checked r = 2.
Proof.
  destruct race_reachable as (s & w & Hs & Hn & _).
  destruct (audit_chain_never_forks toy_sha toy_repr Some s 0 Hs) as (r & Hr & _ & Hc).
  exists s, r. split; [exact Hs|]. split; [exact Hr|]. rewrite Hc. exact Hn.
Defined.

Lemma audit_trail_grows_at_the_end_witness :
  exists s y, trail_reachable toy_sha toy_repr Some s /\ y ∈ chain_order s.1 /\
    aud_chain_index y = Some 2.
Proof.
  destruct race_reachable as (s & w & Hs & _ & Hw & _ & y & Hy & Hk).
  exists s, y. split; [exact Hs|]. split; [|exact Hk].
  exact (proj1 (proj2 (audit_trail_grows_at_the_end toy_sha toy_repr Some s s Hs
    (writers_stay _ _ _ s)) 1%nat w y Hw Hy)).
Defined.

Lemma lone_save_appends_witness :
  exists row db', audit_save true (sample_log "login") sample_audit_env empty_trail = (Ok row, db') /\
    chain_order db' = [row].
Proof.
  destruct (audit_save true (sample_log "login") sample_audit_env empty_trail)
    as [[row|e] db'] eqn:H; [|vm_compute in H; discriminate].
  exists row, db'. split; [reflexivity|].
  exact (proj1 (lone_save_appends toy_sha toy_repr Some (empty_trail, ∅) 0
    (sample_log "login") (Ok row) db' (writers_stay _ _ _ _) eq_refl eq_refl H)).
Defined.

Lemma save_is_a_run_of_a_writer_witness :
  exists n r db', writer_steps toy_sha toy_repr Some
    (empty_trail, {[ 0%nat := mkWriter (sample_log "login") 8 None None ]})
    (db', {[ 0%nat := mkWriter (sample_log "login") n None (Some r) ]}).
Proof.
  destruct (save_attempts 8 (sample_log "login") sample_audit_env empty_trail)
    as [r db'] eqn:H.
  destruct (save_is_a_run_of_a_writer toy_sha toy_repr Some 8 (sample_log "login") 0
    empty_trail r db' ∅ 0%nat H) as [n Hn].
  exists n, r, db'. rewrite !insert_empty in Hn. exact Hn.
Defined.

Lemma head_hash_commits_to_the_history_witness :
  exists db r, verify_audit_chain_integrity sample_audit_env db = (Ok r, db) /\
    avr_checked r = 2 /\
    (map (record_text toy_sha toy_repr Some) (chain_order db)
       = map (record_text toy_sha toy_repr Some) (chain_order db) \/ collision toy_sha).
Proof.
  destruct race_reachable as (s & w & Hs & Hn & _).
  destruct (audit_chain_never_forks toy_sha toy_repr Some s 0 Hs) as (r & Hr & _ & Hc).
  exists s.1, r. split; [exact Hr|]. split; [rewrite Hc; exact Hn|].
  exact (head_hash_commits_to_the_history toy_sha toy_repr Some toy_repr_plain 0 0 _ _ r r
    Hr Hr eq_refl eq_refl).
Defined.


(** With a constant for a hash there are collisions, and the deletion passes. *)
Lemma deleting_a_user_breaks_the_chain_witness :
  exists s r, trail_reachable (fun _ => "c"%string) toy_repr Some s /\
    verify_audit_chain_integrity (mkAuditEnv 0 (fun _ => "c"%string) toy_repr Some)
      (user_deleted 7 s.1) = (Ok r, user_deleted 7 s.1) /\ collision (fun _ => "c"%string).
Proof.
  assert (exists s x r, trail_reachable (fun _ => "c"%string) toy_repr Some s /\
    x ∈ chain_order s.1 /\ aud_user x = Some 7 /\
    verify_audit_chain_integrity (mkAuditEnv 0 (fun _ => "c"%string) toy_repr Some)
      (user_deleted 7 s.1) = (Ok r, user_deleted 7 s.1)) as (s & x & r & Hs & Hx & Hu & Hr).
  { eexists _, _, _. split.
    - race_step (writer_starts _ toy_repr Some empty_trail ∅ 0%nat (sample_log "login")).
      race_step (writer_reads _ toy_repr Some _ _ 0%nat (sample_log "login") 7 5).
      race_step (writer_inserts _ toy_repr Some _ _ 0%nat (sample_log "login") 7 _ 5).
      apply writers_stay.
    - vm_compute. split; [apply list_elem_of_here|by split]. }
  exists s, r. split; [exact Hs|]. split; [exact Hr|].
  exact (deleting_a_user_breaks_the_chain _ toy_repr Some toy_repr_plain s 0 7 x r _ Hs Hx Hu Hr).
Defined.

Definition one_record_trail : AuditDB :=
  (audit_save true (sample_log "login") sample_audit_env empty_trail).2.

(** With a hash that tells them apart it is noticed. *)
Example deleted_user_is_noticed :
  (verify_audit_chain_integrity sample_audit_env (user_deleted 7 one_record_trail)).1
  = Raise (AuditChainVerificationError 1 event_hash_mismatch 0).
Proof. vm_compute. reflexivity. Qed.

(** The records cut off at the end are not missed. *)
Example cut_tail_is_not_noticed :
  exists r, (verify_audit_chain_integrity sample_audit_env
    (mkAuditDB (mkTable (delete 1 (rows_of (A := AuditLog) one_record_trail)) 2))).1 = Ok r.
Proof. vm_compute. by eexists. Qed.

(** An address the column stores in another form is hashed as it came and read
    back as it is stored. *)
Example unstable_address_breaks_the_chain :
  let env := mkAuditEnv 0 toy_sha toy_repr (fun _ => Some "2001:db8::1"%string) in
  let db := (audit_save true ((sample_log "login") <| aud_ip_address := Some "2001:DB8::1"%string |>)
               env empty_trail).2 in
  (verify_audit_chain_integrity env db).1
  = Raise (AuditChainVerificationError 1 event_hash_mismatch 0).
Proof. vm_compute. reflexivity. Qed.
