(* ===== verification/Otp.v ===== *)
(** One-time codes: [src/apps/authentication/otp.py], [OTPCode] of
    [models.py] and the guards of [anti_abuse.py].

    The clock, the keyed hash, the random generators and the delivery provider
    are fields of the environment; the cache is a part of the state.
    [verify_otp] is the composition of a look-up, a verdict on the row found
    and the conditional updates the verdict asks for; the [verifiers] system
    interleaves these and the transactions of [generate_and_send_otp]. *)

From S2P Require Import Prelude Python JsonText Choices Orm Models.
From Stdlib Require Import Ascii.
#[local] Open Scope Z_scope.

(** * Data *)

Module OTPPurpose.

Inductive t : Set := SIGNUP | LOGIN | IDENTIFIER_ADD | EMAIL_VERIFICATION | PASSWORD_RESET.

#[export] Instance t_eq : EqDecision t.
Proof. solve_decision. Defined.

Definition values : list (t * string) :=
  [ (SIGNUP, "signup"%string);
    (LOGIN, "login"%string);
    (IDENTIFIER_ADD, "identifier_add"%string);
    (EMAIL_VERIFICATION, "email_verification"%string);
    (PASSWORD_RESET, "password_reset"%string) ].

#[export, refine] Instance t_choices : TextChoices t := { choices := values }.
Proof. all: solve_choices. Defined.

End OTPPurpose.
Export (hints) OTPPurpose.

Module PrimaryIdentifierKind.

Inductive t : Set := EMAIL | PHONE.

#[export] Instance t_eq : EqDecision t.
Proof. solve_decision. Defined.

Definition values : list (t * string) :=
  [ (EMAIL, "email"%string); (PHONE, "phone"%string) ].

#[export, refine] Instance t_choices : TextChoices t := { choices := values }.
Proof. all: solve_choices. Defined.

End PrimaryIdentifierKind.
Export (hints) PrimaryIdentifierKind.

Record OTPCode : Type := mkOTPCode {
  otp_id : Z;
  otp_identifier_kind : PrimaryIdentifierKind.t;
  otp_identifier_value : string;
  otp_purpose : OTPPurpose.t;
  otp_code_hash : string;
  otp_code_salt : string;
  otp_expires_at : Z;
  otp_attempts : Z;
  otp_is_used : bool;
  otp_is_active : bool;
  otp_created_at : Z;
  otp_updated_at : Z;
}.

#[export] Instance eta_OTPCode : Eta OTPCode := fun x => mkOTPCode
  (otp_id x) (otp_identifier_kind x) (otp_identifier_value x) (otp_purpose x)
  (otp_code_hash x) (otp_code_salt x) (otp_expires_at x) (otp_attempts x)
  (otp_is_used x) (otp_is_active x) (otp_created_at x) (otp_updated_at x).

(** A cache entry: its value and the time it expires. *)
Record CacheEntry : Type := mkCacheEntry { ce_value : Z; ce_expires : Z }.

Record OtpDB : Type := mkOtpDB {
  otp_codes : Table OTPCode;
  otp_cache : gmap string CacheEntry;
}.

#[export] Instance eta_OtpDB : Eta OtpDB := fun x => mkOtpDB (otp_codes x) (otp_cache x).

Inductive send_outcome : Type :=
| Sent
| OTPDeliveryProviderError
| SendRaised (class_name : string).

Record OtpSettings : Type := mkOtpSettings {
  AUTH_OTP_CODE_LENGTH : nat;
  AUTH_OTP_TTL_SECONDS : Z;
  AUTH_OTP_MAX_ATTEMPTS : Z;
  AUTH_OTP_COOLDOWN_SECONDS : Z;
  AUTH_OTP_GLOBAL_THRESHOLD : Z;
  AUTH_OTP_GLOBAL_WINDOW_SECONDS : Z;
}.

(** [_OTP_DEFAULTS] and [_GLOBAL_OTP_GUARD_DEFAULTS] *)
Definition default_otp_settings : OtpSettings := mkOtpSettings 6 300 5 60 500 60.

Record OtpEnv : Type := mkOtpEnv {
  oenv_now : Z;
  oenv_settings : OtpSettings;
  oenv_hmac : string -> string;
  oenv_salted_hmac : string -> string;
  oenv_randbelow : Z -> Z;
  oenv_token_hex : Z -> string;
  oenv_send : PrimaryIdentifierKind.t -> string -> string -> OTPPurpose.t -> send_outcome;
}.

#[export] Instance eta_OtpEnv : Eta OtpEnv := fun x => mkOtpEnv (oenv_now x) (oenv_settings x)
  (oenv_hmac x) (oenv_salted_hmac x) (oenv_randbelow x) (oenv_token_hex x) (oenv_send x).

#[export] Instance otp_clock : Clock OtpEnv := oenv_now.

Inductive otp_exc : Type :=
| OTPValidationError (value : string)
| OTPCooldownActive (seconds_remaining : Z)
| OTPNotFound
| OTPExpired
| OTPInvalidCode
| OTPTooManyAttempts
| OTPDeliveryError
| OTPProviderException (class_name : string)
| OTPDoesNotExist
| OTPIntegrityError
| OTPDatabaseError.

#[export] Instance otp_orm : OrmError otp_exc := {
  does_not_exist := OTPDoesNotExist;
  integrity_error := OTPIntegrityError;
  database_error := OTPDatabaseError;
}.

#[export] Instance OTPCode_model : Model OtpDB OTPCode := {
  table_of := otp_codes;
  with_table t db := db <| otp_codes := t |>;
  pk := otp_id;
  is_active := otp_is_active;
  created_at := otp_created_at;
  row_ok _ x := max_length 254 (otp_identifier_value x) && max_length 64 (otp_code_hash x) &&
                max_length 32 (otp_code_salt x) && positive_small_integer (otp_attempts x);
}.

#[export] Instance OTPCode_laws : ModelLaws OtpDB OTPCode.
Proof. split; reflexivity. Qed.

Abbreviation OM := (comp OtpEnv OtpDB otp_exc).

Definition otp_settings : OM OtpSettings := fun env db => (Ok (oenv_settings env), db).

Definition usec_per_sec : Z := 1000000.

(** * Helpers *)

(** [str.zfill] of a non-negative number *)
Definition generate_code (env : OtpEnv) : string :=
  let length := AUTH_OTP_CODE_LENGTH (oenv_settings env) in
  zero_pad length (oenv_randbelow env (10 ^ Z.of_nat length)).

Definition generate_salt (env : OtpEnv) : string := oenv_token_hex env 16.

Definition hash_code (env : OtpEnv) (code salt : string) (kind : PrimaryIdentifierKind.t)
    (identifier_value : string) (purpose : OTPPurpose.t) : string :=
  oenv_hmac env (salt +:+ "|" +:+ value kind +:+ "|" +:+ identifier_value +:+ "|" +:+
                 value purpose +:+ "|" +:+ code)%string.

Definition hash_code_legacy (env : OtpEnv) (code : string) : string := oenv_hmac env code.

Definition expected_hash_for (env : OtpEnv) (otp : OTPCode) (code : string) : string :=
  if negb (str_true (otp_code_salt otp)) then hash_code_legacy env code
  else hash_code env code (otp_code_salt otp) (otp_identifier_kind otp)
         (otp_identifier_value otp) (otp_purpose otp).

Definition cooldown_key (env : OtpEnv) (kind : PrimaryIdentifierKind.t)
    (identifier_value : string) (purpose : OTPPurpose.t) : string :=
  ("auth:otp:cooldown:" +:+ oenv_salted_hmac env
     (value kind +:+ "|" +:+ identifier_value +:+ "|" +:+ value purpose))%string.

(** ** The cache *)

Definition cache_get (key : string) : OM (option Z) := fun env db =>
  (Ok (match otp_cache db !! key with
       | Some e => if ce_expires e <=? oenv_now env then None else Some (ce_value e)
       | None => None
       end), db).

Definition cache_set (key : string) (v timeout : Z) : OM unit := fun env db =>
  (Ok tt, db <| otp_cache := <[key := mkCacheEntry v
                                (oenv_now env + timeout * usec_per_sec)]> (otp_cache db) |>).

(** [cache.add]: sets the key if it is absent or expired, in one step. *)
Definition cache_add (key : string) (v timeout : Z) : OM bool :=
  present ← cache_get key;
  match present with
  | Some _ => mret false
  | None => _ ← cache_set key v timeout; mret true
  end.

(** [cache.incr]: [None] is the [ValueError] of an absent key; the time-out
    is kept. *)
Definition cache_incr (key : string) : OM (option Z) := fun env db =>
  match otp_cache db !! key with
  | Some e =>
      if ce_expires e <=? oenv_now env then (Ok None, db)
      else (Ok (Some (ce_value e + 1)),
            db <| otp_cache := <[key := mkCacheEntry (ce_value e + 1) (ce_expires e)]>
                                 (otp_cache db) |>)
  | None => (Ok None, db)
  end.

Definition cache_delete (key : string) : OM unit := fun _ db =>
  (Ok tt, db <| otp_cache := delete key (otp_cache db) |>).

(** ** The cooldown *)

(** [None] when the slot was claimed, else the seconds that remain. *)
Definition reserve_cooldown_slot (kind : PrimaryIdentifierKind.t) (identifier_value : string)
    (purpose : OTPPurpose.t) (cooldown_seconds : Z) : OM (option Z) :=
  env ← ask;
  let key := cooldown_key env kind identifier_value purpose in
  claimed_at ← timezone_now;
  added ← cache_add key claimed_at cooldown_seconds;
  if added : bool then mret None
  else
    started_at ← cache_get key;
    match started_at with
    | None =>
        again ← cache_add key claimed_at cooldown_seconds;
        mret (if again : bool then None else Some cooldown_seconds)
    | Some started =>
        now ← timezone_now;
        mret (Some (Z.max (Z.quot (cooldown_seconds * usec_per_sec - (now - started))
                             usec_per_sec) 1))
    end.

Definition release_cooldown_slot (kind : PrimaryIdentifierKind.t) (identifier_value : string)
    (purpose : OTPPurpose.t) : OM unit :=
  env ← ask; cache_delete (cooldown_key env kind identifier_value purpose).

(** ** Validation of the arguments *)

Definition normalize_identifier_kind (v : string) : OM PrimaryIdentifierKind.t :=
  match of_value v with Some k => mret k | None => raise (OTPValidationError v) end.

Definition normalize_purpose (v : string) : OM OTPPurpose.t :=
  match of_value v with Some p => mret p | None => raise (OTPValidationError v) end.

(** ** Rows *)

Definition for_target (kind : PrimaryIdentifierKind.t) (identifier_value : string)
    (purpose : OTPPurpose.t) (x : OTPCode) : bool :=
  bool_decide (otp_identifier_kind x = kind) &&
  str_eqb (otp_identifier_value x) identifier_value &&
  bool_decide (otp_purpose x = purpose).

Definition get_latest_active_otp (kind : PrimaryIdentifierKind.t) (identifier_value : string)
    (purpose : OTPPurpose.t) : OM (option OTPCode) :=
  now ← timezone_now;
  query (fun db => qs_first (objects_filter (fun x =>
    for_target kind identifier_value purpose x && negb (otp_is_used x) &&
    (now <? otp_expires_at x)) db)).

(** [filter(pk=i, is_used=False).update(...)]: whether a row was updated. *)
Definition update_unused (i : Z) (upd : OTPCode -> OTPCode) : OM bool := fun _ db =>
  match rows_of (A := OTPCode) db !! i with
  | Some x =>
      if otp_is_active x && negb (otp_is_used x)
      then if row_ok (delete i (rows_of db)) (upd x)
           then (Ok true, set_row i (upd x) db) else (Raise OTPDatabaseError, db)
      else (Ok false, db)
  | None => (Ok false, db)
  end.

Definition mark_otp_used (otp : OTPCode) : OM bool :=
  now ← timezone_now;
  update_unused (otp_id otp)
    (fun x => x <| otp_is_used := true |> <| otp_updated_at := now |>).

Definition increment_otp_attempts (otp : OTPCode) : OM Z :=
  atomic
    (now ← timezone_now;
     updated ← update_unused (otp_id otp)
       (fun x => x <| otp_attempts := otp_attempts x + 1 |> <| otp_updated_at := now |>);
     _ ← raise_if (negb updated) OTPNotFound;
     row ← base_get (A := OTPCode) (otp_id otp);
     mret (otp_attempts row)).

Definition persist_new_otp (kind : PrimaryIdentifierKind.t) (identifier_value : string)
    (purpose : OTPPurpose.t) (code_hash code_salt : string) (expires_at : Z) : OM OTPCode :=
  atomic (create (fun i now => mkOTPCode i kind identifier_value purpose code_hash code_salt
    expires_at 0 false true now now)).

(** The other unused codes for the target are marked used. *)
Definition commit_otp_delivery (otp : OTPCode) : OM unit :=
  atomic
    (now ← timezone_now;
     modify (fun db => with_table (mkTable
       ((fun x =>
           if otp_is_active x && for_target (otp_identifier_kind otp) (otp_identifier_value otp)
                (otp_purpose otp) x && negb (otp_is_used x) && negb (otp_id x =? otp_id otp)
           then x <| otp_is_used := true |> <| otp_updated_at := now |> else x)
          <$> rows_of db)
       (next_id (table_of (A := OTPCode) db))) db)).

Definition discard_undelivered_otp (otp : OTPCode) : OM unit :=
  atomic
    (modify (fun db => match rows_of (A := OTPCode) db !! otp_id otp with
      | Some x =>
          if otp_is_active x
          then with_table (mkTable (delete (otp_id otp) (rows_of db))
                 (next_id (table_of (A := OTPCode) db))) db
          else db
      | None => db
      end)).

(** * [generate_and_send_otp] *)

Record OTPGenerationResult : Type := mkOTPGenerationResult {
  gen_otp : OTPCode;
  gen_code_plain : string;
  gen_expires_in_seconds : Z;
}.

(** What follows a failed delivery. *)
Definition undo_undelivered (otp : OTPCode) (kind : PrimaryIdentifierKind.t)
    (identifier_value : string) (purpose : OTPPurpose.t) : OM unit :=
  _ ← discard_undelivered_otp otp;
  release_cooldown_slot kind identifier_value purpose.

(** The provider is called outside any transaction. *)
Definition deliver_otp (otp : OTPCode) (kind : PrimaryIdentifierKind.t)
    (identifier_value : string) (purpose : OTPPurpose.t) (code_plain : string) :
    OM OTPGenerationResult :=
  env ← ask;
  match oenv_send env kind identifier_value code_plain purpose with
  | Sent =>
      _ ← commit_otp_delivery otp;
      mret (mkOTPGenerationResult otp code_plain (AUTH_OTP_TTL_SECONDS (oenv_settings env)))
  | OTPDeliveryProviderError =>
      _ ← undo_undelivered otp kind identifier_value purpose; raise OTPDeliveryError
  | SendRaised class_name =>
      _ ← undo_undelivered otp kind identifier_value purpose;
      raise (OTPProviderException class_name)
  end.

Definition generate_and_send_otp (identifier_kind identifier_value purpose : string) :
    OM OTPGenerationResult :=
  kind ← normalize_identifier_kind identifier_kind;
  purpose ← normalize_purpose purpose;
  env ← ask;
  let cooldown_seconds := AUTH_OTP_COOLDOWN_SECONDS (oenv_settings env) in
  let ttl_seconds := AUTH_OTP_TTL_SECONDS (oenv_settings env) in
  remaining ← reserve_cooldown_slot kind identifier_value purpose cooldown_seconds;
  _ ← match remaining with
      | Some seconds => raise (OTPCooldownActive seconds)
      | None => mret tt
      end;
  latest ← get_latest_active_otp kind identifier_value purpose;
  now ← timezone_now;
  _ ← match latest with
      | Some otp =>
          let elapsed := now - otp_created_at otp in
          if elapsed <? cooldown_seconds * usec_per_sec then
            _ ← release_cooldown_slot kind identifier_value purpose;
            raise (OTPCooldownActive
                     (Z.quot (cooldown_seconds * usec_per_sec - elapsed) usec_per_sec))
          else mret tt
      | None => mret tt
      end;
  let code_plain := generate_code env in
  let code_salt := generate_salt env in
  let code_hash := hash_code env code_plain code_salt kind identifier_value purpose in
  otp ← persist_new_otp kind identifier_value purpose code_hash code_salt
          (now + ttl_seconds * usec_per_sec);
  deliver_otp otp kind identifier_value purpose code_plain.

(** * [verify_otp] *)

(** The latest unused code of the target. *)
Definition find_unused_otp (kind : PrimaryIdentifierKind.t) (identifier_value : string)
    (purpose : OTPPurpose.t) : OM (option OTPCode) :=
  query (fun db => qs_first (objects_filter (fun x =>
    for_target kind identifier_value purpose x && negb (otp_is_used x)) db)).

Inductive verdict : Type := VExpired | VExhausted | VWrong | VRight.

Definition is_expired (env : OtpEnv) (otp : OTPCode) : bool := otp_expires_at otp <? oenv_now env.

(** The branches of [verify_otp], decided on the row as it was read. *)
Definition judge (env : OtpEnv) (otp : OTPCode) (code : string) : verdict :=
  if is_expired env otp then VExpired
  else if AUTH_OTP_MAX_ATTEMPTS (oenv_settings env) <=? otp_attempts otp then VExhausted
  else if str_eqb (otp_code_hash otp) (expected_hash_for env otp code) then VRight
  else VWrong.

(** [if not _mark_otp_used(otp): raise OTPNotFound] *)
Definition mark_or_not_found (otp : OTPCode) : OM unit :=
  marked ← mark_otp_used otp; raise_if (negb marked) OTPNotFound.

(** The first transaction of a verification; [None] when the wrong code has
    used up the attempts. *)
Definition first_update (otp : OTPCode) (code : string) : OM (option OTPCode) :=
  env ← ask;
  match judge env otp code with
  | VExpired => _ ← mark_or_not_found otp; raise OTPExpired
  | VExhausted => _ ← mark_or_not_found otp; raise OTPTooManyAttempts
  | VWrong =>
      next_attempt_count ← increment_otp_attempts otp;
      if AUTH_OTP_MAX_ATTEMPTS (oenv_settings env) <=? next_attempt_count then mret None
      else raise OTPInvalidCode
  | VRight => _ ← mark_or_not_found otp; mret (Some (otp <| otp_is_used := true |>))
  end.

Definition last_update (otp : OTPCode) (verified : option OTPCode) : OM OTPCode :=
  match verified with
  | Some otp' => mret otp'
  | None => _ ← mark_otp_used otp; raise OTPTooManyAttempts
  end.

Definition verify_otp (identifier_kind identifier_value purpose code : string) : OM OTPCode :=
  kind ← normalize_identifier_kind identifier_kind;
  purpose ← normalize_purpose purpose;
  _ ← raise_if (negb (str_true (py_strip code))) OTPInvalidCode;
  found ← find_unused_otp kind identifier_value purpose;
  match found with
  | None => raise OTPNotFound
  | Some otp => verified ← first_update otp code; last_update otp verified
  end.

(** * Guards ([anti_abuse.py]) *)

Definition HONEYPOT_FIELD_NAME : string := "website".

Definition is_honeypot_triggered (data : option (list (string * json))) : bool :=
  match data with
  | None => false
  | Some fields =>
      match assoc_get HONEYPOT_FIELD_NAME fields with
      | Some (JStr s) => str_true (py_strip s)
      | Some v => json_true v
      | None => false
      end
  end.

Definition GLOBAL_OTP_GUARD_CACHE_KEY : string := "auth:otp:global_counter".

Definition is_global_otp_guard_tripped : OM bool :=
  env ← ask;
  let threshold := AUTH_OTP_GLOBAL_THRESHOLD (oenv_settings env) in
  let window_seconds := AUTH_OTP_GLOBAL_WINDOW_SECONDS (oenv_settings env) in
  let restart := _ ← cache_set GLOBAL_OTP_GUARD_CACHE_KEY 1 window_seconds; mret 1 in
  present ← cache_get GLOBAL_OTP_GUARD_CACHE_KEY;
  counter ← match present with
            | None => restart
            | Some _ =>
                counter ← cache_incr GLOBAL_OTP_GUARD_CACHE_KEY;
                match counter with Some n => mret n | None => restart end
            end;
  mret (threshold <? counter).

Definition reset_global_otp_guard : OM unit := cache_delete GLOBAL_OTP_GUARD_CACHE_KEY.

(** * Verifiers and senders in any order *)

(** A verification that has found its row: before its first transaction,
    before its last one, and at its end. *)
Inductive Verifier : Type :=
| Found (otp : OTPCode) (code : string)
| Last (otp : OTPCode) (verified : option OTPCode)
| Done (i : Z) (r : outcome otp_exc OTPCode).

Definition after_first (otp : OTPCode) (r : outcome otp_exc (option OTPCode)) : Verifier :=
  match r with
  | Ok verified => Last otp verified
  | Raise e => Done (otp_id otp) (Raise e)
  end.

Definition verifiers : Type := OtpDB * gmap Z Verifier.

Inductive verifier_step (settings : OtpSettings) : verifiers -> verifiers -> Prop :=
| verifier_finds env db vs n kind v purpose otp code :
    oenv_settings env = settings -> vs !! n = None ->
    find_unused_otp kind v purpose env db = (Ok (Some otp), db) ->
    verifier_step settings (db, vs) (db, <[n := Found otp code]> vs)
| verifier_first env db vs n otp code r db' :
    oenv_settings env = settings -> vs !! n = Some (Found otp code) ->
    first_update otp code env db = (r, db') ->
    verifier_step settings (db, vs) (db', <[n := after_first otp r]> vs)
| verifier_last env db vs n otp verified r db' :
    oenv_settings env = settings -> vs !! n = Some (Last otp verified) ->
    last_update otp verified env db = (r, db') ->
    verifier_step settings (db, vs) (db', <[n := Done (otp_id otp) r]> vs)
| sender_persists env db vs kind v purpose h salt expires_at r db' :
    persist_new_otp kind v purpose h salt expires_at env db = (r, db') ->
    verifier_step settings (db, vs) (db', vs)
| sender_commits env db vs otp r db' :
    commit_otp_delivery otp env db = (r, db') ->
    verifier_step settings (db, vs) (db', vs)
| sender_discards env db vs otp r db' :
    discard_undelivered_otp otp env db = (r, db') ->
    verifier_step settings (db, vs) (db', vs)
| cache_changes db vs c :
    verifier_step settings (db, vs) (db <| otp_cache := c |>, vs).

Inductive verifier_steps (settings : OtpSettings) : verifiers -> verifiers -> Prop :=
| verifiers_stay s : verifier_steps settings s s
| verifiers_go s s1 s2 :
    verifier_step settings s s1 -> verifier_steps settings s1 s2 -> verifier_steps settings s s2.

Lemma verifier_steps_trans settings s1 s2 s3 :
  verifier_steps settings s1 s2 -> verifier_steps settings s2 s3 -> verifier_steps settings s1 s3.
Proof. induction 1; eauto using verifier_steps. Qed.

Definition otp_table_ok (db : OtpDB) : Prop :=
  table_good (table_of (A := OTPCode) db) /\
  forall i x, rows_of db !! i = Some x -> 0 <= otp_attempts x.

Definition otp_reachable (settings : OtpSettings) (s : verifiers) : Prop :=
  exists db, otp_table_ok db /\ verifier_steps settings (db, ∅) s.

(** A verification that succeeded with row [i]; one that was told its code is
    wrong. *)
Definition won (i : Z) (v : Verifier) : bool :=
  match v with
  | Last otp (Some _) => otp_id otp =? i
  | Done j (Ok _) => j =? i
  | _ => false
  end.

Definition missed (i : Z) (v : Verifier) : bool :=
  match v with Done j (Raise OTPInvalidCode) => j =? i | _ => false end.

Definition count_of (b : Verifier -> bool) (vs : gmap Z Verifier) : Z :=
  msum (fun v => when (b v) 1) vs.

(** * What the transactions do to the rows *)

(** Rows may disappear; those that stay keep their key, never become unused
    again and never lose an attempt; new rows come at the end. *)
Definition otp_moves (db db' : OtpDB) : Prop :=
  otp_table_ok db -> otp_table_ok db' /\
  next_id (table_of (A := OTPCode) db) <= next_id (table_of (A := OTPCode) db') /\
  forall i x', rows_of db' !! i = Some x' ->
    next_id (table_of (A := OTPCode) db) <= i \/
    exists x, rows_of db !! i = Some x /\ otp_attempts x <= otp_attempts x' /\
              (otp_is_used x' = false -> otp_is_used x = false).

Lemma otp_moves_rows db db' :
  next_id (table_of (A := OTPCode) db') = next_id (table_of (A := OTPCode) db) ->
  (forall i x', rows_of db' !! i = Some x' -> exists x, rows_of db !! i = Some x /\
     otp_id x' = otp_id x /\ otp_attempts x <= otp_attempts x' /\
     (otp_is_used x' = false -> otp_is_used x = false)) ->
  otp_moves db db'.
Proof.
  intros Hn Hrows [[Hpos Hwf] Hatt]. split; [split; [split|]|split].
  - by rewrite Hn.
  - intros i x' Hx'. apply Hrows in Hx' as (x & Hx & Hid & _). rewrite Hn. simpl. rewrite Hid.
    by apply (Hwf i x).
  - intros i x' Hx'. apply Hrows in Hx' as (x & Hx & _ & Hle & _). apply Hatt in Hx. lia.
  - by rewrite Hn.
  - intros i x' Hx'. right. apply Hrows in Hx' as (x & Hx & _ & ? & ?). by exists x.
Qed.

Lemma otp_moves_refl db : otp_moves db db.
Proof. apply otp_moves_rows; [done|]. intros i x Hx. exists x. repeat split; [done|lia|done]. Qed.

Lemma otp_moves_set_row db i x x' :
  rows_of db !! i = Some x -> otp_id x' = otp_id x -> otp_attempts x <= otp_attempts x' ->
  (otp_is_used x' = false -> otp_is_used x = false) -> otp_moves db (set_row i x' db).
Proof.
  intros Hi Hid Hatt Hused. apply otp_moves_rows; [apply next_id_set_row|].
  intros j y. rewrite rows_of_set_row. intros [[<- <-]|[_ Hj]]%lookup_insert_Some.
  - by exists x.
  - exists y. repeat split; [done|lia|done].
Qed.

Lemma otp_moves_add_row db x :
  otp_id x = next_id (table_of (A := OTPCode) db) -> otp_attempts x = 0 ->
  otp_moves db (add_row x db).
Proof.
  intros Hid Hatt [Hg Hnn]. split; [split|split].
  - by apply add_row_good.
  - intros i y. rewrite rows_of_add_row. intros [[<- <-]|[_ Hi]]%lookup_insert_Some; [lia|eauto].
  - simpl. lia.
  - intros i y. rewrite rows_of_add_row. intros [[<- <-]|[_ Hi]]%lookup_insert_Some; [left; lia|].
    right. exists y. split; [done|]. split; [lia|done].
Qed.

(** ** Conditional updates *)

Lemma update_unused_inv i upd env db r db' :
  update_unused i upd env db = (r, db') ->
  (exists x, rows_of db !! i = Some x /\ otp_is_used x = false /\
     r = Ok true /\ db' = set_row i (upd x) db) \/
  (db' = db /\ (r = Ok false \/ r = Raise OTPDatabaseError)).
Proof.
  unfold update_unused. destruct (rows_of db !! i) as [x|] eqn:Hi.
  2:{ intros [= <- <-]. auto. }
  destruct (otp_is_active x && negb (otp_is_used x)) eqn:Hc.
  2:{ intros [= <- <-]. auto. }
  destruct (row_ok _ _); intros [= <- <-]; [left|auto].
  exists x. apply andb_true_iff in Hc as [_ Hc]. apply negb_true_iff in Hc. done.
Qed.

Lemma mark_otp_used_inv otp env db r db' :
  mark_otp_used otp env db = (r, db') ->
  (exists x, rows_of db !! otp_id otp = Some x /\ otp_is_used x = false /\
     r = Ok true /\ db' = set_row (otp_id otp)
       (x <| otp_is_used := true |> <| otp_updated_at := oenv_now env |>) db) \/
  (db' = db /\ (r = Ok false \/ r = Raise OTPDatabaseError)).
Proof.
  unfold mark_otp_used. erewrite bind_ok by reflexivity. apply update_unused_inv.
Qed.

Lemma mark_otp_used_moves otp env db r db' :
  mark_otp_used otp env db = (r, db') -> otp_moves db db'.
Proof.
  intros [(x & Hx & Hu & -> & ->)|[-> _]]%mark_otp_used_inv; [|apply otp_moves_refl].
  eapply otp_moves_set_row; [done|done|simpl; lia|done].
Qed.

(** The marking that succeeds is the one that finds the row unused. *)
Lemma mark_or_not_found_inv otp env db r db' :
  mark_or_not_found otp env db = (r, db') ->
  otp_moves db db' /\
  match r with
  | Ok _ => (exists x, rows_of db !! otp_id otp = Some x /\ otp_is_used x = false) /\
            (forall x, rows_of db' !! otp_id otp = Some x -> otp_is_used x = true)
  | Raise e => e <> OTPInvalidCode
  end.
Proof.
  unfold mark_or_not_found. rewrite bind_unfold.
  destruct (mark_otp_used otp env db) as [r1 db1] eqn:H1.
  pose proof (mark_otp_used_moves _ _ _ _ _ H1) as Hm. apply mark_otp_used_inv in H1.
  destruct H1 as [(x & Hx & Hu & -> & Hdb)|[Hdb [->| ->]]]; intros [= <- <-]; split; try done.
  split; [by exists x|]. intros y. rewrite Hdb, rows_of_set_row, lookup_insert_eq.
  by intros [= <-].
Qed.

Lemma increment_otp_attempts_inv otp env db r db' :
  increment_otp_attempts otp env db = (r, db') ->
  otp_moves db db' /\
  match r with
  | Ok n => exists x x', rows_of db !! otp_id otp = Some x /\ otp_is_used x = false /\
              rows_of db' !! otp_id otp = Some x' /\
              otp_attempts x' = n /\ n = otp_attempts x + 1
  | Raise e => e <> OTPInvalidCode
  end.
Proof.
  unfold increment_otp_attempts, atomic. erewrite bind_ok by reflexivity. rewrite bind_unfold.
  destruct (update_unused _ _ env db) as [r1 db1] eqn:H1. apply update_unused_inv in H1.
  destruct H1 as [(x & Hx & Hu & -> & Hdb)|[Hdb [->| ->]]].
  2, 3: intros [= <- <-]; subst db1; split; [apply otp_moves_refl|done].
  erewrite bind_ok by reflexivity.
  set (x' := x <| otp_attempts := otp_attempts x + 1 |> <| otp_updated_at := clock env |>) in Hdb.
  assert (rows_of db1 !! otp_id otp = Some x') as Hx'
    by by rewrite Hdb, rows_of_set_row, lookup_insert_eq.
  erewrite bind_ok by by apply base_get_ok. intros [= <- <-].
  split; [|by exists x, x'].
  rewrite Hdb. eapply otp_moves_set_row; [done|done|simpl; lia|done].
Qed.

(** What a verification's first transaction does, by its result. *)
Lemma first_update_inv otp code env db r db' :
  first_update otp code env db = (r, db') ->
  otp_moves db db' /\
  match r with
  | Ok (Some _) =>
      (exists x, rows_of db !! otp_id otp = Some x /\ otp_is_used x = false) /\
      (forall x, rows_of db' !! otp_id otp = Some x -> otp_is_used x = true)
  | Raise OTPInvalidCode =>
      exists x x', rows_of db !! otp_id otp = Some x /\ otp_is_used x = false /\
        rows_of db' !! otp_id otp = Some x' /\ otp_attempts x' = otp_attempts x + 1 /\
        otp_attempts x' < AUTH_OTP_MAX_ATTEMPTS (oenv_settings env)
  | _ => True
  end.
Proof.
  unfold first_update. erewrite bind_ok by reflexivity.
  destruct (judge env otp code); rewrite bind_unfold.
  1, 2, 4: destruct (mark_or_not_found otp env db) as [[u|e] db1] eqn:H1;
    apply mark_or_not_found_inv in H1 as [Hm He]; intros [= <- <-];
    split; [done|by destruct He|done|by destruct e].
  destruct (increment_otp_attempts otp env db) as [[n|e] db1] eqn:H1;
    apply increment_otp_attempts_inv in H1 as [Hm He].
  2: intros [= <- <-]; split; [done|by destruct e].
  destruct He as (x & x' & Hx & Hu & Hx' & Hn & Hn').
  destruct (Z.leb_spec (AUTH_OTP_MAX_ATTEMPTS (oenv_settings env)) n); intros [= <- <-];
    split; try done.
  exists x, x'. repeat split; try done; lia.
Qed.

Lemma last_update_inv otp verified env db r db' :
  last_update otp verified env db = (r, db') ->
  otp_moves db db' /\
  match r with
  | Ok _ => exists o, verified = Some o
  | Raise e => verified = None /\ e <> OTPInvalidCode
  end.
Proof.
  destruct verified as [o|]; simpl.
  - intros [= <- <-]. split; [apply otp_moves_refl|by exists o].
  - rewrite bind_unfold. destruct (mark_otp_used otp env db) as [r1 db1] eqn:H1.
    pose proof (mark_otp_used_moves _ _ _ _ _ H1) as Hm. apply mark_otp_used_inv in H1.
    destruct H1 as [(x & _ & _ & -> & _)|[_ [->| ->]]]; by intros [= <- <-].
Qed.

(** ** The senders *)

Lemma persist_new_otp_inv kind v purpose h salt ex env db r db' :
  persist_new_otp kind v purpose h salt ex env db = (r, db') ->
  (exists x, r = Ok x /\ db' = add_row x db /\ row_ok (DB := OtpDB) ∅ x = true /\
     x = mkOTPCode (next_id (table_of (A := OTPCode) db)) kind v purpose h salt ex 0 false true
           (oenv_now env) (oenv_now env)) \/
  (db' = db /\ r = Raise OTPIntegrityError).
Proof.
  unfold persist_new_otp, atomic, create. destruct (row_ok _ _) eqn:Hok;
    intros [= <- <-]; [left|by right].
  by eexists.
Qed.

Lemma persist_new_otp_moves kind v purpose h salt ex env db r db' :
  persist_new_otp kind v purpose h salt ex env db = (r, db') -> otp_moves db db'.
Proof.
  intros [(x & _ & -> & _ & ->)|[-> _]]%persist_new_otp_inv; [|apply otp_moves_refl].
  by apply otp_moves_add_row.
Qed.

(** The rows after the update of [commit_otp_delivery]. *)
Definition superseded (now : Z) (otp x : OTPCode) : OTPCode :=
  if otp_is_active x && for_target (otp_identifier_kind otp) (otp_identifier_value otp)
       (otp_purpose otp) x && negb (otp_is_used x) && negb (otp_id x =? otp_id otp)
  then x <| otp_is_used := true |> <| otp_updated_at := now |> else x.

Lemma commit_otp_delivery_run otp env db :
  exists db', commit_otp_delivery otp env db = (Ok tt, db') /\
    rows_of db' = superseded (oenv_now env) otp <$> rows_of db /\
    next_id (table_of (A := OTPCode) db') = next_id (table_of (A := OTPCode) db) /\
    otp_cache db' = otp_cache db.
Proof. by eexists. Qed.

Lemma superseded_spec now otp x :
  otp_id (superseded now otp x) = otp_id x /\
  otp_attempts (superseded now otp x) = otp_attempts x /\
  (otp_is_used (superseded now otp x) = false -> otp_is_used x = false).
Proof. unfold superseded. by destruct (_ && _). Qed.

Lemma commit_otp_delivery_moves otp env db r db' :
  commit_otp_delivery otp env db = (r, db') -> otp_moves db db'.
Proof.
  intros H. destruct (commit_otp_delivery_run otp env db) as (db1 & H1 & Hrows & Hn & _).
  rewrite H1 in H. simplify_eq. apply otp_moves_rows; [done|].
  intros i x'. rewrite Hrows, lookup_fmap_Some. intros (x & <- & Hx). exists x.
  destruct (superseded_spec (oenv_now env) otp x) as (-> & -> & Hu).
  repeat split; [done|lia|done].
Qed.

Lemma discard_undelivered_otp_inv otp env db r db' :
  discard_undelivered_otp otp env db = (r, db') ->
  r = Ok tt /\ otp_cache db' = otp_cache db /\
  next_id (table_of (A := OTPCode) db') = next_id (table_of (A := OTPCode) db) /\
  (rows_of db' = rows_of db \/ rows_of db' = delete (otp_id otp) (rows_of db)).
Proof.
  unfold discard_undelivered_otp, atomic, modify. intros [= <- <-].
  destruct (rows_of db !! otp_id otp) as [x|]; [|by auto].
  destruct (otp_is_active x); split; auto.
Qed.

Lemma discard_undelivered_otp_moves otp env db r db' :
  discard_undelivered_otp otp env db = (r, db') -> otp_moves db db'.
Proof.
  intros (_ & _ & Hn & Hrows)%discard_undelivered_otp_inv. apply otp_moves_rows; [done|].
  intros i x' Hx'. exists x'. destruct Hrows as [Hrows|Hrows]; rewrite Hrows in Hx'.
  2: apply lookup_delete_Some in Hx' as [_ Hx'].
  all: repeat split; [done|lia|done].
Qed.

(** * The invariant of the system *)

Section Invariant.
Context (settings : OtpSettings).

(** The number of times a verifier may be told its code is wrong. *)
Definition retries : Z := Z.max 0 (AUTH_OTP_MAX_ATTEMPTS settings - 1).

Record codes_ok (db : OtpDB) (vs : gmap Z Verifier) (i : Z) : Prop := {
  won_once : count_of (won i) vs <= 1;
  won_used x : rows_of db !! i = Some x -> otp_is_used x = false -> count_of (won i) vs = 0;
  missed_bound : count_of (missed i) vs <= retries;
  missed_counted x : rows_of db !! i = Some x -> count_of (missed i) vs <= otp_attempts x;
  nothing_ahead : next_id (table_of (A := OTPCode) db) <= i ->
    count_of (won i) vs = 0 /\ count_of (missed i) vs = 0;
}.

Definition verifier_id (v : Verifier) : Z :=
  match v with Found otp _ | Last otp _ => otp_id otp | Done i _ => i end.

Definition verifiers_ok (s : verifiers) : Prop :=
  otp_table_ok s.1 /\ (forall i, codes_ok s.1 s.2 i) /\
  forall n v, s.2 !! n = Some v -> verifier_id v < next_id (table_of (A := OTPCode) s.1).

Lemma count_of_nonneg b vs : 0 <= count_of b vs.
Proof. apply msum_nonneg. intros n v _. destruct (b v); simpl; lia. Qed.

Lemma count_of_set b vs n v old :
  vs !! n = Some old ->
  count_of b (<[n := v]> vs) = count_of b vs - when (b old) 1 + when (b v) 1.
Proof. intros Hn. unfold count_of. by rewrite (msum_insert_upd _ _ _ _ old). Qed.

Lemma count_of_new b vs n v :
  vs !! n = None -> count_of b (<[n := v]> vs) = when (b v) 1 + count_of b vs.
Proof. intros Hn. unfold count_of. by rewrite msum_insert_new. Qed.

(** A step of the rows alone. *)
Lemma codes_ok_moves db db' vs i :
  otp_table_ok db -> otp_moves db db' -> codes_ok db vs i -> codes_ok db' vs i.
Proof.
  intros Hok Hm [Hw1 Hw2 Hm1 Hm2 Hn]. destruct (Hm Hok) as ([_ Hatt] & Hle & Hrows).
  split; [done| |done| |].
  - intros x' Hx' Hu. destruct (Hrows _ _ Hx') as [Hi|(x & Hx & _ & Hxu)]; [by apply Hn|].
    by eapply Hw2; [|apply Hxu].
  - intros x' Hx'. destruct (Hrows _ _ Hx') as [Hi|(x & Hx & Hxa & _)].
    + destruct (Hn Hi) as [_ ->]. by eapply Hatt.
    + specialize (Hm2 _ Hx). lia.
  - intros Hi. apply Hn. lia.
Qed.

Lemma verifiers_ok_moves db db' vs :
  otp_moves db db' -> verifiers_ok (db, vs) -> verifiers_ok (db', vs).
Proof.
  intros Hm (Hok & Hcodes & Hids). destruct (Hm Hok) as (Hok' & Hle & _). simpl in *.
  split; [done|]. split.
  - intros i. simpl. by apply (codes_ok_moves db).
  - intros n v Hv. apply Hids in Hv. simpl. lia.
Qed.

(** A verifier whose change counts neither as a success nor as a miss. *)
Lemma verifiers_ok_silent db vs n old v :
  vs !! n = Some old -> verifiers_ok (db, vs) ->
  verifier_id v = verifier_id old ->
  (forall i, won i v = won i old) -> (forall i, missed i v = missed i old) ->
  verifiers_ok (db, <[n := v]> vs).
Proof.
  intros Hn (Hok & Hcodes & Hids) Hid Hw Hm. split; [done|]. split.
  - intros i. destruct (Hcodes i) as [Hw1 Hw2 Hm1 Hm2 Hnx]. simpl in *.
    assert (count_of (won i) (<[n := v]> vs) = count_of (won i) vs) as Ew
      by (rewrite (count_of_set _ _ _ _ old), Hw by done; lia).
    assert (count_of (missed i) (<[n := v]> vs) = count_of (missed i) vs) as Em
      by (rewrite (count_of_set _ _ _ _ old), Hm by done; lia).
    split; rewrite ?Ew, ?Em; done.
  - intros m w. simpl. intros [[<- <-]|[_ Hm']]%lookup_insert_Some; [|by eapply Hids].
    rewrite Hid. by eapply Hids.
Qed.

(** A verifier that succeeds: it has found its row unused and left it used. *)
Lemma verifiers_ok_wins db db' vs n old v :
  vs !! n = Some old -> verifiers_ok (db, vs) -> otp_moves db db' ->
  verifier_id v = verifier_id old ->
  (forall i, won i old = false /\ won i v = (verifier_id old =? i)) ->
  (forall i, missed i v = missed i old) ->
  (exists x, rows_of db !! verifier_id old = Some x /\ otp_is_used x = false) ->
  (forall x, rows_of db' !! verifier_id old = Some x -> otp_is_used x = true) ->
  verifiers_ok (db', <[n := v]> vs).
Proof.
  intros Hn Hok Hmv Hid Hw Hm (x & Hx & Hxu) Hused.
  pose proof (verifiers_ok_moves _ _ _ Hmv Hok) as (Hok' & Hcodes' & Hids').
  destruct Hok as (_ & Hcodes & Hids). simpl in *. split; [done|]. split.
  - intros i. destruct (Hcodes' i) as [Hw1 Hw2 Hm1 Hm2 Hnx]. simpl in *.
    assert (count_of (missed i) (<[n := v]> vs) = count_of (missed i) vs) as Em
      by (rewrite (count_of_set _ _ _ _ old), Hm by done; lia).
    pose proof (count_of_set (won i) vs n v old Hn) as Ew.
    destruct (Hw i) as [Hwo Hwv]. rewrite Hwo, Hwv in Ew.
    destruct (Z.eqb_spec (verifier_id old) i) as [<-|Hne]; simpl in Ew.
    + pose proof (won_used _ _ _ (Hcodes _) x Hx Hxu) as Hz. simpl in Hz.
      split; rewrite ?Em, ?Ew; try done; try lia.
      * intros y Hy Hyu. apply Hused in Hy. congruence.
      * intros Hle. pose proof (Hids' _ _ Hn). simpl in *. lia.
    + rewrite Z.sub_0_r, Z.add_0_r in Ew. split; rewrite ?Ew, ?Em; done.
  - intros m w. simpl. intros [[<- <-]|[_ Hm']]%lookup_insert_Some; [|by eapply Hids'].
    rewrite Hid. by eapply Hids'.
Qed.

(** A verifier that is told its code is wrong: an attempt of its row is counted
    and the limit is not reached. *)
Lemma verifiers_ok_misses db db' vs n old v x x' :
  vs !! n = Some old -> verifiers_ok (db, vs) -> otp_moves db db' ->
  verifier_id v = verifier_id old ->
  (forall i, won i v = won i old) ->
  (forall i, missed i old = false /\ missed i v = (verifier_id old =? i)) ->
  rows_of db !! verifier_id old = Some x -> rows_of db' !! verifier_id old = Some x' ->
  otp_attempts x' = otp_attempts x + 1 ->
  otp_attempts x' < AUTH_OTP_MAX_ATTEMPTS settings ->
  verifiers_ok (db', <[n := v]> vs).
Proof.
  intros Hn Hok Hmv Hid Hw Hm Hx Hx' Hinc Hlt.
  pose proof (verifiers_ok_moves _ _ _ Hmv Hok) as (Hok' & Hcodes' & Hids').
  destruct Hok as (_ & Hcodes & Hids). simpl in *. split; [done|]. split.
  - intros i. destruct (Hcodes' i) as [Hw1 Hw2 Hm1 Hm2 Hnx]. simpl in *.
    assert (count_of (won i) (<[n := v]> vs) = count_of (won i) vs) as Ew
      by (rewrite (count_of_set _ _ _ _ old), Hw by done; lia).
    pose proof (count_of_set (missed i) vs n v old Hn) as Em.
    destruct (Hm i) as [Hmo Hmv']. rewrite Hmo, Hmv' in Em.
    destruct (Z.eqb_spec (verifier_id old) i) as [<-|Hne]; simpl in Em.
    + pose proof (missed_counted _ _ _ (Hcodes _) x Hx) as Hle. simpl in Hle.
      split; rewrite ?Em, ?Ew; try done; unfold retries; try lia.
      * intros y Hy. assert (y = x') as -> by congruence. lia.
      * intros Hle'. pose proof (Hids' _ _ Hn). simpl in *. lia.
    + rewrite Z.sub_0_r, Z.add_0_r in Em. split; rewrite ?Ew, ?Em; done.
  - intros m w. simpl. intros [[<- <-]|[_ Hm']]%lookup_insert_Some; [|by eapply Hids'].
    rewrite Hid. by eapply Hids'.
Qed.

Lemma verifiers_ok_finds db vs n otp code :
  vs !! n = None -> verifiers_ok (db, vs) ->
  otp_id otp < next_id (table_of (A := OTPCode) db) ->
  verifiers_ok (db, <[n := Found otp code]> vs).
Proof.
  intros Hn (Hok & Hcodes & Hids) Hid. split; [done|]. split.
  - intros i. destruct (Hcodes i) as [Hw1 Hw2 Hm1 Hm2 Hnx]. simpl in *.
    split; rewrite ?count_of_new by done; simpl; rewrite ?Z.add_0_l; done.
  - intros m w. simpl. intros [[<- <-]|[_ Hm]]%lookup_insert_Some; [done|by eapply Hids].
Qed.

Lemma find_unused_otp_inv kind v purpose env db otp db' :
  find_unused_otp kind v purpose env db = (Ok (Some otp), db') ->
  exists i, rows_of db !! i = Some otp /\ otp_is_used otp = false.
Proof.
  unfold find_unused_otp, query. intros [= Hf _].
  apply qs_first_Some in Hf as [i Hi]. exists i.
  apply objects_filter_lookup in Hi as (Hi & _ & Hp). split; [done|].
  apply andb_true_iff in Hp as [_ Hu]. by apply negb_true_iff in Hu.
Qed.

Lemma verifier_step_ok s s' :
  verifier_step settings s s' -> verifiers_ok s -> verifiers_ok s'.
Proof.
  intros Hstep Hok.
  destruct Hstep as [env db vs n kind v purpose otp code Henv Hn H
    |env db vs n otp code r db' Henv Hn H|env db vs n otp verified r db' Henv Hn H
    |env db vs kind v purpose h salt ex r db' H|env db vs otp r db' H|env db vs otp r db' H|db vs c].
  - apply find_unused_otp_inv in H as (i & Hi & _). apply verifiers_ok_finds; [done|done|].
    destruct Hok as ([[_ Hwf] _] & _). apply Hwf in Hi. simpl in Hi. simpl. lia.
  - apply first_update_inv in H as [Hm Hr]. pose proof (verifiers_ok_moves _ _ _ Hm Hok) as Hok'.
    destruct r as [[o|]|e].
    + destruct Hr as [Hx Hu]. by eapply (verifiers_ok_wins db).
    + by eapply verifiers_ok_silent.
    + destruct e; try (by eapply verifiers_ok_silent).
      destruct Hr as (x & x' & Hx & _ & Hx' & Hinc & Hlt). rewrite Henv in Hlt.
      by eapply (verifiers_ok_misses db).
  - apply last_update_inv in H as [Hm Hr]. pose proof (verifiers_ok_moves _ _ _ Hm Hok) as Hok'.
    destruct r as [o|e].
    + destruct Hr as [o' ->]. by eapply verifiers_ok_silent.
    + destruct Hr as [-> Hr]. eapply verifiers_ok_silent; [done|done|done|done|].
      intros i. simpl. by destruct e.
  - eapply verifiers_ok_moves; [by eapply persist_new_otp_moves|done].
  - eapply verifiers_ok_moves; [by eapply commit_otp_delivery_moves|done].
  - eapply verifiers_ok_moves; [by eapply discard_undelivered_otp_moves|done].
  - eapply verifiers_ok_moves; [|done]. apply otp_moves_rows; [done|].
    intros i x Hx. exists x. repeat split; [done|lia|done].
Qed.

Lemma otp_reachable_ok s : otp_reachable settings s -> verifiers_ok s.
Proof.
  intros (db & Hdb & Hsteps). assert (verifiers_ok (db, ∅)) as Hok.
  { split; [done|]. split; [|by intros n v Hv; simpl in Hv; rewrite lookup_empty in Hv].
    intros i. assert (forall b, count_of b ∅ = 0) as Hz by (intros b; apply msum_empty).
    split; rewrite ?Hz; try done; unfold retries; [lia|].
    intros x Hx. simpl in Hx. by apply Hdb in Hx. }
  revert Hok. clear Hdb. induction Hsteps as [s|s s1 s2 Hstep _ IH]; [done|].
  intros Hok. apply IH. by eapply verifier_step_ok.
Qed.

Lemma two_counted b vs n m v w :
  n <> m -> vs !! n = Some v -> vs !! m = Some w -> b v = true -> b w = true ->
  2 <= count_of b vs.
Proof.
  intros Hne Hn Hm Hv Hw. unfold count_of.
  rewrite <- (insert_id vs n v Hn), <- (insert_delete_eq vs n v).
  rewrite msum_insert_new by apply lookup_delete_eq. rewrite Hv. simpl.
  pose proof (msum_elem_le (fun v => when (b v) 1) (delete n vs) m w) as Hle.
  cbv beta in Hle. rewrite Hw in Hle. simpl in Hle. enough (1 <= msum (fun v => when (b v) 1) (delete n vs)) by lia.
  apply Hle; [by rewrite lookup_delete_ne|]. intros j y _. destruct (b y); simpl; lia.
Qed.

End Invariant.

(** C10: a code is spent by one verification: whatever the order in which
    verifications, sends, supersedings and discards take place, two
    verifications never succeed with the same row. *)
Theorem otp_is_spent_once settings s n m i o o' :
  otp_reachable settings s -> n <> m ->
  s.2 !! n = Some (Done i (Ok o)) -> s.2 !! m = Some (Done i (Ok o')) -> False.
Proof.
  intros Hs%otp_reachable_ok Hne Hn Hm. destruct Hs as (_ & Hcodes & _).
  pose proof (won_once _ _ _ _ (Hcodes i)) as Hone.
  pose proof (two_counted (won i) _ _ _ _ _ Hne Hn Hm) as Htwo. simpl in Htwo.
  rewrite Z.eqb_refl in Htwo. specialize (Htwo eq_refl eq_refl). lia.
Qed.


(** ** A verification is a run of a verifier *)

(** [verify_otp] takes the steps of the system: a look-up and its two
    transactions, with nothing in between. *)
Lemma verify_otp_is_a_run kind_v v purpose_v code env db r db' n :
  verify_otp kind_v v purpose_v code env db = (r, db') ->
  db' = db \/
  exists i, verifier_steps (oenv_settings env) (db, ∅) (db', {[ n := Done i r ]}).
Proof.
  unfold verify_otp, normalize_identifier_kind, normalize_purpose.
  destruct (of_value kind_v) as [kind|]; [|intros [= <- <-]; by left].
  erewrite bind_ok by reflexivity.
  destruct (of_value purpose_v) as [purpose|]; [|intros [= <- <-]; by left].
  erewrite bind_ok by reflexivity.
  destruct (negb _); [intros [= <- <-]; by left|]. erewrite bind_ok by reflexivity.
  rewrite bind_unfold. destruct (find_unused_otp kind v purpose env db) as [[[otp|]|e] db0] eqn:Hf;
    pose proof Hf as [= _ <-]; [|intros [= <- <-]; by left].
  rewrite bind_unfold. destruct (first_update otp code env db) as [r1 db1] eqn:H1. intros H. right.
  exists (otp_id otp).
  eapply verifiers_go; [eapply (verifier_finds _ env _ _ n kind v purpose otp code); [done|by rewrite lookup_empty|exact Hf]|].
  rewrite insert_empty.
  eapply verifiers_go; [eapply (verifier_first _ env); [done|by rewrite lookup_singleton_eq|done]|].
  rewrite insert_singleton_eq. destruct r1 as [verified|e].
  - eapply verifiers_go; [eapply (verifier_last _ env); [done|by rewrite lookup_singleton_eq|done]|].
    rewrite insert_singleton_eq. apply verifiers_stay.
  - simplify_eq. apply verifiers_stay.
Qed.

(** * Generation followed by verification *)

(** What the cache answers for a key at a time. *)
Definition cached (db : OtpDB) (key : string) (t : Z) : option Z :=
  match otp_cache db !! key with
  | Some e => if ce_expires e <=? t then None else Some (ce_value e)
  | None => None
  end.

Lemma reserve_cooldown_slot_run kind v p seconds env db :
  let key := cooldown_key env kind v p in
  reserve_cooldown_slot kind v p seconds env db =
  match cached db key (oenv_now env) with
  | None => (Ok None, db <| otp_cache := <[key := mkCacheEntry (oenv_now env)
                              (oenv_now env + seconds * usec_per_sec)]> (otp_cache db) |>)
  | Some started =>
      (Ok (Some (Z.max (Z.quot (seconds * usec_per_sec - (oenv_now env - started)) usec_per_sec) 1)),
       db)
  end.
Proof.
  intros key. unfold reserve_cooldown_slot, cache_add, cache_get, cache_set, ask, timezone_now, cached.
  cbv [mbind comp_bind mret comp_ret]. fold key.
  destruct (otp_cache db !! key) as [e|] eqn:He; [|done].
  destruct (ce_expires e <=? oenv_now env) eqn:Hx; [done|]. by rewrite He, Hx.
Qed.

(** The row [generate_and_send_otp] creates. *)
Definition new_otp (env : OtpEnv) (i : Z) (kind : PrimaryIdentifierKind.t) (v : string)
    (p : OTPPurpose.t) : OTPCode :=
  mkOTPCode i kind v p (hash_code env (generate_code env) (generate_salt env) kind v p)
    (generate_salt env)
    (oenv_now env + AUTH_OTP_TTL_SECONDS (oenv_settings env) * usec_per_sec) 0 false true
    (oenv_now env) (oenv_now env).

Definition delivery_failure (e : otp_exc) : bool :=
  match e with OTPDeliveryError | OTPProviderException _ => true | _ => false end.

(** Either nothing was handed to the provider, or the slot was free, the row
    was created and handed to it. *)
Lemma generate_cases kind_v v purpose_v env db r db' :
  generate_and_send_otp kind_v v purpose_v env db = (r, db') ->
  (exists e, r = Raise e /\ delivery_failure e = false /\ rows_of db' = rows_of db) \/
  exists kind p db1,
    of_value kind_v = Some kind /\ of_value purpose_v = Some p /\
    reserve_cooldown_slot kind v p (AUTH_OTP_COOLDOWN_SECONDS (oenv_settings env)) env db
      = (Ok None, db1) /\
    let x := new_otp env (next_id (table_of (A := OTPCode) db1)) kind v p in
    row_ok (DB := OtpDB) ∅ x = true /\
    deliver_otp x kind v p (generate_code env) env (add_row x db1) = (r, db').
Proof.
  unfold generate_and_send_otp, normalize_identifier_kind, normalize_purpose.
  destruct (of_value kind_v) as [kind|]; [|intros [= <- <-]; left; by eexists].
  erewrite bind_ok by reflexivity.
  destruct (of_value purpose_v) as [p|]; [|intros [= <- <-]; left; by eexists].
  do 2 erewrite bind_ok by reflexivity. rewrite bind_unfold.
  destruct (reserve_cooldown_slot kind v p _ env db) as [r1 db1] eqn:Hres.
  assert (rows_of db1 = rows_of db) as Hrows.
  { rewrite reserve_cooldown_slot_run in Hres.
    by destruct (cached db _ _); injection Hres as <- <-. }
  destruct r1 as [[s|]|e].
  1: rewrite bind_unfold; intros [= <- <-]; left; by eexists.
  2: { rewrite reserve_cooldown_slot_run in Hres. by destruct (cached db _ _). }
  erewrite bind_ok by reflexivity. unfold get_latest_active_otp.
  erewrite bind_ok by reflexivity. do 1 erewrite bind_ok by reflexivity.
  assert (forall r db', (persist_new_otp kind v p
      (hash_code env (generate_code env) (generate_salt env) kind v p) (generate_salt env)
      (clock env + AUTH_OTP_TTL_SECONDS (oenv_settings env) * usec_per_sec)
      ≫= fun otp => deliver_otp otp kind v p (generate_code env)) env db1 = (r, db') ->
    (r = Raise OTPIntegrityError /\ db' = db1) \/
    row_ok (DB := OtpDB) ∅ (new_otp env (next_id (table_of (A := OTPCode) db1)) kind v p) = true /\
    deliver_otp (new_otp env (next_id (table_of (A := OTPCode) db1)) kind v p) kind v p
      (generate_code env) env
      (add_row (new_otp env (next_id (table_of (A := OTPCode) db1)) kind v p) db1) = (r, db'))
    as Htail.
  { clear. intros r db'. rewrite bind_unfold.
    destruct (persist_new_otp _ _ _ _ _ _ env db1) as [r2 db2] eqn:Hp.
    apply persist_new_otp_inv in Hp as [(x & -> & -> & Hx & ->)|[-> ->]]; [by right|].
    intros [= <- <-]. by left. }
  rewrite bind_unfold.
  match goal with |- context [qs_first ?q] => destruct (qs_first q) as [latest|] end.
  1: destruct (_ <? _); [intros [= <- <-]; left; by eexists|].
  all: intros [[-> ->]|H]%Htail; [left; by eexists|right; by exists kind, p, db1].
Qed.

Lemma cached_later db key t t' : t <= t' -> cached db key t = None -> cached db key t' = None.
Proof.
  unfold cached. destruct (otp_cache db !! key) as [e|]; [|done]. intros Ht.
  destruct (Z.leb_spec (ce_expires e) t); [|done]. by rewrite (proj2 (Z.leb_le _ _)) by lia.
Qed.

(** The slot was free and is taken; the rows are as they were. *)
Lemma reserved_slot kind v p seconds env db db1 :
  reserve_cooldown_slot kind v p seconds env db = (Ok None, db1) ->
  cached db (cooldown_key env kind v p) (oenv_now env) = None /\
  db1 = db <| otp_cache := <[cooldown_key env kind v p := mkCacheEntry (oenv_now env)
                 (oenv_now env + seconds * usec_per_sec)]> (otp_cache db) |>.
Proof.
  rewrite reserve_cooldown_slot_run. destruct (cached _ _ _); [done|]. by intros [= <-].
Qed.

Lemma undo_undelivered_run x kind v p env db r db' :
  otp_table_ok db -> otp_id x = next_id (table_of (A := OTPCode) db) -> otp_is_active x = true ->
  undo_undelivered x kind v p env (add_row x db) = (r, db') ->
  rows_of db' = rows_of db /\ otp_cache db' = delete (cooldown_key env kind v p) (otp_cache db).
Proof.
  intros [[_ Hwf] _] Hid Ha. unfold undo_undelivered, discard_undelivered_otp, atomic, modify.
  rewrite bind_unfold. rewrite rows_of_add_row, Hid, lookup_insert_eq, Ha. intros [= <- <-].
  split; [|done]. unfold rows_of at 1. simpl. rewrite delete_insert_eq.
  apply delete_id. pose proof (fresh_key (A := OTPCode) db Hwf) as Hn. exact Hn.
Qed.

(** A code that could not be delivered leaves no trace: when the provider
    fails, the rows are what they were (the earlier code still counts) and so is
    what the cache answers, so that the user may ask again at once. *)
Theorem failed_delivery_leaves_no_trace kind_v v purpose_v env db e db' :
  otp_table_ok db ->
  generate_and_send_otp kind_v v purpose_v env db = (Raise e, db') ->
  delivery_failure e = true ->
  rows_of db' = rows_of db /\
  forall key t, oenv_now env <= t -> cached db' key t = cached db key t.
Proof.
  intros Hok [(e' & [= <-] & He & _)|(kind & p & db1 & _ & _ & Hres & _ & H)]%generate_cases Hd;
    [congruence|].
  apply reserved_slot in Hres as [Hfree ->].
  set (x := new_otp _ _ _ _ _) in H. set (db1 := db <| otp_cache := _ |>) in H.
  assert (exists u, undo_undelivered x kind v p env (add_row x db1) = (u, db')) as [u Hu].
  { revert H. unfold deliver_otp. erewrite bind_ok by reflexivity.
    destruct (oenv_send _ _ _ _ _); [done|rewrite bind_unfold..].
    all: destruct (undo_undelivered x kind v p env (add_row x db1)) as [[u|u] db2].
    all: intros [= <- <-]; by eexists. }
  apply undo_undelivered_run in Hu as [Hrows Hcache]; [|done..]. split; [done|].
  intros key t Ht. unfold cached at 1. rewrite Hcache.
  destruct (decide (key = cooldown_key env kind v p)) as [->|Hne].
  - rewrite lookup_delete_eq. symmetry. by eapply cached_later.
  - rewrite lookup_delete_ne by done. unfold db1. simpl. by rewrite lookup_insert_ne.
Qed.

(** What a generation that returns has done. *)
Lemma generate_ok_inv kind_v v purpose_v env db g db' :
  generate_and_send_otp kind_v v purpose_v env db = (Ok g, db') ->
  exists kind p,
    of_value kind_v = Some kind /\ of_value purpose_v = Some p /\
    let x := new_otp env (next_id (table_of (A := OTPCode) db)) kind v p in
    g = mkOTPGenerationResult x (generate_code env)
          (AUTH_OTP_TTL_SECONDS (oenv_settings env)) /\
    oenv_send env kind v (generate_code env) p = Sent /\ row_ok (DB := OtpDB) ∅ x = true /\
    rows_of db' = superseded (oenv_now env) x <$> <[otp_id x := x]> (rows_of db) /\
    otp_cache db' = <[cooldown_key env kind v p := mkCacheEntry (oenv_now env)
      (oenv_now env + AUTH_OTP_COOLDOWN_SECONDS (oenv_settings env) * usec_per_sec)]> (otp_cache db).
Proof.
  intros [(e' & ? & _)|(kind & p & db1 & Hk & Hp & Hres & Hok & H)]%generate_cases; [done|].
  apply reserved_slot in Hres as [_ ->]. exists kind, p. split; [done|]. split; [done|].
  revert H. unfold deliver_otp. erewrite bind_ok by reflexivity.
  destruct (oenv_send _ _ _ _ _) eqn:Hs; rewrite bind_unfold.
  2, 3: match goal with |- context [undo_undelivered ?a ?b ?c ?d ?e ?f] =>
          by destruct (undo_undelivered a b c d e f) as [[?|?] ?] end.
  match goal with |- context [commit_otp_delivery ?x env ?d] =>
    destruct (commit_otp_delivery_run x env d) as (db2 & -> & Hrows & _ & Hcache) end.
  intros [= <- <-]. split; [done|]. split; [done|]. split; [done|]. split; [|done].
  rewrite Hrows. by rewrite rows_of_add_row.
Qed.

(** One code per cooldown: after a code was sent, a further request for the
    same target within the cooldown is refused with the seconds that remain,
    and changes nothing. *)
Theorem cooldown_refuses_a_second_code kind_v v purpose_v env env' db g db' :
  generate_and_send_otp kind_v v purpose_v env db = (Ok g, db') ->
  oenv_salted_hmac env' = oenv_salted_hmac env ->
  oenv_settings env' = oenv_settings env ->
  oenv_now env <= oenv_now env' <
    oenv_now env + AUTH_OTP_COOLDOWN_SECONDS (oenv_settings env) * usec_per_sec ->
  exists s, generate_and_send_otp kind_v v purpose_v env' db' = (Raise (OTPCooldownActive s), db') /\
    1 <= s <= AUTH_OTP_COOLDOWN_SECONDS (oenv_settings env).
Proof.
  intros (kind & p & Hk & Hp & _ & _ & _ & _ & Hcache)%generate_ok_inv Hsalt Hset Ht.
  unfold usec_per_sec in *. set (c := AUTH_OTP_COOLDOWN_SECONDS (oenv_settings env)) in *.
  exists (Z.max (Z.quot (c * 1000000 - (oenv_now env' - oenv_now env)) 1000000) 1). split.
  - unfold generate_and_send_otp, normalize_identifier_kind, normalize_purpose.
    rewrite Hk, Hp. do 3 erewrite bind_ok by reflexivity. rewrite bind_unfold.
    rewrite reserve_cooldown_slot_run, Hset. unfold cached, cooldown_key.
    rewrite Hsalt, Hcache. unfold cooldown_key. rewrite lookup_insert_eq. simpl.
    rewrite (proj2 (Z.leb_gt _ _)) by lia. reflexivity.
  - split; [lia|]. apply Z.max_lub; [|lia].
    apply (Z.le_trans _ (Z.quot (c * 1000000) 1000000)); [apply Z.quot_le_mono; lia|].
    rewrite Z.quot_mul by done. lia.
Qed.

Lemma generated_code_not_blank env :
  0 <= oenv_randbelow env (10 ^ Z.of_nat (AUTH_OTP_CODE_LENGTH (oenv_settings env))) ->
  str_true (py_strip (generate_code env)) = true.
Proof. intros H. by eapply strip_numeral, parse_digits_zero_pad. Qed.

Lemma for_target_self x :
  for_target (otp_identifier_kind x) (otp_identifier_value x) (otp_purpose x) x = true.
Proof. unfold for_target, str_eqb. by rewrite !bool_decide_true. Qed.

(** After a delivery the new row is the only unused one of its target. *)
Lemma superseded_unused now x y i (m : gmap Z OTPCode) :
  (superseded now x <$> <[otp_id x := x]> m) !! i = Some y ->
  (forall j z, m !! j = Some z -> otp_id z <> otp_id x) ->
  otp_is_active y = true ->
  for_target (otp_identifier_kind x) (otp_identifier_value x) (otp_purpose x) y = true ->
  otp_is_used y = false -> y = x.
Proof.
  rewrite lookup_fmap_Some. intros (z & <- & [[_ <-]|[_ Hz]]%lookup_insert_Some) Hids Ha Ht Hu.
  - unfold superseded in *. rewrite Z.eqb_refl, andb_false_r in *. done.
  - exfalso. apply Hids in Hz. apply Z.eqb_neq in Hz. unfold superseded in *.
    destruct (otp_is_active z && _ && _ && _) eqn:Hc; [done|].
    rewrite Ha, Ht, Hu, Hz in Hc. done.
Qed.

Lemma superseded_self now x (m : gmap Z OTPCode) :
  (superseded now x <$> <[otp_id x := x]> m) !! otp_id x = Some x.
Proof.
  rewrite lookup_fmap, lookup_insert_eq. simpl. unfold superseded.
  by rewrite Z.eqb_refl, andb_false_r.
Qed.

(** The look-up that finds the only unused row of the target. *)
Lemma find_unused_otp_only env db i x :
  rows_of db !! i = Some x -> otp_is_active x = true -> otp_is_used x = false ->
  (forall j y, rows_of db !! j = Some y -> otp_is_active y = true ->
     for_target (otp_identifier_kind x) (otp_identifier_value x) (otp_purpose x) y = true ->
     otp_is_used y = false -> y = x) ->
  find_unused_otp (otp_identifier_kind x) (otp_identifier_value x) (otp_purpose x) env db
  = (Ok (Some x), db).
Proof.
  intros Hi Ha Hu Honly. unfold find_unused_otp, query. do 2 f_equal.
  apply (qs_first_unique _ i).
  - apply objects_filter_lookup. by rewrite for_target_self, Hu.
  - intros j y (Hj & Hy & Hp)%objects_filter_lookup.
    apply andb_true_iff in Hp as [Ht Hyu%negb_true_iff]. by eapply Honly.
Qed.

Lemma find_unused_otp_none kind v p env db :
  (forall j y, rows_of db !! j = Some y -> otp_is_active y = true ->
     for_target kind v p y = true -> otp_is_used y = true) ->
  find_unused_otp kind v p env db = (Ok None, db).
Proof.
  intros Hall. unfold find_unused_otp, query. do 2 f_equal.
  replace (objects_filter _ db) with (∅ : gmap Z OTPCode); [done|].
  symmetry. apply map_empty. intros j. apply eq_None_not_Some. intros [y Hy].
  apply objects_filter_lookup in Hy as (Hj & Ha & Hp).
  apply andb_true_iff in Hp as [Ht Hu%negb_true_iff]. rewrite (Hall j y) in Hu; done.
Qed.

(** The right code within its time. *)
Lemma first_update_right env db x code :
  rows_of db !! otp_id x = Some x -> otp_is_active x = true -> otp_is_used x = false ->
  row_ok (DB := OtpDB) ∅ x = true -> judge env x code = VRight ->
  exists db', first_update x code env db = (Ok (Some (x <| otp_is_used := true |>)), db') /\
    rows_of db' = <[otp_id x := x <| otp_is_used := true |> <| otp_updated_at := oenv_now env |>]>
                    (rows_of db).
Proof.
  intros Hx Ha Hu Hok Hj. unfold first_update. erewrite bind_ok by reflexivity. rewrite Hj.
  unfold mark_or_not_found, mark_otp_used, update_unused. rewrite !bind_unfold.
  cbn [timezone_now]. rewrite Hx, Ha, Hu. simpl in Hok. simpl. rewrite Hok.
  by eexists.
Qed.

(** C12: the code that was sent verifies within its time to live, whatever was
    sent before, and once only: after that no code whatsoever verifies for the
    target until another is sent. *)
Theorem sent_code_verifies_once kind_v v purpose_v env env' db g db' :
  otp_table_ok db ->
  generate_and_send_otp kind_v v purpose_v env db = (Ok g, db') ->
  0 <= oenv_randbelow env (10 ^ Z.of_nat (AUTH_OTP_CODE_LENGTH (oenv_settings env))) ->
  str_true (generate_salt env) = true ->
  oenv_hmac env' = oenv_hmac env ->
  0 < AUTH_OTP_MAX_ATTEMPTS (oenv_settings env') ->
  oenv_now env' <= oenv_now env + AUTH_OTP_TTL_SECONDS (oenv_settings env) * usec_per_sec ->
  exists o db2,
    verify_otp kind_v v purpose_v (gen_code_plain g) env' db' = (Ok o, db2) /\
    otp_id o = otp_id (gen_otp g) /\
    forall env2 code, str_true (py_strip code) = true ->
      verify_otp kind_v v purpose_v code env2 db2 = (Raise OTPNotFound, db2).
Proof.
  intros [[_ Hwf] _] (kind & p & Hk & Hp & -> & _ & Hok & Hrows & _)%generate_ok_inv
    Hcode Hsalt Hmac Hmax Httl.
  set (x := new_otp env _ kind v p) in *.
  assert (forall j z, rows_of db !! j = Some z -> otp_id z <> otp_id x) as Hids.
  { intros j z Hz. apply Hwf in Hz as [Hz ?]. simpl in *. lia. }
  assert (forall j y, rows_of db' !! j = Some y -> otp_is_active y = true ->
    for_target kind v p y = true -> otp_is_used y = false -> y = x) as Honly.
  { intros j y Hy Ha Ht Hu. rewrite Hrows in Hy. by eapply (superseded_unused _ x y j). }
  assert (rows_of db' !! otp_id x = Some x) as Hx by (rewrite Hrows; apply superseded_self).
  assert (judge env' x (generate_code env) = VRight) as Hj.
  { unfold judge, is_expired. simpl. rewrite (proj2 (Z.ltb_ge _ _)), (proj2 (Z.leb_gt _ _)) by lia.
    unfold expected_hash_for. simpl. rewrite Hsalt. simpl. unfold hash_code, str_eqb.
    by rewrite Hmac, bool_decide_true. }
  destruct (first_update_right env' db' x (generate_code env) Hx eq_refl eq_refl Hok Hj)
    as (db2 & Hfirst & Hrows2).
  exists (x <| otp_is_used := true |>), db2. split; [|split; [done|]].
  - unfold verify_otp, normalize_identifier_kind, normalize_purpose. rewrite Hk, Hp.
    cbn [gen_code_plain]. do 2 erewrite bind_ok by reflexivity. rewrite generated_code_not_blank by done.
    erewrite bind_ok by reflexivity. erewrite bind_ok by by apply (find_unused_otp_only env' db' _ x Hx).
    cbv beta iota. erewrite bind_ok by exact Hfirst. done.
  - intros env2 code Hb. unfold verify_otp, normalize_identifier_kind, normalize_purpose.
    rewrite Hk, Hp, Hb. do 3 erewrite bind_ok by reflexivity.
    erewrite bind_ok; [|apply find_unused_otp_none]; [done|].
    intros j y Hy Ha Ht. rewrite Hrows2 in Hy.
    apply lookup_insert_Some in Hy as [[_ <-]|[Hne Hy]]; [done|].
    destruct (otp_is_used y) eqn:Hu; [done|]. exfalso. apply Hne.
    assert (y = x) as -> by by eapply Honly.
    rewrite Hrows, lookup_fmap_Some in Hy. destruct Hy as (z & Hz & Hy).
    apply lookup_insert_Some in Hy as [[? _]|[_ Hy]]; [done|].
    apply Hids in Hy. destruct (superseded_spec (oenv_now env) x z) as [Hid _]. congruence.
Qed.

(** * Examples *)

(** A stand-in for the keyed hash: the message itself, cut to the column. *)
Definition sample_hmac (s : string) : string := py_prefix 64 s.

Definition sample_otp_env : OtpEnv := mkOtpEnv 1000000000 default_otp_settings sample_hmac
  sample_hmac (fun _ => 42) (fun _ => "ab"%string) (fun _ _ _ _ => Sent).

Definition later_env (seconds : Z) : OtpEnv :=
  sample_otp_env <| oenv_now := 1000000000 + seconds * usec_per_sec |>.

Definition empty_otp_db : OtpDB := mkOtpDB (mkTable ∅ 1) ∅.

Definition after_send : OtpDB :=
  (generate_and_send_otp "phone" "+989121234567" "login" sample_otp_env empty_otp_db).2.

Lemma empty_otp_db_ok : otp_table_ok empty_otp_db.
Proof. split; [split; [simpl; lia|]|]; intros i x Hi; done. Qed.

(** The sixth guess after five wrong ones meets a closed row. *)
Definition guess (code : string) (db : OtpDB) : outcome otp_exc OTPCode * OtpDB :=
  verify_otp "phone" "+989121234567" "login" code (later_env 10) db.

Example five_wrong_guesses_close_the_code :
  let db4 := Nat.iter 4 (fun db => (guess "000000" db).2) after_send in
  (guess "000000" db4).1 = Raise OTPTooManyAttempts /\
  (guess "000042" (guess "000000" db4).2).1 = Raise OTPNotFound /\
  exists o, (guess "000042" db4).1 = Ok o.
Proof. vm_compute. split; [reflexivity|]. split; [reflexivity|]. by eexists. Qed.

Lemma sent_code_verifies_once_witness :
  exists g db', generate_and_send_otp "phone" "+989121234567" "login" sample_otp_env empty_otp_db
    = (Ok g, db') /\
  exists o db2, verify_otp "phone" "+989121234567" "login" (gen_code_plain g) (later_env 300) db'
    = (Ok o, db2).
Proof.
  destruct (generate_and_send_otp "phone" "+989121234567" "login" sample_otp_env empty_otp_db)
    as [[g|e] db'] eqn:H; [|vm_compute in H; discriminate].
  exists g, db'. split; [reflexivity|].
  destruct (sent_code_verifies_once _ _ _ sample_otp_env (later_env 300) _ _ _ empty_otp_db_ok H
    ltac:(vm_compute; discriminate) eq_refl eq_refl eq_refl ltac:(vm_compute; discriminate))
    as (o & db2 & Ho & _).
  exists o, db2. exact Ho.
Defined.

Lemma cooldown_refuses_a_second_code_witness :
  exists s, generate_and_send_otp "phone" "+989121234567" "login" (later_env 59) after_send
    = (Raise (OTPCooldownActive s), after_send) /\ 1 <= s <= 60.
Proof.
  destruct (generate_and_send_otp "phone" "+989121234567" "login" sample_otp_env empty_otp_db)
    as [[g|e] db'] eqn:H; [|vm_compute in H; discriminate].
  assert (after_send = db') as -> by (unfold after_send; rewrite H; reflexivity).
  exact (cooldown_refuses_a_second_code _ _ _ sample_otp_env (later_env 59) _ _ _ H
    eq_refl eq_refl ltac:(split; vm_compute; first [discriminate|reflexivity])).
Defined.

(** A code sent an hour ago. *)
Definition one_code_db : OtpDB := mkOtpDB (mkTable {[ 1 :=
  mkOTPCode 1 PrimaryIdentifierKind.PHONE "+989121234567" OTPPurpose.LOGIN "h" "s"
    (1000000000 - 3300 * usec_per_sec) 1 false true (1000000000 - 3600 * usec_per_sec)
    (1000000000 - 3600 * usec_per_sec) ]} 2) ∅.

Lemma one_code_db_ok : otp_table_ok one_code_db.
Proof.
  split; [split; [simpl; lia|]|].
  all: intros i x Hi; unfold rows_of in Hi; simpl in Hi; apply lookup_singleton_Some in Hi as [<- <-]; simpl; lia.
Qed.

Definition unreachable_provider : OtpEnv :=
  sample_otp_env <| oenv_send := fun _ _ _ _ => OTPDeliveryProviderError |>.

Lemma failed_delivery_leaves_no_trace_witness :
  exists db', generate_and_send_otp "phone" "+989121234567" "login" unreachable_provider one_code_db
    = (Raise OTPDeliveryError, db') /\ rows_of (A := OTPCode) db' = rows_of one_code_db.
Proof.
  destruct (generate_and_send_otp "phone" "+989121234567" "login" unreachable_provider one_code_db)
    as [[g|e] db'] eqn:H; [vm_compute in H; discriminate|].
  assert (e = OTPDeliveryError) as -> by (vm_compute in H; congruence).
  exists db'. split; [reflexivity|].
  exact (proj1 (failed_delivery_leaves_no_trace _ _ _ _ _ _ _ one_code_db_ok H eq_refl)).
Defined.

Definition sample_otp : OTPCode :=
  new_otp sample_otp_env 1 PrimaryIdentifierKind.PHONE "+989121234567" OTPPurpose.LOGIN.
Definition sample_otp_db : OtpDB := mkOtpDB (mkTable {[ 1 := sample_otp ]} 2) ∅.

Lemma sample_otp_db_ok : otp_table_ok sample_otp_db.
Proof.
  split; [split; [simpl; lia|]|].
  all: intros i x Hi; unfold rows_of in Hi; simpl in Hi; apply lookup_singleton_Some in Hi as [<- <-]; simpl; lia.
Qed.

Local Tactic Notation "go" uconstr(rule) :=
  eapply verifiers_go; [eapply rule; vm_compute; reflexivity|].

(** Two verifiers with the right code have both read the row unused. *)
Lemma double_submit_reachable :
  exists s o, otp_reachable default_otp_settings s /\
    s.2 !! 0 = Some (Done 1 (Ok o)) /\ s.2 !! 1 = Some (Done 1 (Raise OTPNotFound)).
Proof.
  eexists _, _. split.
  - exists sample_otp_db. split; [apply sample_otp_db_ok|].
    go (verifier_finds _ sample_otp_env _ _ 0 PrimaryIdentifierKind.PHONE "+989121234567"
          OTPPurpose.LOGIN sample_otp "000042").
    go (verifier_finds _ sample_otp_env _ _ 1 PrimaryIdentifierKind.PHONE "+989121234567"
          OTPPurpose.LOGIN sample_otp "000042").
    go (verifier_first _ sample_otp_env _ _ 0 sample_otp "000042").
    go (verifier_first _ sample_otp_env _ _ 1 sample_otp "000042").
    go (verifier_last _ sample_otp_env _ _ 0 sample_otp).
    apply verifiers_stay.
  - vm_compute. split; reflexivity.
Qed.

Lemma otp_is_spent_once_witness :
  exists s o, otp_reachable default_otp_settings s /\ s.2 !! 0 = Some (Done 1 (Ok o)) /\
    forall o', s.2 !! 1 <> Some (Done 1 (Ok o')).
Proof.
  destruct double_submit_reachable as (s & o & Hs & H0 & _).
  exists s, o. split; [exact Hs|]. split; [exact H0|]. intros o' H1.
  exact (otp_is_spent_once default_otp_settings s 0 1 1 o o' Hs ltac:(discriminate) H0 H1).
Defined.

(** Three wrong guesses at once and, with a limit of three, the last one closes
    the row. *)
Definition three_attempts : OtpSettings := mkOtpSettings 6 300 3 60 500 60.
Definition strict_env : OtpEnv := sample_otp_env <| oenv_settings := three_attempts |>.



(** A verification that read the row early succeeds after the last attempt was
    counted, before the row is closed. *)
Example a_guess_before_the_row_is_closed :
  exists s o, otp_reachable three_attempts s /\
    s.2 !! 2 = Some (Last sample_otp None) /\ s.2 !! 3 = Some (Last sample_otp (Some o)).
Proof.
  eexists _, _. split.
  - exists sample_otp_db. split; [apply sample_otp_db_ok|].
    go (verifier_finds _ strict_env _ _ 0 PrimaryIdentifierKind.PHONE "+989121234567"
          OTPPurpose.LOGIN sample_otp "1").
    go (verifier_finds _ strict_env _ _ 1 PrimaryIdentifierKind.PHONE "+989121234567"
          OTPPurpose.LOGIN sample_otp "2").
    go (verifier_finds _ strict_env _ _ 2 PrimaryIdentifierKind.PHONE "+989121234567"
          OTPPurpose.LOGIN sample_otp "3").
    go (verifier_finds _ strict_env _ _ 3 PrimaryIdentifierKind.PHONE "+989121234567"
          OTPPurpose.LOGIN sample_otp "000042").
    go (verifier_first _ strict_env _ _ 0 sample_otp "1").
    go (verifier_first _ strict_env _ _ 1 sample_otp "2").
    go (verifier_first _ strict_env _ _ 2 sample_otp "3").
    go (verifier_first _ strict_env _ _ 3 sample_otp "000042").
    apply verifiers_stay.
  - vm_compute. split; reflexivity.
Qed.
