(* ===== verification/Regex.v ===== *)
(** Regular expressions as the code's [re] patterns use them: character
    classes, sequences, alternatives and repetition, matched with derivatives.

    [matches] is the executable test of [Pattern.fullmatch], [search] the one of
    [Pattern.search].  [in_lang] is the language a
    pattern denotes, and [matches_spec] that the test decides it. *)

From S2P Require Import Prelude.

Section Regex.
Context {C : Type}.

Inductive regex : Type :=
| Void
| Eps
| Chr (p : C -> bool)
| Cat (r1 r2 : regex)
| Alt (r1 r2 : regex)
| Star (r : regex).

Inductive in_lang : regex -> list C -> Prop :=
| in_eps : in_lang Eps []
| in_chr p c : p c = true -> in_lang (Chr p) [c]
| in_cat r1 r2 s1 s2 : in_lang r1 s1 -> in_lang r2 s2 -> in_lang (Cat r1 r2) (s1 ++ s2)
| in_alt_l r1 r2 s : in_lang r1 s -> in_lang (Alt r1 r2) s
| in_alt_r r1 r2 s : in_lang r2 s -> in_lang (Alt r1 r2) s
| in_star_nil r : in_lang (Star r) []
| in_star_cons r c s1 s2 :
    in_lang r (c :: s1) -> in_lang (Star r) s2 -> in_lang (Star r) (c :: s1 ++ s2).

(** ** Matching *)

Fixpoint nullable (r : regex) : bool :=
  match r with
  | Void | Chr _ => false
  | Eps | Star _ => true
  | Cat r1 r2 => nullable r1 && nullable r2
  | Alt r1 r2 => nullable r1 || nullable r2
  end.

(** Smart constructors, which keep the derivatives small. *)
Definition cat (r1 r2 : regex) : regex :=
  match r1 with Void => Void | Eps => r2 | _ => Cat r1 r2 end.

Definition alt (r1 r2 : regex) : regex :=
  match r1, r2 with Void, _ => r2 | _, Void => r1 | _, _ => Alt r1 r2 end.

Fixpoint deriv (c : C) (r : regex) : regex :=
  match r with
  | Void | Eps => Void
  | Chr p => if p c then Eps else Void
  | Cat r1 r2 =>
      if nullable r1 then alt (cat (deriv c r1) r2) (deriv c r2) else cat (deriv c r1) r2
  | Alt r1 r2 => alt (deriv c r1) (deriv c r2)
  | Star r1 => cat (deriv c r1) (Star r1)
  end.

Fixpoint matches (r : regex) (s : list C) : bool :=
  match s with [] => nullable r | c :: s' => matches (deriv c r) s' end.

(** ** The patterns' operators *)

Definition plus (r : regex) : regex := Cat r (Star r).

(** [r{n}] *)
Fixpoint times (n : nat) (r : regex) : regex :=
  match n with O => Eps | S n' => Cat r (times n' r) end.

Definition optional (r : regex) : regex := Alt Eps r.

(** [r{m,n}], with [n = m + k] *)
Fixpoint up_to (k : nat) (r : regex) : regex :=
  match k with O => Eps | S k' => optional (Cat r (up_to k' r)) end.

Definition between (m n : nat) (r : regex) : regex := Cat (times m r) (up_to (n - m) r).

(** [r{m,}] *)
Definition at_least (m : nat) (r : regex) : regex := Cat (times m r) (Star r).

(** [pattern.search(s)]: a match somewhere. *)
Definition search (r : regex) (s : list C) : bool :=
  let any := Star (Chr (fun _ => true)) in matches (Cat any (Cat r any)) s.

(** ** Inversion *)

Lemma in_void s : ~ in_lang Void s.
Proof. by inversion 1. Qed.

Lemma in_eps_inv s : in_lang Eps s <-> s = [].
Proof. split; [by inversion 1|intros ->; constructor]. Qed.

Lemma in_chr_inv p s : in_lang (Chr p) s <-> exists c, s = [c] /\ p c = true.
Proof. split; [inversion 1; eauto|intros (c & -> & Hc); by constructor]. Qed.

Lemma in_cat_inv r1 r2 s :
  in_lang (Cat r1 r2) s <-> exists s1 s2, s = s1 ++ s2 /\ in_lang r1 s1 /\ in_lang r2 s2.
Proof.
  split; [inversion 1; subst; eauto|intros (s1 & s2 & -> & H1 & H2); by constructor].
Qed.

Lemma in_alt_inv r1 r2 s : in_lang (Alt r1 r2) s <-> in_lang r1 s \/ in_lang r2 s.
Proof. split; [inversion 1; auto|intros [H|H]; [by apply in_alt_l|by apply in_alt_r]]. Qed.

Lemma in_star_inv r s :
  in_lang (Star r) s <->
  s = [] \/ exists c s1 s2, s = c :: s1 ++ s2 /\ in_lang r (c :: s1) /\ in_lang (Star r) s2.
Proof.
  split.
  - inversion 1; subst; [auto|right; eauto 6].
  - intros [->|(c & s1 & s2 & -> & H1 & H2)]; by constructor.
Qed.

Lemma in_cat_smart r1 r2 s : in_lang (cat r1 r2) s <-> in_lang (Cat r1 r2) s.
Proof.
  rewrite in_cat_inv. destruct r1; simpl; rewrite ?in_cat_inv; try done.
  - split; [by intros []%in_void|by intros (s1 & s2 & _ & []%in_void & _)].
  - split; [intros H; exists [], s; by rewrite in_eps_inv|].
    intros (s1 & s2 & -> & ->%in_eps_inv & H). done.
Qed.

Lemma in_alt_smart r1 r2 s : in_lang (alt r1 r2) s <-> in_lang (Alt r1 r2) s.
Proof.
  rewrite in_alt_inv. destruct r1, r2; simpl; rewrite ?in_alt_inv;
    pose proof (in_void s); tauto.
Qed.

Lemma nullable_spec r : nullable r = true <-> in_lang r [].
Proof.
  induction r as [| |p|r1 IH1 r2 IH2|r1 IH1 r2 IH2|r IH]; simpl.
  - split; [done|by intros []%in_void].
  - split; [constructor|done].
  - rewrite in_chr_inv. split; [done|by intros (c & ? & _)].
  - rewrite andb_true_iff, IH1, IH2, in_cat_inv. split.
    + intros [H1 H2]. by exists [], [].
    + intros (s1 & s2 & Hs & H1 & H2). symmetry in Hs. apply app_eq_nil in Hs as [-> ->]. done.
  - by rewrite orb_true_iff, IH1, IH2, in_alt_inv.
  - split; [constructor|done].
Qed.

Lemma deriv_spec c r s : in_lang (deriv c r) s <-> in_lang r (c :: s).
Proof.
  revert s. induction r as [| |p|r1 IH1 r2 IH2|r1 IH1 r2 IH2|r IH]; intros s; simpl.
  - split; by intros []%in_void.
  - rewrite in_eps_inv. split; [by intros []%in_void|done].
  - rewrite in_chr_inv. destruct (p c) eqn:Hp.
    + rewrite in_eps_inv. split; [intros ->; eauto|by intros (d & [= <- ->] & _)].
    + split; [by intros []%in_void|intros (d & [= <- ->] & Hd); congruence].
  - assert (in_lang (Cat r1 r2) (c :: s) <->
      in_lang (Cat (deriv c r1) r2) s \/ (in_lang r1 [] /\ in_lang r2 (c :: s))) as Hcat.
    { rewrite !in_cat_inv. split.
      - intros (s1 & s2 & Hs & H1 & H2). destruct s1 as [|d s1]; simpl in Hs; simplify_eq.
        + by right.
        + left. exists s1, s2. by rewrite IH1.
      - intros [(s1 & s2 & -> & H1%IH1 & H2)|[H1 H2]].
        + by exists (c :: s1), s2.
        + by exists [], (c :: s). }
    rewrite Hcat. destruct (nullable r1) eqn:Hn.
    + rewrite in_alt_smart, in_alt_inv, in_cat_smart, IH2. apply nullable_spec in Hn. tauto.
    + rewrite in_cat_smart. enough (~ in_lang r1 []) by tauto.
      rewrite <- nullable_spec. by rewrite Hn.
  - by rewrite in_alt_smart, !in_alt_inv, IH1, IH2.
  - rewrite in_cat_smart, in_cat_inv. split.
    + intros (s1 & s2 & -> & H1%IH & H2). by constructor.
    + intros [?|(d & s1 & s2 & [= <- ->] & H1 & H2)]%in_star_inv; [done|].
      exists s1, s2. by rewrite IH.
Qed.

(** The test decides the language. *)
Lemma matches_spec r s : matches r s = true <-> in_lang r s.
Proof.
  revert r. induction s as [|c s IH]; intros r; simpl.
  - apply nullable_spec.
  - by rewrite IH, deriv_spec.
Qed.

(** ** The operators' languages *)

Lemma in_star_chr p s : in_lang (Star (Chr p)) s <-> Forall (fun c => p c = true) s.
Proof.
  induction s as [|c s IH]; rewrite in_star_inv.
  - split; [constructor|by left].
  - rewrite Forall_cons, <- IH. split.
    + intros [?|(d & s1 & s2 & [= <- ->] & (e & [= <- ->] & He)%in_chr_inv & H2)]; done.
    + intros [Hc Hs]. right. exists c, [], s. by split; [|split; [constructor|]].
Qed.

Lemma in_times_chr n p s :
  in_lang (times n (Chr p)) s <-> length s = n /\ Forall (fun c => p c = true) s.
Proof.
  revert s. induction n as [|n IH]; intros s; simpl.
  - rewrite in_eps_inv. split; [intros ->; split; [done|constructor]|].
    intros [H _]. by apply nil_length_inv in H.
  - rewrite in_cat_inv. split.
    + intros (s1 & s2 & -> & (c & -> & Hc)%in_chr_inv & [Hl Hf]%IH). simpl.
      split; [lia|by constructor].
    + intros [Hl Hf]. destruct s as [|c s]; [done|]. apply Forall_cons in Hf as [Hc Hf].
      exists [c], s. split; [done|]. split; [by constructor|]. apply IH. simpl in Hl.
      split; [lia|done].
Qed.

Lemma in_up_to_chr k p s :
  in_lang (up_to k (Chr p)) s <-> (length s <= k)%nat /\ Forall (fun c => p c = true) s.
Proof.
  revert s. induction k as [|k IH]; intros s; simpl.
  - rewrite in_eps_inv. split; [intros ->; split; [simpl; lia|constructor]|].
    intros [H _]. destruct s; [done|simpl in H; lia].
  - unfold optional. rewrite in_alt_inv, in_eps_inv, in_cat_inv. split.
    + intros [->|(s1 & s2 & -> & (c & -> & Hc)%in_chr_inv & [Hl Hf]%IH)]; simpl.
      * split; [lia|constructor].
      * split; [lia|by constructor].
    + intros [Hl Hf]. destruct s as [|c s]; [by left|right].
      apply Forall_cons in Hf as [Hc Hf]. exists [c], s. split; [done|].
      split; [by constructor|]. apply IH. simpl in Hl. split; [lia|done].
Qed.

Lemma in_between_chr m n p s : (m <= n)%nat ->
  in_lang (between m n (Chr p)) s <->
  (m <= length s <= n)%nat /\ Forall (fun c => p c = true) s.
Proof.
  intros Hmn. unfold between. rewrite in_cat_inv. split.
  - intros (s1 & s2 & -> & [H1 F1]%in_times_chr & [H2 F2]%in_up_to_chr).
    rewrite length_app, Forall_app. split; [lia|done].
  - intros [Hl Hf]. exists (take m s), (drop m s). rewrite take_drop, in_times_chr, in_up_to_chr.
    rewrite length_take, length_drop. split; [done|]. split; split; try lia.
    + by apply Forall_take.
    + by apply Forall_drop.
Qed.

Lemma in_at_least_chr m p s :
  in_lang (at_least m (Chr p)) s <-> (m <= length s)%nat /\ Forall (fun c => p c = true) s.
Proof.
  unfold at_least. rewrite in_cat_inv. split.
  - intros (s1 & s2 & -> & [H1 F1]%in_times_chr & F2%in_star_chr).
    rewrite length_app, Forall_app. split; [lia|done].
  - intros [Hl Hf]. exists (take m s), (drop m s). rewrite take_drop, in_times_chr, in_star_chr.
    rewrite length_take. split; [done|]. split; [split; [lia|by apply Forall_take]|].
    by apply Forall_drop.
Qed.

Lemma search_spec r s :
  search r s = true <-> exists s1 s2 s3, s = s1 ++ s2 ++ s3 /\ in_lang r s2.
Proof.
  unfold search. rewrite matches_spec, in_cat_inv.
  assert (forall s', in_lang (Star (Chr (fun _ : C => true))) s') as Hany
    by (intros s'; apply in_star_chr, Forall_true; done).
  split.
  - intros (s1 & s' & -> & _ & (s2 & s3 & -> & H2 & _)%in_cat_inv). by exists s1, s2, s3.
  - intros (s1 & s2 & s3 & -> & H2). exists s1, (s2 ++ s3). split; [done|].
    split; [apply Hany|]. apply in_cat_inv. by exists s2, s3.
Qed.

End Regex.
Arguments regex C : clear implicits.
