(* ===== verification/Normalizers.v ===== *)
(** Identifiers in canonical form: [src/apps/authentication/normalizers.py].

    The patterns are those of the module, as expressions of [Regex.v]; a
    [ValidationError] is a constructor of [norm_error], one for each message.
    Strings range over the characters up to code point 255. *)

From S2P Require Import Prelude Python Regex.
From Stdlib Require Import Ascii.
#[local] Open Scope Z_scope.

Abbreviation chars := String.list_ascii_of_string.
Abbreviation text := String.string_of_list_ascii.

(** * Patterns *)

Definition in_range (lo hi : ascii) (a : ascii) : bool :=
  (N_of_ascii lo <=? N_of_ascii a)%N && (N_of_ascii a <=? N_of_ascii hi)%N.

Definition one_of (s : string) (a : ascii) : bool := existsb (Ascii.eqb a) (chars s).

(** [\d]; up to code point 255 the decimal digits are the ASCII ones. *)
Definition digit : ascii -> bool := in_range "0" "9".

Definition char (c : ascii) : regex ascii := Chr (Ascii.eqb c).

Definition newline : ascii := ascii_of_N 10.

(** [$]: the end, or just before a newline that ends the string. *)
Definition dollar : regex ascii := optional (char newline).

(** [re.IGNORECASE] *)
Definition nocase (p : ascii -> bool) (a : ascii) : bool := p a || p (lower_ascii a).

Definition IRAN_LOCAL_PHONE_PATTERN : regex ascii :=
  Cat (char "9") (Cat (times 9 (Chr digit)) dollar).

Definition E164_PATTERN : regex ascii :=
  Cat (char "+") (Cat (between 10 15 (Chr digit)) dollar).

Definition letter : ascii -> bool := in_range "a" "z".

Definition EMAIL_PATTERN : regex ascii :=
  Cat (plus (Chr (nocase (fun a => letter a || digit a || one_of "._%+-" a))))
 (Cat (char "@")
 (Cat (plus (Chr (nocase (fun a => letter a || digit a || one_of ".-" a))))
 (Cat (char ".")
 (Cat (at_least 2 (Chr (nocase letter))) dollar)))).

Definition re_match (r : regex ascii) (s : string) : bool := matches r (chars s).

Definition PHONE_MIN_RAW_LENGTH : nat := 10.
Definition PHONE_MAX_RAW_LENGTH : nat := 20.
Definition PHONE_MAX_DIGITS : nat := 15.
Definition EMAIL_MAX_LENGTH : nat := 254.
Definition IRAN_E164_PREFIX : string := "+98".

(** * Detection and normalisation *)

Inductive norm_error : Type :=
| identifier_empty
| identifier_kind_undetected
| phone_empty
| phone_too_long
| phone_too_short
| iran_phone_invalid
| phone_invalid
| email_empty
| email_too_long
| email_invalid.

Inductive IdentifierKind : Set := email | phone.

#[export] Instance IdentifierKind_eq : EqDecision IdentifierKind.
Proof. solve_decision. Defined.

Abbreviation checked := (outcome norm_error).

Definition detect_identifier_kind (v : string) : checked IdentifierKind :=
  let stripped := py_strip v in
  if negb (str_true stripped) then Raise identifier_empty
  else if one_of stripped "@" then Ok email
  else if forallb (one_of "0123456789+ -()") (chars stripped) then Ok phone
  else Raise identifier_kind_undetected.

(** [re.sub(r"[\s\-()]+", "", raw)] *)
Definition remove_formatting (raw : string) : string :=
  text (List.filter (fun a => negb (is_space a || one_of "-()" a)) (chars raw)).

Definition startswith (p s : string) : bool := String.prefix p s.

(** [s[n:]] *)
Definition slice_from (n : nat) (s : string) : string := text (drop n (chars s)).

(** [str.isdigit], which is also true of the superscript digits. *)
Definition isdigit (s : string) : bool :=
  str_true s &&
  forallb (fun a => digit a || bool_decide (N_of_ascii a ∈ [178; 179; 185]%N)) (chars s).

(** The four cases, on a number without its formatting. *)
Definition normalize_cleaned_phone (cleaned : string) : checked string :=
  if startswith "0" cleaned && negb (startswith "00" cleaned) then
    let local_part := slice_from 1 cleaned in
    if re_match IRAN_LOCAL_PHONE_PATTERN local_part
    then Ok (IRAN_E164_PREFIX +:+ local_part)%string
    else Raise iran_phone_invalid
  else if re_match IRAN_LOCAL_PHONE_PATTERN cleaned
  then Ok (IRAN_E164_PREFIX +:+ cleaned)%string
  else
    let candidate := String "+" cleaned in
    if isdigit cleaned && (10 <? String.length cleaned)%nat &&
       (re_match E164_PATTERN candidate && (String.length cleaned <=? PHONE_MAX_DIGITS)%nat)
    then Ok candidate
    else if startswith "+" cleaned && re_match E164_PATTERN cleaned then Ok cleaned
    else Raise phone_invalid.

Definition normalize_phone (v : string) : checked string :=
  let raw := py_strip v in
  if negb (str_true raw) then Raise phone_empty
  else if (PHONE_MAX_RAW_LENGTH <? String.length raw)%nat then Raise phone_too_long
  else
    let cleaned := remove_formatting raw in
    if (String.length cleaned <? PHONE_MIN_RAW_LENGTH)%nat then Raise phone_too_short
    else
      normalize_cleaned_phone
        (if startswith "00" cleaned then String "+" (slice_from 2 cleaned) else cleaned).

Definition count_char (c : ascii) (s : string) : nat := length (List.filter (Ascii.eqb c) (chars s)).

Definition normalize_email (v : string) : checked string :=
  let raw := py_strip v in
  if negb (str_true raw) then Raise email_empty
  else if (EMAIL_MAX_LENGTH <? String.length raw)%nat then Raise email_too_long
  else
    let lowered := py_lower raw in
    if negb (count_char "@" lowered =? 1)%nat then Raise email_invalid
    else if negb (re_match EMAIL_PATTERN lowered) then Raise email_invalid
    else Ok lowered.

Definition normalize_identifier (v : string) : checked (IdentifierKind * string) :=
  match detect_identifier_kind v with
  | Raise e => Raise e
  | Ok email => match normalize_email v with Ok w => Ok (email, w) | Raise e => Raise e end
  | Ok phone => match normalize_phone v with Ok w => Ok (phone, w) | Raise e => Raise e end
  end.

(** The cases of the module's documentation. *)
Example documented_phones :
  map normalize_phone
    [ "09120000000"; "9120000000"; "989120000000"; "+989120000000"; "+98 912 000 0000";
      "+98-912-000-0000"; "00989120000000"; "+1234567890"; " (0912) 000-0000 "]%string
  = repeat (Ok "+989120000000"%string) 7 ++ [Ok "+1234567890"; Ok "+989120000000"]%string.
Proof. vm_compute. reflexivity. Qed.

Example sample_identifiers :
  map normalize_identifier [" Ali.Reza@Example.COM "; "0912"; "a@b"; "ali"]%string
  = [Ok (email, "ali.reza@example.com"%string); Raise phone_too_short; Raise email_invalid;
     Raise identifier_kind_undetected].
Proof. vm_compute. reflexivity. Qed.

(** * Strings without white space *)

Lemma chars_text l : chars (text l) = l.
Proof. apply String.list_ascii_of_string_of_list_ascii. Qed.

Lemma text_chars s : text (chars s) = s.
Proof. apply String.string_of_list_ascii_of_string. Qed.

Lemma text_app l l' : text (l ++ l') = (text l +:+ text l')%string.
Proof. induction l as [|a l IH]; simpl; [done|]. by rewrite IH. Qed.

Lemma length_text l : String.length (text l) = length l.
Proof. induction l as [|a l IH]; simpl; [done|]. by rewrite IH. Qed.

Lemma rstrip_head a s : is_space a = false ->
  exists t, py_rstrip_by is_space (String a s) = String a t.
Proof. intros Ha. simpl. destruct (py_rstrip_by is_space s); rewrite ?Ha; eauto. Qed.

Lemma rstrip_idem s : py_rstrip_by is_space (py_rstrip_by is_space s) = py_rstrip_by is_space s.
Proof.
  induction s as [|a s IH]; [done|]. simpl.
  destruct (py_rstrip_by is_space s) as [|b t] eqn:Ht.
  - destruct (is_space a) eqn:Ha; simpl; [done|]. by rewrite Ha.
  - change (py_rstrip_by is_space (String a (String b t)))
      with (match py_rstrip_by is_space (String b t) with
            | EmptyString => if is_space a then EmptyString else String a EmptyString
            | t' => String a t' end).
    by rewrite IH.
Qed.

Lemma py_strip_idem s : py_strip (py_strip s) = py_strip s.
Proof.
  unfold py_strip. induction s as [|a s IH]; [done|]. simpl. destruct (is_space a) eqn:Ha; [done|].
  destruct (rstrip_head a s Ha) as [t Ht]. rewrite Ht. simpl. rewrite Ha, <- Ht. apply rstrip_idem.
Qed.

Lemma lower_ascii_facts :
  forall a, lower_ascii (lower_ascii a) = lower_ascii a /\ is_space (lower_ascii a) = is_space a.
Proof.
  intros [[] [] [] [] [] [] [] []]; vm_compute; done.
Qed.

Lemma py_lower_idem s : py_lower (py_lower s) = py_lower s.
Proof.
  induction s as [|a s IH]; simpl; [done|]. by rewrite IH, (proj1 (lower_ascii_facts a)).
Qed.

Lemma py_strip_lower s : py_strip (py_lower s) = py_lower (py_strip s).
Proof.
  assert (forall t, py_rstrip_by is_space (py_lower t) = py_lower (py_rstrip_by is_space t)) as Hr.
  { induction t as [|a t IH]; simpl; [done|]. rewrite IH, (proj2 (lower_ascii_facts a)).
    destruct (py_rstrip_by is_space t); simpl; [by destruct (is_space a)|done]. }
  unfold py_strip. induction s as [|a s IH]; [done|]. simpl.
  rewrite (proj2 (lower_ascii_facts a)). destruct (is_space a); [done|].
  apply (Hr (String a s)).
Qed.

Lemma py_lower_length s : String.length (py_lower s) = String.length s.
Proof. induction s as [|a s IH]; simpl; congruence. Qed.

Lemma py_strip_solid l : Forall (fun a => is_space a = false) l -> py_strip (text l) = text l.
Proof.
  intros Hl. unfold py_strip.
  assert (py_rstrip_by is_space (text l) = text l) as Hr.
  { induction Hl as [|a l Ha Hl IH]; [done|]. simpl. rewrite IH. destruct l; simpl; [|done].
    by rewrite Ha. }
  destruct Hl as [|a l Ha Hl]; [done|]. simpl. by rewrite Ha.
Qed.

(** * Telephone numbers *)

Abbreviation digits := (Forall (fun a => digit a = true)).

Lemma digit_facts a : digit a = true ->
  is_space a = false /\ is_space a || one_of "-()" a = false /\
  one_of "0123456789+ -()" a = true /\ Ascii.eqb a "@" = false /\ a <> newline.
Proof. destruct a as [[] [] [] [] [] [] [] []]; vm_compute; try done; repeat split; done. Qed.

(** A number in E.164 form. *)
Definition e164 (w : string) : Prop :=
  exists d, w = text ("+"%char :: d) /\ (10 <= length d <= 15)%nat /\ digits d.

Lemma in_dollar l : in_lang dollar l -> l = [] \/ l = [newline].
Proof.
  unfold dollar, optional. rewrite in_alt_inv, in_eps_inv. intros [?|H]; [auto|].
  apply in_chr_inv in H as (c & -> & Hc). apply Ascii.eqb_eq in Hc. subst. auto.
Qed.

(** Where no newline occurs, [$] is the end. *)
Lemma cat_dollar r l : Forall (fun a => a <> newline) l ->
  in_lang (Cat r dollar) l <-> in_lang r l.
Proof.
  intros Hl. rewrite in_cat_inv. split.
  - intros (s1 & s2 & -> & H1 & [->| ->]%in_dollar); [by rewrite app_nil_r|].
    apply Forall_app in Hl as [_ Hl]. by inversion Hl.
  - intros H. exists l, []. rewrite app_nil_r. split; [done|]. split; [done|].
    apply in_alt_l. constructor.
Qed.

Lemma in_char_cat c r l : in_lang (Cat (char c) r) l <-> exists l', l = c :: l' /\ in_lang r l'.
Proof.
  rewrite in_cat_inv. split.
  - intros (s1 & s2 & -> & (b & -> & Hb)%in_chr_inv & H2). apply Ascii.eqb_eq in Hb as <-.
    by exists s2.
  - intros (l' & -> & H). exists [c], l'. split; [done|]. split; [|done].
    apply in_chr_inv. exists c. split; [done|]. apply Ascii.eqb_refl.
Qed.

Lemma iran_local_spec l : Forall (fun a => a <> newline) l ->
  matches IRAN_LOCAL_PHONE_PATTERN l = true <->
  exists d, l = "9"%char :: d /\ length d = 9%nat /\ digits d.
Proof.
  intros Hl. unfold IRAN_LOCAL_PHONE_PATTERN. rewrite matches_spec, in_char_cat.
  split; intros (d & -> & H); exists d; apply Forall_cons in Hl as [_ Hl];
    (split; [done|]); [|apply cat_dollar; [done|]; by apply in_times_chr].
  by apply cat_dollar, in_times_chr in H.
Qed.

Lemma e164_pattern_spec l : Forall (fun a => a <> newline) l ->
  matches E164_PATTERN l = true <->
  exists d, l = "+"%char :: d /\ (10 <= length d <= 15)%nat /\ digits d.
Proof.
  intros Hl. unfold E164_PATTERN. rewrite matches_spec, in_char_cat.
  split; intros (d & -> & H); exists d; apply Forall_cons in Hl as [_ Hl];
    (split; [done|]); [|apply cat_dollar; [done|]; apply in_between_chr; [lia|done]].
  apply (proj1 (cat_dollar _ _ Hl)) in H. apply in_between_chr in H; [done|lia].
Qed.

Lemma remove_formatting_solid l :
  Forall (fun a => is_space a || one_of "-()" a = false) l ->
  remove_formatting (text l) = text l.
Proof.
  intros Hl. unfold remove_formatting. rewrite chars_text. f_equal.
  induction Hl as [|a l Ha Hl IH]; [done|]. simpl. by rewrite Ha, IH.
Qed.

Lemma remove_formatting_no_newline s :
  Forall (fun a => a <> newline) (chars (remove_formatting s)).
Proof.
  unfold remove_formatting. rewrite chars_text. apply Forall_forall. intros a Ha ->.
  apply list_elem_of_In, filter_In in Ha as [_ Ha]. vm_compute in Ha. done.
Qed.

Lemma slice_no_newline n s : Forall (fun a => a <> newline) (chars s) ->
  Forall (fun a => a <> newline) (chars (slice_from n s)).
Proof. intros H. unfold slice_from. rewrite chars_text. by apply Forall_drop. Qed.

(** The four ways a number is accepted all end in E.164 form. *)
Lemma normalize_phone_e164 v w : normalize_phone v = Ok w -> e164 w.
Proof.
  unfold normalize_phone. destruct (negb _); [done|]. destruct (_ <? _)%nat; [done|].
  destruct (_ <? _)%nat; [done|].
  set (c := if startswith "00" _ then _ else _). unfold normalize_cleaned_phone. cbv zeta.
  assert (Forall (fun a => a <> newline) (chars c)) as Hc.
  { unfold c. pose proof (remove_formatting_no_newline (py_strip v)) as Hn.
    destruct (startswith "00" _); [|done]. simpl. constructor; [done|]. by apply slice_no_newline. }
  clearbody c.
  assert (forall x, Forall (fun a => a <> newline) (chars x) ->
    re_match IRAN_LOCAL_PHONE_PATTERN x = true -> e164 (IRAN_E164_PREFIX +:+ x)%string) as Hiran.
  { intros x Hx Hm. apply iran_local_spec in Hm as (d & Hd & Hlen & Hdig); [|done].
    exists ("9"%char :: "8"%char :: "9"%char :: d). split; [|split].
    - rewrite <- (text_chars x), Hd. done.
    - simpl. lia.
    - by repeat constructor. }
  assert (forall x, Forall (fun a => a <> newline) (chars x) ->
    re_match E164_PATTERN x = true -> e164 x) as He.
  { intros x Hx Hm. apply e164_pattern_spec in Hm as (d & Hd & Hlen & Hdig); [|done].
    exists d. rewrite <- (text_chars x), Hd. done. }
  destruct (_ && _).
  - destruct (re_match _ _) eqn:Hm; [|done]. intros [= <-].
    apply Hiran; [by apply slice_no_newline|done].
  - destruct (re_match IRAN_LOCAL_PHONE_PATTERN c) eqn:Hm; [intros [= <-]; by apply Hiran|].
    match goal with |- context [if ?b then Ok (String _ c) else _] => destruct b eqn:H3 end.
    + intros [= <-]. apply He; [simpl; by constructor|].
      apply andb_true_iff in H3 as [_ [H3 _]%andb_true_iff]. done.
    + match goal with |- context [if ?b then _ else _] => destruct b eqn:H4 end; [|done].
      intros [= <-].
      apply andb_true_iff in H4 as [_ H4]. by apply He.
Qed.

Lemma e164_solid d : digits d ->
  Forall (fun a => is_space a = false) ("+"%char :: d) /\
  Forall (fun a => is_space a || one_of "-()" a = false) ("+"%char :: d) /\
  Forall (fun a => a <> newline) ("+"%char :: d) /\
  forallb (one_of "0123456789+ -()") ("+"%char :: d) = true /\
  existsb (Ascii.eqb "@") ("+"%char :: d) = false.
Proof.
  intros Hd. repeat split.
  1-3: constructor; [done|]; eapply Forall_impl; [exact Hd|]; intros a Ha; by apply digit_facts.
  - simpl. apply forallb_forall. intros a Ha%list_elem_of_In. rewrite Forall_forall in Hd.
    by apply digit_facts, Hd.
  - simpl. apply not_true_iff_false. intros (a & Ha%list_elem_of_In & Heq)%existsb_exists.
    rewrite Forall_forall in Hd. apply Hd, digit_facts in Ha as (_ & _ & _ & Ha & _).
    rewrite Ascii.eqb_sym in Heq. congruence.
Qed.

Lemma normalize_cleaned_e164 w : e164 w -> normalize_cleaned_phone w = Ok w.
Proof.
  intros (d & -> & Hlen & Hd). destruct (e164_solid d Hd) as (_ & _ & Hnl & _).
  unfold normalize_cleaned_phone. cbv zeta.
  change (startswith "0" (text ("+"%char :: d))) with false.
  change (isdigit (text ("+"%char :: d))) with false.
  assert (startswith "+" (text ("+"%char :: d)) = true) as -> by by destruct d.
  assert (re_match IRAN_LOCAL_PHONE_PATTERN (text ("+"%char :: d)) = false) as ->.
  { apply not_true_iff_false. unfold re_match. rewrite chars_text, iran_local_spec by done.
    by intros (d' & ? & _). }
  assert (re_match E164_PATTERN (text ("+"%char :: d)) = true) as ->; [|done].
  unfold re_match. rewrite chars_text, e164_pattern_spec by done. by exists d.
Qed.

(** [normalize_phone] past its checks of the length. *)
Lemma normalize_phone_cleaned v s :
  remove_formatting (py_strip v) = s -> (PHONE_MIN_RAW_LENGTH <= String.length s)%nat ->
  (String.length (py_strip v) <= PHONE_MAX_RAW_LENGTH)%nat ->
  normalize_phone v =
  normalize_cleaned_phone (if startswith "00" s then String "+" (slice_from 2 s) else s).
Proof.
  intros Hs Hlen Hraw. unfold normalize_phone. cbv zeta. rewrite Hs.
  assert (str_true (py_strip v) = true) as ->.
  { destruct (py_strip v); [|done]. rewrite <- Hs in Hlen. simpl in Hlen.
    unfold PHONE_MIN_RAW_LENGTH in Hlen. lia. }
  cbn [negb]. rewrite (proj2 (Nat.ltb_ge _ _)) by done.
  by rewrite (proj2 (Nat.ltb_ge _ _)) by done.
Qed.

(** A number in E.164 form is its own normal form. *)
Lemma normalize_phone_fixed w : e164 w -> normalize_phone w = Ok w.
Proof.
  intros He. pose proof He as (d & -> & Hlen & Hd). destruct (e164_solid d Hd) as (Hsp & Hfmt & _).
  rewrite (normalize_phone_cleaned _ (text ("+"%char :: d))).
  - change (startswith "00" (text ("+"%char :: d))) with false. by apply normalize_cleaned_e164.
  - by rewrite py_strip_solid, remove_formatting_solid.
  - rewrite length_text. unfold PHONE_MIN_RAW_LENGTH. simpl. lia.
  - rewrite py_strip_solid, length_text by done. unfold PHONE_MAX_RAW_LENGTH. simpl. lia.
Qed.

Lemma normalize_email_fixed v w :
  normalize_email v = Ok w ->
  normalize_email w = Ok w /\ py_strip w = w /\ one_of w "@" = true.
Proof.
  unfold normalize_email. cbv zeta.
  destruct (negb (str_true (py_strip v))) eqn:Hne; [done|].
  destruct (_ <? _)%nat eqn:Hlen; [done|]. destruct (negb (_ =? _)%nat) eqn:Hcount; [done|].
  destruct (negb (re_match _ _)) eqn:Hm; [done|]. intros [= <-].
  assert (py_strip (py_lower (py_strip v)) = py_lower (py_strip v)) as Hst
    by by rewrite py_strip_lower, py_strip_idem.
  rewrite Hst, py_lower_idem, py_lower_length, Hlen, Hcount, Hm. split; [|split; [done|]].
  - assert (str_true (py_lower (py_strip v)) = str_true (py_strip v)) as ->
      by by destruct (py_strip v). by rewrite Hne.
  - apply negb_false_iff, Nat.eqb_eq in Hcount. unfold one_of, count_char in *.
    destruct (List.filter _ _) as [|a l] eqn:Hf in Hcount; [done|].
    apply existsb_exists. exists a. apply filter_In. rewrite Hf. by left.
Qed.

(** C33: the canonical form of an identifier is a fixed point: what
    [normalize_identifier] returns, kind and value, it returns again when it is
    given that value, so an identifier has one stored form. *)
Theorem normalize_identifier_is_idempotent v k w :
  normalize_identifier v = Ok (k, w) -> normalize_identifier w = Ok (k, w).
Proof.
  unfold normalize_identifier at 1. destruct (detect_identifier_kind v) as [[]|]; [| |done].
  - destruct (normalize_email v) as [u|] eqn:Hv; [|done]. intros [= <- <-].
    apply normalize_email_fixed in Hv as (Hf & Hst & Hat).
    unfold normalize_identifier, detect_identifier_kind. rewrite Hst, Hat, Hf.
    assert (str_true u = true) as -> by by destruct u. done.
  - destruct (normalize_phone v) as [u|] eqn:Hv; [|done]. intros [= <- <-].
    apply normalize_phone_e164 in Hv as He. pose proof (normalize_phone_fixed u He) as Hfix.
    destruct He as (d & -> & _ & Hd). destruct (e164_solid d Hd) as (Hsp & _ & _ & Hall & Hat).
    unfold normalize_identifier, detect_identifier_kind. rewrite (py_strip_solid _ Hsp), Hfix.
    change (str_true (text ("+"%char :: d))) with true. cbn [negb].
    assert (one_of (text ("+"%char :: d)) "@" = false) as ->
      by (unfold one_of; rewrite chars_text; exact Hat).
    rewrite chars_text, Hall. done.
Qed.

(** * Notations of an Iranian number *)

(** The ways of writing the mobile number with the nine digits [d] after its
    leading 9. *)
Definition iran_notations (d : list ascii) : list string :=
  map (fun prefix => prefix +:+ text d)%string ["09"; "9"; "989"; "+989"; "00989"]%string.

Lemma digits_no_newline d : digits d -> Forall (fun a => a <> newline) d.
Proof. intros Hd. eapply Forall_impl; [exact Hd|]. intros a Ha. by apply digit_facts. Qed.

Lemma iran_local_text d : length d = 9%nat -> digits d ->
  re_match IRAN_LOCAL_PHONE_PATTERN (text ("9"%char :: d)) = true.
Proof.
  intros Hlen Hd. unfold re_match. rewrite chars_text. apply iran_local_spec; [|by exists d].
  constructor; [done|]. by apply digits_no_newline.
Qed.

Lemma isdigit_text d : digits d -> d <> [] -> isdigit (text d) = true.
Proof.
  intros Hd Hne. unfold isdigit. rewrite chars_text. apply andb_true_iff. split; [by destruct d|].
  apply forallb_forall. intros a Ha%list_elem_of_In. rewrite Forall_forall in Hd.
  by rewrite (Hd a Ha).
Qed.

(** A number with its country code, without [+]. *)
Lemma normalize_cleaned_digits l : digits l -> (10 < length l <= 15)%nat -> head l <> Some "0"%char ->
  normalize_cleaned_phone (text l) = Ok (text ("+"%char :: l)).
Proof.
  intros Hd Hlen Hhd. unfold normalize_cleaned_phone. cbv zeta.
  assert (startswith "0" (text l) = false) as ->.
  { destruct l as [|a l]; [done|]. simpl in Hhd.
    change (startswith "0" (text (a :: l)))
      with (if ascii_dec "0" a then String.prefix "" (text l) else false).
    destruct (ascii_dec "0" a) as [Ha|_]; [by rewrite <- Ha in Hhd|done]. }
  assert (re_match IRAN_LOCAL_PHONE_PATTERN (text l) = false) as ->.
  { apply not_true_iff_false. unfold re_match.
    rewrite chars_text, iran_local_spec by by apply digits_no_newline.
    intros (d & -> & Hd' & _). simpl in Hlen. lia. }
  assert (l <> []) as Hne by (intros ->; simpl in Hlen; lia).
  rewrite isdigit_text by done.
  rewrite length_text, (proj2 (Nat.ltb_lt _ _)), (proj2 (Nat.leb_le _ _))
    by (unfold PHONE_MAX_DIGITS; lia).
  assert (re_match E164_PATTERN (String "+" (text l)) = true) as ->; [|done].
  change (String "+" (text l)) with (text ("+"%char :: l)). unfold re_match.
  rewrite chars_text, e164_pattern_spec.
  - exists l. split; [done|]. split; [lia|done].
  - constructor; [done|]. by apply digits_no_newline.
Qed.

Lemma slice_from_text n l : slice_from n (text l) = text (drop n l).
Proof. unfold slice_from. by rewrite chars_text. Qed.

(** the ways of writing an Iranian mobile number (with or without the
    leading zero, the country code, [+] or [00], and whatever spaces, dashes and
    brackets it is written with) have one canonical form. *)
Theorem iranian_notations_agree v d :
  length d = 9%nat -> digits d ->
  remove_formatting (py_strip v) ∈ iran_notations d ->
  (String.length (py_strip v) <= PHONE_MAX_RAW_LENGTH)%nat ->
  normalize_phone v = Ok (text ("+"%char :: "9"%char :: "8"%char :: "9"%char :: d)).
Proof.
  intros Hlen Hd Hin Hraw. set (l := "9"%char :: "8"%char :: "9"%char :: d).
  assert (digits l) as Hl by by repeat constructor.
  assert (length l = 12%nat) as Hll by (simpl; lia).
  assert (e164 (text ("+"%char :: l))) as He by (exists l; split; [done|]; split; [lia|done]).
  change (iran_notations d) with (map text ["0"%char :: "9"%char :: d; "9"%char :: d;
    l; "+"%char :: l; "0"%char :: "0"%char :: l]) in Hin.
  repeat (apply elem_of_cons in Hin as [Hs|Hin]); [..|by apply elem_of_nil in Hin].
  all: rewrite (normalize_phone_cleaned v _ Hs) by
    (rewrite ?length_text; unfold PHONE_MIN_RAW_LENGTH; simpl; lia).
  - change (startswith "00" (text ("0"%char :: "9"%char :: d))) with false.
    unfold normalize_cleaned_phone. rewrite slice_from_text. cbn [drop].
    rewrite iran_local_text by done. by destruct d.
  - change (startswith "00" (text ("9"%char :: d))) with false.
    unfold normalize_cleaned_phone. rewrite iran_local_text by done. done.
  - change (startswith "00" (text l)) with false. apply normalize_cleaned_digits; [done|lia|done].
  - change (startswith "00" (text ("+"%char :: l))) with false. by apply normalize_cleaned_e164.
  - change (startswith "00" (text ("0"%char :: "0"%char :: l))) with true.
    rewrite slice_from_text. by apply normalize_cleaned_e164.
Qed.

Lemma iranian_notations_agree_witness :
  normalize_phone " +98 (912) 345-6789 " = Ok "+989123456789"%string /\
  normalize_phone "00989123456789" = Ok "+989123456789"%string.
Proof.
  split; apply (iranian_notations_agree _ (chars "123456789"));
    try (vm_compute; lia); try reflexivity; try (repeat constructor; reflexivity);
    apply (bool_decide_unpack _); vm_compute; exact I.
Defined.

Lemma normalize_identifier_is_idempotent_witness :
  normalize_identifier "+989123456789" = Ok (phone, "+989123456789"%string).
Proof.
  apply (normalize_identifier_is_idempotent "0912 345 6789" phone). vm_compute. reflexivity.
Defined.
