(* ===== verification/PasswordPolicy.v ===== *)
(** The password policy: [src/apps/authentication/password_policy.py].

    A password is the list of its code points.  What the module asks the
    Unicode database ([unicodedata.normalize], [str.casefold] and the character
    classes) is a record of functions; the lines of the list of common
    passwords are an argument, [None] for a file that cannot be read.
    [acceptable] states the policy without the loops of the code: which
    stretches of four characters, years and words may not occur. *)

From S2P Require Import Prelude Python Regex.
From Stdlib Require Import Ascii Sorted.
#[local] Open Scope Z_scope.

Abbreviation text := (list Z).

(** The code points of a literal. *)
Definition codes (s : string) : text :=
  map (fun a => Z.of_N (N_of_ascii a)) (String.list_ascii_of_string s).

Record Unicode : Type := mkUnicode {
  nfkc : text -> text;
  casefold : text -> text;
  islower : Z -> bool;
  isupper : Z -> bool;
  isdigit : Z -> bool;
  isalnum : Z -> bool;
  isspace : Z -> bool;
}.

(** * Constants *)

Definition MIN_LENGTH : Z := 10.
Definition MIN_CHARACTER_CLASSES : Z := 3.
Definition MAX_MONOTONIC_RUN : Z := 4.

(** The Persian and then the Arabic digits, numbered as [enumerate] does. *)
Definition translated_digits : text := seqZ 1776 10 ++ seqZ 1632 10.

Fixpoint enumerate_from {A} (d : Z) (l : list A) : list (A * Z) :=
  match l with [] => [] | x :: l' => (x, d) :: enumerate_from (d + 1) l' end.

Definition DIGIT_TRANSLATION : list (Z * text) :=
  map (fun cd => (cd.1, codes (pretty cd.2))) (enumerate_from 0 translated_digits).

Definition NOISE_CHARS : text :=
  codes " ._-!@#$%^&*+=~`'" ++ [34] ++ codes "\/|:;<>()[]{}".

Definition KEYBOARD_ROWS : list text := map codes ["qwertyuiop"; "asdfghjkl"; "zxcvbnm"]%string.

(** [13[0-9]{2}] *)
Definition SOLAR_BIRTH_YEAR : regex Z :=
  Cat (Chr (Z.eqb 49)) (Cat (Chr (Z.eqb 51)) (times 2 (Chr (fun c => (48 <=? c) && (c <=? 57))))).

Definition PLATFORM_TOKENS : list text := map codes ["setadjang"; "setad"; "jang"; "besat"]%string.

(** * Helpers *)

Fixpoint translate (table : list (Z * text)) (c : Z) : text :=
  match table with
  | [] => [c]
  | (k, w) :: table' => if k =? c then w else translate table' c
  end.

Definition normalize_for_policy (U : Unicode) (raw : text) : text :=
  let text := nfkc U raw in
  let text := flat_map (translate DIGIT_TRANSLATION) text in
  let text := List.filter (fun ch => negb (bool_decide (ch ∈ NOISE_CHARS))) text in
  casefold U text.

(** The loop over [itertools.pairwise], with the run that ends at [prev] and
    the longest one so far. *)
Fixpoint runs (R : Z -> Z -> bool) (prev : Z) (value : text) (current longest : Z) : Z :=
  match value with
  | [] => longest
  | nxt :: value' =>
      let current := if R prev nxt then current + 1 else 1 in
      runs R nxt value' current (Z.max longest current)
  end.

Definition run_length (value : text) : Z :=
  match value with [] => 1 | c :: value' => runs Z.eqb c value' 1 1 end.

(** The variant that looks at [longest] only where the run goes on. *)
Fixpoint steps (step prev : Z) (value : text) (current longest : Z) : Z :=
  match value with
  | [] => longest
  | nxt :: value' =>
      if nxt - prev =? step
      then steps step nxt value' (current + 1) (Z.max longest (current + 1))
      else steps step nxt value' 1 longest
  end.

Definition monotonic_run_length (value : text) : Z :=
  if Z.of_nat (length value) <? MAX_MONOTONIC_RUN then Z.of_nat (length value)
  else
    fold_left (fun longest step =>
      match value with [] => longest | c :: value' => steps step c value' 1 longest end) [1; -1] 1.

(** [pat in s] *)
Fixpoint contains (pat s : text) : bool :=
  bool_decide (pat `prefix_of` s) || match s with [] => false | _ :: s' => contains pat s' end.

(** [value[i : i + n]] *)
Definition slice (i n : nat) (value : text) : text := take n (drop i value).

Definition on_keyboard_row (value : text) : bool :=
  let min_len := Z.to_nat MAX_MONOTONIC_RUN in
  existsb (fun row =>
    existsb (fun direction =>
      existsb (fun i => contains (slice i min_len value) direction)
        (seq 0 (length value + 1 - min_len)))
    [row; rev row]) KEYBOARD_ROWS.

(** [str.strip] *)
Fixpoint lstrip (U : Unicode) (l : text) : text :=
  match l with c :: l' => if isspace U c then lstrip U l' else l | [] => [] end.

Definition strip (U : Unicode) (l : text) : text := rev (lstrip U (rev (lstrip U l))).

Definition load_blacklist (U : Unicode) (lines : option (list text)) : list text :=
  match lines with
  | None => []
  | Some lines =>
      map (strip U) (List.filter (fun line =>
        negb (bool_decide (strip U line = [])) && negb (bool_decide (head line = Some 35))) lines)
  end.

(** * The validator *)

Inductive policy_error : Type :=
| password_empty
| password_too_short
| password_missing_char_classes
| password_sequential
| password_keyboard_row
| password_birth_year_pattern
| password_platform_token
| password_common.

Definition has_symbol (U : Unicode) (c : Z) : bool := negb (isalnum U c) && negb (isspace U c).

Definition character_classes (U : Unicode) (password : text) : Z :=
  Z.b2z (existsb (islower U) password) + Z.b2z (existsb (isupper U) password) +
  Z.b2z (existsb (isdigit U) password) + Z.b2z (existsb (has_symbol U) password).

Definition validate (U : Unicode) (lines : option (list text)) (min_length : Z)
    (password : text) : outcome policy_error unit :=
  if bool_decide (password = []) then Raise password_empty
  else
    let normalized := normalize_for_policy U password in
    if Z.of_nat (length password) <? min_length then Raise password_too_short
    else if character_classes U password <? MIN_CHARACTER_CLASSES
    then Raise password_missing_char_classes
    else if (MAX_MONOTONIC_RUN <=? run_length normalized) ||
            (MAX_MONOTONIC_RUN <=? monotonic_run_length normalized)
    then Raise password_sequential
    else if on_keyboard_row normalized then Raise password_keyboard_row
    else if search SOLAR_BIRTH_YEAR normalized then Raise password_birth_year_pattern
    else if existsb (fun token => contains token normalized) PLATFORM_TOKENS
    then Raise password_platform_token
    else if bool_decide (normalized ∈ load_blacklist U lines) then Raise password_common
    else Ok tt.

(** * Runs *)

(** [w] is a stretch of consecutive characters of [s]. *)
Definition stretch (w s : text) : Prop := exists a b, s = a ++ w ++ b.

Lemma stretch_cons w c s : stretch w (c :: s) <-> w `prefix_of` c :: s \/ stretch w s.
Proof.
  split.
  - intros (a & b & Hs). destruct a as [|d a]; simpl in Hs.
    + left. by exists b.
    + right. injection Hs as -> ->. by exists a, b.
  - intros [[b ->]|(a & b & ->)]; [by exists [], b|by exists (c :: a), b].
Qed.

Lemma contains_spec pat s : contains pat s = true <-> stretch pat s.
Proof.
  induction s as [|c s IH]; cbn [contains]; rewrite orb_true_iff, bool_decide_eq_true.
  - split.
    + intros [[b ->]|]; [by exists [], b|done].
    + intros (a & b & Hs). left. symmetry in Hs. apply app_eq_nil in Hs as [_ Hs].
      apply app_eq_nil in Hs as [-> _]. by exists [].
  - by rewrite IH, stretch_cons.
Qed.

(** ** The longest chain of a relation *)

Section Chains.
Context (R : Z -> Z -> bool).

Abbreviation chain := (Sorted (fun a b => R a b = true)).

(** How long the chain is that a list begins with, and the longest one in it. *)
Fixpoint leading (l : text) : Z :=
  match l with
  | [] => 0
  | c :: l' => match l' with
               | d :: _ => if R c d then 1 + leading l' else 1
               | [] => 1
               end
  end.

Fixpoint longest_chain (l : text) : Z :=
  match l with [] => 0 | _ :: l' => Z.max (leading l) (longest_chain l') end.

Lemma leading_bounds c l : 1 <= leading (c :: l).
Proof.
  revert c. induction l as [|d l IH]; intros c; [done|].
  change (leading (c :: d :: l)) with (if R c d then 1 + leading (d :: l) else 1).
  specialize (IH d). destruct (R c d); lia.
Qed.

Lemma longest_chain_nonneg l : 0 <= longest_chain l.
Proof. induction l as [|c l IH]; cbn [longest_chain]; lia. Qed.

Lemma runs_longest value : forall prev current longest, 1 <= current <= longest ->
  runs R prev value current longest
  = Z.max longest (Z.max (current - 1 + leading (prev :: value)) (longest_chain value)).
Proof.
  induction value as [|nxt value IH]; intros prev current longest H.
  - cbn [runs longest_chain leading]. lia.
  - cbn [runs longest_chain]. pose proof (leading_bounds nxt value).
    change (leading (prev :: nxt :: value))
      with (if R prev nxt then 1 + leading (nxt :: value) else 1).
    destruct (R prev nxt); rewrite IH by lia; lia.
Qed.

Lemma leading_ge l (n : nat) :
  Z.of_nat n <= leading l <-> (n <= length l)%nat /\ chain (take n l).
Proof.
  revert n. induction l as [|c l IH]; intros n.
  - simpl. split; [intros H; rewrite take_nil; split; [lia|constructor]|lia].
  - destruct n as [|n].
    { pose proof (leading_bounds c l). rewrite take_0. split; [|lia].
      intros _. split; [lia|]. constructor. }
    destruct l as [|d l].
    + simpl. split; [intros H; rewrite take_nil; split; [lia|by repeat constructor]|lia].
    + change (leading (c :: d :: l)) with (if R c d then 1 + leading (d :: l) else 1).
      change (take (S n) (c :: d :: l)) with (c :: take n (d :: l)).
      change (length (c :: d :: l)) with (S (length (d :: l))).
      specialize (IH n). destruct (R c d) eqn:Hcd.
      * transitivity (Z.of_nat n <= leading (d :: l)); [lia|]. rewrite IH. split.
        -- intros [Hn Hc]. split; [lia|]. constructor; [done|]. destruct n; [constructor|].
           by constructor.
        -- intros [Hn Hc]. split; [lia|]. by apply Sorted_inv in Hc as [Hc _].
      * split.
        -- intros Hn. destruct n; [|lia]. split; [lia|]. by repeat constructor.
        -- intros [_ Hc]. destruct n; [lia|]. apply Sorted_inv in Hc as [_ Hc].
           apply HdRel_inv in Hc. congruence.
Qed.

Lemma longest_chain_ge l (n : nat) : (0 < n)%nat ->
  Z.of_nat n <= longest_chain l <-> exists w, stretch w l /\ length w = n /\ chain w.
Proof.
  intros Hn. induction l as [|c l IH]; cbn [longest_chain].
  - split; [lia|]. intros (w & (a & b & Hl) & Hw & _). exfalso.
    apply (f_equal length) in Hl. rewrite !length_app in Hl. simpl in Hl. lia.
  - rewrite Z.max_le_iff, IH, leading_ge. split.
    + intros [[Hlen Hc]|(w & Hw & H)].
      * exists (take n (c :: l)). split; [|split; [rewrite length_take; lia|done]].
        exists [], (drop n (c :: l)). simpl app at 1. by rewrite take_drop.
      * exists w. split; [|done]. apply stretch_cons. by right.
    + intros (w & Hw & Hlen & Hc). apply stretch_cons in Hw as [[b Hb]|Hw].
      * left. rewrite Hb, length_app. split; [lia|]. by rewrite <- Hlen, take_app_length.
      * right. by exists w.
Qed.

End Chains.

(** A stretch in which each code point is [step] more than the one before. *)
Definition arithmetic (step : Z) (w : text) : Prop := Sorted (fun a b => (b - a =? step) = true) w.

Lemma steps_runs step value : forall prev current longest, 1 <= current <= longest ->
  steps step prev value current longest
  = runs (fun a b => b - a =? step) prev value current longest.
Proof.
  induction value as [|nxt value IH]; intros prev current longest H; cbn [steps runs]; [done|].
  destruct (nxt - prev =? step); rewrite IH by lia; [done|]. f_equal. lia.
Qed.

Lemma run_length_ge value :
  MAX_MONOTONIC_RUN <= run_length value <->
  exists w, stretch w value /\ length w = 4%nat /\ arithmetic 0 w.
Proof.
  unfold run_length, MAX_MONOTONIC_RUN. destruct value as [|c value].
  { split; [lia|]. intros (w & (a & b & Hw) & Hlen & _). exfalso.
    apply (f_equal length) in Hw. rewrite !length_app in Hw. simpl in Hw. lia. }
  rewrite runs_longest by lia.
  transitivity (Z.of_nat 4 <= longest_chain Z.eqb (c :: value)).
  { cbn [longest_chain]. pose proof (leading_bounds Z.eqb c value). lia. }
  rewrite longest_chain_ge by lia. unfold arithmetic. split; intros (w & Hw & Hlen & Hc);
    exists w; (split; [done|]); (split; [done|]).
  all: clear -Hc; induction Hc as [|a l Hl IH Ha]; constructor; [done|];
    destruct Ha; constructor; lia.
Qed.

Lemma steps_ge step c value longest (n : nat) : (1 < n)%nat -> 1 <= longest ->
  Z.of_nat n <= steps step c value 1 longest <->
  Z.of_nat n <= longest \/ exists w, stretch w (c :: value) /\ length w = n /\ arithmetic step w.
Proof.
  intros Hn Hl. rewrite steps_runs, runs_longest by lia. unfold arithmetic.
  rewrite <- longest_chain_ge by lia. cbn [longest_chain].
  pose proof (leading_bounds (fun a b => b - a =? step) c value). lia.
Qed.

Lemma steps_pos step c value longest : 1 <= longest -> 1 <= steps step c value 1 longest.
Proof. intros Hl. rewrite steps_runs, runs_longest by lia. lia. Qed.

Lemma monotonic_run_length_ge value :
  MAX_MONOTONIC_RUN <= monotonic_run_length value <->
  exists w, stretch w value /\ length w = 4%nat /\ (arithmetic 1 w \/ arithmetic (-1) w).
Proof.
  unfold monotonic_run_length. destruct (Z.ltb_spec (Z.of_nat (length value)) MAX_MONOTONIC_RUN).
  { unfold MAX_MONOTONIC_RUN in *. split; [lia|]. intros (w & (a & b & ->) & Hlen & _).
    rewrite !length_app in *. lia. }
  destruct value as [|c value]; [done|]. cbn [fold_left].
  change MAX_MONOTONIC_RUN with (Z.of_nat 4). pose proof (steps_pos 1 c value 1).
  rewrite !steps_ge by lia. split.
  - intros [[H4|(w & Hw)]|(w & Hw)]; [lia|exists w; tauto..].
  - intros (w & Hs & Hlen & [Hw|Hw]); [left; right|right]; by exists w.
Qed.

(** * The policy without its loops *)

(** Whether a stretch of four characters may occur. *)
Definition plain_stretch (w : text) : Prop :=
  ~ arithmetic 0 w /\ ~ arithmetic 1 w /\ ~ arithmetic (-1) w /\
  forall row, row ∈ KEYBOARD_ROWS -> ~ stretch w row /\ ~ stretch w (rev row).

Record acceptable (U : Unicode) (lines : option (list text)) (min_length : Z)
    (password : text) : Prop := {
  not_empty : password <> [];
  long_enough : min_length <= Z.of_nat (length password);
  mixed : MIN_CHARACTER_CLASSES <= character_classes U password;
  plain : forall w, stretch w (normalize_for_policy U password) -> length w = 4%nat ->
    plain_stretch w;
  no_birth_year : forall d1 d2, 48 <= d1 <= 57 -> 48 <= d2 <= 57 ->
    ~ stretch [49; 51; d1; d2] (normalize_for_policy U password);
  no_platform_token : forall token, token ∈ PLATFORM_TOKENS ->
    ~ stretch token (normalize_for_policy U password);
  not_common : normalize_for_policy U password ∉ load_blacklist U lines;
}.

Lemma existsb_spec {A} (f : A -> bool) l : existsb f l = true <-> exists x, x ∈ l /\ f x = true.
Proof.
  rewrite existsb_exists. split; intros (x & Hx & Hf); exists x; (split; [|done]);
    by apply list_elem_of_In.
Qed.

(** The slices of length [n] are the stretches of that length. *)
Lemma slices n value w : (0 < n)%nat ->
  (exists i, i ∈ seq 0 (length value + 1 - n) /\ w = slice i n value) <->
  stretch w value /\ length w = n.
Proof.
  intros Hn. unfold slice. split.
  - intros (i & [_ Hi]%elem_of_seq & ->). split.
    + exists (take i value), (drop n (drop i value)). by rewrite !take_drop.
    + rewrite length_take, length_drop. lia.
  - intros [(a & b & ->) Hlen]. exists (length a). split.
    + apply elem_of_seq. rewrite !length_app. lia.
    + rewrite drop_app_length. by rewrite <- Hlen, take_app_length.
Qed.

Lemma on_keyboard_row_spec value :
  on_keyboard_row value = true <->
  exists w row, stretch w value /\ length w = 4%nat /\ row ∈ KEYBOARD_ROWS /\
    (stretch w row \/ stretch w (rev row)).
Proof.
  unfold on_keyboard_row. change (Z.to_nat MAX_MONOTONIC_RUN) with 4%nat. cbv zeta.
  rewrite existsb_spec. setoid_rewrite existsb_spec. setoid_rewrite existsb_spec.
  setoid_rewrite contains_spec. split.
  - intros (row & Hrow & direction & Hdir & i & Hi & Hw).
    destruct (proj1 (slices 4 value (slice i 4 value) ltac:(lia)) ltac:(by exists i)) as [Hs Hlen].
    exists (slice i 4 value), row. split; [done|]. split; [done|]. split; [done|].
    apply elem_of_cons in Hdir as [->|Hdir]; [by left|].
    apply elem_of_cons in Hdir as [->|Hdir]; [by right|by apply elem_of_nil in Hdir].
  - intros (w & row & Hs & Hlen & Hrow & Hdir).
    destruct (proj2 (slices 4 value w ltac:(lia)) (conj Hs Hlen)) as (i & Hi & ->).
    exists row. split; [done|]. destruct Hdir as [Hd|Hd].
    + exists row. split; [set_solver|]. by exists i.
    + exists (rev row). split; [set_solver|]. by exists i.
Qed.

Lemma birth_year_spec s :
  search SOLAR_BIRTH_YEAR s = true <->
  exists d1 d2, 48 <= d1 <= 57 /\ 48 <= d2 <= 57 /\ stretch [49; 51; d1; d2] s.
Proof.
  rewrite search_spec. unfold SOLAR_BIRTH_YEAR. split.
  - intros (s1 & s2 & s3 & -> & (x & y & -> & (c & -> & Hc)%in_chr_inv
      & (u & v & -> & (d & -> & Hd)%in_chr_inv & [Hlen Hds]%in_times_chr)%in_cat_inv)%in_cat_inv).
    apply Z.eqb_eq in Hc as <-. apply Z.eqb_eq in Hd as <-.
    destruct v as [|d1 [|d2 []]]; try done. rewrite !Forall_cons in Hds.
    exists d1, d2. split; [lia|]. split; [lia|]. by exists s1, s3.
  - intros (d1 & d2 & H1 & H2 & a & b & ->). exists a, [49; 51; d1; d2], b. split; [done|].
    apply in_cat_inv. exists [49], [51; d1; d2]. split; [done|].
    split; [apply in_chr_inv; by exists 49|]. apply in_cat_inv. exists [51], [d1; d2].
    split; [done|]. split; [apply in_chr_inv; by exists 51|]. apply in_times_chr.
    split; [done|]. repeat constructor; lia.
Qed.

Lemma plain_spec value :
  (forall w, stretch w value -> length w = 4%nat -> plain_stretch w) <->
  (MAX_MONOTONIC_RUN <=? run_length value) || (MAX_MONOTONIC_RUN <=? monotonic_run_length value)
    = false /\ on_keyboard_row value = false.
Proof.
  rewrite orb_false_iff, !Z.leb_gt, !Z.lt_nge, run_length_ge, monotonic_run_length_ge.
  rewrite <- (not_true_iff_false (on_keyboard_row value)), on_keyboard_row_spec.
  unfold plain_stretch. split.
  - intros Hall. split; [split|].
    + intros (w & Hs & Hlen & Hw). by destruct (Hall w Hs Hlen).
    + intros (w & Hs & Hlen & Hw). destruct (Hall w Hs Hlen) as (_ & H1 & H2 & _). by destruct Hw.
    + intros (w & row & Hs & Hlen & Hrow & [Hw|Hw]);
        destruct (Hall w Hs Hlen) as (_ & _ & _ & Hrows); by destruct (Hrows row Hrow).
  - intros [[H1 H2] H3] w Hs Hlen.
    refine (conj _ (conj _ (conj _ (fun row Hrow => conj _ _)))); intros Hw.
    + apply H1. by exists w.
    + apply H2. exists w. auto.
    + apply H2. exists w. auto.
    + apply H3. exists w, row. auto.
    + apply H3. exists w, row. auto 6.
Qed.

(** C34: the validator accepts exactly the passwords of the policy: long enough,
    of three kinds of characters, and, in the form made for comparison, without
    a stretch of four that repeats, counts up or down or lies on a row of the
    keyboard, without a year 13xx, without the platform's name, and not listed. *)
Theorem validate_accepts_exactly U lines min_length password :
  validate U lines min_length password = Ok tt <-> acceptable U lines min_length password.
Proof.
  unfold validate. cbv zeta. set (t := normalize_for_policy U password).
  split.
  - intros H. case_bool_decide as Hne; [done|].
    destruct (Z.ltb_spec (Z.of_nat (length password)) min_length); [done|].
    destruct (Z.ltb_spec (character_classes U password) MIN_CHARACTER_CLASSES); [done|].
    destruct (_ || _) eqn:Hruns; [done|]. destruct (on_keyboard_row t) eqn:Hrow; [done|].
    destruct (search SOLAR_BIRTH_YEAR t) eqn:Hyear; [done|].
    destruct (existsb _ PLATFORM_TOKENS) eqn:Htok; [done|].
    case_bool_decide as Hlist; [done|]. split; try done; fold t.
    + by apply plain_spec.
    + intros d1 d2 Hd1 Hd2 Hs. apply not_true_iff_false in Hyear. apply Hyear, birth_year_spec.
      by exists d1, d2.
    + intros token Hin Hs. apply not_true_iff_false in Htok. apply Htok, existsb_spec.
      exists token. split; [done|]. by apply contains_spec.
  - intros [Hne Hlen Hcls Hpl Hyear Htok Hcom]. fold t in Hpl, Hyear, Htok, Hcom.
    rewrite bool_decide_false by done. rewrite (proj2 (Z.ltb_ge _ _)) by done.
    rewrite (proj2 (Z.ltb_ge _ _)) by done. apply plain_spec in Hpl as [-> ->].
    assert (search SOLAR_BIRTH_YEAR t = false) as ->.
    { apply not_true_iff_false. rewrite birth_year_spec. intros (d1 & d2 & H1 & H2 & Hs).
      by apply (Hyear d1 d2). }
    assert (existsb (fun token => contains token t) PLATFORM_TOKENS = false) as ->.
    { apply not_true_iff_false. rewrite existsb_spec. intros (token & Hin & Hs).
      apply contains_spec in Hs. by apply (Htok token). }
    by rewrite bool_decide_false by done.
Qed.

(** * Examples *)

(** The Unicode database on ASCII; it leaves everything else alone. *)
Definition between (lo hi c : Z) : bool := (lo <=? c) && (c <=? hi).
Definition ascii_unicode : Unicode :=
  let digit c := between 48 57 c || between 1632 1641 c || between 1776 1785 c in
  mkUnicode id (map (fun c => if between 65 90 c then c + 32 else c))
    (between 97 122) (between 65 90) digit
    (fun c => between 97 122 c || between 65 90 c || digit c)
    (fun c => (c =? 32) || between 9 13 c).

Definition common_lines : option (list text) := Some (map codes ["# list"; " letmein-please1 "]%string).

Example policy_examples :
  map (fun s => validate ascii_unicode common_lines MIN_LENGTH (codes s))
    [""; "Ab1!"; "onlyletters"; "xAAAA!7bcq"; "zAbCd!7kxq"; "Qwer!7kxpz"; "Ali!1366xk";
     "k7!SetadXw"; "9k!Trm_w2Qz"]%string
  = [Raise password_empty; Raise password_too_short; Raise password_missing_char_classes;
     Raise password_sequential; Raise password_sequential; Raise password_keyboard_row;
     Raise password_birth_year_pattern; Raise password_platform_token; Ok tt].
Proof. vm_compute. reflexivity. Qed.

(** Steps other than one up or down are not runs. *)
Example a_constant_step_of_two : monotonic_run_length (codes "9753") = 1.
Proof. vm_compute. reflexivity. Qed.

(** The Arabic digits come out as the numbers 10 to 19. *)
Example arabic_digits_are_doubled :
  flat_map (translate DIGIT_TRANSLATION) (seqZ 1632 4) = codes "10111213".
Proof. vm_compute. reflexivity. Qed.

(** So a run of Arabic digits passes where the same run in Persian digits does not. *)
Example arabic_run_is_accepted :
  validate ascii_unicode None MIN_LENGTH (codes "kT!w#Zm" ++ [1636; 1637; 1638; 1639]) = Ok tt /\
  validate ascii_unicode None MIN_LENGTH (codes "kT!w#Zm" ++ [1780; 1781; 1782; 1783])
  = Raise password_sequential.
Proof. vm_compute. split; reflexivity. Qed.

(** A listed word with a noise character in it is never met. *)
Example listed_word_with_noise :
  load_blacklist ascii_unicode (Some [codes "p@ssword12A"]) = [codes "p@ssword12A"] /\
  normalize_for_policy ascii_unicode (codes "p@ssword12A") = codes "pssword12a".
Proof. vm_compute. split; reflexivity. Qed.
