(* ===== verification/Decimal.v ===== *)
(** Python's [decimal] in its default context: 28 significant digits, rounding
    half to even.

    A value is a fraction [(n, d)] with [0 < d]; a column with two decimal
    places is its number of hundredths.  [div28] and [mul28] are correct for
    results that are not negative and below 10^28, which the ones computed here
    are. *)

From S2P Require Import Prelude.

(** The integer nearest to [n / d], the even one of two. *)
Definition round_half_even (n d : Z) : Z :=
  let q := n / d in
  let r := n mod d in
  if 2 * r <? d then q
  else if d <? 2 * r then q + 1
  else if Z.even q then q else q + 1.

Definition digits_of (n : Z) : Z := Z.of_nat (String.length (pretty n)).

(** The [m] with [10 ^ (m - 1) <= n / d < 10 ^ m], for a positive fraction. *)
Definition magnitude (n d : Z) : Z :=
  let m := digits_of n - digits_of d in
  if n * 10 ^ Z.max 0 (- m) <? d * 10 ^ Z.max 0 m then m else m + 1.

(** A fraction rounded to 28 significant digits. *)
Definition round28 (n d : Z) : Z * Z :=
  if n =? 0 then (0, 1)
  else
    let unit := 10 ^ Z.max 0 (28 - magnitude n d) in
    (round_half_even (n * unit) d, unit).

Definition div28 (x y : Z * Z) : Z * Z := round28 (x.1 * y.2) (x.2 * y.1).
Definition mul28 (x y : Z * Z) : Z * Z := round28 (x.1 * y.1) (x.2 * y.2).

(** [Decimal(z)] of an integer, and of a column in hundredths. *)
Definition of_int (z : Z) : Z * Z := (z, 1).
Definition of_hundredths (z : Z) : Z * Z := (z, 100).

(** [x.quantize(Decimal("0.01"))], in hundredths *)
Definition quantize (x : Z * Z) : Z := round_half_even (x.1 * 100) x.2.

Example quantize_examples :
  map (fun ab => quantize (mul28 (div28 (of_int ab.1) (of_int ab.2)) (of_int 100)))
    [(1, 3); (2, 3); (1, 8); (1, 800); (3, 800); (0, 7); (7, 7)]
  = [3333; 6667; 1250; 12; 38; 0; 10000].
Proof. vm_compute. reflexivity. Qed.

(** * Rounding *)

Lemma round_half_even_bounds n d : 0 < d -> n / d <= round_half_even n d <= n / d + 1.
Proof.
  intros Hd. unfold round_half_even. cbv zeta.
  repeat case_match; lia.
Qed.

(** Rounding does not cross an integer. *)
Lemma round_half_even_le n d c : 0 < d -> n <= c * d -> round_half_even n d <= c.
Proof.
  intros Hd Hn. pose proof (Z.div_mod n d ltac:(lia)) as Hdiv.
  pose proof (Z.mod_pos_bound n d Hd) as Hr. unfold round_half_even. cbv zeta.
  assert (n / d <= c) as Hq by (apply Z.div_le_upper_bound; lia).
  destruct (Z.eq_dec (n / d) c) as [Heq|Hne].
  - assert (n mod d = 0) as Hr0 by nia. rewrite Hr0, Z.mul_0_r.
    rewrite (proj2 (Z.ltb_lt 0 d)) by lia. lia.
  - repeat case_match; lia.
Qed.

Lemma round_half_even_ge n d c : 0 < d -> c * d <= n -> c <= round_half_even n d.
Proof.
  intros Hd Hn. pose proof (round_half_even_bounds n d Hd).
  assert (c <= n / d) by (apply Z.div_le_lower_bound; lia). lia.
Qed.

Lemma round_half_even_exact c d : 0 < d -> round_half_even (c * d) d = c.
Proof.
  intros Hd. apply Z.le_antisymm; [apply round_half_even_le|apply round_half_even_ge]; lia.
Qed.

Lemma round28_pos n d : 0 < (round28 n d).2.
Proof.
  unfold round28. destruct (n =? 0); simpl; [lia|].
  apply Z.pow_pos_nonneg; lia.
Qed.

(** Nor does rounding to 28 digits. *)
Lemma round28_le n d c : 0 < d -> 0 <= c -> n <= c * d ->
  (round28 n d).1 <= c * (round28 n d).2.
Proof.
  intros Hd Hc Hn. unfold round28. destruct (n =? 0); simpl; [lia|].
  assert (0 < 10 ^ Z.max 0 (28 - magnitude n d)) by (apply Z.pow_pos_nonneg; lia).
  apply round_half_even_le; nia.
Qed.

Lemma round28_ge n d c : 0 < d -> 0 <= c -> 0 <= n -> c * d <= n ->
  c * (round28 n d).2 <= (round28 n d).1.
Proof.
  intros Hd Hc Hn0 Hn. unfold round28. destruct (Z.eqb_spec n 0); simpl; [nia|].
  assert (0 < 10 ^ Z.max 0 (28 - magnitude n d)) by (apply Z.pow_pos_nonneg; lia).
  apply round_half_even_ge; nia.
Qed.

Lemma round28_nonneg n d : 0 < d -> 0 <= n -> 0 <= (round28 n d).1.
Proof. intros Hd Hn. pose proof (round28_ge n d 0 Hd). lia. Qed.

(** ** A share of a whole number *)

(** [(a / t * whole).quantize(Decimal("0.01"))] for [0 <= a <= t], as the scores
    are computed. *)
Definition share (a t whole : Z) : Z :=
  quantize (mul28 (div28 (of_hundredths a) (of_hundredths t)) (of_int whole)).

Lemma share_bounds a t whole : 0 < t -> 0 <= a <= t -> 0 <= whole ->
  0 <= share a t whole <= whole * 100.
Proof.
  intros Ht Ha Hw. unfold share, quantize, mul28, div28. simpl fst. simpl snd.
  set (q := round28 (a * 100) (100 * t)).
  assert (0 < q.2) as Hq2 by apply round28_pos.
  assert (q.1 <= 1 * q.2) by (apply round28_le; lia).
  assert (0 <= q.1) by (apply round28_nonneg; lia).
  set (p := round28 (q.1 * whole) (q.2 * 1)).
  assert (0 < p.2) as Hp2 by apply round28_pos.
  assert (p.1 <= whole * p.2) by (apply round28_le; nia).
  assert (0 <= p.1) by (apply round28_nonneg; nia).
  split; [apply round_half_even_ge; lia|apply round_half_even_le; nia].
Qed.

Lemma share_whole t whole : 0 < t -> 0 <= whole -> share t t whole = whole * 100.
Proof.
  intros Ht Hw. unfold share, quantize, mul28, div28. simpl fst. simpl snd.
  set (q := round28 (t * 100) (100 * t)).
  assert (0 < q.2) as Hq2 by apply round28_pos.
  assert (q.1 <= 1 * q.2) by (apply round28_le; lia).
  assert (1 * q.2 <= q.1) by (apply round28_ge; lia).
  set (p := round28 (q.1 * whole) (q.2 * 1)).
  assert (0 < p.2) as Hp2 by apply round28_pos.
  assert (p.1 <= whole * p.2) by (apply round28_le; nia).
  assert (whole * p.2 <= p.1) by (apply round28_ge; nia).
  replace (p.1 * 100) with (whole * 100 * p.2) by nia. by apply round_half_even_exact.
Qed.

Lemma share_nothing t whole : share 0 t whole = 0.
Proof. reflexivity. Qed.

(** A mean of numbers of hundredths between bounds is between them. *)
Definition mean (total count : Z) : Z := quantize (div28 (of_hundredths total) (of_int count)).

Lemma mean_bounds total count lo hi : 0 < count -> 0 <= lo ->
  lo * 100 * count <= total <= hi * 100 * count -> lo * 100 <= mean total count <= hi * 100.
Proof.
  intros Hc Hlo Ht. unfold mean, quantize, div28. simpl fst. simpl snd.
  set (q := round28 (total * 1) (100 * count)).
  assert (0 < q.2) as Hq2 by apply round28_pos.
  assert (q.1 <= hi * q.2) by (apply round28_le; nia).
  assert (lo * q.2 <= q.1) by (apply round28_ge; nia).
  split; [apply round_half_even_ge; nia|apply round_half_even_le; nia].
Qed.
