(* ===== verification/LmsModels.v ===== *)
(** The data of the learning platform: [src/apps/lms/choices.py] and
    [src/apps/lms/models.py], the constraints of its tables, and the database
    and environment of its services.

    A decimal column with two places is its number of hundredths.  The
    platform's tables stand beside the database of the site ([World.v]), which
    holds the users and the notifications. *)

From S2P Require Import Prelude Python Choices Orm Models NotificationModels World Apps.

(** * Enumerations *)

Module CourseLevel.

Inductive t : Set :=
| BEGINNER
| INTERMEDIATE
| ADVANCED
| PROFESSIONAL.

#[export] Instance t_eq : EqDecision t.
Proof. solve_decision. Defined.

Definition values : list (t * string) :=
  [ (BEGINNER, "beginner"%string);
    (INTERMEDIATE, "intermediate"%string);
    (ADVANCED, "advanced"%string);
    (PROFESSIONAL, "professional"%string) ].

#[export, refine] Instance t_choices : TextChoices t := { choices := values }.
Proof. all: solve_choices. Defined.

End CourseLevel.
Export (hints) CourseLevel.

Module CourseStatus.

Inductive t : Set :=
| DRAFT
| PUBLISHED
| ARCHIVED.

#[export] Instance t_eq : EqDecision t.
Proof. solve_decision. Defined.

Definition values : list (t * string) :=
  [ (DRAFT, "draft"%string);
    (PUBLISHED, "published"%string);
    (ARCHIVED, "archived"%string) ].

#[export, refine] Instance t_choices : TextChoices t := { choices := values }.
Proof. all: solve_choices. Defined.

End CourseStatus.
Export (hints) CourseStatus.

Module EnrollmentStatus.

Inductive t : Set :=
| ACTIVE
| COMPLETED
| CANCELED
| LOCKED.

#[export] Instance t_eq : EqDecision t.
Proof. solve_decision. Defined.

Definition values : list (t * string) :=
  [ (ACTIVE, "active"%string);
    (COMPLETED, "completed"%string);
    (CANCELED, "canceled"%string);
    (LOCKED, "locked"%string) ].

#[export, refine] Instance t_choices : TextChoices t := { choices := values }.
Proof. all: solve_choices. Defined.

End EnrollmentStatus.
Export (hints) EnrollmentStatus.

Module QuizStatus.

Inductive t : Set :=
| DRAFT
| PUBLISHED
| ARCHIVED.

#[export] Instance t_eq : EqDecision t.
Proof. solve_decision. Defined.

Definition values : list (t * string) :=
  [ (DRAFT, "draft"%string);
    (PUBLISHED, "published"%string);
    (ARCHIVED, "archived"%string) ].

#[export, refine] Instance t_choices : TextChoices t := { choices := values }.
Proof. all: solve_choices. Defined.

End QuizStatus.
Export (hints) QuizStatus.

Module QuizAttemptStatus.

Inductive t : Set :=
| IN_PROGRESS
| SUBMITTED
| PASSED
| FAILED
| EXPIRED
| LOCKED.

#[export] Instance t_eq : EqDecision t.
Proof. solve_decision. Defined.

Definition values : list (t * string) :=
  [ (IN_PROGRESS, "in_progress"%string);
    (SUBMITTED, "submitted"%string);
    (PASSED, "passed"%string);
    (FAILED, "failed"%string);
    (EXPIRED, "expired"%string);
    (LOCKED, "locked"%string) ].

#[export, refine] Instance t_choices : TextChoices t := { choices := values }.
Proof. all: solve_choices. Defined.

End QuizAttemptStatus.
Export (hints) QuizAttemptStatus.

Module CertificateStatus.

Inductive t : Set :=
| ISSUED
| REVOKED.

#[export] Instance t_eq : EqDecision t.
Proof. solve_decision. Defined.

Definition values : list (t * string) :=
  [ (ISSUED, "issued"%string);
    (REVOKED, "revoked"%string) ].

#[export, refine] Instance t_choices : TextChoices t := { choices := values }.
Proof. all: solve_choices. Defined.

End CertificateStatus.
Export (hints) CertificateStatus.

Module BadgeLevel.

Inductive t : Set :=
| BRONZE
| SILVER
| GOLD
| DISTINCTION.

#[export] Instance t_eq : EqDecision t.
Proof. solve_decision. Defined.

Definition values : list (t * string) :=
  [ (BRONZE, "bronze"%string);
    (SILVER, "silver"%string);
    (GOLD, "gold"%string);
    (DISTINCTION, "distinction"%string) ].

#[export, refine] Instance t_choices : TextChoices t := { choices := values }.
Proof. all: solve_choices. Defined.

End BadgeLevel.
Export (hints) BadgeLevel.

Module VideoProvider.

Inductive t : Set :=
| DIRECT_URL
| EMBED
| UPLOADED_FILE
| HYBRID.

#[export] Instance t_eq : EqDecision t.
Proof. solve_decision. Defined.

Definition values : list (t * string) :=
  [ (DIRECT_URL, "direct_url"%string);
    (EMBED, "embed"%string);
    (UPLOADED_FILE, "uploaded_file"%string);
    (HYBRID, "hybrid"%string) ].

#[export, refine] Instance t_choices : TextChoices t := { choices := values }.
Proof. all: solve_choices. Defined.

End VideoProvider.
Export (hints) VideoProvider.

Module LessonContentType.

Inductive t : Set :=
| VIDEO
| AUDIO
| DOCUMENT
| ARTICLE.

#[export] Instance t_eq : EqDecision t.
Proof. solve_decision. Defined.

Definition values : list (t * string) :=
  [ (VIDEO, "video"%string);
    (AUDIO, "audio"%string);
    (DOCUMENT, "document"%string);
    (ARTICLE, "article"%string) ].

#[export, refine] Instance t_choices : TextChoices t := { choices := values }.
Proof. all: solve_choices. Defined.

End LessonContentType.
Export (hints) LessonContentType.

Module LearningStatementVerb.

Inductive t : Set :=
| INITIALIZED
| PROGRESSED
| COMPLETED
| PASSED
| FAILED
| CERTIFICATE_ISSUED.

#[export] Instance t_eq : EqDecision t.
Proof. solve_decision. Defined.

Definition values : list (t * string) :=
  [ (INITIALIZED, "initialized"%string);
    (PROGRESSED, "progressed"%string);
    (COMPLETED, "completed"%string);
    (PASSED, "passed"%string);
    (FAILED, "failed"%string);
    (CERTIFICATE_ISSUED, "certificate_issued"%string) ].

#[export, refine] Instance t_choices : TextChoices t := { choices := values }.
Proof. all: solve_choices. Defined.

End LearningStatementVerb.
Export (hints) LearningStatementVerb.

(** * Records *)

(** LMSCategory: a group of courses. *)
Record LMSCategory : Type := mkCategory {
  cat_id : Z;
  cat_title : string;
  cat_slug : string;
  cat_description : string;
  cat_icon : string;
  cat_cover_image : option string;
  cat_order : Z;
  cat_is_active : bool;
  cat_created_at : Z;
  cat_updated_at : Z;
}.

#[export] Instance eta_LMSCategory : Eta LMSCategory := fun x => mkCategory
  (cat_id x) (cat_title x) (cat_slug x) (cat_description x) (cat_icon x)
  (cat_cover_image x) (cat_order x) (cat_is_active x) (cat_created_at x)
  (cat_updated_at x).

(** Course: a free class with its denormalised counters; the rating is in hundredths. *)
Record Course : Type := mkCourse {
  crs_id : Z;
  crs_category : Z;
  crs_title : string;
  crs_slug : string;
  crs_subtitle : string;
  crs_short_description : string;
  crs_description : string;
  crs_cover_image : option string;
  crs_instructor_name : string;
  crs_instructor_bio : string;
  crs_instructor_avatar : option string;
  crs_level : CourseLevel.t;
  crs_status : CourseStatus.t;
  crs_language : string;
  crs_is_featured : bool;
  crs_intro_video_url : string;
  crs_estimated_duration_seconds : Z;
  crs_lessons_count : Z;
  crs_enrollments_count : Z;
  crs_graduates_count : Z;
  crs_average_rating : Z;
  crs_published_at : option Z;
  crs_archived_at : option Z;
  crs_is_active : bool;
  crs_created_at : Z;
  crs_updated_at : Z;
}.

#[export] Instance eta_Course : Eta Course := fun x => mkCourse
  (crs_id x) (crs_category x) (crs_title x) (crs_slug x) (crs_subtitle x)
  (crs_short_description x) (crs_description x) (crs_cover_image x)
  (crs_instructor_name x) (crs_instructor_bio x) (crs_instructor_avatar x)
  (crs_level x) (crs_status x) (crs_language x) (crs_is_featured x)
  (crs_intro_video_url x) (crs_estimated_duration_seconds x)
  (crs_lessons_count x) (crs_enrollments_count x) (crs_graduates_count x)
  (crs_average_rating x) (crs_published_at x) (crs_archived_at x)
  (crs_is_active x) (crs_created_at x) (crs_updated_at x).

(** Lesson: an ordered session of a course; a file is its name. *)
Record Lesson : Type := mkLesson {
  les_id : Z;
  les_course : Z;
  les_title : string;
  les_slug : string;
  les_description : string;
  les_order : Z;
  les_content_type : LessonContentType.t;
  les_document_file : option string;
  les_document_title : string;
  les_article_body : string;
  les_video_provider : VideoProvider.t;
  les_video_url : string;
  les_embed_url : string;
  les_video_file : option string;
  les_duration_seconds : Z;
  les_transcript : string;
  les_summary : string;
  les_homework : string;
  les_attachment_file : option string;
  les_attachment_title : string;
  les_is_preview : bool;
  les_published_at : option Z;
  les_is_active : bool;
  les_created_at : Z;
  les_updated_at : Z;
}.

#[export] Instance eta_Lesson : Eta Lesson := fun x => mkLesson
  (les_id x) (les_course x) (les_title x) (les_slug x) (les_description x)
  (les_order x) (les_content_type x) (les_document_file x)
  (les_document_title x) (les_article_body x) (les_video_provider x)
  (les_video_url x) (les_embed_url x) (les_video_file x)
  (les_duration_seconds x) (les_transcript x) (les_summary x)
  (les_homework x) (les_attachment_file x) (les_attachment_title x)
  (les_is_preview x) (les_published_at x) (les_is_active x)
  (les_created_at x) (les_updated_at x).

(** Enrollment: a user's registration in a course; the percentage is in hundredths. *)
Record Enrollment : Type := mkEnrollment {
  enr_id : Z;
  enr_course : Z;
  enr_user : Z;
  enr_status : EnrollmentStatus.t;
  enr_enrolled_at : Z;
  enr_completed_at : option Z;
  enr_last_accessed_lesson : option Z;
  enr_progress_percent : Z;
  enr_watched_seconds : Z;
  enr_total_seconds_snapshot : Z;
  enr_is_active : bool;
  enr_created_at : Z;
  enr_updated_at : Z;
}.

#[export] Instance eta_Enrollment : Eta Enrollment := fun x => mkEnrollment
  (enr_id x) (enr_course x) (enr_user x) (enr_status x)
  (enr_enrolled_at x) (enr_completed_at x) (enr_last_accessed_lesson x)
  (enr_progress_percent x) (enr_watched_seconds x)
  (enr_total_seconds_snapshot x) (enr_is_active x) (enr_created_at x)
  (enr_updated_at x).

(** LessonProgress: the progress of an enrollment in a lesson. *)
Record LessonProgress : Type := mkLessonProgress {
  lp_id : Z;
  lp_enrollment : Z;
  lp_lesson : Z;
  lp_watched_seconds : Z;
  lp_duration_seconds_snapshot : Z;
  lp_progress_percent : Z;
  lp_is_completed : bool;
  lp_last_position_seconds : Z;
  lp_first_watched_at : option Z;
  lp_last_watched_at : option Z;
  lp_completed_at : option Z;
  lp_media_opened_at : option Z;
  lp_is_active : bool;
  lp_created_at : Z;
  lp_updated_at : Z;
}.

#[export] Instance eta_LessonProgress : Eta LessonProgress := fun x => mkLessonProgress
  (lp_id x) (lp_enrollment x) (lp_lesson x) (lp_watched_seconds x)
  (lp_duration_seconds_snapshot x) (lp_progress_percent x)
  (lp_is_completed x) (lp_last_position_seconds x) (lp_first_watched_at x)
  (lp_last_watched_at x) (lp_completed_at x) (lp_media_opened_at x)
  (lp_is_active x) (lp_created_at x) (lp_updated_at x).

(** Quiz: the weighted quiz of a course; the passing score is in hundredths. *)
Record Quiz : Type := mkQuiz {
  qz_id : Z;
  qz_course : Z;
  qz_title : string;
  qz_description : string;
  qz_status : QuizStatus.t;
  qz_time_limit_minutes : Z;
  qz_passing_score : Z;
  qz_max_attempts : Z;
  qz_retake_delay_days : Z;
  qz_shuffle_questions : bool;
  qz_shuffle_options : bool;
  qz_show_result_immediately : bool;
  qz_show_correct_answers_after_pass : bool;
  qz_is_required_for_certificate : bool;
  qz_published_at : option Z;
  qz_is_active : bool;
  qz_created_at : Z;
  qz_updated_at : Z;
}.

#[export] Instance eta_Quiz : Eta Quiz := fun x => mkQuiz
  (qz_id x) (qz_course x) (qz_title x) (qz_description x) (qz_status x)
  (qz_time_limit_minutes x) (qz_passing_score x) (qz_max_attempts x)
  (qz_retake_delay_days x) (qz_shuffle_questions x) (qz_shuffle_options x)
  (qz_show_result_immediately x) (qz_show_correct_answers_after_pass x)
  (qz_is_required_for_certificate x) (qz_published_at x) (qz_is_active x)
  (qz_created_at x) (qz_updated_at x).

(** QuizQuestion: a question with its weight in hundredths. *)
Record QuizQuestion : Type := mkQuizQuestion {
  qq_id : Z;
  qq_quiz : Z;
  qq_text : string;
  qq_explanation : string;
  qq_order : Z;
  qq_weight : Z;
  qq_is_active : bool;
  qq_created_at : Z;
  qq_updated_at : Z;
}.

#[export] Instance eta_QuizQuestion : Eta QuizQuestion := fun x => mkQuizQuestion
  (qq_id x) (qq_quiz x) (qq_text x) (qq_explanation x) (qq_order x)
  (qq_weight x) (qq_is_active x) (qq_created_at x) (qq_updated_at x).

(** QuizOption: one option of a question. *)
Record QuizOption : Type := mkQuizOption {
  qo_id : Z;
  qo_question : Z;
  qo_text : string;
  qo_is_correct : bool;
  qo_order : Z;
  qo_is_active : bool;
  qo_created_at : Z;
  qo_updated_at : Z;
}.

#[export] Instance eta_QuizOption : Eta QuizOption := fun x => mkQuizOption
  (qo_id x) (qo_question x) (qo_text x) (qo_is_correct x) (qo_order x)
  (qo_is_active x) (qo_created_at x) (qo_updated_at x).

(** QuizAttempt: an attempt with its scores in hundredths.  The JSON snapshots hold
    keys of questions, and for each question the keys of its options. *)
Record QuizAttempt : Type := mkQuizAttempt {
  qa_id : Z;
  qa_quiz : Z;
  qa_course : Z;
  qa_user : Z;
  qa_enrollment : Z;
  qa_attempt_number : Z;
  qa_status : QuizAttemptStatus.t;
  qa_started_at : Z;
  qa_submitted_at : option Z;
  qa_expires_at : option Z;
  qa_score_raw : Z;
  qa_score_percent : Z;
  qa_score_out_of_20 : Z;
  qa_is_passed : bool;
  qa_locked_reason : string;
  qa_question_snapshot : (list Z);
  qa_option_order_snapshot : (list (Z * list Z));
  qa_is_active : bool;
  qa_created_at : Z;
  qa_updated_at : Z;
}.

#[export] Instance eta_QuizAttempt : Eta QuizAttempt := fun x => mkQuizAttempt
  (qa_id x) (qa_quiz x) (qa_course x) (qa_user x) (qa_enrollment x)
  (qa_attempt_number x) (qa_status x) (qa_started_at x)
  (qa_submitted_at x) (qa_expires_at x) (qa_score_raw x)
  (qa_score_percent x) (qa_score_out_of_20 x) (qa_is_passed x)
  (qa_locked_reason x) (qa_question_snapshot x)
  (qa_option_order_snapshot x) (qa_is_active x) (qa_created_at x)
  (qa_updated_at x).

(** QuizAnswer: the answer to one question of an attempt. *)
Record QuizAnswer : Type := mkQuizAnswer {
  qn_id : Z;
  qn_attempt : Z;
  qn_question : Z;
  qn_selected_option : Z;
  qn_is_correct : bool;
  qn_weight : Z;
  qn_score_awarded : Z;
  qn_answered_at : Z;
  qn_is_active : bool;
  qn_created_at : Z;
  qn_updated_at : Z;
}.

#[export] Instance eta_QuizAnswer : Eta QuizAnswer := fun x => mkQuizAnswer
  (qn_id x) (qn_attempt x) (qn_question x) (qn_selected_option x)
  (qn_is_correct x) (qn_weight x) (qn_score_awarded x) (qn_answered_at x)
  (qn_is_active x) (qn_created_at x) (qn_updated_at x).

(** QuizUnlock: extra attempts granted by an administrator. *)
Record QuizUnlock : Type := mkQuizUnlock {
  qu_id : Z;
  qu_quiz : Z;
  qu_course : Z;
  qu_user : Z;
  qu_unlocked_by : Z;
  qu_reason : string;
  qu_extra_attempts : Z;
  qu_valid_until : option Z;
  qu_is_active : bool;
  qu_created_at : Z;
  qu_updated_at : Z;
}.

#[export] Instance eta_QuizUnlock : Eta QuizUnlock := fun x => mkQuizUnlock
  (qu_id x) (qu_quiz x) (qu_course x) (qu_user x) (qu_unlocked_by x)
  (qu_reason x) (qu_extra_attempts x) (qu_valid_until x) (qu_is_active x)
  (qu_created_at x) (qu_updated_at x).

(** Certificate: the certificate of a passed attempt. *)
Record Certificate : Type := mkCertificate {
  cert_id : Z;
  cert_user : Z;
  cert_course : Z;
  cert_enrollment : Z;
  cert_quiz_attempt : Z;
  cert_certificate_code : string;
  cert_verification_slug : string;
  cert_status : CertificateStatus.t;
  cert_full_name_snapshot : string;
  cert_gender_snapshot : string;
  cert_national_code_snapshot : string;
  cert_course_title_snapshot : string;
  cert_instructor_name_snapshot : string;
  cert_score_out_of_20 : Z;
  cert_issued_at : Z;
  cert_revoked_at : option Z;
  cert_revoked_by : option Z;
  cert_revocation_reason : string;
  cert_pdf_file : option string;
  cert_is_active : bool;
  cert_created_at : Z;
  cert_updated_at : Z;
}.

#[export] Instance eta_Certificate : Eta Certificate := fun x => mkCertificate
  (cert_id x) (cert_user x) (cert_course x) (cert_enrollment x)
  (cert_quiz_attempt x) (cert_certificate_code x)
  (cert_verification_slug x) (cert_status x) (cert_full_name_snapshot x)
  (cert_gender_snapshot x) (cert_national_code_snapshot x)
  (cert_course_title_snapshot x) (cert_instructor_name_snapshot x)
  (cert_score_out_of_20 x) (cert_issued_at x) (cert_revoked_at x)
  (cert_revoked_by x) (cert_revocation_reason x) (cert_pdf_file x)
  (cert_is_active x) (cert_created_at x) (cert_updated_at x).

(** LMSUserSkill: the skill a certificate grants. *)
Record LMSUserSkill : Type := mkSkill {
  skl_id : Z;
  skl_user : Z;
  skl_course : Z;
  skl_certificate : Z;
  skl_title : string;
  skl_slug : string;
  skl_badge_level : BadgeLevel.t;
  skl_issued_at : Z;
  skl_is_active : bool;
  skl_created_at : Z;
  skl_updated_at : Z;
}.

#[export] Instance eta_LMSUserSkill : Eta LMSUserSkill := fun x => mkSkill
  (skl_id x) (skl_user x) (skl_course x) (skl_certificate x) (skl_title x)
  (skl_slug x) (skl_badge_level x) (skl_issued_at x) (skl_is_active x)
  (skl_created_at x) (skl_updated_at x).

(** LearningActivityStatement: an entry of the append-only activity record. *)
Record LearningActivityStatement : Type := mkStatement {
  stm_id : Z;
  stm_statement_id : string;
  stm_idempotency_key : option string;
  stm_actor : Z;
  stm_course : Z;
  stm_lesson : option Z;
  stm_enrollment : option Z;
  stm_quiz_attempt : option Z;
  stm_certificate : option Z;
  stm_verb : LearningStatementVerb.t;
  stm_object_type : string;
  stm_object_id : string;
  stm_actor_snapshot : json;
  stm_object_snapshot : json;
  stm_result : json;
  stm_context : json;
  stm_occurred_at : Z;
  stm_is_active : bool;
  stm_created_at : Z;
  stm_updated_at : Z;
}.

#[export] Instance eta_LearningActivityStatement : Eta LearningActivityStatement := fun x => mkStatement
  (stm_id x) (stm_statement_id x) (stm_idempotency_key x) (stm_actor x)
  (stm_course x) (stm_lesson x) (stm_enrollment x) (stm_quiz_attempt x)
  (stm_certificate x) (stm_verb x) (stm_object_type x) (stm_object_id x)
  (stm_actor_snapshot x) (stm_object_snapshot x) (stm_result x)
  (stm_context x) (stm_occurred_at x) (stm_is_active x) (stm_created_at x)
  (stm_updated_at x).

(** * Constraints *)

(** A decimal column of [digits] digits, two of them after the point. *)
Definition decimal_column (digits : Z) (z : Z) : bool := Z.abs z <? 10 ^ digits.

Definition category_row_ok (others : gmap Z LMSCategory) (x : LMSCategory) : bool :=
  max_length 150 (cat_title x) && max_length 180 (cat_slug x) && max_length 80 (cat_icon x) &&
  positive_integer (cat_order x) &&
  unique_among (fun y => str_eqb (cat_title y) (cat_title x)) others &&
  unique_among (fun y => str_eqb (cat_slug y) (cat_slug x)) others.

Definition course_row_ok (others : gmap Z Course) (x : Course) : bool :=
  max_length 255 (crs_title x) && max_length 300 (crs_slug x) && max_length 300 (crs_subtitle x) &&
  max_length 500 (crs_short_description x) && max_length 180 (crs_instructor_name x) &&
  max_length 30 (crs_language x) && max_length 1024 (crs_intro_video_url x) &&
  positive_integer (crs_estimated_duration_seconds x) && positive_integer (crs_lessons_count x) &&
  positive_integer (crs_enrollments_count x) && positive_integer (crs_graduates_count x) &&
  decimal_column 3 (crs_average_rating x) &&
  unique_among (fun y => str_eqb (crs_slug y) (crs_slug x)) others.

Definition lesson_row_ok (others : gmap Z Lesson) (x : Lesson) : bool :=
  max_length 255 (les_title x) && max_length 300 (les_slug x) && positive_integer (les_order x) &&
  max_length 255 (les_document_title x) && max_length 1024 (les_video_url x) &&
  max_length 1024 (les_embed_url x) && positive_integer (les_duration_seconds x) &&
  max_length 255 (les_attachment_title x) &&
  unique_among (fun y => (les_course y =? les_course x) && (les_order y =? les_order x)) others &&
  unique_among (fun y => (les_course y =? les_course x) && str_eqb (les_slug y) (les_slug x)) others.

Definition enrollment_row_ok (others : gmap Z Enrollment) (x : Enrollment) : bool :=
  decimal_column 5 (enr_progress_percent x) && positive_integer (enr_watched_seconds x) &&
  positive_integer (enr_total_seconds_snapshot x) &&
  unique_among (fun y => (enr_course y =? enr_course x) && (enr_user y =? enr_user x)) others.

Definition lesson_progress_row_ok (others : gmap Z LessonProgress) (x : LessonProgress) : bool :=
  positive_integer (lp_watched_seconds x) && positive_integer (lp_duration_seconds_snapshot x) &&
  decimal_column 5 (lp_progress_percent x) && positive_integer (lp_last_position_seconds x) &&
  unique_among (fun y => (lp_enrollment y =? lp_enrollment x) && (lp_lesson y =? lp_lesson x)) others.

Definition quiz_row_ok (others : gmap Z Quiz) (x : Quiz) : bool :=
  max_length 255 (qz_title x) && positive_integer (qz_time_limit_minutes x) &&
  decimal_column 4 (qz_passing_score x) && positive_small_integer (qz_max_attempts x) &&
  positive_small_integer (qz_retake_delay_days x) &&
  unique_among (fun y => qz_course y =? qz_course x) others.

Definition quiz_question_row_ok (others : gmap Z QuizQuestion) (x : QuizQuestion) : bool :=
  positive_integer (qq_order x) && decimal_column 6 (qq_weight x) &&
  unique_among (fun y => (qq_quiz y =? qq_quiz x) && (qq_order y =? qq_order x)) others.

Definition quiz_option_row_ok (others : gmap Z QuizOption) (x : QuizOption) : bool :=
  max_length 500 (qo_text x) && positive_integer (qo_order x) &&
  unique_among (fun y => (qo_question y =? qo_question x) && (qo_order y =? qo_order x)) others.

Definition quiz_attempt_row_ok (others : gmap Z QuizAttempt) (x : QuizAttempt) : bool :=
  positive_small_integer (qa_attempt_number x) && decimal_column 8 (qa_score_raw x) &&
  decimal_column 5 (qa_score_percent x) && decimal_column 4 (qa_score_out_of_20 x) &&
  max_length 255 (qa_locked_reason x) &&
  unique_among (fun y => (qa_quiz y =? qa_quiz x) && (qa_user y =? qa_user x) &&
                         (qa_attempt_number y =? qa_attempt_number x)) others.

Definition quiz_answer_row_ok (others : gmap Z QuizAnswer) (x : QuizAnswer) : bool :=
  decimal_column 6 (qn_weight x) && decimal_column 6 (qn_score_awarded x) &&
  unique_among (fun y => (qn_attempt y =? qn_attempt x) && (qn_question y =? qn_question x)) others.

Definition quiz_unlock_row_ok (others : gmap Z QuizUnlock) (x : QuizUnlock) : bool :=
  positive_small_integer (qu_extra_attempts x).

Definition certificate_row_ok (others : gmap Z Certificate) (x : Certificate) : bool :=
  max_length 40 (cert_certificate_code x) && max_length 80 (cert_verification_slug x) &&
  max_length 255 (cert_full_name_snapshot x) && max_length 20 (cert_gender_snapshot x) &&
  max_length 20 (cert_national_code_snapshot x) && max_length 255 (cert_course_title_snapshot x) &&
  max_length 180 (cert_instructor_name_snapshot x) && decimal_column 4 (cert_score_out_of_20 x) &&
  unique_among (fun y => str_eqb (cert_certificate_code y) (cert_certificate_code x)) others &&
  unique_among (fun y => str_eqb (cert_verification_slug y) (cert_verification_slug x)) others &&
  unique_among (fun y => cert_enrollment y =? cert_enrollment x) others &&
  unique_among (fun y => cert_quiz_attempt y =? cert_quiz_attempt x) others &&
  unique_among (fun y => (cert_user y =? cert_user x) && (cert_course y =? cert_course x)) others.

Definition user_skill_row_ok (others : gmap Z LMSUserSkill) (x : LMSUserSkill) : bool :=
  max_length 255 (skl_title x) && max_length 300 (skl_slug x) &&
  unique_among (fun y => skl_certificate y =? skl_certificate x) others &&
  unique_among (fun y => (skl_user y =? skl_user x) && (skl_course y =? skl_course x)) others.

Definition statement_row_ok (others : gmap Z LearningActivityStatement)
    (x : LearningActivityStatement) : bool :=
  opt_ok (max_length 180) (stm_idempotency_key x) && max_length 40 (stm_object_type x) &&
  max_length 80 (stm_object_id x) &&
  unique_among (fun y => str_eqb (stm_statement_id y) (stm_statement_id x)) others &&
  unique_among (fun y => bool_decide (is_Some (stm_idempotency_key x)) &&
                         bool_decide (stm_idempotency_key y = stm_idempotency_key x)) others.

(** * The database *)

(** Columns of the user and of its profile that only this application reads. *)
Record Learner : Type := mkLearner {
  lr_is_staff : bool;
  lr_is_superuser : bool;
  lr_profile : option (string * string);
}.

Record LmsDB : Type := mkLmsDB {
  lms_categories : Table LMSCategory;
  courses : Table Course;
  lessons : Table Lesson;
  enrollments : Table Enrollment;
  lesson_progress : Table LessonProgress;
  quizzes : Table Quiz;
  quiz_questions : Table QuizQuestion;
  quiz_options : Table QuizOption;
  quiz_attempts : Table QuizAttempt;
  quiz_answers : Table QuizAnswer;
  quiz_unlocks : Table QuizUnlock;
  certificates : Table Certificate;
  user_skills : Table LMSUserSkill;
  activity_statements : Table LearningActivityStatement;
  learners : gmap Z Learner;
  site : DB;
}.

#[export] Instance eta_LmsDB : Eta LmsDB := fun x => mkLmsDB
  (lms_categories x) (courses x) (lessons x) (enrollments x)
  (lesson_progress x) (quizzes x) (quiz_questions x) (quiz_options x)
  (quiz_attempts x) (quiz_answers x) (quiz_unlocks x) (certificates x)
  (user_skills x) (activity_statements x) (learners x) (site x).

#[export] Instance LMSCategory_model : Model LmsDB LMSCategory := {
  table_of db := lms_categories db;
  with_table t db := db <| lms_categories := t |>;
  pk := cat_id;
  is_active _ := true;
  created_at := cat_created_at;
  row_ok := category_row_ok;
}.

#[export] Instance LMSCategory_laws : ModelLaws LmsDB LMSCategory.
Proof. split; reflexivity. Qed.

#[export] Instance Course_model : Model LmsDB Course := {
  table_of db := courses db;
  with_table t db := db <| courses := t |>;
  pk := crs_id;
  is_active _ := true;
  created_at := crs_created_at;
  row_ok := course_row_ok;
}.

#[export] Instance Course_laws : ModelLaws LmsDB Course.
Proof. split; reflexivity. Qed.

#[export] Instance Lesson_model : Model LmsDB Lesson := {
  table_of db := lessons db;
  with_table t db := db <| lessons := t |>;
  pk := les_id;
  is_active _ := true;
  created_at := les_created_at;
  row_ok := lesson_row_ok;
}.

#[export] Instance Lesson_laws : ModelLaws LmsDB Lesson.
Proof. split; reflexivity. Qed.

#[export] Instance Enrollment_model : Model LmsDB Enrollment := {
  table_of db := enrollments db;
  with_table t db := db <| enrollments := t |>;
  pk := enr_id;
  is_active := enr_is_active;
  created_at := enr_created_at;
  row_ok := enrollment_row_ok;
}.

#[export] Instance Enrollment_laws : ModelLaws LmsDB Enrollment.
Proof. split; reflexivity. Qed.

#[export] Instance LessonProgress_model : Model LmsDB LessonProgress := {
  table_of db := lesson_progress db;
  with_table t db := db <| lesson_progress := t |>;
  pk := lp_id;
  is_active := lp_is_active;
  created_at := lp_created_at;
  row_ok := lesson_progress_row_ok;
}.

#[export] Instance LessonProgress_laws : ModelLaws LmsDB LessonProgress.
Proof. split; reflexivity. Qed.

#[export] Instance Quiz_model : Model LmsDB Quiz := {
  table_of db := quizzes db;
  with_table t db := db <| quizzes := t |>;
  pk := qz_id;
  is_active := qz_is_active;
  created_at := qz_created_at;
  row_ok := quiz_row_ok;
}.

#[export] Instance Quiz_laws : ModelLaws LmsDB Quiz.
Proof. split; reflexivity. Qed.

#[export] Instance QuizQuestion_model : Model LmsDB QuizQuestion := {
  table_of db := quiz_questions db;
  with_table t db := db <| quiz_questions := t |>;
  pk := qq_id;
  is_active := qq_is_active;
  created_at := qq_created_at;
  row_ok := quiz_question_row_ok;
}.

#[export] Instance QuizQuestion_laws : ModelLaws LmsDB QuizQuestion.
Proof. split; reflexivity. Qed.

#[export] Instance QuizOption_model : Model LmsDB QuizOption := {
  table_of db := quiz_options db;
  with_table t db := db <| quiz_options := t |>;
  pk := qo_id;
  is_active := qo_is_active;
  created_at := qo_created_at;
  row_ok := quiz_option_row_ok;
}.

#[export] Instance QuizOption_laws : ModelLaws LmsDB QuizOption.
Proof. split; reflexivity. Qed.

#[export] Instance QuizAttempt_model : Model LmsDB QuizAttempt := {
  table_of db := quiz_attempts db;
  with_table t db := db <| quiz_attempts := t |>;
  pk := qa_id;
  is_active := qa_is_active;
  created_at := qa_created_at;
  row_ok := quiz_attempt_row_ok;
}.

#[export] Instance QuizAttempt_laws : ModelLaws LmsDB QuizAttempt.
Proof. split; reflexivity. Qed.

#[export] Instance QuizAnswer_model : Model LmsDB QuizAnswer := {
  table_of db := quiz_answers db;
  with_table t db := db <| quiz_answers := t |>;
  pk := qn_id;
  is_active := qn_is_active;
  created_at := qn_created_at;
  row_ok := quiz_answer_row_ok;
}.

#[export] Instance QuizAnswer_laws : ModelLaws LmsDB QuizAnswer.
Proof. split; reflexivity. Qed.

#[export] Instance QuizUnlock_model : Model LmsDB QuizUnlock := {
  table_of db := quiz_unlocks db;
  with_table t db := db <| quiz_unlocks := t |>;
  pk := qu_id;
  is_active := qu_is_active;
  created_at := qu_created_at;
  row_ok := quiz_unlock_row_ok;
}.

#[export] Instance QuizUnlock_laws : ModelLaws LmsDB QuizUnlock.
Proof. split; reflexivity. Qed.

#[export] Instance Certificate_model : Model LmsDB Certificate := {
  table_of db := certificates db;
  with_table t db := db <| certificates := t |>;
  pk := cert_id;
  is_active := cert_is_active;
  created_at := cert_created_at;
  row_ok := certificate_row_ok;
}.

#[export] Instance Certificate_laws : ModelLaws LmsDB Certificate.
Proof. split; reflexivity. Qed.

#[export] Instance LMSUserSkill_model : Model LmsDB LMSUserSkill := {
  table_of db := user_skills db;
  with_table t db := db <| user_skills := t |>;
  pk := skl_id;
  is_active := skl_is_active;
  created_at := skl_created_at;
  row_ok := user_skill_row_ok;
}.

#[export] Instance LMSUserSkill_laws : ModelLaws LmsDB LMSUserSkill.
Proof. split; reflexivity. Qed.

#[export] Instance LearningActivityStatement_model : Model LmsDB LearningActivityStatement := {
  table_of db := activity_statements db;
  with_table t db := db <| activity_statements := t |>;
  pk := stm_id;
  is_active := stm_is_active;
  created_at := stm_created_at;
  row_ok := statement_row_ok;
}.

#[export] Instance LearningActivityStatement_laws : ModelLaws LmsDB LearningActivityStatement.
Proof. split; reflexivity. Qed.

(** * The environment and the exceptions *)

(** [lenv_shuffle]: the permutation [random.shuffle] makes, of the questions
    ([None]) or of the options of a question; [lenv_uuid4] and
    [lenv_uuid4_hex]: the UUIDs drawn for the row that gets a key;
    [lenv_build_pdf]: whether the PDF of a certificate could be built and
    stored, and its name. *)
Record LmsEnv : Type := mkLmsEnv {
  lenv_site : Env;
  lenv_shuffle : option Z -> list Z -> list Z;
  lenv_uuid4 : Z -> string;
  lenv_uuid4_hex : Z -> string;
  lenv_build_pdf : Certificate -> option string;
}.

#[export] Instance eta_LmsEnv : Eta LmsEnv := fun x => mkLmsEnv
  (lenv_site x) (lenv_shuffle x) (lenv_uuid4 x) (lenv_uuid4_hex x) (lenv_build_pdf x).

#[export] Instance lms_clock : Clock LmsEnv := fun env => env_now (lenv_site env).

Inductive quiz_lock : Type := attempt_passed | attempts_used_up | retake_delay.

Inductive quiz_defect : Type := no_questions | too_few_options | not_one_correct_option.

Inductive submission_error : Type :=
| attempt_not_open
| attempt_time_over
| answers_incomplete
| option_not_allowed.

Inductive lms_exc : Type :=
| LmsDoesNotExist
| LmsIntegrityError
| LmsDatabaseError
| LmsPermissionError
| LmsKeyError
| LmsTypeError
| LMSProfileIncompleteError
| CourseNotEnrollableError
| CourseInvalidStateError (broken : list string)
| EnrollmentNotActiveError
| LessonNotInEnrollmentCourseError
| LessonCompletionModeError
| LessonMediaEngagementRequiredError
| LessonSequenceLockedError (title : string)
| QuizNotAvailableError
| QuizValidationError (defect : quiz_defect)
| QuizAttemptLockedError (lock : quiz_lock)
| QuizNotReadyError (remaining : Z)
| QuizAttemptSubmissionError (e : submission_error)
| CertificateIssueError
| SiteError (e : exc).

#[export] Instance lms_orm : OrmError lms_exc := {
  does_not_exist := LmsDoesNotExist;
  integrity_error := LmsIntegrityError;
  database_error := LmsDatabaseError;
}.

Abbreviation LM := (comp LmsEnv LmsDB lms_exc).

#[export] Instance lms_app : App LmsEnv LmsDB lms_exc := {
  app_env := lenv_site;
  app_site := site;
  with_site s db := db <| site := s |>;
  app_exc := SiteError;
}.
