(* ===== verification/LmsSample.v ===== *)
(** A concrete class for the examples and witnesses of the learning platform:
    a published course with a video of 100 seconds, an article and a document,
    a quiz of two questions that is passed with 14 of 20, and a learner with a
    complete profile. *)

From S2P Require Import Prelude Python Choices Orm Models NotificationModels World Sample.
From S2P Require Import LmsModels.

Definition lms_env_at (now : Z) : LmsEnv :=
  mkLmsEnv (env_at now default_settings (fun _ _ _ => HttpTimeout)) (fun _ l => rev l)
    (fun i => ("uuid-" +:+ pretty i)%string) (fun i => ("hex-" +:+ pretty i)%string)
    (fun _ => Some "certificate.pdf"%string).

Definition lms_env : LmsEnv := lms_env_at sample_now.

Definition sample_category : LMSCategory :=
  mkCategory 1 "Crafts" "crafts" EmptyString EmptyString None 0 true 0 0.

Definition sample_course : Course :=
  mkCourse 1 1 "Weaving" "weaving" EmptyString EmptyString "Weaving by hand" None "Maryam"
    EmptyString None CourseLevel.BEGINNER CourseStatus.PUBLISHED "fa" false EmptyString
    100 3 0 0 0 (Some 0) None true 0 0.

Definition sample_lesson (i order duration : Z) (c : LessonContentType.t) : Lesson :=
  mkLesson i 1 ("Lesson " +:+ pretty i)%string ("lesson-" +:+ pretty i)%string EmptyString order c
    (Some "lesson.pdf"%string) EmptyString "text" VideoProvider.HYBRID "https://video" EmptyString
    None duration EmptyString EmptyString EmptyString None EmptyString false None true 0 0.

Definition sample_lessons : Table Lesson :=
  mkTable (list_to_map [(1, sample_lesson 1 1 100 LessonContentType.VIDEO);
                        (2, sample_lesson 2 2 0 LessonContentType.ARTICLE);
                        (3, sample_lesson 3 3 0 LessonContentType.DOCUMENT)]) 4.

Definition sample_quiz : Quiz :=
  mkQuiz 1 1 "Weaving quiz" EmptyString QuizStatus.PUBLISHED 30 1400 2 3 true true true true true
    (Some 0) true 0 0.

Definition sample_question (i weight : Z) : QuizQuestion :=
  mkQuizQuestion i 1 "question" EmptyString i weight true 0 0.

Definition sample_option (i question : Z) (correct : bool) : QuizOption :=
  mkQuizOption i question "option" correct i true 0 0.

Definition sample_lms : LmsDB :=
  mkLmsDB (one_row sample_category) (one_row sample_course) sample_lessons
    no_rows no_rows (one_row sample_quiz)
    (mkTable (list_to_map [(1, sample_question 1 100); (2, sample_question 2 300)]) 3)
    (mkTable (list_to_map [(1, sample_option 1 1 true); (2, sample_option 2 1 false);
                           (3, sample_option 3 2 false); (4, sample_option 4 2 true)]) 5)
    no_rows no_rows no_rows no_rows no_rows no_rows
    {[ 1 := mkLearner false false (Some ("0012345678", "male")%string) ]} empty_db.
