(* ===== verification/Learning.v ===== *)
(** Courses, enrollments and lesson progress: the first half of
    [src/apps/lms/services.py].

    The managers of categories, courses and lessons do not filter on
    [is_active]; their [Model] instances say that every row is visible, and the
    services filter where the code does.  An update of admin fields is a list of
    the fields that were given; a name outside the allowed set has no
    constructor, as the code ignores it. *)

From S2P Require Import Prelude Python Choices Orm Models NotificationModels World.
From S2P Require Import Apps Sample Decimal LmsModels LmsSample.
From Stdlib Require Import QArith_base.
#[local] Open Scope Z_scope.

(** * Slugs *)

(** The candidate with a suffix; [max_length] leaves room for it. *)
Definition suffixed (base : string) (max_length : nat) (suffix : Z) : string :=
  let suffix_text := ("-" +:+ pretty suffix)%string in
  (py_prefix (max_length - String.length suffix_text) base +:+ suffix_text)%string.

(** [_generate_unique_slug] *)
Definition generate_unique_slug (slugify : string -> string) (taken : string -> bool)
    (base_value : string) (max_length fuel : nat) : option string :=
  let base := str_or (py_prefix max_length (slugify base_value)) "item" in
  first_free taken (suffixed base max_length) fuel base 2.

(** The fuel is above the number of rows, which is enough ([unique_slug_found]). *)
Definition unique_slug {A} `{Model LmsDB A} (slug_of : A -> string) (db : LmsDB)
    (slugify : string -> string) (base_value : string) (max_length : nat) : option string :=
  generate_unique_slug slugify
    (fun s => qs_exists (objects_filter (fun x : A => str_eqb (slug_of x) s) db))
    base_value max_length (S (size (rows_of (A := A) db))).

(** * Counters *)

Definition active_lessons (course : Z) (db : LmsDB) : gmap Z Lesson :=
  objects_filter (fun x => (les_course x =? course) && les_is_active x) db.

Definition enrollments_in (course : Z) (status : EnrollmentStatus.t) (db : LmsDB) :
    gmap Z Enrollment :=
  objects_filter (fun x => (enr_course x =? course) && bool_decide (enr_status x = status)) db.

Definition sync_course_counters (course : Z) : LM unit :=
  atomic
    (now ← timezone_now;
     ls ← query (active_lessons course);
     enrolled ← query (fun db => qs_count (enrollments_in course EnrollmentStatus.ACTIVE db));
     graduates ← query (fun db => qs_count (enrollments_in course EnrollmentStatus.COMPLETED db));
     update_row course (fun c => c
       <| crs_estimated_duration_seconds := qs_sum les_duration_seconds ls |>
       <| crs_lessons_count := qs_count ls |>
       <| crs_enrollments_count := enrolled |>
       <| crs_graduates_count := graduates |>
       <| crs_updated_at := now |>)).

(** * Categories and courses *)

Inductive category_field : Type :=
| category_title (s : string)
| category_description (s : string)
| category_icon (s : string)
| category_cover_image (s : option string)
| category_order (z : Z)
| category_is_active (b : bool).

Definition set_category_field (f : category_field) (x : LMSCategory) : LMSCategory :=
  match f with
  | category_title s => x <| cat_title := s |>
  | category_description s => x <| cat_description := s |>
  | category_icon s => x <| cat_icon := s |>
  | category_cover_image s => x <| cat_cover_image := s |>
  | category_order z => x <| cat_order := z |>
  | category_is_active b => x <| cat_is_active := b |>
  end.

Definition set_fields {F A} (set : F -> A -> A) (fields : list F) (x : A) : A :=
  fold_left (fun x f => set f x) fields x.

(** [super().save()] follows a slug found by [unique_slug], so [None] stands for
    a loop that does not end; it does not occur ([unique_slug_found]). *)
Definition create_category (title description icon : string) (order : Z) : LM LMSCategory :=
  atomic
    (env ← ask;
     slug ← query (fun db => unique_slug cat_slug db (env_slugify (lenv_site env)) title 180);
     create (fun i now => mkCategory i title (default EmptyString slug) description icon
                            None order true now now)).

Definition update_category (category : Z) (fields : list category_field) : LM unit :=
  atomic
    (now ← timezone_now;
     match fields with
     | [] => mret tt
     | _ => update_row category (fun x =>
              set_fields set_category_field fields x <| cat_updated_at := now |>)
     end).

(** [delete_category], [delete_course] and the first step of [delete_lesson]
    are [BaseModel.soft_delete]. *)
Definition delete_category (category : Z) : LM unit :=
  atomic
    (now ← timezone_now;
     update_row category (fun x : LMSCategory => x <| cat_is_active := false |>
                                                    <| cat_updated_at := now |>)).

Inductive course_field : Type :=
| course_category (z : Z)
| course_title (s : string)
| course_subtitle (s : string)
| course_short_description (s : string)
| course_description (s : string)
| course_cover_image (s : option string)
| course_instructor_name (s : string)
| course_instructor_bio (s : string)
| course_instructor_avatar (s : option string)
| course_level (l : CourseLevel.t)
| course_language (s : string)
| course_is_featured (b : bool)
| course_intro_video_url (s : string)
| course_is_active (b : bool).

Definition set_course_field (f : course_field) (x : Course) : Course :=
  match f with
  | course_category z => x <| crs_category := z |>
  | course_title s => x <| crs_title := s |>
  | course_subtitle s => x <| crs_subtitle := s |>
  | course_short_description s => x <| crs_short_description := s |>
  | course_description s => x <| crs_description := s |>
  | course_cover_image s => x <| crs_cover_image := s |>
  | course_instructor_name s => x <| crs_instructor_name := s |>
  | course_instructor_bio s => x <| crs_instructor_bio := s |>
  | course_instructor_avatar s => x <| crs_instructor_avatar := s |>
  | course_level l => x <| crs_level := l |>
  | course_language s => x <| crs_language := s |>
  | course_is_featured b => x <| crs_is_featured := b |>
  | course_intro_video_url s => x <| crs_intro_video_url := s |>
  | course_is_active b => x <| crs_is_active := b |>
  end.

(** A new [Course(category=...)], the columns at their defaults. *)
Definition new_course (i category now : Z) : Course :=
  mkCourse i category EmptyString EmptyString EmptyString EmptyString EmptyString None
    EmptyString EmptyString None CourseLevel.BEGINNER CourseStatus.DRAFT "fa" false
    EmptyString 0 0 0 0 0 None None true now now.

Definition create_course (category : Z) (fields : list course_field) : LM Course :=
  atomic
    (env ← ask;
     let title := crs_title (set_fields set_course_field fields (new_course 0 category 0)) in
     slug ← query (fun db => unique_slug crs_slug db (env_slugify (lenv_site env)) title 300);
     course ← create (fun i now => set_fields set_course_field fields (new_course i category now)
                                     <| crs_slug := default EmptyString slug |>);
     _ ← sync_course_counters (crs_id course);
     base_get (crs_id course)).

Definition update_course (course : Z) (fields : list course_field) : LM unit :=
  atomic
    (now ← timezone_now;
     match fields with
     | [] => mret tt
     | _ => update_row course (fun x =>
              set_fields set_course_field fields x <| crs_updated_at := now |>)
     end).

(** A file column is falsy when it is null or empty. *)
Definition has_file (f : option string) : bool := str_true (default EmptyString f).

(** [schedule_document_render]: the keys of the lessons whose rendering is
    queued after the commit; the queue lets no exception out. *)
Definition schedule_document_render (x : Lesson) : list Z :=
  if negb (bool_decide (les_content_type x = LessonContentType.DOCUMENT)) ||
     negb (has_file (les_document_file x))
  then [] else [les_id x].

Definition has_required_content (x : Lesson) : bool :=
  match les_content_type x with
  | LessonContentType.DOCUMENT => has_file (les_document_file x)
  | LessonContentType.ARTICLE => str_true (py_strip (les_article_body x))
  | _ => has_file (les_video_file x) || str_true (les_video_url x) || str_true (les_embed_url x)
  end.

(** [order_by("order", "id")] *)
Definition lesson_le (x y : Lesson) : bool :=
  (les_order x <? les_order y) || (les_order x =? les_order y) && (les_id x <=? les_id y).

(** The titles stand for the lines of the message. *)
Definition validate_course_publishable (course : Z) : LM unit :=
  ls ← query (active_lessons course);
  let broken := map les_title
    (List.filter (fun x => negb (has_required_content x)) (ordered_by lesson_le (qs_list ls))) in
  raise_if (negb (bool_decide (broken = []))) (CourseInvalidStateError broken).

Definition publish_course (course : Z) : LM (list Z) :=
  atomic
    (c ← base_get (A := Course) course;
     _ ← validate_course_publishable course;
     now ← timezone_now;
     if bool_decide (crs_status c = CourseStatus.PUBLISHED) then mret []
     else
       _ ← update_row course (fun x => x <| crs_status := CourseStatus.PUBLISHED |>
                                         <| crs_published_at := Some now |>
                                         <| crs_archived_at := None |>
                                         <| crs_updated_at := now |>);
       ls ← query (active_lessons course);
       mret (ordered_by lesson_le (qs_list ls) ≫= schedule_document_render)).

Definition archive_course (course : Z) : LM unit :=
  atomic
    (c ← base_get (A := Course) course;
     now ← timezone_now;
     if bool_decide (crs_status c = CourseStatus.ARCHIVED) then mret tt
     else update_row course (fun x => x <| crs_status := CourseStatus.ARCHIVED |>
                                        <| crs_archived_at := Some now |>
                                        <| crs_updated_at := now |>)).

Definition delete_course (course : Z) : LM unit :=
  atomic
    (now ← timezone_now;
     update_row course (fun x : Course => x <| crs_is_active := false |>
                                            <| crs_updated_at := now |>)).

(** * Lessons *)

Inductive lesson_field : Type :=
| lesson_title (s : string)
| lesson_description (s : string)
| lesson_order (z : Z)
| lesson_content_type (c : LessonContentType.t)
| lesson_document_file (f : option string)
| lesson_document_title (s : string)
| lesson_article_body (s : string)
| lesson_video_provider (v : VideoProvider.t)
| lesson_video_url (s : string)
| lesson_embed_url (s : string)
| lesson_video_file (f : option string)
| lesson_duration_seconds (z : Z)
| lesson_transcript (s : string)
| lesson_summary (s : string)
| lesson_homework (s : string)
| lesson_attachment_file (f : option string)
| lesson_attachment_title (s : string)
| lesson_is_preview (b : bool)
| lesson_is_active (b : bool)
| lesson_published_at (t : option Z).

Definition set_lesson_field (f : lesson_field) (x : Lesson) : Lesson :=
  match f with
  | lesson_title s => x <| les_title := s |>
  | lesson_description s => x <| les_description := s |>
  | lesson_order z => x <| les_order := z |>
  | lesson_content_type c => x <| les_content_type := c |>
  | lesson_document_file f => x <| les_document_file := f |>
  | lesson_document_title s => x <| les_document_title := s |>
  | lesson_article_body s => x <| les_article_body := s |>
  | lesson_video_provider v => x <| les_video_provider := v |>
  | lesson_video_url s => x <| les_video_url := s |>
  | lesson_embed_url s => x <| les_embed_url := s |>
  | lesson_video_file f => x <| les_video_file := f |>
  | lesson_duration_seconds z => x <| les_duration_seconds := z |>
  | lesson_transcript s => x <| les_transcript := s |>
  | lesson_summary s => x <| les_summary := s |>
  | lesson_homework s => x <| les_homework := s |>
  | lesson_attachment_file f => x <| les_attachment_file := f |>
  | lesson_attachment_title s => x <| les_attachment_title := s |>
  | lesson_is_preview b => x <| les_is_preview := b |>
  | lesson_is_active b => x <| les_is_active := b |>
  | lesson_published_at t => x <| les_published_at := t |>
  end.

(** A new [Lesson(course=...)], the columns at their defaults. *)
Definition new_lesson (i course now : Z) : Lesson :=
  mkLesson i course EmptyString EmptyString EmptyString 1 LessonContentType.VIDEO None
    EmptyString EmptyString VideoProvider.HYBRID EmptyString EmptyString None 0 EmptyString
    EmptyString EmptyString None EmptyString false None true now now.

(** The slug of [Lesson.save]. *)
Definition lesson_slug (slugify : string -> string) (x : Lesson) : string :=
  str_or (py_prefix 300 (slugify (les_title x))) ("lesson-" +:+ pretty (les_order x))%string.

Definition create_lesson (course : Z) (fields : list lesson_field) : LM Lesson :=
  atomic
    (env ← ask;
     lesson ← create (fun i now =>
       let x := set_fields set_lesson_field fields (new_lesson i course now) in
       x <| les_slug := lesson_slug (env_slugify (lenv_site env)) x |>);
     _ ← sync_course_counters course;
     mret lesson).

Definition changes_counters (f : lesson_field) : bool :=
  match f with lesson_duration_seconds _ | lesson_is_active _ => true | _ => false end.

Definition changes_document (f : lesson_field) : bool :=
  match f with lesson_document_file _ | lesson_content_type _ => true | _ => false end.

(** The result lists the lessons whose rendering is queued. *)
Definition update_lesson (lesson : Z) (fields : list lesson_field) : LM (list Z) :=
  atomic
    (now ← timezone_now;
     match fields with
     | [] => mret []
     | _ =>
         _ ← update_row lesson (fun x =>
               set_fields set_lesson_field fields x <| les_updated_at := now |>);
         x ← base_get (A := Lesson) lesson;
         _ ← (if existsb changes_counters fields then sync_course_counters (les_course x)
              else mret tt);
         mret (if existsb changes_document fields then schedule_document_render x else [])
     end).

Definition delete_lesson (lesson : Z) : LM unit :=
  atomic
    (x ← base_get (A := Lesson) lesson;
     now ← timezone_now;
     _ ← update_row lesson (fun x : Lesson => x <| les_is_active := false |>
                                                <| les_updated_at := now |>);
     sync_course_counters (les_course x)).

(** * Enrollments *)

Definition learner_of (user : Z) (db : LmsDB) : Learner :=
  default (mkLearner false false None) (learners db !! user).

(** The first and the last name, blank for a user without a row. *)
Definition user_names (user : Z) (db : LmsDB) : string * string :=
  match users (site db) !! user with
  | Some u => (usr_first_name u, usr_last_name u)
  | None => (EmptyString, EmptyString)
  end.

Definition profile_complete (user : Z) (db : LmsDB) : bool :=
  str_true (py_strip (user_names user db).1) && str_true (py_strip (user_names user db).2) &&
  match lr_profile (learner_of user db) with
  | Some (national_code, _) => str_true (py_strip national_code)
  | None => false
  end.

Definition ensure_user_can_enroll (user : Z) : LM unit :=
  complete ← query (profile_complete user);
  raise_if (negb complete) LMSProfileIncompleteError.

Definition is_published (c : Course) : bool :=
  crs_is_active c && bool_decide (crs_status c = CourseStatus.PUBLISHED).

(** The enrollment a registration creates. *)
Definition new_enrollment (user course duration i now : Z) : Enrollment :=
  mkEnrollment i course user EnrollmentStatus.ACTIVE now None None 0 0 duration true now now.

Definition enroll_user_in_course (user course : Z) : LM (Enrollment * bool) :=
  atomic
    (_ ← ensure_user_can_enroll user;
     c ← base_get (A := Course) course;
     _ ← raise_if (negb (is_published c)) CourseNotEnrollableError;
     found ← get_or_create (A := Enrollment) (fun e => (enr_user e =? user) && (enr_course e =? course))
            (new_enrollment user course (crs_estimated_duration_seconds c));
     _ ← (if (found : Enrollment * bool).2 then sync_course_counters course else mret tt);
     mret found).

(** * Activity statements *)

(** The statement a service records; [sr_object_id] is [str(object_id)]. *)
Record statement_request : Type := mkStatementRequest {
  sr_actor : Z;
  sr_course : Course;
  sr_lesson : option Lesson;
  sr_enrollment : option Z;
  sr_quiz_attempt : option Z;
  sr_certificate : option Z;
  sr_verb : LearningStatementVerb.t;
  sr_object_type : string;
  sr_object_id : string;
  sr_result : list (string * json);
  sr_context : list (string * json);
  sr_idempotency_key : option string;
}.

Definition statement_with_key (key : option string) (db : LmsDB) :
    option LearningActivityStatement :=
  match key with
  | Some k => if str_true k
              then qs_first (objects_filter (fun s => bool_decide (stm_idempotency_key s = key)) db)
              else None
  | None => None
  end.

Definition statement_row (uuid : string) (actor : option User) (r : statement_request)
    (i now : Z) : LearningActivityStatement :=
  mkStatement i uuid (sr_idempotency_key r) (sr_actor r) (crs_id (sr_course r))
    (les_id <$> sr_lesson r) (sr_enrollment r) (sr_quiz_attempt r) (sr_certificate r)
    (sr_verb r) (sr_object_type r) (sr_object_id r)
    (JObj [("user_id"%string, JInt (sr_actor r));
           ("email"%string, JStr (default EmptyString (actor ≫= usr_email)));
           ("full_name"%string, JStr (default EmptyString (user_full_name <$> actor)))])
    (JObj [("course_id"%string, JInt (crs_id (sr_course r)));
           ("course_title"%string, JStr (crs_title (sr_course r)));
           ("lesson_id"%string, json_opt_int (les_id <$> sr_lesson r));
           ("lesson_title"%string, JStr (default EmptyString (les_title <$> sr_lesson r)))])
    (JObj (sr_result r)) (JObj (sr_context r)) now true now now.

Definition record_learning_activity_statement (r : statement_request) :
    LM LearningActivityStatement :=
  existing ← query (statement_with_key (sr_idempotency_key r));
  match existing with
  | Some s => mret s
  | None =>
      env ← ask;
      actor ← query (fun db => users (site db) !! sr_actor r);
      create (fun i now => statement_row (lenv_uuid4 env i) actor r i now)
  end.

(** * Progress *)

Definition is_manual (x : Lesson) : bool :=
  bool_decide (les_content_type x ∈ [LessonContentType.DOCUMENT; LessonContentType.ARTICLE]).

(** [_calculate_percent], in hundredths *)
Definition calculate_percent (watched_seconds duration_seconds : Z) : Z :=
  if duration_seconds <=? 0 then (if 0 <? watched_seconds then 10000 else 0)
  else Z.min (quantize (mul28 (div28 (of_int watched_seconds) (of_int duration_seconds))
                          (of_int 100))) 10000.

Definition progress_rows (enrollment : Z) (db : LmsDB) : gmap Z LessonProgress :=
  objects_filter (fun p => lp_enrollment p =? enrollment) db.

(** What a lesson counts for in the mean of an enrollment. *)
Definition lesson_share (rows : list LessonProgress) (lesson : Z) : Z :=
  match List.find (fun p => lp_lesson p =? lesson) rows with
  | Some p => if lp_is_completed p then 10000 else lp_progress_percent p
  | None => 0
  end.

Definition sum_of {A} (f : A -> Z) (l : list A) : Z := foldr (fun x acc => f x + acc) 0 l.

(** The columns [_sync_enrollment_progress] computes from the progress rows of
    the enrollment and the active lessons of its course. *)
Definition synced_enrollment (now : Z) (rows : list LessonProgress) (active : list Lesson)
    (e : Enrollment) : Enrollment :=
  let count := Z.of_nat (length active) in
  let percent := if count =? 0 then 0
                 else mean (sum_of (fun x => lesson_share rows (les_id x)) active) count in
  let completed_lessons_count := Z.of_nat (length (List.filter lp_is_completed rows)) in
  let should_complete := (0 <? count) && (count <=? completed_lessons_count) in
  let completes := should_complete && bool_decide (enr_status e = EnrollmentStatus.ACTIVE) in
  e <| enr_watched_seconds := sum_of lp_watched_seconds rows |>
    <| enr_total_seconds_snapshot := sum_of les_duration_seconds active |>
    <| enr_progress_percent := percent |>
    <| enr_status := (if completes then EnrollmentStatus.COMPLETED else enr_status e) |>
    <| enr_completed_at := (if completes then Some now else enr_completed_at e) |>
    <| enr_updated_at := now |>.

Definition sync_enrollment_progress (enrollment : Z) : LM Enrollment :=
  now ← timezone_now;
  e ← base_get (A := Enrollment) enrollment;
  rows ← query (fun db => qs_list (progress_rows enrollment db));
  active ← query (fun db => qs_list (active_lessons (enr_course e) db));
  _ ← update_row enrollment (synced_enrollment now rows active);
  base_get enrollment.

(** The active lessons before a lesson, and those the enrollment completed. *)
Definition previous_lessons (lesson : Lesson) (db : LmsDB) : list Lesson :=
  ordered_by lesson_le (qs_list (objects_filter (fun x =>
    (les_course x =? les_course lesson) && les_is_active x &&
    (les_order x <? les_order lesson)) db)).

Definition completed_lesson (enrollment lesson : Z) (db : LmsDB) : bool :=
  qs_exists (objects_filter (fun p => (lp_enrollment p =? enrollment) &&
                                      (lp_lesson p =? lesson) && lp_is_completed p) db).

Definition open_enrollment (user course : Z) (db : LmsDB) : option Enrollment :=
  qs_first (objects_filter (fun e => (enr_user e =? user) && (enr_course e =? course) &&
    bool_decide (enr_status e ∈ [EnrollmentStatus.ACTIVE; EnrollmentStatus.COMPLETED])) db).

Definition ensure_lesson_sequence_open (user : Z) (lesson : Lesson)
    (enrollment : option Enrollment) : LM unit :=
  if les_is_preview lesson then mret tt
  else
    staff ← query (fun db => lr_is_staff (learner_of user db) ||
                             lr_is_superuser (learner_of user db));
    if staff : bool then mret tt
    else
      found ← query (fun db => match enrollment with
                               | Some e => Some e
                               | None => open_enrollment user (les_course lesson) db
                               end);
      match found with
      | None => mret tt
      | Some e =>
          if bool_decide (enr_status e = EnrollmentStatus.COMPLETED) then mret tt
          else
            missing ← query (fun db => List.find (fun x =>
                        negb (completed_lesson (enr_id e) (les_id x) db))
                        (previous_lessons lesson db));
            match missing with
            | Some x => raise (LessonSequenceLockedError (les_title x))
            | None => mret tt
            end
      end.

Definition new_progress (enrollment : Z) (lesson : Lesson) (i now : Z) : LessonProgress :=
  mkLessonProgress i enrollment (les_id lesson) 0 (les_duration_seconds lesson) 0 false 0
    (Some now) None None None true now now.

Definition stamp_media_opened (enrollment : option Enrollment) (lesson : Lesson) : LM unit :=
  match enrollment with
  | None => mret tt
  | Some e =>
      if negb (is_manual lesson) then mret tt
      else
        now ← timezone_now;
        found ← get_or_create (A := LessonProgress)
          (fun p => (lp_enrollment p =? enr_id e) && (lp_lesson p =? les_id lesson))
          (new_progress (enr_id e) lesson);
        let p : LessonProgress := (found : LessonProgress * bool).1 in
        match lp_media_opened_at p with
        | Some _ => mret tt
        | None => update_row (lp_id p) (fun x : LessonProgress =>
                    x <| lp_media_opened_at := Some now |> <| lp_updated_at := now |>)
        end
  end.

(** The arguments of a progress event. *)
Record progress_event : Type := mkProgressEvent {
  pe_watched_seconds : Z;
  pe_last_position_seconds : option Z;
  pe_mark_completed : bool;
  pe_media_opened : bool;
}.

(** The progress row after an event: the part of [update_lesson_progress]
    between the look-up and the [save]. *)
Definition progressed (now : Z) (lesson : Lesson) (ev : progress_event) (p : LessonProgress) :
    LessonProgress :=
  let manual := is_manual lesson in
  let duration := les_duration_seconds lesson in
  let cap z := if duration =? 0 then z else Z.min z duration in
  let capped := cap (Z.max 0 (pe_watched_seconds ev)) in
  let capped := if pe_mark_completed ev && negb (duration =? 0) then Z.max capped duration
                else capped in
  let watched := Z.max (lp_watched_seconds p) capped in
  let position := match pe_last_position_seconds ev with
                  | Some s => cap (Z.max 0 s)
                  | None => watched
                  end in
  let percent := if manual
                 then (if pe_mark_completed ev || lp_is_completed p then 10000 else 0)
                 else calculate_percent watched duration in
  let completes := (pe_mark_completed ev && manual) || (negb manual && (9000 <=? percent)) in
  p <| lp_media_opened_at := (if pe_media_opened ev
                              then Some (default now (lp_media_opened_at p))
                              else lp_media_opened_at p) |>
    <| lp_watched_seconds := watched |>
    <| lp_duration_seconds_snapshot := duration |>
    <| lp_last_position_seconds := position |>
    <| lp_progress_percent := percent |>
    <| lp_last_watched_at := Some now |>
    <| lp_first_watched_at := Some (default now (lp_first_watched_at p)) |>
    <| lp_is_completed := lp_is_completed p || completes |>
    <| lp_completed_at := (if completes then Some (default now (lp_completed_at p))
                           else lp_completed_at p) |>
    <| lp_updated_at := now |>.

Definition progress_statement (course : Course) (e : Enrollment) (lesson : Lesson)
    (ev : progress_event) (p : LessonProgress) : statement_request :=
  mkStatementRequest (enr_user e) course (Some lesson) (Some (enr_id e)) None None
    (if lp_is_completed p then LearningStatementVerb.COMPLETED
     else LearningStatementVerb.PROGRESSED)
    "lesson" (pretty (les_id lesson))
    [("watched_seconds"%string, JInt (lp_watched_seconds p));
     ("progress_percent"%string, JFloat (lp_progress_percent p # 100));
     ("is_completed"%string, JBool (lp_is_completed p));
     ("mark_completed"%string, JBool (pe_mark_completed ev))]
    [("source"%string, JStr "lesson_progress_update");
     ("content_type"%string, JStr (value (les_content_type lesson)));
     ("completion_mode"%string, JStr (if is_manual lesson then "manual" else "media"))]
    (Some ("lesson-progress:" +:+ pretty (lp_id p) +:+ ":" +:+
           isoformat (lp_updated_at p))%string).

Definition media_already_opened (enrollment lesson : Z) (db : LmsDB) : bool :=
  qs_exists (objects_filter (fun p => (lp_enrollment p =? enrollment) &&
    (lp_lesson p =? lesson) && bool_decide (is_Some (lp_media_opened_at p))) db).

Definition update_lesson_progress (enrollment lesson : Z) (ev : progress_event) :
    LM LessonProgress :=
  atomic
    (now ← timezone_now;
     e ← objects_get (A := Enrollment) enrollment;
     _ ← raise_if (negb (bool_decide (enr_status e ∈ [EnrollmentStatus.ACTIVE;
                                                      EnrollmentStatus.COMPLETED])))
           EnrollmentNotActiveError;
     x ← base_get (A := Lesson) lesson;
     _ ← raise_if (negb (les_course x =? enr_course e)) LessonNotInEnrollmentCourseError;
     _ ← ensure_lesson_sequence_open (enr_user e) x (Some e);
     _ ← raise_if (pe_mark_completed ev && negb (is_manual x)) LessonCompletionModeError;
     opened ← query (media_already_opened enrollment lesson);
     _ ← raise_if (pe_mark_completed ev &&
                   bool_decide (les_content_type x = LessonContentType.DOCUMENT) &&
                   negb (pe_media_opened ev || opened)) LessonMediaEngagementRequiredError;
     found ← get_or_create (A := LessonProgress)
       (fun p => (lp_enrollment p =? enrollment) && (lp_lesson p =? lesson))
       (new_progress enrollment x);
     let p : LessonProgress := progressed now x ev (found : LessonProgress * bool).1 in
     _ ← update_row (lp_id p) (progressed now x ev);
     _ ← update_row enrollment (fun y : Enrollment => y <| enr_last_accessed_lesson := Some lesson |>
                                                        <| enr_updated_at := now |>);
     synced ← sync_enrollment_progress enrollment;
     course ← base_get (A := Course) (enr_course synced);
     _ ← record_learning_activity_statement (progress_statement course synced x ev p);
     mret p).

(** * Slugs are found *)

Lemma suffixed_inj base n z z' : 0 <= z -> 0 <= z' ->
  suffixed base n z = suffixed base n z' -> z = z'.
Proof.
  intros Hz Hz' Heq. unfold suffixed in Heq. cbv zeta in Heq.
  pose proof (parse_digits_pretty false z Hz) as Hp.
  pose proof (parse_digits_pretty false z' Hz') as Hp'.
  pose proof (after_last_dash_inj _ _ _ _ _ _ Heq Hp Hp') as Hc. congruence.
Qed.

Lemma taken_slug {A} `{Model LmsDB A} (slug_of : A -> string) db s :
  qs_exists (objects_filter (fun x : A => str_eqb (slug_of x) s) db) = true ->
  s ∈ slug_of <$> qs_list (rows_of (A := A) db).
Proof.
  intros (i & x & Hx)%qs_exists_spec.
  apply objects_filter_lookup in Hx as (Hi & _ & Hs).
  apply bool_decide_eq_true in Hs as <-. apply list_elem_of_fmap_2.
  unfold qs_list. change x with ((i, x).2). apply list_elem_of_fmap_2.
  by apply elem_of_map_to_list.
Qed.

(** the loop that looks for a slug ends, whatever is stored and whatever the
    title becomes as a slug: after at most one more attempt than there are rows
    it has a slug, and no row that the manager returns has that slug. *)
Theorem unique_slug_found {A} `{Model LmsDB A} (slug_of : A -> string) (db : LmsDB)
    (slugify : string -> string) (base_value : string) (max_length : nat) :
  exists s, unique_slug slug_of db slugify base_value max_length = Some s /\
    forall i x, rows_of (A := A) db !! i = Some x -> is_active x = true -> slug_of x <> s.
Proof.
  unfold unique_slug, generate_unique_slug. cbv zeta.
  destruct (first_free_found
    (fun s => qs_exists (objects_filter (fun x : A => str_eqb (slug_of x) s) db))
    (suffixed (str_or (py_prefix max_length (slugify base_value)) "item") max_length)
    (slug_of <$> qs_list (rows_of (A := A) db))
    (str_or (py_prefix max_length (slugify base_value)) "item") 2) as (s & Hs & Hfree).
  - intros s. apply taken_slug.
  - intros y z Hy Hz. apply suffixed_inj; lia.
  - exists s. unfold qs_list in Hs. rewrite !length_fmap, length_map_to_list in Hs.
    split; [exact Hs|]. intros i x Hi Ha <-. eapply qs_exists_false; [exact Hfree|].
    apply objects_filter_lookup. split; [exact Hi|]. split; [done|]. by apply bool_decide_eq_true.
Qed.

(** * Progress only grows *)

(** A date that is set stays. *)
Definition stays {A} (o o' : option A) : Prop := forall x, o = Some x -> o' = Some x.

Lemma stays_default {A} (o : option A) (x : A) : stays o (Some (default x o)).
Proof. by intros y ->. Qed.

Record progress_grows (p p' : LessonProgress) : Prop := {
  grows_enrollment : lp_enrollment p' = lp_enrollment p;
  grows_lesson : lp_lesson p' = lp_lesson p;
  grows_watched : lp_watched_seconds p <= lp_watched_seconds p';
  grows_completed : lp_is_completed p = true -> lp_is_completed p' = true;
  grows_completed_at : stays (lp_completed_at p) (lp_completed_at p');
  grows_first_watched : stays (lp_first_watched_at p) (lp_first_watched_at p');
  grows_media_opened : stays (lp_media_opened_at p) (lp_media_opened_at p');
}.

#[export] Instance progress_grows_preorder : PreOrder progress_grows.
Proof.
  split.
  - intros p. split; first [done|lia|by intros x Hx].
  - intros p1 p2 p3 [] []. split; first [congruence|lia|intros x Hx; auto|auto].
Qed.

Lemma progressed_grows now x ev p : progress_grows p (progressed now x ev p).
Proof.
  unfold progressed. cbv zeta. split; simpl; try done.
  - lia.
  - by intros ->.
  - case_match; [apply stays_default|by intros y Hy].
  - apply stays_default.
  - case_match; [apply stays_default|by intros y Hy].
Qed.

Lemma progressed_update_grows now x ev i :
  moves (kept progress_grows) (update_row i (progressed now x ev) : LM unit).
Proof.
  apply moves_update_row; [typeclasses eauto|]. intros p db Hp.
  eapply kept_set_row; [typeclasses eauto|exact Hp|done|apply progressed_grows].
Qed.
#[export] Hint Resolve progressed_update_grows : moves.

Lemma sync_enrollment_grows e : moves (kept progress_grows) (sync_enrollment_progress e).
Proof. unfold sync_enrollment_progress. solve_moves. Qed.
#[export] Hint Resolve sync_enrollment_grows : moves.

Lemma statement_grows r : moves (kept progress_grows) (record_learning_activity_statement r).
Proof. unfold record_learning_activity_statement. solve_moves. Qed.
#[export] Hint Resolve statement_grows : moves.

Lemma sequence_grows u x e : moves (kept progress_grows) (ensure_lesson_sequence_open u x e).
Proof. unfold ensure_lesson_sequence_open. solve_moves. Qed.
#[export] Hint Resolve sequence_grows : moves.

Lemma update_lesson_progress_grows e x ev :
  moves (kept progress_grows) (update_lesson_progress e x ev).
Proof. unfold update_lesson_progress. cbv zeta. solve_moves. Qed.
#[export] Hint Resolve update_lesson_progress_grows : moves.

Lemma stamp_media_opened_grows e x : moves (kept progress_grows) (stamp_media_opened e x).
Proof.
  destruct e as [e|]; [|solve_moves]. unfold stamp_media_opened.
  destruct (negb (is_manual x)); [solve_moves|]. cbv zeta. intros env db.
  rewrite bind_unfold. simpl. rewrite bind_unfold.
  assert (moves (kept progress_grows) (get_or_create (A := LessonProgress)
    (fun p => (lp_enrollment p =? enr_id e) && (lp_lesson p =? les_id x))
    (new_progress (enr_id e) x))) as Hm by auto with moves.
  specialize (Hm env db). destruct (get_or_create _ _ env db) as [[[p b]|err] s] eqn:Hg; [|done].
  simpl in *. destruct (lp_media_opened_at p) eqn:Hp; [done|].
  intros Hgood. destruct (Hm Hgood) as [Hs He].
  apply get_or_create_stored in Hg as [_ Hrow]; [|done|done]. revert Hs.
  unfold update_row. change (lp_id p) with (pk p). rewrite Hrow.
  destruct (row_ok _ _); cbn [snd]; [|done]. intros Hs.
  match goal with |- context [set_row _ ?p' _] =>
    assert (kept progress_grows s (set_row (pk p) p' s)) as Hk end.
  { eapply kept_set_row; [typeclasses eauto|exact Hrow|done|].
    split; simpl; try done; try lia; try (by intros y Hy). by rewrite Hp. }
  destruct (Hk Hs) as [Hs2 He2]. split; [done|]. by etrans.
Qed.

(** * Percentages *)

Definition percent_bound (z : Z) : Prop := 0 <= z <= 10000.

Lemma calculate_percent_bound w d : 0 <= w -> percent_bound (calculate_percent w d).
Proof.
  intros Hw. unfold calculate_percent, percent_bound.
  destruct (Z.leb_spec d 0); [destruct (0 <? w); lia|].
  split; [|lia]. apply Z.min_glb; [|lia]. unfold quantize, mul28, div28. simpl fst. simpl snd.
  set (q := round28 (w * 1) (1 * d)).
  assert (0 < q.2) by apply round28_pos.
  assert (0 <= q.1) by (apply round28_nonneg; lia).
  set (p := round28 (q.1 * 100) (q.2 * 1)).
  assert (0 < p.2) by apply round28_pos.
  assert (0 <= p.1) by (apply round28_nonneg; lia).
  apply round_half_even_ge; lia.
Qed.

(** A lesson watched to its end reads 100. *)
Lemma calculate_percent_full w d : 0 < d <= w -> calculate_percent w d = 10000.
Proof.
  intros Hw. unfold calculate_percent.
  destruct (Z.leb_spec d 0); [lia|]. apply Z.min_r.
  unfold quantize, mul28, div28. simpl fst. simpl snd.
  set (q := round28 (w * 1) (1 * d)).
  assert (0 < q.2) by apply round28_pos.
  assert (1 * q.2 <= q.1) by (apply round28_ge; lia).
  set (p := round28 (q.1 * 100) (q.2 * 1)).
  assert (0 < p.2) by apply round28_pos.
  assert (100 * p.2 <= p.1) by (apply round28_ge; lia).
  apply round_half_even_ge; lia.
Qed.

Lemma sum_of_bounds {A} (f : A -> Z) l : (forall x, x ∈ l -> percent_bound (f x)) ->
  0 <= sum_of f l <= 10000 * Z.of_nat (length l).
Proof.
  induction l as [|x l IH]; intros Hl; simpl; [lia|].
  assert (percent_bound (f x)) as [? ?] by (apply Hl; left).
  assert (0 <= sum_of f l <= 10000 * Z.of_nat (length l)) by (apply IH; intros; apply Hl; by right).
  lia.
Qed.

Lemma sum_of_const {A} (f : A -> Z) c l : (forall x, x ∈ l -> f x = c) ->
  sum_of f l = c * Z.of_nat (length l).
Proof.
  induction l as [|x l IH]; intros Hl; simpl; [lia|].
  rewrite (Hl x), IH by (try (intros; apply Hl; by right); left). lia.
Qed.

Definition progress_ok (p : LessonProgress) : Prop :=
  0 <= lp_watched_seconds p /\ percent_bound (lp_progress_percent p).

Definition percents_ok (db : LmsDB) : Prop :=
  map_Forall (fun _ p => progress_ok p) (rows_of (A := LessonProgress) db) /\
  map_Forall (fun _ e => percent_bound (enr_progress_percent e)) (rows_of (A := Enrollment) db).

Lemma progressed_ok now x ev p : progress_ok p -> progress_ok (progressed now x ev p).
Proof.
  intros [Hw Hp]. unfold progressed, progress_ok. cbv zeta. simpl. split; [lia|].
  destruct (is_manual x); [destruct (_ || _); split; lia|].
  apply calculate_percent_bound. lia.
Qed.

Lemma lesson_share_bound rows x : Forall progress_ok rows -> percent_bound (lesson_share rows x).
Proof.
  intros Hrows. unfold lesson_share. destruct (List.find _ _) as [p|] eqn:Hf; [|split; lia].
  apply find_some in Hf as [Hin _]. apply list_elem_of_In in Hin.
  rewrite Forall_forall in Hrows. destruct (lp_is_completed p); [split; lia|].
  by apply Hrows.
Qed.

Lemma synced_enrollment_bound now rows active e :
  Forall progress_ok rows -> percent_bound (enr_progress_percent (synced_enrollment now rows active e)).
Proof.
  intros Hrows. unfold synced_enrollment, percent_bound. cbv zeta. simpl.
  destruct (Z.eqb_spec (Z.of_nat (length active)) 0); [lia|].
  apply (mean_bounds _ _ 0 100); [lia|lia|].
  pose proof (sum_of_bounds (fun x => lesson_share rows (les_id x)) active
                (fun x _ => lesson_share_bound rows (les_id x) Hrows)). lia.
Qed.

(** ** One progress event *)

#[local] Arguments set_row : simpl never.
#[local] Arguments add_row : simpl never.
#[local] Arguments table_of : simpl never.

Lemma sync_enrollment_inv i (env : LmsEnv) db e' db' :
  sync_enrollment_progress i env db = (Ok e', db') ->
  exists e, rows_of db !! i = Some e /\
    e' = synced_enrollment (clock env) (qs_list (progress_rows i db))
           (qs_list (active_lessons (enr_course e) db)) e /\
    db' = set_row i e' db.
Proof.
  unfold sync_enrollment_progress. intros Hrun. comp_inv Hrun.
  rewrite rows_of_set_row, lookup_insert_eq in Hrow1. simplify_eq. eauto.
Qed.

(** The lesson that keeps a lesson locked. *)
Definition locking_lesson (u : Z) (x : Lesson) (e : Enrollment) (db : LmsDB) : option Lesson :=
  if les_is_preview x || (lr_is_staff (learner_of u db) || lr_is_superuser (learner_of u db)) ||
     bool_decide (enr_status e = EnrollmentStatus.COMPLETED)
  then None
  else List.find (fun y => negb (completed_lesson (enr_id e) (les_id y) db)) (previous_lessons x db).

Lemma sequence_run u x e (env : LmsEnv) db :
  ensure_lesson_sequence_open u x (Some e) env db =
  match locking_lesson u x e db with
  | Some y => (Raise (LessonSequenceLockedError (les_title y)), db)
  | None => (Ok tt, db)
  end.
Proof.
  unfold ensure_lesson_sequence_open, locking_lesson.
  destruct (les_is_preview x); [done|]. rewrite bind_unfold. simpl.
  destruct (_ || _); [done|]. rewrite bind_unfold. simpl.
  destruct (bool_decide _); [done|]. rewrite bind_unfold. simpl.
  by destruct (List.find _ _).
Qed.

Lemma sequence_ok_inv u x e (env : LmsEnv) db r db' :
  ensure_lesson_sequence_open u x (Some e) env db = (Ok r, db') ->
  db' = db /\ locking_lesson u x e db = None.
Proof. rewrite sequence_run. destruct (locking_lesson u x e db); [done|]. by intros [= _ <-]. Qed.

Lemma progressed_id now x ev p : lp_id (progressed now x ev p) = lp_id p.
Proof. reflexivity. Qed.

Lemma rows_of_table {A} `{Model LmsDB A} db db' :
  table_of (A := A) db' = table_of db -> rows_of db' = rows_of db.
Proof. unfold rows_of. by intros ->. Qed.

(** What a progress event that returns has done. *)
Lemma update_lesson_progress_inv i l ev (env : LmsEnv) db p' db' :
  table_good (A := LessonProgress) (table_of db) ->
  update_lesson_progress i l ev env db = (Ok p', db') ->
  exists e x p b s1 e2 course st,
    rows_of db !! i = Some e /\ enr_status e ∈ [EnrollmentStatus.ACTIVE; EnrollmentStatus.COMPLETED] /\
    rows_of db !! l = Some x /\ les_course x = enr_course e /\
    locking_lesson (enr_user e) x e db = None /\
    (pe_mark_completed ev = true -> is_manual x = true) /\
    (pe_mark_completed ev = true -> les_content_type x = LessonContentType.DOCUMENT ->
     pe_media_opened ev || media_already_opened i l db = true) /\
    get_or_create (fun p => (lp_enrollment p =? i) && (lp_lesson p =? l)) (new_progress i x) env db
      = (Ok (p, b), s1) /\
    rows_of s1 !! lp_id p' = Some p /\ p' = progressed (clock env) x ev p /\
    let s3 := set_row i (e <| enr_last_accessed_lesson := Some l |>
                           <| enr_updated_at := clock env |>) (set_row (lp_id p') p' s1) in
    sync_enrollment_progress i env s3 = (Ok e2, set_row i e2 s3) /\
    record_learning_activity_statement (progress_statement course e2 x ev p') env
      (set_row i e2 s3) = (Ok st, db').
Proof.
  unfold update_lesson_progress. intros Hg Hrun. comp_inv Hrun.
  apply sequence_ok_inv in H as [-> Hlock].
  match goal with Hr : get_or_create _ _ _ _ = (Ok ?fp, _) |- _ => destruct fp as [p b] end.
  match goal with Hr : get_or_create _ _ _ _ = _ |- _ =>
    pose proof Hr as Hstored; apply get_or_create_stored in Hstored as [_ Hp]; [|done|done];
    pose proof (get_or_create_other (B := Enrollment) _ _ _ _ _ _ _ Hr) as Henr end.
  cbn [fst] in *. rewrite !progressed_id in *. change (pk p) with (lp_id p) in Hp.
  rewrite rows_of_set_row_other in Hrow2. rewrite (rows_of_table _ _ Henr) in Hrow2. simplify_eq.
  match goal with Hr : sync_enrollment_progress _ _ _ = _ |- _ =>
    pose proof Hr as Hsync; apply sync_enrollment_inv in Hsync as (? & _ & _ & ->) end.
  apply negb_false_iff, bool_decide_eq_true in Hc. apply negb_false_iff, Z.eqb_eq in Hc0.
  exists a, a1, row, b, s0, a9, a10, a11. repeat (split; [assumption|]).
  split; [intros Hm; rewrite Hm in Hc1; by apply negb_false_iff in Hc1|].
  split.
  { intros Hm Hd. rewrite Hm, Hd in Hc2. by apply negb_false_iff in Hc2. }
  repeat (split; [assumption|]). split; [reflexivity|]. cbv zeta.
  repeat (split; [assumption|]). assumption.
Qed.

(** Progress never goes back.  A progress event, whether it is accepted or
    refused, and the opening of a document keep every stored progress row with
    its enrollment and lesson, never lower the seconds watched, never take a
    completion back, and keep the times of the first watch, of the opening and
    of the completion once they are set. *)
Theorem progress_never_goes_back (env : LmsEnv) (db : LmsDB) (i l : Z) (ev : progress_event)
    (e : option Enrollment) (x : Lesson)
    (Hgood : table_good (A := LessonProgress) (table_of db)) :
  evolves progress_grows db (update_lesson_progress i l ev env db).2 /\
  evolves progress_grows db (stamp_media_opened e x env db).2.
Proof.
  split; [apply update_lesson_progress_grows|apply stamp_media_opened_grows]; exact Hgood.
Qed.

Lemma percents_set_progress i p db :
  progress_ok p -> percents_ok db -> percents_ok (set_row i p db).
Proof.
  intros Hp [Hps Hes]. split; db_simpl; [|done]. by apply map_Forall_insert_2.
Qed.

Lemma percents_add_progress p db : progress_ok p -> percents_ok db -> percents_ok (add_row p db).
Proof.
  intros Hp [Hps Hes]. split; db_simpl; [|done]. by apply map_Forall_insert_2.
Qed.

Lemma percents_set_enrollment i (e : Enrollment) db :
  percent_bound (enr_progress_percent e) -> percents_ok db -> percents_ok (set_row i e db).
Proof.
  intros Hp [Hps Hes]. split; db_simpl; [done|]. by apply map_Forall_insert_2.
Qed.

Lemma percents_add_enrollment (e : Enrollment) db :
  percent_bound (enr_progress_percent e) -> percents_ok db -> percents_ok (add_row e db).
Proof.
  intros Hp [Hps Hes]. split; db_simpl; [done|]. by apply map_Forall_insert_2.
Qed.

Lemma percents_progress_rows i db : percents_ok db -> Forall progress_ok (qs_list (progress_rows i db)).
Proof.
  intros [Hps _]. apply Forall_forall. intros p Hp. unfold qs_list in Hp.
  apply list_elem_of_fmap in Hp as ([k q] & -> & Hk). apply elem_of_map_to_list in Hk.
  apply objects_filter_lookup in Hk as [Hk _]. exact (Hps k q Hk).
Qed.

Lemma statement_other_rows {A} `{Model LmsDB A} `{!OtherTable LearningActivityStatement A}
    r (env : LmsEnv) db st db' :
  record_learning_activity_statement r env db = (Ok st, db') ->
  rows_of (A := A) db' = rows_of db.
Proof.
  unfold record_learning_activity_statement. intros Hrun. comp_run; by db_simpl.
Qed.

Lemma percents_of_rows db db' :
  rows_of (A := LessonProgress) db' = rows_of db -> rows_of (A := Enrollment) db' = rows_of db ->
  percents_ok db -> percents_ok db'.
Proof. unfold percents_ok. by intros -> ->. Qed.

(** ** Enrolling *)

Lemma sync_course_counters_inv course u (env : LmsEnv) db db' :
  sync_course_counters course env db = (Ok u, db') ->
  exists c, rows_of db !! course = Some c /\
    db' = set_row course (c
       <| crs_estimated_duration_seconds := qs_sum les_duration_seconds (active_lessons course db) |>
       <| crs_lessons_count := qs_count (active_lessons course db) |>
       <| crs_enrollments_count := qs_count (enrollments_in course EnrollmentStatus.ACTIVE db) |>
       <| crs_graduates_count := qs_count (enrollments_in course EnrollmentStatus.COMPLETED db) |>
       <| crs_updated_at := clock env |>) db.
Proof. unfold sync_course_counters. intros Hrun. comp_inv Hrun. eauto. Qed.

Definition registrations (user course : Z) (db : LmsDB) : gmap Z Enrollment :=
  objects_filter (fun e => (enr_user e =? user) && (enr_course e =? course)) db.

Lemma enroll_inv user course (env : LmsEnv) db e b db' :
  enroll_user_in_course user course env db = (Ok (e, b), db') ->
  profile_complete user db = true /\
  exists c, rows_of db !! course = Some c /\ is_published c = true /\
    ((b = false /\ db' = db /\ qs_first (registrations user course db) = Some e) \/
     (b = true /\ qs_first (registrations user course db) = None /\
      e = new_enrollment user course (crs_estimated_duration_seconds c)
            (next_id (table_of (A := Enrollment) db)) (clock env) /\
      sync_course_counters course env (add_row e db) = (Ok tt, db'))).
Proof.
  unfold enroll_user_in_course, ensure_user_can_enroll. intros Hrun. comp_inv Hrun.
  apply negb_false_iff in Hc, Hc0. split; [done|]. eexists. do 2 (split; [eassumption|]).
  match goal with Hr : get_or_create _ _ _ _ = _ |- _ =>
    apply get_or_create_ok_inv in Hr as [(-> & -> & Hf)|(-> & Hf & -> & _ & ->)] end;
    cbn [snd] in *.
  - left. match goal with Hr : mret tt _ _ = _ |- _ => injection Hr as _ <- end. done.
  - right. match goal with Hr : sync_course_counters _ _ _ = (Ok ?u, _) |- _ => destruct u end. done.
Qed.

(** Percentages stay within bounds: where the stored seconds are not
    negative and the percentages between 0 and 100, a progress event with any
    values (negative, beyond the duration, for a lesson of duration zero) and
    an enrollment leave them so, of the lessons as of the enrollments. *)
Theorem percentages_stay_in_range (env : LmsEnv) (db : LmsDB) (i l : Z) (ev : progress_event)
    (user course : Z)
    (Hgood : table_good (A := LessonProgress) (table_of db)) (Hok : percents_ok db) :
  percents_ok (update_lesson_progress i l ev env db).2 /\
  percents_ok (enroll_user_in_course user course env db).2.
Proof.
  split.
  - destruct (update_lesson_progress i l ev env db) as [[p'|err] db'] eqn:Hrun; simpl.
    2: { by apply atomic_raise_inv in Hrun as ->. }
    apply update_lesson_progress_inv in Hrun as
      (e & x & p & b & s1 & e2 & course' & st & He & _ & Hx & _ & _ & _ & _ & Hgoc & Hp & -> &
       Hsync & Hst); [|done].
    eapply percents_of_rows; [by eapply statement_other_rows|by eapply statement_other_rows|].
    assert (percents_ok s1) as Hs1.
    { apply get_or_create_ok_inv in Hgoc as [(_ & -> & _)|(_ & _ & -> & _ & ->)]; [done|].
      apply percents_add_progress; [|done]. split; simpl; [|split]; lia. }
    match type of Hsync with sync_enrollment_progress _ _ ?s = _ => assert (percents_ok s) as Hs3 end.
    { apply percents_set_enrollment.
      - simpl. by apply (proj2 Hok i e).
      - apply percents_set_progress; [|done]. apply progressed_ok. by apply (proj1 Hs1 _ p Hp). }
    apply percents_set_enrollment; [|done].
    apply sync_enrollment_inv in Hsync as (e0 & He0 & -> & _).
    apply synced_enrollment_bound. by apply percents_progress_rows.
  - destruct (enroll_user_in_course user course env db) as [[[e b]|err] db'] eqn:Hrun; simpl.
    2: { by apply atomic_raise_inv in Hrun as ->. }
    apply enroll_inv in Hrun as (_ & c & _ & _ & [(_ & -> & _)|(_ & _ & -> & Hsync)]); [done|].
    apply sync_course_counters_inv in Hsync as (c' & _ & ->).
    eapply percents_of_rows; [by rewrite rows_of_set_row_other|by rewrite rows_of_set_row_other|].
    apply percents_add_enrollment; [|done]. split; simpl; lia.
Qed.

(** ** A finished course *)

(** At most one progress row of an enrollment for a lesson. *)
Definition progress_unique (db : LmsDB) : Prop :=
  forall i j p q, rows_of (A := LessonProgress) db !! i = Some p -> rows_of db !! j = Some q ->
    lp_enrollment p = lp_enrollment q -> lp_lesson p = lp_lesson q -> p = q.

Lemma elem_of_qs_list {A} `{Model LmsDB A} (qs : gmap Z A) x :
  x ∈ qs_list qs <-> exists k, qs !! k = Some x.
Proof.
  unfold qs_list. rewrite list_elem_of_fmap. split.
  - intros ([k y] & -> & Hk%elem_of_map_to_list). by exists k.
  - intros [k Hk]. exists (k, x). split; [done|]. by apply elem_of_map_to_list.
Qed.

Lemma completed_lesson_spec i l db : completed_lesson i l db = true <->
  exists p, p ∈ qs_list (progress_rows i db) /\ lp_lesson p = l /\ lp_is_completed p = true.
Proof.
  unfold completed_lesson, progress_rows. rewrite qs_exists_spec.
  split.
  - intros (k & p & (Hk & Ha & Hp)%objects_filter_lookup).
    apply andb_true_iff in Hp as [[He Hl]%andb_true_iff Hc].
    exists p. split; [|by apply Z.eqb_eq in Hl]. apply elem_of_qs_list. exists k.
    by apply objects_filter_lookup.
  - intros (p & [k Hk]%elem_of_qs_list & Hl & Hc).
    apply objects_filter_lookup in Hk as (Hk & Ha & He). exists k, p.
    apply objects_filter_lookup. split; [done|]. split; [done|].
    by rewrite He, Hc, (proj2 (Z.eqb_eq _ _) Hl).
Qed.

(** The lessons of an active course are distinct rows. *)
Lemma active_lesson_ids course db : table_good (A := Lesson) (table_of db) ->
  NoDup (les_id <$> qs_list (active_lessons course db)).
Proof.
  intros [_ Hwf]. unfold qs_list. rewrite <- list_fmap_compose.
  assert (les_id ∘ snd <$> map_to_list (active_lessons course db)
          = (map_to_list (active_lessons course db)).*1) as ->.
  { apply list_fmap_ext. intros ? [k x] Hk. simpl. apply list_elem_of_lookup_2 in Hk.
    apply elem_of_map_to_list, objects_filter_lookup in Hk as [Hk _]. by apply (Hwf k x Hk). }
  apply NoDup_fst_map_to_list.
Qed.

(** Where every active lesson has a completed row, an active enrollment is
    completed and reads 100. *)
Lemma synced_finished now i db e (active := qs_list (active_lessons (enr_course e) db))
    (rows := qs_list (progress_rows i db)) :
  table_good (A := Lesson) (table_of db) -> progress_unique db -> active <> [] ->
  (forall x, x ∈ active -> completed_lesson i (les_id x) db = true) ->
  enr_progress_percent (synced_enrollment now rows active e) = 10000 /\
  (enr_status e = EnrollmentStatus.ACTIVE ->
   enr_status (synced_enrollment now rows active e) = EnrollmentStatus.COMPLETED /\
   enr_completed_at (synced_enrollment now rows active e) = Some now).
Proof.
  intros Hgood Huniq Hne Hall.
  assert (0 < Z.of_nat (length active)) as Hpos by (destruct active; [done|simpl; lia]).
  assert (forall x, x ∈ active -> lesson_share rows (les_id x) = 10000) as Hshare.
  { intros x Hx. apply Hall in Hx. apply completed_lesson_spec in Hx as (p & Hp & Hl & Hc).
    unfold lesson_share. destruct (List.find _ _) as [q|] eqn:Hf.
    - apply find_some in Hf as [Hq%list_elem_of_In Hlq%Z.eqb_eq].
      assert (q = p) as -> by (
        apply elem_of_qs_list in Hp as [k Hk], Hq as [k' Hk'];
        apply objects_filter_lookup in Hk as (Hk & _ & He%Z.eqb_eq);
        apply objects_filter_lookup in Hk' as (Hk' & _ & He'%Z.eqb_eq);
        eapply Huniq; [exact Hk'|exact Hk|congruence|congruence]).
      by rewrite Hc.
    - exfalso. apply list_elem_of_In in Hp. pose proof (find_none _ _ Hf p Hp) as Hno.
      simpl in Hno. by rewrite Hl, Z.eqb_refl in Hno. }
  assert (length active <= length (List.filter lp_is_completed rows))%nat as Hlen.
  { rewrite <- (length_fmap les_id active), <- (length_fmap lp_lesson).
    apply submseteq_length, NoDup_submseteq; [by apply active_lesson_ids|].
    intros l (x & -> & Hx)%list_elem_of_fmap. apply Hall in Hx.
    apply completed_lesson_spec in Hx as (p & Hp & <- & Hc). apply list_elem_of_fmap_2.
    apply list_elem_of_In, filter_In. split; [by apply list_elem_of_In|done]. }
  unfold synced_enrollment. cbv zeta. fold active rows. simpl.
  rewrite (proj2 (Z.eqb_neq _ _)) by lia. split.
  - rewrite (sum_of_const _ 10000) by exact Hshare.
    unfold mean, quantize, div28. simpl fst. simpl snd.
    pose proof (mean_bounds (10000 * Z.of_nat (length active)) (Z.of_nat (length active)) 100 100).
    unfold mean, quantize, div28 in *. simpl fst in *. simpl snd in *. lia.
  - intros ->. rewrite (proj2 (Z.ltb_lt _ _)), (proj2 (Z.leb_le _ _)) by lia. done.
Qed.

Lemma synced_course now rows active e : enr_course (synced_enrollment now rows active e) = enr_course e.
Proof. reflexivity. Qed.

Lemma synced_stays_completed now rows active e :
  enr_status e = EnrollmentStatus.COMPLETED ->
  enr_status (synced_enrollment now rows active e) = EnrollmentStatus.COMPLETED.
Proof.
  intros He. unfold synced_enrollment. cbv zeta. simpl. by destruct (_ && _).
Qed.

Lemma active_lessons_rows c db db' :
  rows_of (A := Lesson) db' = rows_of db -> active_lessons c db' = active_lessons c db.
Proof. intros Hr. by apply objects_filter_ext. Qed.

Lemma completed_lesson_rows i l db db' :
  rows_of (A := LessonProgress) db' = rows_of db ->
  completed_lesson i l db = completed_lesson i l db'.
Proof. intros Hr. unfold completed_lesson. f_equal. symmetry. by apply objects_filter_ext. Qed.

Lemma qs_list_nil {A} (qs : gmap Z A) : qs_list qs = [] -> qs = ∅.
Proof. intros Hl. apply fmap_nil_inv in Hl. by apply map_to_list_empty_iff. Qed.

(** Finishing a course completes the enrollment: when after a progress event
    every active lesson of the course is completed, the enrollment reads exactly
    100 percent (lessons that were completed at nine tenths count in full) and
    is COMPLETED, with the time of the event if it was active until then. *)
Theorem finished_course_completes (env : LmsEnv) (db db' : LmsDB) (i l : Z) (ev : progress_event)
    (p : LessonProgress)
    (Hgood : table_good (A := LessonProgress) (table_of db))
    (Hrun : update_lesson_progress i l ev env db = (Ok p, db'))
    (Hlessons : table_good (A := Lesson) (table_of db)) (Huniq : progress_unique db')
    (e' : Enrollment) (He' : rows_of db' !! i = Some e')
    (Hsome : active_lessons (enr_course e') db' <> ∅)
    (Hall : forall x, x ∈ qs_list (active_lessons (enr_course e') db') ->
      completed_lesson i (les_id x) db' = true) :
  enr_progress_percent e' = 10000 /\ enr_status e' = EnrollmentStatus.COMPLETED /\
  forall e, rows_of db !! i = Some e -> enr_status e = EnrollmentStatus.ACTIVE ->
    enr_completed_at e' = Some (clock env).
Proof.
  apply update_lesson_progress_inv in Hrun as
    (e & x & p0 & b & s1 & e2 & course & st & He & Hst & _ & _ & _ & _ & _ & Hgoc & _ & -> &
     Hsync & Hstm); [|done].
  set (s3 := set_row i _ _) in Hsync, Hstm.
  apply sync_enrollment_inv in Hsync as (e3 & He3 & -> & _).
  pose proof (statement_other_rows (A := Enrollment) _ _ _ _ _ Hstm) as Henr.
  pose proof (statement_other_rows (A := LessonProgress) _ _ _ _ _ Hstm) as Hprog.
  pose proof (statement_other_rows (A := Lesson) _ _ _ _ _ Hstm) as Hless. clear Hstm.
  rewrite rows_of_set_row_other in Hprog. rewrite rows_of_set_row_other in Hless.
  rewrite Henr, rows_of_set_row, lookup_insert_eq in He'. injection He' as <-.
  rewrite synced_course in *.
  rewrite (active_lessons_rows _ _ _ Hless) in Hsome, Hall.
  assert (enr_course e3 = enr_course e /\ enr_status e3 = enr_status e) as [_ Hst3].
  { unfold s3 in He3. rewrite rows_of_set_row, lookup_insert_eq in He3. by injection He3 as <-. }
  assert (table_of (A := Lesson) s3 = table_of db) as Hs3.
  { unfold s3. rewrite !table_of_set_row_other. exact (get_or_create_other _ _ _ _ _ _ _ Hgoc). }
  destruct (synced_finished (clock env) i s3 e3) as [Hpc Hcomp].
  - by rewrite Hs3.
  - intros j k q r. rewrite <- Hprog. apply Huniq.
  - intros Hnil. apply Hsome. by apply qs_list_nil.
  - intros y Hy. rewrite <- (Hall y Hy). by apply completed_lesson_rows.
  - split; [exact Hpc|]. rewrite !elem_of_cons, elem_of_nil in Hst.
    destruct Hst as [Hst|[Hst|[]]].
    + destruct Hcomp as [Hc1 Hc2]; [congruence|]. split; [exact Hc1|]. intros ? _ _. exact Hc2.
    + split; [apply synced_stays_completed; congruence|]. intros e0 He0 ?. congruence.
Qed.

(** ** The order of the lessons *)

(** The active lessons that come before a lesson in its course. *)
Definition comes_before (db : LmsDB) (y x : Lesson) : Prop :=
  y ∈ qs_list (active_lessons (les_course x) db) /\ les_order y < les_order x.

Lemma elem_of_previous_lessons x db y : y ∈ previous_lessons x db <-> comes_before db y x.
Proof.
  unfold previous_lessons, comes_before. rewrite elem_of_ordered, !elem_of_qs_list.
  split.
  - intros [k (Hk & Ha & Hy)%objects_filter_lookup].
    apply andb_true_iff in Hy as [Hy Ho%Z.ltb_lt]. split; [|done]. exists k.
    by apply objects_filter_lookup.
  - intros [[k (Hk & Ha & Hy)%objects_filter_lookup] Ho%Z.ltb_lt]. exists k.
    apply objects_filter_lookup. by rewrite Hy, Ho.
Qed.

Lemma locking_lesson_spec u x e db y : locking_lesson u x e db = Some y ->
  comes_before db y x /\ completed_lesson (enr_id e) (les_id y) db = false.
Proof.
  unfold locking_lesson. destruct (_ || _); [done|]. intros [Hy Hn]%find_some.
  apply list_elem_of_In, elem_of_previous_lessons in Hy. by apply negb_true_iff in Hn.
Qed.

Lemma locking_lesson_exists u x e db y :
  les_is_preview x = false -> lr_is_staff (learner_of u db) = false ->
  lr_is_superuser (learner_of u db) = false -> enr_status e = EnrollmentStatus.ACTIVE ->
  comes_before db y x -> completed_lesson (enr_id e) (les_id y) db = false ->
  is_Some (locking_lesson u x e db).
Proof.
  intros Hp Hs Hsu He Hy Hn. unfold locking_lesson. rewrite Hp, Hs, Hsu, He. simpl.
  destruct (List.find _ _) as [z|] eqn:Hf; [by exists z|].
  apply elem_of_previous_lessons, list_elem_of_In in Hy.
  pose proof (find_none _ _ Hf y Hy) as Hno. simpl in Hno. by rewrite Hn in Hno.
Qed.

(** Lessons are taken in order: while an earlier active lesson of the course
    is not completed, a progress event for a later one that is no preview is
    refused for an ordinary learner, naming an earlier lesson that is not
    completed, and nothing is stored; conversely an accepted event of an
    ordinary learner with an active enrollment means that every earlier active
    lesson was completed. *)
Theorem lesson_sequence_is_enforced (env : LmsEnv) (db : LmsDB) (i l : Z) (ev : progress_event)
    (e : Enrollment) (x : Lesson)
    (Hgood : table_good (A := Enrollment) (table_of db))
    (Hprog : table_good (A := LessonProgress) (table_of db))
    (He : rows_of db !! i = Some e) (Hact : enr_is_active e = true)
    (Hst : enr_status e = EnrollmentStatus.ACTIVE)
    (Hx : rows_of db !! l = Some x) (Hc : les_course x = enr_course e)
    (Hp : les_is_preview x = false)
    (Hs : lr_is_staff (learner_of (enr_user e) db) = false)
    (Hsu : lr_is_superuser (learner_of (enr_user e) db) = false) :
  (forall y, comes_before db y x -> completed_lesson i (les_id y) db = false ->
    exists z, comes_before db z x /\ completed_lesson i (les_id z) db = false /\
      update_lesson_progress i l ev env db = (Raise (LessonSequenceLockedError (les_title z)), db)) /\
  (forall p db', update_lesson_progress i l ev env db = (Ok p, db') ->
    forall y, comes_before db y x -> completed_lesson i (les_id y) db = true).
Proof.
  destruct (proj2 Hgood i e He) as [Hi _]. simpl in Hi. split.
  - intros y Hy Hn. rewrite <- Hi in Hn.
    destruct (locking_lesson_exists _ _ _ _ _ Hp Hs Hsu Hst Hy Hn) as [z Hz].
    exists z. pose proof (locking_lesson_spec _ _ _ _ _ Hz) as [Hb Hnc]. rewrite Hi in Hnc.
    do 2 (split; [done|]). unfold update_lesson_progress.
    eapply atomic_raise. erewrite bind_ok by reflexivity.
    erewrite bind_ok by (by apply objects_get_ok).
    erewrite bind_ok by (apply raise_if_false; by rewrite Hst).
    erewrite bind_ok by (by apply base_get_ok).
    erewrite bind_ok by (apply raise_if_false; by rewrite Hc, Z.eqb_refl).
    erewrite bind_raise by (rewrite sequence_run, Hz; reflexivity). reflexivity.
  - intros p db' Hrun y Hy. apply not_false_iff_true. intros Hn. rewrite <- Hi in Hn.
    destruct (locking_lesson_exists _ _ _ _ _ Hp Hs Hsu Hst Hy Hn) as [z Hz].
    apply update_lesson_progress_inv in Hrun as
      (e' & x' & p0 & b & s1 & e2 & course & st & He' & _ & Hx' & _ & Hlock & _); [|done].
    simplify_eq.
Qed.

(** ** Enrolling twice *)

Lemma enroll_again user course (env : LmsEnv) db c e :
  profile_complete user db = true -> rows_of db !! course = Some c -> is_published c = true ->
  qs_first (registrations user course db) = Some e ->
  enroll_user_in_course user course env db = (Ok (e, false), db).
Proof.
  intros Hp Hc Hpub He. unfold enroll_user_in_course, ensure_user_can_enroll. apply atomic_ok.
  erewrite bind_ok.
  2: { erewrite bind_ok by reflexivity. apply raise_if_false. by rewrite Hp. }
  erewrite bind_ok by (by apply base_get_ok).
  erewrite bind_ok by (apply raise_if_false; by rewrite Hpub).
  unfold get_or_create. erewrite bind_ok.
  2: { erewrite bind_ok by reflexivity. fold (registrations user course db). by rewrite He. }
  reflexivity.
Qed.

(** Enrolling is idempotent: after an enrollment that succeeded, a further
    one of the same user in the same course returns that enrollment, says that
    it is not new, and changes nothing. *)
Theorem second_enrollment_changes_nothing (env env' : LmsEnv) (db db' : LmsDB) (user course : Z)
    (e : Enrollment) (b : bool)
    (Hrun : enroll_user_in_course user course env db = (Ok (e, b), db')) :
  enroll_user_in_course user course env' db' = (Ok (e, false), db').
Proof.
  apply enroll_inv in Hrun as (Hp & c & Hc & Hpub & [(-> & -> & Hf)|(-> & Hf & He & Hsync)]).
  - by eapply enroll_again.
  - apply sync_course_counters_inv in Hsync as (c' & Hc' & ->).
    rewrite rows_of_add_row_other, Hc in Hc'. injection Hc' as <-.
    eapply enroll_again; [exact Hp|by rewrite rows_of_set_row, lookup_insert_eq|exact Hpub|].
    apply qs_first_None in Hf.
    assert (registrations user course (add_row e db) = {[ next_id (table_of (A := Enrollment) db) := e ]}) as Hr.
    { apply map_eq. intros j. apply option_eq. intros y. unfold registrations.
      rewrite objects_filter_lookup, rows_of_add_row, lookup_singleton_Some. split.
      - intros (Hj & Ha & Hy). apply lookup_insert_Some in Hj as [Hn|[_ Hj]]; [exact Hn|].
        exfalso. assert (registrations user course db !! j = Some y) as Hin
          by (by apply objects_filter_lookup). by rewrite Hf, lookup_empty in Hin.
      - intros [<- <-]. rewrite lookup_insert_eq, He. simpl. by rewrite !Z.eqb_refl. }
    match goal with |- qs_first (registrations _ _ ?d) = _ =>
      assert (registrations user course d = registrations user course (add_row e db)) as -> end.
    { apply objects_filter_ext; [by rewrite rows_of_set_row_other|done]. }
    rewrite Hr. eapply (qs_first_unique _ (next_id (table_of (A := Enrollment) db))); [apply lookup_singleton_eq|].
    intros j y Hy%lookup_singleton_Some. by destruct Hy.
Qed.

(** * Runs of the sample class *)

Definition event (watched : Z) (mark opened : bool) : progress_event :=
  mkProgressEvent watched None mark opened.

(** A learner enrolled, and the class with the first, the first two and all
    three lessons done. *)
Definition enrolled_db : LmsDB := after (enroll_user_in_course 1 1) lms_env sample_lms.
Definition after_event (l : Z) (ev : progress_event) (n : Z) (db : LmsDB) : LmsDB :=
  after (update_lesson_progress 1 l ev) (lms_env_at (sample_now + n)) db.
Definition first_done : LmsDB := after_event 1 (event 95 false false) 1 enrolled_db.
Definition two_done : LmsDB := after_event 2 (event 0 true false) 2 first_done.
Definition all_done : LmsDB := after_event 3 (event 0 true true) 3 two_done.

(** The status and the percentage of the enrollment. *)
Definition standing (db : LmsDB) : option (EnrollmentStatus.t * Z) :=
  (fun e => (enr_status e, enr_progress_percent e)) <$> rows_of (A := Enrollment) db !! 1.

Example standings :
  standing <$> [enrolled_db; first_done; two_done; all_done]
  = [Some (EnrollmentStatus.ACTIVE, 0); Some (EnrollmentStatus.ACTIVE, 3333);
     Some (EnrollmentStatus.ACTIVE, 6667); Some (EnrollmentStatus.COMPLETED, 10000)].
Proof. vm_compute. reflexivity. Qed.

(** The rows of lessons that were taken out of the course count as completed
    lessons: with the first lesson done and then withdrawn, finishing the second
    of the two that are left completes an enrollment that reads 50 percent. *)
Example withdrawn_lesson_completes_early :
  standing (after_event 2 (event 0 true false) 2
              (after (update_lesson 1 [lesson_is_active false]) lms_env first_done))
  = Some (EnrollmentStatus.COMPLETED, 5000).
Proof. vm_compute. reflexivity. Qed.

(** The media percentage of a completed lesson falls when its video gets longer. *)
Example longer_video_lowers_the_percentage :
  lp_progress_percent <$> rows_of (A := LessonProgress)
    (after_event 1 (event 0 false false) 2
       (after (update_lesson 1 [lesson_duration_seconds 200]) lms_env first_done)) !! 1
  = Some 4750.
Proof. vm_compute. reflexivity. Qed.

Lemma progress_never_goes_back_witness :
  evolves progress_grows first_done
    (update_lesson_progress 1 1 (event (-5) false false) lms_env first_done).2 /\
  evolves progress_grows first_done (stamp_media_opened None (sample_lesson 3 3 0
    LessonContentType.DOCUMENT) lms_env first_done).2.
Proof. apply progress_never_goes_back. apply good_check; vm_compute; reflexivity. Defined.

(** The percentages of a database, by computation. *)
Definition percents_okb (db : LmsDB) : bool :=
  forallb (fun p => (0 <=? lp_watched_seconds p) && (0 <=? lp_progress_percent p) &&
                    (lp_progress_percent p <=? 10000)) (qs_list (rows_of (A := LessonProgress) db)) &&
  forallb (fun e => (0 <=? enr_progress_percent e) && (enr_progress_percent e <=? 10000))
    (qs_list (rows_of (A := Enrollment) db)).

Lemma percents_check db : percents_okb db = true -> percents_ok db.
Proof.
  unfold percents_okb, percents_ok. rewrite andb_true_iff, !forallb_forall.
  intros [Hp He]. split; intros k x Hk.
  - specialize (Hp x). rewrite <- list_elem_of_In, elem_of_qs_list in Hp.
    pose proof (Hp (ex_intro _ k Hk)) as Hx. rewrite !andb_true_iff, !Z.leb_le in Hx.
    unfold progress_ok, percent_bound. lia.
  - specialize (He x). rewrite <- list_elem_of_In, elem_of_qs_list in He.
    pose proof (He (ex_intro _ k Hk)) as Hx. rewrite !andb_true_iff, !Z.leb_le in Hx.
    unfold percent_bound. lia.
Qed.

Lemma percentages_stay_in_range_witness :
  percents_ok (update_lesson_progress 1 1 (event 1000 false false) lms_env first_done).2 /\
  percents_ok (enroll_user_in_course 1 1 lms_env first_done).2.
Proof.
  apply percentages_stay_in_range.
  - apply good_check; vm_compute; reflexivity.
  - apply percents_check. vm_compute. reflexivity.
Defined.

Lemma second_enrollment_changes_nothing_witness :
  exists e, enroll_user_in_course 1 1 lms_env enrolled_db = (Ok (e, false), enrolled_db).
Proof.
  eexists. apply (second_enrollment_changes_nothing lms_env lms_env sample_lms enrolled_db 1 1 _ true).
  vm_compute. reflexivity.
Defined.

Lemma lesson_sequence_is_enforced_witness :
  exists z, update_lesson_progress 1 2 (event 0 true false) lms_env enrolled_db
            = (Raise (LessonSequenceLockedError (les_title z)), enrolled_db).
Proof.
  edestruct (lesson_sequence_is_enforced lms_env enrolled_db 1 2 (event 0 true false))
    as [Hlocked _]; try (vm_compute; reflexivity).
  1, 2: apply good_check; vm_compute; reflexivity.
  destruct (Hlocked (sample_lesson 1 1 100 LessonContentType.VIDEO)) as (z & _ & _ & Hz).
  - split; [|vm_compute; reflexivity]. apply elem_of_qs_list. exists 1. vm_compute. reflexivity.
  - vm_compute. reflexivity.
  - exists z. exact Hz.
Defined.

Lemma nodup_fmap_inj {A B} (f : A -> B) l x y :
  NoDup (f <$> l) -> x ∈ l -> y ∈ l -> f x = f y -> x = y.
Proof.
  induction l as [|z l IH]; [set_solver|]. rewrite fmap_cons, NoDup_cons, !elem_of_cons.
  intros [Hz Hl] [->|Hx] [->|Hy] Heq; [done| | |by apply IH].
  - exfalso. apply Hz. rewrite Heq. by apply list_elem_of_fmap_2.
  - exfalso. apply Hz. rewrite <- Heq. by apply list_elem_of_fmap_2.
Qed.

Lemma progress_unique_check db :
  NoDup ((fun p => (lp_enrollment p, lp_lesson p)) <$> qs_list (rows_of (A := LessonProgress) db)) ->
  progress_unique db.
Proof.
  intros Hnd i j p q Hi Hj He Hl. eapply nodup_fmap_inj; [exact Hnd| | |simpl; congruence];
    apply elem_of_qs_list; eauto.
Qed.

Lemma finished_course_completes_witness :
  standing all_done = Some (EnrollmentStatus.COMPLETED, 10000).
Proof.
  destruct (update_lesson_progress 1 3 (event 0 true true) (lms_env_at (sample_now + 3)) two_done)
    as [[p|err] db'] eqn:Hrun; [|vm_compute in Hrun; discriminate].
  assert (db' = all_done) as -> by (unfold all_done, after_event, after; by rewrite Hrun).
  destruct (rows_of (A := Enrollment) all_done !! 1) as [e|] eqn:He; [|vm_compute in He; discriminate].
  destruct (finished_course_completes (lms_env_at (sample_now + 3)) two_done all_done 1 3
              (event 0 true true) p) with (e' := e) as (Hp & Hs & _).
  - apply good_check; vm_compute; reflexivity.
  - exact Hrun.
  - apply good_check; vm_compute; reflexivity.
  - apply progress_unique_check. apply (bool_decide_unpack _). vm_compute. exact I.
  - exact He.
  - vm_compute in He. injection He as <-. vm_compute. discriminate.
  - vm_compute in He. injection He as <-.
    intros x Hx. apply list_elem_of_In in Hx. vm_compute in Hx.
    destruct Hx as [<-|[<-|[<-|[]]]]; vm_compute; reflexivity.
  - unfold standing. rewrite He. simpl. by rewrite Hp, Hs.
Defined.
