(* ===== verification/Quiz.v ===== *)
(** The quiz of a course, its attempts and the certificates: the second half of
    [src/apps/lms/services.py].

    A title made of the Persian prefix of [create_or_update_quiz] is UTF-8, so
    [max_length] counts the bytes of that prefix. *)

From S2P Require Import Prelude Python Choices Orm Models NotificationModels World.
From S2P Require Import Apps Notifications Sample Decimal LmsModels LmsSample Learning.
From Stdlib Require Import Ascii QArith_base.
#[local] Open Scope Z_scope.

(** * Editing a quiz *)

Inductive quiz_field : Type :=
| quiz_title (s : string)
| quiz_description (s : string)
| quiz_time_limit_minutes (z : Z)
| quiz_passing_score (z : Z)
| quiz_max_attempts (z : Z)
| quiz_retake_delay_days (z : Z)
| quiz_shuffle_questions (b : bool)
| quiz_shuffle_options (b : bool)
| quiz_show_result_immediately (b : bool)
| quiz_show_correct_answers_after_pass (b : bool)
| quiz_is_required_for_certificate (b : bool).

Definition set_quiz_field (f : quiz_field) (x : Quiz) : Quiz :=
  match f with
  | quiz_title s => x <| qz_title := s |>
  | quiz_description s => x <| qz_description := s |>
  | quiz_time_limit_minutes z => x <| qz_time_limit_minutes := z |>
  | quiz_passing_score z => x <| qz_passing_score := z |>
  | quiz_max_attempts z => x <| qz_max_attempts := z |>
  | quiz_retake_delay_days z => x <| qz_retake_delay_days := z |>
  | quiz_shuffle_questions b => x <| qz_shuffle_questions := b |>
  | quiz_shuffle_options b => x <| qz_shuffle_options := b |>
  | quiz_show_result_immediately b => x <| qz_show_result_immediately := b |>
  | quiz_show_correct_answers_after_pass b => x <| qz_show_correct_answers_after_pass := b |>
  | quiz_is_required_for_certificate b => x <| qz_is_required_for_certificate := b |>
  end.

Definition is_title (f : quiz_field) : bool :=
  match f with quiz_title _ => true | _ => false end.

(** A new [Quiz(course=..., title=...)], the columns at their defaults. *)
Definition new_quiz (i course : Z) (title : string) (now : Z) : Quiz :=
  mkQuiz i course title EmptyString QuizStatus.DRAFT 30 1200 2 14 true true true true true
    None true now now.

(** [fields.pop("title", ...)] runs before the look-up: the title is gone from
    the fields when an existing quiz is updated. *)
Definition create_or_update_quiz (course : Z) (fields : list quiz_field) : LM (Quiz * bool) :=
  atomic
    (c ← base_get (A := Course) course;
     now ← timezone_now;
     let others := List.filter (fun f => negb (is_title f)) fields in
     found ← get_or_create (A := Quiz) (fun q => qz_course q =? course)
       (fun i t => set_fields set_quiz_field fields
                     (new_quiz i course ("آزمون " +:+ crs_title c)%string t));
     let '(q, created) := (found : Quiz * bool) in
     if created then mret (q, true)
     else match others with
          | [] => mret (q, false)
          | _ =>
              _ ← update_row (qz_id q) (fun x : Quiz =>
                    set_fields set_quiz_field others x <| qz_updated_at := now |>);
              q' ← base_get (A := Quiz) (qz_id q);
              mret (q', false)
          end).

Definition create_quiz_question (quiz : Z) (text explanation : string) (order weight : Z) :
    LM QuizQuestion :=
  atomic (create (fun i now => mkQuizQuestion i quiz text explanation order weight true now now)).

Definition create_quiz_option (question : Z) (text : string) (is_correct : bool) (order : Z) :
    LM QuizOption :=
  atomic (create (fun i now => mkQuizOption i question text is_correct order true now now)).

Definition question_le (x y : QuizQuestion) : bool :=
  (qq_order x <? qq_order y) || (qq_order x =? qq_order y) && (qq_id x <=? qq_id y).

Definition option_le (x y : QuizOption) : bool :=
  (qo_order x <? qo_order y) || (qo_order x =? qo_order y) && (qo_id x <=? qo_id y).

Definition quiz_questions_of (quiz : Z) (db : LmsDB) : list QuizQuestion :=
  ordered_by question_le (qs_list (objects_filter (fun q => qq_quiz q =? quiz) db)).

Definition options_of (question : Z) (db : LmsDB) : list QuizOption :=
  ordered_by option_le (qs_list (objects_filter (fun o => qo_question o =? question) db)).

(** The first defect of [validate_quiz_publishable]. *)
Definition question_defect (db : LmsDB) (q : QuizQuestion) : option quiz_defect :=
  let options := options_of (qq_id q) db in
  if (length options <? 2)%nat then Some too_few_options
  else if (length (List.filter qo_is_correct options) =? 1)%nat then None
  else Some not_one_correct_option.

Fixpoint first_defect (db : LmsDB) (l : list QuizQuestion) : option quiz_defect :=
  match l with
  | [] => None
  | q :: l' => match question_defect db q with Some d => Some d | None => first_defect db l' end
  end.

Definition quiz_defect_of (quiz : Z) (db : LmsDB) : option quiz_defect :=
  match quiz_questions_of quiz db with
  | [] => Some no_questions
  | questions => first_defect db questions
  end.

Definition validate_quiz_publishable (quiz : Z) : LM unit :=
  defect ← query (quiz_defect_of quiz);
  match defect with
  | Some d => raise (QuizValidationError d)
  | None => mret tt
  end.

Definition publish_quiz (quiz : Z) : LM unit :=
  atomic
    (_ ← validate_quiz_publishable quiz;
     now ← timezone_now;
     update_row quiz (fun x : Quiz => x <| qz_status := QuizStatus.PUBLISHED |>
                                        <| qz_published_at := Some now |>
                                        <| qz_updated_at := now |>)).

(** * Attempts *)

(** The first row in a descending order, [before x y] for [x] ahead of [y]. *)
Definition first_by {A} (before : A -> A -> bool) (qs : gmap Z A) : option A :=
  map_fold (fun _ x acc => match acc with
                           | Some y => if before x y then Some x else acc
                           | None => Some x
                           end) None qs.

(** [order_by("-attempt_number")], [order_by("-started_at")], and
    [order_by("-submitted_at")] with the null column first. *)
Definition by_attempt_number (x y : QuizAttempt) : bool :=
  qa_attempt_number y <? qa_attempt_number x.
Definition by_started_at (x y : QuizAttempt) : bool := qa_started_at y <? qa_started_at x.
Definition by_submitted_at (x y : QuizAttempt) : bool :=
  match qa_submitted_at x, qa_submitted_at y with
  | None, Some _ => true
  | Some s, Some t => t <? s
  | _, None => false
  end.

Definition attempts_of (quiz user : Z) (P : QuizAttempt -> bool) (db : LmsDB) :
    gmap Z QuizAttempt :=
  objects_filter (fun a => (qa_quiz a =? quiz) && (qa_user a =? user) && P a) db.

Definition in_progress (a : QuizAttempt) : bool :=
  bool_decide (qa_status a = QuizAttemptStatus.IN_PROGRESS).

Definition terminal (a : QuizAttempt) : bool := negb (in_progress a).

Definition failed (a : QuizAttempt) : bool :=
  bool_decide (qa_status a = QuizAttemptStatus.FAILED).

Definition valid_unlocks_count (quiz user now : Z) (db : LmsDB) : Z :=
  qs_sum qu_extra_attempts (objects_filter (fun u => (qu_quiz u =? quiz) && (qu_user u =? user) &&
    match qu_valid_until u with Some t => now <=? t | None => true end) db).

Definition next_attempt_number (quiz user : Z) (db : LmsDB) : Z :=
  match first_by by_attempt_number (attempts_of quiz user (fun _ => true) db) with
  | Some a => qa_attempt_number a + 1
  | None => 1
  end.

(** [_build_attempt_snapshots]; the options of a question by its key. *)
Definition build_attempt_snapshots (env : LmsEnv) (q : Quiz) (db : LmsDB) :
    list Z * list (Z * list Z) :=
  let ids := map qq_id (quiz_questions_of (qz_id q) db) in
  let ids := if qz_shuffle_questions q then lenv_shuffle env None ids else ids in
  (ids, map (fun k => (k, let os := map qo_id (options_of k db) in
                          if qz_shuffle_options q then lenv_shuffle env (Some k) os else os)) ids).

Definition quiz_lessons_remaining (q : Quiz) (enrollment : option Enrollment) (db : LmsDB) : Z :=
  match enrollment with
  | None => 0
  | Some e =>
      if bool_decide (enr_status e = EnrollmentStatus.COMPLETED) then 0
      else Z.of_nat (length (List.filter
             (fun x => negb (completed_lesson (enr_id e) (les_id x) db))
             (qs_list (active_lessons (qz_course q) db))))
  end.

(** ** The state of the attempts, for the client *)

Inductive locked_reason : Type := passed | lessons_remaining | out_of_attempts | cooldown.

Record attempt_state : Type := mkAttemptState {
  as_enrolled : bool;
  as_has_in_progress : bool;
  as_attempts_used : Z;
  as_attempts_left : Z;
  as_allowed_attempts : Z;
  as_passed_before : bool;
  as_retry_at : option Z;
  as_locked_reason : option locked_reason;
  as_lessons_remaining : Z;
  as_can_attempt : bool;
}.

(** The cooldown branch of [get_quiz_attempt_state]: the time of the next attempt. *)
Definition cooldown_until (q : Quiz) (user next_attempt_number unlocks now : Z) (db : LmsDB) :
    option Z :=
  match first_by by_submitted_at
          (attempts_of (qz_id q) user (fun a => terminal a && failed a) db) with
  | None => None
  | Some last_failed =>
      match qa_submitted_at last_failed with
      | None => None
      | Some t =>
          let candidate := t + qz_retake_delay_days q * usec_per_day in
          if (next_attempt_number <=? qz_max_attempts q) && (unlocks <=? 0) && (now <? candidate)
          then Some candidate else None
      end
  end.

Definition attempt_state_of (q : Quiz) (user now : Z) (db : LmsDB) : attempt_state :=
  let enrollment := open_enrollment user (qz_course q) db in
  let number := next_attempt_number (qz_id q) user db in
  let unlocks := valid_unlocks_count (qz_id q) user now db in
  let allowed := qz_max_attempts q + unlocks in
  let used := Z.max (number - 1) 0 in
  let left := Z.max (allowed - used) 0 in
  let passed_before := qs_exists (attempts_of (qz_id q) user qa_is_passed db) in
  let live := qs_exists (attempts_of (qz_id q) user (fun a => in_progress a &&
                match qa_expires_at a with Some t => now <? t | None => true end) db) in
  let remaining := quiz_lessons_remaining q enrollment db in
  let until := cooldown_until q user number unlocks now db in
  let reason :=
    if passed_before then Some passed
    else if negb live && negb (remaining =? 0) then Some lessons_remaining
    else if allowed <? number then Some out_of_attempts
    else match until with Some _ => Some cooldown | None => None end in
  mkAttemptState (bool_decide (is_Some enrollment)) live used left allowed passed_before
    (match reason with Some cooldown => until | _ => None end) reason remaining
    (bool_decide (is_Some enrollment) && bool_decide (reason = None) && (live || (1 <=? left))).

Definition get_quiz_attempt_state (quiz user : Z) : LM attempt_state :=
  atomic
    (q ← base_get (A := Quiz) quiz;
     now ← timezone_now;
     query (attempt_state_of q user now)).

(** ** Starting an attempt *)

(** What [start_quiz_attempt] has read when it comes to create a new attempt. *)
Record attempt_plan : Type := mkAttemptPlan {
  ap_quiz : Quiz;
  ap_user : Z;
  ap_enrollment : Z;
  ap_number : Z;
  ap_questions : list Z;
  ap_options : list (Z * list Z);
}.

(** The attempt in progress: resumed, or marked expired.  The function is not
    atomic, so the mark stays whatever comes after. *)
Definition resume_or_expire (quiz user : Z) : LM (option QuizAttempt) :=
  now ← timezone_now;
  existing ← query (fun db => first_by by_started_at (attempts_of quiz user in_progress db));
  match existing with
  | None => mret None
  | Some a =>
      if match qa_expires_at a with Some t => t <=? now | None => false end
      then _ ← update_row (qa_id a) (fun x : QuizAttempt =>
                 x <| qa_status := QuizAttemptStatus.EXPIRED |> <| qa_updated_at := now |>);
           mret None
      else mret (Some a)
  end.

(** The conditions on a further attempt, and its number. *)
Definition check_further_attempt (q : Quiz) (user : Z) (e : Enrollment) : LM Z :=
  now ← timezone_now;
  passed_before ← query (fun db => qs_exists (attempts_of (qz_id q) user
                           (fun a => terminal a && qa_is_passed a) db));
  _ ← raise_if passed_before (QuizAttemptLockedError attempt_passed);
  remaining ← query (quiz_lessons_remaining q (Some e));
  _ ← raise_if (negb (remaining =? 0)) (QuizNotReadyError remaining);
  number ← query (next_attempt_number (qz_id q) user);
  unlocks ← query (valid_unlocks_count (qz_id q) user now);
  _ ← raise_if (qz_max_attempts q + unlocks <? number) (QuizAttemptLockedError attempts_used_up);
  last_failed ← query (fun db => first_by by_submitted_at
                         (attempts_of (qz_id q) user (fun a => terminal a && failed a) db));
  match last_failed with
  | Some a =>
      if number <=? qz_max_attempts q then
        match qa_submitted_at a with
        | None => raise LmsTypeError
        | Some t =>
            _ ← raise_if ((unlocks <=? 0) &&
                          (now <? t + qz_retake_delay_days q * usec_per_day))
                  (QuizAttemptLockedError retake_delay);
            mret number
        end
      else mret number
  | None => mret number
  end.

(** [start_quiz_attempt] up to the creation of the attempt. *)
Definition plan_quiz_attempt (quiz user : Z) : LM (QuizAttempt + attempt_plan) :=
  env ← ask;
  q ← base_get (A := Quiz) quiz;
  _ ← raise_if (negb (bool_decide (qz_status q = QuizStatus.PUBLISHED)) || negb (qz_is_active q))
        QuizNotAvailableError;
  enrollment ← query (open_enrollment user (qz_course q));
  match enrollment with
  | None => raise QuizNotAvailableError
  | Some e =>
      resumed ← resume_or_expire quiz user;
      match resumed with
      | Some a => mret (inl a)
      | None =>
          number ← check_further_attempt q user e;
          _ ← validate_quiz_publishable quiz;
          snapshots ← query (build_attempt_snapshots env q);
          mret (inr (mkAttemptPlan q user (enr_id e) number
                       (snapshots : list Z * list (Z * list Z)).1
                       (snapshots : list Z * list (Z * list Z)).2))
      end
  end.

Definition new_attempt (p : attempt_plan) (i now : Z) : QuizAttempt :=
  mkQuizAttempt i (qz_id (ap_quiz p)) (qz_course (ap_quiz p)) (ap_user p) (ap_enrollment p)
    (ap_number p) QuizAttemptStatus.IN_PROGRESS now None
    (Some (now + qz_time_limit_minutes (ap_quiz p) * usec_per_min)) 0 0 0 false EmptyString
    (ap_questions p) (ap_options p) true now now.

Definition start_statement (course : Course) (a : QuizAttempt) : statement_request :=
  mkStatementRequest (qa_user a) course None (Some (qa_enrollment a)) (Some (qa_id a)) None
    LearningStatementVerb.INITIALIZED "quiz_attempt" (pretty (qa_id a))
    [("attempt_number"%string, JInt (qa_attempt_number a))]
    [("quiz_id"%string, JInt (qa_quiz a)); ("source"%string, JStr "quiz_start")]
    (Some ("quiz-start:" +:+ pretty (qa_id a))%string).

Definition open_quiz_attempt (p : attempt_plan) : LM QuizAttempt :=
  a ← create (new_attempt p);
  course ← base_get (A := Course) (qa_course a);
  _ ← record_learning_activity_statement (start_statement course a);
  mret a.

Definition start_quiz_attempt (quiz user : Z) : LM (QuizAttempt * bool) :=
  r ← plan_quiz_attempt quiz user;
  match r with
  | inl a => mret (a, false)
  | inr p => a ← open_quiz_attempt p; mret (a, true)
  end.

Definition unlock_quiz_for_user (quiz user unlocked_by : Z) (reason : string)
    (extra_attempts : Z) (valid_until : option Z) : LM QuizUnlock :=
  atomic
    (q ← base_get (A := Quiz) quiz;
     create (fun i now => mkQuizUnlock i quiz (qz_course q) user unlocked_by reason
                            extra_attempts valid_until true now now)).

(** * Certificates *)

Definition badge_level_for_score (score : Z) : BadgeLevel.t :=
  if 1950 <=? score then BadgeLevel.DISTINCTION
  else if 1800 <=? score then BadgeLevel.GOLD
  else if 1600 <=? score then BadgeLevel.SILVER
  else BadgeLevel.BRONZE.

Definition notify_lms_certificate_issued (c : Certificate) : M NotificationEvent :=
  emit_domain_notification "lms.certificate_issued" (cert_user c)
    [("title"%string, JStr "مدرک آموزشی شما صادر شد");
     ("course_title"%string, JStr (cert_course_title_snapshot c));
     ("certificate_code"%string, JStr (cert_certificate_code c))]
    (Some (cert_user c)) "lms_certificate" (pretty (cert_id c)) [] NotificationPriority.NORMAL.

(** The skill of a certificate, with the slug of [LMSUserSkill.save]. *)
Definition new_skill (slugify : string -> string) (c : Certificate) (i now : Z) : LMSUserSkill :=
  mkSkill i (cert_user c) (cert_course c) (cert_id c) (cert_course_title_snapshot c)
    (str_or (py_prefix 300 (slugify (cert_course_title_snapshot c)))
            ("skill-" +:+ pretty (cert_course c))%string)
    (badge_level_for_score (cert_score_out_of_20 c)) now true now now.

Definition create_skill_for_certificate (c : Certificate) : LM LMSUserSkill :=
  atomic
    (env ← ask;
     found ← get_or_create (A := LMSUserSkill)
       (fun s => (skl_user s =? cert_user c) && (skl_course s =? cert_course c))
       (new_skill (env_slugify (lenv_site env)) c);
     let '(skill, created) := (found : LMSUserSkill * bool) in
     _ ← (if created : bool then (_ ← on_site (notify_lms_certificate_issued c); mret tt)
          else mret tt);
     mret skill).

(** [ensure_certificate_pdf_ready] *)
Definition ensure_certificate_pdf_ready (c : Certificate) : LM bool :=
  if has_file (cert_pdf_file c) then mret true
  else
    env ← ask;
    now ← timezone_now;
    match lenv_build_pdf env c with
    | None => mret false
    | Some name =>
        try_catch (_ ← update_row (cert_id c) (fun x : Certificate =>
                          x <| cert_pdf_file := Some name |> <| cert_updated_at := now |>);
                   mret true)
                  (fun _ => Some (mret false))
    end.

Definition complete_enrollment_after_pass (a : QuizAttempt) : LM bool :=
  atomic
    (e ← base_get (A := Enrollment) (qa_enrollment a);
     now ← timezone_now;
     if bool_decide (enr_status e = EnrollmentStatus.COMPLETED) then mret false
     else
       _ ← update_row (qa_enrollment a) (fun x : Enrollment =>
             x <| enr_status := EnrollmentStatus.COMPLETED |>
               <| enr_completed_at := Some now |> <| enr_updated_at := now |>);
       _ ← sync_course_counters (qa_course a);
       mret true).

(** The certificate of an attempt, with the codes of [Certificate.save]. *)
Definition new_certificate (hex : Z -> string) (user : option User) (learner : Learner)
    (course : Course) (a : QuizAttempt) (i now : Z) : Certificate :=
  let first_name := default EmptyString (usr_first_name <$> user) in
  let last_name := default EmptyString (usr_last_name <$> user) in
  let code := hex_upper (py_prefix 24 (hex i)) in
  mkCertificate i (qa_user a) (qa_course a) (qa_enrollment a) (qa_id a) code (py_lower code)
    CertificateStatus.ISSUED
    (str_or (default EmptyString (user_full_name <$> user))
            (py_strip (first_name +:+ " " +:+ last_name)))
    (default EmptyString (snd <$> lr_profile learner))
    (default EmptyString (fst <$> lr_profile learner))
    (crs_title course) (crs_instructor_name course) (qa_score_out_of_20 a) now None None
    EmptyString None true now now.

Definition certificate_statement (course : Course) (a : QuizAttempt) (c : Certificate) :
    statement_request :=
  mkStatementRequest (qa_user a) course None (Some (qa_enrollment a)) (Some (qa_id a))
    (Some (cert_id c)) LearningStatementVerb.CERTIFICATE_ISSUED "certificate" (pretty (cert_id c))
    [("certificate_code"%string, JStr (cert_certificate_code c));
     ("score_out_of_20"%string, JFloat (cert_score_out_of_20 c # 100))]
    [("source"%string, JStr "certificate_issue")]
    (Some ("certificate-issued:" +:+ pretty (cert_id c))%string).

Definition issue_certificate_for_attempt (a : QuizAttempt) : LM Certificate :=
  atomic
    (_ ← raise_if (negb (qa_is_passed a)) CertificateIssueError;
     env ← ask;
     course ← base_get (A := Course) (qa_course a);
     user ← query (fun db => users (site db) !! qa_user a);
     learner ← query (learner_of (qa_user a));
     found ← get_or_create (A := Certificate)
       (fun c => (cert_user c =? qa_user a) && (cert_course c =? qa_course a))
       (new_certificate (lenv_uuid4_hex env) user learner course a);
     let '(c, created) := (found : Certificate * bool) in
     _ ← (if created && negb (has_file (cert_pdf_file c))
          then ensure_certificate_pdf_ready c else mret true);
     _ ← record_learning_activity_statement (certificate_statement course a c);
     _ ← create_skill_for_certificate c;
     _ ← complete_enrollment_after_pass a;
     mret c).

(** The reverse of a one-to-one relation is read without the filter. *)
Definition skill_of_certificate (certificate : Z) (db : LmsDB) : option LMSUserSkill :=
  qs_first (filter (fun kx => (skl_certificate kx.2 =? certificate) = true)
              (rows_of (A := LMSUserSkill) db)).

Definition revoke_certificate (certificate revoked_by : Z) (reason : string) : LM unit :=
  atomic
    (now ← timezone_now;
     _ ← update_row certificate (fun x : Certificate =>
           x <| cert_status := CertificateStatus.REVOKED |>
             <| cert_revoked_by := Some revoked_by |> <| cert_revoked_at := Some now |>
             <| cert_revocation_reason := reason |> <| cert_updated_at := now |>);
     skill ← query (skill_of_certificate certificate);
     match skill with
     | None => mret tt
     | Some s => update_row (skl_id s) (fun x : LMSUserSkill =>
                   x <| skl_is_active := false |> <| skl_updated_at := now |>)
     end).

(** * Submitting an attempt *)

(** [{int(item["question_id"]): int(item["selected_option_id"]) for item in answers}] *)
Definition answer_map (answers : list (Z * Z)) : gmap Z Z :=
  fold_left (fun m a => <[a.1 := a.2]> m) answers ∅.

(** [Model.objects.filter(pk__in=keys)] as a dictionary by key *)
Definition by_keys {A} `{Model LmsDB A} (keys : list Z) (db : LmsDB) : gmap Z A :=
  objects_filter (fun x => bool_decide (pk x ∈ keys)) db.

Definition delete_answers (attempt : Z) (db : LmsDB) : LmsDB :=
  db <| quiz_answers := mkTable
          (filter (fun kx => negb (qn_is_active kx.2 && (qn_attempt kx.2 =? attempt)) = true)
             (rows (quiz_answers db)))
          (next_id (quiz_answers db)) |>.

(** [d[k]] *)
Definition dict_get {A} (k : Z) (d : gmap Z A) : LM A :=
  match d !! k with Some x => mret x | None => raise LmsKeyError end.

Definition snapshot_options (a : QuizAttempt) (question : Z) : list Z :=
  match List.find (fun ko => ko.1 =? question) (qa_option_order_snapshot a) with
  | Some ko => ko.2
  | None => []
  end.

Definition answer_correct (question : Z) (o : QuizOption) : bool :=
  (qo_question o =? question) && qo_is_correct o.

(** The body of the loop: the answer to one question, and the weight awarded so
    far. *)
Definition grade_question (a : QuizAttempt) (chosen : gmap Z Z) (questions : gmap Z QuizQuestion)
    (options : gmap Z QuizOption) (awarded question : Z) : LM Z :=
  selected ← dict_get question chosen;
  _ ← raise_if (negb (bool_decide (selected ∈ snapshot_options a question)))
        (QuizAttemptSubmissionError option_not_allowed);
  o ← dict_get selected options;
  q ← dict_get question questions;
  let is_correct := answer_correct question o in
  let score := if is_correct then qq_weight q else 0 in
  _ ← create (fun i now => mkQuizAnswer i (qa_id a) question selected is_correct (qq_weight q)
                             score now true now now);
  mret (awarded + score).

(** The graded attempt: the columns [submit_quiz_attempt] stores. *)
Definition graded (now passing_score awarded total : Z) (a : QuizAttempt) : QuizAttempt :=
  let percent := if total =? 0 then 0 else share awarded total 100 in
  let score := if total =? 0 then 0 else share awarded total 20 in
  let is_passed := passing_score <=? score in
  a <| qa_score_raw := awarded |>
    <| qa_score_percent := percent |>
    <| qa_score_out_of_20 := score |>
    <| qa_is_passed := is_passed |>
    <| qa_status := (if is_passed then QuizAttemptStatus.PASSED else QuizAttemptStatus.FAILED) |>
    <| qa_submitted_at := Some now |>
    <| qa_updated_at := now |>.

Definition submit_statement (course : Course) (a : QuizAttempt) : statement_request :=
  mkStatementRequest (qa_user a) course None (Some (qa_enrollment a)) (Some (qa_id a)) None
    (if qa_is_passed a then LearningStatementVerb.PASSED else LearningStatementVerb.FAILED)
    "quiz_attempt" (pretty (qa_id a))
    [("score_percent"%string, JFloat (qa_score_percent a # 100));
     ("score_out_of_20"%string, JFloat (qa_score_out_of_20 a # 100));
     ("is_passed"%string, JBool (qa_is_passed a))]
    [("quiz_id"%string, JInt (qa_quiz a)); ("source"%string, JStr "quiz_submit")]
    (Some ("quiz-submit:" +:+ pretty (qa_id a))%string).

(** The sum of the weights; a question that is no longer there is a KeyError. *)
Fixpoint total_weight (questions : gmap Z QuizQuestion) (ids : list Z) : LM Z :=
  match ids with
  | [] => mret 0
  | k :: ids' =>
      q ← dict_get k questions;
      rest ← total_weight questions ids';
      mret (qq_weight q + rest)
  end.

(** The reading and grading of the answers: the weight awarded and the total. *)
Definition grade_answers (a : QuizAttempt) (answers : list (Z * Z)) : LM (Z * Z) :=
  let ids := qa_question_snapshot a in
  let chosen := answer_map answers in
  _ ← raise_if (negb (bool_decide (dom chosen = list_to_set (C := gset Z) ids)))
        (QuizAttemptSubmissionError answers_incomplete);
  questions ← query (by_keys (A := QuizQuestion) ids);
  options ← query (by_keys (A := QuizOption) (map_to_list chosen).*2);
  total ← total_weight questions ids;
  _ ← modify (delete_answers (qa_id a));
  awarded ← for_fold (grade_question a chosen questions options) 0 ids;
  mret (awarded, total).

Definition submit_quiz_attempt (attempt : Z) (answers : list (Z * Z)) : LM QuizAttempt :=
  atomic
    (now ← timezone_now;
     a ← objects_get (A := QuizAttempt) attempt;
     quiz ← base_get (A := Quiz) (qa_quiz a);
     _ ← raise_if (negb (in_progress a)) (QuizAttemptSubmissionError attempt_not_open);
     _ ← (if match qa_expires_at a with Some t => t <=? now | None => false end
          then _ ← update_row attempt (fun x : QuizAttempt =>
                     x <| qa_status := QuizAttemptStatus.EXPIRED |>
                       <| qa_submitted_at := Some now |> <| qa_updated_at := now |>);
               raise (QuizAttemptSubmissionError attempt_time_over)
          else mret tt);
     scores ← grade_answers a answers;
     let a' := graded now (qz_passing_score quiz) (scores : Z * Z).1 (scores : Z * Z).2 a in
     _ ← update_row attempt
           (graded now (qz_passing_score quiz) (scores : Z * Z).1 (scores : Z * Z).2);
     course ← base_get (A := Course) (qa_course a);
     _ ← record_learning_activity_statement (submit_statement course a');
     _ ← (if qa_is_passed a' then
            (if qz_is_required_for_certificate quiz
             then (_ ← issue_certificate_for_attempt a'; mret tt)
             else (_ ← complete_enrollment_after_pass a'; mret tt))
          else mret tt);
     mret a').

#[local] Arguments set_row : simpl never.
#[local] Arguments add_row : simpl never.
#[local] Arguments table_of : simpl never.
#[local] Arguments rows_of : simpl never.

(** * Late submissions *)

(** a submission that comes too late is refused and leaves no trace: the
    attempt is marked EXPIRED inside the atomic block that the exception then
    undoes, so the database is as it was and the attempt still in progress. *)
Theorem late_submission_leaves_no_trace (env : LmsEnv) (db : LmsDB) (attempt : Z)
    (answers : list (Z * Z)) (a : QuizAttempt) (q : Quiz) (t : Z)
    (Ha : rows_of db !! attempt = Some a) (Hact : qa_is_active a = true)
    (Hok : row_ok (delete attempt (rows_of db)) a = true)
    (Hq : rows_of db !! qa_quiz a = Some q)
    (Hopen : qa_status a = QuizAttemptStatus.IN_PROGRESS)
    (Hexp : qa_expires_at a = Some t) (Hlate : t <= clock env) :
  submit_quiz_attempt attempt answers env db
  = (Raise (QuizAttemptSubmissionError attempt_time_over), db).
Proof.
  unfold submit_quiz_attempt. eapply atomic_raise. erewrite bind_ok by reflexivity.
  erewrite bind_ok by (by apply objects_get_ok).
  erewrite bind_ok by (by apply base_get_ok).
  erewrite bind_ok by (apply raise_if_false; unfold in_progress; by rewrite Hopen).
  rewrite Hexp, (proj2 (Z.leb_le _ _)) by exact Hlate.
  erewrite bind_raise; [reflexivity|]. erewrite bind_ok; [reflexivity|].
  apply update_row_ok; [exact Ha|exact Hok].
Qed.

(** * Marks *)

Definition question_weight (db : LmsDB) (k : Z) : Z :=
  match rows_of (A := QuizQuestion) db !! k with Some q => qq_weight q | None => 0 end.

(** The weight that the answer to a question earns. *)
Definition earned (db : LmsDB) (chosen : gmap Z Z) (k : Z) : Z :=
  match o ← chosen !! k; rows_of (A := QuizOption) db !! o with
  | Some o => if answer_correct k o then question_weight db k else 0
  | None => 0
  end.

Lemma dict_get_ok_inv {A} k (d : gmap Z A) (env : LmsEnv) db x db' :
  dict_get k d env db = (Ok x, db') -> d !! k = Some x /\ db' = db.
Proof. unfold dict_get. destruct (d !! k); [by intros [= <- <-]|done]. Qed.

Lemma by_keys_lookup {A} `{Model LmsDB A} keys db k (x : A) :
  by_keys keys db !! k = Some x -> rows_of db !! k = Some x.
Proof. by intros (Hk & _)%objects_filter_lookup. Qed.

Lemma total_weight_ok db0 keys ids : forall (env : LmsEnv) db t db',
  total_weight (by_keys keys db0) ids env db = (Ok t, db') ->
  t = sum_of (question_weight db0) ids /\ db' = db.
Proof.
  induction ids as [|k ids IH]; intros env db t db'; simpl.
  - by intros [= <- <-].
  - intros Hrun. comp_inv Hrun. apply dict_get_ok_inv in H as [Hk ->].
    apply IH in H1 as [-> ->]. split; [|done]. unfold question_weight at 2.
    by rewrite (by_keys_lookup _ _ _ _ Hk).
Qed.

Lemma grade_questions_ok a chosen keys keys' db0 ids : forall (env : LmsEnv) db acc r db',
  for_fold (grade_question a chosen (by_keys keys db0) (by_keys keys' db0)) acc ids env db
    = (Ok r, db') ->
  r = acc + sum_of (earned db0 chosen) ids /\
  Forall (fun k => exists o, chosen !! k = Some o /\ o ∈ snapshot_options a k) ids.
Proof.
  induction ids as [|k ids IH]; intros env db acc r db'; simpl.
  - intros [= <- <-]. split; [lia|constructor].
  - intros Hrun. apply bind_ok_inv in Hrun as (acc' & s & Hbody & Hrest).
    apply IH in Hrest as [-> Hall]. unfold grade_question in Hbody. comp_inv Hbody.
    repeat match goal with
    | Hr : dict_get _ _ _ _ = _ |- _ =>
        let Hd := fresh "Hd" in apply dict_get_ok_inv in Hr as [Hd ->]
    end.
    apply negb_false_iff, bool_decide_eq_true in Hc.
    split; [|constructor; eauto].
    unfold earned at 2, question_weight. rewrite Hd1. simpl.
    rewrite (by_keys_lookup _ _ _ _ Hd0), (by_keys_lookup _ _ _ _ Hd). lia.
Qed.

(** ** The tables a service leaves alone *)

Section Frames.
Context {A : Type} `{HA : Model LmsDB A}.
Context `{HS : !OtherTable LearningActivityStatement A}.

Lemma statement_same r : moves (same_table A) (record_learning_activity_statement r).
Proof. unfold record_learning_activity_statement. solve_moves. Qed.
#[local] Hint Resolve statement_same : moves.

Lemma total_weight_same questions ids : moves (same_table A) (total_weight questions ids).
Proof.
  induction ids as [|k ids IH]; simpl; [solve_moves|]. unfold dict_get. solve_moves.
Qed.
#[local] Hint Resolve total_weight_same : moves.

Lemma grade_answers_same `{!OtherTable QuizAnswer A} a answers :
  moves (same_table A) (grade_answers a answers).
Proof.
  unfold grade_answers, grade_question, dict_get. solve_moves.
  intros env db. exact (other_table (A := QuizAnswer) (B := A) _ _).
Qed.

Context `{!OtherTable Certificate A, !OtherTable LMSUserSkill A, !OtherTable Enrollment A,
          !OtherTable Course A}.
Hypothesis site_other : forall s db, table_of (A := A) (db <| site := s |>) = table_of db.

Lemma counters_same c : moves (same_table A) (sync_course_counters c).
Proof. unfold sync_course_counters. solve_moves. Qed.
#[local] Hint Resolve counters_same : moves.

Lemma complete_enrollment_same a : moves (same_table A) (complete_enrollment_after_pass a).
Proof. unfold complete_enrollment_after_pass. solve_moves. Qed.
#[local] Hint Resolve complete_enrollment_same : moves.

Lemma skill_same c : moves (same_table A) (create_skill_for_certificate c).
Proof. unfold create_skill_for_certificate. solve_moves. Qed.
#[local] Hint Resolve skill_same : moves.

Lemma pdf_same c : moves (same_table A) (ensure_certificate_pdf_ready c).
Proof.
  unfold ensure_certificate_pdf_ready. solve_moves.
  apply moves_try_catch; [typeclasses eauto|solve_moves|]. intros e m [= <-]. solve_moves.
Qed.
#[local] Hint Resolve pdf_same : moves.

Lemma issue_same a : moves (same_table A) (issue_certificate_for_attempt a).
Proof. unfold issue_certificate_for_attempt. solve_moves. Qed.
End Frames.

(** ** What a submission does *)

Lemma submit_inv i answers (env : LmsEnv) db a' db' :
  submit_quiz_attempt i answers env db = (Ok a', db') ->
  exists a quiz awarded total s1 course st s2,
    rows_of db !! i = Some a /\ rows_of db !! qa_quiz a = Some quiz /\ in_progress a = true /\
    grade_answers a answers env db = (Ok (awarded, total), s1) /\
    a' = graded (clock env) (qz_passing_score quiz) awarded total a /\
    record_learning_activity_statement (submit_statement course a') env (set_row i a' s1)
      = (Ok st, s2) /\
    (if qa_is_passed a'
     then if qz_is_required_for_certificate quiz
          then exists c, issue_certificate_for_attempt a' env s2 = (Ok c, db')
          else exists b, complete_enrollment_after_pass a' env s2 = (Ok b, db')
     else db' = s2).
Proof.
  unfold submit_quiz_attempt. intros Hrun. comp_inv Hrun.
  apply negb_false_iff in Hc.
  destruct (match qa_expires_at a with Some t => t <=? clock env | None => false end).
  { exfalso. comp_inv H. }
  injection H as _ <-. destruct a3 as [awarded total]. cbn [fst snd] in *.
  pose proof (moves_ok _ _ _ _ _ _ (grade_answers_same (A := QuizAttempt) a answers) H1) as Hsame.
  rewrite (same_table_rows _ _ Hsame), Hrow in Hrow1. injection Hrow1 as <-.
  exists a, a0, awarded, total, s0, a5, a6, s1. repeat (split; [assumption|]).
  split; [reflexivity|]. split; [assumption|]. destruct (qa_is_passed _).
  - destruct (qz_is_required_for_certificate a0); comp_inv H2; eauto.
  - by injection H2 as _ <-.
Qed.

Lemma grade_answers_inv a answers (env : LmsEnv) db awarded total db' :
  grade_answers a answers env db = (Ok (awarded, total), db') ->
  let chosen := answer_map answers in
  dom chosen = list_to_set (C := gset Z) (qa_question_snapshot a) /\
  awarded = sum_of (earned db chosen) (qa_question_snapshot a) /\
  total = sum_of (question_weight db) (qa_question_snapshot a) /\
  Forall (fun k => exists o, chosen !! k = Some o /\ o ∈ snapshot_options a k)
    (qa_question_snapshot a).
Proof.
  unfold grade_answers. intros Hrun. comp_inv Hrun.
  apply negb_false_iff, bool_decide_eq_true in Hc. split; [exact Hc|].
  match goal with Hr : total_weight _ _ _ _ = _ |- _ => apply total_weight_ok in Hr as [-> _] end.
  match goal with Hr : for_fold _ _ _ _ _ = _ |- _ =>
    apply grade_questions_ok in Hr as [-> Hall] end.
  match goal with Hr : (_, _) = (awarded, total) |- _ => injection Hr as <- <- end.
  split; [lia|]. done.
Qed.

Lemma sum_of_le {A} (f g : A -> Z) l : (forall x, x ∈ l -> f x <= g x) -> sum_of f l <= sum_of g l.
Proof.
  induction l as [|x l IH]; intros Hl; simpl; [lia|].
  assert (f x <= g x) by (apply Hl; left).
  assert (sum_of f l <= sum_of g l) by (apply IH; intros; apply Hl; by right). lia.
Qed.

Lemma earned_bounds db chosen k : 0 <= question_weight db k ->
  0 <= earned db chosen k <= question_weight db k.
Proof. intros Hw. unfold earned. case_match; [case_match; lia|lia]. Qed.

(** C29: a submission that is accepted answered exactly the questions of the
    attempt, each with an option it offered, and the marks are the share of the
    weights earned: raw, in percent and out of 20, rounded half to even.  It is
    passed exactly when the mark reaches the passing score.  With weights that
    are not negative the marks stay between 0 and 100 and between 0 and 20, and
    a faultless attempt of positive weight has full marks. *)
Theorem marks_are_the_share_earned (env : LmsEnv) (db db' : LmsDB) (i : Z)
    (answers : list (Z * Z)) (a' : QuizAttempt)
    (Hrun : submit_quiz_attempt i answers env db = (Ok a', db')) :
  exists a quiz, rows_of db !! i = Some a /\ rows_of db !! qa_quiz a = Some quiz /\
    let ids := qa_question_snapshot a in
    let chosen := answer_map answers in
    let raw := sum_of (earned db chosen) ids in
    let total := sum_of (question_weight db) ids in
    dom chosen = list_to_set (C := gset Z) ids /\
    (forall k, k ∈ ids -> exists o, chosen !! k = Some o /\ o ∈ snapshot_options a k) /\
    qa_score_raw a' = raw /\
    qa_score_percent a' = (if total =? 0 then 0 else share raw total 100) /\
    qa_score_out_of_20 a' = (if total =? 0 then 0 else share raw total 20) /\
    (qa_is_passed a' = true <-> qz_passing_score quiz <= qa_score_out_of_20 a') /\
    qa_status a' = (if qa_is_passed a' then QuizAttemptStatus.PASSED else QuizAttemptStatus.FAILED) /\
    ((forall k, k ∈ ids -> 0 <= question_weight db k) ->
     0 <= qa_score_percent a' <= 10000 /\ 0 <= qa_score_out_of_20 a' <= 2000 /\
     (0 < total -> (forall k, k ∈ ids -> earned db chosen k = question_weight db k) ->
      qa_score_percent a' = 10000 /\ qa_score_out_of_20 a' = 2000)).
Proof.
  apply submit_inv in Hrun as
    (a & quiz & awarded & total & s1 & course & st & s2 & Ha & Hq & _ & Hgrade & -> & _).
  apply grade_answers_inv in Hgrade as (Hdom & -> & -> & Hall). rewrite Forall_forall in Hall.
  exists a, quiz. do 2 (split; [done|]). cbv zeta. do 2 (split; [done|]).
  unfold graded. simpl. do 3 (split; [done|]). split; [by rewrite Z.leb_le|]. split; [done|].
  intros Hw. set (raw := sum_of (earned _ _) _). set (total := sum_of (question_weight _) _).
  assert (0 <= raw <= total) as Hraw.
  { split; [|apply sum_of_le; intros; by apply earned_bounds, Hw].
    transitivity (sum_of (fun _ : Z => 0) (qa_question_snapshot a)).
    - by rewrite (sum_of_const _ 0).
    - apply sum_of_le. intros k Hk. by apply earned_bounds, Hw. }
  destruct (Z.eqb_spec total 0) as [Hz|Hz].
  - split; [lia|]. split; [lia|]. lia.
  - pose proof (share_bounds raw total 100). pose proof (share_bounds raw total 20).
    split; [lia|]. split; [lia|]. intros Hpos Hfull.
    assert (raw = total) as ->.
    { unfold raw, total. clear - Hfull. induction (qa_question_snapshot a) as [|k l IH]; [done|].
      simpl. rewrite (Hfull k) by left. rewrite IH; [done|]. intros; apply Hfull; by right. }
    by rewrite !share_whole by lia.
Qed.

(** ** What passing brings *)

(** A certificate without the columns its PDF touches. *)
Definition certified (c : Certificate) : Certificate :=
  c <| cert_pdf_file := None |> <| cert_updated_at := 0 |>.
Definition same_certificate (c c' : Certificate) : Prop := certified c' = certified c.

#[export] Instance same_certificate_preorder : PreOrder same_certificate.
Proof. unfold same_certificate. split; repeat intro; congruence. Qed.

Lemma pdf_keeps c : moves (kept same_certificate) (ensure_certificate_pdf_ready c).
Proof.
  unfold ensure_certificate_pdf_ready. solve_moves.
  apply moves_try_catch; [typeclasses eauto| |intros e m [= <-]; solve_moves].
  apply moves_bind; [typeclasses eauto| |solve_moves].
  apply moves_update_row; [typeclasses eauto|]. intros x db Hx.
  by eapply kept_set_row; [typeclasses eauto|exact Hx|..].
Qed.

Lemma counters_keep c : moves (kept same_certificate) (sync_course_counters c).
Proof. unfold sync_course_counters. solve_moves. Qed.
#[local] Hint Resolve pdf_keeps counters_keep : moves.

Lemma rest_keeps :
  (forall r, moves (kept same_certificate) (record_learning_activity_statement r)) /\
  (forall c, moves (kept same_certificate) (create_skill_for_certificate c)) /\
  (forall a, moves (kept same_certificate) (complete_enrollment_after_pass a)).
Proof.
  unfold record_learning_activity_statement, create_skill_for_certificate,
    complete_enrollment_after_pass.
  split; [solve_moves|]. split; solve_moves.
Qed.

Lemma complete_enrollment_ok a (env : LmsEnv) db b db' :
  complete_enrollment_after_pass a env db = (Ok b, db') ->
  exists e, rows_of (A := Enrollment) db' !! qa_enrollment a = Some e /\
    enr_status e = EnrollmentStatus.COMPLETED.
Proof.
  unfold complete_enrollment_after_pass. intros Hrun. comp_inv Hrun.
  destruct (bool_decide (enr_status a0 = EnrollmentStatus.COMPLETED)) eqn:Hst.
  - apply bool_decide_eq_true in Hst. injection H1 as _ <-. eauto.
  - comp_inv H1. match goal with Hr : sync_course_counters _ _ _ = _ |- _ =>
      apply sync_course_counters_inv in Hr as (c & _ & ->) end.
    rewrite rows_of_set_row_other, rows_of_set_row. eexists. split; [apply lookup_insert_eq|done].
Qed.

Lemma create_skill_ok c (env : LmsEnv) db s db' :
  table_good (A := LMSUserSkill) (table_of db) ->
  create_skill_for_certificate c env db = (Ok s, db') ->
  exists k, rows_of (A := LMSUserSkill) db' !! k = Some s /\
    skl_user s = cert_user c /\ skl_course s = cert_course c /\ skl_is_active s = true.
Proof.
  unfold create_skill_for_certificate. intros Hg Hrun. comp_inv Hrun. destruct a as [x b].
  pose proof H as Hm. apply get_or_create_matches in Hm as [Ha Hp].
  2: { intros i now. simpl. by rewrite !Z.eqb_refl. }
  apply get_or_create_stored in H as [_ Hx]; [|done|done].
  apply andb_true_iff in Hp as [Hu%Z.eqb_eq Hc%Z.eqb_eq]. exists (pk x).
  assert (same_table LMSUserSkill s0 db' /\ s = x) as [Hs ->].
  { destruct b; comp_inv H1; [|done].
    match goal with Hr : on_site _ _ _ = _ |- _ =>
      apply (moves_ok (same_table LMSUserSkill)) in Hr; [done|auto with moves] end. }
  by rewrite (same_table_rows _ _ Hs).
Qed.

Lemma issue_ok a (env : LmsEnv) db c db' :
  table_good (A := Certificate) (table_of db) -> table_good (A := LMSUserSkill) (table_of db) ->
  issue_certificate_for_attempt a env db = (Ok c, db') ->
  cert_user c = qa_user a /\ cert_course c = qa_course a /\
  (exists c', rows_of (A := Certificate) db' !! cert_id c = Some c' /\ same_certificate c c') /\
  (exists k s, rows_of (A := LMSUserSkill) db' !! k = Some s /\ skl_user s = qa_user a /\
    skl_course s = qa_course a /\ skl_is_active s = true) /\
  exists e, rows_of (A := Enrollment) db' !! qa_enrollment a = Some e /\
    enr_status e = EnrollmentStatus.COMPLETED.
Proof.
  unfold issue_certificate_for_attempt. intros Hgc Hgs Hrun. comp_inv Hrun.
  destruct a2 as [c0 b].
  pose proof H as Hm. apply get_or_create_matches in Hm as [_ Hp].
  2: { intros i now. simpl. by rewrite !Z.eqb_refl. }
  apply andb_true_iff in Hp as [Hu%Z.eqb_eq Hco%Z.eqb_eq].
  pose proof (get_or_create_other (B := LMSUserSkill) _ _ _ _ _ _ _ H) as Hskill.
  apply get_or_create_stored in H as [Hgc' Hx]; [|done|done].
  destruct rest_keeps as (Hk1 & Hk2 & Hk3).
  apply bind_ok_inv in H1 as (pdf & s1 & Hpdf & H1).
  apply bind_ok_inv in H1 as (st & s2 & Hst & H1).
  apply bind_ok_inv in H1 as (sk & s3 & Hsk & H1).
  apply bind_ok_inv in H1 as (done' & s4 & Hdone & H1). injection H1 as -> ->.
  assert (moves (kept same_certificate) (if b && negb (has_file (cert_pdf_file c))
            then ensure_certificate_pdf_ready c else mret true)) as Hmp by solve_moves.
  assert (moves (same_table LMSUserSkill) (if b && negb (has_file (cert_pdf_file c))
            then ensure_certificate_pdf_ready c else mret true)) as Hms.
  { destruct (_ && _); [by apply pdf_same|solve_moves]. }
  pose proof (moves_ok _ _ _ _ _ _ (statement_same (A := LMSUserSkill) _) Hst) as Hs2.
  pose proof (moves_ok _ _ _ _ _ _ (complete_enrollment_same (A := LMSUserSkill) a) Hdone) as Hs4.
  assert (kept same_certificate s db') as Hkept.
  { etrans; [exact (moves_ok _ _ _ _ _ _ Hmp Hpdf)|].
    etrans; [exact (moves_ok _ _ _ _ _ _ (Hk1 _) Hst)|].
    etrans; [exact (moves_ok _ _ _ _ _ _ (Hk2 _) Hsk)|exact (moves_ok _ _ _ _ _ _ (Hk3 _) Hdone)]. }
  split; [done|]. split; [done|]. split; [exact (proj2 (Hkept Hgc') _ _ Hx)|]. split.
  - apply create_skill_ok in Hsk as (k & Hk & Hsu & Hsc & Hsa).
    + exists k, sk. rewrite (same_table_rows _ _ Hs4), Hsu, Hsc. done.
    + pose proof (moves_ok _ _ _ _ _ _ Hms Hpdf) as Hs1. unfold same_table in Hs1, Hs2.
      by rewrite Hs2, Hs1, Hskill.
  - by eapply complete_enrollment_ok.
Qed.

(** C30: passing a quiz brings what it promises: the enrollment of the attempt is
    completed; where the quiz is required for the certificate, there is a
    certificate of the user for the course and an active skill; where it is not, no certificate is made.  An attempt that
    is not passed changes neither enrollments nor certificates. *)
Theorem passing_brings_the_certificate (env : LmsEnv) (db db' : LmsDB) (i : Z)
    (answers : list (Z * Z)) (a' : QuizAttempt) (q : Quiz)
    (Hcerts : table_good (A := Certificate) (table_of db))
    (Hskills : table_good (A := LMSUserSkill) (table_of db))
    (Hrun : submit_quiz_attempt i answers env db = (Ok a', db'))
    (Hq : rows_of db !! qa_quiz a' = Some q) :
  (qa_is_passed a' = true ->
   (exists e, rows_of (A := Enrollment) db' !! qa_enrollment a' = Some e /\
      enr_status e = EnrollmentStatus.COMPLETED) /\
   (qz_is_required_for_certificate q = true ->
    (exists k c, rows_of (A := Certificate) db' !! k = Some c /\
      cert_user c = qa_user a' /\ cert_course c = qa_course a') /\
    (exists k s, rows_of (A := LMSUserSkill) db' !! k = Some s /\ skl_user s = qa_user a' /\
      skl_course s = qa_course a' /\ skl_is_active s = true)) /\
   (qz_is_required_for_certificate q = false ->
    rows_of (A := Certificate) db' = rows_of db)) /\
  (qa_is_passed a' = false ->
   rows_of (A := Enrollment) db' = rows_of db /\ rows_of (A := Certificate) db' = rows_of db).
Proof.
  apply submit_inv in Hrun as
    (a & quiz & awarded & total & s1 & course & st & s2 & Ha & Hq' & _ & Hg & Ha' & Hst & Hend).
  assert (quiz = q) as -> by (subst a'; unfold graded in Hq; simpl in Hq; congruence).
  assert (forall A `{HA : Model LmsDB A}, OtherTable LearningActivityStatement A ->
            OtherTable QuizAnswer A -> OtherTable QuizAttempt A -> same_table A db s2) as Hsame.
  { intros A HA H1 H2 H3. etrans; [exact (moves_ok _ _ _ _ _ _ (grade_answers_same _ _) Hg)|].
    etrans; [|exact (moves_ok _ _ _ _ _ _ (statement_same _) Hst)].
    exact (table_of_set_row_other _ _ _). }
  assert (table_of (A := Certificate) s2 = table_of db) as Hc by (apply Hsame; typeclasses eauto).
  assert (table_of (A := LMSUserSkill) s2 = table_of db) as Hs by (apply Hsame; typeclasses eauto).
  split; intros Hpass; rewrite Hpass in Hend.
  - destruct (qz_is_required_for_certificate q); destruct Hend as [r Hr].
    + apply issue_ok in Hr as (Hu & Hco & (c' & Hc' & Hsc) & Hsk & He); [|by rewrite Hc|by rewrite Hs].
      split; [done|]. split; [|done]. intros _. split; [|done].
      exists (cert_id r), c'. split; [done|].
      pose proof (f_equal cert_user Hsc). pose proof (f_equal cert_course Hsc). simpl in *.
      split; congruence.
    + split; [by eapply complete_enrollment_ok|]. split; [done|]. intros _.
      pose proof (moves_ok _ _ _ _ _ _ (complete_enrollment_same (A := Certificate) a') Hr) as Hf.
      rewrite (same_table_rows _ _ Hf). unfold rows_of. by rewrite Hc.
  - subst db'. split; apply same_table_rows; apply Hsame; typeclasses eauto.
Qed.

(** * The number of attempts *)

(** Several calls of [start_quiz_attempt] may run at once, since the function is
    not atomic: each plans its attempt and later opens it, and other operations
    come in between. *)
Definition attempts_run : Type := list attempt_plan * LmsDB.

Inductive attempts_step : attempts_run -> attempts_run -> Prop :=
| step_plan env quiz user plans db :
    attempts_step (plans, db)
      (match plan_quiz_attempt quiz user env db with
       | (Ok (inr p), db') => (p :: plans, db')
       | (_, db') => (plans, db')
       end)
| step_open env p before after_ db :
    attempts_step (before ++ p :: after_, db) (before ++ after_, (open_quiz_attempt p env db).2)
| step_submit env attempt answers plans db :
    attempts_step (plans, db) (plans, (submit_quiz_attempt attempt answers env db).2)
| step_unlock env quiz user by_ reason extra until plans db :
    attempts_step (plans, db) (plans, (unlock_quiz_for_user quiz user by_ reason extra until env db).2)
| step_progress env enrollment lesson ev plans db :
    attempts_step (plans, db) (plans, (update_lesson_progress enrollment lesson ev env db).2).

(** What these operations may read and write of attempts, quizzes and unlocks. *)
Definition number_key (a : QuizAttempt) : Z * Z * Z :=
  (qa_quiz a, qa_user a, qa_attempt_number a).

Definition numbers (db : LmsDB) : gmap Z (Z * Z * Z) :=
  number_key <$> rows_of (A := QuizAttempt) db.

Definition attempts_view (db : LmsDB) :=
  (numbers db, next_id (table_of (A := QuizAttempt) db), table_of (A := Quiz) db,
   table_of (A := QuizUnlock) db).

Definition quiet (db db' : LmsDB) : Prop := attempts_view db' = attempts_view db.

#[export] Instance quiet_preorder : PreOrder quiet.
Proof. unfold quiet. split; repeat intro; congruence. Qed.

Lemma quiet_set_attempt i (a a' : QuizAttempt) db :
  rows_of db !! i = Some a -> number_key a' = number_key a -> quiet db (set_row i a' db).
Proof.
  intros Hi Hk. unfold quiet, attempts_view, numbers. f_equal. f_equal. f_equal.
  rewrite rows_of_set_row, fmap_insert, insert_id; [done|].
  by rewrite lookup_fmap, Hi, Hk.
Qed.

#[local] Hint Extern 1 (moves quiet (create _)) =>
  apply moves_create; [typeclasses eauto|intros; red; reflexivity] : moves.
#[local] Hint Extern 1 (moves quiet (update_row _ _)) =>
  apply moves_update_row; [typeclasses eauto|intros; first [red; reflexivity|
    eapply quiet_set_attempt; [eassumption|reflexivity]]] : moves.

Lemma quiet_statement r : moves quiet (record_learning_activity_statement r).
Proof. unfold record_learning_activity_statement. solve_moves. Qed.
#[local] Hint Resolve quiet_statement : moves.

Lemma quiet_on_site {A} (m : M A) : moves quiet (on_site m).
Proof.
  intros env db. unfold on_site. by destruct (m _ _) as [[a|e] s].
Qed.
#[local] Hint Resolve quiet_on_site : moves.

Lemma quiet_counters c : moves quiet (sync_course_counters c).
Proof. unfold sync_course_counters. solve_moves. Qed.
#[local] Hint Resolve quiet_counters : moves.

Lemma quiet_complete a : moves quiet (complete_enrollment_after_pass a).
Proof. unfold complete_enrollment_after_pass. solve_moves. Qed.
#[local] Hint Resolve quiet_complete : moves.

Lemma quiet_pdf c : moves quiet (ensure_certificate_pdf_ready c).
Proof.
  unfold ensure_certificate_pdf_ready. solve_moves.
  apply moves_try_catch; [typeclasses eauto|solve_moves|]. intros e m [= <-]. solve_moves.
Qed.
#[local] Hint Resolve quiet_pdf : moves.

Lemma quiet_issue a : moves quiet (issue_certificate_for_attempt a).
Proof. unfold issue_certificate_for_attempt, create_skill_for_certificate. solve_moves. Qed.
#[local] Hint Resolve quiet_issue : moves.

Lemma quiet_grade a answers : moves quiet (grade_answers a answers).
Proof.
  unfold grade_answers, grade_question, dict_get. solve_moves.
  - induction (qa_question_snapshot a) as [|k l IH]; simpl; unfold dict_get; solve_moves.
  - intros env db. reflexivity.
Qed.
#[local] Hint Resolve quiet_grade : moves.

Lemma quiet_submit i answers : moves quiet (submit_quiz_attempt i answers).
Proof. unfold submit_quiz_attempt. solve_moves. Qed.

Lemma quiet_progress i l ev : moves quiet (update_lesson_progress i l ev).
Proof.
  unfold update_lesson_progress, ensure_lesson_sequence_open, sync_enrollment_progress. solve_moves.
Qed.

Lemma quiet_plan quiz user : moves quiet (plan_quiz_attempt quiz user).
Proof.
  unfold plan_quiz_attempt, resume_or_expire, check_further_attempt, validate_quiz_publishable.
  solve_moves.
Qed.

Definition total_unlocks (quiz user : Z) (db : LmsDB) : Z :=
  msum (fun u => when ((qu_quiz u =? quiz) && (qu_user u =? user)) (qu_extra_attempts u))
    (rows_of (A := QuizUnlock) db).

(** The attempts a user may have in a quiz: those of the quiz, and all those
    ever granted. *)
Definition allowance (quiz user : Z) (db : LmsDB) : Z :=
  match rows_of (A := Quiz) db !! quiz with
  | Some q => qz_max_attempts q + total_unlocks quiz user db
  | None => 0
  end.

Record attempts_ok (r : attempts_run) : Prop := {
  ok_quizzes : forall i q, rows_of (A := Quiz) r.2 !! i = Some q -> qz_id q = i;
  ok_unlocks : table_good (A := QuizUnlock) (table_of r.2);
  ok_extra : forall i u, rows_of (A := QuizUnlock) r.2 !! i = Some u -> 0 <= qu_extra_attempts u;
  ok_keys : forall i k, numbers r.2 !! i = Some k -> i < next_id (table_of (A := QuizAttempt) r.2);
  ok_numbers : forall i quiz user n, numbers r.2 !! i = Some (quiz, user, n) ->
    1 <= n <= allowance quiz user r.2;
  ok_unique : forall i j k, numbers r.2 !! i = Some k -> numbers r.2 !! j = Some k -> i = j;
  ok_plans : Forall (fun p => 1 <= ap_number p <= allowance (qz_id (ap_quiz p)) (ap_user p) r.2) r.1;
}.

(** What the invariant reads is in the view. *)
Lemma quiet_allowance db db' : quiet db db' ->
  numbers db' = numbers db /\
  next_id (table_of (A := QuizAttempt) db') = next_id (table_of (A := QuizAttempt) db) /\
  table_of (A := QuizUnlock) db' = table_of db /\
  rows_of (A := Quiz) db' = rows_of db /\ rows_of (A := QuizUnlock) db' = rows_of db /\
  forall quiz user, allowance quiz user db' = allowance quiz user db.
Proof.
  unfold quiet, attempts_view. intros [= Hn Hi Hq Hu].
  assert (rows_of (A := Quiz) db' = rows_of db) as Hrq by (unfold rows_of; by rewrite Hq).
  assert (rows_of (A := QuizUnlock) db' = rows_of db) as Hru by (unfold rows_of; by rewrite Hu).
  do 5 (split; [done|]). intros quiz user. unfold allowance, total_unlocks. by rewrite Hrq, Hru.
Qed.

Lemma quiet_ok plans db db' : quiet db db' -> attempts_ok (plans, db) -> attempts_ok (plans, db').
Proof.
  intros (Hn & Hi & Htu & Hq & Hu & Hall)%quiet_allowance []. split; simpl in *.
  - by rewrite Hq.
  - by rewrite Htu.
  - by rewrite Hu.
  - by rewrite Hn, Hi.
  - intros i quiz user n. rewrite Hn, Hall. eauto.
  - by rewrite Hn.
  - eapply Forall_impl; [eassumption|]. intros p. simpl. by rewrite Hall.
Qed.

Lemma first_by_elem {A} (before : A -> A -> bool) (qs : gmap Z A) x :
  first_by before qs = Some x -> exists i, qs !! i = Some x.
Proof.
  unfold first_by. revert x.
  apply (map_fold_weak_ind (fun r m => forall x, r = Some x -> exists i, m !! i = Some x)); [done|].
  intros i y m r Hi IH x Hx.
  assert (x = y \/ r = Some x) as [->|Hr].
  { destruct r; [|naive_solver]. destruct (before y a); naive_solver. }
  - exists i. apply lookup_insert_eq.
  - destruct (IH x Hr) as [j Hj]. exists j. rewrite lookup_insert_ne; [done|congruence].
Qed.

Lemma next_number_pos plans db quiz user : attempts_ok (plans, db) ->
  1 <= next_attempt_number quiz user db.
Proof.
  intros Hok. unfold next_attempt_number. destruct (first_by _ _) as [a|] eqn:Hf; [|lia].
  apply first_by_elem in Hf as [i Hi]. apply objects_filter_lookup in Hi as (Hi & _).
  assert (numbers db !! i = Some (qa_quiz a, qa_user a, qa_attempt_number a)) as Hn.
  { unfold numbers. by rewrite lookup_fmap, Hi. }
  apply (ok_numbers _ Hok) in Hn. lia.
Qed.

Lemma valid_unlocks_le plans db quiz user now : attempts_ok (plans, db) ->
  valid_unlocks_count quiz user now db <= total_unlocks quiz user db.
Proof.
  intros Hok. unfold valid_unlocks_count, total_unlocks. rewrite objects_filter_sum.
  apply msum_le. intros i u Hu. pose proof (ok_extra _ Hok i u Hu).
  destruct (is_active u), (qu_quiz u =? quiz), (qu_user u =? user); simpl; try lia.
  case_match; simpl; try lia. destruct (now <=? z); simpl; lia.
Qed.

Lemma check_further_inv q user e (env : LmsEnv) db n db' :
  check_further_attempt q user e env db = (Ok n, db') ->
  db' = db /\ n = next_attempt_number (qz_id q) user db /\
  n <= qz_max_attempts q + valid_unlocks_count (qz_id q) user (clock env) db.
Proof.
  unfold check_further_attempt. intros Hrun. comp_inv Hrun. apply Z.ltb_ge in Hc1.
  assert (n = next_attempt_number (qz_id q) user db /\ db' = db) as [-> ->]; [|done].
  case_match; [|by injection H0 as <- <-]. destruct (_ <=? _); [|by injection H0 as <- <-].
  case_match; [|done]. comp_inv H0. done.
Qed.

Lemma plan_inv quiz user (env : LmsEnv) db p db' :
  plan_quiz_attempt quiz user env db = (Ok (inr p), db') ->
  rows_of db !! quiz = Some (ap_quiz p) /\ ap_user p = user /\ quiet db db' /\
  ap_number p = next_attempt_number (qz_id (ap_quiz p)) user db' /\
  ap_number p <= qz_max_attempts (ap_quiz p)
    + valid_unlocks_count (qz_id (ap_quiz p)) user (clock env) db'.
Proof.
  intros Hrun. pose proof (moves_ok _ _ _ _ _ _ (quiet_plan quiz user) Hrun) as Hquiet.
  unfold plan_quiz_attempt in Hrun. comp_inv Hrun.
  destruct (open_enrollment user (qz_course _) db); [|done].
  match goal with Hr : (resume_or_expire _ _ ≫= _) _ _ = _ |- _ => rename Hr into Hrest end.
  apply bind_ok_inv in Hrest as (resumed & s1 & _ & Hrest).
  destruct resumed; [done|]. apply bind_ok_inv in Hrest as (n & s2 & Hcheck & Hrest).
  apply check_further_inv in Hcheck as (-> & -> & Hle).
  unfold validate_quiz_publishable in Hrest. comp_inv Hrest.
  match goal with Hr : (match quiz_defect_of _ _ with _ => _ end) _ _ = _ |- _ =>
    destruct (quiz_defect_of quiz s1); [done|injection Hr as _ <-] end.
  injection H as <-. simpl. done.
Qed.

Lemma plan_ok plans quiz user (env : LmsEnv) db p db' :
  attempts_ok (plans, db) -> plan_quiz_attempt quiz user env db = (Ok (inr p), db') ->
  attempts_ok (p :: plans, db').
Proof.
  intros Hok Hrun. apply plan_inv in Hrun as (Hq & <- & Hquiet & Hn & Hle).
  pose proof (quiet_ok _ _ _ Hquiet Hok) as Hok'. destruct (quiet_allowance _ _ Hquiet) as (_ & _ & _ & Hrq & _).
  split; try apply Hok'. constructor; [|apply Hok'].
  pose proof (next_number_pos _ _ (qz_id (ap_quiz p)) (ap_user p) Hok').
  pose proof (valid_unlocks_le _ _ (qz_id (ap_quiz p)) (ap_user p) (clock env) Hok').
  cbn [fst snd] in *. unfold allowance. rewrite (ok_quizzes _ Hok _ _ Hq) in *. rewrite Hrq, Hq. lia.
Qed.

(** A new attempt has a number of its own, by the constraint of the table. *)
Lemma add_attempt_ok plans db (a : QuizAttempt) :
  attempts_ok (plans, db) -> row_ok (rows_of db) a = true ->
  1 <= qa_attempt_number a <= allowance (qa_quiz a) (qa_user a) db ->
  attempts_ok (plans, add_row a db).
Proof.
  intros Hok Hrow Ha.
  assert (numbers (add_row a db)
          = <[next_id (table_of (A := QuizAttempt) db) := number_key a]> (numbers db)) as Hn.
  { unfold numbers. by rewrite rows_of_add_row, fmap_insert. }
  assert (forall i k, numbers db !! i = Some k -> k <> number_key a) as Hnew.
  { intros i k Hi ->. unfold numbers in Hi. apply lookup_fmap_Some in Hi as (b & Hb & Hib).
    simpl in Hrow. unfold quiz_attempt_row_ok in Hrow. apply andb_true_iff in Hrow as [_ Hrow].
    pose proof (proj1 (unique_among_spec _ _) Hrow i b Hib) as Hno.
    unfold number_key in Hb. injection Hb as Hq Hu Hn'.
    rewrite !andb_false_iff, !Z.eqb_neq in Hno. lia. }
  assert (forall quiz user, allowance quiz user (add_row a db) = allowance quiz user db) as Hall.
  { intros quiz user. unfold allowance, total_unlocks. by rewrite !rows_of_add_row_other. }
  assert (next_id (table_of (A := QuizAttempt) (add_row a db))
          = next_id (table_of (A := QuizAttempt) db) + 1) as Hnext.
  { unfold add_row. by rewrite table_of_with. }
  split; cbn [fst snd]; try (rewrite ?rows_of_add_row_other, ?table_of_add_row_other; apply Hok).
  - intros i k. rewrite Hn, Hnext.
    intros [[<- _]|[_ Hi]]%lookup_insert_Some; [lia|]. apply (ok_keys _ Hok) in Hi. simpl in Hi. lia.
  - intros i quiz user n. rewrite Hn, Hall.
    intros [[_ Hk]|[_ Hi]]%lookup_insert_Some; [|by apply (ok_numbers _ Hok) in Hi].
    unfold number_key in Hk. by injection Hk as <- <- <-.
  - intros i j k. rewrite Hn.
    intros [[<- <-]|[Hi' Hi]]%lookup_insert_Some [[Hj' Hk]|[_ Hj]]%lookup_insert_Some; try done.
    + by apply Hnew in Hj.
    + subst k. by apply Hnew in Hi.
    + by eapply (ok_unique _ Hok).
Qed.

Lemma unlock_ok plans quiz user by_ reason extra until (env : LmsEnv) db :
  attempts_ok (plans, db) ->
  attempts_ok (plans, (unlock_quiz_for_user quiz user by_ reason extra until env db).2).
Proof.
  intros Hok. unfold unlock_quiz_for_user. apply atomic_preserves; [done|].
  intros u db' Hrun. comp_inv Hrun. set (u := mkQuizUnlock _ _ _ _ _ _ _ _ _ _ _) in *.
  assert (0 <= extra) as Hextra.
  { simpl in Hok0. unfold quiz_unlock_row_ok, positive_small_integer in Hok0. simpl in Hok0.
    by apply andb_true_iff in Hok0 as [?%Z.leb_le _]. }
  assert (forall qz us, allowance qz us db <= allowance qz us (add_row u db)) as Hall.
  { intros qz us. unfold allowance, total_unlocks. rewrite rows_of_add_row_other, rows_of_add_row.
    destruct (rows_of db !! qz); [|lia].
    rewrite msum_insert_new by (apply fresh_key, (ok_unlocks _ Hok)).
    simpl. destruct (_ && _); simpl; lia. }
  split; simpl; try (rewrite ?rows_of_add_row_other, ?table_of_add_row_other; apply Hok).
  - apply add_row_good; [apply (ok_unlocks _ Hok)|done].
  - intros i v. rewrite rows_of_add_row.
    intros [[_ <-]|[_ Hi]]%lookup_insert_Some; [done|by apply (ok_extra _ Hok) in Hi].
  - intros i qz us n Hi. specialize (Hall qz us). apply (ok_numbers _ Hok) in Hi. simpl in Hi. lia.
  - eapply Forall_impl; [apply (ok_plans _ Hok)|]. intros p Hp. simpl in Hp.
    specialize (Hall (qz_id (ap_quiz p)) (ap_user p)). lia.
Qed.

Lemma open_ok before p after_ (env : LmsEnv) db :
  attempts_ok (before ++ p :: after_, db) ->
  attempts_ok (before ++ after_, (open_quiz_attempt p env db).2).
Proof.
  intros Hok. assert (attempts_ok (before ++ after_, db)) as Hok1.
  { destruct Hok as [? ? ? ? ? ? Hps]. split; simpl in *; try done.
    apply Forall_app in Hps as [? [? ?]%Forall_cons]. by apply Forall_app. }
  assert (1 <= ap_number p <= allowance (qz_id (ap_quiz p)) (ap_user p) db) as Hp.
  { pose proof (ok_plans _ Hok) as Hps. simpl in Hps.
    by apply Forall_app in Hps as [_ [Hp _]%Forall_cons]. }
  unfold open_quiz_attempt. rewrite bind_unfold.
  destruct (create (new_attempt p) env db) as [[a|err] s] eqn:Hcreate.
  2: { unfold create in Hcreate. destruct (row_ok _ _); [done|]. by injection Hcreate as _ <-. }
  apply create_ok_inv in Hcreate as (Ha & Hrow & ->).
  set (rest := (_ ← _; _)).
  assert (moves quiet rest) as Hq by (unfold rest; solve_moves). eapply quiet_ok; [apply Hq|].
  apply add_attempt_ok; [done|done|]. by rewrite Ha.
Qed.

Lemma attempts_step_ok r r' : attempts_ok r -> attempts_step r r' -> attempts_ok r'.
Proof.
  intros Hok Hstep.
  destruct Hstep as [env quiz user plans db|env p before after_ db|env i answers plans db|
                     env quiz user by_ reason extra until plans db|env e l ev plans db].
  - pose proof (quiet_plan quiz user env db) as Hquiet.
    destruct (plan_quiz_attempt quiz user env db) as [[[a|p]|err] db'] eqn:Hrun;
      [by eapply quiet_ok|by eapply plan_ok|by eapply quiet_ok].
  - by apply open_ok.
  - eapply quiet_ok; [apply quiet_submit|done].
  - by apply unlock_ok.
  - eapply quiet_ok; [apply quiet_progress|done].
Qed.

(** The attempts of a user in a quiz, deactivated ones included. *)
Definition attempts_made (quiz user : Z) (db : LmsDB) : gmap Z (Z * Z * Z) :=
  filter (fun kn => kn.2.1 = (quiz, user)) (numbers db).

Lemma attempts_bounded r quiz user : attempts_ok r ->
  Z.of_nat (size (attempts_made quiz user r.2)) <= Z.max 0 (allowance quiz user r.2).
Proof.
  intros Hok. set (m := attempts_made quiz user r.2).
  set (l := (fun kn : Z * (Z * Z * Z) => kn.2.2) <$> map_to_list m).
  assert (forall i k, (i, k) ∈ map_to_list m -> numbers r.2 !! i = Some (quiz, user, k.2)) as Hm.
  { intros i [[qz us] n] Hin. apply elem_of_map_to_list, map_lookup_filter_Some in Hin as [Hi Hk].
    simpl in *. by injection Hk as -> ->. }
  assert (NoDup l) as Hnd.
  { apply NoDup_fmap_2_strong; [|apply NoDup_map_to_list].
    intros [i k] [j k'] Hi Hj Heq. simpl in Heq. pose proof (Hm _ _ Hi) as Hi'.
    pose proof (Hm _ _ Hj) as Hj'. rewrite <- Heq in Hj'.
    assert (i = j) as -> by (by eapply (ok_unique _ Hok)). f_equal.
    apply elem_of_map_to_list in Hi, Hj. congruence. }
  assert (l ⊆+ seqZ 1 (allowance quiz user r.2)) as Hsub.
  { apply NoDup_submseteq; [done|]. intros n ([i k] & -> & Hi)%list_elem_of_fmap.
    apply Hm in Hi. apply (ok_numbers _ Hok) in Hi. apply elem_of_seqZ. simpl. lia. }
  apply submseteq_length in Hsub. unfold l in Hsub.
  rewrite length_fmap, length_map_to_list, length_seqZ in Hsub. lia.
Qed.

(** C28: however many calls of start_quiz_attempt run at once, and whatever
    submissions, progress events and unlocks come in between, a user never has
    more attempts in a quiz than the quiz allows together with the attempts
    granted by unlocks. *)
Theorem attempts_never_exceed_the_allowance (db : LmsDB) (r : attempts_run) (quiz user : Z)
    (Hok : attempts_ok ([], db)) (Hruns : rtc attempts_step ([], db) r) :
  Z.of_nat (size (attempts_made quiz user r.2)) <= Z.max 0 (allowance quiz user r.2).
Proof.
  apply attempts_bounded. induction Hruns as [|x y z Hxy _ IH]; [done|].
  apply IH. by eapply attempts_step_ok.
Qed.

(** * The state shown to the client *)

(** The refusal of [start_quiz_attempt] that a reason announces. *)
Definition refusal (st : attempt_state) (r : locked_reason) : lms_exc :=
  match r with
  | passed => QuizAttemptLockedError attempt_passed
  | lessons_remaining => QuizNotReadyError (as_lessons_remaining st)
  | out_of_attempts => QuizAttemptLockedError attempts_used_up
  | cooldown => QuizAttemptLockedError retake_delay
  end.

Lemma attempts_terminal quiz user P db :
  attempts_of quiz user in_progress db = ∅ ->
  attempts_of quiz user (fun a => terminal a && P a) db = attempts_of quiz user P db.
Proof.
  intros Hno. apply objects_filter_ext; [done|]. intros i a Hi Ha. unfold terminal.
  destruct (in_progress a) eqn:Hp; [|done].
  assert (attempts_of quiz user in_progress db !! i = None) as Hn by (by rewrite Hno, lookup_empty).
  destruct ((qa_quiz a =? quiz) && (qa_user a =? user)) eqn:Hqu; [|done]. exfalso.
  assert (attempts_of quiz user in_progress db !! i = Some a) as Hs; [|congruence].
  apply objects_filter_lookup. by rewrite Hqu, Hp.
Qed.

Lemma attempts_live quiz user P db :
  attempts_of quiz user in_progress db = ∅ ->
  attempts_of quiz user (fun a => in_progress a && P a) db = ∅.
Proof.
  intros Hno. apply map_empty. intros i. apply eq_None_not_Some. intros [a Ha].
  apply objects_filter_lookup in Ha as (Hi & Ha & Hp).
  apply andb_true_iff in Hp as [Hqu [Hin _]%andb_true_iff].
  assert (attempts_of quiz user in_progress db !! i = Some a) as Hs
    by (apply objects_filter_lookup; by rewrite Hqu, Hin).
  by rewrite Hno, lookup_empty in Hs.
Qed.

(** The checks of a further attempt, in the terms of the state. *)
Lemma check_further_run q user e (env : LmsEnv) db
    (st := attempt_state_of q user (clock env) db) :
  attempts_of (qz_id q) user in_progress db = ∅ ->
  (forall i a, rows_of (A := QuizAttempt) db !! i = Some a -> failed a = true ->
    qa_submitted_at a <> None) ->
  open_enrollment user (qz_course q) db = Some e ->
  check_further_attempt q user e env db =
  match as_locked_reason st with
  | None => (Ok (next_attempt_number (qz_id q) user db), db)
  | Some r => (Raise (refusal st r), db)
  end.
Proof.
  intros Hno Hsub He. unfold st, attempt_state_of. cbv zeta.
  rewrite attempts_live, He by done. cbn [as_locked_reason as_lessons_remaining].
  replace (qs_exists (∅ : gmap Z QuizAttempt)) with false by done. cbn [negb andb].
  assert (qs_exists (attempts_of (qz_id q) user (fun a => terminal a && qa_is_passed a) db)
          = qs_exists (attempts_of (qz_id q) user qa_is_passed db)) as Hp
    by (by rewrite attempts_terminal).
  unfold check_further_attempt, cooldown_until.
  rewrite bind_unfold. cbn [timezone_now]. rewrite bind_unfold. cbn [query]. rewrite Hp.
  destruct (qs_exists (attempts_of _ _ qa_is_passed db)); [reflexivity|].
  erewrite bind_ok by reflexivity. rewrite bind_unfold. cbn [query].
  destruct (Z.eqb_spec (quiz_lessons_remaining q (Some e) db) 0) as [Hl|Hl]; [|reflexivity].
  erewrite bind_ok by reflexivity. rewrite bind_unfold. cbn [query]. rewrite bind_unfold. cbn [query].
  set (number := next_attempt_number _ _ _). set (unlocks := valid_unlocks_count _ _ _ _).
  destruct (qz_max_attempts q + unlocks <? number); [reflexivity|].
  erewrite bind_ok by reflexivity. rewrite bind_unfold. cbn [query negb].
  destruct (first_by by_submitted_at _) as [a|] eqn:Hf; [|reflexivity].
  apply first_by_elem in Hf as [i Hi]. apply objects_filter_lookup in Hi as (Hi & _ & Hfa).
  apply andb_true_iff in Hfa as [_ [_ Hfa]%andb_true_iff].
  destruct (qa_submitted_at a) as [t|] eqn:Ht; [|exfalso; exact (Hsub i a Hi Hfa Ht)].
  destruct (number <=? qz_max_attempts q); [|reflexivity].
  destruct (unlocks <=? 0), (clock env <? t + _); reflexivity.
Qed.

Lemma plan_run quiz user (env : LmsEnv) db q e :
  rows_of db !! quiz = Some q -> qz_status q = QuizStatus.PUBLISHED -> qz_is_active q = true ->
  quiz_defect_of quiz db = None -> attempts_of quiz user in_progress db = ∅ ->
  open_enrollment user (qz_course q) db = Some e ->
  plan_quiz_attempt quiz user env db =
  match check_further_attempt q user e env db with
  | (Ok n, _) => (Ok (inr (mkAttemptPlan q user (enr_id e) n (build_attempt_snapshots env q db).1
                             (build_attempt_snapshots env q db).2)), db)
  | (Raise err, s) => (Raise err, s)
  end.
Proof.
  intros Hq Hpub Hact Hsound Hno He. unfold plan_quiz_attempt.
  erewrite bind_ok by reflexivity. erewrite bind_ok by (by apply base_get_ok).
  erewrite bind_ok by (apply raise_if_false; by rewrite Hpub, Hact).
  erewrite bind_ok by reflexivity. rewrite He.
  assert (resume_or_expire quiz user env db = (Ok None, db)) as Hres.
  { unfold resume_or_expire. erewrite bind_ok by reflexivity. erewrite bind_ok by reflexivity.
    by rewrite Hno. }
  rewrite (bind_ok _ _ _ _ _ _ Hres). rewrite bind_unfold.
  destruct (check_further_attempt q user e env db) as [[n|err] s] eqn:Hc; [|done].
  apply check_further_inv in Hc as (-> & _ & _).
  assert (validate_quiz_publishable quiz env db = (Ok tt, db)) as Hv.
  { unfold validate_quiz_publishable. erewrite bind_ok by reflexivity. by rewrite Hsound. }
  rewrite (bind_ok _ _ _ _ _ _ Hv). reflexivity.
Qed.

Lemma plan_not_enrolled quiz user (env : LmsEnv) db q :
  rows_of db !! quiz = Some q -> open_enrollment user (qz_course q) db = None ->
  plan_quiz_attempt quiz user env db = (Raise QuizNotAvailableError, db).
Proof.
  intros Hq He. unfold plan_quiz_attempt.
  erewrite bind_ok by reflexivity. erewrite bind_ok by (by apply base_get_ok).
  destruct (_ || _); [done|]. erewrite bind_ok by reflexivity.
  erewrite bind_ok by reflexivity. by rewrite He.
Qed.

(** An attempt is possible where no lock is named. *)
Lemma can_attempt_spec q user now db :
  attempts_ok ([], db) -> attempts_of (qz_id q) user in_progress db = ∅ ->
  let st := attempt_state_of q user now db in
  as_can_attempt st = as_enrolled st && bool_decide (as_locked_reason st = None).
Proof.
  intros Hok Hno. unfold attempt_state_of. cbv zeta.
  cbn [as_can_attempt as_enrolled as_locked_reason]. rewrite attempts_live by done.
  replace (qs_exists (∅ : gmap Z QuizAttempt)) with false by done. cbn [negb andb orb].
  pose proof (next_number_pos _ _ (qz_id q) user Hok) as Hpos.
  set (number := next_attempt_number _ _ _) in *. set (unlocks := valid_unlocks_count _ _ _ _).
  destruct (qs_exists _); [by rewrite andb_false_r|].
  destruct (negb _); [by rewrite andb_false_r|].
  destruct (Z.ltb_spec (qz_max_attempts q + unlocks) number); [by rewrite andb_false_r|].
  rewrite (proj2 (Z.leb_le 1 _)) by lia. by rewrite andb_true_r.
Qed.

(** The state that the client is shown mirrors what starting an attempt
    would do.  For a published quiz with sound questions and a user without an
    attempt in progress: a user who is not enrolled is refused by both; an
    enrolled one whose state names no lock gets an attempt, and one whose state
    names a lock is refused for exactly that reason, with the number of lessons
    that remain; the client is told that an attempt is possible exactly when it
    is. *)
Theorem state_mirrors_start (env : LmsEnv) (db : LmsDB) (quiz user : Z) (q : Quiz)
    (Hok : attempts_ok ([], db)) (Hq : rows_of db !! quiz = Some q)
    (Hpub : qz_status q = QuizStatus.PUBLISHED) (Hact : qz_is_active q = true)
    (Hsound : quiz_defect_of quiz db = None)
    (Hno : attempts_of quiz user in_progress db = ∅)
    (Hsub : forall i a, rows_of (A := QuizAttempt) db !! i = Some a -> failed a = true ->
      qa_submitted_at a <> None) :
  let st := attempt_state_of q user (clock env) db in
  (if as_enrolled st
   then match as_locked_reason st with
        | None => exists p, plan_quiz_attempt quiz user env db = (Ok (inr p), db)
        | Some r => plan_quiz_attempt quiz user env db = (Raise (refusal st r), db)
        end
   else plan_quiz_attempt quiz user env db = (Raise QuizNotAvailableError, db)) /\
  (as_can_attempt st = true <->
   exists p, plan_quiz_attempt quiz user env db = (Ok (inr p), db)).
Proof.
  cbv zeta. set (st := attempt_state_of q user (clock env) db).
  pose proof (ok_quizzes _ Hok _ _ Hq) as Hid. simpl in Hid.
  assert (as_enrolled st = bool_decide (is_Some (open_enrollment user (qz_course q) db))) as Hen
    by reflexivity.
  pose proof (can_attempt_spec q user (clock env) db Hok) as Hcan. rewrite Hid in Hcan.
  specialize (Hcan Hno). cbv zeta in Hcan. fold st in Hcan. rewrite Hcan.
  destruct (open_enrollment user (qz_course q) db) as [e|] eqn:He.
  - rewrite Hen, bool_decide_true by eauto. cbn [andb].
    rewrite (plan_run quiz user env db q e) by done.
    rewrite (check_further_run q user e env db) by (by rewrite ?Hid). fold st.
    destruct (as_locked_reason st) as [r|].
    + split; [done|]. split; [done|]. by intros [p Hp].
    + split; [by eexists|]. split; [|done]. by eexists.
  - rewrite Hen, bool_decide_false by (intros [x Hx]; discriminate). cbn [andb].
    rewrite (plan_not_enrolled quiz user env db q) by done.
    split; [done|]. split; [done|]. by intros [p Hp].
Qed.

(** * Runs of the sample class *)

Definition quiz_started : LmsDB := after (start_quiz_attempt 1 1) lms_env all_done.
Definition good_answers : list (Z * Z) := [(1, 1); (2, 4)].
Definition poor_answers : list (Z * Z) := [(1, 1); (2, 3)].
Definition quiz_passed : LmsDB :=
  after (submit_quiz_attempt 1 good_answers) (lms_env_at (sample_now + 10)) quiz_started.
Definition quiz_failed : LmsDB :=
  after (submit_quiz_attempt 1 poor_answers) (lms_env_at (sample_now + 10)) quiz_started.

Definition marks (db : LmsDB) : option (QuizAttemptStatus.t * Z * Z) :=
  (fun a => (qa_status a, qa_score_percent a, qa_score_out_of_20 a))
    <$> rows_of (A := QuizAttempt) db !! 1.

Example sample_marks :
  marks <$> [quiz_started; quiz_passed; quiz_failed]
  = [Some (QuizAttemptStatus.IN_PROGRESS, 0, 0); Some (QuizAttemptStatus.PASSED, 10000, 2000);
     Some (QuizAttemptStatus.FAILED, 2500, 500)].
Proof. vm_compute. reflexivity. Qed.

(** The second and last attempt of the sample quiz in progress, after a first
    that failed and a cooldown of four days: the state names a lock, while
    starting resumes the attempt. *)
Definition last_attempt_live : LmsDB :=
  after (start_quiz_attempt 1 1) (lms_env_at (sample_now + 4 * usec_per_day)) quiz_failed.

Example last_live_attempt_is_shown_as_locked :
  let env := lms_env_at (sample_now + 4 * usec_per_day + 1) in
  (as_has_in_progress <$> result (get_quiz_attempt_state 1 1) env last_attempt_live,
   as_locked_reason <$> result (get_quiz_attempt_state 1 1) env last_attempt_live,
   as_can_attempt <$> result (get_quiz_attempt_state 1 1) env last_attempt_live,
   (fun ab => (qa_attempt_number ab.1, ab.2)) <$> result (start_quiz_attempt 1 1) env last_attempt_live)
  = (Some true, Some (Some out_of_attempts), Some false, Some (2, false)).
Proof. vm_compute. reflexivity. Qed.

(** A new title for an existing quiz is dropped; the passing score is taken. *)
Example title_is_not_updated :
  (fun qc => (qz_title qc.1, qz_passing_score qc.1)) <$>
    result (create_or_update_quiz 1 [quiz_title "New title"; quiz_passing_score 1500]) lms_env sample_lms
  = Some ("Weaving quiz"%string, 1500).
Proof. vm_compute. reflexivity. Qed.

Lemma late_submission_leaves_no_trace_witness :
  submit_quiz_attempt 1 good_answers (lms_env_at (sample_now + 30 * usec_per_min)) quiz_started
  = (Raise (QuizAttemptSubmissionError attempt_time_over), quiz_started).
Proof.
  destruct (rows_of (A := QuizAttempt) quiz_started !! 1) as [a|] eqn:Ha;
    [|vm_compute in Ha; discriminate].
  pose proof Ha as Hv. vm_compute in Hv. injection Hv as <-.
  eapply late_submission_leaves_no_trace; [exact Ha|..]; try (vm_compute; reflexivity).
  vm_compute. discriminate.
Defined.

Lemma marks_are_the_share_earned_witness :
  exists a', qa_score_out_of_20 a' = 2000 /\ qa_is_passed a' = true.
Proof.
  destruct (submit_quiz_attempt 1 good_answers (lms_env_at (sample_now + 10)) quiz_started)
    as [[a'|err] db'] eqn:Hrun; [|vm_compute in Hrun; discriminate].
  destruct (marks_are_the_share_earned _ _ _ _ _ _ Hrun) as (a & q & Ha & Hq & Hrest).
  vm_compute in Ha. injection Ha as <-. vm_compute in Hq. injection Hq as <-. cbv zeta in Hrest.
  destruct Hrest as (_ & _ & _ & _ & Hs & Hp & _). exists a'. split.
  - rewrite Hs. vm_compute. reflexivity.
  - apply Hp. rewrite Hs. vm_compute. discriminate.
Defined.

Lemma passing_brings_the_certificate_witness :
  exists k c, rows_of (A := Certificate) quiz_passed !! k = Some c /\ cert_user c = 1 /\ cert_course c = 1.
Proof.
  destruct (submit_quiz_attempt 1 good_answers (lms_env_at (sample_now + 10)) quiz_started)
    as [[a'|err] db'] eqn:Hrun; [|vm_compute in Hrun; discriminate].
  assert (db' = quiz_passed) as -> by (unfold quiz_passed, after; by rewrite Hrun).
  pose proof (f_equal fst Hrun) as Ha. vm_compute in Ha. injection Ha as <-.
  destruct (passing_brings_the_certificate (lms_env_at (sample_now + 10)) quiz_started quiz_passed 1
              good_answers _ sample_quiz
              ltac:(apply good_check; vm_compute; reflexivity)
              ltac:(apply good_check; vm_compute; reflexivity) Hrun) as [Hpass _];
    [vm_compute; reflexivity|].
  destruct (Hpass eq_refl) as (_ & Hreq & _). exact (proj1 (Hreq eq_refl)).
Defined.

(** The conditions on a class that no attempt was made in yet. *)
Lemma no_attempts_ok db :
  numbers db = ∅ -> (forall i q, rows_of (A := Quiz) db !! i = Some q -> qz_id q = i) ->
  table_good (A := QuizUnlock) (table_of db) -> rows_of (A := QuizUnlock) db = ∅ ->
  attempts_ok ([], db).
Proof.
  intros Hn Hq Hg Hu. split; simpl; try done.
  - intros i u. by rewrite Hu, lookup_empty.
  - intros i k. by rewrite Hn, lookup_empty.
  - intros i quiz user n. by rewrite Hn, lookup_empty.
  - intros i j k. by rewrite Hn, lookup_empty.
Qed.

Lemma all_done_attempts_ok : attempts_ok ([], all_done).
Proof.
  apply no_attempts_ok; [vm_compute; reflexivity| |apply good_check; vm_compute; reflexivity|
                         vm_compute; reflexivity].
  intros i q Hi. assert (table_good (A := Quiz) (table_of all_done)) as Hg
    by (apply good_check; vm_compute; reflexivity). by apply Hg in Hi as [Hi _].
Qed.

Definition sample_plan : attempt_plan :=
  mkAttemptPlan sample_quiz 1 1 1 [2; 1] [(2, [4; 3]); (1, [2; 1])].

(** Two starts at once: both plan the first attempt, one of them opens it. *)
Definition raced : LmsDB :=
  (open_quiz_attempt sample_plan lms_env (open_quiz_attempt sample_plan lms_env all_done).2).2.

Lemma raced_runs : rtc attempts_step ([], all_done) ([], raced).
Proof.
  assert (plan_quiz_attempt 1 1 lms_env all_done = (Ok (inr sample_plan), all_done)) as Hplan
    by (vm_compute; reflexivity).
  pose proof (step_plan lms_env 1 1 [] all_done) as H1. rewrite Hplan in H1.
  pose proof (step_plan lms_env 1 1 [sample_plan] all_done) as H2. rewrite Hplan in H2.
  eapply rtc_l; [exact H1|]. eapply rtc_l; [exact H2|].
  eapply rtc_l; [exact (step_open lms_env sample_plan [] [sample_plan] all_done)|].
  apply rtc_once. unfold raced. exact (step_open lms_env sample_plan [] [] _).
Qed.

Lemma raced_once : size (attempts_made 1 1 raced) = 1%nat.
Proof. vm_compute. reflexivity. Qed.

Lemma attempts_never_exceed_the_allowance_witness :
  exists db, rtc attempts_step ([], all_done) ([], db) /\ size (attempts_made 1 1 db) = 1%nat /\
             Z.of_nat (size (attempts_made 1 1 db)) <= Z.max 0 (allowance 1 1 db).
Proof.
  pose proof raced_runs as Hruns. pose proof raced_once as Honce.
  revert Hruns Honce. generalize raced. intros db Hruns Honce. exists db.
  split; [exact Hruns|]. split; [exact Honce|].
  exact (attempts_never_exceed_the_allowance all_done ([], db) 1 1 all_done_attempts_ok Hruns).
Defined.

Lemma state_mirrors_start_witness :
  as_can_attempt (attempt_state_of sample_quiz 1 sample_now all_done) = true /\
  exists p, plan_quiz_attempt 1 1 lms_env all_done = (Ok (inr p), all_done).
Proof.
  assert (as_can_attempt (attempt_state_of sample_quiz 1 sample_now all_done) = true) as Hcan
    by (vm_compute; reflexivity).
  split; [exact Hcan|].
  apply (state_mirrors_start lms_env all_done 1 1 sample_quiz all_done_attempts_ok);
    [vm_compute; reflexivity..| |exact Hcan].
  intros i a Hi. assert (rows_of (A := QuizAttempt) all_done = ∅) as Hno by (vm_compute; reflexivity).
  rewrite Hno in Hi. discriminate Hi.
Defined.
