(* ===== verification/Text.v ===== *)
(** Python's [str] for Persian text, and the floating-point numbers of a score.

    A [string] is here the UTF-8 encoding of a sequence of code points, and the
    operations of the support desk on titles, bodies and words are operations
    on code points: [decode] and [encode] go between the two, and are inverse
    to each other on valid text ([decode_encode]).  The lower case of a code
    point beyond ASCII is the Unicode database's, a parameter.  A float is a
    binary64 number ([SpecFloat]). *)

From S2P Require Import Prelude Python Apps.
From Stdlib Require Import Ascii.
From Stdlib Require Import SpecFloat.
#[local] Open Scope Z_scope.

Abbreviation codes := (list Z).

(** * UTF-8 *)

Definition byte (z : Z) : ascii := ascii_of_N (Z.to_N z).
Definition unbyte (a : ascii) : Z := Z.of_N (N_of_ascii a).

Fixpoint decode (s : string) : codes :=
  match s with
  | EmptyString => []
  | String a s1 =>
      let n := unbyte a in
      if n <? 128 then n :: decode s1
      else match s1 with
      | EmptyString => []
      | String b s2 =>
          let m := unbyte b - 128 in
          if n <? 224 then (n - 192) * 64 + m :: decode s2
          else match s2 with
          | EmptyString => []
          | String c s3 =>
              let k := unbyte c - 128 in
              if n <? 240 then ((n - 224) * 64 + m) * 64 + k :: decode s3
              else match s3 with
              | EmptyString => []
              | String d s4 =>
                  (((n - 240) * 64 + m) * 64 + k) * 64 + (unbyte d - 128) :: decode s4
              end
          end
      end
  end.

Definition encode_code (c : Z) (rest : string) : string :=
  if c <? 128 then String (byte c) rest
  else if c <? 2048 then
    String (byte (192 + c / 64)) (String (byte (128 + c mod 64)) rest)
  else if c <? 65536 then
    String (byte (224 + c / 64 / 64)) (String (byte (128 + (c / 64) mod 64))
      (String (byte (128 + c mod 64)) rest))
  else
    String (byte (240 + c / 64 / 64 / 64)) (String (byte (128 + (c / 64 / 64) mod 64))
      (String (byte (128 + (c / 64) mod 64)) (String (byte (128 + c mod 64)) rest))).

Definition encode (l : codes) : string := foldr encode_code EmptyString l.

(** The code points there are. *)
Definition code_point (c : Z) : Prop := 0 <= c < 1114112.

(** * Operations of [str] *)

(** [str.isspace] *)
Definition u_space (c : Z) : bool :=
  bool_decide (c ∈ [9; 10; 11; 12; 13; 28; 29; 30; 31; 32; 133; 160; 5760; 8192; 8193; 8194;
                    8195; 8196; 8197; 8198; 8199; 8200; 8201; 8202; 8232; 8233; 8239; 8287; 12288]).

Fixpoint drop_space (l : codes) : codes :=
  match l with
  | c :: l' => if u_space c then drop_space l' else l
  | [] => []
  end.

Definition strip_codes (l : codes) : codes := rev (drop_space (rev (drop_space l))).

(** [str.split()]: the words of a text; [cur] is the word read so far, backwards. *)
Definition flush (cur : codes) : list codes := match cur with [] => [] | _ => [rev cur] end.

Fixpoint split_codes (cur l : codes) : list codes :=
  match l with
  | [] => flush cur
  | c :: l' => if u_space c then flush cur ++ split_codes [] l' else split_codes (c :: cur) l'
  end.

(** [" ".join(words)] *)
Fixpoint join_codes (ws : list codes) : codes :=
  match ws with
  | [] => []
  | [w] => w
  | w :: ws' => w ++ 32 :: join_codes ws'
  end.

(** [str.lower] of ASCII, and of the rest by [lower_other]. *)
Definition lower_codes (lower_other : Z -> codes) (l : codes) : codes :=
  flat_map (fun c => if c <? 128 then [if (65 <=? c) && (c <=? 90) then c + 32 else c]
                     else lower_other c) l.

(** [s.replace(source, target)] for two characters *)
Definition replace_code (source target : Z) (l : codes) : codes :=
  (fun c => if c =? source then target else c) <$> l.

Definition strip (s : string) : string := encode (strip_codes (decode s)).

(** [s[:n]] for a non-negative [n] *)
Definition prefix_chars (n : nat) (s : string) : string := encode (take n (decode s)).

(** A CharField's [max_length]. *)
Definition max_chars (n : Z) (s : string) : bool := Z.of_nat (length (decode s)) <=? n.

(** [word in text] for a word that is not empty *)
Fixpoint has_infix (w l : codes) : bool :=
  bool_decide (w `prefix_of` l) || match l with [] => false | _ :: l' => has_infix w l' end.

Definition contains (word text : string) : bool := has_infix (decode word) (decode text).

(** The order of two strings: that of their code points. *)
Fixpoint codes_leb (l l' : codes) : bool :=
  match l, l' with
  | [], _ => true
  | _ :: _, [] => false
  | c :: t, c' :: t' => (c <? c') || ((c =? c') && codes_leb t t')
  end.

(** * Floating-point numbers *)

Definition float_of (z : Z) : spec_float := binary_normalize 53 1024 z 0 false.

(** [round(x)]: to the nearest integer, ties to even. *)
Definition round_float (x : spec_float) : Z :=
  match x with
  | S754_finite s m e =>
      let z := if e <? 0
        then let d := 2 ^ (- e) in
             let q := Z.pos m / d in
             let r := Z.pos m mod d in
             if (d <? 2 * r) || ((2 * r =? d) && Z.odd q) then q + 1 else q
        else Z.pos m * 2 ^ e in
      if s then - z else z
  | _ => 0
  end.

(** [round(a / b * k)] *)
Definition round_ratio (a b k : Z) : Z :=
  round_float (SFmul 53 1024 (SFdiv 53 1024 (float_of a) (float_of b)) (float_of k)).

(** * Lemmas *)

Lemma unbyte_byte z : 0 <= z < 256 -> unbyte (byte z) = z.
Proof. intros Hz. unfold unbyte, byte. rewrite N_ascii_embedding by lia. lia. Qed.

(** Reading the leading byte of a code point. *)
Lemma decode_encode_code c rest : code_point c -> decode (encode_code c rest) = c :: decode rest.
Proof.
  intros [H0 H1]. unfold encode_code.
  pose proof (Z.div_mod c 64 ltac:(lia)). pose proof (Z.div_mod (c / 64) 64 ltac:(lia)).
  pose proof (Z.div_mod (c / 64 / 64) 64 ltac:(lia)).
  pose proof (Z.mod_pos_bound c 64 eq_refl). pose proof (Z.mod_pos_bound (c / 64) 64 eq_refl).
  pose proof (Z.mod_pos_bound (c / 64 / 64) 64 eq_refl).
  destruct (Z.ltb_spec c 128); [|destruct (Z.ltb_spec c 2048); [|destruct (Z.ltb_spec c 65536)]];
    cbn [decode];
    repeat match goal with |- context [unbyte (byte ?z)] => rewrite (unbyte_byte z) by lia end;
    repeat match goal with |- context [if ?a <? ?b then _ else _] =>
      destruct (Z.ltb_spec a b); [|] ; try (exfalso; lia) end;
    f_equal; lia.
Qed.

(** Encoded text reads back. *)
Lemma decode_encode l : Forall code_point l -> decode (encode l) = l.
Proof.
  induction 1 as [|c l Hc _ IH]; [done|]. simpl. by rewrite decode_encode_code, IH.
Qed.

Lemma byte_unbyte a : byte (unbyte a) = a.
Proof. unfold byte, unbyte. rewrite N2Z.id. apply ascii_N_embedding. Qed.

Lemma drop_space_Forall (P : Z -> Prop) l : Forall P l -> Forall P (drop_space l).
Proof. induction 1 as [|c l Hc Hl IH]; simpl; [done|]. destruct (u_space c); [done|by constructor]. Qed.

Lemma strip_codes_Forall (P : Z -> Prop) l : Forall P l -> Forall P (strip_codes l).
Proof. intros Hl. by apply Forall_rev, drop_space_Forall, Forall_rev, drop_space_Forall. Qed.

Definition no_space (w : codes) : Prop := w <> [] /\ Forall (fun c => u_space c = false) w.

Lemma flush_words cur :
  Forall (fun c => u_space c = false) cur -> Forall no_space (flush cur).
Proof.
  intros Hc. destruct cur as [|c cur]; [constructor|]. constructor; [|constructor]. split.
  - intros Hn%(f_equal (@length _)). rewrite length_rev in Hn. done.
  - by apply Forall_rev.
Qed.

(** The pieces of a split are words: not empty and without a space. *)
Lemma split_words l : forall cur,
  Forall (fun c => u_space c = false) cur -> Forall no_space (split_codes cur l).
Proof.
  induction l as [|c l IH]; intros cur Hc; simpl; [by apply flush_words|].
  destruct (u_space c) eqn:Hs.
  - apply Forall_app. split; [by apply flush_words|by apply IH].
  - apply IH. by constructor.
Qed.

Lemma split_word w : forall cur, Forall (fun c => u_space c = false) w ->
  split_codes cur w = flush (rev w ++ cur).
Proof.
  induction w as [|c w IH]; intros cur Hw; [done|]. apply Forall_cons in Hw as [Hc Hw].
  simpl. rewrite Hc, IH by done. by rewrite <- app_assoc.
Qed.

Lemma split_app_word w l : forall cur, Forall (fun c => u_space c = false) w ->
  split_codes cur (w ++ l) = split_codes (rev w ++ cur) l.
Proof.
  induction w as [|c w IH]; intros cur Hw; [done|]. apply Forall_cons in Hw as [Hc Hw].
  simpl. rewrite Hc, IH by done. by rewrite <- app_assoc.
Qed.

(** Splitting what was joined gives the words back. *)
Lemma split_join ws : Forall no_space ws -> split_codes [] (join_codes ws) = ws.
Proof.
  assert (forall w, no_space w -> flush (rev w) = [w]) as Hflush.
  { intros w [Hne _]. unfold flush. destruct (rev w) as [|c l] eqn:Hr.
    - apply (f_equal (@rev _)) in Hr. by rewrite rev_involutive in Hr.
    - by rewrite <- Hr, rev_involutive. }
  induction 1 as [|w ws Hw Hws IH]; [done|]. simpl. destruct ws as [|w' ws].
  - rewrite split_word by apply Hw. rewrite app_nil_r. by apply Hflush.
  - rewrite split_app_word by apply Hw. rewrite app_nil_r. cbn [split_codes u_space].
    change (u_space 32) with true. cbv iota. rewrite Hflush by done. by rewrite IH.
Qed.
