(* ===== verification/ClientIp.v ===== *)
(** The address of the client: [src/apps/core/client_ip.py].

    Behind [NUM_PROXIES] trusted proxies it is the element of X-Forwarded-For
    that the outermost of them has appended; what the client itself puts into
    the header stands to the left of it and has no effect. *)

From S2P Require Import Prelude Python.
From Stdlib Require Import Ascii.
#[local] Open Scope Z_scope.

(** * Strings *)

(** [s.split(c)] *)
Fixpoint py_split (c : ascii) (s : string) : list string :=
  match s with
  | EmptyString => [EmptyString]
  | String a s' =>
      if Ascii.eqb a c then EmptyString :: py_split c s'
      else match py_split c s' with
           | w :: ws => String a w :: ws
           | [] => [String a EmptyString]
           end
  end.

(** [s.count(c)] *)
Fixpoint py_count (c : ascii) (s : string) : nat :=
  match s with
  | EmptyString => 0
  | String a s' => if Ascii.eqb a c then S (py_count c s') else py_count c s'
  end.

(** What stands before the first [c]. *)
Fixpoint before_first (c : ascii) (s : string) : string :=
  match s with
  | EmptyString => EmptyString
  | String a s' => if Ascii.eqb a c then EmptyString else String a (before_first c s')
  end.

(** What stands before the last [c]: [s.rsplit(c, 1)[0]]. *)
Fixpoint before_last (c : ascii) (s : string) : string :=
  match s with
  | EmptyString => EmptyString
  | String a s' =>
      if Ascii.eqb a c && (py_count c s' =? 0)%nat then EmptyString
      else String a (before_last c s')
  end.

(** * The client *)

(** [request.META], as far as it is read. *)
Record RequestMeta : Type := mkMeta {
  REMOTE_ADDR : option string;
  HTTP_X_FORWARDED_FOR : option string;
}.

(** What [NUM_PROXIES] of the REST framework's settings holds. *)
Inductive setting : Type := Unset | IntSetting (n : Z) | NotANumber.

Definition trusted_proxy_count (num_proxies : setting) : nat :=
  match num_proxies with
  | IntSetting n => Z.to_nat n
  | _ => 0
  end.

Definition strip_port (address : string) : string :=
  let addr := py_strip address in
  match addr with
  | EmptyString => addr
  | String a rest =>
      if Ascii.eqb a "[" then
        if (py_count "]" addr =? 0)%nat then addr else before_first "]" rest
      else if (py_count "." addr =? 3)%nat && negb (py_count ":" addr =? 0)%nat
      then before_last ":" addr
      else addr
  end.

(** The elements of X-Forwarded-For. *)
Definition forwarded (xff : string) : list string :=
  List.filter str_true (map py_strip (py_split "," xff)).

Definition get_client_ip (num_proxies : setting) (meta : RequestMeta) : option string :=
  let k := trusted_proxy_count num_proxies in
  if (k =? 0)%nat then REMOTE_ADDR meta
  else
    match HTTP_X_FORWARDED_FOR meta with
    | Some xff =>
        let addrs := forwarded xff in
        if negb (str_true xff) || (length addrs <? k)%nat then REMOTE_ADDR meta
        else match addrs !! (length addrs - k)%nat with
             | Some addr => Some (strip_port addr)
             | None => REMOTE_ADDR meta
             end
    | None => REMOTE_ADDR meta
    end.

Example documented_addresses :
  map strip_port [" [2001:db8::1]:8443 "; "[2001:db8"; "203.0.113.7:443"; "2001:db8::1"]%string
  = ["2001:db8::1"; "[2001:db8"; "203.0.113.7"; "2001:db8::1"]%string.
Proof. vm_compute. reflexivity. Qed.

(** * What the client writes has no effect *)

Lemma py_split_cons c s : exists w ws, py_split c s = w :: ws.
Proof.
  induction s as [|a s (w & ws & IH)]; simpl; [by eexists _, _|].
  destruct (Ascii.eqb a c); [by eexists _, _|]. rewrite IH. by eexists _, _.
Qed.

Lemma py_split_app c p s : py_split c (p +:+ String c s)%string = py_split c p ++ py_split c s.
Proof.
  induction p as [|a p IH]; simpl; [by rewrite Ascii.eqb_refl|].
  rewrite IH. destruct (Ascii.eqb a c); [done|].
  by destruct (py_split_cons c p) as (w & ws & ->).
Qed.

Lemma forwarded_app p s : forwarded (p +:+ String "," s)%string = forwarded p ++ forwarded s.
Proof. unfold forwarded. by rewrite py_split_app, map_app, List.filter_app. Qed.

Lemma str_true_app p c s : str_true (p +:+ String c s)%string = true.
Proof. by destruct p. Qed.

(** C35: an address cannot be forged: where the trusted proxies have appended
    their part to what the client sent as X-Forwarded-For, the address of the
    client is what the outermost of them has appended, whatever the client
    sent. *)
Theorem client_cannot_forge_its_address (k : nat) (remote : option string) (sent appended : string)
    (outermost : string) (inner : list string)
    (Hk : length (outermost :: inner) = k) (Happended : forwarded appended = outermost :: inner) :
  get_client_ip (IntSetting (Z.of_nat k)) (mkMeta remote (Some (sent +:+ String "," appended)%string))
  = Some (strip_port outermost).
Proof.
  unfold get_client_ip, trusted_proxy_count. rewrite Nat2Z.id. simpl HTTP_X_FORWARDED_FOR.
  simpl in Hk. replace (k =? 0)%nat with false by (symmetry; apply Nat.eqb_neq; lia).
  cbn zeta. rewrite str_true_app, forwarded_app, Happended, length_app. simpl.
  replace (_ <? _)%nat with false by (symmetry; apply Nat.ltb_ge; lia).
  replace (_ - _)%nat with (length (forwarded sent)) by lia.
  by rewrite list_lookup_middle by done.
Qed.

Lemma client_cannot_forge_its_address_witness :
  get_client_ip (IntSetting 2)
    (mkMeta (Some "10.0.0.2"%string) (Some ("1.2.3.4, 5.6.7.8" +:+ String "," " 203.0.113.7:443, 10.0.0.1")%string))
  = Some "203.0.113.7"%string.
Proof.
  exact (client_cannot_forge_its_address 2 (Some "10.0.0.2"%string) "1.2.3.4, 5.6.7.8"
           " 203.0.113.7:443, 10.0.0.1" "203.0.113.7:443" ["10.0.0.1"%string] eq_refl eq_refl).
Defined.

(** Without trusted proxies the header is not read at all. *)
Lemma header_is_not_trusted (num_proxies : setting) (meta : RequestMeta) :
  trusted_proxy_count num_proxies = 0%nat -> get_client_ip num_proxies meta = REMOTE_ADDR meta.
Proof. unfold get_client_ip. by intros ->. Qed.
