(* ===== verification/AccountModels.v ===== *)
(** The data of the accounts: [src/apps/authentication/models.py] and
    [choices.py] but for the one-time codes ([Otp.v]), the constraints of the
    tables, the tokens of the JWT library, and the database, environment and
    exceptions of [src/apps/authentication/services.py].

    The database has two parts: tables, which a transaction that fails
    restores, and the cache, which it does not. *)

From S2P Require Import Prelude Python Choices Orm Models AuditTrail Otp ClientIp.
From S2P Require Normalizers.
#[local] Open Scope Z_scope.

(** * Choices *)

Module UserRole.

Inductive t : Set := USER | ADMIN.

#[export] Instance t_eq : EqDecision t.
Proof. solve_decision. Defined.

Definition values : list (t * string) := [ (USER, "user"%string); (ADMIN, "admin"%string) ].

#[export, refine] Instance t_choices : TextChoices t := { choices := values }.
Proof. all: solve_choices. Defined.

End UserRole.
Export (hints) UserRole.

Module Gender.

Inductive t : Set := MALE | FEMALE.

#[export] Instance t_eq : EqDecision t.
Proof. solve_decision. Defined.

Definition values : list (t * string) := [ (MALE, "male"%string); (FEMALE, "female"%string) ].

#[export, refine] Instance t_choices : TextChoices t := { choices := values }.
Proof. all: solve_choices. Defined.

End Gender.
Export (hints) Gender.

Module AuthRiskSignalType.

Inductive t : Set := NEW_DEVICE | NEW_IP | FAILED_LOGIN_SPIKE | SESSION_REVOKE_SPIKE.

#[export] Instance t_eq : EqDecision t.
Proof. solve_decision. Defined.

Definition values : list (t * string) :=
  [ (NEW_DEVICE, "new_device"%string);
    (NEW_IP, "new_ip"%string);
    (FAILED_LOGIN_SPIKE, "failed_login_spike"%string);
    (SESSION_REVOKE_SPIKE, "session_revoke_spike"%string) ].

#[export, refine] Instance t_choices : TextChoices t := { choices := values }.
Proof. all: solve_choices. Defined.

End AuthRiskSignalType.
Export (hints) AuthRiskSignalType.

Module AuthRiskSeverity.

Inductive t : Set := LOW | MEDIUM | HIGH | CRITICAL.

#[export] Instance t_eq : EqDecision t.
Proof. solve_decision. Defined.

Definition values : list (t * string) :=
  [ (LOW, "low"%string); (MEDIUM, "medium"%string); (HIGH, "high"%string);
    (CRITICAL, "critical"%string) ].

#[export, refine] Instance t_choices : TextChoices t := { choices := values }.
Proof. all: solve_choices. Defined.

End AuthRiskSeverity.
Export (hints) AuthRiskSeverity.

Module AuthRiskStatus.

Inductive t : Set := OPEN | REVIEWED | DISMISSED | ESCALATED.

#[export] Instance t_eq : EqDecision t.
Proof. solve_decision. Defined.

Definition values : list (t * string) :=
  [ (OPEN, "open"%string); (REVIEWED, "reviewed"%string); (DISMISSED, "dismissed"%string);
    (ESCALATED, "escalated"%string) ].

#[export, refine] Instance t_choices : TextChoices t := { choices := values }.
Proof. all: solve_choices. Defined.

End AuthRiskStatus.
Export (hints) AuthRiskStatus.

(** * Rows *)

(** [User] *)
Record Account : Type := mkAccount {
  acc_id : Z;
  acc_password : string;
  acc_is_superuser : bool;
  acc_email : option string;
  acc_phone_number : option string;
  acc_primary_identifier : PrimaryIdentifierKind.t;
  acc_is_email_verified : bool;
  acc_is_phone_verified : bool;
  acc_first_name : string;
  acc_last_name : string;
  acc_role : UserRole.t;
  acc_is_active : bool;
  acc_is_staff : bool;
  acc_date_joined : Z;
  acc_last_login_ip : option string;
}.

#[export] Instance eta_Account : Eta Account := fun x => mkAccount
  (acc_id x) (acc_password x) (acc_is_superuser x) (acc_email x) (acc_phone_number x)
  (acc_primary_identifier x) (acc_is_email_verified x) (acc_is_phone_verified x)
  (acc_first_name x) (acc_last_name x) (acc_role x) (acc_is_active x) (acc_is_staff x)
  (acc_date_joined x) (acc_last_login_ip x).

Definition full_name (x : Account) : string :=
  py_strip (acc_first_name x +:+ " " +:+ acc_last_name x)%string.

Definition is_admin (x : Account) : bool := bool_decide (acc_role x = UserRole.ADMIN).

Definition primary_identifier_value (x : Account) : option string :=
  match acc_primary_identifier x with
  | PrimaryIdentifierKind.PHONE => acc_phone_number x
  | PrimaryIdentifierKind.EMAIL => acc_email x
  end.

Definition is_primary_identifier_verified (x : Account) : bool :=
  match acc_primary_identifier x with
  | PrimaryIdentifierKind.PHONE => acc_is_phone_verified x
  | PrimaryIdentifierKind.EMAIL => acc_is_email_verified x
  end.

Definition is_fully_verified (x : Account) : bool :=
  acc_is_email_verified x && acc_is_phone_verified x.

(** The lookup [iexact], on text whose case is that of [py_lower]. *)
Definition iexact (a b : string) : bool := str_eqb (py_lower a) (py_lower b).

(** Two rows with one value in a nullable unique column; NULLs do not clash. *)
Definition same_value (a b : option string) : bool :=
  match a, b with Some v, Some w => str_eqb v w | _, _ => false end.

Definition account_row_ok (others : gmap Z Account) (x : Account) : bool :=
  max_length 128 (acc_password x) && opt_ok (max_length 254) (acc_email x) &&
  opt_ok (max_length 20) (acc_phone_number x) && max_length 100 (acc_first_name x) &&
  max_length 100 (acc_last_name x) &&
  negb (bool_decide (acc_email x = None) && bool_decide (acc_phone_number x = None)) &&
  unique_among (fun y => same_value (acc_email y) (acc_email x)) others &&
  unique_among (fun y => same_value (acc_phone_number y) (acc_phone_number x)) others.

(** [Profile]; a blank gender is [None]. *)
Record Profile : Type := mkProfile {
  prof_id : Z;
  prof_user : Z;
  prof_national_code : string;
  prof_birth_date : option Z;
  prof_gender : option Gender.t;
  prof_avatar : option string;
  prof_bio : string;
  prof_province : string;
  prof_city : string;
  prof_address : string;
  prof_is_active : bool;
  prof_created_at : Z;
  prof_updated_at : Z;
}.

#[export] Instance eta_Profile : Eta Profile := fun x => mkProfile
  (prof_id x) (prof_user x) (prof_national_code x) (prof_birth_date x) (prof_gender x)
  (prof_avatar x) (prof_bio x) (prof_province x) (prof_city x) (prof_address x)
  (prof_is_active x) (prof_created_at x) (prof_updated_at x).

Definition profile_row_ok (others : gmap Z Profile) (x : Profile) : bool :=
  max_length 10 (prof_national_code x) && opt_ok (max_length 100) (prof_avatar x) &&
  max_length 100 (prof_province x) && max_length 100 (prof_city x) &&
  unique_among (fun y => prof_user y =? prof_user x) others.

(** [get_missing_r4j_fields]: the names of [PROFILE_R4J_REQUIRED_FIELDS] that
    are not filled. *)
Definition get_missing_r4j_fields (x : Profile) : list string :=
  fst <$> List.filter (fun f => f.2)
    [ ("national_code"%string, negb (str_true (prof_national_code x)));
      ("birth_date"%string, bool_decide (prof_birth_date x = None));
      ("gender"%string, bool_decide (prof_gender x = None));
      ("province"%string, negb (str_true (prof_province x)));
      ("city"%string, negb (str_true (prof_city x)));
      ("address"%string, negb (str_true (prof_address x))) ].

Definition is_complete_for_r4j (x : Profile) : bool :=
  bool_decide (get_missing_r4j_fields x = []).

(** [AuthSession] *)
Record AuthSession : Type := mkAuthSession {
  ses_id : Z;
  ses_user : Z;
  ses_refresh_jti : string;
  ses_device_label : string;
  ses_user_agent : string;
  ses_ip_address : option string;
  ses_request_id : string;
  ses_is_revoked : bool;
  ses_revoked_at : option Z;
  ses_revoked_by : option Z;
  ses_last_seen_at : Z;
  ses_expires_at : option Z;
  ses_fingerprint_hash : string;
  ses_is_active : bool;
  ses_created_at : Z;
  ses_updated_at : Z;
}.

#[export] Instance eta_AuthSession : Eta AuthSession := fun x => mkAuthSession
  (ses_id x) (ses_user x) (ses_refresh_jti x) (ses_device_label x) (ses_user_agent x)
  (ses_ip_address x) (ses_request_id x) (ses_is_revoked x) (ses_revoked_at x) (ses_revoked_by x)
  (ses_last_seen_at x) (ses_expires_at x) (ses_fingerprint_hash x) (ses_is_active x)
  (ses_created_at x) (ses_updated_at x).

Definition session_row_ok (others : gmap Z AuthSession) (x : AuthSession) : bool :=
  max_length 120 (ses_refresh_jti x) && max_length 160 (ses_device_label x) &&
  max_length 512 (ses_user_agent x) && max_length 80 (ses_request_id x) &&
  max_length 64 (ses_fingerprint_hash x) &&
  unique_among (fun y => str_eqb (ses_refresh_jti y) (ses_refresh_jti x)) others.

(** [AuthRiskSignal] *)
Record AuthRiskSignal : Type := mkAuthRiskSignal {
  sig_id : Z;
  sig_signal_type : AuthRiskSignalType.t;
  sig_severity : AuthRiskSeverity.t;
  sig_status : AuthRiskStatus.t;
  sig_user : Z;
  sig_session : option Z;
  sig_ip_address : option string;
  sig_description : string;
  sig_metadata : json;
  sig_reviewed_by : option Z;
  sig_reviewed_at : option Z;
  sig_review_note : string;
  sig_is_active : bool;
  sig_created_at : Z;
  sig_updated_at : Z;
}.

#[export] Instance eta_AuthRiskSignal : Eta AuthRiskSignal := fun x => mkAuthRiskSignal
  (sig_id x) (sig_signal_type x) (sig_severity x) (sig_status x) (sig_user x) (sig_session x)
  (sig_ip_address x) (sig_description x) (sig_metadata x) (sig_reviewed_by x) (sig_reviewed_at x)
  (sig_review_note x) (sig_is_active x) (sig_created_at x) (sig_updated_at x).

(** * Tokens *)

(** The claims of a refresh token that the services read and write; the time
    is in seconds, as in the token. *)
Record Claims : Type := mkClaims {
  clm_jti : string;
  clm_exp : option Z;
  clm_user_id : option Z;
  clm_sid : option Z;
}.

#[export] Instance eta_Claims : Eta Claims := fun x => mkClaims
  (clm_jti x) (clm_exp x) (clm_user_id x) (clm_sid x).

(** The tables of the JWT library that the services query as well: the
    tokens issued, by key, and the keys of those that are blacklisted. *)
Record OutstandingToken : Type := mkOutstanding { out_jti : string; out_expires_at : Z }.

Record TokenDB : Type := mkTokenDB {
  outstanding : gmap Z OutstandingToken;
  blacklisted : gset Z;
}.

#[export] Instance eta_TokenDB : Eta TokenDB := fun x => mkTokenDB (outstanding x) (blacklisted x).

(** The operations of the JWT library. *)
Record TokenOps : Type := mkTokenOps {
  (** [RefreshToken.for_user(user)] at a time *)
  refresh_for_user : Z -> Account -> TokenDB -> Claims * TokenDB;
  (** [str(refresh)] and [str(refresh.access_token)] *)
  str_refresh : Claims -> string;
  str_access : Claims -> string;
  (** [RefreshToken(text)] at a time; [None] is the [TokenError] *)
  parse_refresh : Z -> TokenDB -> string -> option Claims;
  (** [refresh.blacklist()] *)
  blacklist_token : Claims -> TokenDB -> TokenDB;
  (** [refresh.set_jti(); refresh.set_exp(); refresh.set_iat()] at a time *)
  renew_token : Z -> TokenDB -> Claims -> Claims;
  (** [refresh.outstand()] *)
  outstand_token : Claims -> TokenDB -> TokenDB;
  (** [USER_AUTHENTICATION_RULE] *)
  authentication_rule : Account -> bool;
}.

(** * The database *)

(** What the cache knows of a session: that it is revoked, or when it was last
    seen. *)
Inductive session_state : Type := revoked | seen (at_ : Z).

Record SessionEntry : Type := mkSessionEntry { se_state : session_state; se_expires : Z }.

Record AuthTables : Type := mkAuthTables {
  accounts : Table Account;
  profiles : Table Profile;
  auth_sessions : Table AuthSession;
  auth_risk_signals : Table AuthRiskSignal;
  auth_audit_logs : Table AuditLog;
  auth_codes : Table OTPCode;
  auth_tokens : TokenDB;
}.

#[export] Instance eta_AuthTables : Eta AuthTables := fun x => mkAuthTables
  (accounts x) (profiles x) (auth_sessions x) (auth_risk_signals x) (auth_audit_logs x)
  (auth_codes x) (auth_tokens x).

(** The keys of the two kinds of entries have different prefixes. *)
Record AuthCache : Type := mkAuthCache {
  cache_numbers : gmap string CacheEntry;
  cache_sessions : gmap string SessionEntry;
}.

#[export] Instance eta_AuthCache : Eta AuthCache := fun x => mkAuthCache
  (cache_numbers x) (cache_sessions x).

Record AuthDB : Type := mkAuthDB { tables : AuthTables; cache : AuthCache }.

#[export] Instance eta_AuthDB : Eta AuthDB := fun x => mkAuthDB (tables x) (cache x).

#[export] Instance Account_model : Model AuthDB Account := {
  table_of db := accounts (tables db);
  with_table t db := db <| tables := (tables db) <| accounts := t |> |>;
  pk := acc_id;
  is_active := acc_is_active;
  created_at := acc_date_joined;
  row_ok := account_row_ok;
}.

#[export] Instance Account_laws : ModelLaws AuthDB Account.
Proof. split; reflexivity. Qed.

#[export] Instance Profile_model : Model AuthDB Profile := {
  table_of db := profiles (tables db);
  with_table t db := db <| tables := (tables db) <| profiles := t |> |>;
  pk := prof_id;
  is_active := prof_is_active;
  created_at := prof_created_at;
  row_ok := profile_row_ok;
}.

#[export] Instance Profile_laws : ModelLaws AuthDB Profile.
Proof. split; reflexivity. Qed.

#[export] Instance AuthSession_model : Model AuthDB AuthSession := {
  table_of db := auth_sessions (tables db);
  with_table t db := db <| tables := (tables db) <| auth_sessions := t |> |>;
  pk := ses_id;
  is_active := ses_is_active;
  created_at := ses_created_at;
  row_ok := session_row_ok;
}.

#[export] Instance AuthSession_laws : ModelLaws AuthDB AuthSession.
Proof. split; reflexivity. Qed.

#[export] Instance AuthRiskSignal_model : Model AuthDB AuthRiskSignal := {
  table_of db := auth_risk_signals (tables db);
  with_table t db := db <| tables := (tables db) <| auth_risk_signals := t |> |>;
  pk := sig_id;
  is_active := sig_is_active;
  created_at := sig_created_at;
  row_ok _ _ := true;
}.

#[export] Instance AuthRiskSignal_laws : ModelLaws AuthDB AuthRiskSignal.
Proof. split; reflexivity. Qed.

(** * Environment and exceptions *)

Record AuthEnv : Type := mkAuthEnv {
  (** the clock and what the one-time codes need *)
  auth_otp_env : OtpEnv;
  auth_num_proxies : setting;
  (** [salted_hmac("auth-session-fingerprint", payload, algorithm).hexdigest()] *)
  auth_fingerprint : string -> string -> string;
  (** [set_password] and [check_password] *)
  auth_make_password : string -> string;
  auth_check_password : string -> string -> bool;
  (** [BaseUserManager.normalize_email] *)
  auth_normalize_email : string -> string;
  auth_token_ops : TokenOps;
}.

#[export] Instance eta_AuthEnv : Eta AuthEnv := fun x => mkAuthEnv
  (auth_otp_env x) (auth_num_proxies x) (auth_fingerprint x) (auth_make_password x)
  (auth_check_password x) (auth_normalize_email x) (auth_token_ops x).

#[export] Instance auth_clock : Clock AuthEnv := fun env => oenv_now (auth_otp_env env).

(** The exceptions; those that only differ in their message are one
    constructor for each message. *)
Inductive auth_exc : Type :=
| invalid_review_status
| IdentifierAlreadyExists
| IdentifierNotFound
| InvalidCredentials
| AccountNotVerified
| AccountInactive
| OTPServiceError (original : otp_exc)
| IdentifierAlreadyVerified
| IdentifierChannelAlreadyOccupied (kind : PrimaryIdentifierKind.t)
| IdentifierNotAttached
| IdentifierNotVerified
| identifier_invalid (reason : Normalizers.norm_error)
| phone_removal_forbidden
| phone_taken
| unsupported_identifier_kind (kind : string)
| no_email_identifier
| no_identifier
| identifier_required
| primary_email_required
| primary_phone_required
| TokenError
| InvalidToken
| OtpRaised (e : otp_exc)
| AuthDoesNotExist
| AuthMultipleObjectsReturned
| AuthIntegrityError
| AuthDatabaseError.

#[export] Instance auth_orm : OrmError auth_exc := {
  does_not_exist := AuthDoesNotExist;
  integrity_error := AuthIntegrityError;
  database_error := AuthDatabaseError;
}.

Abbreviation UM := (comp AuthEnv AuthDB auth_exc).

(** [transaction.atomic]: the tables are restored, the cache is not. *)
Definition transaction {A} (m : UM A) : UM A := fun env db =>
  match m env db with
  | (Ok a, db') => (Ok a, db')
  | (Raise e, db') => (Raise e, db' <| tables := tables db |>)
  end.

(** A function of the one-time codes, on its part of the database. *)
Definition otp_part (db : AuthDB) : OtpDB :=
  mkOtpDB (auth_codes (tables db)) (cache_numbers (cache db)).

Definition with_otp_part (s : OtpDB) (db : AuthDB) : AuthDB :=
  mkAuthDB ((tables db) <| auth_codes := otp_codes s |>)
           ((cache db) <| cache_numbers := otp_cache s |>).

Definition on_codes {A} (m : OM A) : UM A := fun env db =>
  match m (auth_otp_env env) (otp_part db) with
  | (Ok a, s) => (Ok a, with_otp_part s db)
  | (Raise e, s) => (Raise (OtpRaised e), with_otp_part s db)
  end.

(** An operation of the JWT library on its tables. *)
Definition on_tokens {A} (f : TokenOps -> Z -> TokenDB -> A * TokenDB) : UM A := fun env db =>
  let (a, t) := f (auth_token_ops env) (clock env) (auth_tokens (tables db)) in
  (Ok a, db <| tables := (tables db) <| auth_tokens := t |> |>).

(** [request], as far as the services read it. *)
Record HttpRequest : Type := mkRequest {
  req_meta : RequestMeta;
  req_user_agent : string;
  req_request_id : string;
}.

Lemma transaction_ok_inv {A} (m : UM A) env db a db' :
  transaction m env db = (Ok a, db') -> m env db = (Ok a, db').
Proof. unfold transaction. destruct (m env db) as [[b|e] s]; [done|]. by intros [=]. Qed.

Lemma transaction_ok {A} (m : UM A) env db a db' :
  m env db = (Ok a, db') -> transaction m env db = (Ok a, db').
Proof. unfold transaction. by intros ->. Qed.

Lemma transaction_raise_inv {A} (m : UM A) env db e db' :
  transaction m env db = (Raise e, db') ->
  tables db' = tables db /\ exists s, m env db = (Raise e, s) /\ cache db' = cache s.
Proof.
  unfold transaction. destruct (m env db) as [[b|e'] s]; [done|]. intros [= <- <-]. eauto.
Qed.

(** A transaction goes along a relation that its body and the way back go along. *)
Lemma moves_transaction (T : AuthDB -> AuthDB -> Prop) {A} (m : UM A) :
  (forall db db', T db db' -> T db (db' <| tables := tables db |>)) ->
  moves T m -> moves T (transaction m).
Proof.
  intros Hback Hm env db. specialize (Hm env db). unfold transaction.
  destruct (m env db) as [[a|e] s]; simpl in *; [done|]. by apply Hback.
Qed.

Lemma moves_on_codes (T : AuthDB -> AuthDB -> Prop) {A} (m : OM A) :
  (forall env db r s, m env (otp_part db) = (r, s) -> T db (with_otp_part s db)) ->
  moves T (on_codes m).
Proof.
  intros Hm env db. unfold on_codes. destruct (m _ _) as [[a|e] s] eqn:Hrun; simpl; by eapply Hm.
Qed.

Lemma moves_on_tokens (T : AuthDB -> AuthDB -> Prop) {A} (f : TokenOps -> Z -> TokenDB -> A * TokenDB) :
  (forall t db, T db (db <| tables := (tables db) <| auth_tokens := t |> |>)) ->
  moves T (on_tokens f).
Proof. intros HT env db. unfold on_tokens. destruct (f _ _ _) as [a t]. apply HT. Qed.
