(* ===== verification/Sessions.v ===== *)
(** Sessions and tokens: [src/apps/authentication/services.py], 267–523 and
    756–935, with the refresh serializer of [serializers.py], 789–850, the task
    of [tasks.py], and [AuthSession.build_fingerprint_hash] of [models.py].

    An access token names its session in a claim; a request is let through
    while the session is not revoked, by the cache or by the table.  A time
    stamp in the cache is the number of microseconds, where the code has a
    float of seconds. *)

From S2P Require Import Prelude Python Choices Orm Models AuditTrail Otp ClientIp AccountModels.
#[local] Open Scope Z_scope.

(** * Helpers *)

(** [w in s] *)
Fixpoint py_in (w s : string) : bool :=
  String.prefix w s || match s with EmptyString => false | String _ s' => py_in w s' end.

Definition SESSION_ID_CLAIM : string := "sid".
Definition LAST_SEEN_TOUCH_SECONDS : Z := 60.

(** The address of a request's client. *)
Definition request_ip (env : AuthEnv) (request : HttpRequest) : option string :=
  get_client_ip (auth_num_proxies env) (req_meta request).

(** [x or ""] *)
Definition opt_str (x : option string) : string := default EmptyString x.

(** [if ip] *)
Definition present (x : option string) : bool :=
  match x with Some v => str_true v | None => false end.

Definition FINGERPRINT_ALGORITHM : string := "sha256".
Definition LEGACY_FINGERPRINT_ALGORITHM : string := "sha1".

Definition build_fingerprint_hash (env : AuthEnv) (user_agent : string) (ip_address : option string)
    (algorithm : string) : string :=
  auth_fingerprint env algorithm (py_prefix 512 user_agent +:+ "|" +:+ opt_str ip_address)%string.

Definition build_device_label (user_agent : string) : string :=
  let normalized := str_or user_agent "Unknown device" in
  if py_in "Mobile" normalized || py_in "Android" normalized || py_in "iPhone" normalized
  then "Mobile browser"
  else if py_in "Firefox" normalized then "Firefox browser"
  else if py_in "Chrome" normalized then "Chrome browser"
  else if py_in "Safari" normalized then "Safari browser"
  else py_prefix 80 normalized.

(** * Tokens *)

Record TokenPair : Type := mkTokenPair { pair_refresh : string; pair_access : string }.

Definition token_pair (env : AuthEnv) (refresh : Claims) : TokenPair :=
  mkTokenPair (str_refresh (auth_token_ops env) refresh) (str_access (auth_token_ops env) refresh).

(** [RefreshToken.for_user(user)] *)
Definition for_user (user : Account) : UM Claims :=
  on_tokens (fun ops now t => refresh_for_user ops now user t).

(** [RefreshToken(text)] *)
Definition read_refresh (text : string) (error : auth_exc) : UM Claims :=
  env ← ask;
  parsed ← query (fun db =>
    parse_refresh (auth_token_ops env) (clock env) (auth_tokens (tables db)) text);
  match parsed with Some c => mret c | None => raise error end.

Definition issue_tokens (user : Account) : UM TokenPair :=
  refresh ← for_user user; env ← ask; mret (token_pair env refresh).

Definition generate_tokens_for_user (user : Account) : UM TokenPair := issue_tokens user.

(** * Risk signals *)

Definition create_auth_risk_signal (signal_type : AuthRiskSignalType.t)
    (severity : AuthRiskSeverity.t) (user : Account) (session : option AuthSession)
    (ip_address : option string) (description : string) (metadata : json) : UM AuthRiskSignal :=
  existing ← query (fun db => qs_first (objects_filter (fun s =>
    bool_decide (sig_signal_type s = signal_type) &&
    bool_decide (sig_status s = AuthRiskStatus.OPEN) &&
    (sig_user s =? acc_id user) && bool_decide (sig_session s = ses_id <$> session) &&
    bool_decide (sig_ip_address s = ip_address)) db));
  match existing with
  | Some s => mret s
  | None =>
      create (fun i now => mkAuthRiskSignal i signal_type severity AuthRiskStatus.OPEN (acc_id user)
        (ses_id <$> session) ip_address description
        (if json_true metadata then metadata else JObj []) None None EmptyString true now now)
  end.

(** The other sessions of a session's user. *)
Definition previous_sessions (session : AuthSession) (P : AuthSession -> bool) (db : AuthDB) :
    gmap Z AuthSession :=
  objects_filter (fun s =>
    (ses_user s =? ses_user session) && negb (ses_id s =? ses_id session) && P s) db.

Definition evaluate_auth_session_risk (user : Account) (session : AuthSession) :
    UM (list AuthRiskSignal) :=
  env ← ask;
  let legacy := build_fingerprint_hash env (ses_user_agent session) (ses_ip_address session)
                  LEGACY_FINGERPRINT_ALGORITHM in
  let label := JObj [("device_label"%string, JStr (ses_device_label session))] in
  known ← query (fun db => qs_exists (previous_sessions session (fun s =>
    str_eqb (ses_fingerprint_hash s) (ses_fingerprint_hash session) ||
    str_eqb (ses_fingerprint_hash s) legacy) db));
  device ← (if known : bool then mret []
            else s ← create_auth_risk_signal AuthRiskSignalType.NEW_DEVICE AuthRiskSeverity.MEDIUM user
                       (Some session) (ses_ip_address session)
                       "ورود از دستگاه/اثر انگشت مرورگر جدید شناسایی شد." label;
                 mret [s]);
  seen_here ← query (fun db => qs_exists (previous_sessions session (fun s =>
    bool_decide (ses_ip_address s = ses_ip_address session)) db));
  address ← (if present (ses_ip_address session) && negb seen_here
             then s ← create_auth_risk_signal AuthRiskSignalType.NEW_IP AuthRiskSeverity.LOW user
                        (Some session) (ses_ip_address session) "ورود از IP جدید شناسایی شد." label;
                  mret [s]
             else mret []);
  mret (device ++ address).

(** The rows of the audit trail with which a failed login was recorded. *)
Definition login_failures (user since : Z) (db : AuthDB) : Z :=
  qs_count (filter (fun kx : Z * AuditLog =>
    bool_decide (aud_user kx.2 = Some user) && str_eqb (aud_action kx.2) "LOGIN_FAILED" &&
    (since <=? aud_created_at kx.2) = true) (rows (auth_audit_logs (tables db)))).

Definition record_failed_login_risk (user : option Account) (ip_address : option string)
    (window_minutes threshold : Z) : UM (option AuthRiskSignal) :=
  match user with
  | None => mret None
  | Some user =>
      now ← timezone_now;
      let since := now - window_minutes * usec_per_min in
      recent_failures ← query (fun db => qs_count (objects_filter (fun s =>
        (sig_user s =? acc_id user) &&
        bool_decide (sig_signal_type s = AuthRiskSignalType.FAILED_LOGIN_SPIKE) &&
        (since <=? sig_created_at s) && bool_decide (sig_status s = AuthRiskStatus.OPEN)) db));
      if 1 <=? recent_failures then mret None
      else
        failure_count ← query (login_failures (acc_id user) since);
        if failure_count <? threshold then mret None
        else
          s ← create_auth_risk_signal AuthRiskSignalType.FAILED_LOGIN_SPIKE AuthRiskSeverity.HIGH user
                None ip_address "تعداد تلاش‌های ورود ناموفق در بازه کوتاه غیرعادی است."
                (JObj [("window_minutes"%string, JInt window_minutes);
                       ("failure_count"%string, JInt failure_count)]);
          mret (Some s)
  end.

Definition review_auth_risk_signal (signal reviewed_by : Z) (status : AuthRiskStatus.t)
    (review_note : string) : UM AuthRiskSignal :=
  transaction
    (_ ← raise_if (bool_decide (status = AuthRiskStatus.OPEN)) invalid_review_status;
     locked ← objects_get (A := AuthRiskSignal) signal;
     now ← timezone_now;
     let review s := s <| sig_status := status |> <| sig_reviewed_by := Some reviewed_by |>
                       <| sig_reviewed_at := Some now |> <| sig_review_note := py_strip review_note |> in
     _ ← update_row signal (fun s => review s <| sig_updated_at := now |>);
     mret (review locked <| sig_updated_at := now |>)).

(** * Sessions of a login *)

Definition create_auth_session (user : Account) (refresh_token : string) (request : HttpRequest) :
    UM AuthSession :=
  refresh ← read_refresh refresh_token TokenError;
  env ← ask;
  let ip := request_ip env request in
  let user_agent := py_prefix 512 (req_user_agent request) in
  let expires_at := match clm_exp refresh with
                    | Some seconds => if seconds =? 0 then None else Some (seconds * usec_per_sec)
                    | None => None
                    end in
  create (fun i now => mkAuthSession i (acc_id user) (clm_jti refresh) (build_device_label user_agent)
    user_agent ip (py_prefix 80 (req_request_id request)) false None None now expires_at
    (build_fingerprint_hash env user_agent ip FINGERPRINT_ALGORITHM) true now now).

Record LoginResult : Type := mkLoginResult {
  login_user_of : Account;
  login_tokens : TokenPair;
  login_session : AuthSession;
}.

(** The session is created before the token is signed, so that the token can
    name it. *)
Definition build_login_result (user : Account) (request : HttpRequest) : UM LoginResult :=
  env ← ask;
  let ip := request_ip env request in
  let user' := user <| acc_last_login_ip := if present ip then ip else acc_last_login_ip user |> in
  _ ← (if present ip
       then update_row (acc_id user) (fun row => row <| acc_last_login_ip := ip |>)
       else mret tt);
  refresh ← for_user user';
  session ← create_auth_session user' (str_refresh (auth_token_ops env) refresh) request;
  let tokens := token_pair env (refresh <| clm_sid := Some (ses_id session) |>) in
  _ ← evaluate_auth_session_risk user' session;
  mret (mkLoginResult user' tokens session).

(** * Revocation *)

Definition session_validity_cache_key (sid user_id : Z) : string :=
  ("auth:session_state:" +:+ pretty user_id +:+ ":" +:+ pretty sid)%string.

Definition invalidate_session_validity_cache (sid user_id : Z) : UM unit :=
  modify (fun db => db <| cache := (cache db) <| cache_sessions :=
    delete (session_validity_cache_key sid user_id) (cache_sessions (cache db)) |> |>).

(** [OutstandingToken.objects.filter(jti=...).first()], whose column is unique,
    and [BlacklistedToken.objects.get_or_create(token=...)] *)
Definition blacklist_jti (jti : string) (t : TokenDB) : TokenDB :=
  t <| blacklisted := blacklisted t ∪
         dom (filter (fun kx => str_eqb (out_jti kx.2) jti = true) (outstanding t)) |>.

Definition revoke_auth_session (session : Z) (revoked_by : option Z) : UM AuthSession :=
  transaction
    (locked ← objects_get (A := AuthSession) session;
     if ses_is_revoked locked then mret locked
     else
       now ← timezone_now;
       let revoke s := s <| ses_is_revoked := true |> <| ses_revoked_at := Some now |>
                         <| ses_revoked_by := revoked_by |> <| ses_updated_at := now |> in
       _ ← update_row (ses_id locked) revoke;
       _ ← on_tokens (fun _ _ t => (tt, blacklist_jti (ses_refresh_jti locked) t));
       _ ← invalidate_session_validity_cache (ses_id locked) (ses_user locked);
       mret (revoke locked)).

Definition revoke_auth_session_by_jti (refresh_jti : string) (revoked_by : option Z) :
    UM (option AuthSession) :=
  session ← query (fun db =>
    qs_first (objects_filter (fun s => str_eqb (ses_refresh_jti s) refresh_jti) db));
  match session with
  | None => mret None
  | Some s => closed ← revoke_auth_session (ses_id s) revoked_by; mret (Some closed)
  end.

Definition active_sessions (user : Z) (exclude_sid : option Z) (db : AuthDB) : gmap Z AuthSession :=
  objects_filter (fun s => (ses_user s =? user) && negb (ses_is_revoked s) &&
    match exclude_sid with Some sid => negb (ses_id s =? sid) | None => true end) db.

Definition revoke_all_user_sessions (user : Z) (revoked_by exclude_sid : option Z) : UM Z :=
  transaction
    (sessions ← query (fun db => qs_list (active_sessions user exclude_sid db));
     for_fold (fun count s => _ ← revoke_auth_session (ses_id s) revoked_by; mret (count + 1))
       0 sessions).

(** Every exception ends in [False]. *)
Definition logout_user (refresh_token : string) : UM bool :=
  try_catch
    (token ← read_refresh refresh_token TokenError;
     _ ← on_tokens (fun ops _ t => (tt, blacklist_token ops token t));
     _ ← revoke_auth_session_by_jti (clm_jti token) None;
     mret true)
    (fun _ => Some (mret false)).

(** * The check of every request *)

Definition cache_session (sid user_id : Z) (state : session_state) : UM unit :=
  now ← timezone_now;
  modify (fun db => db <| cache := (cache db) <| cache_sessions :=
    <[session_validity_cache_key sid user_id :=
        mkSessionEntry state (now + LAST_SEEN_TOUCH_SECONDS * usec_per_sec)]>
      (cache_sessions (cache db)) |> |>).

(** What the cache knows at a time. *)
Definition cached_state (sid user_id now : Z) (db : AuthDB) : option session_state :=
  match cache_sessions (cache db) !! session_validity_cache_key sid user_id with
  | Some e => if se_expires e <=? now then None else Some (se_state e)
  | None => None
  end.

(** The verdict of the cache, if it has one. *)
Definition cached_verdict (now : Z) (cached : option session_state) : option bool :=
  match cached with
  | Some revoked => Some false
  | Some (seen last) =>
      if now - last <? LAST_SEEN_TOUCH_SECONDS * usec_per_sec then Some true else None
  | None => None
  end.

Definition find_session (sid user_id : Z) (db : AuthDB) : option AuthSession :=
  qs_first (objects_filter (fun s => (ses_id s =? sid) && (ses_user s =? user_id)) db).

(** [AuthSession.objects.filter(pk=..., is_revoked=False).update(last_seen_at=...)] *)
Definition touch_session (sid last_seen : Z) : UM unit :=
  modify (fun db => match rows_of (A := AuthSession) db !! sid with
    | Some s => if ses_is_active s && negb (ses_is_revoked s)
                then set_row sid (s <| ses_last_seen_at := last_seen |>) db else db
    | None => db
    end).

(** What a request that had to ask the table does with the row found. *)
Definition settle_session (sid user_id now : Z) (session : option AuthSession) : UM bool :=
  match session with
  | Some s =>
      if ses_is_revoked s then _ ← cache_session sid user_id revoked; mret false
      else
        last_seen ← (if LAST_SEEN_TOUCH_SECONDS * usec_per_sec <=? now - ses_last_seen_at s
                     then _ ← touch_session (ses_id s) now; mret now
                     else mret (ses_last_seen_at s));
        _ ← cache_session sid user_id (seen last_seen);
        mret true
  | None => _ ← cache_session sid user_id revoked; mret false
  end.

Definition validate_and_touch_session (user : Z) (sid : option Z) : UM bool :=
  match sid with
  | None => mret true
  | Some sid =>
      now ← timezone_now;
      cached ← query (cached_state sid user now);
      match cached_verdict now cached with
      | Some verdict => mret verdict
      | None => session ← query (find_session sid user); settle_session sid user now session
      end
  end.

(** * Refreshing a token *)

(** [SessionAwareTokenRefreshSerializer.validate], with
    [ROTATE_REFRESH_TOKENS] and [BLACKLIST_AFTER_ROTATION]. *)
Definition refresh_tokens (text : string) : UM TokenPair :=
  refresh ← read_refresh text InvalidToken;
  env ← ask;
  let ops := auth_token_ops env in
  _ ← match clm_user_id refresh with
      | Some user_id =>
          user ← query (fun db => qs_first (objects_filter (fun u => acc_id u =? user_id) db));
          raise_if (match user with Some u => negb (authentication_rule ops u) | None => true end)
            InvalidToken
      | None => mret tt
      end;
  session ← match clm_sid refresh with
            | Some sid =>
                found ← query (fun db => match clm_user_id refresh with
                  | Some user_id => find_session sid user_id db
                  | None => None
                  end);
                match found with
                | Some s => if ses_is_revoked s then raise InvalidToken else mret (Some s)
                | None => raise InvalidToken
                end
            | None => mret None
            end;
  let access := str_access ops refresh in
  rotated ← on_tokens (fun ops now t =>
    let t := blacklist_token ops refresh t in
    let c := renew_token ops now t refresh in (c, outstand_token ops c t));
  _ ← match session with
      | Some s => now ← timezone_now; touch_session (ses_id s) now
      | None => mret tt
      end;
  mret (mkTokenPair (str_refresh ops rotated) access).

(** * Expired tokens ([tasks.py]) *)

Definition expired_tokens (now : Z) (t : TokenDB) : list Z :=
  (map_to_list (filter (fun kx => out_expires_at kx.2 <=? now = true) (outstanding t))).*1.

(** The deletion of tokens takes their places on the blacklist along. *)
Definition drop_tokens (pks : gset Z) (t : TokenDB) : TokenDB :=
  mkTokenDB (filter (fun kx => kx.1 ∉ pks) (outstanding t)) (blacklisted t ∖ pks).

Record FlushReport : Type := mkFlush {
  deleted_outstanding : Z;
  deleted_blacklisted : Z;
  exhausted : bool;
}.

#[export] Instance eta_FlushReport : Eta FlushReport := fun x => mkFlush
  (deleted_outstanding x) (deleted_blacklisted x) (exhausted x).

(** The loop over the batches, which ends early where nothing is left. *)
Fixpoint flush_batches (now : Z) (batch_size max_batches : nat) (report : FlushReport) (t : TokenDB) :
    FlushReport * TokenDB :=
  match max_batches with
  | O => (report <| exhausted := bool_decide (expired_tokens now t = []) |>, t)
  | S n =>
      match take batch_size (expired_tokens now t) with
      | [] => (report <| exhausted := true |>, t)
      | pks =>
          let gone : gset Z := list_to_set pks in
          flush_batches now batch_size n
            (report <| deleted_outstanding := deleted_outstanding report + Z.of_nat (length pks) |>
                    <| deleted_blacklisted := deleted_blacklisted report +
                         Z.of_nat (size (blacklisted t ∩ gone)) |>)
            (drop_tokens gone t)
      end
  end.

Definition flush_expired_jwt_tokens_task (batch_size max_batches : nat) : UM FlushReport :=
  on_tokens (fun _ now t => flush_batches now batch_size max_batches (mkFlush 0 0 true) t).
