(* ===== verification/Accounts.v ===== *)
(** Accounts: [src/apps/authentication/services.py] but for the sessions
    ([Sessions.v]), with [managers.py], [selectors.py], [backends.py] and
    [signals.py].

    A service gets the user as an object that was read before; it decides on
    that object and saves the columns it lists.  An identifier kind and a
    purpose are texts, as the code has them. *)

From S2P Require Import Prelude Python Choices Orm Models AuditTrail Otp ClientIp AccountModels Sessions.
From S2P Require Normalizers.
#[local] Open Scope Z_scope.

(** * Users ([managers.py]) *)

(** The columns the services save. *)
Inductive account_field : Type :=
| set_password (encoded : string)
| set_email (v : option string)
| set_phone_number (v : option string)
| set_primary_identifier (kind : PrimaryIdentifierKind.t)
| set_email_verified (b : bool)
| set_phone_verified (b : bool)
| set_first_name (s : string)
| set_last_name (s : string)
| set_role (role : UserRole.t)
| set_active (b : bool)
| set_staff (b : bool).

Definition assign (x : Account) (f : account_field) : Account :=
  match f with
  | set_password v => x <| acc_password := v |>
  | set_email v => x <| acc_email := v |>
  | set_phone_number v => x <| acc_phone_number := v |>
  | set_primary_identifier v => x <| acc_primary_identifier := v |>
  | set_email_verified v => x <| acc_is_email_verified := v |>
  | set_phone_verified v => x <| acc_is_phone_verified := v |>
  | set_first_name v => x <| acc_first_name := v |>
  | set_last_name v => x <| acc_last_name := v |>
  | set_role v => x <| acc_role := v |>
  | set_active v => x <| acc_is_active := v |>
  | set_staff v => x <| acc_is_staff := v |>
  end.

Definition assign_all (fields : list account_field) (x : Account) : Account :=
  fold_left assign fields x.

(** [user.save(update_fields=...)] *)
Definition save_user (user : Account) (fields : list account_field) : UM unit :=
  update_row (acc_id user) (assign_all fields).

(** [if update_fields: user.save(update_fields=update_fields)] *)
Definition save_changes (user : Account) (fields : list account_field) : UM unit :=
  match fields with [] => mret tt | _ => save_user user fields end.

Definition soft_delete (user : Account) : UM unit := save_user user [set_active false].
Definition restore (user : Account) : UM unit := save_user user [set_active true].

Definition normalize_optional_email (email : option string) : UM (option string) :=
  env ← ask;
  mret (match email with
        | Some e => let e := py_strip e in
                    if str_true e then Some (auth_normalize_email env e) else None
        | None => None
        end).

Definition normalize_optional_phone (phone_number : option string) : option string :=
  match phone_number with
  | Some p => let p := py_strip p in if str_true p then Some p else None
  | None => None
  end.

Definition resolve_primary_identifier (email phone_number : option string)
    (asked : option PrimaryIdentifierKind.t) : UM PrimaryIdentifierKind.t :=
  match asked with
  | None => mret (if present email then PrimaryIdentifierKind.EMAIL else PrimaryIdentifierKind.PHONE)
  | Some PrimaryIdentifierKind.EMAIL =>
      _ ← raise_if (negb (present email)) primary_email_required; mret PrimaryIdentifierKind.EMAIL
  | Some PrimaryIdentifierKind.PHONE =>
      _ ← raise_if (negb (present phone_number)) primary_phone_required; mret PrimaryIdentifierKind.PHONE
  end.

(** The keyword arguments of [create_user]. *)
Record ExtraFields : Type := mkExtra {
  ex_phone_number : option string;
  ex_primary_identifier : option PrimaryIdentifierKind.t;
  ex_is_email_verified : bool;
  ex_is_phone_verified : bool;
  ex_first_name : string;
  ex_last_name : string;
  ex_role : UserRole.t;
  ex_is_staff : bool;
  ex_is_superuser : bool;
}.

(** With the profile that the signal [post_save] creates. *)
Definition create_user_with (email : option string) (password : string) (extra : ExtraFields) :
    UM Account :=
  let phone_number := normalize_optional_phone (ex_phone_number extra) in
  email ← normalize_optional_email email;
  _ ← raise_if (bool_decide (email = None) && bool_decide (phone_number = None)) identifier_required;
  primary ← resolve_primary_identifier email phone_number (ex_primary_identifier extra);
  env ← ask;
  user ← create (fun i now => mkAccount i (auth_make_password env password) (ex_is_superuser extra)
    email phone_number primary (ex_is_email_verified extra) (ex_is_phone_verified extra)
    (ex_first_name extra) (ex_last_name extra) (ex_role extra) true (ex_is_staff extra) now None);
  _ ← create (fun i now => mkProfile i (acc_id user) EmptyString None None None EmptyString
    EmptyString EmptyString EmptyString true now now);
  mret user.

(** [create_user], for the arguments with which the services call it. *)
Definition create_user (email phone_number : option string) (password first_name last_name : string)
    (primary : option PrimaryIdentifierKind.t) (email_verified phone_verified : bool) : UM Account :=
  create_user_with email password
    (mkExtra phone_number primary email_verified phone_verified first_name last_name UserRole.USER
       false false).

(** [create_superuser] without further arguments *)
Definition create_superuser (email : option string) (password : string) : UM Account :=
  _ ← raise_if (negb (present email)) identifier_required;
  create_user_with email password
    (mkExtra None (Some PrimaryIdentifierKind.EMAIL) true false EmptyString EmptyString UserRole.ADMIN
       true true).

(** * Look-ups ([selectors.py]) *)

(** [User.all_objects.filter(...)] *)
Definition all_accounts (P : Account -> bool) (db : AuthDB) : gmap Z Account :=
  filter (fun kx => P kx.2 = true) (rows_of db).

Definition has_email (v : string) (u : Account) : bool :=
  match acc_email u with Some e => iexact e v | None => false end.

Definition has_phone (v : string) (u : Account) : bool :=
  bool_decide (acc_phone_number u = Some v).

(** The rows an identifier selects. *)
Definition has_identifier (kind : PrimaryIdentifierKind.t) (v : string) : Account -> bool :=
  match kind with
  | PrimaryIdentifierKind.EMAIL => has_email v
  | PrimaryIdentifierKind.PHONE => has_phone v
  end.

(** A kind given as a text; any other than the two is a [ValueError]. *)
Definition known_kind (identifier_kind : string) : UM PrimaryIdentifierKind.t :=
  match of_value identifier_kind with
  | Some k => mret k
  | None => raise (unsupported_identifier_kind identifier_kind)
  end.

Definition get_user_by_identifier (identifier_kind identifier_value : string) : UM (option Account) :=
  kind ← known_kind identifier_kind;
  query (fun db => qs_first (all_accounts (has_identifier kind identifier_value) db)).

Definition get_active_user_by_identifier (identifier_kind identifier_value : string) :
    UM (option Account) :=
  kind ← known_kind identifier_kind;
  query (fun db => qs_first (objects_filter (has_identifier kind identifier_value) db)).

(** [MultiIdentifierBackend.authenticate]; [get] raises where several users
    have the identifier. *)
Definition authenticate (identifier password : string) : UM (option Account) :=
  if negb (str_true identifier) then mret None
  else
    env ← ask;
    found ← query (fun db => qs_list (objects_filter (fun u : Account =>
      has_email identifier u || has_phone identifier u) db));
    match found with
    | [] => mret None
    | [user] =>
        mret (if auth_check_password env password (acc_password user) && acc_is_active user
              then Some user else None)
    | _ => raise AuthMultipleObjectsReturned
    end.

(** * Helpers of the services *)

Definition of_checked {A} (r : outcome Normalizers.norm_error A) : UM A :=
  match r with Ok v => mret v | Raise e => raise (identifier_invalid e) end.

Definition normalize_identifier_by_kind (identifier_kind identifier_value : string) : UM string :=
  kind ← known_kind identifier_kind;
  match kind with
  | PrimaryIdentifierKind.EMAIL => of_checked (Normalizers.normalize_email identifier_value)
  | PrimaryIdentifierKind.PHONE => of_checked (Normalizers.normalize_phone identifier_value)
  end.

Definition identifier_state (user : Account) (kind : PrimaryIdentifierKind.t) : option string * bool :=
  match kind with
  | PrimaryIdentifierKind.EMAIL => (acc_email user, acc_is_email_verified user)
  | PrimaryIdentifierKind.PHONE => (acc_phone_number user, acc_is_phone_verified user)
  end.

Definition identifier_exists_for_other_user (kind : PrimaryIdentifierKind.t) (identifier_value : string)
    (exclude_user_id : Z) (db : AuthDB) : bool :=
  qs_exists (all_accounts (fun u =>
    negb (acc_id u =? exclude_user_id) && has_identifier kind identifier_value u) db).

Definition ensure_identifier_can_be_added_or_verified (user : Account)
    (identifier_kind identifier_value : string) : UM string :=
  normalized ← normalize_identifier_by_kind identifier_kind identifier_value;
  kind ← known_kind identifier_kind;
  let (current, verified) := identifier_state user kind in
  match current with
  | Some v =>
      if str_eqb v normalized then
        _ ← raise_if verified IdentifierAlreadyVerified; mret normalized
      else raise (IdentifierChannelAlreadyOccupied kind)
  | None =>
      taken ← query (identifier_exists_for_other_user kind normalized (acc_id user));
      _ ← raise_if taken IdentifierAlreadyExists;
      mret normalized
  end.

Definition resolve_legacy_otp_identifier (user : Account) (purpose : string) :
    UM (PrimaryIdentifierKind.t * string) :=
  let by_email := e ← of_checked (Normalizers.normalize_email (opt_str (acc_email user)));
                  mret (PrimaryIdentifierKind.EMAIL, e) in
  let by_phone := p ← of_checked (Normalizers.normalize_phone (opt_str (acc_phone_number user)));
                  mret (PrimaryIdentifierKind.PHONE, p) in
  if str_eqb purpose (value OTPPurpose.EMAIL_VERIFICATION) ||
     str_eqb purpose (value OTPPurpose.PASSWORD_RESET)
  then if present (acc_email user) then by_email else raise no_email_identifier
  else if bool_decide (acc_primary_identifier user = PrimaryIdentifierKind.PHONE) &&
          present (acc_phone_number user) then by_phone
  else if present (acc_email user) then by_email
  else if present (acc_phone_number user) then by_phone
  else raise no_identifier.

Definition prepare_phone_number_update (user : Account) (phone_number : option string) :
    UM (list account_field) :=
  match phone_number with
  | None => mret []
  | Some p =>
      let unverify := if acc_is_phone_verified user then [set_phone_verified false] else [] in
      if str_eqb p EmptyString then
        _ ← raise_if (bool_decide (acc_primary_identifier user = PrimaryIdentifierKind.PHONE) &&
                      negb (present (acc_email user))) phone_removal_forbidden;
        mret ((if bool_decide (acc_phone_number user = None) then [] else [set_phone_number None])
              ++ unverify)
      else
        normalized ← of_checked (Normalizers.normalize_phone p);
        taken ← query (fun db => qs_exists (all_accounts (fun u =>
          has_phone normalized u && negb (acc_id u =? acc_id user)) db));
        _ ← raise_if taken phone_taken;
        mret (if bool_decide (acc_phone_number user = Some normalized) then []
              else set_phone_number (Some normalized) :: unverify)
  end.

(** * One-time codes *)

(** The exceptions that the callers of [verify_otp] turn into their own, and
    those of [generate_and_send_otp]. *)
Definition verification_failure (e : auth_exc) : option auth_exc :=
  match e with
  | OtpRaised ((OTPNotFound | OTPExpired | OTPInvalidCode | OTPTooManyAttempts) as original) =>
      Some (OTPServiceError original)
  | _ => None
  end.

Definition delivery_problem (e : auth_exc) : option auth_exc :=
  match e with
  | OtpRaised ((OTPCooldownActive _ | OTPDeliveryError) as original) => Some (OTPServiceError original)
  | _ => None
  end.

Definition mapping {A} (f : auth_exc -> option auth_exc) (m : UM A) : UM A :=
  try_catch m (fun e => raise <$> f e).

Definition verify_identifier_otp (identifier_kind identifier_value : string) (purpose : OTPPurpose.t)
    (code : string) : UM OTPCode :=
  mapping verification_failure (on_codes (verify_otp identifier_kind identifier_value (value purpose) code)).

Definition send_identifier_otp (identifier_kind identifier_value : string) (purpose : OTPPurpose.t) :
    UM OTPGenerationResult :=
  mapping delivery_problem (on_codes (generate_and_send_otp identifier_kind identifier_value (value purpose))).

Definition create_and_send_otp (user : Account) (purpose : string) : UM OTPCode :=
  transaction
    (target ← resolve_legacy_otp_identifier user purpose;
     result ← on_codes (generate_and_send_otp (value target.1) target.2 purpose);
     mret (gen_otp result)).

(** [except (OTPError, ValidationError, ValueError)] *)
Definition caught_by_legacy (e : auth_exc) : bool :=
  match e with
  | identifier_invalid _ | no_email_identifier | no_identifier => true
  | OtpRaised (OTPValidationError _ | OTPCooldownActive _ | OTPNotFound | OTPExpired | OTPInvalidCode
              | OTPTooManyAttempts | OTPDeliveryError) => true
  | _ => false
  end.

(** [verify_otp] of the services *)
Definition legacy_verify_otp (user : Account) (code purpose : string) : UM bool :=
  try_catch
    (target ← resolve_legacy_otp_identifier user purpose;
     _ ← on_codes (verify_otp (value target.1) target.2 purpose code);
     mret true)
    (fun e => if caught_by_legacy e then Some (mret false) else None).

(** * The first version of the interface *)

Definition register_user (email password first_name last_name : string) : UM Account :=
  transaction
    (normalized ← of_checked (Normalizers.normalize_email email);
     user ← create_user (Some normalized) None password first_name last_name None false false;
     _ ← create_and_send_otp user (value OTPPurpose.EMAIL_VERIFICATION);
     mret user).

Definition login_user (request : HttpRequest) (email password : string) : UM (option LoginResult) :=
  match Normalizers.normalize_email email with
  | Raise _ => mret None
  | Ok normalized =>
      user ← authenticate normalized password;
      match user with
      | None => mret None
      | Some user => result ← build_login_result user request; mret (Some result)
      end
  end.

Definition verify_user_email (user : Account) (code : string) : UM bool :=
  transaction
    (verified ← legacy_verify_otp user code (value OTPPurpose.EMAIL_VERIFICATION);
     if negb verified then mret false
     else
       _ ← (if acc_is_email_verified user then mret tt else save_user user [set_email_verified true]);
       mret true).

Definition request_password_reset (user : Account) : UM OTPCode :=
  transaction (create_and_send_otp user (value OTPPurpose.PASSWORD_RESET)).

(** [user.set_password(...)], saved, and the other sessions revoked. *)
Definition renew_password (user : Account) (new_password : string) (exclude_sid : option Z) : UM Z :=
  env ← ask;
  _ ← save_user user [set_password (auth_make_password env new_password)];
  revoke_all_user_sessions (acc_id user) None exclude_sid.

Definition reset_password_with_otp (user : Account) (code new_password : string) : UM bool :=
  transaction
    (verified ← legacy_verify_otp user code (value OTPPurpose.PASSWORD_RESET);
     if negb verified then mret false
     else _ ← renew_password user new_password None; mret true).

Definition change_password (user : Account) (old_password new_password : string)
    (keep_session_sid : option Z) : UM bool :=
  transaction
    (env ← ask;
     if negb (auth_check_password env old_password (acc_password user)) then mret false
     else _ ← renew_password user new_password keep_session_sid; mret true).

(** * Signing up and in with an identifier *)

Definition signup_request (identifier_kind identifier_value : string) : UM unit :=
  normalized ← normalize_identifier_by_kind identifier_kind identifier_value;
  _ ← send_identifier_otp identifier_kind normalized OTPPurpose.SIGNUP;
  mret tt.

Inductive SignupResult : Type :=
| signed_in (result : LoginResult)
| signed_up (user : Account) (tokens : TokenPair).

Definition signup_verify (identifier_kind identifier_value code password first_name last_name : string)
    (request : option HttpRequest) : UM SignupResult :=
  transaction
    (normalized ← normalize_identifier_by_kind identifier_kind identifier_value;
     _ ← verify_identifier_otp identifier_kind normalized OTPPurpose.SIGNUP code;
     kind ← known_kind identifier_kind;
     taken ← query (fun db => qs_exists (all_accounts (has_identifier kind normalized) db));
     _ ← raise_if taken IdentifierAlreadyExists;
     user ← match kind with
            | PrimaryIdentifierKind.EMAIL =>
                create_user (Some normalized) None password first_name last_name (Some kind) true false
            | PrimaryIdentifierKind.PHONE =>
                create_user None (Some normalized) password first_name last_name (Some kind) false true
            end;
     match request with
     | Some request => result ← build_login_result user request; mret (signed_in result)
     | None => tokens ← issue_tokens user; mret (signed_up user tokens)
     end).

Definition login_with_password (identifier_kind identifier_value password : string)
    (request : HttpRequest) : UM LoginResult :=
  normalized ← normalize_identifier_by_kind identifier_kind identifier_value;
  user ← get_user_by_identifier identifier_kind normalized;
  env ← ask;
  match user with
  | None => raise IdentifierNotFound
  | Some user =>
      _ ← raise_if (negb (acc_is_active user)) AccountInactive;
      _ ← raise_if (negb (auth_check_password env password (acc_password user))) InvalidCredentials;
      _ ← raise_if (negb (is_primary_identifier_verified user)) AccountNotVerified;
      build_login_result user request
  end.

(** A request for a code that says nothing about whether the account exists. *)
Definition send_to_active_user (identifier_kind identifier_value : string) (purpose : OTPPurpose.t) :
    UM unit :=
  normalized ← normalize_identifier_by_kind identifier_kind identifier_value;
  user ← get_active_user_by_identifier identifier_kind normalized;
  match user with
  | None => mret tt
  | Some _ => _ ← send_identifier_otp identifier_kind normalized purpose; mret tt
  end.

Definition login_otp_request (identifier_kind identifier_value : string) : UM unit :=
  send_to_active_user identifier_kind identifier_value OTPPurpose.LOGIN.

Definition forgot_password_request (identifier_kind identifier_value : string) : UM unit :=
  send_to_active_user identifier_kind identifier_value OTPPurpose.PASSWORD_RESET.

(** The user whose code was verified. *)
Definition verified_user (identifier_kind identifier_value code : string) (purpose : OTPPurpose.t) :
    UM Account :=
  normalized ← normalize_identifier_by_kind identifier_kind identifier_value;
  _ ← verify_identifier_otp identifier_kind normalized purpose code;
  user ← get_active_user_by_identifier identifier_kind normalized;
  match user with Some user => mret user | None => raise IdentifierNotFound end.

Definition login_otp_verify (identifier_kind identifier_value code : string) (request : HttpRequest) :
    UM LoginResult :=
  user ← verified_user identifier_kind identifier_value code OTPPurpose.LOGIN;
  build_login_result user request.

Definition forgot_password_confirm (identifier_kind identifier_value code new_password : string) :
    UM unit :=
  transaction
    (user ← verified_user identifier_kind identifier_value code OTPPurpose.PASSWORD_RESET;
     _ ← renew_password user new_password None;
     mret tt).

(** * Identifiers of an account *)

Definition identifier_add_request (user : Account) (identifier_kind identifier_value : string) : UM unit :=
  normalized ← ensure_identifier_can_be_added_or_verified user identifier_kind identifier_value;
  _ ← send_identifier_otp identifier_kind normalized OTPPurpose.IDENTIFIER_ADD;
  mret tt.

(** The columns in which an added identifier differs from the user. *)
Definition attached (user : Account) (kind : PrimaryIdentifierKind.t) (v : string) :
    list account_field :=
  match kind with
  | PrimaryIdentifierKind.EMAIL =>
      (if bool_decide (acc_email user = Some v) then [] else [set_email (Some v)]) ++
      (if acc_is_email_verified user then [] else [set_email_verified true])
  | PrimaryIdentifierKind.PHONE =>
      (if bool_decide (acc_phone_number user = Some v) then [] else [set_phone_number (Some v)]) ++
      (if acc_is_phone_verified user then [] else [set_phone_verified true])
  end.

Definition identifier_add_verify (user : Account) (identifier_kind identifier_value code : string) :
    UM Account :=
  transaction
    (normalized ← ensure_identifier_can_be_added_or_verified user identifier_kind identifier_value;
     _ ← verify_identifier_otp identifier_kind normalized OTPPurpose.IDENTIFIER_ADD code;
     normalized ← ensure_identifier_can_be_added_or_verified user identifier_kind normalized;
     kind ← known_kind identifier_kind;
     let fields := attached user kind normalized in
     _ ← save_changes user fields;
     mret (assign_all fields user)).

Definition make_primary_identifier (user : Account) (identifier_kind : string) : UM Account :=
  transaction
    (kind ← known_kind identifier_kind;
     let (current, verified) := identifier_state user kind in
     _ ← raise_if (bool_decide (current = None)) IdentifierNotAttached;
     _ ← raise_if (negb verified) IdentifierNotVerified;
     if bool_decide (acc_primary_identifier user = kind) then mret user
     else
       _ ← save_user user [set_primary_identifier kind];
       mret (assign user (set_primary_identifier kind))).

(** * Profiles and administration *)

Inductive profile_field : Type :=
| set_national_code (s : string)
| set_birth_date (day : Z)
| set_gender (g : option Gender.t)
| set_avatar (path : string)
| set_bio (s : string)
| set_province (s : string)
| set_city (s : string)
| set_address (s : string).

Definition assign_profile (x : Profile) (f : profile_field) : Profile :=
  match f with
  | set_national_code v => x <| prof_national_code := v |>
  | set_birth_date v => x <| prof_birth_date := Some v |>
  | set_gender v => x <| prof_gender := v |>
  | set_avatar v => x <| prof_avatar := Some v |>
  | set_bio v => x <| prof_bio := v |>
  | set_province v => x <| prof_province := v |>
  | set_city v => x <| prof_city := v |>
  | set_address v => x <| prof_address := v |>
  end.

(** [fields] are those that are not [None]. *)
Definition update_profile (profile : Profile) (user : Account) (phone_number : option string)
    (fields : list profile_field) : UM Profile :=
  transaction
    (user_fields ← prepare_phone_number_update user phone_number;
     _ ← save_changes user user_fields;
     now ← timezone_now;
     let apply x := fold_left assign_profile fields x <| prof_updated_at := now |> in
     _ ← update_row (prof_id profile) apply;
     mret (apply profile)).

(** What a user may change of the own account, and what an administrator may. *)
Definition basic_updatable (f : account_field) : bool :=
  match f with set_first_name _ | set_last_name _ => true | _ => false end.

Definition admin_updatable (f : account_field) : bool :=
  match f with
  | set_first_name _ | set_last_name _ | set_active _ | set_email_verified _ => true
  | _ => false
  end.

Definition update_permitted (permitted : account_field -> bool) (user : Account)
    (fields : list account_field) : UM Account :=
  transaction
    (let fields := List.filter permitted fields in
     _ ← save_changes user fields;
     mret (assign_all fields user)).

Definition update_user_basic_info : Account -> list account_field -> UM Account :=
  update_permitted basic_updatable.

Definition admin_update_user : Account -> list account_field -> UM Account :=
  update_permitted admin_updatable.

Definition admin_change_user_role (user : Account) (role : UserRole.t) : UM Account :=
  transaction
    (let fields := [set_role role; set_staff (bool_decide (role = UserRole.ADMIN))] in
     _ ← save_user user fields;
     mret (assign_all fields user)).
