(* ===== verification/AccountSample.v ===== *)
(** Concrete accounts for the examples and witnesses: a token library whose
    tokens are their claims in plain text, a password that is stored as it is,
    and a site with one user and one administrator. *)

From S2P Require Import Prelude Python Choices Orm Models AuditTrail Otp ClientIp AccountModels Sessions Accounts.
From Stdlib Require Import Ascii.
#[local] Open Scope Z_scope.

Definition opt_number (z : option Z) : string :=
  match z with Some z => pretty z | None => EmptyString end.

Definition claims_text (c : Claims) : string :=
  (clm_jti c +:+ "|" +:+ opt_number (clm_exp c) +:+ "|" +:+ opt_number (clm_user_id c) +:+ "|" +:+
   opt_number (clm_sid c))%string.

(** A week in seconds *)
Definition token_life : Z := 7 * 24 * 3600.

Definition next_token (t : TokenDB) : Z := 1 + Z.of_nat (size (outstanding t)).

(** A token is refused when its time is over, or when a token with its name is
    on the blacklist. *)
Definition is_blacklisted (jti : string) (t : TokenDB) : bool :=
  qs_exists (filter (fun kx => str_eqb (out_jti kx.2) jti &&
    bool_decide (kx.1 ∈ blacklisted t) = true) (outstanding t)).

Definition with_next_token (now : Z) (c : Claims) (t : TokenDB) : TokenDB :=
  t <| outstanding := <[next_token t := mkOutstanding (clm_jti c)
                          (now + token_life * usec_per_sec)]> (outstanding t) |>.

Definition sample_tokens : TokenOps := {|
  refresh_for_user now user t :=
    let c := mkClaims ("jti-" +:+ pretty (next_token t))%string
               (Some (now / usec_per_sec + token_life)) (Some (acc_id user)) None in
    (c, with_next_token now c t);
  str_refresh := claims_text;
  str_access c := ("access|" +:+ claims_text c)%string;
  parse_refresh now t text :=
    match py_split "|" text with
    | [jti; ex; user; sid] =>
        let c := mkClaims jti (py_int_str ex) (py_int_str user) (py_int_str sid) in
        if is_blacklisted jti t || (default 0 (clm_exp c) * usec_per_sec <=? now)
        then None else Some c
    | _ => None
    end;
  blacklist_token c t := blacklist_jti (clm_jti c) t;
  renew_token now t c := c <| clm_jti := ("jti-" +:+ pretty (next_token t))%string |>
                           <| clm_exp := Some (now / usec_per_sec + token_life) |>;
  outstand_token c t := with_next_token (default 0 (clm_exp c) * usec_per_sec) c t;
  authentication_rule := acc_is_active;
|}.

Definition auth_env_at (now : Z) : AuthEnv :=
  mkAuthEnv (sample_otp_env <| oenv_now := now |>) (IntSetting 0)
    (fun algorithm payload => py_prefix 64 (algorithm +:+ payload)%string)
    (fun s => s) (fun raw encoded => str_eqb raw encoded) (fun s => s) sample_tokens.

Definition sample_time : Z := 1000000000.
Definition auth_env : AuthEnv := auth_env_at sample_time.
Definition auth_after (seconds : Z) : AuthEnv := auth_env_at (sample_time + seconds * usec_per_sec).

Definition sample_user : Account :=
  mkAccount 1 "correct horse" false (Some "sara@example.com"%string) (Some "+989120000000"%string)
    PrimaryIdentifierKind.PHONE true true "Sara" EmptyString UserRole.USER true false 0 None.

Definition sample_admin : Account :=
  mkAccount 2 "battery staple" true (Some "admin@example.com"%string) None
    PrimaryIdentifierKind.EMAIL true false EmptyString EmptyString UserRole.ADMIN true true 0 None.

Definition sample_profile : Profile :=
  mkProfile 1 1 EmptyString None None None EmptyString EmptyString EmptyString EmptyString true 0 0.

Definition auth_empty {A} : Table A := mkTable ∅ 1.

Definition sample_site : AuthDB :=
  mkAuthDB
    (mkAuthTables (mkTable (list_to_map [(1, sample_user); (2, sample_admin)]) 3)
       (mkTable (list_to_map [(1, sample_profile)]) 2) auth_empty auth_empty auth_empty auth_empty
       (mkTokenDB ∅ ∅))
    (mkAuthCache ∅ ∅).

(** A site where nobody has signed up yet. *)
Definition empty_site : AuthDB :=
  mkAuthDB (mkAuthTables auth_empty auth_empty auth_empty auth_empty auth_empty auth_empty
              (mkTokenDB ∅ ∅)) (mkAuthCache ∅ ∅).

Definition sample_request : HttpRequest :=
  mkRequest (mkMeta (Some "203.0.113.7"%string) None) "Mozilla/5.0 Firefox/130.0" "request-1".

(** The result of a service, where it has one, and the database after it. *)
Definition result_of {A} (m : UM A) (env : AuthEnv) (db : AuthDB) : outcome auth_exc A := (m env db).1.
Definition state_of {A} (m : UM A) (env : AuthEnv) (db : AuthDB) : AuthDB := (m env db).2.

Definition signed_in_site : AuthDB :=
  state_of (login_with_password "email" "Sara@Example.com" "correct horse" sample_request) auth_env sample_site.

Example sara_signs_in :
  (fun r => (acc_id (login_user_of r), ses_id (login_session r), ses_device_label (login_session r),
             pair_refresh (login_tokens r)))
    <$> match result_of (login_with_password "email" "Sara@Example.com" "correct horse" sample_request)
                auth_env sample_site with Ok r => Some r | Raise _ => None end
  = Some (1, 1, "Firefox browser"%string, "jti-1|605800|1|1"%string).
Proof. vm_compute. reflexivity. Qed.

(** A first device and a first address are both reported. *)
Example first_login_is_reported :
  sig_signal_type <$> qs_list (rows_of (A := AuthRiskSignal) signed_in_site)
  = [AuthRiskSignalType.NEW_IP; AuthRiskSignalType.NEW_DEVICE].
Proof. vm_compute. reflexivity. Qed.
