(* ===== verification/SessionSafety.v ===== *)
(** How long a revoked session still lets requests through.

    [session_step] interleaves the parts of [validate_and_touch_session] of
    several requests with revocations and with whatever else happens to the
    tables: a request that has asked the table may write its verdict into the
    cache after the session was revoked, so the cache can be wrong, but not for
    longer than [LAST_SEEN_TOUCH_SECONDS]. *)

From S2P Require Import Prelude Python Choices Orm Models AuditTrail Otp ClientIp AccountModels Sessions Accounts AccountSample.
From Stdlib Require Import Ascii.
#[local] Open Scope Z_scope.
#[local] Arguments set_row : simpl never.

(** * The keys of the cache *)

Lemma py_split_without c s : py_count c s = 0%nat -> py_split c s = [s].
Proof.
  induction s as [|a s IH]; simpl; [done|]. destruct (Ascii.eqb a c); [done|]. intros H. by rewrite IH.
Qed.

Lemma py_count_app c s t : py_count c (s +:+ t)%string = (py_count c s + py_count c t)%nat.
Proof. induction s as [|a s IH]; simpl; [done|]. rewrite IH. by destruct (Ascii.eqb a c). Qed.

Lemma no_colon_in_digits (x : N) : forall s,
  py_count ":" s = 0%nat -> py_count ":" (pretty_N_go x s) = 0%nat.
Proof.
  induction (N.lt_wf_0 x) as [x _ IH]. intros s Hs.
  destruct (decide (x = 0)%N) as [->|Hx]; [by rewrite pretty_N_go_0|].
  rewrite pretty_N_go_step by lia. apply IH; [apply N.div_lt; lia|]. cbn [py_count]. rewrite Hs.
  unfold pretty_N_char. by repeat case_match.
Qed.

Lemma no_colon_in_number (z : Z) : py_count ":" (pretty z) = 0%nat.
Proof.
  assert (forall n : N, py_count ":" (pretty n) = 0%nat) as Hn.
  { intros n. unfold pretty, pretty_N. case_decide; [done|]. by apply no_colon_in_digits. }
  destruct z as [|p|p]; [done|apply (Hn (N.pos p))|].
  change (pretty (Z.neg p)) with ("-" +:+ pretty (N.pos p))%string.
  by rewrite py_count_app, (Hn (N.pos p)).
Qed.

Lemma session_key_inj sid uid sid' uid' :
  session_validity_cache_key sid uid = session_validity_cache_key sid' uid' -> sid = sid' /\ uid = uid'.
Proof.
  unfold session_validity_cache_key. intros [= H].
  change (pretty uid +:+ String ":" (pretty sid) = pretty uid' +:+ String ":" (pretty sid'))%string in H.
  assert (forall u s : Z, py_split ":" (pretty u +:+ String ":" (pretty s))%string = [pretty u; pretty s]) as Hsplit.
  { intros u s. by rewrite py_split_app, !py_split_without by apply no_colon_in_number. }
  apply (f_equal (py_split ":")) in H. rewrite !Hsplit in H. injection H as Hu Hs.
  split; by apply (inj pretty).
Qed.

(** * Requests and revocations in any order *)

(** Where a request stands: it has to ask the table; it has the row; it has
    decided, and what is left is to tell the cache; it is answered.  The
    first time is that at which the request began. *)
Inductive SessionRequest : Type :=
| Asking (sid uid began : Z)
| Holding (sid uid began : Z) (row : option AuthSession)
| Telling (sid uid began : Z) (state : session_state)
| Answered (sid uid began : Z) (verdict : bool).

Definition verdict_of (state : session_state) : bool :=
  match state with revoked => false | seen _ => true end.

(** The part of [settle_session] before the cache is told. *)
Definition decide_session (began : Z) (row : option AuthSession) : UM session_state :=
  match row with
  | Some s =>
      if ses_is_revoked s then mret revoked
      else if LAST_SEEN_TOUCH_SECONDS * usec_per_sec <=? began - ses_last_seen_at s
      then _ ← touch_session (ses_id s) began; mret (seen began)
      else mret (seen (ses_last_seen_at s))
  | None => mret revoked
  end.

Lemma settle_session_parts sid uid now row env db :
  settle_session sid uid now row env db =
  (state ← decide_session now row; _ ← cache_session sid uid state; mret (verdict_of state)) env db.
Proof.
  unfold settle_session, decide_session. destruct row as [s|]; [|done].
  destruct (ses_is_revoked s); [done|]. by destruct (_ <=? _).
Qed.

(** The parts of a revocation: the cache forgets the session, and the
    transaction commits. *)
Definition revoke_row (sid now : Z) (revoked_by : option Z) (db : AuthDB) : AuthDB :=
  match rows_of (A := AuthSession) db !! sid with
  | Some s =>
      let db' := set_row sid (s <| ses_is_revoked := true |> <| ses_revoked_at := Some now |>
                   <| ses_revoked_by := revoked_by |> <| ses_updated_at := now |>) db in
      db' <| tables := (tables db') <| auth_tokens :=
               blacklist_jti (ses_refresh_jti s) (auth_tokens (tables db')) |> |>
  | None => db
  end.

Record SessionWorld : Type := mkSessionWorld {
  sw_db : AuthDB;
  sw_now : Z;
  sw_requests : gmap Z SessionRequest;
  sw_revoked : gmap Z Z; (** when the revocation of a session was committed *)
}.

(** What else may happen to a session: it is revoked for good, its user stays,
    and it is seen only while it is not revoked. *)
Definition session_change (now : Z) (s s' : AuthSession) : Prop :=
  ses_user s' = ses_user s /\ ses_id s' = ses_id s /\
  (ses_is_revoked s = true -> ses_is_revoked s' = true /\ ses_last_seen_at s' = ses_last_seen_at s) /\
  (ses_last_seen_at s' = ses_last_seen_at s \/ ses_last_seen_at s' = now).

Record session_changes (now : Z) (db db' : AuthDB) : Prop := {
  sessions_change : forall i s', rows_of (A := AuthSession) db' !! i = Some s' -> ses_id s' = i /\
    match rows_of (A := AuthSession) db !! i with
    | Some s => session_change now s s'
    | None => next_id (table_of (A := AuthSession) db) <= i /\ ses_last_seen_at s' = now
    end;
  keys_grow : next_id (table_of (A := AuthSession) db) <= next_id (table_of (A := AuthSession) db');
  keys_bound : forall i s', rows_of (A := AuthSession) db' !! i = Some s' ->
    i < next_id (table_of (A := AuthSession) db');
  cache_only_forgets : cache_sessions (cache db') ⊆ cache_sessions (cache db);
}.

Inductive session_step : SessionWorld -> SessionWorld -> Prop :=
| time_passes db now now' rs rv :
    now <= now' -> session_step (mkSessionWorld db now rs rv) (mkSessionWorld db now' rs rv)
| request_begins db now rs rv n sid uid :
    rs !! n = None ->
    session_step (mkSessionWorld db now rs rv)
      (mkSessionWorld db now
         (<[n := match cached_verdict now (cached_state sid uid now db) with
                 | Some verdict => Answered sid uid now verdict
                 | None => Asking sid uid now end]> rs) rv)
| request_reads db now rs rv n sid uid began :
    rs !! n = Some (Asking sid uid began) ->
    session_step (mkSessionWorld db now rs rv)
      (mkSessionWorld db now (<[n := Holding sid uid began (find_session sid uid db)]> rs) rv)
| request_decides db now rs rv n sid uid began row env state db' :
    rs !! n = Some (Holding sid uid began row) ->
    decide_session began row env db = (Ok state, db') ->
    session_step (mkSessionWorld db now rs rv)
      (mkSessionWorld db' now (<[n := Telling sid uid began state]> rs) rv)
| request_tells db now rs rv n sid uid began state env db' :
    rs !! n = Some (Telling sid uid began state) -> clock env = now ->
    cache_session sid uid state env db = (Ok tt, db') ->
    session_step (mkSessionWorld db now rs rv)
      (mkSessionWorld db' now (<[n := Answered sid uid began (verdict_of state)]> rs) rv)
| cache_forgets db now rs rv sid uid env db' :
    invalidate_session_validity_cache sid uid env db = (Ok tt, db') ->
    session_step (mkSessionWorld db now rs rv) (mkSessionWorld db' now rs rv)
| revocation_commits db now rs rv sid s at_ by_ :
    rows_of (A := AuthSession) db !! sid = Some s -> ses_is_revoked s = false ->
    session_step (mkSessionWorld db now rs rv)
      (mkSessionWorld (revoke_row sid at_ by_ db) now rs (<[sid := now]> rv))
| others_change db now rs rv db' :
    session_changes now db db' ->
    session_step (mkSessionWorld db now rs rv) (mkSessionWorld db' now rs rv).

Inductive session_steps : SessionWorld -> SessionWorld -> Prop :=
| sessions_stay w : session_steps w w
| sessions_go w w1 w2 : session_step w w1 -> session_steps w1 w2 -> session_steps w w2.

(** In the beginning nobody has logged in yet and the cache is empty. *)
Definition session_reachable (w : SessionWorld) : Prop :=
  exists db now,
    rows_of (A := AuthSession) db = ∅ /\ cache_sessions (cache db) = ∅ /\
    session_steps (mkSessionWorld db now ∅ ∅) w.

(** * The invariant *)

(** What holds of a time at which a session was seen: it is not later than
    now, nor than the revocation of the session. *)
Definition seen_before (w : SessionWorld) (sid t : Z) : Prop :=
  t <= sw_now w /\ forall T, sw_revoked w !! sid = Some T -> t <= T.

Definition request_ok (w : SessionWorld) (r : SessionRequest) : Prop :=
  match r with
  | Asking _ _ began => began <= sw_now w
  | Holding sid _ began row =>
      began <= sw_now w /\
      forall s, row = Some s -> ses_id s = sid /\
        (ses_is_revoked s = false -> seen_before w sid began /\ seen_before w sid (ses_last_seen_at s))
  | Telling sid _ began state =>
      began <= sw_now w /\
      forall t, state = seen t -> seen_before w sid began /\ seen_before w sid t
  | Answered sid _ began verdict =>
      began <= sw_now w /\
      (verdict = true -> forall T, sw_revoked w !! sid = Some T ->
         began < T + LAST_SEEN_TOUCH_SECONDS * usec_per_sec)
  end.

Record sessions_ok (w : SessionWorld) : Prop := {
  ids_ok : forall i s, rows_of (A := AuthSession) (sw_db w) !! i = Some s ->
    ses_id s = i /\ i < next_id (table_of (A := AuthSession) (sw_db w));
  rows_seen : forall i s, rows_of (A := AuthSession) (sw_db w) !! i = Some s ->
    seen_before w i (ses_last_seen_at s);
  revoked_for_good : forall i T, sw_revoked w !! i = Some T -> T <= sw_now w /\
    i < next_id (table_of (A := AuthSession) (sw_db w)) /\
    forall s, rows_of (A := AuthSession) (sw_db w) !! i = Some s -> ses_is_revoked s = true;
  cache_seen : forall sid uid e t,
    cache_sessions (cache (sw_db w)) !! session_validity_cache_key sid uid = Some e ->
    se_state e = seen t -> seen_before w sid t;
  requests_ok : forall n r, sw_requests w !! n = Some r -> request_ok w r;
}.

(** The invariant in a later world: the database and the requests may have
    changed, time has passed, and a session may have been revoked since. *)
Definition later_world (w w' : SessionWorld) : Prop :=
  sw_now w <= sw_now w' /\
  forall sid T, sw_revoked w' !! sid = Some T -> sw_revoked w !! sid = Some T \/ sw_now w <= T.

Lemma seen_later w w' sid t : later_world w w' -> seen_before w sid t -> seen_before w' sid t.
Proof.
  intros [Hnow Hrv] [Ht HT]. split; [lia|]. intros T [?|?]%Hrv; [by apply HT|lia].
Qed.

Lemma request_later w w' r : later_world w w' -> request_ok w r -> request_ok w' r.
Proof.
  intros Hw. pose proof Hw as [Hnow Hrv]. destruct r as [sid uid began|sid uid began row|sid uid began state|sid uid began v]; simpl.
  - lia.
  - intros [Hb Hs]. split; [lia|]. intros s Hrow. destruct (Hs s Hrow) as [Hid Hx]. split; [done|].
    intros Hu. destruct (Hx Hu). split; by eapply seen_later.
  - intros [Hb Hs]. split; [lia|]. intros t Ht. destruct (Hs t Ht). split; by eapply seen_later.
  - intros [Hb Hv]. split; [lia|]. intros Htrue T [?|?]%Hrv; [by apply Hv|].
    unfold LAST_SEEN_TOUCH_SECONDS, usec_per_sec. lia.
Qed.

Lemma requests_later w w' : later_world w w' -> sessions_ok w ->
  forall n r, sw_requests w !! n = Some r -> request_ok w' r.
Proof. intros Hw Hok n r Hr. eapply request_later; [done|]. by eapply requests_ok. Qed.

Lemma request_added w w' n r :
  later_world w w' -> sessions_ok w -> request_ok w' r ->
  forall m r', <[n := r]> (sw_requests w) !! m = Some r' -> request_ok w' r'.
Proof.
  intros Hw Hok Hr m r' [[_ <-]|[_ Hm]]%lookup_insert_Some; [done|]. by eapply requests_later.
Qed.

Lemma same_world db db' now rs rs' rv :
  later_world (mkSessionWorld db now rs rv) (mkSessionWorld db' now rs' rv).
Proof. split; simpl; [lia|auto]. Qed.

(** A row is found under its key. *)
Lemma find_session_row w sid uid s : sessions_ok w -> find_session sid uid (sw_db w) = Some s ->
  ses_id s = sid /\ rows_of (A := AuthSession) (sw_db w) !! sid = Some s.
Proof.
  intros Hok [i Hi]%qs_first_Some. apply objects_filter_lookup in Hi as (Hi & _ & Hp).
  apply andb_true_iff in Hp as [Hid%Z.eqb_eq _]. destruct (ids_ok _ Hok _ _ Hi) as [Hi' _].
  split; [done|]. by replace sid with i by congruence.
Qed.

Lemma unrevoked_is_open w sid t s : sessions_ok w -> t <= sw_now w ->
  rows_of (A := AuthSession) (sw_db w) !! sid = Some s -> ses_is_revoked s = false ->
  seen_before w sid t.
Proof.
  intros Hok Ht Hs Hu. split; [done|]. intros T HT.
  destruct (revoked_for_good _ Hok _ _ HT) as (_ & _ & Hr). by rewrite (Hr s Hs) in Hu.
Qed.

(** ** Steps that leave the table of sessions alone *)

Lemma cache_step db db' now rs rs' rv :
  sessions_ok (mkSessionWorld db now rs rv) ->
  table_of (A := AuthSession) db' = table_of (A := AuthSession) db ->
  (forall sid uid e t, cache_sessions (cache db') !! session_validity_cache_key sid uid = Some e ->
     se_state e = seen t -> seen_before (mkSessionWorld db now rs rv) sid t) ->
  (forall n r, rs' !! n = Some r -> request_ok (mkSessionWorld db' now rs' rv) r) ->
  sessions_ok (mkSessionWorld db' now rs' rv).
Proof.
  intros Hok Htab Hcache Hrs. pose proof (same_world db db' now rs rs' rv) as Hw.
  assert (rows_of (A := AuthSession) db' = rows_of db) as Hrows by (unfold rows_of; by rewrite Htab).
  constructor; cbn [sw_db sw_now sw_requests sw_revoked]; rewrite ?Htab, ?Hrows.
  - apply (ids_ok _ Hok).
  - intros i s Hs. eapply seen_later, (rows_seen _ Hok); done.
  - apply (revoked_for_good _ Hok).
  - intros sid uid e t He Ht. eapply seen_later; [done|]. by eapply Hcache.
  - done.
Qed.

Lemma request_step db now rs rv n r :
  sessions_ok (mkSessionWorld db now rs rv) -> request_ok (mkSessionWorld db now rs rv) r ->
  sessions_ok (mkSessionWorld db now (<[n := r]> rs) rv).
Proof.
  intros Hok Hr. eapply cache_step; [done|done|apply (cache_seen _ Hok)|].
  eapply (request_added (mkSessionWorld db now rs rv)); [apply same_world|done|].
  eapply request_later; [apply same_world|done].
Qed.

Lemma begun_request_ok db now rs rv sid uid :
  sessions_ok (mkSessionWorld db now rs rv) ->
  request_ok (mkSessionWorld db now rs rv)
    match cached_verdict now (cached_state sid uid now db) with
    | Some verdict => Answered sid uid now verdict
    | None => Asking sid uid now
    end.
Proof.
  intros Hok. destruct (cached_verdict _ _) as [v|] eqn:Hv; simpl; [|lia]. split; [lia|].
  intros -> T HT. unfold cached_verdict, cached_state in Hv.
  destruct (cache_sessions _ !! _) as [e|] eqn:He; [|done].
  destruct (_ <=? _); [done|]. destruct (se_state e) as [|t] eqn:Hst; [done|].
  destruct (now - t <? _) eqn:Hlt; [|done]. apply Z.ltb_lt in Hlt.
  destruct (cache_seen _ Hok _ _ _ _ He Hst) as [_ Ht]. specialize (Ht T HT). lia.
Qed.

(** ** Steps that change the table *)

Lemma rows_step db db' now rs rs' rv :
  sessions_ok (mkSessionWorld db now rs rv) ->
  next_id (table_of (A := AuthSession) db) <= next_id (table_of (A := AuthSession) db') ->
  cache_sessions (cache db') ⊆ cache_sessions (cache db) ->
  (forall i s, rows_of (A := AuthSession) db' !! i = Some s ->
     ses_id s = i /\ i < next_id (table_of (A := AuthSession) db') /\
     seen_before (mkSessionWorld db now rs rv) i (ses_last_seen_at s)) ->
  (forall i T s, rv !! i = Some T -> rows_of (A := AuthSession) db' !! i = Some s -> ses_is_revoked s = true) ->
  (forall n r, rs' !! n = Some r -> request_ok (mkSessionWorld db' now rs' rv) r) ->
  sessions_ok (mkSessionWorld db' now rs' rv).
Proof.
  intros Hok Hnext Hcache Hrows Hrev Hrs. pose proof (same_world db db' now rs rs' rv) as Hw.
  constructor; cbn [sw_db sw_now sw_requests sw_revoked].
  - intros i s Hs. destruct (Hrows i s Hs) as (? & ? & _). done.
  - intros i s Hs. destruct (Hrows i s Hs) as (_ & _ & ?). by eapply seen_later.
  - intros i T HT. destruct (revoked_for_good _ Hok i T HT) as (? & Hi & _). simpl in *.
    split; [done|]. split; [lia|]. intros s. by eapply Hrev.
  - intros sid uid e t He Ht. eapply seen_later; [done|].
    eapply (cache_seen _ Hok); [by eapply lookup_weaken|done].
  - done.
Qed.

Lemma decides_ok db now rs rv n sid uid began row env state db' :
  sessions_ok (mkSessionWorld db now rs rv) -> rs !! n = Some (Holding sid uid began row) ->
  decide_session began row env db = (Ok state, db') ->
  sessions_ok (mkSessionWorld db' now (<[n := Telling sid uid began state]> rs) rv).
Proof.
  intros Hok Hn Hrun. destruct (requests_ok _ Hok n _ Hn) as [Hb Hrow].
  assert (forall t, (row = None \/ exists s, row = Some s /\ ses_is_revoked s = true) -> state = seen t -> db' = db -> False) as Hno.
  { intros t Hcase -> ->. unfold decide_session in Hrun. destruct Hcase as [->|(s & -> & Hs)]; [done|].
    by rewrite Hs in Hrun. }
  unfold decide_session in Hrun. destruct row as [s|].
  2: { injection Hrun as <- <-. apply request_step; [done|]. split; [done|]. done. }
  destruct (Hrow s eq_refl) as [Hid Hx]. destruct (ses_is_revoked s) eqn:Hu.
  { injection Hrun as <- <-. apply request_step; [done|]. by split. }
  destruct (Hx eq_refl) as [Hsb Hsl]. destruct (_ <=? _).
  2: { injection Hrun as <- <-. apply request_step; [done|]. split; [done|]. by intros t [= <-]. }
  cbv [touch_session modify] in Hrun. rewrite bind_unfold in Hrun. injection Hrun as <- <-.
  assert (request_ok (mkSessionWorld db now rs rv) (Telling sid uid began (seen began))) as Hr.
  { split; [done|]. by intros t [= <-]. }
  rewrite Hid. destruct (rows_of db !! sid) as [x|] eqn:Hrowx; [|by apply request_step].
  destruct (ses_is_active x && negb (ses_is_revoked x)) eqn:Hc; [|by apply request_step].
  apply andb_true_iff in Hc as [_ Hc%negb_true_iff].
  eapply (rows_step db); [done|by rewrite next_id_set_row|done| | |].
  - intros i y. rewrite rows_of_set_row, next_id_set_row. intros [[<- <-]|[Hne Hy]]%lookup_insert_Some.
    + by destruct (ids_ok _ Hok _ _ Hrowx).
    + destruct (ids_ok _ Hok _ _ Hy). split; [done|]. split; [done|]. by apply (rows_seen _ Hok).
  - intros i T y HT. rewrite rows_of_set_row. destruct (revoked_for_good _ Hok _ _ HT) as (_ & _ & Hr').
    intros [[<- <-]|[Hne Hy]]%lookup_insert_Some; [by rewrite (Hr' x Hrowx) in Hc|by apply Hr'].
  - eapply (request_added (mkSessionWorld db now rs rv)); [apply same_world|done|].
    eapply request_later; [apply same_world|done].
Qed.

Lemma tells_ok db now rs rv n sid uid began state env db' :
  sessions_ok (mkSessionWorld db now rs rv) -> rs !! n = Some (Telling sid uid began state) ->
  cache_session sid uid state env db = (Ok tt, db') ->
  sessions_ok (mkSessionWorld db' now (<[n := Answered sid uid began (verdict_of state)]> rs) rv).
Proof.
  intros Hok Hn Hrun. destruct (requests_ok _ Hok n _ Hn) as [Hb Ht]. unfold cache_session in Hrun.
  rewrite bind_unfold in Hrun. unfold timezone_now, modify in Hrun. injection Hrun as <-.
  eapply (cache_step db); [done|done| |].
  - intros sid' uid' e t. simpl. intros [[Hk <-]|[_ He]]%lookup_insert_Some Hst.
    + apply session_key_inj in Hk as [<- _]. simpl in Hst. by destruct (Ht t Hst).
    + by eapply (cache_seen _ Hok).
  - eapply (request_added (mkSessionWorld db now rs rv)); [apply same_world|done|]. split; [done|].
    destruct state as [|t]; [done|]. intros _ T HT. destruct (Ht t eq_refl) as [[_ HbT] _].
    specialize (HbT T HT). unfold LAST_SEEN_TOUCH_SECONDS, usec_per_sec. lia.
Qed.

Lemma revokes_ok db now rs rv sid s at_ by_ :
  sessions_ok (mkSessionWorld db now rs rv) ->
  rows_of (A := AuthSession) db !! sid = Some s ->
  sessions_ok (mkSessionWorld (revoke_row sid at_ by_ db) now rs (<[sid := now]> rv)).
Proof.
  intros Hok Hs. unfold revoke_row. rewrite Hs.
  set (s' := s <| ses_is_revoked := true |> <| ses_revoked_at := _ |> <| ses_revoked_by := _ |>
               <| ses_updated_at := _ |>).
  set (db' := _ <| tables := _ |>).
  assert (rows_of (A := AuthSession) db' = <[sid := s']> (rows_of db)) as Hrows
    by (change (rows_of (set_row sid s' db) = <[sid := s']> (rows_of db)); apply rows_of_set_row).
  assert (next_id (table_of (A := AuthSession) db') = next_id (table_of (A := AuthSession) db)) as Hnext
    by (change (next_id (table_of (A := AuthSession) (set_row sid s' db)) =
                next_id (table_of (A := AuthSession) db)); apply next_id_set_row).
  assert (later_world (mkSessionWorld db now rs rv) (mkSessionWorld db' now rs (<[sid := now]> rv))) as Hw.
  { split; simpl; [lia|]. intros i T [[<- <-]|[_ ?]]%lookup_insert_Some; [right; lia|by left]. }
  destruct (ids_ok _ Hok _ _ Hs) as [Hid Hlt].
  constructor; cbn [sw_db sw_now sw_requests sw_revoked]; rewrite ?Hnext, ?Hrows.
  - intros i x [[<- <-]|[_ Hx]]%lookup_insert_Some; [done|by apply (ids_ok _ Hok)].
  - intros i x [[<- <-]|[_ Hx]]%lookup_insert_Some; (eapply seen_later; [done|]).
    + exact (rows_seen _ Hok _ _ Hs).
    + by apply (rows_seen _ Hok).
  - intros i T [[<- <-]|[Hne HT]]%lookup_insert_Some.
    + split; [lia|]. split; [done|]. intros x. rewrite lookup_insert_eq. by intros [= <-].
    + rewrite lookup_insert_ne by done. by apply (revoked_for_good _ Hok).
  - intros i uid e t He Ht. eapply seen_later; [done|]. by eapply (cache_seen _ Hok).
  - exact (requests_later _ _ Hw Hok).
Qed.

Lemma others_ok db now rs rv db' :
  sessions_ok (mkSessionWorld db now rs rv) -> session_changes now db db' ->
  sessions_ok (mkSessionWorld db' now rs rv).
Proof.
  intros Hok [Hch Hnext Hbound Hcache].
  eapply (rows_step db); [done|done|done| | |exact (requests_later _ _ (same_world _ _ _ _ _ _) Hok)].
  - intros i s' Hs'. destruct (Hch i s' Hs') as [Hid Hrow]. split; [done|]. split; [by eapply Hbound|].
    destruct (rows_of db !! i) as [s|] eqn:Hs.
    + destruct Hrow as (_ & _ & Hrev & Hseen). pose proof (rows_seen _ Hok _ _ Hs) as Hbefore.
      destruct (ses_is_revoked s) eqn:Hu; [by destruct (Hrev eq_refl) as [_ ->]|].
      destruct Hseen as [->| ->]; [done|]. eapply unrevoked_is_open; [done| |done|done]. simpl. lia.
    + destruct Hrow as [Hi ->]. split; [simpl; lia|]. intros T HT.
      destruct (revoked_for_good _ Hok _ _ HT) as (_ & Hi' & _). cbn [sw_db] in Hi'. lia.
  - intros i T s' HT Hs'. destruct (revoked_for_good _ Hok _ _ HT) as (_ & Hi & Hr).
    destruct (Hch i s' Hs') as [Hid Hrow]. cbn [sw_db] in Hi, Hr. destruct (rows_of db !! i) as [s|] eqn:Hs.
    + destruct Hrow as (_ & _ & Hrev & _). by apply Hrev, Hr.
    + lia.
Qed.

Lemma session_step_ok w w' : session_step w w' -> sessions_ok w -> sessions_ok w'.
Proof.
  intros Hstep Hok. destruct Hstep.
  - destruct Hok as [H1 H2 H3 H4 H5].
    assert (later_world (mkSessionWorld db now rs rv) (mkSessionWorld db now' rs rv)) as Hw
      by (split; simpl; [lia|auto]).
    constructor; simpl in *; [done| | | |].
    + intros i s Hs. eapply seen_later; [done|]. by apply H2.
    + intros i T HT. destruct (H3 i T HT) as (? & ? & ?). split_and!; [lia|done|done].
    + intros. eapply seen_later; [done|]. by eapply H4.
    + intros n r Hr. eapply request_later; [done|]. by apply (H5 n).
  - apply request_step; [done|]. by apply begun_request_ok.
  - apply request_step; [done|]. pose proof (requests_ok _ Hok n _ H) as Hb. simpl in Hb. split; [done|].
    intros s Hf. destruct (find_session_row _ _ _ _ Hok Hf) as [Hid Hrow]. split; [done|].
    intros Hu. split; (eapply unrevoked_is_open; [done| |done|done]); [done|].
    exact (proj1 (rows_seen _ Hok _ _ Hrow)).
  - by eapply decides_ok.
  - by eapply tells_ok.
  - unfold invalidate_session_validity_cache, modify in H. injection H as <-.
    eapply cache_step; [done|done| |exact (requests_later _ _ (same_world _ _ _ _ _ _) Hok)].
    intros sid' uid' e t. simpl. intros [_ He]%lookup_delete_Some. by eapply (cache_seen _ Hok).
  - by eapply revokes_ok.
  - by eapply others_ok.
Qed.

Lemma session_reachable_ok w : session_reachable w -> sessions_ok w.
Proof.
  intros (db & now & Hrows & Hcache & Hsteps).
  assert (sessions_ok (mkSessionWorld db now ∅ ∅)) as Hok.
  { constructor; simpl; rewrite ?Hrows, ?Hcache; intros;
      match goal with H : ∅ !! _ = Some _ |- _ => by rewrite lookup_empty in H end. }
  remember (mkSessionWorld db now ∅ ∅) as w0 eqn:Hw0. clear Hw0 Hrows Hcache.
  induction Hsteps as [w|w w1 w2 Hstep _ IH]; [done|]. apply IH. by eapply session_step_ok.
Qed.

(** C13: revocation takes effect within a minute: whatever the order in which
    requests read the cache and the table, write the cache, and sessions are
    revoked, a request that begins [LAST_SEEN_TOUCH_SECONDS] or more after the
    revocation of its session was committed is never let through. *)
Theorem revoked_session_is_locked_out (w : SessionWorld) (n sid uid began T : Z)
    (Hw : session_reachable w) (Hrevoked : sw_revoked w !! sid = Some T)
    (Hn : sw_requests w !! n = Some (Answered sid uid began true)) :
  began < T + LAST_SEEN_TOUCH_SECONDS * usec_per_sec.
Proof.
  apply session_reachable_ok in Hw. destruct (requests_ok _ Hw n _ Hn) as [_ Hv]. by apply Hv.
Qed.

(** ** The services are runs of the system *)

Lemma session_steps_trans w w1 w2 : session_steps w w1 -> session_steps w1 w2 -> session_steps w w2.
Proof. induction 1; eauto using session_steps. Qed.

Lemma session_one w w' : session_step w w' -> session_steps w w'.
Proof. eauto using session_steps. Qed.

Lemma decide_session_total began row env db :
  exists state db', decide_session began row env db = (Ok state, db').
Proof.
  unfold decide_session. destruct row as [s|]; [|by eexists _, _].
  destruct (ses_is_revoked s); [by eexists _, _|]. destruct (_ <=? _); by eexists _, _.
Qed.

(** A request that is checked in one go. *)
Lemma validation_is_a_run sid uid env db rs rv n :
  rs !! n = None ->
  exists verdict db', validate_and_touch_session uid (Some sid) env db = (Ok verdict, db') /\
    session_steps (mkSessionWorld db (clock env) rs rv)
      (mkSessionWorld db' (clock env) (<[n := Answered sid uid (clock env) verdict]> rs) rv).
Proof.
  intros Hn. set (now := clock env). unfold validate_and_touch_session.
  rewrite bind_unfold. unfold timezone_now, query. fold now. rewrite bind_unfold.
  pose proof (request_begins db now rs rv n sid uid Hn) as Hbegin.
  destruct (cached_verdict now (cached_state sid uid now db)) as [v|].
  { exists v, db. split; [done|]. by apply session_one. }
  rewrite bind_unfold, settle_session_parts.
  destruct (decide_session_total now (find_session sid uid db) env db) as (state & db1 & Hdecide).
  rewrite bind_unfold, Hdecide. do 2 eexists. split; [reflexivity|].
  eapply sessions_go; [exact Hbegin|].
  eapply sessions_go; [eapply request_reads; apply lookup_insert_eq|]. rewrite insert_insert_eq.
  eapply sessions_go; [eapply request_decides; [apply lookup_insert_eq|exact Hdecide]|].
  rewrite insert_insert_eq.
  eapply sessions_go; [eapply request_tells; [apply lookup_insert_eq|reflexivity|reflexivity]|].
  rewrite insert_insert_eq. apply sessions_stay.
Qed.

Definition forget_session (sid uid : Z) (db : AuthDB) : AuthDB :=
  db <| cache := (cache db) <| cache_sessions :=
    delete (session_validity_cache_key sid uid) (cache_sessions (cache db)) |> |>.

(** What a revocation that returns has done. *)
Lemma revoke_auth_session_inv sid by_ env db r db' :
  revoke_auth_session sid by_ env db = (Ok r, db') ->
  exists s, rows_of (A := AuthSession) db !! sid = Some s /\ ses_is_active s = true /\
    ((ses_is_revoked s = true /\ db' = db) \/
     (ses_is_revoked s = false /\ (ses_id s = sid ->
        db' = revoke_row sid (clock env) by_ (forget_session sid (ses_user s) db)))).
Proof.
  intros Hrun%transaction_ok_inv.
  apply bind_ok_inv in Hrun as (s & db1 & Hs & Hrun). apply objects_get_ok_inv in Hs as (-> & Hs & Ha).
  exists s. split; [done|]. split; [done|]. destruct (ses_is_revoked s) eqn:Hu.
  { left. by injection Hrun as _ <-. }
  right. split; [done|]. intros Hid.
  apply bind_ok_inv in Hrun as (now & db1 & Hnow & Hrun). apply now_ok_inv in Hnow as [-> ->].
  apply bind_ok_inv in Hrun as ([] & db1 & Hupd & Hrun). rewrite Hid in Hupd.
  apply update_row_ok_inv in Hupd as (s1 & Hs1 & _ & ->). rewrite Hs in Hs1. injection Hs1 as <-.
  apply bind_ok_inv in Hrun as ([] & db2 & Htok & Hrun). unfold on_tokens in Htok. injection Htok as <-.
  apply bind_ok_inv in Hrun as ([] & db3 & Hinv & Hrun).
  unfold invalidate_session_validity_cache, modify in Hinv. injection Hinv as <-. injection Hrun as _ <-.
  unfold revoke_row. change (rows_of (forget_session sid (ses_user s) db)) with (rows_of (A := AuthSession) db).
  rewrite Hs, Hid. reflexivity.
Qed.

Lemma revocation_is_a_run sid by_ env db s r db' rs rv :
  revoke_auth_session sid by_ env db = (Ok r, db') ->
  rows_of (A := AuthSession) db !! sid = Some s -> ses_id s = sid -> ses_is_revoked s = false ->
  session_steps (mkSessionWorld db (clock env) rs rv)
    (mkSessionWorld db' (clock env) rs (<[sid := clock env]> rv)).
Proof.
  intros (s' & Hs' & _ & Hcase)%revoke_auth_session_inv Hs Hid Hu.
  rewrite Hs in Hs'. injection Hs' as <-. destruct Hcase as [[Hu' _]|[_ Heq]]; [by rewrite Hu in Hu'|].
  rewrite (Heq Hid).
  eapply sessions_go; [by eapply (cache_forgets _ _ _ _ sid (ses_user s) env)|]. eapply sessions_go; [|apply sessions_stay].
  eapply revocation_commits; [exact Hs|done].
Qed.

(** ** A login, a request and a revocation *)

Definition session_1 : AuthSession := 
  match rows_of signed_in_site !! 1 with Some s => s | None =>
    mkAuthSession 0 0 EmptyString EmptyString EmptyString None EmptyString false None None 0 None
      EmptyString true 0 0 end.

Definition world_of (db : AuthDB) (rs : gmap Z SessionRequest) (rv : gmap Z Z) : SessionWorld :=
  mkSessionWorld db sample_time rs rv.

Lemma login_reachable : session_reachable (world_of signed_in_site ∅ ∅).
Proof.
  exists sample_site, sample_time. split; [reflexivity|]. split; [reflexivity|].
  apply session_one, others_change. constructor.
  - intros i s. assert (rows_of (A := AuthSession) signed_in_site = {[ 1 := session_1 ]}) as ->
      by (vm_compute; reflexivity).
    intros [<- <-]%lookup_singleton_Some. split; [by vm_compute|].
    assert (rows_of (A := AuthSession) sample_site !! 1 = None) as -> by (vm_compute; reflexivity).
    split; by vm_compute.
  - by vm_compute.
  - intros i s. assert (rows_of (A := AuthSession) signed_in_site = {[ 1 := session_1 ]}) as ->
      by (vm_compute; reflexivity).
    intros [<- _]%lookup_singleton_Some. by vm_compute.
  - by vm_compute.
Qed.

(** A request has read the table when the session is revoked; what it then
    writes into the cache lets the next request through. *)
Definition outrun_site : AuthDB :=
  state_of (cache_session 1 1 (seen (ses_last_seen_at session_1))) auth_env
    (state_of (revoke_auth_session 1 (Some 2)) auth_env signed_in_site).

Definition outrun_world : SessionWorld :=
  world_of outrun_site
    (<[2 := Answered 1 1 sample_time true]> {[ 1 := Answered 1 1 sample_time true ]})
    {[ 1 := sample_time ]}.

Lemma outrun_reachable : session_reachable outrun_world.
Proof.
  destruct login_reachable as (db0 & now0 & H1 & H2 & Hsteps).
  exists db0, now0. split; [done|]. split; [done|]. eapply session_steps_trans; [exact Hsteps|].
  unfold outrun_world, world_of.
  eapply sessions_go; [apply (request_begins _ _ _ _ 1 1 1); reflexivity|].
  assert (cached_verdict sample_time (cached_state 1 1 sample_time signed_in_site) = None) as ->
    by (vm_compute; reflexivity).
  eapply sessions_go; [apply (request_reads _ _ _ _ 1 1 1 sample_time), lookup_insert_eq|].
  assert (find_session 1 1 signed_in_site = Some session_1) as -> by (vm_compute; reflexivity).
  eapply sessions_go.
  { apply (request_decides _ _ _ _ 1 1 1 sample_time (Some session_1) auth_env (seen (ses_last_seen_at session_1)) signed_in_site);
      [by rewrite insert_insert_eq, lookup_insert_eq|vm_compute; reflexivity]. }
  eapply session_steps_trans.
  { apply (revocation_is_a_run 1 (Some 2) auth_env signed_in_site session_1
      (match result_of (revoke_auth_session 1 (Some 2)) auth_env signed_in_site with
       | Ok r => r | Raise _ => session_1 end)
      (state_of (revoke_auth_session 1 (Some 2)) auth_env signed_in_site)); vm_compute; reflexivity. }
  eapply sessions_go.
  { apply (request_tells _ _ _ _ 1 1 1 sample_time (seen (ses_last_seen_at session_1)) auth_env outrun_site);
      [by rewrite !insert_insert_eq, lookup_insert_eq|reflexivity|reflexivity]. }
  eapply sessions_go; [apply (request_begins _ _ _ _ 2 1 1); by rewrite !insert_insert_eq|].
  match goal with |- context [cached_verdict ?now ?c] =>
    assert (cached_verdict now c = Some true) as -> by (vm_compute; reflexivity) end.
  rewrite !insert_insert_eq. apply sessions_stay.
Qed.

Lemma revoked_session_is_locked_out_witness :
  session_reachable outrun_world /\ sample_time < sample_time + LAST_SEEN_TOUCH_SECONDS * usec_per_sec.
Proof.
  split; [exact outrun_reachable|].
  exact (revoked_session_is_locked_out outrun_world 2 1 1 sample_time sample_time
           outrun_reachable (lookup_singleton_eq 1 sample_time) (lookup_insert_eq _ _ _)).
Defined.

(** In the meantime a request that begins after the revocation can be let
    through. *)
Example revocation_can_be_outrun :
  exists w n sid uid began T, session_reachable w /\ sw_revoked w !! sid = Some T /\ T <= began /\
    sw_requests w !! n = Some (Answered sid uid began true).
Proof.
  exists outrun_world, 2, 1, 1, sample_time, sample_time. split; [exact outrun_reachable|].
  split; [apply lookup_singleton_eq|]. split; [lia|]. apply lookup_insert_eq.
Qed.
