(* ===== verification/AccountSafety.v ===== *)
(** What the accounts promise, and where they do not keep it: guesses at a code
    that are not counted, sessions after a new password, sign-in, and the
    identifiers of the accounts. *)

From S2P Require Import Prelude Python Choices Orm Models Apps AuditTrail Otp ClientIp AccountModels Sessions Accounts AccountSample.
From S2P Require SessionSafety.
From S2P Require Normalizers.
#[local] Open Scope Z_scope.
#[local] Arguments set_row : simpl never.
#[local] Arguments add_row : simpl never.

(** * Runs that leave the cache alone *)

Definition same_cache (db db' : AuthDB) : Prop := cache db' = cache db.

#[export] Instance same_cache_preorder : PreOrder same_cache.
Proof. unfold same_cache. split; [done|]. intros x y z -> ->. done. Qed.

Definition same_numbers (s s' : OtpDB) : Prop := otp_cache s' = otp_cache s.

#[export] Instance same_numbers_preorder : PreOrder same_numbers.
Proof. unfold same_numbers. split; [done|]. intros x y z -> ->. done. Qed.

Lemma same_numbers_update_unused i upd : moves same_numbers (update_unused i upd).
Proof.
  intros env db. unfold update_unused, same_numbers. destruct (rows_of db !! i) as [x|]; [|done].
  destruct (_ && _); [|done]. by destruct (row_ok _ _).
Qed.

#[local] Hint Resolve same_numbers_update_unused : moves.
#[local] Hint Extern 1 (moves _ (base_get _)) => apply moves_base_get; typeclasses eauto : moves.
#[local] Hint Extern 1 (moves _ (objects_get _)) => apply moves_objects_get; typeclasses eauto : moves.

Lemma same_numbers_verify_otp k v p c : moves same_numbers (verify_otp k v p c).
Proof.
  unfold verify_otp, normalize_identifier_kind, normalize_purpose, find_unused_otp, first_update,
    last_update, mark_or_not_found, mark_otp_used, increment_otp_attempts. solve_moves.
Qed.

Lemma same_cache_codes {A} (m : OM A) : moves same_numbers m -> moves same_cache (on_codes m).
Proof.
  intros Hm. apply moves_on_codes. intros env db r s Hrun. specialize (Hm env (otp_part db)).
  rewrite Hrun in Hm. unfold same_numbers in Hm. simpl in Hm. unfold same_cache, with_otp_part. simpl.
  rewrite Hm. by destruct (cache db).
Qed.

#[local] Hint Extern 1 (moves same_cache (create _)) =>
  apply moves_create; [typeclasses eauto|intros; reflexivity] : moves.
#[local] Hint Extern 1 (moves same_cache (update_row _ _)) =>
  apply moves_update_row; [typeclasses eauto|intros; reflexivity] : moves.
#[local] Hint Extern 1 (moves same_cache (on_tokens _)) =>
  apply moves_on_tokens; intros; reflexivity : moves.

Lemma same_cache_verify k v p c : moves same_cache (verify_identifier_otp k v p c).
Proof.
  unfold verify_identifier_otp, mapping. apply moves_try_catch; [typeclasses eauto| |].
  - apply same_cache_codes, same_numbers_verify_otp.
  - intros e m'. destruct (verification_failure e); simpl; intros; simplify_eq. apply moves_pure; [typeclasses eauto|done].
Qed.

#[local] Hint Resolve same_cache_verify : moves.

Lemma same_cache_known_kind k : moves same_cache (known_kind k).
Proof. unfold known_kind. solve_moves. Qed.

Lemma same_cache_checked {A} (r : outcome Normalizers.norm_error A) : moves same_cache (of_checked r).
Proof. destruct r; (apply moves_pure; [typeclasses eauto|done]). Qed.

#[local] Hint Resolve same_cache_known_kind same_cache_checked : moves.

Lemma same_cache_normalize k v : moves same_cache (normalize_identifier_by_kind k v).
Proof. unfold normalize_identifier_by_kind. solve_moves. Qed.

Lemma same_cache_active_user k v : moves same_cache (get_active_user_by_identifier k v).
Proof. unfold get_active_user_by_identifier. solve_moves. Qed.

#[local] Hint Resolve same_cache_normalize same_cache_active_user : moves.

Lemma same_cache_verified_user k v c p : moves same_cache (verified_user k v c p).
Proof. unfold verified_user. solve_moves. Qed.

Lemma same_cache_ensure u k v : moves same_cache (ensure_identifier_can_be_added_or_verified u k v).
Proof. unfold ensure_identifier_can_be_added_or_verified. solve_moves. Qed.

Lemma same_cache_create_user e p pw f l pr ev pv : moves same_cache (create_user e p pw f l pr ev pv).
Proof.
  unfold create_user, create_user_with, normalize_optional_email, resolve_primary_identifier. solve_moves.
Qed.

Lemma same_cache_login u r : moves same_cache (build_login_result u r).
Proof.
  unfold build_login_result, for_user, create_auth_session, read_refresh, evaluate_auth_session_risk,
    create_auth_risk_signal. solve_moves.
Qed.

#[local] Hint Resolve same_cache_verified_user same_cache_ensure same_cache_create_user same_cache_login : moves.

(** * Guesses that are not counted *)

(** A transaction that an exception ends before the cache was told anything
    leaves everything as it was. *)
Lemma failed_transaction {A} (m : UM A) env db e db' :
  moves same_cache m -> transaction m env db = (Raise e, db') -> db' = db.
Proof.
  intros Hm (Ht & s & Hrun & Hc)%transaction_raise_inv. specialize (Hm env db). rewrite Hrun in Hm.
  unfold same_cache in Hm. simpl in Hm. destruct db, db'. simpl in *. congruence.
Qed.

(** A service at a series of guesses, each with the environment of its call,
    and a guess that it refuses. *)
Definition attempts {A} (service : string -> UM A) (guesses : list (AuthEnv * string)) (db : AuthDB) : AuthDB :=
  fold_left (fun db g => (service g.2 g.1 db).2) guesses db.

Definition refused {A} (service : string -> UM A) (db : AuthDB) (g : AuthEnv * string) : Prop :=
  exists original, (service g.2 g.1 db).1 = Raise (OTPServiceError original).

Lemma refused_attempts {A} (service : string -> UM A) db :
  (forall code env e db', service code env db = (Raise (OTPServiceError e), db') -> db' = db) ->
  forall guesses, Forall (refused service db) guesses -> attempts service guesses db = db.
Proof.
  intros Hone guesses Hall. unfold attempts. induction Hall as [|[env code] l (e & He) _ IH]; [done|].
  simpl in *. destruct (service code env db) as [r db'] eqn:Hrun. simpl in *. subst r.
  apply Hone in Hrun as ->. exact IH.
Qed.

Definition not_of_a_code (e : auth_exc) : Prop := forall o, e <> OTPServiceError o.

Lemma renew_password_throws u pw sid : throws not_of_a_code (renew_password u pw sid).
Proof.
  unfold renew_password, save_user. apply throws_bind; [by apply throws_pure; eauto|]. intros env.
  apply throws_bind; [by apply throws_update_row|]. intros _.
  unfold revoke_all_user_sessions. intros r s e s' (_ & s1 & Hrun & _)%transaction_raise_inv.
  revert r s e s1 Hrun. apply throws_bind; [by apply throws_pure; eauto|]. intros l.
  apply throws_for_fold. intros n x. apply throws_bind; [|intros; apply throws_ret].
  unfold revoke_auth_session. intros r s e s2 (_ & s3 & Hrun & _)%transaction_raise_inv.
  revert r s e s3 Hrun. apply throws_bind; [by apply throws_objects_get|]. intros locked.
  destruct (ses_is_revoked locked); [apply throws_ret|].
  apply throws_bind; [by apply throws_pure; eauto|]. intros now.
  apply throws_bind; [by apply throws_update_row|]. intros _.
  apply throws_bind; [apply throws_pure; intros; unfold on_tokens; by eexists _, _|]. intros _.
  apply throws_bind; [apply throws_pure; intros; by eexists _, _|]. intros _. apply throws_ret.
Qed.

(** A wrong code costs nothing: the services that set a new password, that
    create an account and that attach an identifier undo the count of wrong
    guesses with the rest of their transaction, so that after any number of
    refused guesses at any times the database is as it was, and a code that is
    right is accepted as at the first attempt. *)
Theorem refused_codes_are_not_counted (db : AuthDB) (kind identifier password first last : string)
    (request : option HttpRequest) (user : Account) (guesses : list (AuthEnv * string)) :
  (Forall (refused (fun code => forgot_password_confirm kind identifier code password) db) guesses ->
   attempts (fun code => forgot_password_confirm kind identifier code password) guesses db = db) /\
  (Forall (refused (fun code => signup_verify kind identifier code password first last request) db) guesses ->
   attempts (fun code => signup_verify kind identifier code password first last request) guesses db = db) /\
  (Forall (refused (fun code => identifier_add_verify user kind identifier code) db) guesses ->
   attempts (fun code => identifier_add_verify user kind identifier code) guesses db = db).
Proof.
  split_and!; apply refused_attempts; intros code env e db'.
  - intros (Ht & s & Hrun & Hc)%transaction_raise_inv.
    apply bind_raise_inv in Hrun as [Hrun|(u & s1 & _ & Hrun)].
    + pose proof (same_cache_verified_user kind identifier code OTPPurpose.PASSWORD_RESET env db) as Hm.
      rewrite Hrun in Hm. unfold same_cache in Hm. simpl in Hm. destruct db, db'. simpl in *. congruence.
    + apply bind_raise_inv in Hrun as [Hrun|(n & s2 & _ & Hrun)]; [|done].
      by apply renew_password_throws in Hrun as Hne%(fun H => H e).
  - apply failed_transaction. unfold issue_tokens, for_user. solve_moves.
  - apply failed_transaction. unfold save_changes, save_user. solve_moves.
Qed.

(** Twenty wrong guesses, where five are allowed. *)
Definition reset_requested : AuthDB :=
  state_of (forgot_password_request "phone" "09120000000") auth_env sample_site.

Definition twenty_guesses : list (AuthEnv * string) :=
  (fun n : nat => (auth_after (Z.of_nat n), "999999"%string)) <$> seq 1 20.

Lemma refused_codes_are_not_counted_witness :
  attempts (fun code => forgot_password_confirm "phone" "09120000000" code "mallory") twenty_guesses
    reset_requested = reset_requested.
Proof.
  apply (proj1 (refused_codes_are_not_counted reset_requested "phone" "09120000000" "mallory" EmptyString
           EmptyString None sample_user twenty_guesses)).
  repeat constructor; eexists; vm_compute; reflexivity.
Defined.

(** The right code then sets the password; where the service is not one
    transaction, the same guesses close the code. *)
Example guessing_a_reset_code :
  (acc_password <$> rows_of (A := Account) (state_of (forgot_password_confirm "phone" "09120000000" "000042" "mallory")
     (auth_after 60)
     (attempts (fun code => forgot_password_confirm "phone" "09120000000" code "mallory") twenty_guesses
        reset_requested)) !! 1) = Some "mallory"%string.
Proof. vm_compute. reflexivity. Qed.

Example guessing_a_login_code :
  result_of (login_otp_verify "phone" "09120000000" "000042" sample_request) (auth_after 60)
    (attempts (fun code => login_otp_verify "phone" "09120000000" code sample_request) twenty_guesses
       (state_of (login_otp_request "phone" "09120000000") auth_env sample_site))
  = Raise (OTPServiceError OTPNotFound).
Proof. vm_compute. reflexivity. Qed.

(** * Revoking every session *)

Definition session_keys_ok (db : AuthDB) : Prop :=
  forall i s, rows_of (A := AuthSession) db !! i = Some s -> ses_id s = i.

(** What revocations do to a table of sessions and to the cache: rows stay and
    are revoked for good, and the cache forgets the sessions it revokes. *)
Record closes (db db' : AuthDB) : Prop := {
  closes_rows : forall i s', rows_of (A := AuthSession) db' !! i = Some s' ->
    exists s, rows_of (A := AuthSession) db !! i = Some s /\ ses_id s' = ses_id s /\
      ses_user s' = ses_user s /\ ses_is_active s' = ses_is_active s /\
      (ses_is_revoked s = true -> ses_is_revoked s' = true);
  closes_cache : cache_sessions (cache db') ⊆ cache_sessions (cache db);
  closes_forgets : forall i s s', rows_of (A := AuthSession) db !! i = Some s ->
    rows_of (A := AuthSession) db' !! i = Some s' -> ses_is_revoked s = false -> ses_is_revoked s' = true ->
    cache_sessions (cache db') !! session_validity_cache_key i (ses_user s) = None;
  closes_keeps : forall i s, rows_of (A := AuthSession) db !! i = Some s ->
    is_Some (rows_of (A := AuthSession) db' !! i);
}.

#[export] Instance closes_preorder : PreOrder closes.
Proof.
  split.
  - intros db. constructor; [|done| |by intros i s ->].
    + intros i s Hs. by exists s.
    + intros i s s' Hs Hs' Hu Hr. congruence.
  - intros db1 db2 db3 [R1 C1 F1 K1] [R2 C2 F2 K2].
    constructor; [| | |by intros i s [x Hx]%K1; eapply K2].
    + intros i s3 L3. destruct (R2 i s3 L3) as (s2 & L2 & ? & ? & ? & Hr2).
      destruct (R1 i s2 L2) as (s1 & L1 & ? & ? & ? & Hr1). exists s1.
      split_and!; [done|congruence|congruence|congruence|auto].
    + by etrans.
    + intros i s1 s3 L1 L3 Hu Hr. destruct (R2 i s3 L3) as (s2 & L2 & _).
      destruct (R1 i s2 L2) as (s1' & L1' & _ & Hus & _). rewrite L1 in L1'. injection L1' as <-.
      destruct (ses_is_revoked s2) eqn:Hu2.
      * specialize (F1 i s1 s2 L1 L2 Hu Hu2).
        destruct (cache_sessions (cache db3) !! _) as [e|] eqn:He; [|done].
        apply (lookup_weaken _ _ _ _ He) in C2. congruence.
      * rewrite <- Hus. by apply (F2 i s2 s3).
Qed.

Lemma closes_keys db db' : closes db db' -> session_keys_ok db -> session_keys_ok db'.
Proof. intros Hc Hk i s' Hs'. destruct (closes_rows _ _ Hc i s' Hs') as (s & Hs & -> & _). by apply Hk. Qed.

Lemma revoke_closes sid by_ env db r db' :
  session_keys_ok db -> revoke_auth_session sid by_ env db = (Ok r, db') ->
  closes db db' /\ forall s', rows_of (A := AuthSession) db' !! sid = Some s' -> ses_is_revoked s' = true.
Proof.
  intros Hk (s & Hs & _ & [[Hu ->]|[Hu Heq]])%SessionSafety.revoke_auth_session_inv.
  { split; [reflexivity|]. congruence. }
  rewrite (Heq (Hk _ _ Hs)). clear Heq.
  set (s1 := s <| ses_is_revoked := true |> <| ses_revoked_at := Some (clock env) |>
              <| ses_revoked_by := by_ |> <| ses_updated_at := clock env |>).
  set (db1 := SessionSafety.forget_session sid (ses_user s) db).
  assert (rows_of (A := AuthSession) (SessionSafety.revoke_row sid (clock env) by_ db1) = <[sid := s1]> (rows_of db)) as Hrows.
  { unfold SessionSafety.revoke_row. change (rows_of db1) with (rows_of (A := AuthSession) db). rewrite Hs.
    change (rows_of (set_row sid s1 db1) = <[sid := s1]> (rows_of (A := AuthSession) db1)). apply rows_of_set_row. }
  assert (cache_sessions (cache (SessionSafety.revoke_row sid (clock env) by_ db1)) =
          delete (session_validity_cache_key sid (ses_user s)) (cache_sessions (cache db))) as Hcache.
  { unfold SessionSafety.revoke_row. change (rows_of db1) with (rows_of (A := AuthSession) db). by rewrite Hs. }
  split.
  - constructor; rewrite ?Hrows, ?Hcache.
    + intros i s' [[<- <-]|[_ Hi]]%lookup_insert_Some; [by exists s|by exists s'].
    + apply delete_subseteq.
    + intros i x x' Hx [[<- <-]|[_ Hi]]%lookup_insert_Some Hux Hrx.
      * rewrite Hs in Hx. injection Hx as <-. apply lookup_delete_eq.
      * congruence.
    + intros i x Hx. apply lookup_insert_is_Some'. by right.
  - intros s'. rewrite Hrows, lookup_insert_eq. by intros [= <-].
Qed.

(** The loop of [revoke_all_user_sessions]. *)
Lemma revoke_loop_closes by_ env l : forall n db n' db',
  session_keys_ok db ->
  for_fold (fun count s => _ ← revoke_auth_session (ses_id s) by_; mret (count + 1)) n l env db = (Ok n', db') ->
  closes db db' /\ forall s s', s ∈ l -> rows_of (A := AuthSession) db' !! ses_id s = Some s' ->
    ses_is_revoked s' = true.
Proof.
  induction l as [|x l IH]; intros n db n' db' Hk Hrun; simpl in Hrun.
  { injection Hrun as _ <-. split; [reflexivity|]. by intros s s' ?%not_elem_of_nil. }
  apply bind_ok_inv in Hrun as (m & db1 & Hone & Hrest).
  apply bind_ok_inv in Hone as (r & db2 & Hone & Hret). injection Hret as _ <-.
  destruct (revoke_closes _ _ _ _ _ _ Hk Hone) as [Hc1 Hx].
  destruct (IH _ _ _ _ (closes_keys _ _ Hc1 Hk) Hrest) as [Hc2 Hl].
  split; [by etrans|]. intros s s' [->|Hs]%elem_of_cons Hs'; [|by eapply Hl].
  destruct (closes_rows _ _ Hc2 _ _ Hs') as (s2 & Hs2 & _ & _ & _ & Hr). eauto.
Qed.

Lemma revoke_all_closes u by_ sid env db n db' :
  session_keys_ok db -> revoke_all_user_sessions u by_ sid env db = (Ok n, db') ->
  closes db db' /\ forall i s', rows_of (A := AuthSession) db' !! i = Some s' ->
    ses_user s' = u -> ses_is_active s' = true -> sid <> Some i -> ses_is_revoked s' = true.
Proof.
  intros Hk Hrun%transaction_ok_inv. apply bind_ok_inv in Hrun as (l & db1 & Hl & Hrun).
  injection Hl as <- <-. apply revoke_loop_closes in Hrun as [Hc Hall]; [|done].
  split; [done|]. intros i s' Hs' Hu Ha Hsid.
  destruct (closes_rows _ _ Hc _ _ Hs') as (s & Hs & Hid & Hus & Has & Hr).
  destruct (ses_is_revoked s) eqn:Hrev; [auto|]. apply (Hall s s'); [|by rewrite (Hk _ _ Hs)].
  apply list_elem_of_fmap. exists (i, s). split; [done|]. apply elem_of_map_to_list.
  apply objects_filter_lookup. split; [done|]. split; [simpl; congruence|]. rewrite <- Hus, Hu, Z.eqb_refl, Hrev.
  simpl. destruct sid as [k|]; [|done]. apply negb_true_iff, Z.eqb_neq. rewrite (Hk _ _ Hs). congruence.
Qed.

Definition same_accounts (db db' : AuthDB) : Prop := accounts (tables db') = accounts (tables db).

#[export] Instance same_accounts_preorder : PreOrder same_accounts.
Proof. unfold same_accounts. split; [done|]. intros x y z -> ->. done. Qed.

Lemma same_accounts_revoke_all u by_ sid : moves same_accounts (revoke_all_user_sessions u by_ sid).
Proof.
  assert (forall A (m : UM A), moves same_accounts m -> moves same_accounts (transaction m)) as Htr.
  { intros A m. by apply moves_transaction. }
  assert (forall A f, moves same_accounts (on_tokens (A := A) f)) as Htok by (intros; by apply moves_on_tokens).
  assert (forall i upd, moves same_accounts (update_row (A := AuthSession) i upd : UM unit)) as Hupd.
  { intros. by apply moves_update_row; [typeclasses eauto|]. }
  assert (forall i, moves same_accounts (objects_get i : UM AuthSession)) as Hget.
  { intros. apply moves_objects_get; typeclasses eauto. }
  unfold revoke_all_user_sessions, revoke_auth_session, invalidate_session_validity_cache.
  repeat first [apply Htr | apply Htok | apply Hupd | apply Hget | progress solve_moves | by intros env db].
Qed.

(** * A new password ends every session *)

Definition same_sessions (db db' : AuthDB) : Prop :=
  auth_sessions (tables db') = auth_sessions (tables db) /\
  cache_sessions (cache db') = cache_sessions (cache db).

#[export] Instance same_sessions_preorder : PreOrder same_sessions.
Proof.
  unfold same_sessions. split; [done|]. intros x y z [-> ->] [-> ->]. done.
Qed.

Lemma same_sessions_rows db db' : same_sessions db db' ->
  rows_of (A := AuthSession) db' = rows_of (A := AuthSession) db.
Proof. intros [Ht _]. unfold rows_of. simpl. by rewrite Ht. Qed.

(** A verified code changes neither sessions nor accounts. *)
Definition codes_alone (db db' : AuthDB) : Prop := same_sessions db db' /\ same_accounts db db'.

#[export] Instance codes_alone_preorder : PreOrder codes_alone.
Proof.
  unfold codes_alone, same_accounts. split; [by split|].
  intros x y z [? ?] [? ?]. split; [by etrans|congruence].
Qed.

Lemma verify_otp_codes_alone k v p c : moves codes_alone (verify_identifier_otp k v p c).
Proof.
  unfold verify_identifier_otp, mapping.
  assert (forall m : OM OTPCode, moves codes_alone (on_codes m)) as Hcodes.
  { intros m. apply moves_on_codes. intros env db r s _. done. }
  assert (forall e m', raise <$> verification_failure e = Some m' -> moves codes_alone (m' : UM OTPCode)) as Hh.
  { intros e m'. destruct (verification_failure e); simpl; intros; simplify_eq.
    apply moves_pure; [typeclasses eauto|done]. }
  repeat first [apply moves_try_catch; [typeclasses eauto|apply Hcodes|apply Hh] | progress solve_moves].
Qed.

Lemma normalize_identifier_inv k v env db w db' :
  normalize_identifier_by_kind k v env db = (Ok w, db') -> db' = db /\ is_Some (of_value (A := PrimaryIdentifierKind.t) k).
Proof.
  unfold normalize_identifier_by_kind, known_kind. destruct (of_value k) as [kind|]; [|done].
  rewrite bind_unfold. simpl. unfold of_checked.
  destruct kind; repeat case_match; try done; intros Hret; injection Hret as _ <-; by split.
Qed.

(** The account with an identifier: of all active accounts the first that has it,
    in the form to which the text is normalised. *)
Definition owner_of (kind identifier : string) (env : AuthEnv) (db : AuthDB) (user : Account) : Prop :=
  exists k v, of_value kind = Some k /\ normalize_identifier_by_kind kind identifier env db = (Ok v, db) /\
    qs_first (objects_filter (has_identifier k v) db) = Some user.

Lemma verified_user_owner kind identifier code purpose env db user db' :
  verified_user kind identifier code purpose env db = (Ok user, db') ->
  codes_alone db db' /\ owner_of kind identifier env db user.
Proof.
  intros H. apply bind_ok_inv in H as (v & db1 & Hv & H).
  pose proof (normalize_identifier_inv _ _ _ _ _ _ Hv) as [-> [k Hk]].
  apply bind_ok_inv in H as (c & db1 & Hc & H).
  pose proof (moves_ok _ _ _ _ _ _ (verify_otp_codes_alone _ _ _ _) Hc) as Hsame.
  unfold get_active_user_by_identifier, known_kind in H. rewrite Hk, !bind_unfold in H. simpl in H.
  destruct (qs_first (objects_filter (has_identifier k v) db1)) as [x|] eqn:Hx; [|done].
  injection H as <- <-. split; [done|]. exists k, v. split; [done|]. split; [done|].
  rewrite <- Hx. f_equal. apply objects_filter_ext; [|done]. unfold rows_of. simpl. by rewrite (proj2 Hsame).
Qed.

(** What the cache says of a session is so: true of a site on which the
    services run one after the other. *)
Definition cache_truthful (db : AuthDB) : Prop :=
  forall sid uid e t, cache_sessions (cache db) !! session_validity_cache_key sid uid = Some e ->
    se_state e = seen t ->
    exists s, rows_of (A := AuthSession) db !! sid = Some s /\ ses_user s = uid /\
      ses_is_active s = true /\ ses_is_revoked s = false.

(** Nothing of a user is open: neither in the table nor in the cache. *)
Definition locked_out (uid : Z) (db : AuthDB) : Prop :=
  (forall sid s, find_session sid uid db = Some s -> ses_is_revoked s = true) /\
  (forall sid e t, cache_sessions (cache db) !! session_validity_cache_key sid uid = Some e ->
     se_state e <> seen t).

Lemma locked_out_requests uid db : locked_out uid db ->
  forall env sid, (validate_and_touch_session uid (Some sid) env db).1 = Ok false.
Proof.
  intros [Hrows Hcache] env sid. unfold validate_and_touch_session. rewrite bind_unfold.
  unfold timezone_now, query. rewrite bind_unfold. unfold cached_state.
  destruct (cache_sessions _ !! _) as [e|] eqn:He; [destruct (_ <=? _)|]; cbn [cached_verdict].
  2: { destruct (se_state e) as [|t] eqn:Hst; [done|]. by apply Hcache with (t := t) in He. }
  all: rewrite bind_unfold; unfold settle_session; destruct (find_session sid uid db) as [s|] eqn:Hf; [|done];
    by rewrite (Hrows _ _ Hf).
Qed.

Lemma locked_out_refresh uid db : locked_out uid db ->
  forall env text c sid, parse_refresh (auth_token_ops env) (clock env) (auth_tokens (tables db)) text = Some c ->
    clm_user_id c = Some uid -> clm_sid c = Some sid -> (refresh_tokens text env db).1 = Raise InvalidToken.
Proof.
  intros [Hrows _] env text c sid Hparse Hu Hsid. unfold refresh_tokens, read_refresh.
  rewrite !bind_unfold. unfold ask, query. rewrite bind_unfold, Hparse. simpl.
  rewrite Hu, Hsid, !bind_unfold. simpl. destruct (match qs_first _ with Some _ => _ | None => _ end); [done|].
  simpl. rewrite !bind_unfold. simpl.
  destruct (find_session sid uid db) as [s|] eqn:Hf; [|done]. by rewrite (Hrows _ _ Hf).
Qed.

Lemma all_closed_locks_out u db db' :
  session_keys_ok db -> cache_truthful db -> closes db db' ->
  (forall i s', rows_of (A := AuthSession) db' !! i = Some s' -> ses_user s' = u ->
     ses_is_active s' = true -> ses_is_revoked s' = true) ->
  locked_out u db'.
Proof.
  intros Hk Htrue Hc Hall. split.
  - intros sid s [i Hi]%qs_first_Some. apply objects_filter_lookup in Hi as (Hi & Ha & Hp).
    apply andb_true_iff in Hp as [_ Hu%Z.eqb_eq]. by apply (Hall i s).
  - intros sid e t He Ht. pose proof (lookup_weaken _ _ _ _ He (closes_cache _ _ Hc)) as He0.
    destruct (Htrue _ _ _ _ He0 Ht) as (s & Hs & Hu & Ha & Hrev).
    destruct (closes_keeps _ _ Hc _ _ Hs) as [s' Hs'].
    destruct (closes_rows _ _ Hc _ _ Hs') as (s1 & Hs1 & _ & Hus & Has & _).
    rewrite Hs in Hs1. injection Hs1 as <-.
    assert (ses_is_revoked s' = true) as Hrev' by (apply (Hall sid); congruence).
    pose proof (closes_forgets _ _ Hc _ _ _ Hs Hs' Hrev Hrev') as Hno. rewrite Hu in Hno. congruence.
Qed.

(** C15: a new password ends every session: after [forgot_password_confirm] the
    password of the account that has the identifier, in its normal form, is the new
    one, and no access token and no refresh token that names a session of that user is
    accepted any more, at any later time.  It starts from a site whose cache tells the
    truth: what it holds as a valid session is one ([cache_truthful]), as when no
    request was under way; one that was may outrun the reset as it may outrun any
    revocation ([SessionSafety.revocation_can_be_outrun]). *)
Theorem password_reset_ends_every_session (kind identifier code new_password : string) (env : AuthEnv)
    (db db' : AuthDB) (Hkeys : session_keys_ok db) (Htrue : cache_truthful db)
    (Hrun : forgot_password_confirm kind identifier code new_password env db = (Ok tt, db')) :
  exists user, owner_of kind identifier env db user /\
    acc_password <$> rows_of (A := Account) db' !! acc_id user = Some (auth_make_password env new_password) /\
    (forall env' sid, (validate_and_touch_session (acc_id user) (Some sid) env' db').1 = Ok false) /\
    (forall env' text c sid,
       parse_refresh (auth_token_ops env') (clock env') (auth_tokens (tables db')) text = Some c ->
       clm_user_id c = Some (acc_id user) -> clm_sid c = Some sid ->
       (refresh_tokens text env' db').1 = Raise InvalidToken).
Proof.
  apply transaction_ok_inv, bind_ok_inv in Hrun as (user & db1 & Huser & Hrun).
  apply verified_user_owner in Huser as [[Hsame1 _] Howner].
  apply bind_ok_inv in Hrun as (n & db2 & Hrenew & Hret). injection Hret as <-.
  apply bind_ok_inv in Hrenew as (env0 & db3 & Henv & Hrenew). injection Henv as <- <-.
  apply bind_ok_inv in Hrenew as ([] & db3 & Hsave & Hrevoke).
  unfold save_user in Hsave. apply update_row_ok_inv in Hsave as (x & Hx & _ & ->). set (x' := assign_all _ x) in *.
  assert (same_sessions db (set_row (acc_id user) x' db1)) as Hsame by (etrans; [exact Hsame1|done]).
  set (db3 := set_row (acc_id user) x' db1) in *.
  assert (session_keys_ok db3) as Hk3 by (intros i s; rewrite (same_sessions_rows _ _ Hsame); apply Hkeys).
  assert (cache_truthful db3) as Ht3.
  { intros sid uid e t. rewrite (proj2 Hsame), (same_sessions_rows _ _ Hsame). apply Htrue. }
  assert (locked_out (acc_id user) db2) as Hlock.
  { destruct (revoke_all_closes _ _ _ _ _ _ _ Hk3 Hrevoke) as [Hc Hall].
    apply (all_closed_locks_out _ db3); [done|done|done|]. intros i s' Hs' Hu Ha. by apply (Hall i s'). }
  exists user. split; [done|].
  split; [|split; [by apply locked_out_requests|by apply locked_out_refresh]].
  assert (accounts (tables db2) = accounts (tables db3)) as Hacc.
  { pose proof (moves_ok same_accounts _ _ _ _ _ (same_accounts_revoke_all _ _ _) Hrevoke) as H. exact H. }
  change (rows_of db2) with (rows (accounts (tables db2))). rewrite Hacc.
  change (acc_password <$> rows_of db3 !! acc_id user = Some (auth_make_password env new_password)).
  unfold db3. by rewrite rows_of_set_row, lookup_insert_eq.
Qed.

(** Sara has signed in and made a request when she asks for a new password. *)
Definition busy_site : AuthDB :=
  state_of (forgot_password_request "email" "sara@example.com") (auth_after 10)
    (state_of (validate_and_touch_session 1 (Some 1)) auth_env signed_in_site).

Lemma busy_site_truthful : session_keys_ok busy_site /\ cache_truthful busy_site.
Proof.
  assert (rows_of (A := AuthSession) busy_site = {[ 1 := SessionSafety.session_1 ]}) as Hrows
    by (vm_compute; reflexivity).
  split.
  - intros i s. rewrite Hrows. intros [<- <-]%lookup_singleton_Some. by vm_compute.
  - intros sid uid e t.
    assert (cache_sessions (cache busy_site) =
            {[ session_validity_cache_key 1 1 := mkSessionEntry (seen sample_time)
                 (sample_time + LAST_SEEN_TOUCH_SECONDS * usec_per_sec) ]}) as -> by (vm_compute; reflexivity).
    intros [[<- <-]%SessionSafety.session_key_inj _]%lookup_singleton_Some _.
    exists SessionSafety.session_1. rewrite Hrows. split; [apply lookup_singleton_eq|].
    split_and!; vm_compute; reflexivity.
Qed.

Definition reset_site : AuthDB :=
  state_of (forgot_password_confirm "email" "sara@example.com" "000042" "new secret") (auth_after 20) busy_site.

Lemma password_reset_ends_every_session_witness :
  exists user, acc_email user = Some "sara@example.com"%string /\
    acc_password <$> rows_of (A := Account) reset_site !! acc_id user = Some "new secret"%string /\
    (forall env' sid, (validate_and_touch_session (acc_id user) (Some sid) env' reset_site).1 = Ok false).
Proof.
  destruct (password_reset_ends_every_session "email" "sara@example.com" "000042" "new secret" (auth_after 20)
    busy_site reset_site (proj1 busy_site_truthful) (proj2 busy_site_truthful))
    as (user & (k & v & Hk & Hv & Hu) & Hp & Hs & _); [vm_compute; reflexivity|].
  exists user. split; [|by split]. vm_compute in Hk. injection Hk as <-. vm_compute in Hv. injection Hv as <-.
  vm_compute in Hu. by injection Hu as <-.
Defined.

(** * Signing out *)

(** A session is found by the name of its first refresh token, which a refresh
    replaces: signing out with a later token blacklists that token and leaves
    the session as it is. *)
Definition refreshed_site : AuthDB :=
  state_of (refresh_tokens "jti-1|605800|1|1") (auth_after 100) signed_in_site.

Example signing_out_after_a_refresh :
  result_of (refresh_tokens "jti-1|605800|1|1") (auth_after 100) signed_in_site
    = Ok (mkTokenPair "jti-2|605900|1|1" "access|jti-1|605800|1|1") /\
  result_of (logout_user "jti-2|605900|1|1") (auth_after 200) refreshed_site = Ok true /\
  (ses_is_revoked <$> rows_of (A := AuthSession) (state_of (logout_user "jti-2|605900|1|1") (auth_after 200)
     refreshed_site) !! 1) = Some false /\
  result_of (validate_and_touch_session 1 (Some 1)) (auth_after 300)
    (state_of (logout_user "jti-2|605900|1|1") (auth_after 200) refreshed_site) = Ok true.
Proof. vm_compute. repeat split. Qed.

(** Without a refresh in between the session is closed. *)
Example signing_out_at_once :
  result_of (validate_and_touch_session 1 (Some 1)) (auth_after 300)
    (state_of (logout_user "jti-1|605800|1|1") (auth_after 200) signed_in_site) = Ok false.
Proof. vm_compute. reflexivity. Qed.

(** * The identifier one signs in with *)

(** Removing or replacing the telephone number of an account whose primary
    identifier it is shuts out the password, also for the verified address. *)
Example password_is_shut_out :
  let profile := sample_profile in
  let signs_in db := result_of (login_with_password "email" "sara@example.com" "correct horse" sample_request)
                       auth_env db in
  (exists r, signs_in sample_site = Ok r) /\
  signs_in (state_of (update_profile profile sample_user (Some EmptyString) []) auth_env sample_site)
    = Raise AccountNotVerified /\
  signs_in (state_of (update_profile profile sample_user (Some "09351112233"%string) []) auth_env sample_site)
    = Raise AccountNotVerified.
Proof. vm_compute. split; [by eexists|]. split; reflexivity. Qed.
