(* ===== verification/AccountIdentifiers.v ===== *)
(** An identifier belongs to one account: the invariant that every service of
    [Accounts.v] and [Sessions.v] keeps, with whatever old copies of a user it
    works.  Stored identifiers are in canonical form, so that the look-up that
    ignores case and the unique column agree. *)

From S2P Require Import Prelude Python Choices Orm Models Apps AuditTrail Otp ClientIp AccountModels Sessions Accounts AccountSample AccountSafety.
From S2P Require Normalizers.
#[local] Open Scope Z_scope.
#[local] Arguments set_row : simpl never.
#[local] Arguments add_row : simpl never.

(** * The invariant *)

Definition canonical (kind : PrimaryIdentifierKind.t) (v : string) : Prop :=
  match kind with
  | PrimaryIdentifierKind.EMAIL => Normalizers.normalize_email v = Ok v
  | PrimaryIdentifierKind.PHONE => Normalizers.normalize_phone v = Ok v
  end.

Definition identifiers_canonical (x : Account) : Prop :=
  (forall e, acc_email x = Some e -> canonical PrimaryIdentifierKind.EMAIL e) /\
  (forall p, acc_phone_number x = Some p -> canonical PrimaryIdentifierKind.PHONE p).

Definition apart (x y : Account) : Prop :=
  same_value (acc_email x) (acc_email y) = false /\
  same_value (acc_phone_number x) (acc_phone_number y) = false.

Record accounts_ok (db : AuthDB) : Prop := {
  accounts_keys : table_good (A := Account) (table_of db);
  accounts_canonical : forall i x, rows_of (A := Account) db !! i = Some x -> identifiers_canonical x;
  accounts_apart : forall i j x y, rows_of (A := Account) db !! i = Some x ->
    rows_of (A := Account) db !! j = Some y -> i <> j -> apart x y;
}.

(** What Django's [normalize_email] does to an address that is canonical
    already: it changes the case of the domain only. *)
Definition good_env (env : AuthEnv) : Prop :=
  forall e, Normalizers.normalize_email e = Ok e -> auth_normalize_email env e = e.

Lemma same_value_sym a b : same_value a b = same_value b a.
Proof. destruct a, b; try done. simpl. unfold str_eqb. by apply bool_decide_ext. Qed.

Lemma apart_sym x y : apart x y -> apart y x.
Proof. unfold apart. by rewrite (same_value_sym (acc_email y)), (same_value_sym (acc_phone_number y)). Qed.

Lemma row_ok_apart others x i y :
  account_row_ok others x = true -> others !! i = Some y -> apart y x.
Proof.
  unfold account_row_ok. intros H Hi. apply andb_true_iff in H as [H Hp]. apply andb_true_iff in H as [_ He].
  rewrite unique_among_spec in He, Hp. split; [by apply (He i)|by apply (Hp i)].
Qed.

Lemma accounts_ok_set db i x y :
  accounts_ok db -> rows_of (A := Account) db !! i = Some y -> acc_id x = acc_id y ->
  account_row_ok (delete i (rows_of db)) x = true -> identifiers_canonical x ->
  accounts_ok (set_row i x db).
Proof.
  intros [Hk Hc Ha] Hi Hid Hok Hx. constructor.
  - eapply set_row_good; [done|exact Hi|]. simpl. rewrite Hid. by apply Hk.
  - intros j z. rewrite rows_of_set_row. intros [[_ <-]|[_ Hz]]%lookup_insert_Some; [done|by eapply Hc].
  - intros j k z w. rewrite rows_of_set_row.
    intros [[<- <-]|[Hj Hz]]%lookup_insert_Some [[<- <-]|[Hk' Hw]]%lookup_insert_Some Hne; [done| | |].
    + apply apart_sym. apply (row_ok_apart _ _ k _ Hok). by rewrite lookup_delete_ne.
    + apply (row_ok_apart _ _ j _ Hok). by rewrite lookup_delete_ne.
    + by apply (Ha j k).
Qed.

Lemma accounts_ok_add db x :
  accounts_ok db -> acc_id x = next_id (table_of (A := Account) db) ->
  account_row_ok (rows_of db) x = true -> identifiers_canonical x -> accounts_ok (add_row x db).
Proof.
  intros [Hk Hc Ha] Hid Hok Hx. constructor.
  - by apply add_row_good.
  - intros j z. rewrite rows_of_add_row. intros [[_ <-]|[_ Hz]]%lookup_insert_Some; [done|by eapply Hc].
  - intros j k z w. rewrite rows_of_add_row.
    intros [[<- <-]|[Hj Hz]]%lookup_insert_Some [[<- <-]|[Hk' Hw]]%lookup_insert_Some Hne; [done| | |].
    + apply apart_sym. by apply (row_ok_apart _ _ k _ Hok).
    + by apply (row_ok_apart _ _ j _ Hok).
    + by apply (Ha j k).
Qed.

Lemma accounts_ok_same db db' : same_accounts db db' -> accounts_ok db -> accounts_ok db'.
Proof.
  intros Hs [Hk Hc Ha].
  assert (rows_of (A := Account) db' = rows_of db) as Hr by (unfold rows_of; simpl; by rewrite Hs).
  constructor; rewrite ?Hr; [|done|done]. simpl. by rewrite Hs.
Qed.

(** ** Canonical identifiers are compared as the unique column compares them *)

Lemma canonical_lower e : canonical PrimaryIdentifierKind.EMAIL e -> py_lower e = e.
Proof.
  unfold canonical, Normalizers.normalize_email. cbv zeta. intros H.
  repeat case_match; simplify_eq.
  match goal with H : py_lower ?t = e |- _ => rewrite <- H end. apply Normalizers.py_lower_idem.
Qed.

Lemma has_identifier_same kind v x y :
  identifiers_canonical x -> identifiers_canonical y ->
  has_identifier kind v x = true -> has_identifier kind v y = true -> ~ apart x y.
Proof.
  intros [Hex _] [Hey _] Hx Hy [He Hp]. destruct kind; simpl in *; unfold has_email, has_phone in *.
  - destruct (acc_email x) as [e|], (acc_email y) as [e'|]; try done.
    apply bool_decide_eq_true in Hx, Hy.
    rewrite (canonical_lower e (Hex e eq_refl)) in Hx. rewrite (canonical_lower e' (Hey e' eq_refl)) in Hy.
    simpl in He. unfold str_eqb in He. apply bool_decide_eq_false in He. congruence.
  - apply bool_decide_eq_true in Hx, Hy. rewrite Hx, Hy in Hp. simpl in Hp.
    unfold str_eqb in Hp. by rewrite bool_decide_eq_true_2 in Hp.
Qed.

(** * Services that keep the invariant *)

(** [keeps Q m]: [m] keeps the invariant whatever its outcome, and what it
    returns satisfies [Q]. *)
Definition keeps {A} (Q : A -> Prop) (m : UM A) : Prop :=
  forall env db, good_env env -> accounts_ok db ->
    accounts_ok (m env db).2 /\ forall a, (m env db).1 = Ok a -> Q a.

Definition any {A} (_ : A) : Prop := True.

Create HintDb keeps discriminated.

Lemma keeps_bind {A B} P Q (m : UM A) (k : A -> UM B) :
  keeps P m -> (forall a, P a -> keeps Q (k a)) -> keeps Q (m ≫= k).
Proof.
  intros Hm Hk env db Henv Hok. destruct (Hm env db Henv Hok) as [Hok1 HP]. rewrite bind_unfold.
  destruct (m env db) as [[a|e] s]; simpl in *; [|by split].
  by apply Hk; [apply HP| |].
Qed.

Lemma keeps_ret {A} (Q : A -> Prop) a : Q a -> keeps Q (mret a : UM A).
Proof. intros HQ env db _ Hok. split; [done|]. by intros b [= <-]. Qed.

Lemma keeps_raise {A} (Q : A -> Prop) e : keeps Q (raise e : UM A).
Proof. intros env db _ Hok. by split. Qed.

Lemma keeps_weaken {A} (P Q : A -> Prop) (m : UM A) :
  keeps P m -> (forall a, P a -> Q a) -> keeps Q m.
Proof. intros Hm HPQ env db Henv Hok. destruct (Hm env db Henv Hok) as [? HP]. auto. Qed.

(** What leaves the table of users alone. *)
Lemma keeps_same {A} (m : UM A) : moves same_accounts m -> keeps any m.
Proof.
  intros Hm env db _ Hok. split; [|done]. eapply accounts_ok_same; [apply Hm|done].
Qed.

Lemma keeps_raise_if c e : keeps (fun _ => c = false) (raise_if c e : UM unit).
Proof. destruct c; [apply keeps_raise|by apply keeps_ret]. Qed.

Lemma keeps_transaction {A} (Q : A -> Prop) (m : UM A) : keeps Q m -> keeps Q (transaction m).
Proof.
  intros Hm env db Henv Hok. destruct (Hm env db Henv Hok) as [Hok1 HQ]. unfold transaction.
  destruct (m env db) as [[a|e] s]; simpl in *; [done|]. split; [|done].
  by eapply (accounts_ok_same db).
Qed.

Lemma keeps_try_catch {A} (Q : A -> Prop) (m : UM A) h :
  keeps Q m -> (forall e m', h e = Some m' -> keeps Q m') -> keeps Q (try_catch m h).
Proof.
  intros Hm Hh env db Henv Hok. destruct (Hm env db Henv Hok) as [Hok1 HQ]. unfold try_catch.
  destruct (m env db) as [[a|e] s]; simpl in *; [done|].
  destruct (h e) as [m'|] eqn:He; [by apply (Hh e m' He)|done].
Qed.

(** ** The writes *)

(** A column that is saved holds a canonical identifier, if it holds one. *)
Definition field_ok (f : account_field) : Prop :=
  match f with
  | set_email (Some e) => canonical PrimaryIdentifierKind.EMAIL e
  | set_phone_number (Some p) => canonical PrimaryIdentifierKind.PHONE p
  | _ => True
  end.

Lemma assign_all_ok fields : Forall field_ok fields -> forall x,
  identifiers_canonical x -> identifiers_canonical (assign_all fields x) /\
  acc_id (assign_all fields x) = acc_id x.
Proof.
  unfold assign_all. induction 1 as [|f l Hf _ IH]; intros x Hx; [done|]. simpl.
  assert (identifiers_canonical (assign x f) /\ acc_id (assign x f) = acc_id x) as [Hx' Hid].
  { split; [|destruct f; reflexivity]. destruct Hx as [He Hp].
    destruct f as [| [|] | [|] | | | | | | | |]; cbn [field_ok] in Hf;
      (split; intros w Hw; simpl in Hw; simplify_eq; auto). }
  destruct (IH _ Hx') as [? ?]. split; [done|congruence].
Qed.

Lemma keeps_update_account i upd :
  (forall x, identifiers_canonical x -> identifiers_canonical (upd x) /\ acc_id (upd x) = acc_id x) ->
  keeps any (update_row (A := Account) i upd).
Proof.
  intros Hupd env db _ Hok. split; [|done]. unfold update_row.
  destruct (rows_of db !! i) as [x|] eqn:Hx; [|done]. cbv zeta.
  destruct (row_ok (delete i (rows_of db)) (upd x)) eqn:Hr; [|done]. simpl.
  destruct (Hupd x (accounts_canonical _ Hok i x Hx)) as [Hc Hid]. by eapply accounts_ok_set.
Qed.

Lemma keeps_save_user u fields : Forall field_ok fields -> keeps any (save_user u fields).
Proof. intros Hf. apply keeps_update_account. by apply assign_all_ok. Qed.

Lemma keeps_save_changes u fields : Forall field_ok fields -> keeps any (save_changes u fields).
Proof. intros Hf. destruct fields; [by apply keeps_ret|by apply keeps_save_user]. Qed.

Lemma keeps_create_account mk :
  (forall i now, acc_id (mk i now) = i /\ identifiers_canonical (mk i now)) ->
  keeps any (create mk : UM Account).
Proof.
  intros Hmk env db _ Hok. split; [|done]. unfold create. cbv zeta.
  destruct (row_ok _ _) eqn:Hr; [|done]. simpl.
  destruct (Hmk (next_id (table_of (A := Account) db)) (clock env)) as [Hid Hc]. by apply accounts_ok_add.
Qed.

(** ** What leaves the users alone *)

#[export] Hint Extern 1 (moves same_accounts (create (A := Profile) _)) =>
  apply moves_create; [typeclasses eauto|intros; reflexivity] : moves.
#[export] Hint Extern 1 (moves same_accounts (create (A := AuthSession) _)) =>
  apply moves_create; [typeclasses eauto|intros; reflexivity] : moves.
#[export] Hint Extern 1 (moves same_accounts (create (A := AuthRiskSignal) _)) =>
  apply moves_create; [typeclasses eauto|intros; reflexivity] : moves.
#[export] Hint Extern 1 (moves same_accounts (update_row (A := Profile) _ _)) =>
  apply moves_update_row; [typeclasses eauto|intros; reflexivity] : moves.
#[export] Hint Extern 1 (moves same_accounts (update_row (A := AuthRiskSignal) _ _)) =>
  apply moves_update_row; [typeclasses eauto|intros; reflexivity] : moves.
#[export] Hint Extern 1 (moves same_accounts (on_tokens _)) =>
  apply moves_on_tokens; intros; reflexivity : moves.
#[export] Hint Extern 1 (moves same_accounts (on_codes _)) =>
  apply moves_on_codes; intros; reflexivity : moves.
#[export] Hint Extern 1 (moves same_accounts (objects_get _)) =>
  apply moves_objects_get; typeclasses eauto : moves.
#[export] Hint Resolve same_accounts_revoke_all : moves.

Lemma same_accounts_revoke sid by_ : moves same_accounts (revoke_auth_session sid by_).
Proof.
  assert (forall i upd, moves same_accounts (update_row (A := AuthSession) i upd : UM unit)) as Hupd.
  { intros. by apply moves_update_row; [typeclasses eauto|]. }
  apply moves_transaction; [done|]. unfold invalidate_session_validity_cache.
  repeat first [apply Hupd | progress solve_moves | by intros env db].
Qed.

Lemma same_accounts_mapping {A} f (m : UM A) : moves same_accounts m -> moves same_accounts (mapping f m).
Proof.
  intros Hm. apply moves_try_catch; [typeclasses eauto|done|].
  intros e m'. destruct (f e); simpl; intros; simplify_eq. apply moves_pure; [typeclasses eauto|done].
Qed.

#[export] Hint Resolve same_accounts_revoke : moves.
#[export] Hint Extern 1 (moves same_accounts (mapping _ _)) =>
  apply same_accounts_mapping; auto with moves : moves.
#[export] Hint Extern 1 (moves same_accounts (transaction _)) =>
  apply moves_transaction; [done|solve [solve_moves]] : moves.

(** ** Canonical identifiers *)

Lemma email_canonical v w : Normalizers.normalize_email v = Ok w -> canonical PrimaryIdentifierKind.EMAIL w.
Proof. by intros [H _]%Normalizers.normalize_email_fixed. Qed.

Lemma phone_canonical v w : Normalizers.normalize_phone v = Ok w -> canonical PrimaryIdentifierKind.PHONE w.
Proof. intros H%Normalizers.normalize_phone_e164. by apply Normalizers.normalize_phone_fixed. Qed.

(** Django's and the manager's own clean-up leave them as they are. *)
Lemma optional_email_canonical env w : good_env env -> canonical PrimaryIdentifierKind.EMAIL w ->
  str_true (py_strip w) = true /\ auth_normalize_email env (py_strip w) = w.
Proof.
  intros Henv Hw. destruct (Normalizers.normalize_email_fixed _ _ Hw) as (_ & Hst & Hat). rewrite Hst.
  split; [by destruct w|by apply Henv].
Qed.

Lemma optional_phone_canonical w : canonical PrimaryIdentifierKind.PHONE w ->
  normalize_optional_phone (Some w) = Some w.
Proof.
  intros Hw. destruct (Normalizers.normalize_phone_e164 _ _ Hw) as (d & -> & _ & Hd).
  destruct (Normalizers.e164_solid d Hd) as (Hsp & _). unfold normalize_optional_phone.
  by rewrite (Normalizers.py_strip_solid _ Hsp).
Qed.

Lemma keeps_query {A} (f : AuthDB -> A) : keeps any (query f : UM A).
Proof. intros env db _ Hok. by split. Qed.

Lemma keeps_ask : keeps good_env (ask : UM AuthEnv).
Proof. intros env db Henv Hok. split; [done|]. by intros e [= <-]. Qed.

Lemma keeps_checked {A} (r : outcome Normalizers.norm_error A) : keeps (fun w => r = Ok w) (of_checked r).
Proof. destruct r; [by apply keeps_ret|apply keeps_raise]. Qed.

Lemma keeps_known_kind k : keeps (fun kind => of_value k = Some kind) (known_kind k).
Proof. unfold known_kind. destruct (of_value k); [by apply keeps_ret|apply keeps_raise]. Qed.

(** What stands for a kind given as a text. *)
Definition canonical_text (k w : string) : Prop :=
  forall kind : PrimaryIdentifierKind.t, of_value k = Some kind -> canonical kind w.

Lemma keeps_normalize k v : keeps (canonical_text k) (normalize_identifier_by_kind k v).
Proof.
  unfold normalize_identifier_by_kind. eapply keeps_bind; [apply keeps_known_kind|]. intros kind Hk.
  assert (forall w, canonical kind w -> canonical_text k w) as Hw.
  { intros w Hw kind' Hk'. rewrite Hk in Hk'. by injection Hk' as <-. }
  destruct kind; (eapply keeps_weaken; [apply keeps_checked|]); intros w H; apply Hw.
  - exact (email_canonical v w H).
  - exact (phone_canonical v w H).
Qed.

Lemma keeps_ensure u k v : keeps (canonical_text k) (ensure_identifier_can_be_added_or_verified u k v).
Proof.
  unfold ensure_identifier_can_be_added_or_verified.
  eapply keeps_bind; [apply keeps_normalize|]. intros w Hw.
  eapply keeps_bind; [apply keeps_known_kind|]. intros kind _.
  destruct (identifier_state u kind) as [[c|] verified].
  - destruct (str_eqb c w); [|apply keeps_raise].
    eapply keeps_bind; [apply keeps_raise_if|]. intros _ _. by apply keeps_ret.
  - eapply keeps_bind; [apply keeps_query|]. intros b _.
    eapply keeps_bind; [apply keeps_raise_if|]. intros _ _. by apply keeps_ret.
Qed.

(** ** Creating a user *)

Definition opt_canonical (kind : PrimaryIdentifierKind.t) (v : option string) : Prop :=
  forall w, v = Some w -> canonical kind w.

Lemma keeps_optional_email v : opt_canonical PrimaryIdentifierKind.EMAIL v ->
  keeps (opt_canonical PrimaryIdentifierKind.EMAIL) (normalize_optional_email v).
Proof.
  intros Hv. unfold normalize_optional_email. eapply keeps_bind; [apply keeps_ask|]. intros env Henv.
  apply keeps_ret. intros w. destruct v as [e|]; [|done]. cbv zeta.
  destruct (optional_email_canonical env e Henv (Hv e eq_refl)) as [-> ->]. intros [= <-]. by apply Hv.
Qed.

Lemma keeps_create_user e p pw f l pr ev pv :
  opt_canonical PrimaryIdentifierKind.EMAIL e -> opt_canonical PrimaryIdentifierKind.PHONE p ->
  keeps any (create_user e p pw f l pr ev pv).
Proof.
  intros He Hp. unfold create_user, create_user_with. cbn [ex_phone_number].
  assert (opt_canonical PrimaryIdentifierKind.PHONE (normalize_optional_phone p)) as Hp'.
  { destruct p as [p|]; [|done]. rewrite (optional_phone_canonical p (Hp p eq_refl)). exact Hp. }
  eapply keeps_bind; [by apply keeps_optional_email|]. intros email Hemail.
  eapply keeps_bind; [apply keeps_raise_if|]. intros _ _.
  eapply keeps_bind.
  { apply keeps_same. unfold resolve_primary_identifier. solve_moves. }
  intros primary _. eapply keeps_bind; [apply keeps_ask|]. intros env _.
  eapply keeps_bind; [by apply keeps_create_account|]. intros user _.
  apply keeps_same. solve_moves.
Qed.

(** ** Signing in *)

Lemma keeps_login u r : keeps any (build_login_result u r).
Proof.
  unfold build_login_result. eapply keeps_bind; [apply keeps_ask|]. intros env _.
  eapply (keeps_bind any).
  { destruct (present _); [|by apply keeps_ret]. apply keeps_update_account. intros x Hx. by split. }
  intros _ _. apply keeps_same.
  unfold for_user, create_auth_session, read_refresh, evaluate_auth_session_risk, create_auth_risk_signal.
  solve_moves.
Qed.

(** ** The services *)

Ltac keeps_step :=
  first
    [ eapply keeps_bind; [apply keeps_raise_if|intros _ _]
    | eapply keeps_bind; [apply keeps_query|intros ? _]
    | eapply keeps_bind; [apply keeps_ask|intros ? _] ].

Lemma same_accounts_resolve u p : moves same_accounts (resolve_legacy_otp_identifier u p).
Proof. unfold resolve_legacy_otp_identifier, of_checked. solve_moves. Qed.

#[export] Hint Resolve same_accounts_resolve : moves.

Lemma same_accounts_legacy_verify u c p : moves same_accounts (legacy_verify_otp u c p).
Proof.
  unfold legacy_verify_otp. apply moves_try_catch; [typeclasses eauto|solve_moves|].
  intros e m'. destruct (caught_by_legacy e); intros; simplify_eq. apply moves_pure; [typeclasses eauto|done].
Qed.

Lemma same_accounts_create_and_send u p : moves same_accounts (create_and_send_otp u p).
Proof. apply moves_transaction; [done|]. solve_moves. Qed.

Lemma same_accounts_normalize k v : moves same_accounts (normalize_identifier_by_kind k v).
Proof. unfold normalize_identifier_by_kind, known_kind, of_checked. solve_moves. Qed.

Lemma same_accounts_active_user k v : moves same_accounts (get_active_user_by_identifier k v).
Proof. unfold get_active_user_by_identifier, known_kind. solve_moves. Qed.

Lemma same_accounts_send k v p : moves same_accounts (send_identifier_otp k v p).
Proof. apply same_accounts_mapping. auto with moves. Qed.

Lemma same_accounts_verify k v p c : moves same_accounts (verify_identifier_otp k v p c).
Proof. apply same_accounts_mapping. auto with moves. Qed.

#[export] Hint Resolve same_accounts_legacy_verify same_accounts_create_and_send same_accounts_normalize
  same_accounts_active_user same_accounts_send same_accounts_verify : moves.

Lemma keeps_renew_password u pw sid : keeps any (renew_password u pw sid).
Proof.
  unfold renew_password. keeps_step. eapply keeps_bind; [by apply keeps_save_user; repeat constructor|].
  intros _ _. apply keeps_same. auto with moves.
Qed.

Lemma keeps_register e pw f l : keeps any (register_user e pw f l).
Proof.
  apply keeps_transaction. eapply keeps_bind; [apply keeps_checked|]. intros w Hw.
  eapply keeps_bind.
  { apply keeps_create_user; intros w'; [|done]. intros [= <-]. exact (email_canonical _ _ Hw). }
  intros u _. apply keeps_same. solve_moves.
Qed.

Lemma keeps_login_user r e pw : keeps any (login_user r e pw).
Proof.
  unfold login_user. destruct (Normalizers.normalize_email e) as [w|]; [|by apply keeps_ret].
  eapply (keeps_bind any).
  { apply keeps_same. unfold authenticate. solve_moves. }
  intros [u|] _; [|by apply keeps_ret]. eapply keeps_bind; [apply keeps_login|]. intros x _. by apply keeps_ret.
Qed.

Lemma keeps_verify_user_email u c : keeps any (verify_user_email u c).
Proof.
  apply keeps_transaction. eapply keeps_bind; [apply keeps_same; auto with moves|]. intros b _.
  destruct (negb b); [by apply keeps_ret|]. eapply (keeps_bind any); [|intros _ _; by apply keeps_ret].
  destruct (acc_is_email_verified u); [by apply keeps_ret|]. by apply keeps_save_user; repeat constructor.
Qed.

Lemma keeps_reset_password u c pw : keeps any (reset_password_with_otp u c pw).
Proof.
  apply keeps_transaction. eapply keeps_bind; [apply keeps_same; auto with moves|]. intros b _.
  destruct (negb b); [by apply keeps_ret|].
  eapply keeps_bind; [apply keeps_renew_password|]. intros n _. by apply keeps_ret.
Qed.

Lemma keeps_change_password u o pw sid : keeps any (change_password u o pw sid).
Proof.
  apply keeps_transaction. keeps_step. destruct (negb _); [by apply keeps_ret|].
  eapply keeps_bind; [apply keeps_renew_password|]. intros n _. by apply keeps_ret.
Qed.

Lemma keeps_signup_verify k v c pw f l r : keeps any (signup_verify k v c pw f l r).
Proof.
  apply keeps_transaction. eapply keeps_bind; [apply keeps_normalize|]. intros w Hw.
  eapply keeps_bind; [apply keeps_same; auto with moves|]. intros o _.
  eapply keeps_bind; [apply keeps_known_kind|]. intros kind Hk. apply Hw in Hk.
  repeat keeps_step.
  eapply (keeps_bind any).
  { destruct kind; apply keeps_create_user; intros w'; try done; by intros [= <-]. }
  intros u _. destruct r as [r|].
  - eapply keeps_bind; [apply keeps_login|]. intros x _. by apply keeps_ret.
  - apply keeps_same. unfold issue_tokens, for_user. solve_moves.
Qed.

Lemma keeps_login_with_password k v pw r : keeps any (login_with_password k v pw r).
Proof.
  unfold login_with_password. eapply keeps_bind; [apply keeps_normalize|]. intros w _.
  eapply (keeps_bind any).
  { apply keeps_same. unfold get_user_by_identifier, known_kind. solve_moves. }
  intros u _. keeps_step. destruct u as [u|]; [|apply keeps_raise]. do 3 keeps_step. apply keeps_login.
Qed.

Lemma keeps_verified_user k v c p : keeps any (verified_user k v c p).
Proof. apply keeps_same. unfold verified_user. solve_moves. Qed.

Lemma keeps_send_to_active k v p : keeps any (send_to_active_user k v p).
Proof. apply keeps_same. unfold send_to_active_user. solve_moves. Qed.

Lemma keeps_add_verify u k v c : keeps any (identifier_add_verify u k v c).
Proof.
  apply keeps_transaction. eapply keeps_bind; [apply keeps_ensure|]. intros w _.
  eapply keeps_bind; [apply keeps_same; auto with moves|]. intros o _.
  eapply keeps_bind; [apply keeps_ensure|]. intros w' Hw'.
  eapply keeps_bind; [apply keeps_known_kind|]. intros kind Hk. apply Hw' in Hk. cbv zeta.
  eapply keeps_bind; [|intros _ _; by apply keeps_ret]. apply keeps_save_changes.
  destruct kind; unfold attached; apply Forall_app; split; by repeat case_match; repeat constructor.
Qed.

Lemma keeps_make_primary u k : keeps any (make_primary_identifier u k).
Proof.
  apply keeps_transaction. eapply keeps_bind; [apply keeps_known_kind|]. intros kind _.
  destruct (identifier_state u kind) as [c verified]. repeat keeps_step.
  case_bool_decide; [by apply keeps_ret|].
  eapply keeps_bind; [by apply keeps_save_user; repeat constructor|]. intros _ _. by apply keeps_ret.
Qed.

Lemma keeps_phone_update u p : keeps (Forall field_ok) (prepare_phone_number_update u p).
Proof.
  unfold prepare_phone_number_update. destruct p as [p|]; [|by apply keeps_ret]. cbv zeta.
  destruct (str_eqb p EmptyString).
  - keeps_step. apply keeps_ret. apply Forall_app. split; repeat case_match; by repeat constructor.
  - eapply keeps_bind; [apply keeps_checked|]. intros w Hw. repeat keeps_step. apply keeps_ret.
    case_bool_decide; [done|]. constructor; [exact (phone_canonical p w Hw)|].
    destruct (acc_is_phone_verified u); by repeat constructor.
Qed.

Lemma keeps_update_profile pr u p fs : keeps any (update_profile pr u p fs).
Proof.
  apply keeps_transaction. eapply keeps_bind; [apply keeps_phone_update|]. intros l Hl.
  eapply keeps_bind; [by apply keeps_save_changes|]. intros _ _. apply keeps_same. solve_moves.
Qed.

Lemma keeps_update_permitted permitted u fs :
  (forall f, permitted f = true -> field_ok f) -> keeps any (update_permitted permitted u fs).
Proof.
  intros Hp. apply keeps_transaction. cbv zeta.
  eapply keeps_bind; [|intros _ _; by apply keeps_ret]. apply keeps_save_changes.
  apply Forall_forall. intros f Hf. apply Hp. by apply list_elem_of_In, filter_In in Hf as [_ Hf].
Qed.

(** * Every run of the services *)

(** A call of a service that can write to the accounts; a user given is the
    object in the caller's hands. *)
Inductive account_request : Type :=
| RegisterUser (email password first last : string)
| LoginUser (request : HttpRequest) (email password : string)
| VerifyUserEmail (user : Account) (code : string)
| RequestPasswordReset (user : Account)
| ResetPasswordWithOtp (user : Account) (code password : string)
| ChangePassword (user : Account) (old new_password : string) (sid : option Z)
| SignupRequest (kind v : string)
| SignupVerify (kind v code password first last : string) (request : option HttpRequest)
| LoginWithPassword (kind v password : string) (request : HttpRequest)
| LoginOtpRequest (kind v : string)
| LoginOtpVerify (kind v code : string) (request : HttpRequest)
| ForgotPasswordRequest (kind v : string)
| ForgotPasswordConfirm (kind v code password : string)
| IdentifierAddRequest (user : Account) (kind v : string)
| IdentifierAddVerify (user : Account) (kind v code : string)
| MakePrimaryIdentifier (user : Account) (kind : string)
| UpdateProfile (profile : Profile) (user : Account) (phone : option string) (fields : list profile_field)
| UpdateUserBasicInfo (user : Account) (fields : list account_field)
| AdminUpdateUser (user : Account) (fields : list account_field)
| AdminChangeUserRole (user : Account) (role : UserRole.t)
| SoftDelete (user : Account)
| Restore (user : Account)
| RevokeSession (sid : Z) (by_ : option Z)
| RevokeAllSessions (uid : Z) (by_ sid : option Z)
| Logout (token : string)
| CheckSession (uid : Z) (sid : option Z)
| RefreshTokens (token : string)
| ReviewRisk (signal by_ : Z) (status : AuthRiskStatus.t) (note : string)
| FlushTokens (batch_size max_batches : nat).

Definition ignore {A} (m : UM A) : UM unit := _ ← m; mret tt.

Definition serve (r : account_request) : UM unit :=
  match r with
  | RegisterUser e p f l => ignore (register_user e p f l)
  | LoginUser q e p => ignore (login_user q e p)
  | VerifyUserEmail u c => ignore (verify_user_email u c)
  | RequestPasswordReset u => ignore (request_password_reset u)
  | ResetPasswordWithOtp u c p => ignore (reset_password_with_otp u c p)
  | ChangePassword u o p s => ignore (change_password u o p s)
  | SignupRequest k v => signup_request k v
  | SignupVerify k v c p f l q => ignore (signup_verify k v c p f l q)
  | LoginWithPassword k v p q => ignore (login_with_password k v p q)
  | LoginOtpRequest k v => login_otp_request k v
  | LoginOtpVerify k v c q => ignore (login_otp_verify k v c q)
  | ForgotPasswordRequest k v => forgot_password_request k v
  | ForgotPasswordConfirm k v c p => forgot_password_confirm k v c p
  | IdentifierAddRequest u k v => identifier_add_request u k v
  | IdentifierAddVerify u k v c => ignore (identifier_add_verify u k v c)
  | MakePrimaryIdentifier u k => ignore (make_primary_identifier u k)
  | UpdateProfile pr u p fs => ignore (update_profile pr u p fs)
  | UpdateUserBasicInfo u fs => ignore (update_user_basic_info u fs)
  | AdminUpdateUser u fs => ignore (admin_update_user u fs)
  | AdminChangeUserRole u r => ignore (admin_change_user_role u r)
  | SoftDelete u => soft_delete u
  | Restore u => restore u
  | RevokeSession s b => ignore (revoke_auth_session s b)
  | RevokeAllSessions u b s => ignore (revoke_all_user_sessions u b s)
  | Logout t => ignore (logout_user t)
  | CheckSession u s => ignore (validate_and_touch_session u s)
  | RefreshTokens t => ignore (refresh_tokens t)
  | ReviewRisk s b st n => ignore (review_auth_risk_signal s b st n)
  | FlushTokens b m => ignore (flush_expired_jwt_tokens_task b m)
  end.

Inductive account_steps : AuthDB -> AuthDB -> Prop :=
| accounts_stay db : account_steps db db
| accounts_go env r db db' :
    good_env env -> account_steps (serve r env db).2 db' -> account_steps db db'.

(** From a site without accounts. *)
Definition account_reachable (db : AuthDB) : Prop :=
  exists db0, table_of (A := Account) db0 = mkTable ∅ 1 /\ account_steps db0 db.

Lemma keeps_ignore {A} (m : UM A) : keeps any m -> keeps any (ignore m).
Proof. intros Hm. eapply keeps_bind; [exact Hm|]. intros a _. by apply keeps_ret. Qed.

Lemma same_accounts_touch sid t : moves same_accounts (touch_session sid t).
Proof.
  intros env db. unfold touch_session, modify. simpl.
  destruct (rows_of (A := AuthSession) db !! sid) as [s|]; [|done]. by destruct (_ && _).
Qed.

Lemma same_accounts_cache sid uid st : moves same_accounts (cache_session sid uid st).
Proof. by intros env db. Qed.

#[export] Hint Resolve same_accounts_touch same_accounts_cache : moves.

Lemma same_accounts_check uid sid : moves same_accounts (validate_and_touch_session uid sid).
Proof. unfold validate_and_touch_session, settle_session. solve_moves. Qed.

Lemma same_accounts_refresh t : moves same_accounts (refresh_tokens t).
Proof. unfold refresh_tokens, read_refresh. solve_moves. Qed.

Lemma same_accounts_logout t : moves same_accounts (logout_user t).
Proof.
  apply moves_try_catch; [typeclasses eauto| |].
  - unfold read_refresh, revoke_auth_session_by_jti. solve_moves.
  - intros e m' [= <-]. apply moves_pure; [typeclasses eauto|done].
Qed.

Lemma keeps_serve r : keeps any (serve r).
Proof.
  destruct r; simpl; try apply keeps_ignore.
  - apply keeps_register.
  - apply keeps_login_user.
  - apply keeps_verify_user_email.
  - apply keeps_same, moves_transaction; [done|auto with moves].
  - apply keeps_reset_password.
  - apply keeps_change_password.
  - apply keeps_same. unfold signup_request. solve_moves.
  - apply keeps_signup_verify.
  - apply keeps_login_with_password.
  - apply keeps_send_to_active.
  - eapply keeps_bind; [apply keeps_verified_user|intros u _; apply keeps_login].
  - apply keeps_send_to_active.
  - apply keeps_transaction. eapply keeps_bind; [apply keeps_verified_user|]. intros u _.
    eapply keeps_bind; [apply keeps_renew_password|]. intros n _. by apply keeps_ret.
  - eapply keeps_bind; [apply keeps_ensure|]. intros w _. apply keeps_same. solve_moves.
  - apply keeps_add_verify.
  - apply keeps_make_primary.
  - apply keeps_update_profile.
  - apply keeps_update_permitted. by intros [].
  - apply keeps_update_permitted. by intros [].
  - apply keeps_transaction. cbv zeta.
    eapply keeps_bind; [by apply keeps_save_user; repeat constructor|]. intros _ _. by apply keeps_ret.
  - by apply keeps_save_user; repeat constructor.
  - by apply keeps_save_user; repeat constructor.
  - apply keeps_same. auto with moves.
  - apply keeps_same. auto with moves.
  - apply keeps_same, same_accounts_logout.
  - apply keeps_same, same_accounts_check.
  - apply keeps_same, same_accounts_refresh.
  - apply keeps_same, moves_transaction; [done|]. solve_moves.
  - apply keeps_same. unfold flush_expired_jwt_tokens_task. solve_moves.
Qed.

Lemma account_reachable_ok db : account_reachable db -> accounts_ok db.
Proof.
  intros (db0 & Hempty & Hsteps).
  assert (accounts_ok db0) as Hok.
  { constructor; unfold rows_of; rewrite Hempty; [|by intros|by intros].
    split; [simpl; lia|by intros i x]. }
  clear Hempty. induction Hsteps as [|env r db db' Henv _ IH]; [done|].
  apply IH. by apply keeps_serve.
Qed.

(** C14: an identifier belongs to one account: after any run of the services,
    with whatever old copies of users they are called, two accounts never share
    a telephone number, nor an e-mail address up to the case of its letters. *)
Theorem an_identifier_has_one_owner (db : AuthDB) (kind : PrimaryIdentifierKind.t) (v : string)
    (i j : Z) (x y : Account) (Hdb : account_reachable db)
    (Hi : rows_of db !! i = Some x) (Hj : rows_of db !! j = Some y)
    (Hx : has_identifier kind v x = true) (Hy : has_identifier kind v y = true) : i = j.
Proof.
  apply account_reachable_ok in Hdb as [_ Hc Ha]. destruct (decide (i = j)) as [|Hne]; [done|].
  exfalso. eapply (has_identifier_same kind v x y); eauto.
Qed.

(** Two users sign up, and the second tries to add the address of the first. *)
Definition both_signed_up : AuthDB :=
  let sign_up k v db :=
    state_of (serve (SignupVerify k v "000042" "secret" EmptyString EmptyString (Some sample_request))) auth_env
      (state_of (serve (SignupRequest k v)) auth_env db) in
  sign_up "phone" "09120000000" (sign_up "email" "Sara@Example.com" empty_site).

Lemma auth_env_good now : good_env (auth_env_at now).
Proof. by intros e _. Qed.

Lemma both_signed_up_reachable : account_reachable both_signed_up.
Proof.
  exists empty_site. split; [reflexivity|].
  do 4 (eapply accounts_go; [apply (auth_env_good sample_time)|]). apply accounts_stay.
Qed.

Lemma an_identifier_has_one_owner_witness :
  (acc_email <$> rows_of both_signed_up !! 1) = Some (Some "sara@example.com"%string) /\
  (acc_phone_number <$> rows_of both_signed_up !! 2) = Some (Some "+989120000000"%string) /\ 1 = 1.
Proof.
  split; [vm_compute; reflexivity|]. split; [vm_compute; reflexivity|].
  apply (an_identifier_has_one_owner both_signed_up PrimaryIdentifierKind.EMAIL "SARA@example.com" 1 1
           (default sample_user (rows_of both_signed_up !! 1)) (default sample_user (rows_of both_signed_up !! 1))
           both_signed_up_reachable); vm_compute; reflexivity.
Defined.

Example the_address_is_taken :
  result_of (identifier_add_request (default sample_user (rows_of both_signed_up !! 2)) "email" "SARA@example.com")
    auth_env both_signed_up = Raise IdentifierAlreadyExists.
Proof. vm_compute. reflexivity. Qed.
