(* ===== verification/R4JModels.v ===== *)
(** The data of the reward-for-justice application: [src/apps/r4j/choices.py] and
    [src/apps/r4j/models.py], the constraints of its tables, and the database,
    environment and exceptions of its services. *)

From S2P Require Import Prelude Python Choices Orm Models.
#[local] Open Scope Z_scope.

(** * Enumerations *)

Module Gender.

Inductive t : Set :=
| MALE
| FEMALE
| UNKNOWN.

#[export] Instance t_eq : EqDecision t.
Proof. solve_decision. Defined.

Definition values : list (t * string) :=
  [ (MALE, "male"%string);
    (FEMALE, "female"%string);
    (UNKNOWN, "unknown"%string) ].

#[export, refine] Instance t_choices : TextChoices t := { choices := values }.
Proof. all: solve_choices. Defined.

End Gender.
Export (hints) Gender.

Module SocialPlatform.

Inductive t : Set :=
| TELEGRAM
| TWITTER_X
| INSTAGRAM
| LINKEDIN
| FACEBOOK
| TIKTOK
| TRUTH_SOCIAL
| YOUTUBE
| WEBSITE
| OTHER.

#[export] Instance t_eq : EqDecision t.
Proof. solve_decision. Defined.

Definition values : list (t * string) :=
  [ (TELEGRAM, "telegram"%string);
    (TWITTER_X, "twitter_x"%string);
    (INSTAGRAM, "instagram"%string);
    (LINKEDIN, "linkedin"%string);
    (FACEBOOK, "facebook"%string);
    (TIKTOK, "tiktok"%string);
    (TRUTH_SOCIAL, "truth_social"%string);
    (YOUTUBE, "youtube"%string);
    (WEBSITE, "website"%string);
    (OTHER, "other"%string) ].

#[export, refine] Instance t_choices : TextChoices t := { choices := values }.
Proof. all: solve_choices. Defined.

End SocialPlatform.
Export (hints) SocialPlatform.

Module PublicVisibilityField.

Inductive t : Set :=
| NATIONAL_CODE
| BIRTH_DATE
| GENDER
| COUNTRY
| PROVINCE
| CITY
| DESCRIPTION
| CRIMES_SUMMARY
| OTHER_INFO.

#[export] Instance t_eq : EqDecision t.
Proof. solve_decision. Defined.

Definition values : list (t * string) :=
  [ (NATIONAL_CODE, "national_code"%string);
    (BIRTH_DATE, "birth_date"%string);
    (GENDER, "gender"%string);
    (COUNTRY, "country"%string);
    (PROVINCE, "province"%string);
    (CITY, "city"%string);
    (DESCRIPTION, "description"%string);
    (CRIMES_SUMMARY, "crimes_summary"%string);
    (OTHER_INFO, "other_info"%string) ].

#[export, refine] Instance t_choices : TextChoices t := { choices := values }.
Proof. all: solve_choices. Defined.

End PublicVisibilityField.
Export (hints) PublicVisibilityField.

Module CriminalAttachmentKind.

Inductive t : Set :=
| IMAGE
| DOCUMENT
| VIDEO
| AUDIO
| OTHER.

#[export] Instance t_eq : EqDecision t.
Proof. solve_decision. Defined.

Definition values : list (t * string) :=
  [ (IMAGE, "image"%string);
    (DOCUMENT, "document"%string);
    (VIDEO, "video"%string);
    (AUDIO, "audio"%string);
    (OTHER, "other"%string) ].

#[export, refine] Instance t_choices : TextChoices t := { choices := values }.
Proof. all: solve_choices. Defined.

End CriminalAttachmentKind.
Export (hints) CriminalAttachmentKind.

Module EvidenceCustodyEventType.

Inductive t : Set :=
| UPLOADED
| HASHED
| REVIEWED
| TRANSFERRED
| REJECTED
| DELETED.

#[export] Instance t_eq : EqDecision t.
Proof. solve_decision. Defined.

Definition values : list (t * string) :=
  [ (UPLOADED, "uploaded"%string);
    (HASHED, "hashed"%string);
    (REVIEWED, "reviewed"%string);
    (TRANSFERRED, "transferred"%string);
    (REJECTED, "rejected"%string);
    (DELETED, "deleted"%string) ].

#[export, refine] Instance t_choices : TextChoices t := { choices := values }.
Proof. all: solve_choices. Defined.

End EvidenceCustodyEventType.
Export (hints) EvidenceCustodyEventType.

Module ReportStatus.

Inductive t : Set :=
| PENDING
| APPROVED
| PARTIALLY_APPROVED
| REJECTED
| CANCEL_REQUESTED
| CANCELED.

#[export] Instance t_eq : EqDecision t.
Proof. solve_decision. Defined.

Definition values : list (t * string) :=
  [ (PENDING, "pending"%string);
    (APPROVED, "approved"%string);
    (PARTIALLY_APPROVED, "partially_approved"%string);
    (REJECTED, "rejected"%string);
    (CANCEL_REQUESTED, "cancel_requested"%string);
    (CANCELED, "canceled"%string) ].

#[export, refine] Instance t_choices : TextChoices t := { choices := values }.
Proof. all: solve_choices. Defined.

End ReportStatus.
Export (hints) ReportStatus.

Module ReportFieldChangeStatus.

Inductive t : Set :=
| PENDING
| APPROVED
| REJECTED.

#[export] Instance t_eq : EqDecision t.
Proof. solve_decision. Defined.

Definition values : list (t * string) :=
  [ (PENDING, "pending"%string);
    (APPROVED, "approved"%string);
    (REJECTED, "rejected"%string) ].

#[export, refine] Instance t_choices : TextChoices t := { choices := values }.
Proof. all: solve_choices. Defined.

End ReportFieldChangeStatus.
Export (hints) ReportFieldChangeStatus.

Module BountyStatus.

Inductive t : Set :=
| ACTIVE
| CANCEL_REQUESTED
| CANCELED.

#[export] Instance t_eq : EqDecision t.
Proof. solve_decision. Defined.

Definition values : list (t * string) :=
  [ (ACTIVE, "active"%string);
    (CANCEL_REQUESTED, "cancel_requested"%string);
    (CANCELED, "canceled"%string) ].

#[export, refine] Instance t_choices : TextChoices t := { choices := values }.
Proof. all: solve_choices. Defined.

End BountyStatus.
Export (hints) BountyStatus.

(** * Records *)

(** R4JCriminal: a profile with its denormalised counters of bounties; a date is the
    number of days since 1970-01-01. *)
Record R4JCriminal : Type := mkCriminal {
  crm_id : Z;
  crm_first_name : string;
  crm_last_name : string;
  crm_slug : string;
  crm_national_code : option string;
  crm_birth_date : option Z;
  crm_gender : Gender.t;
  crm_country : string;
  crm_province : string;
  crm_city : string;
  crm_description : string;
  crm_crimes_summary : string;
  crm_other_info : string;
  crm_is_published : bool;
  crm_published_at : option Z;
  crm_created_by : option Z;
  crm_total_bounty_toman : Z;
  crm_bounties_count : Z;
  crm_is_active : bool;
  crm_created_at : Z;
  crm_updated_at : Z;
}.

#[export] Instance eta_R4JCriminal : Eta R4JCriminal := fun x => mkCriminal
  (crm_id x) (crm_first_name x) (crm_last_name x) (crm_slug x)
  (crm_national_code x) (crm_birth_date x) (crm_gender x) (crm_country x)
  (crm_province x) (crm_city x) (crm_description x) (crm_crimes_summary x)
  (crm_other_info x) (crm_is_published x) (crm_published_at x)
  (crm_created_by x) (crm_total_bounty_toman x) (crm_bounties_count x)
  (crm_is_active x) (crm_created_at x) (crm_updated_at x).

(** R4JCriminalAlias: another name. *)
Record R4JCriminalAlias : Type := mkAlias {
  ali_id : Z;
  ali_criminal : Z;
  ali_alias : string;
  ali_is_active : bool;
  ali_created_at : Z;
  ali_updated_at : Z;
}.

#[export] Instance eta_R4JCriminalAlias : Eta R4JCriminalAlias := fun x => mkAlias
  (ali_id x) (ali_criminal x) (ali_alias x) (ali_is_active x)
  (ali_created_at x) (ali_updated_at x).

(** R4JCriminalPhone: a telephone number. *)
Record R4JCriminalPhone : Type := mkPhone {
  pho_id : Z;
  pho_criminal : Z;
  pho_label : string;
  pho_number : string;
  pho_is_public : bool;
  pho_notes : string;
  pho_is_active : bool;
  pho_created_at : Z;
  pho_updated_at : Z;
}.

#[export] Instance eta_R4JCriminalPhone : Eta R4JCriminalPhone := fun x => mkPhone
  (pho_id x) (pho_criminal x) (pho_label x) (pho_number x)
  (pho_is_public x) (pho_notes x) (pho_is_active x) (pho_created_at x)
  (pho_updated_at x).

(** R4JCriminalSocial: an account on a social network. *)
Record R4JCriminalSocial : Type := mkSocial {
  soc_id : Z;
  soc_criminal : Z;
  soc_platform : SocialPlatform.t;
  soc_handle_or_url : string;
  soc_is_public : bool;
  soc_is_active : bool;
  soc_created_at : Z;
  soc_updated_at : Z;
}.

#[export] Instance eta_R4JCriminalSocial : Eta R4JCriminalSocial := fun x => mkSocial
  (soc_id x) (soc_criminal x) (soc_platform x) (soc_handle_or_url x)
  (soc_is_public x) (soc_is_active x) (soc_created_at x)
  (soc_updated_at x).

(** R4JCriminalPhoto: a picture; the image is its name. *)
Record R4JCriminalPhoto : Type := mkPhoto {
  img_id : Z;
  img_criminal : Z;
  img_image : string;
  img_caption : string;
  img_is_primary : bool;
  img_order : Z;
  img_is_active : bool;
  img_created_at : Z;
  img_updated_at : Z;
}.

#[export] Instance eta_R4JCriminalPhoto : Eta R4JCriminalPhoto := fun x => mkPhoto
  (img_id x) (img_criminal x) (img_image x) (img_caption x)
  (img_is_primary x) (img_order x) (img_is_active x) (img_created_at x)
  (img_updated_at x).

(** R4JCriminalAttachment: an official document; the file is its name. *)
Record R4JCriminalAttachment : Type := mkCriminalAttachment {
  cat_id : Z;
  cat_criminal : Z;
  cat_file : string;
  cat_kind : CriminalAttachmentKind.t;
  cat_title : string;
  cat_description : string;
  cat_is_public : bool;
  cat_uploaded_by : option Z;
  cat_file_sha256 : string;
  cat_file_size : Z;
  cat_is_active : bool;
  cat_created_at : Z;
  cat_updated_at : Z;
}.

#[export] Instance eta_R4JCriminalAttachment : Eta R4JCriminalAttachment := fun x => mkCriminalAttachment
  (cat_id x) (cat_criminal x) (cat_file x) (cat_kind x) (cat_title x)
  (cat_description x) (cat_is_public x) (cat_uploaded_by x)
  (cat_file_sha256 x) (cat_file_size x) (cat_is_active x)
  (cat_created_at x) (cat_updated_at x).

(** R4JCriminalFieldVisibility: whether a field of a profile is public. *)
Record R4JCriminalFieldVisibility : Type := mkVisibility {
  vis_id : Z;
  vis_criminal : Z;
  vis_field_name : PublicVisibilityField.t;
  vis_is_public : bool;
  vis_is_active : bool;
  vis_created_at : Z;
  vis_updated_at : Z;
}.

#[export] Instance eta_R4JCriminalFieldVisibility : Eta R4JCriminalFieldVisibility := fun x => mkVisibility
  (vis_id x) (vis_criminal x) (vis_field_name x) (vis_is_public x)
  (vis_is_active x) (vis_created_at x) (vis_updated_at x).

(** R4JReport: a report of the community about a profile. *)
Record R4JReport : Type := mkReport {
  rep_id : Z;
  rep_criminal : Z;
  rep_submitted_by : Z;
  rep_notes : string;
  rep_status : ReportStatus.t;
  rep_admin_note : string;
  rep_reviewed_by : option Z;
  rep_reviewed_at : option Z;
  rep_cancel_requested_at : option Z;
  rep_canceled_at : option Z;
  rep_is_active : bool;
  rep_created_at : Z;
  rep_updated_at : Z;
}.

#[export] Instance eta_R4JReport : Eta R4JReport := fun x => mkReport
  (rep_id x) (rep_criminal x) (rep_submitted_by x) (rep_notes x)
  (rep_status x) (rep_admin_note x) (rep_reviewed_by x)
  (rep_reviewed_at x) (rep_cancel_requested_at x) (rep_canceled_at x)
  (rep_is_active x) (rep_created_at x) (rep_updated_at x).

(** R4JReportFieldChange: a suggested value of a field.  A status of what a report
    suggests is the text that the column holds. *)
Record R4JReportFieldChange : Type := mkFieldChange {
  fch_id : Z;
  fch_report : Z;
  fch_field_name : string;
  fch_suggested_value : string;
  fch_current_value_snapshot : string;
  fch_status : string;
  fch_admin_note : string;
  fch_is_active : bool;
  fch_created_at : Z;
  fch_updated_at : Z;
}.

#[export] Instance eta_R4JReportFieldChange : Eta R4JReportFieldChange := fun x => mkFieldChange
  (fch_id x) (fch_report x) (fch_field_name x) (fch_suggested_value x)
  (fch_current_value_snapshot x) (fch_status x) (fch_admin_note x)
  (fch_is_active x) (fch_created_at x) (fch_updated_at x).

(** R4JReportAliasSuggestion: a suggested other name. *)
Record R4JReportAliasSuggestion : Type := mkAliasSuggestion {
  als_id : Z;
  als_report : Z;
  als_alias : string;
  als_status : string;
  als_admin_note : string;
  als_applied_alias : option Z;
  als_is_active : bool;
  als_created_at : Z;
  als_updated_at : Z;
}.

#[export] Instance eta_R4JReportAliasSuggestion : Eta R4JReportAliasSuggestion := fun x => mkAliasSuggestion
  (als_id x) (als_report x) (als_alias x) (als_status x)
  (als_admin_note x) (als_applied_alias x) (als_is_active x)
  (als_created_at x) (als_updated_at x).

(** R4JReportPhoneSuggestion: a suggested telephone number. *)
Record R4JReportPhoneSuggestion : Type := mkPhoneSuggestion {
  phs_id : Z;
  phs_report : Z;
  phs_label : string;
  phs_number : string;
  phs_is_public : bool;
  phs_notes : string;
  phs_status : string;
  phs_admin_note : string;
  phs_applied_phone : option Z;
  phs_is_active : bool;
  phs_created_at : Z;
  phs_updated_at : Z;
}.

#[export] Instance eta_R4JReportPhoneSuggestion : Eta R4JReportPhoneSuggestion := fun x => mkPhoneSuggestion
  (phs_id x) (phs_report x) (phs_label x) (phs_number x) (phs_is_public x)
  (phs_notes x) (phs_status x) (phs_admin_note x) (phs_applied_phone x)
  (phs_is_active x) (phs_created_at x) (phs_updated_at x).

(** R4JReportSocialSuggestion: a suggested account. *)
Record R4JReportSocialSuggestion : Type := mkSocialSuggestion {
  sos_id : Z;
  sos_report : Z;
  sos_platform : SocialPlatform.t;
  sos_handle_or_url : string;
  sos_is_public : bool;
  sos_status : string;
  sos_admin_note : string;
  sos_applied_social : option Z;
  sos_is_active : bool;
  sos_created_at : Z;
  sos_updated_at : Z;
}.

#[export] Instance eta_R4JReportSocialSuggestion : Eta R4JReportSocialSuggestion := fun x => mkSocialSuggestion
  (sos_id x) (sos_report x) (sos_platform x) (sos_handle_or_url x)
  (sos_is_public x) (sos_status x) (sos_admin_note x)
  (sos_applied_social x) (sos_is_active x) (sos_created_at x)
  (sos_updated_at x).

(** R4JReportAttachment: a file of a report; the file is its name. *)
Record R4JReportAttachment : Type := mkReportAttachment {
  rat_id : Z;
  rat_report : Z;
  rat_file : string;
  rat_title : string;
  rat_kind : CriminalAttachmentKind.t;
  rat_file_sha256 : string;
  rat_file_size : Z;
  rat_status : string;
  rat_admin_note : string;
  rat_promoted_criminal_attachment : option Z;
  rat_is_active : bool;
  rat_created_at : Z;
  rat_updated_at : Z;
}.

#[export] Instance eta_R4JReportAttachment : Eta R4JReportAttachment := fun x => mkReportAttachment
  (rat_id x) (rat_report x) (rat_file x) (rat_title x) (rat_kind x)
  (rat_file_sha256 x) (rat_file_size x) (rat_status x) (rat_admin_note x)
  (rat_promoted_criminal_attachment x) (rat_is_active x)
  (rat_created_at x) (rat_updated_at x).

(** R4JEvidenceCustodyEvent: an entry of the chain of custody of a file. *)
Record R4JEvidenceCustodyEvent : Type := mkCustodyEvent {
  cus_id : Z;
  cus_criminal_attachment : option Z;
  cus_report_attachment : option Z;
  cus_event_type : EvidenceCustodyEventType.t;
  cus_actor : option Z;
  cus_file_sha256 : string;
  cus_note : string;
  cus_metadata : json;
  cus_is_active : bool;
  cus_created_at : Z;
  cus_updated_at : Z;
}.

#[export] Instance eta_R4JEvidenceCustodyEvent : Eta R4JEvidenceCustodyEvent := fun x => mkCustodyEvent
  (cus_id x) (cus_criminal_attachment x) (cus_report_attachment x)
  (cus_event_type x) (cus_actor x) (cus_file_sha256 x) (cus_note x)
  (cus_metadata x) (cus_is_active x) (cus_created_at x) (cus_updated_at x).

(** R4JBounty: the reward a user declares for a profile. *)
Record R4JBounty : Type := mkBounty {
  bty_id : Z;
  bty_criminal : Z;
  bty_user : Z;
  bty_amount_toman : Z;
  bty_status : BountyStatus.t;
  bty_cancel_requested_at : option Z;
  bty_canceled_at : option Z;
  bty_admin_note : string;
  bty_is_active : bool;
  bty_created_at : Z;
  bty_updated_at : Z;
}.

#[export] Instance eta_R4JBounty : Eta R4JBounty := fun x => mkBounty
  (bty_id x) (bty_criminal x) (bty_user x) (bty_amount_toman x)
  (bty_status x) (bty_cancel_requested_at x) (bty_canceled_at x)
  (bty_admin_note x) (bty_is_active x) (bty_created_at x)
  (bty_updated_at x).

(** * Constraints *)

Definition big_integer (z : Z) : bool :=
  (-9223372036854775808 <=? z) && (z <=? 9223372036854775807).

Definition criminal_row_ok (others : gmap Z R4JCriminal) (x : R4JCriminal) : bool :=
  max_length 150 (crm_first_name x) && max_length 150 (crm_last_name x) &&
  max_length 200 (crm_slug x) && opt_ok (max_length 10) (crm_national_code x) &&
  max_length 100 (crm_country x) && max_length 100 (crm_province x) &&
  max_length 100 (crm_city x) && big_integer (crm_total_bounty_toman x) &&
  positive_integer (crm_bounties_count x) &&
  unique_among (fun y => str_eqb (crm_slug y) (crm_slug x)) others.

Definition alias_row_ok (others : gmap Z R4JCriminalAlias) (x : R4JCriminalAlias) : bool :=
  max_length 200 (ali_alias x) &&
  unique_among (fun y => (ali_criminal y =? ali_criminal x) && str_eqb (ali_alias y) (ali_alias x))
    others.

Definition phone_row_ok (others : gmap Z R4JCriminalPhone) (x : R4JCriminalPhone) : bool :=
  max_length 50 (pho_label x) && max_length 30 (pho_number x).

Definition social_row_ok (others : gmap Z R4JCriminalSocial) (x : R4JCriminalSocial) : bool :=
  max_length 255 (soc_handle_or_url x) &&
  unique_among (fun y => (soc_criminal y =? soc_criminal x) &&
                         bool_decide (soc_platform y = soc_platform x) &&
                         str_eqb (soc_handle_or_url y) (soc_handle_or_url x)) others.

(** A profile has at most one primary photo. *)
Definition photo_row_ok (others : gmap Z R4JCriminalPhoto) (x : R4JCriminalPhoto) : bool :=
  max_length 100 (img_image x) && max_length 255 (img_caption x) && positive_integer (img_order x) &&
  (negb (img_is_primary x) ||
   unique_among (fun y => (img_criminal y =? img_criminal x) && img_is_primary y) others).

Definition criminal_attachment_row_ok (others : gmap Z R4JCriminalAttachment)
    (x : R4JCriminalAttachment) : bool :=
  max_length 100 (cat_file x) && max_length 255 (cat_title x) && max_length 64 (cat_file_sha256 x) &&
  positive_big_integer (cat_file_size x).

Definition visibility_row_ok (others : gmap Z R4JCriminalFieldVisibility)
    (x : R4JCriminalFieldVisibility) : bool :=
  unique_among (fun y => (vis_criminal y =? vis_criminal x) &&
                         bool_decide (vis_field_name y = vis_field_name x)) others.

Definition report_row_ok (others : gmap Z R4JReport) (x : R4JReport) : bool := true.

Definition field_change_row_ok (others : gmap Z R4JReportFieldChange)
    (x : R4JReportFieldChange) : bool :=
  max_length 100 (fch_field_name x) && max_length 20 (fch_status x).

Definition alias_suggestion_row_ok (others : gmap Z R4JReportAliasSuggestion)
    (x : R4JReportAliasSuggestion) : bool :=
  max_length 200 (als_alias x) && max_length 20 (als_status x).

Definition phone_suggestion_row_ok (others : gmap Z R4JReportPhoneSuggestion)
    (x : R4JReportPhoneSuggestion) : bool :=
  max_length 50 (phs_label x) && max_length 30 (phs_number x) && max_length 20 (phs_status x).

Definition social_suggestion_row_ok (others : gmap Z R4JReportSocialSuggestion)
    (x : R4JReportSocialSuggestion) : bool :=
  max_length 255 (sos_handle_or_url x) && max_length 20 (sos_status x).

Definition report_attachment_row_ok (others : gmap Z R4JReportAttachment)
    (x : R4JReportAttachment) : bool :=
  max_length 100 (rat_file x) && max_length 255 (rat_title x) && max_length 64 (rat_file_sha256 x) &&
  positive_big_integer (rat_file_size x) && max_length 20 (rat_status x).

(** An event is about exactly one file. *)
Definition custody_event_row_ok (others : gmap Z R4JEvidenceCustodyEvent)
    (x : R4JEvidenceCustodyEvent) : bool :=
  max_length 64 (cus_file_sha256 x) &&
  xorb (bool_decide (cus_criminal_attachment x = None))
       (bool_decide (cus_report_attachment x = None)).

(** A user has at most one active bounty for a profile. *)
Definition bounty_row_ok (others : gmap Z R4JBounty) (x : R4JBounty) : bool :=
  big_integer (bty_amount_toman x) &&
  (negb (bool_decide (bty_status x = BountyStatus.ACTIVE)) ||
   unique_among (fun y => (bty_criminal y =? bty_criminal x) && (bty_user y =? bty_user x) &&
                          bool_decide (bty_status y = BountyStatus.ACTIVE)) others).

(** * The database *)

Record R4JDB : Type := mkR4JDB {
  criminals : Table R4JCriminal;
  aliases : Table R4JCriminalAlias;
  phones : Table R4JCriminalPhone;
  socials : Table R4JCriminalSocial;
  photos : Table R4JCriminalPhoto;
  criminal_attachments : Table R4JCriminalAttachment;
  field_visibility : Table R4JCriminalFieldVisibility;
  reports : Table R4JReport;
  field_changes : Table R4JReportFieldChange;
  alias_suggestions : Table R4JReportAliasSuggestion;
  phone_suggestions : Table R4JReportPhoneSuggestion;
  social_suggestions : Table R4JReportSocialSuggestion;
  report_attachments : Table R4JReportAttachment;
  custody_events : Table R4JEvidenceCustodyEvent;
  bounties : Table R4JBounty;
}.

#[export] Instance eta_R4JDB : Eta R4JDB := fun x => mkR4JDB
  (criminals x) (aliases x) (phones x) (socials x) (photos x)
  (criminal_attachments x) (field_visibility x) (reports x)
  (field_changes x) (alias_suggestions x) (phone_suggestions x)
  (social_suggestions x) (report_attachments x) (custody_events x)
  (bounties x).

#[export] Instance R4JCriminal_model : Model R4JDB R4JCriminal := {
  table_of db := criminals db;
  with_table t db := db <| criminals := t |>;
  pk := crm_id;
  is_active := crm_is_active;
  created_at := crm_created_at;
  row_ok := criminal_row_ok;
}.

#[export] Instance R4JCriminal_laws : ModelLaws R4JDB R4JCriminal.
Proof. split; reflexivity. Qed.

#[export] Instance R4JCriminalAlias_model : Model R4JDB R4JCriminalAlias := {
  table_of db := aliases db;
  with_table t db := db <| aliases := t |>;
  pk := ali_id;
  is_active := ali_is_active;
  created_at := ali_created_at;
  row_ok := alias_row_ok;
}.

#[export] Instance R4JCriminalAlias_laws : ModelLaws R4JDB R4JCriminalAlias.
Proof. split; reflexivity. Qed.

#[export] Instance R4JCriminalPhone_model : Model R4JDB R4JCriminalPhone := {
  table_of db := phones db;
  with_table t db := db <| phones := t |>;
  pk := pho_id;
  is_active := pho_is_active;
  created_at := pho_created_at;
  row_ok := phone_row_ok;
}.

#[export] Instance R4JCriminalPhone_laws : ModelLaws R4JDB R4JCriminalPhone.
Proof. split; reflexivity. Qed.

#[export] Instance R4JCriminalSocial_model : Model R4JDB R4JCriminalSocial := {
  table_of db := socials db;
  with_table t db := db <| socials := t |>;
  pk := soc_id;
  is_active := soc_is_active;
  created_at := soc_created_at;
  row_ok := social_row_ok;
}.

#[export] Instance R4JCriminalSocial_laws : ModelLaws R4JDB R4JCriminalSocial.
Proof. split; reflexivity. Qed.

#[export] Instance R4JCriminalPhoto_model : Model R4JDB R4JCriminalPhoto := {
  table_of db := photos db;
  with_table t db := db <| photos := t |>;
  pk := img_id;
  is_active := img_is_active;
  created_at := img_created_at;
  row_ok := photo_row_ok;
}.

#[export] Instance R4JCriminalPhoto_laws : ModelLaws R4JDB R4JCriminalPhoto.
Proof. split; reflexivity. Qed.

#[export] Instance R4JCriminalAttachment_model : Model R4JDB R4JCriminalAttachment := {
  table_of db := criminal_attachments db;
  with_table t db := db <| criminal_attachments := t |>;
  pk := cat_id;
  is_active := cat_is_active;
  created_at := cat_created_at;
  row_ok := criminal_attachment_row_ok;
}.

#[export] Instance R4JCriminalAttachment_laws : ModelLaws R4JDB R4JCriminalAttachment.
Proof. split; reflexivity. Qed.

#[export] Instance R4JCriminalFieldVisibility_model : Model R4JDB R4JCriminalFieldVisibility := {
  table_of db := field_visibility db;
  with_table t db := db <| field_visibility := t |>;
  pk := vis_id;
  is_active := vis_is_active;
  created_at := vis_created_at;
  row_ok := visibility_row_ok;
}.

#[export] Instance R4JCriminalFieldVisibility_laws : ModelLaws R4JDB R4JCriminalFieldVisibility.
Proof. split; reflexivity. Qed.

#[export] Instance R4JReport_model : Model R4JDB R4JReport := {
  table_of db := reports db;
  with_table t db := db <| reports := t |>;
  pk := rep_id;
  is_active := rep_is_active;
  created_at := rep_created_at;
  row_ok := report_row_ok;
}.

#[export] Instance R4JReport_laws : ModelLaws R4JDB R4JReport.
Proof. split; reflexivity. Qed.

#[export] Instance R4JReportFieldChange_model : Model R4JDB R4JReportFieldChange := {
  table_of db := field_changes db;
  with_table t db := db <| field_changes := t |>;
  pk := fch_id;
  is_active := fch_is_active;
  created_at := fch_created_at;
  row_ok := field_change_row_ok;
}.

#[export] Instance R4JReportFieldChange_laws : ModelLaws R4JDB R4JReportFieldChange.
Proof. split; reflexivity. Qed.

#[export] Instance R4JReportAliasSuggestion_model : Model R4JDB R4JReportAliasSuggestion := {
  table_of db := alias_suggestions db;
  with_table t db := db <| alias_suggestions := t |>;
  pk := als_id;
  is_active := als_is_active;
  created_at := als_created_at;
  row_ok := alias_suggestion_row_ok;
}.

#[export] Instance R4JReportAliasSuggestion_laws : ModelLaws R4JDB R4JReportAliasSuggestion.
Proof. split; reflexivity. Qed.

#[export] Instance R4JReportPhoneSuggestion_model : Model R4JDB R4JReportPhoneSuggestion := {
  table_of db := phone_suggestions db;
  with_table t db := db <| phone_suggestions := t |>;
  pk := phs_id;
  is_active := phs_is_active;
  created_at := phs_created_at;
  row_ok := phone_suggestion_row_ok;
}.

#[export] Instance R4JReportPhoneSuggestion_laws : ModelLaws R4JDB R4JReportPhoneSuggestion.
Proof. split; reflexivity. Qed.

#[export] Instance R4JReportSocialSuggestion_model : Model R4JDB R4JReportSocialSuggestion := {
  table_of db := social_suggestions db;
  with_table t db := db <| social_suggestions := t |>;
  pk := sos_id;
  is_active := sos_is_active;
  created_at := sos_created_at;
  row_ok := social_suggestion_row_ok;
}.

#[export] Instance R4JReportSocialSuggestion_laws : ModelLaws R4JDB R4JReportSocialSuggestion.
Proof. split; reflexivity. Qed.

#[export] Instance R4JReportAttachment_model : Model R4JDB R4JReportAttachment := {
  table_of db := report_attachments db;
  with_table t db := db <| report_attachments := t |>;
  pk := rat_id;
  is_active := rat_is_active;
  created_at := rat_created_at;
  row_ok := report_attachment_row_ok;
}.

#[export] Instance R4JReportAttachment_laws : ModelLaws R4JDB R4JReportAttachment.
Proof. split; reflexivity. Qed.

#[export] Instance R4JEvidenceCustodyEvent_model : Model R4JDB R4JEvidenceCustodyEvent := {
  table_of db := custody_events db;
  with_table t db := db <| custody_events := t |>;
  pk := cus_id;
  is_active := cus_is_active;
  created_at := cus_created_at;
  row_ok := custody_event_row_ok;
}.

#[export] Instance R4JEvidenceCustodyEvent_laws : ModelLaws R4JDB R4JEvidenceCustodyEvent.
Proof. split; reflexivity. Qed.

#[export] Instance R4JBounty_model : Model R4JDB R4JBounty := {
  table_of db := bounties db;
  with_table t db := db <| bounties := t |>;
  pk := bty_id;
  is_active := bty_is_active;
  created_at := bty_created_at;
  row_ok := bounty_row_ok;
}.

#[export] Instance R4JBounty_laws : ModelLaws R4JDB R4JBounty.
Proof. split; reflexivity. Qed.

(** * The environment and the exceptions *)

(** [renv_slugify]: Django's [slugify] with [allow_unicode]; [renv_sha256]: the
    hexadecimal SHA-256 digest of a text; [renv_save_file]: the name under which
    the storage saves a file for a path; [renv_text_le]: the database's order of
    texts. *)
Record R4JEnv : Type := mkR4JEnv {
  renv_now : Z;
  renv_slugify : string -> string;
  renv_sha256 : string -> string;
  renv_save_file : string -> string;
  renv_text_le : string -> string -> bool;
}.

#[export] Instance eta_R4JEnv : Eta R4JEnv := fun x => mkR4JEnv
  (renv_now x) (renv_slugify x) (renv_sha256 x) (renv_save_file x)
  (renv_text_le x).

#[export] Instance r4j_clock : Clock R4JEnv := renv_now.

Inductive r4j_exc : Type :=
| CriminalAlreadyPublished
| CriminalAlreadyUnpublished
| ReportNotCancelable
| ReportNotReviewable
| ReportNotInCancelRequested
| InvalidReportableField (field_name : string)
| InvalidBountyAmount
| BountyNotCancelable
| BountyNotInCancelRequested
| BountyUpdateNotAllowed
| invalid_platform
| invalid_custody_event_type
| custody_edit_forbidden
| custody_delete_forbidden
| no_free_slug
| R4JDoesNotExist
| R4JIntegrityError
| R4JDatabaseError.

#[export] Instance r4j_orm : OrmError r4j_exc := {
  does_not_exist := R4JDoesNotExist;
  integrity_error := R4JIntegrityError;
  database_error := R4JDatabaseError;
}.

Abbreviation RM := (comp R4JEnv R4JDB r4j_exc).

(** [Model.all_objects.filter(...)] *)
Definition all_filter {A} `{Model R4JDB A} (P : A -> bool) (db : R4JDB) : gmap Z A :=
  filter (fun kx => P kx.2 = true) (rows_of db).

(** [queryset.update(...)] *)
Definition update_all {A} `{Model R4JDB A} (P : A -> bool) (upd : A -> A) : RM unit :=
  modify (fun db => with_table
    (mkTable ((fun x => if is_active x && P x then upd x else x) <$> rows_of db)
             (next_id (table_of db))) db).

(** The rows of a table that satisfy [P] are deleted. *)
Definition delete_where {A} `{Model R4JDB A} (P : A -> bool) (db : R4JDB) : R4JDB :=
  with_table (mkTable (filter (fun kx => P kx.2 = false) (rows_of db)) (next_id (table_of db))) db.

(** [instance.delete()] on a row that no other points to *)
Definition delete_row {A} `{Model R4JDB A} (i : Z) : RM unit :=
  modify (delete_where (fun x : A => pk x =? i)).

(** An uploaded file: the path it is to be saved under, and its chunks. *)
Record Upload : Type := mkUpload { up_path : string; up_chunks : list string }.
