(* ===== verification/R4JFields.v ===== *)
(** What a report may change of a profile: [src/apps/r4j/field_applicators.py],
    the validators of [src/apps/r4j/validators.py] that do not look at files, and
    [date.fromisoformat], with which a suggested date is read. *)

From S2P Require Import Prelude Python Choices Orm Models R4JModels.
From S2P Require Normalizers.
From Stdlib Require Import Ascii.
#[local] Open Scope Z_scope.

(** * Dates *)

(** The day number of a date. *)
Definition days_from_civil (y m d : Z) : Z :=
  let y := if m <=? 2 then y - 1 else y in
  let era := y / 400 in
  let yoe := y mod 400 in
  let mp := if m <=? 2 then m + 9 else m - 3 in
  era * 146097 + (yoe * 365 + yoe / 4 - yoe / 100 + ((153 * mp + 2) / 5 + d - 1)) - 719468.

Definition is_leap (y : Z) : bool :=
  (y mod 4 =? 0) && (negb (y mod 100 =? 0) || (y mod 400 =? 0)).

Definition days_in_month (y m : Z) : Z :=
  if m =? 2 then if is_leap y then 29 else 28
  else if (m =? 4) || (m =? 6) || (m =? 9) || (m =? 11) then 30 else 31.

(** [date.min] and [date.max] *)
Definition min_day : Z := -719162.
Definition max_day : Z := 2932896.

(** [date(y, m, d)]; [None] is the [ValueError]. *)
Definition make_date (y m d : Z) : option Z :=
  if (1 <=? y) && (y <=? 9999) && (1 <=? m) && (m <=? 12) && (1 <=? d) && (d <=? days_in_month y m)
  then Some (days_from_civil y m d) else None.

(** Monday is 0. *)
Definition weekday (day : Z) : Z := (day + 3) mod 7.

(** The Monday of the first week of an ISO year, which has the year's fourth day. *)
Definition iso_week1_monday (y : Z) : Z :=
  let jan1 := days_from_civil y 1 1 in
  let monday := jan1 - weekday jan1 in
  if 3 <? weekday jan1 then monday + 7 else monday.

(** A year has a week 53 that starts on a Thursday, or on a Wednesday and is a
    leap year. *)
Definition iso_date (y week day : Z) : option Z :=
  let first := weekday (days_from_civil y 1 1) in
  let last_week := if (first =? 3) || ((first =? 2) && is_leap y) then 53 else 52 in
  let d := iso_week1_monday y + (week - 1) * 7 + day - 1 in
  if (1 <=? y) && (y <=? 9999) && (1 <=? week) && (week <=? last_week) &&
     (1 <=? day) && (day <=? 7) && (d <=? max_day)
  then Some d else None.

(** The number that the next [n] digits are, and what follows them. *)
Fixpoint read_digits (n : nat) (acc : Z) (s : string) : option (Z * string) :=
  match n with
  | O => Some (acc, s)
  | S n' =>
      match s with
      | String a s' =>
          match digit_value a with
          | Some d => read_digits n' (acc * 10 + d) s'
          | None => None
          end
      | EmptyString => None
      end
  end.

(** A dash, where the date has separators. *)
Definition read_dash (separated : bool) (s : string) : option string :=
  if separated then match s with String "-" s' => Some s' | _ => None end else Some s.

Definition read_week_date (y : Z) (separated : bool) (s : string) : option Z :=
  match read_digits 2 0 s with
  | Some (week, EmptyString) => iso_date y week 1
  | Some (week, s) =>
      match read_dash separated s with
      | Some s => match read_digits 1 0 s with
                  | Some (day, _) => iso_date y week day
                  | None => None
                  end
      | None => None
      end
  | None => None
  end.

Definition read_month_date (y : Z) (separated : bool) (s : string) : option Z :=
  match read_digits 2 0 s with
  | Some (m, s) =>
      match read_dash separated s with
      | Some s => match read_digits 2 0 s with
                  | Some (d, _) => make_date y m d
                  | None => None
                  end
      | None => None
      end
  | None => None
  end.

(** [date.fromisoformat(s)]: the forms YYYY-MM-DD, YYYYMMDD and those of ISO
    weeks; [None] is the [ValueError]. *)
Definition fromisoformat (s : string) : option Z :=
  let n := String.length s in
  if (n =? 7)%nat || (n =? 8)%nat || (n =? 10)%nat then
    match read_digits 4 0 s with
    | Some (y, s) =>
        let '(separated, s) := match s with String "-" s' => (true, s') | _ => (false, s) end in
        match s with
        | String "W" s' => read_week_date y separated s'
        | _ => read_month_date y separated s
        end
    | None => None
    end
  else None.

(** [str(d)] *)
Definition str_date (day : Z) : string :=
  let '(y, m, d) := civil_from_days day in
  (zero_pad 4 y +:+ "-" +:+ zero_pad 2 m +:+ "-" +:+ zero_pad 2 d)%string.

Example fromisoformat_examples :
  map fromisoformat ["2024-01-01"; "20240101"; "2024-W01"; "2024W011"; "2020-W53"; "2021-W53";
                     "2024-02-30"; "2024-1-1"; "0001-01-01"; "9999-W52-7"; "2024-0101"]%string
  = [Some 19723; Some 19723; Some 19723; Some 19723; Some 18624; None; None; None; Some (-719162);
     None; None].
Proof. vm_compute. reflexivity. Qed.

(** * The columns that are edited *)

(** [REPORTABLE_CRIMINAL_FIELDS], which [update_criminal] lists as well. *)
Module Reportable.

Inductive t : Set :=
| first_name | last_name | national_code | birth_date | gender | country | province | city
| description | crimes_summary | other_info.

#[export] Instance t_eq : EqDecision t.
Proof. solve_decision. Defined.

Definition values : list (t * string) :=
  [ (first_name, "first_name"%string); (last_name, "last_name"%string);
    (national_code, "national_code"%string); (birth_date, "birth_date"%string);
    (gender, "gender"%string); (country, "country"%string); (province, "province"%string);
    (city, "city"%string); (description, "description"%string);
    (crimes_summary, "crimes_summary"%string); (other_info, "other_info"%string) ].

#[export, refine] Instance t_choices : TextChoices t := { choices := values }.
Proof. all: solve_choices. Defined.

End Reportable.
Export (hints) Reportable.

Inductive criminal_field : Type :=
| set_first_name (s : string)
| set_last_name (s : string)
| set_national_code (s : option string)
| set_birth_date (day : option Z)
| set_gender (g : Gender.t)
| set_country (s : string)
| set_province (s : string)
| set_city (s : string)
| set_description (s : string)
| set_crimes_summary (s : string)
| set_other_info (s : string).

(** [setattr(criminal, field, value)] *)
Definition assign (x : R4JCriminal) (f : criminal_field) : R4JCriminal :=
  match f with
  | set_first_name v => x <| crm_first_name := v |>
  | set_last_name v => x <| crm_last_name := v |>
  | set_national_code v => x <| crm_national_code := v |>
  | set_birth_date v => x <| crm_birth_date := v |>
  | set_gender v => x <| crm_gender := v |>
  | set_country v => x <| crm_country := v |>
  | set_province v => x <| crm_province := v |>
  | set_city v => x <| crm_city := v |>
  | set_description v => x <| crm_description := v |>
  | set_crimes_summary v => x <| crm_crimes_summary := v |>
  | set_other_info v => x <| crm_other_info := v |>
  end.

(** [update_criminal] skips what is [None]. *)
Definition given (f : criminal_field) : bool :=
  match f with set_national_code None | set_birth_date None => false | _ => true end.

Definition assign_all (fields : list criminal_field) (x : R4JCriminal) : R4JCriminal :=
  fold_left assign fields x.

(** [str(getattr(criminal, field) or "")] *)
Definition current_value (x : R4JCriminal) (f : Reportable.t) : string :=
  match f with
  | Reportable.first_name => crm_first_name x
  | Reportable.last_name => crm_last_name x
  | Reportable.national_code => default EmptyString (crm_national_code x)
  | Reportable.birth_date => from_option str_date EmptyString (crm_birth_date x)
  | Reportable.gender => value (crm_gender x)
  | Reportable.country => crm_country x
  | Reportable.province => crm_province x
  | Reportable.city => crm_city x
  | Reportable.description => crm_description x
  | Reportable.crimes_summary => crm_crimes_summary x
  | Reportable.other_info => crm_other_info x
  end.

(** * Applicators *)

(** The reason of a [FieldApplicationError]. *)
Inductive bad_value : Set := not_a_date | not_a_gender | not_a_national_code.

Definition reason_text (e : bad_value) : string :=
  match e with
  | not_a_date => "فرمت تاریخ باید YYYY-MM-DD باشد."
  | not_a_gender => "مقدار جنسیت نامعتبر است. مقادیر مجاز: female, male, unknown"
  | not_a_national_code => "کد ملی باید دقیقاً ۱۰ رقم عددی باشد."
  end.

Definition apply_text_field (set : string -> criminal_field) (raw_value : string) :
    outcome bad_value criminal_field := Ok (set (py_strip raw_value)).

Definition apply_date_field (raw_value : string) : outcome bad_value criminal_field :=
  let stripped := py_strip raw_value in
  if negb (str_true stripped) then Ok (set_birth_date None)
  else match fromisoformat stripped with
       | Some d => Ok (set_birth_date (Some d))
       | None => Raise not_a_date
       end.

Definition apply_gender_field (raw_value : string) : outcome bad_value criminal_field :=
  match of_value (py_lower (py_strip raw_value)) with
  | Some g => Ok (set_gender g)
  | None => Raise not_a_gender
  end.

Definition apply_national_code_field (raw_value : string) : outcome bad_value criminal_field :=
  let stripped := py_strip raw_value in
  if negb (str_true stripped) then Ok (set_national_code None)
  else if negb (Normalizers.isdigit stripped) || negb (String.length stripped =? 10)%nat
  then Raise not_a_national_code
  else Ok (set_national_code (Some stripped)).

(** [apply_field_to_criminal]: the assignment that a suggested value makes. *)
Definition apply_field_to_criminal (field : Reportable.t) (raw_value : string) :
    outcome bad_value criminal_field :=
  match field with
  | Reportable.first_name => apply_text_field set_first_name raw_value
  | Reportable.last_name => apply_text_field set_last_name raw_value
  | Reportable.national_code => apply_national_code_field raw_value
  | Reportable.birth_date => apply_date_field raw_value
  | Reportable.gender => apply_gender_field raw_value
  | Reportable.country => apply_text_field set_country raw_value
  | Reportable.province => apply_text_field set_province raw_value
  | Reportable.city => apply_text_field set_city raw_value
  | Reportable.description => apply_text_field set_description raw_value
  | Reportable.crimes_summary => apply_text_field set_crimes_summary raw_value
  | Reportable.other_info => apply_text_field set_other_info raw_value
  end.

(** * Validators *)

Definition R4J_BOUNTY_MIN_TOMAN : Z := 50000.

(** [false] is the [ValidationError]. *)
Definition validate_bounty_amount (value : Z) : bool := negb (value <? R4J_BOUNTY_MIN_TOMAN).

(** [re.compile(r"^\d{10}$").match(s)] *)
Definition ten_digits (s : string) : bool :=
  forallb (fun a => bool_decide (is_Some (digit_value a))) (String.list_ascii_of_string s) &&
  (String.length s =? 10)%nat.

Definition validate_iranian_national_code (value : string) : bool :=
  negb (str_true value) || ten_digits (py_strip value).

Definition PHONE_MAX_LENGTH : nat := 30.
Definition PHONE_MIN_DIGITS : nat := 7.

Inductive phone_error : Set := phone_empty | phone_too_long | phone_invalid_chars | phone_too_short.

(** A character that [_PHONE_ALLOWED_PATTERN] allows. *)
Definition phone_char (a : ascii) : bool :=
  bool_decide (is_Some (digit_value a)) || is_space a || Ascii.eqb a "-" || Ascii.eqb a "+" ||
  Ascii.eqb a "(" || Ascii.eqb a ")".

Definition validate_phone_number (value : string) : outcome phone_error unit :=
  let cleaned := py_strip value in
  let l := String.list_ascii_of_string cleaned in
  if negb (str_true cleaned) then Raise phone_empty
  else if (PHONE_MAX_LENGTH <? String.length cleaned)%nat then Raise phone_too_long
  else if negb (forallb phone_char l) then Raise phone_invalid_chars
  else if (length (List.filter (fun a => bool_decide (is_Some (digit_value a))) l) <?
           PHONE_MIN_DIGITS)%nat then Raise phone_too_short
  else Ok tt.

Definition PHOTO_MAX_SIZE_BYTES : Z := 5 * 1024 * 1024.
Definition ATTACHMENT_MAX_SIZE_BYTES : Z := 20 * 1024 * 1024.

Definition validate_photo_size (size : Z) : bool := negb (PHOTO_MAX_SIZE_BYTES <? size).
Definition validate_attachment_size (size : Z) : bool := negb (ATTACHMENT_MAX_SIZE_BYTES <? size).

Definition validate_reportable_field (field_name : string) : bool :=
  bool_decide (is_Some (of_value (A := Reportable.t) field_name)).
