(* ===== verification/R4JApplicators.v ===== *)
(** What a review has applied reads back as itself: the text that the profile
    shows for a field is a value that can be suggested, and applying it changes
    nothing. For the date of birth this is the round trip of [str(date)] and
    [date.fromisoformat] over the whole calendar. *)

From S2P Require Import Prelude Python Choices Orm Models R4JModels R4JFields.
From S2P Require Normalizers.
From Stdlib Require Import Ascii.
#[local] Open Scope Z_scope.

(** * The calendar *)

Lemma quotient_bounds c x : 0 < c -> c * (x / c) <= x < c * (x / c) + c.
Proof. intros Hc. pose proof (Z.div_mod x c). pose proof (Z.mod_pos_bound x c). lia. Qed.

(** The year of the era of 400 years, and the day of the year that starts in
    March, from the quotients that they are computed with. *)
Lemma era_quotients doe a b c yoe q4 q100 :
  0 <= doe < 146097 -> 1460 * a <= doe < 1460 * a + 1460 -> 36524 * b <= doe < 36524 * b + 36524 ->
  146096 * c <= doe < 146096 * c + 146096 -> 365 * yoe <= doe - a + b - c < 365 * yoe + 365 ->
  4 * q4 <= yoe < 4 * q4 + 4 -> 100 * q100 <= yoe < 100 * q100 + 100 ->
  0 <= yoe < 400 /\ 0 <= doe - (365 * yoe + q4 - q100) <= 365 /\
  (doe - (365 * yoe + q4 - q100) = 365 -> yoe = 4 * q4 + 3 /\ (yoe = 100 * q100 + 99 -> yoe = 399)).
Proof.
  intros Hd Ha Hb Hc Hy H4 H100.
  assert (b = 0 \/ b = 1 \/ b = 2 \/ b = 3 \/ b = 4) as Hb' by lia.
  assert (c = 0 \/ c = 1) as Hc' by lia.
  assert (0 <= yoe < 400) as Hy' by (destruct Hb' as [-> |[-> |[-> |[-> | ->]]]], Hc' as [-> | ->]; lia).
  assert (q100 = 0 \/ q100 = 1 \/ q100 = 2 \/ q100 = 3) as Hq by lia.
  destruct Hb' as [-> |[-> |[-> |[-> | ->]]]], Hc' as [-> | ->], Hq as [-> |[-> |[-> | ->]]]; lia.
Qed.

Definition month_of (mp : Z) : Z := if mp <? 10 then mp + 3 else mp - 9.

(** The length of a month in a year that is not a leap year. *)
Definition short_month (m : Z) : Z :=
  if m =? 2 then 28 else if (m =? 4) || (m =? 6) || (m =? 9) || (m =? 11) then 30 else 31.

Lemma short_month_le y m : short_month m <= days_in_month y m.
Proof. unfold short_month, days_in_month. repeat case_match; lia. Qed.

Definition good_day (doy : Z) : bool :=
  let mp := (5 * doy + 2) / 153 in
  let d := doy - (153 * mp + 2) / 5 + 1 in
  let m := month_of mp in
  (1 <=? m) && (m <=? 12) && (1 <=? d) && (d <=? 31) && ((if m <=? 2 then m + 9 else m - 3) =? mp) &&
  ((d <=? short_month m) || ((m =? 2) && (d =? 29) && (doy =? 365))) &&
  ((m <=? 2) || (doy <? 306)) && ((2 <? m) || (306 <=? doy)).

Lemma all_days_good : forallb good_day (seqZ 0 366) = true.
Proof. vm_compute. reflexivity. Qed.

(** The month and the day of a day of the year. *)
Lemma day_of_year doy : 0 <= doy <= 365 ->
  let mp := (5 * doy + 2) / 153 in
  let d := doy - (153 * mp + 2) / 5 + 1 in
  let m := month_of mp in
  1 <= m <= 12 /\ 1 <= d <= 31 /\ (if m <=? 2 then m + 9 else m - 3) = mp /\
  (d <= short_month m \/ (m = 2 /\ d = 29 /\ doy = 365)) /\
  (m <= 2 -> 306 <= doy) /\ (2 < m -> doy < 306).
Proof.
  intros Hd. assert (good_day doy = true) as H.
  { refine (proj1 (forallb_forall _ _) all_days_good doy _). apply list_elem_of_In, elem_of_seqZ. lia. }
  unfold good_day in H. cbv zeta in *. set (mp := (5 * doy + 2) / 153) in *.
  set (d := doy - (153 * mp + 2) / 5 + 1) in *. set (m := month_of mp) in *. clearbody d m mp.
  rewrite !andb_true_iff in H. destruct H as [[[[[[[H1 H2] H3] H4] H5] H6] H7] H8].
  apply orb_true_iff in H6. split_and!; lia.
Qed.

(** The year after the years [yoe] of an era is a leap year. *)
Lemma leap_after era yoe : 0 <= yoe < 400 -> yoe = 4 * (yoe / 4) + 3 ->
  (yoe = 100 * (yoe / 100) + 99 -> yoe = 399) -> is_leap (yoe + era * 400 + 1) = true.
Proof.
  intros Hy H4 H100. unfold is_leap.
  assert ((yoe + era * 400 + 1) mod 4 = 0) as ->
    by (symmetry; apply (Z.mod_unique_pos _ _ (yoe / 4 + era * 100 + 1)); lia).
  simpl. destruct (decide (yoe = 399)) as [->|Hne].
  - apply orb_true_iff. right. apply Z.eqb_eq. symmetry. apply (Z.mod_unique_pos _ _ (era + 1)); lia.
  - apply orb_true_iff. left. apply negb_true_iff, Z.eqb_neq. intros Hm. apply Hne, H100.
    apply Z.mod_divide in Hm as [k Hk]; [|done].
    pose proof (quotient_bounds 100 yoe ltac:(lia)). lia.
Qed.

Lemma days_from_civil_era era yoe m d mp : 0 <= yoe < 400 -> (if m <=? 2 then m + 9 else m - 3) = mp ->
  days_from_civil (if m <=? 2 then yoe + era * 400 + 1 else yoe + era * 400) m d =
  d - 1 + (153 * mp + 2) / 5 + (365 * yoe + yoe / 4 - yoe / 100) + 146097 * era - 719468.
Proof.
  intros Hy Hmp. unfold days_from_civil. cbv zeta. rewrite Hmp.
  assert ((if m <=? 2 then (if m <=? 2 then yoe + era * 400 + 1 else yoe + era * 400) - 1
           else (if m <=? 2 then yoe + era * 400 + 1 else yoe + era * 400)) = yoe + era * 400) as ->
    by (destruct (m <=? 2); lia).
  rewrite Z.div_add, Z.mod_add by done. rewrite Z.div_small, Z.mod_small by done. lia.
Qed.

(** The date of a day is a date of the calendar, and its day is that one. *)
Lemma make_civil day : min_day <= day <= max_day ->
  let '(y, m, d) := civil_from_days day in make_date y m d = Some day /\ 1 <= y <= 9999 /\ 1 <= m <= 12 /\ 1 <= d <= 31.
Proof.
  unfold min_day, max_day. intros Hday. unfold civil_from_days. set (z := day + 719468). set (era := z / 146097).
  set (doe := z mod 146097). set (yoe := (doe - doe / 1460 + doe / 36524 - doe / 146096) / 365).
  set (doy := doe - (365 * yoe + yoe / 4 - yoe / 100)).
  assert (0 <= doe < 146097 /\ z = 146097 * era + doe) as [Hdoe Hz]
    by (split; [apply Z.mod_pos_bound; lia|apply Z.div_mod; lia]).
  destruct (era_quotients doe (doe / 1460) (doe / 36524) (doe / 146096) yoe (yoe / 4) (yoe / 100))
    as (Hyoe & Hdoy & Hleap); [done|by apply quotient_bounds..|]. fold doy in Hdoy, Hleap.
  pose proof (day_of_year doy Hdoy) as Hm. cbv zeta in Hm. fold (month_of ((5 * doy + 2) / 153)).
  set (mp := (5 * doy + 2) / 153) in *. set (d := doy - (153 * mp + 2) / 5 + 1) in *. set (m := month_of mp) in *.
  destruct Hm as (Hm & Hd & Hmp & Hdim & Hlate & Hearly).
  set (y := if m <=? 2 then yoe + era * 400 + 1 else yoe + era * 400).
  assert (doe = doy + (365 * yoe + yoe / 4 - yoe / 100)) as Hdef by (unfold doy; lia).
  assert (day = d - 1 + (153 * mp + 2) / 5 + (365 * yoe + yoe / 4 - yoe / 100) + 146097 * era - 719468) as Hday'
    by (unfold d; lia).
  assert (0 <= era <= 24) as Hera by lia.
  pose proof (quotient_bounds 4 yoe ltac:(lia)) as H4. pose proof (quotient_bounds 100 yoe ltac:(lia)) as H100.
  clearbody doe doy d m mp. assert (1 <= y <= 9999) as Hy by (unfold y; destruct (m <=? 2) eqn:Hm2; lia).
  split; [|done].
  assert (d <= days_in_month y m) as Hlen.
  { destruct Hdim as [Hle|(-> & -> & Hd365)]; [pose proof (short_month_le y m); lia|].
    specialize (Hleap Hd365) as [Hl4 Hl100]. unfold days_in_month. simpl.
    assert (is_leap y = true) as ->; [|done]. by apply (leap_after era yoe). }
  unfold make_date. rewrite !(proj2 (Z.leb_le _ _)) by lia. cbn [andb]. f_equal.
  rewrite Hday'. apply days_from_civil_era; done.
Qed.

(** * Numerals of a fixed length *)

Fixpoint digits_of (n : nat) (x : N) (s : string) : string :=
  match n with
  | O => s
  | S n' => digits_of n' (x / 10) (String (pretty_N_char (x mod 10)) s)
  end.

Lemma digits_of_zero n s : digits_of n 0 s = (repeat_char n "0" +:+ s)%string.
Proof.
  revert s. induction n as [|n IH]; intros s; [done|]. cbn [digits_of]. change (0 / 10)%N with 0%N.
  rewrite IH. change (pretty_N_char (0 mod 10)) with "0"%char. clear.
  induction n as [|n IH]; [done|]. exact (f_equal (String "0") IH).
Qed.

Lemma digits_of_app n : forall x s t, (digits_of n x s +:+ t)%string = digits_of n x (s +:+ t).
Proof. induction n as [|n IH]; intros x s t; [done|]. cbn [digits_of]. by rewrite IH. Qed.

Lemma length_digits_of n : forall x s, String.length (digits_of n x s) = (n + String.length s)%nat.
Proof. induction n as [|n IH]; intros x s; [done|]. cbn [digits_of]. rewrite IH. simpl. lia. Qed.

Lemma length_pretty_go x : forall s,
  String.length (pretty_N_go x s) = (String.length (pretty_N_go x EmptyString) + String.length s)%nat.
Proof.
  induction (N.lt_wf_0 x) as [x _ IH]. intros s. destruct (decide (x = 0)%N) as [->|Hx]; [done|].
  assert (x / 10 < x)%N as Hlt by (apply N.div_lt; lia).
  rewrite !(pretty_N_go_step x) by lia. rewrite (IH _ Hlt), (IH _ Hlt (String _ EmptyString)). simpl. lia.
Qed.

Lemma pretty_go_digits n : forall x s, (0 < x)%N -> (x < 10 ^ N.of_nat n)%N ->
  (repeat_char (n - String.length (pretty_N_go x EmptyString)) "0" +:+ pretty_N_go x s)%string = digits_of n x s.
Proof.
  induction n as [|n IH]; intros x s Hx Hn; [simpl in Hn; lia|]. cbn [digits_of].
  rewrite !(pretty_N_go_step x) by done. rewrite length_pretty_go. simpl String.length.
  destruct (decide (x / 10 = 0)%N) as [H0|H0].
  - rewrite H0, digits_of_zero, !pretty_N_go_0. simpl. by rewrite Nat.sub_0_r.
  - rewrite <-IH.
    + by rewrite Nat.add_1_r.
    + by apply N.neq_0_lt_0.
    + apply N.Div0.div_lt_upper_bound. rewrite Nat2N.inj_succ, N.pow_succ_r' in Hn. lia.
Qed.

Lemma zero_pad_digits n z : 0 <= z < 10 ^ Z.of_nat (S n) -> zero_pad (S n) z = digits_of (S n) (Z.to_N z) EmptyString.
Proof.
  intros Hz. unfold zero_pad. cbv zeta. destruct z as [|p|p]; [|..|lia].
  - rewrite digits_of_zero. change (pretty 0) with "0"%string. simpl. rewrite Nat.sub_0_r. clear.
    induction n as [|n IH]; [done|]. exact (f_equal (String "0") IH).
  - change (Z.to_N (Z.pos p)) with (N.pos p). rewrite <-pretty_go_digits; [done|lia|].
    rewrite <-(N2Z.id (10 ^ _)), N2Z.inj_pow, nat_N_Z. lia.
Qed.

Lemma read_digits_add n m : forall acc s, read_digits (n + m) acc s =
  match read_digits n acc s with Some (a, s') => read_digits m a s' | None => None end.
Proof.
  induction n as [|n IH]; intros acc s; [done|]. destruct s as [|c s]; [done|]. simpl.
  destruct (digit_value c); [apply IH|done].
Qed.

Lemma read_digits_of n : forall x acc s, (x < 10 ^ N.of_nat n)%N ->
  read_digits n acc (digits_of n x s) = Some (acc * 10 ^ Z.of_nat n + Z.of_N x, s).
Proof.
  induction n as [|n IH]; intros x acc s Hx.
  - simpl in *. f_equal. f_equal. lia.
  - replace (S n) with (n + 1)%nat at 1 by lia. rewrite read_digits_add. cbn [digits_of].
    rewrite Nat2N.inj_succ, N.pow_succ_r' in Hx. pose proof (N.div_mod' x 10) as Hdiv.
    rewrite IH by (apply N.Div0.div_lt_upper_bound; lia). cbn [read_digits].
    rewrite digit_value_pretty by (apply N.mod_lt; done). f_equal. f_equal.
    rewrite Nat2Z.inj_succ, Z.pow_succ_r by lia. lia.
Qed.

(** A numeral is made of digits. *)
Lemma digits_of_chars (P : ascii -> Prop) n : (forall k, (k < 10)%N -> P (pretty_N_char k)) ->
  forall x s, Forall P (String.list_ascii_of_string s) ->
  Forall P (String.list_ascii_of_string (digits_of n x s)).
Proof.
  intros HP. induction n as [|n IH]; intros x s Hs; [done|]. cbn [digits_of]. apply IH.
  constructor; [|done]. apply HP, N.mod_lt. done.
Qed.

(** * The round trip of dates *)

Lemma str_date_digits day y m d : civil_from_days day = (y, m, d) ->
  1 <= y <= 9999 -> 1 <= m <= 12 -> 1 <= d <= 31 ->
  str_date day = digits_of 4 (Z.to_N y) (String "-" (digits_of 2 (Z.to_N m)
    (String "-" (digits_of 2 (Z.to_N d) EmptyString)))).
Proof.
  intros Hc Hy Hm Hd. unfold str_date. rewrite Hc, (zero_pad_digits 3), !(zero_pad_digits 1) by (simpl; lia).
  rewrite !digits_of_app. simpl String.append at 1. done.
Qed.

(** A numeral does not start as a week does. *)
Lemma digits_of_not_week {A} n x s (f : string -> A) (g : A) : (x < 10 ^ N.of_nat (S n))%N ->
  match digits_of (S n) x s with String "W" s' => f s' | _ => g end = g.
Proof.
  intros Hx. pose proof (read_digits_of (S n) x 0 s Hx) as Hr.
  destruct (digits_of (S n) x s) as [|a t]; [done|]. cbn [read_digits] in Hr.
  destruct (digit_value a) eqn:Ha; [|done]. destruct a as [[] [] [] [] [] [] [] []]; try reflexivity; done.
Qed.

Lemma fromisoformat_str_date day : min_day <= day <= max_day -> fromisoformat (str_date day) = Some day.
Proof.
  intros Hday. pose proof (make_civil day Hday) as Hmake.
  destruct (civil_from_days day) as [[y m] d] eqn:Hc. destruct Hmake as (Hmake & Hy & Hm & Hd).
  rewrite (str_date_digits _ _ _ _ Hc Hy Hm Hd). unfold fromisoformat.
  match goal with |- context [String.length ?s] => change (String.length s) with 10%nat end.
  cbn [orb Nat.eqb].
  rewrite read_digits_of by lia. cbn iota. rewrite digits_of_not_week by lia.
  unfold read_month_date. rewrite read_digits_of by lia. cbn [read_dash]. rewrite read_digits_of by lia.
  rewrite !Z.mul_0_l, !Z.add_0_l, !Z2N.id by lia. exact Hmake.
Qed.

Lemma str_date_solid day : min_day <= day <= max_day -> py_strip (str_date day) = str_date day.
Proof.
  intros Hday. pose proof (make_civil day Hday) as Hmake.
  destruct (civil_from_days day) as [[y m] d] eqn:Hc. destruct Hmake as (_ & Hy & Hm & Hd).
  rewrite <-(Normalizers.text_chars (str_date day)). apply Normalizers.py_strip_solid.
  rewrite (str_date_digits _ _ _ _ Hc Hy Hm Hd).
  assert (forall k, (k < 10)%N -> is_space (pretty_N_char k) = false) as Hk.
  { intros k Hk. assert (k ∈ [0; 1; 2; 3; 4; 5; 6; 7; 8; 9]%N) as Hin by (rewrite !elem_of_cons; lia).
    repeat (apply elem_of_cons in Hin as [->|Hin]; [reflexivity|]). by apply elem_of_nil in Hin. }
  repeat (apply digits_of_chars; [done|]; try (constructor; [done|])). constructor.
Qed.

(** ** Dates that are read are dates of the calendar *)

Lemma make_date_range y m d day : make_date y m d = Some day -> min_day <= day <= max_day.
Proof.
  unfold make_date. destruct (_ && _) eqn:Hok; [|done]. intros [= <-].
  rewrite !andb_true_iff in Hok. destruct Hok as [[[[[H1 H2] H3] H4] H5] H6].
  assert (d <= 31) as Hd by (unfold days_in_month in H6; repeat case_match; lia).
  unfold days_from_civil, min_day, max_day. cbv zeta. set (y' := if m <=? 2 then y - 1 else y).
  pose proof (quotient_bounds 400 y' ltac:(lia)) as Hera.
  assert (y' mod 400 = y' - 400 * (y' / 400)) as -> by (pose proof (Z.div_mod y' 400); lia).
  set (era := y' / 400) in *. set (yoe := y' - 400 * era) in *.
  pose proof (quotient_bounds 4 yoe ltac:(lia)) as Hq4. pose proof (quotient_bounds 100 yoe ltac:(lia)) as Hq100.
  set (q4 := yoe / 4) in *. set (q100 := yoe / 100) in *.
  destruct (m <=? 2) eqn:Hm2; subst y'; cbn zeta.
  - pose proof (quotient_bounds 5 (153 * (m + 9) + 2) ltac:(lia)). lia.
  - pose proof (quotient_bounds 5 (153 * (m - 3) + 2) ltac:(lia)). lia.
Qed.

Lemma iso_date_range y week day x : iso_date y week day = Some x -> min_day <= x <= max_day.
Proof.
  unfold iso_date. cbv zeta. destruct (_ && _) eqn:Hok; [|done]. intros [= <-].
  rewrite !andb_true_iff in Hok. destruct Hok as [[[[[[H1 H2] H3] H4] H5] H6] H7]. clear H4.
  assert (min_day <= iso_week1_monday y) as Hfirst; [|lia].
  destruct (decide (y = 1)) as [->|Hne]; [vm_compute; discriminate|].
  assert (min_day + 3 <= days_from_civil y 1 1) as Hjan.
  { unfold days_from_civil, min_day. cbv zeta. change (1 <=? 2) with true. cbn iota.
    pose proof (quotient_bounds 400 (y - 1) ltac:(lia)) as Hera. pose proof (Z.div_mod (y - 1) 400 ltac:(lia)) as Hdm.
    set (era := (y - 1) / 400) in *. set (yoe := (y - 1) mod 400) in *.
    pose proof (quotient_bounds 4 yoe ltac:(lia)). pose proof (quotient_bounds 100 yoe ltac:(lia)).
    change ((153 * (1 + 9) + 2) / 5) with 306. lia. }
  unfold iso_week1_monday, weekday. cbv zeta.
  pose proof (Z.mod_pos_bound (days_from_civil y 1 1 + 3) 7 ltac:(lia)). case_match; lia.
Qed.

Lemma fromisoformat_range s day : fromisoformat s = Some day -> min_day <= day <= max_day.
Proof.
  unfold fromisoformat, read_week_date, read_month_date. intros Hr.
  repeat match type of Hr with
    | context [match ?x with _ => _ end] => destruct x; try discriminate Hr
    end; first [by eapply make_date_range|by eapply iso_date_range].
Qed.

(** * Applied values *)

(** C37: what has been applied reads back as itself: whatever text a report suggests
    for a field, if it can be applied then the text that the profile shows for the
    field afterwards can be suggested too, and applying it is the same assignment,
    so it changes nothing. *)
Theorem applied_values_read_back (c : R4JCriminal) (f : Reportable.t) (raw : string) (a : criminal_field) :
  apply_field_to_criminal f raw = Ok a ->
  apply_field_to_criminal f (current_value (assign c a) f) = Ok a /\
  assign (assign c a) a = assign c a.
Proof.
  intros Ha. split; [|by destruct a].
  assert (forall set, apply_text_field set raw = Ok a -> apply_text_field set (py_strip raw) = Ok a) as Htext.
  { intros set. unfold apply_text_field. by rewrite Normalizers.py_strip_idem. }
  destruct f; cbn [apply_field_to_criminal] in *;
    try (pose proof (Htext _ Ha) as Hs; injection Ha as <-; exact Hs).
  - unfold apply_national_code_field in Ha. destruct (str_true (py_strip raw)) eqn:Ht; cbn [negb] in Ha.
    + destruct (negb (Normalizers.isdigit (py_strip raw)) || negb (String.length (py_strip raw) =? 10)%nat) eqn:Hd;
        [done|]. injection Ha as <-. change (current_value _ _) with (py_strip raw). unfold apply_national_code_field.
      by rewrite Normalizers.py_strip_idem, Ht, Hd.
    + by injection Ha as <-.
  - unfold apply_date_field in Ha. destruct (str_true (py_strip raw)) eqn:Ht; cbn [negb] in Ha.
    + destruct (fromisoformat (py_strip raw)) as [day|] eqn:Hday; [|done]. injection Ha as <-.
      change (current_value _ _) with (str_date day). apply fromisoformat_range in Hday. unfold apply_date_field. rewrite (str_date_solid _ Hday).
      rewrite (fromisoformat_str_date _ Hday). destruct (str_true (str_date day)) eqn:Htrue; [done|].
      pose proof (fromisoformat_str_date _ Hday) as Hback. unfold str_true in Htrue.
      apply negb_false_iff, bool_decide_eq_true in Htrue. by rewrite Htrue in Hback.
    + by injection Ha as <-.
  - unfold apply_gender_field in Ha. destruct (of_value _) as [g|]; [|done]. injection Ha as <-. by destruct g.
Qed.

(** A date of a week, and a national code with spaces around it. *)
Lemma applied_values_read_back_witness :
  let c := mkCriminal 1 "Ali" "Rezaei" "ali" None None Gender.MALE "" "" "" "" "" "" false None None 0 0 true 0 0 in
  apply_field_to_criminal Reportable.birth_date " 2024-W09-4 " = Ok (set_birth_date (Some 19782)) /\
  current_value (assign c (set_birth_date (Some 19782))) Reportable.birth_date = "2024-02-29"%string /\
  apply_field_to_criminal Reportable.birth_date "2024-02-29" = Ok (set_birth_date (Some 19782)).
Proof.
  intros c. assert (apply_field_to_criminal Reportable.birth_date " 2024-W09-4 " = Ok (set_birth_date (Some 19782)))
    as Ha by (vm_compute; reflexivity).
  split; [exact Ha|]. split; [vm_compute; reflexivity|].
  exact (proj1 (applied_values_read_back c _ _ _ Ha)).
Defined.
