(* ===== verification/R4JCriminals.v ===== *)
(** The profiles of the reward-for-justice application: the sections of
    [src/apps/r4j/services.py] on profiles, their nested records and the custody
    of evidence, and what the public sees of a profile ([selectors.py] and the
    public serializers of [serializers.py]).

    A service gets the instance that was read before and saves the columns it
    lists; a keyword argument is given as the assignment it makes. *)

From S2P Require Import Prelude Python Choices Orm Models World Apps R4JModels R4JFields.
From S2P Require Normalizers.
#[local] Open Scope Z_scope.

(** * Profiles *)

Definition criminal_slug (base : string) (suffix : Z) : string :=
  (base +:+ "-" +:+ pretty suffix)%string.

(** [R4JCriminal._generate_unique_slug]; the fuel is above the number of rows. *)
Definition generate_unique_slug (env : R4JEnv) (first_name last_name : string) (db : R4JDB) :
    option string :=
  let base := str_or (renv_slugify env (first_name +:+ " " +:+ last_name)%string) "criminal" in
  first_free (fun s => qs_exists (all_filter (fun x : R4JCriminal => str_eqb (crm_slug x) s) db))
    (criminal_slug base) (S (size (rows_of (A := R4JCriminal) db))) base 2.

(** [national_code or None] *)
Definition or_none (s : string) : option string := if str_true s then Some s else None.

Definition create_criminal (created_by : option Z) (first_name last_name : string) (gender : Gender.t)
    (national_code : string) (birth_date : option Z)
    (country province city description crimes_summary other_info : string) : RM R4JCriminal :=
  atomic
    (env ← ask;
     slug ← query (generate_unique_slug env first_name last_name);
     match slug with
     | None => raise no_free_slug
     | Some slug =>
         create (fun i now => mkCriminal i first_name last_name slug (or_none national_code) birth_date
           gender country province city description crimes_summary other_info false None created_by
           0 0 true now now)
     end).

Definition update_criminal (criminal : R4JCriminal) (fields : list criminal_field) : RM R4JCriminal :=
  atomic
    match List.filter given fields with
    | [] => mret criminal
    | fields =>
        now ← timezone_now;
        let save x := assign_all fields x <| crm_updated_at := now |> in
        _ ← update_row (crm_id criminal) save;
        mret (save criminal)
    end.

Definition soft_delete_criminal (criminal : R4JCriminal) : RM unit :=
  atomic
    (now ← timezone_now;
     update_row (crm_id criminal) (fun x : R4JCriminal =>
       x <| crm_is_active := false |> <| crm_is_published := false |> <| crm_updated_at := now |>)).

Definition publish_criminal (criminal : R4JCriminal) : RM R4JCriminal :=
  atomic
    (_ ← raise_if (crm_is_published criminal) CriminalAlreadyPublished;
     now ← timezone_now;
     let publish x := x <| crm_is_published := true |> <| crm_published_at := Some now |>
                        <| crm_updated_at := now |> in
     _ ← update_row (crm_id criminal) publish;
     mret (publish criminal)).

Definition unpublish_criminal (criminal : R4JCriminal) : RM R4JCriminal :=
  atomic
    (_ ← raise_if (negb (crm_is_published criminal)) CriminalAlreadyUnpublished;
     now ← timezone_now;
     let unpublish x := x <| crm_is_published := false |> <| crm_updated_at := now |> in
     _ ← update_row (crm_id criminal) unpublish;
     mret (unpublish criminal)).

(** * Names, telephone numbers and accounts *)

(** A foreign key with [SET_NULL] to the row with key [i], which is deleted. *)
Definition null_if (i : Z) (key : option Z) : option Z :=
  if bool_decide (key = Some i) then None else key.

Definition forget {A} `{Model R4JDB A} (upd : A -> A) : RM unit :=
  modify (fun db => with_table (mkTable (upd <$> rows_of db) (next_id (table_of db))) db).

Definition add_alias (criminal : R4JCriminal) (alias : string) : RM R4JCriminalAlias :=
  atomic (create (fun i now => mkAlias i (crm_id criminal) alias true now now)).

Definition remove_alias (alias_obj : R4JCriminalAlias) : RM unit :=
  atomic
    (_ ← forget (fun s : R4JReportAliasSuggestion =>
           s <| als_applied_alias := null_if (ali_id alias_obj) (als_applied_alias s) |>);
     delete_row (A := R4JCriminalAlias) (ali_id alias_obj)).

Definition add_phone (criminal : R4JCriminal) (number label : string) (is_public : bool)
    (notes : string) : RM R4JCriminalPhone :=
  atomic (create (fun i now => mkPhone i (crm_id criminal) label number is_public notes true now now)).

Inductive phone_field : Type :=
| set_number (s : string) | set_label (s : string) | set_phone_public (b : bool) | set_notes (s : string).

Definition assign_phone (x : R4JCriminalPhone) (f : phone_field) : R4JCriminalPhone :=
  match f with
  | set_number v => x <| pho_number := v |>
  | set_label v => x <| pho_label := v |>
  | set_phone_public v => x <| pho_is_public := v |>
  | set_notes v => x <| pho_notes := v |>
  end.

Definition update_phone (phone : R4JCriminalPhone) (fields : list phone_field) : RM R4JCriminalPhone :=
  atomic
    match fields with
    | [] => mret phone
    | _ =>
        now ← timezone_now;
        let save x := fold_left assign_phone fields x <| pho_updated_at := now |> in
        _ ← update_row (pho_id phone) save;
        mret (save phone)
    end.

Definition remove_phone (phone : R4JCriminalPhone) : RM unit :=
  atomic
    (_ ← forget (fun s : R4JReportPhoneSuggestion =>
           s <| phs_applied_phone := null_if (pho_id phone) (phs_applied_phone s) |>);
     delete_row (A := R4JCriminalPhone) (pho_id phone)).

Definition add_social (criminal : R4JCriminal) (platform handle_or_url : string) (is_public : bool) :
    RM R4JCriminalSocial :=
  atomic
    match of_value platform with
    | None => raise invalid_platform
    | Some p =>
        create (fun i now => mkSocial i (crm_id criminal) p handle_or_url is_public true now now)
    end.

Inductive social_field : Type :=
| set_platform (p : SocialPlatform.t) | set_handle_or_url (s : string) | set_social_public (b : bool).

Definition assign_social (x : R4JCriminalSocial) (f : social_field) : R4JCriminalSocial :=
  match f with
  | set_platform v => x <| soc_platform := v |>
  | set_handle_or_url v => x <| soc_handle_or_url := v |>
  | set_social_public v => x <| soc_is_public := v |>
  end.

Definition update_social (social : R4JCriminalSocial) (fields : list social_field) :
    RM R4JCriminalSocial :=
  atomic
    match fields with
    | [] => mret social
    | _ =>
        now ← timezone_now;
        let save x := fold_left assign_social fields x <| soc_updated_at := now |> in
        _ ← update_row (soc_id social) save;
        mret (save social)
    end.

Definition remove_social (social : R4JCriminalSocial) : RM unit :=
  atomic
    (_ ← forget (fun s : R4JReportSocialSuggestion =>
           s <| sos_applied_social := null_if (soc_id social) (sos_applied_social s) |>);
     delete_row (A := R4JCriminalSocial) (soc_id social)).

(** * Photos *)

Definition demote (criminal : Z) (P : R4JCriminalPhoto -> bool) : RM unit :=
  now ← timezone_now;
  update_all (fun p => (img_criminal p =? criminal) && img_is_primary p && P p)
    (fun p => p <| img_is_primary := false |> <| img_updated_at := now |>).

(** [photo.is_primary = True; photo.save(...)] *)
Definition promote (photo : R4JCriminalPhoto) : RM R4JCriminalPhoto :=
  now ← timezone_now;
  let save x := x <| img_is_primary := true |> <| img_updated_at := now |> in
  _ ← update_row (img_id photo) save;
  mret (save photo).

Definition add_photo (criminal : R4JCriminal) (path caption : string) (is_primary : bool) (order : Z) :
    RM R4JCriminalPhoto :=
  atomic
    (_ ← (if is_primary then demote (crm_id criminal) (fun _ => true) else mret tt);
     env ← ask;
     create (fun i now => mkPhoto i (crm_id criminal) (renv_save_file env path) caption is_primary order
       true now now)).

Definition set_primary_photo (photo : R4JCriminalPhoto) : RM R4JCriminalPhoto :=
  atomic
    (_ ← demote (img_criminal photo) (fun p => negb (img_id p =? img_id photo));
     if img_is_primary photo then mret photo else promote photo).

(** [order_by("order", "-created_at")] *)
Definition photo_order (x y : R4JCriminalPhoto) : bool :=
  (img_order x <? img_order y) ||
  ((img_order x =? img_order y) && (img_created_at y <=? img_created_at x)).

Definition photos_of (criminal : Z) (db : R4JDB) : list R4JCriminalPhoto :=
  ordered_by photo_order (qs_list (objects_filter (fun p => img_criminal p =? criminal) db)).

Definition remove_photo (photo : R4JCriminalPhoto) : RM unit :=
  atomic
    (_ ← delete_row (A := R4JCriminalPhoto) (img_id photo);
     if img_is_primary photo then
       next_photo ← query (fun db => head (photos_of (img_criminal photo) db));
       match next_photo with
       | Some p => _ ← promote p; mret tt
       | None => mret tt
       end
     else mret tt).

(** * Evidence and its custody *)

Definition hash_file_field (env : R4JEnv) (file : Upload) : string * Z :=
  (renv_sha256 env (String.concat EmptyString (up_chunks file)),
   foldr Z.add 0 (map (fun c => Z.of_nat (String.length c)) (up_chunks file))).

(** The file an event is about. *)
Inductive evidence : Type :=
| official (a : R4JCriminalAttachment)
| reported (a : R4JReportAttachment).

Definition evidence_hash (e : evidence) : string :=
  match e with official a => cat_file_sha256 a | reported a => rat_file_sha256 a end.

Definition create_custody_event (target : evidence) (event_type : EvidenceCustodyEventType.t)
    (actor : option Z) (note : string) (metadata : json) : RM R4JEvidenceCustodyEvent :=
  create (fun i now => mkCustodyEvent i
    (match target with official a => Some (cat_id a) | reported _ => None end)
    (match target with reported a => Some (rat_id a) | official _ => None end)
    event_type actor (evidence_hash target) note (if json_true metadata then metadata else JObj [])
    true now now).

(** The hash and the size of the file, saved with the attachment. *)
Definition save_hash (target : evidence) (file_hash : string) (file_size : Z) : RM evidence :=
  now ← timezone_now;
  match target with
  | official a =>
      let save x := x <| cat_file_sha256 := file_hash |> <| cat_file_size := file_size |>
                      <| cat_updated_at := now |> in
      _ ← update_row (cat_id a) save; mret (official (save a))
  | reported a =>
      let save x := x <| rat_file_sha256 := file_hash |> <| rat_file_size := file_size |>
                      <| rat_updated_at := now |> in
      _ ← update_row (rat_id a) save; mret (reported (save a))
  end.

Definition finalize_evidence_hash (target : evidence) (file : Upload) (actor : option Z) : RM evidence :=
  env ← ask;
  let (file_hash, file_size) := hash_file_field env file in
  hashed ← save_hash target file_hash file_size;
  _ ← create_custody_event hashed EvidenceCustodyEventType.UPLOADED actor EmptyString
        (JObj [("file_size"%string, JInt file_size)]);
  _ ← create_custody_event hashed EvidenceCustodyEventType.HASHED actor EmptyString
        (JObj [("sha256"%string, JStr file_hash)]);
  mret hashed.

Definition add_attachment (criminal : R4JCriminal) (file : Upload) (title : string)
    (kind : CriminalAttachmentKind.t) (description : string) (is_public : bool)
    (uploaded_by : option Z) : RM evidence :=
  atomic
    (env ← ask;
     obj ← create (fun i now => mkCriminalAttachment i (crm_id criminal)
             (renv_save_file env (up_path file)) kind title description is_public uploaded_by
             EmptyString 0 true now now);
     finalize_evidence_hash (official obj) file uploaded_by).

(** The deletion takes the events of the file along, which point to it with
    [CASCADE]. *)
Definition remove_attachment (attachment : R4JCriminalAttachment) : RM unit :=
  atomic
    (_ ← forget (fun a : R4JReportAttachment => a <| rat_promoted_criminal_attachment :=
           null_if (cat_id attachment) (rat_promoted_criminal_attachment a) |>);
     _ ← modify (delete_where (fun e : R4JEvidenceCustodyEvent =>
           bool_decide (cus_criminal_attachment e = Some (cat_id attachment))));
     delete_row (A := R4JCriminalAttachment) (cat_id attachment)).

(** [save] and [delete] of an event that is stored. *)
Definition custody_event_save (event : R4JEvidenceCustodyEvent) : RM unit := raise custody_edit_forbidden.
Definition custody_event_delete (event : R4JEvidenceCustodyEvent) : RM unit :=
  raise custody_delete_forbidden.

(** The file of an event. *)
Definition event_target (event : R4JEvidenceCustodyEvent) : RM evidence :=
  match cus_criminal_attachment event, cus_report_attachment event with
  | Some a, _ => a ← base_get (A := R4JCriminalAttachment) a; mret (official a)
  | None, Some a => a ← base_get (A := R4JReportAttachment) a; mret (reported a)
  | None, None => raise R4JIntegrityError
  end.

Definition record_evidence_custody_review (event : R4JEvidenceCustodyEvent) (actor : option Z)
    (event_type : EvidenceCustodyEventType.t) (note : string) : RM R4JEvidenceCustodyEvent :=
  atomic
    (_ ← raise_if (match event_type with
                   | EvidenceCustodyEventType.UPLOADED | EvidenceCustodyEventType.HASHED => true
                   | _ => false
                   end) invalid_custody_event_type;
     target ← event_target event;
     create_custody_event target event_type actor note
       (JObj [("source_event_id"%string, JInt (cus_id event))])).

(** * Visibility *)

Definition upsert_field_visibility (criminal : R4JCriminal) (field_name : PublicVisibilityField.t)
    (is_public : bool) : RM R4JCriminalFieldVisibility :=
  atomic
    (found ← get_or_create
       (fun v => (vis_criminal v =? crm_id criminal) && bool_decide (vis_field_name v = field_name))
       (fun i now => mkVisibility i (crm_id criminal) field_name is_public true now now);
     let obj := found.1 in
     if found.2 : bool then mret obj
     else
       now ← timezone_now;
       let save x := x <| vis_is_public := is_public |> <| vis_updated_at := now |> in
       _ ← update_row (vis_id obj) save;
       mret (save obj)).

Definition PUBLIC_DEFAULT_VISIBILITY (f : PublicVisibilityField.t) : bool :=
  match f with PublicVisibilityField.NATIONAL_CODE => false | _ => true end.

(** The last override of a field, or its default. *)
Definition compute_visibility_map (overrides : list R4JCriminalFieldVisibility)
    (f : PublicVisibilityField.t) : bool :=
  match List.find (fun v => bool_decide (vis_field_name v = f)) (reverse overrides) with
  | Some v => vis_is_public v
  | None => PUBLIC_DEFAULT_VISIBILITY f
  end.

(** [R4JCriminalPublishedManager], without the annotations *)
Definition is_published (c : R4JCriminal) : bool := crm_is_active c && crm_is_published c.

(** A look-up by key or by slug. *)
Definition lookup_key (lookup : string) : option (Z + string) :=
  if Normalizers.isdigit lookup then inl <$> py_int_str lookup else Some (inr lookup).

(** A profile with its nested rows, as the selector reads it. *)
Record PublicDetail : Type := mkPublicDetail {
  pd_criminal : R4JCriminal;
  pd_photos : list R4JCriminalPhoto;
  pd_phones : list R4JCriminalPhone;
  pd_socials : list R4JCriminalSocial;
  pd_attachments : list R4JCriminalAttachment;
  pd_aliases : list R4JCriminalAlias;
  pd_field_visibility : list R4JCriminalFieldVisibility;
}.

(** Newest first, and by name. *)
Definition newest_first {A} `{Model R4JDB A} (x y : A) : bool :=
  created_at (DB := R4JDB) y <=? created_at (DB := R4JDB) x.

Definition by_alias (env : R4JEnv) (x y : R4JCriminalAlias) : bool :=
  renv_text_le env (ali_alias x) (ali_alias y).

Definition read_detail (env : R4JEnv) (c : R4JCriminal) (db : R4JDB) : PublicDetail :=
  let i := crm_id c in
  mkPublicDetail c (photos_of i db)
    (ordered_by newest_first (qs_list (objects_filter (fun p : R4JCriminalPhone =>
       (pho_criminal p =? i) && pho_is_public p) db)))
    (ordered_by newest_first (qs_list (objects_filter (fun s : R4JCriminalSocial =>
       (soc_criminal s =? i) && soc_is_public s) db)))
    (ordered_by newest_first (qs_list (objects_filter (fun a : R4JCriminalAttachment =>
       (cat_criminal a =? i) && cat_is_public a) db)))
    (ordered_by (by_alias env) (qs_list (objects_filter (fun a : R4JCriminalAlias => ali_criminal a =? i) db)))
    (qs_list (objects_filter (fun v : R4JCriminalFieldVisibility => vis_criminal v =? i) db)).

(** [_lookup_criminal] on the published profiles *)
Definition find_published (key : Z + string) (db : R4JDB) : option R4JCriminal :=
  qs_first (all_filter (fun c => is_published c &&
    match key with inl i => crm_id c =? i | inr s => str_eqb (crm_slug c) s end) db).

Definition get_public_criminal_detail (env : R4JEnv) (key : Z + string) (db : R4JDB) :
    option PublicDetail :=
  (fun c => read_detail env c db) <$> find_published key db.

(** ** The public serializers *)

(** [R4JPublicCriminalDetailSerializer]: a field that is not public is [None]. *)
Record PublicCriminal : Type := mkPublicCriminal {
  pub_id : Z;
  pub_slug : string;
  pub_first_name : string;
  pub_last_name : string;
  pub_national_code : option string;
  pub_birth_date : option Z;
  pub_gender : option Gender.t;
  pub_country : option string;
  pub_province : option string;
  pub_city : option string;
  pub_description : option string;
  pub_crimes_summary : option string;
  pub_other_info : option string;
  pub_photos : list (Z * string * string * bool * Z);
  pub_phones : list (Z * string * string);
  pub_socials : list (Z * SocialPlatform.t * string);
  pub_attachments : list (Z * string * string * CriminalAttachmentKind.t * string);
  pub_aliases : list (Z * string);
  pub_total_bounty_toman : Z;
  pub_bounties_count : Z;
  pub_published_at : option Z;
}.

(** A field that is not public is [None]. *)
Definition shown {A} (d : PublicDetail) (f : PublicVisibilityField.t) (v : A) : option A :=
  if compute_visibility_map (pd_field_visibility d) f then Some v else None.

Definition to_representation (d : PublicDetail) : PublicCriminal :=
  let c := pd_criminal d in
  mkPublicCriminal (crm_id c) (crm_slug c) (crm_first_name c) (crm_last_name c)
    (mjoin (shown d PublicVisibilityField.NATIONAL_CODE (crm_national_code c)))
    (mjoin (shown d PublicVisibilityField.BIRTH_DATE (crm_birth_date c)))
    (shown d PublicVisibilityField.GENDER (crm_gender c))
    (shown d PublicVisibilityField.COUNTRY (crm_country c))
    (shown d PublicVisibilityField.PROVINCE (crm_province c))
    (shown d PublicVisibilityField.CITY (crm_city c))
    (shown d PublicVisibilityField.DESCRIPTION (crm_description c))
    (shown d PublicVisibilityField.CRIMES_SUMMARY (crm_crimes_summary c))
    (shown d PublicVisibilityField.OTHER_INFO (crm_other_info c))
    (map (fun p => (img_id p, img_image p, img_caption p, img_is_primary p, img_order p)) (pd_photos d))
    (map (fun p => (pho_id p, pho_label p, pho_number p)) (pd_phones d))
    (map (fun s => (soc_id s, soc_platform s, soc_handle_or_url s)) (pd_socials d))
    (map (fun a => (cat_id a, cat_file a, cat_title a, cat_kind a, cat_description a)) (pd_attachments d))
    (map (fun a => (ali_id a, ali_alias a)) (pd_aliases d))
    (crm_total_bounty_toman c) (crm_bounties_count c) (crm_published_at c).

(** [R4JPublicCriminalListSerializer] *)
Record PublicCard : Type := mkPublicCard {
  card_id : Z;
  card_slug : string;
  card_first_name : string;
  card_last_name : string;
  card_country : string;
  card_province : string;
  card_city : string;
  card_primary_photo : option (Z * string);
  card_total_bounty_toman : Z;
  card_bounties_count : Z;
}.

Definition get_primary_photo (photos : list R4JCriminalPhoto) : option (Z * string) :=
  let primary := match List.find img_is_primary photos with Some p => Some p | None => head photos end in
  (fun p => (img_id p, img_image p)) <$> primary.

Definition to_card (c : R4JCriminal) (db : R4JDB) : PublicCard :=
  mkPublicCard (crm_id c) (crm_slug c) (crm_first_name c) (crm_last_name c) (crm_country c)
    (crm_province c) (crm_city c) (get_primary_photo (photos_of (crm_id c) db))
    (crm_total_bounty_toman c) (crm_bounties_count c).

(** [order_by("-created_at", "-pk")] *)
Definition criminal_order (x y : R4JCriminal) : bool :=
  (crm_created_at y <? crm_created_at x) ||
  ((crm_created_at x =? crm_created_at y) && (crm_id y <=? crm_id x)).

Definition get_public_criminals_queryset (db : R4JDB) : list PublicCard :=
  map (fun c => to_card c db) (ordered_by criminal_order (qs_list (all_filter is_published db))).
