(* ===== verification/R4JReports.v ===== *)
(** Reports of the community: the sections of [src/apps/r4j/services.py] on
    submitting, cancelling and reviewing a report, with the selector that reads a
    report for its review ([selectors.py]) and the check of the submitted form
    ([serializers.py]).

    A service gets the report that was read before, with the rows that were read
    along with it, and looks at the status of that object. *)

From S2P Require Import Prelude Python Choices Orm Models World Apps R4JModels R4JFields R4JCriminals.
#[local] Open Scope Z_scope.

Abbreviation PENDING := (value ReportFieldChangeStatus.PENDING).
Abbreviation APPROVED := (value ReportFieldChangeStatus.APPROVED).
Abbreviation REJECTED := (value ReportFieldChangeStatus.REJECTED).

(** * Submitting *)

Record PhoneInput : Type := mkPhoneInput {
  pi_label : string; pi_number : string; pi_is_public : bool; pi_notes : string }.

Record SocialInput : Type := mkSocialInput {
  si_platform : SocialPlatform.t; si_handle_or_url : string; si_is_public : bool }.

Record FileInput : Type := mkFileInput {
  fi_file : Upload; fi_title : string; fi_kind : CriminalAttachmentKind.t }.

(** What a report suggests; a field is given by its name. *)
Record Suggestions : Type := mkSuggestions {
  sg_notes : string;
  sg_field_changes : list (string * string);
  sg_aliases : list string;
  sg_phones : list PhoneInput;
  sg_socials : list SocialInput;
  sg_attachments : list FileInput;
}.

(** [R4JReportSubmitSerializer.validate] *)
Definition report_not_empty (s : Suggestions) : bool :=
  str_true (py_strip (sg_notes s)) ||
  negb (bool_decide (sg_field_changes s = [])) || negb (bool_decide (sg_aliases s = [])) ||
  match sg_phones s, sg_socials s with [], [] => false | _, _ => true end.

(** Every name of a field change, as a field; the first that is none is an error. *)
Fixpoint reportable_fields (changes : list (string * string)) :
    outcome string (list (Reportable.t * string)) :=
  match changes with
  | [] => Ok []
  | (name, v) :: changes' =>
      match of_value name with
      | None => Raise name
      | Some f => match reportable_fields changes' with
                  | Ok l => Ok ((f, v) :: l)
                  | Raise e => Raise e
                  end
      end
  end.

(** [for x in l: ...] *)
Definition for_each {A} (body : A -> RM unit) (l : list A) : RM unit :=
  for_fold (fun _ x => body x) tt l.

Definition submit_field_change (report : R4JReport) (criminal : R4JCriminal)
    (change : Reportable.t * string) : RM unit :=
  _ ← create (fun i now => mkFieldChange i (rep_id report) (value change.1) change.2
        (current_value criminal change.1) PENDING EmptyString true now now);
  mret tt.

Definition submit_alias (report : R4JReport) (alias : string) : RM unit :=
  _ ← create (fun i now => mkAliasSuggestion i (rep_id report) alias PENDING EmptyString None true now now);
  mret tt.

Definition submit_phone (report : R4JReport) (p : PhoneInput) : RM unit :=
  _ ← create (fun i now => mkPhoneSuggestion i (rep_id report) (pi_label p) (pi_number p)
        (pi_is_public p) (pi_notes p) PENDING EmptyString None true now now);
  mret tt.

Definition submit_social (report : R4JReport) (s : SocialInput) : RM unit :=
  _ ← create (fun i now => mkSocialSuggestion i (rep_id report) (si_platform s) (si_handle_or_url s)
        (si_is_public s) PENDING EmptyString None true now now);
  mret tt.

Definition submit_attachment (report : R4JReport) (f : FileInput) : RM unit :=
  env ← ask;
  a ← create (fun i now => mkReportAttachment i (rep_id report) (renv_save_file env (up_path (fi_file f)))
        (fi_title f) (fi_kind f) EmptyString 0 PENDING EmptyString None true now now);
  _ ← finalize_evidence_hash (reported a) (fi_file f) (Some (rep_submitted_by report));
  mret tt.

Definition submit_report (criminal : R4JCriminal) (submitted_by : Z) (s : Suggestions) : RM R4JReport :=
  atomic
    match reportable_fields (sg_field_changes s) with
    | Raise name => raise (InvalidReportableField name)
    | Ok changes =>
        report ← create (fun i now => mkReport i (crm_id criminal) submitted_by (sg_notes s)
          ReportStatus.PENDING EmptyString None None None None true now now);
        _ ← for_each (submit_field_change report criminal) changes;
        _ ← for_each (submit_alias report) (sg_aliases s);
        _ ← for_each (submit_phone report) (sg_phones s);
        _ ← for_each (submit_social report) (sg_socials s);
        _ ← for_each (submit_attachment report) (sg_attachments s);
        mret report
    end.

(** * Cancelling *)

(** The assignments to a report, saved and made to the object. *)
Definition save_report (report : R4JReport) (upd : Z -> R4JReport -> R4JReport) : RM R4JReport :=
  now ← timezone_now;
  let save x := upd now x <| rep_updated_at := now |> in
  _ ← update_row (rep_id report) save;
  mret (save report).

Definition request_report_cancel (report : R4JReport) : RM R4JReport :=
  atomic
    (_ ← raise_if (negb (bool_decide (rep_status report = ReportStatus.PENDING))) ReportNotCancelable;
     save_report report (fun now x =>
       x <| rep_status := ReportStatus.CANCEL_REQUESTED |> <| rep_cancel_requested_at := Some now |>)).

Definition approve_report_cancel (report : R4JReport) (admin : Z) (admin_note : string) : RM R4JReport :=
  atomic
    (_ ← raise_if (negb (bool_decide (rep_status report = ReportStatus.CANCEL_REQUESTED)))
           ReportNotInCancelRequested;
     save_report report (fun now x =>
       x <| rep_status := ReportStatus.CANCELED |> <| rep_canceled_at := Some now |>
         <| rep_admin_note := admin_note |> <| rep_reviewed_by := Some admin |>
         <| rep_reviewed_at := Some now |>)).

Definition reject_report_cancel (report : R4JReport) (admin_note : string) : RM R4JReport :=
  atomic
    (_ ← raise_if (negb (bool_decide (rep_status report = ReportStatus.CANCEL_REQUESTED)))
           ReportNotInCancelRequested;
     save_report report (fun now x =>
       x <| rep_status := ReportStatus.PENDING |> <| rep_cancel_requested_at := None |>
         <| rep_admin_note := admin_note |>)).

(** * Reading a report for its review *)

(** A report with the rows read along with it. *)
Record ReportDetail : Type := mkReportDetail {
  rd_report : R4JReport;
  rd_criminal : R4JCriminal;
  rd_field_changes : list R4JReportFieldChange;
  rd_alias_suggestions : list R4JReportAliasSuggestion;
  rd_phone_suggestions : list R4JReportPhoneSuggestion;
  rd_social_suggestions : list R4JReportSocialSuggestion;
  rd_attachments : list R4JReportAttachment;
}.

(** The rows of a report, in the order of their keys. *)
Definition rows_by_key {A} `{Model R4JDB A} (P : A -> bool) (db : R4JDB) : list A :=
  ordered_by (fun x y => pk (DB := R4JDB) x <=? pk (DB := R4JDB) y) (qs_list (objects_filter P db)).

(** Of the changes of one field, the order is that of the keys. *)
Definition by_field_name (x y : R4JReportFieldChange) : bool :=
  (String.ltb (fch_field_name x) (fch_field_name y)) ||
  (str_eqb (fch_field_name x) (fch_field_name y) && (fch_id x <=? fch_id y)).

Definition changes_of (report : Z) (db : R4JDB) : list R4JReportFieldChange :=
  ordered_by by_field_name (qs_list (objects_filter (fun c => fch_report c =? report) db)).

Definition get_admin_report_by_id (report_id : Z) : RM (option ReportDetail) :=
  found ← query (fun db => qs_first (objects_filter (fun r : R4JReport => rep_id r =? report_id) db));
  match found with
  | None => mret None
  | Some report =>
      criminal ← base_get (A := R4JCriminal) (rep_criminal report);
      query (fun db => Some (mkReportDetail report criminal (changes_of report_id db)
        (rows_by_key (fun s => als_report s =? report_id) db)
        (rows_by_key (fun s => phs_report s =? report_id) db)
        (rows_by_key (fun s => sos_report s =? report_id) db)
        (ordered_by newest_first (qs_list (objects_filter
           (fun a : R4JReportAttachment => rat_report a =? report_id) db)))))
  end.

(** * Reviewing *)

(** A decision about what the key names. *)
Record Decision : Type := mkDecision {
  dec_id : Z;
  dec_status : option string;
  dec_admin_note : option string;
}.

(** The last decision about a key: [_decision_map], then [get]. *)
Definition decision_for (decisions : list Decision) (i : Z) : option Decision :=
  List.find (fun d => dec_id d =? i) (reverse decisions).

(** [decision.get("status", PENDING)] and [decision.get("admin_note", "")] *)
Definition new_status (d : Decision) : string := default PENDING (dec_status d).
Definition new_note (d : Decision) : string := default EmptyString (dec_admin_note d).

(** ** Field changes *)

Definition decide_change (d : Decision) (fc : R4JReportFieldChange) : R4JReportFieldChange :=
  fc <| fch_status := new_status d |> <| fch_admin_note := new_note d |>.

(** The columns of a change that its review saves. *)
Definition save_change (fc : R4JReportFieldChange) : RM unit :=
  now ← timezone_now;
  update_row (fch_id fc) (fun row =>
    row <| fch_status := fch_status fc |> <| fch_admin_note := fch_admin_note fc |>
        <| fch_updated_at := now |>).

(** The changes that are approved, in their order. *)
Definition review_changes (decisions : list Decision) (changes : list R4JReportFieldChange) :
    RM (list R4JReportFieldChange) :=
  for_fold (fun approved fc =>
    match decision_for decisions (fch_id fc) with
    | None => mret approved
    | Some d =>
        let fc := decide_change d fc in
        _ ← save_change fc;
        mret (if str_eqb (new_status d) APPROVED then approved ++ [fc] else approved)
    end) [] changes.

(** What an approved change assigns: nothing where its field is not reportable. *)
Definition application (fc : R4JReportFieldChange) : option (outcome bad_value criminal_field) :=
  f ← of_value (fch_field_name fc); Some (apply_field_to_criminal f (fch_suggested_value fc)).

Definition failed_note (e : bad_value) : string :=
  ("اعمال خودکار ناموفق: " +:+ reason_text e)%string.

Definition refuse_change (e : bad_value) (fc : R4JReportFieldChange) : R4JReportFieldChange :=
  fc <| fch_status := REJECTED |> <| fch_admin_note := failed_note e |>.

Definition apply_field_changes_to_criminal (criminal : R4JCriminal)
    (approved_changes : list R4JReportFieldChange) : RM unit :=
  fields ← for_fold (fun fields fc =>
    match application fc with
    | None => mret fields
    | Some (Ok f) => mret (fields ++ [f])
    | Some (Raise e) => _ ← save_change (refuse_change e fc); mret fields
    end) [] approved_changes;
  match fields with
  | [] => mret tt
  | _ =>
      now ← timezone_now;
      update_row (crm_id criminal) (fun x => assign_all fields x <| crm_updated_at := now |>)
  end.

(** ** Suggestions *)

(** What the review of a suggestion reads and writes of its row. *)
Class Suggestion (A : Type) : Type := {
  sug_status : A -> string;
  sug_decide : string -> string -> A -> A;
  sug_touch : Z -> A -> A;
}.

#[export] Instance alias_suggestion : Suggestion R4JReportAliasSuggestion := {
  sug_status := als_status;
  sug_decide s n x := x <| als_status := s |> <| als_admin_note := n |>;
  sug_touch now x := x <| als_updated_at := now |>;
}.

#[export] Instance phone_suggestion : Suggestion R4JReportPhoneSuggestion := {
  sug_status := phs_status;
  sug_decide s n x := x <| phs_status := s |> <| phs_admin_note := n |>;
  sug_touch now x := x <| phs_updated_at := now |>;
}.

#[export] Instance social_suggestion : Suggestion R4JReportSocialSuggestion := {
  sug_status := sos_status;
  sug_decide s n x := x <| sos_status := s |> <| sos_admin_note := n |>;
  sug_touch now x := x <| sos_updated_at := now |>;
}.

#[export] Instance attachment_suggestion : Suggestion R4JReportAttachment := {
  sug_status := rat_status;
  sug_decide s n x := x <| rat_status := s |> <| rat_admin_note := n |>;
  sug_touch now x := x <| rat_updated_at := now |>;
}.

Definition apply_alias_suggestion (criminal : Z) (s : R4JReportAliasSuggestion) :
    RM R4JReportAliasSuggestion :=
  let alias := py_strip (als_alias s) in
  found ← get_or_create (fun a => (ali_criminal a =? criminal) && str_eqb (ali_alias a) alias)
            (fun i now => mkAlias i criminal alias true now now);
  mret (s <| als_applied_alias := Some (ali_id found.1) |>).

Definition apply_phone_suggestion (criminal : Z) (s : R4JReportPhoneSuggestion) :
    RM R4JReportPhoneSuggestion :=
  phone ← create (fun i now => mkPhone i criminal (phs_label s) (phs_number s) (phs_is_public s)
            (phs_notes s) true now now);
  mret (s <| phs_applied_phone := Some (pho_id phone) |>).

Definition apply_social_suggestion (criminal : Z) (s : R4JReportSocialSuggestion) :
    RM R4JReportSocialSuggestion :=
  found ← get_or_create (fun x => (soc_criminal x =? criminal) &&
              bool_decide (soc_platform x = sos_platform s) &&
              str_eqb (soc_handle_or_url x) (sos_handle_or_url s))
            (fun i now => mkSocial i criminal (sos_platform s) (sos_handle_or_url s) (sos_is_public s)
               true now now);
  mret (s <| sos_applied_social := Some (soc_id found.1) |>).

(** The official copy of a file of a report, with its hash. *)
Definition promote_report_attachment (criminal : Z) (actor : Z) (a : R4JReportAttachment) :
    RM R4JReportAttachment :=
  copy ← create (fun i now => mkCriminalAttachment i criminal (rat_file a) (rat_kind a)
           (str_or (rat_title a) ("report-attachment-" +:+ pretty (rat_id a)))
           ("Promoted from R4J report #" +:+ pretty (rat_report a))%string false (Some actor)
           (rat_file_sha256 a) (rat_file_size a) true now now);
  _ ← create_custody_event (official copy) EvidenceCustodyEventType.TRANSFERRED (Some actor) EmptyString
        (JObj [("source_report_attachment_id"%string, JInt (rat_id a));
               ("source_report_id"%string, JInt (rat_report a))]);
  mret (a <| rat_promoted_criminal_attachment := Some (cat_id copy) |>).

(** [suggestion.save()], which writes every column of the object. *)
Definition save_suggestion {A} `{Model R4JDB A, Suggestion A} (s : A) : RM unit :=
  now ← timezone_now;
  update_row (pk (DB := R4JDB) s) (fun _ => sug_touch now s).

Definition apply_suggestion_decisions {A} `{Model R4JDB A, Suggestion A} (apply : A -> RM A)
    (decisions : list Decision) (suggestions : list A) : RM (list string) :=
  for_fold (fun statuses s =>
    match decision_for decisions (pk (DB := R4JDB) s) with
    | None => mret (statuses ++ [sug_status s])
    | Some d =>
        let s := sug_decide (new_status d) (new_note d) s in
        s ← (if str_eqb (new_status d) APPROVED then apply s else mret s);
        _ ← save_suggestion s;
        mret (statuses ++ [sug_status s])
    end) [] suggestions.

(** ** The verdict *)

Definition all_of (v : string) (statuses : list string) : bool := forallb (str_eqb v) statuses.

Definition final_status (statuses : list string) : ReportStatus.t :=
  if all_of APPROVED statuses then ReportStatus.APPROVED
  else if all_of REJECTED statuses then ReportStatus.REJECTED
  else if existsb (str_eqb APPROVED) statuses then ReportStatus.PARTIALLY_APPROVED
  else ReportStatus.REJECTED.

Record Decisions : Type := mkDecisions {
  on_fields : list Decision;
  on_aliases : list Decision;
  on_phones : list Decision;
  on_socials : list Decision;
  on_attachments : list Decision;
}.

Definition review_report (detail : ReportDetail) (reviewed_by : Z) (decisions : Decisions)
    (admin_note : string) : RM R4JReport :=
  atomic
    (let report := rd_report detail in
     let criminal := crm_id (rd_criminal detail) in
     _ ← raise_if (negb (bool_decide (rep_status report = ReportStatus.PENDING))) ReportNotReviewable;
     approved ← review_changes (on_fields decisions) (rd_field_changes detail);
     _ ← apply_field_changes_to_criminal (rd_criminal detail) approved;
     s1 ← query (fun db => fch_status <$> changes_of (rep_id report) db);
     s2 ← apply_suggestion_decisions (apply_alias_suggestion criminal) (on_aliases decisions)
            (rd_alias_suggestions detail);
     s3 ← apply_suggestion_decisions (apply_phone_suggestion criminal) (on_phones decisions)
            (rd_phone_suggestions detail);
     s4 ← apply_suggestion_decisions (apply_social_suggestion criminal) (on_socials decisions)
            (rd_social_suggestions detail);
     s5 ← apply_suggestion_decisions (promote_report_attachment criminal reviewed_by)
            (on_attachments decisions) (rd_attachments detail);
     let verdict := final_status (s1 ++ s2 ++ s3 ++ s4 ++ s5) in
     save_report report (fun now x =>
       x <| rep_status := verdict |> <| rep_admin_note := admin_note |>
         <| rep_reviewed_by := Some reviewed_by |> <| rep_reviewed_at := Some now |>)).
