(* ===== verification/R4JBounties.v ===== *)
(** Bounties: the section of [src/apps/r4j/services.py] on declaring a reward,
    asking for its cancellation and deciding about it, with the counters of the
    profile and the figures of the published profiles ([managers.py]).

    The cancellation looks at the status of the object it is given, and then
    locks and writes the row. *)

From S2P Require Import Prelude Python Choices Orm Models R4JModels R4JFields.
#[local] Open Scope Z_scope.

(** [BOUNTY_ACTIVE_STATUSES] *)
Definition counts (b : R4JBounty) : bool :=
  match bty_status b with
  | BountyStatus.ACTIVE | BountyStatus.CANCEL_REQUESTED => true
  | BountyStatus.CANCELED => false
  end.

(** The bounties that count for a profile. *)
Definition live_bounties (criminal : Z) (db : R4JDB) : gmap Z R4JBounty :=
  objects_filter (fun b => (bty_criminal b =? criminal) && counts b) db.

Definition sync_criminal_bounty_counters (criminal : R4JCriminal) : RM unit :=
  total_amount ← query (fun db => qs_sum bty_amount_toman (live_bounties (crm_id criminal) db));
  total_count ← query (fun db => qs_count (live_bounties (crm_id criminal) db));
  now ← timezone_now;
  update_row (crm_id criminal) (fun x =>
    x <| crm_total_bounty_toman := total_amount |> <| crm_bounties_count := total_count |>
      <| crm_updated_at := now |>).

(** [R4JCriminal.all_objects.select_for_update().get(pk=...)] *)
Definition lock_criminal_for_bounty_sync (criminal : Z) : RM R4JCriminal := base_get criminal.

Definition existing_bounty (criminal user : Z) (db : R4JDB) : option R4JBounty :=
  qs_first (objects_filter (fun b => (bty_criminal b =? criminal) && (bty_user b =? user) && counts b) db).

Definition set_or_update_bounty (criminal : Z) (user amount_toman : Z) : RM (R4JBounty * bool) :=
  atomic
    (_ ← raise_if (negb (validate_bounty_amount amount_toman)) InvalidBountyAmount;
     locked_criminal ← lock_criminal_for_bounty_sync criminal;
     existing ← query (existing_bounty (crm_id locked_criminal) user);
     result ← match existing with
              | Some b =>
                  _ ← raise_if (bool_decide (bty_status b = BountyStatus.CANCEL_REQUESTED))
                        BountyUpdateNotAllowed;
                  now ← timezone_now;
                  let save x := x <| bty_amount_toman := amount_toman |>
                                  <| bty_admin_note := EmptyString |> <| bty_updated_at := now |> in
                  _ ← update_row (bty_id b) save;
                  mret (save b, false)
              | None =>
                  b ← create (fun i now => mkBounty i (crm_id locked_criminal) user amount_toman
                        BountyStatus.ACTIVE None None EmptyString true now now);
                  mret (b, true)
              end;
     _ ← sync_criminal_bounty_counters locked_criminal;
     mret result).

(** The common part of the three transitions: the status of the object is
    checked, the profile and the row are locked, the row is changed. *)
Definition move_bounty (bounty : R4JBounty) (from : BountyStatus.t) (error : r4j_exc)
    (upd : Z -> R4JBounty -> R4JBounty) : RM R4JBounty :=
  atomic
    (_ ← raise_if (negb (bool_decide (bty_status bounty = from))) error;
     locked_criminal ← lock_criminal_for_bounty_sync (bty_criminal bounty);
     locked_bounty ← objects_get (A := R4JBounty) (bty_id bounty);
     now ← timezone_now;
     let save x := upd now x <| bty_updated_at := now |> in
     _ ← update_row (bty_id locked_bounty) save;
     _ ← sync_criminal_bounty_counters locked_criminal;
     mret (save locked_bounty)).

Definition request_bounty_cancel (bounty : R4JBounty) : RM R4JBounty :=
  move_bounty bounty BountyStatus.ACTIVE BountyNotCancelable (fun now x =>
    x <| bty_status := BountyStatus.CANCEL_REQUESTED |> <| bty_cancel_requested_at := Some now |>).

Definition approve_bounty_cancel (bounty : R4JBounty) (admin_note : string) : RM R4JBounty :=
  move_bounty bounty BountyStatus.CANCEL_REQUESTED BountyNotInCancelRequested (fun now x =>
    x <| bty_status := BountyStatus.CANCELED |> <| bty_canceled_at := Some now |>
      <| bty_admin_note := admin_note |>).

Definition reject_bounty_cancel (bounty : R4JBounty) (admin_note : string) : RM R4JBounty :=
  move_bounty bounty BountyStatus.CANCEL_REQUESTED BountyNotInCancelRequested (fun now x =>
    x <| bty_status := BountyStatus.ACTIVE |> <| bty_cancel_requested_at := None |>
      <| bty_admin_note := admin_note |>).

(** The annotations of [R4JCriminalPublishedManager]. *)
Definition active_bounties_sum (c : R4JCriminal) (db : R4JDB) : Z :=
  qs_sum bty_amount_toman (live_bounties (crm_id c) db).

Definition active_bounties_count (c : R4JCriminal) (db : R4JDB) : Z :=
  qs_count (live_bounties (crm_id c) db).
