(* ===== verification/R4JSystem.v ===== *)
(** The services of the reward-for-justice application as one transition
    system: the requests, what an object in memory still has in common with its
    row, and the states that any sequence of requests reaches. *)

From S2P Require Import Prelude Python Choices Orm Models World Apps.
From S2P Require Import R4JModels R4JFields R4JCriminals R4JReports R4JBounties.
#[local] Open Scope Z_scope.

(** * Requests *)

Inductive profile_request : Type :=
| CreateCriminal (created_by : option Z) (first_name last_name : string) (gender : Gender.t)
    (national_code : string) (birth_date : option Z)
    (country province city description crimes_summary other_info : string)
| UpdateCriminal (criminal : R4JCriminal) (fields : list criminal_field)
| SoftDeleteCriminal (criminal : R4JCriminal)
| PublishCriminal (criminal : R4JCriminal)
| UnpublishCriminal (criminal : R4JCriminal)
| AddAlias (criminal : R4JCriminal) (alias : string)
| RemoveAlias (alias : R4JCriminalAlias)
| AddPhone (criminal : R4JCriminal) (number label : string) (is_public : bool) (notes : string)
| UpdatePhone (phone : R4JCriminalPhone) (fields : list phone_field)
| RemovePhone (phone : R4JCriminalPhone)
| AddSocial (criminal : R4JCriminal) (platform handle_or_url : string) (is_public : bool)
| UpdateSocial (social : R4JCriminalSocial) (fields : list social_field)
| RemoveSocial (social : R4JCriminalSocial)
| AddPhoto (criminal : R4JCriminal) (path caption : string) (is_primary : bool) (order : Z)
| SetPrimaryPhoto (photo : R4JCriminalPhoto)
| RemovePhoto (photo : R4JCriminalPhoto)
| AddAttachment (criminal : R4JCriminal) (file : Upload) (title : string)
    (kind : CriminalAttachmentKind.t) (description : string) (is_public : bool) (uploaded_by : option Z)
| RemoveAttachment (attachment : R4JCriminalAttachment)
| ReviewCustody (event : R4JEvidenceCustodyEvent) (actor : option Z)
    (event_type : EvidenceCustodyEventType.t) (note : string)
| SetVisibility (criminal : R4JCriminal) (field_name : PublicVisibilityField.t) (is_public : bool).

Inductive report_request : Type :=
| SubmitReport (criminal : R4JCriminal) (submitted_by : Z) (s : Suggestions)
| RequestReportCancel (report : R4JReport)
| ApproveReportCancel (report : R4JReport) (admin : Z) (admin_note : string)
| RejectReportCancel (report : R4JReport) (admin_note : string)
| ReviewReport (detail : ReportDetail) (reviewed_by : Z) (decisions : Decisions) (admin_note : string).

Inductive bounty_request : Type :=
| SetBounty (criminal user amount_toman : Z)
| RequestBountyCancel (bounty : R4JBounty)
| ApproveBountyCancel (bounty : R4JBounty) (admin_note : string)
| RejectBountyCancel (bounty : R4JBounty) (admin_note : string).

Inductive r4j_request : Type :=
| OnProfile (q : profile_request)
| OnReport (q : report_request)
| OnBounty (q : bounty_request).

(** The service of a request; what it returns is left out. *)
Definition run {A} (m : RM A) : RM unit := _ ← m; mret tt.

Definition serve_profile (q : profile_request) : RM unit :=
  match q with
  | CreateCriminal by_ f l g n b c p ci d s o => run (create_criminal by_ f l g n b c p ci d s o)
  | UpdateCriminal x fs => run (update_criminal x fs)
  | SoftDeleteCriminal x => soft_delete_criminal x
  | PublishCriminal x => run (publish_criminal x)
  | UnpublishCriminal x => run (unpublish_criminal x)
  | AddAlias x a => run (add_alias x a)
  | RemoveAlias a => remove_alias a
  | AddPhone x n l p t => run (add_phone x n l p t)
  | UpdatePhone x fs => run (update_phone x fs)
  | RemovePhone x => remove_phone x
  | AddSocial x p h b => run (add_social x p h b)
  | UpdateSocial x fs => run (update_social x fs)
  | RemoveSocial x => remove_social x
  | AddPhoto x p c b o => run (add_photo x p c b o)
  | SetPrimaryPhoto x => run (set_primary_photo x)
  | RemovePhoto x => remove_photo x
  | AddAttachment x f t k d b u => run (add_attachment x f t k d b u)
  | RemoveAttachment a => remove_attachment a
  | ReviewCustody e a t n => run (record_evidence_custody_review e a t n)
  | SetVisibility x f b => run (upsert_field_visibility x f b)
  end.

Definition serve_report (q : report_request) : RM unit :=
  match q with
  | SubmitReport x u s => run (submit_report x u s)
  | RequestReportCancel r => run (request_report_cancel r)
  | ApproveReportCancel r a n => run (approve_report_cancel r a n)
  | RejectReportCancel r n => run (reject_report_cancel r n)
  | ReviewReport d u ds n => run (review_report d u ds n)
  end.

Definition serve_bounty (q : bounty_request) : RM unit :=
  match q with
  | SetBounty c u a => run (set_or_update_bounty c u a)
  | RequestBountyCancel b => run (request_bounty_cancel b)
  | ApproveBountyCancel b n => run (approve_bounty_cancel b n)
  | RejectBountyCancel b n => run (reject_bounty_cancel b n)
  end.

Definition serve (q : r4j_request) : RM unit :=
  match q with
  | OnProfile q => serve_profile q
  | OnReport q => serve_report q
  | OnBounty q => serve_bounty q
  end.

(** * Objects that were read before *)

(** The row of an object is still stored, and agrees with it in [same]. *)
Definition read_before {A} `{Model R4JDB A} (same : A -> A -> Prop) (db : R4JDB) (x : A) : Prop :=
  exists row, rows_of db !! pk (DB := R4JDB) x = Some row /\ same x row.

(** What no service changes: the profile of a bounty, the file of an attachment. *)
Definition same_profile (x row : R4JBounty) : Prop := bty_criminal x = bty_criminal row.
Definition same_file (x row : R4JReportAttachment) : Prop := rat_file_sha256 x = rat_file_sha256 row.

(** Nothing is asked of the status of an object, which may have changed since. *)
Definition admissible (db : R4JDB) (q : r4j_request) : Prop :=
  match q with
  | OnBounty (RequestBountyCancel b) | OnBounty (ApproveBountyCancel b _)
  | OnBounty (RejectBountyCancel b _) => read_before same_profile db b
  | OnReport (ReviewReport d _ _ _) => Forall (read_before same_file db) (rd_attachments d)
  | _ => True
  end.

Definition empty_db : R4JDB :=
  mkR4JDB (mkTable ∅ 1) (mkTable ∅ 1) (mkTable ∅ 1) (mkTable ∅ 1) (mkTable ∅ 1) (mkTable ∅ 1)
    (mkTable ∅ 1) (mkTable ∅ 1) (mkTable ∅ 1) (mkTable ∅ 1) (mkTable ∅ 1) (mkTable ∅ 1)
    (mkTable ∅ 1) (mkTable ∅ 1) (mkTable ∅ 1).

(** The states that requests reach, each at a time of its own, whether they
    succeed or fail. *)
Inductive r4j_reachable : R4JDB -> Prop :=
| r4j_start : r4j_reachable empty_db
| r4j_step env db q : r4j_reachable db -> admissible db q -> r4j_reachable (serve q env db).2.

(** * The slug of a profile *)

(** A slug is always found, and no profile has it, not even a deleted one. *)
Lemma criminal_slug_is_found env first_name last_name db :
  exists s, generate_unique_slug env first_name last_name db = Some s /\
    forall i c, rows_of (A := R4JCriminal) db !! i = Some c -> crm_slug c <> s.
Proof.
  unfold generate_unique_slug. cbv zeta. set (base := str_or _ _).
  destruct (first_free_found (fun s => qs_exists (all_filter (fun x : R4JCriminal => str_eqb (crm_slug x) s) db))
    (criminal_slug base) (crm_slug <$> qs_list (rows_of db)) base 2) as (s & Hs & Hfree).
  - intros s (i & c & Hc)%qs_exists_spec. apply map_lookup_filter_Some in Hc as [Hi Hs].
    apply bool_decide_eq_true in Hs as <-. apply list_elem_of_fmap_2. unfold qs_list.
    change (i, c).2 with c. change c with ((i, c).2) at 1. apply list_elem_of_fmap_2.
    by apply elem_of_map_to_list.
  - intros y z Hy Hz Heq. unfold criminal_slug in Heq.
    pose proof (parse_digits_pretty false y ltac:(lia)) as Py.
    pose proof (parse_digits_pretty false z ltac:(lia)) as Pz.
    pose proof (after_last_dash_inj _ _ _ _ _ _ Heq Py Pz) as Hc. congruence.
  - exists s. unfold qs_list in Hs. rewrite !length_fmap, length_map_to_list in Hs.
    split; [exact Hs|]. intros i c Hi <-. eapply qs_exists_false; [exact Hfree|].
    apply map_lookup_filter_Some. split; [exact Hi|]. by apply bool_decide_eq_true.
Qed.

(** * What a run that returns does to the state *)

Definition runs {A} (T : R4JDB -> R4JDB -> Prop) (m : RM A) : Prop :=
  forall env db a db', m env db = (Ok a, db') -> T db db'.

Section Runs.
Context (T : R4JDB -> R4JDB -> Prop) `{!PreOrder T}.

Lemma steps_bind {A B} (m : RM A) (k : A -> RM B) :
  runs T m -> (forall a, runs T (k a)) -> runs T (m ≫= k).
Proof. intros Hm Hk env db b db' (a & s & H1 & H2)%bind_ok_inv. etrans; [by eapply Hm|by eapply Hk]. Qed.

Lemma runs_pure {A} (m : RM A) : (forall env db, (m env db).2 = db) -> runs T m.
Proof. intros Hm env db a db' Hr. specialize (Hm env db). rewrite Hr in Hm. simpl in Hm. by subst. Qed.

Lemma steps_atomic {A} (m : RM A) : runs T m -> runs T (atomic m).
Proof. intros Hm env db a db' Hr%atomic_ok_inv. by eapply Hm. Qed.

Lemma runs_for_fold {A B} (body : A -> B -> RM A) l acc :
  (forall acc x, x ∈ l -> runs T (body acc x)) -> runs T (for_fold body acc l).
Proof.
  revert acc. induction l as [|x l IH]; intros acc Hbody; simpl; [by apply runs_pure|].
  apply steps_bind; [apply Hbody; by left|]. intros a. apply IH. intros b y Hy. apply Hbody. by right.
Qed.

Lemma runs_create {A} `{Model R4JDB A} (mk : Z -> Z -> A) :
  (forall now db, T db (add_row (mk (next_id (table_of db)) now) db)) -> runs T (create mk : RM A).
Proof. intros HT env db a db' (-> & _ & ->)%create_ok_inv. apply HT. Qed.

Lemma runs_update_row {A} `{Model R4JDB A} i (upd : A -> A) :
  (forall x db, rows_of db !! i = Some x -> T db (set_row i (upd x) db)) ->
  runs T (update_row i upd : RM unit).
Proof. intros HT env db a db' (x & Hx & _ & ->)%update_row_ok_inv. by apply HT. Qed.

Lemma runs_modify (f : R4JDB -> R4JDB) : (forall db, T db (f db)) -> runs T (modify f : RM unit).
Proof. intros HT env db a db' ->%modify_ok_inv. apply HT. Qed.

Lemma runs_get_or_create {A} `{Model R4JDB A} P (mk : Z -> Z -> A) :
  runs T (create mk : RM A) -> runs T (get_or_create P mk : RM (A * bool)).
Proof.
  intros Hc. unfold get_or_create. apply steps_bind; [by apply runs_pure|].
  intros [x|]; [by apply runs_pure|]. apply steps_bind; [by apply steps_atomic|].
  intros y. by apply runs_pure.
Qed.

Lemma runs_objects_get {A} `{Model R4JDB A} i : runs T (objects_get i : RM A).
Proof. intros env db a db' (-> & _)%objects_get_ok_inv. reflexivity. Qed.

Lemma runs_base_get {A} `{Model R4JDB A} i : runs T (base_get i : RM A).
Proof. intros env db a db' (-> & _)%base_get_ok_inv. reflexivity. Qed.

Lemma steps_raise {A} e : runs T (raise e : RM A).
Proof. by intros env db a db'. Qed.

(** Every service is atomic: one that fails leaves the state alone. *)
Lemma run_atomic_at {A} (m : RM A) env db :
  (forall a db', m env db = (Ok a, db') -> T db db') -> T db (run (atomic m) env db).2.
Proof.
  intros Hm. unfold run. rewrite bind_unfold. destruct (atomic m env db) as [[a|e] s] eqn:Hr; simpl.
  - apply atomic_ok_inv in Hr. by eapply Hm.
  - apply atomic_raise_inv in Hr as ->. reflexivity.
Qed.

Lemma run_atomic {A} (m : RM A) env db : runs T m -> T db (run (atomic m) env db).2.
Proof. intros Hm. apply run_atomic_at. intros a s Hr. by eapply Hm. Qed.

Lemma atomic_run {A} (m : RM A) env db : runs T m -> T db (atomic m env db).2.
Proof. intros Hm. apply (atomic_preserves (T db)); [reflexivity|]. intros a s Hr. by eapply Hm. Qed.
End Runs.

Create HintDb runs discriminated.

(** [solve_runs] decomposes a service; what it does to the tables is left to
    the hints of the database [runs]. *)
Ltac solve_runs :=
  repeat first
    [ progress intros
    | solve [auto with runs nocore]
    | apply steps_raise
    | apply runs_objects_get; typeclasses eauto
    | apply runs_base_get; typeclasses eauto
    | apply steps_bind; [typeclasses eauto| |]
    | apply steps_atomic
    | apply runs_get_or_create; [typeclasses eauto|]
    | apply runs_for_fold; [typeclasses eauto|]
    | apply runs_pure; [typeclasses eauto|first [done|intros ? ?; unfold raise_if; by case_match]]
    | case_match ].

(** The bodies of the services. *)
Ltac open_services :=
  unfold create_criminal, update_criminal, soft_delete_criminal, publish_criminal, unpublish_criminal,
    add_alias, remove_alias, add_phone, update_phone, remove_phone, add_social, update_social,
    remove_social, add_photo, set_primary_photo, remove_photo, add_attachment, remove_attachment,
    record_evidence_custody_review, upsert_field_visibility, submit_report, request_report_cancel,
    approve_report_cancel, reject_report_cancel, review_report, set_or_update_bounty,
    request_bounty_cancel, approve_bounty_cancel, reject_bounty_cancel, move_bounty.

(** The parts that services share. *)
Ltac open_parts :=
  unfold save_report, for_each, submit_field_change, submit_alias, submit_phone, submit_social,
    submit_attachment, apply_field_changes_to_criminal, review_changes, save_change,
    apply_suggestion_decisions, save_suggestion, apply_alias_suggestion, apply_phone_suggestion,
    apply_social_suggestion, promote_report_attachment, demote, promote, finalize_evidence_hash,
    save_hash, create_custody_event, event_target, timezone_now.

Ltac serve_atomic T :=
  open_services; first [apply (run_atomic T) | apply (atomic_run T)].
