(* ===== verification/R4JSample.v ===== *)
(** A concrete site of the reward-for-justice application for the examples and
    the witnesses: the story of one profile, as the sequence of requests that
    makes it, and the database after it. *)

From S2P Require Import Prelude Python Choices Orm Models World Apps.
From S2P Require Import R4JModels R4JFields R4JCriminals R4JReports R4JBounties R4JSystem.
#[local] Open Scope Z_scope.

(** Slugs, hashes and file names are the texts themselves. *)
Definition r4j_env_at (now : Z) : R4JEnv :=
  mkR4JEnv now (fun s => s) (fun s => py_prefix 64 ("#" +:+ s)%string) (fun p => ("r4j/" +:+ p)%string)
    (fun x y => negb (String.ltb y x)).

(** Requests, one a minute. *)
Fixpoint replay (now : Z) (qs : list r4j_request) (db : R4JDB) : R4JDB :=
  match qs with
  | [] => db
  | q :: qs' => replay (now + usec_per_min) qs' (serve q (r4j_env_at now) db).2
  end.

Fixpoint all_admissible (now : Z) (qs : list r4j_request) (db : R4JDB) : Prop :=
  match qs with
  | [] => True
  | q :: qs' => admissible db q /\
                all_admissible (now + usec_per_min) qs' (serve q (r4j_env_at now) db).2
  end.

Lemma replay_reachable qs : forall now db,
  r4j_reachable db -> all_admissible now qs db -> r4j_reachable (replay now qs db).
Proof.
  induction qs as [|q qs IH]; intros now db Hr Ha; [done|]. destruct Ha as [Hq Ha].
  cbn [replay]. apply IH; [by constructor|done].
Qed.

(** ** The story *)

(** The row with key [i], or a given one. *)
Definition row {A} `{Model R4JDB A} (i : Z) (db : R4JDB) (x : A) : A := default x (rows_of db !! i).

(** A profile, as far as the services look at what they are given. *)
Definition profile (i : Z) : R4JCriminal :=
  mkCriminal i "Ali" "Rezaei" "Ali Rezaei" (Some "0012345679"%string) (Some 3653) Gender.MALE
    "IR" "Tehran" "Tehran" "description" "crimes" "" false None (Some 9) 0 0 true 0 0.

Definition a_bounty (i : Z) (status : BountyStatus.t) : R4JBounty :=
  mkBounty i 1 7 60000 status None None "" true 0 0.

Definition evidence_file : Upload := mkUpload "photo.pdf" ["first "; "second"]%string.

Definition tip : Suggestions :=
  mkSuggestions "seen in Shiraz"
    [("city", " Shiraz "); ("birth_date", "last spring"); ("first_name", "Reza")]%string
    ["Ali the Fox"]%string
    [mkPhoneInput "home" "0711234567" true ""]
    [mkSocialInput SocialPlatform.TELEGRAM "@fox" true]
    [mkFileInput evidence_file "a letter" CriminalAttachmentKind.DOCUMENT].

(** An administrator makes the profile and publishes it, without the city; two
    users set bounties; one of them sends a report. *)
Definition story : list r4j_request :=
  [ OnProfile (CreateCriminal (Some 9) "Ali" "Rezaei" Gender.MALE "0012345679" (Some 3653)
      "IR" "Tehran" "Tehran" "description" "crimes" "");
    OnProfile (PublishCriminal (profile 1));
    OnProfile (SetVisibility (profile 1) PublicVisibilityField.CITY false);
    OnProfile (AddPhone (profile 1) "0212345678" "office" true "asked twice");
    OnProfile (AddPhone (profile 1) "0219999999" "home" false "");
    OnProfile (AddAttachment (profile 1) evidence_file "verdict" CriminalAttachmentKind.DOCUMENT
      "" true (Some 9));
    OnBounty (SetBounty 1 7 60000);
    OnBounty (SetBounty 1 8 50000);
    OnBounty (RequestBountyCancel (a_bounty 1 BountyStatus.ACTIVE));
    OnReport (SubmitReport (profile 1) 7 tip) ]%string.

Definition noon : Z := 28333333 * usec_per_min.
Definition story_db : R4JDB := replay noon story empty_db.
Definition story_env : R4JEnv := r4j_env_at (noon + usec_per_hour).

Lemma story_reachable : r4j_reachable story_db.
Proof.
  apply replay_reachable; [constructor|]. cbn [all_admissible story].
  split_and!; try exact I. eexists. split; [vm_compute; reflexivity|reflexivity].
Qed.
