(* ===== verification/R4JCounters.v ===== *)
(** The figures of a profile are exact: along every sequence of requests, also
    where an object in memory is out of date, the counters of a profile are the
    sum and the number of the bounties that count. *)

From S2P Require Import Prelude Python Choices Orm Models World Apps.
From S2P Require Import R4JModels R4JFields R4JCriminals R4JReports R4JBounties R4JSystem R4JSample.
#[local] Open Scope Z_scope.
#[local] Arguments set_row : simpl never.
#[local] Arguments add_row : simpl never.

(** * The invariant *)

Definition totals (c : R4JCriminal) : Z * Z := (crm_total_bounty_toman c, crm_bounties_count c).

Definition exact (db : R4JDB) (i : Z) (c : R4JCriminal) : Prop :=
  crm_total_bounty_toman c = qs_sum bty_amount_toman (live_bounties i db) /\
  crm_bounties_count c = qs_count (live_bounties i db).

(** The counters are exact but for the profiles in [pending]. *)
Record counters_exact (pending : Z -> Prop) (db : R4JDB) : Prop := {
  ce_criminals : table_good (A := R4JCriminal) (table_of db);
  ce_bounties : table_good (A := R4JBounty) (table_of db);
  ce_key : forall j b, rows_of db !! j = Some b -> is_Some (rows (criminals db) !! bty_criminal b);
  ce_exact : forall i c, rows_of db !! i = Some c -> ~ pending i -> exact db i c;
}.

Definition nobody : Z -> Prop := fun _ => False.

(** * What leaves the counters alone *)

(** The bounties are the same, the profiles keep their figures, and new profiles
    start without any. *)
Definition calm (db db' : R4JDB) : Prop :=
  same_table R4JBounty db db' /\
  (table_good (A := R4JCriminal) (table_of db) ->
     table_good (A := R4JCriminal) (table_of db') /\
     next_id (criminals db) <= next_id (criminals db') /\
     (forall i, is_Some (rows (criminals db) !! i) -> is_Some (rows (criminals db') !! i)) /\
     (forall i c', rows (criminals db') !! i = Some c' ->
        (exists c, rows (criminals db) !! i = Some c /\ totals c' = totals c) \/
        (next_id (criminals db) <= i /\ totals c' = (0, 0)))).

#[export] Instance calm_preorder : PreOrder calm.
Proof.
  split.
  - intros db. split; [reflexivity|]. intros Hg. split_and!; eauto; lia.
  - intros db1 db2 db3 [Hb1 H1] [Hb2 H2]. split; [by etrans|].
    intros Hg1. destruct (H1 Hg1) as (Hg2 & Hn1 & Hk1 & Ht1).
    destruct (H2 Hg2) as (Hg3 & Hn2 & Hk2 & Ht2). split_and!; [done|lia|auto|].
    intros i c3 [(c2 & Hc2 & ->)|[Hi ->]]%Ht2; [by apply Ht1|]. right. split; [lia|done].
Qed.

Lemma calm_same db db' :
  same_table R4JBounty db db' -> same_table R4JCriminal db db' -> calm db db'.
Proof.
  intros Hb Hc. split; [done|]. intros Hg. unfold same_table in Hc. simpl in Hc. simpl. rewrite Hc.
  split_and!; eauto; lia.
Qed.

Lemma calm_set_criminal i c c' db :
  rows_of (A := R4JCriminal) db !! i = Some c -> crm_id c' = crm_id c -> totals c' = totals c ->
  calm db (set_row i c' db).
Proof.
  intros Hc Hid Ht. split; [done|]. intros Hg. split_and!; [..|simpl; lia| |].
  - eapply set_row_good; [done|done|]. simpl. rewrite Hid. by apply Hg.
  - intros j Hj. change (rows (criminals ?d)) with (rows_of (A := R4JCriminal) d).
    rewrite rows_of_set_row. destruct (decide (j = i)) as [->|Hne];
      [rewrite lookup_insert_eq; eauto|by rewrite lookup_insert_ne].
  - intros j cj. change (rows (criminals ?d)) with (rows_of (A := R4JCriminal) d).
    rewrite rows_of_set_row.
    intros [[<- <-]|[Hne Hj]]%lookup_insert_Some; left; eauto.
Qed.

Lemma calm_add_criminal c db :
  crm_id c = next_id (table_of (A := R4JCriminal) db) -> totals c = (0, 0) -> calm db (add_row c db).
Proof.
  intros Hid Ht. split; [done|]. intros Hg. split_and!; [by apply add_row_good|simpl; lia| |].
  - intros j Hj. change (rows (criminals ?d)) with (rows_of (A := R4JCriminal) d).
    rewrite rows_of_add_row. destruct (decide (j = next_id (criminals db))) as [->|Hne];
      [simpl; rewrite lookup_insert_eq; eauto|]. by rewrite lookup_insert_ne.
  - intros j cj. change (rows (criminals ?d)) with (rows_of (A := R4JCriminal) d).
    rewrite rows_of_add_row.
    intros [[<- <-]|[Hne Hj]]%lookup_insert_Some; [right; split; [simpl; lia|done]|]. left. eauto.
Qed.

Lemma totals_assign_all fs c : totals (assign_all fs c) = totals c /\ crm_id (assign_all fs c) = crm_id c.
Proof.
  unfold assign_all. revert c. induction fs as [|f fs IH]; intros c; simpl; [done|].
  destruct (IH (assign c f)) as [-> ->]. by destruct f.
Qed.

Lemma totals_saved fs c now :
  totals (assign_all fs c <| crm_updated_at := now |>) = totals c /\
  crm_id (assign_all fs c <| crm_updated_at := now |>) = crm_id c.
Proof. destruct (totals_assign_all fs (c <| crm_updated_at := now |>)) as [-> ->]. done. Qed.

Ltac calm_tables := apply calm_same; red; first [reflexivity|apply other_table].

#[export] Hint Extern 1 (runs calm (create _)) =>
  apply runs_create; intros; first
    [calm_tables | apply calm_add_criminal; reflexivity] : runs.
#[export] Hint Extern 1 (runs calm (update_row _ _)) =>
  apply runs_update_row; intros; first
    [ calm_tables
    | eapply calm_set_criminal; [eassumption|..];
        first [reflexivity|apply totals_saved] ] : runs.
#[export] Hint Extern 1 (runs calm (modify _)) => apply runs_modify; intros; calm_tables : runs.
#[export] Hint Extern 1 (runs calm (update_all _ _)) => apply runs_modify; intros; calm_tables : runs.
#[export] Hint Extern 1 (runs calm (forget _)) => apply runs_modify; intros; calm_tables : runs.
#[export] Hint Extern 1 (runs calm (delete_row _)) => apply runs_modify; intros; calm_tables : runs.

Lemma calm_profile q env db : calm db (serve_profile q env db).2.
Proof. destruct q; cbn [serve_profile serve_report]; serve_atomic calm; open_parts; solve_runs. Qed.

Lemma calm_report q env db : calm db (serve_report q env db).2.
Proof. destruct q; cbn [serve_profile serve_report]; serve_atomic calm; open_parts; solve_runs. Qed.

Lemma same_bounties_live i db db' : same_table R4JBounty db db' -> live_bounties i db' = live_bounties i db.
Proof. intros Hs. by apply objects_filter_ext; [apply same_table_rows|]. Qed.

Lemma no_bounties_yet p i db : counters_exact p db -> next_id (criminals db) <= i -> live_bounties i db = ∅.
Proof.
  intros [Hc Hb Hk _] Hi. apply objects_filter_none. intros j b Hj.
  destruct (Hk j b Hj) as [c Hcr].
  destruct (proj2 Hc _ _ Hcr) as [_ Hlt]. simpl in Hlt. apply andb_false_iff. left. lia.
Qed.

Lemma calm_keeps p db db' : counters_exact p db -> calm db db' -> counters_exact p db'.
Proof.
  intros Hex [Hb Hcalm]. pose proof Hex as [Hc Hg Hk He].
  destruct (Hcalm Hc) as (Hc' & Hn & Hstay & Hrows). split; [done|by rewrite Hb| |].
  - intros j b Hj. rewrite (same_table_rows _ _ Hb) in Hj. apply Hstay. by eapply Hk.
  - intros i c' Hi Hp. unfold exact. rewrite (same_bounties_live i _ _ Hb).
    destruct (Hrows i c' Hi) as [(c & Hci & Ht)|[Hle Ht]]; injection Ht as Ha Hct.
    + rewrite Ha, Hct. by apply He.
    + rewrite (no_bounties_yet p) by done. by rewrite Ha, Hct.
Qed.

(** * Bounties *)

Lemma set_bounty_keeps i b b' db :
  counters_exact nobody db -> rows_of (A := R4JBounty) db !! i = Some b ->
  bty_id b' = bty_id b -> bty_criminal b' = bty_criminal b ->
  counters_exact (eq (bty_criminal b)) (set_row i b' db).
Proof.
  intros [Hc Hb Hk He] Hi Hid Hcr. split; [done| | |].
  - eapply set_row_good; [done|done|]. simpl. rewrite Hid. by apply Hb.
  - intros j x. rewrite rows_of_set_row. change (criminals (set_row i b' db)) with (criminals db).
    intros [[_ <-]|[_ Hj]]%lookup_insert_Some; [rewrite Hcr|]; by eapply Hk.
  - intros k c Hkc Hne. unfold exact, live_bounties.
    rewrite (objects_filter_set_row_out _ db i b' b); [exact (He k c Hkc id)|done|..];
      rewrite ?Hcr; apply andb_false_iff; right; apply andb_false_iff; left; lia.
Qed.

Lemma add_bounty_keeps b db :
  counters_exact nobody db -> bty_id b = next_id (table_of (A := R4JBounty) db) ->
  is_Some (rows (criminals db) !! bty_criminal b) ->
  counters_exact (eq (bty_criminal b)) (add_row b db).
Proof.
  intros [Hc Hb Hk He] Hid Hcr. split; [done|by apply add_row_good| |].
  - intros j x. rewrite rows_of_add_row. change (criminals (add_row b db)) with (criminals db).
    intros [[_ <-]|[_ Hj]]%lookup_insert_Some; [done|by eapply Hk].
  - intros k c Hkc Hne. unfold exact, live_bounties.
    rewrite objects_filter_add_row_out; [exact (He k c Hkc id)|by apply Hb|].
    apply andb_false_iff; right; apply andb_false_iff; left; lia.
Qed.

(** The counters computed again are exact. *)
Lemma sync_keeps c env db u db' :
  counters_exact (eq (crm_id c)) db -> sync_criminal_bounty_counters c env db = (Ok u, db') ->
  counters_exact nobody db'.
Proof.
  intros [Hc Hb Hk He] Hr.
  apply bind_ok_inv in Hr as (total & s & [-> ->]%query_ok_inv & Hr).
  apply bind_ok_inv in Hr as (number & s & [-> ->]%query_ok_inv & Hr).
  apply bind_ok_inv in Hr as (now & s & [-> ->]%now_ok_inv & (x & Hx & _ & ->)%update_row_ok_inv).
  split; [|done| |].
  - eapply set_row_good; [done|exact Hx|]. exact (proj1 (proj2 Hc _ _ Hx)).
  - intros j b Hj. change (rows (criminals ?d)) with (rows_of (A := R4JCriminal) d).
    rewrite rows_of_set_row. destruct (Hk j b Hj) as [y Hy].
    destruct (decide (bty_criminal b = crm_id c)) as [->|Hne];
      [rewrite lookup_insert_eq; eauto|rewrite lookup_insert_ne; [by exists y|done]].
  - intros i y. rewrite rows_of_set_row.
    intros [[<- <-]|[Hne Hi]]%lookup_insert_Some _; [done|]. by apply He.
Qed.

Lemma locked_profile i c env db db' :
  table_good (A := R4JCriminal) (table_of db) -> lock_criminal_for_bounty_sync i env db = (Ok c, db') ->
  db' = db /\ crm_id c = i /\ is_Some (rows (criminals db) !! i).
Proof.
  intros Hg (-> & Hi)%base_get_ok_inv. split; [done|]. split; [by apply Hg|]. by exists c.
Qed.

Lemma set_bounty_ok c u a env db r db' :
  counters_exact nobody db -> set_or_update_bounty c u a env db = (Ok r, db') ->
  counters_exact nobody db'.
Proof.
  intros Hex Hr. pose proof Hex as [Hc Hb Hk _]. unfold set_or_update_bounty in Hr.
  apply atomic_ok_inv in Hr. apply bind_ok_inv in Hr as ([] & s & [_ ->]%raise_if_ok_inv & Hr).
  apply bind_ok_inv in Hr as (cr & s & (-> & Hid & Hsome)%locked_profile & Hr); [|done].
  apply bind_ok_inv in Hr as (ex & s & [Heq ->]%query_ok_inv & Hr).
  apply bind_ok_inv in Hr as (p & s1 & Hp & Hr).
  apply bind_ok_inv in Hr as ([] & s2 & Hsync & [_ ->]%ret_ok_inv).
  eapply sync_keeps; [|exact Hsync]. destruct ex as [b|].
  - symmetry in Heq. apply qs_first_Some in Heq as [i Hi]. apply objects_filter_lookup in Hi as (Hi & _ & Hp').
    apply andb_true_iff in Hp' as [[Hcr _]%andb_true_iff _]. apply Z.eqb_eq in Hcr.
    pose proof (proj2 Hb _ _ Hi) as [Hbi _]. simpl in Hbi.
    apply bind_ok_inv in Hp as ([] & s & [_ ->]%raise_if_ok_inv & Hp).
    apply bind_ok_inv in Hp as (now & s & [-> ->]%now_ok_inv & Hp).
    apply bind_ok_inv in Hp as ([] & s & (x & Hx & _ & ->)%update_row_ok_inv & [_ ->]%ret_ok_inv).
    rewrite Hbi in Hx. rewrite Hi in Hx. injection Hx as <-. rewrite <- Hcr, Hbi.
    by apply set_bounty_keeps.
  - apply bind_ok_inv in Hp as (b & s & (-> & _ & ->)%create_ok_inv & [_ ->]%ret_ok_inv).
    apply (add_bounty_keeps (mkBounty _ _ _ _ _ _ _ _ _ _ _) db Hex); [done|]. change (is_Some (rows (criminals db) !! crm_id cr)). by rewrite Hid.
Qed.

(** The object in memory only has to name the profile of its row. *)
Lemma move_bounty_ok b from e upd env db r db' :
  (forall now x, bty_id (upd now x) = bty_id x /\ bty_criminal (upd now x) = bty_criminal x) ->
  read_before same_profile db b -> counters_exact nobody db ->
  move_bounty b from e upd env db = (Ok r, db') -> counters_exact nobody db'.
Proof.
  intros Hupd (row & Hrow & Hsame) Hex Hr. pose proof Hex as [Hc Hb Hk _].
  apply atomic_ok_inv in Hr. apply bind_ok_inv in Hr as ([] & s & [_ ->]%raise_if_ok_inv & Hr).
  apply bind_ok_inv in Hr as (cr & s & (-> & Hid & _)%locked_profile & Hr); [|done].
  apply bind_ok_inv in Hr as (lb & s & (-> & Hlb & _)%objects_get_ok_inv & Hr).
  apply bind_ok_inv in Hr as (now & s & [-> ->]%now_ok_inv & Hr).
  apply bind_ok_inv in Hr as ([] & s & (x & Hx & _ & ->)%update_row_ok_inv & Hr).
  apply bind_ok_inv in Hr as ([] & s & Hsync & [_ ->]%ret_ok_inv).
  eapply sync_keeps; [|exact Hsync]. simpl in Hrow. rewrite Hrow in Hlb. injection Hlb as <-.
  pose proof (proj2 Hb _ _ Hrow) as [Hbi _]. simpl in Hbi. rewrite Hbi in Hx.
  rewrite Hrow in Hx. injection Hx as <-. rewrite Hid, Hsame, Hbi.
  destruct (Hupd (clock env) (row <| bty_updated_at := clock env |>)) as [Hi' Hc'].
  apply set_bounty_keeps; [done|done|by rewrite Hi'|by rewrite Hc'].
Qed.

Lemma bounty_request_ok q env db :
  admissible db (OnBounty q) -> counters_exact nobody db -> counters_exact nobody (serve_bounty q env db).2.
Proof.
  intros Hadm Hex.
  assert (forall A (m : RM A), (forall r db', m env db = (Ok r, db') -> counters_exact nobody db') ->
            (forall e db', m env db = (Raise e, db') -> db' = db) ->
            counters_exact nobody (run m env db).2) as Hrun.
  { intros A m Hok Hfail. unfold run. rewrite bind_unfold. destruct (m env db) as [[r|e] s] eqn:Hm; simpl.
    - by eapply Hok.
    - by rewrite (Hfail e s). }
  destruct q; cbn [serve_bounty]; apply Hrun;
    try (intros ? ? Hr; by eapply atomic_raise_inv); intros r db' Hr;
    [by eapply set_bounty_ok| |..]; (eapply move_bounty_ok; [|exact Hadm|exact Hex|exact Hr]); done.
Qed.

Lemma empty_counters : counters_exact nobody empty_db.
Proof.
  assert (forall A, rows (mkTable (A := A) ∅ 1) = ∅) as He by done.
  split; [split; [done|]|split; [done|]|..]; intros i x; unfold rows_of; simpl; by rewrite lookup_empty.
Qed.

Lemma reachable_counters db : r4j_reachable db -> counters_exact nobody db.
Proof.
  induction 1 as [|env db q Hr IH Hadm]; [apply empty_counters|]. destruct q as [q|q|q]; cbn [serve].
  - eapply calm_keeps; [exact IH|]. apply calm_profile.
  - eapply calm_keeps; [exact IH|]. apply calm_report.
  - by apply bounty_request_ok.
Qed.

(** C19: the figures of a profile are exact: after any sequence of requests, some of
    which work on objects that are out of date, the total and the number that a
    profile carries are those of its bounties that are active or whose
    cancellation is asked for, so they are what the published profiles are
    annotated with. *)
Theorem bounty_figures_are_exact (db : R4JDB) (i : Z) (c : R4JCriminal) :
  r4j_reachable db -> rows_of db !! i = Some c ->
  crm_total_bounty_toman c = active_bounties_sum c db /\
  crm_bounties_count c = active_bounties_count c db.
Proof.
  intros Hr%reachable_counters Hi. destruct (ce_criminals _ _ Hr) as [_ Hg].
  destruct (Hg i c Hi) as [Hid _]. simpl in Hid. unfold active_bounties_sum, active_bounties_count.
  rewrite Hid. exact (ce_exact _ _ Hr i c Hi id).
Qed.

(** Two bounties count in the story, one of which is to be cancelled. *)
Lemma bounty_figures_are_exact_witness :
  let c := row 1 story_db (profile 1) in
  r4j_reachable story_db /\ (crm_total_bounty_toman c, crm_bounties_count c) = (110000, 2) /\
  crm_total_bounty_toman c = active_bounties_sum c story_db /\
  crm_bounties_count c = active_bounties_count c story_db.
Proof.
  split; [apply story_reachable|]. split; [vm_compute; reflexivity|].
  apply (bounty_figures_are_exact story_db 1); [apply story_reachable|vm_compute; reflexivity].
Defined.
