(* ===== verification/R4JEvidence.v ===== *)
(** The chain of custody: every file that is stored as evidence, official or of a
    report, has an entry in the chain with the hash that the row of the file
    carries; entries are never changed, and only the removal of an official
    document takes entries away. *)

From S2P Require Import Prelude Python Choices Orm Models World Apps.
From S2P Require Import R4JModels R4JFields R4JCriminals R4JReports R4JBounties R4JSystem R4JSample.
#[local] Open Scope Z_scope.
#[local] Arguments set_row : simpl never.
#[local] Arguments add_row : simpl never.

(** * The invariant *)

Abbreviation officials db := (rows_of (A := R4JCriminalAttachment) db).
Abbreviation reporteds db := (rows_of (A := R4JReportAttachment) db).
Abbreviation custody db := (rows_of (A := R4JEvidenceCustodyEvent) db).

(** An entry of the chain is about a file, with a hash. *)
Definition recorded_official (db : R4JDB) (i : Z) (hash : string) : Prop :=
  exists j e, custody db !! j = Some e /\ cus_criminal_attachment e = Some i /\ cus_file_sha256 e = hash.

Definition recorded_reported (db : R4JDB) (i : Z) (hash : string) : Prop :=
  exists j e, custody db !! j = Some e /\ cus_report_attachment e = Some i /\
    cus_criminal_attachment e = None /\ cus_file_sha256 e = hash.

Definition tables_good (db : R4JDB) : Prop :=
  table_good (A := R4JCriminalAttachment) (table_of db) /\
  table_good (A := R4JReportAttachment) (table_of db) /\
  table_good (A := R4JEvidenceCustodyEvent) (table_of db).

Record accounted (db : R4JDB) : Prop := {
  acc_good : tables_good db;
  acc_officials : forall i a, officials db !! i = Some a -> recorded_official db i (cat_file_sha256 a);
  acc_reporteds : forall i a, reporteds db !! i = Some a -> recorded_reported db i (rat_file_sha256 a);
}.

(** * How services change the chain *)

(** Entries stay, the files that stay keep their hash, and new files come with
    an entry. *)
Record grows_to (db db' : R4JDB) : Prop := {
  gr_good : tables_good db';
  gr_custody : forall j e, custody db !! j = Some e -> custody db' !! j = Some e;
  gr_officials : forall i a', officials db' !! i = Some a' ->
    (exists a, officials db !! i = Some a /\ cat_file_sha256 a' = cat_file_sha256 a) \/
    recorded_official db' i (cat_file_sha256 a');
  gr_reporteds : forall i a', reporteds db' !! i = Some a' ->
    (exists a, reporteds db !! i = Some a /\ rat_file_sha256 a' = rat_file_sha256 a) \/
    recorded_reported db' i (rat_file_sha256 a');
  gr_stay : forall i a, reporteds db !! i = Some a ->
    exists a', reporteds db' !! i = Some a' /\ rat_file_sha256 a' = rat_file_sha256 a;
}.

Definition grows (db db' : R4JDB) : Prop := tables_good db -> grows_to db db'.

Lemma recorded_later db db' : (forall j e, custody db !! j = Some e -> custody db' !! j = Some e) ->
  (forall i h, recorded_official db i h -> recorded_official db' i h) /\
  (forall i h, recorded_reported db i h -> recorded_reported db' i h).
Proof. intros Hk. split; intros i h (j & e & Hj & ?); exists j, e; eauto. Qed.

#[export] Instance grows_preorder : PreOrder grows.
Proof.
  split.
  - intros db Hg. split; eauto.
  - intros db1 db2 db3 H12 H23 Hg1. destruct (H12 Hg1) as [Hg2 Hc1 Ho1 Hr1 Hs1].
    destruct (H23 Hg2) as [Hg3 Hc2 Ho2 Hr2 Hs2]. destruct (recorded_later db2 db3 Hc2) as [Hlo Hlr].
    split; [done|auto|..].
    + intros i a3 [(a2 & H2 & ->)|?]%Ho2; [|by right].
      destruct (Ho1 i a2 H2) as [?|?]; [by left|right; auto].
    + intros i a3 [(a2 & H2 & ->)|?]%Hr2; [|by right].
      destruct (Hr1 i a2 H2) as [?|?]; [by left|right; auto].
    + intros i a1 (a2 & H2 & <-)%Hs1. by apply Hs2 in H2 as (a3 & ? & <-); eauto.
Qed.

Lemma grows_accounted db db' : accounted db -> grows db db' -> accounted db'.
Proof.
  intros [Hg Ho Hr] Hgr. destruct (Hgr Hg) as [Hg' Hc Ho' Hr' Hs].
  destruct (recorded_later db db' Hc) as [Hlo Hlr]. split; [done|..].
  - intros i a' [(a & Ha & ->)|?]%Ho'; auto.
  - intros i a' [(a & Ha & ->)|?]%Hr'; auto.
Qed.

(** Nothing happens to the files and the chain. *)
Lemma grows_same db db' : same_table R4JCriminalAttachment db db' ->
  same_table R4JReportAttachment db db' -> same_table R4JEvidenceCustodyEvent db db' -> grows db db'.
Proof.
  intros Ho Hr Hc Hg. split.
  - unfold tables_good. by rewrite Ho, Hr, Hc.
  - intros j e. by rewrite (same_table_rows _ _ Hc).
  - intros i a. rewrite (same_table_rows _ _ Ho). eauto.
  - intros i a. rewrite (same_table_rows _ _ Hr). eauto.
  - intros i a. rewrite (same_table_rows _ _ Hr). eauto.
Qed.

(** A new entry. *)
Lemma grows_add_event e db :
  cus_id e = next_id (table_of (A := R4JEvidenceCustodyEvent) db) -> grows db (add_row e db).
Proof.
  intros He (Hgo & Hgr & Hgc). split; [split_and!; [done|done|by apply add_row_good]| |eauto..].
  intros j x Hj. rewrite rows_of_add_row, lookup_insert_ne; [done|].
  intros <-. by rewrite fresh_key in Hj by apply Hgc.
Qed.

(** A file of a report that keeps its hash. *)
Lemma grows_set_reported i a a' db :
  reporteds db !! i = Some a -> rat_id a' = rat_id a -> rat_file_sha256 a' = rat_file_sha256 a ->
  grows db (set_row i a' db).
Proof.
  intros Ha Hid Hh (Hgo & Hgr & Hgc). split.
  - split_and!; [done| |done]. eapply set_row_good; [done|exact Ha|].
    simpl. rewrite Hid. exact (proj1 (proj2 Hgr _ _ Ha)).
  - done.
  - eauto.
  - intros j b. rewrite rows_of_set_row. intros [[<- <-]|[_ Hj]]%lookup_insert_Some; eauto.
  - intros j b Hj. rewrite rows_of_set_row. destruct (decide (j = i)) as [->|Hne].
    + rewrite lookup_insert_eq. exists a'. split; [done|]. rewrite Ha in Hj. by injection Hj as <-.
    + rewrite lookup_insert_ne by done. eauto.
Qed.

(** A function on the rows of reports' files that keeps hashes: [SET_NULL]. *)
Lemma grows_forget (f : R4JReportAttachment -> R4JReportAttachment) db :
  (forall a, rat_id (f a) = rat_id a /\ rat_file_sha256 (f a) = rat_file_sha256 a) ->
  grows db (with_table (mkTable (f <$> reporteds db) (next_id (report_attachments db))) db).
Proof.
  intros Hf (Hgo & Hgr & Hgc). split; [|done|eauto|..].
  - split_and!; [done| |done]. split; [exact (proj1 Hgr)|]. intros i x Hx. simpl in Hx.
    apply lookup_fmap_Some in Hx as (y & <- & Hy). change (rat_id (f y) = i /\ 0 < i < next_id (report_attachments db)).
    rewrite (proj1 (Hf y)). exact (proj2 Hgr _ _ Hy).
  - intros i a' Ha. left. unfold rows_of in Ha. simpl in Ha.
    apply lookup_fmap_Some in Ha as (y & <- & Hy). exists y. split; [done|apply Hf].
  - intros i a Ha. exists (f a). unfold rows_of. simpl. split; [|apply Hf].
    apply lookup_fmap_Some. by exists a.
Qed.

(** A file that is stored, with the first entry about it. *)
Lemma official_enters db db1 i a' e :
  (tables_good db -> tables_good db1) -> officials db1 = <[i := a']> (officials db) ->
  same_table R4JReportAttachment db db1 -> same_table R4JEvidenceCustodyEvent db db1 ->
  cus_id e = next_id (custody_events db1) -> cus_criminal_attachment e = Some i ->
  cus_file_sha256 e = cat_file_sha256 a' -> grows db (add_row e db1).
Proof.
  intros Hgood Ho Hr Hc He Hei Hh Hg. pose proof (Hgood Hg) as Hg1.
  destruct (grows_add_event e db1 He Hg1) as [Hg2 Hc2 _ _ _]. split; [done|..].
  - intros j x Hj. apply Hc2. by rewrite (same_table_rows _ _ Hc).
  - intros j b. change (officials (add_row e db1)) with (officials db1). rewrite Ho.
    intros [[<- <-]|[_ Hj]]%lookup_insert_Some; [|eauto].
    right. exists (next_id (custody_events db1)), e. split; [|done].
    rewrite rows_of_add_row. apply lookup_insert_eq.
  - intros j b. change (reporteds (add_row e db1)) with (reporteds db1).
    rewrite (same_table_rows _ _ Hr). eauto.
  - intros j b. change (reporteds (add_row e db1)) with (reporteds db1).
    rewrite (same_table_rows _ _ Hr). eauto.
Qed.

Lemma reported_enters db db1 i a' e :
  (tables_good db -> tables_good db1) -> reporteds db1 = <[i := a']> (reporteds db) ->
  (tables_good db -> reporteds db !! i = None) ->
  same_table R4JCriminalAttachment db db1 -> same_table R4JEvidenceCustodyEvent db db1 ->
  cus_id e = next_id (custody_events db1) -> cus_report_attachment e = Some i ->
  cus_criminal_attachment e = None -> cus_file_sha256 e = rat_file_sha256 a' -> grows db (add_row e db1).
Proof.
  intros Hgood Hr Hnew Ho Hc He Hei Hen Hh Hg. pose proof (Hgood Hg) as Hg1. specialize (Hnew Hg).
  destruct (grows_add_event e db1 He Hg1) as [Hg2 Hc2 _ _ _]. split; [done|..].
  - intros j x Hj. apply Hc2. by rewrite (same_table_rows _ _ Hc).
  - intros j b. change (officials (add_row e db1)) with (officials db1).
    rewrite (same_table_rows _ _ Ho). eauto.
  - intros j b. change (reporteds (add_row e db1)) with (reporteds db1). rewrite Hr.
    intros [[<- <-]|[_ Hj]]%lookup_insert_Some; [|eauto].
    right. exists (next_id (custody_events db1)), e. split; [|done].
    rewrite rows_of_add_row. apply lookup_insert_eq.
  - intros j b Hj. change (reporteds (add_row e db1)) with (reporteds db1). rewrite Hr.
    rewrite lookup_insert_ne; [eauto|]. intros <-. by rewrite Hnew in Hj.
Qed.

(** The hash of an upload is recorded when it is stored. *)
Lemma hash_official a file actor env db e db' :
  cat_id a = next_id (criminal_attachments db) ->
  finalize_evidence_hash (official a) file actor env (add_row a db) = (Ok e, db') -> grows db db'.
Proof.
  intros Hid Hr. unfold finalize_evidence_hash in Hr.
  apply bind_ok_inv in Hr as (env' & s & [-> ->]%ask_ok_inv & Hr).
  destruct (hash_file_field env file) as [h z]. apply bind_ok_inv in Hr as (x & s & Hs & Hr).
  apply bind_ok_inv in Hs as (now & s0 & [-> ->]%now_ok_inv & Hs).
  apply bind_ok_inv in Hs as ([] & s1 & (y & Hy & _ & ->)%update_row_ok_inv & [<- ->]%ret_ok_inv).
  rewrite rows_of_add_row, Hid, lookup_insert_eq in Hy. injection Hy as <-.
  apply bind_ok_inv in Hr as (e1 & s2 & (-> & _ & ->)%create_ok_inv & Hr).
  apply bind_ok_inv in Hr as (e2 & s3 & (-> & _ & ->)%create_ok_inv & [_ ->]%ret_ok_inv).
  etrans; [|by apply grows_add_event].
  eapply official_enters; [| |reflexivity|reflexivity|reflexivity|simpl; by rewrite Hid|reflexivity].
  - intros (Hgo & Hgr & Hgc). split_and!; [|done|done]. rewrite Hid.
    eapply set_row_good; [by apply add_row_good| |simpl; exact Hid].
    rewrite rows_of_add_row. apply lookup_insert_eq.
  - rewrite Hid, rows_of_set_row, rows_of_add_row. by rewrite insert_insert_eq.
Qed.

Lemma hash_reported a file actor env db e db' :
  rat_id a = next_id (report_attachments db) ->
  finalize_evidence_hash (reported a) file actor env (add_row a db) = (Ok e, db') -> grows db db'.
Proof.
  intros Hid Hr. unfold finalize_evidence_hash in Hr.
  apply bind_ok_inv in Hr as (env' & s & [-> ->]%ask_ok_inv & Hr).
  destruct (hash_file_field env file) as [h z]. apply bind_ok_inv in Hr as (x & s & Hs & Hr).
  apply bind_ok_inv in Hs as (now & s0 & [-> ->]%now_ok_inv & Hs).
  apply bind_ok_inv in Hs as ([] & s1 & (y & Hy & _ & ->)%update_row_ok_inv & [<- ->]%ret_ok_inv).
  rewrite rows_of_add_row, Hid, lookup_insert_eq in Hy. injection Hy as <-.
  apply bind_ok_inv in Hr as (e1 & s2 & (-> & _ & ->)%create_ok_inv & Hr).
  apply bind_ok_inv in Hr as (e2 & s3 & (-> & _ & ->)%create_ok_inv & [_ ->]%ret_ok_inv).
  etrans; [|by apply grows_add_event].
  eapply reported_enters; [| | |reflexivity..|simpl; by rewrite Hid|reflexivity|reflexivity].
  - intros (Hgo & Hgr & Hgc). split_and!; [done| |done]. rewrite Hid.
    eapply set_row_good; [by apply add_row_good| |simpl; exact Hid].
    rewrite rows_of_add_row. apply lookup_insert_eq.
  - rewrite Hid, rows_of_set_row, rows_of_add_row. by rewrite insert_insert_eq.
  - intros (_ & Hgr & _). exact (fresh_key (A := R4JReportAttachment) db (proj2 Hgr)).
Qed.

(** A file of a report that becomes official keeps the hash of the object. *)
Lemma promote_grows c u a env db a' db' :
  promote_report_attachment c u a env db = (Ok a', db') ->
  grows db db' /\ same_table R4JReportAttachment db db' /\
  rat_id a' = rat_id a /\ rat_file_sha256 a' = rat_file_sha256 a.
Proof.
  intros Hr. apply bind_ok_inv in Hr as (x & s & (-> & _ & ->)%create_ok_inv & Hr).
  apply bind_ok_inv in Hr as (e & s & (-> & _ & ->)%create_ok_inv & [<- ->]%ret_ok_inv).
  split_and!; [|reflexivity..].
  eapply official_enters; [|apply rows_of_add_row|reflexivity|reflexivity|reflexivity|reflexivity|reflexivity].
  intros (Hgo & Hgr & Hgc). split_and!; [by apply add_row_good|done..].
Qed.

(** * The services *)

Ltac grows_tables := apply grows_same; red; first [reflexivity|apply other_table].

#[export] Hint Extern 1 (runs grows (create _)) =>
  apply runs_create; intros; first [grows_tables|apply grows_add_event; reflexivity] : runs.
#[export] Hint Extern 1 (runs grows (update_row _ _)) =>
  apply runs_update_row; intros; grows_tables : runs.
#[export] Hint Extern 1 (runs grows (modify _)) => apply runs_modify; intros; grows_tables : runs.
#[export] Hint Extern 1 (runs grows (update_all _ _)) => apply runs_modify; intros; grows_tables : runs.
#[export] Hint Extern 1 (runs grows (forget _)) => apply runs_modify; intros; grows_tables : runs.
#[export] Hint Extern 1 (runs grows (delete_row _)) => apply runs_modify; intros; grows_tables : runs.

Lemma runs_submit_attachment r f : runs grows (submit_attachment r f).
Proof.
  intros env db [] db' Hr. apply bind_ok_inv in Hr as (env' & s & [-> ->]%ask_ok_inv & Hr).
  apply bind_ok_inv in Hr as (a & s & (-> & _ & ->)%create_ok_inv & Hr).
  apply bind_ok_inv in Hr as (e & s & Hr & [_ ->]%ret_ok_inv). by eapply hash_reported in Hr.
Qed.
#[export] Hint Resolve runs_submit_attachment : runs.

Lemma run_add_attachment c f t k d b u env db : grows db (run (add_attachment c f t k d b u) env db).2.
Proof.
  apply (run_atomic_at grows). intros e db' Hr. apply bind_ok_inv in Hr as (env' & s & [-> ->]%ask_ok_inv & Hr).
  apply bind_ok_inv in Hr as (a & s & (-> & _ & ->)%create_ok_inv & Hr). by eapply hash_official in Hr.
Qed.

Lemma read_before_grows db db' a : tables_good db -> grows db db' ->
  read_before same_file db a -> read_before same_file db' a.
Proof.
  intros Hg Hgr (row & Hrow & Hs). destruct (gr_stay _ _ (Hgr Hg) _ _ Hrow) as (row' & Hrow' & Heq).
  exists row'. split; [done|]. unfold same_file in *. congruence.
Qed.

(** A file of a report that is saved with the hash it was read with. *)
Lemma save_file_grows a env db u db' : tables_good db -> read_before same_file db a ->
  save_suggestion a env db = (Ok u, db') -> grows db db'.
Proof.
  intros Hg (row & Hrow & Hs) Hr. apply bind_ok_inv in Hr as (now & s & [-> ->]%now_ok_inv & Hr).
  apply update_row_ok_inv in Hr as (x & Hx & _ & ->). simpl in Hx, Hrow. unfold rows_of in Hx, Hrow. simpl in Hx, Hrow.
  rewrite Hrow in Hx. injection Hx as <-.
  eapply grows_set_reported; [exact Hrow| |exact Hs]. symmetry. apply Hg in Hrow. exact (proj1 Hrow).
Qed.

(** The decisions about the files of a report. *)
Lemma decide_files_grows c u ds l : forall acc env db r db',
  tables_good db -> Forall (read_before same_file db) l ->
  for_fold (fun statuses s =>
    match decision_for ds (pk (DB := R4JDB) s) with
    | None => mret (statuses ++ [sug_status s])
    | Some d =>
        let s := sug_decide (new_status d) (new_note d) s in
        s ← (if str_eqb (new_status d) APPROVED then promote_report_attachment c u s else mret s);
        _ ← save_suggestion s;
        mret (statuses ++ [sug_status s])
    end) acc l env db = (Ok r, db') -> grows db db'.
Proof.
  induction l as [|a l IH]; intros acc env db r db' Hg Hl Hr; cbn [for_fold] in Hr.
  { apply ret_ok_inv in Hr as [_ ->]. reflexivity. }
  inversion_clear Hl as [|? ? Ha Hl'].
  apply bind_ok_inv in Hr as (acc' & s & Hstep & Hr).
  assert (grows db s) as Hgs; [|etrans; [exact Hgs|]; eapply IH; [exact (gr_good _ _ (Hgs Hg))| |exact Hr];
    eapply Forall_impl; [exact Hl'|]; intros x; by apply read_before_grows].
  clear Hr IH Hl'. destruct (decision_for ds _) as [d|]; [|by apply ret_ok_inv in Hstep as [_ ->]].
  cbv zeta in Hstep. apply bind_ok_inv in Hstep as (a' & s1 & Hp & Hstep).
  apply bind_ok_inv in Hstep as (v & s2 & Hsave & [_ ->]%ret_ok_inv).
  assert (grows db s1 /\ read_before same_file s1 a') as [Hgs1 Ha1].
  { destruct (str_eqb _ _); [|by apply ret_ok_inv in Hp as [<- ->]; split].
    apply promote_grows in Hp as (Hgp & Hsame & Hid & Hh). split; [done|].
    destruct Ha as (row & Hrow & Heq). exists row. rewrite (same_table_rows _ _ Hsame).
    change (reporteds db !! rat_id a' = Some row /\ same_file a' row). unfold same_file in *.
    rewrite Hid, Hh. done. }
  etrans; [exact Hgs1|]. eapply save_file_grows; [exact (gr_good _ _ (Hgs1 Hg))|exact Ha1|exact Hsave].
Qed.

Lemma review_changes_grows ds l : runs grows (review_changes ds l).
Proof. open_parts. solve_runs. Qed.

Lemma apply_changes_grows c l : runs grows (apply_field_changes_to_criminal c l).
Proof. open_parts. solve_runs. Qed.

Lemma decide_aliases_grows c ds l : runs grows (apply_suggestion_decisions (apply_alias_suggestion c) ds l).
Proof. open_parts. solve_runs. Qed.

Lemma decide_phones_grows c ds l : runs grows (apply_suggestion_decisions (apply_phone_suggestion c) ds l).
Proof. open_parts. solve_runs. Qed.

Lemma decide_socials_grows c ds l : runs grows (apply_suggestion_decisions (apply_social_suggestion c) ds l).
Proof. open_parts. solve_runs. Qed.

Lemma save_report_grows r upd : runs grows (save_report r upd).
Proof. open_parts. solve_runs. Qed.

Lemma review_grows d u ds n env db :
  admissible db (OnReport (ReviewReport d u ds n)) -> grows db (serve_report (ReviewReport d u ds n) env db).2.
Proof.
  intros Hl Hg. revert Hg. cbn [serve_report]. apply (run_atomic_at grows). intros r db' Hr Hg.
  apply bind_ok_inv in Hr as ([] & s & [_ ->]%raise_if_ok_inv & Hr).
  apply bind_ok_inv in Hr as (l0 & t0 & H0%review_changes_grows & Hr).
  apply bind_ok_inv in Hr as (l1 & t1 & H1%apply_changes_grows & Hr).
  apply bind_ok_inv in Hr as (s1 & s & [-> ->]%query_ok_inv & Hr).
  apply bind_ok_inv in Hr as (l2 & t2 & H2%decide_aliases_grows & Hr).
  apply bind_ok_inv in Hr as (l3 & t3 & H3%decide_phones_grows & Hr).
  apply bind_ok_inv in Hr as (l4 & t4 & H4%decide_socials_grows & Hr).
  apply bind_ok_inv in Hr as (l5 & t5 & H5 & H6%save_report_grows).
  assert (grows db t4) as Hgr by (do 4 (etrans; [eassumption|]); done).
  pose proof (gr_good _ _ (Hgr Hg)) as Hg4.
  assert (grows db db') as Hall; [|by apply Hall]. etrans; [exact Hgr|]. etrans; [|exact H6].
  eapply decide_files_grows; [exact Hg4| |exact H5].
  eapply Forall_impl; [exact Hl|]. intros a. by apply read_before_grows.
Qed.

Lemma profile_grows q env db :
  (forall a, q <> RemoveAttachment a) -> grows db (serve_profile q env db).2.
Proof.
  intros Hq. destruct q; cbn [serve_profile]; try (by apply run_add_attachment); try (by edestruct Hq);
    serve_atomic grows; open_parts; solve_runs.
Qed.

Lemma report_grows q env db : admissible db (OnReport q) -> grows db (serve_report q env db).2.
Proof.
  destruct q; try apply review_grows; intros _; cbn [serve_report]; serve_atomic grows;
    unfold save_report, for_each, submit_field_change, submit_alias, submit_phone, submit_social,
      timezone_now; solve_runs.
Qed.

Lemma bounty_grows q env db : grows db (serve_bounty q env db).2.
Proof.
  destruct q; cbn [serve_bounty]; serve_atomic grows;
    unfold lock_criminal_for_bounty_sync, sync_criminal_bounty_counters, timezone_now; solve_runs.
Qed.

(** * Removing an official document *)

Definition about (a : R4JCriminalAttachment) (e : R4JEvidenceCustodyEvent) : bool :=
  bool_decide (cus_criminal_attachment e = Some (cat_id a)).

Lemma delete_where_good {A} `{Model R4JDB A} `{!ModelLaws R4JDB A} P db :
  table_good (A := A) (table_of db) -> table_good (A := A) (table_of (delete_where P db)).
Proof.
  intros [Hn Hg]. unfold delete_where. rewrite table_of_with. split; [done|].
  intros i x [Hi _]%map_lookup_filter_Some. by apply Hg.
Qed.

Lemma removal_custody a env db :
  custody (remove_attachment a env db).2 = filter (fun jx => about a jx.2 = false) (custody db).
Proof. reflexivity. Qed.

Lemma removal_officials a env db :
  officials (remove_attachment a env db).2 = filter (fun ix => (cat_id ix.2 =? cat_id a) = false) (officials db).
Proof. reflexivity. Qed.

Lemma removal_reporteds a env db :
  reporteds (remove_attachment a env db).2 = (fun x : R4JReportAttachment =>
    x <| rat_promoted_criminal_attachment := null_if (cat_id a) (rat_promoted_criminal_attachment x) |>)
    <$> reporteds db.
Proof. reflexivity. Qed.

Lemma removal_good a env db : tables_good db -> tables_good (remove_attachment a env db).2.
Proof.
  intros (Hgo & Hgr & Hgc). split_and!.
  - exact (delete_where_good (A := R4JCriminalAttachment) (fun x => cat_id x =? cat_id a) db Hgo).
  - split; [exact (proj1 Hgr)|]. intros i x Hx.
    change (reporteds (remove_attachment a env db).2 !! i = Some x) in Hx.
    rewrite removal_reporteds in Hx. apply lookup_fmap_Some in Hx as (y & <- & Hy). exact (proj2 Hgr _ _ Hy).
  - exact (delete_where_good (A := R4JEvidenceCustodyEvent) (about a) db Hgc).
Qed.

(** The other files keep the entries about them. *)
Lemma removal_accounted a env db : accounted db -> accounted (remove_attachment a env db).2.
Proof.
  intros [Hg Ho Hr]. split; [by apply removal_good|..].
  - intros i x. rewrite removal_officials. intros [Hi Hne]%map_lookup_filter_Some.
    destruct (Ho i x Hi) as (j & e & Hj & He & Hh). exists j, e. split; [|done].
    rewrite removal_custody. apply map_lookup_filter_Some. split; [done|].
    apply bool_decide_eq_false. simpl. rewrite He. intros [= ->]. apply Z.eqb_neq in Hne.
    apply Hne. exact (proj1 (proj2 (proj1 Hg) _ _ Hi)).
  - intros i x. rewrite removal_reporteds. intros (y & <- & Hy)%lookup_fmap_Some.
    destruct (Hr i y Hy) as (j & e & Hj & He & Hn & Hh). exists j, e. split; [|done].
    rewrite removal_custody. apply map_lookup_filter_Some. split; [done|].
    apply bool_decide_eq_false. simpl. by rewrite Hn.
Qed.

(** * Every state that requests reach *)

Lemma empty_accounted : accounted empty_db.
Proof. split; [split_and!; (split; [done|])|..]; intros i x; unfold rows_of; simpl; by rewrite lookup_empty. Qed.

(** A request that keeps what is stored, or the removal of a document. *)
Lemma serve_cases q env db : admissible db q ->
  grows db (serve q env db).2 \/ exists a, q = OnProfile (RemoveAttachment a).
Proof.
  intros Hadm. destruct q as [q|q|q].
  - destruct q; try (by right; eexists); left; by apply profile_grows.
  - left. by apply report_grows.
  - left. apply bounty_grows.
Qed.

Lemma reachable_accounted db : r4j_reachable db -> accounted db.
Proof.
  induction 1 as [|env db q Hr IH Hadm]; [apply empty_accounted|].
  destruct (serve_cases q env db Hadm) as [Hgr|[a ->]]; [by eapply grows_accounted|].
  by apply removal_accounted.
Qed.

(** C16: the chain of custody is complete, and grows but for one service: whatever
    requests came before, every stored file, official or of a report, has an entry
    about it with the very hash that its row carries, and a further request leaves
    every entry as it is, unless it removes an official document, which takes
    no other entries than those about that document along. *)
Theorem custody_is_complete_and_grows (db : R4JDB) (env : R4JEnv) (q : r4j_request) :
  r4j_reachable db -> admissible db q ->
  (forall i a, rows_of db !! i = Some a -> recorded_official db i (cat_file_sha256 a)) /\
  (forall i a, rows_of db !! i = Some a -> recorded_reported db i (rat_file_sha256 a)) /\
  (forall j e, custody db !! j = Some e ->
     custody (serve q env db).2 !! j = Some e \/
     exists a, q = OnProfile (RemoveAttachment a) /\ about a e = true).
Proof.
  intros Hr Hadm. pose proof (reachable_accounted db Hr) as [Hg Ho Hrep]. split_and!; [exact Ho|exact Hrep|].
  intros j e Hj. destruct (serve_cases q env db Hadm) as [Hgr|[a ->]].
  - left. exact (gr_custody _ _ (Hgr Hg) _ _ Hj).
  - destruct (about a e) eqn:Hab; [right; eauto|]. left. cbn [serve serve_profile].
    rewrite removal_custody. by apply map_lookup_filter_Some.
Qed.

(** The removal of the document of the story: two entries go, the two about the
    file of the report stay. *)
Lemma custody_is_complete_and_grows_witness :
  let q := OnProfile (RemoveAttachment (row 1 story_db
    (mkCriminalAttachment 1 1 "" CriminalAttachmentKind.DOCUMENT "" "" true None "" 0 true 0 0))) in
  r4j_reachable story_db /\ admissible story_db q /\
  (size (custody story_db), size (custody (serve q story_env story_db).2)) = (4%nat, 2%nat) /\
  forall j e, custody story_db !! j = Some e ->
    custody (serve q story_env story_db).2 !! j = Some e \/
    exists a, q = OnProfile (RemoveAttachment a) /\ about a e = true.
Proof.
  split; [apply story_reachable|]. split; [exact I|]. split; [vm_compute; reflexivity|].
  refine (proj2 (proj2 (custody_is_complete_and_grows story_db story_env _ _ _)));
    [apply story_reachable|exact I].
Defined.
