(* ===== verification/R4JPublic.v ===== *)
(** What the public learns about a profile: the detail that is served depends on
    the public part of the database alone. *)

From S2P Require Import Prelude Python Choices Orm Models World Apps.
From S2P Require Import R4JModels R4JFields R4JCriminals R4JReports R4JBounties R4JSystem R4JSample.
From stdpp Require Import sorting.
#[local] Open Scope Z_scope.

(** * The public part of the database *)

(** The rows that satisfy [P], without what [f] takes away. *)
Definition only {A} (P : A -> bool) (f : A -> A) (t : Table A) : Table A :=
  mkTable (f <$> filter (fun ix => P ix.2 = true) (rows t)) 1.

Definition overrides_of (criminal : Z) (db : R4JDB) : list R4JCriminalFieldVisibility :=
  qs_list (objects_filter (fun v => vis_criminal v =? criminal) db).

Definition field_is_public (db : R4JDB) (criminal : Z) : PublicVisibilityField.t -> bool :=
  compute_visibility_map (overrides_of criminal db).

(** A profile without the fields that are not public, and without its author
    and the time of its last change. *)
Definition conceal (public : PublicVisibilityField.t -> bool) (c : R4JCriminal) : R4JCriminal :=
  let text f (s : string) := if public f then s else EmptyString in
  mkCriminal (crm_id c) (crm_first_name c) (crm_last_name c) (crm_slug c)
    (if public PublicVisibilityField.NATIONAL_CODE then crm_national_code c else None)
    (if public PublicVisibilityField.BIRTH_DATE then crm_birth_date c else None)
    (if public PublicVisibilityField.GENDER then crm_gender c else Gender.UNKNOWN)
    (text PublicVisibilityField.COUNTRY (crm_country c))
    (text PublicVisibilityField.PROVINCE (crm_province c))
    (text PublicVisibilityField.CITY (crm_city c))
    (text PublicVisibilityField.DESCRIPTION (crm_description c))
    (text PublicVisibilityField.CRIMES_SUMMARY (crm_crimes_summary c))
    (text PublicVisibilityField.OTHER_INFO (crm_other_info c))
    (crm_is_published c) (crm_published_at c) None (crm_total_bounty_toman c) (crm_bounties_count c)
    (crm_is_active c) (crm_created_at c) 0.

Definition conceal_phone (p : R4JCriminalPhone) : R4JCriminalPhone :=
  p <| pho_notes := EmptyString |> <| pho_updated_at := 0 |>.

Definition conceal_social (s : R4JCriminalSocial) : R4JCriminalSocial := s <| soc_updated_at := 0 |>.

Definition conceal_attachment (a : R4JCriminalAttachment) : R4JCriminalAttachment :=
  a <| cat_uploaded_by := None |> <| cat_file_sha256 := EmptyString |> <| cat_file_size := 0 |>
    <| cat_updated_at := 0 |>.

(** A profile with this key is published. *)
Definition public_profile (db : R4JDB) (criminal : Z) : bool :=
  qs_exists (all_filter (fun c => is_published c && (crm_id c =? criminal)) db).

(** What may be known: the published profiles, with the rows about them that are
    public; nothing of the reports, the custody of evidence and who set a bounty. *)
Definition public_part (db : R4JDB) : R4JDB :=
  let pub := public_profile db in
  let nothing {A} : Table A := mkTable ∅ 1 in
  mkR4JDB
    (only is_published (fun c => conceal (field_is_public db (crm_id c)) c) (criminals db))
    (only (fun a => pub (ali_criminal a)) (fun a => a) (aliases db))
    (only (fun p => pub (pho_criminal p) && pho_is_public p) conceal_phone (phones db))
    (only (fun s => pub (soc_criminal s) && soc_is_public s) conceal_social (socials db))
    (only (fun p => pub (img_criminal p)) (fun p => p) (photos db))
    (only (fun a => pub (cat_criminal a) && cat_is_public a) conceal_attachment (criminal_attachments db))
    (only (fun v => pub (vis_criminal v)) (fun v => v) (field_visibility db))
    nothing nothing nothing nothing nothing nothing nothing nothing.

Definition public_view (env : R4JEnv) (key : Z + string) (db : R4JDB) : option PublicCriminal :=
  to_representation <$> get_public_criminal_detail env key db.

(** * The view is a function of the public part *)

(** A query that only finds rows that are kept, on columns that are kept. *)
Lemma objects_filter_only {A} `{Model R4JDB A} (P Q : A -> bool) (f : A -> A) (db db' : R4JDB) :
  rows_of db' = rows (only Q f (table_of db)) ->
  (forall x, is_active (f x) = is_active x) -> (forall x, P (f x) = P x) ->
  (forall x, P x = true -> Q x = true) ->
  objects_filter P db' = f <$> objects_filter P db.
Proof.
  intros Hr Hact HP HQ. unfold objects_filter. rewrite Hr. unfold only. simpl. rewrite map_filter_fmap. f_equal.
  rewrite map_filter_filter. apply map_filter_ext. intros i x _. simpl. rewrite Hact, HP.
  split; [by intros [? _]|]. intros Hx. split; [done|]. apply andb_true_iff in Hx as [_ Hx]. by apply HQ.
Qed.

Lemma objects_filter_kept {A} `{Model R4JDB A} (P Q : A -> bool) (db db' : R4JDB) :
  rows_of db' = rows (only Q (fun x => x) (table_of db)) ->
  (forall x, P x = true -> Q x = true) ->
  objects_filter P db' = objects_filter P db.
Proof. intros Hr HQ. rewrite (objects_filter_only P Q (fun x => x) db) by done. apply map_fmap_id. Qed.

Lemma find_published_part key db :
  find_published key (public_part db) =
  (fun c => conceal (field_is_public db (crm_id c)) c) <$> find_published key db.
Proof.
  unfold find_published. rewrite <-qs_first_fmap by done. f_equal. unfold all_filter.
  change (rows_of (A := R4JCriminal) (public_part db)) with
    ((fun c => conceal (field_is_public db (crm_id c)) c) <$>
      filter (fun ix : Z * R4JCriminal => is_published ix.2 = true) (rows_of db)).
  rewrite map_filter_fmap. f_equal. rewrite map_filter_filter. apply map_filter_ext. intros i x _. simpl.
  change (is_published (conceal ?v x)) with (is_published x).
  split; [by intros [? _]|]. intros Hx. split; [done|]. by apply andb_true_iff in Hx as [? _].
Qed.

Lemma found_is_public key db c : find_published key db = Some c -> public_profile db (crm_id c) = true.
Proof.
  intros [i Hi]%qs_first_Some. apply map_lookup_filter_Some in Hi as [Hi [Hp _]%andb_true_iff].
  unfold public_profile, qs_exists. apply bool_decide_eq_true. intros He.
  assert (all_filter (fun c' => is_published c' && (crm_id c' =? crm_id c)) db !! i = Some c) as Hl;
    [|by rewrite He, lookup_empty in Hl].
  apply map_lookup_filter_Some. split; [done|]. simpl in *. by rewrite Hp, Z.eqb_refl.
Qed.

Lemma overrides_part i db : public_profile db i = true -> overrides_of i (public_part db) = overrides_of i db.
Proof.
  intros Hi. unfold overrides_of. f_equal. eapply objects_filter_kept; [reflexivity|].
  intros v Hv%Z.eqb_eq. cbn beta. by rewrite Hv.
Qed.

(** The rows about a published profile, in an order that what is taken away
    does not change. *)
Lemma rows_part {A B} `{Model R4JDB A} (P Q : A -> bool) (f : A -> A) (le : A -> A -> bool) (g : A -> B) db :
  rows_of (public_part db) = rows (only Q f (table_of db)) ->
  (forall x, is_active (f x) = is_active x) -> (forall x, P (f x) = P x) ->
  (forall x, P x = true -> Q x = true) ->
  (forall x y, le (f x) (f y) = le x y) -> (forall x, g (f x) = g x) ->
  map g (ordered_by le (qs_list (objects_filter P (public_part db)))) =
  map g (ordered_by le (qs_list (objects_filter P db))).
Proof.
  intros Hr Hact HP HQ Hle Hg. rewrite (objects_filter_only P Q f db) by done.
  rewrite qs_list_fmap, (ordered_by_fmap f le le) by done.
  etrans; [apply map_map|]. by apply map_ext.
Qed.

Lemma representation_part env c db : public_profile db (crm_id c) = true ->
  to_representation (read_detail env (conceal (field_is_public db (crm_id c)) c) (public_part db)) =
  to_representation (read_detail env c db).
Proof.
  intros Hc. set (v := field_is_public db (crm_id c)). unfold to_representation, shown, read_detail. cbn [
    pd_criminal pd_photos pd_phones pd_socials pd_attachments pd_aliases pd_field_visibility].
  change (crm_id (conceal v c)) with (crm_id c).
  change (qs_list (objects_filter (fun x => vis_criminal x =? crm_id c) ?d)) with (overrides_of (crm_id c) d).
  rewrite (overrides_part _ _ Hc). change (compute_visibility_map (overrides_of (crm_id c) db)) with v.
  unfold photos_of. unfold conceal. cbn -[v map ordered_by qs_list objects_filter public_part].
  f_equal; try by case_match.
  all: eapply rows_part; [reflexivity|done|done| |done|done]; intros x Hx; cbn beta.
  1, 5: by apply Z.eqb_eq in Hx as ->.
  all: apply andb_true_iff in Hx as [->%Z.eqb_eq ->]; by rewrite Hc.
Qed.

Lemma view_of_public_part env key db : public_view env key db = public_view env key (public_part db).
Proof.
  unfold public_view, get_public_criminal_detail. rewrite find_published_part.
  destruct (find_published key db) as [c|] eqn:Hf; [|done]. cbn. f_equal. symmetry.
  apply representation_part. by eapply found_is_public.
Qed.

(** C18: the detail of a profile is not a channel: two databases that agree in their
    public part (the published profiles without the fields whose visibility is
    off, the telephone numbers, accounts and documents that are marked as public,
    the names and the photos) show the same for every profile that is looked up,
    by key or by slug, and whatever reports, hidden columns, private rows,
    evidence or bounties tell them apart. *)
Theorem public_detail_reveals_no_more (env : R4JEnv) (db1 db2 : R4JDB) (key : Z + string) :
  public_part db1 = public_part db2 -> public_view env key db1 = public_view env key db2.
Proof. intros Heq. by rewrite (view_of_public_part env key db1), (view_of_public_part env key db2), Heq. Qed.

(** ** Examples *)

(** The profile moves to another city and gets another national code, which are
    hidden; the private number changes, and the cancellation of the report is asked for. *)
Definition other_db : R4JDB :=
  replay (noon + usec_per_hour)
    [ OnProfile (UpdateCriminal (profile 1) [set_city "Qom"; set_national_code (Some "0000000000")]%string);
      OnProfile (UpdatePhone (mkPhone 2 1 "" "" false "" true 0 0) [set_number "0210000000"]%string);
      OnReport (RequestReportCancel (mkReport 1 1 7 "" ReportStatus.PENDING "" None None None None true 0 0)) ]
    story_db.

Lemma public_detail_reveals_no_more_witness :
  public_part story_db = public_part other_db /\
  crm_city (row 1 story_db (profile 1)) <> crm_city (row 1 other_db (profile 1)) /\
  is_Some (public_view story_env (inl 1) story_db) /\
  public_view story_env (inl 1) story_db = public_view story_env (inl 1) other_db.
Proof.
  assert (public_part story_db = public_part other_db) as Heq by (vm_compute; reflexivity).
  split; [exact Heq|]. split; [vm_compute; discriminate|]. split; [eexists; vm_compute; reflexivity|].
  by apply public_detail_reveals_no_more.
Defined.

(** The cards of the list show the city all the same. *)
Example card_shows_a_hidden_city :
  pub_city <$> public_view story_env (inl 1) story_db = Some None /\
  card_city <$> get_public_criminals_queryset story_db = ["Tehran"%string] /\
  card_city <$> get_public_criminals_queryset other_db = ["Qom"%string].
Proof. vm_compute. done. Qed.
