(* ===== verification/R4JReview.v ===== *)
(** What a review does: the verdict on the report follows from what was decided
    about its parts, the profile gets exactly the approved values that can be
    read, and every part carries its decision. *)

From S2P Require Import Prelude Python Choices Orm Models World Apps.
From S2P Require Import R4JModels R4JFields R4JCriminals R4JReports R4JBounties R4JSystem R4JSample.
From stdpp Require sorting.
#[local] Open Scope Z_scope.
#[local] Arguments set_row : simpl never.
#[local] Arguments add_row : simpl never.

(** * Rows are at their keys *)

Definition well_keyed (db : R4JDB) : Prop :=
  table_good (A := R4JReport) (table_of db) /\ table_good (A := R4JReportFieldChange) (table_of db) /\
  table_good (A := R4JReportAliasSuggestion) (table_of db) /\
  table_good (A := R4JReportPhoneSuggestion) (table_of db) /\
  table_good (A := R4JReportSocialSuggestion) (table_of db) /\
  table_good (A := R4JReportAttachment) (table_of db) /\ table_good (A := R4JCriminal) (table_of db).

Definition keyed (db db' : R4JDB) : Prop := well_keyed db -> well_keyed db'.

#[export] Instance keyed_preorder : PreOrder keyed.
Proof. split; unfold keyed; [intros db; exact id|intros x y z; auto]. Qed.

Lemma table_map_good {A} `{Model R4JDB A} (f : A -> A) (t : Table A) :
  (forall x, pk (DB := R4JDB) (f x) = pk (DB := R4JDB) x) ->
  table_good t -> table_good (mkTable (f <$> rows t) (next_id t)).
Proof.
  intros Hf [Hn Hg]. split; [done|]. intros i x (y & <- & Hy)%lookup_fmap_Some. rewrite Hf. by apply Hg.
Qed.

Lemma assign_all_pk fs (c : R4JCriminal) : pk (DB := R4JDB) (assign_all fs c) = pk (DB := R4JDB) c.
Proof.
  unfold assign_all. revert c. induction fs as [|f fs IH]; intros c; simpl; [done|]. rewrite IH. by destruct f.
Qed.

(** Each of the tables is another one, or its new row is at its key. *)
Ltac keyed_tables := intros (? & ? & ? & ? & ? & ? & ?); split_and!; try assumption.

#[export] Hint Extern 1 (runs keyed (create _)) =>
  apply runs_create; intros; keyed_tables; apply add_row_good; first [assumption|reflexivity] : runs.
#[export] Hint Extern 1 (runs keyed (update_row _ _)) =>
  apply runs_update_row; intros ? ? ?; keyed_tables; (eapply set_row_good; [assumption|eassumption|]);
  match goal with
  | Hg : table_good (table_of ?db), Hx : rows_of ?db !! ?i = Some ?x |- _ =>
      let Hp := fresh in pose proof (proj1 (proj2 Hg _ _ Hx)) as Hp;
      first [exact Hp|(etrans; [apply assign_all_pk|exact Hp])|reflexivity]
  end : runs.
#[export] Hint Extern 1 (runs keyed (modify _)) => apply runs_modify; intros; keyed_tables : runs.
#[export] Hint Extern 1 (runs keyed (update_all _ _)) => apply runs_modify; intros; keyed_tables : runs.
#[export] Hint Extern 1 (runs keyed (forget _)) =>
  apply runs_modify; intros; keyed_tables; (apply table_map_good; [reflexivity|assumption]) : runs.
#[export] Hint Extern 1 (runs keyed (delete_row _)) => apply runs_modify; intros; keyed_tables : runs.

Lemma keyed_profile q env db : keyed db (serve_profile q env db).2.
Proof. destruct q; cbn [serve_profile]; serve_atomic keyed; open_parts; solve_runs. Qed.

Lemma keyed_report q env db : keyed db (serve_report q env db).2.
Proof. destruct q; cbn [serve_report]; serve_atomic keyed; open_parts; solve_runs. Qed.

Lemma keyed_bounty q env db : keyed db (serve_bounty q env db).2.
Proof.
  destruct q; cbn [serve_bounty]; serve_atomic keyed;
    unfold lock_criminal_for_bounty_sync, sync_criminal_bounty_counters, timezone_now; solve_runs.
Qed.

Lemma reachable_keyed db : r4j_reachable db -> well_keyed db.
Proof.
  induction 1 as [|env db q Hr IH _].
  - split_and!; (split; [done|]); intros i x; simpl; by rewrite lookup_empty.
  - destruct q as [q|q|q]; cbn [serve]; [by apply keyed_profile|by apply keyed_report|by apply keyed_bounty].
Qed.

(** * Field changes *)

Abbreviation FC := R4JReportFieldChange.

(** The row of a change is the object, but for the time of its last change. *)
Definition stored (db : R4JDB) (fc : FC) : Prop :=
  exists row : FC, rows_of db !! fch_id fc = Some row /\
    row <| fch_updated_at := 0 |> = fc <| fch_updated_at := 0 |>.

(** What the review leaves of a change that is decided upon, and then applied. *)
Definition decided (ds : list Decision) (fc : FC) : FC :=
  match decision_for ds (fch_id fc) with Some d => decide_change d fc | None => fc end.

Definition applied (fc : FC) : FC :=
  match application fc with Some (Raise e) => refuse_change e fc | _ => fc end.

Definition approval (ds : list Decision) (fc : FC) : option FC :=
  d ← decision_for ds (fch_id fc);
  if str_eqb (new_status d) APPROVED then Some (decide_change d fc) else None.

Definition settled (ds : list Decision) (fc : FC) : FC :=
  match approval ds fc with Some fc' => applied fc' | None => decided ds fc end.

(** The values that the profile gets, in the order of the changes. *)
Definition approved_fields (ds : list Decision) (l : list FC) : list criminal_field :=
  omap (fun fc => match application fc with Some (Ok f) => Some f | _ => None end) (omap (approval ds) l).

(** Only the changes [l] are written, and nothing else. *)
Definition writes_changes (l : list FC) (db db' : R4JDB) : Prop :=
  (exists t, db' = with_table (A := FC) t db) /\
  forall j, j ∉ map fch_id l -> rows_of (A := FC) db' !! j = rows_of db !! j.

(** The columns that a review writes. *)
Definition reviewed_as (fc fc' : FC) : Prop :=
  fc <| fch_status := fch_status fc' |> <| fch_admin_note := fch_admin_note fc' |> = fc'.

Lemma save_change_ok fc fc' env db db' : stored db fc -> reviewed_as fc fc' ->
  save_change fc' env db = (Ok tt, db') -> writes_changes [fc] db db' /\ stored db' fc'.
Proof.
  intros (row & Hrow & Heq) Hrev Hr.
  assert (fch_id fc' = fch_id fc) as Hid by (by rewrite <-Hrev).
  apply bind_ok_inv in Hr as (now & s & [-> ->]%now_ok_inv & (x & Hx & _ & ->)%update_row_ok_inv).
  rewrite Hid, Hrow in Hx. injection Hx as <-. split.
  - split; [by eexists|]. intros j Hj. rewrite rows_of_set_row, lookup_insert_ne; [done|].
    intros <-. apply Hj. rewrite Hid. apply list_elem_of_here.
  - eexists. rewrite rows_of_set_row, lookup_insert_eq. split; [done|].
    destruct row, fc, fc'. lazy in Heq, Hrev |- *. congruence.
Qed.

Section Loop.
Context {A : Type} (body : A -> FC -> RM A) (step : A -> FC -> A) (g : FC -> FC).
Hypothesis body_ok : forall acc fc env db acc' db',
  body acc fc env db = (Ok acc', db') ->
  acc' = step acc fc /\ ((db' = db /\ g fc = fc) \/ save_change (g fc) env db = (Ok tt, db')).
Hypothesis g_reviewed : forall fc, reviewed_as fc (g fc).

Lemma body_writes acc fc env db acc' db' : stored db fc -> body acc fc env db = (Ok acc', db') ->
  acc' = step acc fc /\ writes_changes [fc] db db' /\ stored db' (g fc).
Proof.
  intros Hst [Hacc [[-> Hg]|Hs]]%body_ok; (split; [done|]).
  - rewrite Hg. split; [|done]. split; [by exists (table_of db); destruct db|done].
  - by eapply save_change_ok.
Qed.

(** Each change of a loop is written once, so it ends as its turn leaves it. *)
Lemma loop_writes l : forall acc env db acc' db',
  NoDup (map fch_id l) -> Forall (stored db) l -> for_fold body acc l env db = (Ok acc', db') ->
  acc' = fold_left step l acc /\ writes_changes l db db' /\ Forall (fun fc => stored db' (g fc)) l.
Proof.
  induction l as [|fc l IH]; intros acc env db acc' db' Hnd Hst Hr; cbn [for_fold] in Hr.
  { apply ret_ok_inv in Hr as [<- ->]. split; [done|]. split; [|done].
    split; [by exists (table_of db); destruct db|done]. }
  apply bind_ok_inv in Hr as (acc1 & s & Hb & Hr). inversion_clear Hst as [|? ? Hfc Hl].
  apply NoDup_cons in Hnd as [Hfresh Hnd].
  apply (body_writes _ _ _ _ _ _ Hfc) in Hb as (-> & [[t ->] Hsame] & Hg).
  set (s := with_table t db) in *.
  assert (forall x, x ∈ l -> fch_id x ∉ map fch_id [fc]) as Hne.
  { intros x Hx [Heq|[]%not_elem_of_nil]%elem_of_cons. apply Hfresh. rewrite <-Heq.
    apply list_elem_of_fmap. by exists x. }
  apply IH in Hr as (-> & [[t' Ht'] Hsame'] & Hg'); [|done|].
  - split; [done|]. split; [split|].
    + exists t'. rewrite Ht'. unfold s. apply with_table_with.
    + intros j [Hj1 Hj2]%not_elem_of_cons. rewrite Hsame' by done. apply Hsame. by intros [?|[]%not_elem_of_nil]%elem_of_cons.
    + constructor; [|done]. destruct Hg as (row & Hrow & Heq). exists row. split; [|done].
      rewrite Hsame'; [done|]. by rewrite <-(f_equal fch_id (g_reviewed fc)).
  - apply Forall_forall. intros x Hx. rewrite Forall_forall in Hl.
    destruct (Hl x Hx) as (row & Hrow & Heq). exists row. split; [|done]. rewrite Hsame; [done|]. by apply Hne.
Qed.
End Loop.

Lemma fold_left_omap {A B} (f : A -> option B) l : forall acc,
  fold_left (fun acc x => match f x with Some y => acc ++ [y] | None => acc end) l acc = acc ++ omap f l.
Proof.
  induction l as [|x l IH]; intros acc; cbn; [by rewrite app_nil_r|].
  destruct (f x); rewrite IH; [by rewrite <-app_assoc|done].
Qed.

Lemma review_changes_ok ds l env db ap db' :
  NoDup (map fch_id l) -> Forall (stored db) l -> review_changes ds l env db = (Ok ap, db') ->
  ap = omap (approval ds) l /\ writes_changes l db db' /\ Forall (fun fc => stored db' (decided ds fc)) l.
Proof.
  intros Hnd Hst Hr. apply (loop_writes _
    (fun acc fc => match approval ds fc with Some fc' => acc ++ [fc'] | None => acc end) (decided ds)) in Hr as (-> & H);
    [|intros acc fc env1 db1 acc' db1' Hb|intros fc|done|done].
  - split; [exact (fold_left_omap (approval ds) l [])|done].
  - unfold approval, decided. destruct (decision_for ds (fch_id fc)) as [d|]; simpl in *.
    + apply bind_ok_inv in Hb as ([] & s & Hs & [<- ->]%ret_ok_inv). split; [by case_match|by right].
    + apply ret_ok_inv in Hb as [<- ->]. by split; [|left].
  - unfold reviewed_as, decided. by destruct fc, (decision_for ds _) as [d|].
Qed.

(** A profile, but for the time of its last change. *)
Definition untimed (c : R4JCriminal) : R4JCriminal := c <| crm_updated_at := 0 |>.

Lemma untimed_assign fs c : untimed (assign_all fs c) = assign_all fs (untimed c).
Proof.
  unfold assign_all. revert c. induction fs as [|f fs IH]; intros c; [done|]. simpl. rewrite IH. by destruct f.
Qed.

Definition readable_values (l : list FC) : list criminal_field :=
  omap (fun fc => match application fc with Some (Ok f) => Some f | _ => None end) l.

Lemma apply_changes_ok c x l env db db' :
  NoDup (map fch_id l) -> Forall (stored db) l -> rows_of db !! crm_id c = Some x ->
  apply_field_changes_to_criminal c l env db = (Ok tt, db') ->
  (exists x', rows_of db' !! crm_id c = Some x' /\ untimed x' = assign_all (readable_values l) (untimed x)) /\
  Forall (fun fc => stored db' (applied fc)) l /\
  (forall j, j ∉ map fch_id l -> rows_of (A := FC) db' !! j = rows_of db !! j).
Proof.
  intros Hnd Hst Hx Hr. apply bind_ok_inv in Hr as (fields & s & Hloop & Hr).
  apply (loop_writes _ (fun acc fc =>
      match (match application fc with Some (Ok f) => Some f | _ => None end) with
      | Some f => acc ++ [f] | None => acc end) applied) in Hloop as (Hf & [[t ->] Hsame] & Hap);
    [|intros acc fc env1 db1 acc' db1' Hb|intros fc|done|done].
  - rewrite (fold_left_omap _ l []) in Hf. simpl in Hf. fold (readable_values l) in Hf. subst fields.
    destruct (readable_values l) as [|f fs] eqn:Hfs.
    { apply ret_ok_inv in Hr as [_ ->]. split; [|done]. by exists x. }
    apply bind_ok_inv in Hr as (now & s' & [-> ->]%now_ok_inv & (y & Hy & _ & ->)%update_row_ok_inv).
    assert (y = x) as -> by (change (rows_of db !! crm_id c = Some y) in Hy; congruence).
    split; [|done]. eexists. rewrite rows_of_set_row, lookup_insert_eq. split; [done|].
    by rewrite untimed_assign.
  - unfold applied. destruct (application fc) as [[f|e]|].
    + apply ret_ok_inv in Hb as [<- ->]. by split; [|left].
    + apply bind_ok_inv in Hb as ([] & s1 & Hs & [<- ->]%ret_ok_inv). split; [done|by right].
    + apply ret_ok_inv in Hb as [<- ->]. by split; [|left].
  - unfold reviewed_as, applied. by destruct fc, (application _) as [[f|e]|].
Qed.

(** * Suggestions *)

(** What the columns of a suggestion mean to the review. *)
Class SuggestionLaws (A : Type) `{Model R4JDB A, Suggestion A} (owner : A -> Z) : Prop := {
  same_suggestion : A -> A -> Prop := fun x y =>
    pk (DB := R4JDB) x = pk (DB := R4JDB) y /\ owner x = owner y /\
    is_active (DB := R4JDB) x = is_active (DB := R4JDB) y;
  decide_keeps : forall s n x, same_suggestion (sug_decide s n x) x;
  touch_keeps : forall now x, same_suggestion (sug_touch now x) x /\ sug_status (sug_touch now x) = sug_status x;
}.

#[export] Instance alias_laws : SuggestionLaws R4JReportAliasSuggestion als_report.
Proof. by split. Qed.
#[export] Instance phone_laws : SuggestionLaws R4JReportPhoneSuggestion phs_report.
Proof. by split. Qed.
#[export] Instance social_laws : SuggestionLaws R4JReportSocialSuggestion sos_report.
Proof. by split. Qed.
#[export] Instance attachment_laws : SuggestionLaws R4JReportAttachment rat_report.
Proof. by split. Qed.

Section Decisions.
Context {A : Type} `{!Model R4JDB A, !ModelLaws R4JDB A, !Suggestion A} (owner : A -> Z).
Context `{!SuggestionLaws A owner} (apply : A -> RM A) (ds : list Decision).
Hypothesis apply_ok : forall a env db a' db', apply a env db = (Ok a', db') ->
  same_table A db db' /\ same_suggestion (owner := owner) a' a.

(** The row of a suggestion after its decision. *)
Definition ends_as (db : R4JDB) (a : A) (status : string) : Prop :=
  exists a', rows_of db !! pk (DB := R4JDB) a = Some a' /\ same_suggestion (owner := owner) a' a /\
    sug_status a' = status.

(** One turn of the loop. *)
Let turn (statuses : list string) (s : A) : RM (list string) :=
  match decision_for ds (pk (DB := R4JDB) s) with
  | None => mret (statuses ++ [sug_status s])
  | Some d =>
      let s := sug_decide (new_status d) (new_note d) s in
      s ← (if str_eqb (new_status d) APPROVED then apply s else mret s);
      _ ← save_suggestion s;
      mret (statuses ++ [sug_status s])
  end.

Lemma decision_ok a env db statuses sts db' :
  rows_of db !! pk (DB := R4JDB) a = Some a -> turn statuses a env db = (Ok sts, db') ->
  exists st, sts = statuses ++ [st] /\ ends_as db' a st /\
    forall j, j <> pk (DB := R4JDB) a -> rows_of (A := A) db' !! j = rows_of db !! j.
Proof.
  intros Ha Hr. unfold turn in Hr. destruct (decision_for ds _) as [d|].
  - cbv zeta in Hr. apply bind_ok_inv in Hr as (s & db1 & Hs & Hr).
    apply bind_ok_inv in Hr as ([] & db2 & Hsave & [<- ->]%ret_ok_inv).
    assert (same_table A db db1 /\ same_suggestion (owner := owner) s a) as [Hsame (Hp & Ho & Hact)].
    { destruct (decide_keeps (owner := owner) (new_status d) (new_note d) a) as (H1 & H2 & H3).
      destruct (str_eqb _ _).
      - apply apply_ok in Hs as (Hsame & Hp & Ho & Hact). split; [done|]. split_and!; congruence.
      - apply ret_ok_inv in Hs as [<- ->]. done. }
    apply bind_ok_inv in Hsave as (now & s' & [-> ->]%now_ok_inv & (y & Hy & _ & ->)%update_row_ok_inv).
    destruct (touch_keeps (owner := owner) (clock env) s) as [(H1 & H2 & H3) Hst].
    exists (sug_status s). split; [done|]. split.
    + exists (sug_touch (clock env) s). rewrite rows_of_set_row, Hp, lookup_insert_eq.
      split; [done|]. split; [|done]. split_and!; congruence.
    + intros j Hj. rewrite rows_of_set_row, lookup_insert_ne by congruence. by rewrite (same_table_rows _ _ Hsame).
  - apply ret_ok_inv in Hr as [<- ->]. exists (sug_status a). split; [done|]. split; [|done].
    exists a. split; [done|]. by split.
Qed.

Lemma decisions_loop l : forall acc env db sts db',
  NoDup (map (pk (DB := R4JDB)) l) -> Forall (fun a => rows_of db !! pk (DB := R4JDB) a = Some a) l ->
  for_fold turn acc l env db = (Ok sts, db') ->
  exists new, sts = acc ++ new /\ Forall2 (ends_as db') l new /\
    forall j, j ∉ map (pk (DB := R4JDB)) l -> rows_of (A := A) db' !! j = rows_of db !! j.
Proof.
  induction l as [|a l IH]; intros acc env db sts db' Hnd Hl Hr; cbn [for_fold] in Hr.
  { apply ret_ok_inv in Hr as [<- ->]. exists []. by rewrite app_nil_r. }
  apply bind_ok_inv in Hr as (acc1 & db1 & Hb & Hr). inversion_clear Hl as [|? ? Ha Hl'].
  apply NoDup_cons in Hnd as [Hfresh Hnd]. apply (decision_ok _ _ _ _ _ _ Ha) in Hb as (st & -> & Hst & Hsame).
  apply IH in Hr as (new & -> & Hnew & Hsame'); [|done|].
  - exists (st :: new). rewrite <-app_assoc. split; [done|]. split.
    + constructor; [|done]. destruct Hst as (a' & Ha' & Hr'). exists a'. by rewrite Hsame'.
    + intros j [Hj1 Hj2]%not_elem_of_cons. by rewrite Hsame', Hsame.
  - apply Forall_forall. intros x Hx. rewrite Forall_forall in Hl'. rewrite Hsame; [by apply Hl'|].
    intros Heq. apply Hfresh. rewrite <-Heq. apply list_elem_of_fmap. by exists x.
Qed.

(** The statuses that are reported are those of the rows. *)
Definition status_stored (report : Z) (db : R4JDB) (st : string) : Prop :=
  exists j (a : A), rows_of db !! j = Some a /\ owner a = report /\ is_active (DB := R4JDB) a = true /\
    sug_status a = st.

Lemma decisions_statuses report l env db sts db' :
  table_good (A := A) (table_of db) ->
  (forall a, a ∈ l <-> exists j, rows_of db !! j = Some a /\ owner a = report /\ is_active (DB := R4JDB) a = true) ->
  NoDup (map (pk (DB := R4JDB)) l) ->
  apply_suggestion_decisions apply ds l env db = (Ok sts, db') ->
  forall st, st ∈ sts <-> status_stored report db' st.
Proof.
  intros [_ Hg] Hl Hnd Hr.
  assert (forall a, a ∈ l -> rows_of db !! pk (DB := R4JDB) a = Some a) as Hrows.
  { intros a (j & Hj & _)%Hl. by rewrite (proj1 (Hg _ _ Hj)). }
  apply decisions_loop in Hr as (new & -> & Hnew & Hsame); [|done|by apply Forall_forall].
  intros st. simpl. split.
  - intros Hst. apply list_elem_of_lookup in Hst as [k Hk].
    destruct (Forall2_lookup_r _ _ _ _ _ Hnew Hk) as (a & Ha & a' & Ha' & (Hp & Ho & Hact) & Hs).
    apply list_elem_of_lookup_2, Hl in Ha as (_ & _ & Hor & Hac). exists (pk (DB := R4JDB) a), a'.
    split_and!; congruence.
  - intros (j & a' & Ha' & Ho & Hact & Hs).
    destruct (decide (j ∈ map (pk (DB := R4JDB)) l)) as [Hj|Hj].
    + apply list_elem_of_fmap in Hj as (a & -> & Ha). apply list_elem_of_lookup in Ha as [k Hk].
      destruct (Forall2_lookup_l _ _ _ _ _ Hnew Hk) as (st' & Hst' & a'' & Ha'' & _ & Hs').
      apply list_elem_of_lookup_2 in Hst'. congruence.
    + rewrite Hsame in Ha' by done. exfalso. apply Hj, list_elem_of_fmap. exists a'.
      split; [symmetry; by apply Hg|]. apply Hl. by exists j.
Qed.
End Decisions.

(** * What is read before a review *)

Section Listed.
Context {A : Type} `{!Model R4JDB A} (le : A -> A -> bool) (owner : A -> Z) (report : Z) (db : R4JDB).
Let listed := ordered_by le (qs_list (objects_filter (fun a => owner a =? report) db)).

Lemma elem_of_listed a : a ∈ listed <->
  exists j, rows_of db !! j = Some a /\ owner a = report /\ is_active (DB := R4JDB) a = true.
Proof.
  unfold listed, qs_list. rewrite elem_of_ordered, list_elem_of_fmap. split.
  - intros ([j a'] & -> & Hj%elem_of_map_to_list). apply objects_filter_lookup in Hj as (Hj & Hact & Ho%Z.eqb_eq).
    by exists j.
  - intros (j & Hj & Ho & Hact). exists (j, a). split; [done|]. apply elem_of_map_to_list.
    apply objects_filter_lookup. split_and!; [done|done|by apply Z.eqb_eq].
Qed.

Lemma listed_keys : table_good (A := A) (table_of db) -> NoDup (map (pk (DB := R4JDB)) listed).
Proof.
  intros [_ Hg]. unfold listed, ordered_by. change (map ?f ?l) with (f <$> l). rewrite sorting.merge_sort_Permutation.
  unfold qs_list. set (m := objects_filter _ db).
  assert (pk (DB := R4JDB) <$> (map_to_list m).*2 = (map_to_list m).*1) as ->; [|apply NoDup_fst_map_to_list].
  rewrite <-list_fmap_compose. apply list_fmap_ext. intros k [j a] Hj. simpl.
  apply list_elem_of_lookup_2, elem_of_map_to_list, objects_filter_lookup in Hj as [Hj _]. by apply Hg.
Qed.
End Listed.

Lemma report_read i env db d db' : well_keyed db -> get_admin_report_by_id i env db = (Ok (Some d), db') ->
  db' = db /\ rows_of db !! i = Some (rd_report d) /\ rep_id (rd_report d) = i /\
  rows_of db !! crm_id (rd_criminal d) = Some (rd_criminal d) /\
  rd_field_changes d = changes_of i db /\
  rd_alias_suggestions d = rows_by_key (fun s => als_report s =? i) db /\
  rd_phone_suggestions d = rows_by_key (fun s => phs_report s =? i) db /\
  rd_social_suggestions d = rows_by_key (fun s => sos_report s =? i) db /\
  rd_attachments d = ordered_by newest_first (qs_list (objects_filter
    (fun a : R4JReportAttachment => rat_report a =? i) db)).
Proof.
  intros Hg Hr. apply bind_ok_inv in Hr as (found & s & [-> ->]%query_ok_inv & Hr).
  destruct (qs_first _) as [r|] eqn:Hf; [|by apply ret_ok_inv in Hr as [? _]].
  apply qs_first_Some in Hf as [j Hj]. apply objects_filter_lookup in Hj as (Hj & _ & Hid%Z.eqb_eq).
  apply bind_ok_inv in Hr as (c & s & (-> & Hc)%base_get_ok_inv & Hr).
  apply query_ok_inv in Hr as [[= ->] ->]. cbn [rd_report rd_criminal rd_field_changes
    rd_alias_suggestions rd_phone_suggestions rd_social_suggestions rd_attachments].
  destruct Hg as (Hgr & _ & _ & _ & _ & _ & Hgc).
  assert (j = i) as ->. { pose proof (proj1 (proj2 Hgr _ _ Hj)) as Hp. simpl in Hp. congruence. }
  split_and!; try done. by rewrite (proj1 (proj2 Hgc _ _ Hc) : crm_id c = _).
Qed.

(** * The verdict *)

Section Verdict.
Implicit Types l : list string.

Lemma str_eqb_iff (a b : string) : str_eqb a b = true <-> a = b.
Proof. apply bool_decide_eq_true. Qed.

Lemma all_of_true v l : all_of v l = true <-> forall st, st ∈ l -> st = v.
Proof.
  unfold all_of. rewrite forallb_forall. split; intros Hl st Hst.
  - symmetry. apply str_eqb_iff, Hl. by apply list_elem_of_In.
  - apply str_eqb_iff. symmetry. apply Hl. by apply list_elem_of_In.
Qed.

Lemma some_of_true v l : existsb (str_eqb v) l = true <-> v ∈ l.
Proof.
  rewrite existsb_exists. split.
  - intros (st & Hst & ->%str_eqb_iff). by apply list_elem_of_In.
  - intros Hv. exists v. split; [by apply list_elem_of_In|by apply str_eqb_iff].
Qed.

(** The verdict, by the statuses that occur. *)
Definition verdict_of (occurs : string -> Prop) (v : ReportStatus.t) : Prop :=
  (v = ReportStatus.APPROVED <-> forall st, occurs st -> st = APPROVED) /\
  (v = ReportStatus.PARTIALLY_APPROVED <-> occurs APPROVED /\ exists st, occurs st /\ st <> APPROVED) /\
  (v = ReportStatus.REJECTED <-> ~ occurs APPROVED /\ exists st, occurs st).

Lemma final_status_verdict l : verdict_of (fun st => st ∈ l) (final_status l).
Proof.
  unfold final_status, verdict_of. destruct (all_of APPROVED l) eqn:Ha.
  { pose proof (proj1 (all_of_true _ _) Ha) as Ha'. split_and!; (split; [done|]); [done| |].
    - intros (_ & st & Hst & Hne). by apply Ha' in Hst.
    - intros (Hn & st & Hst). destruct Hn. by rewrite <-(Ha' st). }
  assert (exists st, st ∈ l /\ st <> APPROVED) as (st & Hst & Hne).
  { destruct (decide (Exists (fun st => st <> APPROVED) l)) as [He|He]; [by apply Exists_exists in He|].
    exfalso. apply Bool.not_true_iff_false in Ha. apply Ha, (proj2 (all_of_true _ _)). intros st Hst.
    destruct (decide (st = APPROVED)) as [?|Hne]; [done|]. destruct He. apply Exists_exists. by exists st. }
  destruct (all_of REJECTED l) eqn:Hr; [|destruct (existsb (str_eqb APPROVED) l) eqn:He].
  - pose proof (proj1 (all_of_true _ _) Hr) as Hr'. split_and!; (split; [try done|]).
    + intros Hall. by apply Hall in Hst.
    + intros [Hap _]. by apply Hr' in Hap.
    + intros _. split; [|by exists st]. intros Hap. by apply Hr' in Hap.
    + done.
  - apply some_of_true in He. split_and!; (split; [try done|]).
    + intros Hall. by apply Hall in Hst.
    + intros _. eauto.
    + done.
    + by intros [? _].
  - assert (APPROVED ∉ l) as Hn by (intros Hap%some_of_true; congruence). split_and!; (split; [try done|]).
    + intros Hall. by apply Hall in Hst.
    + by intros [? _].
    + intros _. eauto.
    + done.
Qed.

Lemma verdict_of_ext (P Q : string -> Prop) v : (forall st, P st <-> Q st) -> verdict_of P v -> verdict_of Q v.
Proof. unfold verdict_of. intros HPQ. by setoid_rewrite HPQ. Qed.
End Verdict.

(** * What each step of a review touches *)

Inductive part : Set :=
| on_reports | on_changes | on_alias_suggestions | on_phone_suggestions | on_social_suggestions
| on_report_files | on_profiles.

#[export] Instance part_eq : EqDecision part.
Proof. solve_decision. Defined.

Definition same_part (p : part) (db db' : R4JDB) : Prop :=
  match p with
  | on_reports => same_table R4JReport db db'
  | on_changes => same_table R4JReportFieldChange db db'
  | on_alias_suggestions => same_table R4JReportAliasSuggestion db db'
  | on_phone_suggestions => same_table R4JReportPhoneSuggestion db db'
  | on_social_suggestions => same_table R4JReportSocialSuggestion db db'
  | on_report_files => same_table R4JReportAttachment db db'
  | on_profiles => same_table R4JCriminal db db'
  end.

Definition touches (w : list part) (db db' : R4JDB) : Prop := forall p, p ∉ w -> same_part p db db'.

#[export] Instance touches_preorder w : PreOrder (touches w).
Proof.
  split; [by intros db []|]. intros x y z Hxy Hyz p Hp. specialize (Hxy p Hp). specialize (Hyz p Hp).
  destruct p; simpl in *; by etrans.
Qed.

Lemma touches_trans w1 w2 x y z : touches w1 x y -> touches w2 y z -> touches (w1 ++ w2) x z.
Proof.
  intros Hxy Hyz p Hp. assert (same_part p x y) as H1 by (apply Hxy; set_solver).
  assert (same_part p y z) as H2 by (apply Hyz; set_solver). destruct p; simpl in *; by etrans.
Qed.

Ltac touched := intros [] Hp; first [reflexivity|by destruct Hp; set_solver].

#[export] Hint Extern 1 (runs (touches _) (create _)) => apply runs_create; intros; touched : runs.
#[export] Hint Extern 1 (runs (touches _) (update_row _ _)) => apply runs_update_row; intros; touched : runs.

Lemma apply_changes_touches c l : runs (touches [on_changes; on_profiles]) (apply_field_changes_to_criminal c l).
Proof. open_parts. solve_runs. Qed.

Lemma decide_aliases_touches c ds l :
  runs (touches [on_alias_suggestions]) (apply_suggestion_decisions (apply_alias_suggestion c) ds l).
Proof. open_parts. solve_runs. Qed.

Lemma decide_phones_touches c ds l :
  runs (touches [on_phone_suggestions]) (apply_suggestion_decisions (apply_phone_suggestion c) ds l).
Proof. open_parts. solve_runs. Qed.

Lemma decide_socials_touches c ds l :
  runs (touches [on_social_suggestions]) (apply_suggestion_decisions (apply_social_suggestion c) ds l).
Proof. open_parts. solve_runs. Qed.

Lemma decide_files_touches c u ds l :
  runs (touches [on_report_files]) (apply_suggestion_decisions (promote_report_attachment c u) ds l).
Proof. open_parts. solve_runs. Qed.

Lemma save_report_touches r upd : runs (touches [on_reports]) (save_report r upd).
Proof. open_parts. solve_runs. Qed.

Lemma changes_touch l db db' : writes_changes l db db' -> touches [on_changes] db db'.
Proof. intros [[t ->] _]. touched. Qed.

(** Applying a suggestion keeps the suggestions, and what identifies this one. *)
Lemma alias_applied c a env db a' db' : apply_alias_suggestion c a env db = (Ok a', db') ->
  same_table R4JReportAliasSuggestion db db' /\ same_suggestion (owner := als_report) a' a.
Proof.
  intros Hr. split; [|by apply bind_ok_inv in Hr as (f & s & _ & [<- _]%ret_ok_inv)].
  assert (runs (touches []) (apply_alias_suggestion c a)) as Ht by (unfold apply_alias_suggestion; solve_runs).
  by apply (Ht _ _ _ _ Hr on_alias_suggestions), not_elem_of_nil.
Qed.

Lemma phone_applied c a env db a' db' : apply_phone_suggestion c a env db = (Ok a', db') ->
  same_table R4JReportPhoneSuggestion db db' /\ same_suggestion (owner := phs_report) a' a.
Proof.
  intros Hr. split; [|by apply bind_ok_inv in Hr as (f & s & _ & [<- _]%ret_ok_inv)].
  assert (runs (touches []) (apply_phone_suggestion c a)) as Ht by (unfold apply_phone_suggestion; solve_runs).
  by apply (Ht _ _ _ _ Hr on_phone_suggestions), not_elem_of_nil.
Qed.

Lemma social_applied c a env db a' db' : apply_social_suggestion c a env db = (Ok a', db') ->
  same_table R4JReportSocialSuggestion db db' /\ same_suggestion (owner := sos_report) a' a.
Proof.
  intros Hr. split; [|by apply bind_ok_inv in Hr as (f & s & _ & [<- _]%ret_ok_inv)].
  assert (runs (touches []) (apply_social_suggestion c a)) as Ht by (unfold apply_social_suggestion; solve_runs).
  by apply (Ht _ _ _ _ Hr on_social_suggestions), not_elem_of_nil.
Qed.

Lemma file_promoted c u a env db a' db' : promote_report_attachment c u a env db = (Ok a', db') ->
  same_table R4JReportAttachment db db' /\ same_suggestion (owner := rat_report) a' a.
Proof.
  intros Hr. assert (runs (touches []) (promote_report_attachment c u a)) as Ht
    by (unfold promote_report_attachment, create_custody_event; solve_runs).
  split; [by apply (Ht _ _ _ _ Hr on_report_files), not_elem_of_nil|].
  apply bind_ok_inv in Hr as (f & s & _ & Hr). by apply bind_ok_inv in Hr as (e & s' & _ & [<- _]%ret_ok_inv).
Qed.

(** * The review *)

(** A status that some part of a report has. *)
Definition part_status (report : Z) (db : R4JDB) (st : string) : Prop :=
  (exists j (c : FC), rows_of db !! j = Some c /\ fch_report c = report /\ fch_is_active c = true /\
     fch_status c = st) \/
  status_stored als_report report db st \/ status_stored phs_report report db st \/
  status_stored sos_report report db st \/ status_stored rat_report report db st.

Lemma status_stored_ext {A} `{Model R4JDB A, Suggestion A} (owner : A -> Z) report db db' st :
  same_table A db db' -> status_stored owner report db st <-> status_stored owner report db' st.
Proof. intros Hs. unfold status_stored. by rewrite (same_table_rows _ _ Hs). Qed.

Lemma approval_id ds fc fc' : approval ds fc = Some fc' -> fch_id fc' = fch_id fc /\ decided ds fc = fc'.
Proof.
  unfold approval, decided. destruct (decision_for ds (fch_id fc)) as [d|]; simpl; [|done].
  case_match; [|done]. by intros [= <-].
Qed.

Lemma approved_ids ds l : map fch_id (omap (approval ds) l) `sublist_of` map fch_id l.
Proof.
  induction l as [|fc l IH]; cbn; [done|]. destruct (approval ds fc) as [fc'|] eqn:Ha.
  - cbn. apply approval_id in Ha as [-> _]. by constructor.
  - by constructor.
Qed.

Lemma ids_unique {A} (f : A -> Z) l x y : NoDup (map f l) -> x ∈ l -> y ∈ l -> f x = f y -> x = y.
Proof.
  induction l as [|z l IH]; [by intros _ ?%not_elem_of_nil|]. intros [Hz Hnd]%NoDup_cons Hx Hy Heq.
  assert (forall w, w ∈ l -> f w <> f z) as Hne.
  { intros w Hw Hwz. apply Hz, list_elem_of_fmap. by exists w. }
  apply elem_of_cons in Hx as [->|Hx], Hy as [->|Hy]; [done|by destruct (Hne y)|by destruct (Hne x)|by apply IH].
Qed.

(** The two loops over the field changes. *)
Lemma changes_settled ds c x l env db ap t0 t1 :
  NoDup (map fch_id l) -> Forall (stored db) l -> rows_of db !! crm_id c = Some x ->
  review_changes ds l env db = (Ok ap, t0) -> apply_field_changes_to_criminal c ap env t0 = (Ok tt, t1) ->
  touches [on_changes; on_profiles] db t1 /\
  (exists x', rows_of t1 !! crm_id c = Some x' /\ untimed x' = assign_all (approved_fields ds l) (untimed x)) /\
  Forall (fun fc => stored t1 (settled ds fc)) l.
Proof.
  intros Hnd Hst Hx H0 H1. pose proof (apply_changes_touches _ _ _ _ _ _ H1) as Ht1.
  apply review_changes_ok in H0 as (-> & Hw & Hdec); [|done..]. pose proof (changes_touch _ _ _ Hw) as Ht0.
  assert (same_table R4JCriminal db t0) as Hsame by (apply (Ht0 on_profiles); clear; set_solver).
  apply same_table_rows in Hsame.
  assert (forall fc fc', fc ∈ l -> approval ds fc = Some fc' -> fc' ∈ omap (approval ds) l) as Hin.
  { intros fc fc' Hfc Ha. apply list_elem_of_omap. by exists fc. }
  apply (apply_changes_ok c x) in H1 as (Hc & Hap & Hrest); [..|by rewrite Hsame].
  - split; [|split].
    + intros p Hp. assert (same_part p db t0) as Hs0 by (apply Ht0; clear -Hp; set_solver). pose proof (Ht1 p Hp) as Hs1.
      destruct p; simpl in *; by etrans.
    + exact Hc.
    + rewrite Forall_forall in Hdec, Hap |- *. intros fc Hfc. unfold settled.
      destruct (approval ds fc) as [fc'|] eqn:Ha; [by eapply Hap, Hin|].
      destruct (Hdec fc Hfc) as (row & Hrow & Heq). exists row. split; [|done]. rewrite Hrest; [done|].
      intros (fc1 & Heq1 & (fc2 & Hfc2 & Ha2)%list_elem_of_omap)%list_elem_of_fmap.
      pose proof (approval_id _ _ _ Ha2) as [Hid2 _].
      assert (fch_id (decided ds fc) = fch_id fc) as Hid by (unfold decided; by destruct (decision_for _ _)).
      assert (fc2 = fc) as ->; [|congruence].
      eapply ids_unique; [exact Hnd|done..|congruence].
  - eapply sublist_NoDup; [exact Hnd|apply approved_ids].
  - apply Forall_forall. intros fc' (fc & Hfc & Ha)%list_elem_of_omap. rewrite Forall_forall in Hdec.
    specialize (Hdec fc Hfc). by rewrite (proj2 (approval_id _ _ _ Ha)) in Hdec.
Qed.

Lemma save_report_ok r upd env db r' db' : rows_of db !! rep_id r = Some r ->
  save_report r upd env db = (Ok r', db') ->
  r' = upd (clock env) r <| rep_updated_at := clock env |> /\ rows_of db' !! rep_id r = Some r'.
Proof.
  intros Hrow Hr. apply bind_ok_inv in Hr as (now & s & [-> ->]%now_ok_inv & Hr).
  apply bind_ok_inv in Hr as ([] & s & (x & Hx & _ & ->)%update_row_ok_inv & [<- ->]%ret_ok_inv).
  split; [done|]. rewrite rows_of_set_row, lookup_insert_eq. congruence.
Qed.

(** The parts of a report, as [get_admin_report_by_id] lists them, and the
    statuses that the decisions about them report. *)
Lemma part_statuses {A} `{Model R4JDB A, !ModelLaws R4JDB A, Suggestion A} (owner : A -> Z)
    `{!SuggestionLaws A owner} le apply ds i db0 env db sts db' :
  (forall a env db a' db', apply a env db = (Ok a', db') ->
     same_table A db db' /\ same_suggestion (owner := owner) a' a) ->
  table_good (A := A) (table_of db0) -> same_table A db0 db ->
  apply_suggestion_decisions apply ds (ordered_by le (qs_list (objects_filter (fun a => owner a =? i) db0)))
    env db = (Ok sts, db') ->
  forall st, st ∈ sts <-> status_stored owner i db' st.
Proof.
  intros Happly Hg Hs. apply (decisions_statuses owner apply ds Happly).
  - unfold same_table in Hs. by rewrite Hs.
  - intros a. rewrite (same_table_rows _ _ Hs). apply elem_of_listed.
  - by apply listed_keys.
Qed.

Lemma change_statuses i db st : st ∈ fch_status <$> changes_of i db <->
  exists j (c : FC), rows_of db !! j = Some c /\ fch_report c = i /\ fch_is_active c = true /\ fch_status c = st.
Proof.
  rewrite list_elem_of_fmap. split.
  - intros (c & -> & (j & Hj & Ho & Hact)%elem_of_listed). by exists j, c.
  - intros (j & c & Hj & Ho & Hact & <-). exists c. split; [done|]. apply elem_of_listed. by exists j.
Qed.

(** The four loops over the suggestions: the statuses are those that are stored
    when they have all ended. *)
Lemma suggestions_settled i u c ds db env t1 s2 t2 s3 t3 s4 t4 s5 t5 :
  well_keyed db -> touches [on_changes; on_profiles] db t1 ->
  apply_suggestion_decisions (apply_alias_suggestion c) (on_aliases ds)
    (rows_by_key (fun s => als_report s =? i) db) env t1 = (Ok s2, t2) ->
  apply_suggestion_decisions (apply_phone_suggestion c) (on_phones ds)
    (rows_by_key (fun s => phs_report s =? i) db) env t2 = (Ok s3, t3) ->
  apply_suggestion_decisions (apply_social_suggestion c) (on_socials ds)
    (rows_by_key (fun s => sos_report s =? i) db) env t3 = (Ok s4, t4) ->
  apply_suggestion_decisions (promote_report_attachment c u) (on_attachments ds)
    (ordered_by newest_first (qs_list (objects_filter
       (fun a : R4JReportAttachment => rat_report a =? i) db))) env t4 = (Ok s5, t5) ->
  touches [on_alias_suggestions; on_phone_suggestions; on_social_suggestions; on_report_files] t1 t5 /\
  forall st, st ∈ (fch_status <$> changes_of i t1) ++ s2 ++ s3 ++ s4 ++ s5 <-> part_status i t5 st.
Proof.
  intros (_ & _ & Hg2 & Hg3 & Hg4 & Hg5 & _) T1 H2 H3 H4 H5.
  pose proof (decide_aliases_touches _ _ _ _ _ _ _ H2) as T2.
  pose proof (decide_phones_touches _ _ _ _ _ _ _ H3) as T3.
  pose proof (decide_socials_touches _ _ _ _ _ _ _ H4) as T4.
  pose proof (decide_files_touches _ _ _ _ _ _ _ _ H5) as T5.
  pose proof (touches_trans _ _ _ _ _ T1 T2) as U2. pose proof (touches_trans _ _ _ _ _ U2 T3) as U3.
  pose proof (touches_trans _ _ _ _ _ U3 T4) as U4.
  pose proof (touches_trans _ _ _ _ _ T4 T5) as V3. pose proof (touches_trans _ _ _ _ _ T3 V3) as V2.
  pose proof (touches_trans _ _ _ _ _ T2 V2) as V1. split; [exact V1|].
  intros st. unfold part_status. rewrite !elem_of_app, change_statuses.
  assert (same_table FC t1 t5) as K1 by (apply (V1 on_changes); clear; set_solver).
  assert (same_table R4JReportAliasSuggestion t2 t5) as K2
    by (apply (V2 on_alias_suggestions); clear; set_solver).
  assert (same_table R4JReportPhoneSuggestion t3 t5) as K3
    by (apply (V3 on_phone_suggestions); clear; set_solver).
  assert (same_table R4JReportSocialSuggestion t4 t5) as K4
    by (apply (T5 on_social_suggestions); clear; set_solver).
  rewrite <-(same_table_rows _ _ K1), <-(status_stored_ext als_report _ _ _ _ K2),
    <-(status_stored_ext phs_report _ _ _ _ K3), <-(status_stored_ext sos_report _ _ _ _ K4).
  erewrite (part_statuses als_report _ _ (on_aliases ds)); [|apply alias_applied|exact Hg2| |exact H2];
    [|apply (T1 on_alias_suggestions); clear; set_solver].
  erewrite (part_statuses phs_report _ _ (on_phones ds)); [|apply phone_applied|exact Hg3| |exact H3];
    [|apply (U2 on_phone_suggestions); clear; set_solver].
  erewrite (part_statuses sos_report _ _ (on_socials ds)); [|apply social_applied|exact Hg4| |exact H4];
    [|apply (U3 on_social_suggestions); clear; set_solver].
  by erewrite (part_statuses rat_report _ _ (on_attachments ds)); [|apply file_promoted|exact Hg5| |exact H5];
    [|apply (U4 on_report_files); clear; set_solver].
Qed.

Lemma part_status_ext i db db' st : touches [on_reports] db db' -> part_status i db st <-> part_status i db' st.
Proof.
  intros T. unfold part_status.
  assert (same_table FC db db') as K1 by (apply (T on_changes); clear; set_solver).
  assert (same_table R4JReportAliasSuggestion db db') as K2
    by (apply (T on_alias_suggestions); clear; set_solver).
  assert (same_table R4JReportPhoneSuggestion db db') as K3
    by (apply (T on_phone_suggestions); clear; set_solver).
  assert (same_table R4JReportSocialSuggestion db db') as K4
    by (apply (T on_social_suggestions); clear; set_solver).
  assert (same_table R4JReportAttachment db db') as K5 by (apply (T on_report_files); clear; set_solver).
  by rewrite (same_table_rows _ _ K1), (status_stored_ext als_report _ _ _ _ K2),
    (status_stored_ext phs_report _ _ _ _ K3), (status_stored_ext sos_report _ _ _ _ K4),
    (status_stored_ext rat_report _ _ _ _ K5).
Qed.

(** C17: a review settles a report. When it succeeds on a report as it is stored, the
    report was pending and carries the reviewer and a verdict that is "approved"
    exactly when every part of it ends approved, "partially approved" when some do
    and some do not, and "rejected" when none does; the profile is what it was but
    for the approved values that can be read, in the order of the fields; and each
    suggested change carries its decision, or is refused with the reason why its
    value cannot be applied. *)
Theorem review_settles_a_report (env : R4JEnv) (db db' : R4JDB) (i u : Z) (d : ReportDetail)
    (ds : Decisions) (note : string) (r : R4JReport) :
  r4j_reachable db -> get_admin_report_by_id i env db = (Ok (Some d), db) ->
  review_report d u ds note env db = (Ok r, db') ->
  rep_status (rd_report d) = ReportStatus.PENDING /\
  rows_of db' !! i = Some r /\ rep_reviewed_by r = Some u /\ rep_admin_note r = note /\
  verdict_of (part_status i db') (rep_status r) /\
  (exists c, rows_of db' !! crm_id (rd_criminal d) = Some c /\
     untimed c = assign_all (approved_fields (on_fields ds) (rd_field_changes d)) (untimed (rd_criminal d))) /\
  Forall (fun fc => stored db' (settled (on_fields ds) fc)) (rd_field_changes d).
Proof.
  intros Hg%reachable_keyed Hread Hr.
  apply report_read in Hread as (_ & Hrow & Hid & Hc & Hfc & Hals & Hphs & Hsos & Hrat); [|done].
  pose proof (proj1 (proj2 Hg)) as Hgf. unfold review_report in Hr. rewrite Hfc, Hals, Hphs, Hsos, Hrat, Hid in Hr.
  apply atomic_ok_inv, bind_ok_inv in Hr as ([] & s & [Hpend ->]%raise_if_ok_inv & Hr).
  apply negb_false_iff, bool_decide_eq_true in Hpend.
  apply bind_ok_inv in Hr as (ap & t0 & H0 & Hr). apply bind_ok_inv in Hr as ([] & t1 & H1 & Hr).
  apply bind_ok_inv in Hr as (s1 & s & [-> ->]%query_ok_inv & Hr).
  apply bind_ok_inv in Hr as (s2 & t2 & H2 & Hr). apply bind_ok_inv in Hr as (s3 & t3 & H3 & Hr).
  apply bind_ok_inv in Hr as (s4 & t4 & H4 & Hr). apply bind_ok_inv in Hr as (s5 & t5 & H5 & H6).
  destruct (changes_settled (on_fields ds) (rd_criminal d) (rd_criminal d) (changes_of i db) env db ap t0 t1)
    as (T1 & (c' & Hc' & Hval) & Hsettled);
    [exact (listed_keys by_field_name fch_report i db Hgf)| |exact Hc|exact H0|exact H1|].
  { apply Forall_forall. intros x (j & Hj & _)%elem_of_listed. exists x. split; [|done].
    by rewrite (proj1 (proj2 Hgf _ _ Hj) : fch_id x = j). }
  destruct (suggestions_settled _ _ _ _ _ _ _ _ _ _ _ _ _ _ _ Hg T1 H2 H3 H4 H5) as [T5 Hstatus].
  pose proof (save_report_touches _ _ _ _ _ _ H6) as T6.
  pose proof (touches_trans _ _ _ _ _ T1 T5) as U5. pose proof (touches_trans _ _ _ _ _ T5 T6) as V1.
  assert (same_table R4JReport db t5) as KR by (apply (U5 on_reports); clear; set_solver).
  assert (same_table R4JCriminal t1 db') as KC by (apply (V1 on_profiles); clear; set_solver).
  assert (same_table FC t1 db') as KF by (apply (V1 on_changes); clear; set_solver).
  apply save_report_ok in H6 as [-> Hr']; [|by rewrite Hid, (same_table_rows _ _ KR)].
  rewrite Hid in Hr'. split_and!; [done|exact Hr'|done|done| | |].
  - eapply verdict_of_ext; [|apply final_status_verdict]. intros st. cbn beta.
    by rewrite Hstatus, (part_status_ext _ _ _ _ T6).
  - exists c'. rewrite Hfc. split; [|exact Hval]. by rewrite (same_table_rows _ _ KC).
  - rewrite Hfc. eapply Forall_impl; [exact Hsettled|]. intros x (row & Hx & Heq). exists row.
    by rewrite (same_table_rows _ _ KF).
Qed.

(** ** An example *)

(** The report of the story: the city is approved, the date is too but cannot be
    read, the name is rejected; what else it suggests is approved. *)
Definition tip_decisions : Decisions :=
  let yes i := mkDecision i (Some APPROVED) None in
  mkDecisions [yes 1; yes 2; mkDecision 3 (Some REJECTED) (Some "no"%string)] [yes 1] [yes 1] [yes 1] [yes 1].

Definition tip_detail : ReportDetail :=
  match get_admin_report_by_id 1 story_env story_db with
  | (Ok (Some d), _) => d
  | _ => mkReportDetail (mkReport 1 1 7 "" ReportStatus.PENDING "" None None None None true 0 0) (profile 1)
           [] [] [] [] []
  end.

Definition reviewed_db : R4JDB := (review_report tip_detail 9 tip_decisions "thanks" story_env story_db).2.
Definition reviewed : R4JReport := row 1 reviewed_db (rd_report tip_detail).

Lemma review_settles_a_report_witness :
  r4j_reachable story_db /\ get_admin_report_by_id 1 story_env story_db = (Ok (Some tip_detail), story_db) /\
  review_report tip_detail 9 tip_decisions "thanks" story_env story_db = (Ok reviewed, reviewed_db) /\
  rep_status reviewed = ReportStatus.PARTIALLY_APPROVED /\
  approved_fields (on_fields tip_decisions) (rd_field_changes tip_detail) = [set_city "Shiraz"] /\
  verdict_of (part_status 1 reviewed_db) (rep_status reviewed) /\
  Forall (fun fc => stored reviewed_db (settled (on_fields tip_decisions) fc)) (rd_field_changes tip_detail).
Proof.
  assert (get_admin_report_by_id 1 story_env story_db = (Ok (Some tip_detail), story_db)) as Hread
    by (vm_compute; reflexivity).
  assert (review_report tip_detail 9 tip_decisions "thanks" story_env story_db = (Ok reviewed, reviewed_db)) as Hr
    by (vm_compute; reflexivity).
  destruct (review_settles_a_report _ _ _ _ _ _ _ _ _ story_reachable Hread Hr) as (_ & _ & _ & _ & Hv & _ & Hf).
  split_and!; [exact story_reachable|exact Hread|exact Hr|vm_compute; reflexivity|vm_compute; reflexivity|exact Hv|exact Hf].
Defined.

(** A report that nothing was decided about is rejected, one that suggests
    nothing is approved. *)
Example undecided_reports :
  final_status [PENDING; PENDING] = ReportStatus.REJECTED /\ final_status [] = ReportStatus.APPROVED.
Proof. split; reflexivity. Qed.
