(* ===== verification/R4JWorkflow.v ===== *)
(** The workflows of reports and bounties: with objects that are up to date a
    status only goes along the edges of its workflow; an object that is out of
    date takes a closed report or bounty back. *)

From S2P Require Import Prelude Python Choices Orm Models World Apps.
From S2P Require Import R4JModels R4JFields R4JCriminals R4JReports R4JBounties R4JSystem R4JSample R4JCounters R4JReview.
#[local] Open Scope Z_scope.
#[local] Arguments set_row : simpl never.
#[local] Arguments add_row : simpl never.

(** * The workflows *)

Inductive report_step : ReportStatus.t -> ReportStatus.t -> Prop :=
| report_stays s : report_step s s
| cancel_report : report_step ReportStatus.PENDING ReportStatus.CANCEL_REQUESTED
| keep_report : report_step ReportStatus.CANCEL_REQUESTED ReportStatus.PENDING
| drop_report : report_step ReportStatus.CANCEL_REQUESTED ReportStatus.CANCELED
| judge_report v : v = ReportStatus.APPROVED \/ v = ReportStatus.PARTIALLY_APPROVED \/ v = ReportStatus.REJECTED ->
    report_step ReportStatus.PENDING v.

Inductive bounty_step : BountyStatus.t -> BountyStatus.t -> Prop :=
| bounty_stays s : bounty_step s s
| cancel_bounty : bounty_step BountyStatus.ACTIVE BountyStatus.CANCEL_REQUESTED
| keep_bounty : bounty_step BountyStatus.CANCEL_REQUESTED BountyStatus.ACTIVE
| drop_bounty : bounty_step BountyStatus.CANCEL_REQUESTED BountyStatus.CANCELED.

(** Every report, and every bounty, stays and takes a step. *)
Definition reports_step (db db' : R4JDB) : Prop :=
  forall i (r : R4JReport), rows_of db !! i = Some r ->
    exists r' : R4JReport, rows_of db' !! i = Some r' /\ report_step (rep_status r) (rep_status r').

Definition bounties_step (db db' : R4JDB) : Prop :=
  forall i (b : R4JBounty), rows_of db !! i = Some b ->
    exists b' : R4JBounty, rows_of db' !! i = Some b' /\ bounty_step (bty_status b) (bty_status b').

(** The object has the status of its row. *)
Definition current_report (db : R4JDB) (r : R4JReport) : Prop :=
  exists row : R4JReport, rows_of db !! rep_id r = Some row /\ rep_status row = rep_status r.

Definition current_bounty (db : R4JDB) (b : R4JBounty) : Prop :=
  exists row : R4JBounty, rows_of db !! bty_id b = Some row /\ bty_status row = bty_status b.

Definition up_to_date (db : R4JDB) (q : r4j_request) : Prop :=
  match q with
  | OnReport (RequestReportCancel r) | OnReport (ApproveReportCancel r _ _)
  | OnReport (RejectReportCancel r _) => current_report db r
  | OnReport (ReviewReport d _ _ _) => current_report db (rd_report d)
  | OnBounty (RequestBountyCancel b) | OnBounty (ApproveBountyCancel b _)
  | OnBounty (RejectBountyCancel b _) => current_bounty db b
  | _ => True
  end.

(** * Requests that leave a table alone *)

#[export] Hint Extern 1 (runs (same_table _) (create _)) => apply runs_create; intros; reflexivity : runs.
#[export] Hint Extern 1 (runs (same_table _) (update_row _ _)) => apply runs_update_row; intros; reflexivity : runs.
#[export] Hint Extern 1 (runs (same_table _) (modify _)) => apply runs_modify; intros; reflexivity : runs.
#[export] Hint Extern 1 (runs (same_table _) (update_all _ _)) => apply runs_modify; intros; reflexivity : runs.
#[export] Hint Extern 1 (runs (same_table _) (forget _)) => apply runs_modify; intros; reflexivity : runs.
#[export] Hint Extern 1 (runs (same_table _) (delete_row _)) => apply runs_modify; intros; reflexivity : runs.

Ltac leaves A := serve_atomic (same_table (ADB := R4JDB) A); open_parts;
  unfold lock_criminal_for_bounty_sync, sync_criminal_bounty_counters, timezone_now; solve_runs.

Lemma profile_keeps_reports q env db : same_table R4JReport db (serve_profile q env db).2.
Proof. destruct q; cbn [serve_profile]; leaves R4JReport. Qed.

Lemma profile_keeps_bounties q env db : same_table R4JBounty db (serve_profile q env db).2.
Proof. destruct q; cbn [serve_profile]; leaves R4JBounty. Qed.

Lemma report_keeps_bounties q env db : same_table R4JBounty db (serve_report q env db).2.
Proof. destruct q; cbn [serve_report]; leaves R4JBounty. Qed.

Lemma bounty_keeps_reports q env db : same_table R4JReport db (serve_bounty q env db).2.
Proof. destruct q; cbn [serve_bounty]; leaves R4JReport. Qed.

Lemma reports_stay db db' : same_table R4JReport db db' -> reports_step db db'.
Proof. intros Hs i r Hi. exists r. rewrite (same_table_rows _ _ Hs). split; [done|constructor]. Qed.

Lemma bounties_stay db db' : same_table R4JBounty db db' -> bounties_step db db'.
Proof. intros Hs i b Hi. exists b. rewrite (same_table_rows _ _ Hs). split; [done|constructor]. Qed.

(** A row that takes a step, the others stay. *)
Lemma report_row_steps i (r r' : R4JReport) db : rows_of db !! i = Some r ->
  report_step (rep_status r) (rep_status r') -> reports_step db (set_row i r' db).
Proof.
  intros Hi Hstep j x Hj. rewrite rows_of_set_row. destruct (decide (j = i)) as [->|Hne].
  - rewrite lookup_insert_eq. rewrite Hi in Hj. injection Hj as <-. eauto.
  - rewrite lookup_insert_ne by done. exists x. split; [done|constructor].
Qed.

Lemma bounty_row_steps i (b b' : R4JBounty) db : rows_of db !! i = Some b ->
  bounty_step (bty_status b) (bty_status b') -> bounties_step db (set_row i b' db).
Proof.
  intros Hi Hstep j x Hj. rewrite rows_of_set_row. destruct (decide (j = i)) as [->|Hne].
  - rewrite lookup_insert_eq. rewrite Hi in Hj. injection Hj as <-. eauto.
  - rewrite lookup_insert_ne by done. exists x. split; [done|constructor].
Qed.

(** * Reports *)

Lemma save_report_steps r upd env db r' db' :
  (forall row : R4JReport, rows_of db !! rep_id r = Some row ->
     report_step (rep_status row) (rep_status (upd (clock env) (row <| rep_updated_at := clock env |>)))) ->
  save_report r upd env db = (Ok r', db') -> reports_step db db'.
Proof.
  intros Hstep Hr. apply bind_ok_inv in Hr as (now & s & [-> ->]%now_ok_inv & Hr).
  apply bind_ok_inv in Hr as ([] & s & (x & Hx & _ & ->)%update_row_ok_inv & [_ ->]%ret_ok_inv).
  eapply report_row_steps; [exact Hx|]. by apply Hstep.
Qed.

(** The status is checked on an object that has the status of its row. *)
Lemma checked_status r s (e : r4j_exc) (env : R4JEnv) db u db1 : current_report db r ->
  raise_if (negb (bool_decide (rep_status r = s))) e env db = (Ok u, db1) ->
  db1 = db /\ exists row : R4JReport, rows_of db !! rep_id r = Some row /\ rep_status row = s.
Proof.
  intros (row & Hrow & Hs) [Hc ->]%raise_if_ok_inv. apply negb_false_iff, bool_decide_eq_true in Hc.
  split; [done|]. exists row. split; [done|congruence].
Qed.

Lemma final_status_judges l : report_step ReportStatus.PENDING (final_status l).
Proof. unfold final_status. constructor. repeat case_match; auto. Qed.

(** A step of a review that leaves the reports alone. *)
Ltac leaves_reports H :=
  match type of H with
  | ?m ?env ?db = (Ok _, ?db') =>
      let Hq := fresh in
      assert (runs (same_table (ADB := R4JDB) R4JReport) m) as Hq by (open_parts; solve_runs);
      apply Hq in H; clear Hq
  end.

Lemma review_steps d u ds n env db r db' : current_report db (rd_report d) ->
  review_report d u ds n env db = (Ok r, db') -> reports_step db db'.
Proof.
  intros Hcur Hr. apply atomic_ok_inv, bind_ok_inv in Hr as ([] & s & Hc & Hr).
  apply (checked_status _ _ _ _ _ _ _ Hcur) in Hc as (-> & row & Hrow & Hs).
  apply bind_ok_inv in Hr as (ap & t0 & H0 & Hr). leaves_reports H0.
  apply bind_ok_inv in Hr as ([] & t1 & H1 & Hr). leaves_reports H1.
  apply bind_ok_inv in Hr as (s1 & s & [-> ->]%query_ok_inv & Hr).
  apply bind_ok_inv in Hr as (s2 & t2 & H2 & Hr). leaves_reports H2.
  apply bind_ok_inv in Hr as (s3 & t3 & H3 & Hr). leaves_reports H3.
  apply bind_ok_inv in Hr as (s4 & t4 & H4 & Hr). leaves_reports H4.
  apply bind_ok_inv in Hr as (s5 & t5 & H5 & Hr). leaves_reports H5.
  assert (same_table R4JReport db t5) as Hsame by (do 6 (etrans; [|eassumption]); reflexivity).
  apply save_report_steps in Hr.
  - intros i x Hi. apply Hr. by rewrite (same_table_rows _ _ Hsame).
  - intros x Hx. rewrite (same_table_rows _ _ Hsame), Hrow in Hx. injection Hx as <-. rewrite Hs.
    apply final_status_judges.
Qed.

Lemma submit_steps c u s env db r db' : table_good (A := R4JReport) (table_of db) ->
  submit_report c u s env db = (Ok r, db') -> reports_step db db'.
Proof.
  intros [_ Hg] Hr. apply atomic_ok_inv in Hr. destruct (reportable_fields _) as [l|name]; [|done].
  apply bind_ok_inv in Hr as (rep & t0 & (_ & _ & ->)%create_ok_inv & Hr).
  match type of Hr with _ _ ?t = _ => assert (same_table R4JReport t db') as Hsame end.
  { match type of Hr with ?m _ _ = _ =>
      assert (runs (same_table (ADB := R4JDB) R4JReport) m) as Hq by (open_parts; solve_runs) end.
    exact (Hq _ _ _ _ Hr). }
  intros i x Hi. exists x. rewrite (same_table_rows _ _ Hsame), rows_of_add_row, lookup_insert_ne.
  - split; [done|constructor].
  - intros <-. by rewrite (fresh_key (A := R4JReport) db Hg) in Hi.
Qed.

(** A service is atomic: it takes a step when it succeeds. *)
Lemma run_steps {A} (T : R4JDB -> R4JDB -> Prop) (m : RM A) env db : Reflexive T ->
  (forall r db', m env db = (Ok r, db') -> T db db') ->
  (forall e db', m env db = (Raise e, db') -> db' = db) -> T db (run m env db).2.
Proof.
  intros Hrefl Hok Hfail. unfold run. rewrite bind_unfold. destruct (m env db) as [[r|e] s] eqn:Hm; simpl.
  - by eapply Hok.
  - by rewrite (Hfail e s).
Qed.

Lemma report_request_steps q env db : table_good (A := R4JReport) (table_of db) ->
  up_to_date db (OnReport q) -> reports_step db (serve_report q env db).2.
Proof.
  intros Hg Hcur. destruct q; cbn [serve_report]; (apply run_steps; [intros x; by apply reports_stay| |]);
    try (intros ? ? Hr; by eapply atomic_raise_inv); intros r db' Hr;
    [by eapply submit_steps| | | |by eapply review_steps];
    apply atomic_ok_inv, bind_ok_inv in Hr as ([] & s & Hc & Hr);
    apply (checked_status _ _ _ _ _ _ _ Hcur) in Hc as (-> & row & Hrow & Hs);
    (eapply save_report_steps; [|exact Hr]); intros x Hx; rewrite Hrow in Hx; injection Hx as <-; rewrite Hs; constructor.
Qed.

(** * Bounties *)

Lemma sync_keeps_bounties c : runs (same_table (ADB := R4JDB) R4JBounty) (sync_criminal_bounty_counters c).
Proof. unfold sync_criminal_bounty_counters, timezone_now. solve_runs. Qed.

Lemma bounties_step_sync db db1 db' : bounties_step db db1 -> same_table R4JBounty db1 db' -> bounties_step db db'.
Proof. intros Hs Hsame i b Hi. rewrite (same_table_rows _ _ Hsame). by apply Hs. Qed.

Lemma move_steps b from e upd env db r db' :
  (forall now x, bty_status x = from -> bounty_step from (bty_status (upd now x))) ->
  table_good (A := R4JBounty) (table_of db) -> current_bounty db b ->
  move_bounty b from e upd env db = (Ok r, db') -> bounties_step db db'.
Proof.
  intros Hupd [_ Hg] (row & Hrow & Hs) Hr.
  apply atomic_ok_inv, bind_ok_inv in Hr as ([] & s & [Hc ->]%raise_if_ok_inv & Hr).
  apply negb_false_iff, bool_decide_eq_true in Hc.
  apply bind_ok_inv in Hr as (c & s & (-> & _)%base_get_ok_inv & Hr).
  apply bind_ok_inv in Hr as (lb & s & (-> & Hlb & _)%objects_get_ok_inv & Hr).
  apply bind_ok_inv in Hr as (now & s & [-> ->]%now_ok_inv & Hr).
  apply bind_ok_inv in Hr as ([] & s & (x & Hx & _ & ->)%update_row_ok_inv & Hr).
  apply bind_ok_inv in Hr as ([] & s & Hsync%sync_keeps_bounties & [_ ->]%ret_ok_inv).
  eapply bounties_step_sync; [|exact Hsync]. eapply bounty_row_steps; [exact Hx|].
  rewrite Hrow in Hlb. injection Hlb as <-.
  rewrite (proj1 (Hg _ _ Hrow) : bty_id row = _), Hrow in Hx. injection Hx as <-.
  assert (bty_status row = from) as Hfrom by congruence. rewrite Hfrom. by apply Hupd.
Qed.

Lemma set_steps c u a env db r db' : table_good (A := R4JBounty) (table_of db) ->
  set_or_update_bounty c u a env db = (Ok r, db') -> bounties_step db db'.
Proof.
  intros [_ Hg] Hr. apply atomic_ok_inv, bind_ok_inv in Hr as ([] & s & [_ ->]%raise_if_ok_inv & Hr).
  apply bind_ok_inv in Hr as (cr & s & (-> & _)%base_get_ok_inv & Hr).
  apply bind_ok_inv in Hr as (ex & s & [_ ->]%query_ok_inv & Hr).
  apply bind_ok_inv in Hr as (p & s1 & Hp & Hr).
  apply bind_ok_inv in Hr as ([] & s2 & Hsync%sync_keeps_bounties & [_ ->]%ret_ok_inv).
  eapply bounties_step_sync; [|exact Hsync]. destruct ex as [b|].
  - apply bind_ok_inv in Hp as ([] & s & [_ ->]%raise_if_ok_inv & Hp).
    apply bind_ok_inv in Hp as (now & s & [-> ->]%now_ok_inv & Hp).
    apply bind_ok_inv in Hp as ([] & s & (x & Hx & _ & ->)%update_row_ok_inv & [_ ->]%ret_ok_inv).
    eapply bounty_row_steps; [exact Hx|]. constructor.
  - apply bind_ok_inv in Hp as (b & s & (_ & _ & ->)%create_ok_inv & [_ ->]%ret_ok_inv).
    intros i x Hi. exists x. rewrite rows_of_add_row, lookup_insert_ne; [split; [done|constructor]|].
    intros <-. by rewrite (fresh_key (A := R4JBounty) db Hg) in Hi.
Qed.

Lemma bounty_request_steps q env db : table_good (A := R4JBounty) (table_of db) ->
  up_to_date db (OnBounty q) -> bounties_step db (serve_bounty q env db).2.
Proof.
  intros Hg Hcur. destruct q; cbn [serve_bounty]; (apply run_steps; [intros x; by apply bounties_stay| |]);
    try (intros ? ? Hr; by eapply atomic_raise_inv); intros r db' Hr;
    [by eapply set_steps|..]; (eapply move_steps; [|exact Hg|exact Hcur|exact Hr]); intros; constructor.
Qed.

(** C36: reports and bounties keep to their workflows: whatever was asked before, a
    request whose object carries the status that is stored moves every report and
    every bounty along an edge of its workflow or not at all, so a report that has
    been judged or canceled, and a bounty that has been canceled, stay so; no row
    is lost. *)
Theorem workflows_are_kept (env : R4JEnv) (db : R4JDB) (q : r4j_request) :
  r4j_reachable db -> up_to_date db q ->
  reports_step db (serve q env db).2 /\ bounties_step db (serve q env db).2.
Proof.
  intros Hr Hcur. pose proof (proj1 (reachable_keyed _ Hr)) as Hgr.
  pose proof (ce_bounties _ _ (reachable_counters _ Hr)) as Hgb. destruct q as [q|q|q]; cbn [serve].
  - split; [apply reports_stay, profile_keeps_reports|apply bounties_stay, profile_keeps_bounties].
  - split; [by apply report_request_steps|apply bounties_stay, report_keeps_bounties].
  - split; [apply reports_stay, bounty_keeps_reports|by apply bounty_request_steps].
Qed.

(** The bounty of the story whose cancellation is asked for is canceled. *)
Lemma workflows_are_kept_witness :
  let q := OnBounty (ApproveBountyCancel (a_bounty 1 BountyStatus.CANCEL_REQUESTED) "done") in
  let db' := (serve q story_env story_db).2 in
  r4j_reachable story_db /\ up_to_date story_db q /\
  (bty_status <$> rows_of db' !! 1) = Some BountyStatus.CANCELED /\
  reports_step story_db db' /\ bounties_step story_db db'.
Proof.
  split; [exact story_reachable|]. split; [eexists; split; [vm_compute; reflexivity|reflexivity]|].
  split; [vm_compute; reflexivity|]. apply workflows_are_kept; [exact story_reachable|].
  eexists. split; [vm_compute; reflexivity|reflexivity].
Defined.

(** ** Objects that are out of date *)

(** Two administrators read the bounty whose cancellation is asked for: one
    approves, then the other rejects, and the canceled bounty counts again. *)
Example a_canceled_bounty_returns :
  let b := a_bounty 1 BountyStatus.CANCEL_REQUESTED in
  let db' := replay (noon + usec_per_hour)
    [OnBounty (ApproveBountyCancel b ""); OnBounty (RejectBountyCancel b "")] story_db in
  (bty_status <$> rows_of db' !! 1) = Some BountyStatus.ACTIVE.
Proof. vm_compute. reflexivity. Qed.

(** The author reads the report while it is pending; it is reviewed and applied;
    then its cancellation is asked for and granted. *)
Example a_judged_report_is_canceled :
  let r := rd_report tip_detail in
  let db' := replay (noon + usec_per_hour)
    [ OnReport (ReviewReport tip_detail 9 tip_decisions "thanks"); OnReport (RequestReportCancel r);
      OnReport (ApproveReportCancel (r <| rep_status := ReportStatus.CANCEL_REQUESTED |>) 9 "") ] story_db in
  (rep_status <$> rows_of db' !! 1, crm_city <$> rows_of db' !! 1) =
  (Some ReportStatus.CANCELED, Some "Shiraz"%string).
Proof. vm_compute. reflexivity. Qed.
