(* ===== verification/Places.v ===== *)
(** The official names of provinces and cities: [src/apps/core/geo/dataset.py]
    and [validators.py].

    A text is here the list of its code points, as Python's [str] is.  The rows
    of the data file are a parameter; what the code derives from them is not.
    A name is found under any spelling that has the same key: Arabic letters,
    spaces, half-spaces and a number at the end do not count. *)

From S2P Require Import Prelude Python Apps Text.
#[local] Open Scope Z_scope.

(** * Keys of comparison *)

(** [_AR_MAP], one replacement after the other *)
Definition arabic_letters : list (Z * Z) := [(1610, 1740); (1603, 1705); (1577, 1607); (1728, 1607)].

Definition persian_letters (l : codes) : codes :=
  fold_left (fun out p => replace_code p.1 p.2 out) arabic_letters l.

(** A character of [_WS_RE]. *)
Definition blank (c : Z) : bool := u_space c || bool_decide (c ∈ [8204; 8206; 8207]).

(** A digit of [_TRAILING_NUM_RE]. *)
Definition counting_digit (c : Z) : bool :=
  ((48 <=? c) && (c <=? 57)) || ((1776 <=? c) && (c <=? 1785)).

Fixpoint drop_digits (l : codes) : codes :=
  match l with
  | c :: l' => if counting_digit c then drop_digits l' else l
  | [] => []
  end.

(** [_TRAILING_NUM_RE.sub("", l)] on a text without white space at its end: the
    number at the end goes, with the white space before it. *)
Definition drop_trailing_number (l : codes) : codes :=
  match rev l with
  | c :: _ => if counting_digit c then rev (drop_space (drop_digits (rev l))) else l
  | [] => l
  end.

(** [_WS_RE.sub(" ", l)]; [inside] is whether the last character read was blank. *)
Fixpoint join_blanks (inside : bool) (l : codes) : codes :=
  match l with
  | [] => []
  | c :: l' =>
      if blank c then (if inside then join_blanks true l' else 32 :: join_blanks true l')
      else c :: join_blanks false l'
  end.

(** [_normalize] *)
Definition normalize_name (l : codes) : codes :=
  strip_codes (join_blanks false (drop_trailing_number (persian_letters (strip_codes l)))).

(** [_compact] *)
Definition compact (l : codes) : codes := List.filter (fun c => negb (blank c)) (normalize_name l).

(** * The index *)

(** A row of the data file. *)
Record place_row : Type := mkPlaceRow { prow_name : codes; prow_tel : codes; prow_cities : list codes }.

Record Province : Type := mkProvince { prv_name : codes; prv_tel_prefix : codes; prv_cities : list codes }.

Definition nonempty (l : codes) : bool := match l with [] => false | _ => true end.

(** Assignment to a key of a [dict], which keeps the order of its keys. *)
Fixpoint dict_set {A} (key : codes) (v : A) (d : list (codes * A)) : list (codes * A) :=
  match d with
  | [] => [(key, v)]
  | (k, w) :: d' => if decide (k = key) then (k, v) :: d' else (k, w) :: dict_set key v d'
  end.

Fixpoint dict_get {A} (key : codes) (d : list (codes * A)) : option A :=
  match d with
  | [] => None
  | (k, v) :: d' => if decide (k = key) then Some v else dict_get key d'
  end.

Section Places.
Variable places : list place_row.

Definition index_row (d : list (codes * Province)) (r : place_row) : list (codes * Province) :=
  let name := strip_codes (prow_name r) in
  if nonempty name then
    dict_set (compact name)
      (mkProvince name (strip_codes (prow_tel r))
         (List.filter nonempty (strip_codes <$> prow_cities r))) d
  else d.

Definition province_index : list (codes * Province) := fold_left index_row places [].

Definition PROVINCE_NAMES : list codes := (fun kv => prv_name kv.2) <$> province_index.

Definition province_entry (v : codes) : option Province := dict_get (compact v) province_index.

Definition normalize_province (v : codes) : codes :=
  match province_entry v with Some e => prv_name e | None => [] end.

Definition is_known_province (v : codes) : bool := nonempty (normalize_province v).

Definition cities_of (province : codes) : list codes :=
  match province_entry province with Some e => prv_cities e | None => [] end.

Definition city_with (key : codes) (cities : list codes) : codes :=
  match List.find (fun c => bool_decide (compact c = key)) cities with Some c => c | None => [] end.

Definition normalize_city (province v : codes) : codes := city_with (compact v) (cities_of province).

Definition is_known_city (province v : codes) : bool := nonempty (normalize_city province v).

(** What is wrong with a pair of names. *)
Inductive place_error : Type := city_without_province | unknown_province | unknown_city.

(** [validate_iran_place] *)
Definition validate_iran_place (province city : codes) : option place_error :=
  let province := strip_codes province in
  let city := strip_codes city in
  if negb (nonempty province) then
    if nonempty city then Some city_without_province else None
  else if negb (is_known_province province) then Some unknown_province
  else if negb (nonempty city) then None
  else if negb (is_known_city (normalize_province province) city) then Some unknown_city
  else None.

(** [validate_place_pair], without the suggestions of its message *)
Definition validate_place_pair (province city : codes) : codes * codes * option place_error :=
  let province_raw := strip_codes province in
  let city_raw := strip_codes city in
  if negb (nonempty province_raw) then
    ([], [], if nonempty city_raw then Some city_without_province else None)
  else
    let province_norm := normalize_province province_raw in
    if negb (nonempty province_norm) then ([], [], Some unknown_province)
    else if negb (nonempty city_raw) then (province_norm, [], None)
    else
      let city_norm := normalize_city province_norm city_raw in
      if nonempty city_norm then (province_norm, city_norm, None)
      else (province_norm, [], Some unknown_city).

(** ** Official names *)

Lemma dict_get_set {A} key key' (v : A) d :
  dict_get key' (dict_set key v d) = if decide (key = key') then Some v else dict_get key' d.
Proof.
  induction d as [|[k w] d IH]; simpl; [repeat case_decide; congruence|].
  repeat (case_decide; simpl); try congruence; rewrite IH; by case_decide.
Qed.

(** Every entry stands under the key of its own name, which is not empty. *)
Definition entry_ok (key : codes) (e : Province) : Prop :=
  key = compact (prv_name e) /\ nonempty (prv_name e) = true.

Lemma index_row_ok d r :
  (forall k e, dict_get k d = Some e -> entry_ok k e) ->
  forall k e, dict_get k (index_row d r) = Some e -> entry_ok k e.
Proof.
  intros Hd k e. unfold index_row. destruct (nonempty _) eqn:Hn; [|apply Hd].
  rewrite dict_get_set. case_decide as Hk; [|apply Hd]. intros [= <-]. by rewrite <- Hk.
Qed.

Lemma province_index_ok k e : dict_get k province_index = Some e -> entry_ok k e.
Proof.
  unfold province_index. assert (forall k e, dict_get k ([] : list (codes * Province)) = Some e -> entry_ok k e)
    as Hd by done.
  revert Hd. generalize (@nil (codes * Province)). induction places as [|r l IH]; intros d Hd; simpl; [apply Hd|].
  apply IH. by apply index_row_ok.
Qed.

(** A name that is known: the official one, which stands under its own key. *)
Lemma known_province_entry v : is_known_province v = true ->
  exists e, province_entry v = Some e /\ normalize_province v = prv_name e /\
    province_entry (prv_name e) = Some e.
Proof.
  unfold is_known_province, normalize_province. destruct (province_entry v) as [e|] eqn:He; [|done].
  intros _. exists e. split_and!; [done..|].
  destruct (province_index_ok _ _ He) as [Hk _]. unfold province_entry in *. by rewrite <- Hk.
Qed.

Lemma official_province v : is_known_province v = true ->
  normalize_province (normalize_province v) = normalize_province v /\
  cities_of (normalize_province v) = cities_of v.
Proof.
  intros (e & He & -> & Ho)%known_province_entry. unfold normalize_province, cities_of. by rewrite He, Ho.
Qed.

Lemma city_with_idem key cities : nonempty (city_with key cities) = true ->
  city_with (compact (city_with key cities)) cities = city_with key cities.
Proof.
  unfold city_with. destruct (List.find _ cities) as [c|] eqn:Hf; [|done]. intros _.
  pose proof (List.find_some _ _ Hf) as [_ Hk%bool_decide_eq_true]. by rewrite Hk, Hf.
Qed.

Lemma official_city p v : is_known_province p = true -> is_known_city (normalize_province p) v = true ->
  normalize_city (normalize_province p) v = normalize_city p v /\
  normalize_city p (normalize_city p v) = normalize_city p v /\ normalize_city p v ∈ cities_of p.
Proof.
  intros Hp. pose proof (official_province p Hp) as [_ Hc]. unfold is_known_city, normalize_city.
  rewrite Hc. intros Hv. split_and!; [done|by apply city_with_idem|].
  revert Hv. unfold city_with. destruct (List.find _ _) as [c|] eqn:Hf; [|done].
  intros _. apply list_elem_of_In. by apply List.find_some in Hf as [? _].
Qed.
End Places.

(** The two validations agree. *)
Lemma validations_agree places province city :
  (validate_place_pair places province city).2 = validate_iran_place places province city.
Proof.
  unfold validate_place_pair, validate_iran_place, is_known_province, is_known_city.
  destruct (nonempty (strip_codes province)); simpl; [|by destruct (nonempty _)].
  destruct (nonempty (normalize_province _ _)); simpl; [|done].
  destruct (nonempty (strip_codes city)); simpl; [|done]. by destruct (nonempty _).
Qed.

(** Any spelling of "Islamshahr" with its half-space, and a number after "Tehran". *)
Definition sample_places : list place_row :=
  [ mkPlaceRow [1578; 1607; 1585; 1575; 1606] [48; 50; 49]
      [[1578; 1607; 1585; 1575; 1606]; [1575; 1587; 1604; 1575; 1605; 8204; 1588; 1607; 1585]];
    mkPlaceRow [1601; 1575; 1585; 1587] [48; 55; 49] [[1588; 1740; 1585; 1575; 1586]] ].

Example spellings_of_a_city :
  normalize_city sample_places [32; 1578; 1607; 1585; 1575; 1606; 32; 1777; 49]
    [1575; 1587; 1604; 1575; 1605; 32; 32; 1588; 1607; 1585]
  = [1575; 1587; 1604; 1575; 1605; 8204; 1588; 1607; 1585] /\
  normalize_city sample_places [1601; 1575; 1585; 1587] [1588; 1610; 1585; 1575; 1586]
  = [1588; 1740; 1585; 1575; 1586] /\
  validate_iran_place sample_places [1601; 1575; 1585; 1587] [1578; 1607; 1585; 1575; 1606]
  = Some unknown_city.
Proof. vm_compute. done. Qed.
