(* ===== verification/KindnessModels.v ===== *)
(** The data of the wall of kindness: [src/apps/kindness_wall/choices.py] and
    [models.py], the constraints of its tables, and the database, environment and
    exceptions of its services.  Columns that are normalised by their code points
    (places and contacts) are lists of code points; other texts are UTF-8. *)

From S2P Require Import Prelude Python Choices Orm Models Apps Text ClientIp Places.
#[local] Open Scope Z_scope.

(** * Enumerations *)

Module ListingStatus.

Inductive t : Set :=
| DRAFT
| PUBLISHED
| FULFILLED
| EXPIRED
| ARCHIVED.

#[export] Instance t_eq : EqDecision t.
Proof. solve_decision. Defined.

Definition values : list (t * string) :=
  [ (DRAFT, "draft"%string);
    (PUBLISHED, "published"%string);
    (FULFILLED, "fulfilled"%string);
    (EXPIRED, "expired"%string);
    (ARCHIVED, "archived"%string) ].

#[export, refine] Instance t_choices : TextChoices t := { choices := values }.
Proof. all: solve_choices. Defined.

End ListingStatus.
Export (hints) ListingStatus.

Module Urgency.

Inductive t : Set :=
| NORMAL
| URGENT.

#[export] Instance t_eq : EqDecision t.
Proof. solve_decision. Defined.

Definition values : list (t * string) :=
  [ (NORMAL, "normal"%string);
    (URGENT, "urgent"%string) ].

#[export, refine] Instance t_choices : TextChoices t := { choices := values }.
Proof. all: solve_choices. Defined.

End Urgency.
Export (hints) Urgency.

Module OfferStatus.

Inductive t : Set :=
| NEW
| CONTACTED
| DECLINED.

#[export] Instance t_eq : EqDecision t.
Proof. solve_decision. Defined.

Definition values : list (t * string) :=
  [ (NEW, "new"%string);
    (CONTACTED, "contacted"%string);
    (DECLINED, "declined"%string) ].

#[export, refine] Instance t_choices : TextChoices t := { choices := values }.
Proof. all: solve_choices. Defined.

End OfferStatus.
Export (hints) OfferStatus.

Module ContactChannelKind.

Inductive t : Set :=
| PHONE
| BALE
| EITAA
| TELEGRAM
| RUBIKA
| INSTAGRAM.

#[export] Instance t_eq : EqDecision t.
Proof. solve_decision. Defined.

Definition values : list (t * string) :=
  [ (PHONE, "phone"%string);
    (BALE, "bale"%string);
    (EITAA, "eitaa"%string);
    (TELEGRAM, "telegram"%string);
    (RUBIKA, "rubika"%string);
    (INSTAGRAM, "instagram"%string) ].

#[export, refine] Instance t_choices : TextChoices t := { choices := values }.
Proof. all: solve_choices. Defined.

End ContactChannelKind.
Export (hints) ContactChannelKind.

(** The days a listing stays on the wall where the settings do not say. *)
Definition DEFAULT_LISTING_TTL_DAYS : Z := 45.

Definition RELATED_MAX_LIMIT : Z := 12.

(** * Records *)

(** KindnessCategory: a kind of need. *)
Record KindnessCategory : Type := mkKindnessCategory {
  kc_id : Z;
  kc_title : string;
  kc_slug : string;
  kc_description : string;
  kc_icon : string;
  kc_order : Z;
  kc_is_active : bool;
  kc_created_at : Z;
  kc_updated_at : Z;
}.

#[export] Instance eta_KindnessCategory : Eta KindnessCategory := fun x => mkKindnessCategory
  (kc_id x) (kc_title x) (kc_slug x) (kc_description x) (kc_icon x)
  (kc_order x) (kc_is_active x) (kc_created_at x) (kc_updated_at x).

(** KindnessListing: a need on the wall, with the ways to reach who has it. *)
Record KindnessListing : Type := mkKindnessListing {
  kl_id : Z;
  kl_category : Z;
  kl_title : string;
  kl_slug : string;
  kl_description : string;
  kl_quantity : Z;
  kl_unit : string;
  kl_urgency : Urgency.t;
  kl_is_featured : bool;
  kl_status : ListingStatus.t;
  kl_beneficiary_name : string;
  kl_province : codes;
  kl_city : codes;
  kl_locality : codes;
  kl_contact_note : string;
  kl_contact_phone : codes;
  kl_contact_bale : codes;
  kl_contact_eitaa : codes;
  kl_contact_telegram : codes;
  kl_contact_rubika : codes;
  kl_contact_instagram : codes;
  kl_published_at : option Z;
  kl_expires_at : option Z;
  kl_fulfilled_at : option Z;
  kl_fulfillment_note : string;
  kl_renew_count : Z;
  kl_view_count : Z;
  kl_created_by : option Z;
  kl_search_document : string;
  kl_is_active : bool;
  kl_created_at : Z;
  kl_updated_at : Z;
}.

#[export] Instance eta_KindnessListing : Eta KindnessListing := fun x => mkKindnessListing
  (kl_id x) (kl_category x) (kl_title x) (kl_slug x) (kl_description x)
  (kl_quantity x) (kl_unit x) (kl_urgency x) (kl_is_featured x)
  (kl_status x) (kl_beneficiary_name x) (kl_province x) (kl_city x)
  (kl_locality x) (kl_contact_note x) (kl_contact_phone x)
  (kl_contact_bale x) (kl_contact_eitaa x) (kl_contact_telegram x)
  (kl_contact_rubika x) (kl_contact_instagram x) (kl_published_at x)
  (kl_expires_at x) (kl_fulfilled_at x) (kl_fulfillment_note x)
  (kl_renew_count x) (kl_view_count x) (kl_created_by x)
  (kl_search_document x) (kl_is_active x) (kl_created_at x)
  (kl_updated_at x).

(** KindnessListingImage: a picture of a listing; the image is its name. *)
Record KindnessListingImage : Type := mkKindnessImage {
  ki_id : Z;
  ki_listing : Z;
  ki_image : string;
  ki_alt_text : string;
  ki_is_cover : bool;
  ki_order : Z;
  ki_is_active : bool;
  ki_created_at : Z;
  ki_updated_at : Z;
}.

#[export] Instance eta_KindnessListingImage : Eta KindnessListingImage := fun x => mkKindnessImage
  (ki_id x) (ki_listing x) (ki_image x) (ki_alt_text x) (ki_is_cover x)
  (ki_order x) (ki_is_active x) (ki_created_at x) (ki_updated_at x).

(** KindnessListingView: the mark of a viewer of a listing in a window of time. *)
Record KindnessListingView : Type := mkKindnessView {
  kv_id : Z;
  kv_listing : Z;
  kv_viewer_key : string;
  kv_window_start : Z;
  kv_created_at : Z;
}.

#[export] Instance eta_KindnessListingView : Eta KindnessListingView := fun x => mkKindnessView
  (kv_id x) (kv_listing x) (kv_viewer_key x) (kv_window_start x)
  (kv_created_at x).

(** KindnessOffer: a user's offer to help. *)
Record KindnessOffer : Type := mkKindnessOffer {
  ko_id : Z;
  ko_listing : Z;
  ko_user : Z;
  ko_message : string;
  ko_status : OfferStatus.t;
  ko_admin_note : string;
  ko_handled_by : option Z;
  ko_handled_at : option Z;
  ko_is_active : bool;
  ko_created_at : Z;
  ko_updated_at : Z;
}.

#[export] Instance eta_KindnessOffer : Eta KindnessOffer := fun x => mkKindnessOffer
  (ko_id x) (ko_listing x) (ko_user x) (ko_message x) (ko_status x)
  (ko_admin_note x) (ko_handled_by x) (ko_handled_at x) (ko_is_active x)
  (ko_created_at x) (ko_updated_at x).

(** * Constraints *)

(** A CharField's [max_length] for a list of code points. *)
Definition max_codes (n : Z) (l : codes) : bool := Z.of_nat (length l) <=? n.

Definition category_row_ok (others : gmap Z KindnessCategory) (x : KindnessCategory) : bool :=
  max_chars 160 (kc_title x) && max_chars 200 (kc_slug x) && max_chars 8 (kc_icon x) &&
  positive_integer (kc_order x) &&
  unique_among (fun y => str_eqb (kc_slug y) (kc_slug x)) others.

Definition listing_texts_ok (x : KindnessListing) : bool :=
  max_chars 240 (kl_title x) && max_chars 300 (kl_slug x) && max_chars 20 (kl_unit x) &&
  max_chars 120 (kl_beneficiary_name x) && max_codes 60 (kl_province x) && max_codes 60 (kl_city x) &&
  max_codes 80 (kl_locality x) && max_chars 240 (kl_contact_note x) &&
  max_codes 30 (kl_contact_phone x) && max_codes 64 (kl_contact_bale x) &&
  max_codes 64 (kl_contact_eitaa x) && max_codes 64 (kl_contact_telegram x) &&
  max_codes 64 (kl_contact_rubika x) && max_codes 64 (kl_contact_instagram x) &&
  max_chars 240 (kl_fulfillment_note x).

Definition listing_row_ok (others : gmap Z KindnessListing) (x : KindnessListing) : bool :=
  listing_texts_ok x && positive_small_integer (kl_quantity x) && (1 <=? kl_quantity x) &&
  positive_small_integer (kl_renew_count x) && positive_integer (kl_view_count x) &&
  unique_among (fun y => str_eqb (kl_slug y) (kl_slug x)) others.

Definition image_row_ok (others : gmap Z KindnessListingImage) (x : KindnessListingImage) : bool :=
  max_chars 100 (ki_image x) && max_chars 240 (ki_alt_text x) && positive_small_integer (ki_order x).

(** A viewer leaves one mark on a listing in a window. *)
Definition view_row_ok (others : gmap Z KindnessListingView) (x : KindnessListingView) : bool :=
  max_chars 40 (kv_viewer_key x) &&
  unique_among (fun y => (kv_listing y =? kv_listing x) && str_eqb (kv_viewer_key y) (kv_viewer_key x) &&
                         (kv_window_start y =? kv_window_start x)) others.

(** A user makes one offer for a listing. *)
Definition offer_row_ok (others : gmap Z KindnessOffer) (x : KindnessOffer) : bool :=
  max_chars 240 (ko_admin_note x) &&
  unique_among (fun y => (ko_listing y =? ko_listing x) && (ko_user y =? ko_user x)) others.

(** * The database *)

(** [view_cache] is the cache of the process: the time until which a key is held. *)
Record KindDB : Type := mkKindDB {
  kind_categories : Table KindnessCategory;
  kind_listings : Table KindnessListing;
  kind_images : Table KindnessListingImage;
  kind_views : Table KindnessListingView;
  kind_offers : Table KindnessOffer;
  view_cache : gmap string Z;
}.

#[export] Instance eta_KindDB : Eta KindDB := fun x => mkKindDB
  (kind_categories x) (kind_listings x) (kind_images x) (kind_views x) (kind_offers x) (view_cache x).

#[export] Instance KindnessCategory_model : Model KindDB KindnessCategory := {
  table_of db := kind_categories db;
  with_table t db := db <| kind_categories := t |>;
  pk := kc_id;
  is_active := kc_is_active;
  created_at := kc_created_at;
  row_ok := category_row_ok;
}.

#[export] Instance KindnessCategory_laws : ModelLaws KindDB KindnessCategory.
Proof. split; reflexivity. Qed.

#[export] Instance KindnessListing_model : Model KindDB KindnessListing := {
  table_of db := kind_listings db;
  with_table t db := db <| kind_listings := t |>;
  pk := kl_id;
  is_active := kl_is_active;
  created_at := kl_created_at;
  row_ok := listing_row_ok;
}.

#[export] Instance KindnessListing_laws : ModelLaws KindDB KindnessListing.
Proof. split; reflexivity. Qed.

#[export] Instance KindnessListingImage_model : Model KindDB KindnessListingImage := {
  table_of db := kind_images db;
  with_table t db := db <| kind_images := t |>;
  pk := ki_id;
  is_active := ki_is_active;
  created_at := ki_created_at;
  row_ok := image_row_ok;
}.

#[export] Instance KindnessListingImage_laws : ModelLaws KindDB KindnessListingImage.
Proof. split; reflexivity. Qed.

#[export] Instance KindnessListingView_model : Model KindDB KindnessListingView := {
  table_of db := kind_views db;
  with_table t db := db <| kind_views := t |>;
  pk := kv_id;
  is_active _ := true;
  created_at := kv_created_at;
  row_ok := view_row_ok;
}.

#[export] Instance KindnessListingView_laws : ModelLaws KindDB KindnessListingView.
Proof. split; reflexivity. Qed.

#[export] Instance KindnessOffer_model : Model KindDB KindnessOffer := {
  table_of db := kind_offers db;
  with_table t db := db <| kind_offers := t |>;
  pk := ko_id;
  is_active := ko_is_active;
  created_at := ko_created_at;
  row_ok := offer_row_ok;
}.

#[export] Instance KindnessOffer_laws : ModelLaws KindDB KindnessOffer.
Proof. split; reflexivity. Qed.

(** * The environment and the exceptions *)

(** [kenv_slugify]: Django's [slugify] with [allow_unicode]; [kenv_uuid_hex]: the
    hexadecimal digits of the next random UUID; [kenv_sha256]: the hexadecimal
    SHA-256 digest of a text; [kenv_places]: the rows of the file of places;
    [kenv_ttl_days] and [kenv_view_seconds]: the settings KINDNESS_LISTING_TTL_DAYS
    and KINDNESS_VIEW_DEDUPE_SECONDS; [kenv_num_proxies]: NUM_PROXIES;
    [kenv_marks_up], [kenv_cache_up]: whether the table of marks and the cache
    can be reached; [kenv_iexact]: the database's comparison without case. *)
Record KindEnv : Type := mkKindEnv {
  kenv_now : Z;
  kenv_slugify : string -> string;
  kenv_uuid_hex : string;
  kenv_sha256 : string -> string;
  kenv_places : list place_row;
  kenv_ttl_days : option Z;
  kenv_view_seconds : setting;
  kenv_num_proxies : setting;
  kenv_marks_up : bool;
  kenv_cache_up : bool;
  kenv_iexact : codes -> codes -> bool;
}.

#[export] Instance eta_KindEnv : Eta KindEnv := fun x => mkKindEnv
  (kenv_now x) (kenv_slugify x) (kenv_uuid_hex x) (kenv_sha256 x) (kenv_places x) (kenv_ttl_days x)
  (kenv_view_seconds x) (kenv_num_proxies x) (kenv_marks_up x) (kenv_cache_up x) (kenv_iexact x).

#[export] Instance kind_clock : Clock KindEnv := kenv_now.

(** What a listing lacks to be published. *)
Inductive missing_part : Type := missing_title | missing_description.

Inductive kind_exc : Type :=
| NotPublishable (missing : list missing_part)
| NoContact
| KindnessListingStateError
| OfferNotOnWall
| OfferReviewed
| OfferNotOwned
| InvalidOfferStatus
| KindnessCategoryGuardError
| InvalidListing
| no_free_listing_slug
| KindDoesNotExist
| KindIntegrityError
| KindDatabaseError.

#[export] Instance kind_orm : OrmError kind_exc := {
  does_not_exist := KindDoesNotExist;
  integrity_error := KindIntegrityError;
  database_error := KindDatabaseError;
}.

Abbreviation KM := (comp KindEnv KindDB kind_exc).

(** [Model.all_objects.filter(...)] *)
Definition kind_all {A} `{Model KindDB A} (P : A -> bool) (db : KindDB) : gmap Z A :=
  filter (fun kx => P kx.2 = true) (rows_of db).

(** [queryset.update(...)] on the rows of [all_objects] that satisfy [P] *)
Definition kind_update {A} `{Model KindDB A} (P : A -> bool) (upd : A -> A) : KM unit :=
  modify (fun db => with_table
    (mkTable ((fun x => if P x then upd x else x) <$> rows_of db) (next_id (table_of db))) db).

(** The rows that satisfy [P] are deleted. *)
Definition kind_delete {A} `{Model KindDB A} (P : A -> bool) (db : KindDB) : KindDB :=
  with_table (mkTable (filter (fun kx => P kx.2 = false) (rows_of db)) (next_id (table_of db))) db.
