(* ===== verification/KindnessContacts.v ===== *)
(** The ways to reach who is in need: [src/apps/kindness_wall/validators.py], and
    the channels of a listing in [choices.py] and [models.py].

    A telephone number is written with Persian or Arabic digits, with spaces and
    hyphens, or with the country's code; a handle with its page's address.  What is
    stored is normalised, and a visitor without an account sees it masked. *)

From S2P Require Import Prelude Python Choices Orm Models Apps Text ClientIp Places KindnessModels.
#[local] Open Scope Z_scope.

(** The code points of an ASCII text. *)
Definition text (s : string) : codes := decode s.

(** * Characters *)

(** The zeros of the decimal digits of Unicode: what the class [\d] matches is
    one of the ten characters from a zero on. *)
Definition decimal_zeros : list Z :=
  [
    48; 1632; 1776; 1984; 2406; 2534; 2662; 2790; 2918; 3046; 3174; 3302; 3430; 3558; 3664; 3792;
    3872; 4160; 4240; 6112; 6160; 6470; 6608; 6784; 6800; 6992; 7088; 7232; 7248; 42528; 43216;
    43264; 43472; 43504; 43600; 44016; 65296; 66720; 68912; 69734; 69872; 69942; 70096; 70384;
    70736; 70864; 71248; 71360; 71472; 71904; 72016; 72784; 73040; 73120; 73552; 92768; 92864;
    93008; 120782; 120792; 120802; 120812; 120822; 123200; 123632; 124144; 125264; 130032 ].

Definition u_decimal (c : Z) : bool := existsb (fun z => (z <=? c) && (c <=? z + 9)) decimal_zeros.

(** What [str.isdigit] accepts beside them: superscripts and the like. *)
Definition other_digits : list (Z * Z) :=
  [
    (178, 179); (185, 185); (4969, 4977); (6618, 6618); (8304, 8304); (8308, 8313); (8320, 8329);
    (9312, 9320); (9332, 9340); (9352, 9360); (9450, 9450); (9461, 9469); (9471, 9471);
    (10102, 10110); (10112, 10120); (10122, 10130); (68160, 68163); (69216, 69224);
    (69714, 69722); (127232, 127242) ].

Definition u_digit (c : Z) : bool :=
  u_decimal c || existsb (fun p => (p.1 <=? c) && (c <=? p.2)) other_digits.

(** [_PERSIAN_DIGIT_MAP] *)
Definition latin_digit (c : Z) : Z :=
  if (1776 <=? c) && (c <=? 1785) then c - 1776 + 48
  else if (1632 <=? c) && (c <=? 1641) then c - 1632 + 48
  else c.

(** What is left out of a number: spaces, brackets, the hyphen, marks of direction. *)
Definition phone_noise (c : Z) : bool := u_space c || bool_decide (c ∈ [40; 41; 45; 8236; 8207; 8206]).

Definition to_latin_digits (l : codes) : codes :=
  List.filter (fun c => negb (phone_noise c)) (latin_digit <$> l).

(** * Telephone numbers *)

Definition starts_with (p l : codes) : bool := bool_decide (p `prefix_of` l).

(** The loop over the prefixes: the first that fits is replaced by a zero. *)
Fixpoint replace_prefix (prefixes : list codes) (raw : codes) : codes :=
  match prefixes with
  | [] => raw
  | p :: ps =>
      if starts_with p raw && (length p + 9 <? length raw)%nat then 48 :: drop (length p) raw
      else replace_prefix ps raw
  end.

Definition country_prefixes : list codes := [text "0098"; text "+98"; text "98"].

Definition normalize_contact_phone (v : codes) : codes :=
  replace_prefix country_prefixes (to_latin_digits v).

(** What [$] leaves before the end: a line feed may follow. *)
Definition chomp (l : codes) : codes :=
  match rev l with 10 :: r => rev r | _ => l end.

(** [_PHONE_RE.match] *)
Definition phone_re (l : codes) : bool :=
  match l with
  | 48 :: r => forallb u_decimal (chomp r) && (9 <=? length (chomp r))%nat && (length (chomp r) <=? 10)%nat
  | _ => false
  end.

(** * Handles *)

(** A character of the class [c] without regard to case; beyond ASCII the dotted
    capital and the dotless I match [i], the Kelvin sign [k], the long S [s]. *)
Definition same_letter (c x : Z) : bool :=
  (x =? c) || (((97 <=? c) && (c <=? 122)) && (x =? c - 32)) ||
  ((c =? 105) && bool_decide (x ∈ [304; 305])) || ((c =? 107) && (x =? 8490)) || ((c =? 115) && (x =? 383)).

Fixpoint match_nocase (w l : codes) : option codes :=
  match w, l with
  | [], _ => Some l
  | c :: w', x :: l' => if same_letter c x then match_nocase w' l' else None
  | _ :: _, [] => None
  end.

Fixpoint match_one_of (ws : list codes) (l : codes) : option codes :=
  match ws with
  | [] => None
  | w :: ws' => match match_nocase w l with Some r => Some r | None => match_one_of ws' l end
  end.

Definition page_hosts : list codes :=
  [ text "t.me/";
    text "telegram.me/";
    text "instagram.com/";
    text "eitaa.com/";
    text "bale.ai/";
    text "rubika.ir/";
    text "rubika.me/" ].

(** [_HANDLE_URL_PREFIX_RE.sub("", l)]: no host starts as a scheme or as [www.]
    does, so that the optional parts need no backtracking. *)
Definition drop_page_address (l : codes) : codes :=
  let after_scheme := default l (match_one_of [text "http://"; text "https://"] l) in
  let after_www := default after_scheme (match_nocase (text "www.") after_scheme) in
  default l (match_one_of page_hosts after_www).

(** [l.lstrip(c)], [l.rstrip(c)], [l.split(c, 1)[0]] *)
Fixpoint lstrip_code (c : Z) (l : codes) : codes :=
  match l with
  | x :: l' => if x =? c then lstrip_code c l' else l
  | [] => []
  end.

Definition rstrip_code (c : Z) (l : codes) : codes := rev (lstrip_code c (rev l)).

Fixpoint until_code (c : Z) (l : codes) : codes :=
  match l with
  | x :: l' => if x =? c then [] else x :: until_code c l'
  | [] => []
  end.

Definition normalize_contact_handle (v : codes) : codes :=
  let raw := rstrip_code 47 (strip_codes v) in
  let raw := drop_page_address raw in
  let raw := lstrip_code 64 raw in
  rstrip_code 47 (lstrip_code 47 (until_code 35 (until_code 63 raw))).

Definition ascii_letter (c : Z) : bool := ((65 <=? c) && (c <=? 90)) || ((97 <=? c) && (c <=? 122)).

Definition handle_character (c : Z) : bool :=
  ascii_letter c || ((48 <=? c) && (c <=? 57)) || (c =? 95) || (c =? 46).

(** [_HANDLE_RE.match] *)
Definition handle_re (l : codes) : bool :=
  match l with
  | c :: r => ascii_letter c && forallb handle_character (chomp r) &&
              (2 <=? length (chomp r))%nat && (length (chomp r) <=? 33)%nat
  | [] => false
  end.

(** * Channels *)

Definition normalize_channel_value (kind : ContactChannelKind.t) (v : codes) : codes :=
  match kind with
  | ContactChannelKind.PHONE => normalize_contact_phone v
  | _ => normalize_contact_handle v
  end.

(** [validate_channel_value] returns without an error. *)
Definition validate_channel_value (kind : ContactChannelKind.t) (v : codes) : bool :=
  match kind with
  | ContactChannelKind.PHONE => phone_re v
  | _ => handle_re v
  end.

(** CONTACT_CHANNEL_REGISTRY: a field of a listing is given by the kind of its channel. *)
Record Channel : Type := mkChannel {
  ch_kind : ContactChannelKind.t;
  ch_label : string;
  ch_link : codes;
}.

Definition CONTACT_CHANNEL_REGISTRY : list Channel :=
  [ mkChannel ContactChannelKind.PHONE "شماره تماس" (text "tel:");
    mkChannel ContactChannelKind.BALE "آیدی بله" [];
    mkChannel ContactChannelKind.EITAA "آیدی ایتا" (text "https://eitaa.com/");
    mkChannel ContactChannelKind.TELEGRAM "آیدی تلگرام" (text "https://t.me/");
    mkChannel ContactChannelKind.RUBIKA "آیدی روبیکا" (text "https://rubika.ir/");
    mkChannel ContactChannelKind.INSTAGRAM "آیدی اینستاگرام" (text "https://instagram.com/") ].

Definition get_contact (x : KindnessListing) (k : ContactChannelKind.t) : codes :=
  match k with
  | ContactChannelKind.PHONE => kl_contact_phone x
  | ContactChannelKind.BALE => kl_contact_bale x
  | ContactChannelKind.EITAA => kl_contact_eitaa x
  | ContactChannelKind.TELEGRAM => kl_contact_telegram x
  | ContactChannelKind.RUBIKA => kl_contact_rubika x
  | ContactChannelKind.INSTAGRAM => kl_contact_instagram x
  end.

Definition set_contact (x : KindnessListing) (k : ContactChannelKind.t) (v : codes) : KindnessListing :=
  match k with
  | ContactChannelKind.PHONE => x <| kl_contact_phone := v |>
  | ContactChannelKind.BALE => x <| kl_contact_bale := v |>
  | ContactChannelKind.EITAA => x <| kl_contact_eitaa := v |>
  | ContactChannelKind.TELEGRAM => x <| kl_contact_telegram := v |>
  | ContactChannelKind.RUBIKA => x <| kl_contact_rubika := v |>
  | ContactChannelKind.INSTAGRAM => x <| kl_contact_instagram := v |>
  end.

Definition channel_values (x : KindnessListing) : list codes :=
  (fun ch => get_contact x (ch_kind ch)) <$> CONTACT_CHANNEL_REGISTRY.

(** A text that is more than white space. *)
Definition filled (v : codes) : bool := nonempty (strip_codes v).

(** [validate_at_least_one_contact] returns without an error. *)
Definition at_least_one_contact (values : list codes) : bool := existsb filled values.

(** [_normalize_channels] *)
Definition normalize_channels (x : KindnessListing) : KindnessListing :=
  fold_left (fun x ch =>
    let raw := get_contact x (ch_kind ch) in
    if filled raw then set_contact x (ch_kind ch) (normalize_channel_value (ch_kind ch) raw) else x)
    CONTACT_CHANNEL_REGISTRY x.

Definition phone_dial_link (phone : codes) : codes :=
  let digits := List.filter u_digit phone in
  text "tel:+" ++ match digits with 48 :: r => text "98" ++ r | _ => digits end.

(** An item of the answer. *)
Record ChannelItem : Type := mkChannelItem {
  it_kind : string;
  it_label : string;
  it_value : codes;
  it_link : codes;
  it_masked : option string;
}.

Definition channel_item (x : KindnessListing) (ch : Channel) : list ChannelItem :=
  let v := strip_codes (get_contact x (ch_kind ch)) in
  if nonempty v then
    let link := match ch_kind ch with
                | ContactChannelKind.PHONE => phone_dial_link v
                | _ => if nonempty (ch_link ch) then ch_link ch ++ v else []
                end in
    [mkChannelItem (value (ch_kind ch)) (ch_label ch) v link None]
  else [].

Definition channel_payload (x : KindnessListing) : list ChannelItem :=
  flat_map (channel_item x) CONTACT_CHANNEL_REGISTRY.

(** * Masks *)

Definition bullets (n : nat) : codes := replicate n 8226.

(** [l[-n:]] *)
Definition last_codes (n : nat) (l : codes) : codes := drop (length l - n) l.

Definition mask_contact_value (kind : string) (v : codes) : codes :=
  let raw := strip_codes v in
  if negb (nonempty raw) then []
  else if str_eqb kind "phone" then
    let digits := List.filter u_digit raw in
    if (7 <=? length digits)%nat then take 4 digits ++ bullets 5 ++ last_codes 2 digits
    else bullets 4
  else if (length raw <=? 3)%nat then bullets 3
  else take 3 raw ++ bullets 3.

Definition gated_channel_payload (channels : list ChannelItem) : list ChannelItem :=
  (fun item => mkChannelItem (it_kind item) (it_label item)
                 (mask_contact_value (it_kind item) (it_value item)) [] (Some "true"%string))
  <$> channels.

(** ** Examples *)

Example a_number_in_persian_digits :
  normalize_contact_phone [43; 1785; 1784; 32; 1785; 1777; 1778; 45; 1779; 1780; 1781; 1782; 1783; 1784; 1785]
  = text "09123456789".
Proof. vm_compute. done. Qed.

Example a_page_is_a_handle :
  normalize_contact_handle (text " HTTPS://www.T.me/@kindness?start=1 ") = text "kindness" /\
  mask_contact_value "telegram" (text "kindness") = text "kin" ++ bullets 3 /\
  mask_contact_value "phone" (text "09123456789") = text "0912" ++ bullets 5 ++ text "89".
Proof. vm_compute. done. Qed.

(** A number of ten digits is accepted, but not in the international notation. *)
Example a_short_number_keeps_the_country_code :
  phone_re (text "0213456789") = true /\
  normalize_contact_phone (text "+98213456789") = text "+98213456789" /\
  phone_re (text "+98213456789") = false.
Proof. vm_compute. done. Qed.

(** * What is stored is normal *)

Lemma drop_space_solid l : Forall (fun c => u_space c = false) l -> drop_space l = l.
Proof. destruct 1 as [|c l Hc]; simpl; [done|by rewrite Hc]. Qed.

Lemma strip_solid l : Forall (fun c => u_space c = false) l -> strip_codes l = l.
Proof.
  intros Hl. unfold strip_codes. rewrite (drop_space_solid l Hl), drop_space_solid; [apply rev_involutive|].
  by apply Forall_rev.
Qed.

Lemma strip_solid_newline l : l <> [] -> Forall (fun c => u_space c = false) l -> strip_codes (l ++ [10]) = l.
Proof.
  intros Hne Hl. unfold strip_codes.
  replace (drop_space (l ++ [10])) with (l ++ [10]) by (destruct Hl as [|c l Hc]; [done|]; simpl; by rewrite Hc).
  rewrite rev_app_distr. simpl. rewrite drop_space_solid; [apply rev_involutive|by apply Forall_rev].
Qed.

(** A text is what [$] looks at, perhaps with a line feed behind it. *)
Lemma chomp_cases l : l = chomp l \/ l = chomp l ++ [10].
Proof.
  unfold chomp. destruct (rev l) as [|c r] eqn:Hr; [by left|].
  destruct (decide (c = 10)) as [->|Hc].
  - right. rewrite <- (rev_involutive l), Hr. done.
  - left. destruct c as [|p|p]; try done. do 4 (destruct p as [p|p|]; try done).
Qed.

Lemma chomp_solid l : Forall (fun c => c <> 10) l -> chomp l = l.
Proof.
  intros Hl. destruct (chomp_cases l) as [He|He]; [by symmetry|].
  rewrite He in Hl. apply Forall_app in Hl as [_ Hl]. by inversion Hl.
Qed.

(** ** Telephone numbers *)

Definition latin_ok (c : Z) : bool :=
  u_decimal (latin_digit c) && negb (phone_noise (latin_digit c)) &&
  (latin_digit (latin_digit c) =? latin_digit c) && negb (latin_digit c =? 10).

Lemma decimal_latin c : u_decimal c = true -> latin_ok c = true.
Proof.
  intros (z & Hz & [H1 H2]%andb_true_iff)%existsb_exists.
  apply Z.leb_le in H1, H2.
  assert (forallb (fun z => forallb (fun k => latin_ok (z + k)) (seqZ 0 10)) decimal_zeros = true) as Hall
    by (vm_compute; done).
  rewrite forallb_forall in Hall. specialize (Hall z Hz). rewrite forallb_forall in Hall.
  replace c with (z + (c - z)) by lia. apply Hall, list_elem_of_In, elem_of_seqZ. lia.
Qed.

Lemma decimals_latin l : forallb u_decimal l = true ->
  to_latin_digits l = latin_digit <$> l /\ to_latin_digits (latin_digit <$> l) = latin_digit <$> l /\
  forallb u_decimal (latin_digit <$> l) = true /\ Forall (fun c => c <> 10) (latin_digit <$> l).
Proof.
  unfold to_latin_digits. induction l as [|c l IH]; [done|]. cbn [forallb].
  intros [Hc Hl]%andb_true_iff. destruct (IH Hl) as (H1 & H2 & H3 & H4). rewrite !fmap_cons.
  cbn [List.filter forallb].
  apply decimal_latin in Hc. unfold latin_ok in Hc. rewrite !andb_true_iff, !negb_true_iff in Hc.
  destruct Hc as [[[Hd Hn] Hi%Z.eqb_eq] H10%Z.eqb_neq].
  rewrite !Hi, !Hn, Hd, H1, H3. cbn [negb andb]. split_and!; [done| |done|by constructor].
  f_equal. exact H2.
Qed.

(** The text of a number is short and starts with a zero: no prefix fits. *)
Lemma short_number_has_no_prefix r : (length r <= 10)%nat ->
  replace_prefix country_prefixes (48 :: r) = 48 :: r.
Proof.
  intros Hr. unfold country_prefixes, replace_prefix.
  replace (length (text "0098") + 9 <? length (48%Z :: r))%nat with false
    by (symmetry; apply Nat.ltb_ge; simpl; lia).
  rewrite andb_false_r. unfold starts_with.
  rewrite !bool_decide_false; [done|by intros [? ?]|by intros [? ?]].
Qed.

Lemma phone_re_inv v : phone_re v = true -> exists d, (v = 48 :: d \/ v = 48 :: d ++ [10]) /\
  forallb u_decimal d = true /\ (9 <= length d <= 10)%nat.
Proof.
  destruct v as [|c r]; [done|]. destruct (decide (c = 48)) as [->|Hc];
    [|destruct c as [|p|p]; try done; do 6 (destruct p as [p|p|]; try done)].
  unfold phone_re. rewrite !andb_true_iff, !Nat.leb_le. intros [[Hd H9] H10].
  exists (chomp r). split; [|done]. by destruct (chomp_cases r) as [<-|<-]; [left|right].
Qed.

Lemma phone_re_intro d : forallb u_decimal d = true -> (9 <= length d <= 10)%nat ->
  Forall (fun c => c <> 10) d -> phone_re (48 :: d) = true.
Proof.
  intros Hd Hlen Hnl. unfold phone_re. rewrite (chomp_solid d Hnl), Hd.
  by rewrite !(proj2 (Nat.leb_le _ _)) by lia.
Qed.

Lemma normalize_phone_digits d : forallb u_decimal d = true -> (length d <= 10)%nat ->
  normalize_contact_phone (48 :: d) = 48 :: (latin_digit <$> d).
Proof.
  intros Hd Hlen. unfold normalize_contact_phone.
  replace (to_latin_digits (48 :: d)) with (48 :: to_latin_digits d) by done.
  destruct (decimals_latin d Hd) as (-> & _). apply short_number_has_no_prefix. by rewrite length_fmap.
Qed.

Lemma valid_phone_is_normal v : phone_re v = true ->
  phone_re (normalize_contact_phone v) = true /\
  normalize_contact_phone (normalize_contact_phone v) = normalize_contact_phone v.
Proof.
  intros (d & Hv & Hd & Hlen)%phone_re_inv. destruct (decimals_latin d Hd) as (_ & H2 & H3 & H4).
  assert (normalize_contact_phone v = 48 :: (latin_digit <$> d)) as ->.
  { destruct Hv as [->| ->]; [apply normalize_phone_digits; [done|lia]|].
    rewrite <- normalize_phone_digits by (done || lia). unfold normalize_contact_phone. f_equal.
    unfold to_latin_digits. change (48 :: d ++ [10]) with ((48 :: d) ++ [10]).
    rewrite fmap_app, List.filter_app. apply app_nil_r. }
  split; [apply phone_re_intro; [done|rewrite length_fmap; lia|done]|].
  rewrite normalize_phone_digits by (done || rewrite length_fmap; lia). f_equal.
  destruct (decimals_latin _ H3) as (Hf & _). by rewrite <- Hf.
Qed.

(** ** Handles *)

Lemma match_nocase_elem w c : forall l r, match_nocase w l = Some r -> c ∈ w ->
  (forall x, same_letter c x = true -> x = c) -> c ∈ l.
Proof.
  induction w as [|d w IH]; intros [|x l] r; simpl; try done; [by intros _ ?%not_elem_of_nil..|].
  destruct (same_letter d x) eqn:Hd; [|done]. intros Hr [->|Hc]%elem_of_cons Hs.
  - rewrite (Hs x Hd). by left.
  - right. by eapply IH.
Qed.

Lemma same_slash x : same_letter 47 x = true -> x = 47.
Proof. unfold same_letter. simpl. rewrite !orb_false_r. by intros ?%Z.eqb_eq. Qed.

Lemma no_match_without_slash ws l :
  forallb (existsb (Z.eqb 47)) ws = true -> 47 ∉ l -> match_one_of ws l = None.
Proof.
  intros Hws Hl. induction ws as [|w ws IH]; simpl in *; [done|].
  apply andb_true_iff in Hws as [(c & Hc%list_elem_of_In & <-%Z.eqb_eq)%existsb_exists Hws].
  destruct (match_nocase w l) as [r|] eqn:Hm; [|by apply IH].
  exfalso. apply Hl. eapply match_nocase_elem; [done..|apply same_slash].
Qed.

Lemma match_nocase_rest w : forall l r, match_nocase w l = Some r -> forall c, c ∈ r -> c ∈ l.
Proof.
  induction w as [|d w IH]; intros l r; simpl; [by intros [= ->]|].
  destruct l as [|x l]; [done|]. destruct (same_letter d x); [|done].
  intros Hr c Hc. right. by eapply IH.
Qed.

Lemma drop_page_address_plain l : 47 ∉ l -> drop_page_address l = l.
Proof.
  intros Hl. unfold drop_page_address. cbv zeta.
  rewrite (no_match_without_slash [_; _]) by done. change (default l None) with l.
  rewrite no_match_without_slash; [done|done|].
  destruct (match_nocase (text "www.") l) as [r|] eqn:Hr; simpl; [|done].
  intros Hs. by eapply Hl, match_nocase_rest.
Qed.

Lemma lstrip_plain c l : c ∉ l -> lstrip_code c l = l.
Proof.
  destruct l as [|x l]; simpl; [done|]. intros [Hx _]%not_elem_of_cons.
  by rewrite (proj2 (Z.eqb_neq x c)) by done.
Qed.

Lemma rstrip_plain c l : c ∉ l -> rstrip_code c l = l.
Proof.
  intros Hl. unfold rstrip_code. rewrite lstrip_plain; [apply rev_involutive|].
  intros Hin. apply Hl, list_elem_of_In, in_rev, list_elem_of_In, Hin.
Qed.

Lemma until_plain c l : c ∉ l -> until_code c l = l.
Proof.
  induction l as [|x l IH]; simpl; [done|]. intros [Hx Hl]%not_elem_of_cons.
  rewrite (proj2 (Z.eqb_neq x c)) by done. by rewrite IH.
Qed.

(** The characters of a handle are none that the normalisation looks at. *)
Definition plain_code (c : Z) : Prop := u_space c = false /\ c ∉ [10; 35; 47; 63; 64].

Lemma handle_plain c : handle_character c = true -> plain_code c.
Proof.
  unfold handle_character, ascii_letter. rewrite !orb_true_iff, !andb_true_iff, !Z.leb_le, !Z.eqb_eq.
  intros Hc. unfold plain_code, u_space. rewrite bool_decide_eq_false. set_solver by lia.
Qed.

Lemma normalize_plain_handle v l : strip_codes v = l -> Forall plain_code l -> normalize_contact_handle v = l.
Proof.
  intros Hv Hl. unfold normalize_contact_handle. rewrite Hv. cbv zeta.
  assert (forall c, c ∈ [10; 35; 47; 63; 64] -> c ∉ l) as Hno.
  { intros c Hc Hin. rewrite Forall_forall in Hl. by destruct (Hl c Hin) as [_ Hn]. }
  rewrite (rstrip_plain 47 l), drop_page_address_plain, (lstrip_plain 64), (until_plain 63), (until_plain 35),
    (lstrip_plain 47), (rstrip_plain 47); [done|apply Hno; set_solver..].
Qed.

Lemma handle_re_inv v : handle_re v = true -> exists c d, (v = c :: d \/ v = c :: d ++ [10]) /\
  ascii_letter c = true /\ forallb handle_character d = true /\ (2 <= length d <= 33)%nat.
Proof.
  destruct v as [|c r]; [done|]. unfold handle_re. rewrite !andb_true_iff, !Nat.leb_le.
  intros [[[Hc Hd] H2] H3]. exists c, (chomp r). split; [|auto]. by destruct (chomp_cases r) as [<-|<-]; [left|right].
Qed.

Lemma valid_handle_is_normal v : handle_re v = true ->
  handle_re (normalize_contact_handle v) = true /\
  normalize_contact_handle (normalize_contact_handle v) = normalize_contact_handle v.
Proof.
  intros (c & d & Hv & Hc & Hd & Hlen)%handle_re_inv.
  assert (Forall plain_code (c :: d)) as Hp.
  { constructor; [apply handle_plain; unfold handle_character; by rewrite Hc|].
    rewrite forallb_forall in Hd. apply Forall_forall. intros x Hx. by apply handle_plain, Hd, list_elem_of_In. }
  assert (Forall (fun c => u_space c = false) (c :: d)) as Hs by (eapply Forall_impl; [exact Hp|by intros ? []]).
  assert (strip_codes v = c :: d) as Hst.
  { destruct Hv as [->| ->]; [by apply strip_solid|by apply (strip_solid_newline (c :: d))]. }
  rewrite (normalize_plain_handle v (c :: d)) by done.
  rewrite (normalize_plain_handle (c :: d) (c :: d)); [|by apply strip_solid|done]. split; [|done].
  unfold handle_re. assert (chomp d = d) as ->.
  { apply chomp_solid. inversion Hp as [|? ? _ Hpd]; subst. eapply Forall_impl; [exact Hpd|]. intros x [_ Hx]. set_solver. }
  rewrite Hc, Hd. by rewrite !(proj2 (Nat.leb_le _ _)) by lia.
Qed.

(** A value that is valid is normalised to a valid value, which normalising
    again does not change. *)
Lemma valid_contact_is_normal k v : validate_channel_value k v = true ->
  validate_channel_value k (normalize_channel_value k v) = true /\
  normalize_channel_value k (normalize_channel_value k v) = normalize_channel_value k v.
Proof. destruct k; [apply valid_phone_is_normal|apply valid_handle_is_normal..]. Qed.

(** * Every notation of a number is dialled *)

Definition notations (d : codes) : list codes :=
  [48 :: d; text "98" ++ d; text "+98" ++ d; text "0098" ++ d].

Definition latin (c : Z) : bool := (48 <=? c) && (c <=? 57).

Lemma latin_facts c : latin c = true ->
  latin_digit c = c /\ phone_noise c = false /\ u_decimal c = true /\ u_digit c = true.
Proof.
  unfold latin. rewrite andb_true_iff, !Z.leb_le. intros Hc.
  assert (forallb (fun c => (latin_digit c =? c) && negb (phone_noise c) && u_decimal c && u_digit c)
            (seqZ 48 10) = true) as Hall by (vm_compute; done).
  rewrite forallb_forall in Hall. specialize (Hall c ltac:(apply list_elem_of_In, elem_of_seqZ; lia)).
  by rewrite !andb_true_iff, negb_true_iff, Z.eqb_eq in Hall; destruct Hall as [[[? ?] ?] ?].
Qed.

Lemma latin_number d : forallb latin d = true ->
  latin_digit <$> d = d /\ forallb u_decimal d = true /\ List.filter u_digit d = d /\
  Forall (fun c => c <> 10) d.
Proof.
  induction d as [|c d IH]; [done|]. cbn [forallb]. intros [Hc Hd]%andb_true_iff.
  destruct (IH Hd) as (H1 & H2 & H3 & H4). pose proof (latin_facts c Hc) as (F1 & _ & F3 & F4).
  rewrite fmap_cons. cbn [List.filter forallb]. rewrite F1, F3, F4, H1, H2, H3.
  split_and!; [done..|]. constructor; [|done]. intros ->. done.
Qed.

Lemma notation_replaced d l : length d = 10%nat -> l ∈ notations d ->
  replace_prefix country_prefixes l = 48 :: d.
Proof.
  intros Hlen Hl. unfold notations in Hl. unfold country_prefixes, replace_prefix, starts_with.
  repeat match goal with |- context [(?a <? ?b)%nat] =>
    let H := fresh in destruct (Nat.ltb_spec a b) as [H|H] end;
  repeat (apply elem_of_cons in Hl as [-> |Hl]); try (by apply not_elem_of_nil in Hl);
    repeat match goal with H : context [length _] |- _ =>
      rewrite ?length_cons, ?length_app in H; simpl length in H; rewrite ?Hlen in H end;
    try lia; rewrite ?andb_true_r, ?andb_false_r;
    repeat (case_bool_decide as Hp; [|try by destruct Hp; eexists]); try done;
    try (destruct Hp as [? Hp]; simpl in Hp; congruence).
Qed.

(** What may stand between the digits of a number: a space, brackets, a hyphen,
    the marks that set the direction of the text. *)
Definition separators : list Z := [32; 40; 41; 45; 8206; 8207; 8236].

(** The digit [n] in the Latin, the Persian and the Arabic script. *)
Definition digit_signs (n : Z) : list Z := [48 + n; 1776 + n; 1632 + n].

(** [written raw l]: [raw] writes the signs of [l], digit for digit in any of the
    scripts, with separators anywhere. *)
Inductive written : codes -> codes -> Prop :=
| written_end : written [] []
| written_separator c raw l : c ∈ separators -> written raw l -> written (c :: raw) l
| written_plus raw l : written raw l -> written (43 :: raw) (43 :: l)
| written_digit n c raw l :
    0 <= n <= 9 -> c ∈ digit_signs n -> written raw l -> written (c :: raw) (48 + n :: l).

Lemma digit_sign_read n c : 0 <= n <= 9 -> c ∈ digit_signs n -> latin_digit c = 48 + n.
Proof.
  intros Hn Hc. unfold digit_signs in Hc. unfold latin_digit.
  repeat (apply elem_of_cons in Hc as [->|Hc]); [..|by apply not_elem_of_nil in Hc];
    repeat match goal with |- context [?a <=? ?b] => destruct (Z.leb_spec a b) end; simpl; lia.
Qed.

Lemma written_read raw l : written raw l -> to_latin_digits raw = l.
Proof.
  unfold to_latin_digits. induction 1 as [|c raw l Hc _ IH|raw l _ IH|n c raw l Hn Hc _ IH]; [done|..];
    rewrite fmap_cons.
  - assert (phone_noise (latin_digit c) = true) as Hnoise.
    { assert (forallb (fun c => phone_noise (latin_digit c)) separators = true) as Hall by by vm_compute.
      rewrite forallb_forall in Hall. by apply Hall, list_elem_of_In. }
    cbn [List.filter]. by rewrite Hnoise.
  - change (latin_digit 43) with 43. cbn [List.filter]. change (phone_noise 43) with false. simpl. by f_equal.
  - rewrite (digit_sign_read n c) by done. cbn [List.filter].
    destruct (latin_facts (48 + n)) as (_ & -> & _); [unfold latin; lia|]. simpl. by f_equal.
Qed.

(** C39: whatever the notation in which a number of ten digits is given - after a
    zero or after the country's code, with Latin, Persian or Arabic digits, spaces,
    brackets and hyphens among them - what is stored is the number after a zero: it
    is valid, storing it again does not change it, and the link of the listing dials
    the number after the country's code. *)
Theorem every_notation_dials_the_number (raw l d : codes)
    (Hd : forallb latin d = true) (Hlen : length d = 10%nat)
    (Hraw : written raw l) (Hl : l ∈ notations d) :
  let v := normalize_channel_value ContactChannelKind.PHONE raw in
  v = 48 :: d /\ validate_channel_value ContactChannelKind.PHONE v = true /\
  normalize_channel_value ContactChannelKind.PHONE v = v /\ phone_dial_link v = text "tel:+98" ++ d.
Proof.
  cbv zeta. destruct (latin_number d Hd) as (_ & Hu & Hf & Hn). apply written_read in Hraw as <-.
  assert (normalize_channel_value ContactChannelKind.PHONE raw = 48 :: d) as -> by by apply notation_replaced.
  assert (phone_re (48 :: d) = true) as Hre by (apply phone_re_intro; [done|lia|done]).
  split_and!; [done|done| |].
  - apply notation_replaced; [done|]. simpl. unfold to_latin_digits. rewrite fmap_cons.
    change (List.filter _ (latin_digit 48 :: (latin_digit <$> d))) with (48 :: to_latin_digits d).
    destruct (decimals_latin d Hu) as (-> & _). destruct (latin_number d Hd) as (-> & _). by left.
  - unfold phone_dial_link. change (List.filter u_digit (48 :: d)) with (48 :: List.filter u_digit d). by rewrite Hf.
Qed.

(** The country's code in Persian, the first group in Arabic and the rest in Latin digits. *)
Definition mixed_number : codes :=
  [43; 1785; 1784; 32; 40; 1641; 1633; 1634; 41; 32; 1635; 1636; 1637; 45; 54; 55; 56; 57].

Ltac read_signs :=
  repeat first
    [ apply written_end
    | apply written_separator; [by apply (bool_decide_eq_true_1 _); vm_compute|]
    | apply written_plus
    | match goal with |- written (_ :: _) (?c :: _) =>
        apply (written_digit (c - 48)); [lia|by apply (bool_decide_eq_true_1 _); vm_compute|] end ].

Lemma every_notation_dials_the_number_witness :
  let v := normalize_channel_value ContactChannelKind.PHONE mixed_number in
  v = 48 :: text "9123456789" /\ validate_channel_value ContactChannelKind.PHONE v = true /\
  normalize_channel_value ContactChannelKind.PHONE v = v /\
  phone_dial_link v = text "tel:+98" ++ text "9123456789".
Proof.
  apply (every_notation_dials_the_number mixed_number (text "+989123456789") (text "9123456789"));
    [reflexivity|reflexivity| |vm_compute; right; right; left].
  change (text "+989123456789") with [43; 57; 56; 57; 49; 50; 51; 52; 53; 54; 55; 56; 57].
  unfold mixed_number. read_signs.
Defined.

(** * What a mask gives away *)

(** Two values that cannot be told apart by a visitor without an account: of a
    number the first four and the last two of at least seven digits, of a
    handle the first three characters of at least four, are seen. *)
Definition same_outside (kind : string) (v w : codes) : Prop :=
  let v := strip_codes v in
  let w := strip_codes w in
  nonempty v = nonempty w /\
  (nonempty v = true ->
   if str_eqb kind "phone" then
     let d := List.filter u_digit v in
     let e := List.filter u_digit w in
     ((7 <=? length d)%nat = (7 <=? length e)%nat) /\
     ((7 <= length d)%nat -> take 4 d = take 4 e /\ last_codes 2 d = last_codes 2 e)
   else
     ((length v <=? 3)%nat = (length w <=? 3)%nat) /\ ((3 < length v)%nat -> take 3 v = take 3 w)).

Lemma mask_shows_the_outside kind v w :
  same_outside kind v w -> mask_contact_value kind v = mask_contact_value kind w.
Proof.
  unfold same_outside, mask_contact_value. cbv zeta. intros [Hne Hin]. rewrite <- Hne.
  destruct (nonempty (strip_codes v)); [|done]. cbn [negb]. specialize (Hin eq_refl).
  destruct (str_eqb kind "phone"); destruct Hin as [Hl Hs]; rewrite <- Hl.
  - destruct (Nat.leb_spec 7 (length (List.filter u_digit (strip_codes v)))) as [H7|_]; [|done].
    by destruct (Hs H7) as [-> ->].
  - destruct (Nat.leb_spec (length (strip_codes v)) 3) as [_|H3]; [done|]. by rewrite (Hs H3).
Qed.

Lemma drop_space_idem l : drop_space (drop_space l) = drop_space l.
Proof. induction l as [|c l IH]; simpl; [done|]. destruct (u_space c) eqn:Hc; [done|]. simpl. by rewrite Hc. Qed.

(** Dropping the white space at the end leaves the first character. *)
Lemma drop_end_head l : drop_space l = l -> drop_space (rev (drop_space (rev l))) = rev (drop_space (rev l)).
Proof.
  destruct l as [|c l]; [done|]. simpl. destruct (u_space c) eqn:Hc.
  { intros Hl. exfalso. assert (length (drop_space l) <= length l)%nat as Hle.
    { clear. induction l as [|c l IH]; simpl; [lia|]. destruct (u_space c); simpl; lia. }
    rewrite Hl in Hle. simpl in Hle. lia. }
  intros _. assert (exists m, drop_space (rev l ++ [c]) = m ++ [c]) as [m ->].
  { generalize (rev l). intros r. induction r as [|x r [m IH]]; simpl; [rewrite Hc; by exists []|].
    destruct (u_space x); [by exists m|]. by exists (x :: r). }
  rewrite rev_app_distr. simpl. by rewrite Hc.
Qed.

Lemma strip_idem l : strip_codes (strip_codes l) = strip_codes l.
Proof.
  unfold strip_codes at 1. unfold strip_codes.
  rewrite (drop_end_head (drop_space l)) by apply drop_space_idem. by rewrite rev_involutive, drop_space_idem.
Qed.

Lemma gated_items x y ch :
  same_outside (value (ch_kind ch)) (get_contact x (ch_kind ch)) (get_contact y (ch_kind ch)) ->
  gated_channel_payload (channel_item x ch) = gated_channel_payload (channel_item y ch).
Proof.
  intros Hs. pose proof Hs as [Hne _]. unfold channel_item. rewrite Hne.
  destruct (nonempty (strip_codes (get_contact y (ch_kind ch)))); [|done].
  unfold gated_channel_payload. simpl. do 2 f_equal. apply mask_shows_the_outside.
  unfold same_outside in *. by rewrite !strip_idem.
Qed.

(** The masked channels of two listings that cannot be told apart are the same. *)
Lemma gated_payload_is_blind x y :
  (forall k, same_outside (value k) (get_contact x k) (get_contact y k)) ->
  gated_channel_payload (channel_payload x) = gated_channel_payload (channel_payload y).
Proof.
  intros Hs. unfold channel_payload. induction CONTACT_CHANNEL_REGISTRY as [|ch l IH]; [done|]. simpl.
  unfold gated_channel_payload in *. rewrite !fmap_app, IH. f_equal. apply gated_items, Hs.
Qed.
