(* ===== verification/KindnessWall.v ===== *)
(** The wall of kindness: [src/apps/kindness_wall/services.py] but for the count of
    views, the [save] methods of [models.py], the input serializers of
    [serializers.py] with the administrators' views that create and edit, and the
    task that takes listings off the wall.

    A service gets the instance that was read before; [save] with [update_fields]
    writes the listed columns, without them all columns of the instance. *)

From S2P Require Import Prelude Python Choices Orm Models Apps Text ClientIp Places KindnessModels KindnessContacts.
#[local] Open Scope Z_scope.

(** * Slugs *)

(** [f"{base[: max_length - len(tail)]}{tail}"] *)
Definition slug_with_tail (max_length : nat) (base : string) (suffix : Z) : string :=
  let tail := ("-" +:+ pretty suffix)%string in
  (prefix_chars (max_length - String.length tail) base +:+ tail)%string.

(** [_unique_slug]; the fuel is above the number of rows, which is enough
    ([KindnessSystem.wall_slug_is_found]). *)
Definition unique_slug {A} `{Model KindDB A} (slug : A -> string) (env : KindEnv) (v : string)
    (max_length : nat) (db : KindDB) : option string :=
  let base := str_or (prefix_chars max_length (kenv_slugify env v)) (py_prefix 12 (kenv_uuid_hex env)) in
  first_free (fun s => qs_exists (kind_all (fun x : A => str_eqb (slug x) s) db))
    (slug_with_tail max_length base) (S (size (rows_of (A := A) db))) base 2.

(** The slug of an instance to be saved. *)
Definition slug_for {A} `{Model KindDB A} (slug : A -> string) (title : string) (max_length : nat)
    (x : A) : KM string :=
  if str_true (slug x) then mret (slug x)
  else
    env ← ask;
    found ← query (unique_slug slug env title max_length);
    match found with Some s => mret s | None => raise no_free_listing_slug end.

(** [super().save()] of an instance that has a key: an UPDATE of all its columns,
    or an INSERT where the row is gone. *)
Definition save_whole {A} `{Model KindDB A} (x : A) : KM unit := fun _ db =>
  if row_ok (delete (pk x) (rows_of db)) x then (Ok tt, set_row (pk x) x db)
  else (Raise KindIntegrityError, db).

(** * Categories *)

Definition category_slug (x : KindnessCategory) : KM string :=
  slug_for kc_slug (kc_title x) 200 x.

Definition create_category (title description icon : string) (order : Z) : KM KindnessCategory :=
  let blank := mkKindnessCategory 0 title "" description icon order true 0 0 in
  slug ← category_slug blank;
  create (fun i now => mkKindnessCategory i title slug description icon order true now now).

(** [validate_title] of the input *)
Definition valid_category_title (title : string) : option string :=
  if (2 <=? length (strip_codes (decode title)))%nat then Some (strip title) else None.

(** The view that creates a category. *)
Definition post_category (title description icon : string) (order : Z) : KM KindnessCategory :=
  match valid_category_title title with
  | None => raise InvalidListing
  | Some title => create_category title description icon order
  end.

Definition save_category (x : KindnessCategory) (upd : KindnessCategory -> KindnessCategory) :
    KM KindnessCategory :=
  slug ← category_slug x;
  now ← timezone_now;
  let upd y := upd y <| kc_updated_at := now |> in
  _ ← update_row (kc_id x) upd;
  mret (upd (x <| kc_slug := slug |>)).

Inductive category_field : Type :=
| set_category_title (s : string) | set_category_description (s : string)
| set_category_icon (s : string) | set_category_order (n : Z).

Definition assign_category (x : KindnessCategory) (f : category_field) : KindnessCategory :=
  match f with
  | set_category_title s => x <| kc_title := s |>
  | set_category_description s => x <| kc_description := s |>
  | set_category_icon s => x <| kc_icon := s |>
  | set_category_order n => x <| kc_order := n |>
  end.

(** The view that edits a category: the columns that were sent are saved. *)
Definition patch_category (category : KindnessCategory) (fields : list category_field) :
    KM KindnessCategory :=
  let valid f := match f with
                 | set_category_title s => set_category_title <$> valid_category_title s
                 | _ => Some f
                 end in
  match mapM valid fields with
  | None => raise InvalidListing
  | Some fields => save_category category (fun x => fold_left assign_category fields x)
  end.

Definition set_category_active (category : KindnessCategory) (active : bool) : KM KindnessCategory :=
  atomic
    (_ ← (if active then mret tt
          else
            on_wall ← query (fun db => qs_exists (objects_filter (fun l : KindnessListing =>
              (kl_category l =? kc_id category) &&
              bool_decide (kl_status l = ListingStatus.PUBLISHED)) db));
            raise_if on_wall KindnessCategoryGuardError);
     save_category category (fun x => x <| kc_is_active := active |>)).

(** * Listings *)

(** [_normalize_place] *)
Definition normalize_place (env : KindEnv) (x : KindnessListing) : KindnessListing :=
  let province := normalize_province (kenv_places env) (kl_province x) in
  let city := normalize_city (kenv_places env) province (kl_city x) in
  let x :=
    if nonempty province then
      let x := x <| kl_province := province |> in
      if nonempty city then x <| kl_city := city |> else x
    else x in
  x <| kl_locality := strip_codes (kl_locality x) |>.

Definition line_feed : string := String (byte 10) EmptyString.

Definition search_document (x : KindnessListing) (category : KindnessCategory) : string :=
  (kl_title x +:+ line_feed +:+ kl_description x +:+ line_feed +:+ kl_beneficiary_name x +:+ line_feed +:+
   encode (kl_province x) +:+ " " +:+ encode (kl_city x) +:+ " " +:+ encode (kl_locality x) +:+ line_feed +:+
   kc_title category)%string.

(** What [KindnessListing.save] does to the instance before it is written. *)
Definition prepare_listing (x : KindnessListing) : KM KindnessListing :=
  slug ← slug_for kl_slug (kl_title x) 300 x;
  env ← ask;
  let x := normalize_place env (normalize_channels (x <| kl_slug := slug |>)) in
  category ← base_get (kl_category x);
  mret (x <| kl_search_document := search_document x category |>).

(** [listing.save(update_fields=[..., "updated_at"])]: the columns that [upd] sets. *)
Definition save_listing (x : KindnessListing) (upd : KindnessListing -> KindnessListing) :
    KM KindnessListing :=
  x ← prepare_listing x;
  now ← timezone_now;
  let upd y := upd y <| kl_updated_at := now |> in
  _ ← update_row (kl_id x) upd;
  mret (upd x).

(** [listing.save()] *)
Definition save_listing_whole (x : KindnessListing) : KM KindnessListing :=
  x ← prepare_listing x;
  now ← timezone_now;
  let x := x <| kl_updated_at := now |> in
  _ ← save_whole x;
  mret x.

(** ** What an administrator sends *)

Inductive listing_field : Type :=
| set_category (i : Z) | set_title (s : string) | set_description (s : string) | set_quantity (n : Z)
| set_unit (s : string) | set_urgency (u : Urgency.t) | set_beneficiary_name (s : string)
| set_province (s : codes) | set_city (s : codes) | set_contact_note (s : string)
| set_channel (k : ContactChannelKind.t) (v : codes) | set_expires_at (t : option Z).

Definition assign_listing (x : KindnessListing) (f : listing_field) : KindnessListing :=
  match f with
  | set_category i => x <| kl_category := i |>
  | set_title s => x <| kl_title := s |>
  | set_description s => x <| kl_description := s |>
  | set_quantity n => x <| kl_quantity := n |>
  | set_unit s => x <| kl_unit := s |>
  | set_urgency u => x <| kl_urgency := u |>
  | set_beneficiary_name s => x <| kl_beneficiary_name := s |>
  | set_province s => x <| kl_province := s |>
  | set_city s => x <| kl_city := s |>
  | set_contact_note s => x <| kl_contact_note := s |>
  | set_channel k v => set_contact x k v
  | set_expires_at t => x <| kl_expires_at := t |>
  end.

(** [validate_title], [validate_description] and [validate_quantity], and the
    choices of a province; [None] where the value is refused. *)
Definition validate_field (env : KindEnv) (f : listing_field) : option listing_field :=
  match f with
  | set_title s => if (5 <=? length (strip_codes (decode s)))%nat then Some (set_title (strip s)) else None
  | set_description s =>
      if (20 <=? length (strip_codes (decode s)))%nat then Some (set_description (strip s)) else None
  | set_quantity n => if (n <? 1) || (999 <? n) then None else Some f
  | set_province s =>
      if negb (nonempty s) || bool_decide (s ∈ PROVINCE_NAMES (kenv_places env)) then Some f else None
  | _ => Some f
  end.

(** [attrs.get(field)] *)
Definition given_channel (k : ContactChannelKind.t) (attrs : list listing_field) : option codes :=
  match List.find (fun f => match f with set_channel k' _ => bool_decide (k' = k) | _ => false end) attrs with
  | Some (set_channel _ v) => Some v
  | _ => None
  end.

(** A channel that [validate] merges into the attributes. *)
Definition merged_channel (instance : option KindnessListing) (attrs : list listing_field)
    (k : ContactChannelKind.t) : option codes :=
  let raw := match given_channel k attrs with
             | Some v => v
             | None => match instance with Some x => get_contact x k | None => [] end
             end in
  let raw := strip_codes raw in
  if nonempty raw then Some (normalize_channel_value k raw) else None.

(** [KindnessListingInputSerializer.validate]; [None] where a channel is refused. *)
Definition validate_channels (instance : option KindnessListing) (attrs : list listing_field) :
    option (list listing_field) :=
  let kinds := ch_kind <$> CONTACT_CHANNEL_REGISTRY in
  let ok k := match merged_channel instance attrs k with
              | Some v => negb (nonempty v) || validate_channel_value k v
              | None => true
              end in
  if forallb ok kinds then
    Some (attrs ++ flat_map (fun k => match merged_channel instance attrs k with
                                      | Some v => [set_channel k v]
                                      | None => []
                                      end) kinds)
  else None.

Fixpoint validate_fields (env : KindEnv) (attrs : list listing_field) : option (list listing_field) :=
  match attrs with
  | [] => Some []
  | f :: fs =>
      match validate_field env f, validate_fields env fs with
      | Some f, Some fs => Some (f :: fs)
      | _, _ => None
      end
  end.

Definition validate_listing (instance : option KindnessListing) (attrs : list listing_field) :
    KM (list listing_field) :=
  env ← ask;
  match validate_fields env attrs ≫= validate_channels instance with
  | Some attrs => mret attrs
  | None => raise InvalidListing
  end.

(** The fields without a default. *)
Record ListingInput : Type := mkListingInput {
  in_category : Z;
  in_title : string;
  in_description : string;
  in_others : list listing_field;
}.

Definition default_unit : string := "عدد".

Definition new_listing (created_by : option Z) (i now : Z) : KindnessListing :=
  mkKindnessListing i 0 "" "" "" 1 default_unit Urgency.NORMAL false ListingStatus.DRAFT "" [] [] [] ""
    [] [] [] [] [] [] None None None "" 0 0 created_by "" true now now.

(** The view that creates a listing, as a draft. *)
Definition post_listing (input : ListingInput) (created_by : option Z) : KM KindnessListing :=
  attrs ← validate_listing None (set_category (in_category input) :: set_title (in_title input) ::
                                 set_description (in_description input) :: in_others input);
  x ← prepare_listing (fold_left assign_listing attrs (new_listing created_by 0 0));
  create (fun i now => x <| kl_id := i |> <| kl_created_at := now |> <| kl_updated_at := now |>).

(** The view that edits a listing, in any status: the serializer saves the whole
    instance. *)
Definition patch_listing (listing : KindnessListing) (fields : list listing_field) : KM KindnessListing :=
  attrs ← validate_listing (Some listing) fields;
  save_listing_whole (fold_left assign_listing attrs listing).

(** ** The life of a listing *)

Definition listing_ttl_days (env : KindEnv) : Z := default DEFAULT_LISTING_TTL_DAYS (kenv_ttl_days env).

(** [now + timedelta(days=listing_ttl_days())] *)
Definition fresh_deadline (env : KindEnv) : Z := kenv_now env + listing_ttl_days env * usec_per_day.

Definition missing_parts (x : KindnessListing) : list missing_part :=
  (if nonempty (strip_codes (decode (kl_title x))) then [] else [missing_title]) ++
  (if nonempty (strip_codes (decode (kl_description x))) then [] else [missing_description]).

(** [_assert_publishable]; a listing always has a category. *)
Definition assert_publishable (x : KindnessListing) : KM unit :=
  match missing_parts x with
  | [] => raise_if (negb (at_least_one_contact (channel_values x))) NoContact
  | missing => raise (NotPublishable missing)
  end.

Definition publish_listing (listing : KindnessListing) : KM KindnessListing :=
  atomic
    (_ ← assert_publishable listing;
     env ← ask;
     let now := kenv_now env in
     let published_at := match kl_published_at listing with Some t => t | None => now end in
     let expires_at := match kl_expires_at listing with
                       | Some t => if t <=? now then fresh_deadline env else t
                       | None => fresh_deadline env
                       end in
     save_listing listing (fun x => x <| kl_status := ListingStatus.PUBLISHED |>
       <| kl_published_at := Some published_at |> <| kl_expires_at := Some expires_at |>)).

(** [listing.status in {PUBLISHED, EXPIRED}] *)
Definition current_or_expired (x : KindnessListing) : bool :=
  bool_decide (kl_status x = ListingStatus.PUBLISHED) || bool_decide (kl_status x = ListingStatus.EXPIRED).

Definition renew_listing (listing : KindnessListing) : KM KindnessListing :=
  atomic
    (_ ← raise_if (negb (current_or_expired listing)) KindnessListingStateError;
     env ← ask;
     let published_at := match kl_published_at listing with Some t => t | None => kenv_now env end in
     save_listing listing (fun x => x <| kl_status := ListingStatus.PUBLISHED |>
       <| kl_expires_at := Some (fresh_deadline env) |>
       <| kl_renew_count := kl_renew_count listing + 1 |> <| kl_published_at := Some published_at |>)).

Definition fulfill_listing (listing : KindnessListing) (note : string) : KM KindnessListing :=
  atomic
    (_ ← raise_if (negb (current_or_expired listing)) KindnessListingStateError;
     now ← timezone_now;
     let note := strip note in
     let fulfillment_note := if str_true note then note else kl_fulfillment_note listing in
     save_listing listing (fun x => x <| kl_status := ListingStatus.FULFILLED |>
       <| kl_fulfilled_at := Some now |> <| kl_fulfillment_note := fulfillment_note |>)).

Definition archive_listing (listing : KindnessListing) : KM KindnessListing :=
  atomic (save_listing listing (fun x => x <| kl_status := ListingStatus.ARCHIVED |>)).

Definition revert_to_draft (listing : KindnessListing) : KM KindnessListing :=
  atomic (save_listing listing (fun x => x <| kl_status := ListingStatus.DRAFT |>)).

Definition set_featured (listing : KindnessListing) (featured : bool) : KM KindnessListing :=
  atomic (save_listing listing (fun x => x <| kl_is_featured := featured |>)).

(** ** The wall *)

(** [is_public], also the condition of [KindnessListingQuerySet.board]. *)
Definition is_public (now : Z) (x : KindnessListing) : bool :=
  bool_decide (kl_status x = ListingStatus.PUBLISHED) && kl_is_active x &&
  match kl_expires_at x with None => true | Some t => now <? t end.

(** [KindnessListing.objects.published()] *)
Definition published (now : Z) (db : KindDB) : gmap Z KindnessListing := objects_filter (is_public now) db.

(** The order ["-featured", "-published", "-created"]; a null comes first, as in
    PostgreSQL. *)
Definition board_le (x y : KindnessListing) : bool :=
  let later_or a b k := match a, b with
                        | None, None => k
                        | None, Some _ => true
                        | Some _, None => false
                        | Some s, Some t => (t <? s) || ((s =? t) && k)
                        end in
  if eqb (kl_is_featured x) (kl_is_featured y)
  then later_or (kl_published_at x) (kl_published_at y) (kl_created_at y <=? kl_created_at x)
  else kl_is_featured x.

(** A listing whose time is over. *)
Definition overdue (now : Z) (x : KindnessListing) : bool :=
  bool_decide (kl_status x = ListingStatus.PUBLISHED) &&
  match kl_expires_at x with Some t => t <=? now | None => false end.

Definition expiry_batch : nat := 1000.

Definition stale_ids (now : Z) (db : KindDB) : list Z :=
  take expiry_batch (map kl_id (ordered_by board_le (qs_list (objects_filter (overdue now) db)))).

Definition expire_due_listings : KM Z :=
  now ← timezone_now;
  ids ← query (stale_ids now);
  match ids with
  | [] => mret 0
  | _ =>
      _ ← kind_update (fun x : KindnessListing => bool_decide (kl_id x ∈ ids))
            (fun x => x <| kl_status := ListingStatus.EXPIRED |> <| kl_updated_at := now |>);
      query (fun db => qs_count (kind_all (fun x : KindnessListing => bool_decide (kl_id x ∈ ids)) db))
  end.

(** [expire_old_listings_task], without the cache. *)
Definition expire_old_listings_task : KM Z := expire_due_listings.

(** * Offers *)

Definition own_offer (listing user : Z) (o : KindnessOffer) : bool :=
  (ko_listing o =? listing) && (ko_user o =? user).

Definition submit_offer (listing : KindnessListing) (user : Z) (message : string) : KM (KindnessOffer * bool) :=
  atomic
    (now ← timezone_now;
     _ ← raise_if (negb (is_public now listing)) OfferNotOnWall;
     offer ← query (fun db => qs_first (objects_filter (own_offer (kl_id listing) user) db));
     match offer with
     | None =>
         o ← create (fun i now => mkKindnessOffer i (kl_id listing) user (strip message) OfferStatus.NEW
                                    "" None None true now now);
         mret (o, true)
     | Some o =>
         _ ← raise_if (negb (bool_decide (ko_status o = OfferStatus.NEW))) OfferReviewed;
         let save x := x <| ko_message := strip message |> <| ko_updated_at := now |> in
         _ ← update_row (ko_id o) save;
         mret (save o, false)
     end).

Definition withdraw_offer (offer : KindnessOffer) (user : Z) : KM unit :=
  atomic
    (_ ← raise_if (negb (ko_user offer =? user)) OfferNotOwned;
     _ ← raise_if (negb (bool_decide (ko_status offer = OfferStatus.NEW))) OfferReviewed;
     modify (kind_delete (fun o : KindnessOffer => ko_id o =? ko_id offer))).

Definition review_offer (offer : KindnessOffer) (admin : Z) (status note : string) : KM KindnessOffer :=
  atomic
    (match of_value status with
     | None => raise InvalidOfferStatus
     | Some s =>
         now ← timezone_now;
         let note := strip note in
         let admin_note := if str_true note then note else ko_admin_note offer in
         let save x := x <| ko_status := s |> <| ko_handled_by := Some admin |>
                         <| ko_handled_at := Some now |> <| ko_admin_note := admin_note |>
                         <| ko_updated_at := now |> in
         _ ← update_row (ko_id offer) save;
         mret (save offer)
     end).
