(* ===== verification/KindnessImages.v ===== *)
(** The pictures of a listing: [KindnessListingImage.save] and [delete] of
    [src/apps/kindness_wall/models.py], the file checks of [validators.py], and
    the cover that every listing with pictures has. *)

From S2P Require Import Prelude Python Choices Orm Models Apps Text ClientIp Places.
From S2P Require Import KindnessModels KindnessContacts KindnessWall.
From Stdlib Require Import Ascii.
#[local] Open Scope Z_scope.

(** * Files *)

Definition ALLOWED_IMAGE_EXTENSIONS : list string := ["jpg"; "jpeg"; "png"; "webp"]%string.
Definition MAX_IMAGE_SIZE_MB : Z := 5.

(** What follows the last dot of a name, in lower case; nothing without a dot. *)
Fixpoint extension_of (name : string) : option string :=
  match name with
  | EmptyString => None
  | String a rest =>
      match extension_of rest with
      | Some e => Some e
      | None => if Ascii.eqb a "."%char then Some (py_lower rest) else None
      end
  end.

Definition validate_listing_image_extension (name : string) : bool :=
  bool_decide (default EmptyString (extension_of name) ∈ ALLOWED_IMAGE_EXTENSIONS).

Definition validate_listing_image_size (size : Z) : bool := size <=? MAX_IMAGE_SIZE_MB * 1024 * 1024.

(** * Saving and deleting *)

Definition images_of (listing : Z) (db : KindDB) : gmap Z KindnessListingImage :=
  kind_all (fun y => ki_listing y =? listing) db.

(** The covers of the other pictures are switched off. *)
Definition only_cover (i listing : Z) : KM unit :=
  kind_update (fun y : KindnessListingImage => (ki_listing y =? listing) && negb (ki_id y =? i))
    (fun y => y <| ki_is_cover := false |>).

(** The part of [save] after the row is written; [first_image] was read before. *)
Definition settle_cover (first_image : bool) (x : KindnessListingImage) : KM KindnessListingImage :=
  x ← (if first_image && negb (ki_is_cover x) then
         _ ← update_row (ki_id x) (fun y : KindnessListingImage => y <| ki_is_cover := true |>);
         mret (x <| ki_is_cover := true |>)
       else mret x);
  _ ← (if ki_is_cover x then only_cover (ki_id x) (ki_listing x) else mret tt);
  mret x.

(** [save] of a new picture *)
Definition add_image (listing : Z) (image alt_text : string) (is_cover : bool) (order : Z) :
    KM KindnessListingImage :=
  first_image ← query (fun db => negb (qs_exists (images_of listing db)));
  x ← create (fun i now => mkKindnessImage i listing image alt_text is_cover order true now now);
  settle_cover first_image x.

(** [save] of a picture that was read before *)
Definition save_image (x : KindnessListingImage) : KM KindnessListingImage :=
  first_image ← query (fun db => negb (qs_exists (images_of (ki_listing x) db)));
  now ← timezone_now;
  let x := x <| ki_updated_at := now |> in
  _ ← save_whole x;
  settle_cover first_image x.

(** [order_by("order", "id")] *)
Definition image_le (x y : KindnessListingImage) : bool :=
  (ki_order x <? ki_order y) || ((ki_order x =? ki_order y) && (ki_id x <=? ki_id y)).

(** [delete]: the first of the pictures that are left takes the place of a cover. *)
Definition delete_image (x : KindnessListingImage) : KM unit :=
  _ ← modify (kind_delete (fun y : KindnessListingImage => ki_id y =? ki_id x));
  if ki_is_cover x then
    successor ← query (fun db => head (ordered_by image_le (qs_list (images_of (ki_listing x) db))));
    match successor with
    | None => mret tt
    | Some y =>
        first_image ← query (fun db => negb (qs_exists (images_of (ki_listing y) db)));
        let y := y <| ki_is_cover := true |> in
        _ ← update_row (ki_id y) (fun z : KindnessListingImage => z <| ki_is_cover := true |>);
        _ ← settle_cover first_image y;
        mret tt
    end
  else mret tt.

(** * What a save does to the pictures *)

Abbreviation image_map := (gmap Z KindnessListingImage).

Definition covering (c : bool) (x : KindnessListingImage) : KindnessListingImage := x <| ki_is_cover := c |>.

(** [only_cover], as a function of the rows *)
Definition uncover (i listing : Z) (rows : image_map) : image_map :=
  (fun y => if (ki_listing y =? listing) && negb (ki_id y =? i) then covering false y else y) <$> rows.

(** The rows after a picture with key [i] has become the cover. *)
Definition covered_by (x : KindnessListingImage) (rows : image_map) : image_map :=
  uncover (ki_id x) (ki_listing x) (<[ki_id x := covering true x]> rows).

Lemma settle_cover_run first x (env : KindEnv) db :
  rows_of db !! ki_id x = Some x -> image_row_ok ∅ x = true ->
  exists x' db', settle_cover first x env db = (Ok x', db') /\
    next_id (kind_images db') = next_id (kind_images db) /\
    rows_of (A := KindnessListingImage) db' =
      if first || ki_is_cover x then covered_by x (rows_of db) else rows_of db.
Proof.
  intros Hx Hok. unfold settle_cover. destruct (ki_is_cover x) eqn:Hc.
  - rewrite andb_false_r, orb_true_r, bind_unfold. cbn. rewrite Hc, bind_unfold. cbn.
    eexists _, _. split_and!; [done|done|]. unfold covered_by. rewrite insert_id; [done|].
    rewrite Hx. destruct x; cbn in *. by subst.
  - rewrite andb_true_r, orb_false_r. destruct first; rewrite bind_unfold; cbn.
    + rewrite bind_unfold, (update_row_ok _ _ x) by done. cbn. rewrite bind_unfold. cbn.
      eexists _, _. by split_and!.
    + rewrite Hc, bind_unfold. cbn. by eexists _, _.
Qed.

Lemma add_image_run listing image alt is_cover order (env : KindEnv) db :
  (exists e, add_image listing image alt is_cover order env db = (Raise e, db)) \/
  let x := mkKindnessImage (next_id (kind_images db)) listing image alt is_cover order
             true (clock env) (clock env) in
  let rows := <[ki_id x := x]> (rows_of db) in
  image_row_ok ∅ x = true /\ exists x' db', add_image listing image alt is_cover order env db = (Ok x', db') /\
    next_id (kind_images db') = ki_id x + 1 /\
    rows_of (A := KindnessListingImage) db' =
      if negb (qs_exists (images_of listing db)) || is_cover then covered_by x rows else rows.
Proof.
  unfold add_image. rewrite bind_unfold. cbn -[settle_cover]. rewrite bind_unfold. unfold create.
  destruct (row_ok _ _) eqn:Hok; [right|left; by eexists].
  set (x := mkKindnessImage _ _ _ _ _ _ _ _ _). set (first := negb _).
  destruct (settle_cover_run first x env (add_row x db)) as (x' & db' & Hrun & Hn & Hr);
    [rewrite rows_of_add_row; apply lookup_insert_eq|done|].
  split; [exact Hok|]. exists x', db'. split_and!; [exact Hrun|exact Hn|]. etrans; [exact Hr|]. by rewrite rows_of_add_row.
Qed.

Lemma save_image_run x (env : KindEnv) db :
  (exists e, save_image x env db = (Raise e, db)) \/
  let y := x <| ki_updated_at := clock env |> in
  let rows := <[ki_id x := y]> (rows_of db) in
  image_row_ok ∅ y = true /\ exists x' db', save_image x env db = (Ok x', db') /\
    next_id (kind_images db') = next_id (kind_images db) /\
    rows_of (A := KindnessListingImage) db' =
      if negb (qs_exists (images_of (ki_listing x) db)) || ki_is_cover x then covered_by y rows else rows.
Proof.
  unfold save_image. rewrite bind_unfold. cbn -[settle_cover]. rewrite bind_unfold. cbn -[settle_cover].
  rewrite bind_unfold. unfold save_whole. destruct (row_ok _ _) eqn:Hok; [right|left; by eexists].
  set (y := x <| ki_updated_at := clock env |>). set (first := negb _).
  destruct (settle_cover_run first y env (set_row (ki_id x) y db)) as (x' & db' & Hrun & Hn & Hr);
    [rewrite rows_of_set_row; apply lookup_insert_eq|done|].
  split; [exact Hok|]. exists x', db'. split_and!; [exact Hrun|exact Hn|]. etrans; [exact Hr|]. by rewrite rows_of_set_row.
Qed.

(** The rows of the table of pictures: keys, column domains. *)
Definition images_good (rows : image_map) : Prop :=
  forall i y, rows !! i = Some y -> ki_id y = i /\ image_row_ok ∅ y = true.

Definition successor_of (listing : Z) (rows : image_map) : option KindnessListingImage :=
  head (ordered_by image_le (qs_list (filter (fun kx => (ki_listing kx.2 =? listing) = true) rows))).

Lemma kind_delete_key (rows : image_map) i : images_good rows ->
  filter (fun kx : Z * KindnessListingImage => (ki_id kx.2 =? i) = false) rows = delete i rows.
Proof.
  intros Hg. apply map_eq. intros j. apply option_eq. intros y.
  rewrite map_lookup_filter_Some, lookup_delete_Some. simpl. rewrite Z.eqb_neq.
  split; [intros [Hj Hne]|intros [Hne Hj]]; destruct (Hg _ _ Hj) as [Hk _]; split; congruence.
Qed.

Lemma successor_spec listing rows : images_good rows ->
  match successor_of listing rows with
  | Some y => rows !! ki_id y = Some y /\ ki_listing y = listing
  | None => forall i y, rows !! i = Some y -> ki_listing y <> listing
  end.
Proof.
  intros Hg. unfold successor_of.
  destruct (ordered_by _ _) as [|y l] eqn:Hl; simpl.
  - intros i y Hi <-. apply (not_elem_of_nil y). rewrite <- Hl.
    apply elem_of_ordered. unfold qs_list. change y with ((i, y).2) at 1. apply list_elem_of_fmap_2, elem_of_map_to_list.
    apply map_lookup_filter_Some. split; [done|]. apply Z.eqb_refl.
  - assert (y ∈ y :: l) as Hy by by left. rewrite <- Hl, elem_of_ordered in Hy.
    apply list_elem_of_fmap in Hy as ([i z] & -> & Hz). apply elem_of_map_to_list in Hz. simpl.
    apply map_lookup_filter_Some in Hz as [Hz Hlz%Z.eqb_eq]. simpl in Hlz.
    destruct (Hg _ _ Hz) as [-> _]. done.
Qed.

Lemma delete_image_run x (env : KindEnv) db : images_good (rows_of db) ->
  let rows := delete (ki_id x) (rows_of db) in
  exists db', delete_image x env db = (Ok tt, db') /\
    next_id (kind_images db') = next_id (kind_images db) /\
    rows_of (A := KindnessListingImage) db' =
      if ki_is_cover x then
        match successor_of (ki_listing x) rows with Some y => covered_by y rows | None => rows end
      else rows.
Proof.
  intros Hg. set (rows := delete _ _). unfold delete_image. rewrite bind_unfold.
  set (db1 := kind_delete (fun y : KindnessListingImage => ki_id y =? ki_id x) db).
  change (modify _ env db) with (Ok tt : outcome kind_exc unit, db1). cbn beta iota.
  assert (rows_of (A := KindnessListingImage) db1 = rows) as Hr1 by by apply kind_delete_key.
  assert (images_good rows) as Hg1.
  { intros i y [_ Hi]%lookup_delete_Some. by apply Hg. }
  destruct (ki_is_cover x); [|by exists db1]. rewrite bind_unfold. unfold query at 1.
  change (head _) with (successor_of (ki_listing x) (rows_of (A := KindnessListingImage) db1)). rewrite Hr1.
  pose proof (successor_spec (ki_listing x) rows Hg1) as Hs. cbn beta iota.
  destruct (successor_of _ _) as [y|]; [|by exists db1]. destruct Hs as [Hy Hl].
  destruct (Hg1 _ _ Hy) as [_ Hok]. rewrite bind_unfold. unfold query at 1. cbn beta iota zeta.
  set (first := negb _). rewrite bind_unfold, (update_row_ok _ _ y) by (rewrite ?Hr1; done). cbn beta iota.
  set (db2 := set_row _ _ _).
  destruct (settle_cover_run first (covering true y) env db2) as (x' & db' & Hrun & Hn & Hr);
    [apply rows_of_set_row || (unfold db2; rewrite rows_of_set_row; apply lookup_insert_eq)|done|].
  exists db'. rewrite bind_unfold. unfold covering in Hrun. rewrite Hrun. split_and!; [done|exact Hn|].
  etrans; [exact Hr|]. change (ki_is_cover (covering true y)) with true. rewrite orb_true_r.
  unfold db2, covered_by. rewrite rows_of_set_row, Hr1. change (ki_id (covering true y)) with (ki_id y).
  rewrite insert_insert_eq. done.
Qed.

(** * Every listing with pictures has one cover *)

Definition pictured (listing : Z) (rows : image_map) : Prop :=
  exists i y, rows !! i = Some y /\ ki_listing y = listing.

Definition is_cover_of (listing : Z) (rows : image_map) (i : Z) : Prop :=
  exists x, rows !! i = Some x /\ ki_listing x = listing /\ ki_is_cover x = true.

Definition one_cover (listing : Z) (rows : image_map) : Prop :=
  exists i, is_cover_of listing rows i /\ forall j, is_cover_of listing rows j -> j = i.

Definition covers_ok (rows : image_map) : Prop :=
  images_good rows /\ forall listing, pictured listing rows -> one_cover listing rows.

(** What is asked of a listing only depends on its own pictures. *)
Definition same_pictures (listing : Z) (rows rows' : image_map) : Prop :=
  forall i y, ki_listing y = listing -> rows !! i = Some y <-> rows' !! i = Some y.

Lemma one_cover_same listing rows rows' : same_pictures listing rows rows' ->
  (pictured listing rows -> one_cover listing rows) -> pictured listing rows' -> one_cover listing rows'.
Proof.
  intros Hs Hone (i & y & Hi & Hl).
  assert (forall j, is_cover_of listing rows j <-> is_cover_of listing rows' j) as Hc.
  { intros j. split; intros (x & Hx & Hlx & Hcx); exists x; (split; [by apply (Hs j x Hlx)|done]). }
  destruct Hone as (j & Hj & Hu); [exists i, y; split; [by apply (Hs i y Hl)|done]|].
  exists j. split; [by apply Hc|]. intros k Hk. by apply Hu, Hc.
Qed.

Lemma lookup_covered_by x rows j : images_good rows ->
  covered_by x rows !! j =
    if decide (j = ki_id x) then Some (covering true x)
    else (fun y => if ki_listing y =? ki_listing x then covering false y else y) <$> rows !! j.
Proof.
  intros Hg. unfold covered_by, uncover. rewrite lookup_fmap. destruct (decide (j = ki_id x)) as [->|Hne].
  - rewrite lookup_insert_eq. simpl. by rewrite !Z.eqb_refl.
  - rewrite lookup_insert_ne by done. destruct (rows !! j) as [y|] eqn:Hj; [|done]. simpl.
    destruct (Hg _ _ Hj) as [-> _]. by rewrite (proj2 (Z.eqb_neq j _)), andb_true_r by done.
Qed.

(** A picture of the listing, old or new, becomes the cover. *)
Lemma covers_ok_covered x rows : images_good rows -> image_row_ok ∅ x = true ->
  (forall old, rows !! ki_id x = Some old -> ki_listing old = ki_listing x) ->
  (forall listing, listing <> ki_listing x -> pictured listing rows -> one_cover listing rows) ->
  covers_ok (covered_by x rows).
Proof.
  intros Hg Hok Hold Hone. split.
  - intros i y. rewrite lookup_covered_by by done. case_decide as Hi; [by intros [= <-]|].
    intros (z & Hz & ->)%fmap_Some_1. destruct (Hg _ _ Hz) as [Hk Hzok]. by destruct (_ =? _).
  - intros l. destruct (decide (l = ki_listing x)) as [->|Hne].
    + intros _. exists (ki_id x). split.
      * exists (covering true x). rewrite lookup_covered_by by done. by case_decide.
      * intros j (y & Hy & Hl & Hc). rewrite lookup_covered_by in Hy by done. case_decide as Hj; [done|].
        apply fmap_Some_1 in Hy as (z & Hz & ->). destruct (Z.eqb_spec (ki_listing z) (ki_listing x)); [done|].
        congruence.
    + apply (one_cover_same l rows); [|by apply Hone]. intros i y Hl. rewrite lookup_covered_by by done.
      case_decide as Hi.
      * subst i. split; [intros Hy; by rewrite (Hold y Hy) in Hl|intros [= <-]; done].
      * destruct (rows !! i) as [z|]; simpl; [|reflexivity].
        destruct (Z.eqb_spec (ki_listing z) (ki_listing x)) as [Hz|]; [|reflexivity].
        split; intros [= <-]; by rewrite <- Hl in Hne.
Qed.

(** A picture that is no cover comes, changes or goes beside the cover. *)
Lemma covers_ok_beside rows rows' i : covers_ok rows -> images_good rows' ->
  (forall j, j <> i -> rows' !! j = rows !! j) ->
  (forall y, rows !! i = Some y -> ki_is_cover y = false) ->
  (forall y, rows' !! i = Some y -> ki_is_cover y = false /\ pictured (ki_listing y) rows) ->
  covers_ok rows'.
Proof.
  intros [Hg Hone] Hg' Hsame Hold Hnew. split; [done|]. intros l (j & y & Hj & Hl).
  assert (forall k, is_cover_of l rows k <-> is_cover_of l rows' k) as Hc.
  { intros k. destruct (decide (k = i)) as [->|Hk].
    - split; intros (x & Hx & _ & Hcx); exfalso; [by rewrite (Hold x Hx) in Hcx|].
      destruct (Hnew x Hx) as [Hf _]. congruence.
    - unfold is_cover_of. by rewrite (Hsame k Hk). }
  destruct (Hone l) as (k & Hk & Hu).
  { destruct (decide (j = i)) as [->|Hne]; [destruct (Hnew y Hj) as [_ Hp]; by rewrite Hl in Hp|].
    exists j, y. by rewrite <- (Hsame j Hne). }
  exists k. split; [by apply Hc|]. intros m Hm. by apply Hu, Hc.
Qed.

(** ** Requests *)

Inductive image_request : Type :=
| AddImage (listing : Z) (image alt_text : string) (is_cover : bool) (order : Z)
| SaveImage (x : KindnessListingImage)
| DeleteImage (x : KindnessListingImage).

Definition serve_image (q : image_request) : KM unit :=
  match q with
  | AddImage l im alt c o => _ ← add_image l im alt c o; mret tt
  | SaveImage x => _ ← save_image x; mret tt
  | DeleteImage x => delete_image x
  end.

(** A request that is careful with covers: a picture is saved or deleted as the
    table has it, in its listing, and a cover is not switched off by hand.  The code
    asks for none of this: without it a listing may lose its cover, but it never gets
    a second one ([serve_image_single]). *)
Definition image_careful (rows : image_map) (q : image_request) : Prop :=
  match q with
  | AddImage _ _ _ _ _ => True
  | SaveImage x => exists y, rows !! ki_id x = Some y /\ ki_listing y = ki_listing x /\
                     (ki_is_cover y = true -> ki_is_cover x = true)
  | DeleteImage x => exists y, rows !! ki_id x = Some y /\ ki_listing y = ki_listing x /\
                       ki_is_cover y = ki_is_cover x
  end.

Definition images_ok (db : KindDB) : Prop :=
  table_good (A := KindnessListingImage) (table_of db) /\ covers_ok (rows_of db).

Lemma images_of_exists listing db :
  qs_exists (images_of listing db) = true <-> pictured listing (rows_of db).
Proof.
  unfold qs_exists. rewrite bool_decide_eq_true. split.
  - intros (i & y & Hy)%map_choose. apply map_lookup_filter_Some in Hy as [Hy Hl%Z.eqb_eq]. by exists i, y.
  - intros (i & y & Hy & Hl) He. assert (images_of listing db !! i = Some y) as Hi.
    { apply map_lookup_filter_Some. split; [done|]. by apply Z.eqb_eq. }
    by rewrite He, lookup_empty in Hi.
Qed.

Lemma image_domain_ok others x : row_ok others x = true -> image_row_ok ∅ x = true.
Proof. done. Qed.

Lemma images_good_insert x (rows : image_map) : images_good rows -> image_row_ok ∅ x = true ->
  images_good (<[ki_id x := x]> rows).
Proof. intros Hg Hok i y [[<- <-]|[_ Hi]]%lookup_insert_Some; [done|by apply Hg]. Qed.

(** Keys are below the next key after any of the three requests. *)
Lemma keys_below (db' : KindDB) :
  images_good (rows_of (A := KindnessListingImage) db') ->
  0 < next_id (kind_images db') ->
  (forall i, is_Some (rows_of (A := KindnessListingImage) db' !! i) ->
     0 < i < next_id (kind_images db')) ->
  table_good (A := KindnessListingImage) (table_of db').
Proof.
  intros Hg Hn Hk. split; [done|]. intros i y Hi. split; [by destruct (Hg _ _ Hi)|apply Hk; by exists y].
Qed.

Lemma covered_by_keys x rows i : is_Some (covered_by x rows !! i) -> i = ki_id x \/ is_Some (rows !! i).
Proof.
  unfold covered_by, uncover. rewrite lookup_fmap, fmap_is_Some. intros [y [[<- _]|[_ Hi]]%lookup_insert_Some];
    [by left|right; by exists y].
Qed.

(** The picture with key [i] is written, and becomes the cover or not. *)
Lemma covers_ok_written (c : bool) x rows : covers_ok rows -> image_row_ok ∅ x = true ->
  (forall old, rows !! ki_id x = Some old -> ki_listing old = ki_listing x /\
     (c = false -> ki_is_cover old = false)) ->
  (c = false -> ki_is_cover x = false /\ pictured (ki_listing x) rows) ->
  covers_ok (if c then covered_by x (<[ki_id x := x]> rows) else <[ki_id x := x]> rows).
Proof.
  intros [Hg Hone] Hok Hold Hnew. pose proof (images_good_insert x rows Hg Hok) as Hg'. destruct c.
  - apply covers_ok_covered; [done|done|intros old; rewrite lookup_insert_eq; by intros [= <-]|].
    intros l Hl. apply (one_cover_same l rows); [|apply Hone]. intros i y Hy.
    destruct (decide (i = ki_id x)) as [->|Hi]; [|by rewrite lookup_insert_ne].
    rewrite lookup_insert_eq. split; [intros Ho; destruct (Hold y Ho); congruence|intros [= <-]; congruence].
  - apply (covers_ok_beside rows _ (ki_id x)); [done|done|intros j Hj; by rewrite lookup_insert_ne| |].
    + intros y Hy. by apply (Hold y Hy).
    + intros y. rewrite lookup_insert_eq. intros [= <-]. by apply Hnew.
Qed.

Lemma add_image_ok listing image alt is_cover order env db : images_ok db ->
  images_ok (serve_image (AddImage listing image alt is_cover order) env db).2.
Proof.
  intros [Ht Hc]. cbn [serve_image]. rewrite bind_unfold.
  destruct (add_image_run listing image alt is_cover order env db) as [[e ->]|[Hok Hrun]]; [done|].
  set (x := mkKindnessImage _ _ _ _ _ _ _ _ _) in Hok, Hrun. destruct Hrun as (x' & db' & -> & Hn & Hr). change (images_ok db').
  pose proof (fresh_key (A := KindnessListingImage) db (proj2 Ht)) as Hfresh. change (next_id _) with (ki_id x) in Hfresh.
  assert (covers_ok (rows_of (A := KindnessListingImage) db')) as Hc'.
  { rewrite Hr. apply (covers_ok_written _ x); [done|done|by rewrite Hfresh|]. change (ki_is_cover x) with is_cover.
    intros [Hf%negb_false_iff ->]%orb_false_iff. split; [done|]. by apply images_of_exists. }
  split; [|exact Hc']. destruct Ht as [Hpos Hwf]. change (ki_id x) with (next_id (kind_images db)) in Hn.
  change (0 < next_id (kind_images db)) in Hpos. apply keys_below; [apply (proj1 Hc')|lia|].
  intros i Hi. rewrite Hr, Hn in *.
  assert (i = ki_id x \/ is_Some (rows_of (A := KindnessListingImage) db !! i)) as [->|[y Hy]].
  { destruct (_ || _); [apply covered_by_keys in Hi as [->|Hi]; [by left|]|];
      destruct Hi as [y [[<- _]|[_ Hy]]%lookup_insert_Some]; first [by left|right; by exists y]. }
  - change (ki_id x) with (next_id (kind_images db)). lia.
  - destruct (Hwf _ _ Hy) as [_ Hi']. change (next_id _) with (next_id (kind_images db)) in Hi'. lia.
Qed.

Lemma save_image_ok x env db : image_careful (rows_of db) (SaveImage x) -> images_ok db ->
  images_ok (serve_image (SaveImage x) env db).2.
Proof.
  intros (y & Hy & Hl & Hcov) [Ht Hc]. cbn [serve_image]. rewrite bind_unfold.
  destruct (save_image_run x env db) as [[e ->]|[Hok Hrun]]; [done|].
  set (z := x <| ki_updated_at := clock env |>) in Hok, Hrun. destruct Hrun as (x' & db' & -> & Hn & Hr).
  change (images_ok db'). assert (qs_exists (images_of (ki_listing x) db) = true) as Hpic.
  { apply images_of_exists. by exists (ki_id x), y. }
  rewrite Hpic in Hr. cbn [negb orb] in Hr.
  assert (covers_ok (rows_of (A := KindnessListingImage) db')) as Hc'.
  { rewrite Hr. apply (covers_ok_written _ z); [done|done| |].
    - intros old Ho. change (ki_id z) with (ki_id x) in Ho. rewrite Hy in Ho. injection Ho as <-.
      split; [done|]. intros Hf. destruct (ki_is_cover y); [|done]. by rewrite Hcov in Hf.
    - intros Hf. split; [done|]. by apply images_of_exists. }
  split; [|exact Hc']. destruct Ht as [Hpos Hwf]. change (0 < next_id (kind_images db)) in Hpos.
  apply keys_below; [apply (proj1 Hc')|lia|]. intros i Hi. rewrite Hn. rewrite Hr in Hi.
  assert (exists old, rows_of (A := KindnessListingImage) db !! i = Some old) as [old Ho].
  { destruct (ki_is_cover x); [apply covered_by_keys in Hi as [->|Hi]; [by exists y|]|];
      destruct Hi as [w [[<- _]|[_ Hw]]%lookup_insert_Some]; eauto. }
  by destruct (Hwf _ _ Ho) as [_ Hi'].
Qed.

Lemma delete_image_ok x env db : image_careful (rows_of db) (DeleteImage x) -> images_ok db ->
  images_ok (serve_image (DeleteImage x) env db).2.
Proof.
  intros (y & Hy & Hl & Hcov) [Ht [Hg Hone]]. cbn [serve_image].
  destruct (delete_image_run x env db Hg) as (db' & -> & Hn & Hr). change (images_ok db').
  set (rows := delete _ _) in Hr.
  assert (images_good rows) as Hg1 by (intros i w [_ Hi]%lookup_delete_Some; by apply Hg).
  assert (forall l, l <> ki_listing x -> pictured l rows -> one_cover l rows) as Hothers.
  { intros l Hne. apply (one_cover_same l (rows_of db)); [|apply Hone]. intros i w Hw. unfold rows.
    rewrite lookup_delete_Some. split; [|tauto]. intros Hi. split; [|done]. intros <-. congruence. }
  assert (covers_ok (rows_of (A := KindnessListingImage) db')) as Hc'.
  { rewrite Hr. destruct (ki_is_cover x) eqn:Hcx.
    - pose proof (successor_spec (ki_listing x) rows Hg1) as Hs. destruct (successor_of _ _) as [s|].
      + destruct Hs as [Hs Hsl]. apply covers_ok_covered; [done|by destruct (Hg1 _ _ Hs)| |by rewrite Hsl].
        intros old Ho. congruence.
      + split; [done|]. intros l Hp. apply Hothers; [|done]. intros ->. destruct Hp as (i & w & Hi & Hw).
        by apply (Hs i w Hi).
    - apply (covers_ok_beside (rows_of db) _ (ki_id x)); [done|done| | |].
      + intros j Hj. unfold rows. by rewrite lookup_delete_ne.
      + intros w Hw. congruence.
      + intros w. unfold rows. by rewrite lookup_delete_eq. }
  split; [|exact Hc']. destruct Ht as [Hpos Hwf]. change (0 < next_id (kind_images db)) in Hpos.
  apply keys_below; [apply (proj1 Hc')|lia|]. intros i Hi. rewrite Hn. rewrite Hr in Hi.
  assert (exists old, rows_of (A := KindnessListingImage) db !! i = Some old) as [old Ho].
  { assert (is_Some (rows !! i)) as [w [_ Hw]%lookup_delete_Some]; [|by exists w].
    destruct (ki_is_cover x); [|done]. pose proof (successor_spec (ki_listing x) rows Hg1) as Hs.
    destruct (successor_of _ _) as [s|]; [|done]. apply covered_by_keys in Hi as [->|Hi]; [|done].
    destruct Hs as [Hs _]. by exists s. }
  by destruct (Hwf _ _ Ho) as [_ Hi'].
Qed.

Lemma serve_image_ok q env db : image_careful (rows_of db) q -> images_ok db ->
  images_ok (serve_image q env db).2.
Proof. destruct q; [intros _; apply add_image_ok|apply save_image_ok|apply delete_image_ok]. Qed.

(** ** Never two covers *)

Definition no_two_covers (rows : image_map) : Prop :=
  forall listing i j, is_cover_of listing rows i -> is_cover_of listing rows j -> i = j.

Lemma no_two_covers_fewer rows rows' : no_two_covers rows ->
  (forall l i, is_cover_of l rows' i -> is_cover_of l rows i) -> no_two_covers rows'.
Proof. intros Hone Hsub l i j Hi%Hsub Hj%Hsub. by eapply Hone. Qed.

(** Whichever picture becomes the cover, the others of its listing are none. *)
Lemma covered_by_covers x rows l i : images_good rows -> is_cover_of l (covered_by x rows) i ->
  if decide (l = ki_listing x) then i = ki_id x else is_cover_of l rows i.
Proof.
  intros Hg (y & Hy & Hl & Hc). rewrite lookup_covered_by in Hy by done. case_decide as Hi.
  - injection Hy as <-. by case_decide.
  - apply fmap_Some_1 in Hy as (z & Hz & ->). destruct (Z.eqb_spec (ki_listing z) (ki_listing x)); [done|].
    case_decide; [congruence|]. by exists z.
Qed.

Lemma no_two_covers_covered x rows : images_good rows ->
  (forall l i j, l <> ki_listing x -> is_cover_of l rows i -> is_cover_of l rows j -> i = j) ->
  no_two_covers (covered_by x rows).
Proof.
  intros Hg Hone l i j Hi%covered_by_covers Hj%covered_by_covers; [|done..].
  case_decide; [congruence|]. by eapply Hone.
Qed.

(** Writing a picture makes covers of no other pictures. *)
Lemma insert_covers x rows l i : is_cover_of l (<[ki_id x := x]> rows) i ->
  i = ki_id x /\ ki_listing x = l /\ ki_is_cover x = true \/ is_cover_of l rows i.
Proof.
  intros (y & [[<- <-]|[_ Hy]]%lookup_insert_Some & Hl & Hc); [by left|right; by exists y].
Qed.

Lemma no_two_covers_written (c : bool) x rows : images_good rows -> no_two_covers rows ->
  image_row_ok ∅ x = true -> (c = false -> ki_is_cover x = false) ->
  no_two_covers (if c then covered_by x (<[ki_id x := x]> rows) else <[ki_id x := x]> rows).
Proof.
  intros Hg Hone Hok Hx. destruct c.
  - apply no_two_covers_covered; [by apply images_good_insert|].
    intros l i j Hl [(_ & ? & _)|Hi]%insert_covers [(_ & ? & _)|Hj]%insert_covers; [congruence..|].
    by eapply Hone.
  - apply (no_two_covers_fewer rows); [done|]. intros l i [(_ & _ & Hc)|Hi]%insert_covers; [|done].
    by rewrite Hx in Hc.
Qed.

Lemma covered_by_good x rows : images_good rows -> image_row_ok ∅ x = true ->
  images_good (covered_by x rows).
Proof.
  intros Hg Hok i y. rewrite lookup_covered_by by done. case_decide as Hi; [by intros [= <-]|].
  intros (z & Hz & ->)%fmap_Some_1. destruct (Hg _ _ Hz) as [Hk Hzok]. by destruct (_ =? _).
Qed.

Lemma written_good (c : bool) x rows : images_good rows -> image_row_ok ∅ x = true ->
  images_good (if c then covered_by x (<[ki_id x := x]> rows) else <[ki_id x := x]> rows).
Proof.
  intros Hg Hok. pose proof (images_good_insert x rows Hg Hok).
  destruct c; [by apply covered_by_good|done].
Qed.

Definition single_covers (db : KindDB) : Prop :=
  images_good (rows_of db) /\ no_two_covers (rows_of db).

(** Any request about pictures, on any object. *)
Lemma serve_image_single q env db : single_covers db -> single_covers (serve_image q env db).2.
Proof.
  intros [Hg Hone]. destruct q as [l im alt c o|x|x]; cbn [serve_image]; rewrite ?bind_unfold.
  - destruct (add_image_run l im alt c o env db) as [[e ->]|[Hok (x' & db' & -> & _ & Hr)]]; [done|].
    unfold single_covers. change (snd _) with db'. rewrite Hr. split.
    + by apply (written_good _ (mkKindnessImage _ _ _ _ _ _ _ _ _)).
    + apply (no_two_covers_written _ (mkKindnessImage _ _ _ _ _ _ _ _ _)); [done..|].
      by intros [_ ->]%orb_false_iff.
  - destruct (save_image_run x env db) as [[e ->]|[Hok (x' & db' & -> & _ & Hr)]]; [done|].
    set (z := x <| ki_updated_at := clock env |>) in *.
    unfold single_covers. change (snd _) with db'. rewrite Hr. split.
    + by apply (written_good _ z).
    + apply (no_two_covers_written _ z); [done..|]. by intros [_ Hf]%orb_false_iff.
  - destruct (delete_image_run x env db Hg) as (db' & -> & _ & Hr).
    unfold single_covers. change (snd _) with db'. rewrite Hr. set (rows := delete _ _).
    assert (images_good rows) as Hg1 by (intros i w [_ Hi]%lookup_delete_Some; by apply Hg).
    assert (no_two_covers rows) as Hone1.
    { apply (no_two_covers_fewer (rows_of db)); [done|].
      intros l i (y & [_ Hy]%lookup_delete_Some & Hc). by exists y. }
    destruct (ki_is_cover x); [|done].
    pose proof (successor_spec (ki_listing x) rows Hg1) as Hs. destruct (successor_of _ _) as [s|]; [|done].
    destruct (Hg1 _ _ (proj1 Hs)) as [_ Hok]. split; [by apply covered_by_good|].
    apply no_two_covers_covered; [done|]. intros l i j _ Hi Hj. by eapply Hone1.
Qed.
