(* ===== verification/KindnessViews.v ===== *)
(** The count of views: the second part of [src/apps/kindness_wall/services.py] and
    the clean-up task of [tasks.py].

    A view is counted once for a viewer of a listing in a window of time.  The
    mark of the viewer in the database decides; the cache, which every process
    has for itself, only saves the look-up, and takes its place where the table
    of marks cannot be reached.  The requests of several processes run at the
    same time: the second part of the file is their interleaving. *)

From S2P Require Import Prelude Python Choices Orm Models Apps Text ClientIp Places.
From S2P Require Import KindnessModels KindnessContacts KindnessWall.
#[local] Open Scope Z_scope.

(** * Viewers and windows *)

Definition DEFAULT_VIEW_DEDUPE_SECONDS : Z := 6 * 60 * 60.

Definition view_dedupe_window (env : KindEnv) : Z :=
  match kenv_view_seconds env with
  | IntSetting n => if 0 <? n then n else DEFAULT_VIEW_DEDUPE_SECONDS
  | _ => DEFAULT_VIEW_DEDUPE_SECONDS
  end.

(** What is read of a request: the key of a user who is logged in, the headers
    X-Viewer-Id and User-Agent, and what the address is read from. *)
Record ViewRequest : Type := mkViewRequest {
  vr_user : option Z;
  vr_viewer_id : string;
  vr_user_agent : string;
  vr_meta : RequestMeta;
}.

Definition viewer_id_character (c : Z) : bool :=
  ascii_letter c || ((48 <=? c) && (c <=? 57)) || (c =? 95) || (c =? 45).

(** [_CLIENT_VIEWER_ID_RE.match] on a text without white space at its end *)
Definition client_viewer_id (l : codes) : bool :=
  forallb viewer_id_character l && (8 <=? length l)%nat && (length l <=? 64)%nat.

Definition viewer_fingerprint (env : KindEnv) (request : ViewRequest) : string :=
  match vr_user request with
  | Some pk => ("u" +:+ pretty pk)%string
  | None =>
      let client_id := strip (vr_viewer_id request) in
      if client_viewer_id (decode client_id)
      then ("c" +:+ py_prefix 20 (kenv_sha256 env client_id))%string
      else
        let ip := str_or (default EmptyString (get_client_ip (kenv_num_proxies env) (vr_meta request))) "unknown" in
        let ua := prefix_chars 180 (vr_user_agent request) in
        ("g" +:+ py_prefix 16 (kenv_sha256 env (ip +:+ "|" +:+ ua)))%string
  end.

(** [int(moment.timestamp())]: whole seconds, towards zero *)
Definition timestamp (t : Z) : Z := Z.quot t 1000000.

Definition view_window_index (env : KindEnv) : Z := timestamp (kenv_now env) / view_dedupe_window env.

(** [make_cache_key] of [src/apps/core/cache.py] *)
Definition make_cache_key (env : KindEnv) (namespace : string) (parts : list string) : string :=
  let raw_key := String.concat ":" ("setadjang"%string :: namespace :: parts) in
  if (200 <? length (decode raw_key))%nat
  then ("setadjang:" +:+ namespace +:+ ":hashed:" +:+ py_prefix 32 (kenv_sha256 env raw_key))%string
  else raw_key.

Definition fast_key (env : KindEnv) (listing window : Z) (fingerprint : string) : string :=
  make_cache_key env "kindness:view_seen" [pretty listing; pretty window; fingerprint].

(** * The cache of the process; an error of it is suppressed *)

Definition cache_holds (key : string) : KM bool := fun env db =>
  (Ok (kenv_cache_up env && match view_cache db !! key with Some t => kenv_now env <? t | None => false end), db).

Definition cache_set (key : string) (timeout : Z) : KM unit := fun env db =>
  (Ok tt, if kenv_cache_up env
          then db <| view_cache := <[key := kenv_now env + timeout * 1000000]> (view_cache db) |>
          else db).

Definition cache_add (key : string) (timeout : Z) : KM bool :=
  env ← ask;
  held ← cache_holds key;
  if negb (kenv_cache_up env) || held then mret false
  else (_ ← cache_set key timeout; mret true).

(** * One view *)

Definition is_mark (listing : Z) (fingerprint : string) (window : Z) (x : KindnessListingView) : bool :=
  (kv_listing x =? listing) && str_eqb (kv_viewer_key x) fingerprint && (kv_window_start x =? window).

Definition new_mark (listing : Z) (fingerprint : string) (window i now : Z) : KindnessListingView :=
  mkKindnessView i listing fingerprint window now.

(** [_try_mark_view]: [None] where the table cannot be reached; a mark that is
    there, or a listing that is not, is an integrity error. *)
Definition try_mark_view (listing : Z) (fingerprint : string) (window : Z) : KM (option bool) := fun env db =>
  if negb (kenv_marks_up env) then (Ok None, db)
  else
    match rows_of (A := KindnessListing) db !! listing with
    | None => (Ok (Some false), db)
    | Some _ =>
        match get_or_create (is_mark listing fingerprint window) (new_mark listing fingerprint window) env db with
        | (Ok (_, created), db') => (Ok (Some created), db')
        | (Raise _, _) => (Ok (Some false), db)
        end
    end.

(** [bump_listing_view_count], an error of the database included, which is only
    logged: a count that no longer fits its column stays. *)
Definition bump_listing_view_count (listing : Z) : KM unit := fun _ db =>
  match rows_of (A := KindnessListing) db !! listing with
  | Some x =>
      let y := x <| kl_view_count := kl_view_count x + 1 |> in
      (Ok tt, if positive_integer (kl_view_count y) then set_row listing y db else db)
  | None => (Ok tt, db)
  end.

Definition current_view_count (listing : Z) (db : KindDB) : Z :=
  match rows_of (A := KindnessListing) db !! listing with Some x => kl_view_count x | None => 0 end.

(** Whether the view is counted: what the mark says, or the cache in its place. *)
Definition mark_view (listing : Z) (fingerprint : string) (window : Z) : KM bool :=
  env ← ask;
  db_result ← try_mark_view listing fingerprint window;
  match db_result with
  | Some created => mret created
  | None => cache_add (fast_key env listing window fingerprint) (view_dedupe_window env)
  end.

Definition remember_view (listing : Z) (fingerprint : string) (window : Z) : KM unit :=
  env ← ask;
  cache_set (fast_key env listing window fingerprint) (view_dedupe_window env).

Definition register_listing_view (listing : Z) (request : ViewRequest) : KM (bool * Z) :=
  env ← ask;
  let window := view_window_index env in
  let fingerprint := viewer_fingerprint env request in
  seen ← cache_holds (fast_key env listing window fingerprint);
  if (seen : bool) then (n ← query (current_view_count listing); mret (false, n))
  else
    counted ← mark_view listing fingerprint window;
    _ ← (if (counted : bool) then bump_listing_view_count listing else mret tt);
    _ ← remember_view listing fingerprint window;
    n ← query (current_view_count listing);
    mret (counted, n).

(** [purge_stale_listing_views]: the marks of windows before the last ones *)
Definition purge_threshold (env : KindEnv) (keep_windows : Z) : Z :=
  view_window_index env - Z.max 1 keep_windows.

Definition purge_stale_listing_views (keep_windows : Z) : KM Z :=
  env ← ask;
  let stale (x : KindnessListingView) := kv_window_start x <? purge_threshold env keep_windows in
  deleted ← query (fun db => qs_count (kind_all stale db));
  _ ← modify (kind_delete stale);
  mret deleted.

Definition purge_listing_view_marks_task : KM Z := purge_stale_listing_views 2.

(** The view that receives the browser's message: staff are not counted. *)
Definition post_view (listing : KindnessListing) (is_staff is_superuser : bool) (request : ViewRequest) :
    KM (bool * Z) :=
  if is_staff || is_superuser then mret (false, kl_view_count listing)
  else register_listing_view (kl_id listing) request.
