(* ===== verification/KindnessBeacons.v ===== *)
(** Views that are counted at the same time: the statements of
    [register_listing_view] as steps of several processes, which share the
    database and have a cache each, with the clean-up of old marks between them.

    While the table of marks can be reached a viewer is counted once in a window,
    whatever the caches hold and however the steps interleave. *)

From S2P Require Import Prelude Python Choices Orm Models Apps Text ClientIp Places.
From S2P Require Import KindnessModels KindnessContacts KindnessWall KindnessViews.
#[local] Open Scope Z_scope.

(** * Steps *)

(** Who looks at what in which window. *)
Record Visit : Type := mkVisit { vt_listing : Z; vt_viewer : string; vt_window : Z }.

#[export] Instance Visit_eq : EqDecision Visit.
Proof. solve_decision. Defined.

(** Where a request is: before the mark, before the counter is raised, before the
    cache is told, at its end; with whether it was counted and whether the
    counter could be raised. *)
Inductive Beacon : Type :=
| Marking (v : Visit)
| Bumping (v : Visit)
| Remembering (v : Visit) (counted bumped : bool)
| Answered (v : Visit) (counted bumped : bool).

Definition counted_as (v : Visit) (b : Beacon) : bool :=
  match b with
  | Bumping w => bool_decide (w = v)
  | Remembering w c _ | Answered w c _ => c && bool_decide (w = v)
  | Marking _ => false
  end.

Definition bumped_on (listing : Z) (b : Beacon) : bool :=
  match b with
  | Remembering w _ r | Answered w _ r => r && (vt_listing w =? listing)
  | _ => false
  end.

(** The database, the caches of the processes, the requests by number, each with
    its process, the time, and the window before which marks may have been deleted. *)
Record Wall : Type := mkWall {
  w_db : KindDB;
  w_caches : gmap Z (gmap string Z);
  w_beacons : gmap Z (Z * Beacon);
  w_clock : Z;
  w_floor : Z;
}.

(** What process [p] sees. *)
Definition seen_by (p : Z) (s : Wall) : KindDB :=
  (w_db s) <| view_cache := default ∅ (w_caches s !! p) |>.

(** Request [n] of process [p] has made a step that leaves the database [db]. *)
Definition moved (s : Wall) (p n : Z) (b : Beacon) (db : KindDB) : Wall :=
  mkWall db (<[p := view_cache db]> (w_caches s)) (<[n := (p, b)]> (w_beacons s)) (w_clock s) (w_floor s).

(** The counter of a listing has room. *)
Definition bumpable (listing : Z) (db : KindDB) : bool :=
  match rows_of (A := KindnessListing) db !! listing with
  | Some x => positive_integer (kl_view_count x + 1)
  | None => false
  end.

Definition visit_of (env : KindEnv) (listing : Z) (request : ViewRequest) : Visit :=
  mkVisit listing (viewer_fingerprint env request) (view_window_index env).

(** No request is so old that the marks of its window are deleted before it has
    made its own. *)
Definition none_overtaken (threshold : Z) (s : Wall) : Prop :=
  forall n p v, w_beacons s !! n = Some (p, Marking v) -> threshold <= vt_window v.

(** The settings and the time of a step, where a window has [window] seconds; the
    table of marks can be reached. *)
Definition step_env (window : Z) (env : KindEnv) (s : Wall) : Prop :=
  kenv_now env = w_clock s /\ view_dedupe_window env = window /\ kenv_marks_up env = true.

Inductive wall_step (window : Z) : Wall -> Wall -> Prop :=
| time_passes s t : w_clock s <= t ->
    wall_step window s (mkWall (w_db s) (w_caches s) (w_beacons s) t (w_floor s))
| cache_is_lost s p c :
    wall_step window s (mkWall (w_db s) (<[p := c]> (w_caches s)) (w_beacons s) (w_clock s) (w_floor s))
| beacon_starts env s p n listing request seen db :
    let v := visit_of env listing request in
    step_env window env s -> w_beacons s !! n = None ->
    cache_holds (fast_key env listing (vt_window v) (vt_viewer v)) env (seen_by p s) = (Ok seen, db) ->
    wall_step window s (moved s p n (if seen then Answered v false false else Marking v) db)
| beacon_marks env s p n v counted db :
    step_env window env s -> w_beacons s !! n = Some (p, Marking v) ->
    mark_view (vt_listing v) (vt_viewer v) (vt_window v) env (seen_by p s) = (Ok counted, db) ->
    wall_step window s (moved s p n (if counted then Bumping v else Remembering v false false) db)
| beacon_bumps env s p n v u db :
    step_env window env s -> w_beacons s !! n = Some (p, Bumping v) ->
    bump_listing_view_count (vt_listing v) env (seen_by p s) = (Ok u, db) ->
    wall_step window s (moved s p n (Remembering v true (bumpable (vt_listing v) (w_db s))) db)
| beacon_remembers env s p n v c r u db :
    step_env window env s -> w_beacons s !! n = Some (p, Remembering v c r) ->
    remember_view (vt_listing v) (vt_viewer v) (vt_window v) env (seen_by p s) = (Ok u, db) ->
    wall_step window s (moved s p n (Answered v c r) db)
| marks_are_purged env s p keep deleted db :
    step_env window env s -> none_overtaken (purge_threshold env keep) s ->
    purge_stale_listing_views keep env (seen_by p s) = (Ok deleted, db) ->
    wall_step window s (mkWall db (w_caches s) (w_beacons s) (w_clock s)
                          (Z.max (w_floor s) (purge_threshold env keep))).

Inductive wall_steps (window : Z) : Wall -> Wall -> Prop :=
| wall_stays s : wall_steps window s s
| wall_goes s s1 s2 : wall_step window s s1 -> wall_steps window s1 s2 -> wall_steps window s s2.

Lemma wall_steps_trans window s1 s2 s3 :
  wall_steps window s1 s2 -> wall_steps window s2 s3 -> wall_steps window s1 s3.
Proof. induction 1; eauto using wall_steps. Qed.

(** A database at some time, and no request yet. *)
Definition wall_start (window : Z) (db : KindDB) (now : Z) : Wall :=
  mkWall db ∅ ∅ now (timestamp now / window - 1).

Definition count_of (b : Beacon -> bool) (bs : gmap Z (Z * Beacon)) : Z := msum (fun pb => when (b pb.2) 1) bs.

(** * A request on its own goes through the steps *)

Lemma seen_by_moved s p n b db : seen_by p (moved s p n b db) = db.
Proof. unfold seen_by, moved. simpl. rewrite lookup_insert_eq. by destruct db. Qed.

(** [register_listing_view] in one process is a sequence of its steps. *)
Lemma register_is_a_run window env s p n listing request counted count db :
  step_env window env s -> w_beacons s !! n = None ->
  register_listing_view listing request env (seen_by p s) = (Ok (counted, count), db) ->
  exists bumped s', wall_steps window s s' /\ seen_by p s' = db /\ w_clock s' = w_clock s /\
    w_beacons s' = <[n := (p, Answered (visit_of env listing request) counted bumped)]> (w_beacons s).
Proof.
  intros Henv Hn. set (v := visit_of env listing request). unfold register_listing_view.
  rewrite bind_unfold. cbn beta iota zeta. change (view_window_index env) with (vt_window v).
  change (viewer_fingerprint env request) with (vt_viewer v). intros Hrun.
  apply bind_ok_inv in Hrun as (seen & db1 & Hseen & Hrun).
  pose proof (beacon_starts window env s p n listing request seen db1 Henv Hn Hseen) as Hstart.
  fold v in Hstart. destruct seen.
  { apply bind_ok_inv in Hrun as (c & db2 & Hq & [= <- <- <-]).
    assert (db2 = db1) as -> by by injection Hq.
    exists false. eexists. split; [by econstructor; [exact Hstart|constructor]|].
    rewrite seen_by_moved. done. }
  set (s1 := moved _ _ _ _ _) in Hstart. assert (step_env window env s1) as Henv1 by done.
  assert (seen_by p s1 = db1) as Hs1 by apply seen_by_moved.
  apply bind_ok_inv in Hrun as (c & db2 & Hmark & Hrun). rewrite <- Hs1 in Hmark.
  pose proof (beacon_marks window env s1 p n v c db2 Henv1 ltac:(apply lookup_insert_eq) Hmark) as Hm.
  set (s2 := moved _ _ _ _ _) in Hm. assert (step_env window env s2) as Henv2 by done.
  assert (seen_by p s2 = db2) as Hs2 by apply seen_by_moved.
  apply bind_ok_inv in Hrun as (u & db3 & Hbump & Hrun).
  apply bind_ok_inv in Hrun as (u' & db4 & Hrem & Hrun).
  apply bind_ok_inv in Hrun as (k & db5 & Hq & [= <- <- <-]).
  assert (db5 = db4) as -> by by injection Hq.
  assert (exists bumped s3, wall_steps window s2 s3 /\ seen_by p s3 = db3 /\ w_clock s3 = w_clock s /\
    w_beacons s3 = <[n := (p, Remembering v c bumped)]> (w_beacons s)) as (bumped & s3 & H23 & Hs3 & Hc3 & Hb3).
  { destruct c.
    - rewrite <- Hs2 in Hbump. exists (bumpable (vt_listing v) (w_db s2)). eexists. split_and!.
      + econstructor; [|constructor]. apply (beacon_bumps window env s2 p n v u db3 Henv2); [apply lookup_insert_eq|exact Hbump].
      + apply seen_by_moved.
      + done.
      + simpl. by rewrite !insert_insert_eq.
    - injection Hbump as <- <-. exists false, s2. split_and!; [constructor|done|done|].
      simpl. by rewrite !insert_insert_eq. }
  assert (step_env window env s3) as Henv3 by (unfold step_env; rewrite Hc3; apply Henv).
  rewrite <- Hs3 in Hrem.
  assert (w_beacons s3 !! n = Some (p, Remembering v c bumped)) as Hl by (rewrite Hb3; apply lookup_insert_eq).
  pose proof (beacon_remembers window env s3 p n v c bumped u' db4 Henv3 Hl Hrem) as Hr.
  exists bumped. eexists. split_and!.
  - econstructor; [exact Hstart|]. econstructor; [exact Hm|]. eapply wall_steps_trans; [exact H23|].
    econstructor; [exact Hr|constructor].
  - apply seen_by_moved.
  - done.
  - simpl. by rewrite Hb3, insert_insert_eq.
Qed.

(** * What the steps do to the marks *)

Definition marked (db : KindDB) (v : Visit) : Prop :=
  exists i x, rows_of db !! i = Some x /\ is_mark (vt_listing v) (vt_viewer v) (vt_window v) x = true.

Definition views_good (db : KindDB) : Prop := table_good (A := KindnessListingView) (table_of db).

Lemma is_mark_refl v i now : is_mark (vt_listing v) (vt_viewer v) (vt_window v)
  (new_mark (vt_listing v) (vt_viewer v) (vt_window v) i now) = true.
Proof. unfold is_mark, str_eqb. simpl. rewrite !Z.eqb_refl, bool_decide_true; done. Qed.

Lemma mark_view_inv v env db counted db' : kenv_marks_up env = true -> views_good db ->
  mark_view (vt_listing v) (vt_viewer v) (vt_window v) env db = (Ok counted, db') ->
  views_good db' /\ kind_listings db' = kind_listings db /\ (forall w, marked db w -> marked db' w) /\
  (counted = true -> ~ marked db v /\ marked db' v).
Proof.
  intros Hup Hg. unfold mark_view.
  intros (e & s & [= <- <-] & (r & db1 & Hrun & Hk)%bind_ok_inv)%bind_ok_inv.
  unfold try_mark_view in Hrun. rewrite Hup in Hrun. cbn [negb] in Hrun.
  assert (r = Some counted /\ db1 = db' \/ r = None) as [[-> ->]|Hr]; [destruct r; [left|by right]|..].
  { by injection Hk as <- <-. }
  2: { subst r. exfalso. repeat case_match; congruence. }
  destruct (rows_of (A := KindnessListing) db !! vt_listing v); [|by injection Hrun as <- <-].
  destruct (get_or_create _ _ env db) as [[[x created]|e] db1] eqn:Hgc; [|by injection Hrun as <- <-].
  injection Hrun as <- <-. clear Hk.
  apply get_or_create_ok_inv in Hgc as [(-> & -> & _)|(-> & Hnone & -> & _ & ->)]; [done|].
  set (x := new_mark _ _ _ _ _). split_and!.
  - by apply add_row_good.
  - done.
  - intros w (i & y & Hi & Hy). exists i, y. split; [|done]. rewrite rows_of_add_row.
    rewrite lookup_insert_ne; [done|]. intros <-. by rewrite (fresh_key db (proj2 Hg)) in Hi.
  - intros _. split.
    + intros (i & y & Hi & Hy). apply qs_first_None in Hnone.
      assert (objects_filter (is_mark (vt_listing v) (vt_viewer v) (vt_window v)) db !! i = Some y) as Hf
        by by apply objects_filter_lookup.
      by rewrite Hnone, lookup_empty in Hf.
    + exists (next_id (table_of (A := KindnessListingView) db)), x. rewrite rows_of_add_row.
      split; [apply lookup_insert_eq|apply is_mark_refl].
Qed.

Lemma bump_inv listing env db u db' : bump_listing_view_count listing env db = (Ok u, db') ->
  kind_views db' = kind_views db /\
  rows_of (A := KindnessListing) db' =
    if bumpable listing db
    then alter (fun x => x <| kl_view_count := kl_view_count x + 1 |>) listing (rows_of db)
    else rows_of db.
Proof.
  unfold bump_listing_view_count, bumpable.
  destruct (rows_of (A := KindnessListing) db !! listing) as [x|] eqn:Hx; [|by intros [= <- <-]].
  change (kl_view_count (x <| kl_view_count := _ |>)) with (kl_view_count x + 1).
  destruct (positive_integer _); intros [= <- <-]; [|done]. split; [done|].
  transitivity (<[listing := x <| kl_view_count := kl_view_count x + 1 |>]> (rows_of (A := KindnessListing) db));
    [done|]. apply map_eq. intros j. destruct (decide (j = listing)) as [->|Hj].
  - by rewrite lookup_insert_eq, lookup_alter_eq, Hx.
  - by rewrite lookup_insert_ne, lookup_alter_ne.
Qed.

Lemma remember_inv listing viewer w env db u db' : remember_view listing viewer w env db = (Ok u, db') ->
  kind_views db' = kind_views db /\ kind_listings db' = kind_listings db.
Proof.
  unfold remember_view, cache_set. rewrite bind_unfold. cbn beta iota. intros [= <- <-].
  by destruct (kenv_cache_up env).
Qed.

Lemma purge_inv keep env db deleted db' : purge_stale_listing_views keep env db = (Ok deleted, db') ->
  kind_listings db' = kind_listings db /\ (views_good db -> views_good db') /\
  forall v, marked db v -> purge_threshold env keep <= vt_window v -> marked db' v.
Proof.
  intros (e & s & [= <- <-] & (d & s1 & [= _ <-] & (u & s2 & [= _ <-] & [= _ <-])%bind_ok_inv)%bind_ok_inv)%bind_ok_inv.
  split; [done|]. split.
  - intros [Hn Hwf]. split; [done|]. intros i x [Hi _]%map_lookup_filter_Some. by apply Hwf.
  - intros v (i & x & Hi & Hx) Hw. exists i, x. split; [|done]. apply map_lookup_filter_Some.
    split; [done|]. simpl. apply Z.ltb_ge. unfold is_mark in Hx.
    rewrite !andb_true_iff, !Z.eqb_eq in Hx. destruct Hx as [_ ->]. done.
Qed.

(** * Once for a viewer and a window *)

Section Once.
Context (window : Z) (Hwindow : 0 < window).

Record wall_ok (s : Wall) : Prop := {
  ok_views : views_good (w_db s);
  ok_floor : w_floor s < timestamp (w_clock s) / window;
  ok_marking : forall n p v, w_beacons s !! n = Some (p, Marking v) -> w_floor s <= vt_window v;
  ok_marked : forall n p b v, w_beacons s !! n = Some (p, b) -> counted_as v b = true ->
    vt_window v < w_floor s \/ marked (w_db s) v;
  ok_once : forall n m p q b c v, w_beacons s !! n = Some (p, b) -> w_beacons s !! m = Some (q, c) ->
    counted_as v b = true -> counted_as v c = true -> n = m;
}.

Lemma timestamp_mono t t' : t <= t' -> timestamp t / window <= timestamp t' / window.
Proof. intros Ht. apply Z.div_le_mono; [done|]. by apply Z.quot_le_mono. Qed.

Lemma marked_same db db' v : kind_views db' = kind_views db -> marked db v -> marked db' v.
Proof. intros Hv (i & x & Hi & Hx). exists i, x. split; [|done]. unfold rows_of in *. simpl in *. by rewrite Hv. Qed.

Lemma views_good_same db db' : kind_views db' = kind_views db -> views_good db -> views_good db'.
Proof. unfold views_good. simpl. by intros ->. Qed.

(** A request that takes a step which counts nothing new. *)
Lemma wall_ok_moved s p n b db :
  wall_ok s -> views_good db -> (forall v, marked (w_db s) v -> marked db v) ->
  (forall v, b = Marking v -> w_floor s <= vt_window v) ->
  (forall v, counted_as v b = true ->
     exists p' old, w_beacons s !! n = Some (p', old) /\ counted_as v old = true) ->
  wall_ok (moved s p n b db).
Proof.
  intros [Hv Hf Hm Hd Ho] Hg Hkeep Hb Hold. split; simpl; [done|done| | |].
  - intros m q v [[<- [= <- ->]]|[_ Hl]]%lookup_insert_Some; [by apply Hb|by eapply Hm].
  - intros m q c v [[<- [= <- ->]]|[_ Hl]]%lookup_insert_Some Hc.
    + destruct (Hold v Hc) as (p' & old & Hl & Hco). destruct (Hd _ _ _ _ Hl Hco); auto.
    + destruct (Hd _ _ _ _ Hl Hc); auto.
  - intros m k q r c d v Hl Hl' Hc Hd'.
    assert (forall i q c, <[n := (p, b)]> (w_beacons s) !! i = Some (q, c) -> counted_as v c = true ->
              exists q' c', w_beacons s !! i = Some (q', c') /\ counted_as v c' = true) as Hback.
    { intros i q' c' [[<- [= <- ->]]|[_ Hi]]%lookup_insert_Some Hci; [by apply Hold|by eexists _, _]. }
    destruct (Hback _ _ _ Hl Hc) as (? & ? & ? & ?), (Hback _ _ _ Hl' Hd') as (? & ? & ? & ?).
    by eapply Ho.
Qed.

(** A request that is counted: no mark was there before. *)
Lemma wall_ok_counts s p n v db :
  wall_ok s -> w_beacons s !! n = Some (p, Marking v) -> views_good db ->
  (forall w, marked (w_db s) w -> marked db w) -> ~ marked (w_db s) v -> marked db v ->
  wall_ok (moved s p n (Bumping v) db).
Proof.
  intros [Hv Hf Hm Hd Ho] Hn Hg Hkeep Hno Hyes.
  assert (forall m q c, w_beacons s !! m = Some (q, c) -> counted_as v c = false) as Hnone.
  { intros m q c Hl. destruct (counted_as v c) eqn:Hc; [|done].
    destruct (Hd _ _ _ _ Hl Hc); [|done]. specialize (Hm _ _ _ Hn). lia. }
  split; simpl; [done|done| | |].
  - intros m q w [[<- [=]]|[_ Hl]]%lookup_insert_Some. by eapply Hm.
  - intros m q c w [[<- [= <- <-]]|[_ Hl]]%lookup_insert_Some Hc.
    + apply bool_decide_eq_true in Hc as <-. by right.
    + destruct (Hd _ _ _ _ Hl Hc); auto.
  - intros m k q r c d w [[<- [= <- <-]]|[Hne Hl]]%lookup_insert_Some
      [[<- [= <- <-]]|[Hne' Hl']]%lookup_insert_Some Hc Hd'; [done|..].
    + apply bool_decide_eq_true in Hc as <-. by rewrite (Hnone _ _ _ Hl') in Hd'.
    + apply bool_decide_eq_true in Hd' as <-. by rewrite (Hnone _ _ _ Hl) in Hc.
    + by eapply Ho.
Qed.

Lemma wall_step_ok s s' : wall_step window s s' -> wall_ok s -> wall_ok s'.
Proof.
  intros Hstep Hok. pose proof Hok as [Hv Hf Hm Hd Ho]. destruct Hstep as
    [s t Ht|s p c|env s p n listing request seen db v Henv Hn Hrun|env s p n v counted db Henv Hn Hrun
    |env s p n v u db Henv Hn Hrun|env s p n v c r u db Henv Hn Hrun|env s p keep deleted db Henv Hover Hrun].
  - split; simpl; [done| |done..]. pose proof (timestamp_mono _ _ Ht). lia.
  - by split.
  - injection Hrun as _ <-. apply wall_ok_moved; [done|done| | |].
    + intros w. by apply marked_same.
    + intros w. destruct seen; [done|]. intros [= <-]. destruct Henv as (Hnow & Hw & _).
      unfold v, visit_of, view_window_index. simpl. rewrite Hnow, Hw. lia.
    + intros w. by destruct seen.
  - destruct Henv as (_ & _ & Hup).
    apply mark_view_inv in Hrun as (Hg & _ & Hkeep & Hcount); [|done|by eapply views_good_same].
    assert (forall w, marked (w_db s) w -> marked db w) as Hkeep'
      by (intros w Hw; apply Hkeep; by eapply marked_same).
    destruct counted.
    + destruct (Hcount eq_refl) as [Hno Hyes]. apply wall_ok_counts; [done..| |done].
      intros Hw. apply Hno. by eapply marked_same.
    + by apply wall_ok_moved.
  - apply bump_inv in Hrun as [Hviews _]. apply wall_ok_moved; [done|by eapply views_good_same| |done|].
    + intros w. by apply marked_same.
    + intros w Hc. eexists _, _. split; [exact Hn|]. done.
  - apply remember_inv in Hrun as [Hviews _]. apply wall_ok_moved; [done|by eapply views_good_same| |done|].
    + intros w. by apply marked_same.
    + intros w Hc. eexists _, _. split; [exact Hn|]. done.
  - apply purge_inv in Hrun as (_ & Hg & Hkeep). destruct Henv as (Hnow & Hw & _). split; simpl.
    + apply Hg. by eapply views_good_same.
    + unfold purge_threshold, view_window_index. rewrite Hnow, Hw. lia.
    + intros n q v Hl. specialize (Hm _ _ _ Hl). specialize (Hover _ _ _ Hl). lia.
    + intros n q b v Hl Hc. destruct (Hd _ _ _ _ Hl Hc) as [|Hmk]; [left; lia|].
      destruct (Z.lt_ge_cases (vt_window v) (purge_threshold env keep)); [left; lia|right].
      apply Hkeep; [by eapply marked_same|done].
    + done.
Qed.

Lemma wall_steps_ok s s' : wall_steps window s s' -> wall_ok s -> wall_ok s'.
Proof. induction 1; eauto using wall_step_ok. Qed.

Lemma wall_start_ok db now : views_good db -> wall_ok (wall_start window db now).
Proof. intros Hg. split; simpl; [done|lia|by intros ? ? ?; rewrite lookup_empty..]. Qed.

(** ** The counters *)

Lemma count_of_moved b s p n c db : w_beacons s !! n = None -> b c = false ->
  count_of b (w_beacons (moved s p n c db)) = count_of b (w_beacons s).
Proof. intros Hn Hb. unfold count_of. simpl. rewrite msum_insert_new by done. simpl. by rewrite Hb. Qed.

Lemma count_of_step b s p p' n old c db : w_beacons s !! n = Some (p', old) ->
  count_of b (w_beacons (moved s p n c db)) = count_of b (w_beacons s) - when (b old) 1 + when (b c) 1.
Proof. intros Hn. unfold count_of. simpl. by rewrite (msum_insert_upd _ _ _ _ (p', old)). Qed.

(** The counter of a listing shows the requests that have raised it. *)
Definition counter_exact (listing base : Z) (s : Wall) : Prop :=
  exists x, rows_of (A := KindnessListing) (w_db s) !! listing = Some x /\
    kl_view_count x = base + count_of (bumped_on listing) (w_beacons s).

Lemma counter_kept listing base s p n b db :
  kind_listings db = kind_listings (w_db s) ->
  count_of (bumped_on listing) (w_beacons (moved s p n b db)) = count_of (bumped_on listing) (w_beacons s) ->
  counter_exact listing base s -> counter_exact listing base (moved s p n b db).
Proof.
  intros Hl Hc (x & Hx & Hv). exists x. rewrite Hc. split; [|done].
  unfold rows_of in *. simpl in *. by rewrite Hl.
Qed.

Lemma wall_step_counter listing base s s' :
  wall_step window s s' -> wall_ok s -> counter_exact listing base s -> counter_exact listing base s'.
Proof.
  intros Hstep Hok Hex. destruct Hstep as
    [s t Ht|s p c|env s p n l request seen db v Henv Hn Hrun|env s p n v counted db Henv Hn Hrun
    |env s p n v u db Henv Hn Hrun|env s p n v c r u db Henv Hn Hrun|env s p keep deleted db Henv Hover Hrun];
    [exact Hex|exact Hex|..].
  - injection Hrun as _ <-. apply counter_kept; [done| |done]. apply count_of_moved; [done|by destruct seen].
  - destruct Henv as (_ & _ & Hup).
    apply mark_view_inv in Hrun as (_ & Hl & _); [|done|by eapply views_good_same, ok_views].
    apply counter_kept; [exact Hl| |done]. rewrite (count_of_step _ _ _ _ _ _ _ _ Hn). destruct counted; simpl; lia.
  - apply bump_inv in Hrun as [_ Hr]. destruct Hex as (x & Hx & Hv).
    change (bumpable (vt_listing v) (seen_by p s)) with (bumpable (vt_listing v) (w_db s)) in Hr.
    unfold counter_exact. rewrite (count_of_step _ _ _ _ _ _ _ _ Hn). change (w_db (moved s p n _ db)) with db.
    rewrite Hr. change (rows_of (A := KindnessListing) (seen_by p s)) with (rows_of (A := KindnessListing) (w_db s)).
    simpl bumped_on. destruct (bumpable (vt_listing v) (w_db s)); simpl; [|exists x; split; [done|lia]].
    destruct (Z.eqb_spec (vt_listing v) listing) as [->|Hne].
    + eexists. rewrite lookup_alter_eq, Hx. split; [done|]. simpl. lia.
    + exists x. rewrite lookup_alter_ne by done. split; [done|simpl; lia].
  - apply remember_inv in Hrun as [_ Hl]. apply counter_kept; [exact Hl| |done].
    rewrite (count_of_step _ _ _ _ _ _ _ _ Hn). simpl. lia.
  - apply purge_inv in Hrun as (Hl & _). destruct Hex as (x & Hx & Hv). exists x. split; [|done].
    unfold rows_of in *. simpl in *. by rewrite Hl.
Qed.

Lemma wall_steps_counter listing base s s' :
  wall_steps window s s' -> wall_ok s -> counter_exact listing base s -> counter_exact listing base s'.
Proof. induction 1; eauto using wall_step_counter, wall_step_ok. Qed.
End Once.

(** Only a request that is counted raises the counter. *)
Definition raised_if_counted (s : Wall) : Prop :=
  forall n p b l, w_beacons s !! n = Some (p, b) -> bumped_on l b = true ->
    exists v, vt_listing v = l /\ counted_as v b = true.

Lemma raised_moved s p n b db : raised_if_counted s ->
  (forall l, bumped_on l b = true -> exists v, vt_listing v = l /\ counted_as v b = true) ->
  raised_if_counted (moved s p n b db).
Proof.
  intros Hs Hb m q c l. simpl. intros [[<- [= <- <-]]|[_ Hl]]%lookup_insert_Some; [apply Hb|by eapply Hs].
Qed.

Lemma wall_steps_raised window s s' : wall_steps window s s' -> raised_if_counted s -> raised_if_counted s'.
Proof.
  induction 1 as [s|s s1 s2 Hstep _ IH]; [done|]. intros Hs. apply IH.
  destruct Hstep as [| |env s p n l request seen db v|env s p n v counted db|env s p n v u db
    |env s p n v c r u db Henv Hn Hrun|]; [exact Hs|exact Hs|apply raised_moved; [done|]..|exact Hs]; intros k.
  - by destruct seen.
  - by destruct counted.
  - intros [_ Hk%Z.eqb_eq]%andb_true_iff. exists v. split; [done|]. simpl. by apply bool_decide_eq_true.
  - intros Hk. by apply (Hs _ _ _ _ Hn).
Qed.

(** C20: a view is counted once: whatever the processes' caches hold or lose, however
    the statements of their requests interleave, and with the clean-up of old
    marks between them, no two requests of a viewer for a listing in a window are
    counted, as long as the table of marks can be reached and no request outlives
    the windows whose marks are kept; the counter of every listing has grown by the
    requests that have raised it, and each of these was counted. *)
Theorem a_viewer_counts_once (window now : Z) (db : KindDB) (s : Wall)
    (Hwindow : 0 < window) (Hgood : views_good db)
    (Hsteps : wall_steps window (wall_start window db now) s) :
  (forall n m p q b c v, w_beacons s !! n = Some (p, b) -> w_beacons s !! m = Some (q, c) ->
     counted_as v b = true -> counted_as v c = true -> n = m) /\
  (forall listing x, rows_of db !! listing = Some x -> exists y,
     rows_of (w_db s) !! listing = Some y /\
     kl_view_count y = kl_view_count x + count_of (bumped_on listing) (w_beacons s)) /\
  (forall n p b listing, w_beacons s !! n = Some (p, b) -> bumped_on listing b = true ->
     exists v, vt_listing v = listing /\ counted_as v b = true).
Proof.
  pose proof (wall_start_ok window db now Hgood) as Hstart. split_and!.
  - intros n m p q b c v. apply (ok_once window s). by eapply wall_steps_ok.
  - intros listing x Hx. apply (wall_steps_counter window Hwindow listing (kl_view_count x) _ _ Hsteps Hstart).
    exists x. split; [done|]. unfold count_of. simpl. rewrite msum_empty. lia.
  - apply (wall_steps_raised _ _ _ Hsteps). intros n p b l Hl. simpl in Hl.
    by rewrite lookup_empty in Hl.
Qed.
