(* ===== verification/KindnessSystem.v ===== *)
(** The wall of kindness as one transition system: the requests and the states
    they reach, the covers of the listings, the end of a listing's time, and a
    concrete wall for the examples. *)

From S2P Require Import Prelude Python Choices Orm Models Apps Text ClientIp Places.
From S2P Require Import KindnessModels KindnessContacts KindnessWall KindnessImages KindnessViews KindnessBeacons.
From stdpp Require Import sorting.
#[local] Open Scope Z_scope.

(** * Requests *)

Inductive kind_request : Type :=
| PostCategory (title description icon : string) (order : Z)
| PatchCategory (category : KindnessCategory) (fields : list category_field)
| SetCategoryActive (category : KindnessCategory) (active : bool)
| PostListing (input : ListingInput) (created_by : option Z)
| PatchListing (listing : KindnessListing) (fields : list listing_field)
| PublishListing (listing : KindnessListing)
| RenewListing (listing : KindnessListing)
| FulfillListing (listing : KindnessListing) (note : string)
| ArchiveListing (listing : KindnessListing)
| RevertToDraft (listing : KindnessListing)
| SetFeatured (listing : KindnessListing) (featured : bool)
| ExpireOldListings
| SubmitOffer (listing : KindnessListing) (user : Z) (message : string)
| WithdrawOffer (offer : KindnessOffer) (user : Z)
| ReviewOffer (offer : KindnessOffer) (admin : Z) (status note : string)
| PostView (listing : KindnessListing) (is_staff is_superuser : bool) (request : ViewRequest)
| PurgeViewMarks
| OnImage (q : image_request).

(** The service of a request; what it returns is left out. *)
Definition run {A} (m : KM A) : KM unit := _ ← m; mret tt.

Definition serve (q : kind_request) : KM unit :=
  match q with
  | PostCategory t d i o => run (post_category t d i o)
  | PatchCategory c fs => run (patch_category c fs)
  | SetCategoryActive c a => run (set_category_active c a)
  | PostListing i u => run (post_listing i u)
  | PatchListing x fs => run (patch_listing x fs)
  | PublishListing x => run (publish_listing x)
  | RenewListing x => run (renew_listing x)
  | FulfillListing x n => run (fulfill_listing x n)
  | ArchiveListing x => run (archive_listing x)
  | RevertToDraft x => run (revert_to_draft x)
  | SetFeatured x f => run (set_featured x f)
  | ExpireOldListings => run expire_old_listings_task
  | SubmitOffer x u m => run (submit_offer x u m)
  | WithdrawOffer o u => withdraw_offer o u
  | ReviewOffer o a s n => run (review_offer o a s n)
  | PostView x st su r => run (post_view x st su r)
  | PurgeViewMarks => run purge_listing_view_marks_task
  | OnImage q => serve_image q
  end.

(** Any request on any object, also one that is out of date or was never stored. *)
Definition any_request (db : KindDB) (q : kind_request) : Prop := True.

(** Only the pictures are handled with care; nothing is asked of the others. *)
Definition careful_request (db : KindDB) (q : kind_request) : Prop :=
  match q with
  | OnImage q => image_careful (rows_of db) q
  | _ => True
  end.

Definition empty_wall : KindDB :=
  mkKindDB (mkTable ∅ 1) (mkTable ∅ 1) (mkTable ∅ 1) (mkTable ∅ 1) (mkTable ∅ 1) ∅.

(** The states that requests reach, each at a time and with settings of its own,
    whether they succeed or fail, where every request is one that is [allowed]. *)
Inductive kind_reachable (allowed : KindDB -> kind_request -> Prop) : KindDB -> Prop :=
| kind_start : kind_reachable allowed empty_wall
| kind_step env db q :
    kind_reachable allowed db -> allowed db q -> kind_reachable allowed (serve q env db).2.

(** * Slugs *)

(** A slug is always found, and no row has it, not even a deleted one. *)
Lemma wall_slug_is_found {A} `{Model KindDB A} (slug : A -> string) env title max_length db :
  exists s, unique_slug slug env title max_length db = Some s /\
    forall i x, rows_of (A := A) db !! i = Some x -> slug x <> s.
Proof.
  unfold unique_slug. cbv zeta. set (base := str_or _ _).
  destruct (first_free_found (fun s => qs_exists (kind_all (fun x : A => str_eqb (slug x) s) db))
    (slug_with_tail max_length base) (slug <$> qs_list (rows_of db)) base 2) as (s & Hs & Hfree).
  - intros s (i & x & Hx)%qs_exists_spec. apply map_lookup_filter_Some in Hx as [Hi Hs].
    apply bool_decide_eq_true in Hs as <-. apply list_elem_of_fmap_2. unfold qs_list.
    change ((i, x).2) with x. change x with ((i, x).2) at 1. apply list_elem_of_fmap_2.
    by apply elem_of_map_to_list.
  - intros y z Hy Hz Heq. unfold slug_with_tail in Heq.
    pose proof (parse_digits_pretty false y ltac:(lia)) as Py.
    pose proof (parse_digits_pretty false z ltac:(lia)) as Pz.
    pose proof (after_last_dash_inj _ _ _ _ _ _ Heq Py Pz) as Hc. congruence.
  - exists s. unfold qs_list in Hs. rewrite !length_fmap, length_map_to_list in Hs.
    split; [exact Hs|]. intros i x Hi <-. eapply qs_exists_false; [exact Hfree|].
    apply map_lookup_filter_Some. split; [exact Hi|]. by apply bool_decide_eq_true.
Qed.

(** So a listing or a category is never refused for want of a slug. *)
Lemma slug_for_returns {A} `{Model KindDB A} (slug : A -> string) title max_length (x : A) env db :
  exists s, slug_for slug title max_length x env db = (Ok s, db).
Proof.
  unfold slug_for. destruct (str_true (slug x)); [by eexists|].
  destruct (wall_slug_is_found slug env title max_length db) as (s & Hs & _).
  exists s. rewrite bind_unfold. cbn. rewrite bind_unfold. unfold query. by rewrite Hs.
Qed.

(** * The pictures *)

Abbreviation no_picture := (same_table KindnessListingImage).

Lemma moves_same {A} (m : KM A) : (forall env db, kind_images (m env db).2 = kind_images db) -> moves no_picture m.
Proof. intros Hm env db. unfold same_table. simpl. apply Hm. Qed.

Lemma moves_whole {A} `{Model KindDB A} (x : A) :
  (forall i (y : A) db, kind_images (set_row i y db) = kind_images db) -> moves no_picture (save_whole x).
Proof. intros Hs. apply moves_same. intros env db. unfold save_whole. destruct (row_ok _ _); [apply Hs|done]. Qed.

Lemma moves_modified (f : KindDB -> KindDB) :
  (forall db, kind_images (f db) = kind_images db) -> moves no_picture (modify f : KM unit).
Proof. intros Hf. by apply moves_same. Qed.

Lemma moves_mark_view l v w : moves no_picture (mark_view l v w).
Proof.
  unfold mark_view. apply moves_bind; [typeclasses eauto|by apply moves_same|]. intros env0.
  apply moves_bind; [typeclasses eauto| |].
  - apply moves_same. intros env db. unfold try_mark_view. destruct (negb _); [done|].
    destruct (rows_of db !! l); [|done]. destruct (get_or_create _ _ env db) as [[[x b]|e] db'] eqn:Hg; [|done].
    apply get_or_create_ok_inv in Hg as [(_ & -> & _)|(_ & _ & _ & _ & ->)]; done.
  - intros [b|]; [by apply moves_same|]. unfold cache_add. apply moves_bind; [typeclasses eauto|by apply moves_same|].
    intros e. apply moves_bind; [typeclasses eauto|by apply moves_same|]. intros h.
    destruct (negb _ || _); [by apply moves_same|]. apply moves_bind; [typeclasses eauto| |].
    + apply moves_same. intros env db. unfold cache_set. by destruct (kenv_cache_up env).
    + intros u. by apply moves_same.
Qed.

Lemma moves_bump l : moves no_picture (bump_listing_view_count l).
Proof.
  apply moves_same. intros env db. unfold bump_listing_view_count. destruct (rows_of db !! l); [|done].
  by destruct (positive_integer _).
Qed.

Lemma moves_remember l v w : moves no_picture (remember_view l v w).
Proof.
  apply moves_same. intros env db. unfold remember_view, cache_set. rewrite bind_unfold. cbn.
  by destruct (kenv_cache_up env).
Qed.

#[local] Hint Resolve moves_mark_view moves_bump moves_remember : moves.
#[local] Hint Extern 1 (moves no_picture (save_whole _)) => apply moves_whole; reflexivity : moves.
#[local] Hint Extern 1 (moves no_picture (modify _)) => apply moves_modified; reflexivity : moves.
#[local] Hint Extern 1 (moves no_picture (kind_update _ _)) => apply moves_modified; reflexivity : moves.
#[local] Hint Extern 2 (moves no_picture (base_get _)) => apply moves_base_get; typeclasses eauto : moves.

(** No service but those of the pictures touches their table. *)
Lemma slug_pictures {A} `{Model KindDB A} (slug : A -> string) title n (x : A) :
  moves no_picture (slug_for slug title n x).
Proof. unfold slug_for. solve_moves. Qed.

#[local] Hint Extern 1 (moves no_picture (slug_for _ _ _ _)) => apply slug_pictures : moves.

Lemma prepare_pictures x : moves no_picture (prepare_listing x).
Proof. unfold prepare_listing. solve_moves. Qed.

#[local] Hint Resolve prepare_pictures : moves.

Lemma save_listing_pictures x upd : moves no_picture (save_listing x upd).
Proof. unfold save_listing. solve_moves. Qed.

Lemma save_category_pictures x upd : moves no_picture (save_category x upd).
Proof. unfold save_category, category_slug. solve_moves. Qed.

Lemma validate_pictures x attrs : moves no_picture (validate_listing x attrs).
Proof. unfold validate_listing. solve_moves. Qed.

Lemma register_pictures l r : moves no_picture (register_listing_view l r).
Proof.
  unfold register_listing_view. apply moves_bind; [typeclasses eauto|by apply moves_same|]. intros env0. cbv zeta.
  apply moves_bind; [typeclasses eauto|by apply moves_same|]. intros seen. destruct seen; solve_moves.
Qed.

#[local] Hint Resolve save_listing_pictures save_category_pictures validate_pictures register_pictures : moves.

Lemma serve_pictures q : (forall i, q <> OnImage i) -> moves no_picture (serve q).
Proof.
  destruct q; intros Hq; cbn [serve]; try (exfalso; by eapply Hq);
    unfold run, post_category, create_category, category_slug, patch_category, set_category_active,
      post_listing, patch_listing, save_listing_whole, publish_listing, assert_publishable, renew_listing,
      fulfill_listing, archive_listing, revert_to_draft, set_featured, expire_old_listings_task,
      expire_due_listings, submit_offer, withdraw_offer, review_offer, post_view,
      purge_listing_view_marks_task, purge_stale_listing_views; cbv zeta; solve_moves.
Qed.

Lemma images_ok_same db db' : kind_images db' = kind_images db -> images_ok db -> images_ok db'.
Proof. unfold images_ok, rows_of. simpl. by intros ->. Qed.

Lemma picture_request (q : kind_request) : (exists i, q = OnImage i) \/ forall i, q <> OnImage i.
Proof. destruct q; eauto; by right. Qed.

Lemma reachable_images_ok db : kind_reachable careful_request db -> images_ok db.
Proof.
  induction 1 as [|env db q _ IH Ha].
  { split; [by split|]. split; [by intros i y Hy|]. intros l (i & y & Hi & _).
    unfold rows_of in Hi. simpl in Hi. by rewrite lookup_empty in Hi. }
  destruct (picture_request q) as [[i ->]|Hq].
  - by apply serve_image_ok.
  - eapply images_ok_same; [|exact IH]. by apply serve_pictures.
Qed.

Lemma reachable_single allowed db : kind_reachable allowed db -> single_covers db.
Proof.
  induction 1 as [|env db q _ IH _].
  { split; [by intros i y Hy|]. intros l i j (y & Hy & _). unfold rows_of in Hy. simpl in Hy.
    by rewrite lookup_empty in Hy. }
  destruct (picture_request q) as [[i ->]|Hq].
  - by apply serve_image_single.
  - unfold single_covers, rows_of in *. simpl in *.
    by rewrite (serve_pictures q Hq env db : kind_images _ = kind_images _).
Qed.

(** C27: a listing never has two covers, whatever sequence of requests adds
    pictures, changes them, moves them, makes another one the cover or deletes them,
    one request after the other and on whatever objects, also those that are out of
    date.  And a listing with pictures has one, never none, as long as the pictures
    are handled with care: saved and deleted as the table has them, in their listing,
    and no cover switched off by hand, which would leave none
    ([KindnessSample.a_cover_can_be_switched_off]). *)
Theorem every_listing_has_one_cover (db : KindDB) (listing : Z) :
  (kind_reachable any_request db -> forall i j,
     is_cover_of listing (rows_of db) i -> is_cover_of listing (rows_of db) j -> i = j) /\
  (kind_reachable careful_request db ->
     pictured listing (rows_of db) -> one_cover listing (rows_of db)).
Proof.
  split.
  - intros [_ Hone]%reachable_single. apply Hone.
  - intros [_ [_ Hone]]%reachable_images_ok. apply Hone.
Qed.

(** * The end of a listing's time *)

Definition expired (now : Z) (x : KindnessListing) : KindnessListing :=
  x <| kl_status := ListingStatus.EXPIRED |> <| kl_updated_at := now |>.

(** It is active and published, and the public does not see it any more. *)
Definition due (now : Z) (x : KindnessListing) : bool :=
  kl_is_active x && bool_decide (kl_status x = ListingStatus.PUBLISHED) && negb (is_public now x).

Abbreviation listings db := (rows_of (A := KindnessListing) db).

Definition due_count (now : Z) (db : KindDB) : nat := size (kind_all (A := KindnessListing) (due now) db).

Definition listings_good (db : KindDB) : Prop := table_good (A := KindnessListing) (table_of db).

(** One run of the task, as a function of the rows. *)
Lemma expire_run env db :
  let f x := if bool_decide (kl_id x ∈ stale_ids (kenv_now env) db) then expired (kenv_now env) x else x in
  listings (expire_old_listings_task env db).2 = f <$> listings db.
Proof.
  cbv zeta. unfold expire_old_listings_task, expire_due_listings.
  rewrite bind_unfold. unfold timezone_now. rewrite bind_unfold. unfold query at 1.
  change (clock env) with (kenv_now env).
  destruct (stale_ids (kenv_now env) db) as [|i ids] eqn:Hids; [|done].
  symmetry. change (snd _) with db. transitivity (id <$> listings db); [|apply map_fmap_id].
  apply map_fmap_ext. intros i x _. by rewrite bool_decide_false by apply not_elem_of_nil.
Qed.

Lemma expired_not_due now x : due now (expired now x) = false.
Proof. unfold due. cbn. by rewrite andb_false_r. Qed.

(** What the service looks for. *)
Lemma due_overdue now x : due now x = kl_is_active x && overdue now x.
Proof.
  unfold due, overdue, is_public. destruct (kl_is_active x), (bool_decide _); try done. simpl.
  destruct (kl_expires_at x) as [t|]; [|done]. by rewrite Z.leb_antisym.
Qed.

Lemma due_rows now db : objects_filter (A := KindnessListing) (overdue now) db = kind_all (due now) db.
Proof. unfold objects_filter, kind_all. apply map_filter_ext. intros i x _. simpl. by rewrite due_overdue. Qed.

(** The keys of the listings that are due, each once. *)
Definition due_keys (now : Z) (db : KindDB) : list Z :=
  map kl_id (ordered_by board_le (qs_list (objects_filter (A := KindnessListing) (overdue now) db))).

Lemma due_keys_spec now db i : listings_good db ->
  i ∈ due_keys now db <-> exists x, listings db !! i = Some x /\ due now x = true.
Proof.
  intros [_ Hwf]. unfold due_keys. rewrite list_elem_of_fmap. split.
  - intros (x & -> & Hx). rewrite elem_of_ordered in Hx. apply list_elem_of_fmap in Hx as ([j y] & -> & Hj).
    apply elem_of_map_to_list, objects_filter_lookup in Hj as (Hj & Ha & Ho). simpl.
    destruct (Hwf _ _ Hj) as [Hk _]. change (kl_id y = j) in Hk. subst j. exists y. split; [done|].
    rewrite due_overdue. change (kl_is_active y) with (is_active (DB := KindDB) y). by rewrite Ha, Ho.
  - intros (x & Hi & Hd). rewrite due_overdue in Hd. apply andb_true_iff in Hd as [Ha Ho]. destruct (Hwf _ _ Hi) as [Hk _]. exists x. split; [by symmetry|].
    rewrite elem_of_ordered. unfold qs_list. change x with ((i, x).2) at 1.
    apply list_elem_of_fmap_2, elem_of_map_to_list. by apply objects_filter_lookup.
Qed.

Lemma due_keys_order now db :
  due_keys now db ≡ₚ kl_id <$> qs_list (objects_filter (A := KindnessListing) (overdue now) db).
Proof. apply Permutation_map, merge_sort_Permutation. Qed.

Lemma length_due_keys now db : length (due_keys now db) = due_count now db.
Proof.
  rewrite due_keys_order, due_rows. unfold due_count, qs_list. by rewrite !length_fmap, length_map_to_list.
Qed.

Section Clearing.
Context (env : KindEnv).
Let now := kenv_now env.
Let task db := (expire_old_listings_task env db).2.

Lemma task_lookup db i x' : listings (task db) !! i = Some x' ->
  exists x, listings db !! i = Some x /\
    x' = if bool_decide (kl_id x ∈ stale_ids now db) then expired now x else x.
Proof. unfold task. rewrite expire_run, lookup_fmap. intros (x & Hx & ->)%fmap_Some_1. by exists x. Qed.

Lemma task_good db : listings_good db -> listings_good (task db).
Proof.
  intros [Hn Hwf]. assert (next_id (kind_listings (task db)) = next_id (kind_listings db)) as He.
  { unfold task, expire_old_listings_task, expire_due_listings. rewrite bind_unfold. unfold timezone_now.
    rewrite bind_unfold. unfold query at 1. by destruct (stale_ids _ db). }
  split; [unfold table_of; simpl; by rewrite He|]. intros i x' (x & Hx & ->)%task_lookup.
  destruct (Hwf _ _ Hx) as [Hk Hi]. change (kl_id x = i) in Hk. simpl in *. rewrite He. split; [|done].
  by destruct (bool_decide _).
Qed.

(** A run takes a batch off the listings that are due. *)
Lemma task_due_count db : listings_good db ->
  (due_count now (task db) <= due_count now db - expiry_batch)%nat.
Proof.
  intros Hg. rewrite <- !length_due_keys, <- length_drop.
  apply submseteq_length, NoDup_submseteq.
  - rewrite due_keys_order. assert (forall m : gmap Z KindnessListing, (forall i x, m !! i = Some x -> kl_id x = i) ->
      NoDup (kl_id <$> qs_list m)) as Hnd.
    { intros m Hm. unfold qs_list. rewrite <- list_fmap_compose.
      rewrite (list_fmap_ext _ fst); [apply NoDup_fst_map_to_list|].
      intros k [i x] Hk. simpl. apply Hm, elem_of_map_to_list. by eapply list_elem_of_lookup_2. }
    apply Hnd. intros i x (Hx & _)%objects_filter_lookup. by destruct (proj2 (task_good db Hg) _ _ Hx) as [Hk _].
  - intros i. rewrite due_keys_spec by by apply task_good. intros (x' & (x & Hx & ->)%task_lookup & Hd).
    assert (kl_id x = i) as Hk by by destruct (proj2 Hg _ _ Hx) as [Hk _].
    destruct (decide (kl_id x ∈ stale_ids now db)) as [Hin|Hout].
    { rewrite bool_decide_true in Hd by done. by rewrite expired_not_due in Hd. }
    rewrite bool_decide_false in Hd by done. rewrite Hk in Hout.
    assert (i ∈ due_keys now db) as Hi by (apply due_keys_spec; [done|]; by exists x).
    rewrite <- (take_drop expiry_batch (due_keys now db)), elem_of_app in Hi. by destruct Hi.
Qed.

(** What any number of runs makes of a row. *)
Lemma runs_lookup n : forall db i x', listings (Nat.iter n task db) !! i = Some x' -> listings_good db ->
  exists x, listings db !! i = Some x /\ (x' = x \/ due now x = true /\ x' = expired now x).
Proof.
  induction n as [|n IH]; intros db i x' Hx' Hg; [by exists x'; auto|].
  rewrite Nat.iter_succ_r in Hx'. apply IH in Hx' as (y & Hy & Hxy); [|by apply task_good].
  apply task_lookup in Hy as (x & Hx & ->). exists x. split; [done|].
  destruct (decide (kl_id x ∈ stale_ids now db)) as [Hin|Hout].
  - rewrite bool_decide_true in Hxy by done. right.
    destruct Hxy as [->|[Hd _]]; [|by rewrite expired_not_due in Hd]. split; [|done].
    assert (kl_id x = i) as Hk by by destruct (proj2 Hg _ _ Hx) as [Hk _].
    assert (i ∈ due_keys now db) as Hi.
    { rewrite <- (take_drop expiry_batch (due_keys now db)), elem_of_app, <- Hk. by left. }
    apply due_keys_spec in Hi as (z & Hz & Hdz); [|done]. rewrite Hx in Hz. by injection Hz as ->.
  - by rewrite bool_decide_false in Hxy by done.
Qed.

Lemma runs_domain n : forall db i, is_Some (listings (Nat.iter n task db) !! i) <-> is_Some (listings db !! i).
Proof.
  induction n as [|n IH]; intros db i; [done|]. rewrite Nat.iter_succ_r, IH.
  unfold task. rewrite expire_run, lookup_fmap. apply fmap_is_Some.
Qed.

Lemma runs_good n db : listings_good db -> listings_good (Nat.iter n task db).
Proof. intros Hg. induction n as [|n IH]; simpl; [done|by apply task_good]. Qed.

Lemma runs_due_count n : forall db, listings_good db ->
  (due_count now (Nat.iter n task db) <= due_count now db - n * expiry_batch)%nat.
Proof.
  induction n as [|n IH]; intros db Hg; [simpl; lia|]. rewrite Nat.iter_succ_r.
  specialize (IH (task db) (task_good db Hg)). pose proof (task_due_count db Hg).
  rewrite Nat.mul_succ_l. lia.
Qed.
End Clearing.

(** C38: the wall is cleared: the task takes a thousand listings off the wall in a
    run, so as many runs as there are thousands of listings whose time is over
    leave none of them published; exactly the listings that are active and
    published and that the public does not see any more are expired, and every
    other listing is as it was. *)
Theorem the_wall_is_cleared (env : KindEnv) (db : KindDB) (n : nat)
    (Hgood : listings_good db) (Hn : (due_count (kenv_now env) db <= n * expiry_batch)%nat) :
  listings (Nat.iter n (fun db => (expire_old_listings_task env db).2) db) =
  (fun x => if due (kenv_now env) x then expired (kenv_now env) x else x) <$> listings db.
Proof.
  set (db' := Nat.iter n _ db). pose proof (runs_due_count env n db Hgood) as Hcount.
  assert (due_count (kenv_now env) db' = 0)%nat as Hnone by (unfold db'; lia).
  apply map_eq. intros i. rewrite lookup_fmap.
  destruct (listings db' !! i) as [x'|] eqn:Hx'.
  - pose proof (runs_lookup env n db i x' Hx' Hgood) as (x & -> & Hxx). simpl. f_equal.
    destruct Hxx as [->|[-> ->]]; [|done]. destruct (due (kenv_now env) x) eqn:Hd; [|done].
    exfalso. assert (i ∈ due_keys (kenv_now env) db') as Hi.
    { apply due_keys_spec; [by apply (runs_good env)|by exists x]. }
    rewrite <- length_due_keys in Hnone. destruct (due_keys _ db'); [by apply not_elem_of_nil in Hi|done].
  - destruct (listings db !! i) as [x|] eqn:Hx; [|done]. exfalso.
    destruct (proj2 (runs_domain env n db i)) as [y Hy]; [by exists x|]. unfold db' in Hx'. congruence.
Qed.
