(* ===== verification/KindnessSample.v ===== *)
(** A concrete wall of kindness for the witnesses and the examples: an
    administrator's requests and the database after them, two browser tabs whose
    views are counted at the same time, and what the services do with instances
    and settings that are not as one would wish. *)

From S2P Require Import Prelude Python Choices Orm Models Apps Text ClientIp Places.
From S2P Require Import KindnessModels KindnessContacts KindnessWall KindnessImages KindnessViews.
From S2P Require Import KindnessBeacons KindnessSystem.
#[local] Open Scope Z_scope.

(** * The environment *)

(** Slugs and hashes are the texts themselves; windows of an hour. *)
Definition kind_env_at (now : Z) : KindEnv :=
  mkKindEnv now (fun s => s) "0f1e2d3c4b5a69788796a5b4c3d2e1f0" (fun s => s) sample_places None
    (IntSetting 3600) (IntSetting 0) true true (fun x y => bool_decide (x = y)).

Definition with_marks (up : bool) (env : KindEnv) : KindEnv := env <| kenv_marks_up := up |>.
Definition with_cache (up : bool) (env : KindEnv) : KindEnv := env <| kenv_cache_up := up |>.

(** Requests, one a minute. *)
Fixpoint replay_wall (now : Z) (qs : list kind_request) (db : KindDB) : KindDB :=
  match qs with
  | [] => db
  | q :: qs' => replay_wall (now + usec_per_min) qs' (serve q (kind_env_at now) db).2
  end.

Fixpoint wall_careful (now : Z) (qs : list kind_request) (db : KindDB) : Prop :=
  match qs with
  | [] => True
  | q :: qs' => careful_request db q /\
                wall_careful (now + usec_per_min) qs' (serve q (kind_env_at now) db).2
  end.

Lemma replay_wall_reachable qs : forall now db,
  kind_reachable careful_request db -> wall_careful now qs db ->
  kind_reachable careful_request (replay_wall now qs db).
Proof.
  induction qs as [|q qs IH]; intros now db Hr Ha; [done|]. destruct Ha as [Hq Ha].
  cbn [replay_wall]. apply IH; [by constructor|done].
Qed.

(** * The requests *)

Definition kind_noon : Z := 28333333 * usec_per_min.

Definition listing_in (i : Z) (db : KindDB) : KindnessListing :=
  default (new_listing None i 0) (rows_of db !! i).

Definition image_in (i : Z) (db : KindDB) : KindnessListingImage :=
  default (mkKindnessImage i 0 "" "" false 0 true 0 0) (rows_of db !! i).

Definition winter_coats : ListingInput :=
  mkListingInput 1 "Winter coats" "Two winter coats for children of six and nine"
    [set_channel ContactChannelKind.PHONE (text "0912 345 6789");
     set_channel ContactChannelKind.TELEGRAM (text "@helpers")].

(** A category; a draft in it, with two pictures. *)
Definition drafting : list kind_request :=
  [ PostCategory "Clothes" "" "" 1; PostListing winter_coats (Some 9);
    OnImage (AddImage 1 "a.jpg" "" false 0); OnImage (AddImage 1 "b.jpg" "" false 1) ]%string.

Definition drafted_db : KindDB := replay_wall kind_noon drafting empty_wall.

(** The draft is published. *)
Definition publish_time : Z := kind_noon + usec_per_hour.
Definition wall_db : KindDB :=
  replay_wall publish_time [PublishListing (listing_in 1 drafted_db)] drafted_db.

Lemma drafted_reachable : kind_reachable careful_request drafted_db.
Proof. apply replay_wall_reachable; [constructor|]. by split_and!. Qed.

Lemma wall_reachable : kind_reachable careful_request wall_db.
Proof. apply replay_wall_reachable; [apply drafted_reachable|]. by split_and!. Qed.

Example the_draft_is_published :
  is_public publish_time (listing_in 1 drafted_db) = false /\
  is_public (publish_time + usec_per_min) (listing_in 1 wall_db) = true /\
  kl_contact_phone (listing_in 1 wall_db) = text "09123456789" /\
  kl_contact_telegram (listing_in 1 wall_db) = text "helpers" /\
  (ki_is_cover (image_in 1 wall_db), ki_is_cover (image_in 2 wall_db)) = (true, false).
Proof. vm_compute. done. Qed.

(** * One cover *)

(** The cover is deleted, and the other picture takes its place. *)
Lemma every_listing_has_one_cover_witness :
  let db := replay_wall publish_time [OnImage (DeleteImage (image_in 1 drafted_db))] drafted_db in
  one_cover 1 (rows_of db).
Proof.
  set (db := replay_wall _ _ _). cbv zeta. apply (proj2 (every_listing_has_one_cover db 1)).
  - apply replay_wall_reachable; [apply drafted_reachable|]. split; [|done].
    exists (image_in 1 drafted_db). split_and!; vm_compute; reflexivity.
  - exists 2, (image_in 2 db). split; vm_compute; reflexivity.
Defined.

(** A cover that is switched off by hand leaves a listing without one. *)
Example a_cover_can_be_switched_off :
  let off := (image_in 1 wall_db) <| ki_is_cover := false |> in
  let db := (serve (OnImage (SaveImage off)) (kind_env_at publish_time) wall_db).2 in
  (ki_is_cover (image_in 1 db), ki_is_cover (image_in 2 db)) = (false, false).
Proof. vm_compute. done. Qed.

(** * A clear wall *)

(** A table as it is: its keys are below the next one. *)
Definition table_goodb {A} `{Model KindDB A} (t : Table A) : bool :=
  (0 <? next_id t) && bool_decide (map_Forall (fun i x => pk x = i /\ 0 < i < next_id t) (rows t)).

Lemma table_goodb_good {A} `{Model KindDB A} (t : Table A) : table_goodb t = true -> table_good t.
Proof.
  unfold table_goodb. rewrite andb_true_iff, Z.ltb_lt, bool_decide_eq_true. intros [Hn Hall].
  split; [done|]. intros i x Hi. by apply Hall.
Qed.

(** Half a year later: the listing is due, and one run takes it off the wall. *)
Lemma the_wall_is_cleared_witness :
  let env := kind_env_at (publish_time + 180 * usec_per_day) in
  rows_of (A := KindnessListing) (Nat.iter 1 (fun db => (expire_old_listings_task env db).2) wall_db) =
  (fun x => if due (kenv_now env) x then expired (kenv_now env) x else x) <$> rows_of wall_db /\
  due (kenv_now env) (listing_in 1 wall_db) = true.
Proof.
  cbv zeta. split; [|vm_compute; reflexivity].
  apply (the_wall_is_cleared (kind_env_at (publish_time + 180 * usec_per_day)) wall_db 1).
  - apply table_goodb_good. vm_compute. reflexivity.
  - apply leb_complete. vm_compute. reflexivity.
Defined.

(** * Two tabs *)

Lemma run_ok {A} (m : KM A) env db a : (m env db).1 = Ok a -> m env db = (Ok a, (m env db).2).
Proof. destruct (m env db). simpl. by intros ->. Qed.

(** A browser opens the listing in two tabs, which two processes serve. *)
Definition a_tab : ViewRequest := mkViewRequest None "browser-0001" "Firefox" (mkMeta None None).
Definition view_time : Z := publish_time + usec_per_hour.
Definition tab_env : KindEnv := kind_env_at view_time.
Definition tab_visit : Visit := visit_of tab_env 1 a_tab.

Definition tabs0 : Wall := wall_start 3600 wall_db view_time.
Definition tabs1 : Wall := moved tabs0 1 11 (Marking tab_visit) (seen_by 1 tabs0).
Definition tabs2 : Wall := moved tabs1 2 12 (Marking tab_visit) (seen_by 2 tabs1).
Abbreviation tab_mark := (mark_view (vt_listing tab_visit) (vt_viewer tab_visit) (vt_window tab_visit)).
Definition tabs3 : Wall := moved tabs2 2 12 (Bumping tab_visit) (tab_mark tab_env (seen_by 2 tabs2)).2.
Definition tabs4 : Wall :=
  moved tabs3 1 11 (Remembering tab_visit false false) (tab_mark tab_env (seen_by 1 tabs3)).2.
Definition tabs5 : Wall :=
  moved tabs4 2 12 (Remembering tab_visit true (bumpable (vt_listing tab_visit) (w_db tabs4)))
    (bump_listing_view_count (vt_listing tab_visit) tab_env (seen_by 2 tabs4)).2.

Lemma tabs_run : wall_steps 3600 tabs0 tabs5.
Proof.
  apply wall_goes with tabs1.
  { apply (beacon_starts 3600 tab_env tabs0 1 11 1 a_tab false); [by split_and!|vm_compute; reflexivity|].
    apply run_ok. vm_compute. reflexivity. }
  apply wall_goes with tabs2.
  { apply (beacon_starts 3600 tab_env tabs1 2 12 1 a_tab false); [by split_and!|vm_compute; reflexivity|].
    apply run_ok. vm_compute. reflexivity. }
  apply wall_goes with tabs3.
  { apply (beacon_marks 3600 tab_env tabs2 2 12 tab_visit true); [by split_and!|vm_compute; reflexivity|].
    apply run_ok. vm_compute. reflexivity. }
  apply wall_goes with tabs4.
  { apply (beacon_marks 3600 tab_env tabs3 1 11 tab_visit false); [by split_and!|vm_compute; reflexivity|].
    apply run_ok. vm_compute. reflexivity. }
  apply wall_goes with tabs5; [|constructor].
  apply (beacon_bumps 3600 tab_env tabs4 2 12 tab_visit tt); [by split_and!|vm_compute; reflexivity|].
  apply run_ok. vm_compute. reflexivity.
Qed.

(** One view is counted. *)
Lemma a_viewer_counts_once_witness :
  exists y, rows_of (w_db tabs5) !! 1 = Some y /\
    kl_view_count y = kl_view_count (listing_in 1 wall_db) + count_of (bumped_on 1) (w_beacons tabs5).
Proof.
  apply (a_viewer_counts_once 3600 view_time wall_db tabs5).
  - done.
  - apply table_goodb_good. vm_compute. reflexivity.
  - apply tabs_run.
  - vm_compute. reflexivity.
Defined.

Example one_of_two_tabs : count_of (bumped_on 1) (w_beacons tabs5) = 1.
Proof. vm_compute. reflexivity. Qed.

(** Without the table of marks every process has its own say: the two tabs count
    for two; without the cache too nothing is counted. *)
Example two_processes_without_marks :
  let env := with_marks false tab_env in
  let first := register_listing_view 1 a_tab env wall_db in
  let second := register_listing_view 1 a_tab env (first.2 <| view_cache := ∅ |>) in
  let down := register_listing_view 1 a_tab (with_cache false env) wall_db in
  first.1 = Ok (true, 1) /\ second.1 = Ok (true, 2) /\ down.1 = Ok (false, 0).
Proof. vm_compute. done. Qed.

(** * What is saved *)

(** A listing on the wall can lose its last contact. *)
Example a_published_listing_without_contact :
  let x := listing_in 1 wall_db in
  let fields := [set_channel ContactChannelKind.PHONE []; set_channel ContactChannelKind.TELEGRAM []] in
  let now := publish_time + usec_per_hour in
  let y := listing_in 1 (serve (PatchListing x fields) (kind_env_at now) wall_db).2 in
  is_public now y = true /\ at_least_one_contact (channel_values y) = false.
Proof. vm_compute. done. Qed.

(** A place nobody knows is saved with the listing. *)
Example an_unknown_city_is_kept :
  let x := listing_in 1 wall_db in
  let shiraz := [1588; 1740; 1585; 1575; 1586] in
  let tehran := [1578; 1607; 1585; 1575; 1606] in
  let y := listing_in 1 (serve (PatchListing x [set_province tehran; set_city shiraz])
                           (kind_env_at view_time) wall_db).2 in
  kl_city y = shiraz /\ validate_iran_place sample_places (kl_province y) (kl_city y) = Some unknown_city.
Proof. vm_compute. done. Qed.

(** An edit writes every column as it was read: the view that is counted while an
    administrator edits is lost, and a listing that was archived is back. *)
Example an_edit_takes_back_what_came_between :
  let x := listing_in 1 wall_db in
  let env := kind_env_at view_time in
  let between := (serve (ArchiveListing x) env (register_listing_view 1 a_tab env wall_db).2).2 in
  let y := listing_in 1 (serve (PatchListing x [set_title "Winter coats!"%string]) env between).2 in
  (kl_view_count (listing_in 1 between), kl_status (listing_in 1 between)) = (1, ListingStatus.ARCHIVED) /\
  (kl_view_count y, kl_status y) = (0, ListingStatus.PUBLISHED).
Proof. vm_compute. done. Qed.

(** A category without listings on the wall is closed; a renewed listing is in it. *)
Example a_renewal_in_a_closed_category :
  let now := publish_time + 180 * usec_per_day in
  let env := kind_env_at now in
  let cleared := (expire_old_listings_task env wall_db).2 in
  let category := default (mkKindnessCategory 1 "" "" "" "" 0 true 0 0) (rows_of cleared !! 1) in
  let db := replay_wall now [SetCategoryActive category false; RenewListing (listing_in 1 cleared)] cleared in
  (kc_is_active <$> rows_of (A := KindnessCategory) db !! 1) = Some false /\
  is_public (now + usec_per_hour) (listing_in 1 db) = true.
Proof. vm_compute. done. Qed.
