(* ===== verification/SupportModels.v ===== *)
(** The data of the support desk: [src/apps/support_desk/choices.py] and
    [src/apps/support_desk/models.py], the constraints of its tables, and the
    database and environment of its services.  Strings are UTF-8 ([Text.v]). *)

From S2P Require Import Prelude Python Choices Orm Models NotificationModels World Apps Text.

(** * Enumerations *)

Module TicketStatus.

Inductive t : Set :=
| DRAFT
| SUBMITTED
| OPEN
| IN_PROGRESS
| WAITING_FOR_USER
| WAITING_FOR_ADMIN
| RESOLVED
| CLOSED
| REOPENED
| ESCALATED
| SPAM
| ARCHIVED.

#[export] Instance t_eq : EqDecision t.
Proof. solve_decision. Defined.

Definition values : list (t * string) :=
  [ (DRAFT, "draft"%string);
    (SUBMITTED, "submitted"%string);
    (OPEN, "open"%string);
    (IN_PROGRESS, "in_progress"%string);
    (WAITING_FOR_USER, "waiting_for_user"%string);
    (WAITING_FOR_ADMIN, "waiting_for_admin"%string);
    (RESOLVED, "resolved"%string);
    (CLOSED, "closed"%string);
    (REOPENED, "reopened"%string);
    (ESCALATED, "escalated"%string);
    (SPAM, "spam"%string);
    (ARCHIVED, "archived"%string) ].

#[export, refine] Instance t_choices : TextChoices t := { choices := values }.
Proof. all: solve_choices. Defined.

End TicketStatus.
Export (hints) TicketStatus.

Module TicketPriority.

Inductive t : Set :=
| LOW
| NORMAL
| HIGH
| URGENT.

#[export] Instance t_eq : EqDecision t.
Proof. solve_decision. Defined.

Definition values : list (t * string) :=
  [ (LOW, "low"%string);
    (NORMAL, "normal"%string);
    (HIGH, "high"%string);
    (URGENT, "urgent"%string) ].

#[export, refine] Instance t_choices : TextChoices t := { choices := values }.
Proof. all: solve_choices. Defined.

End TicketPriority.
Export (hints) TicketPriority.

Module TicketSeverity.

Inductive t : Set :=
| MINOR
| MAJOR
| CRITICAL
| BLOCKER.

#[export] Instance t_eq : EqDecision t.
Proof. solve_decision. Defined.

Definition values : list (t * string) :=
  [ (MINOR, "minor"%string);
    (MAJOR, "major"%string);
    (CRITICAL, "critical"%string);
    (BLOCKER, "blocker"%string) ].

#[export, refine] Instance t_choices : TextChoices t := { choices := values }.
Proof. all: solve_choices. Defined.

End TicketSeverity.
Export (hints) TicketSeverity.

Module TicketChannel.

Inductive t : Set :=
| WEB
| ADMIN
| SYSTEM
| IMPORT.

#[export] Instance t_eq : EqDecision t.
Proof. solve_decision. Defined.

Definition values : list (t * string) :=
  [ (WEB, "web"%string);
    (ADMIN, "admin"%string);
    (SYSTEM, "system"%string);
    (IMPORT, "import"%string) ].

#[export, refine] Instance t_choices : TextChoices t := { choices := values }.
Proof. all: solve_choices. Defined.

End TicketChannel.
Export (hints) TicketChannel.

Module TicketMessageType.

Inductive t : Set :=
| USER_MESSAGE
| ADMIN_REPLY
| INTERNAL_NOTE
| SYSTEM_EVENT
| STATUS_CHANGE
| ASSIGNMENT_CHANGE
| SLA_EVENT.

#[export] Instance t_eq : EqDecision t.
Proof. solve_decision. Defined.

Definition values : list (t * string) :=
  [ (USER_MESSAGE, "user_message"%string);
    (ADMIN_REPLY, "admin_reply"%string);
    (INTERNAL_NOTE, "internal_note"%string);
    (SYSTEM_EVENT, "system_event"%string);
    (STATUS_CHANGE, "status_change"%string);
    (ASSIGNMENT_CHANGE, "assignment_change"%string);
    (SLA_EVENT, "sla_event"%string) ].

#[export, refine] Instance t_choices : TextChoices t := { choices := values }.
Proof. all: solve_choices. Defined.

End TicketMessageType.
Export (hints) TicketMessageType.

Module AttachmentKind.

Inductive t : Set :=
| SCREENSHOT
| IMAGE
| DOCUMENT
| RECEIPT
| OTHER.

#[export] Instance t_eq : EqDecision t.
Proof. solve_decision. Defined.

Definition values : list (t * string) :=
  [ (SCREENSHOT, "screenshot"%string);
    (IMAGE, "image"%string);
    (DOCUMENT, "document"%string);
    (RECEIPT, "receipt"%string);
    (OTHER, "other"%string) ].

#[export, refine] Instance t_choices : TextChoices t := { choices := values }.
Proof. all: solve_choices. Defined.

End AttachmentKind.
Export (hints) AttachmentKind.

Module AttachmentVisibility.

Inductive t : Set :=
| PUBLIC
| INTERNAL_ONLY.

#[export] Instance t_eq : EqDecision t.
Proof. solve_decision. Defined.

Definition values : list (t * string) :=
  [ (PUBLIC, "public"%string);
    (INTERNAL_ONLY, "internal_only"%string) ].

#[export, refine] Instance t_choices : TextChoices t := { choices := values }.
Proof. all: solve_choices. Defined.

End AttachmentVisibility.
Export (hints) AttachmentVisibility.

Module TagSource.

Inductive t : Set :=
| USER
| ADMIN
| AUTO_TRIAGE
| SYSTEM.

#[export] Instance t_eq : EqDecision t.
Proof. solve_decision. Defined.

Definition values : list (t * string) :=
  [ (USER, "user"%string);
    (ADMIN, "admin"%string);
    (AUTO_TRIAGE, "auto_triage"%string);
    (SYSTEM, "system"%string) ].

#[export, refine] Instance t_choices : TextChoices t := { choices := values }.
Proof. all: solve_choices. Defined.

End TagSource.
Export (hints) TagSource.

Module SLAEventType.

Inductive t : Set :=
| POLICY_APPLIED
| PAUSED
| RESUMED
| FIRST_RESPONSE_BREACHED
| RESOLUTION_BREACHED
| ESCALATED.

#[export] Instance t_eq : EqDecision t.
Proof. solve_decision. Defined.

Definition values : list (t * string) :=
  [ (POLICY_APPLIED, "policy_applied"%string);
    (PAUSED, "paused"%string);
    (RESUMED, "resumed"%string);
    (FIRST_RESPONSE_BREACHED, "first_response_breached"%string);
    (RESOLUTION_BREACHED, "resolution_breached"%string);
    (ESCALATED, "escalated"%string) ].

#[export, refine] Instance t_choices : TextChoices t := { choices := values }.
Proof. all: solve_choices. Defined.

End SLAEventType.
Export (hints) SLAEventType.

Module DuplicateReviewStatus.

Inductive t : Set :=
| ACTIVE
| DISMISSED
| CONFIRMED.

#[export] Instance t_eq : EqDecision t.
Proof. solve_decision. Defined.

Definition values : list (t * string) :=
  [ (ACTIVE, "active"%string);
    (DISMISSED, "dismissed"%string);
    (CONFIRMED, "confirmed"%string) ].

#[export, refine] Instance t_choices : TextChoices t := { choices := values }.
Proof. all: solve_choices. Defined.

End DuplicateReviewStatus.
Export (hints) DuplicateReviewStatus.

Module KnowledgeArticleStatus.

Inductive t : Set :=
| DRAFT
| PUBLISHED
| ARCHIVED.

#[export] Instance t_eq : EqDecision t.
Proof. solve_decision. Defined.

Definition values : list (t * string) :=
  [ (DRAFT, "draft"%string);
    (PUBLISHED, "published"%string);
    (ARCHIVED, "archived"%string) ].

#[export, refine] Instance t_choices : TextChoices t := { choices := values }.
Proof. all: solve_choices. Defined.

End KnowledgeArticleStatus.
Export (hints) KnowledgeArticleStatus.

(** * Records *)

(** SupportDepartment: a queue for tickets. *)
Record SupportDepartment : Type := mkDepartment {
  dep_id : Z;
  dep_uuid : string;
  dep_title : string;
  dep_slug : string;
  dep_description : string;
  dep_default_assignee : option Z;
  dep_order : Z;
  dep_is_active : bool;
  dep_created_at : Z;
  dep_updated_at : Z;
}.

#[export] Instance eta_SupportDepartment : Eta SupportDepartment := fun x => mkDepartment
  (dep_id x) (dep_uuid x) (dep_title x) (dep_slug x) (dep_description x)
  (dep_default_assignee x) (dep_order x) (dep_is_active x)
  (dep_created_at x) (dep_updated_at x).

(** SupportCategory: a node of the category tree, with its materialised path. *)
Record SupportCategory : Type := mkSupportCategory {
  cat_id : Z;
  cat_parent : option Z;
  cat_department : Z;
  cat_title : string;
  cat_slug : string;
  cat_path : string;
  cat_depth : Z;
  cat_description : string;
  cat_icon : string;
  cat_order : Z;
  cat_tickets_count : Z;
  cat_open_tickets_count : Z;
  cat_is_active : bool;
  cat_created_at : Z;
  cat_updated_at : Z;
}.

#[export] Instance eta_SupportCategory : Eta SupportCategory := fun x => mkSupportCategory
  (cat_id x) (cat_parent x) (cat_department x) (cat_title x) (cat_slug x)
  (cat_path x) (cat_depth x) (cat_description x) (cat_icon x)
  (cat_order x) (cat_tickets_count x) (cat_open_tickets_count x)
  (cat_is_active x) (cat_created_at x) (cat_updated_at x).

(** SupportBusinessCalendar: business hours; a time of day is in microseconds since
    midnight, weekdays count from Monday. *)
Record SupportBusinessCalendar : Type := mkCalendar {
  cal_id : Z;
  cal_title : string;
  cal_department : option Z;
  cal_timezone_name : string;
  cal_workday_start : Z;
  cal_workday_end : Z;
  cal_active_weekdays : (list Z);
  cal_is_default : bool;
  cal_is_active : bool;
  cal_created_at : Z;
  cal_updated_at : Z;
}.

#[export] Instance eta_SupportBusinessCalendar : Eta SupportBusinessCalendar := fun x => mkCalendar
  (cal_id x) (cal_title x) (cal_department x) (cal_timezone_name x)
  (cal_workday_start x) (cal_workday_end x) (cal_active_weekdays x)
  (cal_is_default x) (cal_is_active x) (cal_created_at x)
  (cal_updated_at x).

(** SupportHoliday: a day off; a date is the number of days since 1970-01-01. *)
Record SupportHoliday : Type := mkHoliday {
  hol_id : Z;
  hol_calendar : Z;
  hol_date : Z;
  hol_title : string;
  hol_is_active : bool;
  hol_created_at : Z;
  hol_updated_at : Z;
}.

#[export] Instance eta_SupportHoliday : Eta SupportHoliday := fun x => mkHoliday
  (hol_id x) (hol_calendar x) (hol_date x) (hol_title x) (hol_is_active x)
  (hol_created_at x) (hol_updated_at x).

(** SupportSLAPolicy: the minutes a ticket may take. *)
Record SupportSLAPolicy : Type := mkPolicy {
  sla_id : Z;
  sla_title : string;
  sla_slug : string;
  sla_department : option Z;
  sla_priority : TicketPriority.t;
  sla_severity : TicketSeverity.t;
  sla_first_response_minutes : Z;
  sla_resolution_minutes : Z;
  sla_business_hours_only : bool;
  sla_pause_when_waiting_for_user : bool;
  sla_escalate_on_breach : bool;
  sla_order : Z;
  sla_is_active : bool;
  sla_created_at : Z;
  sla_updated_at : Z;
}.

#[export] Instance eta_SupportSLAPolicy : Eta SupportSLAPolicy := fun x => mkPolicy
  (sla_id x) (sla_title x) (sla_slug x) (sla_department x)
  (sla_priority x) (sla_severity x) (sla_first_response_minutes x)
  (sla_resolution_minutes x) (sla_business_hours_only x)
  (sla_pause_when_waiting_for_user x) (sla_escalate_on_breach x)
  (sla_order x) (sla_is_active x) (sla_created_at x) (sla_updated_at x).

(** SupportTicketType: a reason for a ticket with its default routing. *)
Record SupportTicketType : Type := mkTicketType {
  typ_id : Z;
  typ_code : string;
  typ_title : string;
  typ_description : string;
  typ_default_department : option Z;
  typ_default_category : option Z;
  typ_default_priority : TicketPriority.t;
  typ_default_severity : TicketSeverity.t;
  typ_default_sla_policy : option Z;
  typ_order : Z;
  typ_is_active : bool;
  typ_created_at : Z;
  typ_updated_at : Z;
}.

#[export] Instance eta_SupportTicketType : Eta SupportTicketType := fun x => mkTicketType
  (typ_id x) (typ_code x) (typ_title x) (typ_description x)
  (typ_default_department x) (typ_default_category x)
  (typ_default_priority x) (typ_default_severity x)
  (typ_default_sla_policy x) (typ_order x) (typ_is_active x)
  (typ_created_at x) (typ_updated_at x).

(** SupportTicket: the ticket with its workflow, service-level clock and counters. *)
Record SupportTicket : Type := mkTicket {
  tk_id : Z;
  tk_uuid : string;
  tk_ticket_number : string;
  tk_owner : Z;
  tk_department : Z;
  tk_category : Z;
  tk_ticket_type : Z;
  tk_subject : string;
  tk_description_snapshot : string;
  tk_status : TicketStatus.t;
  tk_priority : TicketPriority.t;
  tk_severity : TicketSeverity.t;
  tk_channel : TicketChannel.t;
  tk_assigned_to : option Z;
  tk_submitted_at : option Z;
  tk_first_admin_response_at : option Z;
  tk_last_user_message_at : option Z;
  tk_last_admin_message_at : option Z;
  tk_last_activity_at : Z;
  tk_resolved_at : option Z;
  tk_closed_at : option Z;
  tk_reopened_at : option Z;
  tk_escalated_at : option Z;
  tk_escalated_by : option Z;
  tk_escalation_reason : string;
  tk_applied_sla_policy : option Z;
  tk_first_response_due_at : option Z;
  tk_resolution_due_at : option Z;
  tk_sla_breached_at : option Z;
  tk_sla_paused_at : option Z;
  tk_sla_total_paused_seconds : Z;
  tk_message_count : Z;
  tk_attachment_count : Z;
  tk_internal_note_count : Z;
  tk_reopen_count : Z;
  tk_satisfaction_rating_snapshot : option Z;
  tk_search_document : string;
  tk_is_active : bool;
  tk_created_at : Z;
  tk_updated_at : Z;
}.

#[export] Instance eta_SupportTicket : Eta SupportTicket := fun x => mkTicket
  (tk_id x) (tk_uuid x) (tk_ticket_number x) (tk_owner x)
  (tk_department x) (tk_category x) (tk_ticket_type x) (tk_subject x)
  (tk_description_snapshot x) (tk_status x) (tk_priority x)
  (tk_severity x) (tk_channel x) (tk_assigned_to x) (tk_submitted_at x)
  (tk_first_admin_response_at x) (tk_last_user_message_at x)
  (tk_last_admin_message_at x) (tk_last_activity_at x) (tk_resolved_at x)
  (tk_closed_at x) (tk_reopened_at x) (tk_escalated_at x)
  (tk_escalated_by x) (tk_escalation_reason x) (tk_applied_sla_policy x)
  (tk_first_response_due_at x) (tk_resolution_due_at x)
  (tk_sla_breached_at x) (tk_sla_paused_at x)
  (tk_sla_total_paused_seconds x) (tk_message_count x)
  (tk_attachment_count x) (tk_internal_note_count x) (tk_reopen_count x)
  (tk_satisfaction_rating_snapshot x) (tk_search_document x)
  (tk_is_active x) (tk_created_at x) (tk_updated_at x).

(** SupportTicketMessage: an entry of a ticket's timeline. *)
Record SupportTicketMessage : Type := mkMessage {
  msg_id : Z;
  msg_ticket : Z;
  msg_author : Z;
  msg_message_type : TicketMessageType.t;
  msg_body : string;
  msg_is_internal : bool;
  msg_is_from_staff : bool;
  msg_edited_at : option Z;
  msg_deleted_at : option Z;
  msg_metadata : json;
  msg_is_active : bool;
  msg_created_at : Z;
  msg_updated_at : Z;
}.

#[export] Instance eta_SupportTicketMessage : Eta SupportTicketMessage := fun x => mkMessage
  (msg_id x) (msg_ticket x) (msg_author x) (msg_message_type x)
  (msg_body x) (msg_is_internal x) (msg_is_from_staff x) (msg_edited_at x)
  (msg_deleted_at x) (msg_metadata x) (msg_is_active x) (msg_created_at x)
  (msg_updated_at x).

(** SupportTicketAttachment: a file of a ticket; the file is its name. *)
Record SupportTicketAttachment : Type := mkAttachment {
  att_id : Z;
  att_ticket : Z;
  att_message : option Z;
  att_uploaded_by : Z;
  att_file : string;
  att_original_filename : string;
  att_content_type : string;
  att_file_size : Z;
  att_attachment_kind : AttachmentKind.t;
  att_visibility : AttachmentVisibility.t;
  att_is_active : bool;
  att_created_at : Z;
  att_updated_at : Z;
}.

#[export] Instance eta_SupportTicketAttachment : Eta SupportTicketAttachment := fun x => mkAttachment
  (att_id x) (att_ticket x) (att_message x) (att_uploaded_by x)
  (att_file x) (att_original_filename x) (att_content_type x)
  (att_file_size x) (att_attachment_kind x) (att_visibility x)
  (att_is_active x) (att_created_at x) (att_updated_at x).

(** SupportTag: a normalised word. *)
Record SupportTag : Type := mkTag {
  tag_id : Z;
  tag_name : string;
  tag_slug : string;
  tag_normalized_name : string;
  tag_usage_count : Z;
  tag_is_active : bool;
  tag_created_at : Z;
  tag_updated_at : Z;
}.

#[export] Instance eta_SupportTag : Eta SupportTag := fun x => mkTag
  (tag_id x) (tag_name x) (tag_slug x) (tag_normalized_name x)
  (tag_usage_count x) (tag_is_active x) (tag_created_at x)
  (tag_updated_at x).

(** SupportTicketTag: a tag on a ticket. *)
Record SupportTicketTag : Type := mkTicketTag {
  tt_id : Z;
  tt_ticket : Z;
  tt_tag : Z;
  tt_source : TagSource.t;
  tt_is_active : bool;
  tt_created_at : Z;
  tt_updated_at : Z;
}.

#[export] Instance eta_SupportTicketTag : Eta SupportTicketTag := fun x => mkTicketTag
  (tt_id x) (tt_ticket x) (tt_tag x) (tt_source x) (tt_is_active x)
  (tt_created_at x) (tt_updated_at x).

(** SupportCannedResponse: a reusable answer. *)
Record SupportCannedResponse : Type := mkCannedResponse {
  can_id : Z;
  can_department : option Z;
  can_category : option Z;
  can_title : string;
  can_body : string;
  can_usage_count : Z;
  can_is_active : bool;
  can_created_at : Z;
  can_updated_at : Z;
}.

#[export] Instance eta_SupportCannedResponse : Eta SupportCannedResponse := fun x => mkCannedResponse
  (can_id x) (can_department x) (can_category x) (can_title x)
  (can_body x) (can_usage_count x) (can_is_active x) (can_created_at x)
  (can_updated_at x).

(** SupportKnowledgeArticle: an article of the help centre. *)
Record SupportKnowledgeArticle : Type := mkArticle {
  kb_id : Z;
  kb_department : option Z;
  kb_category : option Z;
  kb_ticket_type : option Z;
  kb_title : string;
  kb_slug : string;
  kb_summary : string;
  kb_body : string;
  kb_keywords : (list string);
  kb_status : KnowledgeArticleStatus.t;
  kb_published_at : option Z;
  kb_archived_at : option Z;
  kb_usage_count : Z;
  kb_is_active : bool;
  kb_created_at : Z;
  kb_updated_at : Z;
}.

#[export] Instance eta_SupportKnowledgeArticle : Eta SupportKnowledgeArticle := fun x => mkArticle
  (kb_id x) (kb_department x) (kb_category x) (kb_ticket_type x)
  (kb_title x) (kb_slug x) (kb_summary x) (kb_body x) (kb_keywords x)
  (kb_status x) (kb_published_at x) (kb_archived_at x) (kb_usage_count x)
  (kb_is_active x) (kb_created_at x) (kb_updated_at x).

(** SupportKnowledgeArticleUse: a use of an article. *)
Record SupportKnowledgeArticleUse : Type := mkArticleUse {
  use_id : Z;
  use_article : Z;
  use_ticket : option Z;
  use_used_by : option Z;
  use_context : string;
  use_metadata : json;
  use_is_active : bool;
  use_created_at : Z;
  use_updated_at : Z;
}.

#[export] Instance eta_SupportKnowledgeArticleUse : Eta SupportKnowledgeArticleUse := fun x => mkArticleUse
  (use_id x) (use_article x) (use_ticket x) (use_used_by x)
  (use_context x) (use_metadata x) (use_is_active x) (use_created_at x)
  (use_updated_at x).

(** SupportTicketAssignment: an entry of the assignment history. *)
Record SupportTicketAssignment : Type := mkAssignment {
  asg_id : Z;
  asg_ticket : Z;
  asg_assigned_by : Z;
  asg_from_assignee : option Z;
  asg_assigned_to : option Z;
  asg_department : option Z;
  asg_reason : string;
  asg_is_active : bool;
  asg_created_at : Z;
  asg_updated_at : Z;
}.

#[export] Instance eta_SupportTicketAssignment : Eta SupportTicketAssignment := fun x => mkAssignment
  (asg_id x) (asg_ticket x) (asg_assigned_by x) (asg_from_assignee x)
  (asg_assigned_to x) (asg_department x) (asg_reason x) (asg_is_active x)
  (asg_created_at x) (asg_updated_at x).

(** SupportTicketStatusHistory: a status transition; a blank status is [None]. *)
Record SupportTicketStatusHistory : Type := mkStatusHistory {
  sh_id : Z;
  sh_ticket : Z;
  sh_changed_by : option Z;
  sh_from_status : (option TicketStatus.t);
  sh_to_status : TicketStatus.t;
  sh_reason : string;
  sh_is_active : bool;
  sh_created_at : Z;
  sh_updated_at : Z;
}.

#[export] Instance eta_SupportTicketStatusHistory : Eta SupportTicketStatusHistory := fun x => mkStatusHistory
  (sh_id x) (sh_ticket x) (sh_changed_by x) (sh_from_status x)
  (sh_to_status x) (sh_reason x) (sh_is_active x) (sh_created_at x)
  (sh_updated_at x).

(** SupportSLAEvent: an event of the service-level clock. *)
Record SupportSLAEvent : Type := mkSLAEvent {
  sev_id : Z;
  sev_ticket : Z;
  sev_event_type : SLAEventType.t;
  sev_occurred_at : Z;
  sev_metadata : json;
  sev_is_active : bool;
  sev_created_at : Z;
  sev_updated_at : Z;
}.

#[export] Instance eta_SupportSLAEvent : Eta SupportSLAEvent := fun x => mkSLAEvent
  (sev_id x) (sev_ticket x) (sev_event_type x) (sev_occurred_at x)
  (sev_metadata x) (sev_is_active x) (sev_created_at x) (sev_updated_at x).

(** SupportTicketSatisfaction: the rating of a ticket by its owner. *)
Record SupportTicketSatisfaction : Type := mkSatisfaction {
  sat_id : Z;
  sat_ticket : Z;
  sat_user : Z;
  sat_rating : Z;
  sat_comment : string;
  sat_is_active : bool;
  sat_created_at : Z;
  sat_updated_at : Z;
}.

#[export] Instance eta_SupportTicketSatisfaction : Eta SupportTicketSatisfaction := fun x => mkSatisfaction
  (sat_id x) (sat_ticket x) (sat_user x) (sat_rating x) (sat_comment x)
  (sat_is_active x) (sat_created_at x) (sat_updated_at x).

(** SupportDuplicateCandidate: a ticket that may repeat another. *)
Record SupportDuplicateCandidate : Type := mkDuplicate {
  dup_id : Z;
  dup_ticket : Z;
  dup_candidate_ticket : Z;
  dup_score : Z;
  dup_reason : string;
  dup_status : DuplicateReviewStatus.t;
  dup_reviewed_by : option Z;
  dup_reviewed_at : option Z;
  dup_is_active : bool;
  dup_created_at : Z;
  dup_updated_at : Z;
}.

#[export] Instance eta_SupportDuplicateCandidate : Eta SupportDuplicateCandidate := fun x => mkDuplicate
  (dup_id x) (dup_ticket x) (dup_candidate_ticket x) (dup_score x)
  (dup_reason x) (dup_status x) (dup_reviewed_by x) (dup_reviewed_at x)
  (dup_is_active x) (dup_created_at x) (dup_updated_at x).

(** * Constraints *)

Definition department_row_ok (others : gmap Z SupportDepartment) (x : SupportDepartment) : bool :=
  max_chars 180 (dep_title x) && max_chars 220 (dep_slug x) && positive_integer (dep_order x) &&
  unique_among (fun y => str_eqb (dep_uuid y) (dep_uuid x)) others &&
  unique_among (fun y => str_eqb (dep_title y) (dep_title x)) others &&
  unique_among (fun y => str_eqb (dep_slug y) (dep_slug x)) others.

(** Among the children of one parent a title comes once, and among the roots of
    a department; a NULL parent is equal to no other. *)
Definition category_row_ok (others : gmap Z SupportCategory) (x : SupportCategory) : bool :=
  max_chars 180 (cat_title x) && max_chars 220 (cat_slug x) && max_chars 700 (cat_path x) &&
  positive_small_integer (cat_depth x) && max_chars 80 (cat_icon x) &&
  positive_integer (cat_order x) && positive_integer (cat_tickets_count x) &&
  positive_integer (cat_open_tickets_count x) &&
  unique_among (fun y => str_eqb (cat_slug y) (cat_slug x)) others &&
  unique_among (fun y => str_eqb (cat_path y) (cat_path x)) others &&
  unique_among (fun y => bool_decide (cat_parent y = cat_parent x) &&
                         (cat_department y =? cat_department x) &&
                         str_eqb (cat_title y) (cat_title x)) others.

Definition calendar_row_ok (others : gmap Z SupportBusinessCalendar)
    (x : SupportBusinessCalendar) : bool :=
  max_chars 180 (cal_title x) && max_chars 80 (cal_timezone_name x).

Definition holiday_row_ok (others : gmap Z SupportHoliday) (x : SupportHoliday) : bool :=
  max_chars 180 (hol_title x) &&
  unique_among (fun y => (hol_calendar y =? hol_calendar x) && (hol_date y =? hol_date x)) others.

Definition policy_row_ok (others : gmap Z SupportSLAPolicy) (x : SupportSLAPolicy) : bool :=
  max_chars 180 (sla_title x) && max_chars 220 (sla_slug x) &&
  positive_integer (sla_first_response_minutes x) && positive_integer (sla_resolution_minutes x) &&
  positive_integer (sla_order x) &&
  unique_among (fun y => str_eqb (sla_title y) (sla_title x)) others &&
  unique_among (fun y => str_eqb (sla_slug y) (sla_slug x)) others.

Definition ticket_type_row_ok (others : gmap Z SupportTicketType) (x : SupportTicketType) : bool :=
  max_chars 80 (typ_code x) && max_chars 180 (typ_title x) && positive_integer (typ_order x) &&
  unique_among (fun y => str_eqb (typ_code y) (typ_code x)) others &&
  unique_among (fun y => str_eqb (typ_title y) (typ_title x)) others.

Definition ticket_row_ok (others : gmap Z SupportTicket) (x : SupportTicket) : bool :=
  max_chars 40 (tk_ticket_number x) && max_chars 260 (tk_subject x) &&
  positive_integer (tk_sla_total_paused_seconds x) && positive_integer (tk_message_count x) &&
  positive_integer (tk_attachment_count x) && positive_integer (tk_internal_note_count x) &&
  positive_integer (tk_reopen_count x) &&
  opt_ok positive_small_integer (tk_satisfaction_rating_snapshot x) &&
  unique_among (fun y => str_eqb (tk_uuid y) (tk_uuid x)) others &&
  unique_among (fun y => str_eqb (tk_ticket_number y) (tk_ticket_number x)) others.

Definition message_row_ok (others : gmap Z SupportTicketMessage) (x : SupportTicketMessage) : bool :=
  true.

Definition attachment_row_ok (others : gmap Z SupportTicketAttachment)
    (x : SupportTicketAttachment) : bool :=
  max_chars 260 (att_original_filename x) && max_chars 120 (att_content_type x) &&
  positive_integer (att_file_size x).

Definition tag_row_ok (others : gmap Z SupportTag) (x : SupportTag) : bool :=
  max_chars 120 (tag_name x) && max_chars 160 (tag_slug x) && max_chars 160 (tag_normalized_name x) &&
  positive_integer (tag_usage_count x) &&
  unique_among (fun y => str_eqb (tag_name y) (tag_name x)) others &&
  unique_among (fun y => str_eqb (tag_slug y) (tag_slug x)) others &&
  unique_among (fun y => str_eqb (tag_normalized_name y) (tag_normalized_name x)) others.

Definition ticket_tag_row_ok (others : gmap Z SupportTicketTag) (x : SupportTicketTag) : bool :=
  unique_among (fun y => (tt_ticket y =? tt_ticket x) && (tt_tag y =? tt_tag x)) others.

Definition canned_row_ok (others : gmap Z SupportCannedResponse) (x : SupportCannedResponse) : bool :=
  max_chars 180 (can_title x) && positive_integer (can_usage_count x) &&
  unique_among (fun y => str_eqb (can_title y) (can_title x)) others.

Definition article_row_ok (others : gmap Z SupportKnowledgeArticle)
    (x : SupportKnowledgeArticle) : bool :=
  max_chars 220 (kb_title x) && max_chars 260 (kb_slug x) && positive_integer (kb_usage_count x) &&
  unique_among (fun y => str_eqb (kb_title y) (kb_title x)) others &&
  unique_among (fun y => str_eqb (kb_slug y) (kb_slug x)) others.

Definition article_use_row_ok (others : gmap Z SupportKnowledgeArticleUse)
    (x : SupportKnowledgeArticleUse) : bool :=
  max_chars 40 (use_context x).

Definition assignment_row_ok (others : gmap Z SupportTicketAssignment)
    (x : SupportTicketAssignment) : bool :=
  true.

Definition status_history_row_ok (others : gmap Z SupportTicketStatusHistory)
    (x : SupportTicketStatusHistory) : bool :=
  true.

Definition sla_event_row_ok (others : gmap Z SupportSLAEvent) (x : SupportSLAEvent) : bool := true.

Definition satisfaction_row_ok (others : gmap Z SupportTicketSatisfaction)
    (x : SupportTicketSatisfaction) : bool :=
  (1 <=? sat_rating x) && (sat_rating x <=? 5) &&
  unique_among (fun y => sat_ticket y =? sat_ticket x) others.

Definition duplicate_row_ok (others : gmap Z SupportDuplicateCandidate)
    (x : SupportDuplicateCandidate) : bool :=
  positive_small_integer (dup_score x) && negb (dup_ticket x =? dup_candidate_ticket x) &&
  unique_among (fun y => (dup_ticket y =? dup_ticket x) &&
                         (dup_candidate_ticket y =? dup_candidate_ticket x)) others.

(** * The database *)

(** The columns of a user that the support desk reads. *)
Record SupportUser : Type := mkSupportUser {
  su_id : Z;
  su_is_active : bool;
  su_is_staff : bool;
  su_is_superuser : bool;
  su_role : string;
}.

Record SupportDB : Type := mkSupportDB {
  departments : Table SupportDepartment;
  categories : Table SupportCategory;
  calendars : Table SupportBusinessCalendar;
  holidays : Table SupportHoliday;
  policies : Table SupportSLAPolicy;
  ticket_types : Table SupportTicketType;
  tickets : Table SupportTicket;
  messages : Table SupportTicketMessage;
  attachments : Table SupportTicketAttachment;
  tags : Table SupportTag;
  ticket_tags : Table SupportTicketTag;
  canned_responses : Table SupportCannedResponse;
  articles : Table SupportKnowledgeArticle;
  article_uses : Table SupportKnowledgeArticleUse;
  assignments : Table SupportTicketAssignment;
  status_history : Table SupportTicketStatusHistory;
  sla_events : Table SupportSLAEvent;
  satisfactions : Table SupportTicketSatisfaction;
  duplicates : Table SupportDuplicateCandidate;
  support_users : gmap Z SupportUser;
  support_site : DB;
}.

#[export] Instance eta_SupportDB : Eta SupportDB := fun x => mkSupportDB
  (departments x) (categories x) (calendars x) (holidays x) (policies x)
  (ticket_types x) (tickets x) (messages x) (attachments x) (tags x)
  (ticket_tags x) (canned_responses x) (articles x) (article_uses x)
  (assignments x) (status_history x) (sla_events x) (satisfactions x)
  (duplicates x) (support_users x) (support_site x).

#[export] Instance SupportDepartment_model : Model SupportDB SupportDepartment := {
  table_of db := departments db;
  with_table t db := db <| departments := t |>;
  pk := dep_id;
  is_active := dep_is_active;
  created_at := dep_created_at;
  row_ok := department_row_ok;
}.

#[export] Instance SupportDepartment_laws : ModelLaws SupportDB SupportDepartment.
Proof. split; reflexivity. Qed.

#[export] Instance SupportCategory_model : Model SupportDB SupportCategory := {
  table_of db := categories db;
  with_table t db := db <| categories := t |>;
  pk := cat_id;
  is_active := cat_is_active;
  created_at := cat_created_at;
  row_ok := category_row_ok;
}.

#[export] Instance SupportCategory_laws : ModelLaws SupportDB SupportCategory.
Proof. split; reflexivity. Qed.

#[export] Instance SupportBusinessCalendar_model : Model SupportDB SupportBusinessCalendar := {
  table_of db := calendars db;
  with_table t db := db <| calendars := t |>;
  pk := cal_id;
  is_active := cal_is_active;
  created_at := cal_created_at;
  row_ok := calendar_row_ok;
}.

#[export] Instance SupportBusinessCalendar_laws : ModelLaws SupportDB SupportBusinessCalendar.
Proof. split; reflexivity. Qed.

#[export] Instance SupportHoliday_model : Model SupportDB SupportHoliday := {
  table_of db := holidays db;
  with_table t db := db <| holidays := t |>;
  pk := hol_id;
  is_active := hol_is_active;
  created_at := hol_created_at;
  row_ok := holiday_row_ok;
}.

#[export] Instance SupportHoliday_laws : ModelLaws SupportDB SupportHoliday.
Proof. split; reflexivity. Qed.

#[export] Instance SupportSLAPolicy_model : Model SupportDB SupportSLAPolicy := {
  table_of db := policies db;
  with_table t db := db <| policies := t |>;
  pk := sla_id;
  is_active := sla_is_active;
  created_at := sla_created_at;
  row_ok := policy_row_ok;
}.

#[export] Instance SupportSLAPolicy_laws : ModelLaws SupportDB SupportSLAPolicy.
Proof. split; reflexivity. Qed.

#[export] Instance SupportTicketType_model : Model SupportDB SupportTicketType := {
  table_of db := ticket_types db;
  with_table t db := db <| ticket_types := t |>;
  pk := typ_id;
  is_active := typ_is_active;
  created_at := typ_created_at;
  row_ok := ticket_type_row_ok;
}.

#[export] Instance SupportTicketType_laws : ModelLaws SupportDB SupportTicketType.
Proof. split; reflexivity. Qed.

#[export] Instance SupportTicket_model : Model SupportDB SupportTicket := {
  table_of db := tickets db;
  with_table t db := db <| tickets := t |>;
  pk := tk_id;
  is_active := tk_is_active;
  created_at := tk_created_at;
  row_ok := ticket_row_ok;
}.

#[export] Instance SupportTicket_laws : ModelLaws SupportDB SupportTicket.
Proof. split; reflexivity. Qed.

#[export] Instance SupportTicketMessage_model : Model SupportDB SupportTicketMessage := {
  table_of db := messages db;
  with_table t db := db <| messages := t |>;
  pk := msg_id;
  is_active := msg_is_active;
  created_at := msg_created_at;
  row_ok := message_row_ok;
}.

#[export] Instance SupportTicketMessage_laws : ModelLaws SupportDB SupportTicketMessage.
Proof. split; reflexivity. Qed.

#[export] Instance SupportTicketAttachment_model : Model SupportDB SupportTicketAttachment := {
  table_of db := attachments db;
  with_table t db := db <| attachments := t |>;
  pk := att_id;
  is_active := att_is_active;
  created_at := att_created_at;
  row_ok := attachment_row_ok;
}.

#[export] Instance SupportTicketAttachment_laws : ModelLaws SupportDB SupportTicketAttachment.
Proof. split; reflexivity. Qed.

#[export] Instance SupportTag_model : Model SupportDB SupportTag := {
  table_of db := tags db;
  with_table t db := db <| tags := t |>;
  pk := tag_id;
  is_active := tag_is_active;
  created_at := tag_created_at;
  row_ok := tag_row_ok;
}.

#[export] Instance SupportTag_laws : ModelLaws SupportDB SupportTag.
Proof. split; reflexivity. Qed.

#[export] Instance SupportTicketTag_model : Model SupportDB SupportTicketTag := {
  table_of db := ticket_tags db;
  with_table t db := db <| ticket_tags := t |>;
  pk := tt_id;
  is_active := tt_is_active;
  created_at := tt_created_at;
  row_ok := ticket_tag_row_ok;
}.

#[export] Instance SupportTicketTag_laws : ModelLaws SupportDB SupportTicketTag.
Proof. split; reflexivity. Qed.

#[export] Instance SupportCannedResponse_model : Model SupportDB SupportCannedResponse := {
  table_of db := canned_responses db;
  with_table t db := db <| canned_responses := t |>;
  pk := can_id;
  is_active := can_is_active;
  created_at := can_created_at;
  row_ok := canned_row_ok;
}.

#[export] Instance SupportCannedResponse_laws : ModelLaws SupportDB SupportCannedResponse.
Proof. split; reflexivity. Qed.

#[export] Instance SupportKnowledgeArticle_model : Model SupportDB SupportKnowledgeArticle := {
  table_of db := articles db;
  with_table t db := db <| articles := t |>;
  pk := kb_id;
  is_active := kb_is_active;
  created_at := kb_created_at;
  row_ok := article_row_ok;
}.

#[export] Instance SupportKnowledgeArticle_laws : ModelLaws SupportDB SupportKnowledgeArticle.
Proof. split; reflexivity. Qed.

#[export] Instance SupportKnowledgeArticleUse_model : Model SupportDB SupportKnowledgeArticleUse := {
  table_of db := article_uses db;
  with_table t db := db <| article_uses := t |>;
  pk := use_id;
  is_active := use_is_active;
  created_at := use_created_at;
  row_ok := article_use_row_ok;
}.

#[export] Instance SupportKnowledgeArticleUse_laws : ModelLaws SupportDB SupportKnowledgeArticleUse.
Proof. split; reflexivity. Qed.

#[export] Instance SupportTicketAssignment_model : Model SupportDB SupportTicketAssignment := {
  table_of db := assignments db;
  with_table t db := db <| assignments := t |>;
  pk := asg_id;
  is_active := asg_is_active;
  created_at := asg_created_at;
  row_ok := assignment_row_ok;
}.

#[export] Instance SupportTicketAssignment_laws : ModelLaws SupportDB SupportTicketAssignment.
Proof. split; reflexivity. Qed.

#[export] Instance SupportTicketStatusHistory_model : Model SupportDB SupportTicketStatusHistory := {
  table_of db := status_history db;
  with_table t db := db <| status_history := t |>;
  pk := sh_id;
  is_active := sh_is_active;
  created_at := sh_created_at;
  row_ok := status_history_row_ok;
}.

#[export] Instance SupportTicketStatusHistory_laws : ModelLaws SupportDB SupportTicketStatusHistory.
Proof. split; reflexivity. Qed.

#[export] Instance SupportSLAEvent_model : Model SupportDB SupportSLAEvent := {
  table_of db := sla_events db;
  with_table t db := db <| sla_events := t |>;
  pk := sev_id;
  is_active := sev_is_active;
  created_at := sev_created_at;
  row_ok := sla_event_row_ok;
}.

#[export] Instance SupportSLAEvent_laws : ModelLaws SupportDB SupportSLAEvent.
Proof. split; reflexivity. Qed.

#[export] Instance SupportTicketSatisfaction_model : Model SupportDB SupportTicketSatisfaction := {
  table_of db := satisfactions db;
  with_table t db := db <| satisfactions := t |>;
  pk := sat_id;
  is_active := sat_is_active;
  created_at := sat_created_at;
  row_ok := satisfaction_row_ok;
}.

#[export] Instance SupportTicketSatisfaction_laws : ModelLaws SupportDB SupportTicketSatisfaction.
Proof. split; reflexivity. Qed.

#[export] Instance SupportDuplicateCandidate_model : Model SupportDB SupportDuplicateCandidate := {
  table_of db := duplicates db;
  with_table t db := db <| duplicates := t |>;
  pk := dup_id;
  is_active := dup_is_active;
  created_at := dup_created_at;
  row_ok := duplicate_row_ok;
}.

#[export] Instance SupportDuplicateCandidate_laws : ModelLaws SupportDB SupportDuplicateCandidate.
Proof. split; reflexivity. Qed.

(** * The environment and the exceptions *)

(** [senv_lower]: the lower case of a code point beyond ASCII; [senv_title_le]:
    the database's order of titles; [senv_localtime]: the clock of a time zone
    at an instant, [None] for a name that is not a zone, and [senv_to_utc] the
    instant of a reading of that clock; [senv_uuid4], [senv_uuid4_hex] and
    [senv_token_hex]: the random draws for the row that gets a key, and at an
    attempt. *)
Record SupportEnv : Type := mkSupportEnv {
  senv_site : Env;
  senv_lower : Z -> codes;
  senv_title_le : string -> string -> bool;
  senv_localtime : string -> Z -> option Z;
  senv_to_utc : string -> Z -> Z;
  senv_uuid4 : Z -> string;
  senv_uuid4_hex : Z -> string;
  senv_token_hex : Z -> string;
}.

#[export] Instance eta_SupportEnv : Eta SupportEnv := fun x => mkSupportEnv
  (senv_site x) (senv_lower x) (senv_title_le x) (senv_localtime x) (senv_to_utc x)
  (senv_uuid4 x) (senv_uuid4_hex x) (senv_token_hex x).

#[export] Instance support_clock : Clock SupportEnv := fun env => env_now (senv_site env).

(** What a refused operation was refused for. *)
Inductive taxonomy_fault : Type :=
| parent_of_other_department
| own_parent
| parent_is_descendant
| has_active_children
| has_open_tickets.

Inductive desk_fault : Type :=
| department_has_open_tickets
| category_of_other_department
| no_department_or_category
| no_support_agent
| rating_out_of_range.

Inductive sup_exc : Type :=
| SupDoesNotExist
| SupIntegrityError
| SupDatabaseError
| SupportDeskServiceError (f : desk_fault)
| SupportPermissionError
| SupportTicketStateError
| SupportTaxonomyTreeError (f : taxonomy_fault)
| SupOverflowError
| SupZoneInfoNotFoundError
| SupRecursionError
| SupSiteError (e : exc).

#[export] Instance support_orm : OrmError sup_exc := {
  does_not_exist := SupDoesNotExist;
  integrity_error := SupIntegrityError;
  database_error := SupDatabaseError;
}.

#[export] Instance support_app : App SupportEnv SupportDB sup_exc := {
  app_env := senv_site;
  app_site := support_site;
  with_site s db := db <| support_site := s |>;
  app_exc := SupSiteError;
}.

Abbreviation SM := (comp SupportEnv SupportDB sup_exc).

(** [Model.all_objects]: the rows, also those that are not active. *)
Definition all_filter {A} `{Model SupportDB A} (P : A -> bool) (db : SupportDB) : gmap Z A :=
  filter (fun kx => P kx.2 = true) (rows_of db).

(** The first row in an order. *)
Definition first_by {A} (le : A -> A -> bool) (qs : gmap Z A) : option A :=
  head (ordered_by le (qs_list qs)).

(** [order_by("order", "title")] *)
Definition order_title {A} (order : A -> Z) (title : A -> string) (env : SupportEnv) (x y : A) : bool :=
  (order x <? order y) || ((order x =? order y) && senv_title_le env (title x) (title y)).

#[export] Instance SupportDepartment_eq : EqDecision SupportDepartment.
Proof. solve_decision. Defined.
#[export] Instance SupportCategory_eq : EqDecision SupportCategory.
Proof. solve_decision. Defined.
#[export] Instance SupportBusinessCalendar_eq : EqDecision SupportBusinessCalendar.
Proof. solve_decision. Defined.
#[export] Instance SupportHoliday_eq : EqDecision SupportHoliday.
Proof. solve_decision. Defined.
#[export] Instance SupportSLAPolicy_eq : EqDecision SupportSLAPolicy.
Proof. solve_decision. Defined.
#[export] Instance SupportTicketType_eq : EqDecision SupportTicketType.
Proof. solve_decision. Defined.
#[export] Instance SupportCannedResponse_eq : EqDecision SupportCannedResponse.
Proof. solve_decision. Defined.
#[export] Instance SupportKnowledgeArticle_eq : EqDecision SupportKnowledgeArticle.
Proof. solve_decision. Defined.

(** The update services set the fields that were given and save the columns that
    changed, or nothing where none did. *)
Definition update_fields {A F} `{!EqDecision A, !Model SupportDB A} (set : A -> F -> A)
    (stamp : Z -> A -> A -> A) (i : Z) (fields : list F) : SM unit :=
  atomic
    (now ← timezone_now;
     x ← base_get (A := A) i;
     let x' := foldl set x fields in
     if bool_decide (x' = x) then mret tt else update_row i (fun _ => stamp now x x')).

(** * Saving a ticket *)

(** The columns that the services list in [update_fields]. *)
Inductive ticket_column : Set :=
| c_department | c_assigned_to | c_status | c_submitted_at | c_first_admin_response_at
| c_last_user_message_at | c_last_admin_message_at | c_last_activity_at | c_resolved_at
| c_closed_at | c_reopened_at | c_escalated_at | c_escalated_by | c_escalation_reason
| c_applied_sla_policy | c_first_response_due_at | c_resolution_due_at | c_sla_breached_at
| c_sla_paused_at | c_sla_total_paused_seconds | c_message_count | c_attachment_count
| c_internal_note_count | c_reopen_count | c_satisfaction_rating_snapshot.

(** A column of the row becomes that of the object [t] in memory. *)
Definition copy_column (t row : SupportTicket) (c : ticket_column) : SupportTicket :=
  match c with
  | c_department => row <| tk_department := tk_department t |>
  | c_assigned_to => row <| tk_assigned_to := tk_assigned_to t |>
  | c_status => row <| tk_status := tk_status t |>
  | c_submitted_at => row <| tk_submitted_at := tk_submitted_at t |>
  | c_first_admin_response_at => row <| tk_first_admin_response_at := tk_first_admin_response_at t |>
  | c_last_user_message_at => row <| tk_last_user_message_at := tk_last_user_message_at t |>
  | c_last_admin_message_at => row <| tk_last_admin_message_at := tk_last_admin_message_at t |>
  | c_last_activity_at => row <| tk_last_activity_at := tk_last_activity_at t |>
  | c_resolved_at => row <| tk_resolved_at := tk_resolved_at t |>
  | c_closed_at => row <| tk_closed_at := tk_closed_at t |>
  | c_reopened_at => row <| tk_reopened_at := tk_reopened_at t |>
  | c_escalated_at => row <| tk_escalated_at := tk_escalated_at t |>
  | c_escalated_by => row <| tk_escalated_by := tk_escalated_by t |>
  | c_escalation_reason => row <| tk_escalation_reason := tk_escalation_reason t |>
  | c_applied_sla_policy => row <| tk_applied_sla_policy := tk_applied_sla_policy t |>
  | c_first_response_due_at => row <| tk_first_response_due_at := tk_first_response_due_at t |>
  | c_resolution_due_at => row <| tk_resolution_due_at := tk_resolution_due_at t |>
  | c_sla_breached_at => row <| tk_sla_breached_at := tk_sla_breached_at t |>
  | c_sla_paused_at => row <| tk_sla_paused_at := tk_sla_paused_at t |>
  | c_sla_total_paused_seconds =>
      row <| tk_sla_total_paused_seconds := tk_sla_total_paused_seconds t |>
  | c_message_count => row <| tk_message_count := tk_message_count t |>
  | c_attachment_count => row <| tk_attachment_count := tk_attachment_count t |>
  | c_internal_note_count => row <| tk_internal_note_count := tk_internal_note_count t |>
  | c_reopen_count => row <| tk_reopen_count := tk_reopen_count t |>
  | c_satisfaction_rating_snapshot =>
      row <| tk_satisfaction_rating_snapshot := tk_satisfaction_rating_snapshot t |>
  end.

(** [ticket.save(update_fields=cols + ["updated_at"])]: only these columns of the
    row are written, so a ticket that was read earlier does not undo what was
    written to the others since.  The search document that [save] computes is not
    among them. *)
Definition save_ticket (t : SupportTicket) (cols : list ticket_column) : SM SupportTicket :=
  now ← timezone_now;
  _ ← update_row (tk_id t) (fun row =>
        (foldl (copy_column t) row cols) <| tk_updated_at := now |>);
  mret (t <| tk_updated_at := now |>).
