(* ===== verification/SupportSample.v ===== *)
(** A concrete desk for the examples and witnesses: a department with its
    calendar (Saturday to Wednesday, nine to five in Tehran, with a holiday), two
    categories, a policy that counts business hours, a ticket type, a user and
    an administrator. *)

From S2P Require Import Prelude Python Choices Orm Models NotificationModels World Apps Text Sample.
From S2P Require Import SupportModels.
#[local] Open Scope Z_scope.

(** Tehran's clock, without the changes of the past. *)
Definition tehran : Z := 3 * usec_per_hour + 30 * usec_per_min.

(** Every request draws identifiers of its own. *)
Definition site_env_at (now : Z) : Env :=
  mkEnv now (fun t => t / usec_per_day) default_settings (fun s => s) (py_prefix 64)
    (fun n => ("token-" +:+ pretty n)%string) ("uuid-" +:+ pretty now)%string
    (fun _ _ _ => HttpTimeout) (fun _ => "repr"%string) (fun t _ => Some t) (fun _ _ _ => None)
    (fun _ _ => None) (fun _ _ => None) (fun _ _ => None).

Definition desk_env_at (now : Z) : SupportEnv :=
  mkSupportEnv (site_env_at now)
    (fun c => [c]) String.leb
    (fun name t => if str_eqb name "Asia/Tehran" then Some (t + tehran) else None)
    (fun _ reading => reading - tehran)
    (fun i => ("uuid-" +:+ pretty i)%string) (fun i => ("hex-" +:+ pretty i)%string)
    (fun i => ("token-" +:+ pretty i)%string).

(** Tuesday, 14 November 2023, 22:13:20 UTC: the night of a Wednesday in Tehran. *)
Definition desk_env : SupportEnv := desk_env_at sample_now.
Definition desk_after (usec : Z) : SupportEnv := desk_env_at (sample_now + usec).

Definition sample_department : SupportDepartment :=
  mkDepartment 1 "department-uuid" "Finance" "finance" EmptyString (Some 2) 0 true 0 0.

Definition root_category : SupportCategory :=
  mkSupportCategory 1 None 1 "Payments" "payments" "/payments/" 0 EmptyString EmptyString 0 0 0 true 0 0.

Definition leaf_category : SupportCategory :=
  mkSupportCategory 2 (Some 1) 1 "Gateways" "gateways" "/payments/gateways/" 1 EmptyString EmptyString
    0 0 0 true 0 0.

Definition sample_calendar : SupportBusinessCalendar :=
  mkCalendar 1 "Finance hours" (Some 1) "Asia/Tehran" (9 * usec_per_hour) (17 * usec_per_hour)
    [5; 6; 0; 1; 2] true true 0 0.

(** The Wednesday on which the clock stands is a holiday. *)
Definition sample_holiday : SupportHoliday := mkHoliday 1 1 19676 "Holiday" true 0 0.

Definition sample_policy : SupportSLAPolicy :=
  mkPolicy 1 "Usual" "usual" None TicketPriority.NORMAL TicketSeverity.MINOR 60 480 true true true 0
    true 0 0.

Definition sample_ticket_type : SupportTicketType :=
  mkTicketType 1 "question" "Question" EmptyString (Some 1) (Some 2) TicketPriority.NORMAL
    TicketSeverity.MINOR (Some 1) 0 true 0 0.

Definition sample_client : SupportUser := mkSupportUser 1 true false false "user".
Definition sample_agent : SupportUser := mkSupportUser 2 true true false "admin".

Definition sample_desk : SupportDB :=
  mkSupportDB (one_row sample_department)
    (mkTable (list_to_map [(1, root_category); (2, leaf_category)]) 3)
    (one_row sample_calendar) (one_row sample_holiday) (one_row sample_policy)
    (one_row sample_ticket_type) no_rows no_rows no_rows no_rows no_rows no_rows no_rows no_rows
    no_rows no_rows no_rows no_rows no_rows
    {[ 1 := sample_client; 2 := sample_agent ]} empty_db.

(** The row of a ticket as an object; the blank stands for a row that is missing. *)
Definition blank_ticket : SupportTicket :=
  mkTicket 0 EmptyString EmptyString 0 0 0 0 EmptyString EmptyString TicketStatus.DRAFT
    TicketPriority.NORMAL TicketSeverity.MINOR TicketChannel.WEB None None None None None 0 None None
    None None None EmptyString None None None None None 0 0 0 0 0 None EmptyString true 0 0.

Definition ticket_of (db : SupportDB) : SupportTicket := default blank_ticket (rows_of db !! 1).
