(* ===== verification/ServiceLevel.v ===== *)
(** The service-level clock of the support desk: business calendars, policies
    and the deadlines of a ticket ([src/apps/support_desk/services.py], 201–279
    and 372–556).

    A reading of a calendar's clock is a number of microseconds, as an instant
    is; its day is the quotient by the length of a day.  Arithmetic on datetimes
    of one time zone is arithmetic on readings of the clock, as in Python. *)

From S2P Require Import Prelude Python Choices Orm Models NotificationModels World Apps Text.
From S2P Require Import Sample SupportModels SupportSample.
#[local] Open Scope Z_scope.

(** * Calendars *)

Definition create_business_calendar (title : string) (department : option Z)
    (timezone_name : string) (workday_start workday_end : option Z)
    (active_weekdays : option (list Z)) (is_default : bool) : SM SupportBusinessCalendar :=
  atomic (create (fun i now =>
    mkCalendar i (strip title) department timezone_name
      (default (9 * usec_per_hour) workday_start) (default (17 * usec_per_hour) workday_end)
      (match default [] active_weekdays with [] => [5; 6; 0; 1; 2] | l => l end)
      is_default true now now)).

Inductive calendar_field : Type :=
| calendar_title (s : string)
| calendar_department (d : option Z)
| calendar_timezone_name (s : string)
| calendar_workday_start (z : Z)
| calendar_workday_end (z : Z)
| calendar_active_weekdays (l : list Z)
| calendar_is_default (b : bool)
| calendar_is_active (b : bool).

Definition set_calendar_field (x : SupportBusinessCalendar) (f : calendar_field) :
    SupportBusinessCalendar :=
  match f with
  | calendar_title s => x <| cal_title := strip s |>
  | calendar_department d => x <| cal_department := d |>
  | calendar_timezone_name s => x <| cal_timezone_name := strip s |>
  | calendar_workday_start z => x <| cal_workday_start := z |>
  | calendar_workday_end z => x <| cal_workday_end := z |>
  | calendar_active_weekdays l => x <| cal_active_weekdays := l |>
  | calendar_is_default b => x <| cal_is_default := b |>
  | calendar_is_active b => x <| cal_is_active := b |>
  end.

(** [save] fills in the weekdays of a calendar that has none; in an update they
    are stored when they were among the columns. *)
Definition stamp_calendar (now : Z) (x x' : SupportBusinessCalendar) : SupportBusinessCalendar :=
  x' <| cal_active_weekdays :=
          (match cal_active_weekdays x', cal_active_weekdays x with
           | [], _ :: _ => [5; 6; 0; 1; 2]
           | l, _ => l
           end) |>
     <| cal_updated_at := now |>.

Definition update_business_calendar : Z -> list calendar_field -> SM unit :=
  update_fields set_calendar_field stamp_calendar.

Definition create_holiday (calendar date : Z) (title : string) : SM SupportHoliday :=
  atomic (create (fun i now => mkHoliday i calendar date (strip title) true now now)).

Inductive holiday_field : Type :=
| holiday_calendar (z : Z)
| holiday_date (z : Z)
| holiday_title (s : string)
| holiday_is_active (b : bool).

Definition set_holiday_field (x : SupportHoliday) (f : holiday_field) : SupportHoliday :=
  match f with
  | holiday_calendar z => x <| hol_calendar := z |>
  | holiday_date z => x <| hol_date := z |>
  | holiday_title s => x <| hol_title := strip s |>
  | holiday_is_active b => x <| hol_is_active := b |>
  end.

Definition update_holiday : Z -> list holiday_field -> SM unit :=
  update_fields set_holiday_field (fun now _ x' => x' <| hol_updated_at := now |>).

(** [order_by("-is_default", "title")] *)
Definition default_first (env : SupportEnv) (x y : SupportBusinessCalendar) : bool :=
  (cal_is_default x && negb (cal_is_default y)) ||
  (Bool.eqb (cal_is_default x) (cal_is_default y) && senv_title_le env (cal_title x) (cal_title y)).

Definition calendars_of (department : option Z) (env : SupportEnv) (db : SupportDB) :
    option SupportBusinessCalendar :=
  first_by (default_first env) (objects_filter (fun x => bool_decide (cal_department x = department)) db).

Definition get_business_calendar_for_department (department : option Z) (env : SupportEnv)
    (db : SupportDB) : option SupportBusinessCalendar :=
  match (match department with Some d => calendars_of (Some d) env db | None => None end) with
  | Some x => Some x
  | None => calendars_of None env db
  end.

(** * Business minutes *)

(** The day of [datetime.max]; a date beyond it is an [OverflowError]. *)
Definition max_day : Z := 2932896.

(** [date.weekday()]: the first day of 1970 was a Thursday. *)
Definition weekday (day : Z) : Z := (day + 3) mod 7.

Section Clock.
Context (cal : SupportBusinessCalendar) (active_weekdays : list Z) (holiday : Z -> bool).

Definition day_start (day : Z) : Z := day * usec_per_day + cal_workday_start cal.
Definition day_end (day : Z) : Z := day * usec_per_day + cal_workday_end cal.

Definition working_day (day : Z) : bool :=
  bool_decide (weekday day ∈ active_weekdays) && negb (holiday day).

(** How many days there are after the day of a reading. *)
Definition days_left (current : Z) : nat := Z.to_nat (max_day - day_of current).

(** [_next_working_instant]: the [while] loop, for the days that are left; [None]
    is the [OverflowError] of the day after the last. *)
Fixpoint next_working_instant (days : nat) (current : Z) : option Z :=
  let day := day_of current in
  let hours := working_day day in
  if hours && (current <? day_start day) then Some (day_start day)
  else if hours && (day_start day <=? current) && (current <? day_end day) then Some current
  else match days with
       | O => None
       | S days' => next_working_instant days' (day_start (day + 1))
       end.

(** The [while] loop of [add_business_minutes], with a bound on its rounds that is
    the number of days left. *)
Fixpoint spend_minutes (rounds : nat) (current remaining : Z) : option Z :=
  match next_working_instant (days_left current) current with
  | None => None
  | Some current =>
      let available := Z.max 0 ((day_end (day_of current) - current) / usec_per_min) in
      if remaining <=? available then Some (current + remaining * usec_per_min)
      else if max_day <=? day_of current then None
      else match rounds with
           | O => None
           | S rounds' => spend_minutes rounds' (day_start (day_of current + 1))
                            (remaining - available)
           end
  end.

End Clock.

Definition is_holiday (calendar : Z) (db : SupportDB) (date : Z) : bool :=
  qs_exists (objects_filter (fun h => (hol_calendar h =? calendar) && (hol_date h =? date)) db).

(** [set(calendar.active_weekdays or [5, 6, 0, 1, 2])] *)
Definition weekdays_of (cal : SupportBusinessCalendar) : list Z :=
  match cal_active_weekdays cal with [] => [5; 6; 0; 1; 2] | l => l end.

Definition add_business_minutes (start_at minutes : Z) (cal : SupportBusinessCalendar) : SM Z :=
  if minutes <=? 0 then mret start_at
  else
    env ← ask;
    match senv_localtime env (cal_timezone_name cal) start_at with
    | None => raise SupZoneInfoNotFoundError
    | Some current =>
        due ← query (fun db => spend_minutes cal (weekdays_of cal) (is_holiday (cal_id cal) db)
                                 (days_left current) current minutes);
        match due with
        | None => raise SupOverflowError
        | Some reading => mret (senv_to_utc env (cal_timezone_name cal) reading)
        end
    end.

(** * Policies *)

Definition resolve_sla_policy (department : option Z) (ticket_type : option SupportTicketType)
    (priority : TicketPriority.t) (severity : TicketSeverity.t) : SM (option SupportSLAPolicy) :=
  match ticket_type ≫= typ_default_sla_policy with
  | Some p => policy ← base_get (A := SupportSLAPolicy) p; mret (Some policy)
  | None =>
      env ← ask;
      query (fun db =>
        let first P := first_by (order_title sla_order sla_title env) (objects_filter P db) in
        let candidate (x : SupportSLAPolicy) :=
          bool_decide (sla_priority x = priority) && bool_decide (sla_severity x = severity) in
        let department_policy := match department with
          | Some d => first (fun x => candidate x && bool_decide (sla_department x = Some d))
          | None => None
          end in
        match department_policy with
        | Some x => Some x
        | None =>
            match first (fun x => candidate x && bool_decide (sla_department x = None)) with
            | Some x => Some x
            | None => first (fun _ => true)
            end
        end)
  end.

Definition calculate_sla_due_at (ticket : SupportTicket) (policy : SupportSLAPolicy)
    (minutes now : Z) : SM Z :=
  if negb (sla_business_hours_only policy) then mret (now + minutes * usec_per_min)
  else
    env ← ask;
    calendar ← query (get_business_calendar_for_department (Some (tk_department ticket)) env);
    match calendar with
    | None => mret (now + minutes * usec_per_min)
    | Some cal => add_business_minutes now minutes cal
    end.

Definition record_sla_event (ticket : Z) (event_type : SLAEventType.t) (occurred_at : option Z)
    (metadata : list (string * json)) : SM SupportSLAEvent :=
  create (fun i now =>
    mkSLAEvent i ticket event_type (default now occurred_at) (JObj metadata) true now now).

(** [_apply_sla] *)
Definition apply_sla (ticket : SupportTicket) (policy : option SupportSLAPolicy) (now : Z) :
    SM SupportTicket :=
  match policy with
  | None => mret ticket
  | Some policy =>
      first_due ← calculate_sla_due_at ticket policy (sla_first_response_minutes policy) now;
      due ← calculate_sla_due_at ticket policy (sla_resolution_minutes policy) now;
      ticket ← save_ticket (ticket <| tk_applied_sla_policy := Some (sla_id policy) |>
                                   <| tk_first_response_due_at := Some first_due |>
                                   <| tk_resolution_due_at := Some due |>)
                 [c_applied_sla_policy; c_first_response_due_at; c_resolution_due_at];
      _ ← record_sla_event (tk_id ticket) SLAEventType.POLICY_APPLIED (Some now)
            [("policy_id"%string, JInt (sla_id policy));
             ("first_response_minutes"%string, JInt (sla_first_response_minutes policy));
             ("resolution_minutes"%string, JInt (sla_resolution_minutes policy))];
      mret ticket
  end.

(** * Pausing the clock *)

(** [_pause_sla_if_needed] *)
Definition pause_sla_if_needed (ticket : SupportTicket) (now : Z) : SM SupportTicket :=
  policy ← (match tk_applied_sla_policy ticket with
            | None => mret None
            | Some p => x ← base_get (A := SupportSLAPolicy) p; mret (Some x)
            end : SM (option SupportSLAPolicy));
  match policy, tk_sla_paused_at ticket with
  | Some p, None =>
      if sla_pause_when_waiting_for_user p then
        ticket ← save_ticket (ticket <| tk_sla_paused_at := Some now |>) [c_sla_paused_at];
        _ ← record_sla_event (tk_id ticket) SLAEventType.PAUSED (Some now) [];
        mret ticket
      else mret ticket
  | _, _ => mret ticket
  end.

(** [int(x.total_seconds())]: towards zero *)
Definition whole_seconds (usec : Z) : Z := Z.quot usec 1000000.

(** [_resume_sla_if_needed] *)
Definition resume_sla_if_needed (ticket : SupportTicket) (now : Z) : SM SupportTicket :=
  match tk_sla_paused_at ticket with
  | None => mret ticket
  | Some paused_at =>
      let paused_seconds := whole_seconds (now - paused_at) in
      let extension := Z.max paused_seconds 0 * 1000000 in
      ticket ← save_ticket
        (ticket <| tk_sla_total_paused_seconds :=
                     tk_sla_total_paused_seconds ticket + Z.max paused_seconds 0 |>
                <| tk_first_response_due_at :=
                     (fun due => due + extension) <$> tk_first_response_due_at ticket |>
                <| tk_resolution_due_at :=
                     (fun due => due + extension) <$> tk_resolution_due_at ticket |>
                <| tk_sla_paused_at := None |>)
        [c_sla_total_paused_seconds; c_first_response_due_at; c_resolution_due_at; c_sla_paused_at];
      _ ← record_sla_event (tk_id ticket) SLAEventType.RESUMED (Some now)
            [("paused_seconds"%string, JInt paused_seconds)];
      mret ticket
  end.

(** * Business time *)

(** The sum of [f] over [n] days. *)
Fixpoint sum_days (f : Z -> Z) (day : Z) (n : nat) : Z :=
  match n with
  | O => 0
  | S n' => f day + sum_days f (day + 1) n'
  end.

Lemma sum_days_app f n m : forall day,
  sum_days f day (n + m) = sum_days f day n + sum_days f (day + Z.of_nat n) m.
Proof.
  induction n as [|n IH]; intros day; simpl; [by rewrite Z.add_0_r|].
  rewrite IH. replace (day + 1 + Z.of_nat n) with (day + Z.of_nat (S n)) by lia. lia.
Qed.

Lemma sum_days_zero f n : forall day,
  (forall d, day <= d < day + Z.of_nat n -> f d = 0) -> sum_days f day n = 0.
Proof.
  induction n as [|n IH]; intros day Hf; simpl; [done|]. rewrite Hf, IH; [done| |lia].
  intros d Hd. apply Hf. lia.
Qed.

Lemma sum_days_add f g h n : forall day,
  (forall d, f d = g d + h d) -> sum_days f day n = sum_days g day n + sum_days h day n.
Proof. induction n as [|n IH]; intros day Hf; simpl; [done|]. rewrite Hf, IH by done. lia. Qed.

Lemma sum_days_nonneg f n : (forall d, 0 <= f d) -> forall day, 0 <= sum_days f day n.
Proof.
  intros Hf. induction n as [|n IH]; intros day; simpl; [done|].
  pose proof (Hf day). specialize (IH (day + 1)). lia.
Qed.

(** Days at both ends that contribute nothing may be left out. *)
Lemma sum_days_cover f lo n a m :
  lo <= a -> a + Z.of_nat m <= lo + Z.of_nat n ->
  (forall d, d < a \/ a + Z.of_nat m <= d -> f d = 0) -> sum_days f lo n = sum_days f a m.
Proof.
  intros Hlo Hhi Hf.
  assert (exists p q, n = (p + (m + q))%nat /\ lo + Z.of_nat p = a) as (p & q & -> & <-).
  { exists (Z.to_nat (a - lo)), (Z.to_nat (lo + Z.of_nat n - (a + Z.of_nat m))). lia. }
  rewrite !sum_days_app, (sum_days_zero f p), (sum_days_zero f q); [lia| |];
    intros d Hd; apply Hf; lia.
Qed.

Lemma day_of_bounds t : day_of t * usec_per_day <= t < (day_of t + 1) * usec_per_day.
Proof.
  unfold day_of. pose proof (Z.div_mod t usec_per_day ltac:(done)).
  pose proof (Z.mod_pos_bound t usec_per_day eq_refl). lia.
Qed.

Lemma day_of_unique t d : d * usec_per_day <= t < (d + 1) * usec_per_day -> day_of t = d.
Proof.
  intros Ht. pose proof (day_of_bounds t). unfold usec_per_day, usec_per_hour, usec_per_min in *. lia.
Qed.

Lemma day_of_mono a b : a <= b -> day_of a <= day_of b.
Proof. apply Z.div_le_mono. done. Qed.

Section ClockLemmas.
Context (cal : SupportBusinessCalendar) (active : list Z) (holiday : Z -> bool).
Hypothesis start_in_day : 0 <= cal_workday_start cal < usec_per_day.
Hypothesis end_in_day : 0 <= cal_workday_end cal < usec_per_day.
Abbreviation opens := (day_start cal).
Abbreviation closes := (day_end cal).
Abbreviation works := (working_day active holiday).

(** The working time of a day that falls between two readings of the clock. *)
Definition overlap (a b day : Z) : Z :=
  if works day then Z.max 0 (Z.min b (closes day) - Z.max a (opens day)) else 0.

(** The working time between two readings. *)
Definition business_time (a b : Z) : Z :=
  sum_days (overlap a b) (day_of a) (Z.to_nat (day_of b - day_of a + 1)).

Lemma day_of_start day : day_of (opens day) = day.
Proof. apply day_of_unique. unfold day_start. lia. Qed.

Lemma overlap_outside a b d : d < day_of a \/ day_of b < d -> overlap a b d = 0.
Proof.
  intros Hd. unfold overlap. destruct (works d); [|done].
  pose proof (day_of_bounds a). pose proof (day_of_bounds b).
  unfold day_start, day_end in *. unfold usec_per_day, usec_per_hour, usec_per_min in *. lia.
Qed.

Lemma business_time_cover a b lo n :
  a <= b -> lo <= day_of a -> day_of b < lo + Z.of_nat n ->
  sum_days (overlap a b) lo n = business_time a b.
Proof.
  intros Hab Hlo Hn. pose proof (day_of_mono a b Hab). apply sum_days_cover; [done|lia|].
  intros d Hd. apply overlap_outside. lia.
Qed.

Lemma business_time_add a b c : a <= b -> b <= c ->
  business_time a c = business_time a b + business_time b c.
Proof.
  intros Hab Hbc. pose proof (day_of_mono _ _ Hab). pose proof (day_of_mono _ _ Hbc).
  rewrite <- (business_time_cover a b (day_of a) (Z.to_nat (day_of c - day_of a + 1))) by lia.
  rewrite <- (business_time_cover b c (day_of a) (Z.to_nat (day_of c - day_of a + 1))) by lia.
  apply sum_days_add. intros d. unfold overlap. destruct (works d); lia.
Qed.

Lemma business_time_refl a : business_time a a = 0.
Proof.
  apply sum_days_zero. intros d _. unfold overlap. destruct (works d); lia.
Qed.

Lemma business_time_day a b : a <= b -> day_of a = day_of b -> business_time a b = overlap a b (day_of a).
Proof.
  intros Hab Hd. unfold business_time. rewrite <- Hd.
  replace (Z.to_nat (day_of a - day_of a + 1)) with 1%nat by lia. simpl. lia.
Qed.

(** To the beginning of the next day's hours. *)
Lemma business_time_next a :
  business_time a (opens (day_of a + 1)) =
  overlap a (opens (day_of a + 1)) (day_of a).
Proof.
  unfold business_time. rewrite day_of_start.
  replace (Z.to_nat _) with 2%nat by lia. simpl.
  assert (overlap a (opens (day_of a + 1)) (day_of a + 1) = 0) as ->; [|lia].
  unfold overlap. destruct (works _); lia.
Qed.

Lemma next_day_later a : a <= opens (day_of a + 1).
Proof. pose proof (day_of_bounds a). unfold day_start. lia. Qed.

(** ** [_next_working_instant] skips no working time *)

Lemma overlap_none a b d : works d = false \/ closes d <= a \/ b <= opens d -> overlap a b d = 0.
Proof. unfold overlap. destruct (works d); [|done]. intros [?|?]; [done|lia]. Qed.

Lemma next_working_instant_spec days : forall a c,
  next_working_instant cal active holiday days a = Some c ->
  a <= c /\ works (day_of c) = true /\ opens (day_of c) <= c /\
  (c = a \/ c = opens (day_of c)) /\ business_time a c = 0.
Proof.
  assert (forall a c, opens (day_of a + 1) <= c ->
            (c = opens (day_of a + 1) \/ c = opens (day_of c)) ->
            works (day_of a) = false \/ closes (day_of a) <= a ->
            business_time (opens (day_of a + 1)) c = 0 ->
            a <= c /\ c = opens (day_of c) /\ business_time a c = 0) as Hskip.
  { intros a c Hle Hcase Hidle Hbt. pose proof (next_day_later a). split; [lia|].
    split; [destruct Hcase as [->|Hc]; [by rewrite day_of_start|exact Hc]|].
    rewrite (business_time_add a (opens (day_of a + 1)) c), Hbt, business_time_next by lia.
    rewrite overlap_none; [done|]. destruct Hidle; auto. }
  induction days as [|days IH]; intros a c; simpl; destruct (works (day_of a)) eqn:Hw.
  1, 3: destruct (Z.ltb_spec a (opens (day_of a))) as [Hlt|Hge].
  1, 3: intros [= <-]; rewrite day_of_start; split; [lia|]; split; [done|]; split; [lia|];
    split; [auto|]; rewrite business_time_day by (rewrite ?day_of_start; lia);
    apply overlap_none; auto with lia.
  all: try (rewrite (proj2 (Z.leb_le _ _) Hge); destruct (Z.ltb_spec a (closes (day_of a)))).
  1, 3: intros [= <-]; rewrite business_time_refl; auto with lia.
  all: try done.
  all: intros (Hle & Hwc & Hst & Hcase & Hbt)%IH;
    destruct (Hskip a c) as (? & ? & ?); auto 10.
Qed.

(** ** The deadline is reached after the minutes of working time *)

Definition whole_minutes (z : Z) : Prop := z mod usec_per_min = 0.

Lemma day_whole_minutes day z : whole_minutes z -> whole_minutes (day * usec_per_day + z).
Proof.
  unfold whole_minutes. intros Hz. change usec_per_day with (1440 * usec_per_min).
  rewrite Z.mul_assoc, Z.add_comm, Z.mod_add; done.
Qed.

Lemma whole_minutes_sub y z : whole_minutes y -> whole_minutes z -> whole_minutes (y - z).
Proof. unfold whole_minutes. intros Hy Hz. by rewrite Zminus_mod, Hy, Hz. Qed.

(** Within the hours of one day. *)
Lemma business_time_hours c t : works (day_of c) = true -> opens (day_of c) <= c -> c <= t ->
  t <= closes (day_of c) -> business_time c t = t - c /\ day_of t = day_of c.
Proof.
  intros Hw Hs Hct Hte. pose proof (day_of_bounds c).
  assert (day_of t = day_of c) as Hd.
  { apply day_of_unique. unfold day_end in Hte.
    unfold usec_per_day, usec_per_hour, usec_per_min in *. lia. }
  split; [|done]. rewrite business_time_day by (done || lia). unfold overlap. rewrite Hw. lia.
Qed.

(** The whole minutes of a stretch. *)
Abbreviation available z := (Z.max 0 (z / usec_per_min)).

Lemma available_le z m : 0 < m -> m <= available z -> m * usec_per_min <= z.
Proof. unfold usec_per_min. Z.to_euclidean_division_equations. lia. Qed.

Lemma available_left z :
  0 <= Z.max 0 z - available z * usec_per_min < usec_per_min /\
  (whole_minutes z -> Z.max 0 z = available z * usec_per_min).
Proof. unfold whole_minutes, usec_per_min. Z.to_euclidean_division_equations. lia. Qed.

Lemma business_time_rest c : works (day_of c) = true -> opens (day_of c) <= c ->
  business_time c (opens (day_of c + 1)) = Z.max 0 (closes (day_of c) - c).
Proof.
  intros Hw Hs. rewrite business_time_next. unfold overlap. rewrite Hw.
  unfold day_start, day_end in *. lia.
Qed.

(** Each day that the search passes loses less than a minute. *)
Lemma spend_minutes_spec rounds : forall a remaining r, 0 < remaining ->
  spend_minutes cal active holiday rounds a remaining = Some r ->
  a <= r /\ works (day_of r) = true /\ opens (day_of r) < r <= closes (day_of r) /\
  0 <= business_time a r - remaining * usec_per_min < (day_of r - day_of a + 1) * usec_per_min.
Proof.
  induction rounds as [|rounds IH]; intros a remaining r Hpos; simpl;
    destruct (next_working_instant _ _ _ _ a) as [c|] eqn:Hn; try done;
    apply next_working_instant_spec in Hn as (Hac & Hw & Hs & Hcase & Hbt);
    pose proof (day_of_mono _ _ Hac) as Hday;
    destruct (Z.leb_spec remaining (available (closes (day_of c) - c))) as [Hle|Hgt].
  1, 3: intros [= <-]; pose proof (available_le _ _ Hpos Hle);
    destruct (business_time_hours c (c + remaining * usec_per_min)) as [Hb Hd];
    [done|done|unfold usec_per_min; lia|lia|]; rewrite Hd, (business_time_add a c), Hbt, Hb
      by (unfold usec_per_min; lia); unfold usec_per_min in *;
    split; [lia|]; split; [done|]; split; lia.
  all: destruct (max_day <=? day_of c); [done|]; try done.
  intros (Hle & Hwr & Hin & Hloss)%IH; [|lia].
  pose proof (next_day_later c). pose proof (business_time_rest c Hw Hs) as Hrest.
  rewrite day_of_start in Hloss.
  destruct (available_left (closes (day_of c) - c)) as [Hl _].
  split; [lia|]. split; [done|]. split; [done|].
  rewrite (business_time_add a c), (business_time_add c (opens (day_of c + 1))) by lia.
  unfold usec_per_min in *. lia.
Qed.

(** ** Hours given in whole minutes *)

Section Whole.
Hypothesis start_whole : whole_minutes (cal_workday_start cal).
Hypothesis end_whole : whole_minutes (cal_workday_end cal).

Lemma opens_whole day : whole_minutes (opens day).
Proof. by apply day_whole_minutes. Qed.

Lemma closes_whole day : whole_minutes (closes day).
Proof. by apply day_whole_minutes. Qed.

(** Only the first day loses anything, and only what the start is past a minute. *)
Lemma spend_minutes_whole rounds : forall a remaining r, 0 < remaining ->
  spend_minutes cal active holiday rounds a remaining = Some r ->
  business_time a r - remaining * usec_per_min < usec_per_min /\
  (whole_minutes a -> business_time a r = remaining * usec_per_min).
Proof.
  assert (forall a c, c = a \/ c = opens (day_of c) -> whole_minutes a ->
            whole_minutes (closes (day_of c) - c)) as Hwhole.
  { intros a c Hcase Ha. apply whole_minutes_sub; [apply closes_whole|].
    destruct Hcase as [->| ->]; [done|apply opens_whole]. }
  induction rounds as [|rounds IH]; intros a remaining r Hpos; simpl;
    destruct (next_working_instant _ _ _ _ a) as [c|] eqn:Hn; try done;
    apply next_working_instant_spec in Hn as (Hac & Hw & Hs & Hcase & Hbt);
    destruct (Z.leb_spec remaining (available (closes (day_of c) - c))) as [Hle|Hgt].
  1, 3: intros [= <-]; pose proof (available_le _ _ Hpos Hle);
    destruct (business_time_hours c (c + remaining * usec_per_min)) as [Hb Hd];
    [done|done|unfold usec_per_min; lia|lia|]; rewrite (business_time_add a c), Hbt, Hb
      by (unfold usec_per_min; lia); unfold usec_per_min in *; lia.
  all: destruct (max_day <=? day_of c); [done|]; try done.
  assert (0 < remaining - available (closes (day_of c) - c)) as Hleft by lia.
  intros Hrun. destruct (spend_minutes_spec _ _ _ _ Hleft Hrun) as (Hle & _).
  apply IH in Hrun as [Hloss Hexact]; [|lia].
  pose proof (next_day_later c). pose proof (business_time_rest c Hw Hs) as Hrest.
  specialize (Hexact (opens_whole _)). specialize (Hwhole a c Hcase).
  destruct (available_left (closes (day_of c) - c)) as [Hl He].
  rewrite (business_time_add a c), (business_time_add c (opens (day_of c + 1))) by lia.
  split; [lia|]. intros Ha. specialize (He (Hwhole Ha)). lia.
Qed.

End Whole.

(** ** A deadline is found while there is working time left *)

(** The minutes that a day has. *)
Definition day_minutes (day : Z) : Z :=
  if works day then available (cal_workday_end cal - cal_workday_start cal) else 0.

Definition minutes_after (day : Z) : Z :=
  sum_days day_minutes (day + 1) (Z.to_nat (max_day - day)).

Lemma day_minutes_nonneg day : 0 <= day_minutes day.
Proof. unfold day_minutes. destruct (works day); lia. Qed.

Lemma minutes_after_at_least day k : Z.of_nat k <= max_day - day ->
  sum_days day_minutes (day + 1) k <= minutes_after day.
Proof.
  intros Hk. unfold minutes_after.
  replace (Z.to_nat (max_day - day)) with (k + (Z.to_nat (max_day - day) - k))%nat by lia.
  rewrite sum_days_app. pose proof (sum_days_nonneg day_minutes
    (Z.to_nat (max_day - day) - k) day_minutes_nonneg (day + 1 + Z.of_nat k)). lia.
Qed.

(** Days without working time up to a later day do not count. *)
Lemma minutes_after_skip day later : day <= later -> later <= max_day ->
  (forall d, day < d <= later -> day_minutes d = 0) -> minutes_after day = minutes_after later.
Proof.
  intros Hle Hmax Hd. unfold minutes_after.
  replace (Z.to_nat (max_day - day)) with (Z.to_nat (later - day) + Z.to_nat (max_day - later))%nat by lia.
  rewrite sum_days_app, (sum_days_zero _ (Z.to_nat (later - day))).
  - rewrite Z.add_0_l. f_equal. lia.
  - intros d Hin. apply Hd. lia.
Qed.

Lemma minutes_after_next day : day < max_day ->
  minutes_after day = day_minutes (day + 1) + minutes_after (day + 1).
Proof.
  intros Hday. unfold minutes_after.
  replace (Z.to_nat (max_day - day)) with (S (Z.to_nat (max_day - (day + 1)))) by lia. done.
Qed.

(** A day with working time is not passed over at its opening. *)
Lemma next_at_opening days n : 0 < day_minutes n ->
  next_working_instant cal active holiday days (opens n) = Some (opens n).
Proof.
  unfold day_minutes. destruct (works n) eqn:Hw; [|done]. intros Hpos.
  assert (opens n < closes n) as Hlt.
  { unfold day_start, day_end. unfold usec_per_min in Hpos.
    Z.to_euclidean_division_equations. lia. }
  destruct days; simpl; rewrite day_of_start, Hw, Z.ltb_irrefl, Z.leb_refl,
    (proj2 (Z.ltb_lt _ _) Hlt); done.
Qed.

Lemma next_working_instant_found days : forall a, day_of a <= max_day -> days = days_left a ->
  match next_working_instant cal active holiday days a with
  | Some c => day_of a <= day_of c <= max_day /\
      (forall d, day_of a < d < day_of c -> day_minutes d = 0)
  | None => forall d, day_of a < d <= max_day -> day_minutes d = 0
  end.
Proof.
  induction days as [|days IH]; intros a Hmax Hdays; unfold days_left in Hdays; simpl.
  - destruct (works _); cbn [andb]; [destruct (_ <? _); [|destruct (_ && _)]|]; rewrite ?day_of_start;
      try (split; [lia|]); intros; lia.
  - assert (match next_working_instant cal active holiday days (opens (day_of a + 1)) with
            | Some c => day_of a <= day_of c <= max_day /\
                (forall d, day_of a < d < day_of c -> day_minutes d = 0)
            | None => forall d, day_of a < d <= max_day -> day_minutes d = 0
            end) as Hnext.
    { specialize (IH (opens (day_of a + 1))). unfold days_left in IH. rewrite day_of_start in IH.
      pose proof (day_minutes_nonneg (day_of a + 1)).
      destruct (Z_lt_le_dec 0 (day_minutes (day_of a + 1))) as [Hpos|Hz].
      - rewrite next_at_opening by done. rewrite day_of_start. split; [lia|]. intros; lia.
      - destruct (next_working_instant _ _ _ _ _) as [c|].
        + destruct IH as [Hc Hd]; [lia|lia|]. split; [lia|]. intros d Hin.
          destruct (Z.eq_dec d (day_of a + 1)) as [->|]; [lia|apply Hd; lia].
        + intros d Hin. destruct (Z.eq_dec d (day_of a + 1)) as [->|]; [lia|apply IH; lia]. }
    destruct (works _); cbn [andb]; [destruct (_ <? _); [|destruct (_ && _)]|]; rewrite ?day_of_start;try done;
      split; try lia; intros; lia.
Qed.

(** The minutes of the days from a reading on; those of its own day only where it
    is the opening. *)
Definition counted (a k : Z) : Prop := k = 0 \/ (a = opens (day_of a) /\ k = day_minutes (day_of a)).

Lemma counted_next a k c : day_of a <= max_day -> counted a k ->
  next_working_instant cal active holiday (days_left a) a = Some c ->
  k + minutes_after (day_of a) <= available (closes (day_of c) - c) + minutes_after (day_of c).
Proof.
  intros Hmax Hk Hn. pose proof (next_working_instant_found _ a Hmax eq_refl) as Hf.
  rewrite Hn in Hf. destruct Hf as [Hc Hd].
  destruct (next_working_instant_spec _ _ _ Hn) as (Hac & Hw & Hs & Hcase & _).
  assert (c = opens (day_of c) -> day_minutes (day_of c) = available (closes (day_of c) - c)) as Hopen.
  { intros Hopen. unfold day_minutes. rewrite Hw. rewrite Hopen at 2.
    unfold day_start, day_end. do 2 f_equal. lia. }
  destruct (Z.eq_dec (day_of a) (day_of c)) as [Heq|Hne].
  - rewrite <- Heq in *. destruct Hk as [->|[Ha ->]]; [lia|].
    destruct Hcase as [->|Hop]; rewrite <- Hopen; by rewrite ?Heq in *.
  - destruct Hcase as [->|Hop]; [done|].
    assert (k = 0) as ->.
    { destruct Hk as [|[Ha ->]]; [done|]. pose proof (day_minutes_nonneg (day_of a)).
      destruct (Z_lt_le_dec 0 (day_minutes (day_of a))) as [Hpos|]; [|lia].
      rewrite Ha, next_at_opening in Hn by done. injection Hn as <-. by rewrite day_of_start in Hne. }
    rewrite (minutes_after_skip (day_of a) (day_of c - 1)) by (try lia; intros; apply Hd; lia).
    rewrite minutes_after_next, Z.sub_add, Hopen by (done || lia). lia.
Qed.

Lemma spend_minutes_found rounds : forall a k remaining, day_of a <= max_day ->
  (days_left a <= rounds)%nat -> counted a k -> remaining <= k + minutes_after (day_of a) ->
  0 < remaining -> exists r, spend_minutes cal active holiday rounds a remaining = Some r.
Proof.
  assert (minutes_after max_day = 0) as Hlast.
  { unfold minutes_after. by rewrite Z.sub_diag. }
  induction rounds as [|rounds IH]; intros a k remaining Hmax Hr Hk Hm Hpos; simpl;
    pose proof (next_working_instant_found _ a Hmax eq_refl) as Hf;
    pose proof (counted_next a k) as Hc;
    destruct (next_working_instant _ _ _ _ a) as [c|] eqn:Hn.
  2, 4: exfalso; rewrite (minutes_after_skip (day_of a) max_day), Hlast in Hm by (done || lia);
    destruct Hk as [->|[Ha ->]]; [lia|]; rewrite Ha, next_at_opening in Hn by lia; done.
  all: specialize (Hc c Hmax Hk eq_refl);
    destruct (Z.leb_spec remaining (available (closes (day_of c) - c))) as [Hle|Hgt]; [eauto|];
    destruct (Z.leb_spec max_day (day_of c)) as [Hend|Hmore].
  1, 3: destruct Hf as [[_ Hcm] _]; assert (day_of c = max_day) as Hcd by lia;
    rewrite Hcd, Hlast in Hc; rewrite Hcd in Hgt; lia.
  { unfold days_left in Hr. destruct Hf. lia. }
  apply (IH _ (day_minutes (day_of c + 1))); unfold days_left, counted in *; rewrite ?day_of_start.
  1, 2: lia.
  - by right.
  - rewrite (minutes_after_next (day_of c)) in Hc by lia. lia.
  - lia.
Qed.
End ClockLemmas.

(** * Deadlines *)

Record calendar_ok (cal : SupportBusinessCalendar) : Prop := {
  ok_start : 0 <= cal_workday_start cal < usec_per_day;
  ok_end : 0 <= cal_workday_end cal < usec_per_day;
}.

Record whole_minute_hours (cal : SupportBusinessCalendar) : Prop := {
  whole_start : whole_minutes (cal_workday_start cal);
  whole_end : whole_minutes (cal_workday_end cal);
}.

Section Deadlines.
Context (cal : SupportBusinessCalendar) (db : SupportDB) (env : SupportEnv).

(** The working time of the calendar between two readings of its clock. *)
Definition worked (a b : Z) : Z :=
  business_time cal (weekdays_of cal) (is_holiday (cal_id cal) db) a b.

Definition working_minutes_after (day : Z) : Z :=
  minutes_after cal (weekdays_of cal) (is_holiday (cal_id cal) db) day.

Lemma add_business_minutes_unfold start_at minutes reading : 0 < minutes ->
  senv_localtime env (cal_timezone_name cal) start_at = Some reading ->
  add_business_minutes start_at minutes cal env db =
  match spend_minutes cal (weekdays_of cal) (is_holiday (cal_id cal) db)
          (days_left reading) reading minutes with
  | None => (Raise SupOverflowError, db)
  | Some r => (Ok (senv_to_utc env (cal_timezone_name cal) r), db)
  end.
Proof.
  intros Hpos Htz. unfold add_business_minutes.
  rewrite (proj2 (Z.leb_gt _ _)) by done. rewrite bind_unfold. simpl. rewrite Htz.
  rewrite bind_unfold. simpl. by destruct (spend_minutes _ _ _ _ _ _).
Qed.
End Deadlines.

(** C24: a deadline in business minutes is right: the clock of the calendar's zone
    then reads a time within the hours of a working day, that is not a holiday,
    and between the start and that reading the calendar has as much working time
    as was asked for, but for the seconds that each day is cut by: less than a minute
    more for each day from the start to the deadline.  Where the hours are given in
    whole minutes it is less than a minute altogether, and nothing where the start is
    at a whole minute too.  So no holiday, closed day or night counts, and none is
    skipped. *)
Theorem deadline_counts_business_time (cal : SupportBusinessCalendar) (env : SupportEnv)
    (db db' : SupportDB) (start_at minutes reading due : Z)
    (Hcal : calendar_ok cal) (Hpos : 0 < minutes)
    (Htz : senv_localtime env (cal_timezone_name cal) start_at = Some reading)
    (Hdue : add_business_minutes start_at minutes cal env db = (Ok due, db')) :
  exists r, due = senv_to_utc env (cal_timezone_name cal) r /\ reading <= r /\
    working_day (weekdays_of cal) (is_holiday (cal_id cal) db) (day_of r) = true /\
    day_start cal (day_of r) < r <= day_end cal (day_of r) /\
    0 <= worked cal db reading r - minutes * usec_per_min
      < (day_of r - day_of reading + 1) * usec_per_min /\
    (whole_minute_hours cal ->
       worked cal db reading r - minutes * usec_per_min < usec_per_min /\
       (whole_minutes reading -> worked cal db reading r = minutes * usec_per_min)).
Proof.
  destruct Hcal as [Hs He].
  rewrite (add_business_minutes_unfold _ _ _ _ _ reading) in Hdue by done.
  destruct (spend_minutes _ _ _ _ _ _) as [r|] eqn:Hr; [|done]. injection Hdue as <- _.
  exists r. split; [done|].
  destruct (spend_minutes_spec _ _ _ Hs He _ _ _ _ Hpos Hr) as (Hle & Hw & Hin & Hloss).
  do 4 (split; [done|]). intros [Hws Hwe]. by apply (spend_minutes_whole _ _ _ Hs He Hws Hwe _ _ _ _ Hpos Hr).
Qed.

(** C31: the search for a deadline ends with one wherever the calendar has enough
    working time left: the working minutes of the days after the start, up to
    the last day there is, are a bound below which every deadline is found. *)
Theorem deadline_is_found (cal : SupportBusinessCalendar) (env : SupportEnv) (db : SupportDB)
    (start_at minutes reading : Z) (Hcal : calendar_ok cal)
    (Htz : senv_localtime env (cal_timezone_name cal) start_at = Some reading)
    (Hday : day_of reading <= max_day)
    (Hleft : minutes <= working_minutes_after cal db (day_of reading)) :
  exists due, add_business_minutes start_at minutes cal env db = (Ok due, db).
Proof.
  destruct Hcal as [Hs He]. destruct (Z_le_gt_dec minutes 0) as [Hle|Hgt].
  - exists start_at. unfold add_business_minutes. by rewrite (proj2 (Z.leb_le _ _)).
  - rewrite (add_business_minutes_unfold _ _ _ _ _ reading) by (done || lia).
    destruct (spend_minutes_found cal (weekdays_of cal) (is_holiday (cal_id cal) db) Hs He
      (days_left reading) reading 0 minutes) as [r ->]; [done|done|by left|done|lia|eauto].
Qed.

(** nothing stops a calendar from closing before it opens; it has no working
    time, and every deadline in it ends in an overflow of the date, after a query
    for each day up to the last one there is. *)
Theorem closed_calendar_overflows (cal : SupportBusinessCalendar) (env : SupportEnv)
    (db : SupportDB) (start_at minutes reading : Z) (Hcal : calendar_ok cal)
    (Hclosed : cal_workday_end cal <= cal_workday_start cal) (Hpos : 0 < minutes)
    (Htz : senv_localtime env (cal_timezone_name cal) start_at = Some reading) :
  add_business_minutes start_at minutes cal env db = (Raise SupOverflowError, db).
Proof.
  destruct Hcal as [Hs He].
  rewrite (add_business_minutes_unfold _ _ _ _ _ reading) by done.
  destruct (spend_minutes _ _ _ _ _ _) as [r|] eqn:Hr; [|done]. exfalso.
  apply (spend_minutes_spec _ _ _ Hs He) in Hr as (_ & _ & Hin & _); [|done].
  unfold day_start, day_end in Hin. lia.
Qed.

(** ** Examples *)

(** An hour asked for in the night of a Wednesday that is a holiday ends on
    Saturday at ten. *)
Definition saturday_ten : Z := 19679 * usec_per_day + 10 * usec_per_hour.

Example an_hour_over_the_weekend :
  add_business_minutes sample_now 60 sample_calendar desk_env sample_desk =
  (Ok (saturday_ten - tehran), sample_desk).
Proof. vm_compute. reflexivity. Qed.

Lemma sample_calendar_ok : calendar_ok sample_calendar.
Proof. by split. Qed.

Lemma sample_hours_whole : whole_minute_hours sample_calendar.
Proof. by split. Qed.

Lemma deadline_counts_business_time_witness :
  exists r, saturday_ten - tehran = senv_to_utc desk_env "Asia/Tehran" r /\
    sample_now + tehran <= r /\
    working_day [5; 6; 0; 1; 2] (is_holiday 1 sample_desk) (day_of r) = true /\
    day_start sample_calendar (day_of r) < r <= day_end sample_calendar (day_of r) /\
    0 <= worked sample_calendar sample_desk (sample_now + tehran) r - 60 * usec_per_min < usec_per_min.
Proof.
  destruct (deadline_counts_business_time sample_calendar desk_env sample_desk sample_desk sample_now 60
    (sample_now + tehran) (saturday_ten - tehran) sample_calendar_ok eq_refl eq_refl
    an_hour_over_the_weekend) as (r & H1 & H2 & H3 & H4 & [H5 _] & H6).
  exists r. destruct (H6 sample_hours_whole) as [H7 _]. split_and!; try done; apply H4.
Defined.

Lemma deadline_is_found_witness :
  exists due, add_business_minutes sample_now 480 sample_calendar desk_env sample_desk = (Ok due, sample_desk).
Proof.
  apply (deadline_is_found sample_calendar desk_env sample_desk sample_now 480 (sample_now + tehran)
           sample_calendar_ok eq_refl); [done|].
  unfold working_minutes_after.
  refine (Z.le_trans _ _ _ _ (minutes_after_at_least _ _ _ _ 5 _)); apply Z.leb_le; vm_compute; reflexivity.
Defined.

Definition closed_calendar : SupportBusinessCalendar :=
  sample_calendar <| cal_workday_start := 17 * usec_per_hour |> <| cal_workday_end := 9 * usec_per_hour |>.

Lemma closed_calendar_overflows_witness :
  add_business_minutes sample_now 60 closed_calendar desk_env sample_desk =
  (Raise SupOverflowError, sample_desk).
Proof.
  apply (closed_calendar_overflows closed_calendar desk_env sample_desk sample_now 60
           (sample_now + tehran)); try done; by split.
Defined.
