(* ===== verification/SupportTaxonomy.v ===== *)
(** What administrators of the support desk manage: departments, the tree of
    categories, policies, ticket types, the help centre and canned answers
    ([src/apps/support_desk/services.py], 159–356, 501–628 and 765–955, and the
    [save] methods of [src/apps/support_desk/models.py]).

    A service gets the key of the record that the view has just looked up. *)

From S2P Require Import Prelude Python Choices Orm Models NotificationModels World Apps Text.
From S2P Require Import Sample SupportModels SupportSample.
From Stdlib Require Import Ascii.
#[local] Open Scope Z_scope.

(** * Slugs *)

(** The candidate with a suffix; [max_length] leaves room for it. *)
Definition slug_candidate (base : string) (max_length : nat) (suffix : Z) : string :=
  let suffix_text := ("-" +:+ pretty suffix)%string in
  (prefix_chars (max_length - length (decode suffix_text)) base +:+ suffix_text)%string.

(** [_unique_slug]: the loop gets as fuel one more than the number of rows, which
    is enough ([unique_slug_is_free]). *)
Definition unique_slug {A} `{Model SupportDB A} (slug_of : A -> string) (env : SupportEnv)
    (value : string) (max_length : nat) (exclude_pk : option Z) (key : Z) (db : SupportDB) : string :=
  let base := str_or (prefix_chars max_length (env_slugify (senv_site env) value))
                     (py_prefix 12 (senv_uuid4_hex env key)) in
  default EmptyString
    (first_free
       (fun s => qs_exists (all_filter (fun x : A =>
          str_eqb (slug_of x) s && negb (bool_decide (exclude_pk = Some (pk x)))) db))
       (slug_candidate base max_length) (S (size (rows_of (A := A) db))) base 2).

(** * Open tickets *)

(** [SupportTicketQuerySet.open_queue] of the default manager *)
Definition is_open (t : SupportTicket) : bool :=
  negb (bool_decide (tk_status t ∈ [TicketStatus.CLOSED; TicketStatus.ARCHIVED; TicketStatus.SPAM])).

Definition open_queue (P : SupportTicket -> bool) (db : SupportDB) : gmap Z SupportTicket :=
  objects_filter (fun t => is_open t && P t) db.

(** * Departments *)

Definition create_department (title description : string) (default_assignee : option Z)
    (order : Z) : SM SupportDepartment :=
  atomic
    (env ← ask;
     i ← query (fun db => next_id (table_of (A := SupportDepartment) db));
     slug ← query (unique_slug dep_slug env (strip title) 220 None i);
     create (fun i now =>
       mkDepartment i (senv_uuid4 env i) (strip title) slug (strip description) default_assignee
         order true now now)).

Inductive department_field : Type :=
| department_title (s : string)
| department_description (s : string)
| department_default_assignee (u : option Z)
| department_order (z : Z)
| department_is_active (b : bool).

Definition set_department_field (x : SupportDepartment) (f : department_field) : SupportDepartment :=
  match f with
  | department_title s => x <| dep_title := strip s |>
  | department_description s => x <| dep_description := strip s |>
  | department_default_assignee u => x <| dep_default_assignee := u |>
  | department_order z => x <| dep_order := z |>
  | department_is_active b => x <| dep_is_active := b |>
  end.

Definition update_department : Z -> list department_field -> SM unit :=
  update_fields set_department_field (fun now _ x' => x' <| dep_updated_at := now |>).

Definition deactivate_department (department : Z) : SM unit :=
  atomic
    (now ← timezone_now;
     open ← query (fun db => qs_exists (open_queue (fun t => tk_department t =? department) db));
     _ ← raise_if open (SupportDeskServiceError department_has_open_tickets);
     update_row department (fun x : SupportDepartment =>
       x <| dep_is_active := false |> <| dep_updated_at := now |>)).

(** * Categories *)

Definition slash : ascii := "/"%char.

(** [path.rstrip("/")] *)
Definition rstrip_slash (s : string) : string := py_rstrip_by (Ascii.eqb slash) s.

Definition root_path (slug : string) : string := ("/" +:+ slug +:+ "/")%string.

Definition child_path (parent_path slug : string) : string :=
  (rstrip_slash parent_path +:+ "/" +:+ slug +:+ "/")%string.

(** The depth and path that [SupportCategory.save] computes. *)
Definition place (parent : option SupportCategory) (x : SupportCategory) : SupportCategory :=
  match parent with
  | Some p => x <| cat_depth := cat_depth p + 1 |> <| cat_path := child_path (cat_path p) (cat_slug x) |>
  | None => x <| cat_depth := 0 |> <| cat_path := root_path (cat_slug x) |>
  end.

Definition category_of (i : option Z) : SM (option SupportCategory) :=
  match i with
  | Some p => x ← base_get (A := SupportCategory) p; mret (Some x)
  | None => mret None
  end.

Definition assert_valid_category_parent (category parent : option SupportCategory)
    (department : Z) : SM unit :=
  match parent with
  | None => mret tt
  | Some p =>
      _ ← raise_if (negb (cat_department p =? department))
            (SupportTaxonomyTreeError parent_of_other_department);
      match category with
      | None => mret tt
      | Some x =>
          _ ← raise_if (cat_id p =? cat_id x) (SupportTaxonomyTreeError own_parent);
          raise_if (String.prefix (cat_path x) (cat_path p))
            (SupportTaxonomyTreeError parent_is_descendant)
      end
  end.

Definition create_category (department : Z) (title : string) (parent : option Z)
    (description icon : string) (order : Z) : SM SupportCategory :=
  atomic
    (env ← ask;
     p ← category_of parent;
     _ ← assert_valid_category_parent None p department;
     i ← query (fun db => next_id (table_of (A := SupportCategory) db));
     slug ← query (unique_slug cat_slug env (strip title) 220 None i);
     create (fun i now => place p
       (mkSupportCategory i parent department (strip title) slug EmptyString 0 (strip description)
          (strip icon) order 0 0 true now now))).

Inductive category_field : Type :=
| category_department (z : Z)
| category_parent (p : option Z)
| category_title (s : string)
| category_description (s : string)
| category_icon (s : string)
| category_order (z : Z)
| category_is_active (b : bool).

Definition set_category_field (x : SupportCategory) (f : category_field) : SupportCategory :=
  match f with
  | category_department z => x <| cat_department := z |>
  | category_parent p => x <| cat_parent := p |>
  | category_title s => x <| cat_title := strip s |>
  | category_description s => x <| cat_description := strip s |>
  | category_icon s => x <| cat_icon := strip s |>
  | category_order z => x <| cat_order := z |>
  | category_is_active b => x <| cat_is_active := b |>
  end.

Definition children_of (category : Z) (env : SupportEnv) (db : SupportDB) : list SupportCategory :=
  ordered_by (order_title cat_order cat_title env)
    (qs_list (all_filter (fun x => bool_decide (cat_parent x = Some category)) db)).

(** [child.save(update_fields=["depth", "path", "updated_at"])] *)
Definition save_place (x : SupportCategory) : SM unit :=
  now ← timezone_now;
  parent ← category_of (cat_parent x);
  let x' := place parent x in
  update_row (cat_id x) (fun row => row <| cat_depth := cat_depth x' |> <| cat_path := cat_path x' |>
                                        <| cat_updated_at := now |>).

(** [_refresh_descendant_paths]; a recursion that does not end is a
    [RecursionError], which does not occur ([moving_ends]). *)
Fixpoint refresh_descendant_paths (fuel : nat) (category : Z) : SM unit :=
  match fuel with
  | O => raise SupRecursionError
  | S fuel' =>
      env ← ask;
      children ← query (children_of category env);
      for_fold (fun _ child => _ ← save_place child; refresh_descendant_paths fuel' (cat_id child))
        tt children
  end.

(** More levels than the depth column can count. *)
Definition max_levels : nat := Z.to_nat 32768.

Definition update_category (category : Z) (fields : list category_field) : SM unit :=
  atomic
    (now ← timezone_now;
     x ← base_get (A := SupportCategory) category;
     let x' := foldl set_category_field x fields in
     parent ← category_of (cat_parent x');
     _ ← assert_valid_category_parent (Some x) parent (cat_department x');
     if bool_decide (x' = x) then mret tt
     else _ ← update_row category (fun _ => place parent x' <| cat_updated_at := now |>);
          refresh_descendant_paths max_levels category).

Definition deactivate_category (category : Z) : SM unit :=
  atomic
    (now ← timezone_now;
     children ← query (fun db => qs_exists (all_filter (fun x : SupportCategory =>
       bool_decide (cat_parent x = Some category) && cat_is_active x) db));
     _ ← raise_if children (SupportTaxonomyTreeError has_active_children);
     open ← query (fun db => qs_exists (open_queue (fun t => tk_category t =? category) db));
     _ ← raise_if open (SupportTaxonomyTreeError has_open_tickets);
     update_row category (fun x : SupportCategory =>
       x <| cat_is_active := false |> <| cat_updated_at := now |>)).

(** * Policies and ticket types *)

Definition create_sla_policy (title : string) (department : option Z) (priority : TicketPriority.t)
    (severity : TicketSeverity.t) (first_response_minutes resolution_minutes : Z)
    (business_hours_only pause_when_waiting_for_user escalate_on_breach : bool) (order : Z) :
    SM SupportSLAPolicy :=
  atomic
    (env ← ask;
     i ← query (fun db => next_id (table_of (A := SupportSLAPolicy) db));
     slug ← query (unique_slug sla_slug env (strip title) 220 None i);
     create (fun i now =>
       mkPolicy i (strip title) slug department priority severity first_response_minutes
         resolution_minutes business_hours_only pause_when_waiting_for_user escalate_on_breach
         order true now now)).

Inductive policy_field : Type :=
| policy_title (s : string)
| policy_department (d : option Z)
| policy_priority (p : TicketPriority.t)
| policy_severity (s : TicketSeverity.t)
| policy_first_response_minutes (z : Z)
| policy_resolution_minutes (z : Z)
| policy_business_hours_only (b : bool)
| policy_pause_when_waiting_for_user (b : bool)
| policy_escalate_on_breach (b : bool)
| policy_order (z : Z)
| policy_is_active (b : bool).

Definition set_policy_field (x : SupportSLAPolicy) (f : policy_field) : SupportSLAPolicy :=
  match f with
  | policy_title s => x <| sla_title := strip s |>
  | policy_department d => x <| sla_department := d |>
  | policy_priority p => x <| sla_priority := p |>
  | policy_severity s => x <| sla_severity := s |>
  | policy_first_response_minutes z => x <| sla_first_response_minutes := z |>
  | policy_resolution_minutes z => x <| sla_resolution_minutes := z |>
  | policy_business_hours_only b => x <| sla_business_hours_only := b |>
  | policy_pause_when_waiting_for_user b => x <| sla_pause_when_waiting_for_user := b |>
  | policy_escalate_on_breach b => x <| sla_escalate_on_breach := b |>
  | policy_order z => x <| sla_order := z |>
  | policy_is_active b => x <| sla_is_active := b |>
  end.

Definition update_sla_policy : Z -> list policy_field -> SM unit :=
  update_fields set_policy_field (fun now _ x' => x' <| sla_updated_at := now |>).

(** The check of a category against a department, where both are given. *)
Definition check_category (department category : option Z) : SM unit :=
  match category, department with
  | Some c, Some d =>
      x ← base_get (A := SupportCategory) c;
      raise_if (negb (cat_department x =? d)) (SupportDeskServiceError category_of_other_department)
  | _, _ => mret tt
  end.

Definition create_ticket_type (code title description : string)
    (default_department default_category : option Z) (default_priority : TicketPriority.t)
    (default_severity : TicketSeverity.t) (default_sla_policy : option Z) (order : Z) :
    SM SupportTicketType :=
  atomic
    (_ ← check_category default_department default_category;
     create (fun i now =>
       mkTicketType i (strip code) (strip title) (strip description) default_department
         default_category default_priority default_severity default_sla_policy order true now now)).

Inductive ticket_type_field : Type :=
| ticket_type_code (s : string)
| ticket_type_title (s : string)
| ticket_type_description (s : string)
| ticket_type_default_department (d : option Z)
| ticket_type_default_category (c : option Z)
| ticket_type_default_priority (p : TicketPriority.t)
| ticket_type_default_severity (s : TicketSeverity.t)
| ticket_type_default_sla_policy (p : option Z)
| ticket_type_order (z : Z)
| ticket_type_is_active (b : bool).

Definition set_ticket_type_field (x : SupportTicketType) (f : ticket_type_field) : SupportTicketType :=
  match f with
  | ticket_type_code s => x <| typ_code := strip s |>
  | ticket_type_title s => x <| typ_title := strip s |>
  | ticket_type_description s => x <| typ_description := strip s |>
  | ticket_type_default_department d => x <| typ_default_department := d |>
  | ticket_type_default_category c => x <| typ_default_category := c |>
  | ticket_type_default_priority p => x <| typ_default_priority := p |>
  | ticket_type_default_severity s => x <| typ_default_severity := s |>
  | ticket_type_default_sla_policy p => x <| typ_default_sla_policy := p |>
  | ticket_type_order z => x <| typ_order := z |>
  | ticket_type_is_active b => x <| typ_is_active := b |>
  end.

Definition update_ticket_type (ticket_type : Z) (fields : list ticket_type_field) : SM unit :=
  atomic
    (x ← base_get (A := SupportTicketType) ticket_type;
     let x' := foldl set_ticket_type_field x fields in
     _ ← check_category (typ_default_department x') (typ_default_category x');
     update_fields set_ticket_type_field (fun now _ x' => x' <| typ_updated_at := now |>)
       ticket_type fields).

(** * The help centre *)

Definition keep_keywords (keywords : list string) : list string :=
  List.filter str_true (strip <$> keywords).

Definition create_knowledge_article (title body summary : string)
    (department category ticket_type : option Z) (keywords : list string)
    (status : KnowledgeArticleStatus.t) : SM SupportKnowledgeArticle :=
  atomic
    (_ ← check_category department category;
     env ← ask;
     i ← query (fun db => next_id (table_of (A := SupportKnowledgeArticle) db));
     slug ← query (unique_slug kb_slug env (strip title) 260 None i);
     create (fun i now =>
       mkArticle i department category ticket_type (strip title) slug (strip summary) (strip body)
         (keep_keywords keywords) status
         (if bool_decide (status = KnowledgeArticleStatus.PUBLISHED) then Some now else None)
         None 0 true now now)).

Inductive article_field : Type :=
| article_title (s : string)
| article_body (s : string)
| article_summary (s : string)
| article_department (d : option Z)
| article_category (c : option Z)
| article_ticket_type (t : option Z)
| article_keywords (l : list string)
| article_is_active (b : bool).

Definition set_article_field (x : SupportKnowledgeArticle) (f : article_field) :
    SupportKnowledgeArticle :=
  match f with
  | article_title s => x <| kb_title := strip s |>
  | article_body s => x <| kb_body := strip s |>
  | article_summary s => x <| kb_summary := strip s |>
  | article_department d => x <| kb_department := d |>
  | article_category c => x <| kb_category := c |>
  | article_ticket_type t => x <| kb_ticket_type := t |>
  | article_keywords l => x <| kb_keywords := keep_keywords l |>
  | article_is_active b => x <| kb_is_active := b |>
  end.

Definition update_knowledge_article (article : Z) (fields : list article_field) : SM unit :=
  atomic
    (x ← base_get (A := SupportKnowledgeArticle) article;
     let x' := foldl set_article_field x fields in
     _ ← check_category (kb_department x') (kb_category x');
     update_fields set_article_field (fun now _ x' => x' <| kb_updated_at := now |>)
       article fields).

Definition publish_knowledge_article (article : Z) : SM unit :=
  atomic
    (now ← timezone_now;
     update_row article (fun x : SupportKnowledgeArticle =>
       x <| kb_status := KnowledgeArticleStatus.PUBLISHED |>
         <| kb_published_at := Some (default now (kb_published_at x)) |>
         <| kb_archived_at := None |> <| kb_updated_at := now |>)).

Definition archive_knowledge_article (article : Z) : SM unit :=
  atomic
    (now ← timezone_now;
     update_row article (fun x : SupportKnowledgeArticle =>
       x <| kb_status := KnowledgeArticleStatus.ARCHIVED |> <| kb_archived_at := Some now |>
         <| kb_updated_at := now |>)).

Definition record_knowledge_article_use (article : Z) (user ticket : option Z) (context : string)
    (metadata : list (string * json)) : SM SupportKnowledgeArticleUse :=
  atomic
    (now ← timezone_now;
     _ ← update_row article (fun x : SupportKnowledgeArticle =>
           x <| kb_usage_count := kb_usage_count x + 1 |> <| kb_updated_at := now |>);
     create (fun i now =>
       mkArticleUse i article ticket user (prefix_chars 40 context) (JObj metadata) true now now)).

(** * Canned answers *)

Definition create_canned_response (title body : string) (department category : option Z) :
    SM SupportCannedResponse :=
  atomic
    (_ ← check_category department category;
     create (fun i now =>
       mkCannedResponse i department category (strip title) (strip body) 0 true now now)).

Inductive canned_field : Type :=
| canned_title (s : string)
| canned_body (s : string)
| canned_department (d : option Z)
| canned_category (c : option Z)
| canned_is_active (b : bool).

Definition set_canned_field (x : SupportCannedResponse) (f : canned_field) : SupportCannedResponse :=
  match f with
  | canned_title s => x <| can_title := strip s |>
  | canned_body s => x <| can_body := strip s |>
  | canned_department d => x <| can_department := d |>
  | canned_category c => x <| can_category := c |>
  | canned_is_active b => x <| can_is_active := b |>
  end.

Definition update_canned_response (canned_response : Z) (fields : list canned_field) : SM unit :=
  atomic
    (x ← base_get (A := SupportCannedResponse) canned_response;
     let x' := foldl set_canned_field x fields in
     _ ← check_category (can_department x') (can_category x');
     update_fields set_canned_field (fun now _ x' => x' <| can_updated_at := now |>)
       canned_response fields).

Definition use_canned_response (canned_response : Z) : SM unit :=
  atomic
    (now ← timezone_now;
     update_row canned_response (fun x : SupportCannedResponse =>
       x <| can_usage_count := can_usage_count x + 1 |> <| can_updated_at := now |>)).

(** * Paths *)

(** A slug that a path can be built from: not empty, and without a slash at its end. *)
Definition slug_ok (slug : string) : Prop := slug <> EmptyString /\ rstrip_slash slug = slug.

Lemma cons_app c (a b : string) : (String c a +:+ b = String c (a +:+ b))%string.
Proof. reflexivity. Qed.

Lemma rstrip_app s slug : slug_ok slug -> rstrip_slash (s +:+ slug) = (s +:+ slug)%string.
Proof.
  intros [Hne Hs]. induction s as [|c s IH]; [exact Hs|]. rewrite cons_app.
  unfold rstrip_slash in *. cbn [py_rstrip_by]. rewrite IH. destruct s; [|done]. by destruct slug.
Qed.

Lemma rstrip_trailing s : rstrip_slash (s +:+ "/") = rstrip_slash s.
Proof.
  induction s as [|c s IH]; [done|]. rewrite cons_app. unfold rstrip_slash in *.
  cbn [py_rstrip_by]. by rewrite IH.
Qed.

Lemma app_string_assoc (a b c : string) : (a +:+ (b +:+ c) = (a +:+ b) +:+ c)%string.
Proof. induction a as [|x a IH]; [done|]. by rewrite !cons_app, IH. Qed.

Lemma prefix_app (s t : string) : String.prefix s (s +:+ t) = true.
Proof.
  induction s as [|c s IH]; [by destruct t|]. rewrite cons_app. simpl.
  by destruct (ascii_dec c c).
Qed.

Lemma prefix_spec (s u : string) : String.prefix s u = true -> exists t, u = (s +:+ t)%string.
Proof.
  revert u. induction s as [|c s IH]; intros u; [by exists u|]. destruct u as [|d u]; [done|].
  simpl. destruct (ascii_dec c d) as [->|]; [|done]. intros [t ->]%IH. by exists t.
Qed.

Lemma prefix_trans s t u : String.prefix s t = true -> String.prefix t u = true ->
  String.prefix s u = true.
Proof.
  intros [a ->]%prefix_spec [b ->]%prefix_spec. rewrite <- app_string_assoc. apply prefix_app.
Qed.

(** * The tree *)

Section Tree.
Implicit Types (db : SupportDB) (x : SupportCategory).

Definition parent_row db x : option (option SupportCategory) :=
  match cat_parent x with
  | None => Some None
  | Some p => Some <$> rows_of db !! p
  end.

(** Depth and path are those that [save] would compute. *)
Definition placed db x : Prop := exists q, parent_row db x = Some q /\ place q x = x.

Record tree_ok db : Prop := {
  tree_keys : table_good (A := SupportCategory) (table_of db);
  tree_placed : forall i x, rows_of db !! i = Some x -> placed db x;
  tree_slugs : forall i x, rows_of db !! i = Some x -> slug_ok (cat_slug x);
  tree_depths : forall i x, rows_of db !! i = Some x -> 0 <= cat_depth x <= 32767;
}.

Lemma place_child p x : place (Some p) x = x ->
  cat_depth x = cat_depth p + 1 /\ cat_path x = child_path (cat_path p) (cat_slug x).
Proof. intros <-. done. Qed.

(** A category in the tree has a path that ends in its slug and one slash. *)
Lemma placed_path db x : placed db x -> slug_ok (cat_slug x) ->
  exists q, cat_path x = (q +:+ "/")%string /\ rstrip_slash q = q.
Proof.
  intros (q & _ & <-) Hs.
  destruct q as [p|]; simpl; unfold child_path, root_path;
    [exists (rstrip_slash (cat_path p) +:+ "/" +:+ cat_slug x)%string|exists ("/" +:+ cat_slug x)%string].
  - rewrite <- !app_string_assoc. split; [done|]. rewrite app_string_assoc. by apply rstrip_app.
  - rewrite <- app_string_assoc. split; [done|]. by apply rstrip_app.
Qed.

(** The path of a child extends that of its parent. *)
Lemma child_extends db i x p y : tree_ok db -> rows_of db !! i = Some x -> cat_parent x = Some p ->
  rows_of db !! p = Some y ->
  String.prefix (cat_path y) (cat_path x) = true /\ cat_depth x = cat_depth y + 1.
Proof.
  intros Hok Hi Hp Hy. destruct (tree_placed _ Hok i x Hi) as (q & Hq & Hx).
  unfold parent_row in Hq. rewrite Hp, Hy in Hq. injection Hq as <-.
  apply place_child in Hx as [Hd Hpath]. split; [|done].
  destruct (placed_path db y) as (q & Hqy & Hr);
    [by apply (tree_placed _ Hok p)|by apply (tree_slugs _ Hok p)|].
  rewrite Hpath. unfold child_path. rewrite Hqy, rstrip_trailing, Hr, app_string_assoc.
  apply prefix_app.
Qed.

Lemma category_of_ok_inv p (env : SupportEnv) db q db' :
  category_of p env db = (Ok q, db') ->
  db' = db /\ match p with None => q = None | Some i => exists x, q = Some x /\ rows_of db !! i = Some x end.
Proof.
  destruct p as [i|]; simpl; intros Hr; comp_inv Hr; [|done]. eauto.
Qed.

Lemma parent_row_category x (env : SupportEnv) db q db' :
  category_of (cat_parent x) env db = (Ok q, db') -> db' = db /\ parent_row db x = Some q.
Proof.
  unfold parent_row. intros [-> Hq]%category_of_ok_inv. destruct (cat_parent x).
  - destruct Hq as (y & -> & ->). done.
  - by subst q.
Qed.

(** ** What refreshing does *)

(** Rows keep their parent and their slug. *)
Definition shape x : option Z * string := (cat_parent x, cat_slug x).

Definition same_shape db db' : Prop :=
  (table_good (A := SupportCategory) (table_of db) ->
   table_good (A := SupportCategory) (table_of db')) /\
  (forall i, shape <$> rows_of db' !! i = shape <$> rows_of db !! i) /\
  ((forall i x, rows_of db !! i = Some x -> 0 <= cat_depth x <= 32767) ->
   (forall i x, rows_of db' !! i = Some x -> 0 <= cat_depth x <= 32767)).

#[export] Instance same_shape_preorder : PreOrder same_shape.
Proof.
  split; [intros a; split; [exact id|split; [done|exact id]]|]. intros a b c (H1 & H2 & H3) (G1 & G2 & G3).
  split; [auto|]. split; [intros i; by rewrite G2|]. intros Hd. by apply G3, H3.
Qed.

Lemma save_place_ok_inv x (env : SupportEnv) db u db' :
  save_place x env db = (Ok u, db') ->
  exists q row, parent_row db x = Some q /\ rows_of db !! cat_id x = Some row /\
    let row' := row <| cat_depth := cat_depth (place q x) |> <| cat_path := cat_path (place q x) |>
                    <| cat_updated_at := clock env |> in
    row_ok (delete (cat_id x) (rows_of db)) row' = true /\ db' = set_row (cat_id x) row' db.
Proof.
  unfold save_place. intros Hr. comp_inv Hr.
  match goal with Hc : category_of _ _ _ = _ |- _ => apply parent_row_category in Hc as [-> Hq] end.
  comp_run. eauto 10.
Qed.

Lemma row_ok_depth others x : category_row_ok others x = true -> 0 <= cat_depth x <= 32767.
Proof. unfold category_row_ok, positive_small_integer. rewrite !andb_true_iff, !Z.leb_le. tauto. Qed.

Lemma save_place_shape x (env : SupportEnv) db u db' :
  save_place x env db = (Ok u, db') -> same_shape db db'.
Proof.
  intros (q & row & Hq & Hrow & Hok & ->)%save_place_ok_inv. split; [|split].
  - intros Hg. eapply set_row_good; [done|exact Hrow|]. simpl. by apply (proj2 Hg).
  - intros i. rewrite rows_of_set_row. destruct (decide (i = cat_id x)) as [->|].
    + by rewrite lookup_insert_eq, Hrow.
    + by rewrite lookup_insert_ne.
  - intros Hd i y. rewrite rows_of_set_row.
    intros [[<- <-]|[_ Hi]]%lookup_insert_Some; [by eapply row_ok_depth|by eapply Hd].
Qed.

(** ** Refreshing puts the descendants in place *)

(** All rows are in place but those in [pending]. *)
Definition placed_but (pending : Z -> Prop) db : Prop :=
  table_good (A := SupportCategory) (table_of db) /\
  forall i x, rows_of db !! i = Some x -> placed db x \/ pending i.

Definition child_in db (category i : Z) : Prop :=
  exists x, rows_of db !! i = Some x /\ cat_parent x = Some category.

Lemma child_in_shape db db' category i : same_shape db db' ->
  child_in db' category i -> child_in db category i.
Proof.
  intros (_ & Hs & _) (x & Hi & Hp). specialize (Hs i). rewrite Hi in Hs. simpl in Hs.
  destruct (rows_of db !! i) as [y|] eqn:Hy; [|done]. exists y. split; [done|].
  injection Hs as Hpar _. congruence.
Qed.

Lemma place_shape q x y : shape x = shape y ->
  cat_depth (place q x) = cat_depth (place q y) /\ cat_path (place q x) = cat_path (place q y).
Proof. intros [= _ Hs]. destruct q; simpl; by rewrite Hs. Qed.

Lemma save_place_placed pending x (env : SupportEnv) db u db' :
  (exists y, rows_of db !! cat_id x = Some y /\ shape y = shape x) ->
  save_place x env db = (Ok u, db') ->
  placed_but (fun i => pending i \/ i = cat_id x) db -> cat_parent x <> Some (cat_id x) ->
  placed_but (fun i => pending i \/ child_in db (cat_id x) i) db'.
Proof.
  intros (y & Hy & Hsh) Hrun [Hg Hpl] Hself.
  pose proof (save_place_shape _ _ _ _ _ Hrun) as Hss.
  apply save_place_ok_inv in Hrun as (q & row & Hq & Hrow & Hok & ->).
  rewrite Hy in Hrow. injection Hrow as <-. split; [by apply Hss|].
  set (row' := _ <| cat_updated_at := _ |>) in *.
  assert (cat_parent y = cat_parent x) as Hpar by (by injection Hsh).
  assert (cat_slug y = cat_slug x) as Hsl by (by injection Hsh).
  intros i z. rewrite rows_of_set_row. intros [[<- <-]|[Hne Hi]]%lookup_insert_Some.
  - left. exists q. split.
    + unfold parent_row in *. change (cat_parent row') with (cat_parent y). rewrite Hpar.
      destruct (cat_parent x) as [p|]; [|done]. rewrite rows_of_set_row, lookup_insert_ne; [done|].
      congruence.
    + subst row'. destruct q; simpl; rewrite Hsl; done.
  - destruct (Hpl i z Hi) as [(r & Hr & Hz)|[Hp| ->]]; [|by right; left|done].
    destruct (decide (cat_parent z = Some (cat_id x))) as [Hc|Hc].
    { right. right. by exists z. }
    left. exists r. split; [|done]. unfold parent_row in *. destruct (cat_parent z); [|done].
    rewrite rows_of_set_row, lookup_insert_ne; [done|congruence].
Qed.

Lemma placed_but_mono (P Q : Z -> Prop) db :
  (forall i, P i -> Q i) -> placed_but P db -> placed_but Q db.
Proof. intros HPQ [Hg Hpl]. split; [done|]. intros i x [?|?]%Hpl; auto. Qed.

Definition no_self_parent db : Prop :=
  forall i x, rows_of db !! i = Some x -> cat_parent x <> Some i.

(** The rows that a row's shape is still that of. *)
Lemma same_shape_row db db' i x : same_shape db db' -> rows_of db !! i = Some x ->
  exists y, rows_of db' !! i = Some y /\ shape y = shape x.
Proof.
  intros (_ & Hs & _) Hi. specialize (Hs i). rewrite Hi in Hs.
  destruct (rows_of db' !! i) as [y|]; [|done]. injection Hs as Hp Hsl. exists y.
  unfold shape. by rewrite Hp, Hsl.
Qed.

Lemma same_shape_sym_child db db' category i : same_shape db db' ->
  child_in db category i -> child_in db' category i.
Proof.
  intros Hs (x & Hi & Hp). destruct (same_shape_row _ _ _ _ Hs Hi) as (y & Hy & Heq).
  exists y. split; [done|]. injection Heq as -> _. done.
Qed.

Lemma no_self_shape db db' : same_shape db db' -> no_self_parent db -> no_self_parent db'.
Proof.
  intros (_ & Hs & _) Hn i x Hi Hp. specialize (Hs i). rewrite Hi in Hs. simpl in Hs.
  destruct (rows_of db !! i) as [y|] eqn:Hy; [|done]. injection Hs as Hpar _.
  apply (Hn i y Hy). congruence.
Qed.

Lemma elem_of_children category (env : SupportEnv) db x :
  table_good (A := SupportCategory) (table_of db) ->
  x ∈ children_of category env db <-> rows_of db !! cat_id x = Some x /\ cat_parent x = Some category.
Proof.
  intros [_ Hwf]. unfold children_of. rewrite elem_of_ordered. unfold qs_list, all_filter.
  rewrite list_elem_of_fmap. split.
  - intros ([i z] & -> & Hin). apply elem_of_map_to_list, map_lookup_filter_Some in Hin as [Hi Hp].
    simpl in *. apply bool_decide_eq_true in Hp. destruct (Hwf i z Hi) as [Hpk _].
    change (pk z) with (cat_id z) in Hpk. by rewrite Hpk.
  - intros [Hi Hp]. exists (cat_id x, x). split; [done|].
    apply elem_of_map_to_list, map_lookup_filter_Some. split; [done|]. simpl. by apply bool_decide_eq_true.
Qed.

Definition refreshes fuel : Prop := forall category pending (env : SupportEnv) db u db',
  no_self_parent db -> placed_but (fun i => pending i \/ child_in db category i) db ->
  refresh_descendant_paths fuel category env db = (Ok u, db') ->
  placed_but pending db' /\ same_shape db db'.

Lemma refresh_loop fuel pending (env : SupportEnv) db0 l : refreshes fuel -> no_self_parent db0 ->
  (forall x, x ∈ l -> rows_of db0 !! cat_id x = Some x) ->
  forall db1 u db', same_shape db0 db1 -> placed_but (fun i => pending i \/ i ∈ cat_id <$> l) db1 ->
  for_fold (fun _ child => _ ← save_place child; refresh_descendant_paths fuel (cat_id child)) tt l
    env db1 = (Ok u, db') ->
  placed_but pending db' /\ same_shape db0 db'.
Proof.
  intros IH Hself. induction l as [|x l IHl]; intros Hl db1 u db' Hsame Hpl Hrun; simpl in Hrun.
  - comp_inv Hrun. split; [|done]. eapply placed_but_mono; [|exact Hpl].
    intros i [?|Hi]; [done|]. by apply elem_of_nil in Hi.
  - apply bind_ok_inv in Hrun as ([] & s1 & Hbody & Hrest).
    apply bind_ok_inv in Hbody as ([] & s2 & Hsave & Href).
    assert (rows_of db0 !! cat_id x = Some x) as Hx by (apply Hl; left).
    pose proof (save_place_shape _ _ _ _ _ Hsave) as Hs2.
    apply (save_place_placed (fun i => pending i \/ i ∈ cat_id <$> l)) in Hsave;
      [|by apply (same_shape_row db0)| |by apply (Hself _ _ Hx)].
    2: { eapply placed_but_mono; [|exact Hpl]. intros i [?|Hi]; [tauto|]. apply elem_of_cons in Hi. tauto. }
    apply (IH _ (fun i => pending i \/ i ∈ cat_id <$> l)) in Href as [Hpl1 Hs1].
    + eapply IHl; [|by etrans; [|etrans]; [exact Hsame|exact Hs2|exact Hs1]|exact Hpl1|exact Hrest].
      intros z Hz. apply Hl. by right.
    + eapply no_self_shape; [|exact Hself]. by etrans.
    + eapply placed_but_mono; [|exact Hsave]. intros i [?|Hc]; [by left|right].
      by eapply same_shape_sym_child.
Qed.

Lemma refresh_placed fuel : refreshes fuel.
Proof.
  induction fuel as [|fuel IH]; intros category pending env db u db' Hself Hpl; [done|].
  simpl. intros Hrun. comp_inv Hrun.
  match goal with H : for_fold _ _ ?l _ _ = _ |- _ => revert H end.
  apply refresh_loop; [done|done| |done|].
  - intros x Hx. apply elem_of_children in Hx; [tauto|apply Hpl].
  - eapply placed_but_mono; [|exact Hpl]. intros i [Hp|(x & Hi & Hp)]; [by left|right].
    assert (cat_id x = i) as <- by (by apply (proj2 (proj1 Hpl))).
    apply list_elem_of_fmap_2, elem_of_children; [apply Hpl|done].
Qed.

(** ** Moving a category *)

Lemma set_fields_kept fields : forall x,
  cat_id (foldl set_category_field x fields) = cat_id x /\
  cat_slug (foldl set_category_field x fields) = cat_slug x.
Proof.
  induction fields as [|f fields IH]; intros x; [done|]. simpl.
  destruct (IH (set_category_field x f)) as [-> ->]. by destruct f.
Qed.

Lemma tree_no_self db : tree_ok db -> no_self_parent db.
Proof.
  intros Hok i x Hi Hp. destruct (child_extends db i x i x Hok Hi Hp Hi) as [_ Hd]. lia.
Qed.

(** An accepted parent is neither the category nor a row below it in the paths. *)
Lemma assert_parent_ok_inv x q department (env : SupportEnv) db u db' :
  assert_valid_category_parent (Some x) q department env db = (Ok u, db') ->
  db' = db /\ forall p, q = Some p ->
    cat_department p = department /\ cat_id p <> cat_id x /\
    String.prefix (cat_path x) (cat_path p) = false.
Proof.
  destruct q as [p|]; simpl; intros Hr; comp_inv Hr; [|done]. split; [done|]. intros ? [= <-].
  split_and!; [by apply Z.eqb_eq, negb_false_iff|by apply Z.eqb_neq|done].
Qed.

(** The database in which the category has moved and its descendants have not
    been refreshed. *)
Lemma moved_placed db category x x' q (now : Z) : tree_ok db -> rows_of db !! category = Some x ->
  cat_id x' = cat_id x -> cat_slug x' = cat_slug x -> parent_row db x' = Some q ->
  (forall p, q = Some p -> cat_id p <> cat_id x) ->
  let y := place q x' <| cat_updated_at := now |> in
  category_row_ok (delete category (rows_of db)) y = true ->
  let db1 := set_row category y db in
  no_self_parent db1 /\ placed_but (fun i => child_in db1 category i) db1 /\
  (forall i z, rows_of db1 !! i = Some z -> slug_ok (cat_slug z) /\ 0 <= cat_depth z <= 32767).
Proof.
  intros Hok Hi Hid Hslug Hq Hne y Hrow db1.
  assert (cat_id x = category) as Hx by (by apply (proj2 (tree_keys _ Hok))).
  assert (forall p, cat_parent x' = Some p -> p <> category) as Hpar.
  { intros p Hp ->. unfold parent_row in Hq. rewrite Hp, Hi in Hq. injection Hq as <-.
    by apply (Hne x). }
  assert (cat_parent y = cat_parent x') as Hy by (by destruct q).
  assert (cat_slug y = cat_slug x) as Hys by (by destruct q).
  assert (forall i z, rows_of db1 !! i = Some z ->
            (i = category /\ z = y) \/ (i <> category /\ rows_of db !! i = Some z)) as Hlk.
  { intros i z. unfold db1. rewrite rows_of_set_row.
    intros [[<- <-]|[? ?]]%lookup_insert_Some; auto. }
  split; [|split; [split|]].
  - intros i z [[-> ->]|[_ Hz]]%Hlk; [|by apply (tree_no_self db Hok)].
    rewrite Hy. intros Hp. by apply (Hpar category).
  - eapply set_row_good; [apply Hok|exact Hi|]. change (pk y) with (cat_id y).
    destruct q; simpl; congruence.
  - intros i z [[-> ->]|[Hne' Hz]]%Hlk.
    + left. exists q. split; [|by destruct q]. unfold parent_row in *. rewrite Hy.
      destruct (cat_parent x') as [p|] eqn:Hp; [|done]. unfold db1.
      rewrite rows_of_set_row, lookup_insert_ne; [done|]. intros Heq. by apply (Hpar p).
    + destruct (tree_placed _ Hok i z Hz) as (r & Hr & Hpz).
      destruct (decide (cat_parent z = Some category)) as [Hc|Hc].
      * right. exists z. unfold db1. by rewrite rows_of_set_row, lookup_insert_ne by congruence.
      * left. exists r. split; [|done]. unfold parent_row in *. destruct (cat_parent z); [|done].
        unfold db1. rewrite rows_of_set_row, lookup_insert_ne; [done|congruence].
  - intros i z [[-> ->]|[_ Hz]]%Hlk.
    + rewrite Hys. split; [by apply (tree_slugs _ Hok category)|by eapply row_ok_depth].
    + split; [by apply (tree_slugs _ Hok i)|by apply (tree_depths _ Hok i)].
Qed.

Lemma refreshed_tree_ok category (env : SupportEnv) db u db' fuel : no_self_parent db ->
  placed_but (fun i => child_in db category i) db ->
  (forall i z, rows_of db !! i = Some z -> slug_ok (cat_slug z) /\ 0 <= cat_depth z <= 32767) ->
  refresh_descendant_paths fuel category env db = (Ok u, db') -> tree_ok db'.
Proof.
  intros Hself Hpl Hrows Hrun.
  apply (refresh_placed fuel category (fun _ => False)) in Hrun as [[Hg Hin] Hs]; [|done|].
  2: { eapply placed_but_mono; [|exact Hpl]. intros i Hi. by right. }
  split; [done| | |].
  - intros i x Hi. by destruct (Hin i x Hi).
  - intros i x Hi. destruct Hs as (_ & Hs & _). specialize (Hs i). rewrite Hi in Hs. simpl in Hs.
    destruct (rows_of db !! i) as [z|] eqn:Hz; [|done]. injection Hs as _ ->. by apply (Hrows i).
  - intros i x Hi. apply (proj2 (proj2 Hs)) in Hi; [done|]. intros j z Hz. by apply (Hrows j).
Qed.
End Tree.

(** * Slugs are free *)

Lemma slug_candidate_inj base n z z' : 0 <= z -> 0 <= z' ->
  slug_candidate base n z = slug_candidate base n z' -> z = z'.
Proof.
  intros Hz Hz' Heq. unfold slug_candidate in Heq. cbv zeta in Heq.
  pose proof (parse_digits_pretty false z Hz) as Hp.
  pose proof (parse_digits_pretty false z' Hz') as Hp'.
  pose proof (after_last_dash_inj _ _ _ _ _ _ Heq Hp Hp') as Hc. congruence.
Qed.

Section Free.
Context {A : Type} `{!Model SupportDB A} (slug_of : A -> string) (db : SupportDB).

Definition slug_taken (exclude_pk : option Z) (s : string) : bool :=
  qs_exists (all_filter (fun x : A =>
    str_eqb (slug_of x) s && negb (bool_decide (exclude_pk = Some (pk x)))) db).

Lemma slug_taken_spec exclude_pk s : slug_taken exclude_pk s = true <->
  exists i x, rows_of db !! i = Some x /\ slug_of x = s /\ exclude_pk <> Some (pk x).
Proof.
  unfold slug_taken. rewrite qs_exists_spec. unfold all_filter. setoid_rewrite map_lookup_filter_Some.
  setoid_rewrite andb_true_iff. setoid_rewrite negb_true_iff. setoid_rewrite bool_decide_eq_false.
  unfold str_eqb. setoid_rewrite bool_decide_eq_true. done.
Qed.

Lemma slug_taken_used exclude_pk s :
  slug_taken exclude_pk s = true -> s ∈ slug_of <$> qs_list (rows_of (A := A) db).
Proof.
  intros (i & x & Hi & <- & _)%slug_taken_spec. apply list_elem_of_fmap_2.
  unfold qs_list. change x with ((i, x).2). apply list_elem_of_fmap_2. by apply elem_of_map_to_list.
Qed.

(** The slug that a new or renamed record gets is that of no other row, active or
    not; the search for it ends. *)
Lemma unique_slug_is_free (env : SupportEnv) (value : string) (max_length : nat)
    (exclude_pk : option Z) (key : Z) i (x : A) :
  rows_of db !! i = Some x -> exclude_pk <> Some (pk x) ->
  slug_of x <> unique_slug slug_of env value max_length exclude_pk key db.
Proof.
  intros Hi Hx. unfold unique_slug. cbv zeta. fold (slug_taken exclude_pk). set (base := str_or _ _).
  destruct (first_free_found (slug_taken exclude_pk) (slug_candidate base max_length)
    (slug_of <$> qs_list (rows_of (A := A) db)) base 2) as (s & Hs & Hfree).
  - apply slug_taken_used.
  - intros y z Hy Hz. apply slug_candidate_inj; lia.
  - unfold qs_list in Hs. rewrite !length_fmap, length_map_to_list in Hs. rewrite Hs. simpl.
    intros Heq. apply not_true_iff_false in Hfree. apply Hfree, slug_taken_spec. eauto.
Qed.
End Free.

(** C26: moving, renaming or editing a category keeps the tree: whatever fields
    are given and however the update ends, every category of the tree has the
    depth and the path that its parent's give, down to the last descendant of the
    one that was moved. *)
Theorem moving_keeps_the_tree (env : SupportEnv) (db : SupportDB) (category : Z)
    (fields : list category_field) (Hok : tree_ok db) :
  tree_ok (update_category category fields env db).2.
Proof.
  unfold update_category. apply atomic_preserves; [done|]. intros u db' Hrun. comp_inv Hrun.
  match goal with Hc : category_of _ _ _ = _ |- _ => apply parent_row_category in Hc as [-> Hq] end.
  match goal with Ha : assert_valid_category_parent _ _ _ _ _ = _ |- _ =>
    apply assert_parent_ok_inv in Ha as [-> Hp] end.
  case_bool_decide; comp_run; [done|].
  destruct (set_fields_kept fields a) as [Hid Hslug]. simplify_eq.
  destruct (moved_placed db category a (foldl set_category_field a fields) a0 (clock env))
    as (Hself & Hpl & Hrows); [done|done|done|done|done| |done|].
  { intros p Heq. by apply Hp. }
  by eapply refreshed_tree_ok.
Qed.

Section Ends.
Context (env : SupportEnv) (db db1 : SupportDB) (category : Z) (x : SupportCategory).
Hypothesis tree : tree_ok db.
Hypothesis category_row : rows_of db !! category = Some x.

(** The rows below the category in the tree as it was, by their paths. *)
Definition below (i : Z) : Prop :=
  exists y, rows_of db !! i = Some y /\ String.prefix (cat_path x) (cat_path y) = true.

Hypothesis others_kept : forall i (z : SupportCategory), i <> category -> rows_of db1 !! i = Some z ->
  rows_of db !! i = Some z.
Hypothesis keys : table_good (A := SupportCategory) (table_of db1).
Hypothesis parent_not_below : forall (z : SupportCategory) p, rows_of db1 !! category = Some z ->
  cat_parent z = Some p -> ~ below p.

Definition old_depth (i : Z) : Z := from_option cat_depth 0 (rows_of db !! i).

Lemma child_below i z y : below i -> rows_of db1 !! y = Some z -> cat_parent z = Some i ->
  below y /\ old_depth y = old_depth i + 1 /\ old_depth y <= 32767.
Proof.
  intros (r & Hr & Hpre) Hz Hp. destruct (decide (y = category)) as [->|Hne].
  { exfalso. eapply parent_not_below; [exact Hz|exact Hp|]. by exists r. }
  apply others_kept in Hz; [|done].
  destruct (child_extends db y z i r tree Hz Hp Hr) as [Hext Hd].
  unfold old_depth. rewrite Hz, Hr. simpl. split; [|split; [done|by apply (tree_depths _ tree y)]].
  exists z. split; [done|]. by eapply prefix_trans.
Qed.

Definition no_recursion_error {A} (r : outcome sup_exc A) : Prop := r <> Raise SupRecursionError.

Lemma save_place_raises z db2 e s : save_place z env db2 = (Raise e, s) ->
  s = db2 /\ e <> SupRecursionError.
Proof.
  unfold save_place, category_of, base_get, update_row. rewrite bind_unfold. simpl.
  rewrite bind_unfold. destruct (cat_parent z) as [p|].
  - rewrite bind_unfold. destruct (rows_of (A := SupportCategory) db2 !! p); simpl;
      repeat case_match; by intros [= <- <-].
  - simpl. repeat case_match; by intros [= <- <-].
Qed.

Lemma refresh_shape fuel i db2 s u : refresh_descendant_paths fuel i env db2 = (Ok u, s) ->
  same_shape db2 s.
Proof.
  revert i db2 s u. induction fuel as [|fuel IH]; intros i db2 s u; [done|]. simpl. intros Hrun.
  comp_inv Hrun. match goal with H : for_fold _ _ _ _ _ = _ |- _ => revert H end.
  intros Hloop. apply (for_fold_ok_inv (fun _ d => same_shape db2 d)) in Hloop; [done| |reflexivity].
  intros [] z s1 [] s2 Hs1 Hbody. apply bind_ok_inv in Hbody as ([] & s3 & Hsave & Href).
  apply save_place_shape in Hsave. apply IH in Href. by etrans; [|etrans].
Qed.

Lemma refresh_ends fuel : forall i db2, same_shape db1 db2 -> below i ->
  32767 - old_depth i < Z.of_nat fuel ->
  no_recursion_error (refresh_descendant_paths fuel i env db2).1.
Proof.
  induction fuel as [|fuel IH]; intros i db2 Hsame Hi Hfuel.
  { destruct Hi as (y & Hy & _). pose proof (tree_depths _ tree i y Hy).
    unfold old_depth in Hfuel. rewrite Hy in Hfuel. simpl in Hfuel. lia. }
  simpl. rewrite bind_unfold. simpl. rewrite bind_unfold. simpl.
  assert (forall z, z ∈ children_of i env db2 ->
            below (cat_id z) /\ 32767 - old_depth (cat_id z) < Z.of_nat fuel) as Hl.
  { intros z Hz. apply elem_of_children in Hz as [Hz Hp]; [|by apply Hsame].
    destruct Hsame as (_ & Hs & _). specialize (Hs (cat_id z)). rewrite Hz in Hs. simpl in Hs.
    destruct (rows_of db1 !! cat_id z) as [w|] eqn:Hw; [|done]. injection Hs as Hpar _.
    destruct (child_below i w (cat_id z) Hi Hw) as (Hb & Hd & _); [congruence|].
    split; [done|]. rewrite Hd. lia. }
  revert Hl Hsame. generalize (children_of i env db2) as l. intros l. revert db2.
  induction l as [|z l IHl]; intros db2 Hl Hsame; simpl; [done|].
  rewrite bind_unfold, bind_unfold.
  destruct (save_place z env db2) as [[[]|e] s] eqn:Hsave.
  2: { apply save_place_raises in Hsave as [_ He]. by intros [= ?]. }
  apply save_place_shape in Hsave. assert (same_shape db1 s) as Hs1 by (by etrans).
  destruct (Hl z) as [Hb Hz]; [left|]. specialize (IH (cat_id z) s Hs1 Hb Hz).
  destruct (refresh_descendant_paths fuel (cat_id z) env s) as [[[]|e] s'] eqn:Hrun; [|done].
  apply IHl; [intros w Hw; apply Hl; by right|]. apply refresh_shape in Hrun. by etrans.
Qed.
End Ends.

(** The refreshing of descendants ends: the check that the new parent is not
    below the category in the paths is enough to exclude every cycle, so the
    recursion never runs away. *)
Theorem moving_ends (env : SupportEnv) (db : SupportDB) (category : Z)
    (fields : list category_field) (Hok : tree_ok db) :
  (update_category category fields env db).1 <> Raise SupRecursionError.
Proof.
  unfold update_category. intros Hr. destruct (atomic _ env db) as [o s] eqn:Hat. simpl in Hr. subst o.
  apply atomic_raise_run in Hat as [_ [s' Hrun]].
  apply bind_raise_inv in Hrun as [?|(now & s1 & Hnow & Hrun)]; [done|]. comp_inv Hnow.
  apply bind_raise_inv in Hrun as [Hr|(x & s1 & Hx & Hrun)].
  { revert Hr. unfold base_get. by case_match. }
  comp_inv Hx. apply bind_raise_inv in Hrun as [Hr|(q & s1 & Hq & Hrun)].
  { revert Hr. unfold category_of, base_get. destruct (cat_parent _) as [p|]; [|done].
    rewrite bind_unfold. by destruct (rows_of (A := SupportCategory) _ !! p). }
  apply parent_row_category in Hq as [-> Hq].
  apply bind_raise_inv in Hrun as [Hr|([] & s1 & Hp & Hrun)].
  { revert Hr. unfold assert_valid_category_parent, raise_if. destruct q as [p|]; [|done].
    rewrite bind_unfold. destruct (negb _); [done|]. simpl. destruct (_ =? _); [done|]. simpl.
    by destruct (String.prefix _ _). }
  apply assert_parent_ok_inv in Hp as [-> Hp]. case_bool_decide; [done|].
  set (x' := foldl set_category_field x fields) in *.
  destruct (set_fields_kept fields x) as [Hid Hslug]. fold x' in Hid, Hslug.
  apply bind_raise_inv in Hrun as [Hr|([] & s1 & Hup & Hrun)].
  { revert Hr. unfold update_row. repeat case_match; done. }
  comp_inv Hup. simplify_eq.
  destruct (moved_placed db category x x' q (clock env)) as (Hself & Hpl & Hrows);
    [done|done|done|done|done|by intros p Heq; apply Hp|done|].
  assert (cat_id x = category) as Hx by (by apply (proj2 (tree_keys _ Hok))).
  apply (f_equal fst) in Hrun. revert Hrun. cbn [fst].
  match type of Hself with no_self_parent ?db1 =>
    apply (refresh_ends env db db1 category x Hok) end; try done.
  - intros i z Hne. rewrite rows_of_set_row, lookup_insert_ne; done.
  - apply Hpl.
  - intros z p. rewrite rows_of_set_row, lookup_insert_eq. intros [= <-] Hzp (y & Hy & Hpre).
    assert (cat_parent x' = Some p) as Hx' by (by destruct q).
    unfold parent_row in Hq. rewrite Hx', Hy in Hq. injection Hq as <-.
    destruct (Hp y eq_refl) as (_ & _ & Hno). congruence.
  - exists x. split; [done|]. rewrite <- (prefix_app (cat_path x) EmptyString).
    f_equal. clear. induction (cat_path x); [done|]. rewrite cons_app. congruence.
  - unfold old_depth, max_levels. rewrite Hrow, Z2Nat.id by done. cbn [from_option].
    pose proof (tree_depths _ Hok category x Hrow). lia.
Qed.

(** ** Examples *)

Lemma sample_categories i (x : SupportCategory) : rows_of sample_desk !! i = Some x ->
  (i = 1 /\ x = root_category) \/ (i = 2 /\ x = leaf_category).
Proof.
  change (rows_of sample_desk) with (<[1 := root_category]> (<[2 := leaf_category]> (∅ : gmap Z _))).
  intros [[<- <-]|[_ [[<- <-]|[_ Hi]]%lookup_insert_Some]]%lookup_insert_Some; [auto|auto|done].
Qed.

Lemma sample_tree : tree_ok sample_desk.
Proof.
  split.
  - by apply good_check.
  - intros i x [[-> ->]|[-> ->]]%sample_categories; [by exists None|by exists (Some root_category)].
  - by intros i x [[-> ->]|[-> ->]]%sample_categories.
  - by intros i x [[-> ->]|[-> ->]]%sample_categories.
Qed.

Lemma moving_keeps_the_tree_witness :
  tree_ok (update_category 2 [category_parent None; category_title "Cards"] desk_env sample_desk).2.
Proof. apply (moving_keeps_the_tree desk_env sample_desk 2 _ sample_tree). Defined.

Lemma moving_ends_witness :
  (update_category 1 [category_parent (Some 2)] desk_env sample_desk).1 <> Raise SupRecursionError.
Proof. apply (moving_ends desk_env sample_desk 1 _ sample_tree). Defined.

(** A category is not moved below itself. *)
Example below_itself_is_refused :
  update_category 1 [category_parent (Some 2)] desk_env sample_desk =
  (Raise (SupportTaxonomyTreeError parent_is_descendant), sample_desk).
Proof. reflexivity. Qed.

(** Giving a category to another department leaves its children in the old one. *)
Example children_stay_in_their_department :
  let db := after (update_category 1 [category_department 7]) desk_env sample_desk in
  cat_department <$> rows_of db !! 1 = Some 7 /\ cat_department <$> rows_of db !! 2 = Some 1 /\
  cat_parent <$> rows_of db !! 2 = Some (Some 1).
Proof. by vm_compute. Qed.
