(* ===== verification/SupportTriage.v ===== *)
(** Words, tags, duplicates and routing hints of the support desk
    ([src/apps/support_desk/services.py], 1573–1802, with [_normalize_text] of
    [src/apps/support_desk/models.py]). *)

From S2P Require Import Prelude Python Choices Orm Models NotificationModels World Apps Text.
From S2P Require Import SupportModels ServiceLevel SupportTaxonomy.
#[local] Open Scope Z_scope.

(** * Words *)

(** The Arabic letters that become Persian ones; the last is the zero-width
    non-joiner. *)
Definition replacements : list (Z * Z) :=
  [(1610, 1740); (1603, 1705); (1728, 1607); (1577, 1607); (1570, 1575); (1571, 1575);
   (1573, 1575); (8204, 32)].

Definition replace_all (l : codes) : codes :=
  foldl (fun l st => replace_code st.1 st.2 l) l replacements.

Definition normalized_words (lower_other : Z -> codes) (value : string) : list codes :=
  split_codes [] (replace_all (lower_codes lower_other (strip_codes (decode value)))).

(** [_normalize_text] *)
Definition normalize_text (lower_other : Z -> codes) (value : string) : string :=
  encode (join_codes (normalized_words lower_other value)).

Definition stopwords : list string :=
  ["از"; "به"; "در"; "و"; "یا"; "برای"; "با"; "که"; "این"; "آن"; "من"; "ما"; "مشکل"; "سوال";
   "تیکت"]%string.

(** [_tokenize] *)
Definition tokenize (lower_other : Z -> codes) (value : string) : gset codes :=
  list_to_set (List.filter (fun w => negb (bool_decide (w = [])) &&
                                     negb (bool_decide (w ∈ decode <$> stopwords)))
                 (split_codes [] (decode (normalize_text lower_other value)))).

(** [_similarity_score] *)
Definition similarity_score (lower_other : Z -> codes) (left right : string) (max_points : Z) : Z :=
  let left_tokens := tokenize lower_other left in
  let right_tokens := tokenize lower_other right in
  if bool_decide (left_tokens = ∅) || bool_decide (right_tokens = ∅) then 0
  else round_ratio (Z.of_nat (size (left_tokens ∩ right_tokens)))
                   (Z.of_nat (size (left_tokens ∪ right_tokens))) max_points.

(** * Counters *)

Definition messages_of (ticket : Z) (db : SupportDB) : gmap Z SupportTicketMessage :=
  objects_filter (fun m => msg_ticket m =? ticket) db.

Definition attachments_of (ticket : Z) (db : SupportDB) : gmap Z SupportTicketAttachment :=
  objects_filter (fun a => att_ticket a =? ticket) db.

Definition notes_of (ticket : Z) (db : SupportDB) : gmap Z SupportTicketMessage :=
  objects_filter (fun m => (msg_ticket m =? ticket) && msg_is_internal m &&
    bool_decide (msg_message_type m = TicketMessageType.INTERNAL_NOTE)) db.

Definition sync_ticket_counters (ticket : SupportTicket) : SM SupportTicket :=
  ms ← query (fun db => qs_count (messages_of (tk_id ticket) db));
  ats ← query (fun db => qs_count (attachments_of (tk_id ticket) db));
  ns ← query (fun db => qs_count (notes_of (tk_id ticket) db));
  save_ticket (ticket <| tk_message_count := ms |> <| tk_attachment_count := ats |>
                      <| tk_internal_note_count := ns |>)
    [c_message_count; c_attachment_count; c_internal_note_count].

Definition sync_category_counters (category : Z) : SM unit :=
  now ← timezone_now;
  all ← query (fun db => qs_count (all_filter (fun t => tk_category t =? category) db));
  open ← query (fun db => qs_count (open_queue (fun t => tk_category t =? category) db));
  update_row category (fun x : SupportCategory =>
    x <| cat_tickets_count := all |> <| cat_open_tickets_count := open |> <| cat_updated_at := now |>).

(** * Tags *)

(** [sorted(_tokenize(text))[:12]] *)
Definition first_words (lower_other : Z -> codes) (text : string) : list string :=
  encode <$> take 12 (ordered_by codes_leb (elements (tokenize lower_other text))).

Definition auto_tag_word (ticket : Z) (token : string) : SM unit :=
  env ← ask;
  i ← query (fun db => next_id (table_of (A := SupportTag) db));
  slug ← query (unique_slug tag_slug env token 160 None i);
  found ← get_or_create (A := SupportTag) (fun g => str_eqb (tag_name g) token)
    (fun i now => mkTag i token slug token 0 true now now);
  let tag : SupportTag := (found : SupportTag * bool).1 in
  _ ← get_or_create (A := SupportTicketTag)
    (fun x => (tt_ticket x =? ticket) && (tt_tag x =? tag_id tag))
    (fun i now => mkTicketTag i ticket (tag_id tag) TagSource.AUTO_TRIAGE true now now);
  now ← timezone_now;
  used ← query (fun db => qs_count (objects_filter (fun x => tt_tag x =? tag_id tag) db));
  update_row (tag_id tag) (fun x : SupportTag =>
    x <| tag_usage_count := used |> <| tag_updated_at := now |>).

(** [_auto_tag_ticket] *)
Definition auto_tag_ticket (ticket : SupportTicket) (text : string) : SM unit :=
  env ← ask;
  for_fold (fun _ token => auto_tag_word (tk_id ticket) token) tt
    (first_words (senv_lower env) text).

(** * Duplicates *)

(** [order_by("-created_at")[:50]] *)
Definition latest_fifty (qs : gmap Z SupportTicket) : list SupportTicket :=
  take 50 (ordered_by (fun x y => tk_created_at y <=? tk_created_at x) (qs_list qs)).

Definition not_discarded (t : SupportTicket) : bool :=
  negb (bool_decide (tk_status t ∈ [TicketStatus.ARCHIVED; TicketStatus.SPAM])).

Definition ticket_text (t : SupportTicket) : string :=
  (tk_subject t +:+ " " +:+ tk_description_snapshot t)%string.

Definition duplicate_reason : string :=
  "شباهت بالای عنوان/توضیحات و یکسان بودن مالک، دسته و نوع تیکت".

(** [SupportDuplicateCandidate.objects.update_or_create] *)
Definition update_or_create_duplicate (ticket candidate score : Z) : SM unit :=
  now ← timezone_now;
  found ← query (fun db => qs_first (objects_filter (fun d =>
            (dup_ticket d =? ticket) && (dup_candidate_ticket d =? candidate)) db));
  match found with
  | Some d => update_row (dup_id d) (fun x : SupportDuplicateCandidate =>
      x <| dup_score := score |> <| dup_reason := duplicate_reason |> <| dup_updated_at := now |>)
  | None =>
      _ ← create (fun i now => mkDuplicate i ticket candidate score duplicate_reason
                                 DuplicateReviewStatus.ACTIVE None None true now now);
      mret tt
  end.

Definition duplicate_threshold : Z := 68.

Definition detect_duplicate_candidates (ticket : SupportTicket) : SM (list (SupportTicket * Z)) :=
  env ← ask;
  candidates ← query (fun db => latest_fifty (all_filter (fun t =>
    (tk_owner t =? tk_owner ticket) && (tk_category t =? tk_category ticket) &&
    (tk_ticket_type t =? tk_ticket_type ticket) && negb (tk_id t =? tk_id ticket) &&
    not_discarded t) db));
  for_fold (fun found candidate =>
    let score := similarity_score (senv_lower env) (ticket_text ticket) (ticket_text candidate) 100 in
    if score <? duplicate_threshold then mret found
    else _ ← update_or_create_duplicate (tk_id ticket) (tk_id candidate) score;
         mret (found ++ [(candidate, score)]))
    [] candidates.

Definition review_duplicate_candidate (is_admin : bool) (admin duplicate : Z) (status : string)
    (reason : string) : SM unit :=
  atomic
    (_ ← raise_if (negb is_admin) SupportPermissionError;
     match of_value (A := DuplicateReviewStatus.t) status with
     | None => raise SupportTicketStateError
     | Some st =>
         now ← timezone_now;
         update_row duplicate (fun d : SupportDuplicateCandidate =>
           d <| dup_status := st |> <| dup_reason := str_or reason (dup_reason d) |>
             <| dup_reviewed_by := Some admin |> <| dup_reviewed_at := Some now |>
             <| dup_updated_at := now |>)
     end).

(** * Routing hints *)

Definition keyword_map : list (string * list string) :=
  [ ("payment", ["پرداخت"; "رسید"; "مبلغ"; "تراکنش"; "مالی"]);
    ("technical_issue", ["خطا"; "کندی"; "آپلود"; "نمایش"; "فنی"; "api"]);
    ("account", ["ورود"; "رمز"; "otp"; "موبایل"; "پروفایل"; "احراز"]);
    ("security", ["امنیت"; "هک"; "آسیب"; "حریم"; "جعل"]);
    ("suggestion", ["پیشنهاد"; "ایده"; "بهبود"]) ]%string.

Definition type_with_code (code : string) (db : SupportDB) : option SupportTicketType :=
  qs_first (objects_filter (fun t => str_eqb (typ_code t) code) db).

Fixpoint type_by_keywords (tokens : gset codes) (m : list (string * list string)) (db : SupportDB) :
    option SupportTicketType :=
  match m with
  | [] => type_with_code "question" db
  | (code, keywords) :: m' =>
      if existsb (fun w => bool_decide (decode w ∈ tokens)) keywords then
        match type_with_code code db with
        | Some t => Some t
        | None => type_by_keywords tokens m' db
        end
      else type_by_keywords tokens m' db
  end.

(** [_suggest_ticket_type]: the words are those of the tokens joined with spaces. *)
Definition suggest_ticket_type (env : SupportEnv) (text : string) (db : SupportDB) :
    option SupportTicketType :=
  type_by_keywords (tokenize (senv_lower env) text) keyword_map db.

(** The default manager's order of categories. *)
Definition category_order (env : SupportEnv) (x y : SupportCategory) : bool :=
  (cat_depth x <? cat_depth y) ||
  ((cat_depth x =? cat_depth y) && order_title cat_order cat_title env x y).

Definition better_category (lower_other : Z -> codes) (text : string)
    (best : option SupportCategory * Z) (x : SupportCategory) : option SupportCategory * Z :=
  let score := similarity_score lower_other text
                 (cat_title x +:+ " " +:+ cat_description x)%string 100 in
  if best.2 <? score then (Some x, score) else best.

(** [_suggest_category] *)
Definition suggest_category (env : SupportEnv) (text : string)
    (ticket_type : option SupportTicketType) (db : SupportDB) : option SupportCategory :=
  let default_category := c ← ticket_type ≫= typ_default_category; rows_of db !! c in
  (foldl (better_category (senv_lower env) text) (default_category, 0)
     (ordered_by (category_order env) (qs_list (objects_filter (fun _ => true) db)))).1.

(** [_find_similar_tickets] *)
Definition find_similar_tickets (env : SupportEnv) (owner : Z) (text : string)
    (category : option SupportCategory) (ticket_type : option SupportTicketType)
    (db : SupportDB) : list SupportTicket :=
  take 5 (List.filter (fun t =>
    let bonus := (if bool_decide (cat_id <$> category = Some (tk_category t)) then 10 else 0) +
                 (if bool_decide (typ_id <$> ticket_type = Some (tk_ticket_type t)) then 10 else 0) in
    60 <=? similarity_score (senv_lower env) text (ticket_text t) 100 + bonus)
    (latest_fifty (all_filter (fun t => (tk_owner t =? owner) && not_discarded t) db))).

Record SupportTriageSuggestion : Type := mkTriage {
  tri_department : option Z;
  tri_category : option SupportCategory;
  tri_ticket_type : option SupportTicketType;
  tri_priority : TicketPriority.t;
  tri_severity : TicketSeverity.t;
  tri_sla_policy : option SupportSLAPolicy;
  tri_duplicate_warning : bool;
  tri_similar_ticket_ids : list Z;
  tri_reason_codes : list string;
  tri_score : Z;
}.

Definition suggest_ticket_triage (owner : Z) (subject description : string)
    (category : option SupportCategory) (ticket_type : option SupportTicketType) :
    SM SupportTriageSuggestion :=
  let text := (subject +:+ " " +:+ description)%string in
  env ← ask;
  typed ← query (fun db => match ticket_type with
    | Some t => (Some t, [])
    | None => match suggest_ticket_type env text db with
              | Some t => (Some t, ["ticket_type_keyword_match"%string])
              | None => (None, [])
              end
    end);
  let ticket_type : option SupportTicketType :=
    (typed : option SupportTicketType * list string).1 in
  placed ← query (fun db => match category with
    | Some c => (Some c, [])
    | None => match suggest_category env text ticket_type db with
              | Some c => (Some c, ["category_keyword_match"%string])
              | None => (None, [])
              end
    end);
  let category : option SupportCategory := (placed : option SupportCategory * list string).1 in
  let department : option Z := match category with
    | Some c => Some (cat_department c)
    | None => ticket_type ≫= typ_default_department
    end in
  let ranked := (from_option typ_default_priority TicketPriority.NORMAL ticket_type,
                 from_option typ_default_severity TicketSeverity.MINOR ticket_type, []) in
  let ranked := if contains "پرداخت" text || contains "مالی" text
    then (TicketPriority.HIGH, TicketSeverity.MAJOR, ranked.2 ++ ["payment_keyword_priority_boost"%string])
    else ranked in
  let ranked := if contains "امنیت" text || contains "هک" text || contains "آسیب" text
    then (TicketPriority.URGENT, TicketSeverity.CRITICAL,
          ranked.2 ++ ["security_keyword_priority_boost"%string])
    else ranked in
  policy ← resolve_sla_policy department ticket_type ranked.1.1 ranked.1.2;
  similar ← query (find_similar_tickets env owner text category ticket_type);
  let reasons := typed.2 ++ placed.2 ++ ranked.2 in
  mret (mkTriage department category ticket_type ranked.1.1 ranked.1.2 policy
    (negb (bool_decide (similar = []))) (tk_id <$> similar) reasons
    (Z.min 100 (20 * Z.of_nat (length reasons) +
                if bool_decide (similar = []) then 0 else 30))).
