(* ===== verification/SupportTickets.v ===== *)
(** Tickets of the support desk: creation, the conversation, the workflow with
    its service-level clock, assignment and breaches
    ([src/apps/support_desk/services.py], 958–1571 and 1805–1859,
    [src/apps/support_desk/tasks.py], and [SupportTicket] in
    [src/apps/support_desk/models.py]).

    A service gets the ticket as an object in memory, that was read before; what
    it saves are the columns it lists ([save_ticket]), so two services that run
    at the same time may each hold an old copy of the other's columns. *)

From S2P Require Import Prelude Python Choices Orm Models NotificationModels World Apps Text.
From S2P Require Import Notifications SupportModels ServiceLevel SupportTaxonomy SupportTriage.
#[local] Open Scope Z_scope.

(** * Users *)

(** The user of a request; [None] is [AnonymousUser]. *)
Abbreviation actor := (option SupportUser).

Definition has_role (u : SupportUser) : bool :=
  su_is_staff u || su_is_superuser u || str_eqb (su_role u) "admin".

(** [_is_admin] *)
Definition is_admin (user : actor) : bool := from_option has_role false user.

(** [ticket.owner_id == user.pk] *)
Definition is_owner (ticket : SupportTicket) (user : actor) : bool :=
  bool_decide (su_id <$> user = Some (tk_owner ticket)).

(** * Statuses *)

Definition USER_REPLY_ALLOWED_STATUSES : list TicketStatus.t :=
  [TicketStatus.SUBMITTED; TicketStatus.OPEN; TicketStatus.IN_PROGRESS;
   TicketStatus.WAITING_FOR_USER; TicketStatus.REOPENED; TicketStatus.ESCALATED].

Definition ADMIN_REPLY_ALLOWED_STATUSES : list TicketStatus.t :=
  [TicketStatus.SUBMITTED; TicketStatus.OPEN; TicketStatus.IN_PROGRESS;
   TicketStatus.WAITING_FOR_ADMIN; TicketStatus.REOPENED; TicketStatus.ESCALATED].

Definition TERMINAL_STATUSES : list TicketStatus.t :=
  [TicketStatus.CLOSED; TicketStatus.ARCHIVED; TicketStatus.SPAM].

Definition CLOSABLE_STATUSES : list TicketStatus.t :=
  [TicketStatus.RESOLVED; TicketStatus.WAITING_FOR_USER; TicketStatus.OPEN;
   TicketStatus.IN_PROGRESS; TicketStatus.REOPENED; TicketStatus.ESCALATED].

Definition REOPENABLE_STATUSES : list TicketStatus.t := [TicketStatus.RESOLVED; TicketStatus.CLOSED].

Definition status_in (t : SupportTicket) (l : list TicketStatus.t) : bool :=
  bool_decide (tk_status t ∈ l).

(** [is_reopenable]: for seven days after the ticket was closed, or, where it
    never was, resolved. *)
Definition reopen_window : Z := 7 * usec_per_day.

Definition is_reopenable (ticket : SupportTicket) (now : Z) : bool :=
  status_in ticket REOPENABLE_STATUSES &&
  match (match tk_closed_at ticket with Some t => Some t | None => tk_resolved_at ticket end) with
  | Some reference => now <? reference + reopen_window
  | None => false
  end.

(** * Ticket numbers *)

(** Year and month of a date. *)
Definition year_month (day : Z) : Z * Z := (civil_from_days day).1.

Definition number_prefix (now : Z) : string :=
  let '(y, m) := year_month (day_of now) in
  ("SUP-" +:+ zero_pad 4 y +:+ zero_pad 2 m)%string.

Definition number_candidate (env : SupportEnv) (prefix : string) (sequence attempt : Z) : string :=
  (prefix +:+ "-" +:+ zero_pad 4 sequence +:+ "-" +:+ hex_upper (senv_token_hex env attempt))%string.

Fixpoint try_numbers (env : SupportEnv) (taken : string -> bool) (prefix : string)
    (sequence attempt : Z) (attempts : nat) : option string :=
  match attempts with
  | O => None
  | S attempts' =>
      let candidate := number_candidate env prefix sequence attempt in
      if taken candidate then try_numbers env taken prefix (sequence + 1) (attempt + 1) attempts'
      else Some candidate
  end.

Definition number_taken (db : SupportDB) (s : string) : bool :=
  qs_exists (all_filter (fun t => str_eqb (tk_ticket_number t) s) db).

(** [_build_ticket_number]: the month is that of the time in UTC, while the rows
    of a month are counted in the site's time zone. *)
Definition build_ticket_number (env : SupportEnv) (key : Z) (db : SupportDB) : string :=
  let now := clock env in
  let month t := year_month (env_localdate (senv_site env) t) in
  let sequence := qs_count (all_filter (fun t =>
    bool_decide (month (tk_created_at t) = year_month (day_of now))) db) + 1 in
  match try_numbers env (number_taken db) (number_prefix now) sequence 0 20 with
  | Some s => s
  | None => (number_prefix now +:+ "-" +:+ hex_upper (py_prefix 8 (senv_uuid4_hex env key)))%string
  end.

(** The search document of [SupportTicket.save]. *)
Definition search_document_of (ticket : SupportTicket) : SM string :=
  d ← base_get (A := SupportDepartment) (tk_department ticket);
  c ← base_get (A := SupportCategory) (tk_category ticket);
  t ← base_get (A := SupportTicketType) (tk_ticket_type ticket);
  mret (strip (tk_ticket_number ticket +:+ " " +:+ tk_subject ticket +:+ " " +:+
               tk_description_snapshot ticket +:+ " " +:+ dep_title d +:+ " " +:+
               cat_title c +:+ " " +:+ typ_title t)%string).

(** [ticket.save()]: every column of the row becomes that of the object; without
    a row the object is inserted. *)
Definition save_whole_ticket (ticket : SupportTicket) : SM SupportTicket :=
  now ← timezone_now;
  doc ← search_document_of ticket;
  let t := ticket <| tk_search_document := doc |> <| tk_updated_at := now |> in
  db ← get_state;
  if row_ok (delete (tk_id t) (rows_of db)) t
  then _ ← modify (set_row (tk_id t) t); mret t
  else raise SupIntegrityError.

(** * Creation *)

Definition add_message (ticket author : Z) (message_type : TicketMessageType.t) (body : string)
    (is_internal is_from_staff : bool) (metadata : list (string * json)) :
    SM SupportTicketMessage :=
  create (fun i now => mkMessage i ticket author message_type body is_internal is_from_staff
                         None None (JObj metadata) true now now).

Definition add_status_history (ticket : Z) (changed_by : option Z) (from : option TicketStatus.t)
    (to : TicketStatus.t) (reason : string) : SM SupportTicketStatusHistory :=
  create (fun i now => mkStatusHistory i ticket changed_by from to reason true now now).

Definition add_assignment (ticket assigned_by : Z) (from to department : option Z)
    (reason : string) : SM SupportTicketAssignment :=
  create (fun i now => mkAssignment i ticket assigned_by from to department reason true now now).

(** [a or b] for keys *)
Definition opt_or (a b : option Z) : option Z := match a with Some _ => a | None => b end.

Definition create_ticket (owner : actor) (ticket_type : SupportTicketType)
    (subject description : string) (department category : option Z)
    (priority : option TicketPriority.t) (severity : option TicketSeverity.t) : SM SupportTicket :=
  atomic
    (match owner with
     | None => raise SupportPermissionError
     | Some user =>
       match opt_or department (typ_default_department ticket_type),
             opt_or category (typ_default_category ticket_type) with
       | Some d, Some c =>
         department ← base_get (A := SupportDepartment) d;
         category ← base_get (A := SupportCategory) c;
         _ ← raise_if (negb (cat_department category =? dep_id department))
               (SupportDeskServiceError category_of_other_department);
         let priority := default (typ_default_priority ticket_type) priority in
         let severity := default (typ_default_severity ticket_type) severity in
         env ← ask;
         now ← timezone_now;
         i ← query (fun db => next_id (table_of (A := SupportTicket) db));
         number ← query (build_ticket_number env i);
         let draft k := mkTicket k (senv_uuid4 env i) number (su_id user) d c (typ_id ticket_type)
           (strip subject) (strip description) TicketStatus.DRAFT priority severity
           TicketChannel.WEB (dep_default_assignee department) None None None None now None None
           None None None EmptyString None None None None None 0 0 0 0 0 None EmptyString
           true now now in
         doc ← search_document_of (draft i);
         ticket ← create (fun k _ => (draft k) <| tk_search_document := doc |>);
         message ← add_message (tk_id ticket) (su_id user) TicketMessageType.USER_MESSAGE
                     (strip description) false false [];
         ticket ← sync_ticket_counters ticket;
         _ ← sync_category_counters c;
         _ ← add_status_history (tk_id ticket) (Some (su_id user)) None TicketStatus.DRAFT
               "ساخت پیش‌نویس تیکت";
         _ ← match tk_assigned_to ticket with
             | Some a => _ ← add_assignment (tk_id ticket) (su_id user) None (Some a) (Some d)
                               "ارجاع خودکار بر اساس دپارتمان";
                         mret tt
             | None => mret tt
             end;
         _ ← auto_tag_ticket ticket (tk_subject ticket +:+ " " +:+ msg_body message)%string;
         _ ← detect_duplicate_candidates ticket;
         mret ticket
       | _, _ => raise (SupportDeskServiceError no_department_or_category)
       end
     end).

Definition update_draft_ticket (ticket : SupportTicket) (user : actor)
    (ticket_type : option SupportTicketType) (department category : option Z)
    (subject description : option string) : SM SupportTicket :=
  atomic
    (_ ← raise_if (negb (is_owner ticket user)) SupportPermissionError;
     _ ← raise_if (negb (bool_decide (tk_status ticket = TicketStatus.DRAFT))) SupportTicketStateError;
     let ticket := match ticket_type with
       | Some ty => ticket
           <| tk_ticket_type := typ_id ty |>
           <| tk_department := default (tk_department ticket)
                                 (opt_or department (typ_default_department ty)) |>
           <| tk_category := default (tk_category ticket)
                               (opt_or category (typ_default_category ty)) |>
           <| tk_priority := typ_default_priority ty |>
           <| tk_severity := typ_default_severity ty |>
       | None => ticket
       end in
     let ticket := ticket <| tk_department := default (tk_department ticket) department |>
                          <| tk_category := default (tk_category ticket) category |> in
     c ← base_get (A := SupportCategory) (tk_category ticket);
     _ ← raise_if (negb (cat_department c =? tk_department ticket))
           (SupportDeskServiceError category_of_other_department);
     now ← timezone_now;
     let ticket := ticket
       <| tk_subject := from_option strip (tk_subject ticket) subject |>
       <| tk_description_snapshot := from_option strip (tk_description_snapshot ticket) description |>
       <| tk_last_activity_at := now |> in
     ticket ← save_whole_ticket ticket;
     _ ← auto_tag_ticket ticket (ticket_text ticket);
     _ ← detect_duplicate_candidates ticket;
     _ ← sync_category_counters (tk_category ticket);
     mret ticket).

(** * The workflow *)

Definition status_message (from to : TicketStatus.t) : string :=
  ("وضعیت تیکت از " +:+ value from +:+ " به " +:+ value to +:+ " تغییر کرد.")%string.

(** [_change_status] *)
Definition change_status (ticket : SupportTicket) (user : actor) (to_status : TicketStatus.t)
    (reason : string) (now : Z) : SM SupportTicket :=
  let from_status := tk_status ticket in
  if bool_decide (from_status = to_status) then mret ticket
  else
    let ticket := ticket <| tk_status := to_status |> in
    let '(ticket, cols) :=
      match to_status with
      | TicketStatus.RESOLVED => (ticket <| tk_resolved_at := Some now |>, [c_resolved_at])
      | TicketStatus.CLOSED => (ticket <| tk_closed_at := Some now |>, [c_closed_at])
      | TicketStatus.REOPENED =>
          (ticket <| tk_reopened_at := Some now |> <| tk_reopen_count := tk_reopen_count ticket + 1 |>,
           [c_reopened_at; c_reopen_count])
      | _ => (ticket, [])
      end in
    ticket ← save_ticket (ticket <| tk_last_activity_at := now |>)
               (c_status :: cols ++ [c_last_activity_at]);
    _ ← add_status_history (tk_id ticket) (su_id <$> user) (Some from_status) to_status reason;
    match user with
    | None => mret ticket
    | Some u =>
        _ ← add_message (tk_id ticket) (su_id u) TicketMessageType.STATUS_CHANGE
              (str_or reason (status_message from_status to_status)) true
              (su_is_staff u || su_is_superuser u)
              [("from_status"%string, JStr (value from_status));
               ("to_status"%string, JStr (value to_status))];
        sync_ticket_counters ticket
    end.

Definition submit_ticket (ticket : SupportTicket) (user : actor) (at_time : option Z) :
    SM SupportTicket :=
  atomic
    (_ ← raise_if (negb (is_owner ticket user)) SupportPermissionError;
     _ ← raise_if (negb (bool_decide (tk_status ticket = TicketStatus.DRAFT))) SupportTicketStateError;
     current ← timezone_now;
     let now := default current at_time in
     ticket ← change_status ticket user TicketStatus.SUBMITTED "ارسال تیکت برای بررسی" now;
     ticket ← save_ticket
       (ticket <| tk_submitted_at := Some now |>
               <| tk_last_user_message_at := Some (default now (tk_last_user_message_at ticket)) |>
               <| tk_last_activity_at := now |>)
       [c_submitted_at; c_last_user_message_at; c_last_activity_at];
     ty ← base_get (A := SupportTicketType) (tk_ticket_type ticket);
     policy ← resolve_sla_policy (Some (tk_department ticket)) (Some ty) (tk_priority ticket)
                (tk_severity ticket);
     apply_sla ticket policy now).

Definition add_user_reply (ticket : SupportTicket) (user : actor) (body : string)
    (at_time : option Z) : SM SupportTicketMessage :=
  atomic
    (_ ← raise_if (negb (is_owner ticket user)) SupportPermissionError;
     _ ← raise_if (negb (status_in ticket USER_REPLY_ALLOWED_STATUSES)) SupportTicketStateError;
     current ← timezone_now;
     let now := default current at_time in
     ticket ← resume_sla_if_needed ticket now;
     message ← add_message (tk_id ticket) (tk_owner ticket) TicketMessageType.USER_MESSAGE
                 (strip body) false false [];
     ticket ← save_ticket (ticket <| tk_last_user_message_at := Some now |>
                                  <| tk_last_activity_at := now |>)
                [c_last_user_message_at; c_last_activity_at];
     ticket ← change_status ticket user TicketStatus.WAITING_FOR_ADMIN "پاسخ جدید کاربر" now;
     ticket ← sync_ticket_counters ticket;
     _ ← auto_tag_ticket ticket body;
     mret message).

(** [notify_support_reply] and [notify_support_resolved] *)
Definition notify_support_reply (ticket : SupportTicket) (message : SupportTicketMessage) :
    M NotificationEvent :=
  emit_domain_notification "support.reply" (tk_owner ticket)
    [("title"%string, JStr "پاسخ جدید پشتیبانی"); ("message"%string, JStr (msg_body message));
     ("ticket_number"%string, JStr (tk_ticket_number ticket));
     ("subject"%string, JStr (tk_subject ticket))]
    (Some (msg_author message)) "support_ticket" (tk_ticket_number ticket) []
    NotificationPriority.NORMAL.

Definition notify_support_resolved (ticket : SupportTicket) (user : actor) : M NotificationEvent :=
  emit_domain_notification "support.resolved" (tk_owner ticket)
    [("title"%string, JStr "تیکت شما حل شد");
     ("ticket_number"%string, JStr (tk_ticket_number ticket));
     ("subject"%string, JStr (tk_subject ticket))]
    (su_id <$> user) "support_ticket" (tk_ticket_number ticket) [] NotificationPriority.NORMAL.

Definition add_admin_reply (ticket : SupportTicket) (admin : actor) (body : string)
    (at_time : option Z) : SM SupportTicketMessage :=
  atomic
    (match admin with
     | Some u =>
       _ ← raise_if (negb (has_role u)) SupportPermissionError;
       _ ← raise_if (negb (status_in ticket ADMIN_REPLY_ALLOWED_STATUSES)) SupportTicketStateError;
       current ← timezone_now;
       let now := default current at_time in
       message ← add_message (tk_id ticket) (su_id u) TicketMessageType.ADMIN_REPLY (strip body)
                   false true [];
       ticket ← save_ticket
         (ticket <| tk_first_admin_response_at :=
                      Some (default now (tk_first_admin_response_at ticket)) |>
                 <| tk_last_admin_message_at := Some now |> <| tk_last_activity_at := now |>)
         [c_first_admin_response_at; c_last_admin_message_at; c_last_activity_at];
       ticket ← change_status ticket admin TicketStatus.WAITING_FOR_USER "پاسخ ادمین ارسال شد" now;
       ticket ← pause_sla_if_needed ticket now;
       ticket ← sync_ticket_counters ticket;
       _ ← on_site (notify_support_reply ticket message);
       mret message
     | None => raise SupportPermissionError
     end).

Definition add_internal_note (ticket : SupportTicket) (admin : actor) (body : string) :
    SM SupportTicketMessage :=
  atomic
    (match admin with
     | Some u =>
       _ ← raise_if (negb (has_role u)) SupportPermissionError;
       message ← add_message (tk_id ticket) (su_id u) TicketMessageType.INTERNAL_NOTE (strip body)
                   true true [];
       _ ← sync_ticket_counters ticket;
       mret message
     | None => raise SupportPermissionError
     end).

Definition add_attachment (ticket : SupportTicket) (user : actor) (file : string) (file_size : Z)
    (original_filename content_type : string) (kind : AttachmentKind.t)
    (visibility : AttachmentVisibility.t) (message : option Z) : SM SupportTicketAttachment :=
  atomic
    (_ ← raise_if (negb (is_owner ticket user) && negb (is_admin user)) SupportPermissionError;
     _ ← raise_if (bool_decide (visibility = AttachmentVisibility.INTERNAL_ONLY) &&
                   negb (is_admin user)) SupportPermissionError;
     _ ← raise_if (status_in ticket TERMINAL_STATUSES && negb (is_admin user)) SupportTicketStateError;
     attachment ← create (fun i now =>
       mkAttachment i (tk_id ticket) message (from_option su_id 0 user) file
         (prefix_chars 260 original_filename) (prefix_chars 120 content_type) file_size kind
         visibility true now now);
     _ ← sync_ticket_counters ticket;
     mret attachment).

(** * Assignment *)

Definition assign_ticket (ticket : SupportTicket) (admin : actor) (assignee department : option Z)
    (reason : string) : SM SupportTicket :=
  atomic
    (match admin with
     | Some u =>
       _ ← raise_if (negb (has_role u)) SupportPermissionError;
       let previous := tk_assigned_to ticket in
       now ← timezone_now;
       ticket ← save_ticket
         (ticket <| tk_department := default (tk_department ticket) department |>
                 <| tk_assigned_to := assignee |> <| tk_last_activity_at := now |>)
         [c_department; c_assigned_to; c_last_activity_at];
       _ ← add_assignment (tk_id ticket) (su_id u) previous assignee (Some (tk_department ticket)) reason;
       _ ← add_message (tk_id ticket) (su_id u) TicketMessageType.ASSIGNMENT_CHANGE
             (str_or reason "مسئول تیکت تغییر کرد.") true true
             [("from_assignee_id"%string, json_opt_int previous);
              ("assigned_to_id"%string, json_opt_int assignee);
              ("department_id"%string, JInt (tk_department ticket))];
       sync_ticket_counters ticket
     | None => raise SupportPermissionError
     end).

(** [_support_admin_candidates], in the order of the keys *)
Definition support_admin_candidates (department : SupportDepartment) (db : SupportDB) :
    list SupportUser :=
  ordered_by (fun x y => su_id x <=? su_id y)
    ((map_to_list (filter (fun kx => su_is_active kx.2 &&
        (has_role kx.2 || bool_decide (dep_default_assignee department = Some (su_id kx.2))) = true)
      (support_users db))).*2).

Record SupportAssignmentCandidate : Type := mkCandidate {
  cand_user : SupportUser;
  cand_workload_score : Z;
  cand_open_tickets : Z;
  cand_urgent_or_critical_tickets : Z;
  cand_breached_sla_tickets : Z;
  cand_waiting_admin_tickets : Z;
  cand_department_open_tickets : Z;
  cand_reason_codes : list string;
}.

Definition is_pressing (t : SupportTicket) : bool :=
  bool_decide (tk_priority t ∈ [TicketPriority.URGENT; TicketPriority.HIGH]) ||
  bool_decide (tk_severity t ∈ [TicketSeverity.CRITICAL; TicketSeverity.BLOCKER]).

Definition build_assignment_candidate (user : SupportUser) (ticket : SupportTicket)
    (department : SupportDepartment) (db : SupportDB) : SupportAssignmentCandidate :=
  let count P := qs_count (open_queue (fun t =>
    bool_decide (tk_assigned_to t = Some (su_id user)) && P t) db) in
  let department_open := count (fun t => tk_department t =? dep_id department) in
  let urgent_or_critical := count is_pressing in
  let breached := count (fun t => bool_decide (is_Some (tk_sla_breached_at t))) in
  let waiting_admin := count (fun t => bool_decide (tk_status t = TicketStatus.WAITING_FOR_ADMIN)) in
  let open_count := count (fun _ => true) in
  let score := open_count * 10 + urgent_or_critical * 8 + breached * 12 + waiting_admin * 5 +
               department_open * 2 in
  let is_default := bool_decide (dep_default_assignee department = Some (su_id user)) in
  let breaching := bool_decide (is_Some (tk_sla_breached_at ticket)) in
  mkCandidate user
    (Z.max (score - (if is_default then 4 else 0) + (if breaching then breached * 5 else 0)) 0)
    open_count urgent_or_critical breached waiting_admin department_open
    ((if is_default then ["department_default_assignee_bonus"%string] else []) ++
     (if breaching then ["sla_breach_load_weight"%string] else []) ++
     (if open_count =? 0 then ["no_open_tickets"%string] else [])).

(** [(item.workload_score, item.open_tickets, item.user.pk)] *)
Definition less_loaded (x y : SupportAssignmentCandidate) : bool :=
  (cand_workload_score x <? cand_workload_score y) ||
  ((cand_workload_score x =? cand_workload_score y) &&
   ((cand_open_tickets x <? cand_open_tickets y) ||
    ((cand_open_tickets x =? cand_open_tickets y) &&
     (su_id (cand_user x) <=? su_id (cand_user y))))).

Record SupportAssignmentRecommendation : Type := mkRecommendation {
  rec_recommended_assignee : option SupportUser;
  rec_candidates : list SupportAssignmentCandidate;
  rec_reason_codes : list string;
}.

Definition get_support_assignment_recommendation (ticket : SupportTicket)
    (department : option Z) (candidate_limit : Z) : SM SupportAssignmentRecommendation :=
  target ← base_get (A := SupportDepartment) (default (tk_department ticket) department);
  candidates ← query (fun db => ordered_by less_loaded
    ((fun u => build_assignment_candidate u ticket target db) <$> support_admin_candidates target db));
  mret (mkRecommendation (cand_user <$> head (candidates : list SupportAssignmentCandidate))
    (take (Z.to_nat (Z.max 1 (Z.min candidate_limit 20))) candidates)
    (["least_loaded_score"%string] ++
     (if bool_decide (is_Some (dep_default_assignee target))
      then ["department_default_assignee_considered"%string] else []) ++
     (if bool_decide (is_Some (tk_sla_breached_at ticket))
      then ["ticket_sla_breached_priority"%string] else []) ++
     (if is_pressing ticket then ["high_priority_ticket_weighted"%string] else []))).

Definition auto_assign_ticket (ticket : SupportTicket) (admin : actor) (department : option Z)
    (reason : string) : SM SupportTicket :=
  atomic
    (recommendation ← get_support_assignment_recommendation ticket department 5;
     match rec_recommended_assignee recommendation with
     | None => raise (SupportDeskServiceError no_support_agent)
     | Some u => assign_ticket ticket admin (Some (su_id u)) department
                   (str_or reason "ارجاع خودکار بر اساس کمترین بار کاری و وضعیت SLA")
     end).

(** * Decisions *)

Definition change_ticket_status (ticket : SupportTicket) (admin : actor) (status : string)
    (reason : string) : SM SupportTicket :=
  atomic
    (_ ← raise_if (negb (is_admin admin)) SupportPermissionError;
     match of_value (A := TicketStatus.t) status with
     | None => raise SupportTicketStateError
     | Some st => now ← timezone_now; change_status ticket admin st reason now
     end).

Definition resolve_ticket (ticket : SupportTicket) (admin : actor) (reason : string) :
    SM SupportTicket :=
  atomic
    (_ ← raise_if (status_in ticket TERMINAL_STATUSES) SupportTicketStateError;
     ticket ← change_ticket_status ticket admin (value TicketStatus.RESOLVED)
                (str_or reason "تیکت حل شد.");
     _ ← on_site (notify_support_resolved ticket admin);
     mret ticket).

Definition close_ticket (ticket : SupportTicket) (user : actor) (reason : string) :
    SM SupportTicket :=
  atomic
    (_ ← raise_if (negb (is_owner ticket user) && negb (is_admin user)) SupportPermissionError;
     _ ← raise_if (negb (status_in ticket CLOSABLE_STATUSES)) SupportTicketStateError;
     now ← timezone_now;
     change_status ticket user TicketStatus.CLOSED (str_or reason "تیکت بسته شد.") now).

Definition reopen_ticket (ticket : SupportTicket) (user : actor) (reason : string) :
    SM SupportTicket :=
  atomic
    (_ ← raise_if (negb (is_owner ticket user)) SupportPermissionError;
     now ← timezone_now;
     _ ← raise_if (negb (is_reopenable ticket now)) SupportTicketStateError;
     ticket ← resume_sla_if_needed ticket now;
     change_status ticket user TicketStatus.REOPENED
       (str_or reason "تیکت توسط کاربر بازگشایی شد.") now).

Definition escalate_ticket (ticket : SupportTicket) (admin : actor) (reason : string) :
    SM SupportTicket :=
  atomic
    (_ ← raise_if (negb (is_admin admin)) SupportPermissionError;
     now ← timezone_now;
     ticket ← save_ticket
       (ticket <| tk_escalated_at := Some now |> <| tk_escalated_by := su_id <$> admin |>
               <| tk_escalation_reason := reason |>)
       [c_escalated_at; c_escalated_by; c_escalation_reason];
     _ ← record_sla_event (tk_id ticket) SLAEventType.ESCALATED None
           [("reason"%string, JStr reason)];
     change_status ticket admin TicketStatus.ESCALATED reason now).

Definition submit_satisfaction (ticket : SupportTicket) (user : actor) (rating : Z)
    (comment : string) : SM SupportTicketSatisfaction :=
  atomic
    (_ ← raise_if (negb (is_owner ticket user)) SupportPermissionError;
     _ ← raise_if (negb (status_in ticket REOPENABLE_STATUSES)) SupportTicketStateError;
     _ ← raise_if ((rating <? 1) || (5 <? rating)) (SupportDeskServiceError rating_out_of_range);
     satisfaction ← create (fun i now =>
       mkSatisfaction i (tk_id ticket) (tk_owner ticket) rating (strip comment) true now now);
     _ ← save_ticket (ticket <| tk_satisfaction_rating_snapshot := Some rating |>)
           [c_satisfaction_rating_snapshot];
     mret satisfaction).

(** * Breaches *)

Definition due_by (due : option Z) (now : Z) : bool :=
  match due with Some d => d <=? now | None => false end.

(** [models_Q_first_response_due] and [models_Q_resolution_due] *)
Definition first_response_due (t : SupportTicket) (now : Z) : bool :=
  bool_decide (tk_first_admin_response_at t = None) && due_by (tk_first_response_due_at t) now.

Definition resolution_due (t : SupportTicket) (now : Z) : bool := due_by (tk_resolution_due_at t) now.

Definition newly_breached (now : Z) (db : SupportDB) : gmap Z SupportTicket :=
  open_queue (fun t => bool_decide (tk_sla_breached_at t = None) &&
    (first_response_due t now || resolution_due t now)) db.

(** One round of the loop of [mark_sla_breaches]. *)
Definition mark_breach (now : Z) (ticket : SupportTicket) : SM unit :=
  ticket ← save_ticket (ticket <| tk_sla_breached_at := Some now |>) [c_sla_breached_at];
  _ ← record_sla_event (tk_id ticket)
        (if first_response_due ticket now then SLAEventType.FIRST_RESPONSE_BREACHED
         else SLAEventType.RESOLUTION_BREACHED) (Some now) [];
  policy ← (match tk_applied_sla_policy ticket with
            | None => mret None
            | Some p => x ← base_get (A := SupportSLAPolicy) p; mret (Some x)
            end : SM (option SupportSLAPolicy));
  if from_option sla_escalate_on_breach false policy &&
     negb (bool_decide (tk_status ticket = TicketStatus.ESCALATED))
  then
    ticket ← save_ticket
      (ticket <| tk_status := TicketStatus.ESCALATED |> <| tk_escalated_at := Some now |>
              <| tk_escalation_reason := "نقض SLA" |>)
      [c_status; c_escalated_at; c_escalation_reason];
    _ ← record_sla_event (tk_id ticket) SLAEventType.ESCALATED (Some now)
          [("reason"%string, JStr "sla_breach")];
    mret tt
  else mret tt.

(** The order of [SupportTicket.Meta]. *)
Definition latest_activity (x y : SupportTicket) : bool :=
  (tk_last_activity_at y <? tk_last_activity_at x) ||
  ((tk_last_activity_at y =? tk_last_activity_at x) && (tk_created_at y <=? tk_created_at x)).

Definition mark_sla_breaches (at_time : option Z) : SM Z :=
  atomic
    (current ← timezone_now;
     let now := default current at_time in
     breached ← query (fun db => ordered_by latest_activity (qs_list (newly_breached now db)));
     for_fold (fun updated ticket => _ ← mark_breach now ticket; mret (updated + 1)) 0 breached).

(** * Periodic tasks *)

Definition stale_draft (cutoff : Z) (t : SupportTicket) : bool :=
  bool_decide (tk_status t = TicketStatus.DRAFT) && (tk_created_at t <? cutoff).

(** The statement [UPDATE] on a row. *)
Definition archive_stale (cutoff now : Z) (t : SupportTicket) : SupportTicket :=
  if tk_is_active t && stale_draft cutoff t
  then t <| tk_status := TicketStatus.ARCHIVED |> <| tk_updated_at := now |> else t.

Definition cleanup_stale_support_drafts_task (older_than_days : Z) : SM Z :=
  now ← timezone_now;
  let cutoff := now - older_than_days * usec_per_day in
  n ← query (fun db => qs_count (objects_filter (stale_draft cutoff) db));
  _ ← modify (fun db => db <| tickets :=
        mkTable (archive_stale cutoff now <$> rows (tickets db)) (next_id (tickets db)) |>);
  mret n.

Definition daily_support_digest_task (db : SupportDB) : Z * Z * Z :=
  (qs_count (open_queue (fun _ => true) db),
   qs_count (open_queue (fun t => bool_decide (tk_assigned_to t = None)) db),
   qs_count (open_queue (fun t => bool_decide (is_Some (tk_sla_breached_at t))) db)).
