(* ===== verification/SupportCounters.v ===== *)
(** The counters of a ticket are what its timeline holds: the invariant that
    every service of [SupportTickets.v] keeps, also when the ticket it was given
    was read before others wrote to it. *)

From S2P Require Import Prelude Python Choices Orm Models NotificationModels World Apps Text.
From S2P Require Import Notifications SupportModels ServiceLevel SupportTaxonomy SupportTriage.
From S2P Require Import Sample SupportSample SupportTickets.
#[local] Open Scope Z_scope.
#[local] Arguments set_row : simpl never.
#[local] Arguments add_row : simpl never.

(** * What a run that returns establishes *)

Definition returns {A} (P : SupportDB -> Prop) (m : SM A) (Q : A -> SupportDB -> Prop) : Prop :=
  forall env db a db', P db -> m env db = (Ok a, db') -> Q a db'.

Section Returns.
Context {A B : Type}.
Implicit Types (P : SupportDB -> Prop).

Lemma returns_bind P (R : A -> SupportDB -> Prop) (Q : B -> SupportDB -> Prop) (m : SM A) k :
  returns P m R -> (forall a, returns (R a) (k a) Q) -> returns P (m ≫= k) Q.
Proof.
  intros Hm Hk env db b db' HP (a & s & H1 & H2)%bind_ok_inv. by eapply Hk; [eapply Hm|].
Qed.

Lemma returns_ret P (Q : A -> SupportDB -> Prop) a :
  (forall db, P db -> Q a db) -> returns P (mret a) Q.
Proof. intros HQ env db b db' HP [-> ->]%ret_ok_inv. by apply HQ. Qed.

Lemma returns_weaken P P' (Q Q' : A -> SupportDB -> Prop) m :
  returns P' m Q' -> (forall db, P db -> P' db) -> (forall a db, Q' a db -> Q a db) -> returns P m Q.
Proof. intros Hm HP HQ env db a db' Hdb Hr. eapply HQ, Hm; [by apply HP|exact Hr]. Qed.

Lemma returns_moves P (T : SupportDB -> SupportDB -> Prop) (m : SM A) :
  moves T m -> (forall db db', P db -> T db db' -> P db') -> returns P m (fun _ db => P db).
Proof. intros Hm HT env db a db' HP Hr. eapply HT; [exact HP|]. by eapply moves_ok. Qed.

Lemma returns_raise P (Q : A -> SupportDB -> Prop) e : returns P (raise e) Q.
Proof. by intros env db a db' _. Qed.

Lemma run_returns P (Q : A -> SupportDB -> Prop) (m : SM A) env db a db' :
  m env db = (Ok a, db') -> returns P m Q -> P db -> Q a db'.
Proof. intros Hrun Hm HP. by eapply Hm. Qed.

(** An atomic block keeps what its returning runs keep. *)
Lemma atomic_keeps P (m : SM A) env db :
  returns P m (fun _ db => P db) -> P db -> P (atomic m env db).2.
Proof. intros Hm HP. apply atomic_preserves; [done|]. intros a db' Hr. by eapply Hm. Qed.
End Returns.

Lemma returns_raise_if P c (e : sup_exc) : returns P (raise_if c e) (fun _ db => P db /\ c = false).
Proof. intros env db [] db' HP [-> ->]%raise_if_ok_inv. done. Qed.

(** * The invariant *)

Definition exact_counters (db : SupportDB) (i : Z) (t : SupportTicket) : Prop :=
  tk_message_count t = qs_count (messages_of i db) /\
  tk_attachment_count t = qs_count (attachments_of i db) /\
  tk_internal_note_count t = qs_count (notes_of i db).

(** The counters are exact but for the tickets in [pending]. *)
Record counted (pending : Z -> Prop) (db : SupportDB) : Prop := {
  counted_tickets : table_good (A := SupportTicket) (table_of db);
  counted_messages : table_good (A := SupportTicketMessage) (table_of db);
  counted_attachments : table_good (A := SupportTicketAttachment) (table_of db);
  counted_exact : forall i t, rows_of db !! i = Some t -> ~ pending i -> exact_counters db i t;
}.

Definition none : Z -> Prop := fun _ => False.

Lemma counted_mono (p q : Z -> Prop) db : (forall i, p i -> q i) -> counted p db -> counted q db.
Proof. intros Hpq [H1 H2 H3 H4]. split; auto. Qed.

(** ** The tables of the tickets and the rest *)

Definition quiet (db db' : SupportDB) : Prop :=
  same_table SupportTicket db db' /\ same_table SupportTicketMessage db db' /\
  same_table SupportTicketAttachment db db' /\ same_table SupportSLAPolicy db db'.

#[export] Instance quiet_preorder : PreOrder quiet.
Proof.
  split; [intros x; split_and!; reflexivity|].
  intros x y z (H1 & H2 & H3 & H4) (G1 & G2 & G3 & G4). split_and!; by etrans.
Qed.

Lemma counted_same p db db' : counted p db -> same_table SupportTicket db db' ->
  same_table SupportTicketMessage db db' -> same_table SupportTicketAttachment db db' ->
  counted p db'.
Proof.
  intros [H1 H2 H3 H4] Ht Hm Ha. unfold same_table in *.
  split; [by rewrite Ht|by rewrite Hm|by rewrite Ha|].
  unfold exact_counters, messages_of, attachments_of, notes_of, objects_filter, rows_of in *.
  by rewrite Ht, Hm, Ha.
Qed.

Lemma counted_quiet p db db' : counted p db -> quiet db db' -> counted p db'.
Proof. intros Hdb (Ht & Hm & Ha & _). by eapply counted_same. Qed.

#[export] Hint Extern 1 (moves quiet (create _)) =>
  apply moves_create; [typeclasses eauto|intros; split_and!; red; first [reflexivity|apply other_table]] : moves.
#[export] Hint Extern 1 (moves quiet (update_row _ _)) =>
  apply moves_update_row; [typeclasses eauto|intros; split_and!; red; first [reflexivity|apply other_table]] : moves.

Lemma desk_quiet_on_site {A} (m : M A) : moves quiet (on_site m).
Proof. intros env db. unfold on_site. by destruct (m _ _) as [[a|e] s]. Qed.
#[export] Hint Resolve desk_quiet_on_site : moves.

Lemma quiet_sla_event t e at_ md : moves quiet (record_sla_event t e at_ md).
Proof. unfold record_sla_event. solve_moves. Qed.
Lemma quiet_history t u f s r : moves quiet (add_status_history t u f s r).
Proof. unfold add_status_history. solve_moves. Qed.
Lemma quiet_assignment t u f a d r : moves quiet (add_assignment t u f a d r).
Proof. unfold add_assignment. solve_moves. Qed.
Lemma quiet_category c : moves quiet (sync_category_counters c).
Proof. unfold sync_category_counters. solve_moves. Qed.
Lemma quiet_base_get {A} `{Model SupportDB A} i : moves quiet (base_get i : SM A).
Proof. apply moves_base_get; typeclasses eauto. Qed.
#[export] Hint Resolve quiet_sla_event quiet_history quiet_assignment quiet_category
  quiet_base_get : moves.

Lemma quiet_auto_tag t text : moves quiet (auto_tag_ticket t text).
Proof. unfold auto_tag_ticket, auto_tag_word. solve_moves. Qed.
Lemma quiet_duplicates t : moves quiet (detect_duplicate_candidates t).
Proof. unfold detect_duplicate_candidates, update_or_create_duplicate. solve_moves. Qed.
Lemma quiet_document t : moves quiet (search_document_of t).
Proof. unfold search_document_of. solve_moves. Qed.
Lemma quiet_resolve_policy d ty p s : moves quiet (resolve_sla_policy d ty p s).
Proof. unfold resolve_sla_policy. solve_moves. Qed.
Lemma quiet_due t p m n : moves quiet (calculate_sla_due_at t p m n).
Proof. unfold calculate_sla_due_at, add_business_minutes. solve_moves. Qed.
#[export] Hint Resolve quiet_auto_tag quiet_duplicates quiet_document quiet_resolve_policy
  quiet_due : moves.

Lemma returns_quiet {A} p (m : SM A) : moves quiet m -> returns (counted p) m (fun _ db => counted p db).
Proof. intros Hm. eapply returns_moves; [exact Hm|]. apply counted_quiet. Qed.

(** * The writes to a ticket *)

Definition counter_column (c : ticket_column) : bool :=
  match c with c_message_count | c_attachment_count | c_internal_note_count => true | _ => false end.

Lemma copy_column_id t row c : tk_id (copy_column t row c) = tk_id row.
Proof. by destruct c. Qed.

Lemma copy_columns_id t cols : forall row, tk_id (foldl (copy_column t) row cols) = tk_id row.
Proof.
  induction cols as [|c cols IH]; intros row; [done|]. simpl. by rewrite IH, copy_column_id.
Qed.

(** Two rows with the same counters. *)
Definition same_counters (x y : SupportTicket) : Prop :=
  tk_message_count x = tk_message_count y /\ tk_attachment_count x = tk_attachment_count y /\
  tk_internal_note_count x = tk_internal_note_count y.

Lemma copy_columns_counters t cols : forall row, existsb counter_column cols = false ->
  same_counters (foldl (copy_column t) row cols) row.
Proof.
  induction cols as [|c cols IH]; intros row; [done|]. simpl.
  intros [Hc Hcols]%orb_false_iff. unfold same_counters in *. destruct (IH (copy_column t row c) Hcols) as (-> & -> & ->).
  by destruct c.
Qed.

Lemma save_ticket_ok_inv t cols (env : SupportEnv) db t' db' :
  save_ticket t cols env db = (Ok t', db') ->
  t' = t <| tk_updated_at := clock env |> /\
  exists row, rows_of db !! tk_id t = Some row /\
    db' = set_row (tk_id t) ((foldl (copy_column t) row cols) <| tk_updated_at := clock env |>) db.
Proof. unfold save_ticket. intros Hr. comp_inv Hr. eauto. Qed.

Lemma messages_set_ticket i (x : SupportTicket) j db : messages_of j (set_row i x db) = messages_of j db.
Proof. unfold messages_of, objects_filter. by rewrite rows_of_set_row_other. Qed.
Lemma attachments_set_ticket i (x : SupportTicket) j db :
  attachments_of j (set_row i x db) = attachments_of j db.
Proof. unfold attachments_of, objects_filter. by rewrite rows_of_set_row_other. Qed.
Lemma notes_set_ticket i (x : SupportTicket) j db : notes_of j (set_row i x db) = notes_of j db.
Proof. unfold notes_of, objects_filter. by rewrite rows_of_set_row_other. Qed.

Lemma exact_set_ticket i (x : SupportTicket) db j t :
  exact_counters (set_row i x db) j t <-> exact_counters db j t.
Proof. unfold exact_counters. by rewrite messages_set_ticket, attachments_set_ticket, notes_set_ticket. Qed.

(** Writing a row of the tickets whose counters stay, or are exact. *)
Lemma counted_set_ticket p i (x y : SupportTicket) db : counted p db -> rows_of db !! i = Some y ->
  tk_id x = tk_id y -> (same_counters x y \/ exact_counters db i x \/ p i) ->
  counted p (set_row i x db).
Proof.
  intros [H1 H2 H3 H4] Hi Hid Hcases. split.
  - eapply set_row_good; [done|exact Hi|]. change (pk x) with (tk_id x). rewrite Hid. by apply H1.
  - by rewrite table_of_set_row_other.
  - by rewrite table_of_set_row_other.
  - intros j t. rewrite rows_of_set_row, exact_set_ticket.
    intros [[<- <-]|[_ Hj]]%lookup_insert_Some Hp; [|by apply H4].
    destruct Hcases as [(Hm & Ha & Hn)|[He|Hp']]; [|done|done].
    unfold exact_counters. rewrite Hm, Ha, Hn. exact (H4 i y Hi Hp).
Qed.

Definition about (k : Z) (p : Z -> Prop) (t : SupportTicket) (db : SupportDB) : Prop :=
  tk_id t = k /\ counted p db.

Lemma save_ticket_counted k p t cols : existsb counter_column cols = false -> tk_id t = k ->
  returns (counted p) (save_ticket t cols) (about k p).
Proof.
  intros Hcols Hk env db a db' Hp (-> & row & Hrow & ->)%save_ticket_ok_inv.
  split; [done|]. rewrite Hk in *.
  eapply counted_set_ticket; [done|exact Hrow|simpl; by rewrite copy_columns_id|left].
  exact (copy_columns_counters t cols row Hcols).
Qed.

(** Counting again: the ticket is exact afterwards. *)
Lemma sync_counted k p t : tk_id t = k ->
  returns (counted (fun i => p i \/ i = k)) (sync_ticket_counters t) (about k p).
Proof.
  intros <- env db a db' Hp Hrun. unfold sync_ticket_counters in Hrun.
  apply bind_ok_inv in Hrun as (? & ? & [-> ->]%query_ok_inv & Hrun).
  apply bind_ok_inv in Hrun as (? & ? & [-> ->]%query_ok_inv & Hrun).
  apply bind_ok_inv in Hrun as (? & ? & [-> ->]%query_ok_inv & Hrun).
  apply save_ticket_ok_inv in Hrun as (-> & row & Hrow & ->). split; [done|].
  simpl in Hrow |- *. set (row' := row <| tk_message_count := _ |> <| tk_attachment_count := _ |>
                   <| tk_internal_note_count := _ |> <| tk_updated_at := _ |>).
  assert (counted (fun i => p i \/ i = tk_id t) (set_row (tk_id t) row' db)) as [H1 H2 H3 H4].
  { eapply counted_set_ticket; [done|exact Hrow|done|]. auto. }
  split; [done..|]. intros i x Hi Hpi. destruct (decide (i = tk_id t)) as [->|Hne].
  - rewrite rows_of_set_row, lookup_insert_eq in Hi. injection Hi as <-.
    by rewrite exact_set_ticket.
  - apply H4; [done|]. tauto.
Qed.

(** ** New messages and files *)

Lemma add_message_counted k p author ty body internal staff md :
  returns (counted p) (add_message k author ty body internal staff md)
    (fun m db => counted (fun i => p i \/ i = k) db).
Proof.
  intros env db m db' [H1 H2 H3 H4] Hrun. unfold add_message in Hrun. comp_inv Hrun.
  set (m := mkMessage _ _ _ _ _ _ _ _ _ _ _ _ _). split.
  - by rewrite table_of_add_row_other.
  - by apply add_row_good.
  - by rewrite table_of_add_row_other.
  - intros i t. rewrite rows_of_add_row_other. intros Hi Hp.
    destruct (H4 i t Hi) as (Hm & Ha & Hn); [tauto|].
    assert (k <> i) as Hne by (intros ->; tauto).
    assert (forall P, P m = false -> objects_filter P (add_row m db) = objects_filter P db) as Hout.
    { intros P HP. apply objects_filter_add_row_out; [by apply H2|]. by rewrite HP, andb_false_r. }
    unfold exact_counters, messages_of, notes_of.
    rewrite !Hout by (subst m; simpl; by rewrite (proj2 (Z.eqb_neq _ _) Hne)).
    split; [done|]. split; [|done]. unfold attachments_of, objects_filter.
    by rewrite rows_of_add_row_other.
Qed.

Lemma add_file_counted k p (mk : Z -> Z -> SupportTicketAttachment) :
  (forall i now, att_id (mk i now) = i /\ att_ticket (mk i now) = k) ->
  returns (counted p) (create mk) (fun a db => counted (fun i => p i \/ i = k) db).
Proof.
  intros Hmk env db a db' [H1 H2 H3 H4] Hrun. comp_inv Hrun.
  destruct (Hmk (next_id (table_of (A := SupportTicketAttachment) db)) (clock env)) as [Hid Hticket].
  set (m := mk _ _) in *. split.
  - by rewrite table_of_add_row_other.
  - by rewrite table_of_add_row_other.
  - by apply add_row_good.
  - intros i t. rewrite rows_of_add_row_other. intros Hi Hp.
    destruct (H4 i t Hi) as (Hm & Ha & Hn); [tauto|].
    assert (k <> i) as Hne by (intros ->; tauto).
    assert (attachments_of i (add_row m db) = attachments_of i db) as Hout.
    { apply objects_filter_add_row_out; [by apply H3|].
      by rewrite Hticket, (proj2 (Z.eqb_neq _ _) Hne), andb_false_r. }
    unfold exact_counters. rewrite Hout. unfold messages_of, notes_of, objects_filter in *.
    by rewrite rows_of_add_row_other.
Qed.

(** * The services *)

Lemma returns_about {A} k p t (m : SM A) Q :
  (tk_id t = k -> returns (counted p) m Q) -> returns (about k p t) m Q.
Proof. intros Hm env db a db' [Hk Hp] Hr. by eapply Hm. Qed.

(** A part that leaves the three tables alone, then the rest. *)
Lemma returns_then_quiet {A B} p (m : SM A) (k : A -> SM B) Q :
  moves quiet m -> (forall a, returns (counted p) (k a) Q) -> returns (counted p) (m ≫= k) Q.
Proof. intros Hm Hk. eapply returns_bind; [by apply returns_quiet|exact Hk]. Qed.

Lemma returns_guard {B} p c e (k : unit -> SM B) Q :
  (c = false -> forall u, returns (counted p) (k u) Q) ->
  returns (counted p) (raise_if c e ≫= k) Q.
Proof.
  intros Hk. eapply returns_bind; [apply returns_raise_if|]. intros u env db b db' [Hp Hc]. by apply Hk.
Qed.

Lemma returns_then_save {B} k p t cols (f : SupportTicket -> SM B) Q :
  existsb counter_column cols = false -> tk_id t = k ->
  (forall t', tk_id t' = k -> returns (counted p) (f t') Q) ->
  returns (counted p) (save_ticket t cols ≫= f) Q.
Proof.
  intros Hc Hk Hf. eapply returns_bind; [by apply save_ticket_counted|].
  intros t'. apply returns_about, Hf.
Qed.

Lemma returns_then_sync {B} k p t (f : SupportTicket -> SM B) Q : tk_id t = k ->
  (forall t', tk_id t' = k -> returns (counted p) (f t') Q) ->
  returns (counted (fun i => p i \/ i = k)) (sync_ticket_counters t ≫= f) Q.
Proof.
  intros Hk Hf. eapply returns_bind; [by apply sync_counted|]. intros t'. apply returns_about, Hf.
Qed.

Lemma change_status_counted k p t user st reason now : tk_id t = k ->
  returns (counted p) (change_status t user st reason now) (about k p).
Proof.
  intros Hk. unfold change_status. case_bool_decide; [by apply returns_ret|].
  set (changed := match st with TicketStatus.RESOLVED => _ | _ => _ end).
  assert (tk_id changed.1 = k /\ existsb counter_column changed.2 = false) as [Hid Hcols]
    by (subst changed; by destruct st).
  destruct changed as [t1 cols]. simpl in Hid, Hcols. cbv beta iota.
  apply (returns_then_save k); [|done|].
  { simpl. by rewrite existsb_app, Hcols. }
  intros t2 Ht2. apply returns_then_quiet; [solve_moves|]. intros _.
  destruct user as [u|]; [|apply returns_ret; by split].
  eapply returns_bind; [rewrite Ht2; apply add_message_counted|]. intros m. cbv beta.
  by apply sync_counted.
Qed.

Lemma returns_then_status {B} k p t user st reason now (f : SupportTicket -> SM B) Q : tk_id t = k ->
  (forall t', tk_id t' = k -> returns (counted p) (f t') Q) ->
  returns (counted p) (change_status t user st reason now ≫= f) Q.
Proof.
  intros Hk Hf. eapply returns_bind; [by apply change_status_counted|].
  intros t'. apply returns_about, Hf.
Qed.

Lemma resume_counted k p t now : tk_id t = k ->
  returns (counted p) (resume_sla_if_needed t now) (about k p).
Proof.
  intros Hk. unfold resume_sla_if_needed. destruct (tk_sla_paused_at t); [|by apply returns_ret].
  apply (returns_then_save k); [done..|]. intros t' Ht'.
  apply returns_then_quiet; [solve_moves|]. intros _. by apply returns_ret.
Qed.

Lemma quiet_policy (o : option Z) :
  moves quiet (match o with
               | None => mret None
               | Some p => x ← base_get (A := SupportSLAPolicy) p; mret (Some x)
               end : SM (option SupportSLAPolicy)).
Proof. destruct o; solve_moves. Qed.

Lemma pause_counted k p t now : tk_id t = k ->
  returns (counted p) (pause_sla_if_needed t now) (about k p).
Proof.
  intros Hk. unfold pause_sla_if_needed. apply returns_then_quiet; [apply quiet_policy|].
  intros [pol|]; [|by apply returns_ret]. destruct (tk_sla_paused_at t); [by apply returns_ret|].
  destruct (sla_pause_when_waiting_for_user pol); [|by apply returns_ret].
  apply (returns_then_save k); [done..|]. intros t' Ht'.
  apply returns_then_quiet; [solve_moves|]. intros _. by apply returns_ret.
Qed.

Lemma apply_sla_counted k p t policy now : tk_id t = k ->
  returns (counted p) (apply_sla t policy now) (fun _ => counted p).
Proof.
  intros Hk. unfold apply_sla. destruct policy as [pol|]; [|by apply returns_ret].
  apply returns_then_quiet; [solve_moves|]. intros d1.
  apply returns_then_quiet; [solve_moves|]. intros d2.
  apply (returns_then_save k); [done..|]. intros t' Ht'.
  apply returns_then_quiet; [solve_moves|]. intros _. by apply returns_ret.
Qed.

(** Every service keeps the counters exact, whatever ticket object it is given. *)
Definition keeps_counters {A} (m : SM A) : Prop := returns (counted none) m (fun _ => counted none).

Lemma keeps_atomic {A} (m : SM A) : keeps_counters m -> keeps_counters (atomic m).
Proof. intros Hm env db a db' Hp Hr%atomic_ok_inv. by eapply Hm. Qed.

Lemma returns_drop {A} k p t (m : SM A) : returns (counted p) m (fun _ => counted p) ->
  returns (about k p t) m (fun _ => counted p).
Proof. intros Hm. apply returns_about. by intros _. Qed.

Lemma about_counted {A} k p (m : SM SupportTicket) (f : SupportTicket -> A) :
  returns (counted p) m (about k p) -> returns (counted p) m (fun _ => counted p).
Proof. intros Hm. eapply returns_weaken; [exact Hm|done|]. by intros a db [_ ?]. Qed.

Lemma submit_keeps t user at_ : keeps_counters (submit_ticket t user at_).
Proof.
  apply keeps_atomic. do 2 (apply returns_guard; intros _ _).
  apply returns_then_quiet; [solve_moves|]. intros cur.
  apply (returns_then_status (tk_id t)); [done|]. intros t1 H1.
  apply (returns_then_save (tk_id t)); [done..|]. intros t2 H2.
  do 2 (apply returns_then_quiet; [solve_moves|]; intros ?). by apply (apply_sla_counted (tk_id t)).
Qed.

Lemma user_reply_keeps t user body at_ : keeps_counters (add_user_reply t user body at_).
Proof.
  apply keeps_atomic. do 2 (apply returns_guard; intros _ _).
  apply returns_then_quiet; [solve_moves|]. intros cur.
  eapply returns_bind; [by apply (resume_counted (tk_id t))|]. intros t1. apply returns_about. intros H1.
  eapply returns_bind; [rewrite H1; apply add_message_counted|]. intros m. cbv beta.
  apply (returns_then_save (tk_id t)); [done..|]. intros t2 H2.
  apply (returns_then_status (tk_id t)); [done|]. intros t3 H3.
  apply (returns_then_sync (tk_id t)); [done|]. intros t4 H4.
  apply returns_then_quiet; [solve_moves|]. intros _. by apply returns_ret.
Qed.

Lemma admin_reply_keeps t admin body at_ : keeps_counters (add_admin_reply t admin body at_).
Proof.
  apply keeps_atomic. destruct admin as [u|]; [|apply returns_raise].
  do 2 (apply returns_guard; intros _ _).
  apply returns_then_quiet; [solve_moves|]. intros cur.
  eapply returns_bind; [apply add_message_counted|]. intros m. cbv beta.
  apply (returns_then_save (tk_id t)); [done..|]. intros t2 H2.
  apply (returns_then_status (tk_id t)); [done|]. intros t3 H3.
  eapply returns_bind; [by apply (pause_counted (tk_id t))|]. intros t5. apply returns_about. intros H5.
  apply (returns_then_sync (tk_id t)); [done|]. intros t4 H4.
  apply returns_then_quiet; [solve_moves|]. intros _. by apply returns_ret.
Qed.

Lemma note_keeps t admin body : keeps_counters (add_internal_note t admin body).
Proof.
  apply keeps_atomic. destruct admin as [u|]; [|apply returns_raise].
  apply returns_guard; intros _ _.
  eapply returns_bind; [apply add_message_counted|]. intros m. cbv beta.
  apply (returns_then_sync (tk_id t)); [done|]. intros t4 H4. by apply returns_ret.
Qed.

Lemma attachment_keeps t user file size name ct kind vis msg :
  keeps_counters (add_attachment t user file size name ct kind vis msg).
Proof.
  apply keeps_atomic. do 3 (apply returns_guard; intros _ _).
  eapply returns_bind; [by apply (add_file_counted (tk_id t))|]. intros m. cbv beta.
  apply (returns_then_sync (tk_id t)); [done|]. intros t4 H4. by apply returns_ret.
Qed.

Lemma assign_keeps t admin assignee dep reason : keeps_counters (assign_ticket t admin assignee dep reason).
Proof.
  apply keeps_atomic. destruct admin as [u|]; [|apply returns_raise].
  apply returns_guard; intros _ _. apply returns_then_quiet; [solve_moves|]. intros cur.
  apply (returns_then_save (tk_id t)); [done..|]. intros t2 H2.
  apply returns_then_quiet; [solve_moves|]. intros _.
  eapply returns_bind; [rewrite H2; apply add_message_counted|]. intros m. cbv beta.
  eapply returns_weaken; [by apply (sync_counted (tk_id t) none)|done|]. by intros a db [_ ?].
Qed.

Lemma auto_assign_keeps t admin dep reason : keeps_counters (auto_assign_ticket t admin dep reason).
Proof.
  apply keeps_atomic. apply returns_then_quiet.
  { unfold get_support_assignment_recommendation. solve_moves. }
  intros r. destruct (rec_recommended_assignee r); [apply assign_keeps|apply returns_raise].
Qed.

Lemma change_keeps t admin st reason : keeps_counters (change_ticket_status t admin st reason).
Proof.
  apply keeps_atomic. apply returns_guard; intros _ _. destruct (of_value st); [|apply returns_raise].
  apply returns_then_quiet; [solve_moves|]. intros cur.
  eapply returns_weaken; [by apply change_status_counted|done|]. by intros a db [_ ?].
Qed.

Lemma resolve_keeps t admin reason : keeps_counters (resolve_ticket t admin reason).
Proof.
  apply keeps_atomic. apply returns_guard; intros _ _.
  eapply returns_bind; [apply change_keeps|]. intros t1. cbv beta.
  apply returns_then_quiet; [solve_moves|]. intros _. by apply returns_ret.
Qed.

Lemma close_keeps t user reason : keeps_counters (close_ticket t user reason).
Proof.
  apply keeps_atomic. repeat (apply returns_guard; intros _ _).
  apply returns_then_quiet; [solve_moves|]. intros cur.
  eapply returns_weaken; [by apply change_status_counted|done|]. by intros a db [_ ?].
Qed.

Lemma reopen_keeps t user reason : keeps_counters (reopen_ticket t user reason).
Proof.
  apply keeps_atomic. apply returns_guard; intros _ _.
  apply returns_then_quiet; [solve_moves|]. intros cur. apply returns_guard; intros _ _.
  eapply returns_bind; [by apply (resume_counted (tk_id t))|]. intros t1. apply returns_about. intros H1.
  eapply returns_weaken; [by apply change_status_counted|done|]. by intros a db [_ ?].
Qed.

Lemma escalate_keeps t admin reason : keeps_counters (escalate_ticket t admin reason).
Proof.
  apply keeps_atomic. apply returns_guard; intros _ _.
  apply returns_then_quiet; [solve_moves|]. intros cur.
  apply (returns_then_save (tk_id t)); [done..|]. intros t2 H2.
  apply returns_then_quiet; [solve_moves|]. intros _.
  eapply returns_weaken; [by apply change_status_counted|done|]. by intros a db [_ ?].
Qed.

Lemma satisfaction_keeps t user rating comment :
  keeps_counters (submit_satisfaction t user rating comment).
Proof.
  apply keeps_atomic. do 3 (apply returns_guard; intros _ _).
  apply returns_then_quiet; [solve_moves|]. intros s.
  apply (returns_then_save (tk_id t)); [done..|]. intros t2 H2. by apply returns_ret.
Qed.

Lemma mark_breach_keeps now t : keeps_counters (mark_breach now t).
Proof.
  unfold mark_breach. apply (returns_then_save (tk_id t)); [done..|]. intros t1 H1.
  apply returns_then_quiet; [solve_moves|]. intros _.
  apply returns_then_quiet; [apply quiet_policy|]. intros pol.
  destruct (_ && _); [|by apply returns_ret].
  apply (returns_then_save (tk_id t)); [done..|]. intros t2 H2.
  apply returns_then_quiet; [solve_moves|]. intros _. by apply returns_ret.
Qed.

Lemma mark_breaches_keeps at_ : keeps_counters (mark_sla_breaches at_).
Proof.
  apply keeps_atomic. apply returns_then_quiet; [solve_moves|]. intros cur.
  apply returns_then_quiet; [solve_moves|]. intros l env db n db' Hp Hrun.
  eapply (for_fold_ok_inv (fun _ d => counted none d)); [exact Hrun| |done].
  intros a t s1 b s2 Hs1 Hbody. apply bind_ok_inv in Hbody as ([] & s3 & Hm & Hrest).
  comp_inv Hrest. by eapply mark_breach_keeps.
Qed.

(** ** The remaining writers *)

(** A new ticket, which is counted once its first message is written. *)
Lemma new_ticket_counted mk (env : SupportEnv) db t db' :
  counted none db -> (forall k now, tk_id (mk k now) = k) ->
  create (A := SupportTicket) mk env db = (Ok t, db') ->
  counted (fun i => none i \/ i = tk_id t) db'.
Proof.
  intros [H1 H2 H3 H4] Hmk Hrun. comp_inv Hrun. rewrite Hmk. split.
  - apply add_row_good; [done|]. change (pk ?x) with (tk_id x). by rewrite Hmk.
  - by rewrite table_of_add_row_other.
  - by rewrite table_of_add_row_other.
  - intros i y. rewrite rows_of_add_row.
    intros [[<- _]|[Hne Hi]]%lookup_insert_Some Hp; [by destruct Hp; right|].
    unfold exact_counters, messages_of, attachments_of, notes_of, objects_filter.
    rewrite !rows_of_add_row_other. apply H4; [done|by intros []].
Qed.

(** The rest of the creation: the first message, then the counters. *)
Lemma returns_then_message {B} p k author ty body internal staff md
    (f : SupportTicketMessage -> SM B) Q :
  (forall m, returns (counted (fun i => p i \/ i = k)) (f m) Q) ->
  returns (counted (fun i => p i \/ i = k)) (add_message k author ty body internal staff md ≫= f) Q.
Proof.
  intros Hf. eapply returns_bind; [|exact Hf].
  eapply returns_weaken; [apply add_message_counted|done|].
  intros m db. apply counted_mono. tauto.
Qed.

Lemma create_keeps owner ty subject description d c p s :
  keeps_counters (create_ticket owner ty subject description d c p s).
Proof.
  apply keeps_atomic. destruct owner as [u|]; [|apply returns_raise].
  destruct (opt_or d _) as [dep|]; [|apply returns_raise].
  destruct (opt_or c _) as [cat|]; [|apply returns_raise].
  apply returns_then_quiet; [solve_moves|]. intros department.
  apply returns_then_quiet; [solve_moves|]. intros category.
  apply returns_guard; intros _ _. cbv zeta.
  intros env db a db' Hdb Hrun.
  apply bind_ok_inv in Hrun as (? & ? & [-> ->]%ask_ok_inv & Hrun).
  apply bind_ok_inv in Hrun as (now & db0 & Hnow & Hrun). comp_inv Hnow.
  apply bind_ok_inv in Hrun as (? & ? & [-> ->]%query_ok_inv & Hrun).
  apply bind_ok_inv in Hrun as (number & ? & [-> ->]%query_ok_inv & Hrun).
  apply bind_ok_inv in Hrun as (doc & db1 & Hdoc & Hrun). unfold search_document_of in Hdoc.
  comp_inv Hdoc.
  apply bind_ok_inv in Hrun as (t & db2 & Hnew & Hrun).
  apply new_ticket_counted in Hnew; [|done|done]. clear Hrow Hrow0 Hrow1 Hdb.
  eapply (run_returns _ (fun _ => counted none)); [exact Hrun| |exact Hnew].
  apply returns_then_message. intros m. apply (returns_then_sync (tk_id t)); [done|]. intros t1 H1.
  do 2 (apply returns_then_quiet; [solve_moves|]; intros _).
  do 3 (apply returns_then_quiet; [solve_moves|]; intros ?). by apply returns_ret.
Qed.

Lemma save_whole_ok_inv t (env : SupportEnv) db t' db' :
  save_whole_ticket t env db = (Ok t', db') ->
  exists doc, t' = t <| tk_search_document := doc |> <| tk_updated_at := clock env |> /\
    row_ok (delete (tk_id t) (rows_of db)) t' = true /\ db' = set_row (tk_id t) t' db.
Proof.
  intros Hrun. unfold save_whole_ticket in Hrun.
  apply bind_ok_inv in Hrun as (now & ? & Hnow & Hrun). comp_inv Hnow.
  apply bind_ok_inv in Hrun as (doc & ? & Hdoc & Hrun). unfold search_document_of in Hdoc.
  comp_inv Hdoc. apply bind_ok_inv in Hrun as (? & ? & Hget & Hrun). comp_inv Hget.
  destruct (row_ok _ _) eqn:Hok; [|discriminate Hrun]. comp_inv Hrun. eauto.
Qed.

(** What editing a draft keeps of its row. *)
Record draft_edit (t t' : SupportTicket) : Prop := {
  edit_id : tk_id t' = tk_id t;
  edit_uuid : tk_uuid t' = tk_uuid t;
  edit_number : tk_ticket_number t' = tk_ticket_number t;
  edit_owner : tk_owner t' = tk_owner t;
  edit_status : tk_status t' = tk_status t;
  edit_breach : tk_sla_breached_at t' = tk_sla_breached_at t;
  edit_policy : tk_applied_sla_policy t' = tk_applied_sla_policy t;
  edit_created : tk_created_at t' = tk_created_at t;
  edit_counters : same_counters t' t;
}.

#[export] Instance draft_edit_preorder : PreOrder draft_edit.
Proof.
  split; [by intros x; split|]. intros x y z [???????? (A & B & C)] [???????? (D & E & F)].
  split; try congruence. split_and!; congruence.
Qed.

Lemma update_draft_inv t user ty d c subject description (env : SupportEnv) db a db' :
  update_draft_ticket t user ty d c subject description env db = (Ok a, db') ->
  exists t', draft_edit t t' /\ row_ok (delete (tk_id t) (rows_of db)) t' = true /\
    quiet (set_row (tk_id t) t' db) db'.
Proof.
  intros Hrun%atomic_ok_inv.
  apply bind_ok_inv in Hrun as ([] & ? & [_ ->]%raise_if_ok_inv & Hrun).
  apply bind_ok_inv in Hrun as ([] & ? & [_ ->]%raise_if_ok_inv & Hrun). cbv zeta in Hrun.
  set (typed := match ty with Some _ => _ | None => _ end) in Hrun.
  assert (draft_edit t typed) as Hty by (subst typed; by destruct ty).
  clearbody typed.
  apply bind_ok_inv in Hrun as (cat & ? & Hcat & Hrun). comp_inv Hcat.
  apply bind_ok_inv in Hrun as ([] & ? & [_ ->]%raise_if_ok_inv & Hrun).
  apply bind_ok_inv in Hrun as (now & ? & Hnow & Hrun). comp_inv Hnow.
  apply bind_ok_inv in Hrun as (t1 & db1 & Hsave & Hrun).
  apply save_whole_ok_inv in Hsave as (doc & -> & Hok & ->).
  rewrite <- (edit_id _ _ Hty). eexists. split_and!; [|exact Hok|].
  - etrans; [exact Hty|by split].
  - eapply moves_ok; [|exact Hrun]. solve_moves.
Qed.

(** A draft that is saved whole keeps the counters where the object was read
    after the last write to its row. *)
Lemma update_draft_keeps t user ty d c subject description (env : SupportEnv) db :
  counted none db -> rows_of db !! tk_id t = Some t ->
  counted none (update_draft_ticket t user ty d c subject description env db).2.
Proof.
  intros Hdb Ht. destruct (update_draft_ticket _ _ _ _ _ _ _ env db) as [[a|e] db'] eqn:Hrun.
  - apply update_draft_inv in Hrun as (t' & He & _ & Hq). eapply counted_quiet; [|exact Hq].
    eapply counted_set_ticket; [done|exact Ht|apply He|left; apply He].
  - by apply atomic_raise_run in Hrun as [-> _].
Qed.

Lemma archive_stale_kept cutoff now t :
  tk_id (archive_stale cutoff now t) = tk_id t /\ same_counters (archive_stale cutoff now t) t.
Proof. unfold archive_stale. by destruct (_ && _). Qed.

Lemma cleanup_keeps days : keeps_counters (cleanup_stale_support_drafts_task days).
Proof.
  intros env db n db' [H1 H2 H3 H4] Hrun. unfold cleanup_stale_support_drafts_task in Hrun.
  comp_inv Hrun. split; [|done|done|].
  - destruct H1 as [Hfresh Hrows]. split; [done|]. intros i x. simpl.
    rewrite lookup_fmap. intros (t & Ht & ->)%fmap_Some_1.
    unfold pk. simpl. rewrite (proj1 (archive_stale_kept _ _ t)). by apply Hrows.
  - intros i x. unfold rows_of. simpl. rewrite lookup_fmap. intros (t & Ht & ->)%fmap_Some_1 Hi.
    destruct (archive_stale_kept (clock env - days * usec_per_day) (clock env) t) as [_ (Hm & Ha & Hn)].
    unfold exact_counters. rewrite Hm, Ha, Hn. exact (H4 i t Ht Hi).
Qed.

(** * Reachable desks *)

(** A change beside the tickets. *)
Definition elsewhere (db db' : SupportDB) : Prop :=
  same_table SupportTicket db db' /\ same_table SupportTicketMessage db db' /\
  same_table SupportTicketAttachment db db' /\
  kept (A := SupportSLAPolicy) (fun _ _ => True) db db'.

(** One request to the desk, at any time.  The ticket a service gets is any
    object at all, so also one that was read before other requests wrote to its
    row.  [desk_step (Some t)] is an edit of a draft, which saves the whole object
    [t]; [desk_step None] is any other request, or an operation that leaves the
    tickets, their messages and their files alone and removes no policy
    ([step_elsewhere]). *)
Inductive desk_step : option SupportTicket -> SupportDB -> SupportDB -> Prop :=
| step_create env db owner ty subject description d c p s :
    desk_step None db (create_ticket owner ty subject description d c p s env db).2
| step_update_draft env db t user ty d c subject description :
    desk_step (Some t) db (update_draft_ticket t user ty d c subject description env db).2
| step_submit env db t user at_ : desk_step None db (submit_ticket t user at_ env db).2
| step_user_reply env db t user body at_ : desk_step None db (add_user_reply t user body at_ env db).2
| step_admin_reply env db t admin body at_ : desk_step None db (add_admin_reply t admin body at_ env db).2
| step_note env db t admin body : desk_step None db (add_internal_note t admin body env db).2
| step_attachment env db t user file size name ct kind vis msg :
    desk_step None db (add_attachment t user file size name ct kind vis msg env db).2
| step_assign env db t admin assignee d reason :
    desk_step None db (assign_ticket t admin assignee d reason env db).2
| step_auto_assign env db t admin d reason :
    desk_step None db (auto_assign_ticket t admin d reason env db).2
| step_change env db t admin status reason :
    desk_step None db (change_ticket_status t admin status reason env db).2
| step_resolve env db t admin reason : desk_step None db (resolve_ticket t admin reason env db).2
| step_close env db t user reason : desk_step None db (close_ticket t user reason env db).2
| step_reopen env db t user reason : desk_step None db (reopen_ticket t user reason env db).2
| step_escalate env db t admin reason : desk_step None db (escalate_ticket t admin reason env db).2
| step_satisfaction env db t user rating comment :
    desk_step None db (submit_satisfaction t user rating comment env db).2
| step_breaches env db at_ : desk_step None db (mark_sla_breaches at_ env db).2
| step_cleanup env db days : desk_step None db (cleanup_stale_support_drafts_task days env db).2
| step_elsewhere db db' : elsewhere db db' -> desk_step None db db'.

(** The edits of drafts get the row as it is stored.  The code does not see to it:
    [update_draft_ticket] neither locks the row nor names the columns it saves, and a
    stale edit takes back what came between ([stale_draft_undoes_the_submission]). *)
Definition edit_is_current (edit : option SupportTicket) (db : SupportDB) : Prop :=
  match edit with Some t => rows_of db !! tk_id t = Some t | None => True end.

Definition careful_step (db db' : SupportDB) : Prop :=
  exists edit, desk_step edit db db' /\ edit_is_current edit db.

Lemma careful db db' : desk_step None db db' -> careful_step db db'.
Proof. intros Hs. by exists None. Qed.

(** A desk without tickets, messages and files, whatever else it holds. *)
Definition empty_desk (db : SupportDB) : Prop :=
  tickets db = mkTable ∅ 1 /\ messages db = mkTable ∅ 1 /\ attachments db = mkTable ∅ 1 /\
  table_good (A := SupportSLAPolicy) (table_of db).

Definition desk_reachable (db : SupportDB) : Prop :=
  exists db0, empty_desk db0 /\ rtc careful_step db0 db.

Lemma keeps_run {A} (m : SM A) env db :
  keeps_counters m -> (exists m0, m = atomic m0) -> counted none db -> counted none (m env db).2.
Proof.
  intros Hm [m0 ->] Hdb. destruct (atomic m0 env db) as [[a|e] db'] eqn:Hrun; [by eapply Hm|].
  by apply atomic_raise_run in Hrun as [-> _].
Qed.

#[export] Hint Resolve create_keeps submit_keeps user_reply_keeps admin_reply_keeps note_keeps
  attachment_keeps assign_keeps auto_assign_keeps change_keeps resolve_keeps close_keeps
  reopen_keeps escalate_keeps satisfaction_keeps mark_breaches_keeps : desk.

Lemma careful_step_counted db db' : careful_step db db' -> counted none db -> counted none db'.
Proof.
  intros (edit & Hstep & Hcur) Hdb. destruct Hstep; simpl in Hcur; try (apply keeps_run; [solve [auto with desk]|by eexists|done]).
  - by apply update_draft_keeps.
  - destruct (cleanup_stale_support_drafts_task days env db) as [[n|e] db1] eqn:Hrun;
      [by eapply cleanup_keeps|discriminate Hrun].
  - destruct H as (Ht & Hm & Ha & _). by eapply counted_same.
Qed.

Lemma empty_desk_counted db : empty_desk db -> counted none db.
Proof.
  intros (Ht & Hm & Ha & _).
  assert (forall A `{Model SupportDB A}, table_good (A := A) (mkTable ∅ 1)) as Hgood.
  { intros A m. split; [done|]. intros i x. simpl. by rewrite lookup_empty. }
  split.
  - change (table_of db) with (tickets db). rewrite Ht. apply Hgood.
  - change (table_of db) with (messages db). rewrite Hm. apply Hgood.
  - change (table_of db) with (attachments db). rewrite Ha. apply Hgood.
  - intros i t. unfold rows_of. change (table_of db) with (tickets db). rewrite Ht. done.
Qed.

Lemma desk_reachable_counted db : desk_reachable db -> counted none db.
Proof.
  intros (db0 & H0 & Hsteps). apply empty_desk_counted in H0. revert H0.
  induction Hsteps as [|x y z Hs _ IH]; [done|]. intros Hx. by apply IH, (careful_step_counted x).
Qed.

(** C21: in every state that a sequence of requests reaches, the counters of every
    ticket are right: as many messages, files and internal notes as it shows are
    there.  A request may work on a ticket object that is out of date, but for one
    kind: the edit of a draft, which saves the whole object that it was given, is
    given the row as it is stored; a stale edit does spoil the counters
    ([stale_draft_undoes_the_submission]). *)
Theorem ticket_counters_are_exact (db : SupportDB) (i : Z) (t : SupportTicket) :
  desk_reachable db -> rows_of db !! i = Some t ->
  tk_message_count t = qs_count (messages_of i db) /\
  tk_attachment_count t = qs_count (attachments_of i db) /\
  tk_internal_note_count t = qs_count (notes_of i db).
Proof.
  intros Hdb%desk_reachable_counted Hi. apply (counted_exact _ _ Hdb i t Hi). by intros [].
Qed.

(** ** Examples *)

(** A client opens a ticket and sends it in; an administrator answers it. *)
Definition opened_desk : SupportDB :=
  after (create_ticket (Some sample_client) sample_ticket_type "Refund late" "My refund is late" None
           None None None) desk_env sample_desk.

Definition submitted_desk : SupportDB :=
  after (submit_ticket (ticket_of opened_desk) (Some sample_client) None) desk_env opened_desk.

Definition answered_desk : SupportDB :=
  after (add_admin_reply (ticket_of submitted_desk) (Some sample_agent) "We look into it" None)
    (desk_after usec_per_hour) submitted_desk.

Lemma sample_desk_empty : empty_desk sample_desk.
Proof. split_and!; [done..|by apply good_check]. Qed.

Lemma submitted_reachable : desk_reachable submitted_desk.
Proof.
  exists sample_desk. split; [apply sample_desk_empty|].
  eapply rtc_l; [apply careful, step_create|]. eapply rtc_l; [apply careful, step_submit|]. apply rtc_refl.
Qed.

Lemma answered_reachable : desk_reachable answered_desk.
Proof.
  destruct submitted_reachable as (db0 & H0 & Hsteps). exists db0. split; [done|].
  eapply rtc_r; [exact Hsteps|]. apply careful, step_admin_reply.
Qed.

Lemma ticket_counters_are_exact_witness :
  rows_of answered_desk !! 1 = Some (ticket_of answered_desk) /\
  tk_message_count (ticket_of answered_desk) = qs_count (messages_of 1 answered_desk) /\
  tk_attachment_count (ticket_of answered_desk) = qs_count (attachments_of 1 answered_desk) /\
  tk_internal_note_count (ticket_of answered_desk) = qs_count (notes_of 1 answered_desk).
Proof.
  assert (rows_of answered_desk !! 1 = Some (ticket_of answered_desk)) as Hrow
    by (vm_compute; reflexivity).
  split; [exact Hrow|].
  exact (ticket_counters_are_exact answered_desk 1 (ticket_of answered_desk) answered_reachable Hrow).
Defined.

(** Two requests at once: the edit of a draft writes the whole object that it
    read before the other request sent the ticket in, and so undoes the
    submission and the counters. *)
Example stale_draft_undoes_the_submission :
  let db := after (update_draft_ticket (ticket_of opened_desk) (Some sample_client) None None None
                     (Some "Refund very late"%string) None) desk_env submitted_desk in
  desk_step (Some (ticket_of opened_desk)) submitted_desk db /\
  tk_status (ticket_of submitted_desk) = TicketStatus.SUBMITTED /\
  tk_message_count (ticket_of submitted_desk) = 2 /\
  tk_status (ticket_of db) = TicketStatus.DRAFT /\ tk_resolution_due_at (ticket_of db) = None /\
  tk_message_count (ticket_of db) = 1 /\ qs_count (messages_of 1 db) = 2.
Proof. split; [apply step_update_draft|]. vm_compute. tauto. Qed.
