(* ===== verification/SupportBreaches.v ===== *)
(** What lasts of a ticket, the constraints of its table, and the periodic task
    that flags the tickets whose deadline has passed: it does not fail, leaves
    nothing overdue without a flag, and so flags every ticket that stays overdue
    ([mark_sla_breaches] of [src/apps/support_desk/services.py], which
    [src/config/settings/base.py], 1199–1202, runs every five minutes). *)

From S2P Require Import Prelude Python Choices Orm Models NotificationModels World Apps Text.
From S2P Require Import Notifications SupportModels ServiceLevel SupportTaxonomy SupportTriage.
From S2P Require Import Sample SupportSample SupportTickets SupportCounters.
#[local] Open Scope Z_scope.
#[local] Arguments set_row : simpl never.
#[local] Arguments add_row : simpl never.

(** * What lasts *)

(** From one state of a ticket's row to a later one. *)
Record lasting (x y : SupportTicket) : Prop := {
  lasting_id : tk_id y = tk_id x;
  lasting_uuid : tk_uuid y = tk_uuid x;
  lasting_number : tk_ticket_number y = tk_ticket_number x;
  lasting_owner : tk_owner y = tk_owner x;
  lasting_created : tk_created_at y = tk_created_at x;
  lasting_breach : is_Some (tk_sla_breached_at x) -> is_Some (tk_sla_breached_at y);
}.

#[export] Instance lasting_preorder : PreOrder lasting.
Proof.
  split; [by intros x; split|]. intros x y z [] []. split; first [congruence|auto].
Qed.

Definition breach_column (c : ticket_column) : bool :=
  match c with c_sla_breached_at => true | _ => false end.

Definition policy_column (c : ticket_column) : bool :=
  match c with c_applied_sla_policy => true | _ => false end.

Lemma copy_columns_lasting t cols : forall row,
  (existsb breach_column cols = true -> is_Some (tk_sla_breached_at t)) ->
  lasting row (foldl (copy_column t) row cols).
Proof.
  induction cols as [|c cols IH]; intros row Ht; [reflexivity|]. simpl in *.
  etrans; [|apply IH; intros Hc; apply Ht; by rewrite Hc, orb_true_r].
  destruct c; split; try done. intros _. by apply Ht.
Qed.

Lemma copy_columns_policy t cols : forall row, existsb policy_column cols = false ->
  tk_applied_sla_policy (foldl (copy_column t) row cols) = tk_applied_sla_policy row.
Proof.
  induction cols as [|c cols IH]; intros row; [done|]. simpl.
  intros [Hc Hcols]%orb_false_iff. rewrite IH by done. by destruct c.
Qed.

(** * The constraints of the tickets' table *)

Definition policy_known (db : SupportDB) (t : SupportTicket) : Prop :=
  forall p, tk_applied_sla_policy t = Some p ->
    is_Some (rows_of (A := SupportSLAPolicy) db !! p).

Record intact (db : SupportDB) : Prop := {
  intact_tickets : table_good (A := SupportTicket) (table_of db);
  intact_policies : table_good (A := SupportSLAPolicy) (table_of db);
  intact_rows : forall i t, rows_of db !! i = Some t -> ticket_row_ok (delete i (rows_of db)) t = true;
  intact_known : forall i t, rows_of db !! i = Some t -> policy_known db t;
}.

(** What a service does to the table, whatever its outcome. *)
Definition grows (db db' : SupportDB) : Prop := intact db -> intact db' /\ evolves lasting db db'.

#[export] Instance grows_preorder : PreOrder grows.
Proof.
  split; [intros db Hdb; split; [done|reflexivity]|].
  intros x y z Hxy Hyz Hx. destruct (Hxy Hx) as [Hy H1], (Hyz Hy) as [Hz H2].
  split; [done|by etrans].
Qed.

(** The columns that the constraints are about. *)
Definition fields_ok (x : SupportTicket) : bool := ticket_row_ok ∅ x.

Definition rivals (x y : SupportTicket) : Prop :=
  tk_uuid y = tk_uuid x \/ tk_ticket_number y = tk_ticket_number x.

Lemma str_eqb_ne (a b : string) : str_eqb a b = false <-> a <> b.
Proof. apply bool_decide_eq_false. Qed.

Lemma ticket_row_ok_spec others x :
  ticket_row_ok others x = true <->
  fields_ok x = true /\ forall j y, others !! j = Some y -> ~ rivals x y.
Proof.
  unfold fields_ok, ticket_row_ok, rivals. rewrite !andb_true_iff, !unique_among_spec.
  setoid_rewrite lookup_empty. split.
  - intros [[? Hu] Hn]. split; [split; [split|]; done|].
    intros j y Hy [E|E]; [apply Hu in Hy|apply Hn in Hy]; apply str_eqb_ne in Hy; congruence.
  - intros [[[? _] _] Ho]. split; [split; [done|]|]; intros j y Hy; apply str_eqb_ne;
      intros E; eapply Ho; eauto.
Qed.

(** Writing one row. *)
Lemma intact_set_ticket i (x x' : SupportTicket) db : intact db -> rows_of db !! i = Some x ->
  tk_id x' = tk_id x -> ticket_row_ok (delete i (rows_of db)) x' = true -> policy_known db x' ->
  intact (set_row i x' db).
Proof.
  intros [H1 H2 H3 H4] Hi Hid Hok Hp. split.
  - eapply set_row_good; [done|exact Hi|]. change (pk x') with (tk_id x'). rewrite Hid. by apply H1.
  - by rewrite table_of_set_row_other.
  - intros j t. rewrite rows_of_set_row. intros [[<- <-]|[Hne Hj]]%lookup_insert_Some.
    { by rewrite delete_insert_eq. }
    apply ticket_row_ok_spec in Hok as [_ Hout]. pose proof (H3 j t Hj) as [Hf Hr]%ticket_row_ok_spec.
    apply ticket_row_ok_spec. split; [done|]. intros k y [Hk Hy]%lookup_delete_Some.
    apply lookup_insert_Some in Hy as [[<- <-]|[_ Hy]].
    + assert (~ rivals x' t) as Hno by (apply (Hout j); by rewrite lookup_delete_ne).
      unfold rivals in *. intuition congruence.
    + apply (Hr k). by rewrite lookup_delete_ne.
  - intros j t. unfold policy_known. rewrite rows_of_set_row, rows_of_set_row_other.
    intros [[_ <-]|[_ Hj]]%lookup_insert_Some; [exact Hp|exact (H4 j t Hj)].
Qed.

Lemma grows_set_ticket i (x x' : SupportTicket) db : rows_of db !! i = Some x -> lasting x x' ->
  ticket_row_ok (delete i (rows_of db)) x' = true -> (policy_known db x -> policy_known db x') ->
  grows db (set_row i x' db).
Proof.
  intros Hi HK Hok Hp Hdb. split.
  - eapply intact_set_ticket; [done|exact Hi|apply HK|done|]. by apply Hp, (intact_known _ Hdb i).
  - eapply evolves_set_row; [typeclasses eauto|exact Hi|done].
Qed.

(** Writing elsewhere, where no policy goes away. *)
Lemma grows_elsewhere db db' : same_table SupportTicket db db' ->
  kept (A := SupportSLAPolicy) (fun _ _ => True) db db' -> grows db db'.
Proof.
  intros Ht Hp [H1 H2 H3 H4]. destruct (Hp H2) as [H2' Hev]. unfold same_table in *. split; [split|].
  - by rewrite Ht.
  - done.
  - unfold rows_of in *. by rewrite Ht.
  - intros i t. unfold rows_of in *. rewrite Ht. intros Hi p Hpol.
    destruct (H4 i t Hi p Hpol) as [x Hx]. apply Hev in Hx as (y & Hy & _). by exists y.
  - intros i x Hx. exists x. rewrite Ht. split; [done|reflexivity].
Qed.

Lemma grows_quiet db db' : quiet db db' -> grows db db'.
Proof.
  intros (Ht & _ & _ & Hp). apply grows_elsewhere; [done|].
  apply kept_same_table; [split; done|exact Hp].
Qed.

Lemma moves_quiet_grows {A} (m : SM A) : moves quiet m -> moves grows m.
Proof. intros Hm env db. apply grows_quiet, Hm. Qed.

(** * The services *)

(** Saving columns other than the policy; the flag of a breach is only set. *)
Lemma grows_save t cols : existsb policy_column cols = false ->
  (existsb breach_column cols = true -> is_Some (tk_sla_breached_at t)) ->
  moves grows (save_ticket t cols).
Proof.
  intros Hp Hb. unfold save_ticket. apply moves_bind; [typeclasses eauto|solve_moves|]. intros now.
  apply moves_bind; [typeclasses eauto| |solve_moves]. intros env db. unfold update_row.
  destruct (rows_of db !! tk_id t) as [x|] eqn:Hx; [|reflexivity].
  destruct (row_ok _ _) eqn:Hok; [|reflexivity].
  eapply grows_set_ticket; [exact Hx| |exact Hok|].
  - destruct (copy_columns_lasting t cols x Hb). by split.
  - unfold policy_known. simpl. by rewrite copy_columns_policy.
Qed.

#[export] Hint Extern 1 (moves grows (save_ticket _ _)) =>
  apply grows_save; [reflexivity|first [discriminate|by intros; eexists]] : moves.
#[export] Hint Extern 1 (moves grows (create _)) =>
  apply moves_create; [typeclasses eauto|intros; apply grows_elsewhere;
    [apply other_table|apply kept_same_table; [split; done|apply other_table]]] : moves.
#[export] Hint Extern 1 (moves grows (on_site _)) =>
  apply moves_quiet_grows, desk_quiet_on_site : moves.

Lemma grows_sync t : moves grows (sync_ticket_counters t).
Proof. unfold sync_ticket_counters. solve_moves. Qed.
Lemma grows_message t u ty b i s md : moves grows (add_message t u ty b i s md).
Proof. unfold add_message. solve_moves. Qed.
Lemma grows_sla_event t e at_ md : moves grows (record_sla_event t e at_ md).
Proof. apply moves_quiet_grows. auto with moves. Qed.
Lemma grows_history t u f s r : moves grows (add_status_history t u f s r).
Proof. apply moves_quiet_grows. auto with moves. Qed.
Lemma grows_assignment t u f a d r : moves grows (add_assignment t u f a d r).
Proof. apply moves_quiet_grows. auto with moves. Qed.
Lemma grows_auto_tag t text : moves grows (auto_tag_ticket t text).
Proof. apply moves_quiet_grows. auto with moves. Qed.
#[export] Hint Resolve grows_sync grows_message grows_sla_event grows_history grows_assignment
  grows_auto_tag : moves.

Lemma grows_change_status t u st r now : moves grows (change_status t u st r now).
Proof. unfold change_status. destruct st; solve_moves. Qed.
Lemma grows_resume t now : moves grows (resume_sla_if_needed t now).
Proof. unfold resume_sla_if_needed. solve_moves. Qed.
Lemma grows_pause t now : moves grows (pause_sla_if_needed t now).
Proof. unfold pause_sla_if_needed. solve_moves. Qed.
#[export] Hint Resolve grows_change_status grows_resume grows_pause : moves.

Lemma grows_user_reply t u b at_ : moves grows (add_user_reply t u b at_).
Proof. unfold add_user_reply. solve_moves. Qed.
Lemma grows_admin_reply t u b at_ : moves grows (add_admin_reply t u b at_).
Proof. unfold add_admin_reply. solve_moves. Qed.
Lemma grows_note t u b : moves grows (add_internal_note t u b).
Proof. unfold add_internal_note. solve_moves. Qed.
Lemma grows_assign t u a d r : moves grows (assign_ticket t u a d r).
Proof. unfold assign_ticket. solve_moves. Qed.
#[export] Hint Resolve grows_assign : moves.
Lemma grows_auto_assign t u d r : moves grows (auto_assign_ticket t u d r).
Proof. unfold auto_assign_ticket, get_support_assignment_recommendation. solve_moves. Qed.
Lemma grows_change t u st r : moves grows (change_ticket_status t u st r).
Proof. unfold change_ticket_status. solve_moves. Qed.
#[export] Hint Resolve grows_change : moves.
Lemma grows_resolve t u r : moves grows (resolve_ticket t u r).
Proof. unfold resolve_ticket. solve_moves. Qed.
Lemma grows_close t u r : moves grows (close_ticket t u r).
Proof. unfold close_ticket. solve_moves. Qed.
Lemma grows_reopen t u r : moves grows (reopen_ticket t u r).
Proof. unfold reopen_ticket. solve_moves. Qed.
Lemma grows_escalate t u r : moves grows (escalate_ticket t u r).
Proof. unfold escalate_ticket. solve_moves. Qed.
Lemma grows_satisfaction t u n c : moves grows (submit_satisfaction t u n c).
Proof. unfold submit_satisfaction. solve_moves. Qed.
Lemma grows_breach now t : moves grows (mark_breach now t).
Proof. unfold mark_breach. solve_moves. Qed.
#[export] Hint Resolve grows_breach : moves.
Lemma grows_breaches at_ : moves grows (mark_sla_breaches at_).
Proof. unfold mark_sla_breaches. solve_moves. Qed.
Lemma grows_attachment t u f z n c k v m : moves grows (add_attachment t u f z n c k v m).
Proof. unfold add_attachment. solve_moves. Qed.

(** ** Submission: the policy that is stored is one of the table *)

Lemma policy_in_qs P (env : SupportEnv) db x :
  first_by (order_title sla_order sla_title env) (objects_filter P db) = Some x ->
  exists i, rows_of (A := SupportSLAPolicy) db !! i = Some x.
Proof.
  unfold first_by. intros [l Hl]%head_Some. assert (x ∈ x :: l) as Hx by by left.
  rewrite <- Hl, elem_of_ordered in Hx. unfold qs_list in Hx.
  apply list_elem_of_fmap in Hx as ([i y] & -> & Hy%elem_of_map_to_list).
  apply objects_filter_lookup in Hy as [Hy _]. eauto.
Qed.

Lemma resolved_policy_known d ty p s (env : SupportEnv) db pol db' :
  resolve_sla_policy d ty p s env db = (Ok pol, db') ->
  db' = db /\ forall x, pol = Some x -> exists i, rows_of (A := SupportSLAPolicy) db !! i = Some x.
Proof.
  unfold resolve_sla_policy. destruct (ty ≫= _) as [q|]; intros Hrun.
  - comp_inv Hrun. split; [done|]. intros x [= <-]. eauto.
  - apply bind_ok_inv in Hrun as (? & ? & [-> ->]%ask_ok_inv & Hrun).
    apply query_ok_inv in Hrun as [-> ->]. split; [done|]. intros x Hx.
    repeat (case_match; simplify_eq); by eapply policy_in_qs.
Qed.

Lemma grows_apply_sla t pol now (env : SupportEnv) db a db' :
  (forall x, pol = Some x -> is_Some (rows_of (A := SupportSLAPolicy) db !! sla_id x)) ->
  apply_sla t pol now env db = (Ok a, db') -> grows db db'.
Proof.
  intros Hpol Hrun. unfold apply_sla in Hrun. destruct pol as [x|]; [|comp_inv Hrun; reflexivity].
  apply bind_ok_inv in Hrun as (d1 & db1 & H1 & Hrun). apply moves_ok with (T := quiet) in H1; [|solve_moves].
  apply bind_ok_inv in Hrun as (d2 & db2 & H2 & Hrun). apply moves_ok with (T := quiet) in H2; [|solve_moves].
  assert (quiet db db2) as Hq by (by etrans). clear H1 H2 db1.
  apply bind_ok_inv in Hrun as (t1 & db3 & Hsave & Hrun).
  apply bind_ok_inv in Hrun as (ev & db4 & Hev & Hrun). comp_inv Hrun.
  apply moves_ok with (T := grows) in Hev; [|solve_moves].
  etrans; [by apply grows_quiet|]. etrans; [|exact Hev].
  apply bind_ok_inv in Hsave as (n & ? & Hn & Hsave). comp_inv Hn.
  apply bind_ok_inv in Hsave as (? & ? & Hup & Hsave). comp_inv Hsave.
  apply update_row_ok_inv in Hup as (row & Hrow & Hok & ->).
  eapply grows_set_ticket; [exact Hrow|by split|exact Hok|].
  intros _ p. simpl. intros [= <-]. destruct (Hpol x eq_refl) as [y Hy]. exists y.
  destruct Hq as (_ & _ & _ & Hq). by rewrite (same_table_rows _ _ Hq).
Qed.

(** An atomic service grows the desk where its runs that return do. *)
Lemma grows_atomic {A} (m : SM A) :
  (forall env db a db', m env db = (Ok a, db') -> grows db db') -> moves grows (atomic m).
Proof.
  intros Hm env db. unfold atomic. destruct (m env db) as [[a|e] db'] eqn:Hrun; [by eapply Hm|].
  reflexivity.
Qed.

Lemma grows_submit t u at_ : moves grows (submit_ticket t u at_).
Proof.
  apply grows_atomic. intros env db a db' Hrun.
  do 2 (apply bind_ok_inv in Hrun as ([] & ? & [_ ->]%raise_if_ok_inv & Hrun)).
  apply bind_ok_inv in Hrun as (cur & ? & Hn & Hrun). comp_inv Hn. cbv zeta in Hrun.
  apply bind_ok_inv in Hrun as (t1 & db1 & H1 & Hrun). apply moves_ok with (T := grows) in H1; [|solve_moves].
  apply bind_ok_inv in Hrun as (t2 & db2 & H2 & Hrun). apply moves_ok with (T := grows) in H2; [|solve_moves].
  apply bind_ok_inv in Hrun as (ty & ? & Hty & Hrun). comp_inv Hty.
  apply bind_ok_inv in Hrun as (pol & db3 & Hpol & Hrun).
  apply resolved_policy_known in Hpol as [-> Hpol]. intros Hdb.
  destruct (transitivity H1 H2 Hdb) as [Hdb2 Hev]. apply grows_apply_sla in Hrun.
  - destruct (Hrun Hdb2) as [Hdb' Hev']. split; [done|by etrans].
  - intros x [i Hi]%Hpol. exists x. assert (sla_id x = i) as -> by by apply (intact_policies _ Hdb2).
    done.
Qed.

Lemma grows_add_ticket (x : SupportTicket) db : tk_id x = next_id (table_of (A := SupportTicket) db) ->
  row_ok (rows_of db) x = true -> tk_applied_sla_policy x = None -> grows db (add_row x db).
Proof.
  intros Hid Hok Hpol [H1 H2 H3 H4]. split; [split|].
  - by apply add_row_good.
  - by rewrite table_of_add_row_other.
  - pose proof (fresh_key _ (proj2 H1)) as Hfresh.
    apply ticket_row_ok_spec in Hok as [Hf Hr].
    intros i t. rewrite rows_of_add_row. intros [[<- <-]|[Hne Hi]]%lookup_insert_Some.
    { rewrite delete_insert_eq, delete_id by done. by apply ticket_row_ok_spec. }
    pose proof (H3 i t Hi) as [Hf' Hr']%ticket_row_ok_spec. apply ticket_row_ok_spec. split; [done|].
    intros k y [Hk Hy]%lookup_delete_Some. apply lookup_insert_Some in Hy as [[<- <-]|[_ Hy]].
    + specialize (Hr i t Hi). unfold rivals in *. intuition congruence.
    + apply (Hr' k). by rewrite lookup_delete_ne.
  - intros i t. unfold policy_known. rewrite rows_of_add_row, rows_of_add_row_other.
    intros [[_ <-]|[_ Hi]]%lookup_insert_Some; [by rewrite Hpol|exact (H4 i t Hi)].
  - by apply evolves_add_row; [typeclasses eauto|].
Qed.

Lemma grows_create owner ty subject description d c p s :
  moves grows (create_ticket owner ty subject description d c p s).
Proof.
  unfold create_ticket. apply moves_atomic; [typeclasses eauto|].
  destruct owner as [u|]; [|solve_moves].
  destruct (opt_or d _) as [dep|]; [|solve_moves]. destruct (opt_or c _) as [cat|]; [|solve_moves].
  do 7 (apply moves_bind; [typeclasses eauto|solve_moves|]; intros ?).
  apply moves_bind; [typeclasses eauto|apply moves_quiet_grows; auto with moves|]. intros doc.
  apply moves_bind; [typeclasses eauto| |].
  - intros env db. unfold create. destruct (row_ok _ _) eqn:Hok; [|reflexivity].
    by apply grows_add_ticket.
  - intros t. apply moves_bind; [typeclasses eauto|solve_moves|]. intros m.
    apply moves_bind; [typeclasses eauto|solve_moves|]. intros t1.
    apply moves_quiet_grows. solve_moves.
Qed.

Lemma draft_edit_lasting t t' : draft_edit t t' -> lasting t t'.
Proof. intros []. split; try done. by rewrite edit_breach. Qed.

Lemma grows_update_draft t u ty d c s b (env : SupportEnv) db : rows_of db !! tk_id t = Some t ->
  grows db (update_draft_ticket t u ty d c s b env db).2.
Proof.
  intros Ht. destruct (update_draft_ticket _ _ _ _ _ _ _ env db) as [[a|e] db'] eqn:Hrun.
  - apply update_draft_inv in Hrun as (t' & He & Hok & Hq).
    etrans; [|by apply grows_quiet]. eapply grows_set_ticket; [exact Ht| |exact Hok|].
    + by apply draft_edit_lasting.
    + unfold policy_known. by rewrite (edit_policy _ _ He).
  - apply atomic_raise_run in Hrun as [-> _]. reflexivity.
Qed.

(** ** The statement that archives old drafts *)

Definition archives (cutoff now : Z) (db : SupportDB) : SupportDB :=
  db <| tickets := mkTable (archive_stale cutoff now <$> rows (tickets db)) (next_id (tickets db)) |>.

Lemma archive_stale_lasting cutoff now t : lasting t (archive_stale cutoff now t).
Proof. unfold archive_stale. destruct (_ && _); [by split|reflexivity]. Qed.

Lemma archive_stale_checks cutoff now others t :
  ticket_row_ok (archive_stale cutoff now <$> others) (archive_stale cutoff now t) =
  ticket_row_ok others t.
Proof.
  apply eq_bool_prop_intro. rewrite !Is_true_true, !ticket_row_ok_spec.
  assert (forall x, fields_ok (archive_stale cutoff now x) = fields_ok x) as Hf
    by (intros x; unfold archive_stale; by destruct (_ && _)).
  assert (forall x y, rivals (archive_stale cutoff now x) (archive_stale cutoff now y) <-> rivals x y) as Hr.
  { intros x y. unfold rivals. destruct (archive_stale_lasting cutoff now x) as [_ -> -> _ _ _].
    by destruct (archive_stale_lasting cutoff now y) as [_ -> -> _ _ _]. }
  rewrite Hf. setoid_rewrite lookup_fmap. split; intros [? Ho]; (split; [done|]).
  - intros j y Hy Hxy. apply (Ho j (archive_stale cutoff now y)); [by rewrite Hy|exact (proj2 (Hr t y) Hxy)].
  - intros j y (y0 & Hy & ->)%fmap_Some_1 Hxy. exact (Ho j y0 Hy (proj1 (Hr t y0) Hxy)).
Qed.

Lemma grows_archives cutoff now db : grows db (archives cutoff now db).
Proof.
  intros [H1 H2 H3 H4].
  assert (forall i x, rows_of (archives cutoff now db) !! i = Some x ->
    exists t, rows_of db !! i = Some t /\ x = archive_stale cutoff now t) as Hrows.
  { intros i x. unfold rows_of, archives. simpl. rewrite lookup_fmap.
    intros (t & Ht & ->)%fmap_Some_1. eauto. }
  split; [split|].
  - destruct H1 as [Hpos Hwf]. split; [done|]. intros i x (t & Ht & ->)%Hrows.
    apply Hwf in Ht as [Hid Hi]. split; [|done].
    change (pk ?z) with (tk_id z) in *. by rewrite (lasting_id _ _ (archive_stale_lasting _ _ t)).
  - exact H2.
  - intros i x (t & Ht & ->)%Hrows. unfold rows_of, archives. simpl.
    rewrite <- fmap_delete, archive_stale_checks. by apply H3.
  - intros i x (t & Ht & ->)%Hrows p Hp. apply (H4 i t Ht). rewrite <- Hp.
    unfold archive_stale. by destruct (_ && _).
  - intros i t Ht. exists (archive_stale cutoff now t). split; [|apply archive_stale_lasting].
    unfold archives. simpl. rewrite lookup_fmap. change (rows (tickets db) !! i = Some t) in Ht. by rewrite Ht.
Qed.

#[export] Hint Resolve grows_create grows_submit grows_user_reply grows_admin_reply grows_note
  grows_attachment grows_auto_assign grows_resolve grows_close grows_reopen grows_escalate
  grows_satisfaction grows_breaches : moves.

Lemma run_grows {A} (m : SM A) (env : SupportEnv) db : moves grows m -> grows db (m env db).2.
Proof. intros Hm. apply Hm. Qed.

Lemma careful_step_grows db db' : careful_step db db' -> grows db db'.
Proof.
  intros (edit & Hstep & Hcur). destruct Hstep; simpl in Hcur; try (apply run_grows; solve [auto with moves]).
  - by apply grows_update_draft.
  - apply (grows_archives (clock env - days * usec_per_day) (clock env)).
  - destruct H as (Ht & _ & _ & Hp). by apply grows_elsewhere.
Qed.

Lemma empty_desk_intact db : empty_desk db -> intact db.
Proof.
  intros (Ht & _ & _ & Hp).
  assert (rows_of (A := SupportTicket) db = ∅) as Hno by (unfold rows_of; simpl; by rewrite Ht).
  split; [|done|intros i t; by rewrite Hno|intros i t; by rewrite Hno].
  change (table_of db) with (tickets db). rewrite Ht. split; [done|]. intros i t. done.
Qed.

Lemma desk_steps_grow db db' : rtc careful_step db db' -> grows db db'.
Proof.
  induction 1 as [|x y z Hs _ IH]; [reflexivity|]. etrans; [by apply careful_step_grows|exact IH].
Qed.

Lemma desk_reachable_intact db : desk_reachable db -> intact db.
Proof. intros (db0 & H0%empty_desk_intact & Hsteps%desk_steps_grow). by apply Hsteps. Qed.

(** * The task that flags breaches *)

Definition flagged (x : SupportTicket) : Prop := is_Some (tk_sla_breached_at x).

(** An open ticket with a deadline that has passed. *)
Definition overdue (now : Z) (x : SupportTicket) : Prop :=
  tk_is_active x = true /\ is_open x = true /\
  (first_response_due x now = true \/ resolution_due x now = true).

Lemma newly_breached_lookup now db i x :
  newly_breached now db !! i = Some x <->
  rows_of db !! i = Some x /\ overdue now x /\ ~ flagged x.
Proof.
  unfold newly_breached, open_queue, overdue, flagged. rewrite objects_filter_lookup.
  rewrite !andb_true_iff, orb_true_iff, bool_decide_eq_true, <- eq_None_not_Some.
  change (is_active x) with (tk_is_active x). tauto.
Qed.

(** Total correctness: the run returns, with a result and a state in [Q]. *)
Definition succeeds {A} (m : SM A) env db (Q : A -> SupportDB -> Prop) : Prop :=
  exists a db', m env db = (Ok a, db') /\ Q a db'.

Lemma succeeds_bind {A B} (m : SM A) (k : A -> SM B) env db R Q :
  succeeds m env db R -> (forall a db1, R a db1 -> succeeds (k a) env db1 Q) ->
  succeeds (m ≫= k) env db Q.
Proof.
  intros (a & db1 & Hm & HR) Hk. destruct (Hk a db1 HR) as (b & db2 & Hrun & HQ).
  exists b, db2. split; [|done]. by rewrite bind_unfold, Hm.
Qed.

Lemma succeeds_ret {A} (a : A) env db (Q : A -> SupportDB -> Prop) :
  Q a db -> succeeds (mret a) env db Q.
Proof. intros HQ. exists a, db. done. Qed.

(** From one state to another the row of a ticket is written, so that it has a
    flag; the other tickets and the policies stay. *)
Definition flags (i : Z) (db db' : SupportDB) : Prop :=
  exists x', flagged x' /\ ticket_row_ok (delete i (rows_of db)) x' = true /\
    rows_of db' = <[i := x']> (rows_of db) /\ same_table SupportSLAPolicy db db'.

Lemma record_flags i db db1 t e at_ md (env : SupportEnv) : flags i db db1 ->
  succeeds (record_sla_event t e at_ md) env db1 (fun _ db2 => flags i db db2).
Proof.
  intros (x' & Hx & Hok & Hrows & Hp). do 2 eexists. split; [reflexivity|]. exists x'.
  split_and!; [done|done|by rewrite rows_of_add_row_other|].
  unfold same_table in *. by rewrite table_of_add_row_other.
Qed.

Lemma save_flags i t cols (row x1 : SupportTicket) (env : SupportEnv) db db1 :
  tk_id t = i -> rows_of db1 !! i = Some x1 ->
  (foldl (copy_column t) x1 cols) <| tk_updated_at := clock env |> = row -> flagged row ->
  delete i (rows_of (A := SupportTicket) db1) = delete i (rows_of db) ->
  ticket_row_ok (delete i (rows_of db)) row = true -> same_table SupportSLAPolicy db db1 ->
  succeeds (save_ticket t cols) env db1
    (fun t' db2 => t' = t <| tk_updated_at := clock env |> /\ flags i db db2).
Proof.
  intros <- Hx <- Hfl Hdel Hok Hp. do 2 eexists. split; [|split; [reflexivity|]].
  - unfold save_ticket. rewrite bind_unfold. unfold timezone_now. rewrite bind_unfold.
    rewrite <- Hdel in Hok. rewrite (update_row_ok _ _ x1); [done|exact Hx|exact Hok].
  - eexists. split_and!; [exact Hfl|exact Hok| |].
    + rewrite rows_of_set_row. rewrite <- (insert_delete_eq (rows_of db1)), Hdel. apply insert_delete_eq.
    + unfold same_table in *. by rewrite table_of_set_row_other.
Qed.

Lemma mark_breach_runs now t (x : SupportTicket) (env : SupportEnv) db :
  intact db -> rows_of db !! tk_id t = Some x -> policy_known db t ->
  succeeds (mark_breach now t) env db (fun _ db' => flags (tk_id t) db db').
Proof.
  intros Hdb Hx Hpol. unfold mark_breach. pose proof (intact_rows _ Hdb _ _ Hx) as Hok.
  eapply succeeds_bind.
  { eapply (save_flags (tk_id t) _ _ _ x env db db);
      [done|exact Hx|reflexivity|by eexists|done|exact Hok|reflexivity]. }
  intros t1 db1 [-> Hf1]. cbv beta. eapply succeeds_bind; [by apply record_flags|].
  intros ev db2 Hf2. cbv beta in *. eapply (succeeds_bind _ _ _ _ (fun _ db3 => db3 = db2)).
  { simpl. destruct (tk_applied_sla_policy t) as [p|] eqn:Hp; [|by apply succeeds_ret].
    destruct (Hpol p Hp) as [y Hy]. destruct Hf2 as (_ & _ & _ & _ & Hsame).
    exists (Some y), db2. split; [|done].
    rewrite bind_unfold, (base_get_ok _ y); [done|]. by rewrite (same_table_rows _ _ Hsame). }
  intros pol db3 ->. destruct (_ && _); [|by apply succeeds_ret].
  destruct Hf2 as (x2 & Hfl & Hok2 & Hrows & Hp2).
  eapply succeeds_bind.
  { eapply (save_flags (tk_id t) _ _ _ x2 env db db2); [done| |reflexivity|exact Hfl| |exact Hok2|done].
    - by rewrite Hrows, lookup_insert_eq.
    - by rewrite Hrows, delete_insert_eq. }
  intros t3 db4 [-> Hf4]. cbv beta. eapply succeeds_bind; [by apply record_flags|].
  intros ev2 db5 Hf5. by apply succeeds_ret.
Qed.

(** What a run of the task keeps along the way. *)
Record flagging (db s : SupportDB) : Prop := {
  flagging_intact : intact s;
  flagging_rows : evolves lasting db s;
  flagging_policies : same_table SupportSLAPolicy db s;
  flagging_others : forall i (y : SupportTicket), rows_of s !! i = Some y -> ~ flagged y ->
    rows_of db !! i = Some y;
}.

Definition has_flag (x : SupportTicket) (s : SupportDB) : Prop :=
  exists y, rows_of s !! tk_id x = Some y /\ flagged y.

Lemma flags_has_flag i db s x : flags i db s -> has_flag x db -> has_flag x s.
Proof.
  intros (x' & Hx' & _ & Hrows & _) (y & Hy & Hf). unfold has_flag. rewrite Hrows.
  destruct (decide (tk_id x = i)) as [<-|Hne].
  - exists x'. by rewrite lookup_insert_eq.
  - exists y. by rewrite lookup_insert_ne.
Qed.

Lemma flags_flagging i db s s' now t (env : SupportEnv) : flagging db s ->
  mark_breach now t env s = (Ok tt, s') -> flags i s s' -> flagging db s'.
Proof.
  intros [H1 H2 H3 H4] Hrun (x' & Hx' & _ & Hrows & Hp).
  apply moves_ok with (T := grows) in Hrun; [|solve_moves]. destruct (Hrun H1) as [Hs' Hev].
  split; [done|by etrans|by etrans|]. intros j y. rewrite Hrows.
  intros [[<- <-]|[_ Hj]]%lookup_insert_Some Hno; [done|by apply H4].
Qed.

Lemma mark_sla_breaches_runs at_ (env : SupportEnv) db : intact db ->
  succeeds (mark_sla_breaches at_) env db (fun _ db' => flagging db db' /\
    forall i x, newly_breached (default (clock env) at_) db !! i = Some x -> has_flag x db').
Proof.
  intros Hdb. set (now := default (clock env) at_).
  set (l := ordered_by latest_activity (qs_list (newly_breached now db))).
  assert (forall x, x ∈ l <-> exists i, newly_breached now db !! i = Some x) as Hl.
  { intros x. unfold l. rewrite elem_of_ordered. unfold qs_list. rewrite list_elem_of_fmap. split.
    - intros ([i y] & -> & Hy%elem_of_map_to_list). eauto.
    - intros [i Hi]. exists (i, x). by rewrite elem_of_map_to_list. }
  destruct (for_fold_each (flagging db) has_flag
    (fun updated ticket => _ ← mark_breach now ticket; mret (updated + 1)) env l 0 db)
    as (n & db' & Hrun & HI & Hall & _).
  - intros acc x s [i [Hx _]%newly_breached_lookup]%Hl HI.
    assert (tk_id x = i) as Hid by (by apply (intact_tickets _ Hdb)).
    destruct (flagging_rows _ _ HI i x Hx) as (y & Hy & _).
    destruct (mark_breach_runs now x y env s) as ([] & s' & Hrun & Hf).
    + apply HI.
    + by rewrite Hid.
    + intros p Hp. rewrite (same_table_rows _ _ (flagging_policies _ _ HI)).
      exact (intact_known _ Hdb i x Hx p Hp).
    + exists (acc + 1), s'. split_and!.
      * by rewrite bind_unfold, Hrun.
      * by eapply flags_flagging.
      * destruct Hf as (x' & Hx' & _ & Hrows & _). exists x'. split; [|done].
        by rewrite Hrows, lookup_insert_eq.
      * intros z. by eapply flags_has_flag.
  - split; [done|reflexivity|reflexivity|done].
  - exists n, db'. split; [|split; [done|]].
    + unfold mark_sla_breaches. apply atomic_ok. exact Hrun.
    + intros i x Hi. apply Hall, Hl. eauto.
Qed.

Lemma breach_task_spec (db : SupportDB) (env : SupportEnv) (at_ : option Z) :
  intact db ->
  exists n db', mark_sla_breaches at_ env db = (Ok n, db') /\
    (forall i x, rows_of db' !! i = Some x -> overdue (default (clock env) at_) x -> flagged x) /\
    (forall i x, rows_of db' !! i = Some x -> ~ flagged x -> rows_of db !! i = Some x).
Proof.
  intros Hdb.
  destruct (mark_sla_breaches_runs at_ env db Hdb) as (n & db' & Hrun & HI & Hall).
  exists n, db'. split; [done|]. split; [|apply HI].
  intros i x Hx Hover. destruct (decide (is_Some (tk_sla_breached_at x))) as [Hf|Hf]; [done|].
  assert (rows_of db !! i = Some x) as Hold by (by apply (flagging_others _ _ HI)).
  destruct (Hall i x) as (y & Hy & Hfl); [by apply newly_breached_lookup|].
  assert (tk_id x = i) as Hid by (by apply (intact_tickets _ Hdb)). rewrite Hid in Hy. congruence.
Qed.

(** The task that flags breaches always returns, and leaves no open ticket
    with a deadline that has passed but no flag; a ticket that it does not flag
    stays as it was. *)
Theorem breach_task_leaves_nothing_overdue (db : SupportDB) (env : SupportEnv) (at_ : option Z) :
  desk_reachable db ->
  exists n db', mark_sla_breaches at_ env db = (Ok n, db') /\
    (forall i x, rows_of db' !! i = Some x -> overdue (default (clock env) at_) x -> flagged x) /\
    (forall i x, rows_of db' !! i = Some x -> ~ flagged x -> rows_of db !! i = Some x).
Proof. intros Hdb%desk_reachable_intact. by apply breach_task_spec. Qed.

Lemma overdue_later now now' x : now <= now' -> overdue now x -> overdue now' x.
Proof.
  intros Hle (Ha & Ho & Hd). split_and!; [done|done|].
  unfold first_response_due, resolution_due, due_by in *. destruct Hd as [Hd|Hd]; [left|right].
  - apply andb_true_iff in Hd as [-> Hd]. case_match; [|done]. simpl. lia.
  - case_match; [lia|done].
Qed.

Lemma flag_stays db db' i x : rtc careful_step db db' -> intact db -> rows_of db !! i = Some x ->
  flagged x -> exists y, rows_of db' !! i = Some y /\ flagged y.
Proof.
  intros Hsteps%desk_steps_grow Hdb Hx Hf. destruct (Hsteps Hdb) as [_ Hev].
  destruct (Hev i x Hx) as (y & Hy & HK). exists y. split; [exact Hy|]. by apply HK.
Qed.

(** C25: every ticket that stays overdue is flagged in the end, and stays flagged,
    where the task keeps running as time goes on, whatever else is asked of the desk
    in between, on whatever objects; only the edit of a draft, which saves the whole
    object, is given the row as it is stored, as a stale edit does erase the flag
    ([a_stale_draft_erases_the_flag]). *)
Theorem overdue_tickets_are_flagged (tr : nat -> SupportDB) (i due : Z)
    (Hstart : desk_reachable (tr O)) (Hsteps : forall n, careful_step (tr n) (tr (S n)))
    (Hfair : forall n, exists m env, (n <= m)%nat /\ due <= clock env /\
       tr (S m) = (mark_sla_breaches None env (tr m)).2)
    (Hover : exists k, forall n, (k <= n)%nat ->
       exists t, rows_of (tr n) !! i = Some t /\ (flagged t \/ overdue due t)) :
  exists n, forall m, (n <= m)%nat -> exists t, rows_of (tr m) !! i = Some t /\ flagged t.
Proof.
  assert (forall n m, (n <= m)%nat -> rtc careful_step (tr n) (tr m)) as Hrun.
  { intros n m. induction 1 as [|m _ IH]; [done|]. by eapply rtc_r. }
  assert (forall n, desk_reachable (tr n)) as Hreach.
  { intros n. destruct Hstart as (db0 & H0 & Hs). exists db0. split; [done|].
    etrans; [exact Hs|]. apply Hrun. lia. }
  destruct Hover as [k Hover]. destruct (Hfair k) as (m & env & Hkm & Hdue & Htask).
  destruct (Hover m Hkm) as (t & Ht & Hcase).
  assert (exists x, rows_of (tr (S m)) !! i = Some x /\ flagged x) as (x & Hx & Hf).
  { destruct (Hover (S m)) as (x & Hx & [Hf|Ho]); [lia|eauto|].
    destruct (breach_task_spec (tr m) env None (desk_reachable_intact _ (Hreach m)))
      as (n & db' & Htr & Hnone & _).
    rewrite Htr in Htask. simpl in Htask. exists x. split; [done|]. rewrite Htask in Hx.
    eapply Hnone; [exact Hx|]. by eapply overdue_later. }
  exists (S m). intros n Hn. eapply flag_stays; [by apply Hrun|by apply desk_reachable_intact|done|done].
Qed.

(** ** Examples *)

Definition ten_days_later : SupportEnv := desk_after (10 * usec_per_day).

Definition flagged_desk : SupportDB := after (mark_sla_breaches None) ten_days_later submitted_desk.

Lemma breach_task_leaves_nothing_overdue_witness :
  exists n db', mark_sla_breaches None ten_days_later submitted_desk = (Ok n, db') /\
    (forall i x, rows_of db' !! i = Some x -> overdue (clock ten_days_later) x -> flagged x) /\
    (forall i x, rows_of db' !! i = Some x -> ~ flagged x -> rows_of submitted_desk !! i = Some x).
Proof.
  exact (breach_task_leaves_nothing_overdue submitted_desk ten_days_later None submitted_reachable).
Defined.

(** From the submission on only the task runs. *)
Definition quiet_desk (n : nat) : SupportDB :=
  match n with O => submitted_desk | S _ => flagged_desk end.

Lemma overdue_tickets_are_flagged_witness :
  exists n, forall m, (n <= m)%nat -> exists t, rows_of (quiet_desk m) !! 1 = Some t /\ flagged t.
Proof.
  assert (flagged_desk = (mark_sla_breaches None ten_days_later flagged_desk).2) as Hagain
    by (vm_compute; reflexivity).
  assert (rows_of flagged_desk !! 1 = Some (ticket_of flagged_desk) /\
    is_Some (tk_sla_breached_at (ticket_of flagged_desk))) as [Hrow Hfl]
    by (vm_compute; split; [reflexivity|by eexists]).
  apply (overdue_tickets_are_flagged quiet_desk 1 (saturday_ten - tehran)).
  - apply submitted_reachable.
  - intros [|n]; [apply careful, step_breaches|]. simpl. rewrite Hagain at 2. apply careful, step_breaches.
  - intros n. exists (S n), ten_days_later. split_and!; [lia|by apply Z.leb_le|exact Hagain].
  - exists O. intros [|n] _.
    + exists (ticket_of submitted_desk). split; [vm_compute; reflexivity|]. right.
      split_and!; [vm_compute; reflexivity..|left; vm_compute; reflexivity].
    + exists (ticket_of flagged_desk). split; [exact Hrow|by left].
Defined.

(** The draft was read before it was sent in; its edit comes after the flag. *)
Example a_stale_draft_erases_the_flag :
  let db := after (update_draft_ticket (ticket_of opened_desk) (Some sample_client) None None None
                     (Some "Refund very late"%string) None) ten_days_later flagged_desk in
  desk_step (Some (ticket_of opened_desk)) flagged_desk db /\
  is_Some (tk_sla_breached_at (ticket_of flagged_desk)) /\ tk_sla_breached_at (ticket_of db) = None.
Proof. split; [apply step_update_draft|]. vm_compute. split; [by eexists|done]. Qed.

(** The task looks at every ticket that is not closed, archived or spam: one that
    was resolved in time is flagged later, and made an escalated one again,
    without an entry in the history of its status. *)
Definition resolved_desk : SupportDB :=
  after (resolve_ticket (ticket_of submitted_desk) (Some sample_agent) "Done") (desk_after usec_per_hour)
    submitted_desk.

Example resolved_ticket_is_escalated :
  let db := after (mark_sla_breaches None) ten_days_later resolved_desk in
  tk_status (ticket_of resolved_desk) = TicketStatus.RESOLVED /\
  tk_status (ticket_of db) = TicketStatus.ESCALATED /\
  size (rows_of (A := SupportTicketStatusHistory) db) =
  size (rows_of (A := SupportTicketStatusHistory) resolved_desk).
Proof. vm_compute. tauto. Qed.

(** So is one whose clock is paused while the desk waits for its client. *)
Example waiting_ticket_is_escalated :
  let db := after (mark_sla_breaches None) ten_days_later answered_desk in
  tk_status (ticket_of answered_desk) = TicketStatus.WAITING_FOR_USER /\
  is_Some (tk_sla_paused_at (ticket_of answered_desk)) /\
  tk_status (ticket_of db) = TicketStatus.ESCALATED /\ is_Some (tk_sla_breached_at (ticket_of db)).
Proof. vm_compute. split_and!; try reflexivity; by eexists. Qed.
