(* ===== verification/SupportWorkflow.v ===== *)
(** What the services of the workflow do to a ticket that was just read: the row
    they leave is a function of the row they found, up to its counters and the
    time of the last save.  The status then follows an abstract machine, and the
    time in which the desk waits for its client is added to the deadlines. *)

From S2P Require Import Prelude Python Choices Orm Models NotificationModels World Apps Text.
From S2P Require Import Notifications SupportModels ServiceLevel SupportTaxonomy SupportTriage.
From S2P Require Import Sample SupportSample SupportTickets SupportCounters.
#[local] Open Scope Z_scope.
#[local] Arguments set_row : simpl never.
#[local] Arguments add_row : simpl never.

(** * The row and the object agree *)

Definition stored (t : SupportTicket) (db : SupportDB) : Prop := rows_of db !! tk_id t = Some t.

(** A ticket without its counters and the time of the last save. *)
Definition core (x : SupportTicket) : SupportTicket :=
  x <| tk_message_count := 0 |> <| tk_attachment_count := 0 |> <| tk_internal_note_count := 0 |>
    <| tk_updated_at := 0 |>.

Definition alike (x y : SupportTicket) : Prop := core x = core y.

#[export] Instance alike_equivalence : Equivalence alike.
Proof. unfold alike. split; [by intros x|by intros x y|by intros x y z -> ->]. Qed.

Lemma alike_status x y : alike x y -> tk_status y = tk_status x.
Proof. intros H. symmetry. exact (f_equal tk_status H). Qed.

(** A change of the other columns goes along with [alike]. *)
Lemma alike_map (f : SupportTicket -> SupportTicket) x y :
  (forall z, core (f z) = core (f (core z))) -> alike x y -> alike (f x) (f y).
Proof. unfold alike. intros Hf Hxy. by rewrite (Hf x), (Hf y), Hxy. Qed.

(** Runs in one environment, as in [SupportCounters.returns]. *)
Definition runs {A} (env : SupportEnv) (P : SupportDB -> Prop) (m : SM A) (Q : A -> SupportDB -> Prop) : Prop :=
  forall db a db', P db -> m env db = (Ok a, db') -> Q a db'.

Section Runs.
Context {A B : Type} (env : SupportEnv).
Implicit Types (P : SupportDB -> Prop).

Lemma runs_bind P (R : A -> SupportDB -> Prop) (Q : B -> SupportDB -> Prop) (m : SM A) k :
  runs env P m R -> (forall a, runs env (R a) (k a) Q) -> runs env P (m ≫= k) Q.
Proof. intros Hm Hk db b db' HP (a & s & H1 & H2)%bind_ok_inv. by eapply Hk; [eapply Hm|]. Qed.

Lemma runs_ret P (Q : A -> SupportDB -> Prop) a : (forall db, P db -> Q a db) -> runs env P (mret a) Q.
Proof. intros HQ db b db' HP [-> ->]%ret_ok_inv. by apply HQ. Qed.

Lemma runs_weaken P P' (Q Q' : A -> SupportDB -> Prop) m :
  runs env P' m Q' -> (forall db, P db -> P' db) -> (forall a db, Q' a db -> Q a db) -> runs env P m Q.
Proof. intros Hm HP HQ db a db' Hdb Hr. eapply HQ, Hm; [by apply HP|exact Hr]. Qed.

Lemma runs_raise P (Q : A -> SupportDB -> Prop) e : runs env P (raise e) Q.
Proof. by intros db a db' _. Qed.

Lemma runs_atomic P (Q : A -> SupportDB -> Prop) m : runs env P m Q -> runs env P (atomic m) Q.
Proof. intros Hm db a db' HP Hr%atomic_ok_inv. by eapply Hm. Qed.

Lemma runs_guard P c e (k : unit -> SM B) Q :
  (c = false -> runs env P (k tt) Q) -> runs env P (raise_if c e ≫= k) Q.
Proof.
  intros Hk db b db' HP ([] & s & [Hc ->]%raise_if_ok_inv & H2)%bind_ok_inv. by eapply Hk.
Qed.

Lemma runs_now P (k : Z -> SM B) Q :
  runs env P (k (clock env)) Q -> runs env P (timezone_now ≫= k) Q.
Proof. intros Hk db b db' HP (n & s & Hn & H2)%bind_ok_inv. comp_inv Hn. by eapply Hk. Qed.
End Runs.

(** * The parts *)

(** What [_change_status], [_resume_sla_if_needed] and [_pause_sla_if_needed]
    make of a ticket. *)
Definition moved_to (st : TicketStatus.t) (now : Z) (t : SupportTicket) : SupportTicket :=
  if bool_decide (tk_status t = st) then t
  else
    let t := t <| tk_status := st |> <| tk_last_activity_at := now |> in
    match st with
    | TicketStatus.RESOLVED => t <| tk_resolved_at := Some now |>
    | TicketStatus.CLOSED => t <| tk_closed_at := Some now |>
    | TicketStatus.REOPENED =>
        t <| tk_reopened_at := Some now |> <| tk_reopen_count := tk_reopen_count t + 1 |>
    | _ => t
    end.

(** The whole seconds of a pause, in microseconds. *)
Definition waited (since now : Z) : Z := Z.max (whole_seconds (now - since)) 0 * 1000000.

Definition resumed (now : Z) (t : SupportTicket) : SupportTicket :=
  match tk_sla_paused_at t with
  | None => t
  | Some since =>
      t <| tk_sla_total_paused_seconds :=
             tk_sla_total_paused_seconds t + Z.max (whole_seconds (now - since)) 0 |>
        <| tk_first_response_due_at :=
             (fun due => due + waited since now) <$> tk_first_response_due_at t |>
        <| tk_resolution_due_at := (fun due => due + waited since now) <$> tk_resolution_due_at t |>
        <| tk_sla_paused_at := None |>
  end.

Definition paused (pauses : bool) (now : Z) (t : SupportTicket) : SupportTicket :=
  if pauses && bool_decide (tk_sla_paused_at t = None) then t <| tk_sla_paused_at := Some now |> else t.

(** Whether the policy of a ticket stops the clock while the client is asked. *)
Definition pauses_when_waiting (t : SupportTicket) (db : SupportDB) : bool :=
  from_option sla_pause_when_waiting_for_user false
    (p ← tk_applied_sla_policy t; rows_of (A := SupportSLAPolicy) db !! p).

Lemma moved_to_core st now z : core (moved_to st now z) = core (moved_to st now (core z)).
Proof.
  unfold moved_to. change (tk_status (core z)) with (tk_status z).
  case_bool_decide; [done|]. by destruct st.
Qed.

Lemma resumed_core now z : core (resumed now z) = core (resumed now (core z)).
Proof.
  unfold resumed. change (tk_sla_paused_at (core z)) with (tk_sla_paused_at z).
  by destruct (tk_sla_paused_at z).
Qed.

Lemma paused_core b now z : core (paused b now z) = core (paused b now (core z)).
Proof.
  unfold paused. change (tk_sla_paused_at (core z)) with (tk_sla_paused_at z).
  by destruct (b && _).
Qed.

Section Parts.
Context (env : SupportEnv) (db0 : SupportDB).

(** The object [t] is the row; the policies are those of the start. *)
Definition holds (t : SupportTicket) (db : SupportDB) : Prop :=
  stored t db /\ same_table SupportSLAPolicy db0 db.

(** The ticket that a service returns is the row it leaves, and [alike] [x]. *)
Definition left_as (x t : SupportTicket) (db : SupportDB) : Prop := holds t db /\ alike x t.

Lemma left_as_alike {B} x (k : SupportTicket -> SM B) Q t :
  (alike x t -> runs env (holds t) (k t) Q) -> runs env (left_as x t) (k t) Q.
Proof. intros Hk db a db' [Ht Hx]. by apply Hk. Qed.

(** What leaves the tickets and the policies alone. *)
Lemma runs_quiet {A} t (m : SM A) : moves quiet m -> runs env (holds t) m (fun _ => holds t).
Proof.
  intros Hm db a db' [Ht Hp] Hr. apply moves_ok with (T := quiet) in Hr as (Hq & _ & _ & Hq'); [|done].
  split; [|by etrans]. unfold stored. by rewrite (same_table_rows _ _ Hq).
Qed.

Lemma runs_then_quiet {A B} t (m : SM A) (k : A -> SM B) Q : moves quiet m ->
  (forall a, runs env (holds t) (k a) Q) -> runs env (holds t) (m ≫= k) Q.
Proof. intros Hm Hk. eapply runs_bind; [by apply runs_quiet|exact Hk]. Qed.

(** A part that leaves a ticket, then the rest. *)
Lemma runs_then {B} P x (m : SM SupportTicket) (k : SupportTicket -> SM B) Q :
  runs env P m (left_as x) -> (forall t, alike x t -> runs env (holds t) (k t) Q) ->
  runs env P (m ≫= k) Q.
Proof. intros Hm Hk. eapply runs_bind; [exact Hm|]. intros t. apply left_as_alike, Hk. Qed.

(** Saving the columns that changed leaves the object as the row. *)
Lemma save_runs x t cols : foldl (copy_column t) x cols = t -> tk_id x = tk_id t ->
  runs env (holds x) (save_ticket t cols) (left_as t).
Proof.
  intros Hcols Hid db a db' [Hx Hp] (-> & row & Hrow & ->)%save_ticket_ok_inv.
  unfold stored in Hx. rewrite Hid in Hx. assert (row = x) as -> by congruence. split; [split|done].
  - unfold stored. simpl. by rewrite Hcols, rows_of_set_row, lookup_insert_eq.
  - unfold same_table in *. by rewrite table_of_set_row_other.
Qed.

Lemma sync_runs t : runs env (holds t) (sync_ticket_counters t) (left_as t).
Proof.
  unfold sync_ticket_counters. do 3 (apply runs_then_quiet; [solve_moves|]; intros ?).
  eapply runs_weaken; [by apply (save_runs t)|done|]. intros t' db [Hs Ha]. split; [done|].
  etrans; [|exact Ha]. done.
Qed.

Lemma message_runs {B} t k u ty b i s md (f : SupportTicketMessage -> SM B) Q :
  (forall m, runs env (holds t) (f m) Q) ->
  runs env (holds t) (add_message k u ty b i s md ≫= f) Q.
Proof.
  intros Hf. eapply runs_bind; [|exact Hf]. intros db m db' [Ht Hp] Hrun. unfold add_message in Hrun.
  comp_inv Hrun. split; [unfold stored; by rewrite rows_of_add_row_other|].
  unfold same_table in *. by rewrite table_of_add_row_other.
Qed.

Lemma ret_runs x t : alike x t -> runs env (holds t) (mret t) (left_as x).
Proof. intros Hx. apply runs_ret. by intros db Ht. Qed.

Lemma alike_runs x y (m : SM SupportTicket) P : alike x y -> runs env P m (left_as y) ->
  runs env P m (left_as x).
Proof.
  intros Hxy Hm. eapply runs_weaken; [exact Hm|done|]. intros t db [Ht Ha]. split; [done|by etrans].
Qed.

Lemma change_status_runs t u st reason now :
  runs env (holds t) (change_status t u st reason now) (left_as (moved_to st now t)).
Proof.
  unfold change_status, moved_to. case_bool_decide; [by apply ret_runs|].
  set (new := t <| tk_status := st |>). set (changed := match st with TicketStatus.RESOLVED => _ | _ => _ end).
  set (result := match st with TicketStatus.RESOLVED => _ | _ => _ end).
  assert (foldl (copy_column (changed.1 <| tk_last_activity_at := now |>)) t
            (c_status :: changed.2 ++ [c_last_activity_at]) = changed.1 <| tk_last_activity_at := now |> /\
          tk_id t = tk_id changed.1 /\ result = changed.1 <| tk_last_activity_at := now |>) as (H1 & H2 & ->)
    by (by destruct st).
  destruct changed as [t1 cols]. cbv beta iota. simpl in H2.
  eapply runs_then; [by apply (save_runs t)|]. intros t2 Ha.
  apply runs_then_quiet; [solve_moves|]. intros _.
  destruct u as [u|]; [|by apply ret_runs]. apply message_runs. intros m.
  eapply alike_runs; [exact Ha|apply sync_runs].
Qed.

Lemma resume_runs t now : runs env (holds t) (resume_sla_if_needed t now) (left_as (resumed now t)).
Proof.
  unfold resume_sla_if_needed, resumed. destruct (tk_sla_paused_at t); [|by apply ret_runs].
  eapply runs_then; [by apply (save_runs t)|]. intros t2 Ha.
  apply runs_then_quiet; [solve_moves|]. intros _. by apply ret_runs.
Qed.

Lemma pause_with_runs pol t now : runs env (holds t)
  (match pol, tk_sla_paused_at t with
   | Some p, None =>
       if sla_pause_when_waiting_for_user p then
         t1 ← save_ticket (t <| tk_sla_paused_at := Some now |>) [c_sla_paused_at];
         _ ← record_sla_event (tk_id t1) SLAEventType.PAUSED (Some now) [];
         mret t1
       else mret t
   | _, _ => mret t
   end) (left_as (paused (from_option sla_pause_when_waiting_for_user false pol) now t)).
Proof.
  unfold paused. destruct pol as [x|]; [|by apply ret_runs]. simpl.
  destruct (tk_sla_paused_at t); [rewrite andb_false_r; by apply ret_runs|]. rewrite andb_true_r.
  destruct (sla_pause_when_waiting_for_user x); [|by apply ret_runs].
  eapply runs_then; [by apply (save_runs t)|]. intros t2 Ha.
  apply runs_then_quiet; [solve_moves|]. intros _. by apply ret_runs.
Qed.

Lemma pause_runs t now : runs env (holds t) (pause_sla_if_needed t now)
  (left_as (paused (pauses_when_waiting t db0) now t)).
Proof.
  intros db a db' Ht Hrun. unfold pause_sla_if_needed in Hrun.
  apply bind_ok_inv in Hrun as (pol & db1 & Hpol & Hrun).
  assert (db1 = db /\ from_option sla_pause_when_waiting_for_user false pol = pauses_when_waiting t db0)
    as [-> <-].
  { unfold pauses_when_waiting. rewrite <- (same_table_rows _ _ (proj2 Ht)).
    destruct (tk_applied_sla_policy t) as [p|]; comp_inv Hpol; [|done]. simpl. by simplify_option_eq. }
  exact (pause_with_runs pol t now db a db' Ht Hrun).
Qed.
End Parts.

(** * The services *)

Definition user_replied (now : Z) (t : SupportTicket) : SupportTicket :=
  moved_to TicketStatus.WAITING_FOR_ADMIN now
    ((resumed now t) <| tk_last_user_message_at := Some now |> <| tk_last_activity_at := now |>).

Definition admin_replied (pauses : bool) (now : Z) (t : SupportTicket) : SupportTicket :=
  paused pauses now (moved_to TicketStatus.WAITING_FOR_USER now
    (t <| tk_first_admin_response_at := Some (default now (tk_first_admin_response_at t)) |>
       <| tk_last_admin_message_at := Some now |> <| tk_last_activity_at := now |>)).

Definition escalated (by_ : option Z) (reason : string) (now : Z) (t : SupportTicket) : SupportTicket :=
  moved_to TicketStatus.ESCALATED now
    (t <| tk_escalated_at := Some now |> <| tk_escalated_by := by_ |> <| tk_escalation_reason := reason |>).

(** A service that leaves a row [alike] [x]. *)
Definition leaves {A} (x : SupportTicket) (db0 : SupportDB) (_ : A) (db : SupportDB) : Prop :=
  exists t, holds db0 t db /\ alike x t.

Section Services.
Context (env : SupportEnv) (db0 : SupportDB) (t : SupportTicket).
Abbreviation now_or at_ := (default (clock env) at_).
Abbreviation holds := (holds db0).
Abbreviation left_as := (left_as db0).

Lemma runs_leaves P (m : SM SupportTicket) x : runs env P m (left_as x) -> runs env P m (leaves x db0).
Proof. intros Hm. eapply runs_weaken; [exact Hm|done|]. intros a db [Ha Hx]. by exists a. Qed.

Lemma ret_leaves {A} (a : A) x t' : alike x t' -> runs env (holds t') (mret a) (leaves x db0).
Proof. intros Hx. apply runs_ret. intros db Ht. by exists t'. Qed.

Lemma user_reply_runs user body at_ :
  runs env (holds t) (add_user_reply t user body at_) (leaves (user_replied (now_or at_) t) db0).
Proof.
  apply runs_atomic. do 2 (apply runs_guard; intros _). apply runs_now.
  set (now := now_or at_). eapply runs_then; [apply resume_runs|]. intros t1 H1. cbv beta zeta.
  apply message_runs. intros m.
  eapply runs_then; [by apply (save_runs _ _ t1)|]. intros t2 H2.
  eapply runs_then; [apply change_status_runs|]. intros t3 H3.
  eapply runs_then; [apply sync_runs|]. intros t4 H4.
  apply runs_then_quiet; [solve_moves|]. intros _. apply ret_leaves.
  etrans; [|exact H4]. etrans; [|exact H3]. unfold user_replied.
  apply alike_map; [apply moved_to_core|]. etrans; [|exact H2].
  by apply (alike_map (fun z => z <| tk_last_user_message_at := Some now |> <| tk_last_activity_at := now |>)).
Qed.

Lemma admin_reply_runs admin body at_ :
  runs env (holds t) (add_admin_reply t admin body at_)
    (leaves (admin_replied (pauses_when_waiting t db0) (now_or at_) t) db0).
Proof.
  apply runs_atomic. destruct admin as [u|]; [|apply runs_raise].
  do 2 (apply runs_guard; intros _). apply runs_now. set (now := now_or at_). cbv zeta.
  apply message_runs. intros m.
  eapply runs_then; [by apply (save_runs _ _ t)|]. intros t2 H2.
  eapply runs_then; [apply change_status_runs|]. intros t3 H3.
  assert (alike (moved_to TicketStatus.WAITING_FOR_USER now
    (t <| tk_first_admin_response_at := Some (default now (tk_first_admin_response_at t)) |>
       <| tk_last_admin_message_at := Some now |> <| tk_last_activity_at := now |>)) t3) as Ha.
  { etrans; [|exact H3]. apply alike_map; [apply moved_to_core|exact H2]. }
  assert (pauses_when_waiting t3 db0 = pauses_when_waiting t db0) as Hp.
  { unfold pauses_when_waiting. apply (f_equal tk_applied_sla_policy) in Ha.
    change (tk_applied_sla_policy (core t3)) with (tk_applied_sla_policy t3) in Ha. rewrite <- Ha.
    unfold moved_to. by case_bool_decide. }
  eapply runs_then; [apply pause_runs|]. intros t4 H4. rewrite Hp in H4.
  eapply runs_then; [apply sync_runs|]. intros t5 H5.
  apply runs_then_quiet; [solve_moves|]. intros _. apply ret_leaves.
  etrans; [|exact H5]. etrans; [|exact H4]. unfold admin_replied. apply alike_map; [apply paused_core|exact Ha].
Qed.

Lemma change_runs admin st s reason : of_value (A := TicketStatus.t) s = Some st ->
  runs env (holds t) (change_ticket_status t admin s reason) (left_as (moved_to st (clock env) t)).
Proof.
  intros Hst. apply runs_atomic. apply runs_guard; intros _. rewrite Hst. apply runs_now.
  apply change_status_runs.
Qed.

Lemma resolve_runs admin reason :
  runs env (holds t) (resolve_ticket t admin reason) (leaves (moved_to TicketStatus.RESOLVED (clock env) t) db0).
Proof.
  apply runs_atomic. apply runs_guard; intros _.
  eapply runs_then; [by apply change_runs|]. intros t1 H1.
  apply runs_then_quiet; [solve_moves|]. intros _. by apply ret_leaves.
Qed.

Lemma close_runs user reason :
  runs env (holds t) (close_ticket t user reason) (leaves (moved_to TicketStatus.CLOSED (clock env) t) db0).
Proof.
  apply runs_atomic. repeat (apply runs_guard; intros _). apply runs_now.
  apply runs_leaves, change_status_runs.
Qed.

Lemma reopen_runs user reason :
  runs env (holds t) (reopen_ticket t user reason)
    (leaves (moved_to TicketStatus.REOPENED (clock env) (resumed (clock env) t)) db0).
Proof.
  apply runs_atomic. apply runs_guard; intros _. apply runs_now. apply runs_guard; intros _.
  eapply runs_then; [apply resume_runs|]. intros t1 H1. apply runs_leaves.
  eapply alike_runs; [|apply change_status_runs]. apply alike_map; [apply moved_to_core|exact H1].
Qed.

Lemma escalate_runs admin reason :
  runs env (holds t) (escalate_ticket t admin reason)
    (leaves (escalated (su_id <$> admin) reason (clock env) t) db0).
Proof.
  apply runs_atomic. apply runs_guard; intros _. apply runs_now.
  eapply runs_then; [by apply (save_runs _ _ t)|]. intros t1 H1.
  apply runs_then_quiet; [solve_moves|]. intros _. apply runs_leaves.
  eapply alike_runs; [|apply change_status_runs]. unfold escalated. apply alike_map; [apply moved_to_core|exact H1].
Qed.

(** The deadlines of a submission are those of [apply_sla]. *)
Lemma submit_runs user at_ :
  runs env (holds t) (submit_ticket t user at_)
    (fun _ db => exists t', stored t' db /\ tk_id t' = tk_id t /\ tk_status t' = TicketStatus.SUBMITTED).
Proof.
  apply runs_atomic. do 2 (apply runs_guard; intros _). apply runs_now. cbv zeta.
  eapply runs_then; [apply change_status_runs|]. intros t1 H1.
  eapply runs_then; [by apply (save_runs _ _ t1)|]. intros t2 H2.
  assert (tk_id t2 = tk_id t /\ tk_status t2 = TicketStatus.SUBMITTED) as [Hid Hst].
  { apply (f_equal (fun z => (tk_id z, tk_status z))) in H1, H2. simpl in H1, H2.
    injection H2 as <- <-. injection H1 as <- <-. unfold moved_to. by case_bool_decide. }
  apply runs_then_quiet; [solve_moves|]. intros ty.
  apply runs_then_quiet; [solve_moves|]. intros pol. unfold apply_sla.
  destruct pol as [p|]; [|by apply runs_ret; intros db [Hs _]; exists t2].
  do 2 (apply runs_then_quiet; [solve_moves|]; intros ?).
  eapply runs_then; [by apply (save_runs _ _ t2)|]. intros t3 H3.
  apply runs_then_quiet; [solve_moves|]. intros _. apply runs_ret. intros db [Hs _]. exists t3.
  split; [done|]. apply (f_equal (fun z => (tk_id z, tk_status z))) in H3. simpl in H3.
  injection H3 as <- <-. done.
Qed.
End Services.

(** * Waiting for the client *)

Lemma leaves_row {A} x db0 (a : A) db t' : leaves x db0 a db -> rows_of db !! tk_id x = Some t' -> alike x t'.
Proof.
  intros (t & [Hs _] & Ha) Ht'. assert (tk_id t = tk_id x) as Hid by (symmetry; exact (f_equal tk_id Ha)).
  unfold stored in Hs. rewrite Hid in Hs. by simplify_eq.
Qed.

(** What the deadlines of a ticket depend on. *)
Definition clock_of (t : SupportTicket) : option Z * Z * option Z * option Z * option Z :=
  (tk_sla_paused_at t, tk_sla_total_paused_seconds t, tk_first_response_due_at t,
   tk_resolution_due_at t, tk_applied_sla_policy t).

Lemma alike_clock x y : alike x y -> clock_of x = clock_of y.
Proof. intros H. exact (f_equal clock_of H). Qed.

Lemma moved_to_clock st now t : clock_of (moved_to st now t) = clock_of t.
Proof. unfold moved_to. case_bool_decide; [done|]. by destruct st. Qed.

Lemma moved_to_status st now t : tk_status (moved_to st now t) = st.
Proof. unfold moved_to. case_bool_decide; [done|]. by destruct st. Qed.

Lemma moved_to_id st now t : tk_id (moved_to st now t) = tk_id t.
Proof. unfold moved_to. case_bool_decide; [done|]. by destruct st. Qed.

Lemma waited_bounds since now : since <= now ->
  waited since now = (now - since) / 1000000 * 1000000 /\ now - since - 1000000 < waited since now <= now - since.
Proof. intros Hle. unfold waited, whole_seconds. Z.to_euclidean_division_equations. lia. Qed.

Lemma paused_clock b now t : tk_sla_paused_at t = None ->
  clock_of (paused b now t) = ((if b then Some now else None), tk_sla_total_paused_seconds t,
    tk_first_response_due_at t, tk_resolution_due_at t, tk_applied_sla_policy t).
Proof. unfold paused, clock_of. intros Hno. destruct b; simpl; rewrite Hno; done. Qed.

Lemma paused_id b now t : tk_id (paused b now t) = tk_id t.
Proof. unfold paused. by destruct (b && _). Qed.

Lemma admin_replied_clock b now t : tk_sla_paused_at t = None ->
  clock_of (admin_replied b now t) = ((if b then Some now else None), tk_sla_total_paused_seconds t,
    tk_first_response_due_at t, tk_resolution_due_at t, tk_applied_sla_policy t).
Proof.
  intros Hno. unfold admin_replied. set (y := _ <| tk_last_activity_at := now |>).
  pose proof (moved_to_clock TicketStatus.WAITING_FOR_USER now y) as Hz.
  injection Hz as H1 H2 H3 H4 H5. rewrite paused_clock; [by rewrite H2, H3, H4, H5|by rewrite H1].
Qed.

Lemma admin_replied_id b now t : tk_id (admin_replied b now t) = tk_id t.
Proof. unfold admin_replied. by rewrite paused_id, moved_to_id. Qed.

Lemma user_replied_clock now t : clock_of (user_replied now t) = clock_of (resumed now t).
Proof. unfold user_replied. by rewrite moved_to_clock. Qed.

Lemma resumed_id now t : tk_id (resumed now t) = tk_id t.
Proof. unfold resumed. by destruct (tk_sla_paused_at t). Qed.

Lemma user_replied_id now t : tk_id (user_replied now t) = tk_id t.
Proof. unfold user_replied. rewrite moved_to_id. apply resumed_id. Qed.

(** C23: the time in which the desk waits for its client is not counted: from an
    answer that stops the clock to the client's reply, the deadlines move by the
    whole seconds that went by, which are also added to the account of the
    pauses, and the clock runs again. *)
Theorem waiting_for_the_client_costs_no_time (env1 env2 : SupportEnv) (db db1 db2 : SupportDB)
    (t t1 : SupportTicket) (admin user : actor) (answer reply : string)
    (m1 m2 : SupportTicketMessage) (now1 now2 : Z)
    (Hstored : stored t db) (Hrunning : tk_sla_paused_at t = None)
    (Hpauses : pauses_when_waiting t db = true) (Hle : now1 <= now2)
    (Hanswer : add_admin_reply t admin answer (Some now1) env1 db = (Ok m1, db1))
    (Hread : rows_of db1 !! tk_id t = Some t1)
    (Hreply : add_user_reply t1 user reply (Some now2) env2 db1 = (Ok m2, db2)) :
  exists t2, rows_of db2 !! tk_id t = Some t2 /\ tk_status t2 = TicketStatus.WAITING_FOR_ADMIN /\
    let seconds := (now2 - now1) / 1000000 in
    tk_sla_paused_at t2 = None /\
    tk_sla_total_paused_seconds t2 = tk_sla_total_paused_seconds t + seconds /\
    tk_first_response_due_at t2 = (fun due => due + seconds * 1000000) <$> tk_first_response_due_at t /\
    tk_resolution_due_at t2 = (fun due => due + seconds * 1000000) <$> tk_resolution_due_at t.
Proof.
  apply (admin_reply_runs env1 db t) in Hanswer; [|done]. rewrite Hpauses in Hanswer. simpl in Hanswer.
  apply leaves_row with (t' := t1) in Hanswer; [|by rewrite admin_replied_id].
  assert (tk_id t1 = tk_id t) as Hid.
  { rewrite <- (admin_replied_id true now1 t). symmetry. exact (f_equal tk_id Hanswer). }
  apply alike_clock in Hanswer. rewrite admin_replied_clock in Hanswer by done.
  injection Hanswer as Hp Ht Hf Hr _.
  apply (user_reply_runs env2 db1 t1) in Hreply; [|split; [unfold stored; by rewrite Hid|reflexivity]]. simpl in Hreply.
  destruct Hreply as (t2 & [Hs _] & Ha). exists t2.
  assert (tk_id t2 = tk_id t) as Hid2.
  { rewrite <- Hid, <- (user_replied_id now2 t1). symmetry. exact (f_equal tk_id Ha). }
  split; [by rewrite <- Hid2|]. split.
  { rewrite (alike_status _ _ Ha). apply moved_to_status. }
  apply alike_clock in Ha. rewrite user_replied_clock in Ha. unfold resumed, clock_of in Ha.
  rewrite <- Hp in Ha. simpl in Ha. injection Ha as <- <- <- <- _.
  destruct (waited_bounds now1 now2 Hle) as [-> _]. rewrite <- Ht, <- Hf, <- Hr. split; [done|].
  split; [|done]. unfold whole_seconds. Z.to_euclidean_division_equations. lia.
Qed.

(** * The abstract machine *)

(** What is asked about a ticket, with what the request carries. *)
Inductive ticket_request : Type :=
| ask_submit (at_ : option Z)
| ask_user_reply (body : string) (at_ : option Z)
| ask_admin_reply (body : string) (at_ : option Z)
| ask_status (status : string) (reason : string)
| ask_resolve (reason : string)
| ask_close (reason : string)
| ask_reopen (reason : string)
| ask_escalate (reason : string).

Definition perform (a : ticket_request) (t : SupportTicket) (u : actor) : SM unit :=
  match a with
  | ask_submit at_ => _ ← submit_ticket t u at_; mret tt
  | ask_user_reply body at_ => _ ← add_user_reply t u body at_; mret tt
  | ask_admin_reply body at_ => _ ← add_admin_reply t u body at_; mret tt
  | ask_status status reason => _ ← change_ticket_status t u status reason; mret tt
  | ask_resolve reason => _ ← resolve_ticket t u reason; mret tt
  | ask_close reason => _ ← close_ticket t u reason; mret tt
  | ask_reopen reason => _ ← reopen_ticket t u reason; mret tt
  | ask_escalate reason => _ ← escalate_ticket t u reason; mret tt
  end.

(** The machine of the services: who may ask for what in which status, and the
    status that it leads to.  A ticket is [recent] for seven days after it was
    closed or resolved.  What the desk was meant to be is [blueprint], below. *)
Record standing : Type := mkStanding { asks_owner : bool; asks_admin : bool; recent : bool }.

Definition in_conversation (s : TicketStatus.t) : bool :=
  match s with
  | TicketStatus.SUBMITTED | TicketStatus.OPEN | TicketStatus.IN_PROGRESS | TicketStatus.REOPENED
  | TicketStatus.ESCALATED => true
  | _ => false
  end.

Definition permitted (a : ticket_request) (who : standing) (s : TicketStatus.t) : bool :=
  match a with
  | ask_submit _ => asks_owner who && match s with TicketStatus.DRAFT => true | _ => false end
  | ask_user_reply _ _ => asks_owner who &&
      (in_conversation s || match s with TicketStatus.WAITING_FOR_USER => true | _ => false end)
  | ask_admin_reply _ _ => asks_admin who &&
      (in_conversation s || match s with TicketStatus.WAITING_FOR_ADMIN => true | _ => false end)
  | ask_status _ _ => asks_admin who
  | ask_resolve _ => asks_admin who &&
      match s with TicketStatus.CLOSED | TicketStatus.ARCHIVED | TicketStatus.SPAM => false | _ => true end
  | ask_close _ => (asks_owner who || asks_admin who) &&
      match s with
      | TicketStatus.RESOLVED | TicketStatus.WAITING_FOR_USER | TicketStatus.OPEN
      | TicketStatus.IN_PROGRESS | TicketStatus.REOPENED | TicketStatus.ESCALATED => true
      | _ => false
      end
  | ask_reopen _ => asks_owner who && recent who &&
      match s with TicketStatus.RESOLVED | TicketStatus.CLOSED => true | _ => false end
  | ask_escalate _ => asks_admin who
  end.

Definition target (a : ticket_request) : option TicketStatus.t :=
  match a with
  | ask_submit _ => Some TicketStatus.SUBMITTED
  | ask_user_reply _ _ => Some TicketStatus.WAITING_FOR_ADMIN
  | ask_admin_reply _ _ => Some TicketStatus.WAITING_FOR_USER
  | ask_status status _ => of_value status
  | ask_resolve _ => Some TicketStatus.RESOLVED
  | ask_close _ => Some TicketStatus.CLOSED
  | ask_reopen _ => Some TicketStatus.REOPENED
  | ask_escalate _ => Some TicketStatus.ESCALATED
  end.

Definition ticket_next (a : ticket_request) (who : standing) (s : TicketStatus.t) :
    option TicketStatus.t :=
  if permitted a who s then target a else None.

(** ** The blueprint *)

(** [docs/SUPPORT_DESK_BLUEPRINT.md], section 7: what a user may ask about his own
    tickets, and what an administrator may ask. *)
Definition entitled (a : ticket_request) (who : standing) : bool :=
  match a with
  | ask_submit _ | ask_user_reply _ _ | ask_reopen _ => asks_owner who
  | ask_admin_reply _ _ | ask_status _ _ | ask_resolve _ | ask_close _ | ask_escalate _ => asks_admin who
  end.

(** An open ticket: in conversation or waiting for one of the two. *)
Definition open_ticket (s : TicketStatus.t) : bool :=
  in_conversation s ||
  match s with TicketStatus.WAITING_FOR_USER | TicketStatus.WAITING_FOR_ADMIN => true | _ => false end.

(** Section 4, the life of a ticket: the arrows that leave a status; there are none
    drawn from the statuses that are left out. *)
Definition arrows (s : TicketStatus.t) (recent : bool) : option (list TicketStatus.t) :=
  match s with
  | TicketStatus.DRAFT => Some [TicketStatus.SUBMITTED]
  | TicketStatus.SUBMITTED => Some [TicketStatus.OPEN]
  | TicketStatus.OPEN =>
      Some [TicketStatus.IN_PROGRESS; TicketStatus.WAITING_FOR_USER; TicketStatus.WAITING_FOR_ADMIN;
            TicketStatus.RESOLVED; TicketStatus.CLOSED; TicketStatus.ESCALATED]
  | TicketStatus.RESOLVED => Some [TicketStatus.REOPENED; TicketStatus.CLOSED]
  | TicketStatus.CLOSED => Some (if recent then [TicketStatus.REOPENED] else [])
  | _ => None
  end.

(** What the blueprint says of a request: that it is to be granted or refused, or
    nothing.  A user's reply has a rule of its own (open tickets, and resolved ones
    that can be reopened), and so has a user's reopening (within the policy). *)
Definition blueprint (a : ticket_request) (who : standing) (s : TicketStatus.t) : option bool :=
  if negb (entitled a who) then Some false
  else match a with
  | ask_user_reply _ _ =>
      Some (open_ticket s || (match s with TicketStatus.RESOLVED => true | _ => false end) && recent who)
  | _ =>
      match target a with
      | None => Some false
      | Some s' =>
          drawn ← arrows s (recent who);
          Some (bool_decide (s' ∈ drawn) &&
                match a with ask_reopen _ => recent who | _ => true end)
      end
  end.

(** Where the services depart from it: the client may not reply twice, nor to a
    resolved ticket; he may close his ticket; and of what an administrator asks only
    the reply and the closing are held to the drawing, but for a reply that comes
    before the ticket is open. *)
Definition departs (a : ticket_request) (who : standing) (s : TicketStatus.t) : bool :=
  match a with
  | ask_user_reply _ _ => asks_owner who &&
      match s with TicketStatus.WAITING_FOR_ADMIN => true | TicketStatus.RESOLVED => recent who | _ => false end
  | ask_close _ => asks_owner who && negb (asks_admin who) &&
      match s with
      | TicketStatus.RESOLVED | TicketStatus.WAITING_FOR_USER | TicketStatus.OPEN
      | TicketStatus.IN_PROGRESS | TicketStatus.REOPENED | TicketStatus.ESCALATED => true
      | _ => false
      end
  | ask_admin_reply _ _ => asks_admin who && match s with TicketStatus.SUBMITTED => true | _ => false end
  | ask_status _ _ => asks_admin who &&
      match target a, arrows s (recent who) with
      | Some s', Some drawn => negb (bool_decide (s' ∈ drawn))
      | _, _ => false
      end
  | ask_resolve _ => asks_admin who &&
      match s with TicketStatus.DRAFT | TicketStatus.SUBMITTED | TicketStatus.RESOLVED => true | _ => false end
  | ask_escalate _ => asks_admin who &&
      match s with
      | TicketStatus.DRAFT | TicketStatus.SUBMITTED | TicketStatus.RESOLVED | TicketStatus.CLOSED => true
      | _ => false
      end
  | ask_submit _ | ask_reopen _ => false
  end.

Definition granted (a : ticket_request) (who : standing) (s : TicketStatus.t) : bool :=
  bool_decide (is_Some (ticket_next a who s)).

Lemma blueprint_kept a who s b :
  blueprint a who s = Some b -> granted a who s = xorb b (departs a who s).
Proof.
  destruct who as [ow ad re].
  destruct a as [at_|x at_|x at_|st r|r|r|r|r];
    unfold blueprint, granted, ticket_next, departs; cbn [target];
    [| | |destruct (of_value st) as [s'|]|..];
    destruct ow, ad, re, s; try (by intros [= <-]); try done.
  all: cbn; intros [= <-]; by destruct s'.
Qed.

Definition within_window (t : SupportTicket) (now : Z) : bool :=
  match (match tk_closed_at t with Some z => Some z | None => tk_resolved_at t end) with
  | Some reference => now <? reference + reopen_window
  | None => false
  end.

Definition standing_of (t : SupportTicket) (u : actor) (now : Z) : standing :=
  mkStanding (is_owner t u) (is_admin u) (within_window t now).

(** ** What is not permitted is refused *)

Definition refused (e : sup_exc) : Prop := e = SupportPermissionError \/ e = SupportTicketStateError.

Definition refuses {A} (m : SM A) env db : Prop := exists e, refused e /\ m env db = (Raise e, db).

Lemma refuses_bind {A B} (m : SM A) (k : A -> SM B) env db : refuses m env db -> refuses (m ≫= k) env db.
Proof. intros (e & He & Hm). exists e. split; [done|]. by rewrite bind_unfold, Hm. Qed.

Lemma refuses_atomic {A} (m : SM A) env db : refuses m env db -> refuses (atomic m) env db.
Proof. intros (e & He & Hm). exists e. split; [done|]. unfold atomic. by rewrite Hm. Qed.

Lemma refuses_raise {A} e env db : refused e -> refuses (raise e : SM A) env db.
Proof. intros He. by exists e. Qed.

(** A guard refuses, or the rest does. *)
Lemma refuses_guard {B} c e (k : unit -> SM B) env db : refused e ->
  (c = false -> refuses (k tt) env db) -> refuses (raise_if c e ≫= k) env db.
Proof.
  intros He Hk. destruct c; [apply refuses_bind; by exists e|].
  destruct (Hk eq_refl) as (e' & He' & Hrun). by exists e'.
Qed.

Lemma refuses_now {B} (k : Z -> SM B) env db :
  refuses (k (clock env)) env db -> refuses (timezone_now ≫= k) env db.
Proof. intros (e & He & Hk). by exists e. Qed.

Section Refused.
Context (env : SupportEnv) (db : SupportDB) (t : SupportTicket) (u : actor).
Abbreviation who := (standing_of t u (clock env)).

(** The guards of a service cover what is not permitted: the last case is one
    that is permitted. *)
Ltac covered Hp :=
  exfalso; unfold permitted, standing_of in Hp; unfold is_admin in *;
  cbn [asks_owner asks_admin recent from_option] in *;
  unfold is_reopenable, within_window, status_in in *;
  repeat match goal with H : negb _ = false |- _ => apply negb_false_iff in H end;
  repeat match goal with H : _ && _ = true |- _ => apply andb_true_iff in H as [? ?] end;
  repeat match goal with H : ?b = true |- _ => rewrite H in Hp end;
  destruct (tk_status t); done.

Lemma submit_refused at_ : permitted (ask_submit at_) who (tk_status t) = false ->
  refuses (submit_ticket t u at_) env db.
Proof.
  intros Hp. apply refuses_atomic, refuses_guard; [by left|]. intros Ho.
  apply refuses_guard; [by right|]. intros Hs. covered Hp.
Qed.

Lemma user_reply_refused b at_ : permitted (ask_user_reply b at_) who (tk_status t) = false ->
  refuses (add_user_reply t u b at_) env db.
Proof.
  intros Hp. apply refuses_atomic, refuses_guard; [by left|]. intros Ho.
  apply refuses_guard; [by right|]. intros Hs. covered Hp.
Qed.

Lemma admin_reply_refused b at_ : permitted (ask_admin_reply b at_) who (tk_status t) = false ->
  refuses (add_admin_reply t u b at_) env db.
Proof.
  intros Hp. apply refuses_atomic. destruct u as [a|]; [|apply refuses_raise; by left].
  apply refuses_guard; [by left|]. intros Ho. apply refuses_guard; [by right|]. intros Hs. covered Hp.
Qed.

Lemma change_refused s r : ticket_next (ask_status s r) who (tk_status t) = None ->
  refuses (change_ticket_status t u s r) env db.
Proof.
  unfold ticket_next. simpl. intros Hp. apply refuses_atomic, refuses_guard; [by left|].
  intros Ha%negb_false_iff. rewrite Ha in Hp. rewrite Hp. apply refuses_raise. by right.
Qed.

Lemma resolve_refused r : permitted (ask_resolve r) who (tk_status t) = false ->
  refuses (resolve_ticket t u r) env db.
Proof.
  intros Hp. apply refuses_atomic, refuses_guard; [by right|]. intros Ht. apply refuses_bind.
  apply refuses_atomic, refuses_guard; [by left|]. intros Ha. covered Hp.
Qed.

Lemma close_refused r : permitted (ask_close r) who (tk_status t) = false ->
  refuses (close_ticket t u r) env db.
Proof.
  intros Hp. apply refuses_atomic, refuses_guard; [by left|]. intros Ho.
  apply refuses_guard; [by right|]. intros Hs. 
  assert (is_owner t u || is_admin u = true) as Hwho by (by destruct (is_owner t u), (is_admin u)).
  covered Hp.
Qed.

Lemma reopen_refused r : permitted (ask_reopen r) who (tk_status t) = false ->
  refuses (reopen_ticket t u r) env db.
Proof.
  intros Hp. apply refuses_atomic, refuses_guard; [by left|]. intros Ho. apply refuses_now.
  apply refuses_guard; [by right|]. intros Hs. covered Hp.
Qed.

Lemma escalate_refused r : permitted (ask_escalate r) who (tk_status t) = false ->
  refuses (escalate_ticket t u r) env db.
Proof.
  intros Hp. apply refuses_atomic, refuses_guard; [by left|]. intros Ho. covered Hp.
Qed.
End Refused.

(** ** The desk implements the machine *)

Lemma accepted {A} (m : SM A) env db i s : (exists m0, m = atomic m0) ->
  runs env (eq db) m (fun _ db' => exists t', rows_of db' !! i = Some t' /\ tk_status t' = s) ->
  (exists e, (_ ← m; mret tt) env db = (Raise e, db)) \/
  (exists db' t', (_ ← m; mret tt) env db = (Ok tt, db') /\ rows_of db' !! i = Some t' /\ tk_status t' = s).
Proof.
  intros [m0 ->] Hm. rewrite bind_unfold. destruct (atomic m0 env db) as [[a|e] db'] eqn:Hrun.
  - right. destruct (Hm db a db' eq_refl Hrun) as (t' & Ht' & Hs). by exists db', t'.
  - left. apply atomic_raise_run in Hrun as [-> _]. by exists e.
Qed.

Lemma leaves_status {A} x s env db t (m : SM A) : stored t db -> tk_id x = tk_id t -> tk_status x = s ->
  runs env (holds db t) m (leaves x db) ->
  runs env (eq db) m (fun _ db' => exists t', rows_of db' !! tk_id t = Some t' /\ tk_status t' = s).
Proof.
  intros Ht Hid Hs Hm db1 a db' <- Hrun.
  destruct (Hm db a db' (conj Ht (reflexivity _)) Hrun) as (t' & [Ht' _] & Ha). exists t'.
  rewrite (alike_status _ _ Ha). split; [|done]. rewrite <- Hid, (f_equal tk_id Ha : tk_id x = tk_id t').
  exact Ht'.
Qed.

Lemma perform_moves a t u env db s : stored t db -> target a = Some s ->
  (exists e, perform a t u env db = (Raise e, db)) \/
  (exists db' t', perform a t u env db = (Ok tt, db') /\ rows_of db' !! tk_id t = Some t' /\ tk_status t' = s).
Proof.
  intros Ht Hs. destruct a as [at_|b at_|b at_|status r|r|r|r|r]; simpl in Hs; try injection Hs as <-;
    apply accepted; try (by eexists).
  - intros db1 x db' <- Hrun.
    destruct (submit_runs env db t u at_ db x db' (conj Ht (reflexivity _)) Hrun) as (t' & Ht' & Hid & Hst).
    exists t'. by rewrite <- Hid.
  - eapply leaves_status; [done| | |apply user_reply_runs]; [apply user_replied_id|apply moved_to_status].
  - eapply leaves_status; [done| | |apply admin_reply_runs]; [apply admin_replied_id|].
    unfold admin_replied, paused. by destruct (_ && _); [change (tk_status (?z <| tk_sla_paused_at := _ |>))
      with (tk_status z)|]; rewrite moved_to_status.
  - eapply leaves_status; [done| | |apply runs_leaves, change_runs, Hs]; [apply moved_to_id|apply moved_to_status].
  - eapply leaves_status; [done| | |apply resolve_runs]; [apply moved_to_id|apply moved_to_status].
  - eapply leaves_status; [done| | |apply close_runs]; [apply moved_to_id|apply moved_to_status].
  - eapply leaves_status; [done| | |apply reopen_runs]; [rewrite moved_to_id; apply resumed_id|apply moved_to_status].
  - eapply leaves_status; [done| | |apply escalate_runs]; unfold escalated;
    [by rewrite moved_to_id|apply moved_to_status].
Qed.

(** C22: the services implement one machine, and where it departs from the blueprint
    of the desk is known.  A request that the machine does not permit to the one who
    asks, in the status the ticket has, is refused with a permission or a state error,
    and nothing is written.  A request that it permits leads to the status that the
    machine says, or ends in an exception of what it uses, with nothing written.
    Whenever the blueprint says whether a request is to be granted - by its list of
    what users and administrators may do, or by its drawing of the life of a ticket,
    with the window in which a closed ticket may be reopened - the machine agrees,
    except in the cases of [departs]: the client may not reply to a resolved ticket
    or while the desk has yet to answer, he may close his ticket, an administrator
    may set any status at any time and resolve or escalate off the drawing, and his
    reply does not wait until the ticket is open. *)
Theorem workflow_refines_machine (a : ticket_request) (t : SupportTicket) (u : actor)
    (env : SupportEnv) (db : SupportDB) (Hstored : stored t db) :
  let who := standing_of t u (clock env) in
  match ticket_next a who (tk_status t) with
  | Some s => (exists e, perform a t u env db = (Raise e, db)) \/
              (exists db' t', perform a t u env db = (Ok tt, db') /\
                 rows_of db' !! tk_id t = Some t' /\ tk_status t' = s)
  | None => exists e, (e = SupportPermissionError \/ e = SupportTicketStateError) /\
              perform a t u env db = (Raise e, db)
  end /\
  forall b, blueprint a who (tk_status t) = Some b ->
    granted a who (tk_status t) = if departs a who (tk_status t) then negb b else b.
Proof.
  cbv zeta. split; [|intros b Hb; rewrite (blueprint_kept _ _ _ _ Hb); by destruct b, (departs _ _ _)].
  destruct (ticket_next a _ _) as [s|] eqn:Hnext.
  - unfold ticket_next in Hnext. destruct (permitted _ _ _); [|done]. by apply perform_moves.
  - change (refuses (perform a t u) env db).
    destruct a as [at_|b at_|b at_|status r|r|r|r|r]; apply refuses_bind;
      [| | |by apply change_refused|..]; unfold ticket_next in Hnext;
      destruct (permitted _ _ _) eqn:Hp in Hnext; try done.
    + by apply submit_refused.
    + by apply user_reply_refused.
    + by apply admin_reply_refused.
    + by apply resolve_refused.
    + by apply close_refused.
    + by apply reopen_refused.
    + by apply escalate_refused.
Qed.

(** ** Examples *)

Lemma sample_answered : stored (ticket_of answered_desk) answered_desk.
Proof. vm_compute. reflexivity. Qed.

(** The client may close a ticket that waits for an answer. *)
Lemma workflow_refines_machine_witness :
  exists db' t', perform (ask_close "Thanks") (ticket_of answered_desk) (Some sample_client) desk_env
      answered_desk = (Ok tt, db') /\
    rows_of db' !! 1 = Some t' /\ tk_status t' = TicketStatus.CLOSED.
Proof.
  pose proof (workflow_refines_machine (ask_close "Thanks") (ticket_of answered_desk)
    (Some sample_client) desk_env answered_desk sample_answered) as Hw. cbv zeta in Hw.
  destruct Hw as [Hm _].
  assert (ticket_next (ask_close "Thanks") (standing_of (ticket_of answered_desk) (Some sample_client)
    (clock desk_env)) (tk_status (ticket_of answered_desk)) = Some TicketStatus.CLOSED) as Hnext
    by (vm_compute; reflexivity).
  rewrite Hnext in Hm. destruct Hm as [[e He]|Hm]; [|exact Hm].
  apply (f_equal (fun r => match r.1 with Ok _ => true | Raise _ => false end)) in He.
  vm_compute in He. discriminate He.
Defined.

(** The client answers half an hour after the administrator: the deadlines are
    half an hour later. *)
Definition replied_desk : SupportDB :=
  after (add_user_reply (ticket_of answered_desk) (Some sample_client) "Thanks" None)
    (desk_after (usec_per_hour + 30 * usec_per_min)) answered_desk.

Definition message_at (i : Z) (db : SupportDB) : SupportTicketMessage :=
  default (mkMessage 0 0 0 TicketMessageType.USER_MESSAGE EmptyString false false None None JNull true 0 0)
    (rows_of db !! i).

Lemma waiting_for_the_client_costs_no_time_witness :
  exists t2, rows_of replied_desk !! 1 = Some t2 /\ tk_status t2 = TicketStatus.WAITING_FOR_ADMIN /\
    tk_resolution_due_at t2 =
      (fun due => due + 1800 * 1000000) <$> tk_resolution_due_at (ticket_of submitted_desk).
Proof.
  destruct (waiting_for_the_client_costs_no_time (desk_after usec_per_hour)
    (desk_after (usec_per_hour + 30 * usec_per_min)) submitted_desk answered_desk replied_desk
    (ticket_of submitted_desk) (ticket_of answered_desk) (Some sample_agent) (Some sample_client)
    "We look into it" "Thanks" (message_at 3 answered_desk) (message_at 5 replied_desk)
    (sample_now + usec_per_hour) (sample_now + (usec_per_hour + 30 * usec_per_min)))
    as (t2 & H1 & H2 & _ & _ & _ & H3).
  1-4: vm_compute; (reflexivity || discriminate).
  - vm_compute. reflexivity.
  - vm_compute. reflexivity.
  - vm_compute. reflexivity.
  - exists t2. split; [exact H1|]. split; [exact H2|]. rewrite H3. reflexivity.
Defined.

(** The blueprint lets a client reply to a resolved ticket that can be reopened; the
    service refuses it. *)
Example a_reply_to_a_resolved_ticket_is_refused :
  let resolved := after (resolve_ticket (ticket_of answered_desk) (Some sample_agent) EmptyString) desk_env
                    answered_desk in
  blueprint (ask_user_reply "It is back" None)
    (standing_of (ticket_of resolved) (Some sample_client) (clock desk_env)) TicketStatus.RESOLVED = Some true /\
  (add_user_reply (ticket_of resolved) (Some sample_client) "It is back" None desk_env resolved).1 =
    Raise SupportTicketStateError.
Proof. vm_compute. tauto. Qed.

(** A ticket that was closed a month ago is reopened by setting its status, which the
    blueprint allows within the window only. *)
Example a_closed_ticket_is_reopened_at_any_time :
  let closed := after (close_ticket (ticket_of answered_desk) (Some sample_client) EmptyString) desk_env
                  answered_desk in
  let later := desk_after (30 * usec_per_day) in
  blueprint (ask_status "reopened" EmptyString)
    (standing_of (ticket_of closed) (Some sample_agent) (clock later)) TicketStatus.CLOSED = Some false /\
  tk_status (ticket_of (after (change_ticket_status (ticket_of closed) (Some sample_agent) "reopened"
    EmptyString) later closed)) = TicketStatus.REOPENED.
Proof. vm_compute. tauto. Qed.

(** The seven days count from the first closing of a ticket for ever: reopened,
    worked on and resolved again, it cannot be reopened the same day. *)
Example second_resolution_is_final :
  let day n := desk_after (n * usec_per_day) in
  let closed := after (close_ticket (ticket_of answered_desk) (Some sample_client) EmptyString) (day 1)
                  answered_desk in
  let reopened := after (reopen_ticket (ticket_of closed) (Some sample_client) EmptyString) (day 2) closed in
  let resolved := after (resolve_ticket (ticket_of reopened) (Some sample_agent) EmptyString) (day 9)
                    reopened in
  tk_status (ticket_of resolved) = TicketStatus.RESOLVED /\
  tk_resolved_at (ticket_of resolved) = Some (clock (day 9)) /\
  (reopen_ticket (ticket_of resolved) (Some sample_client) EmptyString (day 9) resolved).1 =
    Raise SupportTicketStateError.
Proof. vm_compute. tauto. Qed.

(** A second rating is not refused by the service: it ends in the error of the
    database. *)
Example second_rating_is_an_integrity_error :
  let rate db := submit_satisfaction (ticket_of db) (Some sample_client) 5 "Good" desk_env db in
  let resolved := after (resolve_ticket (ticket_of answered_desk) (Some sample_agent) EmptyString) desk_env
                    answered_desk in
  (exists s, (rate resolved).1 = Ok s) /\ (rate (rate resolved).2).1 = Raise SupIntegrityError.
Proof. vm_compute. split; [by eexists|reflexivity]. Qed.
