(* ===== verification/SupportRouting.v ===== *)
(** To whom a ticket is recommended: the administrators who may get it, in the
    order of what they have to do ([get_support_assignment_recommendation] of
    [src/apps/support_desk/services.py] and what it calls). *)

From S2P Require Import Prelude Python Choices Orm Models NotificationModels World Apps Text.
From S2P Require Import SupportModels ServiceLevel SupportTaxonomy SupportTriage.
From S2P Require Import Sample SupportSample SupportTickets SupportCounters.
From stdpp Require Import sorting.
#[local] Open Scope Z_scope.
#[local] Arguments set_row : simpl never.
#[local] Arguments add_row : simpl never.

(** * The order of the candidates *)

#[local] Instance less_loaded_trans : Transitive (fun x y => Is_true (less_loaded x y)).
Proof.
  intros x y z. unfold less_loaded. rewrite !Is_true_true, !orb_true_iff, !andb_true_iff, !orb_true_iff,
    !andb_true_iff, !Z.ltb_lt, !Z.eqb_eq, !Z.leb_le. lia.
Qed.

#[local] Instance less_loaded_total : Total (fun x y => Is_true (less_loaded x y)).
Proof.
  intros x y. unfold less_loaded. rewrite !Is_true_true, !orb_true_iff, !andb_true_iff, !orb_true_iff,
    !andb_true_iff, !Z.ltb_lt, !Z.eqb_eq, !Z.leb_le. lia.
Qed.

Lemma ordered_head {A} (le : A -> A -> bool) (l : list A) x l' :
  Transitive (fun x y => Is_true (le x y)) -> Total (fun x y => Is_true (le x y)) ->
  ordered_by le l = x :: l' -> x ∈ l /\ forall y, y ∈ l -> y = x \/ le x y = true.
Proof.
  intros HT Htot Hl. split; [rewrite <- (elem_of_ordered le), Hl; by left|].
  intros y. rewrite <- (elem_of_ordered le), Hl. intros [->|Hy]%elem_of_cons; [by left|right].
  pose proof (StronglySorted_merge_sort (fun x y => Is_true (le x y)) l) as Hs.
  change (merge_sort _ l) with (ordered_by le l) in Hs. rewrite Hl in Hs.
  apply StronglySorted_inv in Hs as [_ Hall]. rewrite Forall_forall in Hall.
  by apply Is_true_true, Hall.
Qed.

(** Who can be given a ticket of a department. *)
Definition eligible (department : SupportDepartment) (db : SupportDB) (u : SupportUser) : Prop :=
  (exists i, support_users db !! i = Some u) /\ su_is_active u = true /\
  (has_role u = true \/ dep_default_assignee department = Some (su_id u)).

Lemma candidates_eligible d db u : u ∈ support_admin_candidates d db <-> eligible d db u.
Proof.
  unfold support_admin_candidates, eligible. rewrite elem_of_ordered, list_elem_of_fmap. split.
  - intros ([i x] & -> & Hx%elem_of_map_to_list). apply map_lookup_filter_Some in Hx as [Hi Hp].
    simpl in Hp. apply andb_true_iff in Hp as [Ha Hr]. split; [by exists i|]. split; [done|].
    apply orb_true_iff in Hr as [?|?%bool_decide_eq_true]; auto.
  - intros ([i Hi] & Ha & Hr). exists (i, u). split; [done|].
    apply elem_of_map_to_list, map_lookup_filter_Some. split; [done|]. simpl.
    rewrite Ha. simpl. apply orb_true_iff. destruct Hr; [by left|right; by apply bool_decide_eq_true].
Qed.

(** The administrator that is recommended for a ticket may get it, and none
    who may has less to do: the load is that of the open tickets, weighted by
    how pressing they are.  Nobody is recommended only where nobody may get it,
    and the recommendation writes nothing. *)
Theorem least_loaded_is_recommended (t : SupportTicket) (department : option Z) (limit : Z)
    (env : SupportEnv) (db : SupportDB) (d : SupportDepartment)
    (Hd : rows_of db !! default (tk_department t) department = Some d) :
  exists r, get_support_assignment_recommendation t department limit env db = (Ok r, db) /\
    match rec_recommended_assignee r with
    | Some u => eligible d db u /\ forall v, eligible d db v ->
        cand_workload_score (build_assignment_candidate u t d db) <=
        cand_workload_score (build_assignment_candidate v t d db)
    | None => forall v, ~ eligible d db v
    end.
Proof.
  eexists. split.
  { unfold get_support_assignment_recommendation. rewrite bind_unfold, (base_get_ok _ d) by done.
    rewrite bind_unfold. reflexivity. }
  cbn [rec_recommended_assignee]. set (build u := build_assignment_candidate u t d db).
  destruct (ordered_by less_loaded (build <$> support_admin_candidates d db)) as [|c l] eqn:Hl; simpl.
  - intros v Hv%candidates_eligible. apply (list_elem_of_fmap_2 build) in Hv.
    rewrite <- (elem_of_ordered less_loaded), Hl in Hv. by apply not_elem_of_nil in Hv.
  - apply ordered_head in Hl as [Hin Hmin]; [|typeclasses eauto..].
    apply list_elem_of_fmap in Hin as (u & -> & Hu). split; [by apply candidates_eligible|].
    intros v Hv%candidates_eligible. apply (list_elem_of_fmap_2 build), Hmin in Hv as [Hv|Hv].
    + change (cand_workload_score (build u) <= cand_workload_score (build v)). by rewrite Hv.
    + change (cand_workload_score (build u) <= cand_workload_score (build v)).
      unfold less_loaded in Hv. apply orb_true_iff in Hv as [?|[? _]%andb_true_iff]; lia.
Qed.

(** The desk after a request was submitted: the agent has one ticket to do, and
    is the only one who may get it. *)
Lemma least_loaded_is_recommended_witness :
  rows_of (A := SupportDepartment) submitted_desk !! 1 = Some sample_department /\
  exists r, get_support_assignment_recommendation (ticket_of submitted_desk) None 5 desk_env submitted_desk
            = (Ok r, submitted_desk) /\
    match rec_recommended_assignee r with
    | Some u => eligible sample_department submitted_desk u /\
        forall v, eligible sample_department submitted_desk v ->
          cand_workload_score
            (build_assignment_candidate u (ticket_of submitted_desk) sample_department submitted_desk) <=
          cand_workload_score
            (build_assignment_candidate v (ticket_of submitted_desk) sample_department submitted_desk)
    | None => forall v, ~ eligible sample_department submitted_desk v
    end.
Proof.
  assert (rows_of (A := SupportDepartment) submitted_desk !! 1 = Some sample_department) as Hd
    by (vm_compute; reflexivity).
  split; [exact Hd|].
  exact (least_loaded_is_recommended (ticket_of submitted_desk) None 5 desk_env submitted_desk
           sample_department Hd).
Defined.

Example the_agent_is_recommended :
  (su_id <$> match (get_support_assignment_recommendation (ticket_of submitted_desk) None 5 desk_env
                      submitted_desk).1 with
             | Ok r => rec_recommended_assignee r | Raise _ => None end) = Some 2.
Proof. vm_compute. reflexivity. Qed.
