(* ===== verification/Control.v ===== *)
(** Financial control snapshots and the periodic tasks
    ([src/apps/madadkar/services.py], [src/apps/madadkar/tasks.py]). *)

From S2P Require Import Prelude Python Choices Models NotificationModels Orm World Counters.
From S2P Require Import Campaigns Payments.

(** * Financial control *)

Section FinancialControl.
Local Open Scope string_scope.

Definition status_count {A} `{Model DB A} (p : A -> bool) (db : DB) : Z :=
  qs_count (objects_filter p db).

(** [_build_financial_control_payload] *)
Definition build_financial_control_payload : M (list (string * Z)) :=
  cfg ← settings;
  now ← timezone_now;
  db ← get_state;
  let stale_cutoff := (now - MADADKAR_PAYMENT_TIMEOUT_MINUTES cfg * usec_per_min)%Z in
  mret
    [("pending_payments", status_count (fun p =>
        bool_decide (pay_status p = PaymentStatus.PENDING)) db);
     ("stale_pending_payments", status_count (fun p =>
        bool_decide (pay_status p = PaymentStatus.PENDING) &&
        (pay_created_at p <? stale_cutoff)%Z) db);
     ("open_risk_signals", status_count (fun s =>
        bool_decide (risk_status s = MadadkarRiskStatus.OPEN)) db);
     ("high_risk_signals", status_count (fun s =>
        bool_decide (risk_status s = MadadkarRiskStatus.OPEN) &&
        bool_decide (risk_severity s ∈
          [MadadkarRiskSeverity.HIGH; MadadkarRiskSeverity.CRITICAL])) db);
     ("pending_refunds", status_count (fun r =>
        bool_decide (ref_status r = RefundStatus.PENDING_REVIEW)) db);
     ("approved_refunds", status_count (fun r =>
        bool_decide (ref_status r = RefundStatus.APPROVED)) db);
     ("requested_disbursements", status_count (fun d =>
        bool_decide (disb_status d = DisbursementStatus.REQUESTED)) db);
     ("approved_unpaid_disbursements", status_count (fun d =>
        bool_decide (disb_status d = DisbursementStatus.APPROVED)) db);
     ("reconciliation_mismatches",
        qs_sum rb_mismatch_count (objects_filter (fun _ => true) db))].

Record control_flag : Type := mkFlag {
  flag_key : string;
  flag_severity : FinancialControlSeverity.t;
  flag_count : Z;
  flag_message : string;
}.

Definition flag_specs : list (string * FinancialControlSeverity.t * string) :=
  [("stale_pending_payments", FinancialControlSeverity.WARNING,
    "پرداخت‌های pending منقضی‌شده نیازمند cleanup هستند.");
   ("high_risk_signals", FinancialControlSeverity.CRITICAL,
    "سیگنال‌های ریسک high/critical باز وجود دارد.");
   ("pending_refunds", FinancialControlSeverity.WATCH,
    "درخواست‌های refund در انتظار بررسی وجود دارد.");
   ("approved_refunds", FinancialControlSeverity.WARNING,
    "refundهای تأییدشده هنوز تکمیل نشده‌اند.");
   ("requested_disbursements", FinancialControlSeverity.WATCH,
    "درخواست‌های تخصیص مالی در انتظار تأیید وجود دارد.");
   ("approved_unpaid_disbursements", FinancialControlSeverity.WARNING,
    "تخصیص‌های تأییدشده هنوز paid نشده‌اند.");
   ("reconciliation_mismatches", FinancialControlSeverity.WARNING,
    "اختلافات reconciliation نیازمند بررسی مالی هستند.")].

(** [_build_financial_control_flags] *)
Definition build_financial_control_flags (controls : list (string * Z)) :
    list control_flag :=
  omap (fun spec : string * FinancialControlSeverity.t * string =>
    let '(key, severity, message) := spec in
    let count := default 0%Z (assoc_get key controls) in
    if (0 <? count)%Z then Some (mkFlag key severity count message) else None)
    flag_specs.

(** [_derive_financial_control_severity] *)
Definition derive_financial_control_severity (flags : list control_flag) :
    FinancialControlSeverity.t :=
  let severities := flag_severity <$> flags in
  if bool_decide (FinancialControlSeverity.CRITICAL ∈ severities)
  then FinancialControlSeverity.CRITICAL
  else if bool_decide (FinancialControlSeverity.WARNING ∈ severities)
  then FinancialControlSeverity.WARNING
  else if bool_decide (FinancialControlSeverity.WATCH ∈ severities)
  then FinancialControlSeverity.WATCH
  else FinancialControlSeverity.HEALTHY.

Definition flag_json (f : control_flag) : json :=
  JObj [("key", JStr (flag_key f)); ("severity", JStr (value (flag_severity f)));
        ("count", JInt (flag_count f)); ("message", JStr (flag_message f))].

Definition count_severity (s : FinancialControlSeverity.t) (flags : list control_flag) : Z :=
  Z.of_nat (length (filter (fun f => flag_severity f = s) flags)).

Definition generate_financial_control_snapshot (generated_by_task_id : string) :
    M MadadkarFinancialControlSnapshot :=
  env ← ask;
  controls ← build_financial_control_payload;
  let flags := build_financial_control_flags controls in
  let severity := derive_financial_control_severity flags in
  create (fun i now => mkSnapshot i (env_localdate env (env_now env)) severity
    (JObj [("open_flags", JInt (Z.of_nat (length flags)));
           ("critical_flags", JInt (count_severity FinancialControlSeverity.CRITICAL flags));
           ("warning_flags", JInt (count_severity FinancialControlSeverity.WARNING flags))])
    (JObj ((fun kv => (kv.1, JInt kv.2)) <$> controls))
    (JArr (flag_json <$> flags)) generated_by_task_id true now now).

End FinancialControl.

(** * Periodic tasks *)

Record task_result : Type := mkTaskResult {
  total_found : Z;
  done_count : Z;
  failed_count : Z;
  error_details : list (Z * exc);
}.

(** The loop of the tasks: one item at a time, a failing item is recorded and
    the loop goes on. *)
Definition process_items {A B} (item_pk : A -> Z) (process : A -> M B) (items : list A) :
    M task_result :=
  for_fold (fun acc item =>
    try_catch
      (_ ← process item;
       mret (mkTaskResult (total_found acc) (done_count acc + 1) (failed_count acc)
               (error_details acc)))
      (fun e => Some (mret (mkTaskResult (total_found acc) (done_count acc)
                              (failed_count acc + 1)
                              (error_details acc ++ [(item_pk item, e)])))))
    (mkTaskResult (Z.of_nat (length items)) 0 0 []) items.

Definition expire_stale_participations_task : M task_result :=
  stale_participations ← get_stale_participations None;
  process_items part_id expire_stale_participation stale_participations.

Definition close_expired_campaigns_task : M task_result :=
  now ← timezone_now;
  expired_campaigns ← query (fun db => qs_list (get_campaigns_due_for_closing now db));
  process_items camp_id close_campaign_due_to_deadline expired_campaigns.

Definition generate_financial_control_snapshot_task (task_id : string) :
    M (Z * Z * FinancialControlSeverity.t * json) :=
  snapshot ← generate_financial_control_snapshot task_id;
  mret (snap_id snapshot, snap_generated_for_date snapshot, snap_severity snapshot,
        snap_summary snapshot).
