(* ===== verification/Records.v ===== *)
(** The permanent records: the payment ledger, the evidence of the donation
    receipts and the check constraints of the campaigns, along every run of every
    service and whatever its outcome.

    No service updates a ledger entry, the only update of a receipt is the one of
    [record_receipt_resend], and the database takes no campaign that breaks a
    constraint; so the lemmas below go through the services one after the other,
    with the relation [kept_records] that a run may not leave. *)

From S2P Require Import Prelude Python Choices Models NotificationModels Orm World Counters.
From S2P Require Import Campaigns Providers Notifications Ledger Risk Receipts Payments Refunds.
From S2P Require Import Disbursements Reconciliation Control.

(** A receipt without the columns that [DonationReceipt.save] lets change. *)
Definition evidence (r : DonationReceipt) : DonationReceipt :=
  r <| rcpt_resend_count := 0 |> <| rcpt_last_resent_at := None |>
    <| rcpt_updated_at := 0 |>.

Definition same_evidence (r r' : DonationReceipt) : Prop := evidence r' = evidence r.

#[export] Instance same_evidence_preorder : PreOrder same_evidence.
Proof. unfold same_evidence. split; repeat intro; congruence. Qed.

(** Every stored campaign satisfies the check constraints of its table. *)
Definition campaigns_checked (db : DB) : Prop :=
  forall i c, rows_of db !! i = Some c -> campaign_checks c = true.

Definition kept_records (db db' : DB) : Prop :=
  kept (A := PaymentEvent) eq db db' /\ kept (A := DonationReceipt) same_evidence db db' /\
  (campaigns_checked db -> campaigns_checked db').

#[export] Instance kept_records_preorder : PreOrder kept_records.
Proof.
  split; [by split|]. intros x y z (? & ? & ?) (? & ? & ?).
  split; [by etrans|]. split; [by etrans|auto].
Qed.

Lemma campaign_row_checked others c : campaign_row_ok others c = true -> campaign_checks c = true.
Proof. unfold campaign_row_ok. by intros [[_ ?]%andb_true_iff _]%andb_true_iff. Qed.

Lemma checked_add_campaign (c : Campaign) db :
  row_ok (rows_of db) c = true -> campaigns_checked db -> campaigns_checked (add_row c db).
Proof.
  intros Hc Hdb i x. rewrite rows_of_add_row.
  intros [[_ <-]|[_ Hi]]%lookup_insert_Some; [by eapply campaign_row_checked|by eapply Hdb].
Qed.

Lemma checked_set_campaign j (c : Campaign) db :
  row_ok (delete j (rows_of db)) c = true ->
  campaigns_checked db -> campaigns_checked (set_row j c db).
Proof.
  intros Hc Hdb i x. rewrite rows_of_set_row.
  intros [[_ <-]|[_ Hi]]%lookup_insert_Some; [by eapply campaign_row_checked|by eapply Hdb].
Qed.

Lemma checked_same_rows db db' :
  rows_of (A := Campaign) db' = rows_of db -> campaigns_checked db -> campaigns_checked db'.
Proof. intros Hr Hdb i c. rewrite Hr. apply Hdb. Qed.

Lemma kept_records_create {B} `{Model DB B} (mk : Z -> Z -> B) :
  (forall now db, row_ok (rows_of db) (mk (next_id (table_of db)) now) = true ->
     kept_records db (add_row (mk (next_id (table_of db)) now) db)) ->
  moves kept_records (create mk : M B).
Proof. apply moves_create_ok. typeclasses eauto. Qed.

Lemma kept_records_update {B} `{Model DB B} i (upd : B -> B) :
  (forall x db, row_ok (delete i (rows_of db)) (upd x) = true ->
     kept_records db (set_row i (upd x) db)) ->
  moves kept_records (update_row i upd : M unit).
Proof. apply moves_update_row_ok. typeclasses eauto. Qed.

Ltac kept_row :=
  intros ? ? ?; split; [|split];
  first [apply kept_same_table; [typeclasses eauto|reflexivity]
        |apply kept_add_row; [typeclasses eauto|reflexivity]
        |by apply checked_add_campaign
        |by apply checked_set_campaign
        |apply checked_same_rows; reflexivity].
#[local] Hint Extern 1 (moves kept_records (create _)) =>
  apply kept_records_create; kept_row : moves.
#[local] Hint Extern 1 (moves kept_records (update_row _ _)) =>
  apply kept_records_update; kept_row : moves.

(** ** The shared parts *)

Lemma campaign_save_records c copy : moves kept_records (campaign_save c copy).
Proof. unfold campaign_save. solve_moves. Qed.
#[local] Hint Resolve campaign_save_records : moves.

Lemma sync_records c : moves kept_records (sync_campaign_counters c).
Proof. unfold sync_campaign_counters. solve_moves. Qed.
#[local] Hint Resolve sync_records : moves.

Lemma auto_complete_records c :
  moves kept_records (auto_complete_campaign_if_fully_funded c).
Proof. unfold auto_complete_campaign_if_fully_funded. solve_moves. Qed.
#[local] Hint Resolve auto_complete_records : moves.

Lemma record_payment_event_records p k s s' md :
  moves kept_records (record_payment_event p k s s' md).
Proof. unfold record_payment_event. solve_moves. Qed.
#[local] Hint Resolve record_payment_event_records : moves.

Lemma create_madadkar_risk_signal_records l sev ip d md :
  moves kept_records (create_madadkar_risk_signal l sev ip d md).
Proof. unfold create_madadkar_risk_signal. solve_moves. Qed.
#[local] Hint Resolve create_madadkar_risk_signal_records : moves.

Lemma risk_records :
  (forall p w, moves kept_records (evaluate_payment_risk p w)) /\
  (forall r w, moves kept_records (evaluate_refund_risk r w)) /\
  (forall a, moves kept_records (evaluate_adjustment_risk a)) /\
  (forall s u st n, moves kept_records (review_madadkar_risk_signal s u st n)).
Proof.
  unfold evaluate_payment_risk, evaluate_refund_risk, evaluate_adjustment_risk,
    review_madadkar_risk_signal.
  do 3 (split; [solve_moves|]). solve_moves.
Qed.
#[local] Hint Extern 1 (moves kept_records (evaluate_payment_risk _ _)) =>
  apply risk_records : moves.
#[local] Hint Extern 1 (moves kept_records (evaluate_refund_risk _ _)) =>
  apply risk_records : moves.
#[local] Hint Extern 1 (moves kept_records (evaluate_adjustment_risk _)) =>
  apply risk_records : moves.

Lemma render_notification_records et ch pl t :
  moves kept_records (render_notification et ch pl t).
Proof. unfold render_notification, render_template_string. solve_moves. Qed.
#[local] Hint Resolve render_notification_records : moves.

Lemma create_notification_event_records et rs cs pl ac at_ ai pr :
  moves kept_records (create_notification_event et rs cs pl ac at_ ai pr).
Proof.
  unfold create_notification_event, render_channels, create_delivery,
    record_activities_from_notification_event. solve_moves.
Qed.
#[local] Hint Resolve create_notification_event_records : moves.

Lemma notification_records :
  (forall e, moves kept_records (dispatch_event e)) /\
  (forall d u, moves kept_records (mark_delivery_read d u)) /\
  (forall u et c b, moves kept_records (set_preference u et c b)).
Proof.
  unfold dispatch_event, mark_delivery_read, set_preference.
  do 2 (split; [solve_moves|]). solve_moves.
Qed.

Lemma notify_madadkar_payment_success_records p :
  moves kept_records (notify_madadkar_payment_success p).
Proof. unfold notify_madadkar_payment_success, emit_domain_notification. solve_moves. Qed.
#[local] Hint Resolve notify_madadkar_payment_success_records : moves.

Lemma issue_donation_receipt_records p :
  moves kept_records (issue_donation_receipt_for_payment p).
Proof.
  unfold issue_donation_receipt_for_payment, get_user. solve_moves.
  apply moves_pure; [typeclasses eauto|]. intros env db. by destruct (users db !! _).
Qed.
#[local] Hint Resolve issue_donation_receipt_records : moves.

(** A stored receipt only ever gets a new resend count and time. *)
Lemma record_receipt_resend_records r : moves kept_records (record_receipt_resend r).
Proof.
  unfold record_receipt_resend, receipt_save. solve_moves.
  apply moves_update_row; [typeclasses eauto|]. intros x db Hx. split; [|split].
  - apply kept_same_table; [typeclasses eauto|reflexivity].
  - by eapply kept_set_row; [typeclasses eauto..|exact Hx| |].
  - apply checked_same_rows. reflexivity.
Qed.

(** ** Payments *)

Lemma fail_locked_payment_records p q c gs k md :
  moves kept_records (fail_locked_payment p q c gs k md).
Proof. unfold fail_locked_payment. solve_moves. Qed.
#[local] Hint Resolve fail_locked_payment_records : moves.

Lemma settle_locked_payment_records p q c r :
  moves kept_records (settle_locked_payment p q c r).
Proof. unfold settle_locked_payment. solve_moves. Qed.
#[local] Hint Resolve settle_locked_payment_records : moves.

Lemma transaction_records :
  (forall c user n, moves kept_records (reserve_participation_shares c user n)) /\
  (forall q, moves kept_records (release_reserved_participation q)) /\
  (forall q user amount name r ip ua,
     moves kept_records (persist_initiated_payment q user amount name r ip ua)) /\
  (forall p r, moves kept_records (commit_verification p r)) /\
  (forall p r, moves kept_records (commit_amount_mismatch p r)) /\
  (forall p, moves kept_records (confirm_sandbox_payment p)) /\
  (forall p, moves kept_records (commit_cancellation p)) /\
  (forall q, moves kept_records (expire_stale_participation q)).
Proof.
  unfold reserve_participation_shares, release_reserved_participation,
    persist_initiated_payment, commit_verification, commit_amount_mismatch,
    confirm_sandbox_payment, commit_cancellation, expire_stale_participation, lock_payment.
  do 7 (split; [solve_moves|]). solve_moves.
Qed.

Lemma lookup_payment_records a : moves kept_records (lookup_payment a).
Proof. unfold lookup_payment. solve_moves. Qed.
#[local] Hint Resolve lookup_payment_records : moves.

Lemma cancel_pending_payment_records a : moves kept_records (cancel_pending_payment a).
Proof. unfold cancel_pending_payment. solve_moves. Qed.

Lemma initiate_participation_records c user n url ip ua mob em :
  moves kept_records (initiate_participation c user n url ip ua mob em).
Proof.
  intros env db.
  pose proof (initiate_participation_outcome c user n url ip ua mob em env db) as Hout.
  destruct (initiate_participation _ _ _ _ _ _ _ _ env db) as [out db'].
  destruct transaction_records as (Hres & Hrel & Hper & _).
  destruct Hout as [e|q db1 d u db2 H1 H2|q db1 pr r p db2 H1 _ H2|q db1 e db2 H1 _ ->];
    simpl; [reflexivity|..];
    (etrans; [exact (moves_ok _ _ _ _ _ _ (Hres _ _ _) H1)|]); [..|reflexivity].
  - exact (moves_ok _ _ _ _ _ _ (Hrel _) H2).
  - exact (moves_ok _ _ _ _ _ _ (Hper _ _ _ _ _ _ _) H2).
Qed.

Lemma verify_payment_records a : moves kept_records (verify_payment a).
Proof.
  unfold verify_payment.
  apply moves_bind; [typeclasses eauto|apply lookup_payment_records|]. intros p.
  do 2 (case_bool_decide; [by apply moves_pure; [typeclasses eauto|]|]).
  intros env db. rewrite bind_unfold.
  destruct (verify_with_provider (Some (pay_gateway_name p)) a (pay_amount p) env db)
    as [(e & ->)|(pr & r & -> & Hr & Ham)]; [reflexivity|].
  rewrite bind_unfold. unfold try_catch. rewrite Hr. unfold commit_verify_result.
  assert (pvr_success r && negb (pvr_verified_amount r =? pay_amount p) = false) as ->.
  { destruct (pvr_success r); [|done]. by rewrite (Ham eq_refl), Z.eqb_refl. }
  apply transaction_records.
Qed.

(** ** Refunds, adjustments and the rest *)

Lemma refund_records :
  (forall p n reason b note key,
     moves kept_records (request_payment_refund p n reason b note key)) /\
  (forall r b note, moves kept_records (approve_payment_refund r b note)) /\
  (forall r b why, moves kept_records (reject_payment_refund r b why)) /\
  (forall r pref, moves kept_records (complete_payment_refund r pref)).
Proof.
  unfold request_payment_refund, approve_payment_refund, reject_payment_refund,
    complete_payment_refund.
  do 3 (split; [solve_moves|]). solve_moves.
Qed.

Lemma adjustment_records :
  (forall c n kind why b p note,
     moves kept_records (create_financial_adjustment c n kind why b p note)) /\
  (forall a b, moves kept_records (approve_financial_adjustment a b)) /\
  (forall a b why, moves kept_records (reject_financial_adjustment a b why)) /\
  (forall a, moves kept_records (apply_financial_adjustment a)).
Proof.
  unfold create_financial_adjustment, approve_financial_adjustment,
    reject_financial_adjustment, apply_financial_adjustment.
  do 3 (split; [solve_moves|]). solve_moves.
Qed.

Lemma disbursement_records :
  (forall c n nm pu b idn ac doc note,
     moves kept_records (request_campaign_disbursement c n nm pu b idn ac doc note)) /\
  (forall d b, moves kept_records (approve_campaign_disbursement d b)) /\
  (forall d b why, moves kept_records (reject_campaign_disbursement d b why)) /\
  (forall d b t, moves kept_records (mark_campaign_disbursement_paid d b t)).
Proof.
  unfold request_campaign_disbursement, approve_campaign_disbursement,
    reject_campaign_disbursement, mark_campaign_disbursement_paid.
  do 3 (split; [solve_moves|]). solve_moves.
Qed.

Lemma campaign_records :
  (forall s t d im n k hd dl v, moves kept_records (create_campaign s t d im n k hd dl v)) /\
  (forall c fields, moves kept_records (update_campaign c fields)) /\
  (forall c, moves kept_records (publish_campaign c)) /\
  (forall c, moves kept_records (close_campaign c)) /\
  (forall c, moves kept_records (close_campaign_due_to_deadline c)) /\
  (forall c, moves kept_records (delete_campaign c)) /\
  (forall c n amt m r nt f b,
     moves kept_records (record_external_funding c n amt m r nt f b)) /\
  (forall x why, moves kept_records (void_external_funding x why)).
Proof.
  unfold create_campaign, update_campaign, validate_campaign_financial_fields,
    publish_campaign, close_campaign, close_campaign_due_to_deadline, delete_campaign,
    soft_delete_campaign_row, record_external_funding, void_external_funding.
  do 7 (split; [solve_moves|]). solve_moves.
Qed.

Lemma sponsor_records :
  (forall name logo, moves kept_records (create_sponsor name logo)) /\
  (forall s fields, moves kept_records (update_sponsor s fields)) /\
  (forall s, moves kept_records (delete_sponsor s)) /\
  (forall c im alt o, moves kept_records (add_campaign_image c im alt o)) /\
  (forall im, moves kept_records (delete_campaign_image im)).
Proof.
  unfold create_sponsor, update_sponsor, delete_sponsor, sponsor_full_clean,
    add_campaign_image, delete_campaign_image.
  do 4 (split; [solve_moves|]). solve_moves.
Qed.

Lemma report_records :
  (forall name report src, moves kept_records (reconcile_provider_payments name report src)) /\
  (forall tid, moves kept_records (generate_financial_control_snapshot tid)).
Proof.
  unfold reconcile_provider_payments, reconcile_row, finalize_reconciliation_batch,
    generate_financial_control_snapshot, build_financial_control_payload.
  split; solve_moves.
Qed.
