(* ===== verification/System.v ===== *)
(** The madadkar system as a transition relation: every service of the app, run
    to whatever outcome, at any time and with any settings.

    A call is one service call or one of the transactions into which
    [initiate_participation] and [verify_payment] are cut, so the calls of
    several users interleave.  Some services are handed an instance and trust
    what it says without reading the row again: [service P m] says that [m] is a
    service and that [P] is what it takes on trust.  The code does not see to
    [P]; [call] is any service in any state, [step] a call for which [P] holds.
    What is proved of [reachable] states is proved of the histories made of
    steps; the examples at the end show calls that are no steps and what they
    break. *)

From S2P Require Import Prelude Python Choices Models NotificationModels Orm World Counters.
From S2P Require Import Invariant Campaigns Providers Notifications Ledger Risk Receipts.
From S2P Require Import Payments Refunds Disbursements Reconciliation Control Sample Records.

(** * Steps *)

Definition always (db : DB) : Prop := True.

(** The instance is the row as it is stored. *)
Definition current_participation (q : Participation) (db : DB) : Prop :=
  rows_of db !! part_id q = Some q.

(** The payment that is being verified has not been closed in the meantime. *)
Definition still_pending (payment : Payment) (db : DB) : Prop :=
  forall p, rows_of db !! pay_id payment = Some p -> pay_status p = PaymentStatus.PENDING.

Definition no_payment_for (q : Participation) (db : DB) : Prop :=
  forall i p, rows_of (A := Payment) db !! i = Some p -> pay_participation p <> part_id q.

(** [service P m]: [m] is a service, and [P] what it trusts and does not check. *)
Inductive service : (DB -> Prop) -> forall A, M A -> Prop :=
| svc_create_campaign s t d im n k hd dl v :
    service always _ (create_campaign s t d im n k hd dl v)
| svc_update_campaign c fields : service always _ (update_campaign c fields)
| svc_publish_campaign c : service (status_current c) _ (publish_campaign c)
| svc_close_campaign c : service (status_current c) _ (close_campaign c)
| svc_close_due c : service (status_current c) _ (close_campaign_due_to_deadline c)
| svc_delete_campaign c : service always _ (delete_campaign c)
| svc_record_funding c n amt m r nt f b :
    service always _ (record_external_funding c n amt m r nt f b)
| svc_void_funding x why : service always _ (void_external_funding x why)
| svc_initiate c user n url ip ua mob em :
    service always _ (initiate_participation c user n url ip ua mob em)
| svc_reserve c user n : service always _ (reserve_participation_shares c user n)
| svc_release q : service (no_payment_for q) _ (release_reserved_participation q)
| svc_persist q name r ip ua :
    service (fun db => current_participation q db /\
      part_status q = ParticipationStatus.PENDING_PAYMENT /\ part_is_active q = true) _
      (persist_initiated_payment q (part_user q) (part_total_amount q) name r ip ua)
| svc_verify authority : service always _ (verify_payment authority)
| svc_commit_verification p r : service always _ (commit_verification p r)
| svc_commit_mismatch p r : service (still_pending p) _ (commit_amount_mismatch p r)
| svc_confirm_sandbox p : service always _ (confirm_sandbox_payment p)
| svc_cancel authority : service always _ (cancel_pending_payment authority)
| svc_commit_cancellation p : service always _ (commit_cancellation p)
| svc_expire q : service (current_participation q) _ (expire_stale_participation q)
| svc_request_refund p n reason b note key :
    service always _ (request_payment_refund p n reason b note key)
| svc_approve_refund r b note : service always _ (approve_payment_refund r b note)
| svc_reject_refund r b why : service always _ (reject_payment_refund r b why)
| svc_complete_refund r pref : service always _ (complete_payment_refund r pref)
| svc_create_adjustment c n kind why b p note :
    service (fun db => is_Some (rows_of (A := Campaign) db !! camp_id c)) _
      (create_financial_adjustment c n kind why b p note)
| svc_approve_adjustment a b : service always _ (approve_financial_adjustment a b)
| svc_reject_adjustment a b why : service always _ (reject_financial_adjustment a b why)
| svc_apply_adjustment a : service always _ (apply_financial_adjustment a)
| svc_request_disbursement c n nm pu b idn ac doc note :
    service always _ (request_campaign_disbursement c n nm pu b idn ac doc note)
| svc_approve_disbursement d b : service always _ (approve_campaign_disbursement d b)
| svc_reject_disbursement d b why : service always _ (reject_campaign_disbursement d b why)
| svc_pay_disbursement d b t : service always _ (mark_campaign_disbursement_paid d b t)
| svc_issue_receipt p : service always _ (issue_donation_receipt_for_payment p)
| svc_resend_receipt r : service always _ (record_receipt_resend r)
| svc_payment_risk p w : service always _ (evaluate_payment_risk p w)
| svc_refund_risk r w : service always _ (evaluate_refund_risk r w)
| svc_adjustment_risk a : service always _ (evaluate_adjustment_risk a)
| svc_review_risk s u st note : service always _ (review_madadkar_risk_signal s u st note)
| svc_reconcile name report src :
    service always _ (reconcile_provider_payments name report src)
| svc_snapshot tid : service always _ (generate_financial_control_snapshot tid)
| svc_create_sponsor name logo : service always _ (create_sponsor name logo)
| svc_update_sponsor s fields : service always _ (update_sponsor s fields)
| svc_delete_sponsor s : service always _ (delete_sponsor s)
| svc_add_image c im alt o : service always _ (add_campaign_image c im alt o)
| svc_delete_image im : service always _ (delete_campaign_image im)
| svc_notify et rs cs pl ac at_ ai pr :
    service always _ (create_notification_event et rs cs pl ac at_ ai pr)
| svc_dispatch e : service always _ (dispatch_event e)
| svc_mark_read d u : service always _ (mark_delivery_read d u)
| svc_set_preference u et c b : service always _ (set_preference u et c b).

(** Any service in any state, with whatever arguments. *)
Inductive call (db : DB) : DB -> Prop :=
| call_service P A (m : M A) env : service P A m -> call db (m env db).2.

(** A call that is handed what it trusts. *)
Inductive step (db : DB) : DB -> Prop :=
| step_service P A (m : M A) env : service P A m -> P db -> step db (m env db).2.

(** The tables before the first campaign. *)
Definition empty_table {A} : Table A := mkTable ∅ 1.

Definition initial (db : DB) : Prop :=
  core db = (empty_table, empty_table, empty_table, empty_table, empty_table, empty_table).

Inductive reachable : DB -> Prop :=
| reachable_initial db : initial db -> reachable db
| reachable_step db db' : reachable db -> step db db' -> reachable db'.

Inductive steps (db : DB) : DB -> Prop :=
| steps_refl : steps db db
| steps_step db1 db2 : steps db db1 -> step db1 db2 -> steps db db2.

(** The states of a history that starts from the empty tables, the newest first. *)
Inductive history : list DB -> Prop :=
| history_start db : initial db -> history [db]
| history_step db db' past : history (db :: past) -> step db db' -> history (db' :: db :: past).

(** The shares of a campaign that are reserved, sold or funded offline, summed
    over the rows. *)
Definition claimed_shares (i : Z) (db : DB) : Z := reserved_shares i db + external_shares i db.

(** * Every service keeps the tables consistent *)

Lemma generate_financial_control_snapshot_frame tid :
  moves same_core (generate_financial_control_snapshot tid).
Proof.
  unfold generate_financial_control_snapshot, build_financial_control_payload. solve_moves.
Qed.

Lemma sponsor_frames :
  (forall name logo, moves same_core (create_sponsor name logo)) /\
  (forall s fields, moves same_core (update_sponsor s fields)) /\
  (forall s, moves same_core (delete_sponsor s)).
Proof.
  unfold create_sponsor, update_sponsor, delete_sponsor, sponsor_full_clean.
  split; [|split]; solve_moves.
Qed.

Lemma image_frames :
  (forall c im alt o, moves same_core (add_campaign_image c im alt o)) /\
  (forall im, moves same_core (delete_campaign_image im)).
Proof. unfold add_campaign_image, delete_campaign_image. split; solve_moves. Qed.

Lemma sound_frame {b : Bound} {A} (m : M A) env db :
  core_ok db -> moves same_core m -> sound db (m env db).2.
Proof. intros Hok Hm. apply sound_same_core; [done|apply Hm]. Qed.

(** The soundness lemma of the service a run belongs to. *)
Ltac head_of t := lazymatch t with ?f _ => head_of f | _ => t end.
Ltac sound_of H :=
  lazymatch type of H with
  | ?m _ _ = _ =>
      let h := head_of m in
      lazymatch h with
      | create_campaign => eapply create_campaign_sound; [eassumption|exact H|eassumption]
      | update_campaign => eapply update_campaign_sound; [eassumption|exact H|eassumption]
      | publish_campaign => eapply publish_campaign_sound; [eassumption..|exact H]
      | close_campaign => eapply close_campaign_sound; [eassumption..|exact H]
      | close_campaign_due_to_deadline => eapply close_campaign_due_to_deadline_sound; [eassumption..|exact H]
      | delete_campaign => eapply delete_campaign_sound; [eassumption..|exact H]
      | record_external_funding => eapply record_external_funding_sound; [eassumption..|exact H]
      | void_external_funding => eapply void_external_funding_sound; [eassumption..|exact H]
      | reserve_participation_shares => eapply reserve_participation_shares_sound; [eassumption..|exact H]
      | release_reserved_participation => eapply release_reserved_participation_sound; [eassumption..|exact H]
      | commit_verification => eapply commit_verification_sound; [eassumption..|exact H]
      | commit_amount_mismatch => eapply commit_amount_mismatch_sound; [eassumption..|exact H]
      | confirm_sandbox_payment => eapply confirm_sandbox_payment_sound; [eassumption..|exact H]
      | commit_cancellation => eapply commit_cancellation_sound; [eassumption..|exact H]
      | expire_stale_participation => eapply expire_stale_participation_sound; [eassumption..|exact H]
      | request_payment_refund => eapply request_payment_refund_sound; [eassumption..|exact H]
      | approve_payment_refund => eapply approve_payment_refund_sound; [eassumption..|exact H]
      | reject_payment_refund => eapply reject_payment_refund_sound; [eassumption..|exact H]
      | complete_payment_refund => eapply complete_payment_refund_sound; [eassumption..|exact H]
      | create_financial_adjustment => eapply create_financial_adjustment_sound; [eassumption..|exact H]
      | approve_financial_adjustment => eapply approve_financial_adjustment_sound; [eassumption..|exact H]
      | reject_financial_adjustment => eapply reject_financial_adjustment_sound; [eassumption..|exact H]
      | apply_financial_adjustment => eapply apply_financial_adjustment_sound; [eassumption..|exact H]
      end
  end.

Definition totals_within {b : Bound} (db : DB) : Prop :=
  forall i (x : Campaign), rows_of db !! i = Some x -> camp_total_shares x <= bound i.

Lemma service_sound {b : Bound} P A (m : M A) env db :
  service P A m -> P db -> core_ok db -> totals_within (m env db).2 -> sound db (m env db).2.
Proof.
  intros Hm HP Hok Htot.
  destruct Hm; simpl in HP;
    try (apply sound_frame; [done|solve [auto with moves]]);
    try (apply sound_frame; [done|apply sponsor_frames || apply image_frames
           || apply generate_financial_control_snapshot_frame]);
    try solve [eauto using initiate_participation_sound, verify_payment_sound,
                 cancel_pending_payment_sound];
    (apply sound_outcome; [done| |intros err db'; apply atomic_raise_inv]; intros res db' Hrun);
    rewrite Hrun in Htot; simpl in Htot.
  all: try solve [sound_of Hrun].
  destruct HP as (? & ? & ?). by eapply persist_initiated_payment_sound.
Qed.

Lemma core_ok_initial {b : Bound} db : initial db -> core_ok db.
Proof.
  unfold initial, core, empty_table. intros H. injection H as Hc Hx Hq Hp Hr Ha.
  assert (rows_of (A := Campaign) db = ∅ /\ rows_of (A := ExternalFunding) db = ∅ /\
    rows_of (A := Participation) db = ∅ /\ rows_of (A := Payment) db = ∅ /\
    rows_of (A := PaymentRefund) db = ∅ /\
    rows_of (A := CampaignFinancialAdjustment) db = ∅) as (Ec & Ex & Eq & Ep & Er & Ea).
  { unfold rows_of. simpl. by rewrite Hc, Hx, Hq, Hp, Hr, Ha. }
  split; [|intros i c; by rewrite Ec, lookup_empty].
  split; simpl; rewrite ?Hc, ?Hx, ?Hq, ?Hp, ?Hr, ?Ha, ?Ec, ?Ex, ?Eq, ?Ep, ?Er, ?Ea;
    try (split; [simpl; lia|by intros i x]);
    try (intros i x; by rewrite lookup_empty); try (intros i; by rewrite lookup_empty).
Qed.

(** The number of shares of campaign [i], none where there is no such campaign. *)
Definition total_at (i : Z) (db : DB) : Z :=
  match rows_of (A := Campaign) db !! i with Some c => camp_total_shares c | None => 0 end.

Lemma core_ok_weaken (b b' : Bound) db :
  (forall i, is_Some (rows_of (A := Campaign) db !! i) -> b i <= b' i) ->
  @core_ok b db -> @core_ok b' db.
Proof.
  intros Hle [Hb Hc]. split; [done|]. intros i c Hi. destruct (Hc i c Hi) as (? & Ht & Hf).
  specialize (Hle i (mk_is_Some _ _ Hi)). unfold bound in *. repeat split; lia || done.
Qed.

(** A step is sound for the old bound stretched to the new totals. *)
Lemma step_sound (b : Bound) db db' :
  @core_ok b db -> step db db' ->
  @sound (fun i => match rows_of (A := Campaign) db !! i with
                   | Some _ => Z.max (b i) (total_at i db') | None => total_at i db' end) db db'.
Proof.
  intros Hok Hstep. destruct Hstep as [P A m env Hm HP]. apply (service_sound P); [done..| |].
  - eapply core_ok_weaken; [|done]. intros i [c Hc]. rewrite Hc. lia.
  - intros i x Hx. unfold bound. unfold total_at at 1 2. rewrite Hx. case_match; lia.
Qed.

Ltac bound_of H := lazymatch type of H with @core_ok ?b _ => exists b end.

Lemma reachable_ok db : reachable db -> exists b : Bound, core_ok db.
Proof.
  induction 1 as [db H|db db' _ [b IH] Hstep]; [exists (fun _ => 0); by apply core_ok_initial|].
  pose proof (step_sound b db db' IH Hstep) as [Hok _].
  bound_of Hok. exact Hok.
Qed.

Lemma reachable_base db : reachable db -> base_ok db.
Proof. by intros [b [Hb _]]%reachable_ok. Qed.

Lemma steps_sound (b : Bound) db db' :
  core_ok db -> steps db db' -> exists b' : Bound, sound db db'.
Proof.
  intros Hok. induction 1 as [|db1 db2 _ [b1 [Hok1 Hle1]] Hstep].
  - exists b. by apply sound_refl.
  - pose proof (step_sound _ _ _ Hok1 Hstep) as [Hok2 Hle2].
    bound_of Hok2. split; [exact Hok2|]. by etrans.
Qed.

(** * A history *)

(** A campaign is created and published, a donor takes five shares, pays, and
    is partly refunded. *)
Section History.
Local Open Scope string_scope.

Definition h_env : Env := sample_env.

Definition h1 : DB := after (create_sponsor "Sponsor" None) h_env empty_db.
Definition h_draft : Campaign :=
  default sample_campaign (result (create_campaign sample_sponsor "Wells" "Water wells"
    "wells.jpg" 100000 100 false None true) h_env h1).
Definition h2 : DB :=
  after (create_campaign sample_sponsor "Wells" "Water wells" "wells.jpg" 100000 100 false
           None true) h_env h1.
Definition h3 : DB := after (publish_campaign h_draft) h_env h2.
Definition h_campaign : Campaign := default sample_campaign (rows_of h3 !! 1%Z).
Definition h4 : DB :=
  after (initiate_participation h_campaign 1 5 "https://x/callback" (Some "10.0.0.1") "agent"
           "" "") h_env h3.
Definition dummy_payment : Payment :=
  mkPayment 0 0 0 0 "" "" "" "" PaymentStatus.PENDING None None None "" true 0 0.
Definition h_payment : Payment := default dummy_payment (rows_of h4 !! 1%Z).
Definition h5 : DB := after (confirm_sandbox_payment h_payment) h_env h4.
Definition h6 : DB := after (verify_payment (pay_authority h_payment)) h_env h5.
Definition h7 : DB :=
  after (request_payment_refund h_payment 2000 RefundReason.USER_REQUEST (Some 1%Z) ""
           (Some "key-1")) h_env h6.

End History.

Lemma status_current_check c db :
  bool_decide (camp_status <$> rows_of db !! camp_id c = Some (camp_status c)) = true ->
  status_current c db.
Proof. intros H%bool_decide_eq_true row Hr. rewrite Hr in H. by injection H. Qed.

Ltac by_service :=
  first [ apply (step_service _ always); [constructor|exact I]
        | eapply step_service; [constructor|apply status_current_check; vm_compute; reflexivity]
        | eapply step_service; [constructor|vm_compute; reflexivity] ].

Lemma h4_history : history [h4; h3; h2; h1; empty_db].
Proof. do 4 (eapply history_step; [|by_service]). by apply history_start. Qed.

Lemma h1_reachable : reachable h1.
Proof. apply (reachable_step empty_db); [by apply reachable_initial|by_service]. Qed.
Lemma h2_reachable : reachable h2.
Proof. eapply reachable_step; [apply h1_reachable|by_service]. Qed.
Lemma h3_reachable : reachable h3.
Proof. eapply reachable_step; [apply h2_reachable|]. by_service. Qed.
Lemma h4_reachable : reachable h4.
Proof. eapply reachable_step; [apply h3_reachable|by_service]. Qed.
Lemma h5_reachable : reachable h5.
Proof. eapply reachable_step; [apply h4_reachable|by_service]. Qed.
Lemma h6_reachable : reachable h6.
Proof. eapply reachable_step; [apply h5_reachable|by_service]. Qed.
Lemma h7_reachable : reachable h7.
Proof. eapply reachable_step; [apply h6_reachable|by_service]. Qed.

(** * What every call keeps *)

Lemma service_keeps_records P A (m : M A) :
  service P A m -> moves kept_records m.
Proof.
  pose proof initiate_participation_records. pose proof verify_payment_records.
  pose proof cancel_pending_payment_records. pose proof issue_donation_receipt_records.
  pose proof record_receipt_resend_records. pose proof create_notification_event_records.
  destruct campaign_records as (? & ? & ? & ? & ? & ? & ? & ?).
  destruct transaction_records as (? & ? & ? & ? & ? & ? & ? & ?).
  destruct refund_records as (? & ? & ? & ?), adjustment_records as (? & ? & ? & ?).
  destruct disbursement_records as (? & ? & ? & ?), risk_records as (? & ? & ? & ?).
  destruct notification_records as (? & ? & ?), sponsor_records as (? & ? & ? & ? & ?).
  destruct report_records as (? & ?).
  by intros []; auto.
Qed.

Lemma call_keeps_checks db db' : call db db' -> campaigns_checked db -> campaigns_checked db'.
Proof.
  intros [P A m env Hm]. by destruct (service_keeps_records P A m Hm env db) as (_ & _ & ?).
Qed.

Lemma step_call db db' : step db db' -> call db db'.
Proof. intros [P A m env Hm _]. by eapply call_service. Qed.

Lemma no_campaigns db : initial db -> rows_of (A := Campaign) db = ∅.
Proof. intros H. injection H as Hc. unfold rows_of. simpl. by rewrite Hc. Qed.

Lemma reachable_checked db : reachable db -> campaigns_checked db.
Proof.
  induction 1 as [db H|db db' _ IH Hstep].
  - intros i c. by rewrite (no_campaigns db H), lookup_empty.
  - by eapply call_keeps_checks; [apply step_call|].
Qed.

(** * The capacity of a campaign *)

Lemma history_bound hist db past :
  history hist -> hist = db :: past ->
  exists b : Bound, core_ok db /\
    forall i c, rows_of (A := Campaign) db !! i = Some c ->
      exists d cd, d ∈ hist /\ rows_of d !! i = Some cd /\ b i <= camp_total_shares cd.
Proof.
  intros Hh. revert db past. induction Hh as [db0 H|db0 db1 past0 _ IH Hstep];
    intros db past [= <- <-].
  - exists (fun _ => 0). pose proof (core_ok_initial (b := fun _ => 0) db0 H) as Hok.
    split; [done|]. intros i c. by rewrite (no_campaigns db0 H), lookup_empty.
  - destruct (IH db0 past0 eq_refl) as (b & Hok & Hb).
    pose proof (step_sound b db0 db1 Hok Hstep) as [Hok1 _].
    bound_of Hok1. split; [exact Hok1|]. intros i c Hi. simpl. unfold total_at. rewrite Hi.
    destruct (rows_of (A := Campaign) db0 !! i) as [c0|] eqn:H0.
    + destruct (Hb i c0 H0) as (d & cd & Hd & Hcd & Hle).
      destruct (Z.le_gt_cases (b i) (camp_total_shares c)) as [Hc|Hc].
      * exists db1, c. split; [by left|]. split; [done|]. lia.
      * exists d, cd. split; [by right|]. split; [done|]. lia.
    + exists db1, c. split; [by left|]. by split.
Qed.

Lemma history_reachable hist db past : history hist -> hist = db :: past -> reachable db.
Proof.
  intros Hh. revert db past.
  induction Hh as [db0 H|db0 db1 past0 _ IH Hstep]; intros db past [= <- <-].
  - by apply reachable_initial.
  - by eapply reachable_step; [eapply IH|].
Qed.

(** The bound that a state and the totals of a later one allow. *)
Lemma step_bound db db' i (c c' : Campaign) :
  reachable db -> step db db' -> rows_of db !! i = Some c -> rows_of db' !! i = Some c' ->
  claimed_shares i db'
  <= Z.max (claimed_shares i db) (Z.max (camp_total_shares c) (camp_total_shares c')).
Proof.
  intros Hreach Hstep Hi Hi'. destruct (reachable_ok _ Hreach) as [b0 [Hb Hc]].
  set (b := (fun k => Z.max (claimed_shares k db) (total_at k db)) : Bound).
  assert (@core_ok b db) as Hok.
  { split; [done|]. intros k x Hx. destruct (Hc k x Hx) as (He & _ & _). split; [done|].
    unfold bound, b, total_at, claimed_shares. rewrite Hx. split; [lia|].
    unfold counters, true_counters in He. unfold funded_shares. injection He. lia. }
  pose proof (step_sound b db db' Hok Hstep) as [[_ Hok'] _].
  pose proof (counters_ok_capacity _ _ _ Hok' Hi') as Hle.
  unfold bound, b, total_at in Hle. rewrite Hi, Hi' in Hle. unfold claimed_shares at 1. lia.
Qed.

(** C1: in every state of every history of steps the shares of a campaign that
    are reserved or sold, summed over the participations, stay within
    [total_shares], edits of the campaign included.  Together with the shares that
    are funded offline they never exceed the largest number of shares the campaign
    has had, so no more is taken than the campaign has as long as no edit has lowered
    that number; an edit that lowers it is not checked against the offline shares
    ([an_edit_oversells]), but every step leaves at most what was taken before it or
    what the campaign has before or after it, so a campaign that is oversold and stays
    so gets no further share.  A step is
    any service or transaction, with any arguments and any outcome, in any
    interleaving, that is handed what it trusts and does not read again: publishing
    and closing get a campaign with the status that is stored, expiry and the storing
    of a payment the participation as it is stored, a reservation is released before a
    payment is stored for it, an adjustment is asked for a campaign that is stored, and
    the transaction of a mismatching amount gets a payment that is still pending. *)
Theorem no_campaign_is_oversold db past i c :
  history (db :: past) -> rows_of db !! i = Some c ->
  reserved_shares i db <= camp_total_shares c /\
  (exists d cd, d ∈ db :: past /\ rows_of d !! i = Some cd /\
     claimed_shares i db <= camp_total_shares cd) /\
  ((forall d cd, d ∈ past -> rows_of d !! i = Some cd ->
      camp_total_shares cd <= camp_total_shares c) ->
    claimed_shares i db <= camp_total_shares c) /\
  (forall db' c', step db db' -> rows_of db' !! i = Some c' ->
     claimed_shares i db'
     <= Z.max (claimed_shares i db) (Z.max (camp_total_shares c) (camp_total_shares c'))).
Proof.
  intros Hh Hi. destruct (history_bound _ _ _ Hh eq_refl) as (b & [_ Hok] & Hb).
  pose proof (history_reachable _ _ _ Hh eq_refl) as Hreach. split.
  { pose proof (reachable_checked _ Hreach i c Hi) as Hc. destruct (Hok i c Hi) as (He & _).
    unfold counters, true_counters in He. injection He as He _ _ _ _.
    unfold campaign_checks in Hc. rewrite !andb_true_iff in Hc. lia. }
  pose proof (counters_ok_capacity _ _ _ Hok Hi) as Hle.
  destruct (Hb i c Hi) as (d & cd & Hd & Hcd & Ht).
  assert (claimed_shares i db <= camp_total_shares cd) as Hcl
    by (unfold claimed_shares, bound in *; lia).
  split; [by exists d, cd|]. split.
  - intros Hup. apply elem_of_cons in Hd as [->|Hd]; [by simplify_eq|].
    specialize (Hup d cd Hd Hcd). lia.
  - intros db' c' Hstep Hi'. by eapply step_bound.
Qed.

(** * What holds in every reachable state *)

Section Reachable.
Variable db : DB.
Hypothesis Hreach : reachable db.

(** C2: in every state reached by steps the five denormalised counters of every
    campaign are exactly what the rows they summarise give: reserved shares, net
    paid amount, distinct paid users, offline shares and offline amount. *)
Theorem counters_are_always_exact i c :
  rows_of db !! i = Some c -> counters c = true_counters i db.
Proof. intros Hi. destruct (reachable_ok _ Hreach) as [b [_ Hc]]. by destruct (Hc i c Hi) as [? _]. Qed.

(** C3: in every state reached by steps each payment has its participation, with
    the same amount and the same user and a status that fits (pending with pending,
    successful with paid or refunded, failed with failed or expired), and no
    other payment is for that participation.  A step hands the services that read
    no row again what they trust: expiry and the storing of a payment get the
    participation as it is stored, a reservation is released before a payment is
    stored for it, an adjustment is asked for a campaign that is stored, and the
    transaction of a mismatching amount gets a payment that is still pending.  The code does not see to that, and a late expiry does break the
    pairing ([a_late_expiry_parts_them]). *)
Theorem payment_and_participation_agree i p :
  rows_of db !! i = Some p ->
  exists q, rows_of db !! pay_participation p = Some q /\
    status_coupled (pay_status p) (part_status q) /\
    pay_amount p = part_total_amount q /\ pay_user p = part_user q /\
    part_total_amount q = part_share_count q * part_share_price_snapshot q /\
    forall j p', rows_of db !! j = Some p' -> pay_participation p' = pay_participation p ->
      j = i.
Proof.
  intros Hi. pose proof (reachable_base _ Hreach) as Hb.
  destruct (payments_ok _ Hb i p Hi) as (q & Hq & Hs & Ha & Hu & _).
  exists q. do 4 (split; [done|]). split.
  - by apply (participations_ok _ Hb) in Hq as (_ & _ & ?).
  - intros j p' Hj. by eapply payments_unique.
Qed.

(** C4: in every state reached by steps the completed and the open refunds of a payment
    together never exceed what was paid. *)
Theorem refunds_stay_within_the_payment i p :
  rows_of db !! i = Some p ->
  completed_refund_total i db + open_refund_total i db <= pay_amount p.
Proof.
  intros Hi. rewrite refund_totals. by apply (reachable_base _ Hreach).
Qed.

(** C5: along every sequence of steps the rows of the money tables are never
    removed and only move forward: amounts, owners and links never change, a closed
    payment keeps its status, a participation goes from pending to one outcome and
    from paid at most to refunded, refunds, adjustments, offline fundings and
    campaigns follow their life cycles.  A step hands the services that read no row
    again what they trust: publishing and closing get a campaign with the status that
    is stored, expiry and the storing of a payment the participation as it is stored,
    a reservation is released before a payment is stored for it, an adjustment is asked
    for a campaign that is stored, and the transaction of a mismatching amount gets a
    payment that is still pending.  The code does not see to it, and late calls do move
    rows backwards ([a_late_expiry_parts_them], [a_late_publication_reopens],
    [a_late_mismatch_fails_a_paid_payment]). *)
Theorem rows_only_move_forward db' : steps db db' -> core_le db db'.
Proof.
  intros Hs. destruct (reachable_ok _ Hreach) as [b Hok].
  by destruct (steps_sound b _ _ Hok Hs) as [b' [_ Hle]].
Qed.

End Reachable.

Lemma no_campaign_is_oversold_witness :
  exists c, rows_of h4 !! 1 = Some c /\ camp_purchased_shares c = 5 /\
    claimed_shares 1 h4 <= camp_total_shares c.
Proof.
  destruct (rows_of (A := Campaign) h4 !! 1) as [c|] eqn:Hc; [|vm_compute in Hc; discriminate].
  exists c. split; [reflexivity|].
  destruct (no_campaign_is_oversold h4 [h3; h2; h1; empty_db] 1 c h4_history Hc) as (_ & _ & Hle & _).
  vm_compute in Hc. injection Hc as <-. split; [reflexivity|]. apply Hle.
  intros d cd Hd Hcd. repeat (apply elem_of_cons in Hd as [->|Hd];
    [vm_compute in Hcd; (discriminate || (injection Hcd as <-; vm_compute; discriminate))|]).
  by apply elem_of_nil in Hd.
Defined.

Lemma counters_are_always_exact_witness :
  exists c, rows_of h7 !! 1 = Some c /\ counters c = true_counters 1 h7 /\
    counters c = (5, 5000, 1, 0, 0).
Proof.
  destruct (rows_of (A := Campaign) h7 !! 1) as [c|] eqn:Hc; [|vm_compute in Hc; discriminate].
  exists c. split; [reflexivity|]. split.
  - exact (counters_are_always_exact h7 h7_reachable 1 c Hc).
  - vm_compute in Hc. injection Hc as <-. reflexivity.
Defined.

Lemma payment_and_participation_agree_witness :
  exists p q, rows_of h6 !! 1 = Some p /\ pay_status p = PaymentStatus.SUCCESS /\
    rows_of h6 !! pay_participation p = Some q /\
    status_coupled (pay_status p) (part_status q).
Proof.
  destruct (rows_of (A := Payment) h6 !! 1) as [p|] eqn:Hp; [|vm_compute in Hp; discriminate].
  destruct (payment_and_participation_agree h6 h6_reachable 1 p Hp) as (q & Hq & Hs & _).
  exists p, q. split; [reflexivity|]. split; [|split; [exact Hq|exact Hs]].
  vm_compute in Hp. injection Hp as <-. reflexivity.
Defined.

Lemma refunds_stay_within_the_payment_witness :
  exists p, rows_of h7 !! 1 = Some p /\
    open_refund_total 1 h7 = 2000 /\
    completed_refund_total 1 h7 + open_refund_total 1 h7 <= pay_amount p.
Proof.
  destruct (rows_of (A := Payment) h7 !! 1) as [p|] eqn:Hp; [|vm_compute in Hp; discriminate].
  exists p. split; [reflexivity|]. split; [vm_compute; reflexivity|].
  exact (refunds_stay_within_the_payment h7 h7_reachable 1 p Hp).
Defined.

Lemma h4_to_h7 : steps h4 h7.
Proof.
  apply (steps_step _ h6); [|by_service].
  apply (steps_step _ h5); [|by_service].
  apply (steps_step _ h4); [|by_service]. constructor.
Qed.

Lemma rows_only_move_forward_witness : core_le h4 h7.
Proof. exact (rows_only_move_forward h4 h4_reachable h7 h4_to_h7). Defined.

(** ** Calls that are not steps *)

(** The number of shares is only locked by paid participations, and the database
    compares it with the online shares alone: an edit takes it below what was funded
    offline.  This call is a step. *)
Definition h_offline : DB :=
  after (record_external_funding h_campaign 60 None ExternalFundingMethod.CASH "" "" None None)
    h_env h3.
Definition h_offline_campaign : Campaign := default sample_campaign (rows_of h_offline !! 1%Z).
Definition h_lowered : DB :=
  after (update_campaign h_offline_campaign [field_total_shares 10]) h_env h_offline.

Example an_edit_oversells :
  reachable h_lowered /\ claimed_shares 1 h_lowered = 60 /\
  camp_total_shares <$> rows_of h_lowered !! 1 = Some 10.
Proof.
  split; [|by vm_compute].
  apply (reachable_step h_offline); [apply (reachable_step h3); [apply h3_reachable|]|].
  - exact (step_service _ always _ _ h_env (svc_record_funding h_campaign 60 None
      ExternalFundingMethod.CASH ""%string ""%string None None) I).
  - exact (step_service _ always _ _ h_env
             (svc_update_campaign h_offline_campaign [field_total_shares 10]) I).
Qed.

(** The expiry task looked at the participation before it was paid. *)
Definition h_pending : Participation :=
  default (mkParticipation 0 0 0 0 0 0 ParticipationStatus.PAID None true 0 0) (rows_of h4 !! 1%Z).

Example a_late_expiry_parts_them :
  exists db', call h6 db' /\
    pay_status <$> rows_of db' !! 1 = Some PaymentStatus.SUCCESS /\
    part_status <$> rows_of h6 !! 1 = Some ParticipationStatus.PAID /\
    part_status <$> rows_of db' !! 1 = Some ParticipationStatus.EXPIRED.
Proof.
  exists (after (expire_stale_participation h_pending) h_env h6).
  split; [exact (call_service _ _ _ _ h_env (svc_expire h_pending))|]. by vm_compute.
Qed.

(** The campaign was published and closed since the instance was read. *)
Definition h_closed : DB := after (close_campaign h_campaign) h_env h3.

Example a_late_publication_reopens :
  exists db', call h_closed db' /\
    camp_status <$> rows_of h_closed !! 1 = Some CampaignStatus.CLOSED /\
    camp_status <$> rows_of db' !! 1 = Some CampaignStatus.PUBLISHED.
Proof.
  exists (after (publish_campaign h_draft) h_env h_closed).
  split; [exact (call_service _ _ _ _ h_env (svc_publish_campaign h_draft))|]. by vm_compute.
Qed.

Definition h_mismatch : PaymentVerifyResult := mkVerifyResult true false "R" 4000 "100" "" [].

(** The payment was settled while another verification heard of another amount. *)
Example a_late_mismatch_fails_a_paid_payment :
  exists db', call h6 db' /\
    pay_status <$> rows_of h6 !! 1 = Some PaymentStatus.SUCCESS /\
    pay_status <$> rows_of db' !! 1 = Some PaymentStatus.FAILED.
Proof.
  exists (after (commit_amount_mismatch h_payment h_mismatch) h_env h6).
  split; [exact (call_service _ _ _ _ h_env (svc_commit_mismatch h_payment h_mismatch))|].
  by vm_compute.
Qed.

(** * The permanent records *)

(** No service, called with any arguments at any time and whether it returns
    or raises, changes or removes an entry of the payment ledger. *)
Theorem ledger_is_append_only P A (m : M A) env db i (e : PaymentEvent) :
  service P A m -> table_good (table_of (A := PaymentEvent) db) ->
  rows_of db !! i = Some e -> rows_of (m env db).2 !! i = Some e.
Proof.
  intros Hm Hg Hi. destruct (service_keeps_records P A m Hm env db) as [Hk _].
  destruct (Hk Hg) as [_ Hev]. by destruct (Hev _ _ Hi) as (e' & He' & ->).
Qed.

(** no service changes or removes an issued receipt, its resend count and
    resend time apart: number, hash, amount, time of issue and the three snapshots
    stay as they were issued. *)
Theorem receipt_evidence_is_immutable P A (m : M A) env db i (r : DonationReceipt) :
  service P A m -> table_good (table_of (A := DonationReceipt) db) ->
  rows_of db !! i = Some r ->
  exists r', rows_of (m env db).2 !! i = Some r' /\ evidence r' = evidence r.
Proof.
  intros Hm Hg Hi. destruct (service_keeps_records P A m Hm env db) as (_ & Hk & _).
  destruct (Hk Hg) as [_ Hev]. exact (Hev _ _ Hi).
Qed.

Lemma ledger_is_append_only_witness :
  exists e, rows_of h4 !! 1 = Some e /\ ev_event_kind e = PaymentEventKind.CREATED /\
    rows_of h5 !! 1 = Some e.
Proof.
  destruct (rows_of (A := PaymentEvent) h4 !! 1) as [e|] eqn:He; [|vm_compute in He; discriminate].
  exists e. split; [reflexivity|]. split; [vm_compute in He; injection He as <-; reflexivity|].
  refine (ledger_is_append_only _ _ _ h_env h4 1 e (svc_confirm_sandbox h_payment) _ He).
  apply good_check; vm_compute; reflexivity.
Defined.

Lemma receipt_evidence_is_immutable_witness :
  exists r r', rows_of h6 !! 1 = Some r /\ rows_of h7 !! 1 = Some r' /\
    evidence r' = evidence r /\ rcpt_receipt_number r = "MDK-20231114-0000000001"%string.
Proof.
  destruct (rows_of (A := DonationReceipt) h6 !! 1) as [r|] eqn:Hr;
    [|vm_compute in Hr; discriminate].
  destruct (receipt_evidence_is_immutable _ _ _ h_env h6 1 r
    (svc_request_refund h_payment 2000 RefundReason.USER_REQUEST (Some 1) "" (Some "key-1"%string)))
    as (r' & Hr' & He); [apply good_check; vm_compute; reflexivity|exact Hr|].
  exists r, r'. split; [reflexivity|]. split; [exact Hr'|]. split; [exact He|].
  vm_compute in Hr. injection Hr as <-. reflexivity.
Defined.

(** * The life of a payment *)

(** The provider that the payment's gateway name resolves to reports [r]. *)
Definition gateway_reports (p : Payment) (r : PaymentVerifyResult) (env : Env) (db : DB) :
    Prop :=
  exists pr, get_payment_provider (Some (pay_gateway_name p)) env db = (Ok pr, db) /\
    provider_verify_payment pr (pay_authority p) (pay_amount p) env db = (Ok r, db).

Lemma verify_payment_pending authority env db p r :
  payment_by_authority authority db = Some p -> pay_status p = PaymentStatus.PENDING ->
  gateway_reports p r env db ->
  verify_payment authority env db = commit_verification p r env db.
Proof.
  intros Hfind Hst (pr & Hpr & Hr).
  destruct (payment_by_authority_Some _ _ _ Hfind) as (i & _ & _ & <-).
  unfold verify_payment. rewrite (bind_ok _ _ _ _ _ _ (lookup_payment_found _ env _ _ Hfind)).
  rewrite Hst. case_bool_decide; [done|]. case_bool_decide; [done|].
  rewrite (bind_ok _ _ _ _ _ _ Hpr), bind_unfold. unfold try_catch. rewrite Hr.
  unfold commit_verify_result.
  pose proof (get_payment_provider_ok_inv _ _ _ _ _ Hpr) as [_ Hlaw].
  destruct (provider_verify_ok (p := pr) (pay_authority p) (pay_amount p) env db)
    as (r' & Hr' & Ham). rewrite Hr in Hr'. injection Hr' as <-.
  destruct (pvr_success r); [|done]. by rewrite (Ham eq_refl), Z.eqb_refl.
Qed.

(** C6: verifying a pending payment carries out what the gateway reports: on a
    success the payment becomes SUCCESS with the reported reference and its
    participation PAID, on a failure both become FAILED; no other payment,
    participation, refund, adjustment or offline funding changes, and the shares
    reserved for the campaign are the same or, on a failure, as many fewer as the
    participation held. *)
Theorem verify_carries_out_the_report db authority env p r p' db' :
  reachable db -> payment_by_authority authority db = Some p ->
  pay_status p = PaymentStatus.PENDING -> gateway_reports p r env db ->
  verify_payment authority env db = (Ok p', db') ->
  exists q, rows_of db !! pay_participation p = Some q /\
    if pvr_success r
    then p' = set_payment_success (pvr_ref_id r) (pvr_gateway_status r) (env_now env) p /\
         closes p p' (set_participation_paid (env_now env) q) db db' /\
         reserved_shares (part_campaign q) db' = reserved_shares (part_campaign q) db
    else p' = set_payment_failed (pvr_gateway_status r) (env_now env) p /\
         closes p p' (set_participation_status ParticipationStatus.FAILED (env_now env) q)
           db db' /\
         reserved_shares (part_campaign q) db'
         = reserved_shares (part_campaign q) db - part_share_count q.
Proof.
  intros Hreach Hfind Hst Hr Hrun. pose proof (reachable_base _ Hreach) as Hb.
  destruct (payment_by_authority_Some _ _ _ Hfind) as (i & Hi & _).
  pose proof (payment_key _ _ _ Hb Hi) as Hid. subst i.
  rewrite (verify_payment_pending _ _ _ _ _ Hfind Hst Hr) in Hrun.
  destruct (payments_ok _ Hb _ _ Hi) as (q & Hq & Hcp & _ & _ & _ & _ & Ha).
  rewrite Hst in Hcp. simpl in Hcp. exists q. split; [done|].
  assert (forall q' : Participation, (rows_of db' = <[pay_participation p:=q']> (rows_of db)) ->
    reserved_shares (part_campaign q) db'
    = reserved_shares (part_campaign q) (set_row (pay_participation p) q' db)) as Hres.
  { intros q' Hq'. apply reserved_shares_same_rows. by rewrite Hq', rows_of_set_row. }
  destruct (commit_verification_ok_inv _ _ _ _ _ _ Hb Hrun) as (p0 & q0 & Hp0 & Hq0 & Hcase).
  simplify_eq.
  destruct Hcase as [(Hcl & _)|[(_ & -> & -> & Hc)|(_ & -> & -> & Hc)]].
  - unfold payment_closed in Hcl. by rewrite Hst in Hcl.
  - split; [done|]. split; [done|]. destruct Hc as (_ & Hc & _).
    rewrite (Hres _ Hc), (reserved_shares_set _ _ _ q) by done.
    simpl part_is_active. rewrite Ha. simpl. rewrite Z.eqb_refl. unfold holds_shares at 1.
    rewrite Hcp. simpl. lia.
  - split; [done|]. split; [done|]. destruct Hc as (_ & Hc & _).
    rewrite (Hres _ Hc), (reserved_shares_set _ _ _ q) by done.
    simpl part_is_active. rewrite Ha. simpl. rewrite Z.eqb_refl. unfold holds_shares at 1.
    rewrite Hcp. simpl. lia.
Qed.

(** A payment that is closed already is not verified again, whatever the
    gateway would say: the call returns the stored payment and changes nothing.
    The same holds at the commit for a caller that looked the payment up while it
    was still pending, so a racing verification or cancellation is harmless. *)
Theorem closed_payment_is_not_closed_again authority env db p stale r :
  payment_by_authority authority db = Some p -> payment_closed p = true ->
  verify_payment authority env db = (Ok p, db) /\
  cancel_pending_payment authority env db = (Ok p, db) /\
  (pay_id stale = pay_id p -> rows_of db !! pay_id p = Some p ->
   is_Some (rows_of (A := Participation) db !! pay_participation p) ->
   commit_verification stale r env db = (Ok p, db) /\
   commit_cancellation stale env db = (Ok p, db)).
Proof.
  intros Hfind Hcl. pose proof (lookup_payment_found _ env _ _ Hfind) as Hl.
  split; [|split].
  - unfold verify_payment. rewrite (bind_ok _ _ _ _ _ _ Hl).
    unfold payment_closed in Hcl. by destruct (pay_status p).
  - unfold cancel_pending_payment. by rewrite (bind_ok _ _ _ _ _ _ Hl), Hcl.
  - intros Hid Hp [q Hq]. destruct (payment_by_authority_Some _ _ _ Hfind) as (_ & _ & Ha & _).
    assert (lock_payment (pay_id stale) env db = (Ok (p, q), db)) as Hlock.
    { unfold lock_payment. rewrite Hid.
      rewrite (bind_ok _ _ _ _ _ _ (objects_get_ok _ _ env _ Hp Ha)).
      by rewrite (bind_ok _ _ _ _ _ _ (base_get_ok _ _ env _ Hq)). }
    split; apply atomic_ok; rewrite (bind_ok _ _ _ _ _ _ Hlock); by rewrite Hcl.
Qed.

(** With the gateways of the repository [verify_payment] never ends with the
    amount-mismatch error, nor the commit that lets a mismatch overturn a payment:
    both report, on success, the very amount they were asked to verify. *)
Theorem registered_gateways_never_mismatch authority :
  throws not_amount_mismatch (verify_payment authority).
Proof.
  unfold verify_payment. apply throws_bind.
  { unfold lookup_payment. solve_throws. }
  intros p. do 2 (case_bool_decide; [apply throws_ret|]).
  intros env db e db'. rewrite bind_unfold.
  destruct (verify_with_provider (Some (pay_gateway_name p)) authority (pay_amount p) env db)
    as [(e0 & He)|(pr & r & Hpr & Hr & Ham)].
  - rewrite He. intros [= <- _].
    assert (throws not_amount_mismatch (get_payment_provider (Some (pay_gateway_name p)))) as Ht.
    { unfold get_payment_provider, zarinpal_init. solve_throws. }
    by apply (Ht env db _ db).
  - rewrite Hpr, bind_unfold. unfold try_catch. rewrite Hr. unfold commit_verify_result.
    assert (pvr_success r && negb (pvr_verified_amount r =? pay_amount p) = false) as ->.
    { destruct (pvr_success r); [|done]. by rewrite (Ham eq_refl), Z.eqb_refl. }
    apply commit_verification_no_mismatch.
Qed.

(** When a gateway does report success with another amount, the failure is
    committed before the error is raised: in the state the exception leaves, the
    payment and its participation are FAILED. *)
Theorem amount_mismatch_is_committed_then_raised db p r env m db1 :
  reachable db -> rows_of db !! pay_id p = Some p ->
  pvr_success r = true -> pvr_verified_amount r <> pay_amount p ->
  commit_amount_mismatch p r env db = (Ok m, db1) ->
  commit_verify_result p r env db = (Raise PaymentAmountMismatchError, db1) /\
  exists p' q', rows_of db1 !! pay_id p = Some p' /\ pay_status p' = PaymentStatus.FAILED /\
    rows_of db1 !! pay_participation p = Some q' /\
    part_status q' = ParticipationStatus.FAILED.
Proof.
  intros Hreach Hp Hs Hne Hrun. pose proof (reachable_base _ Hreach) as Hb.
  split.
  - unfold commit_verify_result. rewrite Hs, (proj2 (Z.eqb_neq _ _) Hne). simpl.
    by rewrite (bind_ok _ _ _ _ _ _ Hrun).
  - apply commit_amount_mismatch_ok_inv in Hrun as (p0 & q & Hp0 & Hq & -> & Hc); [|done].
    simplify_eq. destruct Hc as (Hcp & Hcq & _).
    rewrite Hcp, Hcq, !lookup_insert_eq. by do 2 eexists.
Qed.

Definition h_report : PaymentVerifyResult :=
  default (mkVerifyResult false false "" 0 "" "" [])
    (result (sandbox_verify_payment (pay_authority h_payment) 5000) h_env h5).
Definition h_confirmed : Payment := default dummy_payment (rows_of h5 !! 1).

Lemma h_reports : gateway_reports h_confirmed h_report h_env h5.
Proof. exists SandboxProvider. split; vm_compute; reflexivity. Qed.

Lemma verify_carries_out_the_report_witness :
  exists p' q, pay_status p' = PaymentStatus.SUCCESS /\
    rows_of h6 = <[1 := p']> (rows_of h5) /\
    closes h_confirmed p' (set_participation_paid (env_now h_env) q) h5 h6.
Proof.
  destruct (verify_payment (pay_authority h_confirmed) h_env h5) as [[p'|e] db'] eqn:Hrun;
    [|vm_compute in Hrun; discriminate].
  assert (db' = h6) as ->
    by (change h6 with (after (verify_payment (pay_authority h_confirmed)) h_env h5);
        unfold after; rewrite Hrun; reflexivity).
  destruct (verify_carries_out_the_report h5 (pay_authority h_confirmed) h_env h_confirmed
    h_report p' h6 h5_reachable) as (q & Hq & Hc);
    [vm_compute; reflexivity|vm_compute; reflexivity|exact h_reports|exact Hrun|].
  change (pvr_success h_report) with true in Hc. destruct Hc as (Hp' & Hc & _).
  exists p', q. split; [rewrite Hp'; reflexivity|]. split; [apply Hc|exact Hc].
Defined.

Definition h_settled : Payment := default dummy_payment (rows_of h6 !! 1).

Lemma closed_payment_is_not_closed_again_witness :
  verify_payment (pay_authority h_settled) h_env h6 = (Ok h_settled, h6) /\
  commit_cancellation h_payment h_env h6 = (Ok h_settled, h6).
Proof.
  destruct (closed_payment_is_not_closed_again (pay_authority h_settled) h_env h6 h_settled
    h_payment h_report) as (Hv & _ & Hc); [vm_compute; reflexivity|vm_compute; reflexivity|].
  split; [exact Hv|]. apply Hc; [vm_compute; reflexivity|vm_compute; reflexivity|].
  exists (default (mkParticipation 0 0 0 0 0 0 ParticipationStatus.PAID None true 0 0)
            (rows_of (A := Participation) h6 !! 1)).
  vm_compute. reflexivity.
Defined.

Lemma amount_mismatch_is_committed_then_raised_witness :
  exists db1, commit_verify_result h_payment h_mismatch
                h_env h4 = (Raise PaymentAmountMismatchError, db1) /\
    exists p', rows_of db1 !! 1 = Some p' /\ pay_status p' = PaymentStatus.FAILED.
Proof.
  destruct (commit_amount_mismatch h_payment h_mismatch
    h_env h4) as [[m|e] db1] eqn:Hrun; [|vm_compute in Hrun; discriminate].
  destruct (amount_mismatch_is_committed_then_raised h4 h_payment h_mismatch h_env m db1 h4_reachable
    ltac:(vm_compute; reflexivity) eq_refl ltac:(vm_compute; discriminate) Hrun)
    as (Hr & p' & q' & Hp & Hs & _).
  exists db1. split; [exact Hr|]. exists p'. split; [exact Hp|exact Hs].
Defined.

(** * The start of a payment *)

(** C7: when [initiate_participation] returns, called in a state reached by steps, the
    campaign was open and had the shares, the gateway was asked for the price of the
    participation and accepted, and the database holds the new participation (pending,
    [n] shares at the price of the campaign) and the new payment (pending, of the same
    amount, with the gateway's name and the authority that it gave); the address
    returned is the one the gateway gave, and exactly [n] more shares are reserved. *)
Theorem initiate_reserves_and_stores c user n url ip ua mob em env db q p gateway_url db' :
  reachable db ->
  initiate_participation c user n url ip ua mob em env db = (Ok (q, p, gateway_url), db') ->
  exists lc db1 pr r, rows_of db !! camp_id c = Some lc /\
    campaign_closed_reason lc (env_now env) = None /\ 1 <= n <= remaining_shares lc /\
    reserve_participation_shares c user n env db = (Ok q, db1) /\
    gateway_accepts c q user url mob em pr r env db1 /\
    rows_of db' !! part_id q = Some q /\ rows_of db' !! pay_id p = Some p /\
    part_status q = ParticipationStatus.PENDING_PAYMENT /\
    pay_status p = PaymentStatus.PENDING /\
    part_campaign q = camp_id c /\ part_user q = user /\ part_share_count q = n /\
    part_share_price_snapshot q = camp_share_price lc /\
    part_total_amount q = n * camp_share_price lc /\
    pay_participation p = part_id q /\ pay_user p = user /\
    pay_amount p = n * camp_share_price lc /\
    pay_gateway_name p = provider_name pr /\ pay_authority p = prr_authority r /\
    gateway_url = prr_gateway_url r /\
    reserved_shares (camp_id c) db' = reserved_shares (camp_id c) db + n.
Proof.
  intros Hreach Hrun. pose proof (reachable_base _ Hreach) as Hb.
  pose proof (initiate_participation_outcome c user n url ip ua mob em env db) as Hout.
  rewrite Hrun in Hout.
  inversion Hout as [| |q0 db1 pr r p0 db2 Hres Hacc Hper|]; subst. pose proof Hres as Hres'.
  pose proof (reserved_row _ _ _ _ _ _ _ Hb Hres) as (Hq & Hst & _ & _ & _).
  pose proof (reserve_reserved_shares _ _ _ _ _ _ _ Hb Hres) as Hshares.
  apply reserve_participation_shares_ok_inv in Hres
    as (lc & Hlc & Hid & Hopen & Hn & Hqe & _); [|done].
  apply persist_initiated_payment_ok_inv in Hper as (Hpe & Hs).
  exists lc, db1, pr, r. do 5 (split; [done|]).
  rewrite (participation_rows_same _ _ Hs), (payment_rows_same _ _ Hs).
  rewrite (reserved_shares_same_rows _ _ _ (participation_rows_same _ _ Hs)).
  rewrite (reserved_shares_same_rows db1) by (by db_simpl).
  db_simpl. split; [done|]. split; [rewrite Hpe; apply lookup_insert_eq|].
  split; [done|]. rewrite Hpe, Hqe. simpl. repeat (split; [done|]).
  rewrite <- Hshares. done.
Qed.

(** C8: when [initiate_participation], called in a state reached by steps, ends with
    the error that the gateway did not accept the payment request, what it did has been
    compensated: every campaign has the counters and the status it had before, no
    payment was stored and the participations that were there are untouched. *)
Theorem refused_request_is_compensated c user n url ip ua mob em env db detail db' :
  reachable db ->
  initiate_participation c user n url ip ua mob em env db
    = (Raise (PaymentGatewayError detail), db') ->
  (forall i k, rows_of db !! i = Some k ->
     exists k', rows_of db' !! i = Some k' /\ counters k' = counters k /\
       camp_status k' = camp_status k /\ true_counters i db' = true_counters i db) /\
  rows_of (A := Payment) db' = rows_of db /\
  (forall i x, rows_of (A := Participation) db !! i = Some x ->
     rows_of db' !! i = Some x).
Proof.
  intros Hreach Hrun. destruct (reachable_ok _ Hreach) as [b Hok].
  pose proof (initiate_participation_sound c user n url ip ua mob em env db Hok) as [Hok' _].
  pose proof (initiate_participation_outcome c user n url ip ua mob em env db) as Hout.
  rewrite Hrun in Hout, Hok'. simpl in Hok'.
  inversion Hout as [|q db1 d u db2 Hres Hrel| |q db1 e db2 _ Hno]; subst; [|clear Hout|done].
  { split; [|by split]. intros i k Hk. by exists k. }
  pose proof Hok as [Hb Hc]. split; [|split].
  - intros i k Hk.
    destruct (reserve_release_status _ _ _ _ _ _ _ _ _ _ _ Hb Hres Hrel Hk) as (k' & Hk' & Hst).
    pose proof (reserve_release_counters _ _ _ _ _ _ _ _ _ i Hb Hres Hrel) as Htc.
    exists k'. split; [done|]. split; [|done].
    destruct (proj2 Hok' i k' Hk') as [-> _]. rewrite Htc. by destruct (Hc i k Hk) as [-> _].
  - pose proof (reserved_row _ _ _ _ _ _ _ Hb Hres) as (Hq & Hst & _).
    apply release_reserved_participation_ok_inv in Hrel as (? & ? & Hs); [|done..].
    apply sync_other_rows in Hs as (-> & _). db_simpl.
    apply reserve_participation_shares_ok_inv in Hres
      as (? & _ & _ & _ & _ & _ & _ & ? & Hs); [|done].
    apply sync_other_rows in Hs as (-> & _). by db_simpl.
  - intros i x Hx.
    pose proof (reserved_row _ _ _ _ _ _ _ Hb Hres) as (Hq & Hst & _).
    apply release_reserved_participation_ok_inv in Hrel as (? & ? & Hs); [|done..].
    apply sync_other_rows in Hs as (_ & -> & _). db_simpl.
    apply reserve_participation_shares_ok_inv in Hres
      as (? & _ & _ & _ & _ & -> & _ & ? & Hs); [|done].
    apply sync_other_rows in Hs as (_ & -> & _). db_simpl. simpl part_id.
    assert (table_wf (table_of (A := Participation) db)) as Hwf by apply Hb.
    assert (i <> next_id (table_of (A := Participation) db)) as Hne.
    { intros ->. by rewrite (fresh_key db Hwf) in Hx. }
    by rewrite !lookup_insert_ne by done.
Qed.

(** A gateway that refuses every request: Zarinpal is configured and its server
    does not answer. *)
Definition zarinpal_settings : Settings :=
  mkSettings "zarinpal" "http://127.0.0.1:8000" 15 "merchant" true
    50000000 3 3 3 5 (QArith_base.Qmake 1 4) false false.
Definition refusing_env : Env :=
  env_at sample_now zarinpal_settings (fun _ _ _ => HttpTimeout).

Lemma initiate_reserves_and_stores_witness :
  exists q p url db', initiate_participation h_campaign 1 5 "https://x/callback"
      (Some "10.0.0.1"%string) "agent" "" "" h_env h3 = (Ok (q, p, url), db') /\
    pay_amount p = 5000 /\
    reserved_shares (camp_id h_campaign) db' = reserved_shares (camp_id h_campaign) h3 + 5.
Proof.
  destruct (initiate_participation h_campaign 1 5 "https://x/callback" (Some "10.0.0.1"%string)
    "agent" "" "" h_env h3) as [[[[q p] url]|e] db'] eqn:Hrun;
    [|vm_compute in Hrun; discriminate].
  destruct (initiate_reserves_and_stores _ _ _ _ _ _ _ _ _ _ _ _ _ _ h3_reachable Hrun)
    as (lc & db1 & pr & r & Hlc & _ & _ & _ & _ & _ & _ & _ & _ & _ & _ & _ & _ & _ & _ & _ &
        Ham & _ & _ & _ & Hres).
  exists q, p, url, db'. split; [reflexivity|]. split; [|exact Hres].
  rewrite Ham. vm_compute in Hlc. injection Hlc as <-. reflexivity.
Defined.

Lemma refused_request_is_compensated_witness :
  exists d db', initiate_participation h_campaign 1 5 "https://x/callback" None "agent" "" ""
      refusing_env h3 = (Raise (PaymentGatewayError d), db') /\
    rows_of (A := Payment) db' = rows_of h3 /\
    exists k', rows_of db' !! 1 = Some k' /\ counters k' = counters h_campaign.
Proof.
  destruct (initiate_participation h_campaign 1 5 "https://x/callback" None "agent" "" ""
    refusing_env h3) as [[x|e] db'] eqn:Hrun; [vm_compute in Hrun; discriminate|].
  destruct e as [| | | | | | | | | | | | | | | |d| | | | | | | | | | | |];
    try (vm_compute in Hrun; discriminate).
  destruct (refused_request_is_compensated _ _ _ _ _ _ _ _ _ _ _ _ h3_reachable Hrun)
    as (Hk & Hp & _).
  destruct (Hk 1 h_campaign ltac:(vm_compute; reflexivity)) as (k' & Hk' & Hc & _).
  exists d, db'. split; [reflexivity|]. split; [exact Hp|]. exists k'. split; [exact Hk'|exact Hc].
Defined.

(** * Refunds and adjustments *)

(** A refund request that returns is for a successful payment and a positive
    amount that, with what is completed and open, stays within the payment; it is
    either the stored request with the same idempotency key, nothing changing, or
    a new request under review, stored, and the claimed amount grows by exactly
    that amount. *)
Theorem refund_request_claims_its_amount db p n reason by_ note key env r db' :
  reachable db ->
  request_payment_refund p n reason by_ note key env db = (Ok r, db') ->
  exists lp, rows_of db !! pay_id p = Some lp /\ pay_status lp = PaymentStatus.SUCCESS /\
    0 < n /\ claimed_refunds (pay_id p) db + n <= pay_amount lp /\
    ((exists k, key = Some k /\ refund_by_idempotency_key k db = Some r /\ db' = db) \/
     (ref_status r = RefundStatus.PENDING_REVIEW /\ ref_amount r = n /\
      ref_payment r = pay_id p /\ rows_of db' !! ref_id r = Some r /\
      claimed_refunds (pay_id p) db' = claimed_refunds (pay_id p) db + n)).
Proof.
  intros Hreach H. pose proof (reachable_base _ Hreach) as Hb.
  apply request_payment_refund_ok_inv in H
    as (lp & Hp & Hst & Hn & Hle & Hcase); [|done].
  exists lp. do 4 (split; [done|]).
  destruct Hcase as [(k & -> & _ & Hk & ->)|(-> & _ & _ & Hs)]; [left; by exists k|right].
  do 3 (split; [done|]). rewrite (refund_rows_same _ _ Hs).
  rewrite (claimed_refunds_same_rows _ _ _ (refund_rows_same _ _ Hs)).
  split; [rewrite rows_of_add_row; apply lookup_insert_eq|].
  rewrite claimed_refunds_add by apply Hb. unfold claimed_of. simpl.
  by rewrite Z.eqb_refl.
Qed.

(** C40: completing a refund, in a state reached by steps, which only an approved one
    can be: it is completed with the reference given and, where the participation is
    paid, a full refund turns the participation REFUNDED, so its shares are free again
    and its amount leaves the paid total; a partial refund leaves every participation as
    it was and adds exactly its amount to the completed refunds that the counter
    subtracts. *)
Theorem completed_refund_is_booked db r pref env r' db' :
  reachable db -> complete_payment_refund r pref env db = (Ok r', db') ->
  exists lr lp q, rows_of db !! ref_id r = Some lr /\ ref_status lr = RefundStatus.APPROVED /\
    rows_of db !! ref_payment lr = Some lp /\ rows_of db !! pay_participation lp = Some q /\
    r' = completed_refund lr pref (env_now env) /\ rows_of db' !! ref_id r = Some r' /\
    let cid := part_campaign q in
    (part_status q = ParticipationStatus.PAID ->
     if is_full_refund r' lp
     then rows_of db' !! pay_participation lp
            = Some (refunded_participation q (env_now env)) /\
          reserved_shares cid db' = reserved_shares cid db - part_share_count q /\
          paid_amount cid db' = paid_amount cid db - part_total_amount q
     else rows_of (A := Participation) db' = rows_of db /\
          completed_refunds cid db'
          = completed_refunds cid db + ref_amount lr).
Proof.
  intros Hreach H. pose proof (reachable_base _ Hreach) as Hb.
  apply complete_payment_refund_ok_inv in H
    as (lr & lp & q & c & db1 & c' & Hr & [Hst Hact] & Hp & Hq & Hc & -> & Hs & Hsync); [|done].
  destruct (sync_other_rows _ _ _ _ _ Hsync) as (Ep & Eq & Er & _).
  exists lr, lp, q. do 5 (split; [done|]). unfold after_refund in Hs. split.
  - rewrite Er, (refund_rows_same _ _ Hs). case_match; db_simpl; apply lookup_insert_eq.
  - intros cid Hpaid.
    destruct (payments_ok _ Hb _ _ Hp) as (q1 & Hq1 & Hcp). simplify_eq.
    destruct Hcp as (_ & _ & _ & _ & _ & Ha). destruct (is_full_refund _ lp) eqn:Hfull.
    + rewrite Eq, (participation_rows_same _ _ Hs). db_simpl.
      split; [apply lookup_insert_eq|]. split.
      * rewrite (reserved_shares_same_rows (set_row (pay_participation lp)
          (refunded_participation q (env_now env)) db))
          by (rewrite Eq, (participation_rows_same _ _ Hs); by db_simpl).
        rewrite (reserved_shares_set _ _ _ q) by done. unfold holds_shares. simpl.
        rewrite Ha, Hpaid. unfold cid. rewrite Z.eqb_refl. simpl. lia.
      * transitivity (paid_amount cid (set_row (pay_participation lp)
          (refunded_participation q (env_now env)) db)).
        { unfold paid_amount, participations_of. f_equal. apply objects_filter_ext; [|done].
          rewrite Eq, (participation_rows_same _ _ Hs). by db_simpl. }
        rewrite (paid_amount_set _ _ _ q) by done. unfold is_paid. simpl.
        rewrite Ha, Hpaid. unfold cid. rewrite Z.eqb_refl. simpl. lia.
    + rewrite Eq, (participation_rows_same _ _ Hs). db_simpl. split; [done|].
      transitivity (completed_refunds cid (set_row (ref_id r)
        (completed_refund lr pref (env_now env)) db)).
      { apply completed_refunds_ext; [by rewrite Er, (refund_rows_same _ _ Hs)|].
        intros j x _ _. unfold completed_refund_of, refund_participation.
        rewrite Ep, Eq, (payment_rows_same _ _ Hs), (participation_rows_same _ _ Hs).
        done. }
      rewrite (completed_refunds_set _ _ _ lr) by done.
      unfold completed_refund_of, refund_participation. simpl. rewrite Hst, Hp, Hq.
      unfold is_paid, cid. rewrite Hpaid, Z.eqb_refl, Hact. simpl. lia.
Qed.

(** Applying an approved adjustment moves the adjustment total of its
    campaign by exactly the signed amount of the model (plus for a credit, minus
    for a debit), and no share, payment or refund with it. *)
Theorem applied_adjustment_shifts_the_amount db a env a' db' :
  reachable db -> apply_financial_adjustment a env db = (Ok a', db') ->
  exists la, rows_of db !! adj_id a = Some la /\
    adj_status la = FinancialAdjustmentStatus.APPROVED /\
    a' = applied_adjustment la (env_now env) /\
    adjustment_delta (adj_campaign la) db'
    = adjustment_delta (adj_campaign la) db + when (adj_is_active la) (signed_amount la) /\
    rows_of (A := Participation) db' = rows_of db /\ rows_of (A := Payment) db' = rows_of db /\
    rows_of (A := PaymentRefund) db' = rows_of db.
Proof.
  intros Hreach H. pose proof (reachable_base _ Hreach) as Hb.
  apply apply_financial_adjustment_ok_inv in H
    as (la & c & db1 & c' & db2 & Ha & Hst & Hc & -> & Hs & Hsync & Hs2); [|done].
  destruct (sync_other_rows _ _ _ _ _ Hsync) as (Ep & Eq & Er & Ea & _).
  exists la. do 3 (split; [done|]).
  rewrite (participation_rows_same _ _ Hs2), (payment_rows_same _ _ Hs2),
    (refund_rows_same _ _ Hs2), Ep, Eq, Er, (participation_rows_same _ _ Hs),
    (payment_rows_same _ _ Hs), (refund_rows_same _ _ Hs).
  split; [|by db_simpl].
  transitivity (adjustment_delta (adj_campaign la)
    (set_row (adj_id a) (applied_adjustment la (env_now env)) db)).
  { unfold adjustment_delta. f_equal. apply objects_filter_ext; [|done].
    by rewrite (adjustment_rows_same _ _ Hs2), Ea, (adjustment_rows_same _ _ Hs). }
  rewrite (adjustment_delta_set _ _ _ la) by done. rewrite adjustment_case_signed.
  unfold applied_adjustment_of. simpl. rewrite Hst, Z.eqb_refl. simpl.
  rewrite andb_false_r, andb_true_r, adjustment_case_signed. simpl.
  change (signed_amount (applied_adjustment la (env_now env))) with (signed_amount la). lia.
Qed.

(** ** The history goes on *)

Definition h_refund : PaymentRefund :=
  new_refund 1 (env_now h_env) 1 2000 RefundReason.USER_REQUEST (Some 1) "" (Some "key-1"%string).
Definition h8 : DB := after (approve_payment_refund h_refund (Some 2) "") h_env h7.
Definition h9 : DB :=
  after (create_financial_adjustment h_campaign 700 "debit" "bank fee" (Some 2) None "") h_env h8.
Definition h_adjustment : CampaignFinancialAdjustment :=
  mkAdjustment 1 1 None (Some 2) None FinancialAdjustmentType.DEBIT
    FinancialAdjustmentStatus.PENDING_REVIEW 700 "bank fee" "" "" None None true 0 0.
Definition h10 : DB := after (approve_financial_adjustment h_adjustment (Some 1)) h_env h9.

Lemma h8_reachable : reachable h8.
Proof. eapply reachable_step; [apply h7_reachable|by_service]. Qed.
Lemma h9_reachable : reachable h9.
Proof.
  eapply reachable_step; [apply h8_reachable|].
  eapply step_service; [constructor|]. vm_compute. by eexists.
Qed.
Lemma h10_reachable : reachable h10.
Proof. eapply reachable_step; [apply h9_reachable|by_service]. Qed.

Lemma refund_request_claims_its_amount_witness :
  exists r db', request_payment_refund h_payment 2000 RefundReason.USER_REQUEST (Some 1) ""
      (Some "key-1"%string) h_env h6 = (Ok r, db') /\
    claimed_refunds 1 h6 + 2000 <= 5000.
Proof.
  destruct (request_payment_refund h_payment 2000 RefundReason.USER_REQUEST (Some 1) ""
    (Some "key-1"%string) h_env h6) as [[r|e] db'] eqn:Hrun; [|vm_compute in Hrun; discriminate].
  destruct (refund_request_claims_its_amount _ _ _ _ _ _ _ _ _ _ h6_reachable Hrun)
    as (lp & Hlp & _ & _ & Hle & _).
  exists r, db'. split; [reflexivity|].
  vm_compute in Hlp. injection Hlp as <-. exact Hle.
Defined.

Lemma completed_refund_is_booked_witness :
  exists r' db', complete_payment_refund h_refund "bank-1" h_env h8 = (Ok r', db') /\
    completed_refunds 1 db' = completed_refunds 1 h8 + 2000.
Proof.
  destruct (complete_payment_refund h_refund "bank-1" h_env h8) as [[r'|e] db'] eqn:Hrun;
    [|vm_compute in Hrun; discriminate].
  destruct (completed_refund_is_booked _ _ _ _ _ _ h8_reachable Hrun)
    as (lr & lp & q & Hr & _ & Hp & Hq & -> & _ & H).
  vm_compute in Hr. injection Hr as <-. vm_compute in Hp. injection Hp as <-.
  vm_compute in Hq. injection Hq as <-. simpl in H.
  destruct (H eq_refl) as [_ Hc]. exists (completed_refund
    (default h_refund (rows_of h8 !! 1)) "bank-1" (env_now h_env)), db'.
  split; [reflexivity|exact Hc].
Defined.

Lemma applied_adjustment_shifts_the_amount_witness :
  exists a' db', apply_financial_adjustment h_adjustment h_env h10 = (Ok a', db') /\
    adjustment_delta 1 db' = adjustment_delta 1 h10 - 700.
Proof.
  destruct (apply_financial_adjustment h_adjustment h_env h10) as [[a'|e] db'] eqn:Hrun;
    [|vm_compute in Hrun; discriminate].
  destruct (applied_adjustment_shifts_the_amount _ _ _ _ _ h10_reachable Hrun)
    as (la & Ha & _ & _ & Hd & _).
  vm_compute in Ha. injection Ha as <-. exists a', db'. split; [reflexivity|exact Hd].
Defined.
